(* ===== verification/_CoqProject ===== *)
-Q . S2P
Prelude.v
Nfstypes.v
External.v
Reference.v
Super.v
Fh.v
Cache.v
Dcache.v
Alloctxn.v
AtxnCommit.v
Inode.v
InodeCodec.v
InodeMap.v
InodeIO.v
Volume.v
InodeClaims.v
InodeShrink.v
InodeResize.v
Fstxn.v
FstxnInv.v
Dir.v
DirCodec.v
InodeBound.v
DirSpec.v
DirVol.v
DirClaims.v
Lorder.v
Shrinker.v
Sample.v
FstxnClaims.v
NfsLs.v
NfsOps.v
NfsFiles.v
NfsDirs.v
NfsNames.v
NfsList.v
NfsListPlus.v
NfsCreate.v
NfsRemove.v
NfsRename.v
NfsSetattr.v
NfsMkdir.v
NfsSymlink.v
NfsClaims.v
Mkfs.v
MkfsSpec.v
SampleDir.v
NfsDirClaims.v
NfsListClaims.v
NfsRenameClaims.v
NfsMkdirClaims.v
NfsLinkClaims.v
Clnt.v
Simple.v
SimpleSpec.v
SimpleClaims.v
SimpleConc.v
Kvs.v
XdrLib.v
Xdr.v
XdrRt.v
Rpc.v
XdrTy.v
Server.v
Stats.v
Cmd.v
CmdClaims.v
