(* ===== verification/Prelude.v ===== *)
(** * go-nfsd: an NFS version 3 server on a journaled disk

    This library models the server in Go under [src/] and proves what its parts
    promise to one another and to a client.

    ** The program

    A client's call arrives as bytes.  The RPC wrappers of
    [nfstypes/nfs_xdr.go] decode the arguments, call one of the procedures of
    [nfs/nfs_ops.go], [nfs/nfs_ls.go] or [nfs/mount.go], and encode its reply.
    A procedure begins a file-system transaction ([fstxn/]), looks up and locks
    the inodes that the file handles ([fh/]) name, sorted by number when there
    are several ([nfs/lorder.go]), reads and changes files ([inode/]) and
    directories ([dir/], with the name cache [dcache/]), and commits or aborts.
    Inodes are cached ([cache/]) and shared between the transactions.  Below,
    an allocating transaction ([alloctxn/]) takes block and inode numbers from
    two in-memory allocators, writes the bitmaps of the disk ([super/]) at
    commit and returns the numbers at abort; the blocks themselves go through
    the journal of the package go-journal, which is not part of the repository.
    Freeing a long file takes several transactions; the shrinker ([shrinker/])
    runs them in the background.

    The repository has two more servers on the same journal: a simple NFS
    server with a fixed set of one-block files ([simple/]) and a key-value
    store ([kvs/]).

    ** The files of this library

    - [Prelude]: machine integers with their wrap-around, the monad of panicking
      and blocking computations with its Hoare logic ([wp]), little-endian
      bytes, and lemmas on lists and maps.
    - [Nfstypes]: the records and constants of [nfstypes/nfs_types.go].
    - [External], [Reference]: the packages the program calls and does not
      contain, as classes of operations with classes of documented facts
      ([...Spec]), and one concrete instance of each.
    - [Super] ([super/super.go]), [Fh] ([fh/nfs_fh.go]), [Cache]
      ([cache/cache.go]), [Dcache] ([dcache/dcache.go]).
    - [Alloctxn] ([alloctxn/alloctxn.go]) and [AtxnCommit], its properties.
    - [Inode] ([inode/inode.go], [inode/shrink.go]), with [InodeCodec] (the
      128-byte format), [InodeMap] (the tree of block pointers), [InodeIO]
      (reads and writes), [Volume] (all inodes of a disk, their blocks disjoint),
      [InodeClaims], [InodeShrink] ([Shrink]), and [InodeResize] ([Resize], and
      how many objects a transaction that frees blocks writes).
    - [Fstxn] ([fstxn/]), with [FstxnInv] (the cache agrees with the disk) and
      [FstxnClaims]; [Sample] is the small server on which they are run.
    - [Dir] ([dir/]), with [DirCodec] (the 128-byte format of its entries),
      [DirSpec] (a directory's slots and name cache) and [DirClaims];
      [Lorder] ([nfs/lorder.go]), [Shrinker] ([shrinker/shrinker.go]).
    - [NfsLs], [NfsOps] ([nfs/nfs_ls.go], [nfs/nfs_ops.go], [nfs/mount.go]),
      with [NfsFiles] (a consistent server and the procedures on one file) and
      [NfsClaims].  [InodeBound] (how many blocks an operation allocates),
      [DirVol] (the directories of a volume and their name caches), [NfsDirs]
      (locking a directory and a file of it, LOOKUP), [NfsNames] (entering a
      name), [NfsList] and [NfsListPlus] (listing a directory), [NfsCreate] (making a file),
      [NfsRemove] (taking out a name and freeing the file or the empty
      directory), [NfsRename], [NfsSetattr], [NfsMkdir] and [NfsSymlink];
      their properties are in [NfsDirClaims], [NfsListClaims],
      [NfsRenameClaims], [NfsMkdirClaims] and [NfsLinkClaims].
    - [Mkfs] ([nfs/nfs.go]) with [MkfsSpec]; [SampleDir] is the small server with
      a root directory; [Clnt] ([nfs/nfs_clnt.go]).
    - [Simple] ([simple/]), [SimpleSpec] (its abstract server and refinement),
      [SimpleClaims], and [SimpleConc], where requests run at the same time.
    - [Kvs] ([kvs/kvs.go]).
    - [XdrLib] (the XDR library as a class), [Xdr], [XdrRt], [Rpc] and [XdrTy]
      ([nfstypes/nfs_xdr.go]), [Server] (what [cmd/go-nfsd/main.go] and
      [cmd/simple-nfsd/main.go] register).
    - [Stats] ([util/stats/stats.go], [nfs/stats.go], [util/timed_disk/disk.go]).
    - [Cmd] (the benchmarks of [cmd/], one thread of each) and [CmdClaims].

    ** How state and effects are modelled

    A computation is [M S A], a function from a state to [Ok a s], [Panic] or
    [Blocked].  [Panic] is Go's panic, which includes an index or a slice out of
    range and a nil pointer; [Blocked] is an operation that waits, for a lock
    that is held or for the shrinker.  [wp m P s] says that [m] run from [s]
    returns, without panic and without waiting, in a state where [P] holds; so
    every theorem of that form is also one of termination.

    Go's [uint64], [uint32] and [uint8] are [Z], and every operation that can
    leave the width is written with its [w64], [w32] or [w8].  Byte slices are
    lists of [Z].  An object that Go shares through a pointer is a cell of a
    heap: the entries of the inode cache ([c_store]) and the inodes ([f_heap]),
    so that a transaction, the cache and a handler see each other's changes.

    The state of a transaction is [ASt] (the [AllocTxn], the log, the shared
    allocators and the clock), that of the file system [FSt] (the [FsState],
    the current [FsTxn] and the heap), and that of the server [NSt].  They are
    nested, and [zoom] runs an operation of an inner state in an outer one.

    ** The packages that are not in the repository

    [External] has a class for each: [Common], [Util], [Marshal], [Buf],
    [Journal], [AllocPkg], [LockPkg].  The [...Spec] classes state what their
    documentation says; for the journal: an operation sees the log with its own
    writes over it, [CommitWait] makes all of them visible and, when it waited,
    durable, or none.  [XdrLib] does the same for the XDR library.  [Reference]
    and [XdrLib.ref_xdr] are concrete instances, and every theorem that
    has a hypothesis is applied to them in its [_witness].

    ** What the theorems show

    - The NFS procedures on one file ([NfsClaims]): from a consistent server,
      GETATTR, SETATTR, READ and WRITE reply as a file system should, leave
      every other file alone, and leave a consistent server.  REMOVE of [.]
      panics.  What a client wrote it reads back ([Clnt]).  SETATTR is stated
      for a file that is not a directory and whose map ends where its size
      does; the code takes any inode.  Its transaction wrote nothing when it
      changes the size, so that the theorem says by the sizes alone which
      blocks go, and that a shrinker thread is started exactly when they do not
      fit a transaction.
    - The procedures on directories ([NfsDirClaims]): LOOKUP finds what the
      directory names; CREATE makes a file and its name, or nothing; what was
      created is found.  REMOVE takes a name out and frees the file; afterwards
      the name is not found and the file's handles are stale.  It is stated for
      a file with one link and one name whose map ends where its size does
      ([removable]), as CREATE and a write that is not short leave it.
      [MakeNfs] on a blank disk leaves a consistent server with an empty root
      directory.
    - RENAME ([NfsRenameClaims]) moves a name within a directory or between two,
      and frees the file that had the new name.  It is stated for a target that
      is [removable] and a source that is neither of the two directories, and,
      when there is a target, for handles of the right generation; without one
      the code does not compare the generations of two handles, and
      [dirs_found] says what it asks instead ([rename_stale_works] are runs with
      a stale handle).  A new name that is too long takes the old one out of
      the cached names: that run is there too, and after the reply IO the
      theorem is about the server whose cache was emptied ([evicted]).
    - MKDIR and RMDIR ([NfsMkdirClaims]): MKDIR makes a directory with [.] and
      [..] and one more link of its parent, or nothing; RMDIR takes an empty
      directory out and frees it, and undoes MKDIR but for that link.  MKDIR is
      stated for free inodes that map nothing and have no names in the inode
      cache ([spare_dirs], as a file system that was just made or mounted has
      them) and a parent whose link count does not overflow.  RMDIR of a
      directory with one link is stated for one that nothing but itself and its
      parent names ([unlinkable], as MKDIR leaves it): which of its blocks are
      free then is [released].  One with more links, which it has since a
      directory was made in it, stays in use without a name.
    - SYMLINK ([NfsLinkClaims]) makes a link with the target, or nothing, and
      READLINK returns the target.  It is stated for a target of at most one
      block; of a longer one the code may store a part, and replies OK.
    - READDIR and READDIRPLUS ([NfsListClaims]): from the start or from the
      cookie of an entry after the first slot, they reply with the next entries
      of the listing, up to the one at which the estimate of the reply reaches
      the count ([fills]), and what is left is the listing of the slots after
      them ([page_of]).
      READDIRPLUS locks each file of the directory for a while, and its theorem
      asks that no other transaction has one of them.
    - Six calls in a row ([CmdClaims]): an iteration of the small-file benchmark
      creates, writes and removes a file, sees what it should on the way, and
      leaves everything else as it was.  Each step is the theorem of its
      procedure, applied to the server the step before left.
    - Transactions ([FstxnClaims]): a handle resolves to the inode on disk, or
      to nothing if it is stale; commit and abort release the locks and keep the
      cache equal to the disk.
    - Files ([InodeClaims], [InodeCodec]): the block map stays a tree whose
      blocks are in use and occur once; [Read] and [Write] against the bytes
      of the file; what is written is read back; the format of an inode.
      [Shrink] ends, frees exactly the blocks past the new end and spares every
      other file ([InodeShrink]).  [Resize] keeps the bytes before the new end
      and frees the blocks past it, when they fit the transaction
      ([InodeResize]).
    - Directories ([DirClaims]): lookup, insertion and removal refine a map from
      names to inode numbers; a new directory holds [.] and [..].
    - Allocation ([AtxnCommit]): the bitmaps on disk and the allocators agree
      after any history of commits and aborts; an abort returns what was taken.
    - The cache replies as a list of the most recently used entries ([Cache]); handles and directory
      entries round trip ([Fh], [DirCodec]); the regions of the disk are
      disjoint and inside it ([Super]); several inodes are locked once each
      ([Lorder]).
    - The simple server ([SimpleClaims], [SimpleConc]): any sequence of requests
      is served as by the abstract server, also across a crash; requests that
      run at the same time are linearizable, do not deadlock, and terminate.
    - The key-value store ([Kvs]): a [MultiPut] is atomic.
    - The protocol ([XdrRt], [Rpc], [Server]): what a client's call writes
      reaches the procedure as it was, and the reply comes back as it was; the
      arguments that a procedure is given are in range whatever the bytes were
      ([XdrTy]).
    - A timed disk is the disk it wraps ([Stats]).

    ** Bounds

    - The loops of the procedures that restart a transaction (after a name was
      looked up and its inode locked, and when the shrinker must run first) are
      unrolled at most [retry] times; the theorems on the procedures hold for
      every [retry] but 0, as no inode they use is shrinking and nobody else
      changes the directory.
    - [mkDcache] loads the names of a directory of at most 400000 entries (its
      own bound cuts a longer listing); [cacheable] is the hypothesis.
    - One more entry of a directory, or one more block of a file, takes at most
      three blocks of the disk: [few_free] says that fewer than four are free,
      which is when an operation may report that the disk is full.
    - [shrink_loop] counts down from the size at which the code's loop starts;
      each iteration lowers that size.
    - [indbmap], [indshrink] and [freeIndex] recurse on the level of the block
      map, which is at most 2.
    - [fuel] bounds how often a benchmark repeats its step before the clock ends it.
    - [n] bounds the length of the linked lists that the XDR methods read; the
      round trips need [n] above the length of the list.
    - A thread of [SimpleConc] takes at most six steps.

    ** Not modelled

    - [Parallel] of [nfs/nfs_clnt.go], which runs a test in goroutines, and the
      formatting of the tables of statistics.  The procedures of [NfsOps] leave
      out the call of [recordOp] with which each of them starts.
    - The command lines ([cmd/], [bench/], [eval/]): flags, sockets, signals, the
      goroutines that run a benchmark's threads, and the rates they print.  The
      tables that the two servers register are in [Server].
    - What shutting the journal down does: it is a parameter of [ShutdownNfs],
      [CrashNfs] and the key-value store's [Delete].  The methods that only print.
    - The file-system transactions of concurrent NFS requests run one at a time
      in [NfsOps]: a lock held by another is [Blocked].  Concurrency is
      modelled in [SimpleConc]. *)
From stdpp Require Export base gmap sets list strings numbers list_numbers.
#[export] Set Default Goal Selector "!".

Declare Scope go_scope.
Delimit Scope go_scope with go.
Open Scope Z_scope.

(** ** Machine integers

    Go's [uint64], [uint32] and [uint8] are [Z] kept in range by writing the
    wrap-around of every operation that can overflow. *)

Definition w64 (z : Z) : Z := z mod 2 ^ 64.

Definition w32 (z : Z) : Z := z mod 2 ^ 32.

Definition w8 (z : Z) : Z := z mod 2 ^ 8.

Notation "a +w b" := (w64 (a + b)) (at level 50, left associativity) : go_scope.
Notation "a -w b" := (w64 (a - b)) (at level 50, left associativity) : go_scope.
Notation "a *w b" := (w64 (a * b)) (at level 40, left associativity) : go_scope.
Open Scope go_scope.

Definition is_u64 (z : Z) : Prop := 0 <= z < 2 ^ 64.

Definition is_u32 (z : Z) : Prop := 0 <= z < 2 ^ 32.

Definition is_byte (z : Z) : Prop := 0 <= z < 2 ^ 8.

Lemma w64_small z : 0 <= z < 2 ^ 64 -> w64 z = z.
Proof. apply Z.mod_small. Qed.

Lemma w32_small z : 0 <= z < 2 ^ 32 -> w32 z = z.
Proof. apply Z.mod_small. Qed.

Lemma w64_range z : 0 <= w64 z < 2 ^ 64.
Proof. apply Z.mod_pos_bound. lia. Qed.

Lemma w32_range z : is_u32 (w32 z).
Proof. apply Z.mod_pos_bound. lia. Qed.

Lemma w64_u64 z : is_u64 z -> w64 z = z.
Proof. apply w64_small. Qed.

Lemma w32_u32 z : is_u32 z -> w32 z = z.
Proof. apply w32_small. Qed.

(** [wsimp] removes the wrap-around of an operation that provably does not
    overflow. *)
Ltac wsimp :=
  repeat match goal with
  | |- context [w64 ?z] => rewrite (w64_small z) by (unfold is_u64 in *; lia)
  | H : context [w64 ?z] |- _ => rewrite (w64_small z) in H by (unfold is_u64 in *; lia)
  end.

(** ** Results

    A Go function returns, panics (index out of range, nil dereference, an
    explicit [panic]), or waits for a lock that is never released.  [NoFuel]
    is the value of a bounded unrolling of a loop that ran out. *)

Inductive res (A : Type) : Type :=
| Ok (a : A)
| Panic
| Blocked
| NoFuel.
Arguments Ok {A} _.
Arguments Panic {A}.
Arguments Blocked {A}.
Arguments NoFuel {A}.

#[export] Instance res_ret : MRet res := fun A a => Ok a.
#[export] Instance res_bind : MBind res := fun A B f r =>
  match r with
  | Ok a => f a
  | Panic => Panic
  | Blocked => Blocked
  | NoFuel => NoFuel
  end.
#[export] Instance res_fmap : FMap res := fun A B f r =>
  match r with
  | Ok a => Ok (f a)
  | Panic => Panic
  | Blocked => Blocked
  | NoFuel => NoFuel
  end.

#[export] Instance res_eq_dec {A} `{EqDecision A} : EqDecision (res A).
Proof. solve_decision. Defined.

Definition isOk {A} (r : res A) : bool :=
  match r with Ok _ => true | _ => false end.

Lemma res_bind_Ok {A B} (r : res A) (f : A -> res B) b :
  (r ≫= f) = Ok b <-> exists a, r = Ok a /\ f a = Ok b.
Proof.
  split; [destruct r; simpl; intros Hf; try discriminate; eauto|].
  by intros (a & -> & Hf).
Qed.

(** ** The state monad of a component over its state [S] *)

Definition M (S A : Type) : Type := S -> res (A * S).

#[export] Instance M_ret {S} : MRet (M S) := fun A a s => Ok (a, s).
#[export] Instance M_bind {S} : MBind (M S) := fun A B f m s =>
  match m s with
  | Ok (a, s') => f a s'
  | Panic => Panic
  | Blocked => Blocked
  | NoFuel => NoFuel
  end.

Definition get {S} : M S S := fun s => Ok (s, s).

Definition gets {S A} (f : S -> A) : M S A := fun s => Ok (f s, s).

Definition modify {S} (f : S -> S) : M S unit := fun s => Ok (tt, f s).

Definition panic {S A} : M S A := fun _ => Panic.

Definition blocked {S A} : M S A := fun _ => Blocked.

Definition nofuel {S A} : M S A := fun _ => NoFuel.

Definition lift {S A} (r : res A) : M S A := fun s =>
  match r with
  | Ok a => Ok (a, s)
  | Panic => Panic
  | Blocked => Blocked
  | NoFuel => NoFuel
  end.

(** [zoom] runs an operation of a component on the part of a larger state
    that holds the component. *)
Definition zoom {S T A} (proj : S -> T) (put : T -> S -> S) (m : M T A) : M S A :=
  fun s =>
    match m (proj s) with
    | Ok (a, t) => Ok (a, put t s)
    | Panic => Panic
    | Blocked => Blocked
    | NoFuel => NoFuel
    end.

(** ** Total-correctness predicate

    [wp m s Q]: run from [s], [m] returns, and the value and the final state
    satisfy [Q].  A run that panics, blocks or exhausts its fuel satisfies no
    postcondition. *)

Definition wp {S A} (m : M S A) (s : S) (Q : A -> S -> Prop) : Prop :=
  exists a s', m s = Ok (a, s') /\ Q a s'.

Section wp_rules.
Context {S : Type}.

Lemma wp_ret {A} (a : A) (s : S) (Q : A -> S -> Prop) :
  Q a s -> wp (mret a) s Q.
Proof. intros HQ. by exists a, s. Qed.

Lemma wp_bind {A B} (m : M S A) (k : A -> M S B) s Q :
  wp m s (fun a s' => wp (k a) s' Q) -> wp (m ≫= k) s Q.
Proof.
  intros (a & s' & Hm & b & s'' & Hk & HQ).
  exists b, s''. split; [|done]. unfold mbind, M_bind. by rewrite Hm.
Qed.

Lemma wp_ret_inv {A} (a : A) (s : S) (Q : A -> S -> Prop) : wp (mret a) s Q -> Q a s.
Proof. by intros (a' & s' & [= <- <-] & HQ). Qed.

Lemma wp_bind_inv {A B} (m : M S A) (k : A -> M S B) s Q :
  wp (m ≫= k) s Q -> wp m s (fun a s' => wp (k a) s' Q).
Proof.
  intros (b & s'' & Hm & HQ). unfold mbind, M_bind in Hm.
  destruct (m s) as [[a s']| | |] eqn:Heq; [|done..]. exists a, s'. split; [done|]. by exists b, s''.
Qed.

Lemma wp_ret_bind {A B} (a : A) (k : A -> M S B) s Q : wp (mret a ≫= k) s Q -> wp (k a) s Q.
Proof. exact id. Qed.

Lemma wp_mono {A} (m : M S A) s (P Q : A -> S -> Prop) :
  wp m s P -> (forall a s', P a s' -> Q a s') -> wp m s Q.
Proof. intros (a & s' & Hm & HP) HPQ. exists a, s'. auto. Qed.

Lemma wp_get s (Q : S -> S -> Prop) : Q s s -> wp get s Q.
Proof. intros HQ. by exists s, s. Qed.

Lemma wp_gets {A} (f : S -> A) s (Q : A -> S -> Prop) :
  Q (f s) s -> wp (gets f) s Q.
Proof. intros HQ. by exists (f s), s. Qed.

Lemma wp_modify (f : S -> S) s (Q : unit -> S -> Prop) :
  Q tt (f s) -> wp (modify f) s Q.
Proof. intros HQ. by exists tt, (f s). Qed.

Lemma wp_lift {A} (r : res A) s (Q : A -> S -> Prop) a :
  r = Ok a -> Q a s -> wp (lift r) s Q.
Proof. intros -> HQ. by exists a, s. Qed.

Lemma wp_zoom {T A} (proj : S -> T) (put : T -> S -> S) (m : M T A) s Q :
  wp m (proj s) (fun a t => Q a (put t s)) -> wp (zoom proj put m) s Q.
Proof.
  intros (a & t & Hm & HQ). exists a, (put t s).
  split; [|done]. unfold zoom. by rewrite Hm.
Qed.

Lemma wp_conj {A} (m : M S A) s (P Q : A -> S -> Prop) :
  wp m s P -> wp m s Q -> wp m s (fun a s' => P a s' /\ Q a s').
Proof. intros (a & s' & Hm & HP) (a' & s'' & Hm' & HQ). exists a, s'.
  rewrite Hm in Hm'. injection Hm' as <- <-. auto.
Qed.

Lemma wp_run {A} (m : M S A) s a s' (Q : A -> S -> Prop) :
  wp m s Q -> m s = Ok (a, s') -> Q a s'.
Proof. intros (b & t & Hm & HQ) Hr. rewrite Hm in Hr. by injection Hr as <- <-. Qed.

Lemma wp_with_run {A} (m : M S A) s (Q : A -> S -> Prop) :
  wp m s Q -> wp m s (fun a t => Q a t /\ m s = Ok (a, t)).
Proof. intros (a & t & Hm & HQ). by exists a, t. Qed.
End wp_rules.

Lemma M_bind_Ok {S A B} (m : M S A) (k : A -> M S B) s b s'' :
  (m ≫= k) s = Ok (b, s'') <-> exists a s', m s = Ok (a, s') /\ k a s' = Ok (b, s'').
Proof.
  unfold mbind, M_bind. split.
  - destruct (m s) as [[a s']| | |]; [eauto|discriminate..].
  - by intros (a & s' & -> & Hk).
Qed.

(** The final state of a run, and the state itself when there is none. *)
Definition run_st {S A} (m : M S A) (s : S) : S :=
  match m s with Ok (_, s') => s' | _ => s end.

Lemma run_isOk {S A} (m : M S A) s :
  isOk (m s) = true -> exists a, m s = Ok (a, run_st m s).
Proof. unfold run_st. destruct (m s) as [[a s']| | |]; [eauto|done..]. Qed.

(** [run_is m s a]: the run returns [a], as a boolean to compute. *)
Definition run_is {S A} `{EqDecision A} (m : M S A) (s : S) (a : A) : bool :=
  match m s with Ok (b, _) => bool_decide (b = a) | _ => false end.

Lemma run_is_Ok {S A} `{EqDecision A} (m : M S A) s a :
  run_is m s a = true -> m s = Ok (a, run_st m s).
Proof.
  unfold run_is, run_st. destruct (m s) as [[b s']| | |]; [|done..].
  by intros ->%bool_decide_eq_true.
Qed.

Create HintDb wp.
#[export] Hint Resolve wp_ret wp_get wp_gets wp_modify : wp.

(** [wp_step] peels one bind; [wp_steps] also evaluates the state primitives. *)
Ltac wp_step :=
  lazymatch goal with
  | |- wp (mbind _ _) _ _ => apply wp_bind
  | |- wp (mret _) _ _ => apply wp_ret
  | |- wp get _ _ => apply wp_get
  | |- wp (gets _) _ _ => apply wp_gets
  | |- wp (modify _) _ _ => apply wp_modify
  end.
Ltac wp_steps := repeat (wp_step; simpl).

(** ** Slices

    A Go slice is a list; an index outside it panics.  The capacity of a
    slice is taken to be its length. *)

Definition idx {A} (l : list A) (i : Z) : res A :=
  if bool_decide (0 <= i) then
    match l !! Z.to_nat i with
    | Some a => Ok a
    | None => Panic
    end
  else Panic.

Definition setidx {A} (l : list A) (i : Z) (a : A) : res (list A) :=
  if bool_decide (0 <= i < Z.of_nat (length l)) then Ok (<[Z.to_nat i := a]> l)
  else Panic.

Definition slice {A} (l : list A) (lo hi : Z) : res (list A) :=
  if bool_decide (0 <= lo <= hi /\ hi <= Z.of_nat (length l))
  then Ok (take (Z.to_nat (hi - lo)) (drop (Z.to_nat lo) l))
  else Panic.

(** [len l] is Go's [uint64(len(l))]. *)
Definition len {A} (l : list A) : Z := Z.of_nat (length l).

(** [splice l n l'] writes [l'] over [l] from index [n], as a copy loop does. *)
Definition splice {A} (l : list A) (n : nat) (l' : list A) : list A :=
  take n l ++ l' ++ drop (n + length l') l.

Definition zeros (n : Z) : list Z := replicate (Z.to_nat n) 0.

Create Rewrite HintDb len.
#[export] Hint Rewrite @length_app @length_take @length_drop @length_replicate
  @length_insert @length_fmap @length_seqZ @length_seq : len.

Ltac len := unfold len, zeros in *; autorewrite with len in *; cbn [length] in *; try lia.

Lemma len_nonneg {A} (l : list A) : 0 <= len l.
Proof. unfold len. lia. Qed.

Lemma len_app {A} (l k : list A) : len (l ++ k) = len l + len k.
Proof. len. Qed.

Lemma len_zeros n : 0 <= n -> len (zeros n) = n.
Proof. intros. len. Qed.

Lemma idx_Ok {A} (l : list A) i a :
  idx l i = Ok a <-> 0 <= i /\ l !! Z.to_nat i = Some a.
Proof.
  unfold idx. case_bool_decide; [|naive_solver lia].
  destruct (l !! Z.to_nat i); naive_solver.
Qed.

Lemma idx_lt {A} (l : list A) i : 0 <= i < len l -> exists a, idx l i = Ok a.
Proof.
  unfold len. intros Hi.
  destruct (lookup_lt_is_Some_2 l (Z.to_nat i)) as [a Ha]; [lia|].
  exists a. apply idx_Ok. auto with lia.
Qed.

Lemma idx_ge {A} (l : list A) i : len l <= i -> idx l i = Panic.
Proof.
  unfold idx, len. intros Hi. case_bool_decide; [|done].
  rewrite lookup_ge_None_2; [done|lia].
Qed.

Lemma setidx_Ok {A} (l : list A) i a :
  0 <= i < len l -> setidx l i a = Ok (<[Z.to_nat i := a]> l).
Proof. intros. unfold setidx. by rewrite bool_decide_eq_true_2. Qed.

Lemma slice_Ok {A} (l : list A) lo hi :
  0 <= lo <= hi -> hi <= len l ->
  slice l lo hi = Ok (take (Z.to_nat (hi - lo)) (drop (Z.to_nat lo) l)).
Proof. intros. unfold slice. rewrite bool_decide_eq_true_2; auto. Qed.

Section splice_lemmas.
Context {A : Type}.
Implicit Types (l k : list A) (n i : nat).

Lemma length_splice l n k :
  (n + length k <= length l)%nat -> length (splice l n k) = length l.
Proof. intros. unfold splice. len. Qed.

Lemma lookup_splice_in l n k i :
  (n + length k <= length l)%nat -> (n <= i < n + length k)%nat ->
  splice l n k !! i = k !! (i - n)%nat.
Proof.
  intros Hk Hi. unfold splice. rewrite lookup_app_r by len.
  rewrite length_take, Nat.min_l by lia. by rewrite lookup_app_l by lia.
Qed.

Lemma lookup_splice_out l n k i :
  (n + length k <= length l)%nat -> (i < n \/ n + length k <= i)%nat ->
  splice l n k !! i = l !! i.
Proof.
  intros Hk Hi. unfold splice. destruct (decide (i < n)%nat) as [Hlt|Hge].
  - rewrite lookup_app_l by len. by apply lookup_take_lt.
  - rewrite lookup_app_r by len. rewrite length_take, Nat.min_l by lia.
    rewrite lookup_app_r by lia. rewrite lookup_drop. f_equal. lia.
Qed.

Lemma splice_all l k : length k = length l -> splice l 0 k = k.
Proof.
  intros Hk. unfold splice. simpl. rewrite drop_ge by lia. by rewrite app_nil_r.
Qed.

Lemma splice_nil l n : splice l n [] = l.
Proof. unfold splice. simpl. rewrite Nat.add_0_r. apply take_drop. Qed.

Lemma splice_cons l n a k :
  (n < length l)%nat -> splice l n (a :: k) = splice (<[n := a]> l) (S n) k.
Proof.
  intros Hn. unfold splice. simpl.
  rewrite (take_S_r (<[n:=a]> l) n a) by (by rewrite list_lookup_insert_eq).
  rewrite take_insert_ge by lia. rewrite drop_insert_lt by lia.
  rewrite <-app_assoc. simpl. f_equal. f_equal. f_equal. f_equal. lia.
Qed.
End splice_lemmas.

#[export] Hint Rewrite @length_splice using (len; lia) : len.

Lemma lookup_zeros n i : (i < Z.to_nat n)%nat -> zeros n !! i = Some 0.
Proof. intros. unfold zeros. by apply lookup_replicate_2. Qed.

Lemma Forall_byte_zeros n : Forall is_byte (zeros n).
Proof. apply Forall_replicate. unfold is_byte. lia. Qed.

(** ** Strings

    A Go string is its sequence of bytes; [str] writes a literal. *)

Definition str (s : string) : list Z :=
  map (fun c => Z.of_nat (Ascii.nat_of_ascii c)) (String.list_ascii_of_string s).
