(* ===== verification/Nfstypes.v ===== *)
(** The NFSv3 protocol data of [nfstypes/nfs_types.go]: constants, scalar
    types and one record per struct, a field [F] of struct [T] being the
    projection [T_F].  Scalars are [Z], byte strings are lists of bytes.  A
    linked list (a struct with a pointer to itself) is an inductive type.
    [zero] is Go's zero value of a type ([var reply T]). *)
From S2P Require Import Prelude.

Class Zero (A : Type) := zero : A.
#[export] Instance zero_Z : Zero Z := 0.
#[export] Instance zero_bool : Zero bool := false.
#[export] Instance zero_list {A} : Zero (list A) := [].
#[export] Instance zero_option {A} : Zero (option A) := None.

Definition PROGRAM : Z := 100003.

Definition VERSION : Z := 3.

Definition NFS3_FHSIZE : Z := 64.

Definition NFS3_COOKIEVERFSIZE : Z := 8.

Definition NFS3_CREATEVERFSIZE : Z := 8.

Definition NFS3_WRITEVERFSIZE : Z := 8.

Definition Cookieverf3 : Type := list Z.
#[global] Typeclasses Opaque Cookieverf3.
#[export] Instance zero_Cookieverf3 : Zero Cookieverf3 := replicate (Z.to_nat NFS3_COOKIEVERFSIZE) 0.

Definition Createverf3 : Type := list Z.
#[global] Typeclasses Opaque Createverf3.
#[export] Instance zero_Createverf3 : Zero Createverf3 := replicate (Z.to_nat NFS3_CREATEVERFSIZE) 0.

Definition Writeverf3 : Type := list Z.
#[global] Typeclasses Opaque Writeverf3.
#[export] Instance zero_Writeverf3 : Zero Writeverf3 := replicate (Z.to_nat NFS3_WRITEVERFSIZE) 0.

Definition NFS3_OK : Z := 0.

Definition NFS3ERR_PERM : Z := 1.

Definition NFS3ERR_NOENT : Z := 2.

Definition NFS3ERR_IO : Z := 5.

Definition NFS3ERR_NXIO : Z := 6.

Definition NFS3ERR_ACCES : Z := 13.

Definition NFS3ERR_EXIST : Z := 17.

Definition NFS3ERR_XDEV : Z := 18.

Definition NFS3ERR_NODEV : Z := 19.

Definition NFS3ERR_NOTDIR : Z := 20.

Definition NFS3ERR_ISDIR : Z := 21.

Definition NFS3ERR_INVAL : Z := 22.

Definition NFS3ERR_FBIG : Z := 27.

Definition NFS3ERR_NOSPC : Z := 28.

Definition NFS3ERR_ROFS : Z := 30.

Definition NFS3ERR_MLINK : Z := 31.

Definition NFS3ERR_NAMETOOLONG : Z := 63.

Definition NFS3ERR_NOTEMPTY : Z := 66.

Definition NFS3ERR_DQUOT : Z := 69.

Definition NFS3ERR_STALE : Z := 70.

Definition NFS3ERR_REMOTE : Z := 71.

Definition NFS3ERR_BADHANDLE : Z := 10001.

Definition NFS3ERR_NOT_SYNC : Z := 10002.

Definition NFS3ERR_BAD_COOKIE : Z := 10003.

Definition NFS3ERR_NOTSUPP : Z := 10004.

Definition NFS3ERR_TOOSMALL : Z := 10005.

Definition NFS3ERR_SERVERFAULT : Z := 10006.

Definition NFS3ERR_BADTYPE : Z := 10007.

Definition NFS3ERR_JUKEBOX : Z := 10008.

Definition NF3REG : Z := 1.

Definition NF3DIR : Z := 2.

Definition NF3BLK : Z := 3.

Definition NF3CHR : Z := 4.

Definition NF3LNK : Z := 5.

Definition NF3SOCK : Z := 6.

Definition NF3FIFO : Z := 7.

Record Specdata3 := mkSpecdata3 {
  Specdata3_Specdata1 : Z;
  Specdata3_Specdata2 : Z
}.
#[export] Instance zero_Specdata3 : Zero Specdata3 :=
  mkSpecdata3 zero zero.

Record Nfs_fh3 := mkNfs_fh3 {
  Nfs_fh3_Data : list Z
}.
#[export] Instance zero_Nfs_fh3 : Zero Nfs_fh3 :=
  mkNfs_fh3 zero.

Record Nfstime3 := mkNfstime3 {
  Nfstime3_Seconds : Z;
  Nfstime3_Nseconds : Z
}.
#[export] Instance zero_Nfstime3 : Zero Nfstime3 :=
  mkNfstime3 zero zero.

Record Fattr3 := mkFattr3 {
  Fattr3_Ftype : Z;
  Fattr3_Mode : Z;
  Fattr3_Nlink : Z;
  Fattr3_Uid : Z;
  Fattr3_Gid : Z;
  Fattr3_Size : Z;
  Fattr3_Used : Z;
  Fattr3_Rdev : Specdata3;
  Fattr3_Fsid : Z;
  Fattr3_Fileid : Z;
  Fattr3_Atime : Nfstime3;
  Fattr3_Mtime : Nfstime3;
  Fattr3_Ctime : Nfstime3
}.
#[export] Instance zero_Fattr3 : Zero Fattr3 :=
  mkFattr3 zero zero zero zero zero zero zero zero zero zero zero zero zero.

Record Post_op_attr := mkPost_op_attr {
  Post_op_attr_Attributes_follow : bool;
  Post_op_attr_Attributes : Fattr3
}.
#[export] Instance zero_Post_op_attr : Zero Post_op_attr :=
  mkPost_op_attr zero zero.

Record Wcc_attr := mkWcc_attr {
  Wcc_attr_Size : Z;
  Wcc_attr_Mtime : Nfstime3;
  Wcc_attr_Ctime : Nfstime3
}.
#[export] Instance zero_Wcc_attr : Zero Wcc_attr :=
  mkWcc_attr zero zero zero.

Record Pre_op_attr := mkPre_op_attr {
  Pre_op_attr_Attributes_follow : bool;
  Pre_op_attr_Attributes : Wcc_attr
}.
#[export] Instance zero_Pre_op_attr : Zero Pre_op_attr :=
  mkPre_op_attr zero zero.

Record Wcc_data := mkWcc_data {
  Wcc_data_Before : Pre_op_attr;
  Wcc_data_After : Post_op_attr
}.
#[export] Instance zero_Wcc_data : Zero Wcc_data :=
  mkWcc_data zero zero.

Record Post_op_fh3 := mkPost_op_fh3 {
  Post_op_fh3_Handle_follows : bool;
  Post_op_fh3_Handle : Nfs_fh3
}.
#[export] Instance zero_Post_op_fh3 : Zero Post_op_fh3 :=
  mkPost_op_fh3 zero zero.

Definition DONT_CHANGE : Z := 0.

Definition SET_TO_SERVER_TIME : Z := 1.

Definition SET_TO_CLIENT_TIME : Z := 2.

Record Set_mode3 := mkSet_mode3 {
  Set_mode3_Set_it : bool;
  Set_mode3_Mode : Z
}.
#[export] Instance zero_Set_mode3 : Zero Set_mode3 :=
  mkSet_mode3 zero zero.

Record Set_uid3 := mkSet_uid3 {
  Set_uid3_Set_it : bool;
  Set_uid3_Uid : Z
}.
#[export] Instance zero_Set_uid3 : Zero Set_uid3 :=
  mkSet_uid3 zero zero.

Record Set_gid3 := mkSet_gid3 {
  Set_gid3_Set_it : bool;
  Set_gid3_Gid : Z
}.
#[export] Instance zero_Set_gid3 : Zero Set_gid3 :=
  mkSet_gid3 zero zero.

Record Set_size3 := mkSet_size3 {
  Set_size3_Set_it : bool;
  Set_size3_Size : Z
}.
#[export] Instance zero_Set_size3 : Zero Set_size3 :=
  mkSet_size3 zero zero.

Record Set_atime := mkSet_atime {
  Set_atime_Set_it : Z;
  Set_atime_Atime : Nfstime3
}.
#[export] Instance zero_Set_atime : Zero Set_atime :=
  mkSet_atime zero zero.

Record Set_mtime := mkSet_mtime {
  Set_mtime_Set_it : Z;
  Set_mtime_Mtime : Nfstime3
}.
#[export] Instance zero_Set_mtime : Zero Set_mtime :=
  mkSet_mtime zero zero.

Record Sattr3 := mkSattr3 {
  Sattr3_Mode : Set_mode3;
  Sattr3_Uid : Set_uid3;
  Sattr3_Gid : Set_gid3;
  Sattr3_Size : Set_size3;
  Sattr3_Atime : Set_atime;
  Sattr3_Mtime : Set_mtime
}.
#[export] Instance zero_Sattr3 : Zero Sattr3 :=
  mkSattr3 zero zero zero zero zero zero.

Record Diropargs3 := mkDiropargs3 {
  Diropargs3_Dir : Nfs_fh3;
  Diropargs3_Name : list Z
}.
#[export] Instance zero_Diropargs3 : Zero Diropargs3 :=
  mkDiropargs3 zero zero.

Definition NFS_PROGRAM : Z := 100003.

Definition NFS_V3 : Z := 3.

Definition NFSPROC3_NULL : Z := 0.

Definition NFSPROC3_GETATTR : Z := 1.

Definition NFSPROC3_SETATTR : Z := 2.

Definition NFSPROC3_LOOKUP : Z := 3.

Definition NFSPROC3_ACCESS : Z := 4.

Definition NFSPROC3_READLINK : Z := 5.

Definition NFSPROC3_READ : Z := 6.

Definition NFSPROC3_WRITE : Z := 7.

Definition NFSPROC3_CREATE : Z := 8.

Definition NFSPROC3_MKDIR : Z := 9.

Definition NFSPROC3_SYMLINK : Z := 10.

Definition NFSPROC3_MKNOD : Z := 11.

Definition NFSPROC3_REMOVE : Z := 12.

Definition NFSPROC3_RMDIR : Z := 13.

Definition NFSPROC3_RENAME : Z := 14.

Definition NFSPROC3_LINK : Z := 15.

Definition NFSPROC3_READDIR : Z := 16.

Definition NFSPROC3_READDIRPLUS : Z := 17.

Definition NFSPROC3_FSSTAT : Z := 18.

Definition NFSPROC3_FSINFO : Z := 19.

Definition NFSPROC3_PATHCONF : Z := 20.

Definition NFSPROC3_COMMIT : Z := 21.

Record GETATTR3args := mkGETATTR3args {
  GETATTR3args_Object : Nfs_fh3
}.
#[export] Instance zero_GETATTR3args : Zero GETATTR3args :=
  mkGETATTR3args zero.

Record GETATTR3resok := mkGETATTR3resok {
  GETATTR3resok_Obj_attributes : Fattr3
}.
#[export] Instance zero_GETATTR3resok : Zero GETATTR3resok :=
  mkGETATTR3resok zero.

Record GETATTR3res := mkGETATTR3res {
  GETATTR3res_Status : Z;
  GETATTR3res_Resok : GETATTR3resok
}.
#[export] Instance zero_GETATTR3res : Zero GETATTR3res :=
  mkGETATTR3res zero zero.

Record Sattrguard3 := mkSattrguard3 {
  Sattrguard3_Check : bool;
  Sattrguard3_Obj_ctime : Nfstime3
}.
#[export] Instance zero_Sattrguard3 : Zero Sattrguard3 :=
  mkSattrguard3 zero zero.

Record SETATTR3args := mkSETATTR3args {
  SETATTR3args_Object : Nfs_fh3;
  SETATTR3args_New_attributes : Sattr3;
  SETATTR3args_Guard : Sattrguard3
}.
#[export] Instance zero_SETATTR3args : Zero SETATTR3args :=
  mkSETATTR3args zero zero zero.

Record SETATTR3resok := mkSETATTR3resok {
  SETATTR3resok_Obj_wcc : Wcc_data
}.
#[export] Instance zero_SETATTR3resok : Zero SETATTR3resok :=
  mkSETATTR3resok zero.

Record SETATTR3resfail := mkSETATTR3resfail {
  SETATTR3resfail_Obj_wcc : Wcc_data
}.
#[export] Instance zero_SETATTR3resfail : Zero SETATTR3resfail :=
  mkSETATTR3resfail zero.

Record SETATTR3res := mkSETATTR3res {
  SETATTR3res_Status : Z;
  SETATTR3res_Resok : SETATTR3resok;
  SETATTR3res_Resfail : SETATTR3resfail
}.
#[export] Instance zero_SETATTR3res : Zero SETATTR3res :=
  mkSETATTR3res zero zero zero.

Record LOOKUP3args := mkLOOKUP3args {
  LOOKUP3args_What : Diropargs3
}.
#[export] Instance zero_LOOKUP3args : Zero LOOKUP3args :=
  mkLOOKUP3args zero.

Record LOOKUP3resok := mkLOOKUP3resok {
  LOOKUP3resok_Object : Nfs_fh3;
  LOOKUP3resok_Obj_attributes : Post_op_attr;
  LOOKUP3resok_Dir_attributes : Post_op_attr
}.
#[export] Instance zero_LOOKUP3resok : Zero LOOKUP3resok :=
  mkLOOKUP3resok zero zero zero.

Record LOOKUP3resfail := mkLOOKUP3resfail {
  LOOKUP3resfail_Dir_attributes : Post_op_attr
}.
#[export] Instance zero_LOOKUP3resfail : Zero LOOKUP3resfail :=
  mkLOOKUP3resfail zero.

Record LOOKUP3res := mkLOOKUP3res {
  LOOKUP3res_Status : Z;
  LOOKUP3res_Resok : LOOKUP3resok;
  LOOKUP3res_Resfail : LOOKUP3resfail
}.
#[export] Instance zero_LOOKUP3res : Zero LOOKUP3res :=
  mkLOOKUP3res zero zero zero.

Definition ACCESS3_READ : Z := 1.

Definition ACCESS3_LOOKUP : Z := 2.

Definition ACCESS3_MODIFY : Z := 4.

Definition ACCESS3_EXTEND : Z := 8.

Definition ACCESS3_DELETE : Z := 16.

Definition ACCESS3_EXECUTE : Z := 32.

Record ACCESS3args := mkACCESS3args {
  ACCESS3args_Object : Nfs_fh3;
  ACCESS3args_Access : Z
}.
#[export] Instance zero_ACCESS3args : Zero ACCESS3args :=
  mkACCESS3args zero zero.

Record ACCESS3resok := mkACCESS3resok {
  ACCESS3resok_Obj_attributes : Post_op_attr;
  ACCESS3resok_Access : Z
}.
#[export] Instance zero_ACCESS3resok : Zero ACCESS3resok :=
  mkACCESS3resok zero zero.

Record ACCESS3resfail := mkACCESS3resfail {
  ACCESS3resfail_Obj_attributes : Post_op_attr
}.
#[export] Instance zero_ACCESS3resfail : Zero ACCESS3resfail :=
  mkACCESS3resfail zero.

Record ACCESS3res := mkACCESS3res {
  ACCESS3res_Status : Z;
  ACCESS3res_Resok : ACCESS3resok;
  ACCESS3res_Resfail : ACCESS3resfail
}.
#[export] Instance zero_ACCESS3res : Zero ACCESS3res :=
  mkACCESS3res zero zero zero.

Record READLINK3args := mkREADLINK3args {
  READLINK3args_Symlink : Nfs_fh3
}.
#[export] Instance zero_READLINK3args : Zero READLINK3args :=
  mkREADLINK3args zero.

Record READLINK3resok := mkREADLINK3resok {
  READLINK3resok_Symlink_attributes : Post_op_attr;
  READLINK3resok_Data : list Z
}.
#[export] Instance zero_READLINK3resok : Zero READLINK3resok :=
  mkREADLINK3resok zero zero.

Record READLINK3resfail := mkREADLINK3resfail {
  READLINK3resfail_Symlink_attributes : Post_op_attr
}.
#[export] Instance zero_READLINK3resfail : Zero READLINK3resfail :=
  mkREADLINK3resfail zero.

Record READLINK3res := mkREADLINK3res {
  READLINK3res_Status : Z;
  READLINK3res_Resok : READLINK3resok;
  READLINK3res_Resfail : READLINK3resfail
}.
#[export] Instance zero_READLINK3res : Zero READLINK3res :=
  mkREADLINK3res zero zero zero.

Record READ3args := mkREAD3args {
  READ3args_File : Nfs_fh3;
  READ3args_Offset : Z;
  READ3args_Count : Z
}.
#[export] Instance zero_READ3args : Zero READ3args :=
  mkREAD3args zero zero zero.

Record READ3resok := mkREAD3resok {
  READ3resok_File_attributes : Post_op_attr;
  READ3resok_Count : Z;
  READ3resok_Eof : bool;
  READ3resok_Data : list Z
}.
#[export] Instance zero_READ3resok : Zero READ3resok :=
  mkREAD3resok zero zero zero zero.

Record READ3resfail := mkREAD3resfail {
  READ3resfail_File_attributes : Post_op_attr
}.
#[export] Instance zero_READ3resfail : Zero READ3resfail :=
  mkREAD3resfail zero.

Record READ3res := mkREAD3res {
  READ3res_Status : Z;
  READ3res_Resok : READ3resok;
  READ3res_Resfail : READ3resfail
}.
#[export] Instance zero_READ3res : Zero READ3res :=
  mkREAD3res zero zero zero.

Definition UNSTABLE : Z := 0.

Definition DATA_SYNC : Z := 1.

Definition FILE_SYNC : Z := 2.

Record WRITE3args := mkWRITE3args {
  WRITE3args_File : Nfs_fh3;
  WRITE3args_Offset : Z;
  WRITE3args_Count : Z;
  WRITE3args_Stable : Z;
  WRITE3args_Data : list Z
}.
#[export] Instance zero_WRITE3args : Zero WRITE3args :=
  mkWRITE3args zero zero zero zero zero.

Record WRITE3resok := mkWRITE3resok {
  WRITE3resok_File_wcc : Wcc_data;
  WRITE3resok_Count : Z;
  WRITE3resok_Committed : Z;
  WRITE3resok_Verf : Writeverf3
}.
#[export] Instance zero_WRITE3resok : Zero WRITE3resok :=
  mkWRITE3resok zero zero zero zero.

Record WRITE3resfail := mkWRITE3resfail {
  WRITE3resfail_File_wcc : Wcc_data
}.
#[export] Instance zero_WRITE3resfail : Zero WRITE3resfail :=
  mkWRITE3resfail zero.

Record WRITE3res := mkWRITE3res {
  WRITE3res_Status : Z;
  WRITE3res_Resok : WRITE3resok;
  WRITE3res_Resfail : WRITE3resfail
}.
#[export] Instance zero_WRITE3res : Zero WRITE3res :=
  mkWRITE3res zero zero zero.

Definition UNCHECKED : Z := 0.

Definition GUARDED : Z := 1.

Definition EXCLUSIVE : Z := 2.

Record Createhow3 := mkCreatehow3 {
  Createhow3_Mode : Z;
  Createhow3_Obj_attributes : Sattr3;
  Createhow3_Verf : Createverf3
}.
#[export] Instance zero_Createhow3 : Zero Createhow3 :=
  mkCreatehow3 zero zero zero.

Record CREATE3args := mkCREATE3args {
  CREATE3args_Where : Diropargs3;
  CREATE3args_How : Createhow3
}.
#[export] Instance zero_CREATE3args : Zero CREATE3args :=
  mkCREATE3args zero zero.

Record CREATE3resok := mkCREATE3resok {
  CREATE3resok_Obj : Post_op_fh3;
  CREATE3resok_Obj_attributes : Post_op_attr;
  CREATE3resok_Dir_wcc : Wcc_data
}.
#[export] Instance zero_CREATE3resok : Zero CREATE3resok :=
  mkCREATE3resok zero zero zero.

Record CREATE3resfail := mkCREATE3resfail {
  CREATE3resfail_Dir_wcc : Wcc_data
}.
#[export] Instance zero_CREATE3resfail : Zero CREATE3resfail :=
  mkCREATE3resfail zero.

Record CREATE3res := mkCREATE3res {
  CREATE3res_Status : Z;
  CREATE3res_Resok : CREATE3resok;
  CREATE3res_Resfail : CREATE3resfail
}.
#[export] Instance zero_CREATE3res : Zero CREATE3res :=
  mkCREATE3res zero zero zero.

Record MKDIR3args := mkMKDIR3args {
  MKDIR3args_Where : Diropargs3;
  MKDIR3args_Attributes : Sattr3
}.
#[export] Instance zero_MKDIR3args : Zero MKDIR3args :=
  mkMKDIR3args zero zero.

Record MKDIR3resok := mkMKDIR3resok {
  MKDIR3resok_Obj : Post_op_fh3;
  MKDIR3resok_Obj_attributes : Post_op_attr;
  MKDIR3resok_Dir_wcc : Wcc_data
}.
#[export] Instance zero_MKDIR3resok : Zero MKDIR3resok :=
  mkMKDIR3resok zero zero zero.

Record MKDIR3resfail := mkMKDIR3resfail {
  MKDIR3resfail_Dir_wcc : Wcc_data
}.
#[export] Instance zero_MKDIR3resfail : Zero MKDIR3resfail :=
  mkMKDIR3resfail zero.

Record MKDIR3res := mkMKDIR3res {
  MKDIR3res_Status : Z;
  MKDIR3res_Resok : MKDIR3resok;
  MKDIR3res_Resfail : MKDIR3resfail
}.
#[export] Instance zero_MKDIR3res : Zero MKDIR3res :=
  mkMKDIR3res zero zero zero.

Record Symlinkdata3 := mkSymlinkdata3 {
  Symlinkdata3_Symlink_attributes : Sattr3;
  Symlinkdata3_Symlink_data : list Z
}.
#[export] Instance zero_Symlinkdata3 : Zero Symlinkdata3 :=
  mkSymlinkdata3 zero zero.

Record SYMLINK3args := mkSYMLINK3args {
  SYMLINK3args_Where : Diropargs3;
  SYMLINK3args_Symlink : Symlinkdata3
}.
#[export] Instance zero_SYMLINK3args : Zero SYMLINK3args :=
  mkSYMLINK3args zero zero.

Record SYMLINK3resok := mkSYMLINK3resok {
  SYMLINK3resok_Obj : Post_op_fh3;
  SYMLINK3resok_Obj_attributes : Post_op_attr;
  SYMLINK3resok_Dir_wcc : Wcc_data
}.
#[export] Instance zero_SYMLINK3resok : Zero SYMLINK3resok :=
  mkSYMLINK3resok zero zero zero.

Record SYMLINK3resfail := mkSYMLINK3resfail {
  SYMLINK3resfail_Dir_wcc : Wcc_data
}.
#[export] Instance zero_SYMLINK3resfail : Zero SYMLINK3resfail :=
  mkSYMLINK3resfail zero.

Record SYMLINK3res := mkSYMLINK3res {
  SYMLINK3res_Status : Z;
  SYMLINK3res_Resok : SYMLINK3resok;
  SYMLINK3res_Resfail : SYMLINK3resfail
}.
#[export] Instance zero_SYMLINK3res : Zero SYMLINK3res :=
  mkSYMLINK3res zero zero zero.

Record Devicedata3 := mkDevicedata3 {
  Devicedata3_Dev_attributes : Sattr3;
  Devicedata3_Spec : Specdata3
}.
#[export] Instance zero_Devicedata3 : Zero Devicedata3 :=
  mkDevicedata3 zero zero.

Record Mknoddata3 := mkMknoddata3 {
  Mknoddata3_Ftype : Z;
  Mknoddata3_Device : Devicedata3;
  Mknoddata3_Pipe_attributes : Sattr3
}.
#[export] Instance zero_Mknoddata3 : Zero Mknoddata3 :=
  mkMknoddata3 zero zero zero.

Record MKNOD3args := mkMKNOD3args {
  MKNOD3args_Where : Diropargs3;
  MKNOD3args_What : Mknoddata3
}.
#[export] Instance zero_MKNOD3args : Zero MKNOD3args :=
  mkMKNOD3args zero zero.

Record MKNOD3resok := mkMKNOD3resok {
  MKNOD3resok_Obj : Post_op_fh3;
  MKNOD3resok_Obj_attributes : Post_op_attr;
  MKNOD3resok_Dir_wcc : Wcc_data
}.
#[export] Instance zero_MKNOD3resok : Zero MKNOD3resok :=
  mkMKNOD3resok zero zero zero.

Record MKNOD3resfail := mkMKNOD3resfail {
  MKNOD3resfail_Dir_wcc : Wcc_data
}.
#[export] Instance zero_MKNOD3resfail : Zero MKNOD3resfail :=
  mkMKNOD3resfail zero.

Record MKNOD3res := mkMKNOD3res {
  MKNOD3res_Status : Z;
  MKNOD3res_Resok : MKNOD3resok;
  MKNOD3res_Resfail : MKNOD3resfail
}.
#[export] Instance zero_MKNOD3res : Zero MKNOD3res :=
  mkMKNOD3res zero zero zero.

Record REMOVE3args := mkREMOVE3args {
  REMOVE3args_Object : Diropargs3
}.
#[export] Instance zero_REMOVE3args : Zero REMOVE3args :=
  mkREMOVE3args zero.

Record REMOVE3resok := mkREMOVE3resok {
  REMOVE3resok_Dir_wcc : Wcc_data
}.
#[export] Instance zero_REMOVE3resok : Zero REMOVE3resok :=
  mkREMOVE3resok zero.

Record REMOVE3resfail := mkREMOVE3resfail {
  REMOVE3resfail_Dir_wcc : Wcc_data
}.
#[export] Instance zero_REMOVE3resfail : Zero REMOVE3resfail :=
  mkREMOVE3resfail zero.

Record REMOVE3res := mkREMOVE3res {
  REMOVE3res_Status : Z;
  REMOVE3res_Resok : REMOVE3resok;
  REMOVE3res_Resfail : REMOVE3resfail
}.
#[export] Instance zero_REMOVE3res : Zero REMOVE3res :=
  mkREMOVE3res zero zero zero.

Record RMDIR3args := mkRMDIR3args {
  RMDIR3args_Object : Diropargs3
}.
#[export] Instance zero_RMDIR3args : Zero RMDIR3args :=
  mkRMDIR3args zero.

Record RMDIR3resok := mkRMDIR3resok {
  RMDIR3resok_Dir_wcc : Wcc_data
}.
#[export] Instance zero_RMDIR3resok : Zero RMDIR3resok :=
  mkRMDIR3resok zero.

Record RMDIR3resfail := mkRMDIR3resfail {
  RMDIR3resfail_Dir_wcc : Wcc_data
}.
#[export] Instance zero_RMDIR3resfail : Zero RMDIR3resfail :=
  mkRMDIR3resfail zero.

Record RMDIR3res := mkRMDIR3res {
  RMDIR3res_Status : Z;
  RMDIR3res_Resok : RMDIR3resok;
  RMDIR3res_Resfail : RMDIR3resfail
}.
#[export] Instance zero_RMDIR3res : Zero RMDIR3res :=
  mkRMDIR3res zero zero zero.

Record RENAME3args := mkRENAME3args {
  RENAME3args_From : Diropargs3;
  RENAME3args_To : Diropargs3
}.
#[export] Instance zero_RENAME3args : Zero RENAME3args :=
  mkRENAME3args zero zero.

Record RENAME3resok := mkRENAME3resok {
  RENAME3resok_Fromdir_wcc : Wcc_data;
  RENAME3resok_Todir_wcc : Wcc_data
}.
#[export] Instance zero_RENAME3resok : Zero RENAME3resok :=
  mkRENAME3resok zero zero.

Record RENAME3resfail := mkRENAME3resfail {
  RENAME3resfail_Fromdir_wcc : Wcc_data;
  RENAME3resfail_Todir_wcc : Wcc_data
}.
#[export] Instance zero_RENAME3resfail : Zero RENAME3resfail :=
  mkRENAME3resfail zero zero.

Record RENAME3res := mkRENAME3res {
  RENAME3res_Status : Z;
  RENAME3res_Resok : RENAME3resok;
  RENAME3res_Resfail : RENAME3resfail
}.
#[export] Instance zero_RENAME3res : Zero RENAME3res :=
  mkRENAME3res zero zero zero.

Record LINK3args := mkLINK3args {
  LINK3args_File : Nfs_fh3;
  LINK3args_Link : Diropargs3
}.
#[export] Instance zero_LINK3args : Zero LINK3args :=
  mkLINK3args zero zero.

Record LINK3resok := mkLINK3resok {
  LINK3resok_File_attributes : Post_op_attr;
  LINK3resok_Linkdir_wcc : Wcc_data
}.
#[export] Instance zero_LINK3resok : Zero LINK3resok :=
  mkLINK3resok zero zero.

Record LINK3resfail := mkLINK3resfail {
  LINK3resfail_File_attributes : Post_op_attr;
  LINK3resfail_Linkdir_wcc : Wcc_data
}.
#[export] Instance zero_LINK3resfail : Zero LINK3resfail :=
  mkLINK3resfail zero zero.

Record LINK3res := mkLINK3res {
  LINK3res_Status : Z;
  LINK3res_Resok : LINK3resok;
  LINK3res_Resfail : LINK3resfail
}.
#[export] Instance zero_LINK3res : Zero LINK3res :=
  mkLINK3res zero zero zero.

Record READDIR3args := mkREADDIR3args {
  READDIR3args_Dir : Nfs_fh3;
  READDIR3args_Cookie : Z;
  READDIR3args_Cookieverf : Cookieverf3;
  READDIR3args_Count : Z
}.
#[export] Instance zero_READDIR3args : Zero READDIR3args :=
  mkREADDIR3args zero zero zero zero.

Inductive Entry3 :=
| mkEntry3 (Entry3_Fileid_ : Z) (Entry3_Name_ : list Z) (Entry3_Cookie_ : Z) (Entry3_Nextentry_ : option Entry3).

Record Dirlist3 := mkDirlist3 {
  Dirlist3_Entries : option Entry3;
  Dirlist3_Eof : bool
}.
#[export] Instance zero_Dirlist3 : Zero Dirlist3 :=
  mkDirlist3 zero zero.

Record READDIR3resok := mkREADDIR3resok {
  READDIR3resok_Dir_attributes : Post_op_attr;
  READDIR3resok_Cookieverf : Cookieverf3;
  READDIR3resok_Reply : Dirlist3
}.
#[export] Instance zero_READDIR3resok : Zero READDIR3resok :=
  mkREADDIR3resok zero zero zero.

Record READDIR3resfail := mkREADDIR3resfail {
  READDIR3resfail_Dir_attributes : Post_op_attr
}.
#[export] Instance zero_READDIR3resfail : Zero READDIR3resfail :=
  mkREADDIR3resfail zero.

Record READDIR3res := mkREADDIR3res {
  READDIR3res_Status : Z;
  READDIR3res_Resok : READDIR3resok;
  READDIR3res_Resfail : READDIR3resfail
}.
#[export] Instance zero_READDIR3res : Zero READDIR3res :=
  mkREADDIR3res zero zero zero.

Record READDIRPLUS3args := mkREADDIRPLUS3args {
  READDIRPLUS3args_Dir : Nfs_fh3;
  READDIRPLUS3args_Cookie : Z;
  READDIRPLUS3args_Cookieverf : Cookieverf3;
  READDIRPLUS3args_Dircount : Z;
  READDIRPLUS3args_Maxcount : Z
}.
#[export] Instance zero_READDIRPLUS3args : Zero READDIRPLUS3args :=
  mkREADDIRPLUS3args zero zero zero zero zero.

Inductive Entryplus3 :=
| mkEntryplus3 (Entryplus3_Fileid_ : Z) (Entryplus3_Name_ : list Z) (Entryplus3_Cookie_ : Z) (Entryplus3_Name_attributes_ : Post_op_attr) (Entryplus3_Name_handle_ : Post_op_fh3) (Entryplus3_Nextentry_ : option Entryplus3).

Record Dirlistplus3 := mkDirlistplus3 {
  Dirlistplus3_Entries : option Entryplus3;
  Dirlistplus3_Eof : bool
}.
#[export] Instance zero_Dirlistplus3 : Zero Dirlistplus3 :=
  mkDirlistplus3 zero zero.

Record READDIRPLUS3resok := mkREADDIRPLUS3resok {
  READDIRPLUS3resok_Dir_attributes : Post_op_attr;
  READDIRPLUS3resok_Cookieverf : Cookieverf3;
  READDIRPLUS3resok_Reply : Dirlistplus3
}.
#[export] Instance zero_READDIRPLUS3resok : Zero READDIRPLUS3resok :=
  mkREADDIRPLUS3resok zero zero zero.

Record READDIRPLUS3resfail := mkREADDIRPLUS3resfail {
  READDIRPLUS3resfail_Dir_attributes : Post_op_attr
}.
#[export] Instance zero_READDIRPLUS3resfail : Zero READDIRPLUS3resfail :=
  mkREADDIRPLUS3resfail zero.

Record READDIRPLUS3res := mkREADDIRPLUS3res {
  READDIRPLUS3res_Status : Z;
  READDIRPLUS3res_Resok : READDIRPLUS3resok;
  READDIRPLUS3res_Resfail : READDIRPLUS3resfail
}.
#[export] Instance zero_READDIRPLUS3res : Zero READDIRPLUS3res :=
  mkREADDIRPLUS3res zero zero zero.

Record FSSTAT3args := mkFSSTAT3args {
  FSSTAT3args_Fsroot : Nfs_fh3
}.
#[export] Instance zero_FSSTAT3args : Zero FSSTAT3args :=
  mkFSSTAT3args zero.

Record FSSTAT3resok := mkFSSTAT3resok {
  FSSTAT3resok_Obj_attributes : Post_op_attr;
  FSSTAT3resok_Tbytes : Z;
  FSSTAT3resok_Fbytes : Z;
  FSSTAT3resok_Abytes : Z;
  FSSTAT3resok_Tfiles : Z;
  FSSTAT3resok_Ffiles : Z;
  FSSTAT3resok_Afiles : Z;
  FSSTAT3resok_Invarsec : Z
}.
#[export] Instance zero_FSSTAT3resok : Zero FSSTAT3resok :=
  mkFSSTAT3resok zero zero zero zero zero zero zero zero.

Record FSSTAT3resfail := mkFSSTAT3resfail {
  FSSTAT3resfail_Obj_attributes : Post_op_attr
}.
#[export] Instance zero_FSSTAT3resfail : Zero FSSTAT3resfail :=
  mkFSSTAT3resfail zero.

Record FSSTAT3res := mkFSSTAT3res {
  FSSTAT3res_Status : Z;
  FSSTAT3res_Resok : FSSTAT3resok;
  FSSTAT3res_Resfail : FSSTAT3resfail
}.
#[export] Instance zero_FSSTAT3res : Zero FSSTAT3res :=
  mkFSSTAT3res zero zero zero.

Definition FSF3_LINK : Z := 1.

Definition FSF3_SYMLINK : Z := 2.

Definition FSF3_HOMOGENEOUS : Z := 8.

Definition FSF3_CANSETTIME : Z := 16.

Record FSINFO3args := mkFSINFO3args {
  FSINFO3args_Fsroot : Nfs_fh3
}.
#[export] Instance zero_FSINFO3args : Zero FSINFO3args :=
  mkFSINFO3args zero.

Record FSINFO3resok := mkFSINFO3resok {
  FSINFO3resok_Obj_attributes : Post_op_attr;
  FSINFO3resok_Rtmax : Z;
  FSINFO3resok_Rtpref : Z;
  FSINFO3resok_Rtmult : Z;
  FSINFO3resok_Wtmax : Z;
  FSINFO3resok_Wtpref : Z;
  FSINFO3resok_Wtmult : Z;
  FSINFO3resok_Dtpref : Z;
  FSINFO3resok_Maxfilesize : Z;
  FSINFO3resok_Time_delta : Nfstime3;
  FSINFO3resok_Properties : Z
}.
#[export] Instance zero_FSINFO3resok : Zero FSINFO3resok :=
  mkFSINFO3resok zero zero zero zero zero zero zero zero zero zero zero.

Record FSINFO3resfail := mkFSINFO3resfail {
  FSINFO3resfail_Obj_attributes : Post_op_attr
}.
#[export] Instance zero_FSINFO3resfail : Zero FSINFO3resfail :=
  mkFSINFO3resfail zero.

Record FSINFO3res := mkFSINFO3res {
  FSINFO3res_Status : Z;
  FSINFO3res_Resok : FSINFO3resok;
  FSINFO3res_Resfail : FSINFO3resfail
}.
#[export] Instance zero_FSINFO3res : Zero FSINFO3res :=
  mkFSINFO3res zero zero zero.

Record PATHCONF3args := mkPATHCONF3args {
  PATHCONF3args_Object : Nfs_fh3
}.
#[export] Instance zero_PATHCONF3args : Zero PATHCONF3args :=
  mkPATHCONF3args zero.

Record PATHCONF3resok := mkPATHCONF3resok {
  PATHCONF3resok_Obj_attributes : Post_op_attr;
  PATHCONF3resok_Linkmax : Z;
  PATHCONF3resok_Name_max : Z;
  PATHCONF3resok_No_trunc : bool;
  PATHCONF3resok_Chown_restricted : bool;
  PATHCONF3resok_Case_insensitive : bool;
  PATHCONF3resok_Case_preserving : bool
}.
#[export] Instance zero_PATHCONF3resok : Zero PATHCONF3resok :=
  mkPATHCONF3resok zero zero zero zero zero zero zero.

Record PATHCONF3resfail := mkPATHCONF3resfail {
  PATHCONF3resfail_Obj_attributes : Post_op_attr
}.
#[export] Instance zero_PATHCONF3resfail : Zero PATHCONF3resfail :=
  mkPATHCONF3resfail zero.

Record PATHCONF3res := mkPATHCONF3res {
  PATHCONF3res_Status : Z;
  PATHCONF3res_Resok : PATHCONF3resok;
  PATHCONF3res_Resfail : PATHCONF3resfail
}.
#[export] Instance zero_PATHCONF3res : Zero PATHCONF3res :=
  mkPATHCONF3res zero zero zero.

Record COMMIT3args := mkCOMMIT3args {
  COMMIT3args_File : Nfs_fh3;
  COMMIT3args_Offset : Z;
  COMMIT3args_Count : Z
}.
#[export] Instance zero_COMMIT3args : Zero COMMIT3args :=
  mkCOMMIT3args zero zero zero.

Record COMMIT3resok := mkCOMMIT3resok {
  COMMIT3resok_File_wcc : Wcc_data;
  COMMIT3resok_Verf : Writeverf3
}.
#[export] Instance zero_COMMIT3resok : Zero COMMIT3resok :=
  mkCOMMIT3resok zero zero.

Record COMMIT3resfail := mkCOMMIT3resfail {
  COMMIT3resfail_File_wcc : Wcc_data
}.
#[export] Instance zero_COMMIT3resfail : Zero COMMIT3resfail :=
  mkCOMMIT3resfail zero.

Record COMMIT3res := mkCOMMIT3res {
  COMMIT3res_Status : Z;
  COMMIT3res_Resok : COMMIT3resok;
  COMMIT3res_Resfail : COMMIT3resfail
}.
#[export] Instance zero_COMMIT3res : Zero COMMIT3res :=
  mkCOMMIT3res zero zero zero.

Definition MNTPATHLEN3 : Z := 1024.

Definition MNTNAMLEN3 : Z := 255.

Definition FHSIZE3 : Z := 64.

Definition MNT3_OK : Z := 0.

Definition MNT3ERR_PERM : Z := 1.

Definition MNT3ERR_NOENT : Z := 2.

Definition MNT3ERR_IO : Z := 5.

Definition MNT3ERR_ACCES : Z := 13.

Definition MNT3ERR_NOTDIR : Z := 20.

Definition MNT3ERR_INVAL : Z := 22.

Definition MNT3ERR_NAMETOOLONG : Z := 63.

Definition MNT3ERR_NOTSUPP : Z := 10004.

Definition MNT3ERR_SERVERFAULT : Z := 10006.

Definition MOUNT_PROGRAM : Z := 100005.

Definition MOUNT_V3 : Z := 3.

Definition MOUNTPROC3_NULL : Z := 0.

Definition MOUNTPROC3_MNT : Z := 1.

Definition MOUNTPROC3_DUMP : Z := 2.

Definition MOUNTPROC3_UMNT : Z := 3.

Definition MOUNTPROC3_UMNTALL : Z := 4.

Definition MOUNTPROC3_EXPORT : Z := 5.

Record Mountres3_ok := mkMountres3_ok {
  Mountres3_ok_Fhandle : list Z;
  Mountres3_ok_Auth_flavors : list Z
}.
#[export] Instance zero_Mountres3_ok : Zero Mountres3_ok :=
  mkMountres3_ok zero zero.

Record Mountres3 := mkMountres3 {
  Mountres3_Fhs_status : Z;
  Mountres3_Mountinfo : Mountres3_ok
}.
#[export] Instance zero_Mountres3 : Zero Mountres3 :=
  mkMountres3 zero zero.

Inductive Mount3 :=
| mkMount3 (Mount3_Ml_hostname_ : list Z) (Mount3_Ml_directory_ : list Z) (Mount3_Ml_next_ : option Mount3).

Record Mountopt3 := mkMountopt3 { Mountopt3_P : option Mount3 }.
#[export] Instance zero_Mountopt3 : Zero Mountopt3 := mkMountopt3 zero.

Inductive Groups3 :=
| mkGroups3 (Groups3_Gr_name_ : list Z) (Groups3_Gr_next_ : option Groups3).

Inductive Exports3 :=
| mkExports3 (Exports3_Ex_dir_ : list Z) (Exports3_Ex_groups_ : option Groups3) (Exports3_Ex_next_ : option Exports3).

Record Exportsopt3 := mkExportsopt3 { Exportsopt3_P : option Exports3 }.
#[export] Instance zero_Exportsopt3 : Zero Exportsopt3 := mkExportsopt3 zero.
