(* ===== verification/External.v ===== *)
(** The packages go-nfsd calls and does not contain: [go-journal] ([common],
    [util], [addr], [buf], [jrnl], [obj], [alloc], [lockmap]), [marshal] and
    [disk].  Each is a class of operations, which the models of go-nfsd take as
    an argument, and a [...Spec] class of the documented facts about them.

    The views ([op_bufs], [log_obj], [alloc_free], ...) are observations used
    to write those facts; no modelled function calls them. *)
From S2P Require Import Prelude.

(** ** Constants of [common], [disk] and [jrnl] *)

Class Common := {
  BlockSize : Z;       (* disk.BlockSize *)
  INODESZ : Z;
  NBITBLOCK : Z;
  INODEBLK : Z;
  NINODEBITMAP : Z;
  LOGSIZE : Z;
  NULLINUM : Z;
  ROOTINUM : Z;
  NULLBNUM : Z;
  LogBlocks : Z;       (* jrnl.LogBlocks *)
  LogBytes : Z;        (* jrnl.LogBytes *)
}.

Class CommonSpec `{Common} : Prop := {
  BlockSize_eq : BlockSize = 4096;
  INODESZ_eq : INODESZ = 128;
  NBITBLOCK_eq : NBITBLOCK = 32768;
  INODEBLK_eq : INODEBLK = 32;
  NINODEBITMAP_range : 0 < NINODEBITMAP < 2 ^ 16;
  LOGSIZE_range : 0 < LOGSIZE < 2 ^ 16;
  NULLINUM_eq : NULLINUM = 0;
  ROOTINUM_eq : ROOTINUM = 1;
  NULLBNUM_eq : NULLBNUM = 0;
  LogBlocks_range : 0 < LogBlocks < 2 ^ 16;
  LogBytes_eq : LogBytes = LogBlocks * BlockSize;
}.

(** [csimp] replaces the constants by their values. *)
Ltac csimp :=
  rewrite ?BlockSize_eq, ?INODESZ_eq, ?NBITBLOCK_eq, ?INODEBLK_eq, ?NULLINUM_eq,
    ?ROOTINUM_eq, ?NULLBNUM_eq in *.

(** ** [util] *)

Class Util := {
  util_Min : Z -> Z -> Z;
  util_RoundUp : Z -> Z -> Z;
  util_SumOverflows : Z -> Z -> bool;
}.

Class UtilSpec `{Util} : Prop := {
  Min_eq a b : util_Min a b = Z.min a b;
  (* the number of units of size [sz] that hold [n] *)
  RoundUp_eq n sz : is_u64 n -> 0 < sz -> n + sz - 1 < 2 ^ 64 ->
    util_RoundUp n sz = (n + sz - 1) / sz;
  RoundUp_u64 n sz : is_u64 (util_RoundUp n sz);
  SumOverflows_eq a b : is_u64 a -> is_u64 b ->
    util_SumOverflows a b = bool_decide (2 ^ 64 <= a + b);
}.

(** ** [marshal]: an encoder fills a buffer of fixed size, a decoder consumes one *)

Class Marshal := {
  Enc : Type;
  NewEnc : Z -> Enc;
  PutInt : Enc -> Z -> res Enc;
  PutInt32 : Enc -> Z -> res Enc;
  PutInts : Enc -> list Z -> res Enc;
  PutBytes : Enc -> list Z -> res Enc;
  Finish : Enc -> list Z;
  Dec : Type;
  NewDec : list Z -> Dec;
  GetInt : Dec -> res (Z * Dec);
  GetInt32 : Dec -> res (Z * Dec);
  GetInts : Dec -> Z -> res (list Z * Dec);
  GetBytes : Dec -> Z -> res (list Z * Dec);
  (* views: the bytes of an integer, what an encoder holds and its size,
     what a decoder has left *)
  u64_le : Z -> list Z;
  u32_le : Z -> list Z;
  u64_of : list Z -> Z;
  u32_of : list Z -> Z;
  enc_out : Enc -> list Z;
  enc_cap : Enc -> Z;
  dec_rest : Dec -> list Z;
}.

Section marshal_views.
Context `{Marshal}.

(** [enc_puts e out r]: [r] is the outcome of appending [out] to [e]. *)
Definition enc_puts (e : Enc) (out : list Z) (r : res Enc) : Prop :=
  if bool_decide (len (enc_out e) + len out <= enc_cap e)
  then exists e', r = Ok e' /\ enc_out e' = enc_out e ++ out /\ enc_cap e' = enc_cap e
  else r = Panic.

(** [dec_gets d n f r]: [r] is the outcome of taking [n] bytes from [d]. *)
Definition dec_gets {A} (d : Dec) (n : Z) (f : list Z -> A) (r : res (A * Dec)) : Prop :=
  if bool_decide (0 <= n <= len (dec_rest d))
  then exists d', r = Ok (f (take (Z.to_nat n) (dec_rest d)), d') /\
       dec_rest d' = drop (Z.to_nat n) (dec_rest d)
  else r = Panic.

Fixpoint u64s_of (n : nat) (bs : list Z) : list Z :=
  match n with
  | O => []
  | S n => u64_of (take 8 bs) :: u64s_of n (drop 8 bs)
  end.
End marshal_views.

Class MarshalSpec `{Marshal} : Prop := {
  u64_le_length x : length (u64_le x) = 8%nat;
  u32_le_length x : length (u32_le x) = 4%nat;
  u64_le_bytes x : Forall is_byte (u64_le x);
  u32_le_bytes x : Forall is_byte (u32_le x);
  u64_of_le x : is_u64 x -> u64_of (u64_le x) = x;
  u32_of_le x : is_u32 x -> u32_of (u32_le x) = x;
  u64_of_u64 bs : is_u64 (u64_of bs);
  u32_of_u32 bs : is_u32 (u32_of bs);
  u64_of_zeros : u64_of (zeros 8) = 0;
  (* the bytes are little-endian *)
  u64_le_zero : u64_le 0 = zeros 8;
  u32_le_zero : u32_le 0 = zeros 4;
  NewEnc_out sz : enc_out (NewEnc sz) = [];
  NewEnc_cap sz : enc_cap (NewEnc sz) = sz;
  PutInt_spec e x : enc_puts e (u64_le x) (PutInt e x);
  PutInt32_spec e x : enc_puts e (u32_le x) (PutInt32 e x);
  PutInts_spec e xs : enc_puts e (concat (u64_le <$> xs)) (PutInts e xs);
  PutBytes_spec e bs : enc_puts e bs (PutBytes e bs);
  Finish_eq e : Finish e = enc_out e ++ zeros (enc_cap e - len (enc_out e));
  NewDec_rest bs : dec_rest (NewDec bs) = bs;
  GetInt_spec d : dec_gets d 8 u64_of (GetInt d);
  GetInt32_spec d : dec_gets d 4 u32_of (GetInt32 d);
  GetInts_spec d n : 0 <= n < 2 ^ 60 ->
    dec_gets d (8 * n) (u64s_of (Z.to_nat n)) (GetInts d n);
  GetBytes_spec d n : dec_gets d n id (GetBytes d n);
}.

Section marshal_lemmas.
Context `{MarshalSpec}.

Lemma enc_puts_ok e out r :
  enc_puts e out r -> len (enc_out e) + len out <= enc_cap e ->
  exists e', r = Ok e' /\ enc_out e' = enc_out e ++ out /\ enc_cap e' = enc_cap e.
Proof. unfold enc_puts. intros Hr Hle. by rewrite bool_decide_eq_true_2 in Hr by done. Qed.

Lemma dec_gets_app {A} d x rest (f : list Z -> A) n r :
  dec_gets d n f r -> dec_rest d = x ++ rest -> n = len x ->
  exists d', r = Ok (f x, d') /\ dec_rest d' = rest.
Proof.
  unfold dec_gets. intros Hr Hd ->. rewrite Hd in Hr.
  rewrite bool_decide_eq_true_2 in Hr by (len).
  destruct Hr as (d' & -> & Hrest). exists d'. unfold len in *.
  rewrite Nat2Z.id, take_app_length. rewrite Nat2Z.id, drop_app_length in Hrest. auto.
Qed.

Lemma dec_gets_short {A} d n (f : list Z -> A) r :
  dec_gets d n f r -> len (dec_rest d) < n -> r = Panic.
Proof. unfold dec_gets. intros Hr Hlt. by rewrite bool_decide_eq_false_2 in Hr by lia. Qed.

Lemma u64_le_len x : len (u64_le x) = 8.
Proof. unfold len. by rewrite u64_le_length. Qed.

Lemma u32_le_len x : len (u32_le x) = 4.
Proof. unfold len. by rewrite u32_le_length. Qed.

Lemma u64s_of_le xs rest :
  Forall is_u64 xs -> u64s_of (length xs) (concat (u64_le <$> xs) ++ rest) = xs.
Proof.
  induction 1 as [|x xs Hx _ IH]; [done|]. simpl. rewrite <-app_assoc.
  rewrite take_app_length', drop_app_length' by (by rewrite u64_le_length).
  rewrite u64_of_le by done. f_equal. apply IH.
Qed.

Lemma concat_u64_le_len xs : len (concat (u64_le <$> xs)) = 8 * len xs.
Proof.
  unfold len. induction xs as [|x xs IH]; [done|]. csimpl.
  rewrite length_app, u64_le_length. lia.
Qed.

Lemma GetInt_app d x rest : dec_rest d = u64_le x ++ rest -> is_u64 x ->
  exists d', GetInt d = Ok (x, d') /\ dec_rest d' = rest.
Proof.
  intros Hd Hx. destruct (dec_gets_app d _ _ _ _ _ (GetInt_spec d) Hd) as (d' & -> & Hr).
  - by rewrite u64_le_len.
  - rewrite u64_of_le by done. eauto.
Qed.

Lemma GetInt32_app d x rest : dec_rest d = u32_le x ++ rest -> is_u32 x ->
  exists d', GetInt32 d = Ok (x, d') /\ dec_rest d' = rest.
Proof.
  intros Hd Hx. destruct (dec_gets_app d _ _ _ _ _ (GetInt32_spec d) Hd) as (d' & -> & Hr).
  - by rewrite u32_le_len.
  - rewrite u32_of_le by done. eauto.
Qed.

Lemma GetInts_app d xs rest n :
  dec_rest d = concat (u64_le <$> xs) ++ rest -> Forall is_u64 xs ->
  n = len xs -> n < 2 ^ 60 ->
  exists d', GetInts d n = Ok (xs, d') /\ dec_rest d' = rest.
Proof.
  intros Hd Hxs -> Hn. pose proof (len_nonneg xs).
  destruct (dec_gets_app d _ _ _ _ _ (GetInts_spec d (len xs) ltac:(lia)) Hd) as (d' & -> & Hr).
  - by rewrite concat_u64_le_len.
  - exists d'. split; [|done]. do 2 f_equal. unfold len. rewrite Nat2Z.id.
    rewrite <-(app_nil_r (concat _)). by apply u64s_of_le.
Qed.

Lemma GetBytes_app d bs rest n : dec_rest d = bs ++ rest -> n = len bs ->
  exists d', GetBytes d n = Ok (bs, d') /\ dec_rest d' = rest.
Proof.
  intros Hd Hn. destruct (dec_gets_app d _ _ _ _ _ (GetBytes_spec d n) Hd Hn) as (d' & -> & Hr).
  eauto.
Qed.

Lemma GetInt_short d : len (dec_rest d) < 8 -> GetInt d = Panic.
Proof. intros Hlt. exact (dec_gets_short d 8 u64_of _ (GetInt_spec d) Hlt). Qed.

(** [enc_at e cap out]: the encoder [e] of capacity [cap] holds [out]. *)
Definition enc_at (e : Enc) (cap : Z) (out : list Z) : Prop :=
  enc_out e = out /\ enc_cap e = cap.

Lemma enc_at_new cap : enc_at (NewEnc cap) cap [].
Proof. split; [apply NewEnc_out|apply NewEnc_cap]. Qed.

Lemma enc_at_put e cap out bs r : enc_at e cap out -> enc_puts e bs r ->
  len out + len bs <= cap -> exists e', r = Ok e' /\ enc_at e' cap (out ++ bs).
Proof.
  intros [Ho Hc] Hr Hle. destruct (enc_puts_ok e bs r Hr) as (e' & -> & Ho' & Hc').
  - by rewrite Ho, Hc.
  - exists e'. split; [done|]. split; congruence.
Qed.

Lemma enc_at_finish e cap out : enc_at e cap out ->
  Finish e = out ++ zeros (cap - len out).
Proof. intros [Ho Hc]. by rewrite Finish_eq, Ho, Hc. Qed.
End marshal_lemmas.

(** [put_ok lem He] runs one [Put] through its fact [lem], for the encoder
    described by [He], and replaces [He]. *)
Ltac put_ok lem He :=
  let e := fresh "e" in let Hr := fresh in let He' := fresh in
  destruct (enc_at_put _ _ _ _ _ He lem) as (e & Hr & He');
  [rewrite ?len_app, ?u64_le_len, ?u32_le_len, ?concat_u64_le_len; try (len; lia)
  |rewrite Hr; clear Hr He; rename He' into He; cbn [mbind res_bind]].

(** [get_ok lem Hd] runs one [Get] whose result [lem] gives for the decoder
    described by [Hd], and replaces [Hd]. *)
Ltac get_ok lem Hd :=
  let d := fresh "d" in let Hr := fresh in let Hd' := fresh in
  edestruct lem as (d & Hr & Hd'); [exact Hd|try done..|
  rewrite Hr; clear Hr Hd; rename Hd' into Hd; cbn [mbind res_bind]].

(** ** [std] and [disk] *)

Class Std := { std_BytesEqual : list Z -> list Z -> bool }.

Class StdSpec `{Std} : Prop := {
  BytesEqual_eq a b : std_BytesEqual a b = bool_decide (a = b) }.

Class DiskPkg := {
  Disk : Type;
  disk_Size : Disk -> Z;
  disk_Read : Disk -> Z -> list Z;
  disk_Write : Disk -> Z -> list Z -> Disk;
}.

Class DiskSpec `{Common} `{DiskPkg} : Prop := {
  disk_Size_u64 d : 0 <= disk_Size d < 2 ^ 60;
  disk_Read_length d a : len (disk_Read d a) = BlockSize;
  disk_Write_Size d a b : disk_Size (disk_Write d a b) = disk_Size d;
  disk_Read_Write d a b a' : len b = BlockSize -> 0 <= a < disk_Size d ->
    disk_Read (disk_Write d a b) a' = if bool_decide (a' = a) then b else disk_Read d a';
}.

(** ** [addr]: the disk address of an object, a block and a bit offset in it *)

Record addr := MkAddr { Blkno : Z; Off : Z }.

#[export] Instance addr_eq_dec : EqDecision addr.
Proof. solve_decision. Defined.

#[export] Instance addr_countable : Countable addr.
Proof.
  refine (inj_countable' (fun a => (Blkno a, Off a)) (fun p => MkAddr p.1 p.2) _).
  by intros [].
Defined.

(** Two objects that share no bit. *)
Definition addr_disjoint (a : addr) (sz : Z) (a' : addr) (sz' : Z) : Prop :=
  Blkno a <> Blkno a' \/ Off a + sz <= Off a' \/ Off a' + sz' <= Off a.

(** ** [buf]: block numbers stored in a block, eight bytes each *)

Class Buf := {
  bnum_get : list Z -> Z -> res Z;               (* Buf.BnumGet *)
  bnum_put : list Z -> Z -> Z -> res (list Z);   (* Buf.BnumPut on Data *)
}.

Class BufSpec `{Buf} : Prop := {
  bnum_get_ok d o : 0 <= o -> o + 8 <= len d -> exists v, bnum_get d o = Ok v /\ is_u64 v;
  bnum_get_panic d o : len d < o + 8 -> bnum_get d o = Panic;
  bnum_put_ok d o v : 0 <= o -> o + 8 <= len d ->
    exists d', bnum_put d o v = Ok d' /\ length d' = length d;
  bnum_get_put_eq d o v d' : is_u64 v -> bnum_put d o v = Ok d' -> bnum_get d' o = Ok v;
  bnum_get_put_ne d o o' v d' : o + 8 <= o' \/ o' + 8 <= o ->
    bnum_put d o v = Ok d' -> bnum_get d' o' = bnum_get d o';
  bnum_get_zeros n o : 0 <= o -> o + 8 <= n -> bnum_get (zeros n) o = Ok 0;
}.

(** ** [jrnl] and [obj]: transactions over disk objects

    An [Op] holds buffers, keyed by address; [ReadBuf] returns the buffer of
    an address, loading it from the log on the first use, and the caller's
    writes to its [Data] are in place ([buf_Assign]).  [CommitWait] installs
    the dirty buffers atomically. *)

Record bufv := mkBufv { bv_sz : Z; bv_data : list Z; bv_dirty : bool }.

Class Journal := {
  Log : Type;
  Op : Type;
  jrnl_Begin : Log -> Op;
  ReadBuf : Log -> Op -> addr -> Z -> Op;
  buf_Data : Op -> addr -> list Z;
  buf_Assign : Op -> addr -> list Z -> Op;
  buf_SetDirty : Op -> addr -> Op;
  OverWrite : Op -> addr -> Z -> list Z -> res Op;
  NDirty : Op -> Z;
  CommitWait : Log -> Op -> bool -> bool * Log;
  obj_Flush : Log -> bool * Log;
  MkBitAddr : Z -> Z -> addr;
  (* views: the buffers of an Op; the committed objects and bits of a log,
     and those that survive a crash *)
  op_bufs : Op -> gmap addr bufv;
  log_obj : Log -> addr -> Z -> list Z;
  log_bit : Log -> addr -> bool;
  stable_obj : Log -> addr -> Z -> list Z;
}.

Section journal_views.
Context `{Journal}.

Definition bv_assign (d : list Z) (b : bufv) : bufv :=
  mkBufv (bv_sz b) d (bv_dirty b).

Definition bv_mark (b : bufv) : bufv :=
  mkBufv (bv_sz b) (bv_data b) true.

(** The dirty buffer of an address. *)
Definition op_dirty (o : Op) (a : addr) : option bufv :=
  b ← op_bufs o !! a; if bv_dirty b then Some b else None.

(** No dirty buffer of [o] shares a bit with the object. *)
Definition untouched (o : Op) (a : addr) (sz : Z) : Prop :=
  forall a' b, op_dirty o a' = Some b -> addr_disjoint a sz a' (bv_sz b).

(** Every other dirty buffer of [o] is disjoint from the one at [a]. *)
Definition sole_writer (o : Op) (a : addr) (sz : Z) : Prop :=
  forall a' b, a' <> a -> op_dirty o a' = Some b -> addr_disjoint a sz a' (bv_sz b).
End journal_views.

Class JournalSpec `{Common} `{Journal} : Prop := {
  Begin_bufs lg : op_bufs (jrnl_Begin lg) = ∅;
  ReadBuf_bufs lg o a sz : op_bufs (ReadBuf lg o a sz) =
    match op_bufs o !! a with
    | Some _ => op_bufs o
    | None => <[a := mkBufv sz (log_obj lg a sz) false]> (op_bufs o)
    end;
  buf_Data_eq o a : buf_Data o a = from_option bv_data [] (op_bufs o !! a);
  buf_Assign_bufs o a d : op_bufs (buf_Assign o a d) = alter (bv_assign d) a (op_bufs o);
  buf_SetDirty_bufs o a : op_bufs (buf_SetDirty o a) = alter bv_mark a (op_bufs o);
  OverWrite_ok o a sz d : from_option bv_sz sz (op_bufs o !! a) = sz ->
    exists o', OverWrite o a sz d = Ok o' /\
      op_bufs o' = <[a := mkBufv sz d true]> (op_bufs o);
  NDirty_eq o : NDirty o = Z.of_nat (size (filter (fun p => bv_dirty p.2 = true) (op_bufs o)));
  log_obj_length lg a n : 0 <= n -> len (log_obj lg a (8 * n)) = n;
  Commit_written lg o w lg' a b : CommitWait lg o w = (true, lg') ->
    op_dirty o a = Some b -> 8 <= bv_sz b -> 8 * len (bv_data b) = bv_sz b ->
    sole_writer o a (bv_sz b) ->
    log_obj lg' a (bv_sz b) = bv_data b;
  Commit_bit lg o w lg' a b v : CommitWait lg o w = (true, lg') ->
    op_dirty o a = Some b -> bv_sz b = 1 -> bv_data b = [v] -> sole_writer o a 1 ->
    log_bit lg' a = Z.testbit v (Off a mod 8);
  Commit_other lg o w lg' a sz : CommitWait lg o w = (true, lg') ->
    0 < sz -> untouched o a sz -> log_obj lg' a sz = log_obj lg a sz;
  Commit_other_bit lg o w lg' a : CommitWait lg o w = (true, lg') ->
    untouched o a 1 -> log_bit lg' a = log_bit lg a;
  Commit_fail lg o w lg' : CommitWait lg o w = (false, lg') ->
    log_obj lg' = log_obj lg /\ log_bit lg' = log_bit lg;
  Commit_fail_stable lg o w lg' : CommitWait lg o w = (false, lg') ->
    stable_obj lg' = stable_obj lg;
  Commit_stable lg o lg' : CommitWait lg o true = (true, lg') ->
    stable_obj lg' = log_obj lg';
  Flush_obj lg ok lg' : obj_Flush lg = (ok, lg') ->
    log_obj lg' = log_obj lg /\ log_bit lg' = log_bit lg /\
    (ok = true -> stable_obj lg' = log_obj lg');
  MkBitAddr_eq start n : 0 <= n ->
    MkBitAddr start n = MkAddr (start + n / NBITBLOCK) (n mod NBITBLOCK);
}.

(** ** [alloc]: an in-memory bitmap of numbers, 0 meaning none *)

Class AllocPkg := {
  Alloc : Type;
  MkAlloc : list Z -> Alloc;
  AllocNum : Alloc -> Z * Alloc;
  FreeNum : Alloc -> Z -> res Alloc;
  alloc_free : Alloc -> gset Z;
  alloc_max : Alloc -> Z;
}.

Class AllocSpec `{AllocPkg} : Prop := {
  AllocNum_some al n al' : 0 ∉ alloc_free al -> AllocNum al = (n, al') -> n <> 0 ->
    n ∈ alloc_free al /\ alloc_free al' = alloc_free al ∖ {[n]} /\ alloc_max al' = alloc_max al;
  AllocNum_none al al' : 0 ∉ alloc_free al -> AllocNum al = (0, al') ->
    alloc_free al = ∅ /\ alloc_free al' = ∅ /\ alloc_max al' = alloc_max al;
  FreeNum_ok al n : 0 < n < alloc_max al -> exists al', FreeNum al n = Ok al' /\
    alloc_free al' = alloc_free al ∪ {[n]} /\ alloc_max al' = alloc_max al;
  alloc_free_range al n : n ∈ alloc_free al -> 0 <= n < alloc_max al;
  MkAlloc_max bs : alloc_max (MkAlloc bs) = 8 * len bs;
  MkAlloc_free bs n : n ∈ alloc_free (MkAlloc bs) <->
    exists b, 0 <= n /\ bs !! Z.to_nat (n / 8) = Some b /\ Z.testbit b (n mod 8) = false;
}.

(** ** [lockmap]: a lock per number; [Acquire] of a held lock waits *)

Class LockPkg := {
  LockMap : Type;
  MkLockMap : LockMap;
  Acquire : LockMap -> Z -> option LockMap;
  Release : LockMap -> Z -> res LockMap;
  held : LockMap -> gset Z;
}.

Class LockSpec `{LockPkg} : Prop := {
  MkLockMap_held : held MkLockMap = ∅;
  Acquire_free lm n : n ∉ held lm -> exists lm', Acquire lm n = Some lm' /\
    held lm' = {[n]} ∪ held lm;
  Acquire_held lm n : n ∈ held lm -> Acquire lm n = None;
  Release_held lm n : n ∈ held lm -> exists lm', Release lm n = Ok lm' /\
    held lm' = held lm ∖ {[n]};
  Release_free lm n : n ∉ held lm -> Release lm n = Panic;
}.

(** ** [time]: the clock read by the n-th call of [time.Now] *)

Class Clock := {
  time_Unix : nat -> Z;
  time_Nanosecond : nat -> Z;
}.

(** ** [buf] on a raw disk, and [obj.MkLog] *)

Class BufDisk `{DiskPkg} `{Journal} := {
  buf_MkBufLoad : addr -> Z -> list Z -> list Z;          (* the Data loaded from a block *)
  buf_WriteDirect : Disk -> addr -> Z -> list Z -> Disk;  (* Buf.WriteDirect *)
  obj_MkLog : Disk -> Log;                                (* runs recovery *)
  obj_on_disk : Log -> Disk -> Log;  (* the log after direct writes to the disk under it *)
}.

Class BufDiskSpec `{Common} `{BufDisk} : Prop := {
  MkBufLoad_eq a sz blk : Off a mod 8 = 0 -> 0 <= Off a -> 0 <= sz -> Off a + sz <= 8 * len blk ->
    buf_MkBufLoad a sz blk = take (Z.to_nat (sz / 8)) (drop (Z.to_nat (Off a / 8)) blk);
  WriteDirect_eq d a sz data : Off a mod 8 = 0 -> 0 <= Off a -> sz = 8 * len data ->
    Off a + sz <= NBITBLOCK ->
    buf_WriteDirect d a sz data =
      disk_Write d (Blkno a) (splice (disk_Read d (Blkno a)) (Z.to_nat (Off a / 8)) data);
  (* a log with nothing in it reads through to the disk *)
  on_disk_obj d0 d a n : Off a mod 8 = 0 -> 0 <= Off a -> 0 <= n -> Off a + 8 * n <= NBITBLOCK ->
    log_obj (obj_on_disk (obj_MkLog d0) d) a (8 * n) =
      take (Z.to_nat n) (drop (Z.to_nat (Off a / 8)) (disk_Read d (Blkno a)));
  on_disk_bit d0 d a b : 0 <= Off a ->
    disk_Read d (Blkno a) !! Z.to_nat (Off a / 8) = Some b ->
    log_bit (obj_on_disk (obj_MkLog d0) d) a = Z.testbit b (Off a mod 8);
}.
