(* ===== verification/Reference.v ===== *)
(** Concrete instances of the external packages: little-endian encoding, an
    object store for the journal, finite sets for the allocator and the lock
    map.  They show that the documented facts of [External] are consistent, and
    the concrete runs of the components evaluate on them. *)
From S2P Require Import Prelude External.

(** ** Constants and helpers *)

#[export] Instance ref_common : Common := {|
  BlockSize := 4096; INODESZ := 128; NBITBLOCK := 32768; INODEBLK := 32;
  NINODEBITMAP := 1; LOGSIZE := 513; NULLINUM := 0; ROOTINUM := 1; NULLBNUM := 0;
  LogBlocks := 511; LogBytes := 511 * 4096 |}.

#[export] Instance ref_common_spec : CommonSpec.
Proof. split; simpl; lia. Qed.

#[export] Instance ref_util : Util := {|
  util_Min := Z.min;
  util_RoundUp n sz := w64 (n + sz - 1) / sz mod 2 ^ 64;
  util_SumOverflows a b := bool_decide (2 ^ 64 <= a + b) |}.

#[export] Instance ref_util_spec : UtilSpec.
Proof.
  split; simpl; [done| |intros; apply w64_range|done].
  intros n sz Hn Hsz Hlt. unfold is_u64 in *. rewrite w64_small by lia.
  apply Z.mod_small. split; [apply Z.div_pos; lia|].
  apply Z.le_lt_trans with (n + sz - 1); [|lia]. apply Z.div_le_upper_bound; nia.
Qed.

(** ** Little-endian encoding *)

Fixpoint le (n : nat) (x : Z) : list Z :=
  match n with
  | O => []
  | S n => x mod 256 :: le n (x / 256)
  end.

Fixpoint unle (bs : list Z) : Z :=
  match bs with
  | [] => 0
  | b :: bs => b mod 256 + 256 * unle bs
  end.

Lemma length_le n x : length (le n x) = n.
Proof. revert x. induction n; simpl; auto. Qed.

Lemma le_bytes n x : Forall is_byte (le n x).
Proof.
  revert x. induction n as [|n IH]; intros x; simpl; constructor; auto.
  unfold is_byte. pose proof (Z.mod_pos_bound x 256). lia.
Qed.

Lemma unle_le n x : unle (le n x) = x mod 256 ^ Z.of_nat n.
Proof.
  revert x. induction n as [|n IH]; intros x.
  { simpl. by rewrite Z.mod_1_r. }
  cbn [le unle]. rewrite IH, Nat2Z.inj_succ, Z.pow_succ_r by lia.
  rewrite Z.rem_mul_r by (try apply Z.pow_nonzero; lia).
  rewrite Z.mod_mod by lia. lia.
Qed.

Lemma unle_range bs : 0 <= unle bs < 256 ^ len bs.
Proof.
  unfold len. induction bs as [|b bs IH]; [simpl; lia|].
  cbn [unle length]. rewrite Nat2Z.inj_succ, Z.pow_succ_r by lia.
  pose proof (Z.mod_pos_bound b 256). lia.
Qed.

Lemma unle_zeros n : unle (replicate n 0) = 0.
Proof. induction n as [|n IH]; [done|]. cbn [replicate unle]. rewrite IH. done. Qed.

#[global] Arguments le : simpl never.
#[global] Arguments unle : simpl never.

Definition ref_put (e : Z * list Z) (out : list Z) : res (Z * list Z) :=
  if bool_decide (len e.2 + len out <= e.1) then Ok (e.1, e.2 ++ out) else Panic.

Definition ref_get {A} (f : list Z -> A) (d : list Z) (n : Z) : res (A * list Z) :=
  if bool_decide (0 <= n <= len d)
  then Ok (f (take (Z.to_nat n) d), drop (Z.to_nat n) d) else Panic.

Fixpoint ref_u64s (n : nat) (bs : list Z) : list Z :=
  match n with
  | O => []
  | S n => unle (take 8 bs) mod 2 ^ 64 :: ref_u64s n (drop 8 bs)
  end.

#[export] Instance ref_marshal : Marshal := {|
  Enc := Z * list Z;
  NewEnc sz := (sz, []);
  PutInt e x := ref_put e (le 8 x);
  PutInt32 e x := ref_put e (le 4 x);
  PutInts e xs := ref_put e (concat (le 8 <$> xs));
  PutBytes e bs := ref_put e bs;
  Finish e := e.2 ++ zeros (e.1 - len e.2);
  Dec := list Z;
  NewDec bs := bs;
  GetInt d := ref_get (fun bs => unle bs mod 2 ^ 64) d 8;
  GetInt32 d := ref_get (fun bs => unle bs mod 2 ^ 32) d 4;
  GetInts d n := ref_get (ref_u64s (Z.to_nat n)) d (8 * n);
  GetBytes d n := ref_get id d n;
  u64_le := le 8; u32_le := le 4;
  u64_of bs := unle bs mod 2 ^ 64; u32_of bs := unle bs mod 2 ^ 32;
  enc_out := snd; enc_cap := fst; dec_rest := id |}.

Lemma ref_put_spec (e : Enc) out : enc_puts e out (ref_put e out).
Proof. unfold enc_puts, ref_put. simpl. case_bool_decide; [|done]. by eexists. Qed.

Lemma ref_get_spec {A} (f : list Z -> A) (d : Dec) n : dec_gets d n f (ref_get f d n).
Proof. unfold dec_gets, ref_get. simpl. case_bool_decide; [|done]. by eexists. Qed.

#[export] Instance ref_marshal_spec : MarshalSpec.
Proof.
  split; simpl; try (intros; apply ref_put_spec); try (intros; apply ref_get_spec);
    intros; auto using length_le, le_bytes.
  - rewrite unle_le, Z.mod_mod by lia. by apply Z.mod_small.
  - rewrite unle_le, Z.mod_mod by lia. by apply Z.mod_small.
  - apply w64_range.
  - apply Z.mod_pos_bound. lia.
Qed.

#[export] Instance ref_buf : Buf := {|
  bnum_get d o := if bool_decide (0 <= o /\ o + 8 <= len d)
    then Ok (unle (take 8 (drop (Z.to_nat o) d)) mod 2 ^ 64) else Panic;
  bnum_put d o v := if bool_decide (0 <= o /\ o + 8 <= len d)
    then Ok (splice d (Z.to_nat o) (le 8 v)) else Panic |}.

Lemma take_drop_splice_eq {A} (l k : list A) n :
  (n + length k <= length l)%nat -> take (length k) (drop n (splice l n k)) = k.
Proof.
  intros Hk. unfold splice.
  rewrite drop_app_length' by len. by rewrite take_app_length.
Qed.

Lemma take_drop_splice_ne {A} (l k : list A) n m j :
  (n + length k <= length l)%nat -> (n + length k <= m \/ m + j <= n)%nat ->
  take j (drop m (splice l n k)) = take j (drop m l).
Proof.
  intros Hk Hm. apply list_eq. intros i.
  destruct (decide (i < j)%nat) as [Hi|Hi].
  - rewrite !lookup_take_lt, !lookup_drop by lia. apply lookup_splice_out; lia.
  - by rewrite !lookup_take_ge by lia.
Qed.

#[export] Instance ref_buf_spec : BufSpec.
Proof.
  split; simpl; intros.
  - rewrite bool_decide_eq_true_2 by lia. eexists. split; [done|apply w64_range].
  - by rewrite bool_decide_eq_false_2 by lia.
  - rewrite bool_decide_eq_true_2 by lia. eexists. split; [done|].
    unfold len in *. apply length_splice. rewrite length_le. lia.
  - case_bool_decide; simplify_eq. unfold len in *.
    rewrite length_splice by (rewrite length_le; lia).
    rewrite bool_decide_eq_true_2 by lia. f_equal.
    pose proof (take_drop_splice_eq d (le 8 v) (Z.to_nat o)) as Hs.
    rewrite length_le in Hs. rewrite Hs by lia.
    rewrite unle_le, Z.mod_mod by lia. by apply Z.mod_small.
  - case_bool_decide; simplify_eq. unfold len in *.
    rewrite length_splice by (rewrite length_le; lia).
    case_bool_decide as Ho; [|done]. f_equal. f_equal. f_equal.
    apply take_drop_splice_ne; rewrite length_le; lia.
  - rewrite bool_decide_eq_true_2 by len. unfold zeros.
    rewrite drop_replicate, take_replicate, unle_zeros. done.
Qed.

(** ** Disk *)

Record RefDisk := mkRefDisk { rd_size : Z; rd_blocks : gmap Z (list Z) }.

#[export] Instance ref_disk : DiskPkg := {|
  Disk := RefDisk;
  disk_Size d := rd_size d mod 2 ^ 60;
  disk_Read d a :=
    match rd_blocks d !! a with
    | Some b => if bool_decide (len b = 4096) then b else zeros 4096
    | None => zeros 4096
    end;
  disk_Write d a b := if bool_decide (len b = 4096)
    then mkRefDisk (rd_size d) (<[a := b]> (rd_blocks d)) else d |}.

#[export] Instance ref_disk_spec : DiskSpec.
Proof.
  split; simpl.
  - intros d. apply Z.mod_pos_bound. lia.
  - intros d a. destruct (rd_blocks d !! a); [case_bool_decide; [done|]|]; by len.
  - intros d a b. by case_bool_decide.
  - intros d a b a' Hb _. rewrite bool_decide_eq_true_2 by done. simpl.
    case_bool_decide as Ha; subst; simplify_map_eq; [|done].
    by rewrite bool_decide_eq_true_2.
Qed.

(** ** The journal as an object store

    Committed objects are keyed by address and size; an object that was never
    committed is read from the disk under the log. *)

Record RefLog := mkRefLog {
  rl_disk : RefDisk;
  rl_objs : gmap (addr * Z) (list Z);
  rl_bits : gmap addr bool;
  rl_stable : gmap (addr * Z) (list Z);
}.

(** The bytes of an object on the disk, padded at the end of the block. *)
Definition ref_base (d : RefDisk) (a : addr) (sz : Z) : list Z :=
  let bs := take (Z.to_nat (sz / 8)) (drop (Z.to_nat (Off a / 8)) (disk_Read d (Blkno a))) in
  bs ++ zeros (sz / 8 - len bs).

Definition ref_lookup (lg : RefLog) (m : gmap (addr * Z) (list Z)) (a : addr) (sz : Z) : list Z :=
  match m !! (a, sz) with
  | Some d => if bool_decide (8 * len d = sz) then d else ref_base (rl_disk lg) a sz
  | None => ref_base (rl_disk lg) a sz
  end.

Definition ref_bit (lg : RefLog) (a : addr) : bool :=
  match rl_bits lg !! a with
  | Some v => v
  | None => Z.testbit (default 0 (disk_Read (rl_disk lg) (Blkno a) !! Z.to_nat (Off a / 8))) (Off a mod 8)
  end.

Definition ref_dirty (o : gmap addr bufv) : gmap addr bufv :=
  filter (fun p => bv_dirty p.2 = true) o.

Definition ref_objs_of (d : gmap addr bufv) : gmap (addr * Z) (list Z) :=
  list_to_map ((fun p => ((p.1, bv_sz p.2), bv_data p.2)) <$> map_to_list d).

Definition ref_bits_of (d : gmap addr bufv) : gmap addr bool :=
  map_imap (fun a b => if bool_decide (bv_sz b = 1) then
                         match bv_data b with
                         | [v] => Some (Z.testbit v (Off a mod 8))
                         | _ => None
                         end
                       else None) d.

Definition ref_commit (lg : RefLog) (o : gmap addr bufv) (wait : bool) : bool * RefLog :=
  let d := ref_dirty o in
  if bool_decide (Z.of_nat (size d) <= LogBlocks) then
    let objs := ref_objs_of d ∪ rl_objs lg in
    (true, mkRefLog (rl_disk lg) objs (ref_bits_of d ∪ rl_bits lg)
                    (if wait then objs else rl_stable lg))
  else (false, lg).

#[export] Instance ref_journal : Journal := {|
  Log := RefLog;
  Op := gmap addr bufv;
  jrnl_Begin _ := ∅;
  ReadBuf lg o a sz :=
    match o !! a with
    | Some _ => o
    | None => <[a := mkBufv sz (ref_lookup lg (rl_objs lg) a sz) false]> o
    end;
  buf_Data o a := from_option bv_data [] (o !! a);
  buf_Assign o a d := alter (fun b => mkBufv (bv_sz b) d (bv_dirty b)) a o;
  buf_SetDirty o a := alter (fun b => mkBufv (bv_sz b) (bv_data b) true) a o;
  OverWrite o a sz d :=
    if bool_decide (from_option bv_sz sz (o !! a) = sz)
    then Ok (<[a := mkBufv sz d true]> o) else Panic;
  NDirty o := Z.of_nat (size (ref_dirty o));
  CommitWait := ref_commit;
  obj_Flush lg := (true, mkRefLog (rl_disk lg) (rl_objs lg) (rl_bits lg) (rl_objs lg));
  MkBitAddr start n := MkAddr (start + n / 32768) (n mod 32768);
  op_bufs o := o;
  log_obj lg := ref_lookup lg (rl_objs lg);
  log_bit := ref_bit;
  stable_obj lg := ref_lookup lg (rl_stable lg) |}.

Lemma ref_objs_of_lookup d a sz x :
  ref_objs_of d !! (a, sz) = Some x <->
  exists b, d !! a = Some b /\ bv_sz b = sz /\ bv_data b = x.
Proof.
  unfold ref_objs_of.
  assert (forall y, ((a, sz), y) ∈ (fun p => ((p.1, bv_sz p.2), bv_data p.2)) <$> map_to_list d
    <-> exists b, d !! a = Some b /\ bv_sz b = sz /\ bv_data b = y) as Hel.
  { intros y. rewrite list_elem_of_fmap. split.
    - intros ([a' b] & Heq & Hin). simplify_eq/=. apply elem_of_map_to_list in Hin. eauto.
    - intros (b & Hb & <- & <-). exists (a, b). by rewrite elem_of_map_to_list. }
  rewrite <-elem_of_list_to_map'; [apply Hel|].
  intros y (b & Hb & ? & <-)%Hel (b' & Hb' & ? & <-)%Hel. by simplify_eq.
Qed.

Lemma ref_dirty_lookup (o : gmap addr bufv) a :
  ref_dirty o !! a = (b ← o !! a; if bv_dirty b then Some b else None).
Proof.
  unfold ref_dirty. destruct (o !! a) as [b|] eqn:Ho; simpl.
  - destruct (bv_dirty b) eqn:Hd.
    + by apply map_lookup_filter_Some.
    + apply map_lookup_filter_None. right. intros b' Hb' Hd'. simpl in Hd'. congruence.
  - apply map_lookup_filter_None. by left.
Qed.

Lemma ref_untouched_objs (o : Op) a sz :
  0 < sz -> untouched o a sz -> ref_objs_of (ref_dirty o) !! (a, sz) = None.
Proof.
  intros Hsz Hun. destruct (ref_objs_of _ !! _) eqn:Heq; [|done]. exfalso.
  apply ref_objs_of_lookup in Heq as (b & Hb & <- & _).
  rewrite ref_dirty_lookup in Hb. specialize (Hun a b Hb).
  unfold addr_disjoint in Hun. lia.
Qed.

Lemma ref_lookup_eq lg lg' m m' a sz : rl_disk lg = rl_disk lg' ->
  m !! (a, sz) = m' !! (a, sz) -> ref_lookup lg m a sz = ref_lookup lg' m' a sz.
Proof. unfold ref_lookup. by intros -> ->. Qed.

Lemma ref_lookup_length lg m a n : 0 <= n -> len (ref_lookup lg m a (8 * n)) = n.
Proof.
  intros Hn. unfold ref_lookup.
  assert (len (ref_base (rl_disk lg) a (8 * n)) = n) as Hb.
  { unfold ref_base. rewrite Z.mul_comm, Z.div_mul by lia. rewrite len_app.
    rewrite len_zeros; unfold len; rewrite length_take; lia. }
  destruct (m !! _); [case_bool_decide; [lia|]|]; done.
Qed.

Lemma ref_commit_true lg o w lg' : ref_commit lg o w = (true, lg') ->
  rl_disk lg' = rl_disk lg /\
  rl_objs lg' = ref_objs_of (ref_dirty o) ∪ rl_objs lg /\
  rl_bits lg' = ref_bits_of (ref_dirty o) ∪ rl_bits lg /\
  (w = true -> rl_stable lg' = rl_objs lg').
Proof.
  unfold ref_commit. case_bool_decide; [|done]. intros [= <-]. simpl.
  split_and!; [done..|]. by intros ->.
Qed.

#[export] Instance ref_journal_spec : JournalSpec.
Proof.
  split; try done.
  - intros o a sz d Hsz. simpl in *. rewrite bool_decide_eq_true_2 by done. eauto.
  - intros. by apply ref_lookup_length.
  - intros lg o w lg' a b (_ & Hobjs & _ & _)%ref_commit_true Hd Hsz Hlen _. simpl.
    unfold ref_lookup. rewrite Hobjs.
    erewrite lookup_union_Some_l.
    2: { apply ref_objs_of_lookup. exists b. rewrite ref_dirty_lookup. eauto. }
    by rewrite bool_decide_eq_true_2.
  - intros lg o w lg' a b v (_ & _ & Hbits & _)%ref_commit_true Hd Hsz Hdat _. simpl.
    unfold ref_bit. rewrite Hbits. erewrite lookup_union_Some_l; [done|].
    unfold ref_bits_of. rewrite map_lookup_imap, ref_dirty_lookup.
    change (b ← o !! a; _) with (op_dirty o a). rewrite Hd. simpl.
    by rewrite Hsz, Hdat.
  - intros lg o w lg' a sz (Hdisk & Hobjs & _ & _)%ref_commit_true Hsz Hun. simpl.
    apply ref_lookup_eq; [done|]. rewrite Hobjs. apply lookup_union_r.
    by apply ref_untouched_objs.
  - intros lg o w lg' a (Hdisk & _ & Hbits & _)%ref_commit_true Hun. simpl. unfold ref_bit.
    rewrite Hdisk.
    assert (rl_bits lg' !! a = rl_bits lg !! a) as ->; [|done].
    rewrite Hbits. apply lookup_union_r. unfold ref_bits_of.
    rewrite map_lookup_imap, ref_dirty_lookup.
    change (b ← o !! a; _) with (op_dirty o a).
    destruct (op_dirty o a) as [b|] eqn:Hd; [|done]. simpl.
    specialize (Hun a b Hd). unfold addr_disjoint in Hun.
    rewrite bool_decide_eq_false_2 by lia. done.
  - intros lg o w lg'. simpl. unfold ref_commit. case_bool_decide; [done|].
    by intros [= <-].
  - intros lg o w lg'. simpl. unfold ref_commit. case_bool_decide; [done|].
    by intros [= <-].
  - intros lg o lg' (_ & _ & _ & Hst)%ref_commit_true. simpl. by rewrite Hst.
  - intros lg ok lg' Hf. simpl in *. by simplify_eq.
Qed.

(** ** Allocator and lock map as finite sets *)

Fixpoint zrange (n : nat) (lo : Z) : list Z :=
  match n with
  | O => []
  | S n => lo :: zrange n (lo + 1)
  end.

Lemma elem_of_zrange n lo m : m ∈ zrange n lo <-> lo <= m < lo + Z.of_nat n.
Proof.
  revert lo. induction n as [|n IH]; intros lo; simpl.
  - rewrite elem_of_nil. lia.
  - rewrite elem_of_cons, IH. lia.
Qed.

Record RefAlloc := mkRefAlloc { ra_nums : list Z; ra_max : Z }.

Definition ra_list (al : RefAlloc) : list Z :=
  filter (fun n => 0 <= n < ra_max al) (ra_nums al).

(** The clear bits of a bitmap whose first bit has number [n]. *)
Fixpoint free_bits (bs : list Z) (n : Z) : list Z :=
  match bs with
  | [] => []
  | b :: bs => filter (fun k => Z.testbit b (k - n) = false) (zrange 8 n) ++ free_bits bs (n + 8)
  end.

Lemma elem_of_free_bits bs n k : k ∈ free_bits bs n <->
  exists b, n <= k /\ bs !! Z.to_nat ((k - n) / 8) = Some b /\ Z.testbit b ((k - n) mod 8) = false.
Proof.
  revert n. induction bs as [|b bs IH]; intros n; cbn [free_bits].
  { rewrite elem_of_nil. split; [done|]. by intros (b & _ & ? & _). }
  rewrite elem_of_app, list_elem_of_filter, elem_of_zrange, IH.
  assert (k - (n + 8) = k - n + (-1) * 8) as -> by lia.
  rewrite Z.div_add, Z.mod_add by lia. split.
  - intros [[Ht Hk]|(b' & Hk & Hb & Ht)].
    + exists b. rewrite Z.div_small, Z.mod_small by lia. split_and!; [lia|done|done].
    + exists b'. assert (0 <= (k - n) / 8 - 1).
      { assert (1 <= (k - n) / 8) by (apply Z.div_le_lower_bound; lia). lia. }
      replace (Z.to_nat ((k - n) / 8)) with (S (Z.to_nat ((k - n) / 8 + -1))) by lia.
      split_and!; [lia|done|done].
  - intros (b' & Hk & Hb & Ht). destruct (decide (k < n + 8)) as [Hlt|Hge].
    + left. rewrite Z.div_small in Hb by lia. rewrite Z.mod_small in Ht by lia.
      injection Hb as ->. split; [done|lia].
    + right. exists b'. assert (1 <= (k - n) / 8) by (apply Z.div_le_lower_bound; lia).
      replace (Z.to_nat ((k - n) / 8)) with (S (Z.to_nat ((k - n) / 8 + -1))) in Hb by lia.
      split_and!; [lia|done|done].
Qed.

#[export] Instance ref_alloc : AllocPkg := {|
  Alloc := RefAlloc;
  MkAlloc bs := mkRefAlloc (free_bits bs 0) (8 * len bs);
  AllocNum al :=
    match ra_list al with
    | n :: _ => (n, mkRefAlloc (filter (fun m => m <> n) (ra_nums al)) (ra_max al))
    | [] => (0, al)
    end;
  FreeNum al n :=
    if bool_decide (0 < n < ra_max al)
    then Ok (mkRefAlloc (n :: ra_nums al) (ra_max al)) else Panic;
  alloc_free al := list_to_set (ra_list al);
  alloc_max := ra_max |}.

Lemma ra_free_spec al n :
  n ∈ (list_to_set (ra_list al) : gset Z) <-> 0 <= n < ra_max al /\ n ∈ ra_nums al.
Proof. unfold ra_list. by rewrite elem_of_list_to_set, list_elem_of_filter. Qed.

#[export] Instance ref_alloc_spec : AllocSpec.
Proof.
  split; simpl.
  - intros al n al' H0 Hal Hn. destruct (ra_list al) as [|m ms] eqn:Hel; simplify_eq.
    assert (n ∈ (list_to_set (ra_list al) : gset Z)) as Hin
      by (rewrite Hel; apply elem_of_list_to_set; by left).
    rewrite <-Hel. split_and!; [done| |done]. apply set_eq. intros x.
    rewrite elem_of_difference, !ra_free_spec, elem_of_singleton. simpl.
    rewrite list_elem_of_filter. tauto.
  - intros al al' H0 Hal. destruct (ra_list al) as [|m ms] eqn:Hel; simplify_eq.
    + rewrite Hel. done.
    + exfalso. apply H0, elem_of_list_to_set. by left.
  - intros al n Hn. rewrite bool_decide_eq_true_2 by done. eexists. split; [done|].
    split; [|done]. apply set_eq. intros x.
    rewrite elem_of_union, !ra_free_spec, elem_of_singleton. simpl. set_solver by lia.
  - intros al n. rewrite ra_free_spec. tauto.
  - done.
  - intros bs n. rewrite ra_free_spec. simpl. rewrite elem_of_free_bits, Z.sub_0_r.
    split; [by intros (_ & b & ?); exists b|]. intros (b & Hn & Hb & Ht). split; [|by exists b].
    apply lookup_lt_Some in Hb. unfold len. pose proof (Z.div_pos n 8).
    pose proof (Z.div_mod n 8). pose proof (Z.mod_pos_bound n 8). lia.
Qed.

#[export] Instance ref_lock : LockPkg := {|
  LockMap := gset Z;
  MkLockMap := ∅;
  Acquire lm n := if bool_decide (n ∈ lm) then None else Some ({[n]} ∪ lm);
  Release lm n := if bool_decide (n ∈ lm) then Ok (lm ∖ {[n]}) else Panic;
  held lm := lm |}.

#[export] Instance ref_lock_spec : LockSpec.
Proof.
  split; simpl; intros; try case_bool_decide; eauto; done.
Qed.

#[export] Instance ref_std : Std := {| std_BytesEqual a b := bool_decide (a = b) |}.

#[export] Instance ref_std_spec : StdSpec.
Proof. by split. Qed.

#[export] Instance ref_clock : Clock := {|
  time_Unix n := 1000 + Z.of_nat n;
  time_Nanosecond n := 0 |}.

#[export] Instance ref_bufdisk : BufDisk := {|
  buf_MkBufLoad a sz blk := take (Z.to_nat (sz / 8)) (drop (Z.to_nat (Off a / 8)) blk);
  buf_WriteDirect d a sz data :=
    disk_Write d (Blkno a) (splice (disk_Read d (Blkno a)) (Z.to_nat (Off a / 8)) data);
  obj_MkLog d := mkRefLog d ∅ ∅ ∅ : Log;
  obj_on_disk lg d := mkRefLog d (rl_objs lg) (rl_bits lg) (rl_stable lg) : Log |}.

#[export] Instance ref_bufdisk_spec : BufDiskSpec.
Proof.
  split; try done.
  - intros d0 d a n Hm Ho Hn Hfit.
    change (log_obj _ a (8 * n)) with (ref_base d a (8 * n)). unfold ref_base.
    assert (Off a / 8 * 8 = Off a) by (pose proof (Z.div_mod (Off a) 8); lia).
    pose proof (disk_Read_length d (Blkno a)) as Hl. rewrite BlockSize_eq in Hl. rewrite NBITBLOCK_eq in Hfit.
    rewrite Z.mul_comm, Z.div_mul by lia. unfold len in *.
    rewrite length_take, length_drop.
    replace (n - _) with 0 by lia. by rewrite app_nil_r.
  - intros d0 d a b Ho Hb. change (log_bit _ a) with (ref_bit (mkRefLog d ∅ ∅ ∅) a).
    unfold ref_bit. cbn [rl_bits rl_disk]. by rewrite lookup_empty, Hb.
Qed.

(** *** The log of an empty disk *)

Definition zero_log (n : Z) : Log := mkRefLog (mkRefDisk n ∅) ∅ ∅ ∅.

Lemma zero_disk_Read n a : disk_Read (mkRefDisk n ∅) a = zeros 4096.
Proof. simpl. by rewrite lookup_empty. Qed.

Lemma zero_log_bit n a : log_bit (zero_log n) a = false.
Proof.
  change (log_bit (zero_log n) a) with (ref_bit (mkRefLog (mkRefDisk n ∅) ∅ ∅ ∅) a).
  unfold ref_bit. cbn [rl_bits rl_disk]. rewrite lookup_empty, zero_disk_Read.
  assert (default 0 (zeros 4096 !! Z.to_nat (Off a / 8)) = 0) as ->; [|apply Z.testbit_0_l].
  unfold zeros. destruct (replicate _ 0 !! _) as [z|] eqn:Hz; [|done].
  by apply lookup_replicate in Hz as [-> _].
Qed.

Lemma zero_log_obj n a k : 0 <= k -> log_obj (zero_log n) a (8 * k) = zeros k.
Proof.
  intros Hk. change (log_obj (zero_log n) a (8 * k)) with (ref_base (mkRefDisk n ∅) a (8 * k)).
  unfold ref_base. rewrite zero_disk_Read, Z.mul_comm, Z.div_mul by lia.
  unfold zeros. rewrite drop_replicate, take_replicate. unfold len. rewrite length_replicate.
  rewrite <-replicate_add. f_equal. lia.
Qed.
