(* ===== verification/Super.v ===== *)
(** The disk layout of [super/super.go]: the log, the block and inode bitmaps,
    the inode blocks and the data blocks, in this order.  The disk itself is
    state of its own and not a field of [FsSuper]. *)
From S2P Require Import Prelude External Reference.

Record FsSuper := mkFsSuper {
  Size : Z;
  nLog : Z;
  NBlockBitmap : Z;
  NInodeBitmap : Z;
  nInodeBlk : Z;
  Maxaddr : Z;
}.

Section super.
Context `{Common} `{DiskPkg}.

Definition MkFsSuper (d : Disk) : FsSuper :=
  let sz := disk_Size d in
  let nblockbitmap := (sz / NBITBLOCK) +w 1 in
  {| Size := sz;
     nLog := LOGSIZE;
     NBlockBitmap := nblockbitmap;
     NInodeBitmap := NINODEBITMAP;
     nInodeBlk := (NINODEBITMAP * NBITBLOCK * INODESZ) / BlockSize;
     Maxaddr := sz |}.

Definition MaxBnum (fs : FsSuper) : Z := Maxaddr fs.

Definition BitmapBlockStart (fs : FsSuper) : Z := nLog fs.

Definition BitmapInodeStart (fs : FsSuper) : Z := BitmapBlockStart fs +w NBlockBitmap fs.

Definition InodeStart (fs : FsSuper) : Z := BitmapInodeStart fs +w NInodeBitmap fs.

Definition DataStart (fs : FsSuper) : Z := InodeStart fs +w nInodeBlk fs.

Definition Block2addr (fs : FsSuper) (blkno : Z) : addr := MkAddr blkno 0.

Definition NInode (fs : FsSuper) : Z := nInodeBlk fs *w INODEBLK.

Definition Inum2Addr (fs : FsSuper) (inum : Z) : addr :=
  MkAddr (InodeStart fs +w inum / INODEBLK) ((inum mod INODEBLK) *w INODESZ *w 8).

(** The layout of a disk: what [MkFsSuper] computes, without wrap-around. *)
Definition layout_ok (fs : FsSuper) : Prop :=
  0 <= Size fs < 2 ^ 60 /\ Maxaddr fs = Size fs /\ nLog fs = LOGSIZE /\
  NBlockBitmap fs = Size fs / 32768 + 1 /\ NInodeBitmap fs = NINODEBITMAP /\
  nInodeBlk fs = NINODEBITMAP * 1024.
End super.

Section super_proofs.
Context `{!Common} `{!CommonSpec} `{!DiskPkg} `{!DiskSpec}.

Lemma MkFsSuper_layout d : layout_ok (MkFsSuper d).
Proof.
  pose proof (disk_Size_u64 d) as Hsz. pose proof NINODEBITMAP_range.
  unfold layout_ok, MkFsSuper. simpl. csimp.
  assert (disk_Size d / 32768 <= disk_Size d) by (apply Z.div_le_upper_bound; lia).
  assert (0 <= disk_Size d / 32768) by (apply Z.div_pos; lia).
  rewrite w64_small by lia. split_and!; try lia.
  replace (NINODEBITMAP * 32768 * 128) with (NINODEBITMAP * 1024 * 4096) by lia.
  by rewrite Z.div_mul.
Qed.
End super_proofs.

Section layout.
Context `{!Common} `{!CommonSpec} (fs : FsSuper) (Hfs : layout_ok fs).

Lemma layout_bounds :
  0 < LOGSIZE < 2 ^ 16 /\ 0 < NBlockBitmap fs <= 2 ^ 60 /\ 0 < NINODEBITMAP < 2 ^ 16.
Proof.
  destruct Hfs as (Hsz & _ & _ & -> & _). pose proof LOGSIZE_range.
  pose proof NINODEBITMAP_range. split_and!; try lia.
  - assert (0 <= Size fs / 32768) by (apply Z.div_pos; lia). lia.
  - assert (Size fs / 32768 < 2 ^ 60) by (apply Z.div_lt_upper_bound; lia). lia.
Qed.

Lemma BitmapBlockStart_eq : BitmapBlockStart fs = LOGSIZE.
Proof. unfold BitmapBlockStart. by destruct Hfs as (_ & _ & -> & _). Qed.

Lemma BitmapInodeStart_eq : BitmapInodeStart fs = LOGSIZE + NBlockBitmap fs.
Proof.
  pose proof layout_bounds. unfold BitmapInodeStart.
  rewrite BitmapBlockStart_eq. apply w64_small. lia.
Qed.

Lemma InodeStart_eq : InodeStart fs = LOGSIZE + NBlockBitmap fs + NINODEBITMAP.
Proof.
  pose proof layout_bounds. unfold InodeStart. rewrite BitmapInodeStart_eq.
  destruct Hfs as (_ & _ & _ & _ & -> & _). apply w64_small. lia.
Qed.

Lemma DataStart_eq : DataStart fs = InodeStart fs + NINODEBITMAP * 1024.
Proof.
  pose proof layout_bounds. unfold DataStart. rewrite InodeStart_eq.
  destruct Hfs as (_ & _ & _ & _ & _ & ->). apply w64_small. lia.
Qed.

Lemma NInode_eq : NInode fs = NINODEBITMAP * 32768.
Proof.
  pose proof layout_bounds. unfold NInode. csimp.
  destruct Hfs as (_ & _ & _ & _ & _ & ->). rewrite w64_small; lia.
Qed.

Lemma Inum2Addr_eq inum : 0 <= inum < 2 ^ 62 ->
  Inum2Addr fs inum = MkAddr (InodeStart fs + inum / 32) (inum mod 32 * 1024).
Proof.
  intros Hi. pose proof layout_bounds as (? & ? & ?). unfold Inum2Addr. csimp.
  pose proof (Z.mod_pos_bound inum 32). pose proof (Z.div_mod inum 32).
  pose proof InodeStart_eq.
  wsimp. by rewrite <-Z.mul_assoc.
Qed.

Lemma layout_order :
  BitmapBlockStart fs < BitmapInodeStart fs /\ BitmapInodeStart fs < InodeStart fs /\
  InodeStart fs < DataStart fs.
Proof.
  pose proof layout_bounds.
  rewrite DataStart_eq, InodeStart_eq, BitmapInodeStart_eq, BitmapBlockStart_eq. lia.
Qed.

Lemma Inum2Addr_region inum : 0 <= inum < NInode fs ->
  InodeStart fs <= Blkno (Inum2Addr fs inum) < DataStart fs /\
  0 <= Off (Inum2Addr fs inum) /\
  Off (Inum2Addr fs inum) + INODESZ * 8 <= NBITBLOCK.
Proof.
  intros Hi. pose proof layout_bounds. rewrite NInode_eq in Hi.
  rewrite Inum2Addr_eq by lia. simpl. csimp. rewrite DataStart_eq.
  pose proof (Z.mod_pos_bound inum 32). pose proof (Z.div_pos inum 32).
  assert (inum / 32 < NINODEBITMAP * 1024) by (apply Z.div_lt_upper_bound; lia).
  lia.
Qed.

Lemma Inum2Addr_disjoint i j : 0 <= i < 2 ^ 62 -> 0 <= j < 2 ^ 62 -> i <> j ->
  addr_disjoint (Inum2Addr fs i) (INODESZ * 8) (Inum2Addr fs j) (INODESZ * 8).
Proof.
  intros Hi Hj Hne. rewrite !Inum2Addr_eq by done. unfold addr_disjoint. simpl. csimp.
  pose proof (Z.div_mod i 32). pose proof (Z.div_mod j 32). lia.
Qed.

Lemma Inum2Addr_inj i j : 0 <= i < 2 ^ 62 -> 0 <= j < 2 ^ 62 ->
  Inum2Addr fs i = Inum2Addr fs j -> i = j.
Proof.
  intros Hi Hj. rewrite !Inum2Addr_eq by done. intros [= Hb Ho].
  pose proof (Z.div_mod i 32). pose proof (Z.div_mod j 32). lia.
Qed.

(** Data blocks are whole blocks outside the inode region, so no inode object
    shares a bit with one. *)
Lemma Inum2Addr_data_disjoint inum b sz sz' : 0 <= inum < NInode fs -> DataStart fs <= b ->
  addr_disjoint (Inum2Addr fs inum) sz (Block2addr fs b) sz'.
Proof.
  intros Hi Hb. left. pose proof (Inum2Addr_region inum Hi).
  change (Blkno (Block2addr fs b)) with b. lia.
Qed.
End layout.

(** An inode number at or past [NInode] addresses the data region: the address
    computation has no range check of its own. *)
Lemma Inum2Addr_out_of_range `{!Common} `{!CommonSpec} fs inum :
  layout_ok fs -> NInode fs <= inum < 2 ^ 62 -> DataStart fs <= Blkno (Inum2Addr fs inum).
Proof.
  intros Hfs Hi. pose proof (layout_bounds fs Hfs). rewrite (NInode_eq fs Hfs) in Hi.
  rewrite (Inum2Addr_eq fs Hfs) by lia. simpl. rewrite (DataStart_eq fs Hfs).
  assert (NINODEBITMAP * 1024 <= inum / 32) by (apply Z.div_le_lower_bound; lia). lia.
Qed.

(** A disk of [n] blocks, all zero, and its layout. *)
Definition ref_super (n : Z) : FsSuper := MkFsSuper (mkRefDisk n ∅).

Lemma ref_super_layout n : layout_ok (ref_super n).
Proof. apply MkFsSuper_layout. Qed.

Section claims.
Context `{!Common} `{!CommonSpec} `{!DiskPkg} `{!DiskSpec}.

(** C38: in the layout of any disk, the regions follow one another in the order
    log, block bitmap, inode bitmap, inodes, data; the address of an inode lies
    in the inode region, inside one block, and shares no bit with that of
    another inode or with a data block. *)
Theorem inode_layout d i j b : let fs := MkFsSuper d in
  0 <= i < NInode fs -> 0 <= j < NInode fs -> i <> j -> DataStart fs <= b ->
  0 < BitmapBlockStart fs < BitmapInodeStart fs /\
  BitmapInodeStart fs < InodeStart fs < DataStart fs /\
  InodeStart fs <= Blkno (Inum2Addr fs i) < DataStart fs /\
  0 <= Off (Inum2Addr fs i) <= NBITBLOCK - INODESZ * 8 /\
  addr_disjoint (Inum2Addr fs i) (INODESZ * 8) (Inum2Addr fs j) (INODESZ * 8) /\
  addr_disjoint (Inum2Addr fs i) (INODESZ * 8) (Block2addr fs b) NBITBLOCK.
Proof.
  intros fs Hi Hj Hne Hb. pose proof (MkFsSuper_layout d) as Hfs. fold fs in Hfs.
  pose proof (layout_order fs Hfs) as (Hs1 & Hs2 & Hs3). pose proof (layout_bounds fs Hfs) as (Hl & _ & Hn).
  pose proof (Inum2Addr_region fs Hfs i Hi) as (Hr & Ho & He).
  rewrite (NInode_eq fs Hfs) in Hi, Hj. rewrite (BitmapBlockStart_eq fs Hfs) in *.
  split; [lia|]. split; [lia|]. split; [done|]. split; [lia|]. split.
  - apply (Inum2Addr_disjoint fs Hfs); lia.
  - apply (Inum2Addr_data_disjoint fs Hfs); [|done]. rewrite (NInode_eq fs Hfs). lia.
Qed.
End claims.

Lemma inode_layout_witness : let fs := ref_super 2000 in
  0 < BitmapBlockStart fs < BitmapInodeStart fs /\
  BitmapInodeStart fs < InodeStart fs < DataStart fs /\
  InodeStart fs <= Blkno (Inum2Addr fs 1) < DataStart fs /\
  0 <= Off (Inum2Addr fs 1) <= NBITBLOCK - INODESZ * 8 /\
  addr_disjoint (Inum2Addr fs 1) (INODESZ * 8) (Inum2Addr fs 2) (INODESZ * 8) /\
  addr_disjoint (Inum2Addr fs 1) (INODESZ * 8) (Block2addr fs 1600) NBITBLOCK.
Proof.
  apply (inode_layout (mkRefDisk 2000 ∅ : @Disk ref_disk) 1 2 1600); vm_compute; first [split; (reflexivity || discriminate)|discriminate].
Defined.
