(* ===== verification/Fh.v ===== *)
(** File handles ([fh/nfs_fh.go]): an inode number and a generation number,
    carried in the protocol's opaque handle. *)
From S2P Require Import Prelude Nfstypes External Reference.

Record Fh := mkFh { Ino : Z; Gen : Z }.

#[export] Instance Fh_eq_dec : EqDecision Fh.
Proof. solve_decision. Defined.

Section fh.
Context `{!Common} `{!Marshal} `{!Std}.

Definition MakeFh (fh3 : Nfs_fh3) : res Fh :=
  let dec := NewDec (Nfs_fh3_Data fh3) in
  '(i, dec) ← GetInt dec;
  '(g, _) ← GetInt dec;
  mret (mkFh i g).

Definition MakeFh3 (fh : Fh) : res Nfs_fh3 :=
  let enc := NewEnc 16 in
  enc ← PutInt enc (Ino fh);
  enc ← PutInt enc (Gen fh);
  mret (mkNfs_fh3 (Finish enc)).

Definition MkRootFh3 : res Nfs_fh3 :=
  let enc := NewEnc 16 in
  enc ← PutInt enc ROOTINUM;
  enc ← PutInt enc 1;
  mret (mkNfs_fh3 (Finish enc)).

Definition Equal (h1 h2 : Nfs_fh3) : bool :=
  std_BytesEqual (Nfs_fh3_Data h1) (Nfs_fh3_Data h2).

Definition fh_wf (fh : Fh) : Prop := is_u64 (Ino fh) /\ is_u64 (Gen fh).
End fh.

Section fh_proofs.
Context `{!Common} `{!CommonSpec} `{!Marshal} `{!MarshalSpec} `{!Std} `{!StdSpec}.

Lemma MakeFh3_eq fh : MakeFh3 fh = Ok (mkNfs_fh3 (u64_le (Ino fh) ++ u64_le (Gen fh))).
Proof.
  unfold MakeFh3. pose proof (enc_at_new 16) as He.
  put_ok (PutInt_spec (NewEnc 16) (Ino fh)) He. put_ok (PutInt_spec e (Gen fh)) He.
  rewrite (enc_at_finish _ _ _ He), !len_app, !u64_le_len. simpl. by rewrite app_nil_r.
Qed.

Lemma MakeFh_app fh rest : fh_wf fh ->
  MakeFh (mkNfs_fh3 (u64_le (Ino fh) ++ u64_le (Gen fh) ++ rest)) = Ok fh.
Proof.
  intros [Hi Hg]. unfold MakeFh. cbn [Nfs_fh3_Data].
  pose proof (NewDec_rest (u64_le (Ino fh) ++ u64_le (Gen fh) ++ rest)) as Hd.
  get_ok GetInt_app Hd. get_ok GetInt_app Hd. by destruct fh.
Qed.

Lemma MakeFh_short fh3 : len (Nfs_fh3_Data fh3) < 16 -> MakeFh fh3 = Panic.
Proof.
  intros Hlt. unfold MakeFh. set (bs := Nfs_fh3_Data fh3) in *.
  destruct (decide (len bs < 8)) as [H8|H8].
  - rewrite GetInt_short; [done|]. by rewrite NewDec_rest.
  - destruct (dec_gets_app (NewDec bs) (take 8 bs) (drop 8 bs) _ _ _
      (GetInt_spec (NewDec bs))) as (d & -> & Hd).
    + by rewrite NewDec_rest, take_drop.
    + len.
    + cbn [mbind res_bind]. rewrite GetInt_short; [done|]. rewrite Hd. len.
Qed.

(** A handle made by the server decodes to the inode number and generation it
    was made from, and fits the protocol's handle size. *)
Theorem MakeFh_MakeFh3 fh : fh_wf fh -> exists fh3,
  MakeFh3 fh = Ok fh3 /\ MakeFh fh3 = Ok fh /\ len (Nfs_fh3_Data fh3) <= NFS3_FHSIZE.
Proof.
  intros Hfh. eexists. split; [apply MakeFh3_eq|]. split.
  - pose proof (MakeFh_app fh [] Hfh) as Heq. by rewrite app_nil_r in Heq.
  - simpl. rewrite len_app, !u64_le_len. done.
Qed.

Lemma MkRootFh3_eq : MkRootFh3 = MakeFh3 (mkFh ROOTINUM 1).
Proof. done. Qed.
End fh_proofs.

Lemma MakeFh_MakeFh3_witness : exists fh3,
  MakeFh3 (mkFh 5 7) = Ok fh3 /\ MakeFh fh3 = Ok (mkFh 5 7) /\
  len (Nfs_fh3_Data fh3) <= NFS3_FHSIZE.
Proof. apply (MakeFh_MakeFh3 (mkFh 5 7)). split; done. Defined.
