(* ===== verification/Cache.v ===== *)
(** The inode cache ([cache/cache.go]): a bounded map from ids to slots with
    least-recently-used eviction.  Entries are heap objects: [c_store] is the
    heap, a pointer is a [Z], and the slot [LookupSlot] returns is the pointer
    of its entry, which stays valid when the entry leaves the cache.  The list
    [c_lru] holds the elements of Go's [container/list], each with an identity
    and the entry it points to.  [MkCache]'s mutex makes each call atomic. *)
From S2P Require Import Prelude External Reference.

Section cache.
Context {T : Type}.

Record entry := mkEntry {
  e_slot : option T;    (* slot.Obj *)
  e_lru : option Z;     (* lru, nil or an element *)
  e_id : Z;
}.

Record Cache := mkCache {
  c_entries : gmap Z Z;
  c_store : gmap Z entry;
  c_lru : list (Z * Z);
  c_next : Z;           (* the next fresh pointer *)
  c_sz : Z;
  c_cnt : Z;
}.

Definition MkCache (sz : Z) : Cache := mkCache ∅ ∅ [] 0 sz 0.

(** list.Remove: no effect when the element is not in the list. *)
Definition lru_remove (el : Z) (l : list (Z * Z)) : list (Z * Z) :=
  filter (fun p => p.1 <> el) l.

Definition evict : M Cache unit :=
  c ← get;
  match c_lru c with
  | [] => panic
  | (el, ep) :: _ =>
      match c_store c !! ep with
      | None => panic
      | Some e =>
          modify (fun _ => mkCache (delete (e_id e) (c_entries c)) (c_store c)
            (lru_remove el (c_lru c)) (c_next c) (c_sz c) (c_cnt c -w 1))
      end
  end.

Definition LookupSlot (id : Z) : M Cache Z :=
  c ← get;
  match c_entries c !! id with
  | Some ep =>
      match c_store c !! ep with
      | None => panic
      | Some e =>
          if bool_decide (id <> e_id e) then panic
          else match e_lru e with
          | None => mret ep
          | Some el =>
              _ ← modify (fun _ => mkCache (c_entries c)
                (<[ep := mkEntry (e_slot e) (Some (c_next c)) (e_id e)]> (c_store c))
                (lru_remove el (c_lru c) ++ [(c_next c, ep)]) (c_next c + 1) (c_sz c) (c_cnt c));
              mret ep
          end
      end
  | None =>
      _ ← (if c_sz c <=? c_cnt c then evict else mret tt);
      c ← get;
      let ep := c_next c in
      let el := c_next c + 1 in
      _ ← modify (fun _ => mkCache (<[id := ep]> (c_entries c))
        (<[ep := mkEntry None (Some el) id]> (c_store c))
        (c_lru c ++ [(el, ep)]) (c_next c + 2) (c_sz c) (c_cnt c +w 1));
      mret ep
  end.

(** [cslot.Obj] and [cslot.Obj = v] on a slot pointer. *)
Definition slot_get (ep : Z) : M Cache (option T) :=
  c ← get;
  match c_store c !! ep with
  | Some e => mret (e_slot e)
  | None => panic
  end.

Definition slot_set (ep : Z) (v : option T) : M Cache unit :=
  c ← get;
  match c_store c !! ep with
  | Some e => modify (fun _ => mkCache (c_entries c)
      (<[ep := mkEntry v (e_lru e) (e_id e)]> (c_store c)) (c_lru c) (c_next c) (c_sz c) (c_cnt c))
  | None => panic
  end.

(** ** Specification: the cached ids and slots, least recently used first *)

Definition lru_spec (sz : Z) (id : Z) (l : list (Z * option T)) : list (Z * option T) :=
  match list_find (fun p => p.1 = id) l with
  | Some (_, p) => filter (fun q => q.1 <> id) l ++ [p]
  | None => (if sz <=? len l then drop 1 l else l) ++ [(id, None)]
  end.

Definition cache_elem (c : Cache) (p : Z * Z) : option (Z * option T) :=
  e ← c_store c !! p.2; Some (e_id e, e_slot e).

Definition cache_abs (c : Cache) : list (Z * option T) := omap (cache_elem c) (c_lru c).

(** Every list element belongs to the entry of its id, which points back to
    it; every mapped id has one; the count is the number of entries and the
    capacity is respected. *)
Record cache_inv (c : Cache) : Prop := {
  ci_elem : forall el ep, (el, ep) ∈ c_lru c -> exists e, c_store c !! ep = Some e /\
    e_lru e = Some el /\ c_entries c !! e_id e = Some ep;
  ci_entry : forall id ep, c_entries c !! id = Some ep -> exists e el,
    c_store c !! ep = Some e /\ e_id e = id /\ e_lru e = Some el /\ (el, ep) ∈ c_lru c;
  ci_nodup : NoDup (c_lru c).*1;
  ci_cnt : c_cnt c = len (c_lru c);
  ci_cap : c_cnt c <= c_sz c;
  ci_sz : 0 < c_sz c < 2 ^ 63;
  ci_fresh_el : Forall (fun p => p.1 < c_next c) (c_lru c);
  ci_fresh_ep : forall ep, is_Some (c_store c !! ep) -> ep < c_next c;
}.
End cache.
Arguments entry : clear implicits.
Arguments Cache : clear implicits.

Section cache_proofs.
Context {T : Type}.
Implicit Types (c : Cache T) (id ep el : Z).

Lemma MkCache_inv sz : 0 < sz < 2 ^ 63 -> cache_inv (MkCache (T:=T) sz).
Proof.
  intros Hsz. split; simpl; try done.
  - intros el ep Hin. by apply not_elem_of_nil in Hin.
  - constructor.
  - lia.
  - intros ep [e He]. done.
Qed.

(** Distinct elements of the list hold distinct ids. *)
Lemma cache_elem_ptr c el el' ep : cache_inv c ->
  (el, ep) ∈ c_lru c -> (el', ep) ∈ c_lru c -> el = el'.
Proof.
  intros Hinv (e & He & Hl & _)%(ci_elem _ Hinv) (e' & He' & Hl' & _)%(ci_elem _ Hinv).
  congruence.
Qed.

Lemma cache_elem_Some c p : cache_inv c -> p ∈ c_lru c ->
  exists e, c_store c !! p.2 = Some e /\ cache_elem c p = Some (e_id e, e_slot e).
Proof.
  destruct p as [el ep]. intros Hinv (e & He & _)%(ci_elem _ Hinv).
  exists e. unfold cache_elem. simpl. by rewrite He.
Qed.

Lemma cache_abs_len c : cache_inv c -> len (cache_abs c) = len (c_lru c).
Proof.
  intros Hinv. unfold cache_abs, len. f_equal.
  assert (forall l, (forall p, p ∈ l -> p ∈ c_lru c) ->
    length (omap (cache_elem c) l) = length l) as Hl; [|by apply Hl].
  induction l as [|p l IH]; intros Hsub; [done|]. simpl.
  destruct (cache_elem_Some c p Hinv) as (e & _ & ->); [apply Hsub; by left|].
  simpl. f_equal. apply IH. intros q Hq. apply Hsub. by right.
Qed.

(** An id is cached exactly when it is mapped. *)
Lemma cache_abs_elem c id v : cache_inv c -> (id, v) ∈ cache_abs c <->
  exists ep e, c_entries c !! id = Some ep /\ c_store c !! ep = Some e /\ e_slot e = v.
Proof.
  intros Hinv. unfold cache_abs. rewrite list_elem_of_omap. split.
  - intros ([el ep] & Hin & Heq). destruct (ci_elem c Hinv el ep Hin) as (e & He & _ & Hid).
    unfold cache_elem in Heq. simpl in Heq. rewrite He in Heq. simplify_eq/=. eauto.
  - intros (ep & e & Hid & He & <-).
    destruct (ci_entry c Hinv id ep Hid) as (e' & el & He' & <- & _ & Hin). simplify_eq.
    exists (el, ep). split; [done|]. unfold cache_elem. simpl. by rewrite He.
Qed.

Lemma NoDup_fst_elem {A B} (l : list (A * B)) a b b' :
  NoDup l.*1 -> (a, b) ∈ l -> (a, b') ∈ l -> b = b'.
Proof.
  induction l as [|[x y] l IH]; simpl; intros Hnd Hb Hb'; [by apply not_elem_of_nil in Hb|].
  apply NoDup_cons in Hnd as [Hx Hnd].
  assert (forall z, (x, z) ∈ l -> False) as Hno.
  { intros z Hz. apply Hx. apply list_elem_of_fmap. by exists (x, z). }
  apply elem_of_cons in Hb. apply elem_of_cons in Hb'.
  destruct Hb as [Hb|Hb], Hb' as [Hb'|Hb']; simplify_eq; eauto; exfalso; eauto.
Qed.

Lemma lru_remove_sub el l p : p ∈ lru_remove el l <-> p.1 <> el /\ p ∈ l.
Proof. unfold lru_remove. by rewrite list_elem_of_filter. Qed.

Lemma lru_remove_id el l : el ∉ l.*1 -> lru_remove el l = l.
Proof.
  induction l as [|[x y] l IH]; intros Hel; [done|]. unfold lru_remove. simpl in *.
  rewrite filter_cons_True; [|simpl; set_solver]. f_equal. apply IH. set_solver.
Qed.

Lemma lru_remove_length el ep l : NoDup l.*1 -> (el, ep) ∈ l ->
  length l = S (length (lru_remove el l)).
Proof.
  induction l as [|[x y] l IH]; simpl; intros Hnd Hin; [by apply not_elem_of_nil in Hin|].
  apply NoDup_cons in Hnd as [Hx Hnd]. unfold lru_remove.
  destruct (decide (x = el)) as [->|Hne].
  - rewrite filter_cons_False by (simpl; tauto). f_equal.
    fold (lru_remove el l). by rewrite lru_remove_id.
  - rewrite filter_cons_True by done. simpl. f_equal. apply IH; [done|].
    apply elem_of_cons in Hin as [[= -> ->]|Hin]; done.
Qed.

Lemma lru_remove_nodup el l : NoDup l.*1 -> NoDup (lru_remove el l).*1.
Proof.
  intros Hnd. eapply sublist_NoDup; [exact Hnd|]. apply fmap_sublist.
  apply sublist_filter.
Qed.

(** *** The hit path *)
Section hit.
Context (c : Cache T) (Hinv : cache_inv c) (id ep el : Z) (e : entry T).
Context (Hid : c_entries c !! id = Some ep) (He : c_store c !! ep = Some e).
Context (Heid : e_id e = id) (Hel : e_lru e = Some el) (Hin : (el, ep) ∈ c_lru c).

Let c' : Cache T := mkCache (c_entries c)
  (<[ep := mkEntry (e_slot e) (Some (c_next c)) (e_id e)]> (c_store c))
  (lru_remove el (c_lru c) ++ [(c_next c, ep)]) (c_next c + 1) (c_sz c) (c_cnt c).

Lemma hit_other el' ep' : (el', ep') ∈ c_lru c -> el' <> el <-> ep' <> ep.
Proof.
  intros Hin'. split; intros Hne ->; apply Hne.
  - by eapply cache_elem_ptr.
  - by eapply NoDup_fst_elem; [apply (ci_nodup _ Hinv)|..].
Qed.

Lemma hit_inv : cache_inv c'.
Proof.
  pose proof (ci_fresh_el _ Hinv) as Hfe. rewrite Forall_forall in Hfe.
  split; simpl.
  - intros el' ep'. rewrite elem_of_app, lru_remove_sub, list_elem_of_singleton.
    intros [[Hne Hin']|[= -> ->]].
    + apply (hit_other _ _ Hin') in Hne. rewrite lookup_insert_ne by done. by apply (ci_elem _ Hinv).
    + rewrite lookup_insert_eq. eexists. split; [done|]. simpl. rewrite Heid. done.
  - intros id' ep' Hid'. destruct (ci_entry _ Hinv _ _ Hid') as (e' & el' & He' & <- & Hel' & Hin').
    setoid_rewrite elem_of_app. setoid_rewrite list_elem_of_singleton.
    destruct (decide (ep' = ep)) as [->|Hne].
    + rewrite lookup_insert_eq. simplify_eq. eauto 10.
    + rewrite lookup_insert_ne by done. exists e', el'. split_and!; [done..|]. left.
      apply lru_remove_sub. split; [|done]. by apply (hit_other _ _ Hin').
  - rewrite fmap_app. apply NoDup_app. split_and!.
    + apply lru_remove_nodup, (ci_nodup _ Hinv).
    + intros x Hx Hx'. apply list_elem_of_singleton in Hx' as ->.
      apply list_elem_of_fmap in Hx as (p & Hp & Hpin). apply lru_remove_sub in Hpin as [_ Hpin].
      apply Hfe in Hpin. simpl in *. lia.
    + apply NoDup_singleton.
  - rewrite (ci_cnt _ Hinv). unfold len. rewrite length_app. simpl.
    rewrite (lru_remove_length el ep (c_lru c)); [lia|apply (ci_nodup _ Hinv)|done].
  - apply (ci_cap _ Hinv).
  - apply (ci_sz _ Hinv).
  - apply Forall_app. split; [|constructor; [simpl; lia|constructor]].
    apply Forall_forall. intros p [_ Hp]%lru_remove_sub. apply Hfe in Hp. lia.
  - intros ep'. rewrite lookup_insert_is_Some. intros [<-|[_ Hs]].
    + assert (ep < c_next c) by (apply (ci_fresh_ep _ Hinv); eauto). lia.
    + apply (ci_fresh_ep _ Hinv) in Hs. lia.
Qed.

Lemma hit_abs : cache_abs c' = lru_spec (c_sz c) id (cache_abs c).
Proof.
  unfold lru_spec.
  destruct (list_find _ (cache_abs c)) as [[i [id' v]]|] eqn:Hf.
  - apply list_find_Some in Hf as (Hi & Heq & _). simpl in Heq. subst id'.
    apply list_elem_of_lookup_2 in Hi. apply (cache_abs_elem c id v Hinv) in Hi as (ep' & e' & Hep' & He' & <-).
    assert (ep' = ep) as -> by congruence. assert (e' = e) as -> by congruence.
    unfold cache_abs at 1. simpl. rewrite omap_app. f_equal.
    + unfold cache_abs.
      assert (forall l, (forall p, p ∈ l -> p ∈ c_lru c) ->
        omap (cache_elem c') (lru_remove el l) =
        filter (fun q => q.1 <> id) (omap (cache_elem c) l)) as Hl; [|by apply Hl].
      induction l as [|[el1 ep1] l IH]; intros Hsub; [done|].
      assert ((el1, ep1) ∈ c_lru c) as Hin1 by (apply Hsub; by left).
      assert (forall p, p ∈ l -> p ∈ c_lru c) as Hsub' by (intros; apply Hsub; by right).
      specialize (IH Hsub'). destruct (cache_elem_Some c _ Hinv Hin1) as (e1 & He1 & Hce).
      simpl in He1. destruct (ci_elem _ Hinv _ _ Hin1) as (e1' & He1' & _ & Hid1).
      assert (e1' = e1) as -> by congruence.
      unfold lru_remove. cbn [omap list_omap]. rewrite Hce.
      destruct (decide (el1 = el)) as [->|Hne].
      * assert (ep1 = ep) as -> by (by eapply NoDup_fst_elem; [apply (ci_nodup _ Hinv)|..]).
        assert (e1 = e) as -> by congruence.
        rewrite !filter_cons_False by (simpl; tauto). apply IH.
      * assert (ep1 <> ep) as Hne' by (by apply (hit_other _ _ Hin1)).
        rewrite !filter_cons_True; [|simpl; congruence|done]. cbn [omap list_omap].
        unfold cache_elem at 1. simpl. rewrite lookup_insert_ne, He1 by done. simpl.
        f_equal. apply IH.
    + simpl. unfold cache_elem. simpl. rewrite lookup_insert_eq. simpl. by rewrite Heid.
  - exfalso. apply list_find_None in Hf. rewrite Forall_forall in Hf.
    apply (Hf (id, e_slot e)); [|done]. apply (cache_abs_elem _ _ _ Hinv). eauto.
Qed.
End hit.

(** *** The miss path *)

Lemma omap_ext_in {A B} (f g : A -> option B) (l : list A) :
  (forall x, x ∈ l -> f x = g x) -> omap f l = omap g l.
Proof.
  induction l as [|x l IH]; intros Hfg; [done|]. simpl. rewrite (Hfg x) by (by left).
  destruct (g x); [f_equal|]; apply IH; intros y Hy; apply Hfg; by right.
Qed.

Lemma evict_ok c : cache_inv c -> c_sz c <= c_cnt c ->
  wp evict c (fun _ c' => cache_inv c' /\ c_cnt c' < c_sz c' /\ c_sz c' = c_sz c /\
    cache_abs c' = drop 1 (cache_abs c) /\
    forall id, c_entries c !! id = None -> c_entries c' !! id = None).
Proof.
  intros Hinv Hfull. pose proof (ci_sz _ Hinv) as Hsz. pose proof (ci_cnt _ Hinv) as Hcnt.
  pose proof (ci_cap _ Hinv) as Hcap. pose proof (ci_nodup _ Hinv) as Hnd.
  unfold evict. wp_steps. destruct (c_lru c) as [|[el ep] rest] eqn:Hl.
  { unfold len in Hcnt. simpl in Hcnt. lia. }
  assert ((el, ep) ∈ c_lru c) as Hin by (rewrite Hl; by left).
  destruct (ci_elem _ Hinv _ _ Hin) as (e & He & Hel & Hid). rewrite He.
  simpl in Hnd. apply NoDup_cons in Hnd as [Hx Hnd].
  assert (lru_remove el ((el, ep) :: rest) = rest) as Hrem.
  { unfold lru_remove. rewrite filter_cons_False by (simpl; tauto). by apply lru_remove_id. }
  apply wp_modify. rewrite Hrem.
  assert (forall el' ep', (el', ep') ∈ rest -> (el', ep') ∈ c_lru c) as Hsub
    by (intros; rewrite Hl; by right).
  assert (forall el', (el', ep) ∈ rest -> False) as Hno.
  { intros el' Hin'. apply Hx. apply list_elem_of_fmap. exists (el', ep). split; [|done].
    by apply (cache_elem_ptr c el el' ep Hinv Hin), Hsub. }
  unfold len in Hcnt. simpl in Hcnt.
  split_and!; simpl.
  - split; simpl.
    + intros el' ep' Hin'. destruct (ci_elem _ Hinv _ _ (Hsub _ _ Hin')) as (e' & ? & ? & ?).
      exists e'. split_and!; [done..|]. rewrite lookup_delete_ne; [done|].
      intros Heq. rewrite <-Heq in *. assert (ep' = ep) as -> by congruence. by eapply Hno.
    + intros id' ep' [Hne Hid']%lookup_delete_Some.
      destruct (ci_entry _ Hinv _ _ Hid') as (e' & el' & ? & ? & ? & Hin').
      exists e', el'. split_and!; [done..|]. rewrite Hl in Hin'.
      apply elem_of_cons in Hin' as [[= -> ->]|]; [congruence|done].
    + done.
    + rewrite w64_small by lia. unfold len. lia.
    + rewrite w64_small by lia. lia.
    + done.
    + pose proof (ci_fresh_el _ Hinv) as Hf. rewrite Hl in Hf. by apply Forall_cons in Hf as [_ Hf].
    + apply (ci_fresh_ep _ Hinv).
  - rewrite w64_small by lia. lia.
  - done.
  - unfold cache_abs. simpl. rewrite Hl. cbn [omap list_omap].
    destruct (cache_elem_Some c _ Hinv Hin) as (e' & _ & ->). done.
  - intros id Hnone. rewrite lookup_delete_None. by right.
Qed.

Lemma insert_inv c id : cache_inv c -> c_entries c !! id = None -> c_cnt c < c_sz c ->
  let c' := mkCache (<[id := c_next c]> (c_entries c))
    (<[c_next c := mkEntry None (Some (c_next c + 1)) id]> (c_store c))
    (c_lru c ++ [(c_next c + 1, c_next c)]) (c_next c + 2) (c_sz c) (c_cnt c +w 1) in
  cache_inv c' /\ cache_abs c' = cache_abs c ++ [(id, None)].
Proof.
  intros Hinv Hnone Hlt c'. pose proof (ci_sz _ Hinv). pose proof (ci_cnt _ Hinv) as Hcnt.
  pose proof (len_nonneg (c_lru c)).
  assert (c_store c !! c_next c = None) as Hfr.
  { apply eq_None_not_Some. intros Hs%(ci_fresh_ep _ Hinv). lia. }
  pose proof (ci_fresh_el _ Hinv) as Hfe. rewrite Forall_forall in Hfe.
  assert (forall el ep, (el, ep) ∈ c_lru c -> ep <> c_next c) as Hne.
  { intros el ep (e & He & _)%(ci_elem _ Hinv) ->. congruence. }
  split; [split; simpl|].
  - intros el ep. rewrite elem_of_app, list_elem_of_singleton. intros [Hin|[= -> ->]].
    + destruct (ci_elem _ Hinv _ _ Hin) as (e & He & Hel & Hid).
      rewrite lookup_insert_ne by (apply not_eq_sym; eauto). exists e. split_and!; [done..|].
      rewrite lookup_insert_ne by congruence. done.
    + rewrite lookup_insert_eq. eexists. split_and!; [done..|]. simpl. by rewrite lookup_insert_eq.
  - intros id' ep. rewrite lookup_insert_Some. setoid_rewrite elem_of_app.
    setoid_rewrite list_elem_of_singleton. intros [[<- <-]|[Hne' Hid']].
    + rewrite lookup_insert_eq. eauto 10.
    + destruct (ci_entry _ Hinv _ _ Hid') as (e' & el' & ? & ? & ? & Hin').
      exists e', el'. rewrite lookup_insert_ne by (apply not_eq_sym; eauto). eauto 10.
  - rewrite fmap_app. apply NoDup_app. split_and!; [apply (ci_nodup _ Hinv)| |apply NoDup_singleton].
    intros x (p & -> & Hp)%list_elem_of_fmap Hx'. apply list_elem_of_singleton in Hx'.
    apply Hfe in Hp. simpl in *. lia.
  - rewrite w64_small by lia. rewrite len_app, Hcnt. done.
  - rewrite w64_small by lia. lia.
  - done.
  - apply Forall_app. split; [|constructor; [simpl; lia|constructor]].
    apply Forall_forall. intros p Hp%Hfe. lia.
  - intros ep. rewrite lookup_insert_is_Some. intros [<-|[_ Hs]]; [lia|].
    apply (ci_fresh_ep _ Hinv) in Hs. lia.
  - unfold cache_abs. simpl. rewrite omap_app. f_equal.
    + apply omap_ext_in. intros [el ep] Hin. unfold cache_elem. simpl.
      by rewrite lookup_insert_ne by (apply not_eq_sym; eauto).
    + simpl. unfold cache_elem. simpl. by rewrite lookup_insert_eq.
Qed.

(** The cache refines an LRU list: [LookupSlot] never panics, keeps the
    invariant, returns the slot of the id asked for (the same one as before
    when the id was cached), and changes the cached ids as [lru_spec]: a hit
    moves the id to the most recent place, a miss adds it with an empty slot
    and drops the least recently used id exactly when the cache is full. *)
Lemma LookupSlot_ok c id : cache_inv c ->
  wp (LookupSlot id) c (fun ep c' =>
    cache_inv c' /\ cache_abs c' = lru_spec (c_sz c) id (cache_abs c) /\
    c_entries c' !! id = Some ep /\ c_sz c' = c_sz c /\
    (forall ep', c_entries c !! id = Some ep' -> ep' = ep)).
Proof.
  intros Hinv. unfold LookupSlot. wp_steps.
  destruct (c_entries c !! id) as [ep|] eqn:Hid.
  - destruct (ci_entry _ Hinv _ _ Hid) as (e & el & He & Heid & Hel & Hin).
    rewrite He, Heid, bool_decide_eq_false_2, Hel by tauto. wp_steps.
    subst id. split_and!; [by eapply hit_inv|by eapply hit_abs|done..|congruence].
  - assert (list_find (fun p => p.1 = id) (cache_abs c) = None) as Hf.
    { apply list_find_None, Forall_forall. intros [id' v] Hin Heq. simpl in Heq. subst id'.
      apply (cache_abs_elem _ _ _ Hinv) in Hin as (ep & e & ? & _). congruence. }
    unfold lru_spec. rewrite Hf, cache_abs_len, <-(ci_cnt _ Hinv) by done.
    apply wp_bind. destruct (Z.leb_spec (c_sz c) (c_cnt c)) as [Hle|Hlt].
    + eapply wp_mono; [by apply evict_ok|]. intros _ c1 (Hinv1 & Hlt & Hsz & Habs & Hdel).
      wp_steps. destruct (insert_inv c1 id Hinv1 (Hdel _ Hid) Hlt) as [Hi Ha].
      rewrite Ha, Habs. split_and!; [done|done|by rewrite lookup_insert_eq|done|done].
    + wp_steps. destruct (insert_inv c id Hinv Hid Hlt) as [Hi Ha].
      rewrite Ha. split_and!; [done|done|by rewrite lookup_insert_eq|done|done].
Qed.

(** *** Slots *)

Lemma lru_spec_slots sz id (l : list (Z * option T)) id' v :
  (id', v) ∈ lru_spec sz id l -> (id', v) ∈ l \/ v = None.
Proof.
  unfold lru_spec. destruct (list_find _ l) as [[i p]|] eqn:Hf; rewrite elem_of_app, list_elem_of_singleton.
  - apply list_find_Some in Hf as (Hi & _ & _). intros [Hin|Heq]; left.
    + by apply list_elem_of_filter in Hin as [_ Hin].
    + rewrite Heq. by eapply list_elem_of_lookup_2.
  - intros [Hin|[= _ ->]]; [left|by right]. destruct (sz <=? len l); [|done].
    eapply sublist_subseteq; [apply sublist_drop|exact Hin].
Qed.

(** A lookup fills no slot: what is cached afterwards was cached before, or is
    an empty slot. *)
Lemma LookupSlot_slots c id : cache_inv c ->
  wp (LookupSlot id) c (fun ep c' =>
    cache_inv c' /\ c_entries c' !! id = Some ep /\
    (forall id' v, (id', v) ∈ cache_abs c' -> (id', v) ∈ cache_abs c \/ v = None)).
Proof.
  intros Hinv. eapply wp_mono; [by apply LookupSlot_ok|].
  intros ep c' (Hinv' & Habs & Hep & _). split_and!; [done..|].
  intros id' v. rewrite Habs. apply lru_spec_slots.
Qed.

Lemma wp_slot_get c id ep (Q : option T -> Cache T -> Prop) : cache_inv c ->
  c_entries c !! id = Some ep -> (forall v, (id, v) ∈ cache_abs c -> Q v c) ->
  wp (slot_get ep) c Q.
Proof.
  intros Hinv Hep HQ. destruct (ci_entry _ Hinv _ _ Hep) as (e & el & He & Hid & _).
  unfold slot_get. wp_steps. rewrite He. wp_steps. apply HQ.
  apply cache_abs_elem; [done|]. by exists ep, e.
Qed.

(** The cache after the slot of the entry [e] at [ep] was assigned. *)
Definition stored c ep (e : entry T) v : Cache T := mkCache (c_entries c)
  (<[ep := mkEntry v (e_lru e) (e_id e)]> (c_store c)) (c_lru c) (c_next c) (c_sz c) (c_cnt c).

Lemma stored_inv c ep e v : cache_inv c -> c_store c !! ep = Some e -> cache_inv (stored c ep e v).
Proof.
  intros [Hce Hcen Hnd Hcn Hcap Hsz Hfe Hfp] He. split; simpl; try done.
  - intros el' ep' (e' & He' & Hl' & Hm')%Hce. destruct (decide (ep' = ep)) as [->|Hne].
    + rewrite lookup_insert_eq. eexists. split; [done|]. simpl. by simplify_eq.
    + rewrite lookup_insert_ne by done. by exists e'.
  - intros id' ep' Hm. destruct (Hcen _ _ Hm) as (e' & el' & He' & Hi' & Hl' & Hin').
    destruct (decide (ep' = ep)) as [->|Hne].
    + rewrite lookup_insert_eq. assert (e' = e) as -> by congruence. eexists _, el'. done.
    + rewrite lookup_insert_ne by done. by exists e', el'.
  - intros ep'. destruct (decide (ep' = ep)) as [->|Hne]; [|rewrite lookup_insert_ne by done; apply Hfp].
    intros _. by apply Hfp.
Qed.

Definition lru_put (id : Z) (v : option T) (l : list (Z * option T)) : list (Z * option T) :=
  (fun p => if decide (p.1 = id) then (id, v) else p) <$> l.

Lemma stored_abs c id ep e v : cache_inv c -> c_entries c !! id = Some ep -> c_store c !! ep = Some e ->
  cache_abs (stored c ep e v) = lru_put id v (cache_abs c).
Proof.
  intros Hinv Hep He. destruct (ci_entry _ Hinv _ _ Hep) as (e0 & _ & He0 & Hid & _).
  assert (e0 = e) as -> by congruence. unfold cache_abs. change (c_lru (stored c ep e v)) with (c_lru c).
  assert (forall l, (forall p, p ∈ l -> p ∈ c_lru c) -> omap (cache_elem (stored c ep e v)) l =
    lru_put id v (omap (cache_elem c) l)) as Hl; [|by apply Hl].
  induction l as [|[el ep'] l IH]; intros Hsub; [done|].
  assert ((el, ep') ∈ c_lru c) as Hin by (apply Hsub; by left).
  destruct (ci_elem _ Hinv _ _ Hin) as (e' & He' & _ & Hm').
  destruct (cache_elem_Some c _ Hinv Hin) as (e2 & He2 & Hce). simpl in He2. assert (e2 = e') as -> by congruence.
  cbn [omap list_omap]. rewrite Hce. unfold lru_put. csimpl. fold (lru_put id v (omap (cache_elem c) l)). rewrite <-IH by (intros p Hp; apply Hsub; by right).
  unfold cache_elem at 1. simpl. destruct (decide (ep' = ep)) as [->|Hne].
  - rewrite lookup_insert_eq. assert (e' = e) as -> by congruence. simpl. by rewrite decide_True, Hid.
  - rewrite lookup_insert_ne, He' by done. simpl. rewrite decide_False; [done|]. congruence.
Qed.

Lemma wp_slot_set c id ep v (Q : unit -> Cache T -> Prop) : cache_inv c ->
  c_entries c !! id = Some ep ->
  (forall c', cache_inv c' -> (forall id' v', (id', v') ∈ cache_abs c' ->
     (id' = id /\ v' = v) \/ (id' <> id /\ (id', v') ∈ cache_abs c)) -> Q tt c') ->
  wp (slot_set ep v) c Q.
Proof.
  intros Hinv Hep HQ. destruct (ci_entry _ Hinv _ _ Hep) as (e & el & He & _).
  unfold slot_set. wp_steps. rewrite He. wp_steps. apply HQ; [by apply stored_inv|]. intros id' v'.
  fold (stored c ep e v). rewrite (stored_abs c id ep e v) by done.
  intros ([id2 v2] & Heq & Hin)%list_elem_of_fmap. simpl in Heq.
  destruct (decide (id2 = id)); simplify_eq; [by left|by right].
Qed.

(** *** A client of the cache

    The file system uses a slot at once: it looks it up and reads it, or looks
    it up and fills it. *)
Inductive cache_op := CGet (id : Z) | CPut (id : Z) (v : option T).

Definition run_op (o : cache_op) : M (Cache T) (option T) :=
  match o with
  | CGet id => ep ← LookupSlot id; slot_get ep
  | CPut id v => ep ← LookupSlot id; _ ← slot_set ep v; mret v
  end.

Fixpoint run_ops (os : list cache_op) : M (Cache T) (list (option T)) :=
  match os with
  | [] => mret []
  | o :: os => r ← run_op o; rs ← run_ops os; mret (r :: rs)
  end.

(** The same on the list: the object of an id, and filling it. *)
Definition lru_get (id : Z) (l : list (Z * option T)) : option T :=
  match list_find (fun p => p.1 = id) l with
  | Some (_, p) => p.2
  | None => None
  end.

Definition lru_op (sz : Z) (o : cache_op) (l : list (Z * option T)) : option T * list (Z * option T) :=
  match o with
  | CGet id => (lru_get id l, lru_spec sz id l)
  | CPut id v => (v, lru_put id v (lru_spec sz id l))
  end.

Fixpoint lru_ops (sz : Z) (os : list cache_op) (l : list (Z * option T)) : list (option T) * list (Z * option T) :=
  match os with
  | [] => ([], l)
  | o :: os => let '(r, l) := lru_op sz o l in let '(rs, l) := lru_ops sz os l in (r :: rs, l)
  end.

Lemma lru_spec_value sz id (l : list (Z * option T)) v : (id, v) ∈ lru_spec sz id l -> v = lru_get id l.
Proof.
  unfold lru_spec, lru_get.
  destruct (list_find _ l) as [[i p]|] eqn:Hf; rewrite elem_of_app, list_elem_of_singleton.
  - intros [[Hne _]%list_elem_of_filter|<-]; done.
  - apply list_find_None in Hf. rewrite Forall_forall in Hf. intros [Hin|[= ->]]; [|done].
    destruct (Hf (id, v)); [|done]. destruct (sz <=? len l); [|done].
    eapply sublist_subseteq; [apply sublist_drop|exact Hin].
Qed.

Lemma run_op_ok o c : cache_inv c ->
  wp (run_op o) c (fun r c' => cache_inv c' /\ c_sz c' = c_sz c /\ (r, cache_abs c') = lru_op (c_sz c) o (cache_abs c)).
Proof.
  intros Hinv. destruct o as [id|id v]; simpl; apply wp_bind; (eapply wp_mono; [by apply LookupSlot_ok|]);
    intros ep c1 (Hinv1 & Habs & Hep & Hsz & _).
  - apply (wp_slot_get c1 id ep); [done|done|]. intros v Hv. split_and!; [done|done|].
    rewrite Habs in *. f_equal. by eapply lru_spec_value.
  - destruct (ci_entry _ Hinv1 _ _ Hep) as (e & el & He & _).
    unfold slot_set. wp_steps. rewrite He. wp_steps. fold (stored c1 ep e v).
    split_and!; [by apply stored_inv|done|]. by rewrite (stored_abs c1 id ep e v), Habs.
Qed.

Lemma run_ops_ok os c : cache_inv c ->
  wp (run_ops os) c (fun rs c' => cache_inv c' /\ c_sz c' = c_sz c /\
    (rs, cache_abs c') = lru_ops (c_sz c) os (cache_abs c)).
Proof.
  revert c. induction os as [|o os IH]; intros c Hinv; simpl; [by apply wp_ret|].
  apply wp_bind. eapply wp_mono; [by apply run_op_ok|]. intros r c1 (Hinv1 & Hsz1 & H1). rewrite <-H1.
  apply wp_bind. eapply wp_mono; [by apply IH|]. intros rs c2 (Hinv2 & Hsz2 & H2). apply wp_ret.
  rewrite Hsz1 in H2. rewrite <-H2. split_and!; [done|congruence|done].
Qed.

Lemma lru_spec_nodup sz id (l : list (Z * option T)) : NoDup l.*1 -> NoDup (lru_spec sz id l).*1.
Proof.
  intros Hl. unfold lru_spec. destruct (list_find _ l) as [[i p]|] eqn:Hf.
  - apply list_find_Some in Hf as (Hi & Hp & _). rewrite fmap_app. apply NoDup_app. split_and!.
    + eapply sublist_NoDup; [exact Hl|]. apply (fmap_sublist fst), sublist_filter.
    + intros x (q & -> & Hq)%list_elem_of_fmap. apply list_elem_of_filter in Hq as [Hne _].
      simpl. rewrite list_elem_of_singleton. congruence.
    + apply NoDup_singleton.
  - apply list_find_None in Hf. rewrite Forall_forall in Hf. rewrite fmap_app. apply NoDup_app.
    assert (forall k : list (Z * option T), sublist k l -> NoDup k.*1 /\
      (forall x, x ∈ k.*1 -> x ∉ [id])) as Hk.
    { intros k Hk. split; [eapply sublist_NoDup; [exact Hl|by apply (fmap_sublist fst)]|].
      intros x (q & -> & Hq)%list_elem_of_fmap. rewrite list_elem_of_singleton. intros Heq.
      apply (Hf q); [|done]. eapply sublist_subseteq; done. }
    destruct (sz <=? len l); (destruct (Hk (drop 1 l)) as [? ?]; [apply sublist_drop|]);
      (destruct (Hk l) as [? ?]; [done|]); split_and!; try done; apply NoDup_singleton.
Qed.

Lemma lru_op_nodup sz o (l : list (Z * option T)) : NoDup l.*1 -> NoDup (lru_op sz o l).2.*1.
Proof.
  intros Hl. destruct o as [id|id v]; simpl; [by apply lru_spec_nodup|].
  assert ((lru_put id v (lru_spec sz id l)).*1 = (lru_spec sz id l).*1) as ->; [|by apply lru_spec_nodup].
  unfold lru_put. rewrite <-list_fmap_compose. apply list_fmap_ext. intros _ p _. simpl.
  by destruct (decide (p.1 = id)).
Qed.

Lemma lru_ops_nodup sz os l : NoDup l.*1 -> NoDup (lru_ops sz os l).2.*1.
Proof.
  revert l. induction os as [|o os IH]; intros l Hl; simpl; [done|].
  pose proof (lru_op_nodup sz o l Hl) as Ho. destruct (lru_op sz o l) as [r l1]. specialize (IH l1 Ho).
  by destruct (lru_ops sz os l1).
Qed.

(** C39: the slots of the cache are those of a least-recently-used list: from an
    empty cache of capacity [sz], any sequence of uses, each of which looks up
    the slot of an id and reads it or fills it, runs without a panic and reads
    what the list holds: the object last stored for the id, or nothing when
    the id was not used yet or was dropped since. A use moves the id to the
    most recent place; an id that is not there is added with an empty slot,
    and drops the least recently used one exactly when there are [sz]. The
    cache never holds more than [sz] ids, none twice. *)
Theorem LookupSlot_refines sz os : 0 < sz < 2 ^ 63 ->
  exists rs c, run_ops os (MkCache sz) = Ok (rs, c) /\ cache_inv c /\
    (rs, cache_abs c) = lru_ops sz os [] /\ len (cache_abs c) <= sz /\ NoDup (cache_abs c).*1.
Proof.
  intros Hsz. destruct (run_ops_ok os (MkCache sz)) as (rs & c & Hr & Hinv & Hcs & Habs);
    [by apply MkCache_inv|]. exists rs, c. split_and!; [done|done|done| |].
  - rewrite cache_abs_len by done. simpl in Hcs. rewrite <-(ci_cnt _ Hinv), <-Hcs. apply Hinv.
  - pose proof (lru_ops_nodup sz os [] (NoDup_nil_2)) as Hnd. change ((rs, cache_abs c) = lru_ops sz os []) in Habs.
    by rewrite <-Habs in Hnd.
Qed.
End cache_proofs.
Arguments cache_op : clear implicits.

Lemma LookupSlot_refines_witness : exists rs c,
  run_ops [CPut 1 (Some 10); CPut 2 (Some 20); CGet 1; CGet 3; CGet 1; CGet 2] (MkCache (T:=Z) 2) = Ok (rs, c) /\
  cache_inv c /\
  (rs, cache_abs c) = ([Some 10; Some 20; Some 10; None; Some 10; None], [(1, Some 10); (2, None)]) /\
  len (cache_abs c) <= 2 /\ NoDup (cache_abs c).*1.
Proof.
  apply (LookupSlot_refines 2 [CPut 1 (Some 10); CPut 2 (Some 20); CGet 1; CGet 3; CGet 1; CGet 2]). lia.
Defined.
