(* ===== verification/Dcache.v ===== *)
(** The per-directory name cache ([dcache/dcache.go]). *)
From S2P Require Import Prelude.

Record Dentry := mkDentry { Dentry_Inum : Z; Dentry_Off : Z }.

#[export] Instance Dentry_eq_dec : EqDecision Dentry.
Proof. solve_decision. Defined.

Record Dcache := mkDcache_ { dc_cache : gmap (list Z) Dentry; Lastoff : Z }.

Definition MkDcache : Dcache := mkDcache_ ∅ 0.

Definition Add (name : list Z) (inum off : Z) (dc : Dcache) : Dcache :=
  mkDcache_ (<[name := mkDentry inum off]> (dc_cache dc)) (Lastoff dc).

Definition Lookup (name : list Z) (dc : Dcache) : option Dentry := dc_cache dc !! name.

Definition Del (name : list Z) (dc : Dcache) : bool * Dcache :=
  match dc_cache dc !! name with
  | Some _ => (true, mkDcache_ (delete name (dc_cache dc)) (Lastoff dc))
  | None => (false, dc)
  end.

Definition set_Lastoff (off : Z) (dc : Dcache) : Dcache := mkDcache_ (dc_cache dc) off.
