(* ===== verification/Alloctxn.v ===== *)
(** Transactions with block and inode allocation ([alloctxn/alloctxn.go]).

    [ASt] is an [AllocTxn] together with what it points to: the log, the two
    in-memory allocators it shares with other transactions, and the clock. *)
From S2P Require Import Prelude External Reference Super.

Section alloctxn.
Context `{!Common} `{!Journal} `{!AllocPkg}.

Record ASt := mkASt {
  a_super : FsSuper;
  a_log : Log;
  a_balloc : Alloc;
  a_ialloc : Alloc;
  a_op : Op;
  a_allocInums : list Z;
  a_freeInums : list Z;
  a_allocBnums : list Z;
  a_freeBnums : list Z;
  a_tick : nat;
}.

Definition set_op (o : Op) (s : ASt) : ASt :=
  mkASt (a_super s) (a_log s) (a_balloc s) (a_ialloc s) o (a_allocInums s)
    (a_freeInums s) (a_allocBnums s) (a_freeBnums s) (a_tick s).

Definition set_log (lg : Log) (s : ASt) : ASt :=
  mkASt (a_super s) lg (a_balloc s) (a_ialloc s) (a_op s) (a_allocInums s)
    (a_freeInums s) (a_allocBnums s) (a_freeBnums s) (a_tick s).

Definition set_balloc (al : Alloc) (s : ASt) : ASt :=
  mkASt (a_super s) (a_log s) al (a_ialloc s) (a_op s) (a_allocInums s)
    (a_freeInums s) (a_allocBnums s) (a_freeBnums s) (a_tick s).

Definition set_ialloc (al : Alloc) (s : ASt) : ASt :=
  mkASt (a_super s) (a_log s) (a_balloc s) al (a_op s) (a_allocInums s)
    (a_freeInums s) (a_allocBnums s) (a_freeBnums s) (a_tick s).

Definition set_lists (ai fi ab fb : list Z) (s : ASt) : ASt :=
  mkASt (a_super s) (a_log s) (a_balloc s) (a_ialloc s) (a_op s) ai fi ab fb (a_tick s).

Definition set_tick (n : nat) (s : ASt) : ASt :=
  mkASt (a_super s) (a_log s) (a_balloc s) (a_ialloc s) (a_op s) (a_allocInums s)
    (a_freeInums s) (a_allocBnums s) (a_freeBnums s) n.

(** Begin: a new transaction on the log and allocators of [s]. *)
Definition Begin (s : ASt) : ASt :=
  set_lists [] [] [] [] (set_op (jrnl_Begin (a_log s)) s).

Definition AllocINum : M ASt Z :=
  s ← get;
  let '(inum, al) := AllocNum (a_ialloc s) in
  _ ← modify (set_ialloc al);
  _ ← (if bool_decide (inum <> NULLINUM)
       then modify (fun s => set_lists (a_allocInums s ++ [inum]) (a_freeInums s)
                               (a_allocBnums s) (a_freeBnums s) s)
       else mret tt);
  mret inum.

Definition FreeINum (inum : Z) : M ASt unit :=
  modify (fun s => set_lists (a_allocInums s) (a_freeInums s ++ [inum])
                     (a_allocBnums s) (a_freeBnums s) s).

(** [Op.OverWrite] on the transaction's journal operation. *)
Definition op_OverWrite (a : addr) (sz : Z) (d : list Z) : M ASt unit :=
  s ← get;
  o ← lift (OverWrite (a_op s) a sz d);
  modify (set_op o).

(** The byte [WriteBits] stores for bit [n]. *)
Definition bit_byte (n : Z) (alloc : bool) : Z :=
  let b := w8 (Z.shiftl 1 (n mod 8)) in
  if negb alloc then Z.lxor 255 b else b.

Fixpoint WriteBits (nums : list Z) (blk : Z) (alloc : bool) : M ASt unit :=
  match nums with
  | [] => mret tt
  | n :: nums =>
      let a := MkBitAddr blk n in
      _ ← op_OverWrite a 1 [bit_byte n alloc];
      WriteBits nums blk alloc
  end.

Definition PreCommit : M ASt unit :=
  s ← get;
  _ ← WriteBits (a_allocInums s) (BitmapInodeStart (a_super s)) true;
  _ ← WriteBits (a_allocBnums s) (BitmapBlockStart (a_super s)) true;
  _ ← WriteBits (a_freeInums s) (BitmapInodeStart (a_super s)) false;
  WriteBits (a_freeBnums s) (BitmapBlockStart (a_super s)) false.

Fixpoint free_nums (nums : list Z) (al : Alloc) : res Alloc :=
  match nums with
  | [] => mret al
  | n :: nums => al ← FreeNum al n; free_nums nums al
  end.

Definition PostCommit : M ASt unit :=
  s ← get;
  al ← lift (free_nums (a_freeInums s) (a_ialloc s));
  _ ← modify (set_ialloc al);
  al ← lift (free_nums (a_freeBnums s) (a_balloc s));
  modify (set_balloc al).

Definition PostAbort : M ASt unit :=
  s ← get;
  al ← lift (free_nums (a_allocInums s) (a_ialloc s));
  _ ← modify (set_ialloc al);
  al ← lift (free_nums (a_allocBnums s) (a_balloc s));
  modify (set_balloc al).

Definition AssertValidBlock (blkno : Z) : M ASt unit :=
  s ← get;
  if (0 <? blkno) && ((blkno <? DataStart (a_super s)) || (MaxBnum (a_super s) <=? blkno))
  then panic else mret tt.

Definition AllocBlock : M ASt Z :=
  s ← get;
  let '(bn, al) := AllocNum (a_balloc s) in
  _ ← modify (set_balloc al);
  _ ← AssertValidBlock bn;
  _ ← (if bool_decide (bn <> NULLBNUM)
       then modify (fun s => set_lists (a_allocInums s) (a_freeInums s)
                               (a_allocBnums s ++ [bn]) (a_freeBnums s) s)
       else mret tt);
  mret bn.

(** The buffer of a block, named by its address. *)
Definition ReadBlock (blkno : Z) : M ASt addr :=
  _ ← AssertValidBlock blkno;
  s ← get;
  let a := Block2addr (a_super s) blkno in
  _ ← modify (set_op (ReadBuf (a_log s) (a_op s) a NBITBLOCK));
  mret a.

(** [Op.CommitWait], installing the transaction's buffers in the log. *)
Definition op_CommitWait (wait : bool) : M ASt bool :=
  s ← get;
  let '(ok, lg) := CommitWait (a_log s) (a_op s) wait in
  _ ← modify (set_log lg);
  mret ok.

(** [buf.Data], an assignment to its elements, and [buf.SetDirty()]. *)
Definition data_of (a : addr) : M ASt (list Z) := gets (fun s => buf_Data (a_op s) a).

Definition assign_data (a : addr) (d : list Z) : M ASt unit :=
  modify (fun s => set_op (buf_Assign (a_op s) a d) s).

Definition set_dirty (a : addr) : M ASt unit :=
  modify (fun s => set_op (buf_SetDirty (a_op s) a) s).

Definition ZeroBlock (blkno : Z) : M ASt unit :=
  buf ← ReadBlock blkno;
  d ← data_of buf;
  _ ← assign_data buf (replicate (length d) 0);
  set_dirty buf.

Definition FreeBlock (blkno : Z) : M ASt unit :=
  _ ← AssertValidBlock blkno;
  if bool_decide (blkno = 0) then mret tt
  else
    _ ← ZeroBlock blkno;
    modify (fun s => set_lists (a_allocInums s) (a_freeInums s)
                       (a_allocBnums s) (a_freeBnums s ++ [blkno]) s).
End alloctxn.

(** ** The transaction's view of disk objects, and its invariant *)

Section views.
Context `{!Common} `{!Journal} `{!AllocPkg}.

(** What a read of the object returns inside the transaction. *)
Definition obj (s : ASt) (a : addr) (sz : Z) : list Z :=
  from_option bv_data (log_obj (a_log s) a sz) (op_bufs (a_op s) !! a).

Definition blk (s : ASt) (b : Z) : list Z := obj s (Block2addr (a_super s) b) NBITBLOCK.

Definition iobj (s : ASt) (i : Z) : list Z := obj s (Inum2Addr (a_super s) i) (INODESZ * 8).

Definition valid_blk (sp : FsSuper) (b : Z) : Prop := DataStart sp <= b < MaxBnum sp.

Definition valid_inum (sp : FsSuper) (i : Z) : Prop := 0 < i < NInode sp.

(** A buffer is a whole data block or an inode. *)
Definition buf_kind (sp : FsSuper) (a : addr) (bv : bufv) : Prop :=
  (exists b, valid_blk sp b /\ a = Block2addr sp b /\ bv_sz bv = NBITBLOCK /\
     len (bv_data bv) = BlockSize) \/
  (exists i, 0 <= i < NInode sp /\ a = Inum2Addr sp i /\ bv_sz bv = INODESZ * 8 /\
     len (bv_data bv) = INODESZ).

(** A buffer that is not dirty holds the committed object. *)
Definition buf_ok (sp : FsSuper) (lg : Log) (a : addr) (bv : bufv) : Prop :=
  buf_kind sp a bv /\ (bv_dirty bv = false -> bv_data bv = log_obj lg a (bv_sz bv)).

(** Numbers in use or handed out by [al], against the numbers [nums] taken by
    the transaction. *)
Record alloc_inv (valid : Z -> Prop) (max : Z) (al : Alloc) (taken freed : list Z) : Prop := {
  al_free : forall n, n ∈ alloc_free al -> valid n;
  al_max : max <= alloc_max al;
  al_taken : Forall valid taken;
  al_taken_free : forall n, n ∈ taken -> n ∉ alloc_free al;
  al_freed : Forall valid freed;
}.

Record txn_inv (s : ASt) : Prop := {
  ti_layout : layout_ok (a_super s);
  ti_bufs_ok : map_Forall (buf_ok (a_super s) (a_log s)) (op_bufs (a_op s));
  ti_balloc : alloc_inv (valid_blk (a_super s)) (MaxBnum (a_super s)) (a_balloc s)
    (a_allocBnums s) (a_freeBnums s);
  ti_ialloc : alloc_inv (valid_inum (a_super s)) (NInode (a_super s)) (a_ialloc s)
    (a_allocInums s) (a_freeInums s);
}.

(** A free block reads as zeros, so a new block needs no initialisation, and
    the blocks the transaction freed were in use. *)
Record zero_inv (s : ASt) : Prop := {
  zi_zero : forall b, b ∈ alloc_free (a_balloc s) \/ b ∈ a_freeBnums s -> blk s b = zeros BlockSize;
  zi_freed : forall b, b ∈ a_freeBnums s -> b ∉ alloc_free (a_balloc s);
}.

(** [ReadBuf] on the buffers. *)
Definition load (lg : Log) (m : gmap addr bufv) (a : addr) (sz : Z) : gmap addr bufv :=
  match m !! a with
  | Some _ => m
  | None => <[a := mkBufv sz (log_obj lg a sz) false]> m
  end.
End views.

Section lemmas.
Context `{!Common} `{!CommonSpec} `{!Journal} `{!JournalSpec} `{!AllocPkg} `{!AllocSpec}.
Implicit Types (s : ASt) (b n : Z).

Lemma bufs_kind sp lg (m : gmap addr bufv) :
  map_Forall (buf_ok sp lg) m -> map_Forall (buf_kind sp) m.
Proof. intros Hm a bv Hbv. by destruct (Hm a bv Hbv). Qed.

Lemma ti_bufs s : txn_inv s -> map_Forall (buf_kind (a_super s)) (op_bufs (a_op s)).
Proof. intros Hinv. eapply bufs_kind, ti_bufs_ok, Hinv. Qed.

Lemma valid_blk_pos sp b : layout_ok sp -> valid_blk sp b -> 0 < b < 2 ^ 60.
Proof.
  intros Hl Hb. pose proof (layout_order sp Hl). pose proof (layout_bounds sp Hl).
  rewrite (BitmapBlockStart_eq sp Hl) in *. unfold valid_blk, MaxBnum in *.
  destruct Hl as (? & ? & _). lia.
Qed.

Lemma alloc_inv_zero valid max al t f : alloc_inv valid max al t f ->
  ~ valid 0 -> 0 ∉ alloc_free al.
Proof. intros Hinv Hv Hz%(al_free _ _ _ _ _ Hinv). done. Qed.

Lemma balloc_zero s : txn_inv s -> 0 ∉ alloc_free (a_balloc s).
Proof.
  intros Hinv. eapply alloc_inv_zero; [apply (ti_balloc _ Hinv)|].
  intros Hv%valid_blk_pos; [lia|apply (ti_layout _ Hinv)].
Qed.

Lemma ialloc_zero s : txn_inv s -> 0 ∉ alloc_free (a_ialloc s).
Proof.
  intros Hinv. eapply alloc_inv_zero; [apply (ti_ialloc _ Hinv)|].
  unfold valid_inum. lia.
Qed.

Lemma Block2addr_inj sp b b' : Block2addr sp b = Block2addr sp b' -> b = b'.
Proof. by intros [= ->]. Qed.

Lemma Inum_Block_ne sp i b : layout_ok sp -> 0 <= i < NInode sp -> valid_blk sp b ->
  Inum2Addr sp i <> Block2addr sp b.
Proof.
  intros Hl Hi [Hb _] Heq. pose proof (Inum2Addr_region sp Hl i Hi) as [Hr _].
  rewrite Heq in Hr. simpl in Hr. lia.
Qed.

Lemma buf_kind_blk sp b bv : layout_ok sp -> valid_blk sp b ->
  buf_kind sp (Block2addr sp b) bv -> bv_sz bv = NBITBLOCK /\ len (bv_data bv) = BlockSize.
Proof.
  intros Hl Hb [(b' & _ & _ & ? & ?)|(i & Hi & Heq & _)]; [done|].
  symmetry in Heq. by eapply Inum_Block_ne in Heq.
Qed.

Lemma buf_kind_inode sp i bv : layout_ok sp -> 0 <= i < NInode sp ->
  buf_kind sp (Inum2Addr sp i) bv -> bv_sz bv = INODESZ * 8 /\ len (bv_data bv) = INODESZ.
Proof.
  intros Hl Hi [(b & Hb & Heq & _)|(i' & _ & _ & ? & ?)]; [|done].
  exfalso. by eapply Inum_Block_ne.
Qed.

Lemma NBITBLOCK_bytes : NBITBLOCK = 8 * BlockSize.
Proof. csimp. done. Qed.

Lemma blk_length s b : txn_inv s -> valid_blk (a_super s) b -> len (blk s b) = BlockSize.
Proof.
  intros Hinv Hb. unfold blk, obj.
  destruct (op_bufs (a_op s) !! _) as [bv|] eqn:Hbv; simpl.
  - apply (ti_bufs _ Hinv) in Hbv. apply buf_kind_blk in Hbv; [tauto|apply (ti_layout _ Hinv)|done].
  - rewrite NBITBLOCK_bytes. apply log_obj_length. csimp. lia.
Qed.

(** *** Loading and writing buffers *)

Lemma load_lookup lg m a sz : load lg m a sz !! a =
  Some (default (mkBufv sz (log_obj lg a sz) false) (m !! a)).
Proof.
  unfold load. destruct (m !! a) eqn:Hm; simpl; [done|]. by rewrite lookup_insert_eq.
Qed.

Lemma load_lookup_ne lg m a a' sz : a' <> a -> load lg m a sz !! a' = m !! a'.
Proof. intros Hne. unfold load. destruct (m !! a); [done|]. by rewrite lookup_insert_ne. Qed.

Lemma load_ok sp lg m b : valid_blk sp b -> map_Forall (buf_ok sp lg) m ->
  map_Forall (buf_ok sp lg) (load lg m (Block2addr sp b) NBITBLOCK).
Proof.
  intros Hb Hm a bv. destruct (decide (a = Block2addr sp b)) as [->|Hne].
  - rewrite load_lookup. destruct (m !! Block2addr sp b) as [bv'|] eqn:Hbv; simpl; intros [= <-].
    + by apply (Hm _ _ Hbv).
    + split; [|done]. left. exists b. split_and!; [done..|]. simpl. rewrite NBITBLOCK_bytes.
      apply log_obj_length. csimp. lia.
  - rewrite load_lookup_ne by done. apply Hm.
Qed.

Lemma wp_AssertValidBlock s b Q : b = 0 \/ valid_blk (a_super s) b ->
  Q tt s -> wp (AssertValidBlock b) s Q.
Proof.
  intros Hb HQ. unfold AssertValidBlock. wp_steps.
  destruct (_ && _) eqn:Hv; [|by apply wp_ret].
  exfalso. unfold valid_blk in Hb.
  apply andb_true_iff in Hv as [Hp%Z.ltb_lt Hr]. apply orb_true_iff in Hr.
  rewrite Z.ltb_lt, Z.leb_le in Hr. lia.
Qed.

Lemma wp_ReadBlock s b (Q : addr -> ASt -> Prop) : valid_blk (a_super s) b ->
  (forall o', op_bufs o' = load (a_log s) (op_bufs (a_op s)) (Block2addr (a_super s) b) NBITBLOCK ->
     buf_Data o' (Block2addr (a_super s) b) = blk s b ->
     Q (Block2addr (a_super s) b) (set_op o' s)) ->
  wp (ReadBlock b) s Q.
Proof.
  intros Hb HQ. unfold ReadBlock. apply wp_bind, wp_AssertValidBlock; [by right|].
  wp_steps. set (o' := ReadBuf _ _ _ _).
  assert (op_bufs o' = load (a_log s) (op_bufs (a_op s)) (Block2addr (a_super s) b) NBITBLOCK) as Ho'.
  { unfold o', load. by rewrite ReadBuf_bufs. }
  apply HQ; [done|]. rewrite buf_Data_eq, Ho', load_lookup. simpl.
  unfold blk, obj. by destruct (op_bufs (a_op s) !! _).
Qed.

(** Writing [d] into the loaded buffer of block [b] and marking it dirty. *)
Lemma buf_write_bufs lg o o' sp b d : layout_ok sp -> valid_blk sp b ->
  map_Forall (buf_kind sp) (op_bufs o) ->
  op_bufs o' = load lg (op_bufs o) (Block2addr sp b) NBITBLOCK ->
  op_bufs (buf_SetDirty (buf_Assign o' (Block2addr sp b) d) (Block2addr sp b)) =
  <[Block2addr sp b := mkBufv NBITBLOCK d true]> (op_bufs o).
Proof.
  intros Hl Hb Hm Ho'. rewrite buf_SetDirty_bufs, buf_Assign_bufs, Ho'.
  apply map_eq. intros a. set (ab := Block2addr sp b) in *.
  rewrite !lookup_alter, lookup_insert. case_decide as Ha; [subst a|].
  - rewrite decide_True by done. rewrite load_lookup. simpl. f_equal. unfold bv_mark, bv_assign. simpl.
    destruct (op_bufs o !! ab) as [bv|] eqn:Hbv; simpl; [|done].
    apply Hm in Hbv. apply buf_kind_blk in Hbv as [-> _]; done.
  - by apply load_lookup_ne, not_eq_sym.
Qed.

Lemma wp_ZeroBlock s b (Q : unit -> ASt -> Prop) : txn_inv s -> valid_blk (a_super s) b ->
  (forall o', op_bufs o' = <[Block2addr (a_super s) b := mkBufv NBITBLOCK (zeros BlockSize) true]>
      (op_bufs (a_op s)) -> Q tt (set_op o' s)) ->
  wp (ZeroBlock b) s Q.
Proof.
  intros Hinv Hb HQ. unfold ZeroBlock. apply wp_bind, wp_ReadBlock; [done|].
  intros o' Ho' Hd. unfold data_of, assign_data, set_dirty. wp_steps. rewrite Hd.
  apply HQ.
  erewrite buf_write_bufs; [|apply (ti_layout _ Hinv)|done|apply (ti_bufs _ Hinv)|exact Ho'].
  do 2 f_equal. unfold zeros. f_equal. pose proof (blk_length s b Hinv Hb). unfold len in *. lia.
Qed.
End lemmas.

(** ** Operations keep the invariant *)

Section preserve.
Context `{!Common} `{!CommonSpec} `{!Journal} `{!JournalSpec} `{!AllocPkg} `{!AllocSpec}.
Implicit Types (s : ASt) (b n i : Z).

Lemma txn_inv_op s o' : txn_inv s -> map_Forall (buf_ok (a_super s) (a_log s)) (op_bufs o') ->
  txn_inv (set_op o' s).
Proof. intros [Hl _ Hb Hi] Hm. by split. Qed.

Lemma insert_blk_ok sp lg (m : gmap addr bufv) b d : valid_blk sp b -> len d = BlockSize ->
  map_Forall (buf_ok sp lg) m ->
  map_Forall (buf_ok sp lg) (<[Block2addr sp b := mkBufv NBITBLOCK d true]> m).
Proof. intros Hb Hd Hm. apply map_Forall_insert_2; [|done]. split; [|done]. left. by exists b. Qed.

Lemma insert_inode_ok sp lg (m : gmap addr bufv) i d : 0 <= i < NInode sp -> len d = INODESZ ->
  map_Forall (buf_ok sp lg) m ->
  map_Forall (buf_ok sp lg) (<[Inum2Addr sp i := mkBufv (INODESZ * 8) d true]> m).
Proof. intros Hi Hd Hm. apply map_Forall_insert_2; [|done]. split; [|done]. right. by exists i. Qed.

Lemma alloc_inv_take valid max al al' t f n : alloc_inv valid max al t f ->
  n ∈ alloc_free al -> alloc_free al' = alloc_free al ∖ {[n]} -> alloc_max al' = alloc_max al ->
  alloc_inv valid max al' (t ++ [n]) f.
Proof.
  intros [Hf Hm Ht Htf Hfr] Hn Hal Hmax. split; [| |apply Forall_app| |done].
  - intros m. rewrite Hal. set_solver.
  - lia.
  - split; [done|]. apply Forall_singleton. auto.
  - intros m. rewrite Hal. set_solver.
Qed.

Lemma alloc_inv_none valid max al al' t f : alloc_inv valid max al t f ->
  alloc_free al' = ∅ -> alloc_max al' = alloc_max al -> alloc_inv valid max al' t f.
Proof.
  intros [Hf Hm Ht Htf Hfr] Hal Hmax. split; rewrite ?Hal; [set_solver|lia|done|set_solver|done].
Qed.

Lemma alloc_inv_freed valid max al t f n : alloc_inv valid max al t f -> valid n ->
  alloc_inv valid max al t (f ++ [n]).
Proof.
  intros [Hf Hm Ht Htf Hfr] Hn. split; [done..|]. apply Forall_app. by rewrite Forall_singleton.
Qed.

(** AllocBlock returns a free block of the data region, and records it, or
    returns 0 when no block is free. *)
Lemma wp_AllocBlock s (Q : Z -> ASt -> Prop) : txn_inv s ->
  (forall al, alloc_free (a_balloc s) = ∅ -> alloc_free al = ∅ ->
     txn_inv (set_balloc al s) -> Q 0 (set_balloc al s)) ->
  (forall bn al, bn ∈ alloc_free (a_balloc s) -> valid_blk (a_super s) bn ->
     alloc_free al = alloc_free (a_balloc s) ∖ {[bn]} ->
     let s' := set_lists (a_allocInums s) (a_freeInums s) (a_allocBnums s ++ [bn])
                 (a_freeBnums s) (set_balloc al s) in
     txn_inv s' -> Q bn s') ->
  wp AllocBlock s Q.
Proof.
  intros Hinv HQ0 HQ1. pose proof (balloc_zero s Hinv) as Hz. pose proof (ti_balloc _ Hinv) as Hb.
  unfold AllocBlock. wp_steps. destruct (AllocNum (a_balloc s)) as [bn al] eqn:Hal. wp_steps.
  destruct (decide (bn = 0)) as [->|Hne].
  - destruct (AllocNum_none _ _ Hz Hal) as (He & He' & Hm).
    apply wp_AssertValidBlock; [by left|]. wp_steps. csimp.
    rewrite bool_decide_eq_false_2 by tauto. wp_steps. apply HQ0; [done|done|].
    destruct Hinv as [Hl Hk _ Hi]. split; simpl; [exact Hl|exact Hk| |exact Hi].
    eapply alloc_inv_none; [exact Hb|done|done].
  - destruct (AllocNum_some _ _ _ Hz Hal Hne) as (Hin & Hf & Hm).
    pose proof (al_free _ _ _ _ _ Hb _ Hin) as Hv.
    apply wp_AssertValidBlock; [by right|]. wp_steps. csimp.
    rewrite bool_decide_eq_true_2 by done. wp_steps. apply HQ1; [done..|].
    destruct Hinv as [Hl Hk _ Hi]. split; simpl; [exact Hl|exact Hk| |exact Hi].
    eapply alloc_inv_take; [exact Hb|done|done|done].
Qed.

Lemma wp_AllocINum s (Q : Z -> ASt -> Prop) : txn_inv s ->
  (forall al, alloc_free (a_ialloc s) = ∅ -> alloc_free al = ∅ ->
     txn_inv (set_ialloc al s) -> Q 0 (set_ialloc al s)) ->
  (forall n al, n ∈ alloc_free (a_ialloc s) -> valid_inum (a_super s) n ->
     alloc_free al = alloc_free (a_ialloc s) ∖ {[n]} ->
     let s' := set_lists (a_allocInums s ++ [n]) (a_freeInums s) (a_allocBnums s)
                 (a_freeBnums s) (set_ialloc al s) in
     txn_inv s' -> Q n s') ->
  wp AllocINum s Q.
Proof.
  intros Hinv HQ0 HQ1. pose proof (ialloc_zero s Hinv) as Hz. pose proof (ti_ialloc _ Hinv) as Hb.
  unfold AllocINum. wp_steps. destruct (AllocNum (a_ialloc s)) as [n al] eqn:Hal. wp_steps.
  destruct (decide (n = 0)) as [->|Hne].
  - destruct (AllocNum_none _ _ Hz Hal) as (He & He' & Hm). csimp.
    rewrite bool_decide_eq_false_2 by tauto. wp_steps. apply HQ0; [done|done|].
    destruct Hinv as [Hl Hk Hi _]. split; simpl; [exact Hl|exact Hk|exact Hi|].
    eapply alloc_inv_none; [exact Hb|done|done].
  - destruct (AllocNum_some _ _ _ Hz Hal Hne) as (Hin & Hf & Hm).
    pose proof (al_free _ _ _ _ _ Hb _ Hin) as Hv. csimp.
    rewrite bool_decide_eq_true_2 by done. wp_steps. apply HQ1; [done..|].
    destruct Hinv as [Hl Hk Hi _]. split; simpl; [exact Hl|exact Hk|exact Hi|].
    eapply alloc_inv_take; [exact Hb|done|done|done].
Qed.

Lemma zeros_BlockSize_len : len (zeros BlockSize) = BlockSize.
Proof. apply len_zeros. csimp. lia. Qed.

Lemma wp_FreeBlock s b (Q : unit -> ASt -> Prop) : txn_inv s -> valid_blk (a_super s) b ->
  (forall o', op_bufs o' = <[Block2addr (a_super s) b := mkBufv NBITBLOCK (zeros BlockSize) true]>
      (op_bufs (a_op s)) ->
    let s' := set_lists (a_allocInums s) (a_freeInums s) (a_allocBnums s)
                (a_freeBnums s ++ [b]) (set_op o' s) in
    txn_inv s' -> Q tt s') ->
  wp (FreeBlock b) s Q.
Proof.
  intros Hinv Hb HQ. pose proof (ti_layout _ Hinv) as Hl.
  pose proof (valid_blk_pos _ _ Hl Hb). unfold FreeBlock.
  apply wp_bind, wp_AssertValidBlock; [by right|]. rewrite bool_decide_eq_false_2 by lia.
  apply wp_bind, wp_ZeroBlock; [done..|]. intros o' Ho'. apply wp_modify, HQ; [done|].
  destruct Hinv as [_ Hk Hba Hia]. split; simpl; [done| | |done].
  - rewrite Ho'. by apply insert_blk_ok; [|apply zeros_BlockSize_len|].
  - by apply alloc_inv_freed.
Qed.

Lemma wp_FreeBlock_0 s (Q : unit -> ASt -> Prop) : Q tt s -> wp (FreeBlock 0) s Q.
Proof.
  intros HQ. unfold FreeBlock. apply wp_bind, wp_AssertValidBlock; [by left|].
  rewrite bool_decide_eq_true_2 by done. by apply wp_ret.
Qed.

Lemma free_nums_ok nums al : Forall (fun n => 0 < n < alloc_max al) nums ->
  exists al', free_nums nums al = Ok al' /\ alloc_max al' = alloc_max al /\
    alloc_free al' = alloc_free al ∪ list_to_set nums.
Proof.
  revert al. induction nums as [|n nums IH]; intros al Hn; simpl.
  - exists al. split_and!; [done..|]. set_solver.
  - apply Forall_cons in Hn as [Hn Hns]. destruct (FreeNum_ok al n Hn) as (al1 & -> & Hf & Hm).
    simpl. destruct (IH al1) as (al' & -> & Hm' & Hf'); [by rewrite Hm|].
    exists al'. split_and!; [done|congruence|]. rewrite Hf', Hf. set_solver.
Qed.

Lemma alloc_inv_ranges valid max al t f : alloc_inv valid max al t f ->
  (forall n, valid n -> 0 < n < max) ->
  Forall (fun n => 0 < n < alloc_max al) t /\ Forall (fun n => 0 < n < alloc_max al) f.
Proof.
  intros [_ Hm Ht _ Hf] Hv. split; (eapply Forall_impl; [eassumption|]);
    intros n Hn%Hv; lia.
Qed.

Lemma valid_ranges sp : layout_ok sp ->
  (forall n, valid_blk sp n -> 0 < n < MaxBnum sp) /\
  (forall n, valid_inum sp n -> 0 < n < NInode sp).
Proof.
  intros Hl. split; [|done]. intros n Hn. pose proof (valid_blk_pos _ _ Hl Hn).
  unfold valid_blk in Hn. lia.
Qed.

(** The allocators of a transaction, without its buffers. *)
Record alloc_ok s : Prop := {
  ao_layout : layout_ok (a_super s);
  ao_balloc : alloc_inv (valid_blk (a_super s)) (MaxBnum (a_super s)) (a_balloc s)
    (a_allocBnums s) (a_freeBnums s);
  ao_ialloc : alloc_inv (valid_inum (a_super s)) (NInode (a_super s)) (a_ialloc s)
    (a_allocInums s) (a_freeInums s);
}.

Lemma txn_alloc_ok s : txn_inv s -> alloc_ok s.
Proof. intros [Hl _ Hb Hi]. by split. Qed.

(** The two post-commit loops free exactly the recorded numbers. *)
Lemma wp_PostCommit s (Q : unit -> ASt -> Prop) : alloc_ok s ->
  (forall bal ial, alloc_free bal = alloc_free (a_balloc s) ∪ list_to_set (a_freeBnums s) ->
     alloc_free ial = alloc_free (a_ialloc s) ∪ list_to_set (a_freeInums s) ->
     alloc_max bal = alloc_max (a_balloc s) -> alloc_max ial = alloc_max (a_ialloc s) ->
     Q tt (set_balloc bal (set_ialloc ial s))) ->
  wp PostCommit s Q.
Proof.
  intros [Hl Hba Hia] HQ. destruct (valid_ranges _ Hl) as [Hvb Hvi]. unfold PostCommit. wp_steps.
  destruct (alloc_inv_ranges _ _ _ _ _ Hia Hvi) as [_ Hi].
  destruct (alloc_inv_ranges _ _ _ _ _ Hba Hvb) as [_ Hb].
  destruct (free_nums_ok _ _ Hi) as (ial & Hie & Him & Hif).
  destruct (free_nums_ok _ _ Hb) as (bal & Hbe & Hbm & Hbf).
  eapply wp_lift; [exact Hie|]. wp_steps. eapply wp_lift; [exact Hbe|]. wp_steps. auto.
Qed.

Lemma wp_PostAbort s (Q : unit -> ASt -> Prop) : alloc_ok s ->
  (forall bal ial, alloc_free bal = alloc_free (a_balloc s) ∪ list_to_set (a_allocBnums s) ->
     alloc_free ial = alloc_free (a_ialloc s) ∪ list_to_set (a_allocInums s) ->
     alloc_max bal = alloc_max (a_balloc s) -> alloc_max ial = alloc_max (a_ialloc s) ->
     Q tt (set_balloc bal (set_ialloc ial s))) ->
  wp PostAbort s Q.
Proof.
  intros [Hl Hba Hia] HQ. destruct (valid_ranges _ Hl) as [Hvb Hvi]. unfold PostAbort. wp_steps.
  destruct (alloc_inv_ranges _ _ _ _ _ Hia Hvi) as [Hi _].
  destruct (alloc_inv_ranges _ _ _ _ _ Hba Hvb) as [Hb _].
  destruct (free_nums_ok _ _ Hi) as (ial & Hie & Him & Hif).
  destruct (free_nums_ok _ _ Hb) as (bal & Hbe & Hbm & Hbf).
  eapply wp_lift; [exact Hie|]. wp_steps. eapply wp_lift; [exact Hbe|]. wp_steps. auto.
Qed.
End preserve.
