(* ===== verification/AtxnCommit.v ===== *)
(** What a transaction of [Alloctxn] leaves behind when it commits or aborts:
    the on-disk bitmaps agree with the in-memory allocators, the committed
    objects are the ones the transaction saw, and an abort returns what was
    allocated. *)
From S2P Require Import Prelude External Reference Super Alloctxn.

Section commit.
Context `{!Common} `{!CommonSpec} `{!Journal} `{!JournalSpec} `{!AllocPkg} `{!AllocSpec}.
Implicit Types (s t : ASt) (b n i : Z) (sp : FsSuper).

(** ** The operations of a transaction, as steps *)

Inductive atxn_step : ASt -> ASt -> Prop :=
| step_AllocINum s n s' : AllocINum s = Ok (n, s') -> atxn_step s s'
| step_FreeINum s n s' : valid_inum (a_super s) n ->
    FreeINum n s = Ok (tt, s') -> atxn_step s s'
| step_AllocBlock s n s' : AllocBlock s = Ok (n, s') -> atxn_step s s'
| step_FreeBlock s b s' : b = 0 \/ valid_blk (a_super s) b ->
    FreeBlock b s = Ok (tt, s') -> atxn_step s s'
| step_ReadBlock s b a s' : valid_blk (a_super s) b ->
    ReadBlock b s = Ok (a, s') -> atxn_step s s'
| step_write s b d s' : valid_blk (a_super s) b -> len d = BlockSize ->
    (x ← ReadBlock b; _ ← assign_data x d; set_dirty x) s = Ok (tt, s') -> atxn_step s s'
| step_OverWrite s b d s' : valid_blk (a_super s) b -> len d = BlockSize ->
    op_OverWrite (Block2addr (a_super s) b) NBITBLOCK d s = Ok (tt, s') -> atxn_step s s'
| step_WriteInode s i d s' : 0 <= i < NInode (a_super s) -> len d = INODESZ ->
    op_OverWrite (Inum2Addr (a_super s) i) (INODESZ * 8) d s = Ok (tt, s') -> atxn_step s s'.

(** What the steps of one transaction started at [s0] preserve. *)
Record atxn_from (s0 s : ASt) : Prop := {
  af_inv : txn_inv s;
  af_super : a_super s = a_super s0;
  af_log : a_log s = a_log s0;
  af_balloc : alloc_free (a_balloc s0) =
    alloc_free (a_balloc s) ∪ list_to_set (a_allocBnums s);
  af_ialloc : alloc_free (a_ialloc s0) =
    alloc_free (a_ialloc s) ∪ list_to_set (a_allocInums s);
}.

Lemma atxn_from_op s0 s o' : atxn_from s0 s ->
  map_Forall (buf_ok (a_super s) (a_log s)) (op_bufs o') -> atxn_from s0 (set_op o' s).
Proof.
  intros [Hi Hs Hl Hb Hia] Hm. split; simpl; [by apply txn_inv_op|done..].
Qed.

Lemma union_take (X Y : gset Z) (l : list Z) n : n ∈ X -> Y = X ∖ {[n]} ->
  X ∪ list_to_set l = Y ∪ list_to_set (l ++ [n]).
Proof.
  intros Hn ->. apply set_eq. intros m.
  destruct (decide (m = n)) as [->|Hne]; set_solver.
Qed.

Lemma union_none (X Y : gset Z) (l : list Z) : X = ∅ -> Y = ∅ ->
  X ∪ list_to_set l = Y ∪ list_to_set l.
Proof. by intros -> ->. Qed.

Lemma op_OverWrite_ok s a sz d : from_option bv_sz sz (op_bufs (a_op s) !! a) = sz ->
  exists o', op_OverWrite a sz d s = Ok (tt, set_op o' s) /\
    op_bufs o' = <[a := mkBufv sz d true]> (op_bufs (a_op s)).
Proof.
  intros Hsz. destruct (OverWrite_ok _ _ _ d Hsz) as (o' & Ho & Hb).
  exists o'. split; [|done]. unfold op_OverWrite, get, lift, mbind, M_bind. by rewrite Ho.
Qed.

Lemma blk_sz s b : txn_inv s -> valid_blk (a_super s) b ->
  from_option bv_sz NBITBLOCK (op_bufs (a_op s) !! Block2addr (a_super s) b) = NBITBLOCK.
Proof.
  intros Hinv Hb. destruct (op_bufs _ !! _) as [bv|] eqn:Hbv; [|done]. simpl.
  apply (ti_bufs _ Hinv) in Hbv. by apply buf_kind_blk in Hbv as [? _]; [|apply (ti_layout _ Hinv)|].
Qed.

Lemma inode_sz s i : txn_inv s -> 0 <= i < NInode (a_super s) ->
  from_option bv_sz (INODESZ * 8) (op_bufs (a_op s) !! Inum2Addr (a_super s) i) = INODESZ * 8.
Proof.
  intros Hinv Hi. destruct (op_bufs _ !! _) as [bv|] eqn:Hbv; [|done]. simpl.
  apply (ti_bufs _ Hinv) in Hbv. by apply buf_kind_inode in Hbv as [? _]; [|apply (ti_layout _ Hinv)|].
Qed.

Lemma wp_write_block s b d (Q : unit -> ASt -> Prop) : txn_inv s -> valid_blk (a_super s) b ->
  (forall o', op_bufs o' = <[Block2addr (a_super s) b := mkBufv NBITBLOCK d true]> (op_bufs (a_op s)) ->
     Q tt (set_op o' s)) ->
  wp (x ← ReadBlock b; _ ← assign_data x d; set_dirty x) s Q.
Proof.
  intros Hinv Hb HQ. apply wp_bind, wp_ReadBlock; [done|]. intros o' Ho' _.
  unfold assign_data, set_dirty. wp_steps. apply HQ.
  eapply buf_write_bufs; [apply (ti_layout _ Hinv)|done|apply (ti_bufs _ Hinv)|exact Ho'].
Qed.

Lemma atxn_step_from s0 s s' : atxn_from s0 s -> atxn_step s s' -> atxn_from s0 s'.
Proof.
  intros Hf Hst. pose proof (af_inv _ _ Hf) as Hinv. pose proof (ti_bufs_ok _ Hinv) as Hm.
  destruct Hst as [s n s' Hr|s n s' Hn Hr|s n s' Hr|s b s' [->|Hb] Hr|s b a s' Hb Hr
    |s b d s' Hb Hd Hr|s b d s' Hb Hd Hr|s i d s' Hi Hd Hr].
  - eapply (wp_run _ _ _ _ (fun _ t => atxn_from s0 t)); [|exact Hr].
    destruct Hf as [_ Hs Hl Hba Hia].
    apply wp_AllocINum; [done|..].
    + intros al He He' Hi. split; simpl; [done..|]. rewrite Hia. by apply union_none.
    + intros m al Hin Hv Hal t Ht. split; simpl; [done..|]. rewrite Hia. by apply union_take.
  - injection Hr as <-. destruct Hf as [_ Hs Hl Hba Hia]. split; simpl; [|done..].
    destruct Hinv as [Hlay _ Hb Hi]. split; simpl; [done..|]. by apply alloc_inv_freed.
  - eapply (wp_run _ _ _ _ (fun _ t => atxn_from s0 t)); [|exact Hr].
    destruct Hf as [_ Hs Hl Hba Hia].
    apply wp_AllocBlock; [done|..].
    + intros al He He' Hi. split; simpl; [done..| |done]. rewrite Hba. by apply union_none.
    + intros m al Hin Hv Hal t Ht. split; simpl; [done..| |done]. rewrite Hba. by apply union_take.
  - eapply (wp_run _ _ _ _ (fun _ t => atxn_from s0 t)); [|exact Hr]. by apply wp_FreeBlock_0.
  - eapply (wp_run _ _ _ _ (fun _ t => atxn_from s0 t)); [|exact Hr].
    apply wp_FreeBlock; [done..|]. intros o' _ t Ht. destruct Hf as [_ Hs Hl Hba Hia]. by split.
  - eapply (wp_run _ _ _ _ (fun _ t => atxn_from s0 t)); [|exact Hr].
    apply wp_ReadBlock; [done|]. intros o' Ho' _. apply atxn_from_op; [done|].
    rewrite Ho'. by apply load_ok.
  - eapply (wp_run _ _ _ _ (fun _ t => atxn_from s0 t)); [|exact Hr].
    apply wp_write_block; [done..|]. intros o' Ho'. apply atxn_from_op; [done|].
    rewrite Ho'. by apply insert_blk_ok.
  - destruct (op_OverWrite_ok s _ NBITBLOCK d (blk_sz s b Hinv Hb)) as (o' & Ho & Ho').
    rewrite Ho in Hr. injection Hr as <-. apply atxn_from_op; [done|].
    rewrite Ho'. by apply insert_blk_ok.
  - destruct (op_OverWrite_ok s _ (INODESZ * 8) d (inode_sz s i Hinv Hi)) as (o' & Ho & Ho').
    rewrite Ho in Hr. injection Hr as <-. apply atxn_from_op; [done|].
    rewrite Ho'. by apply insert_inode_ok.
Qed.

(** A state between transactions: the allocators hold valid numbers. *)
Record quiet_inv (s : ASt) : Prop := {
  qi_layout : layout_ok (a_super s);
  qi_balloc : alloc_inv (valid_blk (a_super s)) (MaxBnum (a_super s)) (a_balloc s) [] [];
  qi_ialloc : alloc_inv (valid_inum (a_super s)) (NInode (a_super s)) (a_ialloc s) [] [];
}.

Lemma Begin_from s0 : quiet_inv s0 -> atxn_from s0 (Begin s0).
Proof.
  intros [Hl Hb Hi]. split; [|done|done|simpl; set_solver..].
  split; [done| |done..]. simpl. rewrite Begin_bufs. apply map_Forall_empty.
Qed.

Lemma rtc_from s0 s t : atxn_from s0 s -> rtc atxn_step s t -> atxn_from s0 t.
Proof. intros Hf Hst. revert Hf. induction Hst; eauto using atxn_step_from. Qed.

Lemma atxn_steps_from s0 s : quiet_inv s0 -> rtc atxn_step (Begin s0) s -> atxn_from s0 s.
Proof. intros Hq. by apply rtc_from, Begin_from. Qed.

(** ** Bitmap bits *)

Lemma bit_byte_testbit n alloc : 0 <= n -> Z.testbit (bit_byte n alloc) (n mod 8) = alloc.
Proof.
  intros Hn. pose proof (Z.mod_pos_bound n 8). unfold bit_byte, w8.
  assert (Z.testbit (Z.shiftl 1 (n mod 8) mod 2 ^ 8) (n mod 8) = true) as Hb.
  { rewrite Z.mod_pow2_bits_low by lia. rewrite Z.shiftl_spec, Z.sub_diag by lia. done. }
  destruct alloc; simpl; [done|].
  rewrite Z.lxor_spec, Hb. change 255 with (Z.ones 8).
  rewrite Z.ones_spec_low by lia. done.
Qed.

Lemma MkBitAddr_inj st n n' : 0 <= n -> 0 <= n' -> MkBitAddr st n = MkBitAddr st n' -> n = n'.
Proof.
  intros Hn Hn'. rewrite !MkBitAddr_eq by done. intros [= Hb Ho]. csimp.
  pose proof (Z.div_mod n 32768). pose proof (Z.div_mod n' 32768). lia.
Qed.

Lemma MkBitAddr_off8 st n : 0 <= n -> Off (MkBitAddr st n) mod 8 = n mod 8.
Proof.
  intros Hn. rewrite MkBitAddr_eq by done. simpl. csimp.
  apply Z.mod_mod_divide. by exists 4096.
Qed.

(** The bitmap blocks of data blocks and of inodes. *)
Lemma bit_region_blk sp b : layout_ok sp -> 0 <= b < MaxBnum sp ->
  BitmapBlockStart sp <= Blkno (MkBitAddr (BitmapBlockStart sp) b) < BitmapInodeStart sp.
Proof.
  intros Hl Hb. rewrite MkBitAddr_eq by lia. simpl. csimp.
  rewrite (BitmapBlockStart_eq sp Hl), (BitmapInodeStart_eq sp Hl).
  destruct Hl as (_ & Hmax & _ & -> & _). unfold MaxBnum in Hb. rewrite Hmax in Hb.
  assert (0 <= b / 32768) by (apply Z.div_pos; lia).
  assert (b / 32768 <= Size sp / 32768) by (apply Z.div_le_mono; lia). lia.
Qed.

Lemma bit_region_inode sp i : layout_ok sp -> 0 <= i < NInode sp ->
  BitmapInodeStart sp <= Blkno (MkBitAddr (BitmapInodeStart sp) i) < InodeStart sp.
Proof.
  intros Hl Hi. rewrite MkBitAddr_eq by lia. simpl. csimp.
  rewrite (BitmapInodeStart_eq sp Hl), (InodeStart_eq sp Hl).
  rewrite (NInode_eq sp Hl) in Hi.
  assert (0 <= i / 32768) by (apply Z.div_pos; lia).
  assert (i / 32768 < NINODEBITMAP) by (apply Z.div_lt_upper_bound; lia). lia.
Qed.

(** A bit of one of the two bitmaps. *)
Definition is_bit sp (a : addr) : Prop :=
  (exists b, 0 <= b < MaxBnum sp /\ a = MkBitAddr (BitmapBlockStart sp) b) \/
  (exists i, 0 <= i < NInode sp /\ a = MkBitAddr (BitmapInodeStart sp) i).

Lemma is_bit_region sp a : layout_ok sp -> is_bit sp a -> Blkno a < InodeStart sp.
Proof.
  intros Hl [(b & Hb & ->)|(i & Hi & ->)]; pose proof (layout_order sp Hl).
  - pose proof (bit_region_blk sp b Hl Hb). lia.
  - pose proof (bit_region_inode sp i Hl Hi). lia.
Qed.

Lemma kind_region sp a bv : layout_ok sp -> buf_kind sp a bv -> InodeStart sp <= Blkno a.
Proof.
  intros Hl [(b & [Hb _] & -> & _)|(i & Hi & -> & _)].
  - pose proof (layout_order sp Hl). simpl. lia.
  - by destruct (Inum2Addr_region sp Hl i Hi) as [[? _] _].
Qed.

(** What the buffers of a transaction are after [PreCommit]. *)
Definition pre_kind sp (a : addr) (bv : bufv) : Prop :=
  buf_kind sp a bv \/ (is_bit sp a /\ bv_sz bv = 1).

Lemma kind_disjoint sp a bv a' bv' : layout_ok sp -> a <> a' ->
  buf_kind sp a bv -> buf_kind sp a' bv' -> addr_disjoint a (bv_sz bv) a' (bv_sz bv').
Proof.
  intros Hl Hne [(b & Hb & -> & -> & _)|(i & Hi & -> & -> & _)]
    [(b' & Hb' & -> & -> & _)|(i' & Hi' & -> & -> & _)].
  - left. simpl. congruence.
  - left. pose proof (Inum2Addr_region sp Hl i' Hi'). unfold valid_blk in Hb.
    change (Blkno (Block2addr sp b)) with b. lia.
  - left. pose proof (Inum2Addr_region sp Hl i Hi). unfold valid_blk in Hb'.
    change (Blkno (Block2addr sp b')) with b'. lia.
  - pose proof (layout_bounds sp Hl). rewrite (NInode_eq sp Hl) in *.
    apply Inum2Addr_disjoint; [done|lia|lia|]. intros <-. done.
Qed.

Lemma addr_disjoint_sym a n a' n' : addr_disjoint a n a' n' -> addr_disjoint a' n' a n.
Proof. unfold addr_disjoint. intuition congruence. Qed.

Lemma pre_disjoint sp a bv a' bv' : layout_ok sp -> a <> a' ->
  pre_kind sp a bv -> pre_kind sp a' bv' -> addr_disjoint a (bv_sz bv) a' (bv_sz bv').
Proof.
  intros Hl Hne [Hk|[Hb Hz]] [Hk'|[Hb' Hz']].
  - by eapply kind_disjoint.
  - left. pose proof (kind_region _ _ _ Hl Hk). pose proof (is_bit_region _ _ Hl Hb'). lia.
  - left. pose proof (kind_region _ _ _ Hl Hk'). pose proof (is_bit_region _ _ Hl Hb). lia.
  - rewrite Hz, Hz'. unfold addr_disjoint. destruct a as [x o], a' as [x' o']. simpl in *.
    destruct (decide (x = x')) as [->|]; [|by left].
    assert (o <> o') by congruence. lia.
Qed.

Lemma pre_sole sp (o : Op) a bv : layout_ok sp -> map_Forall (pre_kind sp) (op_bufs o) ->
  op_bufs o !! a = Some bv -> sole_writer o a (bv_sz bv).
Proof.
  intros Hl Hm Ha a' bv' Hne Hd. unfold op_dirty in Hd.
  destruct (op_bufs o !! a') as [b|] eqn:Hb; simpl in Hd; [|done].
  destruct (bv_dirty b); [|done]. injection Hd as <-.
  eapply (pre_disjoint sp); [done|congruence|by apply Hm|by apply Hm].
Qed.

(** ** [PreCommit] *)

(** The buffers after [WriteBits]. *)
Fixpoint bits_bufs (m : gmap addr bufv) (nums : list Z) (start : Z) (alloc : bool) : gmap addr bufv :=
  match nums with
  | [] => m
  | n :: nums =>
      bits_bufs (<[MkBitAddr start n := mkBufv 1 [bit_byte n alloc] true]> m) nums start alloc
  end.

Lemma bits_bufs_other nums start alloc (m : gmap addr bufv) a :
  (forall n, n ∈ nums -> a <> MkBitAddr start n) -> bits_bufs m nums start alloc !! a = m !! a.
Proof.
  revert m. induction nums as [|n nums IH]; intros m Ha; simpl; [done|].
  rewrite IH by set_solver. apply lookup_insert_ne. symmetry. set_solver.
Qed.

Lemma bits_bufs_in nums start alloc (m : gmap addr bufv) n :
  Forall (fun n => 0 <= n) nums -> n ∈ nums ->
  bits_bufs m nums start alloc !! MkBitAddr start n = Some (mkBufv 1 [bit_byte n alloc] true).
Proof.
  revert m. induction nums as [|k nums IH]; intros m Hp Hn; [by apply not_elem_of_nil in Hn|].
  simpl. apply Forall_cons in Hp as [Hk Hp]. destruct (decide (n ∈ nums)) as [Hin|Hin].
  - by apply IH.
  - apply elem_of_cons in Hn as [->|?]; [|done]. rewrite bits_bufs_other.
    + by rewrite lookup_insert_eq.
    + intros n Hn Heq. apply MkBitAddr_inj in Heq as <-; [done..|].
      by eapply Forall_forall in Hp.
Qed.

Lemma bits_bufs_kind sp nums start alloc (m : gmap addr bufv) :
  (forall n, n ∈ nums -> is_bit sp (MkBitAddr start n)) -> map_Forall (pre_kind sp) m ->
  map_Forall (pre_kind sp) (bits_bufs m nums start alloc).
Proof.
  revert m. induction nums as [|n nums IH]; intros m Hn Hm; simpl; [done|].
  apply IH; [set_solver|]. apply map_Forall_insert_2; [|done]. right. split; [|done].
  apply Hn. by left.
Qed.

Lemma wp_WriteBits sp nums start alloc s (Q : unit -> ASt -> Prop) : layout_ok sp ->
  (forall n, n ∈ nums -> is_bit sp (MkBitAddr start n)) ->
  map_Forall (pre_kind sp) (op_bufs (a_op s)) ->
  (forall o', op_bufs o' = bits_bufs (op_bufs (a_op s)) nums start alloc -> Q tt (set_op o' s)) ->
  wp (WriteBits nums start alloc) s Q.
Proof.
  intros Hl. revert s. induction nums as [|n nums IH]; intros s Hn Hm HQ; simpl.
  { apply wp_ret. replace s with (set_op (a_op s) s) by by destruct s. by apply HQ. }
  apply wp_bind. assert (is_bit sp (MkBitAddr start n)) as Hbit by (apply Hn; by left).
  destruct (op_OverWrite_ok s (MkBitAddr start n) 1 [bit_byte n alloc]) as (o & Ho & Hob).
  { destruct (op_bufs _ !! _) as [bv|] eqn:Hbv; [|done]. simpl.
    destruct (Hm _ _ Hbv) as [Hk|[_ ?]]; [|done].
    pose proof (kind_region _ _ _ Hl Hk). pose proof (is_bit_region _ _ Hl Hbit). lia. }
  exists tt, (set_op o s). split; [exact Ho|]. apply IH; simpl.
  - set_solver.
  - rewrite Hob. apply map_Forall_insert_2; [|done]. by right.
  - intros o' Ho'. rewrite Hob in Ho'. by apply (HQ o').
Qed.

(** No buffer that was written gets clean. *)
Definition dirtier (m m' : gmap addr bufv) : Prop := forall a (b : bufv), m !! a = Some b -> bv_dirty b = true ->
  exists b' : bufv, m' !! a = Some b' /\ bv_dirty b' = true.

#[global] Instance dirtier_preorder : PreOrder dirtier.
Proof.
  split; [by intros m a b Hb Hd; eauto|]. intros m1 m2 m3 H12 H23 a b Hb Hd.
  destruct (H12 a b Hb Hd) as (b2 & Hb2 & Hd2). by apply (H23 a b2).
Qed.

Lemma dirtier_insert (m : gmap addr bufv) a (b : bufv) : bv_dirty b = true -> dirtier m (<[a := b]> m).
Proof.
  intros Hd c b' Hb' Hd'. destruct (decide (a = c)) as [->|Hne]; [exists b; by rewrite lookup_insert_eq|].
  exists b'. by rewrite lookup_insert_ne.
Qed.

Lemma dirtier_bits nums start alloc (m : gmap addr bufv) : dirtier m (bits_bufs m nums start alloc).
Proof.
  revert m. induction nums as [|n nums IH]; intros m; [reflexivity|]. simpl. etrans; [|apply IH]. by apply dirtier_insert.
Qed.

Lemma dirtier_NDirty o o' : dirtier (op_bufs o) (op_bufs o') -> NDirty o <= NDirty o'.
Proof.
  intros Hm. rewrite !NDirty_eq, <-!(size_dom (D := gset addr)). apply Nat2Z.inj_le, subseteq_size.
  intros a [b [Hb Hd]%map_lookup_filter_Some]%elem_of_dom. destruct (Hm a b Hb Hd) as (b' & Hb' & Hd').
  apply elem_of_dom. exists b'. by apply map_lookup_filter_Some.
Qed.

(** The four loops of [PreCommit] over the buffers. *)
Definition pre_bufs s : gmap addr bufv :=
  let ib := BitmapInodeStart (a_super s) in
  let bb := BitmapBlockStart (a_super s) in
  bits_bufs (bits_bufs (bits_bufs (bits_bufs (op_bufs (a_op s))
    (a_allocInums s) ib true) (a_allocBnums s) bb true)
    (a_freeInums s) ib false) (a_freeBnums s) bb false.

Lemma bits_ok s : txn_inv s ->
  (forall n, n ∈ a_allocInums s ++ a_freeInums s ->
     is_bit (a_super s) (MkBitAddr (BitmapInodeStart (a_super s)) n)) /\
  (forall n, n ∈ a_allocBnums s ++ a_freeBnums s ->
     is_bit (a_super s) (MkBitAddr (BitmapBlockStart (a_super s)) n)).
Proof.
  intros Hinv. destruct (valid_ranges _ (ti_layout _ Hinv)) as [Hvb Hvi].
  destruct (ti_balloc _ Hinv) as [_ _ Hb _ Hfb]. destruct (ti_ialloc _ Hinv) as [_ _ Hi _ Hfi].
  rewrite Forall_forall in Hb, Hfb, Hi, Hfi. split; intros n [Hn|Hn]%elem_of_app.
  - right. exists n. apply Hi, Hvi in Hn. auto with lia.
  - right. exists n. apply Hfi, Hvi in Hn. auto with lia.
  - left. exists n. apply Hb, Hvb in Hn. auto with lia.
  - left. exists n. apply Hfb, Hvb in Hn. auto with lia.
Qed.

Lemma wp_PreCommit s (Q : unit -> ASt -> Prop) : txn_inv s ->
  (forall o', op_bufs o' = pre_bufs s -> map_Forall (pre_kind (a_super s)) (op_bufs o') ->
     Q tt (set_op o' s)) ->
  wp PreCommit s Q.
Proof.
  intros Hinv HQ. destruct (bits_ok s Hinv) as [Hi Hb]. pose proof (ti_layout _ Hinv) as Hl.
  assert (map_Forall (pre_kind (a_super s)) (op_bufs (a_op s))) as Hm.
  { intros a bv Hbv. left. by apply (ti_bufs _ Hinv). }
  unfold PreCommit. apply wp_bind, wp_get.
  apply wp_bind, (wp_WriteBits (a_super s)); [done|set_solver|done|]. intros o1 Ho1.
  assert (map_Forall (pre_kind (a_super s)) (op_bufs o1)) as Hm1.
  { rewrite Ho1. apply bits_bufs_kind; [set_solver|done]. }
  apply wp_bind, (wp_WriteBits (a_super s)); [done|set_solver|done|]. intros o2 Ho2. simpl in Ho2.
  assert (map_Forall (pre_kind (a_super s)) (op_bufs o2)) as Hm2.
  { rewrite Ho2. apply bits_bufs_kind; [set_solver|done]. }
  apply wp_bind, (wp_WriteBits (a_super s)); [done|set_solver|done|]. intros o3 Ho3. simpl in Ho3.
  assert (map_Forall (pre_kind (a_super s)) (op_bufs o3)) as Hm3.
  { rewrite Ho3. apply bits_bufs_kind; [set_solver|done]. }
  apply (wp_WriteBits (a_super s)); [done|set_solver|done|]. intros o4 Ho4. simpl in Ho4.
  apply (HQ o4).
  - by rewrite Ho4, Ho3, Ho2, Ho1.
  - rewrite Ho4. apply bits_bufs_kind; [set_solver|done].
Qed.

(** ** The committed state *)

(** The bitmaps of the log and the in-memory allocators agree. *)
Definition bitmap_ok s : Prop :=
  (forall b, valid_blk (a_super s) b ->
     log_bit (a_log s) (MkBitAddr (BitmapBlockStart (a_super s)) b) =
     bool_decide (b ∉ alloc_free (a_balloc s))) /\
  (forall i, valid_inum (a_super s) i ->
     log_bit (a_log s) (MkBitAddr (BitmapInodeStart (a_super s)) i) =
     bool_decide (i ∉ alloc_free (a_ialloc s))).

(** The commit path of a transaction, as [fstxn] runs it. *)
Definition commit_txn (wait : bool) : M ASt bool :=
  _ ← PreCommit;
  ok ← op_CommitWait wait;
  _ ← PostCommit;
  mret ok.

Lemma pre_bufs_obj s a : txn_inv s -> InodeStart (a_super s) <= Blkno a ->
  pre_bufs s !! a = op_bufs (a_op s) !! a.
Proof.
  intros Hinv Ha. destruct (bits_ok s Hinv) as [Hi Hb].
  assert (~ is_bit (a_super s) a) as Hno.
  { intros Hx%is_bit_region; [lia|apply (ti_layout _ Hinv)]. }
  unfold pre_bufs. rewrite !bits_bufs_other; [done|..];
    intros n Hn ->; apply Hno; first [apply Hi; set_solver | apply Hb; set_solver].
Qed.

(** The bit [PreCommit] leaves at one position of a bitmap. *)
Definition bit_buf (n : Z) (taken freed : list Z) : option bufv :=
  if bool_decide (n ∈ freed) then Some (mkBufv 1 [bit_byte n false] true)
  else if bool_decide (n ∈ taken) then Some (mkBufv 1 [bit_byte n true] true)
  else None.

Lemma bits_ne_blk s b n : txn_inv s -> 0 <= b < MaxBnum (a_super s) ->
  n ∈ a_allocInums s ++ a_freeInums s ->
  MkBitAddr (BitmapBlockStart (a_super s)) b <> MkBitAddr (BitmapInodeStart (a_super s)) n.
Proof.
  intros Hinv Hb Hn Heq. pose proof (ti_layout _ Hinv) as Hl.
  destruct (valid_ranges _ (ti_layout _ Hinv)) as [_ Hvi].
  destruct (ti_ialloc _ Hinv) as [_ _ Hi _ Hfi]. rewrite Forall_forall in Hi, Hfi.
  assert (0 <= n < NInode (a_super s)) as Hin.
  { apply elem_of_app in Hn as [Hn|Hn]; [apply Hi, Hvi in Hn|apply Hfi, Hvi in Hn]; lia. }
  pose proof (bit_region_blk _ _ Hl Hb) as Hr. rewrite Heq in Hr.
  pose proof (bit_region_inode _ _ Hl Hin). lia.
Qed.

Lemma valid_lists s : txn_inv s ->
  Forall (fun n => 0 <= n) (a_allocBnums s) /\ Forall (fun n => 0 <= n) (a_freeBnums s) /\
  Forall (fun n => 0 <= n) (a_allocInums s) /\ Forall (fun n => 0 <= n) (a_freeInums s).
Proof.
  intros Hinv. destruct (valid_ranges _ (ti_layout _ Hinv)) as [Hvb Hvi].
  destruct (ti_balloc _ Hinv) as [_ _ Hb _ Hfb]. destruct (ti_ialloc _ Hinv) as [_ _ Hi _ Hfi].
  split_and!; (eapply Forall_impl; [eassumption|]); simpl; intros n Hn;
    first [apply Hvb in Hn|apply Hvi in Hn]; lia.
Qed.

Lemma kind_not_bit s a : txn_inv s -> is_bit (a_super s) a -> op_bufs (a_op s) !! a = None.
Proof.
  intros Hinv Ha. destruct (op_bufs _ !! a) as [bv|] eqn:Hbv; [|done]. exfalso.
  apply (ti_bufs _ Hinv), (kind_region _ _ _ (ti_layout _ Hinv)) in Hbv.
  apply (is_bit_region _ _ (ti_layout _ Hinv)) in Ha. lia.
Qed.

Lemma bits_bufs_cases nums start alloc (m : gmap addr bufv) n :
  Forall (fun n => 0 <= n) nums -> 0 <= n ->
  bits_bufs m nums start alloc !! MkBitAddr start n =
  if bool_decide (n ∈ nums) then Some (mkBufv 1 [bit_byte n alloc] true)
  else m !! MkBitAddr start n.
Proof.
  intros Hp Hn. case_bool_decide as Hin; [by apply bits_bufs_in|].
  apply bits_bufs_other. intros k Hk Heq. apply MkBitAddr_inj in Heq as <-; [done..|].
  by eapply Forall_forall in Hp.
Qed.

Lemma pre_bufs_blk_bit s b : txn_inv s -> 0 <= b < MaxBnum (a_super s) ->
  pre_bufs s !! MkBitAddr (BitmapBlockStart (a_super s)) b =
  bit_buf b (a_allocBnums s) (a_freeBnums s).
Proof.
  intros Hinv Hb. destruct (valid_lists s Hinv) as (Hab & Hfb & _).
  unfold pre_bufs, bit_buf. rewrite bits_bufs_cases by (done || lia). case_bool_decide; [done|].
  rewrite bits_bufs_other by (intros; apply bits_ne_blk; set_solver).
  rewrite bits_bufs_cases by (done || lia). case_bool_decide; [done|].
  rewrite bits_bufs_other by (intros; apply bits_ne_blk; set_solver).
  apply kind_not_bit; [done|]. left. eauto.
Qed.

Lemma bits_ne_inode s i n : txn_inv s -> 0 <= i < NInode (a_super s) ->
  n ∈ a_allocBnums s ++ a_freeBnums s ->
  MkBitAddr (BitmapInodeStart (a_super s)) i <> MkBitAddr (BitmapBlockStart (a_super s)) n.
Proof.
  intros Hinv Hi Hn Heq. pose proof (ti_layout _ Hinv) as Hl.
  destruct (valid_ranges _ (ti_layout _ Hinv)) as [Hvb _].
  destruct (ti_balloc _ Hinv) as [_ _ Hb _ Hfb]. rewrite Forall_forall in Hb, Hfb.
  assert (0 <= n < MaxBnum (a_super s)) as Hin.
  { apply elem_of_app in Hn as [Hn|Hn]; [apply Hb, Hvb in Hn|apply Hfb, Hvb in Hn]; lia. }
  pose proof (bit_region_inode _ _ Hl Hi) as Hr. rewrite Heq in Hr.
  pose proof (bit_region_blk _ _ Hl Hin). lia.
Qed.

Lemma pre_bufs_inode_bit s i : txn_inv s -> 0 <= i < NInode (a_super s) ->
  pre_bufs s !! MkBitAddr (BitmapInodeStart (a_super s)) i =
  bit_buf i (a_allocInums s) (a_freeInums s).
Proof.
  intros Hinv Hi. destruct (valid_lists s Hinv) as (_ & _ & Hai & Hfi).
  unfold pre_bufs, bit_buf.
  rewrite bits_bufs_other by (intros; apply bits_ne_inode; set_solver).
  rewrite bits_bufs_cases by (done || lia). case_bool_decide; [done|].
  rewrite bits_bufs_other by (intros; apply bits_ne_inode; set_solver).
  rewrite bits_bufs_cases by (done || lia). case_bool_decide; [done|].
  apply kind_not_bit; [done|]. right. eauto.
Qed.

(** A bit of the log after a commit of the buffers [o]. *)
Lemma commit_bit sp lg (o : Op) w lg' start n taken freed : layout_ok sp ->
  map_Forall (pre_kind sp) (op_bufs o) -> CommitWait lg o w = (true, lg') -> 0 <= n ->
  is_bit sp (MkBitAddr start n) -> op_bufs o !! MkBitAddr start n = bit_buf n taken freed ->
  log_bit lg' (MkBitAddr start n) =
    if bool_decide (n ∈ freed) then false
    else if bool_decide (n ∈ taken) then true else log_bit lg (MkBitAddr start n).
Proof.
  intros Hl Hm Hc Hn Hbit Hbuf. unfold bit_buf in Hbuf.
  assert (forall alloc, op_bufs o !! MkBitAddr start n = Some (mkBufv 1 [bit_byte n alloc] true) ->
    log_bit lg' (MkBitAddr start n) = alloc) as Hset.
  { intros alloc Hb.
    rewrite (Commit_bit lg o w lg' _ (mkBufv 1 [bit_byte n alloc] true) (bit_byte n alloc) Hc);
      [| |done|done|].
    - rewrite MkBitAddr_off8 by done. by apply bit_byte_testbit.
    - unfold op_dirty. by rewrite Hb.
    - by apply (pre_sole sp o _ _ Hl Hm Hb). }
  case_bool_decide; [by apply Hset|]. case_bool_decide; [by apply Hset|].
  apply (Commit_other_bit lg o w lg' _ Hc). intros a' bv' Hd. unfold op_dirty in Hd.
  destruct (op_bufs o !! a') as [bv|] eqn:Hbv; simpl in Hd; [|done].
  destruct (bv_dirty bv); [|done]. injection Hd as <-.
  apply (pre_disjoint sp (MkBitAddr start n) (mkBufv 1 [] true) a' bv); [done|congruence| |by apply Hm].
  by right.
Qed.

(** An object of the log after a commit: what the transaction read. *)
Lemma commit_obj s o w lg' a sz : txn_inv s -> op_bufs o = pre_bufs s ->
  map_Forall (pre_kind (a_super s)) (op_bufs o) -> CommitWait (a_log s) o w = (true, lg') ->
  buf_kind (a_super s) a (mkBufv sz (obj s a sz) true) ->
  from_option bv_sz sz (op_bufs (a_op s) !! a) = sz ->
  log_obj lg' a sz = obj s a sz.
Proof.
  intros Hinv Ho Hm Hc Hk Hsz. pose proof (ti_layout _ Hinv) as Hl.
  pose proof (kind_region _ _ _ Hl Hk) as Hreg.
  assert (8 <= sz /\ 8 * len (obj s a sz) = sz) as [Hsz8 Hlen].
  { destruct Hk as [(b & _ & _ & ? & ?)|(i & _ & _ & ? & ?)]; simpl in *; subst sz; csimp; lia. }
  assert (op_bufs o !! a = op_bufs (a_op s) !! a) as Hoa by (by rewrite Ho, pre_bufs_obj).
  assert (op_dirty o a = None -> obj s a sz = log_obj (a_log s) a sz ->
    log_obj lg' a sz = obj s a sz) as Hclean.
  { intros Hnd ->. apply (Commit_other _ _ _ _ _ _ Hc); [lia|]. intros a' bv' Hd.
    unfold op_dirty in Hd. destruct (op_bufs o !! a') as [bv|] eqn:Hbv; simpl in Hd; [|done].
    destruct (bv_dirty bv) eqn:Hdirty; [|done]. injection Hd as <-.
    apply (pre_disjoint (a_super s) a (mkBufv sz (obj s a sz) true) a' bv);
      [done| |by left|by apply Hm].
    intros <-. unfold op_dirty in Hnd. rewrite Hbv in Hnd. simpl in Hnd. by rewrite Hdirty in Hnd. }
  unfold obj in *. destruct (op_bufs (a_op s) !! a) as [bv|] eqn:Hbv; simpl in *.
  2: { apply Hclean; [|done]. unfold op_dirty. by rewrite Hoa. }
  destruct (bv_dirty bv) eqn:Hd.
  - rewrite <-Hsz. apply (Commit_written _ o w _ _ _ Hc); [|lia|lia|].
    + unfold op_dirty. rewrite Hoa. simpl. by rewrite Hd.
    + by apply (pre_sole _ _ _ _ Hl Hm).
  - destruct (ti_bufs_ok _ Hinv _ _ Hbv) as [_ Hlog]. rewrite (Hlog Hd), Hsz in *.
    apply Hclean; [|done]. unfold op_dirty. rewrite Hoa. simpl. by rewrite Hd.
Qed.

(** The bitmaps of the log are those of the start of the transaction. *)
Definition bitmap_from s : Prop :=
  (forall b, valid_blk (a_super s) b ->
     log_bit (a_log s) (MkBitAddr (BitmapBlockStart (a_super s)) b) =
     bool_decide (b ∉ alloc_free (a_balloc s) ∪ list_to_set (a_allocBnums s))) /\
  (forall i, valid_inum (a_super s) i ->
     log_bit (a_log s) (MkBitAddr (BitmapInodeStart (a_super s)) i) =
     bool_decide (i ∉ alloc_free (a_ialloc s) ∪ list_to_set (a_allocInums s))).

Lemma atxn_from_bitmap s0 s : atxn_from s0 s -> bitmap_ok s0 -> bitmap_from s.
Proof.
  intros [_ Hs Hl Hb Hi] [Hob Hoi]. unfold bitmap_from. rewrite Hs, Hl, <-Hb, <-Hi. done.
Qed.

Lemma bit_case (f f' : gset Z) (taken freed : list Z) n v :
  (forall m, m ∈ taken -> m ∉ f) -> f' = f ∪ list_to_set freed ->
  v = bool_decide (n ∉ f ∪ list_to_set taken) ->
  (if bool_decide (n ∈ freed) then false
   else if bool_decide (n ∈ taken) then true else v) = bool_decide (n ∉ f').
Proof.
  intros Ht -> ->. destruct (decide (n ∈ freed)) as [Hf|Hf].
  { rewrite (bool_decide_eq_true_2 _ Hf). symmetry. apply bool_decide_eq_false_2. set_solver. }
  rewrite (bool_decide_eq_false_2 _ Hf). destruct (decide (n ∈ taken)) as [Hn|Hn].
  { rewrite (bool_decide_eq_true_2 _ Hn). symmetry. apply bool_decide_eq_true_2.
    apply Ht in Hn. set_solver. }
  rewrite (bool_decide_eq_false_2 _ Hn). apply bool_decide_ext. set_solver.
Qed.

(** The state after a commit. *)
Record committed (s : ASt) (ok : bool) (s' : ASt) : Prop := {
  co_quiet : quiet_inv s';
  co_super : a_super s' = a_super s;
  co_balloc : alloc_free (a_balloc s') = alloc_free (a_balloc s) ∪ list_to_set (a_freeBnums s);
  co_ialloc : alloc_free (a_ialloc s') = alloc_free (a_ialloc s) ∪ list_to_set (a_freeInums s);
  co_blk : ok = true -> forall b, valid_blk (a_super s) b ->
    log_obj (a_log s') (Block2addr (a_super s) b) NBITBLOCK = blk s b;
  co_inode : ok = true -> forall i, 0 <= i < NInode (a_super s) ->
    log_obj (a_log s') (Inum2Addr (a_super s) i) (INODESZ * 8) = iobj s i;
  co_bitmap : ok = true -> bitmap_from s -> bitmap_ok s';
  co_fail : ok = false -> log_obj (a_log s') = log_obj (a_log s) /\
    log_bit (a_log s') = log_bit (a_log s);
  (* the transaction's record of what it wrote *)
  co_written : NDirty (a_op s) <= NDirty (a_op s');
}.

Lemma iobj_length s i : txn_inv s -> 0 <= i < NInode (a_super s) -> len (iobj s i) = INODESZ.
Proof.
  intros Hinv Hi. unfold iobj, obj. destruct (op_bufs (a_op s) !! _) as [bv|] eqn:Hbv; simpl.
  - apply (ti_bufs _ Hinv) in Hbv. by apply buf_kind_inode in Hbv as [_ ?]; [|apply (ti_layout _ Hinv)|].
  - rewrite Z.mul_comm. apply log_obj_length. csimp. lia.
Qed.

Lemma quiet_after valid max al al' (t f : list Z) : alloc_inv valid max al t f ->
  alloc_free al' = alloc_free al ∪ list_to_set f -> alloc_max al' = alloc_max al ->
  alloc_inv valid max al' [] [].
Proof.
  intros [Hf Hm _ _ Hfr] Hal Hmax. rewrite Forall_forall in Hfr.
  split; [|lia|done|set_solver|done]. intros n. rewrite Hal. set_solver.
Qed.

Lemma wp_commit s w (Q : bool -> ASt -> Prop) : txn_inv s ->
  (forall ok s', committed s ok s' -> Q ok s') -> wp (commit_txn w) s Q.
Proof.
  intros Hinv HQ. pose proof (ti_layout _ Hinv) as Hl. unfold commit_txn.
  apply wp_bind, wp_PreCommit; [done|]. intros o Ho Hm.
  unfold op_CommitWait. wp_steps. destruct (CommitWait (a_log s) o w) as [ok lg] eqn:Hc. wp_steps.
  apply wp_PostCommit; [by destruct (txn_alloc_ok s Hinv)|]. simpl. intros bal ial Hb Hi Hbm Him. wp_steps. apply HQ.
  split; simpl; [|done..| | | | |].
  - split; simpl; [done| |].
    + eapply quiet_after; [apply (ti_balloc _ Hinv)|done..].
    + eapply quiet_after; [apply (ti_ialloc _ Hinv)|done..].
  - intros -> b Hb'. apply (commit_obj s o w); [exact Hinv|exact Ho|exact Hm|exact Hc| |by apply blk_sz].
    left. exists b. split_and!; [done..|]. by apply blk_length.
  - intros -> i Hi'. apply (commit_obj s o w); [exact Hinv|exact Ho|exact Hm|exact Hc| |by apply inode_sz].
    right. exists i. split_and!; [lia|lia|done|done|]. by apply iobj_length.
  - intros -> [Hfb Hfi]. destruct (valid_ranges _ (ti_layout _ Hinv)) as [Hvb Hvi]. split; simpl.
    + intros b Hv. specialize (Hvb b Hv). rewrite <-(bit_case _ _ _ _ _ _
        (al_taken_free _ _ _ _ _ (ti_balloc _ Hinv)) Hb (Hfb b Hv)).
      eapply commit_bit; [done|done|done|lia|left; exists b; auto with lia|].
      rewrite Ho. apply pre_bufs_blk_bit; [done|lia].
    + intros i Hv. specialize (Hvi i Hv). rewrite <-(bit_case _ _ _ _ _ _
        (al_taken_free _ _ _ _ _ (ti_ialloc _ Hinv)) Hi (Hfi i Hv)).
      eapply commit_bit; [done|done|done|lia|right; exists i; auto with lia|].
      rewrite Ho. apply pre_bufs_inode_bit; [done|lia].
  - intros ->. by apply (Commit_fail _ _ _ _ Hc).
  - apply dirtier_NDirty. rewrite Ho. unfold pre_bufs. do 3 (etrans; [|apply dirtier_bits]). apply dirtier_bits.
Qed.

(** ** Histories of transactions *)

(** One whole transaction: some operations and a successful commit, or an
    abort. *)
Inductive txn_done : ASt -> ASt -> Prop :=
| done_commit s0 s w s' : rtc atxn_step (Begin s0) s ->
    commit_txn w s = Ok (true, s') -> txn_done s0 s'
| done_abort s0 s s' : rtc atxn_step (Begin s0) s ->
    PostAbort s = Ok (tt, s') -> txn_done s0 s'.

Lemma abort_from s0 s (Q : unit -> ASt -> Prop) : quiet_inv s0 -> atxn_from s0 s ->
  (forall s', quiet_inv s' -> a_super s' = a_super s0 -> a_log s' = a_log s0 ->
     alloc_free (a_balloc s') = alloc_free (a_balloc s0) ->
     alloc_free (a_ialloc s') = alloc_free (a_ialloc s0) -> Q tt s') ->
  wp PostAbort s Q.
Proof.
  intros Hq [Hinv Hs Hlg Hb Hi] HQ. apply wp_PostAbort; [by apply txn_alloc_ok|].
  intros bal ial Hbal Hial Hbm Him. apply HQ; simpl; [|done|done|congruence|congruence].
  destruct Hq as [Hl Hqb Hqi]. destruct Hinv as [_ _ Hvb Hvi]. rewrite Hs in *.
  split; simpl; rewrite ?Hs; [done| |].
  - destruct Hqb as [Hf _ _ _ _]. split; [|rewrite Hbm; apply Hvb|done|set_solver|done].
    intros n. rewrite Hbal, <-Hb. apply Hf.
  - destruct Hqi as [Hf _ _ _ _]. split; [|rewrite Him; apply Hvi|done|set_solver|done].
    intros n. rewrite Hial, <-Hi. apply Hf.
Qed.

(** A failed commit still frees in memory what the transaction freed, while
    the bits on disk stay set. *)
Lemma commit_fail_frees s w s' b : txn_inv s -> bitmap_from s ->
  commit_txn w s = Ok (false, s') -> b ∈ a_freeBnums s ->
  b ∉ alloc_free (a_balloc s) -> b ∉ a_allocBnums s ->
  b ∈ alloc_free (a_balloc s') /\
  log_bit (a_log s') (MkBitAddr (BitmapBlockStart (a_super s')) b) = true.
Proof.
  intros Hinv [Hbm _] Hr Hf Hn Ht.
  eapply (wp_run _ _ _ _ (fun ok t => committed s ok t)) in Hr; [|by apply wp_commit].
  destruct Hr as [_ Hs Hb _ _ _ _ Hfail]. destruct (Hfail eq_refl) as [_ Hbit].
  split; [rewrite Hb; set_solver|]. rewrite Hs, Hbit, Hbm.
  - apply bool_decide_eq_true_2. set_solver.
  - pose proof (al_freed _ _ _ _ _ (ti_balloc _ Hinv)) as Hv. by eapply Forall_forall in Hv.
Qed.

Lemma PostCommit_log s s' : PostCommit s = Ok (tt, s') -> a_log s' = a_log s.
Proof.
  unfold PostCommit, get, modify, lift, mbind, M_bind.
  destruct (free_nums _ (a_ialloc s)); [|done..]. destruct (free_nums _ (a_balloc _)); [|done..].
  by intros [= <-].
Qed.

(** A commit that waited is durable. *)
Lemma commit_stable s s' : commit_txn true s = Ok (true, s') ->
  stable_obj (a_log s') = log_obj (a_log s').
Proof.
  intros Hr. apply M_bind_Ok in Hr as ([] & s1 & _ & Hr). apply M_bind_Ok in Hr as (ok & s2 & Hc & Hr).
  apply M_bind_Ok in Hr as ([] & s3 & Hp & Hr). injection Hr as -> <-.
  rewrite (PostCommit_log _ _ Hp). unfold op_CommitWait, get, modify, mbind, M_bind, mret, M_ret in Hc.
  destruct (CommitWait _ _ true) as [ok lg] eqn:Hcw. injection Hc as -> <-. by eapply Commit_stable.
Qed.

(** C20: a transaction that only uses the operations of [AllocTxn] can always
    run its commit path (PreCommit, CommitWait, PostCommit) without a panic,
    and when the journal commits, the bitmaps on disk are those of the
    in-memory allocators, and every data block and inode on disk is the one
    the transaction saw. *)
Theorem commit_consistent s0 s w :
  quiet_inv s0 -> bitmap_ok s0 -> rtc atxn_step (Begin s0) s ->
  exists ok s', commit_txn w s = Ok (ok, s') /\ quiet_inv s' /\
    (ok = true -> bitmap_ok s' /\
       (forall b, valid_blk (a_super s) b ->
          log_obj (a_log s') (Block2addr (a_super s) b) NBITBLOCK = blk s b) /\
       (forall i, 0 <= i < NInode (a_super s) ->
          log_obj (a_log s') (Inum2Addr (a_super s) i) (INODESZ * 8) = iobj s i)) /\
    (ok = false -> log_obj (a_log s') = log_obj (a_log s0)).
Proof.
  intros Hq Hbm Hst. pose proof (atxn_steps_from _ _ Hq Hst) as Hf.
  apply (wp_commit s w); [apply Hf|]. intros ok s' [Hq' _ _ _ Hb Hi Hm Hfail].
  split_and!; [done| |].
  - intros ->. split_and!; [|by apply Hb|by apply Hi].
    apply Hm; [done|]. by eapply atxn_from_bitmap.
  - intros ->. destruct (Hfail eq_refl) as [-> _]. by rewrite (af_log _ _ Hf).
Qed.

(** Aborting a transaction returns every inode and block number it
    allocated: the allocators are the ones it began with, nothing it freed has
    become free, and the log is untouched. *)
Theorem abort_restores s0 s :
  quiet_inv s0 -> rtc atxn_step (Begin s0) s ->
  exists s', PostAbort s = Ok (tt, s') /\ quiet_inv s' /\ a_log s' = a_log s0 /\
    alloc_free (a_balloc s') = alloc_free (a_balloc s0) /\
    alloc_free (a_ialloc s') = alloc_free (a_ialloc s0).
Proof.
  intros Hq Hst. destruct (abort_from s0 s (fun _ s' => quiet_inv s' /\ a_log s' = a_log s0 /\
    alloc_free (a_balloc s') = alloc_free (a_balloc s0) /\
    alloc_free (a_ialloc s') = alloc_free (a_ialloc s0))) as ([] & s' & Hr & HQ);
    [done|by apply atxn_steps_from|auto|eauto].
Qed.

(** C33: over any history of transactions that commit or abort, the on-disk
    bitmaps and the in-memory allocators stay in agreement. *)
Theorem history_bitmap_ok s0 s :
  rtc txn_done s0 s -> quiet_inv s0 -> bitmap_ok s0 -> quiet_inv s /\ bitmap_ok s.
Proof.
  induction 1 as [|s0 s1 s2 Hd _ IH]; intros Hq Hbm; [done|].
  apply IH; destruct Hd as [s0 s w s' Hst Hr|s0 s s' Hst Hr];
    pose proof (atxn_steps_from _ _ Hq Hst) as Hf.
  - eapply (wp_run _ _ _ _ (fun ok t => committed s ok t)) in Hr; [by apply Hr|].
    apply wp_commit; [apply Hf|done].
  - eapply (wp_run _ _ _ _ (fun _ t => quiet_inv t)) in Hr; [done|].
    by eapply abort_from.
  - eapply (wp_run _ _ _ _ (fun ok t => committed s ok t)) in Hr.
    + apply (co_bitmap _ _ _ Hr); [done|]. by eapply atxn_from_bitmap.
    + apply wp_commit; [apply Hf|done].
  - eapply (wp_run _ _ _ _ (fun _ t => bitmap_ok t)) in Hr; [done|].
    eapply abort_from; [done..|]. intros t _ Hs Hl Hb Hi. unfold bitmap_ok.
    by rewrite Hs, Hl, Hb, Hi.
Qed.
End commit.

(** ** A file system with every block and inode free *)

Definition ref_range (lo hi : Z) : Alloc := mkRefAlloc (zrange (Z.to_nat (hi - lo)) lo) hi.

#[global] Arguments ref_range : simpl never.

Lemma ref_range_free lo hi n : 0 <= lo -> n ∈ alloc_free (ref_range lo hi) <-> lo <= n < hi.
Proof.
  intros Hlo.
  change (alloc_free (ref_range lo hi)) with (list_to_set (ra_list (ref_range lo hi)) : gset Z).
  rewrite ra_free_spec. unfold ref_range. simpl. rewrite elem_of_zrange. lia.
Qed.

(** A disk of [n] blocks after [1539] blocks of log, bitmaps and inodes. *)
Definition ref_ast (n : Z) : ASt :=
  let sp := ref_super (1539 + n) in
  mkASt sp (zero_log (1539 + n)) (ref_range (DataStart sp) (MaxBnum sp))
    (ref_range 1 (NInode sp)) (∅ : gmap addr bufv) [] [] [] [] 0.

Lemma range_inv (valid : Z -> Prop) (lo hi max : Z) : 0 <= lo -> max <= hi ->
  (forall n, lo <= n < hi -> valid n) -> alloc_inv valid max (ref_range lo hi) [] [].
Proof.
  intros Hlo Hmax Hv. split; [|exact Hmax|done|set_solver|done].
  intros n Hn%ref_range_free; auto.
Qed.

Lemma ref_ast_ok n : quiet_inv (ref_ast n) /\ bitmap_ok (ref_ast n).
Proof.
  pose proof (ref_super_layout (1539 + n)) as Hl. pose proof (layout_order _ Hl).
  pose proof LOGSIZE_range. rewrite (BitmapBlockStart_eq _ Hl) in *.
  unfold ref_ast. generalize dependent (ref_super (1539 + n)). intros sp Hl Hord.
  split; split; cbn [a_super a_log a_balloc a_ialloc].
  - exact Hl.
  - apply range_inv; [lia|done|by intros].
  - apply range_inv; [lia|done|]. unfold valid_inum. lia.
  - intros b Hb. rewrite zero_log_bit. symmetry. apply bool_decide_eq_false_2. intros Hn. apply Hn.
    apply ref_range_free; [lia|exact Hb].
  - intros i Hi. rewrite zero_log_bit. symmetry. apply bool_decide_eq_false_2. intros Hn. apply Hn.
    apply ref_range_free; [lia|]. unfold valid_inum in Hi. lia.
Qed.

(** A transaction that allocates a block and an inode. *)
Lemma ref_ast_steps : exists s, rtc atxn_step (Begin (ref_ast 2)) s /\ a_allocBnums s <> [].
Proof.
  destruct (run_isOk AllocBlock (Begin (ref_ast 2))) as [b Hb]; [by vm_compute|].
  destruct (run_isOk AllocINum (run_st AllocBlock (Begin (ref_ast 2)))) as [i Hi]; [by vm_compute|].
  eexists. split.
  - eapply rtc_l; [by eapply step_AllocBlock|]. eapply rtc_l; [by eapply step_AllocINum|].
    apply rtc_refl.
  - by vm_compute.
Qed.

Lemma commit_consistent_witness : exists s ok s',
  a_allocBnums s <> [] /\ commit_txn true s = Ok (ok, s') /\ quiet_inv s'.
Proof.
  destruct ref_ast_steps as (s & Hst & Hb). destruct (ref_ast_ok 2) as [Hq Hbm].
  destruct (commit_consistent _ s true Hq Hbm Hst) as (ok & s' & Hr & Hq' & _).
  exists s, ok, s'. auto.
Defined.

Lemma abort_restores_witness : exists s s', a_allocBnums s <> [] /\
  PostAbort s = Ok (tt, s') /\ alloc_free (a_balloc s') = alloc_free (a_balloc (ref_ast 2)).
Proof.
  destruct ref_ast_steps as (s & Hst & Hb). destruct (ref_ast_ok 2) as [Hq _].
  destruct (abort_restores _ s Hq Hst) as (s' & Hr & _ & _ & Hf & _).
  exists s, s'. auto.
Defined.

Lemma history_bitmap_ok_witness : exists s, txn_done (ref_ast 2) s /\ quiet_inv s /\ bitmap_ok s.
Proof.
  destruct ref_ast_steps as (s & Hst & Hb). destruct (ref_ast_ok 2) as [Hq Hbm].
  assert (exists s', PostAbort s = Ok (tt, s')) as [s' Hr].
  { destruct (abort_from (ref_ast 2) s (fun _ _ => True) Hq) as ([] & s' & Hr & _);
      [by apply atxn_steps_from|done|eauto]. }
  exists s'. split; [by eapply done_abort|].
  apply (history_bitmap_ok (ref_ast 2)); [|done..]. apply rtc_once. by eapply done_abort.
Defined.
