(* ===== verification/Inode.v ===== *)
(** Inodes ([inode/inode.go], [inode/shrink.go]): the on-disk format, the map
    from a file's blocks to disk blocks through one indirect and one double
    indirect block, reading and writing, and incremental freeing.

    A method that receives an [*Inode] and an [*AllocTxn] runs on their pair. *)
From S2P Require Import Prelude Nfstypes External Reference Super Dcache Alloctxn.

Definition NF3FREE : Z := 0.
Definition NBLKINO : Z := 10.
Definition NDIRECT : Z := NBLKINO - 2.
Definition INDIRECT : Z := NBLKINO - 2.
Definition DINDIRECT : Z := NBLKINO - 1.
Definition NINDLEVEL : Z := 2.

Record Inode := mkInode {
  i_Inum : Z;
  i_Dcache : option Dcache;
  i_Kind : Z;
  i_Nlink : Z;
  i_Gen : Z;
  i_Size : Z;
  i_ShrinkSize : Z;
  i_Atime : Nfstime3;
  i_Mtime : Nfstime3;
  i_blks : list Z;
}.

(** [new(Inode)] *)
Definition zero_inode : Inode := mkInode 0 None 0 0 0 0 0 zero zero [].

Definition with_Inum v (ip : Inode) : Inode :=
  mkInode v (i_Dcache ip) (i_Kind ip) (i_Nlink ip) (i_Gen ip) (i_Size ip) (i_ShrinkSize ip)
    (i_Atime ip) (i_Mtime ip) (i_blks ip).

Definition with_Dcache v (ip : Inode) : Inode :=
  mkInode (i_Inum ip) v (i_Kind ip) (i_Nlink ip) (i_Gen ip) (i_Size ip) (i_ShrinkSize ip)
    (i_Atime ip) (i_Mtime ip) (i_blks ip).

Definition with_Kind v (ip : Inode) : Inode :=
  mkInode (i_Inum ip) (i_Dcache ip) v (i_Nlink ip) (i_Gen ip) (i_Size ip) (i_ShrinkSize ip)
    (i_Atime ip) (i_Mtime ip) (i_blks ip).

Definition with_Nlink v (ip : Inode) : Inode :=
  mkInode (i_Inum ip) (i_Dcache ip) (i_Kind ip) v (i_Gen ip) (i_Size ip) (i_ShrinkSize ip)
    (i_Atime ip) (i_Mtime ip) (i_blks ip).

Definition with_Gen v (ip : Inode) : Inode :=
  mkInode (i_Inum ip) (i_Dcache ip) (i_Kind ip) (i_Nlink ip) v (i_Size ip) (i_ShrinkSize ip)
    (i_Atime ip) (i_Mtime ip) (i_blks ip).

Definition with_Size v (ip : Inode) : Inode :=
  mkInode (i_Inum ip) (i_Dcache ip) (i_Kind ip) (i_Nlink ip) (i_Gen ip) v (i_ShrinkSize ip)
    (i_Atime ip) (i_Mtime ip) (i_blks ip).

Definition with_ShrinkSize v (ip : Inode) : Inode :=
  mkInode (i_Inum ip) (i_Dcache ip) (i_Kind ip) (i_Nlink ip) (i_Gen ip) (i_Size ip) v
    (i_Atime ip) (i_Mtime ip) (i_blks ip).

Definition with_Atime v (ip : Inode) : Inode :=
  mkInode (i_Inum ip) (i_Dcache ip) (i_Kind ip) (i_Nlink ip) (i_Gen ip) (i_Size ip)
    (i_ShrinkSize ip) v (i_Mtime ip) (i_blks ip).

Definition with_Mtime v (ip : Inode) : Inode :=
  mkInode (i_Inum ip) (i_Dcache ip) (i_Kind ip) (i_Nlink ip) (i_Gen ip) (i_Size ip)
    (i_ShrinkSize ip) (i_Atime ip) v (i_blks ip).

Definition with_blks v (ip : Inode) : Inode :=
  mkInode (i_Inum ip) (i_Dcache ip) (i_Kind ip) (i_Nlink ip) (i_Gen ip) (i_Size ip)
    (i_ShrinkSize ip) (i_Atime ip) (i_Mtime ip) v.

Section inode.
Context `{!Common} `{!Util} `{!Marshal} `{!Buf} `{!Journal} `{!AllocPkg} `{!Clock}.

(** An inode pointer and the transaction. *)
Definition ISt : Type := Inode * ASt.

Definition on_atxn {A} (m : M ASt A) : M ISt A := zoom snd (fun a s => (s.1, a)) m.

Definition ip_get {A} (f : Inode -> A) : M ISt A := gets (fun s => f s.1).

Definition ip_set (f : Inode -> Inode) : M ISt unit := modify (fun s => (f s.1, s.2)).

Definition NBLKBLK : Z := BlockSize / 8.

Definition NfstimeNow : M ASt Nfstime3 :=
  s ← get;
  let now := a_tick s in
  _ ← modify (set_tick (S now));
  mret (mkNfstime3 (w32 (time_Unix now)) (w32 (time_Nanosecond now))).

Definition InitInode (inum kind : Z) : M ISt unit :=
  _ ← ip_set (with_Inum inum);
  _ ← ip_set (with_Kind kind);
  _ ← ip_set (with_Nlink 1);
  _ ← ip_set (fun ip => with_Gen (i_Gen ip +w 1) ip);
  t ← on_atxn NfstimeNow;
  _ ← ip_set (with_Atime t);
  t ← on_atxn NfstimeNow;
  ip_set (with_Mtime t).

(** The root inode, made in place of the inode of the state. *)
Definition MkRootInode : M ISt unit :=
  _ ← ip_set (fun _ => zero_inode);
  _ ← ip_set (with_blks (zeros NBLKINO));
  InitInode ROOTINUM NF3DIR.

Definition MkFattr (ip : Inode) : Fattr3 :=
  {| Fattr3_Ftype := i_Kind ip;
     Fattr3_Mode := 511;
     Fattr3_Nlink := 1;
     Fattr3_Uid := 0;
     Fattr3_Gid := 0;
     Fattr3_Size := i_Size ip;
     Fattr3_Used := i_Size ip;
     Fattr3_Rdev := mkSpecdata3 0 0;
     Fattr3_Fsid := 0;
     Fattr3_Fileid := i_Inum ip;
     Fattr3_Atime := i_Atime ip;
     Fattr3_Mtime := i_Mtime ip;
     Fattr3_Ctime := mkNfstime3 0 0 |}.

Definition Encode (ip : Inode) : res (list Z) :=
  let enc := NewEnc INODESZ in
  enc ← PutInt32 enc (i_Kind ip);
  enc ← PutInt32 enc (i_Nlink ip);
  enc ← PutInt enc (i_Gen ip);
  enc ← PutInt enc (i_Size ip);
  enc ← PutInt enc (i_ShrinkSize ip);
  enc ← PutInt32 enc (Nfstime3_Seconds (i_Atime ip));
  enc ← PutInt32 enc (Nfstime3_Nseconds (i_Atime ip));
  enc ← PutInt32 enc (Nfstime3_Seconds (i_Mtime ip));
  enc ← PutInt32 enc (Nfstime3_Nseconds (i_Mtime ip));
  enc ← PutInts enc (i_blks ip);
  mret (Finish enc).

Definition Decode (data : list Z) (inum : Z) : res Inode :=
  let dec := NewDec data in
  '(kind, dec) ← GetInt32 dec;
  '(nlink, dec) ← GetInt32 dec;
  '(gen, dec) ← GetInt dec;
  '(size, dec) ← GetInt dec;
  '(ssize, dec) ← GetInt dec;
  '(asec, dec) ← GetInt32 dec;
  '(ansec, dec) ← GetInt32 dec;
  '(msec, dec) ← GetInt32 dec;
  '(mnsec, dec) ← GetInt32 dec;
  '(bs, _) ← GetInts dec NBLKINO;
  mret (mkInode inum None kind nlink gen size ssize
          (mkNfstime3 asec ansec) (mkNfstime3 msec mnsec) bs).

(** The loop [p = p * p] runs [level - 1] times. *)
Definition pow (level : Z) : Z :=
  if level =? 0 then 1
  else Nat.iter (Z.to_nat (level - 1)) (fun p => p *w p) NBLKBLK.

Definition MaxFileSize : Z :=
  let maxblks := pow NINDLEVEL in
  (NDIRECT +w maxblks) *w BlockSize.

Definition WriteInode : M ISt unit :=
  s ← get;
  let '(ip, a) := s in
  if NInode (a_super a) <=? i_Inum ip then panic
  else
    d ← lift (Encode ip);
    on_atxn (op_OverWrite (Inum2Addr (a_super a) (i_Inum ip)) (INODESZ * 8) d).

Definition FreeInode : M ISt unit :=
  _ ← ip_set (with_Kind NF3FREE);
  _ ← ip_set (fun ip => with_Gen (i_Gen ip +w 1) ip);
  _ ← WriteInode;
  inum ← ip_get i_Inum;
  on_atxn (FreeINum inum).

(** *** Freeing blocks ([shrink.go]) *)

Definition shrinkFits (nblk : Z) : M ISt bool :=
  gets (fun s => NDirty (a_op s.2) +w nblk <? LogBlocks).

Definition is_shrinking (ip : Inode) : bool :=
  let cursz := util_RoundUp (i_Size ip) BlockSize in
  cursz <? i_ShrinkSize ip.

Definition IsShrinking : M ISt bool := ip_get is_shrinking.

Definition freeIndex (index : Z) : M ISt unit :=
  bs ← ip_get i_blks;
  b ← lift (idx bs index);
  _ ← on_atxn (FreeBlock b);
  bs ← lift (setidx bs index 0);
  ip_set (with_blks bs).

(** [BnumGet] and [BnumPut] on a block's buffer; [BnumPut] marks it dirty. *)
Definition BnumGet (a : addr) (o : Z) : M ASt Z :=
  d ← data_of a;
  lift (bnum_get d o).

Definition BnumPut (a : addr) (o v : Z) : M ASt unit :=
  d ← data_of a;
  d ← lift (bnum_put d o v);
  _ ← assign_data a d;
  set_dirty a.

Fixpoint indshrink (root : Z) (level : nat) (bn : Z) : M ASt Z :=
  if bool_decide (root = NULLBNUM) then mret 0
  else
    match level with
    | O => mret root
    | S level =>
        let divisor := pow (Z.of_nat level) in
        let off := bn / divisor in
        let ind := bn mod divisor in
        let boff := off *w 8 in
        b ← ReadBlock root;
        nxtroot ← BnumGet b boff;
        _ ← AssertValidBlock nxtroot;
        _ ← (if bool_decide (nxtroot <> 0) then
               freeroot ← indshrink nxtroot level ind;
               if bool_decide (freeroot <> 0) then
                 _ ← BnumPut b boff 0;
                 FreeBlock freeroot
               else mret tt
             else mret tt);
        mret (if (off =? 0) && (ind =? 0) then root else NULLBNUM)
    end.

Definition shrink_one : M ISt unit :=
  _ ← ip_set (fun ip => with_ShrinkSize (i_ShrinkSize ip -w 1) ip);
  ip ← ip_get id;
  if i_ShrinkSize ip <? NDIRECT then freeIndex (i_ShrinkSize ip)
  else
    let off := i_ShrinkSize ip -w NDIRECT in
    if off <? NBLKBLK then
      root ← lift (idx (i_blks ip) INDIRECT);
      freeroot ← on_atxn (indshrink root 1 off);
      if bool_decide (freeroot <> 0) then freeIndex INDIRECT else mret tt
    else
      let off := off -w NBLKBLK in
      root ← lift (idx (i_blks ip) DINDIRECT);
      freeroot ← on_atxn (indshrink root 2 off);
      if bool_decide (freeroot <> 0) then freeIndex DINDIRECT else mret tt.

Fixpoint shrink_loop (fuel : nat) : M ISt unit :=
  shrinking ← IsShrinking;
  fits ← shrinkFits 5;
  if shrinking && fits then
    match fuel with
    | O => nofuel
    | S fuel => _ ← shrink_one; shrink_loop fuel
    end
  else mret tt.

(** Each iteration frees one file block, so [ShrinkSize] bounds the loop. *)
Definition Shrink : M ISt bool :=
  ssize ← ip_get i_ShrinkSize;
  _ ← shrink_loop (Z.to_nat ssize);
  _ ← WriteInode;
  IsShrinking.

Definition Resize (sz : Z) : M ISt bool :=
  oldsz ← ip_get (fun ip => util_RoundUp (i_Size ip) BlockSize);
  _ ← ip_set (with_Size sz);
  let newSz := util_RoundUp sz BlockSize in
  _ ← ip_set (with_ShrinkSize (if newSz <? oldsz then oldsz else newSz));
  _ ← WriteInode;
  if newSz <? oldsz then
    fits ← shrinkFits (oldsz -w newSz);
    if (fits : bool) then
      _ ← Shrink;
      mret false
    else mret true
  else mret false.

(** *** Mapping file blocks to disk blocks *)

Fixpoint indbmap (root_ : Z) (level : nat) (off : Z) : M ASt (Z * Z) :=
  root ← (if bool_decide (root_ = NULLBNUM) then AllocBlock else mret root_);
  if bool_decide (root_ = NULLBNUM /\ root = NULLBNUM) then mret (root, root)
  else
    match level with
    | O => mret (root, root)
    | S level =>
        let divisor := pow (Z.of_nat level) in
        let o := off / divisor in
        let bo := o *w 8 in
        let ind := off mod divisor in
        buf ← ReadBlock root;
        nxtroot ← BnumGet buf bo;
        '(blkno, newnextroot) ← indbmap nxtroot level ind;
        _ ← AssertValidBlock newnextroot;
        _ ← AssertValidBlock blkno;
        _ ← (if bool_decide (newnextroot <> nxtroot)
             then BnumPut buf bo newnextroot else mret tt);
        mret (blkno, root)
    end.

Definition bmap (bn : Z) : M ISt (Z * bool) :=
  bs ← ip_get i_blks;
  if bn <? NDIRECT then
    b ← lift (idx bs bn);
    if bool_decide (b = NULLBNUM) then
      b ← on_atxn AllocBlock;
      bs ← lift (setidx bs bn b);
      _ ← ip_set (with_blks bs);
      mret (b, bool_decide (b <> NULLBNUM))
    else mret (b, false)
  else
    let off := bn -w NDIRECT in
    if off <? NBLKBLK then
      root_ ← lift (idx bs INDIRECT);
      '(blkno, root) ← on_atxn (indbmap root_ 1 off);
      let alloc := bool_decide (root <> root_) in
      _ ← (if alloc then bs ← lift (setidx bs INDIRECT root); ip_set (with_blks bs)
           else mret tt);
      mret (blkno, alloc)
    else
      let off := off -w NBLKBLK in
      root_ ← lift (idx bs DINDIRECT);
      '(blkno, root) ← on_atxn (indbmap root_ 2 off);
      (* the code compares with blks[INDIRECT] *)
      ind ← lift (idx bs INDIRECT);
      let alloc := bool_decide (root <> ind) in
      _ ← (if alloc then bs ← lift (setidx bs DINDIRECT root); ip_set (with_blks bs)
           else mret tt);
      mret (blkno, alloc).

(** *** Reading and writing *)

(** [for b := 0; b < nbytes; b++ { data = append(data, src[byteoff+b]) }] *)
Fixpoint append_loop (n : nat) (b : Z) (data src : list Z) (byteoff : Z) : res (list Z) :=
  match n with
  | O => mret data
  | S n =>
      x ← idx src (byteoff + b);
      append_loop n (b + 1) (data ++ [x]) src byteoff
  end.

(** [for b := 0; b < nbytes; b++ { dst[byteoff+b] = src[b] }] *)
Fixpoint copy_loop (n : nat) (b : Z) (dst src : list Z) (byteoff : Z) : res (list Z) :=
  match n with
  | O => mret dst
  | S n =>
      x ← idx src b;
      dst ← setidx dst (byteoff + b) x;
      copy_loop n (b + 1) dst src byteoff
  end.

Fixpoint read_loop (fuel : nat) (boff off n count : Z) (data : list Z) : M ISt (list Z) :=
  if n <? count then
    match fuel with
    | O => nofuel
    | S fuel =>
        let byteoff := off mod BlockSize in
        let nbytes := util_Min (BlockSize - byteoff) (count -w n) in
        '(blkno, alloc) ← bmap boff;
        if bool_decide (blkno = NULLBNUM) then mret data
        else
          _ ← (if (alloc : bool) then WriteInode else mret tt);
          buf ← on_atxn (ReadBlock blkno);
          d ← on_atxn (data_of buf);
          data ← lift (append_loop (Z.to_nat nbytes) 0 data d byteoff);
          read_loop fuel (boff +w 1) (off +w nbytes) (n +w nbytes) count data
    end
  else mret data.

Definition Read (offset bytesToRead : Z) : M ISt (list Z * bool) :=
  size ← ip_get i_Size;
  if size <=? offset then mret ([], true)
  else
    let count := if size <=? offset +w bytesToRead then size -w offset else bytesToRead in
    data ← read_loop (S (Z.to_nat count)) (offset / BlockSize) offset 0 count [];
    mret (data, false).

(** The state of the write loop: [ok], [alloc] and [cnt]. *)
Fixpoint write_loop (fuel : nat) (boff off n cnt : Z) (alloc : bool) (data : list Z)
    : M ISt (bool * bool * Z) :=
  if 0 <? n then
    match fuel with
    | O => nofuel
    | S fuel =>
        '(blkno, new) ← bmap boff;
        if bool_decide (blkno = NULLBNUM) then mret (false, alloc, cnt)
        else
          let alloc := if (new : bool) then true else alloc in
          let byteoff := off mod BlockSize in
          let nbytes := if n <? BlockSize - byteoff then n else BlockSize - byteoff in
          _ ← (if (byteoff =? 0) && (nbytes =? BlockSize) then
                 s ← get;
                 d ← lift (slice data 0 nbytes);
                 on_atxn (op_OverWrite (Block2addr (a_super s.2) blkno) NBITBLOCK d)
               else
                 buffer ← on_atxn (ReadBlock blkno);
                 d ← on_atxn (data_of buffer);
                 d ← lift (copy_loop (Z.to_nat nbytes) 0 d data byteoff);
                 _ ← on_atxn (assign_data buffer d);
                 on_atxn (set_dirty buffer));
          data ← lift (slice data nbytes (len data));
          write_loop fuel (boff +w 1) (off +w nbytes) (n -w nbytes) (cnt +w nbytes) alloc data
    end
  else mret (true, alloc, cnt).

Definition Write (offset count : Z) (dataBuf : list Z) : M ISt (Z * bool) :=
  if MaxFileSize <? offset +w count then mret (0, false)
  else
    '(ok, alloc, cnt) ← write_loop (S (Z.to_nat count)) (offset / BlockSize) offset count 0
                          false dataBuf;
    if (alloc : bool) || (0 <? cnt) then
      _ ← ip_set (fun ip => if i_Size ip <? offset +w cnt then with_Size (offset +w cnt) ip else ip);
      _ ← WriteInode;
      mret (cnt, true)
    else mret (cnt, ok).

Definition DecLink : M ISt bool :=
  _ ← ip_set (fun ip => with_Nlink (w32 (i_Nlink ip - 1)) ip);
  _ ← WriteInode;
  ip_get (fun ip => bool_decide (i_Nlink ip = 0)).
End inode.
