(* ===== verification/InodeCodec.v ===== *)
(** The on-disk format of inodes: [Encode] fills the 128 bytes of an inode
    exactly, and [Decode] inverts it. *)
From S2P Require Import Prelude Nfstypes External Reference Super Dcache Alloctxn AtxnCommit Inode.

Definition time_wf (t : Nfstime3) : Prop :=
  is_u32 (Nfstime3_Seconds t) /\ is_u32 (Nfstime3_Nseconds t).

Record inode_wf (ip : Inode) : Prop := {
  iw_Kind : is_u32 (i_Kind ip);
  iw_Nlink : is_u32 (i_Nlink ip);
  iw_Gen : is_u64 (i_Gen ip);
  iw_Size : is_u64 (i_Size ip);
  iw_ShrinkSize : is_u64 (i_ShrinkSize ip);
  iw_Atime : time_wf (i_Atime ip);
  iw_Mtime : time_wf (i_Mtime ip);
  iw_blks : len (i_blks ip) = NBLKINO;
  iw_blks_u64 : Forall is_u64 (i_blks ip);
}.

Section codec.
Context `{!Common} `{!CommonSpec} `{!Marshal} `{!MarshalSpec}.

(** The bytes of an inode. *)
Definition inode_bytes (ip : Inode) : list Z :=
  u32_le (i_Kind ip) ++ u32_le (i_Nlink ip) ++ u64_le (i_Gen ip) ++ u64_le (i_Size ip) ++
  u64_le (i_ShrinkSize ip) ++ u32_le (Nfstime3_Seconds (i_Atime ip)) ++
  u32_le (Nfstime3_Nseconds (i_Atime ip)) ++ u32_le (Nfstime3_Seconds (i_Mtime ip)) ++
  u32_le (Nfstime3_Nseconds (i_Mtime ip)) ++ concat (u64_le <$> i_blks ip).

Lemma inode_bytes_len ip : len (i_blks ip) = NBLKINO -> len (inode_bytes ip) = INODESZ.
Proof.
  intros Hb. unfold inode_bytes. rewrite !len_app, !u64_le_len, !u32_le_len, concat_u64_le_len, Hb.
  csimp. done.
Qed.

Lemma Encode_eq ip : len (i_blks ip) = NBLKINO -> Encode ip = Ok (inode_bytes ip).
Proof.
  intros Hb. unfold NBLKINO in Hb. unfold Encode. csimp. pose proof (enc_at_new 128) as He.
  put_ok (PutInt32_spec (NewEnc 128) (i_Kind ip)) He.
  put_ok (PutInt32_spec e (i_Nlink ip)) He.
  put_ok (PutInt_spec e0 (i_Gen ip)) He.
  put_ok (PutInt_spec e1 (i_Size ip)) He.
  put_ok (PutInt_spec e2 (i_ShrinkSize ip)) He.
  put_ok (PutInt32_spec e3 (Nfstime3_Seconds (i_Atime ip))) He.
  put_ok (PutInt32_spec e4 (Nfstime3_Nseconds (i_Atime ip))) He.
  put_ok (PutInt32_spec e5 (Nfstime3_Seconds (i_Mtime ip))) He.
  put_ok (PutInt32_spec e6 (Nfstime3_Nseconds (i_Mtime ip))) He.
  put_ok (PutInts_spec e7 (i_blks ip)) He.
  rewrite (enc_at_finish _ _ _ He). unfold mret, res_ret. f_equal.
  rewrite !len_app, !u64_le_len, !u32_le_len, concat_u64_le_len, Hb. simpl.
  rewrite app_nil_r. unfold inode_bytes. by rewrite <-!app_assoc.
Qed.

Lemma Decode_bytes ip inum rest : inode_wf ip ->
  Decode (inode_bytes ip ++ rest) inum = Ok (with_Dcache None (with_Inum inum ip)).
Proof.
  intros [Hk Hn Hg Hs Hss [Ha Ha'] [Hm Hm'] Hb Hbs]. unfold Decode.
  pose proof (NewDec_rest (inode_bytes ip ++ rest)) as Hd. unfold inode_bytes in Hd at 2.
  rewrite <-!app_assoc in Hd.
  get_ok GetInt32_app Hd. get_ok GetInt32_app Hd. get_ok GetInt_app Hd. get_ok GetInt_app Hd.
  get_ok GetInt_app Hd. get_ok GetInt32_app Hd. get_ok GetInt32_app Hd. get_ok GetInt32_app Hd.
  get_ok GetInt32_app Hd. get_ok GetInts_app Hd.
  destruct ip as [? ? ? ? ? ? ? [] [] ?]. done.
Qed.
End codec.

Section claims.
Context `{!Common} `{!CommonSpec} `{!Marshal} `{!MarshalSpec}.

(** An inode encodes to exactly the 128 bytes of its disk slot, and decoding
    them gives back every on-disk field, with the inode number the caller
    names and an empty name cache. *)
Theorem Decode_Encode ip : inode_wf ip ->
  exists d, Encode ip = Ok d /\ len d = INODESZ /\
    Decode d (i_Inum ip) = Ok (with_Dcache None ip).
Proof.
  intros Hw. exists (inode_bytes ip). split_and!.
  - by apply Encode_eq, iw_blks.
  - by apply inode_bytes_len, iw_blks.
  - rewrite <-(app_nil_r (inode_bytes ip)), Decode_bytes by done. by destruct ip.
Qed.
End claims.

Definition sample_inode : Inode :=
  mkInode 7 None 1 1 3 5000 2 (mkNfstime3 10 20) (mkNfstime3 30 40) [2000; 2001; 0; 0; 0; 0; 0; 0; 0; 0].

Lemma sample_inode_wf : inode_wf sample_inode.
Proof.
  unfold sample_inode. split; simpl; unfold time_wf, is_u32, is_u64; simpl; try lia; [done|].
  repeat (apply Forall_cons_2; [lia|]). by apply Forall_nil_2.
Qed.

Lemma Decode_Encode_witness : exists d, Encode sample_inode = Ok d /\ len d = INODESZ /\
  Decode d 7 = Ok sample_inode.
Proof. exact (Decode_Encode sample_inode sample_inode_wf). Defined.
