(* ===== verification/InodeMap.v ===== *)
(** The block map of a file: the trees of block numbers hanging off an inode,
    and the effect of [indbmap] and [bmap] on them.

    A position is a path of indices; [tptr s root p] is the block number found
    by following [p] from [root], 0 where the path leaves the tree. *)
From S2P Require Import Prelude Nfstypes External Reference Super Dcache Alloctxn AtxnCommit Inode.

Section tree.
Context `{!Common} `{!CommonSpec} `{!Journal} `{!JournalSpec} `{!AllocPkg} `{!AllocSpec}
  `{!Buf} `{!BufSpec}.
Implicit Types (s : ASt) (b root off : Z) (p q : list Z).

Definition num s b (o : Z) : Z :=
  match bnum_get (blk s b) (o * 8) with Ok v => v | _ => 0 end.

Fixpoint tptr s root p : Z :=
  match p with
  | [] => root
  | o :: p => if bool_decide (root = 0) then 0 else tptr s (num s root o) p
  end.

Definition slot_ok (o : Z) : Prop := 0 <= o < 512.

Definition tpath_ok (l : nat) p : Prop := (length p <= l)%nat /\ Forall slot_ok p.

(** The path [indbmap] follows for block [off] of a tree of depth [l]. *)
Fixpoint tpath (l : nat) off : list Z :=
  match l with
  | O => []
  | S l => off / pow (Z.of_nat l) :: tpath l (off mod pow (Z.of_nat l))
  end.

(** A block in use: neither free nor freed by the transaction. *)
Definition used s b : Prop :=
  valid_blk (a_super s) b /\ b ∉ alloc_free (a_balloc s) /\ b ∉ a_freeBnums s.

(** The blocks of a tree are in use, and no block appears twice. *)
Record tree_wf s (l : nat) root : Prop := {
  tw_used : forall p, tpath_ok l p -> tptr s root p <> 0 -> used s (tptr s root p);
  tw_inj : forall p q, tpath_ok l p -> tpath_ok l q ->
    tptr s root p = tptr s root q -> tptr s root p <> 0 -> p = q;
}.

(** The blocks of a tree that hold block numbers. *)
Definition interior s (l : nat) root b : Prop :=
  exists p, (length p < l)%nat /\ Forall slot_ok p /\ tptr s root p = b.

(** What a transaction that only allocates and writes keeps. *)
Record grow s s' : Prop := {
  gr_inv : txn_inv s';
  gr_zero : zero_inv s';
  gr_super : a_super s' = a_super s;
  gr_log : a_log s' = a_log s;
  gr_freed : a_freeBnums s' = a_freeBnums s;
  gr_free : alloc_free (a_balloc s') ⊆ alloc_free (a_balloc s);
  gr_ialloc : a_ialloc s' = a_ialloc s;
  gr_allocInums : a_allocInums s' = a_allocInums s;
  gr_freeInums : a_freeInums s' = a_freeInums s;
  gr_loaded : forall a, is_Some (op_bufs (a_op s) !! a) -> is_Some (op_bufs (a_op s') !! a);
  gr_from : forall s0, atxn_from s0 s -> atxn_from s0 s';
}.

Lemma grow_refl s : txn_inv s -> zero_inv s -> grow s s.
Proof. by split. Qed.

Lemma grow_trans s1 s2 s3 : grow s1 s2 -> grow s2 s3 -> grow s1 s3.
Proof.
  intros [] []. split; try done; try congruence; [set_solver|eauto..].
Qed.

Lemma used_grow s s' b : grow s s' -> used s b -> used s' b.
Proof.
  intros Hg (Hv & Hf & Hd). unfold used. rewrite (gr_super _ _ Hg), (gr_freed _ _ Hg).
  pose proof (gr_free _ _ Hg). set_solver.
Qed.

Lemma used_pos s b : txn_inv s -> used s b -> 0 < b < 2 ^ 60.
Proof. intros Hinv [Hv _]. by eapply valid_blk_pos, Hv; apply (ti_layout _ Hinv). Qed.

Lemma pow_0 : pow (Z.of_nat 0) = 1.
Proof. done. Qed.

Lemma NBLKBLK_eq : NBLKBLK = 512.
Proof. unfold NBLKBLK. csimp. done. Qed.

Lemma pow_1 : pow (Z.of_nat 1) = 512.
Proof. unfold pow. simpl. apply NBLKBLK_eq. Qed.

Lemma pow_2 : pow (Z.of_nat 2) = 262144.
Proof. unfold pow. simpl. rewrite NBLKBLK_eq. done. Qed.

Lemma pow_split l off : (S l <= 2)%nat -> 0 <= off < pow (Z.of_nat (S l)) ->
  slot_ok (off / pow (Z.of_nat l)) /\ 0 <= off mod pow (Z.of_nat l) < pow (Z.of_nat l).
Proof.
  intros Hl Ho. unfold slot_ok. destruct l as [|[|l]]; [| |lia].
  - rewrite pow_0. rewrite pow_1 in Ho. rewrite Z.div_1_r, Z.mod_1_r. lia.
  - rewrite pow_1. rewrite pow_2 in Ho. split; [|apply Z.mod_pos_bound; lia].
    split; [apply Z.div_pos; lia|apply Z.div_lt_upper_bound; lia].
Qed.

Lemma tpath_length l off : length (tpath l off) = l.
Proof. revert off. induction l as [|l IH]; intros off; simpl; auto. Qed.

Lemma tpath_slots l off : (l <= 2)%nat -> 0 <= off < pow (Z.of_nat l) -> tpath_ok l (tpath l off).
Proof.
  intros Hl Ho. split; [by rewrite tpath_length|]. revert off Hl Ho.
  induction l as [|l IH]; intros off Hl Ho; simpl; [done|].
  destruct (pow_split l off Hl Ho) as [Hs Hi]. constructor; [done|]. apply IH; [lia|done].
Qed.

Lemma tpath_inj l off off' : (l <= 2)%nat -> 0 <= off < pow (Z.of_nat l) ->
  0 <= off' < pow (Z.of_nat l) -> tpath l off = tpath l off' -> off = off'.
Proof.
  intros Hl Ho Ho'. revert off off' Hl Ho Ho'.
  induction l as [|l IH]; intros off off' Hl Ho Ho'; cbn [tpath].
  - rewrite pow_0 in *. intros _. lia.
  - intros [= Hd Hm]. destruct (pow_split l off Hl Ho) as [_ Hi].
    destruct (pow_split l off' Hl Ho') as [_ Hi'].
    apply IH in Hm; [|lia|done..].
    rewrite (Z.div_mod off (pow (Z.of_nat l))), (Z.div_mod off' (pow (Z.of_nat l))) by lia.
    congruence.
Qed.

(** *** [tptr] *)

Lemma tptr_0 s p : tptr s 0 p = 0.
Proof. by destruct p. Qed.

Lemma tptr_cons s root o p : root <> 0 -> tptr s root (o :: p) = tptr s (num s root o) p.
Proof. intros Hr. simpl. by rewrite bool_decide_eq_false_2. Qed.

Lemma tptr_ext s s' l root p : (length p <= l)%nat -> Forall slot_ok p ->
  (forall b, b <> 0 -> interior s l root b -> blk s' b = blk s b) ->
  tptr s' root p = tptr s root p.
Proof.
  revert l root. induction p as [|o p IH]; intros l root Hl Hp Hb; [done|].
  destruct (decide (root = 0)) as [->|Hr]; [by rewrite !tptr_0|].
  destruct l as [|l]; simpl in Hl; [lia|]. apply Forall_cons in Hp as [Ho Hp].
  rewrite !tptr_cons by done.
  assert (num s' root o = num s root o) as ->.
  { unfold num. rewrite Hb; [done|done|]. exists []. split_and!; [simpl; lia|done|done]. }
  apply (IH l); [lia|done|]. intros b Hne (q & Hq & Hqs & Hqb). apply Hb; [done|].
  exists (o :: q). split_and!; [simpl; lia|by constructor|by rewrite tptr_cons].
Qed.

Lemma tptr_blk s s' root p : (forall b, blk s' b = blk s b) -> tptr s' root p = tptr s root p.
Proof.
  intros Hb. revert root. induction p as [|o p IH]; intros root; [done|]. simpl.
  case_bool_decide; [done|]. unfold num. by rewrite Hb, IH.
Qed.

Lemma tpath_ok_nil l : tpath_ok l [].
Proof. split; [simpl; lia|done]. Qed.

Lemma tpath_ok_cons l o p : slot_ok o -> tpath_ok l p -> tpath_ok (S l) (o :: p).
Proof. intros Ho [Hl Hp]. split; [simpl; lia|by constructor]. Qed.

Lemma tpath_ok_cons_inv l o p : tpath_ok l (o :: p) ->
  exists l', l = S l' /\ slot_ok o /\ tpath_ok l' p.
Proof.
  intros [Hl Hp]. apply Forall_cons in Hp as [Ho Hp]. destruct l as [|l]; simpl in Hl; [lia|].
  exists l. split_and!; [done|done|]. split; [lia|done].
Qed.

Lemma tree_wf_child s l root o : root <> 0 -> slot_ok o -> tree_wf s (S l) root ->
  tree_wf s l (num s root o).
Proof.
  intros Hr Ho [Hu Hi]. split.
  - intros p Hp Hne. rewrite <-(tptr_cons s root o p Hr) in *. apply Hu; [by apply tpath_ok_cons|done].
  - intros p q Hp Hq Heq Hne. rewrite <-!(tptr_cons s root o _ Hr) in *.
    apply Hi in Heq; [by injection Heq|by apply tpath_ok_cons..|done].
Qed.

Lemma tree_wf_mono s s' l root : grow s s' -> (forall b, blk s' b = blk s b) ->
  tree_wf s l root -> tree_wf s' l root.
Proof.
  intros Hg Hb [Hu Hi]. split.
  - intros p Hp. rewrite (tptr_blk s s') by done. intros Hne. eapply used_grow, Hu; done.
  - intros p q Hp Hq. rewrite !(tptr_blk s s') by done. by apply Hi.
Qed.

Lemma tree_wf_0 s l : tree_wf s l 0.
Proof. split; intros p; rewrite tptr_0; done. Qed.

(** *** The effect of the transaction's operations on the view of blocks *)

Lemma blk_load s o' b b' : op_bufs o' = load (a_log s) (op_bufs (a_op s)) (Block2addr (a_super s) b) NBITBLOCK ->
  blk (set_op o' s) b' = blk s b'.
Proof.
  intros Ho. unfold blk, obj. simpl. rewrite Ho.
  destruct (decide (b' = b)) as [->|Hne].
  - rewrite load_lookup. simpl. by destruct (op_bufs (a_op s) !! _).
  - rewrite load_lookup_ne; [done|]. by intros ?%Block2addr_inj.
Qed.

Lemma blk_write s o' b d : op_bufs o' = <[Block2addr (a_super s) b := mkBufv NBITBLOCK d true]> (op_bufs (a_op s)) ->
  blk (set_op o' s) b = d /\ (forall b', b' <> b -> blk (set_op o' s) b' = blk s b').
Proof.
  intros Ho. unfold blk, obj. simpl. rewrite Ho. split.
  - by rewrite lookup_insert_eq.
  - intros b' Hne. rewrite lookup_insert_ne; [done|]. by intros ?%Block2addr_inj.
Qed.

(** Writing a data block leaves the inodes alone. *)
Definition same_inodes s s' : Prop :=
  forall i, 0 <= i < NInode (a_super s) -> iobj s' i = iobj s i.

Lemma same_inodes_trans s1 s2 s3 : a_super s2 = a_super s1 ->
  same_inodes s1 s2 -> same_inodes s2 s3 -> same_inodes s1 s3.
Proof. intros Hs H12 H23 i Hi. rewrite H23, H12; [done|done|]. by rewrite Hs. Qed.

Lemma iobj_other s o' b : txn_inv s -> valid_blk (a_super s) b ->
  (forall a, a <> Block2addr (a_super s) b -> op_bufs o' !! a = op_bufs (a_op s) !! a) ->
  same_inodes s (set_op o' s).
Proof.
  intros Hinv Hv Ho i Hi. unfold iobj, obj. simpl. rewrite Ho; [done|].
  apply Inum_Block_ne; [apply (ti_layout _ Hinv)|done|done].
Qed.

Lemma iobj_load s o' b : txn_inv s -> valid_blk (a_super s) b ->
  op_bufs o' = load (a_log s) (op_bufs (a_op s)) (Block2addr (a_super s) b) NBITBLOCK ->
  same_inodes s (set_op o' s).
Proof. intros Hinv Hv Ho. apply (iobj_other s o' b); [done..|]. intros a Ha. by rewrite Ho, load_lookup_ne. Qed.

Lemma iobj_write_blk s o' b d : txn_inv s -> valid_blk (a_super s) b ->
  op_bufs o' = <[Block2addr (a_super s) b := mkBufv NBITBLOCK d true]> (op_bufs (a_op s)) ->
  same_inodes s (set_op o' s).
Proof. intros Hinv Hv Ho. apply (iobj_other s o' b); [done..|]. intros a Ha. by rewrite Ho, lookup_insert_ne. Qed.

Lemma grow_load s o' b : txn_inv s -> zero_inv s -> valid_blk (a_super s) b ->
  op_bufs o' = load (a_log s) (op_bufs (a_op s)) (Block2addr (a_super s) b) NBITBLOCK ->
  grow s (set_op o' s).
Proof.
  intros Hinv Hz Hv Ho.
  assert (map_Forall (buf_ok (a_super s) (a_log s)) (op_bufs o')) as Hok
    by (rewrite Ho; apply load_ok; [done|apply (ti_bufs_ok _ Hinv)]).
  split; simpl; try done.
  - by apply txn_inv_op.
  - split; [|apply Hz]. intros b' Hb'. rewrite (blk_load s o' b) by done. by apply Hz.
  - intros a [bv Ha]. rewrite Ho. destruct (decide (a = Block2addr (a_super s) b)) as [->|Hne].
    + by rewrite load_lookup.
    + rewrite load_lookup_ne by done. eauto.
  - intros s0 Hf. by apply atxn_from_op.
Qed.

Lemma grow_write s o' b d : txn_inv s -> zero_inv s -> used s b -> len d = BlockSize ->
  op_bufs o' = <[Block2addr (a_super s) b := mkBufv NBITBLOCK d true]> (op_bufs (a_op s)) ->
  grow s (set_op o' s).
Proof.
  intros Hinv Hz (Hv & Hf & Hd) Hlen Ho. destruct (blk_write s o' b d Ho) as [_ Hne].
  assert (map_Forall (buf_ok (a_super s) (a_log s)) (op_bufs o')) as Hok
    by (rewrite Ho; apply insert_blk_ok; [done..|apply (ti_bufs_ok _ Hinv)]).
  split; simpl; try done.
  - by apply txn_inv_op.
  - split; [|apply Hz]. intros b' Hb'. rewrite Hne; [by apply Hz|]. intros ->. destruct Hb'; done.
  - intros a Ha. rewrite Ho, lookup_insert. by case_decide.
  - intros s0 Hfr. by apply atxn_from_op.
Qed.

Lemma grow_alloc_none s al : zero_inv s -> txn_inv (set_balloc al s) ->
  alloc_free (a_balloc s) = ∅ -> alloc_free al = ∅ -> grow s (set_balloc al s).
Proof.
  intros Hz Hinv He He'. split; simpl; try done.
  - destruct Hz as [Hz Hd]. split; simpl; rewrite He'; [|set_solver].
    intros b Hb. apply Hz. rewrite He. exact Hb.
  - rewrite He'. set_solver.
  - intros s0 [Hi Hs Hl Hb Hia]. split; simpl; [done..| |done].
    rewrite Hb. by apply union_none.
Qed.

Lemma grow_alloc_some s al bn : zero_inv s -> bn ∈ alloc_free (a_balloc s) ->
  alloc_free al = alloc_free (a_balloc s) ∖ {[bn]} ->
  let s' := set_lists (a_allocInums s) (a_freeInums s) (a_allocBnums s ++ [bn])
              (a_freeBnums s) (set_balloc al s) in
  txn_inv s' -> grow s s'.
Proof.
  intros Hz Hin Hal s' Hinv. split; simpl; try done.
  - destruct Hz as [Hz Hd]. split; simpl; rewrite Hal; [|set_solver].
    intros b Hb. change (blk s' b) with (blk s b). apply Hz. set_solver.
  - rewrite Hal. set_solver.
  - intros s0 [Hi Hs Hl Hb Hia]. split; simpl; [done..| |done].
    rewrite Hb. by apply union_take.
Qed.

(** [BnumGet] and [BnumPut] on a loaded buffer. *)
Lemma wp_BnumGet s b o Q : txn_inv s -> valid_blk (a_super s) b -> slot_ok o ->
  buf_Data (a_op s) (Block2addr (a_super s) b) = blk s b ->
  Q (num s b o) s -> wp (BnumGet (Block2addr (a_super s) b) (o *w 8)) s Q.
Proof.
  unfold slot_ok. intros Hinv Hv Ho Hd HQ. unfold BnumGet, data_of. wp_steps. rewrite Hd.
  wsimp. pose proof (blk_length s b Hinv Hv) as Hlen. csimp.
  destruct (bnum_get_ok (blk s b) (o * 8)) as (v & Hg & _); [lia|lia|].
  eapply wp_lift; [exact Hg|]. unfold num in HQ. by rewrite Hg in HQ.
Qed.

Lemma loaded_data s b : is_Some (op_bufs (a_op s) !! Block2addr (a_super s) b) ->
  buf_Data (a_op s) (Block2addr (a_super s) b) = blk s b.
Proof. intros [bv Hb]. rewrite buf_Data_eq. unfold blk, obj. by rewrite Hb. Qed.

(** Writing new contents into a loaded buffer. *)
Lemma loaded_write s b d : txn_inv s -> valid_blk (a_super s) b ->
  is_Some (op_bufs (a_op s) !! Block2addr (a_super s) b) ->
  op_bufs (buf_SetDirty (buf_Assign (a_op s) (Block2addr (a_super s) b) d) (Block2addr (a_super s) b)) =
  <[Block2addr (a_super s) b := mkBufv NBITBLOCK d true]> (op_bufs (a_op s)).
Proof.
  intros Hinv Hv [bv Hb]. apply (buf_write_bufs (a_log s)); [apply (ti_layout _ Hinv)|done|apply (ti_bufs _ Hinv)|].
  unfold load. by rewrite Hb.
Qed.

Lemma wp_BnumPut s b o v (Q : unit -> ASt -> Prop) : txn_inv s -> zero_inv s -> used s b ->
  slot_ok o -> is_u64 v -> is_Some (op_bufs (a_op s) !! Block2addr (a_super s) b) ->
  (forall s', grow s s' -> (forall b', b' <> b -> blk s' b' = blk s b') -> num s' b o = v ->
     (forall o', slot_ok o' -> o' <> o -> num s' b o' = num s b o') -> same_inodes s s' -> Q tt s') ->
  wp (BnumPut (Block2addr (a_super s) b) (o *w 8) v) s Q.
Proof.
  unfold slot_ok. intros Hinv Hz Hu Ho Hv Hld HQ. destruct (Hu) as (Hvb & _).
  unfold BnumPut, data_of, assign_data, set_dirty. wp_steps.
  rewrite loaded_data by done. wsimp. pose proof (blk_length s b Hinv Hvb) as Hlen. csimp.
  destruct (bnum_put_ok (blk s b) (o * 8) v) as (d & Hp & Hdl); [lia|lia|].
  eapply wp_lift; [exact Hp|]. wp_steps.
  set (o' := buf_SetDirty _ _). change (set_op o' _) with (set_op o' s).
  pose proof (loaded_write s b d Hinv Hvb Hld) as Hb. fold o' in Hb.
  destruct (blk_write s o' b d Hb) as [Heq Hne].
  apply HQ; [|done| | |by eapply iobj_write_blk].
  - eapply grow_write; [done|done|done| |exact Hb]. csimp. unfold len in *. lia.
  - unfold num. rewrite Heq. by erewrite bnum_get_put_eq.
  - intros o1 Ho1 Hne1. unfold num. rewrite Heq. erewrite bnum_get_put_ne; [done| |exact Hp]. lia.
Qed.

(** *** [indbmap] *)

(** Nothing was allocated, and no block changed. *)
Definition quiet s s' : Prop :=
  (forall b, valid_blk (a_super s) b -> blk s' b = blk s b) /\ a_balloc s' = a_balloc s.

Lemma quiet_refl s : quiet s s.
Proof. done. Qed.

Lemma quiet_trans s1 s2 s3 : a_super s2 = a_super s1 -> quiet s1 s2 -> quiet s2 s3 -> quiet s1 s3.
Proof.
  intros Hs [Hb1 Ha1] [Hb2 Ha2]. split; [|congruence].
  intros b Hv. rewrite Hb2, Hb1; [done|done|]. by rewrite Hs.
Qed.

(** [indbmap] on a tree of depth [l] from [s]: it returns the block at [off],
    after filling the missing blocks on the way from the free blocks. *)
Record ib_post s (l : nat) root off s' blkno root' : Prop := {
  ib_grow : grow s s';
  ib_blk : forall b, ~ interior s' l root' b -> blk s' b = blk s b;
  ib_tree : tree_wf s' l root';
  ib_node : forall p, tpath_ok l p -> tptr s' root' p = tptr s root p \/
    (p `prefix_of` tpath l off /\ tptr s root p = 0 /\
     tptr s' root' p ∈ alloc_free (a_balloc s));
  ib_leaf : blkno = tptr s' root' (tpath l off);
  ib_oom : blkno = 0 -> alloc_free (a_balloc s') = ∅;
  ib_inodes : same_inodes s s';
  ib_quiet : tptr s root (tpath l off) <> 0 -> root' = root /\ quiet s s';
}.

Lemma ib_post_0 s l root off : txn_inv s -> zero_inv s -> tree_wf s l root -> l = O ->
  root <> 0 -> ib_post s l root off s root root.
Proof.
  intros Hinv Hz Hw -> Hr. split; [by apply grow_refl|done|done|by left|done|done|done|done].
Qed.

Lemma ib_post_oom s l off al : txn_inv s -> zero_inv s -> txn_inv (set_balloc al s) ->
  alloc_free (a_balloc s) = ∅ -> alloc_free al = ∅ ->
  ib_post s l 0 off (set_balloc al s) 0 0.
Proof.
  intros Hinv Hz Hinv' He He'. split.
  - by apply grow_alloc_none.
  - done.
  - apply tree_wf_0.
  - intros p _. left. by rewrite !tptr_0.
  - by rewrite tptr_0.
  - done.
  - done.
  - by rewrite tptr_0.
Qed.

(** A fresh block is a tree with no entries. *)
Lemma num_zeros s b o : blk s b = zeros BlockSize -> slot_ok o -> num s b o = 0.
Proof.
  unfold slot_ok, num. intros -> Ho. csimp. rewrite bnum_get_zeros by lia. done.
Qed.

Lemma tptr_fresh s b o p : b <> 0 -> blk s b = zeros BlockSize -> slot_ok o ->
  tptr s b (o :: p) = 0.
Proof. intros Hb Hz Ho. rewrite tptr_cons, num_zeros by done. apply tptr_0. Qed.

Lemma tree_wf_fresh s l b : used s b -> b <> 0 -> blk s b = zeros BlockSize -> tree_wf s l b.
Proof.
  intros Hu Hb Hz.
  assert (forall p, tpath_ok l p -> tptr s b p <> 0 -> p = []) as Hnil.
  { intros [|o p] [_ Hp] Hne; [done|]. apply Forall_cons in Hp as [Ho _].
    by rewrite tptr_fresh in Hne. }
  split.
  - intros p Hp Hne. by rewrite (Hnil p Hp Hne).
  - intros p q Hp Hq Heq Hne. rewrite (Hnil p Hp Hne), (Hnil q Hq); [done|congruence].
Qed.

(** Adding a fresh root in front of [indbmap]. *)
Lemma ib_post_fresh s s1 l off s' blkno root' bn : grow s s1 -> (forall b, blk s1 b = blk s b) ->
  same_inodes s s1 ->
  bn ∈ alloc_free (a_balloc s) -> bn <> 0 -> blk s bn = zeros BlockSize ->
  ib_post s1 l bn off s' blkno root' -> ib_post s l 0 off s' blkno root'.
Proof.
  intros Hg Hb Hio Hbn Hne Hz [Hg' Hblk Hw Hnode Hleaf Hoom Hio' _]. split; try done.
  - by eapply grow_trans.
  - intros b Hni. by rewrite Hblk, Hb.
  - intros p Hp. rewrite tptr_0. destruct (Hnode p Hp) as [Heq|(Hpre & Hp0 & Hin)].
    + destruct p as [|o p].
      * right. split_and!; [apply prefix_nil|done|]. by rewrite Heq.
      * left. rewrite Heq. apply tptr_fresh; [done|by rewrite Hb|].
        destruct Hp as [_ Hp]. by apply Forall_cons in Hp as [? _].
    + right. split_and!; [done|done|]. by apply (gr_free _ _ Hg).
  - by eapply same_inodes_trans; [apply Hg| |].
  - by rewrite tptr_0.
Qed.

(** A node of the grown subtree is an old node or was free. *)
Lemma ib_node_sep s l root off s' blkno root' p b : ib_post s l root off s' blkno root' ->
  tpath_ok l p -> tptr s' root' p = b -> used s b -> tptr s root p = b.
Proof.
  intros Hib Hp Heq (_ & Hf & _). destruct (ib_node _ _ _ _ _ _ _ Hib p Hp) as [He|(_ & _ & Hin)].
  - congruence.
  - rewrite Heq in Hin. done.
Qed.

Lemma interior_path s l r b : interior s l r b -> exists p, tpath_ok l p /\ tptr s r p = b.
Proof. intros (p & Hp & Hs & Heq). exists p. split; [split; [lia|done]|done]. Qed.

(** *** Growing one subtree of a node *)

Section node.
Context (s s3 s4 : ASt) (l : nat) (root off blkno nn : Z).
Let o := off / pow (Z.of_nat l).
Let ind := off mod pow (Z.of_nat l).
Hypothesis Hroot : root <> 0.
Hypothesis Hpath : tpath_ok l (tpath l ind).
Hypothesis Ho : slot_ok o.
Hypothesis Hwf : tree_wf s (S l) root.
Hypothesis Hib : ib_post s l (num s root o) ind s3 blkno nn.
Hypothesis Hg4 : grow s3 s4.
Hypothesis Hblk4 : forall b, b <> root -> blk s4 b = blk s3 b.
Hypothesis Hio4 : same_inodes s3 s4.
Hypothesis Hnum4 : num s4 root o = nn.
Hypothesis Hnum4' : forall o', slot_ok o' -> o' <> o -> num s4 root o' = num s3 root o'.
Hypothesis Hquiet4 : nn = num s root o -> quiet s3 s4.

Lemma node_root_used : used s root.
Proof. apply (tw_used _ _ _ Hwf []); [apply tpath_ok_nil|done]. Qed.

(** No node of the grown subtree is the root, or a node of another subtree. *)
Lemma node_not_root p : tpath_ok l p -> tptr s3 nn p <> root.
Proof.
  intros Hp Heq. pose proof (ib_node_sep _ _ _ _ _ _ _ _ _ Hib Hp Heq node_root_used) as Hs.
  rewrite <-(tptr_cons s root o p Hroot) in Hs.
  apply (tw_inj _ _ _ Hwf _ [] (tpath_ok_cons _ _ _ Ho Hp) (tpath_ok_nil _)) in Hs; [done|].
  by rewrite Hs.
Qed.

Lemma node_not_sibling p o' q : tpath_ok l p -> slot_ok o' -> o' <> o -> tpath_ok l q ->
  tptr s root (o' :: q) <> 0 -> tptr s3 nn p <> tptr s root (o' :: q).
Proof.
  intros Hp Ho' Hne Hq Hn Heq.
  assert (used s (tptr s root (o' :: q))) as Hu.
  { apply (tw_used _ _ _ Hwf); [by apply tpath_ok_cons|done]. }
  pose proof (ib_node_sep _ _ _ _ _ _ _ _ _ Hib Hp Heq Hu) as Hs.
  rewrite <-(tptr_cons s root o p Hroot) in Hs.
  apply (tw_inj _ _ _ Hwf) in Hs; [congruence|by apply tpath_ok_cons..|congruence].
Qed.

Lemma node_blk3 b : b = root \/ (exists o' q, slot_ok o' /\ o' <> o /\ tpath_ok l q /\
    b = tptr s root (o' :: q) /\ b <> 0) -> blk s3 b = blk s b.
Proof.
  intros Hb. apply (ib_blk _ _ _ _ _ _ _ Hib). intros (p & Hp & Heq)%interior_path.
  destruct Hb as [->|(o' & q & Ho' & Hne & Hq & -> & Hn)].
  - exact (node_not_root p Hp Heq).
  - exact (node_not_sibling p o' q Hp Ho' Hne Hq Hn Heq).
Qed.

Lemma node_sub p : tpath_ok l p -> tptr s4 root (o :: p) = tptr s3 nn p.
Proof.
  intros Hp. rewrite tptr_cons, Hnum4 by done. destruct Hp as [Hl Hs].
  apply (tptr_ext _ _ l); [done..|]. intros b Hb (q & Hq & <-)%interior_path.
  by apply Hblk4, node_not_root.
Qed.

Lemma node_num3 o' : num s3 root o' = num s root o'.
Proof. unfold num. rewrite node_blk3; [done|by left]. Qed.

Lemma node_sibling o' p : slot_ok o' -> o' <> o -> tpath_ok l p ->
  tptr s4 root (o' :: p) = tptr s root (o' :: p).
Proof.
  intros Ho' Hne Hp. rewrite !tptr_cons, Hnum4', node_num3 by done. destruct Hp as [Hl Hs].
  apply (tptr_ext _ _ l); [done..|]. intros b Hb (q & Hq & Heq)%interior_path.
  rewrite <-(tptr_cons s root o' q Hroot) in Heq. rewrite Hblk4.
  - apply node_blk3. right. by exists o', q.
  - intros ->. apply (tw_inj _ _ _ Hwf _ [] (tpath_ok_cons _ _ _ Ho' Hq) (tpath_ok_nil _)) in Heq;
      [done|congruence].
Qed.

Lemma node_grow : grow s s4.
Proof. eapply grow_trans; [apply Hib|done]. Qed.

Lemma node_cases p : tpath_ok (S l) p ->
  p = [] \/ (exists q, p = o :: q /\ tpath_ok l q) \/
  (exists o' q, p = o' :: q /\ o' <> o /\ slot_ok o' /\ tpath_ok l q).
Proof.
  intros Hp. destruct p as [|o' q]; [by left|]. right.
  apply tpath_ok_cons_inv in Hp as (l' & [= <-] & Ho' & Hq).
  destruct (decide (o' = o)) as [->|]; [left|right]; eauto 8.
Qed.

Lemma node_used p : tpath_ok (S l) p -> tptr s4 root p <> 0 -> used s4 (tptr s4 root p).
Proof.
  intros Hp Hn. destruct (node_cases p Hp) as [->|[(q & -> & Hq)|(o' & q & -> & Hne & Ho' & Hq)]].
  - apply (used_grow s); [apply node_grow|apply node_root_used].
  - rewrite node_sub in * by done. apply (used_grow s3); [done|].
    by apply (tw_used _ _ _ (ib_tree _ _ _ _ _ _ _ Hib)).
  - rewrite node_sibling in * by done. apply (used_grow s); [apply node_grow|].
    by apply (tw_used _ _ _ Hwf).
Qed.

Lemma node_inj p q : tpath_ok (S l) p -> tpath_ok (S l) q ->
  tptr s4 root p = tptr s4 root q -> tptr s4 root p <> 0 -> p = q.
Proof.
  intros Hp Hq Heq Hn.
  destruct (node_cases p Hp) as [->|[(p' & -> & Hp')|(o1 & p' & -> & Hn1 & Ho1 & Hp')]];
  destruct (node_cases q Hq) as [->|[(q' & -> & Hq')|(o2 & q' & -> & Hn2 & Ho2 & Hq')]];
    rewrite ?node_sub, ?node_sibling in * by done.
  - done.
  - by destruct (node_not_root q' Hq').
  - apply (tw_inj _ _ _ Hwf [] _ (tpath_ok_nil _) Hq Heq); done.
  - by destruct (node_not_root p' Hp').
  - f_equal. by apply (tw_inj _ _ _ (ib_tree _ _ _ _ _ _ _ Hib)).
  - exfalso. eapply (node_not_sibling p'); [done|exact Ho2|done|exact Hq'|congruence|done].
  - apply (tw_inj _ _ _ Hwf _ [] Hp (tpath_ok_nil _) Heq). done.
  - exfalso. eapply (node_not_sibling q'); [done|exact Ho1|done|exact Hp'|done|done].
  - by apply (tw_inj _ _ _ Hwf).
Qed.

Lemma ib_post_node : ib_post s (S l) root off s4 blkno root.
Proof.
  split.
  - apply node_grow.
  - intros b Hb. assert (b <> root) as Hne.
    { intros ->. apply Hb. exists []. split_and!; [simpl; lia|done|done]. }
    rewrite Hblk4 by done. apply (ib_blk _ _ _ _ _ _ _ Hib). intros (p & Hp & Hs & Heq).
    apply Hb. exists (o :: p). split_and!; [simpl; lia|by constructor|].
    rewrite node_sub; [done|]. split; [lia|done].
  - split; [apply node_used|apply node_inj].
  - intros p Hp. destruct (node_cases p Hp) as [->|[(q & -> & Hq)|(o' & q & -> & Hne & Ho' & Hq)]].
    + by left.
    + rewrite node_sub, tptr_cons by done.
      destruct (ib_node _ _ _ _ _ _ _ Hib q Hq) as [?|(? & ? & ?)]; [by left|right].
      split_and!; [|done|done]. simpl. by apply prefix_cons.
    + left. by apply node_sibling.
  - rewrite (ib_leaf _ _ _ _ _ _ _ Hib). cbn [tpath]. symmetry. by apply node_sub.
  - intros Hz. apply (ib_oom _ _ _ _ _ _ _ Hib) in Hz. pose proof (gr_free _ _ Hg4). set_solver.
  - eapply same_inodes_trans; [apply Hib|apply Hib|done].
  - cbn [tpath]. rewrite tptr_cons by done. intros Hne. split; [done|].
    destruct (ib_quiet _ _ _ _ _ _ _ Hib Hne) as [Heq Hq].
    eapply quiet_trans; [apply Hib|exact Hq|by apply Hquiet4].
Qed.
End node.

Lemma wp_indbmap_0 s root off (Q : Z * Z -> ASt -> Prop) : root <> 0 ->
  Q (root, root) s -> wp (indbmap root 0 off) s Q.
Proof.
  intros Hr HQ. cbn [indbmap]. csimp. rewrite bool_decide_eq_false_2 by done. wp_steps.
  rewrite bool_decide_eq_false_2 by tauto. by apply wp_ret.
Qed.

(** A missing root is allocated, and [indbmap] goes on from it. *)
Lemma wp_indbmap_alloc s l off (Q : Z * Z -> ASt -> Prop) : txn_inv s ->
  (forall al, alloc_free (a_balloc s) = ∅ -> alloc_free al = ∅ ->
     txn_inv (set_balloc al s) -> Q (0, 0) (set_balloc al s)) ->
  (forall bn al, bn ∈ alloc_free (a_balloc s) -> valid_blk (a_super s) bn ->
     alloc_free al = alloc_free (a_balloc s) ∖ {[bn]} ->
     let s' := set_lists (a_allocInums s) (a_freeInums s) (a_allocBnums s ++ [bn])
                 (a_freeBnums s) (set_balloc al s) in
     txn_inv s' -> wp (indbmap bn l off) s' Q) ->
  wp (indbmap 0 l off) s Q.
Proof.
  intros Hinv HQ0 HQ1. destruct l as [|l]; cbn [indbmap]; csimp;
    rewrite bool_decide_eq_true_2 by done; apply wp_bind, wp_AllocBlock; try done; simpl.
  - intros al He He' Hi. apply wp_ret. auto.
  - intros bn al Hin Hv Hal Hi. specialize (HQ1 bn al Hin Hv Hal Hi).
    pose proof (valid_blk_pos _ _ (ti_layout _ Hinv) Hv).
    cbn [indbmap] in HQ1. csimp. rewrite bool_decide_eq_false_2 in HQ1 by lia.
    apply wp_ret_bind in HQ1. rewrite bool_decide_eq_false_2 in HQ1 by lia.
    rewrite bool_decide_eq_false_2 by lia. exact HQ1.
  - intros al He He' Hi. apply wp_ret. auto.
  - intros bn al Hin Hv Hal Hi. specialize (HQ1 bn al Hin Hv Hal Hi).
    pose proof (valid_blk_pos _ _ (ti_layout _ Hinv) Hv).
    cbn [indbmap] in HQ1. csimp. rewrite bool_decide_eq_false_2 in HQ1 by lia.
    apply wp_ret_bind in HQ1. rewrite bool_decide_eq_false_2 in HQ1 by lia.
    rewrite bool_decide_eq_false_2 by lia. exact HQ1.
Qed.

Lemma valid_or_0 s l root p : tree_wf s l root -> tpath_ok l p ->
  tptr s root p = 0 \/ valid_blk (a_super s) (tptr s root p).
Proof.
  intros Hw Hp. destruct (decide (tptr s root p = 0)) as [?|Hn]; [by left|right].
  by destruct (tw_used _ _ _ Hw p Hp Hn).
Qed.

Lemma wp_indbmap_node s l root off (Q : Z * Z -> ASt -> Prop) :
  txn_inv s -> zero_inv s -> root <> 0 -> tree_wf s (S l) root -> (S l <= 2)%nat ->
  0 <= off < pow (Z.of_nat (S l)) ->
  (forall s root off (Q : Z * Z -> ASt -> Prop), txn_inv s -> zero_inv s -> tree_wf s l root ->
     0 <= off < pow (Z.of_nat l) ->
     (forall s' blkno root', ib_post s l root off s' blkno root' -> Q (blkno, root') s') ->
     wp (indbmap root l off) s Q) ->
  (forall s' blkno, ib_post s (S l) root off s' blkno root -> Q (blkno, root) s') ->
  wp (indbmap root (S l) off) s Q.
Proof.
  intros Hinv Hz Hr Hw Hl Hoff IH HQ. destruct (pow_split l off Hl Hoff) as [Ho Hind].
  set (o := off / pow (Z.of_nat l)) in *. set (ind := off mod pow (Z.of_nat l)) in *.
  assert (used s root) as Hu by (apply (tw_used _ _ _ Hw []); [apply tpath_ok_nil|done]).
  destruct (Hu) as (Hv & _). cbn [indbmap]. csimp.
  rewrite bool_decide_eq_false_2 by done. wp_steps. rewrite bool_decide_eq_false_2 by tauto.
  fold o ind. apply wp_bind, wp_ReadBlock; [done|]. intros o2 Ho2 Hd2.
  pose proof (grow_load s o2 root Hinv Hz Hv Ho2) as Hg2.
  pose proof (fun b => blk_load s o2 root b Ho2) as Hb2.
  set (s2 := set_op o2 s) in *.
  apply wp_bind, (wp_BnumGet s2); [apply Hg2|done|done|by rewrite Hb2|].
  assert (num s2 root o = num s root o) as Hn2 by (unfold num; by rewrite Hb2). rewrite Hn2.
  apply wp_bind. apply IH; [apply Hg2|apply Hg2| |done|].
  { apply (tree_wf_mono s); [done..|]. by apply tree_wf_child. }
  intros s3 blkno nn Hib. pose proof (ib_grow _ _ _ _ _ _ _ Hib) as Hg3.
  assert (ib_post s l (num s root o) ind s3 blkno nn) as Hib'.
  { destruct Hib as [_ Hblk Htree Hnode Hleaf Hoom Hio Hq]. split; try done.
    - by eapply grow_trans.
    - intros b Hb. by rewrite Hblk, Hb2.
    - intros p Hp. destruct (Hnode p Hp) as [Heq|(? & Heq & ?)]; rewrite (tptr_blk s s2) in Heq by done;
        [by left|by right].
    - eapply same_inodes_trans; [|exact (iobj_load s o2 root Hinv Hv Ho2)|exact Hio]. done.
    - intros Hne. destruct Hq as [Heq Hq]; [by rewrite (tptr_blk s s2)|]. split; [done|].
      apply (quiet_trans s s2 s3); [done| |exact Hq]. split; [intros b _; apply Hb2|done]. }
  pose proof (tpath_slots l ind ltac:(lia) Hind) as Hpath.
  apply wp_bind, wp_AssertValidBlock.
  { apply (valid_or_0 s3 l nn []); [apply Hib|apply tpath_ok_nil]. }
  apply wp_bind, wp_AssertValidBlock.
  { rewrite (ib_leaf _ _ _ _ _ _ _ Hib). by apply (valid_or_0 s3 l nn); [apply Hib|]. }
  apply wp_bind. case_bool_decide as Hnn.
  - assert (a_super s3 = a_super s) as Hsp by (by rewrite (gr_super _ _ Hg3)).
    rewrite <-Hsp. apply (wp_BnumPut s3 root o nn).
    + apply Hg3.
    + apply Hg3.
    + by apply (used_grow s2), (used_grow s).
    + done.
    + destruct (decide (nn = 0)) as [->|Hne]; [unfold is_u64; lia|].
      assert (used s3 nn) as Hun
        by (apply (tw_used _ _ _ (ib_tree _ _ _ _ _ _ _ Hib) []); [apply tpath_ok_nil|done]).
      pose proof (used_pos s3 nn (gr_inv _ _ Hg3) Hun). unfold is_u64. lia.
    + rewrite Hsp. apply (gr_loaded _ _ Hg3). unfold s2. simpl.
      rewrite Ho2, load_lookup. eauto.
    + intros s4 Hg4 Hb4 Hn4 Hn4' Hio4. apply wp_ret. apply HQ.
      by apply (ib_post_node s s3 s4 l root off blkno nn).
  - apply wp_ret, wp_ret, HQ. apply (ib_post_node s s3 s3 l root off blkno nn); try done.
    + apply grow_refl; apply Hg3.
    + rewrite (node_num3 s s3 l root off blkno nn); try done.
Qed.

Lemma fresh_wf s l bn al : zero_inv s -> bn ∈ alloc_free (a_balloc s) -> valid_blk (a_super s) bn ->
  alloc_free al = alloc_free (a_balloc s) ∖ {[bn]} -> bn <> 0 ->
  tree_wf (set_lists (a_allocInums s) (a_freeInums s) (a_allocBnums s ++ [bn])
              (a_freeBnums s) (set_balloc al s)) l bn.
Proof.
  intros Hz Hin Hv Hal Hn. apply tree_wf_fresh; [|done|].
  - split_and!; [done| |]; simpl.
    + rewrite Hal. set_solver.
    + intros Hf. by apply (zi_freed _ Hz) in Hf.
  - apply (zi_zero _ Hz). by left.
Qed.

Lemma wp_indbmap s l root off (Q : Z * Z -> ASt -> Prop) :
  (l <= 2)%nat -> txn_inv s -> zero_inv s -> tree_wf s l root -> 0 <= off < pow (Z.of_nat l) ->
  (forall s' blkno root', ib_post s l root off s' blkno root' -> Q (blkno, root') s') ->
  wp (indbmap root l off) s Q.
Proof.
  intros Hl. revert s root off Q. induction l as [|l IH]; intros s root off Q Hinv Hz Hw Hoff HQ.
  - destruct (decide (root = 0)) as [->|Hr].
    + apply wp_indbmap_alloc; [done|..].
      * intros al He He' Hi. by apply HQ, ib_post_oom.
      * intros bn al Hin Hv Hal s1 Hi. pose proof (grow_alloc_some s al bn Hz Hin Hal Hi) as Hg.
        pose proof (valid_blk_pos _ _ (ti_layout _ Hinv) Hv). fold s1 in Hg.
        pose proof (fresh_wf s 0 bn al Hz Hin Hv Hal ltac:(lia)) as Hw1.
        apply wp_indbmap_0; [lia|]. apply HQ.
        apply (ib_post_fresh s s1 0 off s1 bn bn bn); [done|done|done|done|lia|apply Hz; by left|].
        apply ib_post_0; [apply Hg|apply Hg|exact Hw1|done|lia].
    + apply wp_indbmap_0; [done|]. by apply HQ, ib_post_0.
  - assert (forall s root off (Q : Z * Z -> ASt -> Prop), txn_inv s -> zero_inv s -> tree_wf s l root ->
     0 <= off < pow (Z.of_nat l) ->
     (forall s' blkno root', ib_post s l root off s' blkno root' -> Q (blkno, root') s') ->
     wp (indbmap root l off) s Q) as IH' by (intros; apply IH; auto; lia).
    destruct (decide (root = 0)) as [->|Hr].
    + apply wp_indbmap_alloc; [done|..].
      * intros al He He' Hi. by apply HQ, ib_post_oom.
      * intros bn al Hin Hv Hal s1 Hi. pose proof (grow_alloc_some s al bn Hz Hin Hal Hi) as Hg.
        pose proof (valid_blk_pos _ _ (ti_layout _ Hinv) Hv). fold s1 in Hg.
        pose proof (fresh_wf s (S l) bn al Hz Hin Hv Hal ltac:(lia)) as Hw1.
        apply wp_indbmap_node; [apply Hg|apply Hg|lia|exact Hw1|done|done|exact IH'|].
        intros s' blkno Hib. apply HQ.
        by apply (ib_post_fresh s s1 (S l) off s' blkno bn bn); [done|done|done|done|lia|apply Hz; by left|].
    + apply wp_indbmap_node; auto.
Qed.
End tree.

(** ** The blocks of a file *)

Section file.
Context `{!Common} `{!CommonSpec} `{!Journal} `{!JournalSpec} `{!AllocPkg} `{!AllocSpec}
  `{!Buf} `{!BufSpec}.
Implicit Types (s : ASt) (ip : Inode) (b root off bn : Z) (p q : list Z).

(** The tree below slot [i] of an inode has depth [depth i]. *)
Definition depth (i : Z) : nat :=
  if i <? 8 then 0%nat else if i =? 8 then 1%nat else 2%nat.

Definition root_of ip (i : Z) : Z := default 0 (i_blks ip !! Z.to_nat i).

Definition fptr ip s (x : Z * list Z) : Z := tptr s (root_of ip x.1) x.2.

Definition pos_ok (x : Z * list Z) : Prop := 0 <= x.1 < 10 /\ tpath_ok (depth x.1) x.2.

(** The position of file block [bn], and the block there. *)
Definition fpath bn : Z * list Z :=
  if bn <? 8 then (bn, []) else
  if bn - 8 <? 512 then (8, tpath 1 (bn - 8)) else (9, tpath 2 (bn - 520)).

Definition fblk ip s bn : Z := fptr ip s (fpath bn).

Definition MaxBlks : Z := 8 + 512 + 262144.

(** The blocks of a file are in use and distinct. *)
Record file_wf ip s : Prop := {
  fw_len : len (i_blks ip) = NBLKINO;
  fw_used : forall x, pos_ok x -> fptr ip s x <> 0 -> used s (fptr ip s x);
  fw_inj : forall x y, pos_ok x -> pos_ok y -> fptr ip s x = fptr ip s y ->
    fptr ip s x <> 0 -> x = y;
}.

Definition is_interior ip s b : Prop :=
  exists x, 0 <= x.1 < 10 /\ (length x.2 < depth x.1)%nat /\ Forall slot_ok x.2 /\ fptr ip s x = b.

Lemma file_tree ip s i : file_wf ip s -> 0 <= i < 10 -> tree_wf s (depth i) (root_of ip i).
Proof.
  intros [_ Hu Hi] Hr. split.
  - intros p Hp. by apply (Hu (i, p)).
  - intros p q Hp Hq Heq Hn. by injection (Hi (i, p) (i, q) (conj Hr Hp) (conj Hr Hq) Heq Hn).
Qed.

Lemma depth_le i : (depth i <= 2)%nat.
Proof. unfold depth. repeat case_match; lia. Qed.

Lemma fpath_ok bn : 0 <= bn < MaxBlks -> pos_ok (fpath bn) /\ length (fpath bn).2 = depth (fpath bn).1.
Proof.
  unfold MaxBlks, fpath. intros Hbn. destruct (Z.ltb_spec bn 8); simpl.
  { split; [split; simpl; [lia|apply tpath_ok_nil]|]. unfold depth.
    by destruct (Z.ltb_spec bn 8); [|lia]. }
  destruct (Z.ltb_spec (bn - 8) 512); simpl.
  - split; [|done]. split; simpl; [lia|]. apply (tpath_slots 1); [lia|]. rewrite pow_1. lia.
  - split; [|done]. split; simpl; [lia|]. apply (tpath_slots 2); [lia|]. rewrite pow_2. lia.
Qed.

Lemma fpath_inj bn bn' : 0 <= bn < MaxBlks -> 0 <= bn' < MaxBlks -> fpath bn = fpath bn' -> bn = bn'.
Proof.
  unfold MaxBlks, fpath. intros Hbn Hbn'.
  destruct (Z.ltb_spec bn 8), (Z.ltb_spec bn' 8), (Z.ltb_spec (bn - 8) 512), (Z.ltb_spec (bn' - 8) 512);
    intros Heq; pose proof (f_equal fst Heq) as Hi; pose proof (f_equal snd Heq) as Hp;
    cbn [fst snd] in Hi, Hp; try lia.
  - apply (tpath_inj 1) in Hp; rewrite ?pow_1; lia.
  - apply (tpath_inj 2) in Hp; rewrite ?pow_2; lia.
Qed.

Lemma zeros_fptr ip s x : i_blks ip = zeros 10 -> fptr ip s x = 0.
Proof.
  intros Hb. assert (root_of ip x.1 = 0) as Hr.
  { unfold root_of. rewrite Hb. unfold zeros. destruct (replicate _ 0 !! _) as [z|] eqn:Hz; [|done].
    by apply lookup_replicate in Hz as [-> _]. }
  unfold fptr. rewrite Hr. apply tptr_0.
Qed.


(** *** Replacing the tree of one slot *)

Section update.
Context (s s' : ASt) (ip ip' : Inode) (i off blkno r' : Z).
Hypothesis Hw : file_wf ip s.
Hypothesis Hi : 0 <= i < 10.
Hypothesis Hib : ib_post s (depth i) (root_of ip i) off s' blkno r'.
Hypothesis Hip : ip' = with_blks (<[Z.to_nat i := r']> (i_blks ip)) ip.

Lemma upd_root : root_of ip' i = r'.
Proof.
  unfold root_of. rewrite Hip. simpl. pose proof (fw_len _ _ Hw) as Hl. unfold NBLKINO, len in Hl.
  rewrite list_lookup_insert_eq; [done|lia].
Qed.

Lemma upd_root_ne j : 0 <= j < 10 -> j <> i -> root_of ip' j = root_of ip j.
Proof.
  intros Hj Hne. unfold root_of. rewrite Hip. simpl. rewrite list_lookup_insert_ne; [done|lia].
Qed.

(** A node of another slot is not a node of the new tree. *)
Lemma upd_sep p x : tpath_ok (depth i) p -> pos_ok x -> x.1 <> i -> fptr ip s x <> 0 ->
  tptr s' r' p <> fptr ip s x.
Proof.
  intros Hp Hx Hne Hn Heq.
  pose proof (ib_node_sep _ _ _ _ _ _ _ _ _ Hib Hp Heq (fw_used _ _ Hw x Hx Hn)) as Hs.
  change (tptr s (root_of ip i) p) with (fptr ip s (i, p)) in Hs.
  assert ((i, p) = x) as <-; [|done].
  apply (fw_inj _ _ Hw); [by split|done|done|congruence].
Qed.

Lemma upd_other x : pos_ok x -> x.1 <> i -> fptr ip' s' x = fptr ip s x.
Proof.
  intros [Hx Hxp] Hne. unfold fptr. rewrite upd_root_ne by done. destruct (Hxp) as [Hl Hs].
  apply (tptr_ext _ _ (depth x.1)); [done..|]. intros b Hb (q & Hq & Heq)%interior_path.
  apply (ib_blk _ _ _ _ _ _ _ Hib). intros (p & Hp & Hpb)%interior_path.
  apply (upd_sep p (x.1, q)); [done|by split|done| |]; unfold fptr; simpl; congruence.
Qed.

Lemma upd_same p : fptr ip' s' (i, p) = tptr s' r' p.
Proof. unfold fptr. simpl. by rewrite upd_root. Qed.

Lemma upd_wf : file_wf ip' s'.
Proof.
  pose proof (ib_grow _ _ _ _ _ _ _ Hib) as Hg. pose proof (ib_tree _ _ _ _ _ _ _ Hib) as Ht.
  split.
  - rewrite Hip. simpl. pose proof (fw_len _ _ Hw). len.
  - intros [j p] [Hj Hp] Hn. simpl in *. destruct (decide (j = i)) as [->|Hne].
    + rewrite upd_same in *. by apply (tw_used _ _ _ Ht).
    + rewrite upd_other in * by done. apply (used_grow s); [done|]. by apply (fw_used _ _ Hw).
  - intros [j p] [k q] [Hj Hp] [Hk Hq] Heq Hn. simpl in *.
    destruct (decide (j = i)) as [->|Hj']; destruct (decide (k = i)) as [->|Hk'];
      rewrite ?upd_same, ?upd_other in * by done.
    + f_equal. by apply (tw_inj _ _ _ Ht).
    + destruct (upd_sep p (k, q)); [done|done|done|congruence|done].
    + destruct (upd_sep q (j, p)); done.
    + by apply (fw_inj _ _ Hw).
Qed.

Lemma upd_node x : pos_ok x -> fptr ip' s' x = fptr ip s x \/
  (x.1 = i /\ x.2 `prefix_of` tpath (depth i) off /\ fptr ip s x = 0 /\
   fptr ip' s' x ∈ alloc_free (a_balloc s)).
Proof.
  intros Hx. destruct x as [j p]. destruct (decide (j = i)) as [->|Hne].
  - rewrite upd_same. destruct Hx as [_ Hp].
    destruct (ib_node _ _ _ _ _ _ _ Hib p Hp) as [?|(? & ? & ?)]; [by left|by right].
  - left. by apply upd_other.
Qed.

Lemma upd_blk b : ~ is_interior ip' s' b -> blk s' b = blk s b.
Proof.
  intros Hb. apply (ib_blk _ _ _ _ _ _ _ Hib). intros (p & Hp & Hs & Heq).
  apply Hb. exists (i, p). rewrite upd_same. done.
Qed.
End update.

(** *** [bmap] *)

Record bm_post ip s bn ip' s' blkno (alloc : bool) : Prop := {
  bm_ip : ip' = with_blks (i_blks ip') ip;
  bm_grow : grow s s';
  bm_wf : file_wf ip' s';
  bm_blk : forall b, ~ is_interior ip' s' b -> blk s' b = blk s b;
  bm_node : forall x, pos_ok x -> fptr ip' s' x = fptr ip s x \/
    (x.1 = (fpath bn).1 /\ x.2 `prefix_of` (fpath bn).2 /\ fptr ip s x = 0 /\
     fptr ip' s' x ∈ alloc_free (a_balloc s));
  bm_val : blkno = fblk ip' s' bn;
  bm_oom : blkno = 0 -> alloc_free (a_balloc s') = ∅;
  bm_alloc : alloc = false -> ip' = ip;
  bm_inodes : same_inodes s s';
  bm_quiet : fblk ip s bn <> 0 -> ip' = ip /\ quiet s s';
}.

Lemma with_blks_id ip : with_blks (i_blks ip) ip = ip.
Proof. by destruct ip. Qed.

Lemma root_idx ip s i : file_wf ip s -> 0 <= i < 10 -> idx (i_blks ip) i = Ok (root_of ip i).
Proof.
  intros Hw Hi. pose proof (fw_len _ _ Hw) as Hl. unfold NBLKINO, len in Hl.
  apply idx_Ok. split; [lia|]. unfold root_of.
  destruct (lookup_lt_is_Some_2 (i_blks ip) (Z.to_nat i)) as [x ->]; [lia|done].
Qed.

Lemma bm_post_intro ip s bn s' blkno r' alloc i off : file_wf ip s -> 0 <= i < 10 ->
  fpath bn = (i, tpath (depth i) off) ->
  ib_post s (depth i) (root_of ip i) off s' blkno r' ->
  (alloc = false -> r' = root_of ip i) ->
  bm_post ip s bn (with_blks (<[Z.to_nat i := r']> (i_blks ip)) ip) s' blkno alloc.
Proof.
  intros Hw Hi Hf Hib Ha. set (ip' := with_blks _ ip). split.
  - done.
  - apply Hib.
  - by eapply upd_wf.
  - intros b. by eapply upd_blk.
  - intros x Hx. rewrite Hf. by eapply upd_node.
  - unfold fblk. rewrite Hf. erewrite upd_same; [apply Hib|done..].
  - apply Hib.
  - intros ->. unfold ip'. rewrite Ha by done. rewrite list_insert_id; [apply with_blks_id|].
    unfold root_of. pose proof (fw_len _ _ Hw) as Hl. unfold NBLKINO, len in Hl.
    destruct (lookup_lt_is_Some_2 (i_blks ip) (Z.to_nat i)) as [x ->]; [lia|done].
  - apply Hib.
  - unfold fblk. rewrite Hf. intros Hne. destruct (ib_quiet _ _ _ _ _ _ _ Hib Hne) as [-> Hq].
    split; [|done]. unfold ip'. rewrite list_insert_id; [apply with_blks_id|].
    pose proof (root_idx ip s i Hw Hi) as Hx. by apply idx_Ok in Hx as [_ Hx].
Qed.

Lemma root_setidx ip s i r : file_wf ip s -> 0 <= i < 10 ->
  setidx (i_blks ip) i r = Ok (<[Z.to_nat i := r]> (i_blks ip)).
Proof. intros Hw Hi. apply setidx_Ok. rewrite (fw_len _ _ Hw). unfold NBLKINO. lia. Qed.

Lemma wp_on_atxn {A} (m : M ASt A) ip s (Q : A -> ISt -> Prop) :
  wp m s (fun a s' => Q a (ip, s')) -> wp (on_atxn m) (ip, s) Q.
Proof. intros Hm. apply wp_zoom. exact Hm. Qed.

Lemma wp_ip_get {A} (f : Inode -> A) ip s (Q : A -> ISt -> Prop) :
  Q (f ip) (ip, s) -> wp (ip_get f) (ip, s) Q.
Proof. intros HQ. by apply wp_gets. Qed.

Lemma wp_ip_set f ip s (Q : unit -> ISt -> Prop) :
  Q tt (f ip, s) -> wp (ip_set f) (ip, s) Q.
Proof. intros HQ. by apply wp_modify. Qed.

(** The direct blocks use [AllocBlock] as a tree of depth 0. *)
Lemma wp_AllocBlock_leaf s off (Q : Z -> ASt -> Prop) : txn_inv s -> zero_inv s ->
  (forall s' b, ib_post s 0 0 off s' b b -> Q b s') -> wp AllocBlock s Q.
Proof.
  intros Hinv Hz HQ. apply wp_AllocBlock; [done|..].
  - intros al He He' Hi. by apply HQ, ib_post_oom.
  - intros bn al Hin Hv Hal s1 Hi. pose proof (grow_alloc_some s al bn Hz Hin Hal Hi) as Hg.
    pose proof (valid_blk_pos _ _ (ti_layout _ Hinv) Hv). fold s1 in Hg.
    pose proof (fresh_wf s 0 bn al Hz Hin Hv Hal ltac:(lia)) as Hw1. apply HQ.
    apply (ib_post_fresh s s1 0 off s1 bn bn bn); [done|done|done|done|lia|apply Hz; by left|].
    apply ib_post_0; [apply Hg|apply Hg|exact Hw1|done|lia].
Qed.

Lemma bm_post_same ip s bn s' blkno i off alloc : file_wf ip s -> 0 <= i < 10 ->
  fpath bn = (i, tpath (depth i) off) ->
  ib_post s (depth i) (root_of ip i) off s' blkno (root_of ip i) ->
  bm_post ip s bn ip s' blkno alloc.
Proof.
  intros Hw Hi Hf Hib. rewrite <-(with_blks_id ip) at 2.
  rewrite <-(list_insert_id (i_blks ip) (Z.to_nat i) (root_of ip i)).
  - by apply (bm_post_intro ip s bn s' blkno _ _ i off).
  - pose proof (root_idx ip s i Hw Hi) as Hx. by apply idx_Ok in Hx as [_ Hx].
Qed.

(** The root that [indbmap] returns is stored back in its slot. *)
Lemma wp_store_root ip s bn s' blkno r' i off (Q : Z * bool -> ISt -> Prop) (alloc : bool) :
  file_wf ip s -> 0 <= i < 10 -> fpath bn = (i, tpath (depth i) off) ->
  ib_post s (depth i) (root_of ip i) off s' blkno r' ->
  (alloc = false -> r' = root_of ip i) ->
  (forall ip' s' blkno alloc, bm_post ip s bn ip' s' blkno alloc -> Q (blkno, alloc) (ip', s')) ->
  wp (_ ← (if alloc then bs ← lift (setidx (i_blks ip) i r'); ip_set (with_blks bs) else mret tt);
      mret (blkno, alloc)) (ip, s') Q.
Proof.
  intros Hw Hi Hf Hib Ha HQ. apply wp_bind. destruct alloc.
  - apply wp_bind. eapply wp_lift; [by apply (root_setidx ip s)|].
    apply wp_ip_set, wp_ret, HQ. by apply (bm_post_intro ip s bn s' blkno r' _ i off).
  - apply wp_ret, wp_ret, HQ. rewrite (Ha eq_refl) in Hib.
    by apply (bm_post_same ip s bn s' blkno i off).
Qed.

Lemma wp_bmap_direct ip s bn (Q : Z * bool -> ISt -> Prop) : txn_inv s -> zero_inv s ->
  file_wf ip s -> 0 <= bn < 8 ->
  (forall ip' s' blkno alloc, bm_post ip s bn ip' s' blkno alloc -> Q (blkno, alloc) (ip', s')) ->
  wp (bmap bn) (ip, s) Q.
Proof.
  intros Hinv Hz Hw Hbn HQ. unfold bmap. apply wp_bind, wp_ip_get.
  change NDIRECT with 8. rewrite (proj2 (Z.ltb_lt bn 8)) by lia.
  assert (fpath bn = (bn, tpath (depth bn) 0) /\ depth bn = 0%nat) as [Hf Hdep].
  { unfold fpath, depth. by destruct (Z.ltb_spec bn 8); [|lia]. }
  apply wp_bind. eapply wp_lift; [apply (root_idx ip s); [done|lia]|]. csimp. case_bool_decide as Hb0.
  - apply wp_bind, wp_on_atxn, (wp_AllocBlock_leaf s 0); [done..|]. intros s' b Hib.
    apply wp_bind. eapply wp_lift; [by apply (root_setidx ip s); [|lia]|].
    apply wp_bind, wp_ip_set, wp_ret, HQ.
    apply (bm_post_intro ip s bn s' b b _ bn 0); [done|lia|done|by rewrite Hdep, Hb0|].
    intros Hb%bool_decide_eq_false. rewrite Hb0. lia.
  - apply wp_ret, HQ. apply (bm_post_same ip s bn s _ bn 0); [done|lia|done|]. rewrite Hdep.
    apply ib_post_0; [done|done| |done|done].
    rewrite <-Hdep. apply file_tree; [done|lia].
Qed.

Lemma wp_bmap_ind ip s bn (Q : Z * bool -> ISt -> Prop) : txn_inv s -> zero_inv s ->
  file_wf ip s -> 8 <= bn < 8 + 512 ->
  (forall ip' s' blkno alloc, bm_post ip s bn ip' s' blkno alloc -> Q (blkno, alloc) (ip', s')) ->
  wp (bmap bn) (ip, s) Q.
Proof.
  intros Hinv Hz Hw Hbn HQ. unfold bmap. apply wp_bind, wp_ip_get.
  change NDIRECT with 8. change INDIRECT with 8. rewrite (proj2 (Z.ltb_ge bn 8)) by lia. wsimp.
  rewrite NBLKBLK_eq, (proj2 (Z.ltb_lt (bn - 8) 512)) by lia.
  assert (fpath bn = (8, tpath (depth 8) (bn - 8))) as Hf.
  { unfold fpath. destruct (Z.ltb_spec bn 8); [lia|]. by destruct (Z.ltb_spec (bn - 8) 512); [|lia]. }
  apply wp_bind. eapply wp_lift; [apply (root_idx ip s); [done|lia]|].
  apply wp_bind, wp_on_atxn, wp_indbmap;
    [lia|done|done|by apply (file_tree ip s 8)|rewrite pow_1; lia|].
  intros s' blkno root' Hib.
  apply (wp_store_root ip s bn s' blkno root' 8 (bn - 8)); [done|lia|done|done| |done].
  intros Hr%bool_decide_eq_false. by apply dec_stable in Hr.
Qed.

(** The code compares the new double-indirect root with [blks[INDIRECT]]: it
    stores the root whenever it changed, and also when it did not. *)
Lemma wp_bmap_dind ip s bn (Q : Z * bool -> ISt -> Prop) : txn_inv s -> zero_inv s ->
  file_wf ip s -> 8 + 512 <= bn < MaxBlks ->
  (forall ip' s' blkno alloc, bm_post ip s bn ip' s' blkno alloc -> Q (blkno, alloc) (ip', s')) ->
  wp (bmap bn) (ip, s) Q.
Proof.
  unfold MaxBlks. intros Hinv Hz Hw Hbn HQ. unfold bmap. apply wp_bind, wp_ip_get.
  change NDIRECT with 8. change INDIRECT with 8. change DINDIRECT with 9.
  rewrite (proj2 (Z.ltb_ge bn 8)) by lia. wsimp.
  rewrite NBLKBLK_eq, (proj2 (Z.ltb_ge (bn - 8) 512)) by lia. wsimp.
  replace (bn - 8 - 512) with (bn - 520) by lia.
  assert (fpath bn = (9, tpath (depth 9) (bn - 520))) as Hf.
  { unfold fpath. destruct (Z.ltb_spec bn 8); [lia|]. by destruct (Z.ltb_spec (bn - 8) 512); [lia|]. }
  apply wp_bind. eapply wp_lift; [apply (root_idx ip s); [done|lia]|].
  apply wp_bind, wp_on_atxn, wp_indbmap;
    [lia|done|done|by apply (file_tree ip s 9)|rewrite pow_2; lia|].
  intros s' blkno root' Hib. apply wp_bind. eapply wp_lift; [apply (root_idx ip s); [done|lia]|].
  apply (wp_store_root ip s bn s' blkno root' 9 (bn - 520)); [done|lia|done|done| |done].
  intros Hr%bool_decide_eq_false. apply dec_stable in Hr. rewrite Hr.
  destruct (ib_node _ _ _ _ _ _ _ Hib [] (tpath_ok_nil _)) as [Heq|(_ & Hb0 & Hin)];
    cbn [tptr] in *; [congruence|].
  (* a fresh root differs from the indirect root, which is in use *)
  destruct (decide (root_of ip 8 = 0)) as [He|He]; [congruence|]. exfalso.
  destruct (fw_used _ _ Hw (8, [])) as (_ & Hnf & _); [split; simpl; [lia|apply tpath_ok_nil]|done|].
  apply Hnf. unfold fptr. simpl. by rewrite <-Hr.
Qed.

(** [bmap]: a file block below [MaxBlks] is mapped, from the free blocks if it
    was a hole; the rest of the file does not change. *)
Lemma wp_bmap ip s bn (Q : Z * bool -> ISt -> Prop) : txn_inv s -> zero_inv s -> file_wf ip s ->
  0 <= bn < MaxBlks ->
  (forall ip' s' blkno alloc, bm_post ip s bn ip' s' blkno alloc -> Q (blkno, alloc) (ip', s')) ->
  wp (bmap bn) (ip, s) Q.
Proof.
  intros Hinv Hz Hw Hbn HQ. destruct (decide (bn < 8)); [by apply wp_bmap_direct; try lia|].
  destruct (decide (bn < 8 + 512)); [by apply wp_bmap_ind; try lia|].
  by apply wp_bmap_dind; try lia.
Qed.
End file.
