(* ===== verification/InodeIO.v ===== *)
(** Reading and writing files: [Read] and [Write] against the contents of the
    file as a function from byte positions to bytes. *)
From S2P Require Import Prelude Nfstypes External Reference Super Dcache Alloctxn AtxnCommit Inode.
From S2P Require Import InodeCodec InodeMap.

Section io.
Context `{!Common} `{!CommonSpec} `{!Util} `{!UtilSpec} `{!Marshal} `{!MarshalSpec}
  `{!Buf} `{!BufSpec} `{!Journal} `{!JournalSpec} `{!AllocPkg} `{!AllocSpec} `{!Clock}.
Implicit Types (s : ASt) (ip : Inode) (b off k : Z).

(** Byte [k] of a file: a hole reads as zero. *)
Definition fbyte ip s k : Z :=
  let b := fblk ip s (k / 4096) in
  if bool_decide (b = 0) then 0 else default 0 (blk s b !! Z.to_nat (k mod 4096)).

(** The [n] bytes of a file from [off]. *)
Definition fbytes ip s off (n : nat) : list Z :=
  (fun j => fbyte ip s (off + Z.of_nat j)) <$> seq 0 n.

Definition in_file k : Prop := 0 <= k < MaxBlks * 4096.

(** A file whose inode and blocks are well formed. *)
Record file_ok ip s : Prop := {
  fo_inv : txn_inv s;
  fo_zero : zero_inv s;
  fo_file : file_wf ip s;
  fo_inode : inode_wf ip;
  fo_inum : 0 <= i_Inum ip < NInode (a_super s);
}.

(** The inode on disk, as the transaction sees it, is the one in memory. *)
Definition synced ip s : Prop := iobj s (i_Inum ip) = inode_bytes ip.

Lemma length_fbytes ip s off n : length (fbytes ip s off n) = n.
Proof. unfold fbytes. len. Qed.

Lemma fbytes_lookup ip s off n j : (j < n)%nat ->
  fbytes ip s off n !! j = Some (fbyte ip s (off + Z.of_nat j)).
Proof. intros Hj. unfold fbytes. rewrite list_lookup_fmap, lookup_seq_lt by done. done. Qed.

Lemma fbytes_app ip s off n m :
  fbytes ip s off n ++ fbytes ip s (off + Z.of_nat n) m = fbytes ip s off (n + m).
Proof.
  apply list_eq. intros j. destruct (decide (j < n)%nat) as [Hj|Hj].
  - rewrite lookup_app_l by (rewrite length_fbytes; lia).
    rewrite !fbytes_lookup by lia. done.
  - rewrite lookup_app_r by (rewrite length_fbytes; lia). rewrite length_fbytes.
    destruct (decide (j < n + m)%nat) as [Hm|Hm].
    + rewrite !fbytes_lookup by lia. do 2 f_equal. lia.
    + rewrite !lookup_ge_None_2 by (rewrite length_fbytes; lia). done.
Qed.

Lemma fbytes_ext ip s ip' s' off n :
  (forall j, (j < n)%nat -> fbyte ip' s' (off + Z.of_nat j) = fbyte ip s (off + Z.of_nat j)) ->
  fbytes ip' s' off n = fbytes ip s off n.
Proof.
  intros Hj. apply list_eq. intros j. destruct (decide (j < n)%nat).
  - rewrite !fbytes_lookup by done. by rewrite Hj.
  - by rewrite !lookup_ge_None_2 by (rewrite length_fbytes; lia).
Qed.

(** The bytes of a file over which [buf] was written are [buf]. *)
Lemma fbytes_data ip s off buf (g : Z -> Z) :
  (forall k, in_file k -> fbyte ip s k =
     if bool_decide (off <= k < off + len buf) then default 0 (buf !! Z.to_nat (k - off)) else g k) ->
  0 <= off -> off + len buf <= MaxBlks * 4096 -> fbytes ip s off (length buf) = buf.
Proof.
  intros Hb Ho Hmax. unfold len in *. apply list_eq. intros j. destruct (decide (j < length buf)%nat) as [Hj|Hj].
  - rewrite fbytes_lookup, Hb by (done || (unfold in_file; lia)). rewrite bool_decide_eq_true_2 by lia.
    replace (Z.to_nat _) with j by lia. by destruct (lookup_lt_is_Some_2 buf j Hj) as [x ->].
  - rewrite !lookup_ge_None_2; [done|lia|rewrite length_fbytes; lia].
Qed.

(** *** Leaves *)

Lemma leaf_not_interior ip s n : file_wf ip s -> 0 <= n < MaxBlks -> fblk ip s n <> 0 ->
  ~ is_interior ip s (fblk ip s n).
Proof.
  intros Hw Hn Hb (x & Hx & Hl & Hs & Heq). destruct (fpath_ok n Hn) as [Hok Hlen].
  assert (x = fpath n) as ->.
  { apply (fw_inj _ _ Hw); [split; [done|split; [lia|done]]|done|done|congruence]. }
  lia.
Qed.

Lemma fblk_used ip s n : file_wf ip s -> 0 <= n < MaxBlks -> fblk ip s n <> 0 -> used s (fblk ip s n).
Proof. intros Hw Hn Hb. apply (fw_used _ _ Hw); [by apply fpath_ok|done]. Qed.

Lemma in_file_blk k : in_file k -> 0 <= k / 4096 < MaxBlks.
Proof.
  unfold in_file. intros Hk. split; [apply Z.div_pos; lia|apply Z.div_lt_upper_bound; lia].
Qed.

Lemma zeros_byte j : default 0 (zeros BlockSize !! j) = 0.
Proof.
  unfold zeros. destruct (replicate _ 0 !! j) as [z|] eqn:Hz; [|done].
  by apply lookup_replicate in Hz as [-> _].
Qed.

(** Filling a hole does not change the contents. *)
Lemma bm_byte ip s bn ip' s' blkno alloc k : zero_inv s ->
  bm_post ip s bn ip' s' blkno alloc -> in_file k -> fbyte ip' s' k = fbyte ip s k.
Proof.
  intros Hz Hbm Hk. pose proof (in_file_blk k Hk) as Hn. unfold fbyte. set (n := k / 4096) in *.
  destruct (fpath_ok n Hn) as [Hok _].
  assert (fblk ip' s' n <> 0 -> blk s' (fblk ip' s' n) = blk s (fblk ip' s' n)) as Hblk.
  { intros Hne. apply (bm_blk _ _ _ _ _ _ _ Hbm). apply leaf_not_interior; [apply Hbm|done|done]. }
  destruct (bm_node _ _ _ _ _ _ _ Hbm (fpath n) Hok) as [Heq|(_ & _ & H0' & Hin)].
  - change (fblk ip' s' n = fblk ip s n) in Heq. rewrite Heq in *.
    case_bool_decide; [done|]. by rewrite Hblk.
  - change (fblk ip s n = 0) in H0'. rewrite H0'. simpl. case_bool_decide as Hne; [done|].
    rewrite Hblk by done. rewrite (zi_zero _ Hz) by (by left). apply zeros_byte.
Qed.

Lemma byte_read ip s n b j nb : file_wf ip s -> txn_inv s -> 0 <= n < MaxBlks -> b = fblk ip s n -> b <> 0 ->
  0 <= j -> j + Z.of_nat nb <= 4096 ->
  take nb (drop (Z.to_nat j) (blk s b)) = fbytes ip s (n * 4096 + j) nb.
Proof.
  intros Hw Hinv Hn Hb Hne Hj Hjn.
  pose proof (fblk_used ip s n Hw Hn ltac:(congruence)) as Hu. rewrite <-Hb in Hu.
  pose proof (blk_length s b Hinv (proj1 Hu)) as Hlen. csimp. unfold len in Hlen.
  apply list_eq. intros i. destruct (decide (i < nb)%nat) as [Hi|Hi].
  - rewrite lookup_take_lt, lookup_drop, fbytes_lookup by lia. unfold fbyte.
    assert ((n * 4096 + j + Z.of_nat i) / 4096 = n /\ (n * 4096 + j + Z.of_nat i) mod 4096 = j + Z.of_nat i) as [-> ->].
    { assert (n * 4096 + j + Z.of_nat i = n * 4096 + (j + Z.of_nat i)) as -> by lia.
      rewrite Z.add_comm, Z.div_add, Z.mod_add by lia.
      rewrite Z.div_small, Z.mod_small by lia. lia. }
    rewrite <-Hb, bool_decide_eq_false_2 by done.
    replace (Z.to_nat j + i)%nat with (Z.to_nat (j + Z.of_nat i)) by lia.
    destruct (lookup_lt_is_Some_2 (blk s b) (Z.to_nat (j + Z.of_nat i))) as [x ->]; [lia|done].
  - rewrite lookup_ge_None_2 by (rewrite length_take; lia).
    by rewrite lookup_ge_None_2 by (rewrite length_fbytes; lia).
Qed.

(** Overwriting a leaf changes exactly its bytes. *)
Lemma fptr_leaf_write ip s s' n : file_wf ip s -> 0 <= n < MaxBlks -> fblk ip s n <> 0 ->
  (forall b, b <> fblk ip s n -> blk s' b = blk s b) ->
  forall x, pos_ok x -> fptr ip s' x = fptr ip s x.
Proof.
  intros Hw Hn Hne Hblk x [Hx [Hl Hs]]. apply (tptr_ext _ _ (depth x.1)); [done..|].
  intros b Hb (p & Hp & Hps & Heq). apply Hblk. intros ->.
  apply (leaf_not_interior ip s n Hw Hn Hne). by exists (x.1, p).
Qed.

Lemma leaf_write_byte ip s s' n d k : file_wf ip s -> 0 <= n < MaxBlks -> fblk ip s n <> 0 ->
  (forall b, b <> fblk ip s n -> blk s' b = blk s b) -> blk s' (fblk ip s n) = d ->
  in_file k ->
  fbyte ip s' k = if bool_decide (k / 4096 = n) then default 0 (d !! Z.to_nat (k mod 4096))
                  else fbyte ip s k.
Proof.
  intros Hw Hn Hne Hblk Hd Hk. pose proof (in_file_blk k Hk) as Hkn. unfold fbyte.
  assert (fblk ip s' (k / 4096) = fblk ip s (k / 4096)) as ->.
  { apply (fptr_leaf_write ip s s' n Hw Hn Hne Hblk). by apply fpath_ok. }
  destruct (decide (k / 4096 = n)) as [->|Hkn'].
  - rewrite (bool_decide_eq_true_2 (n = n)), bool_decide_eq_false_2 by done. by rewrite Hd.
  - rewrite (bool_decide_eq_false_2 (k / 4096 = n)) by done.
    case_bool_decide as Hb; [done|]. rewrite Hblk; [done|]. intros Heq. apply Hkn'.
    apply fpath_inj; [done..|]. apply (fw_inj _ _ Hw); [by apply fpath_ok..|done|done].
Qed.

Lemma file_wf_ext ip s s' : file_wf ip s -> grow s s' ->
  (forall x, pos_ok x -> fptr ip s' x = fptr ip s x) -> file_wf ip s'.
Proof.
  intros [Hl Hu Hi] Hg Hx. split; [done| |].
  - intros x Hok. rewrite Hx by done. intros Hn. eapply used_grow; [done|]. by apply Hu.
  - intros x y Hxo Hyo. rewrite !Hx by done. by apply Hi.
Qed.

(** A change to no valid block changes neither the map nor the contents. *)
Lemma fptr_valid ip s s' x : file_wf ip s ->
  (forall b, valid_blk (a_super s) b -> blk s' b = blk s b) -> pos_ok x ->
  fptr ip s' x = fptr ip s x.
Proof.
  intros Hw Hb [Hx [Hl Hs]]. apply (tptr_ext _ _ (depth x.1)); [done..|].
  intros b Hne (p & Hp & Hps & <-). apply Hb.
  apply (fw_used _ _ Hw (x.1, p)); [split; [done|split; [simpl; lia|done]]|done].
Qed.

Lemma fbyte_valid ip s s' k : file_wf ip s ->
  (forall b, valid_blk (a_super s) b -> blk s' b = blk s b) -> in_file k ->
  fbyte ip s' k = fbyte ip s k.
Proof.
  intros Hw Hb Hk. pose proof (in_file_blk k Hk) as Hn. destruct (fpath_ok _ Hn) as [Hok _].
  unfold fbyte, fblk. rewrite (fptr_valid ip s s') by done. case_bool_decide as Hne; [done|].
  rewrite Hb; [done|]. by apply (fw_used _ _ Hw).
Qed.

(** *** [WriteInode] *)

Lemma file_blks_u64 ip s : txn_inv s -> file_wf ip s -> Forall is_u64 (i_blks ip).
Proof.
  intros Hinv Hw. apply Forall_lookup. intros i b Hb.
  pose proof (lookup_lt_Some _ _ _ Hb) as Hlt. pose proof (fw_len _ _ Hw) as Hlen.
  unfold NBLKINO, len in Hlen.
  assert (fptr ip s (Z.of_nat i, []) = b) as Hf.
  { unfold fptr, root_of. simpl. by rewrite Nat2Z.id, Hb. }
  destruct (decide (b = 0)) as [->|Hne]; [unfold is_u64; lia|].
  assert (used s b) as Hu.
  { rewrite <-Hf. apply (fw_used _ _ Hw); [|congruence]. split; simpl; [lia|apply tpath_ok_nil]. }
  pose proof (used_pos s b Hinv Hu). unfold is_u64. lia.
Qed.

Lemma iobj_write s o' i d : op_bufs o' = <[Inum2Addr (a_super s) i := mkBufv (INODESZ * 8) d true]> (op_bufs (a_op s)) ->
  iobj (set_op o' s) i = d.
Proof. intros Ho. unfold iobj, obj. simpl. by rewrite Ho, lookup_insert_eq. Qed.

Lemma blk_write_inode s o' i d b : txn_inv s -> 0 <= i < NInode (a_super s) ->
  valid_blk (a_super s) b ->
  op_bufs o' = <[Inum2Addr (a_super s) i := mkBufv (INODESZ * 8) d true]> (op_bufs (a_op s)) ->
  blk (set_op o' s) b = blk s b.
Proof.
  intros Hinv Hi Hb Ho. unfold blk, obj. simpl. rewrite Ho, lookup_insert_ne; [done|].
  by apply Inum_Block_ne; [apply (ti_layout _ Hinv)| |].
Qed.

(** What [WriteInode] changes: the disk inode. *)
Record wi_post ip s s' : Prop := {
  wi_grow : grow s s';
  wi_synced : synced ip s';
  wi_blk : forall b, valid_blk (a_super s) b -> blk s' b = blk s b;
  wi_other : forall i, 0 <= i < NInode (a_super s) -> i <> i_Inum ip -> iobj s' i = iobj s i;
  wi_NDirty : NDirty (a_op s) <= NDirty (a_op s') <= NDirty (a_op s) + 1;
  wi_written : 1 <= NDirty (a_op s');
  wi_balloc : a_balloc s' = a_balloc s;
}.

(** Writing one object. *)
Lemma NDirty_insert o o' a sz d : op_bufs o' = <[a := mkBufv sz d true]> (op_bufs o) ->
  NDirty o <= NDirty o' <= NDirty o + 1 /\ 1 <= NDirty o'.
Proof.
  intros Ho. rewrite !NDirty_eq, Ho.
  set (P := fun p : addr * bufv => bv_dirty p.2 = true).
  assert (dom (filter P (<[a := mkBufv sz d true]> (op_bufs o))) = {[a]} ∪ dom (filter P (op_bufs o))) as Hdom.
  { apply leibniz_equiv. intros x. rewrite elem_of_union, elem_of_singleton, !elem_of_dom. split.
    - intros [bv [Hbv Hd]%map_lookup_filter_Some]. apply lookup_insert_Some in Hbv as [[-> _]|[_ Hbv]]; [by left|right].
      exists bv. by apply map_lookup_filter_Some.
    - destruct (decide (x = a)) as [->|Hne].
      + intros _. exists (mkBufv sz d true). apply map_lookup_filter_Some. by rewrite lookup_insert_eq.
      + intros [?|[bv [Hbv Hd]%map_lookup_filter_Some]]; [done|]. exists bv. apply map_lookup_filter_Some.
        by rewrite lookup_insert_ne. }
  rewrite <-!(size_dom (D := gset addr)), Hdom.
  pose proof (subseteq_size (dom (filter P (op_bufs o))) ({[a]} ∪ dom (filter P (op_bufs o))) ltac:(set_solver)).
  pose proof (subseteq_size {[a]} ({[a]} ∪ dom (filter P (op_bufs o))) ltac:(set_solver)) as H1s.
  rewrite size_singleton in H1s. rewrite (size_union_alt {[a]}), size_singleton in *.
  pose proof (subseteq_size (dom (filter P (op_bufs o)) ∖ {[a]}) (dom (filter P (op_bufs o))) ltac:(set_solver)). lia.
Qed.

Lemma wp_WriteInode ip s (Q : unit -> ISt -> Prop) : txn_inv s -> zero_inv s ->
  len (i_blks ip) = NBLKINO -> 0 <= i_Inum ip < NInode (a_super s) ->
  (forall s', wi_post ip s s' -> Q tt (ip, s')) -> wp WriteInode (ip, s) Q.
Proof.
  intros Hinv Hz Hl Hi HQ. unfold WriteInode. apply wp_bind, wp_get.
  destruct (Z.leb_spec (NInode (a_super s)) (i_Inum ip)); [lia|].
  apply wp_bind. eapply wp_lift; [by apply Encode_eq|]. apply wp_on_atxn.
  destruct (op_OverWrite_ok s _ (INODESZ * 8) (inode_bytes ip) (inode_sz s _ Hinv Hi)) as (o' & Ho & Hb).
  exists tt, (set_op o' s). split; [exact Ho|]. apply HQ.
  assert (map_Forall (buf_ok (a_super s) (a_log s)) (op_bufs o')) as Hok.
  { rewrite Hb. apply insert_inode_ok; [done|by apply inode_bytes_len|apply (ti_bufs_ok _ Hinv)]. }
  assert (forall b, valid_blk (a_super s) b -> blk (set_op o' s) b = blk s b) as Hblk.
  { intros b Hv. by apply (blk_write_inode s o' (i_Inum ip) (inode_bytes ip)). }
  split; [|by eapply iobj_write|done| |apply (NDirty_insert (a_op s) o' _ _ _ Hb)|apply (NDirty_insert (a_op s) o' _ _ _ Hb)|done].
  - split; simpl; try done.
    + by apply txn_inv_op.
    + split; [|apply Hz]. intros b Hf. rewrite Hblk; [by apply Hz|]. destruct Hf as [Hf|Hf].
      * by apply (al_free _ _ _ _ _ (ti_balloc _ Hinv)).
      * pose proof (al_freed _ _ _ _ _ (ti_balloc _ Hinv)) as Hall. by eapply Forall_forall in Hall.
    + intros a Ha. rewrite Hb, lookup_insert. by case_decide.
    + intros s0 Hf. by apply atxn_from_op.
  - intros i Hin Hne. unfold iobj, obj. simpl. rewrite Hb, lookup_insert_ne; [done|].
    pose proof (layout_bounds _ (ti_layout _ Hinv)). rewrite (NInode_eq _ (ti_layout _ Hinv)) in *.
    intros Heq%Inum2Addr_inj; [congruence|apply (ti_layout _ Hinv)|lia|lia].
Qed.

(** *** What an operation on one file leaves alone *)

(** Between [s] and [s'] the file only grew, by free blocks; no block outside
    it and no other inode on disk changed. *)
Record own ip s ip' s' : Prop := {
  ow_node : forall x, pos_ok x -> fptr ip' s' x = fptr ip s x \/
    (fptr ip s x = 0 /\ fptr ip' s' x ∈ alloc_free (a_balloc s));
  ow_blk : forall b, valid_blk (a_super s) b -> (forall x, pos_ok x -> fptr ip' s' x <> b) ->
    blk s' b = blk s b;
  ow_iobj : forall i, 0 <= i < NInode (a_super s) -> i <> i_Inum ip -> iobj s' i = iobj s i;
}.

Lemma own_refl ip s : own ip s ip s.
Proof. split; [by left|done|done]. Qed.

Lemma own_trans ip1 s1 ip2 s2 ip3 s3 : zero_inv s1 -> grow s1 s2 -> i_Inum ip2 = i_Inum ip1 ->
  txn_inv s1 -> own ip1 s1 ip2 s2 -> own ip2 s2 ip3 s3 -> own ip1 s1 ip3 s3.
Proof.
  intros Hz Hg Hin Hinv [Hn1 Hb1 Hi1] [Hn2 Hb2 Hi2]. pose proof (gr_free _ _ Hg) as Hf. split.
  - intros x Hx. destruct (Hn2 x Hx) as [->|[Hy0 Hyf]]; [by apply Hn1|].
    destruct (Hn1 x Hx) as [Hxe|[Hx0 Hxf]].
    + right. split; [congruence|]. by apply Hf.
    + rewrite Hy0 in Hxf. by apply balloc_zero in Hxf.
  - intros b Hb Hne. rewrite Hb2; [|by rewrite (gr_super _ _ Hg)|done]. apply Hb1; [done|].
    intros x Hx Heq. apply (Hne x Hx). destruct (Hn2 x Hx) as [->|[Hy0 _]]; [done|].
    exfalso. subst b. rewrite Hy0 in Hb. apply valid_blk_pos in Hb; [lia|apply (ti_layout _ Hinv)].
  - intros i Hi Hne. rewrite Hi2; [by apply Hi1|by rewrite (gr_super _ _ Hg)|congruence].
Qed.

(** A change of no valid block and no other inode. *)
Lemma own_valid ip s s' : file_wf ip s -> (forall b, valid_blk (a_super s) b -> blk s' b = blk s b) ->
  (forall i, 0 <= i < NInode (a_super s) -> i <> i_Inum ip -> iobj s' i = iobj s i) ->
  own ip s ip s'.
Proof. intros Hw Hb Hi. split; [|auto|done]. intros x Hx. left. by apply fptr_valid. Qed.

Lemma own_bm ip s bn ip' s' blkno alloc : bm_post ip s bn ip' s' blkno alloc -> own ip s ip' s'.
Proof.
  intros Hbm. split.
  - intros x Hx. destruct (bm_node _ _ _ _ _ _ _ Hbm x Hx) as [?|(_ & _ & ? & ?)]; [by left|by right].
  - intros b Hb Hne. apply (bm_blk _ _ _ _ _ _ _ Hbm). intros (x & Hx & Hl & Hs & Heq).
    apply (Hne x); [|done]. split; [done|]. split; [lia|done].
  - intros i Hi _. by apply (bm_inodes _ _ _ _ _ _ _ Hbm).
Qed.

Lemma own_leaf ip s s' n : file_wf ip s -> 0 <= n < MaxBlks -> fblk ip s n <> 0 ->
  (forall b, b <> fblk ip s n -> blk s' b = blk s b) -> same_inodes s s' -> own ip s ip s'.
Proof.
  intros Hw Hn Hne Hb Hi. pose proof (fptr_leaf_write ip s s' n Hw Hn Hne Hb) as Hx. split.
  - intros x Hok. left. by apply Hx.
  - intros b Hv Hnb. apply Hb. intros ->. apply (Hnb (fpath n)); [by apply fpath_ok|].
    apply Hx. by apply fpath_ok.
  - intros i Hin _. by apply Hi.
Qed.

(** A mapped block stays where it is. *)
Lemma own_mapped ip s ip' s' n : own ip s ip' s' -> 0 <= n < MaxBlks -> fblk ip s n <> 0 ->
  fblk ip' s' n = fblk ip s n.
Proof.
  intros Ho Hn Hne. destruct (ow_node _ _ _ _ Ho (fpath n)) as [?|[? _]]; [by apply fpath_ok|done..].
Qed.

Lemma own_hole ip s ip' s' n : own ip s ip' s' -> 0 <= n < MaxBlks -> fblk ip' s' n = 0 ->
  fblk ip s n = 0.
Proof.
  intros Ho Hn Hz. destruct (decide (fblk ip s n = 0)) as [|Hne]; [done|].
  by rewrite <-(own_mapped _ _ _ _ _ Ho Hn Hne).
Qed.

(** *** The file between two points of a read *)

(** Only the block pointers and the transaction changed, and the contents did
    not. *)
Record same_file ip s ip' s' : Prop := {
  sf_ok : file_ok ip' s';
  sf_grow : grow s s';
  sf_ip : ip' = with_blks (i_blks ip') ip;
  sf_byte : forall k, in_file k -> fbyte ip' s' k = fbyte ip s k;
  sf_own : own ip s ip' s';
}.

Lemma same_file_refl ip s : file_ok ip s -> same_file ip s ip s.
Proof.
  intros Hok. split; [done|apply grow_refl; apply Hok|by rewrite with_blks_id|done|apply own_refl].
Qed.

Lemma with_blks_Inum ip ip' : ip' = with_blks (i_blks ip') ip -> i_Inum ip' = i_Inum ip.
Proof. by intros ->. Qed.

Lemma same_file_trans ip1 s1 ip2 s2 ip3 s3 : file_ok ip1 s1 ->
  same_file ip1 s1 ip2 s2 -> same_file ip2 s2 ip3 s3 -> same_file ip1 s1 ip3 s3.
Proof.
  intros Hok [Ho1 Hg1 Hi1 Hb1 Hw1] [Ho2 Hg2 Hi2 Hb2 Hw2]. split; [done|by eapply grow_trans| | |].
  - rewrite Hi2 at 1. rewrite Hi1 at 1. done.
  - intros k Hk. by rewrite Hb2, Hb1.
  - eapply own_trans; [apply Hok|exact Hg1|by apply with_blks_Inum|apply Hok|done|done].
Qed.

Lemma inode_wf_blks ip bs : inode_wf ip -> len bs = NBLKINO -> Forall is_u64 bs ->
  inode_wf (with_blks bs ip).
Proof. intros []. by split. Qed.

Lemma bm_same_file ip s bn ip' s' blkno alloc : file_ok ip s ->
  bm_post ip s bn ip' s' blkno alloc -> same_file ip s ip' s'.
Proof.
  intros Hok Hbm. pose proof (bm_grow _ _ _ _ _ _ _ Hbm) as Hg. split; [split| | | |].
  - apply Hg.
  - apply Hg.
  - apply Hbm.
  - rewrite (bm_ip _ _ _ _ _ _ _ Hbm). apply inode_wf_blks; [apply Hok|apply Hbm|].
    eapply file_blks_u64; [apply Hg|apply Hbm].
  - rewrite (bm_ip _ _ _ _ _ _ _ Hbm), (gr_super _ _ Hg). apply Hok.
  - done.
  - apply Hbm.
  - intros k Hk. eapply bm_byte; [apply Hok|exact Hbm|done].
  - by eapply own_bm.
Qed.

Lemma wi_same_file ip s s' : file_ok ip s -> wi_post ip s s' -> same_file ip s ip s'.
Proof.
  intros Hok [Hg Hsy Hb Hi _ _]. pose proof (fo_file _ _ Hok) as Hw. split; [split| | | |].
  - apply Hg.
  - apply Hg.
  - apply (file_wf_ext ip s s' Hw Hg). intros x Hx. by apply fptr_valid.
  - apply Hok.
  - rewrite (gr_super _ _ Hg). apply Hok.
  - done.
  - by rewrite with_blks_id.
  - intros k Hk. by apply fbyte_valid.
  - by apply own_valid.
Qed.

Lemma load_same_file ip s o' b : file_ok ip s -> valid_blk (a_super s) b ->
  op_bufs o' = load (a_log s) (op_bufs (a_op s)) (Block2addr (a_super s) b) NBITBLOCK ->
  same_file ip s ip (set_op o' s).
Proof.
  intros Hok Hv Ho. pose proof (fo_file _ _ Hok) as Hw.
  pose proof (grow_load s o' b (fo_inv _ _ Hok) (fo_zero _ _ Hok) Hv Ho) as Hg.
  pose proof (fun b' => blk_load s o' b b' Ho) as Hb. split; [split| | | |].
  - apply Hg.
  - apply Hg.
  - apply (file_wf_ext ip s _ Hw Hg). intros x Hx. by apply fptr_valid.
  - apply Hok.
  - apply Hok.
  - done.
  - by rewrite with_blks_id.
  - intros k Hk. by apply fbyte_valid.
  - apply own_valid; [done|auto|]. intros i Hi _. by apply (iobj_load s o' b (fo_inv _ _ Hok)).
Qed.

(** *** [append_loop] and [copy_loop] *)

Lemma append_loop_ok n b data src byteoff :
  0 <= byteoff + b -> byteoff + b + Z.of_nat n <= len src ->
  append_loop n b data src byteoff = Ok (data ++ take n (drop (Z.to_nat (byteoff + b)) src)).
Proof.
  revert b data. induction n as [|n IH]; intros b data Hb Hn; simpl.
  { by rewrite app_nil_r. }
  destruct (idx_lt src (byteoff + b)) as [x Hx]; [lia|]. rewrite Hx. simpl.
  rewrite IH by lia. apply idx_Ok in Hx as [_ Hx].
  rewrite <-app_assoc. do 2 f_equal. rewrite (drop_S src x (Z.to_nat (byteoff + b))) by done. simpl.
  do 3 f_equal. lia.
Qed.

Lemma copy_loop_ok n b dst src byteoff :
  0 <= b -> 0 <= byteoff -> b + Z.of_nat n <= len src -> byteoff + b + Z.of_nat n <= len dst ->
  copy_loop n b dst src byteoff =
  Ok (splice dst (Z.to_nat (byteoff + b)) (take n (drop (Z.to_nat b) src))).
Proof.
  revert b dst. induction n as [|n IH]; intros b dst Hb Ho Hs Hd; cbn [copy_loop].
  { by rewrite take_0, splice_nil. }
  destruct (idx_lt src b) as [x Hx]; [lia|]. rewrite Hx. simpl.
  rewrite setidx_Ok by lia. simpl. rewrite IH by len. apply idx_Ok in Hx as [_ Hx].
  rewrite (drop_S src x (Z.to_nat b)) by done. simpl.
  rewrite splice_cons by (unfold len in *; lia). do 2 f_equal; [lia|]. do 2 f_equal. lia.
Qed.

(** *** [Read] *)

Lemma MaxBlks_bytes : MaxBlks * 4096 < 2 ^ 60.
Proof. done. Qed.

(** Neither the inode nor the disk changed. *)
Record still ip s ip' s' : Prop := {
  st_ip : ip' = ip;
  st_quiet : quiet s s';
  st_iobj : same_inodes s s';
}.

Lemma still_refl ip s : still ip s ip s.
Proof. by split. Qed.

Lemma still_trans ip1 s1 ip2 s2 ip3 s3 : a_super s2 = a_super s1 ->
  still ip1 s1 ip2 s2 -> still ip2 s2 ip3 s3 -> still ip1 s1 ip3 s3.
Proof.
  intros Hs [-> Hq1 Hi1] [-> Hq2 Hi2]. split; [done|by eapply quiet_trans|by eapply same_inodes_trans].
Qed.

Lemma still_synced ip s ip' s' : 0 <= i_Inum ip < NInode (a_super s) -> still ip s ip' s' ->
  synced ip s -> synced ip' s'.
Proof. intros Hi [-> _ Hio] Hsy. unfold synced. by rewrite Hio. Qed.

Lemma wi_still ip s s' : synced ip s -> wi_post ip s s' -> still ip s ip s'.
Proof.
  intros Hsy Hwi. split; [done|split; [apply Hwi|apply Hwi]|].
  intros i Hi. destruct (decide (i = i_Inum ip)) as [->|Hne]; [|by apply (wi_other _ _ _ Hwi)].
  by rewrite (wi_synced _ _ _ Hwi).
Qed.

Lemma load_still ip s o' b : file_ok ip s -> valid_blk (a_super s) b ->
  op_bufs o' = load (a_log s) (op_bufs (a_op s)) (Block2addr (a_super s) b) NBITBLOCK ->
  still ip s ip (set_op o' s).
Proof.
  intros Hok Hv Ho. split; [done|split; [|done]|apply (iobj_load s o' b); [apply Hok|done..]].
  intros b' _. by apply (blk_load s o' b).
Qed.

(** The blocks on the way to a file block that starts before byte [hi]. *)
Definition below (hi : Z) (x : Z * list Z) : Prop :=
  exists bn, 0 <= bn < MaxBlks /\ bn * 4096 < hi /\ x.1 = (fpath bn).1 /\ x.2 `prefix_of` (fpath bn).2.

(** The file is mapped differently only below [hi]. *)
Definition maps_below (hi : Z) ip s ip' s' : Prop :=
  forall x, pos_ok x -> fptr ip' s' x = fptr ip s x \/ below hi x.

Lemma maps_below_trans hi ip1 s1 ip2 s2 ip3 s3 : maps_below hi ip1 s1 ip2 s2 ->
  maps_below hi ip2 s2 ip3 s3 -> maps_below hi ip1 s1 ip3 s3.
Proof. intros Hm1 Hm2 x Hx. destruct (Hm2 x Hx) as [->|]; [by apply Hm1|by right]. Qed.

Lemma bm_below ip s bn ip' s' blkno alloc hi : bm_post ip s bn ip' s' blkno alloc ->
  0 <= bn < MaxBlks -> bn * 4096 < hi -> maps_below hi ip s ip' s'.
Proof.
  intros Hbm Hbn Hhi x Hx. destruct (bm_node _ _ _ _ _ _ _ Hbm x Hx) as [?|(? & ? & _)]; [by left|right].
  by exists bn.
Qed.

Lemma maps_below_mono hi hi' ip s ip' s' : hi <= hi' -> maps_below hi ip s ip' s' -> maps_below hi' ip s ip' s'.
Proof.
  intros Hle Hm x Hx. destruct (Hm x Hx) as [?|(bn & Hbn & Hhi & Hp)]; [by left|right].
  exists bn. split; [done|]. split; [lia|done].
Qed.

Lemma maps_below_refl hi ip s : maps_below hi ip s ip s.
Proof. by left. Qed.

(** The blocks under the [count] bytes from [offset] are mapped. *)
Definition mapped ip s (offset count : Z) : Prop :=
  forall k, offset <= k < offset + count -> fblk ip s (k / 4096) <> 0.

(** What a read of [count] bytes from [offset] leaves: the first [m] bytes, all
    of them unless the free blocks ran out while a hole was filled. *)
Record read_post ip s (offset count : Z) (data : list Z) ip' s' : Prop := {
  rp_same : same_file ip s ip' s';
  rp_data : exists m, 0 <= m <= count /\ data = fbytes ip s offset (Z.to_nat m) /\
    (m < count -> alloc_free (a_balloc s') = ∅) /\
    (m = count -> synced ip s -> synced ip' s') /\
    (m < count -> fblk ip s ((offset + m) / 4096) = 0);
  rp_still : mapped ip s offset count -> synced ip s -> still ip s ip' s';
  rp_below : maps_below (offset + count) ip s ip' s';
}.

Lemma in_file_add off j n : in_file off -> 0 <= j < n -> off mod 4096 + n <= 4096 ->
  in_file (off + j).
Proof.
  intros Hoff Hj Hn. pose proof (in_file_blk off Hoff). unfold in_file in *.
  pose proof (Z.div_mod off 4096). lia.
Qed.

(** One iteration of the read loop: the block of [off] is mapped, its inode
    written if the mapping changed, and [nb] bytes appended. *)
Lemma wp_read_block ip s off (nb : nat) (data : list Z)
    (kont : Z -> list Z -> M ISt (list Z)) (Q : list Z -> ISt -> Prop) :
  file_ok ip s -> in_file off -> off mod 4096 + Z.of_nat nb <= 4096 ->
  (forall ip' s', same_file ip s ip' s' -> alloc_free (a_balloc s') = ∅ ->
     fblk ip s (off / 4096) = 0 -> maps_below (off + 1) ip s ip' s' -> Q data (ip', s')) ->
  (forall ip' s' blkno, same_file ip s ip' s' -> (synced ip s -> synced ip' s') -> maps_below (off + 1) ip s ip' s' ->
     (fblk ip s (off / 4096) <> 0 -> synced ip s -> still ip s ip' s') ->
     wp (kont blkno (data ++ fbytes ip s off nb)) (ip', s') Q) ->
  wp ('(blkno, alloc) ← bmap (off / 4096);
      if bool_decide (blkno = 0) then mret data
      else
        _ ← (if (alloc : bool) then WriteInode else mret tt);
        buf ← on_atxn (ReadBlock blkno);
        d ← on_atxn (data_of buf);
        data ← lift (append_loop nb 0 data d (off mod 4096));
        kont blkno data) (ip, s) Q.
Proof.
  intros Hok Hoff Hnb HQ Hk. pose proof (in_file_blk off Hoff) as Hbn.
  apply wp_bind, wp_bmap; [apply Hok..|done|]. intros ip1 s1 b alloc Hbm.
  pose proof (bm_same_file _ _ _ _ _ _ _ Hok Hbm) as Hs1. pose proof (sf_ok _ _ _ _ Hs1) as Hok1.
  assert (maps_below (off + 1) ip s ip1 s1) as Hbe1.
  { eapply bm_below; [exact Hbm|done|]. pose proof (Z.div_mod off 4096). pose proof (Z.mod_pos_bound off 4096). lia. }
  case_bool_decide as Hb.
  { apply wp_ret, HQ; [done|by apply (bm_oom _ _ _ _ _ _ _ Hbm)| |done].
    eapply own_hole; [by eapply own_bm|done|]. by rewrite <-(bm_val _ _ _ _ _ _ _ Hbm). }
  pose proof (gr_super _ _ (bm_grow _ _ _ _ _ _ _ Hbm)) as Hsp1.
  assert (fblk ip s (off / 4096) <> 0 -> still ip s ip1 s1) as Hstill1.
  { intros Hne. destruct (bm_quiet _ _ _ _ _ _ _ Hbm Hne). by split; [..|apply Hbm]. }
  assert (forall s2, same_file ip1 s1 ip1 s2 -> (forall x, pos_ok x -> fptr ip1 s2 x = fptr ip1 s1 x) ->
    (synced ip s -> synced ip1 s2) -> (synced ip1 s1 -> still ip1 s1 ip1 s2) ->
    wp (buf ← on_atxn (ReadBlock b); d ← on_atxn (data_of buf);
        data ← lift (append_loop nb 0 data d (off mod 4096)); kont b data) (ip1, s2) Q) as Hrest.
  { intros s2 Hs2 Hptr2 Hsy Hst2. pose proof (Hptr2 (fpath (off / 4096)) (proj1 (fpath_ok _ Hbn))) as Hb2.
    change (fblk ip1 s2 (off / 4096) = fblk ip1 s1 (off / 4096)) in Hb2. rewrite <-(bm_val _ _ _ _ _ _ _ Hbm) in Hb2. pose proof (sf_ok _ _ _ _ Hs2) as Hok2.
    assert (used s2 b) as Hu.
    { rewrite <-Hb2. apply (fblk_used ip1 s2); [apply Hok2|done|congruence]. }
    apply wp_bind, wp_on_atxn, wp_ReadBlock; [apply Hu|]. intros o' Ho' Hd.
    apply wp_bind, wp_on_atxn. unfold data_of. apply wp_gets. simpl. rewrite Hd.
    pose proof (load_same_file ip1 s2 o' b Hok2 (proj1 Hu) Ho') as Hs3.
    pose proof (load_still ip1 s2 o' b Hok2 (proj1 Hu) Ho') as Hst3.
    pose proof (blk_length s2 b (fo_inv _ _ Hok2) (proj1 Hu)) as Hlen. rewrite BlockSize_eq in Hlen.
    pose proof (Z.mod_pos_bound off 4096).
    apply wp_bind. eapply wp_lift; [apply append_loop_ok; lia|]. rewrite Z.add_0_r.
    rewrite (byte_read ip1 s2 (off / 4096) b) by (try apply Hok2; try done; lia).
    replace (off / 4096 * 4096 + off mod 4096) with off by (pose proof (Z.div_mod off 4096); lia).
    rewrite (fbytes_ext ip s ip1 s2).
    - apply Hk; [eapply same_file_trans; [exact Hok|exact Hs1|]; by eapply same_file_trans; [exact Hok1|exact Hs2|]|..].
      2: { eapply maps_below_trans; [exact Hbe1|]. intros x Hx. left. rewrite <-(Hptr2 x Hx).
           apply fptr_valid; [apply Hok2| |done]. intros b' _. by apply (blk_load s2 o' b). }
      + intros Hsy0. eapply still_synced; [apply Hok2|exact Hst3|by apply Hsy].
      + intros Hne Hsy0. pose proof (Hstill1 Hne) as Hst1.
        eapply still_trans; [|exact Hst1|].
        * apply Hsp1.
        * eapply still_trans; [apply (sf_grow _ _ _ _ Hs2)|apply Hst2|exact Hst3].
          eapply still_synced; [apply Hok|exact Hst1|done].
    - intros j Hj. assert (in_file (off + Z.of_nat j)) by (eapply in_file_add; [done| |exact Hnb]; lia).
      by rewrite (sf_byte _ _ _ _ Hs2), (sf_byte _ _ _ _ Hs1). }
  apply wp_bind. destruct alloc.
  - apply wp_WriteInode; [apply Hok1|apply Hok1|apply Hok1|apply Hok1|]. intros s2 Hwi.
    apply Hrest; [by apply wi_same_file| |by intros _; apply Hwi|intros; by apply wi_still].
    intros x Hx. apply fptr_valid; [apply Hok1|apply Hwi|done].
  - apply wp_ret, Hrest; [by apply same_file_refl|done| |by intros _; apply still_refl].
    rewrite (bm_alloc _ _ _ _ _ _ _ Hbm eq_refl). unfold synced.
    by rewrite (bm_inodes _ _ _ _ _ _ _ Hbm _ (fo_inum _ _ Hok)).
Qed.

(** The next block after [nb] bytes from [off], when there is more to do. *)
Lemma next_block off nb : 0 <= off -> 0 < nb -> off mod 4096 + nb = 4096 ->
  off / 4096 + 1 = (off + nb) / 4096.
Proof.
  intros Ho Hn Hm. pose proof (Z.div_mod off 4096).
  replace (off + nb) with ((off / 4096 + 1) * 4096) by lia. by rewrite Z.div_mul.
Qed.

Lemma div_small_60 off : 0 <= off < 2 ^ 60 -> 0 <= off / 4096 < 2 ^ 60.
Proof. intros Ho. split; [apply Z.div_pos; lia|apply Z.div_lt_upper_bound; lia]. Qed.

Lemma wp_read_loop fuel ip0 s0 ip s offset boff n count (Q : list Z -> ISt -> Prop) :
  file_ok ip0 s0 -> file_ok ip s -> same_file ip0 s0 ip s -> (synced ip0 s0 -> synced ip s) ->
  (mapped ip0 s0 offset count -> synced ip0 s0 -> still ip0 s0 ip s) -> maps_below (offset + count) ip0 s0 ip s ->
  0 <= n <= count -> count - n < Z.of_nat fuel -> 0 <= offset -> offset + count <= MaxBlks * 4096 ->
  (n < count -> boff = (offset + n) / 4096) ->
  (forall data ip' s', read_post ip0 s0 offset count data ip' s' -> Q data (ip', s')) ->
  wp (read_loop fuel boff (offset + n) n count
        (fbytes ip0 s0 offset (Z.to_nat n))) (ip, s) Q.
Proof.
  revert ip s boff n. induction fuel as [|fuel IH]; intros ip s boff n Hok0 Hok Hsame Hsy Hst Hbe Hn Hf Ho Hc Hb HQ;
    [lia|].
  pose proof MaxBlks_bytes. cbn [read_loop]. destruct (Z.ltb_spec n count) as [Hlt|Hge].
  2: { apply wp_ret, HQ. split; [done| |done|done]. exists n. split_and!; [lia|lia|done|lia|done|lia]. }
  specialize (Hb Hlt). subst boff. rewrite Min_eq. csimp. wsimp.
  pose proof (Z.mod_pos_bound (offset + n) 4096).
  pose proof (div_small_60 (offset + n) ltac:(lia)).
  set (nb := Z.min (4096 - (offset + n) mod 4096) (count - n)).
  assert (0 < nb /\ nb <= count - n /\ (offset + n) mod 4096 + nb <= 4096) as (Hnb & Hnbc & Hnbb) by lia.
  apply (wp_read_block ip s (offset + n) (Z.to_nat nb) _ (fun _ data =>
    read_loop fuel ((offset + n) / 4096 +w 1) (offset + n +w nb) (n +w nb) count data));
    [done|unfold in_file; lia|lia|..].
  - intros ip' s' Hs' Hfree Hhole Hbe'.
    assert (fblk ip0 s0 ((offset + n) / 4096) = 0) as Hhole0
      by (eapply own_hole; [apply Hsame|apply in_file_blk; unfold in_file; lia|done]).
    apply HQ. split; [by eapply same_file_trans| | |by eapply maps_below_trans, maps_below_mono, Hbe'; [|lia]].
    + exists n. split_and!; [lia|lia|done|done|lia|done].
    + intros Hm. by destruct (Hm (offset + n)); [lia|].
  - intros ip' s' b Hs' Hsy' Hbe' Hst'. rewrite (fbytes_ext ip0 s0 ip s).
    2: { intros j Hj. apply (sf_byte _ _ _ _ Hsame). unfold in_file. lia. }
    replace (fbytes ip0 s0 (offset + n)) with (fbytes ip0 s0 (offset + Z.of_nat (Z.to_nat n)))
      by (f_equal; lia).
    rewrite fbytes_app. replace (Z.to_nat n + Z.to_nat nb)%nat with (Z.to_nat (n + nb)) by lia.
    wsimp. rewrite <-Z.add_assoc.
    apply IH; [done|apply Hs'|by eapply same_file_trans|by auto| |by eapply maps_below_trans, maps_below_mono, Hbe'; [|lia]|lia|lia|lia|lia| |done].
    { intros Hm Hsy0. pose proof (Hst Hm Hsy0) as Hst0. eapply still_trans; [apply Hsame|exact Hst0|].
      apply Hst'; [|by apply Hsy]. rewrite (own_mapped ip0 s0 ip s); [apply Hm; lia|apply Hsame| |apply Hm; lia].
      apply in_file_blk. unfold in_file. lia. }
    intros Hmore. rewrite Z.add_assoc. apply next_block; lia.
Qed.

(** [Read] within the file. *)
Lemma wp_Read ip s offset count (Q : list Z * bool -> ISt -> Prop) : file_ok ip s ->
  i_Size ip <= MaxBlks * 4096 -> 0 <= offset < i_Size ip -> 0 <= count -> offset + count < 2 ^ 64 ->
  (forall data ip' s', read_post ip s offset (Z.min count (i_Size ip - offset)) data ip' s' ->
     Q (data, false) (ip', s')) ->
  wp (Read offset count) (ip, s) Q.
Proof.
  intros Hok Hsz Ho Hc Hov HQ. pose proof MaxBlks_bytes. unfold Read. apply wp_bind, wp_ip_get.
  destruct (Z.leb_spec (i_Size ip) offset); [lia|]. wsimp. csimp.
  set (c := if i_Size ip <=? offset + count then i_Size ip - offset else count).
  assert (c = Z.min count (i_Size ip - offset)) as Hc'.
  { unfold c. destruct (Z.leb_spec (i_Size ip) (offset + count)); lia. }
  rewrite Hc'. clear c Hc'. apply wp_bind.
  pose proof (wp_read_loop (S (Z.to_nat (Z.min count (i_Size ip - offset)))) ip s ip s offset
    (offset / 4096) 0 (Z.min count (i_Size ip - offset))) as Hloop.
  rewrite Z.add_0_r in Hloop. apply Hloop; [done|done|by apply same_file_refl|done|intros _ _; apply still_refl|apply maps_below_refl|lia|lia|lia|lia|done|].
  intros data ip' s' Hp. by apply wp_ret, HQ.
Qed.

Lemma wp_Read_eof ip s offset count (Q : list Z * bool -> ISt -> Prop) :
  i_Size ip <= offset -> Q ([], true) (ip, s) -> wp (Read offset count) (ip, s) Q.
Proof.
  intros Ho HQ. unfold Read. apply wp_bind, wp_ip_get.
  destruct (Z.leb_spec (i_Size ip) offset); [|lia]. by apply wp_ret.
Qed.

(** [Read] at any offset: [n] bytes are there to be read. *)
Definition to_read ip (offset count : Z) : Z := Z.max 0 (Z.min count (i_Size ip - offset)).

Record read_any ip s (offset count : Z) (data : list Z) (eof : bool) ip' s' : Prop := {
  ra_eof : eof = bool_decide (i_Size ip <= offset);
  ra_same : same_file ip s ip' s';
  ra_data : exists m, 0 <= m <= to_read ip offset count /\ data = fbytes ip s offset (Z.to_nat m) /\
    (m < to_read ip offset count -> alloc_free (a_balloc s') = ∅) /\
    (m = to_read ip offset count -> synced ip s -> synced ip' s');
}.

Lemma wp_Read_any ip s offset count (Q : list Z * bool -> ISt -> Prop) : file_ok ip s ->
  i_Size ip <= MaxBlks * 4096 -> 0 <= offset -> 0 <= count -> offset + count < 2 ^ 64 ->
  (forall data eof ip' s', read_any ip s offset count data eof ip' s' -> Q (data, eof) (ip', s')) ->
  wp (Read offset count) (ip, s) Q.
Proof.
  intros Hok Hsz Ho Hc Hov HQ. destruct (decide (i_Size ip <= offset)) as [Hle|Hlt].
  - apply wp_Read_eof; [done|]. apply HQ. split; [by rewrite bool_decide_eq_true_2|by apply same_file_refl|].
    exists 0. unfold to_read. split_and!; [lia|lia|done|lia|done].
  - apply wp_Read; [done|done|lia|done|done|]. intros data ip' s' [Hs Hd _ _]. apply HQ.
    split; [by rewrite bool_decide_eq_false_2|done|]. unfold to_read. rewrite Z.max_r by lia.
    destruct Hd as (m & Hm & Hdata & Hfree & Hsy & _). by exists m.
Qed.

(** *** [Write] *)

(** The bytes [d] were written over the file from [off]; the rest of its
    contents and of the inode did not change. *)
Record wrote ip s off (d : list Z) ip' s' : Prop := {
  wr_ok : file_ok ip' s';
  wr_grow : grow s s';
  wr_ip : ip' = with_blks (i_blks ip') ip;
  wr_byte : forall k, in_file k -> fbyte ip' s' k =
    if bool_decide (off <= k < off + len d) then default 0 (d !! Z.to_nat (k - off))
    else fbyte ip s k;
  wr_own : own ip s ip' s';
}.

Lemma same_wrote ip s ip' s' off : same_file ip s ip' s' -> wrote ip s off [] ip' s'.
Proof.
  intros [Hok Hg Hip Hb Hw]. split; [done..| |done]. intros k Hk.
  rewrite bool_decide_eq_false_2 by (len). by apply Hb.
Qed.

Lemma wrote_app ip1 s1 ip2 s2 ip3 s3 off d1 d2 : file_ok ip1 s1 -> wrote ip1 s1 off d1 ip2 s2 ->
  wrote ip2 s2 (off + len d1) d2 ip3 s3 -> wrote ip1 s1 off (d1 ++ d2) ip3 s3.
Proof.
  intros Hok [Hok1 Hg1 Hi1 Hb1 Hw1] [Hok2 Hg2 Hi2 Hb2 Hw2].
  split; [done|by eapply grow_trans| | |eapply own_trans; [apply Hok|exact Hg1|by apply with_blks_Inum|apply Hok|done|done]].
  - rewrite Hi2 at 1. rewrite Hi1 at 1. done.
  - intros k Hk. rewrite Hb2, Hb1, len_app by done. pose proof (len_nonneg d1). pose proof (len_nonneg d2).
    unfold len in *. repeat case_bool_decide; try lia; try done.
    + rewrite lookup_app_r by lia. do 2 f_equal. lia.
    + rewrite lookup_app_l by lia. done.
Qed.

Lemma same_wrote_trans ip1 s1 ip2 s2 ip3 s3 off d : file_ok ip1 s1 -> same_file ip1 s1 ip2 s2 ->
  wrote ip2 s2 off d ip3 s3 -> wrote ip1 s1 off d ip3 s3.
Proof.
  intros Hok Hs Hw. apply (wrote_app ip1 s1 ip2 s2 ip3 s3 off []); [done|by apply same_wrote|].
  unfold len. simpl. by rewrite Z.add_0_r.
Qed.

Lemma wrote_leaf ip s s' n b j d : file_ok ip s -> 0 <= n < MaxBlks -> b = fblk ip s n -> b <> 0 ->
  0 <= j -> j + len d <= 4096 -> grow s s' -> same_inodes s s' ->
  (forall b', b' <> b -> blk s' b' = blk s b') ->
  blk s' b = splice (blk s b) (Z.to_nat j) d -> wrote ip s (n * 4096 + j) d ip s'.
Proof.
  intros Hok Hn -> Hne Hj Hd Hg Hino Hother Hb. pose proof (fo_file _ _ Hok) as Hw.
  split; [|done|by rewrite with_blks_id| |by eapply own_leaf].
  - split; [apply Hg|apply Hg| |apply Hok|rewrite (gr_super _ _ Hg); apply Hok].
    apply (file_wf_ext ip s s' Hw Hg). by apply (fptr_leaf_write ip s s' n).
  - intros k Hk. rewrite (leaf_write_byte ip s s' n _ k Hw Hn Hne Hother Hb Hk).
    pose proof (blk_length s _ (fo_inv _ _ Hok) (proj1 (fblk_used ip s n Hw Hn Hne))) as Hlen.
    rewrite BlockSize_eq in Hlen. pose proof (Z.div_mod k 4096). pose proof (Z.mod_pos_bound k 4096).
    unfold len in *.
    destruct (decide (k / 4096 = n)) as [Hkn|Hkn].
    + rewrite (bool_decide_eq_true_2 (k / 4096 = n)) by done. case_bool_decide as Hin.
      * rewrite lookup_splice_in by lia. do 2 f_equal. lia.
      * rewrite lookup_splice_out by lia. unfold fbyte. rewrite Hkn.
        by rewrite bool_decide_eq_false_2.
    + rewrite (bool_decide_eq_false_2 (k / 4096 = n)) by done.
      rewrite bool_decide_eq_false_2; [done|]. nia.
Qed.

(** Storing [nb] bytes of [data] in the mapped block [b]. *)
Lemma wp_store_bytes ip s off b nb data (Q : unit -> ISt -> Prop) : file_ok ip s -> in_file off ->
  b = fblk ip s (off / 4096) -> b <> 0 -> 0 < nb -> off mod 4096 + nb <= 4096 -> nb <= len data ->
  (forall s', wrote ip s off (take (Z.to_nat nb) data) ip s' ->
     (forall x, pos_ok x -> fptr ip s' x = fptr ip s x) -> Q tt (ip, s')) ->
  wp (if (off mod 4096 =? 0) && (nb =? 4096) then
        s ← get;
        d ← lift (slice data 0 nb);
        on_atxn (op_OverWrite (Block2addr (a_super s.2) b) NBITBLOCK d)
      else
        buffer ← on_atxn (ReadBlock b);
        d ← on_atxn (data_of buffer);
        d ← lift (copy_loop (Z.to_nat nb) 0 d data (off mod 4096));
        _ ← on_atxn (assign_data buffer d);
        on_atxn (set_dirty buffer)) (ip, s) Q.
Proof.
  intros Hok Hoff Hb Hne Hnb Hfit Hlen HQ. pose proof (in_file_blk off Hoff) as Hbn.
  pose proof (Z.mod_pos_bound off 4096). pose proof (fo_inv _ _ Hok) as Hinv.
  assert (used s b) as Hu.
  { rewrite Hb. apply fblk_used; [apply Hok|done|congruence]. }
  pose proof (blk_length s b Hinv (proj1 Hu)) as Hbl.
  assert (len (take (Z.to_nat nb) data) = nb) as Htl by (unfold len in *; rewrite length_take; lia).
  assert (forall s', grow s s' -> same_inodes s s' -> (forall b', b' <> b -> blk s' b' = blk s b') ->
    blk s' b = splice (blk s b) (Z.to_nat (off mod 4096)) (take (Z.to_nat nb) data) ->
    Q tt (ip, s')) as Hdone.
  { intros s' Hg Hino Hother Hs'. apply HQ.
    2: { rewrite Hb in Hother, Hne. by apply (fptr_leaf_write ip s s' (off / 4096)); [apply Hok|..]. }
    replace off with (off / 4096 * 4096 + off mod 4096) at 1 by (pose proof (Z.div_mod off 4096); lia).
    apply (wrote_leaf ip s s' _ b); try done; lia. }
  rewrite BlockSize_eq in Hbl. destruct (_ && _) eqn:Hfull.
  - apply andb_true_iff in Hfull as [Hz%Z.eqb_eq Hn%Z.eqb_eq].
    apply wp_bind, wp_get, wp_bind. eapply wp_lift; [apply slice_Ok; lia|].
    rewrite drop_0, Z.sub_0_r. apply wp_on_atxn.
    destruct (op_OverWrite_ok s _ NBITBLOCK (take (Z.to_nat nb) data) (blk_sz s b Hinv (proj1 Hu)))
      as (o' & Ho & Hob).
    exists tt, (set_op o' s). split; [exact Ho|]. destruct (blk_write s o' b _ Hob) as [Heq Hother].
    apply Hdone; [|by eapply iobj_write_blk; [..|exact Hob]; [|apply Hu]|done|].
    + eapply grow_write; [done|apply Hok|exact Hu| |exact Hob]. rewrite Htl. csimp. lia.
    + rewrite Heq, Hz. symmetry. apply splice_all. unfold len in *. lia.
  - apply wp_bind, wp_on_atxn, wp_ReadBlock; [apply Hu|]. intros o1 Ho1 Hd1.
    unfold data_of, assign_data, set_dirty. apply wp_bind, wp_on_atxn, wp_gets. simpl. rewrite Hd1.
    apply wp_bind. eapply wp_lift; [apply copy_loop_ok; unfold len in *; lia|].
    apply wp_bind, wp_on_atxn, wp_modify, wp_on_atxn, wp_modify. simpl. rewrite drop_0, Z.add_0_r.
    set (d := splice _ _ _). set (o2 := buf_SetDirty _ _). change (set_op o2 _) with (set_op o2 s).
    pose proof (buf_write_bufs (a_log s) (a_op s) o1 (a_super s) b d (ti_layout _ Hinv) (proj1 Hu)
      (ti_bufs _ Hinv) Ho1) as Hob. fold o2 in Hob.
    destruct (blk_write s o2 b d Hob) as [Heq Hother].
    apply Hdone; [|by eapply iobj_write_blk; [..|exact Hob]; [|apply Hu]|done|done].
    eapply grow_write; [done|apply Hok|exact Hu| |exact Hob]. unfold d. csimp.
    unfold len in *. rewrite length_splice; [done|]. rewrite length_take. lia.
Qed.

(** What the write loop leaves after [cnt] bytes: all of them, or the free
    blocks ran out. *)
Record wloop_post ip0 s0 offset count (buf : list Z) (r : bool * bool * Z) ip' s' : Prop := {
  wl_cnt : 0 <= r.2 <= count;
  wl_wrote : wrote ip0 s0 offset (take (Z.to_nat r.2) buf) ip' s';
  wl_full : r.1.1 = true -> r.2 = count;
  wl_short : r.1.1 = false -> r.2 < count /\ alloc_free (a_balloc s') = ∅;
  wl_alloc : r.1.2 = true -> 0 < r.2;
  wl_below : maps_below (offset + count) ip0 s0 ip' s';
  wl_stop : r.2 < count -> (r.2 = 0 \/ (offset + r.2) mod 4096 = 0) /\
    fblk ip0 s0 ((offset + r.2) / 4096) = 0;
}.

Lemma take_step (buf : list Z) cnt nb : 0 <= cnt -> 0 <= nb ->
  take (Z.to_nat cnt) buf ++ take (Z.to_nat nb) (drop (Z.to_nat cnt) buf) = take (Z.to_nat (cnt + nb)) buf.
Proof. intros Hc Hn. rewrite Z2Nat.inj_add by done. apply take_take_drop. Qed.

Lemma wp_write_loop fuel ip0 s0 ip s offset boff cnt count alloc buf (Q : bool * bool * Z -> ISt -> Prop) :
  file_ok ip0 s0 -> file_ok ip s -> wrote ip0 s0 offset (take (Z.to_nat cnt) buf) ip s ->
  0 <= cnt <= count -> count - cnt < Z.of_nat fuel -> 0 <= offset -> offset + count <= MaxBlks * 4096 ->
  count <= len buf -> (alloc = true -> 0 < cnt) ->
  (cnt < count -> boff = (offset + cnt) / 4096) ->
  (cnt < count -> cnt = 0 \/ (offset + cnt) mod 4096 = 0) ->
  maps_below (offset + count) ip0 s0 ip s ->
  (forall r ip' s', wloop_post ip0 s0 offset count buf r ip' s' -> Q r (ip', s')) ->
  wp (write_loop fuel boff (offset + cnt) (count - cnt) cnt alloc (drop (Z.to_nat cnt) buf)) (ip, s) Q.
Proof.
  revert ip s boff cnt alloc. induction fuel as [|fuel IH];
    intros ip s boff cnt alloc Hok0 Hok Hwr Hn Hf Ho Hc Hlen Ha Hb Hal Hbe HQ; [lia|].
  pose proof MaxBlks_bytes. cbn [write_loop]. destruct (Z.ltb_spec 0 (count - cnt)) as [Hlt|Hge].
  2: { apply wp_ret, HQ. assert (cnt = count) as -> by lia. split; simpl; auto; try done. lia. }
  rewrite Hb by lia. clear boff Hb. rewrite NULLBNUM_eq, BlockSize_eq.
  pose proof (Z.mod_pos_bound (offset + cnt) 4096).
  pose proof (div_small_60 (offset + cnt) ltac:(lia)).
  assert (in_file (offset + cnt)) as Hoff by (unfold in_file; lia).
  apply wp_bind, wp_bmap; [apply Hok..|by apply in_file_blk|]. intros ip1 s1 b new Hbm.
  pose proof (bm_same_file _ _ _ _ _ _ _ Hok Hbm) as Hs1. pose proof (sf_ok _ _ _ _ Hs1) as Hok1.
  assert (wrote ip0 s0 offset (take (Z.to_nat cnt) buf) ip1 s1) as Hwr1.
  { rewrite <-(app_nil_r (take _ buf)). eapply wrote_app; [exact Hok0|exact Hwr|by apply same_wrote]. }
  assert (maps_below (offset + count) ip0 s0 ip1 s1) as Hbe1.
  { eapply maps_below_trans; [exact Hbe|]. eapply bm_below; [exact Hbm|by apply in_file_blk|].
    pose proof (Z.div_mod (offset + cnt) 4096). lia. }
  case_bool_decide as Hb0.
  { apply wp_ret, HQ. split; simpl; [done|done|done| |done|done|].
    - intros _. split; [lia|]. by apply (bm_oom _ _ _ _ _ _ _ Hbm).
    - intros _. split; [apply Hal; lia|]. pose proof (bm_val _ _ _ _ _ _ _ Hbm) as Hval.
      eapply own_hole; [apply Hwr1|by apply in_file_blk|]. by rewrite <-Hval. }
  set (nb := if count - cnt <? 4096 - (offset + cnt) mod 4096 then count - cnt
             else 4096 - (offset + cnt) mod 4096).
  assert (0 < nb /\ nb <= count - cnt /\ (offset + cnt) mod 4096 + nb <= 4096 /\
    (nb < count - cnt -> (offset + cnt) mod 4096 + nb = 4096)) as (Hnb & Hnbc & Hnbb & Hnbf).
  { unfold nb. destruct (Z.ltb_spec (count - cnt) (4096 - (offset + cnt) mod 4096)); lia. }
  clearbody nb.
  assert (len (drop (Z.to_nat cnt) buf) = len buf - cnt) as Hdl by (unfold len in *; rewrite length_drop; lia).
  apply wp_bind, wp_store_bytes; [done|done|apply Hbm|done|done|lia|lia|]. intros s2 Hw2 Hsame2.
  apply wp_bind. eapply wp_lift; [apply slice_Ok; lia|].
  rewrite take_ge by (unfold len in *; rewrite !length_drop; lia). rewrite drop_drop.
  replace (Z.to_nat cnt + Z.to_nat nb)%nat with (Z.to_nat (cnt + nb)) by lia.
  wsimp. replace (count - cnt - nb) with (count - (cnt + nb)) by lia. rewrite <-Z.add_assoc.
  assert (len (take (Z.to_nat cnt) buf) = cnt) as Htl by (unfold len in *; rewrite length_take; lia).
  apply IH; [done|apply Hw2| |lia|lia|done|lia|lia|lia| | | |done].
  - rewrite <-take_step by lia. eapply wrote_app; [exact Hok0|exact Hwr1|]. by rewrite Htl.
  - intros Hmore. rewrite Z.add_assoc. apply next_block; lia.
  - intros Hmore. right. rewrite Z.add_assoc, <-Z.add_mod_idemp_l, Hnbf by lia. done.
  - eapply maps_below_trans; [exact Hbe1|]. intros x Hx. left. by apply Hsame2.
Qed.

(** What [Write] leaves: [cnt] bytes written, the size extended over them and
    the inode stored, or nothing written because the free blocks ran out. *)
Record write_post ip s offset count (buf : list Z) (cnt : Z) (ok : bool) ip' s' : Prop := {
  wp_cnt : 0 <= cnt <= count;
  wp_file : file_ok ip' s';
  wp_grow : grow s s';
  wp_fields : ip' = with_Size (Z.max (i_Size ip) (if 0 <? cnt then offset + cnt else 0))
                      (with_blks (i_blks ip') ip);
  wp_bytes : forall k, in_file k -> fbyte ip' s' k =
    if bool_decide (offset <= k < offset + cnt) then default 0 (buf !! Z.to_nat (k - offset))
    else fbyte ip s k;
  wp_ok : ok = bool_decide (0 < cnt \/ count = 0);
  wp_short : cnt < count -> alloc_free (a_balloc s') = ∅;
  wp_synced : 0 < cnt -> synced ip' s';
  wp_own : own ip s ip' s';
  wp_nop : count = 0 -> ip' = ip /\ s' = s;
  wp_below : maps_below (offset + count) ip s ip' s';
  wp_stop : cnt < count -> (cnt = 0 \/ (offset + cnt) mod 4096 = 0) /\
    fblk ip s ((offset + cnt) / 4096) = 0;
}.

Lemma write_post_nop ip s offset (buf : list Z) : file_ok ip s -> write_post ip s offset 0 buf 0 true ip s.
Proof.
  intros Hok. pose proof (iw_Size _ (fo_inode _ _ Hok)) as Hsz. unfold is_u64 in Hsz. split; try done.
  - apply grow_refl; apply Hok.
  - rewrite Z.max_l by (simpl; lia). by destruct ip.
  - intros k _. by rewrite bool_decide_eq_false_2 by lia.
  - apply own_refl.
  - by left.
Qed.

Lemma MaxFileSize_eq : MaxFileSize = (8 + 262144) * 4096.
Proof.
  unfold MaxFileSize. pose proof pow_2 as Hp. change (Z.of_nat 2) with NINDLEVEL in Hp.
  rewrite Hp. csimp. done.
Qed.

Lemma fptr_size ip s v x : fptr (with_Size v ip) s x = fptr ip s x.
Proof. done. Qed.

Lemma fbyte_size ip s v k : fbyte (with_Size v ip) s k = fbyte ip s k.
Proof. done. Qed.

Lemma file_ok_size ip s v : file_ok ip s -> is_u64 v -> file_ok (with_Size v ip) s.
Proof.
  intros [Hi Hz Hw Hn Hin] Hv. split; [done|done| | |done].
  - destruct Hw as [Hl Hu Hinj]. by split.
  - destruct Hn. by split.
Qed.

(** The write that found no block for its first byte. *)
Lemma write_post_none ip s offset count (buf : list Z) ok ip1 s1 : file_ok ip s -> 0 < count ->
  wloop_post ip s offset count buf (ok, false, 0) ip1 s1 -> write_post ip s offset count buf 0 ok ip1 s1.
Proof.
  intros Hok Hc [Hcnt Hwr Hfull Hshort Halloc Hbe Hstop]. simpl in *. split; try done.
  - apply Hwr.
  - apply Hwr.
  - rewrite Z.max_l; [rewrite (wr_ip _ _ _ _ _ _ Hwr) at 1; by destruct ip|].
    pose proof (iw_Size _ (fo_inode _ _ Hok)). unfold is_u64 in *. simpl. lia.
  - intros k Hk. rewrite (wr_byte _ _ _ _ _ _ Hwr) by done. simpl.
    rewrite !bool_decide_eq_false_2 by (rewrite ?Z.add_0_r; lia). done.
  - destruct ok.
    + specialize (Hfull eq_refl). lia.
    + rewrite bool_decide_eq_false_2; [done|]. lia.
  - intros Hs. destruct ok; [specialize (Hfull eq_refl); lia|]. by destruct (Hshort eq_refl).
  - apply Hwr.
  - lia.
Qed.

(** The write of [cnt] bytes, once the new size is in the inode's block. *)
Lemma write_post_some ip s offset count (buf : list Z) ok alloc cnt ip1 s1 s2 : file_ok ip s ->
  0 <= offset -> 0 < cnt -> count <= len buf -> offset + count <= MaxBlks * 4096 ->
  wloop_post ip s offset count buf (ok, alloc, cnt) ip1 s1 ->
  let ip2 := with_Size (Z.max (i_Size ip) (offset + cnt)) ip1 in file_ok ip2 s1 ->
  wi_post ip2 s1 s2 -> write_post ip s offset count buf cnt true ip2 s2.
Proof.
  intros Hok Ho Hpos Hlen Hmax [Hcnt Hwr Hfull Hshort Halloc Hbe Hstop] ip2 Hok2 Hwi. simpl in *.
  assert (len (take (Z.to_nat cnt) buf) = cnt) as Htl by (unfold len in *; rewrite length_take; lia).
  pose proof (wi_same_file _ _ _ Hok2 Hwi) as Hsf. split; try done.
  - apply Hsf.
  - eapply grow_trans; [apply Hwr|apply Hwi].
  - rewrite (proj2 (Z.ltb_lt 0 cnt)) by done. subst ip2. simpl.
    rewrite (wr_ip _ _ _ _ _ _ Hwr). by destruct ip.
  - intros k Hk. rewrite (sf_byte _ _ _ _ Hsf) by done. subst ip2. rewrite fbyte_size.
    rewrite (wr_byte _ _ _ _ _ _ Hwr), Htl by done. case_bool_decide; [|done].
    rewrite lookup_take_lt by lia. done.
  - symmetry. apply bool_decide_eq_true_2. by left.
  - intros Hs. destruct ok; [specialize (Hfull eq_refl); lia|].
    destruct (Hshort eq_refl) as [_ He]. pose proof (gr_free _ _ (wi_grow _ _ _ Hwi)). set_solver.
  - intros _. apply Hwi.
  - pose proof (with_blks_Inum _ _ (wr_ip _ _ _ _ _ _ Hwr)) as Hin1.
    assert (own ip s ip2 s1) as Hw1.
    { destruct (wr_own _ _ _ _ _ _ Hwr) as [Hn1 Hb1 Hi1]. by split. }
    eapply own_trans; [apply Hok|apply Hwr| |apply Hok|exact Hw1|apply Hsf]. done.
  - lia.
  - eapply maps_below_trans; [exact Hbe|]. intros x Hx. left.
    rewrite <-(fptr_size ip1 s1 (Z.max (i_Size ip) (offset + cnt))).
    by apply fptr_valid; [apply Hok2|apply Hwi|].
Qed.

Lemma wp_Write ip s offset count buf (Q : Z * bool -> ISt -> Prop) : file_ok ip s ->
  0 <= offset -> 0 <= count <= len buf -> offset + count <= MaxFileSize ->
  (forall cnt ok ip' s', write_post ip s offset count buf cnt ok ip' s' -> Q (cnt, ok) (ip', s')) ->
  wp (Write offset count buf) (ip, s) Q.
Proof.
  intros Hok Ho Hc Hmax HQ. unfold Write. rewrite MaxFileSize_eq in *. wsimp.
  destruct (Z.ltb_spec ((8 + 262144) * 4096) (offset + count)); [lia|]. csimp.
  destruct (decide (count = 0)) as [->|Hpos0].
  { apply wp_bind. simpl. apply wp_ret. apply wp_ret, HQ, write_post_nop. done. }
  assert (offset + count <= MaxBlks * 4096) by (unfold MaxBlks; lia).
  pose proof (wp_write_loop (S (Z.to_nat count)) ip s ip s offset (offset / 4096) 0 count false buf) as Hl.
  rewrite Z.add_0_r, Z.sub_0_r in Hl. apply wp_bind, Hl; clear Hl;
    [done|done|apply same_wrote, (same_file_refl _ _ Hok)|lia|lia|lia|lia|lia|done|done|by left|by left|].
  intros [[ok alloc] cnt] ip1 s1 Hlp. pose proof (wl_cnt _ _ _ _ _ _ _ _ Hlp) as Hcnt. simpl in Hcnt.
  pose proof (wl_wrote _ _ _ _ _ _ _ _ Hlp) as Hwr. simpl in Hwr.
  destruct (Z.ltb_spec 0 cnt) as [Hpos|Hpos].
  - rewrite orb_true_r. wsimp. apply wp_bind, wp_ip_set.
    set (ip2 := if i_Size ip1 <? offset + cnt then _ else _).
    assert (ip2 = with_Size (Z.max (i_Size ip) (offset + cnt)) ip1) as Hip2.
    { unfold ip2. rewrite (wr_ip _ _ _ _ _ _ Hwr). simpl.
      destruct (Z.ltb_spec (i_Size ip) (offset + cnt)); [f_equal; lia|].
      rewrite Z.max_l by lia. by destruct ip. }
    clearbody ip2. subst ip2. pose proof (iw_Size _ (fo_inode _ _ Hok)) as Hsz.
    assert (file_ok (with_Size (Z.max (i_Size ip) (offset + cnt)) ip1) s1) as Hok2
      by (apply file_ok_size; [apply Hwr|unfold is_u64 in *; lia]).
    apply wp_bind, wp_WriteInode; [apply Hok2..|]. intros s2 Hwi. apply wp_ret, HQ.
    by eapply write_post_some; [| | |lia|lia|exact Hlp|..].
  - assert (cnt = 0) as -> by lia. assert (alloc = false) as ->.
    { destruct alloc; [|done]. pose proof (wl_alloc _ _ _ _ _ _ _ _ Hlp eq_refl). simpl in *. lia. }
    simpl. apply wp_ret, HQ, write_post_none; [done|lia|done].
Qed.

(** ** What an operation on one file may change *)

(** Only the size, the blocks and the name cache of the inode differ. *)
Definition fixed ip ip' : Prop :=
  ip' = with_Dcache (i_Dcache ip') (with_blks (i_blks ip') (with_Size (i_Size ip') ip)).

Lemma fixed_refl ip : fixed ip ip.
Proof. by destruct ip. Qed.

Lemma fixed_trans ip1 ip2 ip3 : fixed ip1 ip2 -> fixed ip2 ip3 -> fixed ip1 ip3.
Proof. unfold fixed. destruct ip1, ip2, ip3. cbn. by intros [= -> -> -> -> -> -> ->]. Qed.

Lemma fixed_Dcache dc ip ip' : fixed (with_Dcache dc ip) ip' <-> fixed ip ip'.
Proof. done. Qed.

Record touched ip s ip' s' : Prop := {
  to_grow : grow s s';
  to_own : own ip s ip' s';
  to_ok : file_ok ip' s';
  to_Inum : i_Inum ip' = i_Inum ip;
  to_fixed : fixed ip ip';
}.

Lemma touched_refl ip s : file_ok ip s -> touched ip s ip s.
Proof. intros Hok. split; [apply grow_refl; apply Hok|apply own_refl|done|done|apply fixed_refl]. Qed.

Lemma touched_trans ip1 s1 ip2 s2 ip3 s3 : file_ok ip1 s1 -> touched ip1 s1 ip2 s2 ->
  touched ip2 s2 ip3 s3 -> touched ip1 s1 ip3 s3.
Proof.
  intros Hok [Hg1 Ho1 _ Hi1 Hf1] [Hg2 Ho2 Hok2 Hi2 Hf2].
  split; [by eapply grow_trans| |done|congruence|by eapply fixed_trans].
  eapply own_trans; [apply Hok|exact Hg1|exact Hi1|apply Hok|done|done].
Qed.

Lemma own_Dcache dc ip s ip' s' : own (with_Dcache dc ip) s ip' s' -> own ip s ip' s'.
Proof. intros [Hn Hb Hi]. split; [exact Hn|exact Hb|exact Hi]. Qed.

Lemma file_ok_Dcache dc ip s : file_ok ip s -> file_ok (with_Dcache dc ip) s.
Proof.
  intros [Hi Hz [Hl Hu Hj] [] Hn]. split; [done|done| |by split|exact Hn]. split; [exact Hl|exact Hu|exact Hj].
Qed.

Lemma same_touched ip s ip' s' : same_file ip s ip' s' -> touched ip s ip' s'.
Proof.
  intros [Hok Hg Hip Hb Ho]. split; [done..|by apply with_blks_Inum|]. rewrite Hip. by destruct ip.
Qed.

Lemma write_touched ip s off count buf cnt ok ip' s' :
  write_post ip s off count buf cnt ok ip' s' -> touched ip s ip' s'.
Proof.
  intros [Hc Hok Hg Hf _ _ _ _ Hown _]. split; [done..| |]; rewrite Hf; [done|by destruct ip].
Qed.
End io.
