(* ===== verification/Volume.v ===== *)
(** The volume: the inodes of the disk as a family of files.

    [disk_inode s i ip] says that inode [i] of the disk, as the transaction
    sees it, is [ip]; [vol_ok F s] that the disk holds the inodes [F], each
    with a well-formed block map, no two of them sharing a block. *)
From stdpp Require Import functions.
From S2P Require Import Prelude Nfstypes External Reference Super Dcache Alloctxn AtxnCommit Inode.
From S2P Require Import InodeCodec InodeMap InodeIO.

Section volume.
Context `{!Common} `{!CommonSpec} `{!Util} `{!UtilSpec} `{!Marshal} `{!MarshalSpec}
  `{!Buf} `{!BufSpec} `{!Journal} `{!JournalSpec} `{!AllocPkg} `{!AllocSpec} `{!Clock}.
Implicit Types (s t : ASt) (ip : Inode) (b i j k : Z) (F : Z -> Inode).

Definition ino_ok s i : Prop := 0 <= i < NInode (a_super s).

Lemma ino_ok_super s s' i : a_super s' = a_super s -> ino_ok s' i -> ino_ok s i.
Proof. unfold ino_ok. by intros ->. Qed.

Record disk_inode s i ip : Prop := {
  di_wf : inode_wf ip;
  di_Inum : i_Inum ip = i;
  di_bytes : iobj s i = inode_bytes ip;
}.

Lemma disk_inode_synced s i ip : disk_inode s i ip -> synced ip s.
Proof. intros [_ Hi Hb]. unfold synced. by rewrite Hi. Qed.

Lemma synced_disk_inode s i ip : inode_wf ip -> i_Inum ip = i -> synced ip s -> disk_inode s i ip.
Proof. intros Hw <- Hs. by split. Qed.

Lemma disk_inode_Decode s i ip : disk_inode s i ip ->
  Decode (iobj s i) i = Ok (with_Dcache None ip).
Proof.
  intros [Hw Hi Hb]. rewrite Hb, <-(app_nil_r (inode_bytes ip)), Decode_bytes by done.
  subst i. by destruct ip.
Qed.

Lemma disk_inode_inj s i ip ip' : disk_inode s i ip -> disk_inode s i ip' ->
  with_Dcache None ip = with_Dcache None ip'.
Proof. intros Hd%disk_inode_Decode Hd'%disk_inode_Decode. congruence. Qed.

(** ** Two states that hold the same disk *)

Record sim s s' : Prop := {
  sim_super : a_super s' = a_super s;
  sim_inv : txn_inv s';
  sim_zero : zero_inv s';
  sim_blk : forall b, valid_blk (a_super s) b -> blk s' b = blk s b;
  sim_iobj : same_inodes s s';
  sim_used : forall b, used s b -> used s' b;
}.

Lemma sim_refl s : txn_inv s -> zero_inv s -> sim s s.
Proof. by split. Qed.

Lemma sim_trans s1 s2 s3 : sim s1 s2 -> sim s2 s3 -> sim s1 s3.
Proof.
  intros [] []. split; [congruence|done|done| | |auto].
  - intros b Hb. rewrite sim_blk1, sim_blk0; [done|done|congruence].
  - by eapply same_inodes_trans.
Qed.

Lemma still_sim ip s ip' s' : grow s s' -> still ip s ip' s' -> sim s s'.
Proof.
  intros Hg [_ [Hb Ha] Hi]. split; [apply Hg|apply Hg|apply Hg|done|done|].
  intros b Hu. by eapply used_grow.
Qed.

Lemma sim_fptr ip s s' x : file_wf ip s -> sim s s' -> pos_ok x -> fptr ip s' x = fptr ip s x.
Proof. intros Hw Hs. apply fptr_valid; [done|apply Hs]. Qed.

Lemma sim_fbyte ip s s' k : file_wf ip s -> sim s s' -> in_file k -> fbyte ip s' k = fbyte ip s k.
Proof. intros Hw Hs. apply fbyte_valid; [done|apply Hs]. Qed.

Lemma sim_file_wf ip s s' : file_wf ip s -> sim s s' -> file_wf ip s'.
Proof.
  intros Hw Hs. pose proof (fun x => sim_fptr ip s s' x Hw Hs) as Hx. destruct Hw as [Hl Hu Hi]. split; [done|..].
  - intros x Hok. rewrite Hx by done. intros Hn. apply (sim_used _ _ Hs). by apply Hu.
  - intros x y Hxo Hyo. rewrite !Hx by done. by apply Hi.
Qed.

Lemma sim_file_ok ip s s' : file_ok ip s -> sim s s' -> file_ok ip s'.
Proof.
  intros Hok Hs. split; [apply Hs|apply Hs|eapply sim_file_wf; [apply Hok|done]|apply Hok|].
  rewrite (sim_super _ _ Hs). apply Hok.
Qed.

Lemma sim_disk_inode s s' i ip : ino_ok s i -> sim s s' -> disk_inode s i ip -> disk_inode s' i ip.
Proof. intros Hi Hs [Hw Hn Hb]. split; [done..|]. by rewrite (sim_iobj _ _ Hs). Qed.

(** Loading the buffer of an inode. *)
Lemma inode_load s o' i : txn_inv s -> zero_inv s -> ino_ok s i ->
  op_bufs o' = load (a_log s) (op_bufs (a_op s)) (Inum2Addr (a_super s) i) (INODESZ * 8) ->
  sim s (set_op o' s) /\ grow s (set_op o' s) /\ buf_Data o' (Inum2Addr (a_super s) i) = iobj s i.
Proof.
  intros Hinv Hz Hi Ho. set (a := Inum2Addr (a_super s) i) in *.
  assert (forall a' sz, a' <> a -> obj (set_op o' s) a' sz = obj s a' sz) as Hobj.
  { intros a' sz Hne. unfold obj. simpl. by rewrite Ho, load_lookup_ne. }
  assert (forall b, valid_blk (a_super s) b -> blk (set_op o' s) b = blk s b) as Hblk.
  { intros b Hb. apply Hobj. apply not_eq_sym, Inum_Block_ne; [apply (ti_layout _ Hinv)|done|done]. }
  assert (map_Forall (buf_ok (a_super s) (a_log s)) (op_bufs o')) as Hm.
  { intros a' bv. rewrite Ho. destruct (decide (a' = a)) as [->|Hne].
    - rewrite load_lookup. destruct (op_bufs (a_op s) !! a) as [bv'|] eqn:Hbv; simpl; intros [= <-].
      + by apply (ti_bufs_ok _ Hinv).
      + split; [|done]. right. exists i. split_and!; [apply Hi..|done|done|]. simpl.
        rewrite (Z.mul_comm INODESZ). apply log_obj_length. csimp. lia.
    - rewrite load_lookup_ne by done. apply (ti_bufs_ok _ Hinv). }
  assert (zero_inv (set_op o' s)) as Hz'.
  { split; [|apply Hz]. intros b Hb. rewrite Hblk; [by apply Hz|]. destruct Hb as [Hf|Hf].
    - by apply (al_free _ _ _ _ _ (ti_balloc _ Hinv)).
    - pose proof (al_freed _ _ _ _ _ (ti_balloc _ Hinv)) as Hall. by eapply Forall_forall in Hall. }
  split_and!.
  - split; [done|by apply txn_inv_op|done|done| |done].
    intros j Hj. unfold iobj. simpl. destruct (decide (Inum2Addr (a_super s) j = a)) as [Heq|Hne].
    + unfold obj. simpl. rewrite Heq, Ho, load_lookup. by destruct (op_bufs (a_op s) !! a).
    + by apply Hobj.
  - split; simpl; try done.
    + by apply txn_inv_op.
    + intros a' [bv Ha]. rewrite Ho. destruct (decide (a' = a)) as [->|Hne].
      * by rewrite load_lookup.
      * rewrite load_lookup_ne by done. eauto.
    + intros s0 Hf. by apply atxn_from_op.
  - rewrite buf_Data_eq, Ho, load_lookup. simpl. unfold iobj, obj. by destruct (op_bufs (a_op s) !! _).
Qed.

(** ** After a commit or an abort *)

Definition quiet_zero s : Prop := forall b, b ∈ alloc_free (a_balloc s) ->
  log_obj (a_log s) (Block2addr (a_super s) b) NBITBLOCK = zeros BlockSize.

Lemma Begin_obj s a sz : obj (Begin s) a sz = log_obj (a_log s) a sz.
Proof. unfold obj. simpl. by rewrite Begin_bufs, lookup_empty. Qed.

Lemma ino_Begin s i : ino_ok (Begin s) i <-> ino_ok s i.
Proof. done. Qed.

Lemma Begin_zero s : quiet_zero s -> zero_inv (Begin s).
Proof.
  intros Hz. split.
  - intros b [Hb|Hb]; [|by apply not_elem_of_nil in Hb]. unfold blk. rewrite Begin_obj. by apply Hz.
  - intros b Hb. by apply not_elem_of_nil in Hb.
Qed.

Lemma freed_valid s b : txn_inv s -> b ∈ alloc_free (a_balloc s) \/ b ∈ a_freeBnums s ->
  valid_blk (a_super s) b.
Proof.
  intros Hinv [Hb|Hb]; [by apply (al_free _ _ _ _ _ (ti_balloc _ Hinv))|].
  pose proof (al_freed _ _ _ _ _ (ti_balloc _ Hinv)) as Hall. by eapply Forall_forall in Hall.
Qed.

(** The transaction after a successful commit sees what the committed one saw. *)
Lemma commit_sim s s' : txn_inv s -> zero_inv s -> committed s true s' ->
  quiet_zero s' /\ sim s (Begin s').
Proof.
  intros Hinv Hz [Hq Hs Hb _ Hcb Hci _ _]. specialize (Hcb eq_refl). specialize (Hci eq_refl).
  assert (quiet_zero s') as Hqz.
  { intros b Hf. rewrite Hb in Hf. rewrite Hs.
    assert (b ∈ alloc_free (a_balloc s) \/ b ∈ a_freeBnums s) as Hf' by set_solver.
    rewrite Hcb by (by apply freed_valid). by apply Hz. }
  split; [done|]. split; simpl.
  - done.
  - apply Begin_from, Hq.
  - by apply Begin_zero.
  - intros b Hv. unfold blk. rewrite Begin_obj. simpl. rewrite Hs. by apply Hcb.
  - intros i Hi. unfold iobj. rewrite Begin_obj. simpl. rewrite Hs. by apply Hci.
  - intros b (Hv & Hf & Hd). unfold used. simpl. rewrite Hs, Hb. split_and!; [done|set_solver|].
    apply not_elem_of_nil.
Qed.

(** A transaction begun on a state with the same log and allocators sees the
    same disk. *)
Lemma Begin_sim s0 s' : quiet_inv s' -> quiet_zero s0 -> a_super s' = a_super s0 -> a_log s' = a_log s0 ->
  alloc_free (a_balloc s') = alloc_free (a_balloc s0) -> quiet_zero s' /\ sim (Begin s0) (Begin s').
Proof.
  intros Hq Hz Hs Hl Hb. assert (quiet_zero s') as Hz'.
  { intros b Hf. rewrite Hb in Hf. rewrite Hs, Hl. by apply Hz. }
  split; [done|]. split; simpl.
  - done.
  - apply Begin_from, Hq.
  - by apply Begin_zero.
  - intros b _. unfold blk. rewrite !Begin_obj. simpl. by rewrite Hs, Hl.
  - intros i _. unfold iobj. rewrite !Begin_obj. simpl. by rewrite Hs, Hl.
  - intros b. unfold used. simpl. by rewrite Hs, Hb.
Qed.

(** ** Well-formed volumes *)

Record vol_ok F s : Prop := {
  vo_inv : txn_inv s;
  vo_zero : zero_inv s;
  vo_inode : forall i, ino_ok s i -> disk_inode s i (F i);
  vo_file : forall i, ino_ok s i -> file_wf (F i) s;
  vo_sep : forall i j x y, ino_ok s i -> ino_ok s j -> i <> j -> pos_ok x -> pos_ok y ->
    fptr (F i) s x = fptr (F j) s y -> fptr (F i) s x = 0;
}.

Lemma vol_file_ok F s i : vol_ok F s -> ino_ok s i -> file_ok (F i) s.
Proof.
  intros Hv Hi. pose proof (vo_inode _ _ Hv i Hi) as Hd.
  split; [apply Hv|apply Hv|by apply Hv|apply Hd|]. by rewrite (di_Inum _ _ _ Hd).
Qed.

Lemma sim_vol F s s' : sim s s' -> vol_ok F s -> vol_ok F s'.
Proof.
  intros Hs Hv. pose proof (sim_super _ _ Hs) as Hsp.
  assert (forall i, ino_ok s' i <-> ino_ok s i) as Hi by (intros i; unfold ino_ok; by rewrite Hsp).
  split; [apply Hs|apply Hs|..].
  - intros i Hi'%Hi. eapply sim_disk_inode; [done..|by apply Hv].
  - intros i Hi'%Hi. eapply sim_file_wf; [by apply Hv|done].
  - intros i j x y Hi'%Hi Hj'%Hi Hne Hx Hy.
    rewrite (sim_fptr (F i) s s'), (sim_fptr (F j) s s') by (try done; by apply Hv).
    by apply (vo_sep _ _ Hv).
Qed.

(** A change that spares the blocks of a file spares the file. *)
Lemma frame_fptr ip s s' :
  (forall x, pos_ok x -> fptr ip s x <> 0 -> blk s' (fptr ip s x) = blk s (fptr ip s x)) ->
  forall x, pos_ok x -> fptr ip s' x = fptr ip s x.
Proof.
  intros Hb x [Hx [Hl Hs]]. apply (tptr_ext _ _ (depth x.1)); [done..|].
  intros b Hne (p & Hp & Hps & <-). apply (Hb (x.1, p)); [|done].
  split; [done|]. split; [simpl; lia|done].
Qed.

Lemma frame_fbyte ip s s' k :
  (forall x, pos_ok x -> fptr ip s x <> 0 -> blk s' (fptr ip s x) = blk s (fptr ip s x)) ->
  in_file k -> fbyte ip s' k = fbyte ip s k.
Proof.
  intros Hb Hk. destruct (fpath_ok _ (in_file_blk k Hk)) as [Hok _]. unfold fbyte, fblk.
  rewrite (frame_fptr ip s s') by done. case_bool_decide as Hne; [done|]. by rewrite Hb.
Qed.

(** A new file [i] whose blocks were its own or free, and a state that spares
    the blocks of every other file, give a volume. *)
Section replace.
Context (F : Z -> Inode) (s s' : ASt) (i : Z) (ip' : Inode).
Hypothesis Hv : vol_ok F s.
Hypothesis Hi : ino_ok s i.
Hypothesis Hsp : a_super s' = a_super s.
Hypothesis Hinv' : txn_inv s'.
Hypothesis Hzero' : zero_inv s'.
Hypothesis Hother : forall j x, ino_ok s j -> j <> i -> pos_ok x -> fptr (F j) s x <> 0 ->
  blk s' (fptr (F j) s x) = blk s (fptr (F j) s x) /\ used s' (fptr (F j) s x).
Hypothesis Hnode : forall x, pos_ok x -> fptr ip' s' x <> 0 ->
  fptr ip' s' x = fptr (F i) s x \/ fptr ip' s' x ∈ alloc_free (a_balloc s).
Hypothesis Hiobj : forall j, ino_ok s j -> j <> i -> iobj s' j = iobj s j.

Lemma vol_other_byte j k : ino_ok s j -> j <> i -> in_file k -> fbyte (F j) s' k = fbyte (F j) s k.
Proof. intros Hj Hne Hk. apply frame_fbyte; [|done]. intros x Hx Hn. by apply Hother. Qed.

Lemma vol_other_ptr j x : ino_ok s j -> j <> i -> pos_ok x -> fptr (F j) s' x = fptr (F j) s x.
Proof. intros Hj Hne Hx. apply frame_fptr; [|done]. intros y Hy Hn. by apply Hother. Qed.

Lemma vol_replace_sep j x y : ino_ok s j -> j <> i -> pos_ok x -> pos_ok y ->
  fptr ip' s' x = fptr (F j) s' y -> fptr ip' s' x = 0.
Proof.
  intros Hj Hne Hx Hy Heq. rewrite vol_other_ptr in Heq by done.
  destruct (decide (fptr ip' s' x = 0)) as [|Hz]; [done|].
  destruct (Hnode x Hx Hz) as [Hx'|Hx'].
  - rewrite Hx' in Heq |- *. by apply (vo_sep _ _ Hv i j x y).
  - rewrite Heq in Hx', Hz. by destruct (fw_used _ _ (vo_file _ _ Hv j Hj) y Hy Hz) as (_ & ? & _).
Qed.

Lemma vol_replace : disk_inode s' i ip' -> file_wf ip' s' -> vol_ok (<[i := ip']> F) s'.
Proof.
  intros Hd Hw.
  assert (forall j, ino_ok s' j <-> ino_ok s j) as Hino by (intros j; unfold ino_ok; by rewrite Hsp).
  split; [done|done|..].
  - intros j Hj%Hino. destruct (decide (j = i)) as [->|Hne]; [by rewrite fn_lookup_insert|].
    rewrite fn_lookup_insert_ne by done. destruct (vo_inode _ _ Hv j Hj) as [Hwf Hn Hb].
    split; [done..|]. by rewrite Hiobj.
  - intros j Hj%Hino. destruct (decide (j = i)) as [->|Hne]; [by rewrite fn_lookup_insert|].
    rewrite fn_lookup_insert_ne by done. destruct (vo_file _ _ Hv j Hj) as [Hl Hu Hinj].
    split; [done|..].
    + intros x Hx. rewrite vol_other_ptr by done. intros Hn. by apply Hother.
    + intros x y Hx Hy. rewrite !vol_other_ptr by done. by apply Hinj.
  - intros j1 j2 x y Hj1%Hino Hj2%Hino Hne Hx Hy.
    destruct (decide (j1 = i)) as [->|Hn1]; [|destruct (decide (j2 = i)) as [->|Hn2]];
      rewrite ?fn_lookup_insert, ?fn_lookup_insert_ne by done.
    + by apply vol_replace_sep.
    + intros Heq. rewrite Heq. symmetry in Heq. by apply (vol_replace_sep j1 y x).
    + rewrite !vol_other_ptr by done. by apply (vo_sep _ _ Hv).
Qed.
End replace.

(** An operation that touches only file [i] gives a volume where [i] is the
    new file, and no other file changed. *)
Section update.
Context (F : Z -> Inode) (s s' : ASt) (i : Z) (ip' : Inode).
Hypothesis Hv : vol_ok F s.
Hypothesis Hi : ino_ok s i.
Hypothesis Hg : grow s s'.
Hypothesis Ho : own (F i) s ip' s'.

Lemma vol_own_other j x : ino_ok s j -> j <> i -> pos_ok x -> fptr (F j) s x <> 0 ->
  blk s' (fptr (F j) s x) = blk s (fptr (F j) s x) /\ used s' (fptr (F j) s x).
Proof.
  intros Hj Hne Hx Hn. pose proof (fw_used _ _ (vo_file _ _ Hv j Hj) x Hx Hn) as Hu.
  split; [|by eapply used_grow]. destruct Hu as (Hvb & Hf & _).
  apply (ow_blk _ _ _ _ Ho); [done|]. intros y Hy Heq.
  destruct (ow_node _ _ _ _ Ho y Hy) as [Hy'|[_ Hy']]; rewrite Heq in Hy'; [|done].
  apply Hn. by apply (vo_sep _ _ Hv j i x y).
Qed.

Lemma vol_update_byte j k : ino_ok s j -> j <> i -> in_file k -> fbyte (F j) s' k = fbyte (F j) s k.
Proof. apply (vol_other_byte F s s' i). exact vol_own_other. Qed.

Lemma vol_update : disk_inode s' i ip' -> file_wf ip' s' -> vol_ok (<[i := ip']> F) s'.
Proof.
  apply (vol_replace F s s' i ip'); [done|done|apply Hg|apply Hg|apply Hg|exact vol_own_other|..].
  - intros x Hx _. destruct (ow_node _ _ _ _ Ho x Hx) as [?|[_ ?]]; [by left|by right].
  - intros j Hj Hne. apply (ow_iobj _ _ _ _ Ho); [done|].
    by rewrite (di_Inum _ _ _ (vo_inode _ _ Hv i Hi)).
Qed.
End update.
End volume.
