(* ===== verification/InodeClaims.v ===== *)
(** The properties of the block map and of file input and output, and a small
    file system on which they run. *)
From S2P Require Import Prelude Nfstypes External Reference Super Dcache Alloctxn AtxnCommit Inode.
From S2P Require Import InodeCodec InodeMap InodeIO.

Section claims.
Context `{!Common} `{!CommonSpec} `{!Util} `{!UtilSpec} `{!Marshal} `{!MarshalSpec}
  `{!Buf} `{!BufSpec} `{!Journal} `{!JournalSpec} `{!AllocPkg} `{!AllocSpec} `{!Clock}.
Implicit Types (s : ASt) (ip : Inode).

(** ** Beyond the last block *)

Lemma bind_panic {S A B} (m : M S A) (k : A -> M S B) st a st' :
  m st = Ok (a, st') -> k a st' = Panic -> (m ≫= k) st = Panic.
Proof. intros Hm Hk. unfold mbind, M_bind. by rewrite Hm. Qed.

Lemma bind_panic_1 {S A B} (m : M S A) (k : A -> M S B) st : m st = Panic -> (m ≫= k) st = Panic.
Proof. intros Hm. unfold mbind, M_bind. by rewrite Hm. Qed.

Lemma indbmap_panic s root off : txn_inv s -> valid_blk (a_super s) root ->
  262144 <= off < 2 ^ 60 -> indbmap root 2 off s = Panic.
Proof.
  intros Hinv Hv Hoff. pose proof (valid_blk_pos _ _ (ti_layout _ Hinv) Hv).
  cbn [indbmap]. csimp. rewrite bool_decide_eq_false_2 by lia.
  eapply bind_panic; [done|]. rewrite bool_decide_eq_false_2 by lia. rewrite pow_1.
  destruct (wp_ReadBlock s root (fun a t => a = Block2addr (a_super s) root /\
    exists o', t = set_op o' s /\ buf_Data o' (Block2addr (a_super s) root) = blk s root) Hv)
    as (a & t & Hr & -> & o' & -> & Hd); [eauto|].
  eapply bind_panic; [exact Hr|]. apply bind_panic_1. unfold BnumGet, data_of.
  eapply bind_panic; [done|]. simpl. rewrite Hd. unfold lift.
  assert (512 <= off / 512 < 2 ^ 60).
  { split; [apply Z.div_le_lower_bound; lia|apply Z.div_lt_upper_bound; lia]. }
  rewrite bnum_get_panic; [done|]. pose proof (blk_length s root Hinv Hv) as Hl. csimp. wsimp. lia.
Qed.

Lemma indbmap_panic_0 s off : txn_inv s -> alloc_free (a_balloc s) <> ∅ ->
  262144 <= off < 2 ^ 60 -> indbmap 0 2 off s = Panic.
Proof.
  intros Hinv Hfree Hoff.
  destruct (wp_AllocBlock s (fun b t => valid_blk (a_super s) b /\ a_super t = a_super s /\ txn_inv t) Hinv)
    as (b & t & Ha & Hv & Hsp & Ht); [done| |].
  { intros bn al Hin Hv Hal t Ht. done. }
  rewrite <-Hsp in Hv. pose proof (indbmap_panic t b off Ht Hv Hoff) as Hp.
  pose proof (valid_blk_pos _ _ (ti_layout _ Ht) Hv).
  cbn [indbmap] in *. csimp. rewrite bool_decide_eq_false_2 in Hp by lia.
  rewrite bool_decide_eq_true_2 by done. eapply bind_panic; [exact Ha|].
  unfold mbind at 1, M_bind at 1, mret at 1, M_ret at 1 in Hp.
  rewrite bool_decide_eq_false_2 in Hp by lia. rewrite bool_decide_eq_false_2 by lia. exact Hp.
Qed.

Lemma prefix_eq_len {A} (p q : list A) : p `prefix_of` q -> length p = length q -> p = q.
Proof. intros [k ->] Hl. rewrite length_app in Hl. destruct k; [by rewrite app_nil_r|simpl in Hl; lia]. Qed.

Lemma fpath_prefix n bn : 0 <= n < MaxBlks -> 0 <= bn < MaxBlks ->
  (fpath n).1 = (fpath bn).1 -> (fpath n).2 `prefix_of` (fpath bn).2 -> n = bn.
Proof.
  intros Hn Hbn Hi Hp. apply fpath_inj; [done..|].
  destruct (fpath_ok n Hn) as [_ Hl], (fpath_ok bn Hbn) as [_ Hl'].
  rewrite Hi in Hl. apply prefix_eq_len in Hp; [|congruence].
  destruct (fpath n), (fpath bn). simpl in *. congruence.
Qed.

(** C25: [bmap] of a block inside the file's range returns the block that the
    map holds afterwards, 0 only when no block is free. It keeps the map well
    formed (every block in use and used once), keeps the contents of the file,
    and adds to the map only blocks that were free; when it reports no
    allocation the inode is unchanged. *)
Theorem bmap_spec ip s bn : file_ok ip s -> 0 <= bn < MaxBlks ->
  exists b alloc ip' s', bmap bn (ip, s) = Ok ((b, alloc), (ip', s')) /\
    b = fblk ip' s' bn /\ (b = 0 -> alloc_free (a_balloc s') = ∅) /\
    file_ok ip' s' /\ (alloc = false -> ip' = ip) /\
    (forall k, in_file k -> fbyte ip' s' k = fbyte ip s k) /\
    (forall n, 0 <= n < MaxBlks -> fblk ip' s' n = fblk ip s n \/
       (n = bn /\ fblk ip s n = 0 /\ fblk ip' s' n ∈ alloc_free (a_balloc s))).
Proof.
  intros Hok Hbn.
  destruct (wp_bmap ip s bn (fun r t => bm_post ip s bn t.1 t.2 r.1 r.2)) as ([b alloc] & [ip' s'] & Hr & Hbm);
    [apply Hok..|done|done|]. simpl in Hbm.
  pose proof (bm_same_file _ _ _ _ _ _ _ Hok Hbm) as Hsf.
  exists b, alloc, ip', s'. split_and!; [done|apply Hbm|apply Hbm|apply Hsf|apply Hbm|apply Hsf|].
  intros n Hn. destruct (fpath_ok n Hn) as [Hp _].
  destruct (bm_node _ _ _ _ _ _ _ Hbm _ Hp) as [?|(Hi & Hpre & ? & ?)]; [by left|right].
  split; [by apply fpath_prefix|done].
Qed.

(** Past the last block a file can have, [bmap] does not return: the index
    into the double indirect block is out of range and the server panics. A
    size set by SETATTR is not bounded, so a READ can reach this. *)
Theorem bmap_out_of_range ip s bn : file_ok ip s -> MaxBlks <= bn < 2 ^ 60 ->
  alloc_free (a_balloc s) <> ∅ -> bmap bn (ip, s) = Panic.
Proof.
  unfold MaxBlks. intros Hok Hbn Hfree. pose proof (fo_inv _ _ Hok) as Hinv.
  unfold bmap. eapply bind_panic; [done|]. cbn [fst snd]. change NDIRECT with 8. change DINDIRECT with 9.
  rewrite (proj2 (Z.ltb_ge bn 8)) by lia. wsimp. rewrite NBLKBLK_eq, (proj2 (Z.ltb_ge (bn - 8) 512)) by lia.
  eapply bind_panic; [unfold lift; by rewrite (root_idx ip s 9 (fo_file _ _ Hok))|].
  apply bind_panic_1. unfold on_atxn, zoom. cbn [fst snd]. wsimp.
  enough (indbmap (root_of ip 9) 2 (bn - 8 - 512) s = Panic) as -> by done.
  destruct (decide (root_of ip 9 = 0)) as [->|Hne].
  - apply indbmap_panic_0; [done|done|lia].
  - apply indbmap_panic; [done| |lia].
    assert (used s (fptr ip s (9, []))) as [Hv _]; [|exact Hv].
    apply (fw_used _ _ (fo_file _ _ Hok)); [split; simpl; [lia|apply tpath_ok_nil]|exact Hne].
Qed.

(** [Read] returns a prefix of the bytes of the file between the offset and
    the smaller of the count and the end of the file, the whole of it unless
    the free blocks ran out while a hole was filled. The contents, the size and
    every other attribute of the file stay as they were; the inode on disk
    stays in step with the one in memory when the read was complete. *)
Theorem Read_spec ip s offset count : file_ok ip s -> i_Size ip <= MaxFileSize ->
  0 <= offset -> 0 <= count -> offset + count < 2 ^ 64 ->
  exists data eof ip' s', Read offset count (ip, s) = Ok ((data, eof), (ip', s')) /\
    eof = bool_decide (i_Size ip <= offset) /\
    (let n := Z.max 0 (Z.min count (i_Size ip - offset)) in
     exists m, 0 <= m <= n /\ data = fbytes ip s offset (Z.to_nat m) /\
       (m < n -> alloc_free (a_balloc s') = ∅) /\
       (m = n -> synced ip s -> synced ip' s')) /\
    same_file ip s ip' s'.
Proof.
  intros Hok Hsz Ho Hc Hov. rewrite MaxFileSize_eq in Hsz.
  destruct (wp_Read_any ip s offset count (fun r t => read_any ip s offset count r.1 r.2 t.1 t.2))
    as ([data eof] & [ip' s'] & Hr & [He Hs Hd]); [done|unfold MaxBlks; lia|done..|].
  by exists data, eof, ip', s'.
Qed.

(** C24: [Write] within the maximum file size stores a prefix of the data at the
    offset and nothing else: every other byte of the file is unchanged, the
    size becomes the larger of the old size and the end of what was written,
    the inode on disk is the one in memory. The prefix is the whole of the data
    unless the free blocks ran out, and the write fails only if nothing could
    be written. *)
Theorem Write_spec ip s offset count buf : file_ok ip s ->
  0 <= offset -> 0 <= count <= len buf -> offset + count <= MaxFileSize ->
  exists cnt ok ip' s', Write offset count buf (ip, s) = Ok ((cnt, ok), (ip', s')) /\
    write_post ip s offset count buf cnt ok ip' s'.
Proof.
  intros Hok Ho Hc Hmax.
  destruct (wp_Write ip s offset count buf (fun r t => write_post ip s offset count buf r.1 r.2 t.1 t.2))
    as ([cnt ok] & [ip' s'] & Hr & Hp); [done..|]. by exists cnt, ok, ip', s'.
Qed.

(** Reading back what a complete write stored returns it (as long as the
    read itself does not run out of blocks), and the read ends at the file's
    size. *)
Theorem Write_Read ip s offset buf ip1 s1 : file_ok ip s -> i_Size ip <= MaxFileSize ->
  0 <= offset -> offset + len buf <= MaxFileSize -> 0 < len buf ->
  Write offset (len buf) buf (ip, s) = Ok ((len buf, true), (ip1, s1)) ->
  exists data ip2 s2, Read offset (len buf) (ip1, s1) = Ok ((data, false), (ip2, s2)) /\
    (alloc_free (a_balloc s2) <> ∅ -> data = buf).
Proof.
  intros Hok Hsz Ho Hmax Hpos Hw.
  eapply (wp_run _ _ _ _ (fun r t => write_post ip s offset (len buf) buf r.1 r.2 t.1 t.2)) in Hw;
    [|apply wp_Write; [done|done|lia|done|done]]. simpl in Hw.
  pose proof (wp_fields _ _ _ _ _ _ _ _ _ Hw) as Hf. rewrite (proj2 (Z.ltb_lt 0 (len buf))) in Hf by done.
  assert (i_Size ip1 = Z.max (i_Size ip) (offset + len buf)) as Hs1 by (by rewrite Hf).
  rewrite MaxFileSize_eq in *.
  destruct (wp_Read ip1 s1 offset (len buf) (fun r t => r.2 = false /\
      read_post ip1 s1 offset (Z.min (len buf) (i_Size ip1 - offset)) r.1 t.1 t.2))
      as ([data eof] & [ip2 s2] & Hr & He & Hp);
      [apply Hw|unfold MaxBlks; lia|lia|lia|lia|done|]. simpl in *. subst eof.
  exists data, ip2, s2. split; [done|]. intros Hfree.
  destruct (rp_data _ _ _ _ _ _ _ Hp) as (m & Hm & -> & Hshort & _).
  rewrite Z.min_l in * by lia. assert (m = len buf) as ->.
  { destruct (decide (m < len buf)); [|lia]. exfalso. auto. }
  unfold len. rewrite Nat2Z.id. apply (fbytes_data _ _ _ _ _ (wp_bytes _ _ _ _ _ _ _ _ _ Hw)); [done|].
  unfold MaxBlks. lia.
Qed.
End claims.

(** ** A concrete file *)

Definition empty_file : Inode :=
  mkInode 2 None 1 1 1 0 0 (mkNfstime3 0 0) (mkNfstime3 0 0) (zeros 10).

Lemma empty_root i : root_of empty_file i = 0.
Proof.
  unfold root_of. simpl. destruct (zeros 10 !! Z.to_nat i) as [z|] eqn:Hz; [|done].
  unfold zeros in Hz. by apply lookup_replicate in Hz as [-> _].
Qed.

Lemma empty_fptr s x : fptr empty_file s x = 0.
Proof. unfold fptr. rewrite empty_root. apply tptr_0. Qed.

(** A transaction on a fresh disk of [n] data blocks, and an empty file. *)
Lemma empty_file_ok n : file_ok empty_file (Begin (ref_ast n)).
Proof.
  destruct (ref_ast_ok n) as [Hq _]. pose proof (Begin_from _ Hq) as Hf.
  split; [apply Hf| | | |].
  - split; [|intros b Hb; by apply not_elem_of_nil in Hb].
    intros b _. unfold blk, obj.
    change (op_bufs (a_op (Begin (ref_ast n)))) with (∅ : gmap addr bufv).
    rewrite lookup_empty.
    exact (zero_log_obj (1539 + n) (Block2addr (a_super (ref_ast n)) b) 4096 ltac:(lia)).
  - split; [done| |].
    + intros x _. by rewrite empty_fptr.
    + intros x y _ _ _. by rewrite empty_fptr.
  - split; simpl; unfold time_wf, is_u32, is_u64; simpl; try lia; [done|].
    by repeat (apply Forall_cons_2; [lia|]).
  - split; [simpl; lia|]. simpl. unfold ref_ast. pose proof (ref_super_layout (1539 + n)) as Hl.
    simpl. rewrite (NInode_eq _ Hl). simpl. lia.
Qed.

Definition hello : list Z := str "hello".

(** "hello" written over the boundary of the first indirect block. *)
Definition written : Inode * ASt :=
  run_st (Write 32766 5 hello) (empty_file, Begin (ref_ast 8)).

Lemma hello_written : Write 32766 5 hello (empty_file, Begin (ref_ast 8)) = Ok ((5, true), written).
Proof.
  unfold written. apply (run_is_Ok (Write 32766 5 hello) (empty_file, Begin (ref_ast 8)) (5, true)).
  by vm_compute.
Qed.

Lemma bmap_spec_witness : exists b alloc ip' s',
  bmap 600 (empty_file, Begin (ref_ast 8)) = Ok ((b, alloc), (ip', s')) /\ file_ok ip' s'.
Proof.
  destruct (bmap_spec empty_file (Begin (ref_ast 8)) 600 (empty_file_ok 8)) as (b & alloc & ip' & s' & Hr & _ & _ & Hok & _).
  - unfold MaxBlks. lia.
  - exists b, alloc, ip', s'. exact (conj Hr Hok).
Defined.

Lemma bmap_out_of_range_witness : bmap 300000 (empty_file, Begin (ref_ast 8)) = Panic.
Proof.
  apply (bmap_out_of_range empty_file (Begin (ref_ast 8)) 300000 (empty_file_ok 8)).
  - unfold MaxBlks. lia.
  - intros He. assert (1539 ∈ alloc_free (a_balloc (ref_ast 8))) as Hin; [|set_solver].
    by apply ref_range_free.
Defined.

Lemma Read_spec_witness : exists data eof ip' s',
  Read 0 100 (empty_file, Begin (ref_ast 8)) = Ok ((data, eof), (ip', s')) /\
  same_file empty_file (Begin (ref_ast 8)) ip' s'.
Proof.
  destruct (Read_spec empty_file (Begin (ref_ast 8)) 0 100 (empty_file_ok 8))
    as (data & eof & ip' & s' & Hr & _ & _ & Hs); [vm_compute; done|lia|lia|lia|].
  exists data, eof, ip', s'. exact (conj Hr Hs).
Defined.

Lemma Write_spec_witness : exists cnt ok ip' s',
  Write 32766 5 hello (empty_file, Begin (ref_ast 8)) = Ok ((cnt, ok), (ip', s')) /\
  write_post empty_file (Begin (ref_ast 8)) 32766 5 hello cnt ok ip' s'.
Proof.
  apply (Write_spec empty_file (Begin (ref_ast 8)) 32766 5 hello (empty_file_ok 8));
    [lia|by vm_compute|vm_compute; done].
Defined.

Lemma Write_Read_witness : exists data ip2 s2,
  Read 32766 5 written = Ok ((data, false), (ip2, s2)) /\
  (alloc_free (a_balloc s2) <> ∅ -> data = hello).
Proof.
  pose proof hello_written as Hw. rewrite (surjective_pairing written) in *.
  apply (Write_Read empty_file (Begin (ref_ast 8)) 32766 hello _ _ (empty_file_ok 8));
    [vm_compute; done|lia|vm_compute; done|vm_compute; done|exact Hw].
Defined.
