(* ===== verification/InodeShrink.v ===== *)
(** Freeing the end of a file ([inode/shrink.go]): [indshrink] on the trees of
    the block map, one iteration of [Shrink], and its loop.

    The code relies on the blocks past the end being gone already: the map is
    [trimmed] at the size from which it shrinks. *)
From S2P Require Import Prelude Nfstypes External Reference Super Dcache Alloctxn AtxnCommit Inode.
From S2P Require Import InodeCodec InodeMap InodeIO Volume InodeClaims.

Section tree.
Context `{!Common} `{!CommonSpec} `{!Buf} `{!BufSpec} `{!Journal} `{!JournalSpec} `{!AllocPkg} `{!AllocSpec}.
Implicit Types (s : ASt) (b root off : Z) (p q : list Z) (l : nat) (X : Z -> Prop).

(** The first file block below the node at path [p] of a tree of depth [l]. *)
Fixpoint tfirst (l : nat) p : Z :=
  match l, p with
  | S l, o :: p => o * pow (Z.of_nat l) + tfirst l p
  | _, _ => 0
  end.

(** Nothing is mapped from block [n] of the tree on. *)
Definition trimmed s l root n : Prop :=
  forall p, tpath_ok l p -> n <= tfirst l p -> tptr s root p = 0.

(** What a transaction that also frees blocks keeps. *)
Record keeps s s' : Prop := {
  kp_inv : txn_inv s';
  kp_zero : zero_inv s';
  kp_super : a_super s' = a_super s;
  kp_log : a_log s' = a_log s;
  kp_free : alloc_free (a_balloc s') ⊆ alloc_free (a_balloc s);
  kp_ialloc : a_ialloc s' = a_ialloc s;
  kp_allocInums : a_allocInums s' = a_allocInums s;
  kp_freeInums : a_freeInums s' = a_freeInums s;
  kp_loaded : forall a, is_Some (op_bufs (a_op s) !! a) -> is_Some (op_bufs (a_op s') !! a);
  kp_from : forall s0, atxn_from s0 s -> atxn_from s0 s';
}.

Lemma keeps_trans s1 s2 s3 : keeps s1 s2 -> keeps s2 s3 -> keeps s1 s3.
Proof. intros [] []. split; try done; try congruence; [set_solver|eauto..]. Qed.

Lemma keeps_grow s s' : grow s s' -> keeps s s'.
Proof. intros []. by split. Qed.

Lemma used_keeps s s' b : keeps s s' -> used s b -> b ∉ a_freeBnums s' -> used s' b.
Proof.
  intros Hk (Hv & Hf & _) Hd. unfold used. rewrite (kp_super _ _ Hk).
  pose proof (kp_free _ _ Hk). set_solver.
Qed.

(** Freeing a block in use. *)
Record freed1 s b s' : Prop := {
  f1_keeps : keeps s s';
  f1_blk : forall b', b' <> b -> blk s' b' = blk s b';
  f1_freed : a_freeBnums s' = a_freeBnums s ++ [b];
  f1_inodes : same_inodes s s';
}.

Lemma wp_FreeBlock_used s b (Q : unit -> ASt -> Prop) : txn_inv s -> zero_inv s -> used s b ->
  (forall s', freed1 s b s' -> Q tt s') -> wp (FreeBlock b) s Q.
Proof.
  intros Hinv Hz (Hv & Hf & Hd) HQ. apply wp_FreeBlock; [done..|]. intros o' Ho' s' Hinv'.
  apply HQ. destruct (blk_write s o' b _ Ho') as [Heq Hne].
  assert (forall c, blk s' c = blk (set_op o' s) c) as Hs' by done. split; [split|..]; try done.
  - split; simpl.
    + intros c Hc. rewrite elem_of_app, list_elem_of_singleton in Hc. rewrite Hs'.
      destruct (decide (c = b)) as [->|Hcb]; [done|]. rewrite Hne by done. apply (zi_zero _ Hz). naive_solver.
    + intros c. rewrite elem_of_app, list_elem_of_singleton.
      intros [Hc| ->]; [by apply (zi_freed _ Hz)|done].
  - intros a [bv Ha]. simpl. rewrite Ho'. destruct (decide (a = Block2addr (a_super s) b)) as [->|Hna].
    + by rewrite lookup_insert_eq.
    + rewrite lookup_insert_ne by done. eauto.
  - intros s0 [_ Hs Hl Hba Hia]. by split.
  - intros i Hi. exact (iobj_write_blk s o' b _ Hinv Hv Ho' i Hi).
Qed.

(** *** Paths and the blocks below them *)

Lemma tfirst_nil l : tfirst l [] = 0.
Proof. by destruct l. Qed.

Lemma pow_pos l : (l <= 2)%nat -> 0 < pow (Z.of_nat l).
Proof. intros Hl. destruct l as [|[|[|l]]]; [by rewrite pow_0|by rewrite pow_1|by rewrite pow_2|lia]. Qed.

Lemma pow_S l : (S l <= 2)%nat -> pow (Z.of_nat (S l)) = 512 * pow (Z.of_nat l).
Proof.
  intros Hl. destruct l as [|[|l]]; [by rewrite pow_0, pow_1|by rewrite pow_1, pow_2|lia].
Qed.

Lemma tfirst_bound l p : (l <= 2)%nat -> tpath_ok l p -> 0 <= tfirst l p < pow (Z.of_nat l).
Proof.
  revert p. induction l as [|l IH]; intros p Hl Hp.
  { rewrite pow_0. simpl. lia. }
  pose proof (pow_pos l ltac:(lia)). destruct p as [|o p].
  { rewrite pow_S by done. cbn [tfirst]. lia. }
  apply tpath_ok_cons_inv in Hp as (l' & [= <-] & Ho & Hp). specialize (IH p ltac:(lia) Hp).
  rewrite pow_S by done. cbn [tfirst]. unfold slot_ok in Ho. nia.
Qed.

Lemma tfirst_prefix l p q : (l <= 2)%nat -> p `prefix_of` q -> tpath_ok l q -> tfirst l p <= tfirst l q.
Proof.
  revert p q. induction l as [|l IH]; intros p q Hl Hpq Hq; [done|].
  destruct p as [|o p]; [rewrite tfirst_nil; by apply tfirst_bound|]. destruct Hpq as [r ->].
  change ((o :: p) ++ r) with (o :: (p ++ r)) in *. apply tpath_ok_cons_inv in Hq as (l' & [= <-] & _ & Hq).
  cbn [tfirst]. apply Zplus_le_compat_l, IH; [lia|by exists r|done].
Qed.

Lemma tfirst_tpath l off : (l <= 2)%nat -> 0 <= off < pow (Z.of_nat l) -> tfirst l (tpath l off) = off.
Proof.
  revert off. induction l as [|l IH]; intros off Hl Ho.
  { rewrite pow_0 in Ho. simpl. lia. }
  cbn [tpath tfirst]. destruct (pow_split l off Hl Ho) as [_ Hi].
  rewrite IH by (done || lia). pose proof (pow_pos l ltac:(lia)).
  pose proof (Z.div_mod off (pow (Z.of_nat l))). lia.
Qed.

(** Comparing a block with the first one below a child. *)
Lemma child_le l off o q : (S l <= 2)%nat -> tpath_ok l q ->
  off <= tfirst (S l) (o :: q) <->
  off / pow (Z.of_nat l) < o \/ (off / pow (Z.of_nat l) = o /\ off mod pow (Z.of_nat l) <= tfirst l q).
Proof.
  intros Hl Hq. pose proof (tfirst_bound l q ltac:(lia) Hq) as Hb. change (tfirst (S l) (o :: q)) with (o * pow (Z.of_nat l) + tfirst l q).
  pose proof (pow_pos l ltac:(lia)) as HD. set (D := pow (Z.of_nat l)) in *.
  pose proof (Z.div_mod off D ltac:(lia)) as Hdm. pose proof (Z.mod_pos_bound off D HD) as Hm.
  set (d := off / D) in *. set (m := off mod D) in *.
  destruct (Z.lt_trichotomy d o) as [|[<-|]]; [| |]; split; intros; try nia.
Qed.

Lemma tpath_S_cases l p : tpath_ok (S l) p ->
  p = [] \/ exists o q, p = o :: q /\ slot_ok o /\ tpath_ok l q.
Proof.
  destruct p as [|o q]; [by left|]. intros (l' & [= <-] & Ho & Hq)%tpath_ok_cons_inv. right. by exists o, q.
Qed.

(** *** Cutting the end of a tree *)

Definition outside s l root b : Prop := forall p, tpath_ok l p -> tptr s root p <> b.

(** The positions that an operation at block [off] empties: those from [off]
    on, the root only when [top]. *)
Definition cut_at (top : bool) l off p : Prop := off <= tfirst l p /\ (p <> [] \/ top = true).

#[global] Instance cut_at_dec top l off p : Decision (cut_at top l off p).
Proof. unfold cut_at. apply _. Qed.

(** Between [s] and [s'], those positions were emptied and their blocks freed;
    the other positions, the leaves before [off] and every block outside the
    tree, except the caller's [X], are as they were. *)
Record cut (top : bool) X s l root off s' root' : Prop := {
  ct_keeps : keeps s s';
  ct_tree : forall p, tpath_ok l p ->
    tptr s' root' p = if decide (cut_at top l off p) then 0 else tptr s root p;
  ct_blk : forall b, ~ X b -> outside s l root b -> blk s' b = blk s b;
  ct_leaf : forall p, tpath_ok l p -> length p = l -> tfirst l p < off -> tptr s root p <> 0 ->
    blk s' (tptr s root p) = blk s (tptr s root p);
  ct_freed : forall b, b ∈ a_freeBnums s' <-> b ∈ a_freeBnums s \/
    exists p, tpath_ok l p /\ cut_at top l off p /\ tptr s root p = b /\ b <> 0;
  ct_inodes : same_inodes s s';
}.

Lemma cut_nothing top X s l root off : txn_inv s -> zero_inv s ->
  (forall p, tpath_ok l p -> cut_at top l off p -> tptr s root p = 0) ->
  cut top X s l root off s root.
Proof.
  intros Hinv Hz Hp. split; try done.
  - intros p Hok. case_decide; [by apply Hp|done].
  - intros b. split; [by left|]. intros [?|(p & Hok & Hc & <- & Hne)]; [done|]. by rewrite Hp in Hne.
Qed.

(** A step before the operation that changes no block. *)
Lemma cut_pre top X s s1 l root off s' root' : keeps s s1 -> (forall b, blk s1 b = blk s b) ->
  same_inodes s s1 -> a_freeBnums s1 = a_freeBnums s ->
  cut top X s1 l root off s' root' -> cut top X s l root off s' root'.
Proof.
  intros Hk Hb Hi Hf [Hk' Ht Hbl Hl Hfr Hin].
  assert (forall r p, tptr s1 r p = tptr s r p) as Hp by (intros; by apply tptr_blk). split.
  - by eapply keeps_trans.
  - intros p Hok. by rewrite Ht, Hp.
  - intros b HX Ho. rewrite Hbl, Hb; [done|done|]. intros p Hok. rewrite Hp. by apply Ho.
  - intros p Hok Hlen Hfi Hne. rewrite <-Hp in *. by rewrite Hl, Hb.
  - intros b. rewrite Hfr, Hf. setoid_rewrite Hp. done.
  - by eapply same_inodes_trans; [apply Hk| |].
Qed.

(** The root stays unless the operation was at its first block. *)
Lemma cut_keep_root X s l root off s' : root = 0 \/ 0 < off ->
  cut false X s l root off s' root -> cut true X s l root off s' root.
Proof.
  intros Hr Hc. assert (forall p, cut_at false l off p -> cut_at true l off p) as Hmono.
  { intros p [? [?|?]]; (split; [done|]); [by left|done]. }
  assert (forall p, cut_at true l off p -> cut_at false l off p \/ (p = [] /\ root = 0)) as Hinv.
  { intros p [Hp _]. destruct p as [|o p]; [|left; split; [done|by left]].
    rewrite tfirst_nil in Hp. right. destruct Hr; [done|lia]. }
  destruct Hc as [Hk Ht Hb Hl Hf Hin]. split; try done.
  - intros p Hok. rewrite Ht by done. destruct (decide (cut_at true l off p)) as [Hd|Hd].
    + destruct (Hinv p Hd) as [?|[-> ->]]; [by rewrite decide_True|by case_decide].
    + rewrite decide_False; auto.
  - intros b. rewrite Hf. split; intros [?|(p & Hok & Hc & Hp & Hne)]; [by left|right|by left|right].
    + exists p. auto.
    + destruct (Hinv p Hc) as [?|[-> ->]]; [by exists p|done].
Qed.

(** Freeing the root, after the caller has removed the pointer to it by writing
    a block of [X]. *)
Lemma cut_free_root X s l root s1 s2 s3 : (l <= 2)%nat -> tree_wf s l root -> root <> 0 ->
  cut false X s l root 0 s1 root -> grow s1 s2 -> same_inodes s1 s2 ->
  (forall b, ~ X b -> blk s2 b = blk s1 b) -> freed1 s2 root s3 -> cut true X s l root 0 s3 0.
Proof.
  intros Hl2 Hw Hr [Hk Ht Hb Hl Hf Hin] Hg Hi2 Hb2 [Hk3 Hb3 Hf3 Hi3].
  assert (keeps s s2) as Hk2 by (eapply keeps_trans; [exact Hk|by apply keeps_grow]).
  assert (forall p, tpath_ok l p -> 0 <= tfirst l p) as Hpos by (intros; by apply tfirst_bound). split.
  - by eapply keeps_trans.
  - intros p Hok. rewrite tptr_0. case_decide as Hc; [done|]. exfalso. apply Hc. split; [auto|by right].
  - intros b HX Ho. rewrite Hb3, Hb2, Hb; [done..|]. apply not_eq_sym. exact (Ho [] (tpath_ok_nil _)).
  - intros p Hok _ Hlt. specialize (Hpos p Hok). lia.
  - intros b. rewrite Hf3, (gr_freed _ _ Hg), elem_of_app, list_elem_of_singleton, Hf. split.
    + intros [[?|(p & Hok & [Hp _] & ? & ?)]| ->]; [by left|right..].
      * exists p. split_and!; [done|split; [done|by right]|done|done].
      * exists []. split_and!; [apply tpath_ok_nil|split; [rewrite tfirst_nil; lia|by right]|done|done].
    + intros [?|(p & Hok & [Hp _] & <- & ?)]; [by left; left|]. destruct p as [|o p]; [by right|].
      left; right. exists (o :: p). split_and!; [done|split; [done|by left]|done|done].
  - eapply same_inodes_trans; [apply Hk|exact Hin|].
    eapply same_inodes_trans; [apply Hg|exact Hi2|exact Hi3].
Qed.

(** *** Cutting below a node *)

Section node.
Context (X : Z -> Prop) (s s' : ASt) (l : nat) (root off : Z).
Let o := off / pow (Z.of_nat l).
Let ind := off mod pow (Z.of_nat l).
Hypothesis Hl : (S l <= 2)%nat.
Hypothesis Hroot : root <> 0.
Hypothesis Ho : slot_ok o.
Hypothesis Hwf : tree_wf s (S l) root.
Hypothesis Htrim : trimmed s (S l) root (off + 1).
Hypothesis Hcut : cut true (eq root) s l (num s root o) ind s' (num s' root o).
Hypothesis Hnum : forall o', slot_ok o' -> o' <> o -> num s' root o' = num s root o'.

Lemma node_out b : (b = root \/ exists o' q, slot_ok o' /\ o' <> o /\ tpath_ok l q /\
    b = tptr s root (o' :: q) /\ b <> 0) -> outside s l (num s root o) b.
Proof.
  intros Hb p Hp Heq. rewrite <-(tptr_cons s root o p Hroot) in Heq.
  assert (b <> 0) as Hne by (destruct Hb as [->|(? & ? & ? & ? & ? & ? & ?)]; done).
  assert (exists q, tpath_ok (S l) q /\ tptr s root q = b /\ q <> o :: p) as (q & Hq & Hqb & Hne').
  { destruct Hb as [->|(o' & q & Ho' & Hn & Hq & -> & _)].
    - exists []. split_and!; [apply tpath_ok_nil|done|done].
    - exists (o' :: q). split_and!; [by apply tpath_ok_cons|done|congruence]. }
  apply Hne'. symmetry. apply (tw_inj _ _ _ Hwf); [by apply tpath_ok_cons|done|congruence|congruence].
Qed.

Lemma node_sibling_blk o' q : slot_ok o' -> o' <> o -> tpath_ok l q -> tptr s root (o' :: q) <> 0 ->
  blk s' (tptr s root (o' :: q)) = blk s (tptr s root (o' :: q)).
Proof.
  intros Ho' Hne Hq Hn. apply (ct_blk _ _ _ _ _ _ _ _ Hcut).
  - intros Heq. assert (o' :: q = []) as [=].
    apply (tw_inj _ _ _ Hwf); [by apply tpath_ok_cons|apply tpath_ok_nil|done|done].
  - apply node_out. right. by exists o', q.
Qed.

Lemma node_sibling_ptr o' p : slot_ok o' -> o' <> o -> tpath_ok l p ->
  tptr s' root (o' :: p) = tptr s root (o' :: p).
Proof.
  intros Ho' Hne [Hpl Hps]. rewrite !tptr_cons, Hnum by done.
  apply (tptr_ext _ _ l); [done..|]. intros b Hb (q & Hq & Heq)%interior_path.
  rewrite <-(tptr_cons s root o' q Hroot) in Heq. subst b. by apply node_sibling_blk.
Qed.

Lemma node_sibling_cut o' q : slot_ok o' -> o' <> o -> tpath_ok l q ->
  off <= tfirst (S l) (o' :: q) -> tptr s root (o' :: q) = 0.
Proof.
  intros Ho' Hne Hq Hc. apply Htrim; [by apply tpath_ok_cons|].
  pose proof Hc as [Hlt|[He _]]%child_le; [|by destruct Hne|done..].
  enough (off <> tfirst (S l) (o' :: q)) by lia. intros Heq.
  pose proof (tfirst_bound l q ltac:(lia) Hq) as Hb.
  change (off = o' * pow (Z.of_nat l) + tfirst l q) in Heq.
  apply Hne. unfold o. rewrite Heq. rewrite Z.add_comm, Z.div_add, Z.div_small by lia. lia.
Qed.

Lemma cut_at_child q : tpath_ok l q ->
  cut_at false (S l) off (o :: q) <-> cut_at true l ind q.
Proof.
  intros Hq. unfold cut_at. rewrite child_le by done. fold o ind. split.
  - intros [[?|[_ ?]] _]; [lia|]. split; [done|by right].
  - intros [? _]. split; [by right|by left].
Qed.

Lemma cut_node : cut false X s (S l) root off s' root.
Proof.
  split.
  - apply Hcut.
  - intros p Hp. destruct (tpath_S_cases l p Hp) as [->|(o' & q & -> & Ho' & Hq)].
    { rewrite decide_False; [done|]. by intros [_ [?|?]]. }
    destruct (decide (o' = o)) as [->|Hne].
    + rewrite !tptr_cons by done. rewrite (ct_tree _ _ _ _ _ _ _ _ Hcut) by done.
      by rewrite (decide_ext _ _ _ _ (cut_at_child q Hq)).
    + rewrite node_sibling_ptr by done. case_decide as Hc; [|done].
      apply node_sibling_cut; [done..|apply Hc].
  - intros b _ Hb. apply (ct_blk _ _ _ _ _ _ _ _ Hcut).
    + intros <-. exact (Hb [] (tpath_ok_nil _) eq_refl).
    + intros p Hp. rewrite <-(tptr_cons s root o p Hroot). by apply Hb, tpath_ok_cons.
  - intros p Hp Hlen Hlt Hn. destruct (tpath_S_cases l p Hp) as [->|(o' & q & -> & Ho' & Hq)]; [done|].
    destruct (decide (o' = o)) as [->|Hne]; [|by apply node_sibling_blk].
    rewrite tptr_cons in * by done. apply (ct_leaf _ _ _ _ _ _ _ _ Hcut); [done|by injection Hlen| |done].
    apply Z.nle_gt. intros Hle. apply (Z.lt_irrefl off). eapply Z.le_lt_trans; [|exact Hlt].
    apply child_le; [done|done|]. by right.
  - intros b. rewrite (ct_freed _ _ _ _ _ _ _ _ Hcut). split; intros [?|(p & Hp & Hc & Heq & Hn)];
      [by left|right|by left|right].
    + exists (o :: p). rewrite tptr_cons by done. split_and!; [by apply tpath_ok_cons| |done|done].
      by apply cut_at_child.
    + destruct (tpath_S_cases l p Hp) as [->|(o' & q & -> & Ho' & Hq)].
      { by destruct Hc as [_ [?|?]]. }
      destruct (decide (o' = o)) as [->|Hne].
      * exists q. rewrite tptr_cons in Heq by done. split_and!; [done| |done|done]. by apply cut_at_child.
      * rewrite node_sibling_cut in Heq; [congruence|done..|apply Hc].
  - apply Hcut.
Qed.
End node.

Lemma cut_mono top (X X' : Z -> Prop) s l root off s' root' : (forall b, X b -> X' b) ->
  cut top X s l root off s' root' -> cut top X' s l root off s' root'.
Proof. intros HX [Hk Ht Hb Hl Hf Hi]. split; try done. intros b Hn. apply Hb. auto. Qed.

Lemma trimmed_child s l root off : root <> 0 -> (S l <= 2)%nat ->
  slot_ok (off / pow (Z.of_nat l)) -> trimmed s (S l) root (off + 1) ->
  trimmed s l (num s root (off / pow (Z.of_nat l))) (off mod pow (Z.of_nat l) + 1).
Proof.
  intros Hr Hl Ho Ht q Hq Hle. rewrite <-(tptr_cons s root _ q Hr). apply Ht; [by apply tpath_ok_cons|].
  cbn [tfirst]. pose proof (pow_pos l ltac:(lia)). pose proof (Z.div_mod off (pow (Z.of_nat l))). lia.
Qed.

Lemma trimmed_blk s s' l root n : (forall b, blk s' b = blk s b) -> trimmed s l root n ->
  trimmed s' l root n.
Proof. intros Hb Ht p Hp Hn. rewrite (tptr_blk s s') by done. by apply Ht. Qed.

(** A node of the tree that is not emptied stays in use. *)
Lemma cut_used top X s l root off s' root' b : tree_wf s l root -> used s b ->
  cut top X s l root off s' root' ->
  (forall p, tpath_ok l p -> cut_at top l off p -> tptr s root p <> b) -> used s' b.
Proof.
  intros Hw Hu Hc Hb. apply (used_keeps s); [apply Hc|done|]. rewrite (ct_freed _ _ _ _ _ _ _ _ Hc).
  intros [Hin|(p & Hp & Hcp & Heq & _)]; [by apply Hu|by apply (Hb p)].
Qed.

(** After the recursive call on the child of slot [o], the code clears the slot
    and frees the child if the call was at its first block. *)
Lemma wp_indshrink_slot s l root nxt o ind (Q : unit -> ASt -> Prop) : (l <= 2)%nat -> root <> 0 ->
  used s root -> tree_wf s l nxt -> outside s l nxt root -> slot_ok o -> num s root o = nxt -> 0 <= ind ->
  is_Some (op_bufs (a_op s) !! Block2addr (a_super s) root) -> forall s3,
  cut false (fun _ => False) s l nxt ind s3 nxt ->
  (forall s', cut true (eq root) s l nxt ind s' (num s' root o) ->
     (forall o', slot_ok o' -> o' <> o -> num s' root o' = num s root o') -> Q tt s') ->
  wp (if bool_decide ((if decide (nxt <> 0 /\ ind = 0) then nxt else 0) <> 0) then
        _ ← BnumPut (Block2addr (a_super s) root) (o *w 8) 0;
        FreeBlock (if decide (nxt <> 0 /\ ind = 0) then nxt else 0)
      else mret tt) s3 Q.
Proof.
  intros Hl Hr Hu Hw Hout Ho Hn Hi Hld s3 Hc HQ.
  assert (forall o', num s3 root o' = num s root o') as Hn3.
  { intros o'. unfold num. rewrite (ct_blk _ _ _ _ _ _ _ _ Hc); [done|tauto|done]. }
  destruct (decide (nxt <> 0 /\ ind = 0)) as [[Hnx ->]|Hno].
  2: { apply wp_ret, HQ; [|auto]. rewrite Hn3, Hn. apply cut_keep_root; [|by eapply cut_mono; [|exact Hc]].
       destruct (decide (nxt = 0)); [by left|right; lia]. }
  rewrite bool_decide_eq_true_2 by done. rewrite <-(kp_super _ _ (ct_keeps _ _ _ _ _ _ _ _ Hc)).
  apply wp_bind, wp_BnumPut; [apply Hc..| |done|unfold is_u64; lia| |].
  { eapply cut_used; [done..|]. intros p Hp _. by apply Hout. }
  { rewrite (kp_super _ _ (ct_keeps _ _ _ _ _ _ _ _ Hc)). by apply (kp_loaded _ _ (ct_keeps _ _ _ _ _ _ _ _ Hc)). }
  intros s4 Hg4 Hb4 Hn4 Hn4' Hi4. apply wp_FreeBlock_used; [apply Hg4..| |].
  { apply (used_grow s3); [done|]. eapply cut_used; [done| |done|].
    - apply (tw_used _ _ _ Hw []); [apply tpath_ok_nil|done].
    - intros p Hp [_ [Hpn|?]] Heq; [|done]. apply Hpn.
      by apply (tw_inj _ _ _ Hw); [|apply tpath_ok_nil|rewrite Heq|rewrite Heq]. }
  intros s5 Hf5. assert (forall o', num s5 root o' = num s4 root o') as Hn5.
  { intros o'. unfold num. rewrite (f1_blk _ _ _ Hf5); [done|]. intros Heq.
    by apply (Hout [] (tpath_ok_nil _)). }
  apply HQ.
  - rewrite Hn5, Hn4. apply (cut_free_root _ s l nxt s3 s4); try done.
    + by eapply cut_mono; [|exact Hc].
    + intros b Hb. apply Hb4. by intros ->.
  - intros o' Ho' Hne. by rewrite Hn5, Hn4', Hn3.
Qed.

Lemma wp_indshrink l X s root off (Q : Z -> ASt -> Prop) : (l <= 2)%nat -> txn_inv s -> zero_inv s ->
  tree_wf s l root -> 0 <= off < pow (Z.of_nat l) -> trimmed s l root (off + 1) ->
  (forall s', cut false X s l root off s' root ->
     Q (if decide (root <> 0 /\ off = 0) then root else 0) s') ->
  wp (indshrink root l off) s Q.
Proof.
  revert X s root off Q. induction l as [|l IH]; intros X s root off Q Hl Hinv Hz Hw Hoff Ht HQ;
    cbn [indshrink]; rewrite NULLBNUM_eq; (destruct (decide (root = 0)) as [->|Hr];
    [rewrite bool_decide_eq_true_2 by done; apply wp_ret;
     rewrite decide_False in HQ by tauto; apply HQ, cut_nothing; [done..|]; intros; by rewrite tptr_0|
     rewrite bool_decide_eq_false_2 by done]).
  { rewrite pow_0 in Hoff. rewrite decide_True in HQ by (split; [done|lia]). apply wp_ret, HQ, cut_nothing; [done..|].
    intros p [Hp _] [_ [?|?]]; [|done]. destruct p; [done|simpl in Hp; lia]. }
  destruct (pow_split l off Hl Hoff) as [Ho Hind].
  set (o := off / pow (Z.of_nat l)) in *. set (ind := off mod pow (Z.of_nat l)) in *.
  assert (used s root) as Hu by (apply (tw_used _ _ _ Hw []); [apply tpath_ok_nil|done]).
  apply wp_bind, wp_ReadBlock; [apply Hu|]. intros o2 Ho2 Hd2.
  pose proof (grow_load s o2 root Hinv Hz (proj1 Hu) Ho2) as Hg2.
  pose proof (fun b => blk_load s o2 root b Ho2) as Hb2.
  pose proof (iobj_load s o2 root Hinv (proj1 Hu) Ho2) as Hi2.
  assert (is_Some (op_bufs o2 !! Block2addr (a_super s) root)) as Hld
    by (rewrite Ho2, load_lookup; eauto).
  set (s2 := set_op o2 s) in *.
  apply wp_bind, (wp_BnumGet s2); [apply Hg2|apply Hu|done|by rewrite Hb2|].
  assert (forall o', num s2 root o' = num s root o') as Hn2 by (intros; unfold num; by rewrite Hb2).
  rewrite Hn2. set (nxt := num s root o) in *.
  assert (tree_wf s l nxt) as Hwn by (by apply tree_wf_child).
  assert (tree_wf s2 l nxt) as Hwn2 by (by apply (tree_wf_mono s)).
  apply wp_bind, wp_AssertValidBlock; [apply (valid_or_0 s2 l nxt []); [done|apply tpath_ok_nil]|].
  assert (forall s', cut true (eq root) s2 l nxt ind s' (num s' root o) ->
    (forall o', slot_ok o' -> o' <> o -> num s' root o' = num s2 root o') ->
    wp (mret (if (o =? 0) && (ind =? 0) then root else 0)) s' Q) as Hend.
  { intros s' Hc Hn'. apply wp_ret.
    assert ((if (o =? 0) && (ind =? 0) then root else 0) =
      (if decide (root <> 0 /\ off = 0) then root else 0)) as ->.
    { pose proof (pow_pos l ltac:(lia)) as HD.
      assert (off = pow (Z.of_nat l) * o + ind) as Hdm by (apply Z.div_mod; lia).
      destruct (Z.eqb_spec o 0), (Z.eqb_spec ind 0), (decide (root <> 0 /\ off = 0));
        simpl; try done; exfalso; unfold slot_ok in Ho; nia. }
    apply HQ, (cut_node X s s' l root off); try done.
    - apply (cut_pre _ _ _ s2); [by apply keeps_grow|done..].
    - intros o' Ho' Hne. by rewrite Hn', Hn2. }
  apply wp_bind. case_bool_decide as Hnx.
  - apply wp_bind, (IH (fun _ => False)); [lia|apply Hg2|apply Hg2|done|done| |].
    { apply (trimmed_blk s); [done|]. by apply trimmed_child. }
    intros s3 Hc. apply (wp_indshrink_slot s2 l root nxt o ind); try done; [lia| |lia].
    intros p Hp. rewrite (tptr_blk s s2) by done.
    apply (node_out s l root off); try done. by left.
  - apply wp_ret, Hend; [|done]. rewrite Hn2. fold nxt. rewrite Hnx.
    apply cut_nothing; [apply Hg2..|]. intros. apply tptr_0.
Qed.
End tree.

(** ** Cutting the end of a file *)

Section file.
Context `{!Common} `{!CommonSpec} `{!Util} `{!UtilSpec} `{!Marshal} `{!MarshalSpec}
  `{!Buf} `{!BufSpec} `{!Journal} `{!JournalSpec} `{!AllocPkg} `{!AllocSpec} `{!Clock}.
Implicit Types (s : ASt) (ip : Inode) (b off n k i : Z) (x : Z * list Z).

(** The first file block below slot [i] of an inode, and below a position. *)
Definition base i : Z := if i <? 8 then i else if i =? 8 then 8 else 520.

Definition firstblk x : Z := base x.1 + tfirst (depth x.1) x.2.

(** Nothing is mapped from file block [n] on. *)
Definition trimmed_file ip s n : Prop :=
  forall x, pos_ok x -> n <= firstblk x -> fptr ip s x = 0.

(** Between [s] and [s'] the file lost its blocks from [n] on, and they were
    freed; the rest of the map, the data before [n] and the blocks outside the
    file are as they were. *)
Record shrunk ip s ip' s' n : Prop := {
  sh_keeps : keeps s s';
  sh_ip : ip' = with_ShrinkSize n (with_blks (i_blks ip') ip);
  sh_wf : file_wf ip' s';
  sh_node : forall x, pos_ok x ->
    fptr ip' s' x = if decide (n <= firstblk x) then 0 else fptr ip s x;
  sh_blk : forall b, b <> 0 -> (forall x, pos_ok x -> fptr ip s x <> b) -> blk s' b = blk s b;
  sh_leaf : forall k, 0 <= k < MaxBlks -> k < n -> fblk ip s k <> 0 ->
    blk s' (fblk ip s k) = blk s (fblk ip s k);
  sh_freed : forall b, b ∈ a_freeBnums s' <-> b ∈ a_freeBnums s \/
    exists x, pos_ok x /\ n <= firstblk x /\ fptr ip s x = b /\ b <> 0;
  sh_inodes : same_inodes s s';
}.

Lemma shrunk_refl ip s : file_ok ip s -> trimmed_file ip s (i_ShrinkSize ip) ->
  shrunk ip s ip s (i_ShrinkSize ip).
Proof.
  intros Hok Ht. split; try done.
  - apply keeps_grow, grow_refl; apply Hok.
  - by destruct ip.
  - apply Hok.
  - intros x Hx. case_decide; [by apply Ht|done].
  - intros b. split; [by left|]. intros [?|(x & Hx & Hn & <- & Hne)]; [done|]. by rewrite Ht in Hne.
Qed.

Lemma firstblk_fpath k : 0 <= k < MaxBlks -> firstblk (fpath k) = k.
Proof.
  unfold MaxBlks, firstblk, fpath, base. intros Hk. destruct (Z.ltb_spec k 8); cbn [fst snd].
  { rewrite tfirst_nil. destruct (Z.ltb_spec k 8); lia. }
  destruct (Z.ltb_spec (k - 8) 512); cbn [fst snd]; cbn [Z.ltb Z.eqb Z.compare].
  - change (depth 8) with 1%nat. rewrite tfirst_tpath by (rewrite ?pow_1; lia). simpl. lia.
  - change (depth 9) with 2%nat. rewrite tfirst_tpath by (rewrite ?pow_2; lia). simpl. lia.
Qed.

(** A write that ends before [hi] maps nothing after it. *)
Lemma below_firstblk hi x : below hi x -> firstblk x * 4096 < hi.
Proof.
  intros (bn & Hbn & Hhi & Hx & Hp). destruct (fpath_ok bn Hbn) as [[_ Hok] _].
  pose proof (firstblk_fpath bn Hbn) as Hf. pose proof (tfirst_prefix _ _ _ (depth_le _) Hp Hok) as Hle.
  unfold firstblk in *. rewrite Hx. lia.
Qed.

Lemma trimmed_mono ip s n m : n <= m -> trimmed_file ip s n -> trimmed_file ip s m.
Proof. intros Hnm Ht x Hx Hm. apply Ht; [done|lia]. Qed.

Lemma trimmed_below hi ip s ip' s' n : maps_below hi ip s ip' s' -> hi <= n * 4096 ->
  trimmed_file ip s n -> trimmed_file ip' s' n.
Proof.
  intros Hm Hhi Ht x Hx Hn. destruct (Hm x Hx) as [->|Hb]; [by apply Ht|].
  apply below_firstblk in Hb. lia.
Qed.

Lemma shrunk_trans ip1 s1 ip2 s2 ip3 s3 n m : m <= n ->
  shrunk ip1 s1 ip2 s2 n -> shrunk ip2 s2 ip3 s3 m -> shrunk ip1 s1 ip3 s3 m.
Proof.
  intros Hmn [Hk Hi Hw Hn Hb Hl Hf Hin] [Hk' Hi' Hw' Hn' Hb' Hl' Hf' Hin'].
  split.
  - by eapply keeps_trans.
  - rewrite Hi', Hi. simpl. done.
  - done.
  - intros x Hx. rewrite Hn', Hn by done. repeat case_decide; done || lia.
  - intros b Hb0 Ho. rewrite Hb', Hb; [done..|]. intros x Hx. rewrite Hn by done.
    case_decide; [done|by apply Ho].
  - intros k Hkr Hlt Hne. pose proof (firstblk_fpath k Hkr) as Hfb. destruct (fpath_ok k Hkr) as [Hok _].
    assert (fblk ip2 s2 k = fblk ip1 s1 k) as Heq
      by (unfold fblk; rewrite Hn by done; rewrite decide_False by lia; done).
    rewrite <-Heq in Hne |- *. rewrite Hl' by done. rewrite Heq in Hne |- *. apply Hl; [done|lia|done].
  - intros b. rewrite Hf', Hf. split.
    + intros [[?|(x & Hx & Hle & Heq & Hne)]|(x & Hx & Hle & Heq & Hne)]; [by left|right; exists x..].
      * split_and!; [done|lia|done|done].
      * rewrite Hn in Heq by done. case_decide; [congruence|done].
    + intros [?|(x & Hx & Hle & Heq & Hne)]; [by left; left|].
      destruct (decide (n <= firstblk x)); [left; right|right]; exists x; [done|].
      rewrite Hn by done. rewrite decide_False by done. done.
  - eapply same_inodes_trans; [apply Hk|done|done].
Qed.

(** The slot of file block [n] and the block's place in the slot's tree. *)
Lemma fpath_slot n : 0 <= n < MaxBlks -> exists i, 0 <= i < 10 /\
  fpath n = (i, tpath (depth i) (n - base i)) /\ 0 <= n - base i < pow (Z.of_nat (depth i)).
Proof.
  unfold MaxBlks, fpath. intros Hn. destruct (Z.ltb_spec n 8).
  { exists n. split; [lia|]. unfold base, depth. destruct (Z.ltb_spec n 8); [|lia].
    split; [done|]. rewrite pow_0. lia. }
  destruct (Z.ltb_spec (n - 8) 512).
  - exists 8. split; [lia|]. change (base 8) with 8. change (depth 8) with 1%nat.
    rewrite pow_1. split; [done|lia].
  - exists 9. split; [lia|]. change (base 9) with 520. change (depth 9) with 2%nat.
    rewrite pow_2. split; [done|lia].
Qed.

Lemma base_next i j : 0 <= i -> i < j < 10 -> base i + pow (Z.of_nat (depth i)) <= base j.
Proof.
  intros Hi Hj. unfold base, depth. destruct (Z.ltb_spec i 8).
  - rewrite pow_0. destruct (Z.ltb_spec j 8); [lia|]. destruct (Z.eqb_spec j 8); lia.
  - destruct (Z.eqb_spec i 8); [|lia]. rewrite pow_1.
    destruct (Z.ltb_spec j 8); [lia|]. destruct (Z.eqb_spec j 8); lia.
Qed.

Lemma firstblk_le i n x : 0 <= i < 10 -> 0 <= n - base i < pow (Z.of_nat (depth i)) -> pos_ok x ->
  n <= firstblk x <-> i < x.1 \/ (x.1 = i /\ n - base i <= tfirst (depth i) x.2).
Proof.
  intros Hi Hn [Hx Hp]. unfold firstblk.
  pose proof (tfirst_bound (depth x.1) x.2 (depth_le _) Hp) as Hb.
  destruct (Z.lt_trichotomy x.1 i) as [Hlt|[Heq|Hgt]].
  - pose proof (base_next x.1 i). lia.
  - rewrite Heq in *. lia.
  - pose proof (base_next i x.1). lia.
Qed.

Section cut_slot.
Context (ip ip' : Inode) (s s' : ASt) (i n r' : Z).
Let off := n - base i.
Hypothesis Hok : file_ok ip s.
Hypothesis Hi : 0 <= i < 10.
Hypothesis Hoff : 0 <= off < pow (Z.of_nat (depth i)).
Hypothesis Htrim : trimmed_file ip s (n + 1).
Hypothesis Hcut : cut true (fun _ => False) s (depth i) (root_of ip i) off s' r'.
Hypothesis Hip : ip' = with_ShrinkSize n (with_blks (<[Z.to_nat i := r']> (i_blks ip)) ip).

Lemma cs_out b : (exists x, pos_ok x /\ x.1 <> i /\ fptr ip s x = b) -> b <> 0 ->
  outside s (depth i) (root_of ip i) b.
Proof.
  intros (x & Hx & Hne & <-) Hb p Hp Heq.
  assert ((i, p) = x) as <-; [|done].
  apply (fw_inj _ _ (fo_file _ _ Hok)); [by split|done|done|]. by rewrite <-Heq in Hb.
Qed.

Lemma cs_same p : fptr ip' s' (i, p) = tptr s' r' p.
Proof.
  unfold fptr, root_of. rewrite Hip. simpl. pose proof (fw_len _ _ (fo_file _ _ Hok)) as Hl.
  unfold NBLKINO, len in Hl. rewrite list_lookup_insert_eq; [done|lia].
Qed.

Lemma cs_other x : pos_ok x -> x.1 <> i -> fptr ip' s' x = fptr ip s x.
Proof.
  intros [Hx [Hpl Hps]] Hne. unfold fptr.
  assert (root_of ip' x.1 = root_of ip x.1) as ->.
  { unfold root_of. rewrite Hip. simpl. rewrite list_lookup_insert_ne; [done|lia]. }
  apply (tptr_ext _ _ (depth x.1)); [done..|]. intros b Hb (q & Hq & Heq)%interior_path.
  apply (ct_blk _ _ _ _ _ _ _ _ Hcut); [tauto|]. apply cs_out; [|done].
  exists (x.1, q). split_and!; [by split|done|exact Heq].
Qed.

Lemma cs_after x : pos_ok x -> n + 1 <= firstblk x -> fptr ip s x = 0.
Proof. apply Htrim. Qed.

Lemma cs_node x : pos_ok x ->
  fptr ip' s' x = if decide (n <= firstblk x) then 0 else fptr ip s x.
Proof.
  intros Hx. pose proof (firstblk_le i n x Hi Hoff Hx) as Hle. destruct x as [j p].
  destruct (decide (j = i)) as [->|Hne].
  - rewrite cs_same, (ct_tree _ _ _ _ _ _ _ _ Hcut) by apply Hx.
    rewrite (decide_ext _ (n <= firstblk (i, p))); [done|]. rewrite Hle. unfold cut_at. simpl.
    fold off. split; [intros [? _]; by right|intros [?|[_ ?]]; [lia|split; [done|by right]]].
  - rewrite cs_other by done. case_decide as Hd; [|done]. apply cs_after; [done|].
    enough (n <> firstblk (j, p)) by lia. intros Heq.
    apply Hle in Hd as [Hlt|[? _]]; [|done]. simpl in Hlt. pose proof (base_next i j).
    destruct Hx as [Hj Hp]. simpl in Hj, Hp. pose proof (tfirst_bound (depth j) p (depth_le _) Hp).
    unfold firstblk in Heq. simpl in Heq. lia.
Qed.

Lemma cs_freed b : b ∈ a_freeBnums s' <-> b ∈ a_freeBnums s \/
  exists x, pos_ok x /\ n <= firstblk x /\ fptr ip s x = b /\ b <> 0.
Proof.
  rewrite (ct_freed _ _ _ _ _ _ _ _ Hcut). split; intros [?|Hx]; [by left|right|by left|right].
  - destruct Hx as (p & Hp & [Hle _] & Heq & Hne). exists (i, p). split_and!; [by split| |done|done].
    apply (firstblk_le i n (i, p) Hi Hoff); [by split|]. by right.
  - destruct Hx as ([j p] & Hx & Hle & Heq & Hne). destruct (decide (j = i)) as [->|Hji].
    + exists p. split_and!; [apply Hx| |done|done]. apply (firstblk_le i n) in Hle; [|done..].
      destruct Hle as [Hlt|[_ Hle]]; [simpl in Hlt; lia|]. split; [done|by right].
    + pose proof (cs_node (j, p) Hx) as Hn. rewrite cs_other, decide_True in Hn by done. congruence.
Qed.

Lemma cs_wf : file_wf ip' s'.
Proof.
  pose proof (fo_file _ _ Hok) as Hw.
  assert (forall x, pos_ok x -> fptr ip' s' x <> 0 ->
    fptr ip' s' x = fptr ip s x /\ ~ n <= firstblk x) as Hsub.
  { intros x Hx. rewrite cs_node by done. by case_decide. }
  split.
  - rewrite Hip. simpl. pose proof (fw_len _ _ Hw). len.
  - intros x Hx Hne. destruct (Hsub x Hx Hne) as [Heq Hnle]. rewrite Heq in *.
    apply (used_keeps s); [apply Hcut|by apply (fw_used _ _ Hw)|].
    rewrite cs_freed. intros [Hin|(y & Hy & Hle & Hye & _)].
    + by destruct (fw_used _ _ Hw x Hx Hne) as (_ & _ & ?).
    + by rewrite (fw_inj _ _ Hw y x) in Hle by (done || congruence).
  - intros x y Hx Hy Heq Hne. destruct (Hsub x Hx Hne) as [Hxe _].
    destruct (Hsub y Hy) as [Hye _]; [congruence|].
    apply (fw_inj _ _ Hw); [done|done|congruence|congruence].
Qed.

Lemma shrunk_slot : shrunk ip s ip' s' n.
Proof.
  split.
  - apply Hcut.
  - rewrite Hip. done.
  - apply cs_wf.
  - apply cs_node.
  - intros b Hb Ho. apply (ct_blk _ _ _ _ _ _ _ _ Hcut); [tauto|]. intros p Hp.
    exact (Ho (i, p) (conj Hi Hp)).
  - intros k Hk Hlt Hne. destruct (fpath_ok k Hk) as [Hx Hlen].
    destruct (decide ((fpath k).1 = i)) as [Heq|Hji].
    + unfold fblk, fptr in *. rewrite Heq in *. destruct Hx as [_ Hx]. rewrite Heq in Hx.
      apply (ct_leaf _ _ _ _ _ _ _ _ Hcut); [done|done| |done].
      pose proof (firstblk_fpath k Hk) as Hf. unfold firstblk in Hf. rewrite Heq in Hf. unfold off. lia.
    + apply (ct_blk _ _ _ _ _ _ _ _ Hcut); [tauto|]. apply cs_out; [|done]. by exists (fpath k).
  - apply cs_freed.
  - apply Hcut.
Qed.
End cut_slot.

(** [freeIndex] on slot [i] after the tree below it was cut at its first block,
    when the slot may be empty. *)
Lemma wp_freeIndex ip s i s1 n (Q : unit -> ISt -> Prop) : file_ok ip s -> 0 <= i < 10 ->
  cut false (fun _ => False) s (depth i) (root_of ip i) 0 s1 (root_of ip i) ->
  (forall s', cut true (fun _ => False) s (depth i) (root_of ip i) 0 s' 0 ->
     Q tt (with_ShrinkSize n (with_blks (<[Z.to_nat i := 0]> (i_blks ip)) ip), s')) ->
  wp (freeIndex i) (with_ShrinkSize n ip, s1) Q.
Proof.
  intros Hok Hi Hc HQ. pose proof (fo_file _ _ Hok) as Hw. pose proof (file_tree ip s i Hw Hi) as Ht.
  unfold freeIndex. apply wp_bind, wp_ip_get, wp_bind.
  eapply wp_lift; [by apply (root_idx ip s)|]. apply wp_bind, wp_on_atxn.
  assert (forall s', cut true (fun _ => False) s (depth i) (root_of ip i) 0 s' 0 ->
    wp (bs ← lift (setidx (i_blks ip) i 0); ip_set (with_blks bs)) (with_ShrinkSize n ip, s') Q) as Hend.
  { intros s' Hc'. apply wp_bind. eapply wp_lift; [by apply (root_setidx ip s)|].
    apply wp_ip_set. by apply HQ. }
  destruct (decide (root_of ip i = 0)) as [Hz|Hr].
  - rewrite Hz in *. apply wp_FreeBlock_0, Hend. apply cut_keep_root; [by left|done].
  - apply wp_FreeBlock_used; [apply Hc..| |].
    + eapply cut_used; [done| |done|].
      * apply (tw_used _ _ _ Ht []); [apply tpath_ok_nil|done].
      * intros p Hp [_ [Hpn|?]] Heq; [|done]. apply Hpn.
        by apply (tw_inj _ _ _ Ht); [|apply tpath_ok_nil|rewrite Heq|rewrite Heq].
    + intros s' Hf. apply Hend.
      apply (cut_free_root _ s (depth i) (root_of ip i) s1 s1 s'); try done; [apply depth_le|].
      apply grow_refl; apply Hc.
Qed.

(** The indirect slots: [indshrink], then [freeIndex] if the root is to go. *)
Lemma wp_shrink_slot ip s i n (Q : unit -> ISt -> Prop) : file_ok ip s -> 0 <= i < 10 ->
  0 <= n - base i < pow (Z.of_nat (depth i)) -> trimmed_file ip s (n + 1) ->
  (forall ip' s', shrunk ip s ip' s' n -> Q tt (ip', s')) ->
  wp (freeroot ← on_atxn (indshrink (root_of ip i) (depth i) (n - base i));
      if bool_decide (freeroot <> 0) then freeIndex i else mret tt) (with_ShrinkSize n ip, s) Q.
Proof.
  intros Hok Hi Hoff Ht HQ. pose proof (fo_file _ _ Hok) as Hw. apply wp_bind, wp_on_atxn.
  apply (wp_indshrink _ (fun _ => False)); [apply depth_le|apply Hok|apply Hok|by apply file_tree|done| |].
  { intros p Hp Hle. apply (Ht (i, p)); [by split|]. unfold firstblk. simpl. lia. }
  intros s1 Hc. case_decide as Hd.
  - rewrite bool_decide_eq_true_2 by apply Hd. destruct Hd as [Hr Hz]. rewrite Hz in Hc.
    apply (wp_freeIndex ip s); [done..|]. intros s' Hc'. apply HQ.
    apply (shrunk_slot ip _ s s' i n 0); [done..|by rewrite Hz|done].
  - rewrite bool_decide_eq_false_2 by tauto. apply wp_ret, HQ.
    apply (shrunk_slot ip _ s s1 i n (root_of ip i)); [done..| |].
    + apply cut_keep_root; [|done]. destruct (decide (root_of ip i = 0)); [by left|right; lia].
    + f_equal. rewrite list_insert_id; [by destruct ip|].
      pose proof (root_idx ip s i Hw Hi) as Hx. by apply idx_Ok in Hx as [_ Hx].
Qed.

(** One iteration of the loop gives up the last block. *)
Lemma wp_shrink_one ip s (Q : unit -> ISt -> Prop) : file_ok ip s ->
  0 < i_ShrinkSize ip <= MaxBlks -> trimmed_file ip s (i_ShrinkSize ip) ->
  (forall ip' s', shrunk ip s ip' s' (i_ShrinkSize ip - 1) -> Q tt (ip', s')) ->
  wp shrink_one (ip, s) Q.
Proof.
  unfold MaxBlks. intros Hok Hsz Ht HQ. set (n := i_ShrinkSize ip - 1) in *.
  assert (i_ShrinkSize ip -w 1 = n) as Hn by (unfold n; wsimp; done).
  assert (trimmed_file ip s (n + 1)) as Ht' by (unfold n; by replace (_ - 1 + 1) with (i_ShrinkSize ip) by lia).
  unfold shrink_one. apply wp_bind, wp_ip_set, wp_bind, wp_ip_get. rewrite Hn.
  change (i_ShrinkSize (with_ShrinkSize n ip)) with n.
  change (i_blks (id (with_ShrinkSize n ip))) with (i_blks ip).
  change NDIRECT with 8. change INDIRECT with 8. change DINDIRECT with 9. cbn [id].
  change (i_ShrinkSize (with_ShrinkSize n ip)) with n.
  destruct (Z.ltb_spec n 8).
  - assert (depth n = 0%nat /\ n - base n = 0) as [Hdep Hb].
    { unfold depth, base. destruct (Z.ltb_spec n 8); [split; [done|lia]|lia]. }
    apply (wp_freeIndex ip s); [done|lia| |].
    + apply cut_nothing; [apply Hok..|]. rewrite Hdep. intros p [Hp _] [_ [?|?]]; [|done].
      destruct p; [done|simpl in Hp; lia].
    + intros s' Hc. apply HQ.
      apply (shrunk_slot ip _ s s' n n 0); [done|lia| |done| |done]; rewrite Hb; [|done].
      rewrite Hdep, pow_0. lia.
  - wsimp. rewrite NBLKBLK_eq. destruct (Z.ltb_spec (n - 8) 512).
    + apply wp_bind. eapply wp_lift; [apply (root_idx ip s); [apply Hok|lia]|].
      apply (wp_shrink_slot ip s 8 n); [done|lia| |done|done].
      change (base 8) with 8. change (depth 8) with 1%nat. rewrite pow_1. lia.
    + wsimp. replace (n - 8 - 512) with (n - base 9) by (change (base 9) with 520; lia).
      apply wp_bind. eapply wp_lift; [apply (root_idx ip s); [apply Hok|lia]|].
      apply (wp_shrink_slot ip s 9 n); [done|lia| |done|done].
      change (base 9) with 520. change (depth 9) with 2%nat. rewrite pow_2. lia.
Qed.

Lemma shrunk_ok ip s ip' s' n : file_ok ip s -> is_u64 n -> shrunk ip s ip' s' n -> file_ok ip' s'.
Proof.
  intros Hok Hn Hs. pose proof (sh_keeps _ _ _ _ _ Hs) as Hk. pose proof (sh_wf _ _ _ _ _ Hs) as Hw.
  split; [apply Hk|apply Hk|done| |].
  - pose proof (inode_wf_blks ip (i_blks ip') (fo_inode _ _ Hok) (fw_len _ _ Hw)
      (file_blks_u64 ip' s' (kp_inv _ _ Hk) Hw)) as Hwf.
    rewrite (sh_ip _ _ _ _ _ Hs). by destruct Hwf.
  - rewrite (sh_ip _ _ _ _ _ Hs), (kp_super _ _ Hk). apply Hok.
Qed.

Lemma shrunk_trimmed ip s ip' s' n : shrunk ip s ip' s' n -> trimmed_file ip' s' n.
Proof. intros Hs x Hx Hle. rewrite (sh_node _ _ _ _ _ Hs) by done. by rewrite decide_True. Qed.

Lemma shrunk_size ip s ip' s' n : shrunk ip s ip' s' n -> i_ShrinkSize ip' = n.
Proof. intros Hs. by rewrite (sh_ip _ _ _ _ _ Hs). Qed.

Definition fits s : bool := NDirty (a_op s) +w 5 <? LogBlocks.

(** What the loop leaves: the file cut at [n], which is the first size at which
    there is nothing left to free, or the transaction is full. *)
Lemma wp_shrink_loop fuel ip s (Q : unit -> ISt -> Prop) : file_ok ip s ->
  0 <= i_ShrinkSize ip <= MaxBlks -> i_ShrinkSize ip <= Z.of_nat fuel ->
  trimmed_file ip s (i_ShrinkSize ip) ->
  (forall ip' s' n, shrunk ip s ip' s' n -> 0 <= n <= i_ShrinkSize ip ->
     Z.min (i_ShrinkSize ip) (util_RoundUp (i_Size ip) BlockSize) <= n ->
     is_shrinking ip' && fits s' = false ->
     (is_shrinking ip = true -> fits s = true -> n < i_ShrinkSize ip) -> Q tt (ip', s')) ->
  wp (shrink_loop fuel) (ip, s) Q.
Proof.
  revert ip s. induction fuel as [|fuel IH]; intros ip s Hok Hsz Hf Ht HQ;
    pose proof (RoundUp_u64 (i_Size ip) BlockSize) as Hru; unfold is_u64 in Hru; cbn [shrink_loop];
    apply wp_bind, wp_ip_get; apply wp_bind, wp_gets; cbn [snd]; fold (fits s);
    destruct (is_shrinking ip && fits s) eqn:Hgo.
  - apply andb_true_iff in Hgo as [Hgo _]. unfold is_shrinking in Hgo. apply Z.ltb_lt in Hgo. lia.
  - apply wp_ret, (HQ ip s (i_ShrinkSize ip)); [by apply shrunk_refl|lia|lia|done|].
    intros H1' H2'. by rewrite H1', H2' in Hgo.
  - pose proof Hgo as [Hsh _]%andb_true_iff. unfold is_shrinking in Hsh. apply Z.ltb_lt in Hsh.
    apply wp_bind, wp_shrink_one; [done|lia|done|]. intros ip1 s1 Hs1.
    pose proof (shrunk_size _ _ _ _ _ Hs1) as Hn1.
    assert (i_Size ip1 = i_Size ip) as Hsize by (by rewrite (sh_ip _ _ _ _ _ Hs1)).
    apply IH; [|lia|lia|rewrite Hn1; by eapply shrunk_trimmed|].
    { eapply shrunk_ok; [done| |exact Hs1]. unfold is_u64. unfold MaxBlks in Hsz. lia. }
    rewrite Hn1, Hsize. intros ip' s' n Hs' Hn Hmin Hstop Hprog.
    apply (HQ ip' s' n); [|lia|lia|done|lia].
    by apply (shrunk_trans ip s ip1 s1 _ _ (i_ShrinkSize ip - 1)); [lia|..].
  - apply wp_ret, (HQ ip s (i_ShrinkSize ip)); [by apply shrunk_refl|lia|lia|done|].
    intros H1' H2'. by rewrite H1', H2' in Hgo.
Qed.

(** The bytes of a file that was cut at block [n]. *)
Lemma shrunk_byte ip s ip' s' n k : shrunk ip s ip' s' n -> in_file k ->
  fbyte ip' s' k = if k <? n * 4096 then fbyte ip s k else 0.
Proof.
  intros Hs Hk. pose proof (in_file_blk k Hk) as Hb. destruct (fpath_ok _ Hb) as [Hx _].
  pose proof (sh_node _ _ _ _ _ Hs (fpath (k / 4096)) Hx) as Hn. rewrite firstblk_fpath in Hn by done.
  pose proof (Z.div_mod k 4096). pose proof (Z.mod_pos_bound k 4096).
  change (fptr ip' s' (fpath (k / 4096))) with (fblk ip' s' (k / 4096)) in Hn.
  change (fptr ip s (fpath (k / 4096))) with (fblk ip s (k / 4096)) in Hn.
  unfold fbyte. rewrite Hn. destruct (Z.ltb_spec k (n * 4096)).
  - rewrite decide_False by lia. case_bool_decide as Hz; [done|].
    rewrite (sh_leaf _ _ _ _ _ Hs); [done|done|lia|done].
  - rewrite decide_True by lia. done.
Qed.

(** Cutting a file leaves the other files of the volume alone. *)
Lemma shrunk_vol F ip s ip' s' n : vol_ok F s -> ino_ok s (i_Inum ip) -> F (i_Inum ip) = ip ->
  shrunk ip s ip' s' n -> is_u64 n ->
  forall s2, wi_post ip' s' s2 -> vol_ok (<[i_Inum ip := ip']> F) s2.
Proof.
  intros Hv Hi HF Hs Hn s2 [Hg Hsy Hb Hio _]. set (i := i_Inum ip) in *.
  pose proof (vol_file_ok F s i Hv Hi) as Hok. rewrite HF in Hok.
  pose proof (shrunk_ok _ _ _ _ _ Hok Hn Hs) as Hok'. pose proof (sh_keeps _ _ _ _ _ Hs) as Hk.
  assert (i_Inum ip' = i) as Hin by (by rewrite (sh_ip _ _ _ _ _ Hs)).
  assert (a_super s2 = a_super s) as Hsp by (by rewrite (gr_super _ _ Hg), (kp_super _ _ Hk)).
  assert (forall x, pos_ok x -> fptr ip' s2 x = fptr ip' s' x) as Hx2.
  { intros x Hx. apply fptr_valid; [apply Hok'|done|done]. }
  apply (vol_replace F s s2 i ip'); [done|done|done|apply Hg|apply Hg|..].
  - intros j x Hj Hne Hx Hnz. pose proof (vo_file _ _ Hv j Hj) as Hwj.
    pose proof (fw_used _ _ Hwj x Hx Hnz) as Hu.
    assert (forall y, pos_ok y -> fptr ip s y <> fptr (F j) s x) as Hout.
    { intros y Hy Heq. apply Hnz. apply (vo_sep _ _ Hv j i x y); [done..|]. by rewrite HF. }
    split.
    + rewrite Hb by (rewrite (kp_super _ _ Hk); apply Hu). by apply (sh_blk _ _ _ _ _ Hs).
    + eapply used_grow; [done|]. apply (used_keeps s); [done|done|]. rewrite (sh_freed _ _ _ _ _ Hs).
      intros [?|(y & Hy & _ & Heq & _)]; [by apply Hu|by apply (Hout y)].
  - intros x Hx. rewrite Hx2, (sh_node _ _ _ _ _ Hs), HF by done. case_decide; [done|by left].
  - intros j Hj Hne. rewrite Hio; [by apply (sh_inodes _ _ _ _ _ Hs)|by rewrite (kp_super _ _ Hk)|].
    by rewrite Hin.
  - apply synced_disk_inode; [apply Hok'|done|done].
  - apply (file_wf_ext ip' s' s2); [apply Hok'|done|done].
Qed.

Lemma wi_shrunk ip s ip' s' n s2 : file_ok ip s -> is_u64 n -> shrunk ip s ip' s' n ->
  wi_post ip' s' s2 -> file_ok ip' s2 /\
  (forall k, in_file k -> fbyte ip' s2 k = if k <? n * 4096 then fbyte ip s k else 0).
Proof.
  intros Hok Hn Hs Hwi. pose proof (shrunk_ok _ _ _ _ _ Hok Hn Hs) as Hok'.
  pose proof (wi_same_file _ _ _ Hok' Hwi) as Hsf. split; [apply Hsf|].
  intros k Hk. rewrite (sf_byte _ _ _ _ Hsf) by done. by eapply shrunk_byte.
Qed.

Lemma file_ok_ShrinkSize ip s v : file_ok ip s -> is_u64 v -> file_ok (with_ShrinkSize v ip) s.
Proof. intros [Hi Hz [Hl Hu Hj] [] Hn] Hv. by split; [..|split|split|]. Qed.

Lemma w64_le z : 0 <= z -> w64 z <= z.
Proof. intros Hz. unfold w64. by apply Z.mod_le. Qed.

Lemma NDirty_nonneg o : 0 <= NDirty o.
Proof. rewrite NDirty_eq. lia. Qed.

(** What [Shrink] leaves: the file cut at its new [ShrinkSize], and the inode on
    disk. *)
Record shrink_post ip s (more : bool) ip' s' : Prop := {
  sk_shrunk : exists s1, shrunk ip s ip' s1 (i_ShrinkSize ip') /\ wi_post ip' s1 s' /\
    (more = true -> fits s1 = false) /\
    shrink_loop (Z.to_nat (i_ShrinkSize ip)) (ip, s) = Ok (tt, (ip', s1));
  sk_more : more = is_shrinking ip';
  sk_size : Z.min (i_ShrinkSize ip) (util_RoundUp (i_Size ip) BlockSize) <= i_ShrinkSize ip' <=
    i_ShrinkSize ip;
  sk_progress : is_shrinking ip = true -> fits s = true -> i_ShrinkSize ip' < i_ShrinkSize ip;
}.

Lemma wp_Shrink ip s (Q : bool -> ISt -> Prop) : file_ok ip s -> i_ShrinkSize ip <= MaxBlks ->
  trimmed_file ip s (i_ShrinkSize ip) ->
  (forall more ip' s', shrink_post ip s more ip' s' -> Q more (ip', s')) -> wp Shrink (ip, s) Q.
Proof.
  intros Hok Hmax Ht HQ. pose proof (iw_ShrinkSize _ (fo_inode _ _ Hok)) as Hsz.
  pose proof (RoundUp_u64 (i_Size ip) BlockSize) as Hend. unfold is_u64 in Hsz, Hend.
  unfold Shrink. apply wp_bind, wp_ip_get, wp_bind.
  eapply wp_mono; [apply wp_with_run, (wp_shrink_loop _ ip s (fun _ t => exists n, shrunk ip s t.1 t.2 n /\
    0 <= n <= i_ShrinkSize ip /\ Z.min (i_ShrinkSize ip) (util_RoundUp (i_Size ip) BlockSize) <= n /\
    is_shrinking t.1 && fits t.2 = false /\ (is_shrinking ip = true -> fits s = true -> n < i_ShrinkSize ip)));
    [done|lia|lia|done|by intros ip' s' n ?????; exists n]|].
  intros [] [ip' s1] [(n & Hs & Hn & Hmin & Hstop & Hprog) Hrun]. cbn [fst snd] in *. pose proof (shrunk_size _ _ _ _ _ Hs) as Hnn.
  assert (file_ok ip' s1) as Hok' by (eapply shrunk_ok; [done| |exact Hs]; unfold is_u64; lia).
  apply wp_bind, wp_WriteInode; [apply Hok'..|]. intros s' Hwi. apply wp_ip_get, HQ.
  split; rewrite ?Hnn; [|done|lia|done]. exists s1. split_and!; [done|done| |done].
  intros Hm. by rewrite Hm in Hstop.
Qed.

Lemma is_shrinking_cut ip ip' s s' n : shrunk ip s ip' s' n ->
  is_shrinking ip' = bool_decide (util_RoundUp (i_Size ip) BlockSize < n).
Proof.
  intros Hs. unfold is_shrinking. rewrite (sh_ip _ _ _ _ _ Hs). simpl.
  destruct (Z.ltb_spec (util_RoundUp (i_Size ip) BlockSize) n); case_bool_decide; done || lia.
Qed.

Lemma sk_u64 ip s more ip' s' : file_ok ip s -> shrink_post ip s more ip' s' -> is_u64 (i_ShrinkSize ip').
Proof.
  intros Hok Hp. pose proof (iw_ShrinkSize _ (fo_inode _ _ Hok)) as Hsz.
  pose proof (RoundUp_u64 (i_Size ip) BlockSize) as Hend. pose proof (sk_size _ _ _ _ _ Hp).
  unfold is_u64 in *. lia.
Qed.

(** After the inode was written the map and the data are those of the cut file. *)
Lemma shrink_contents ip s more ip' s' : file_ok ip s -> shrink_post ip s more ip' s' ->
  file_ok ip' s' /\ synced ip' s' /\ trimmed_file ip' s' (i_ShrinkSize ip') /\
  ip' = with_ShrinkSize (i_ShrinkSize ip') (with_blks (i_blks ip') ip) /\
  (forall k, in_file k -> fbyte ip' s' k = if k <? i_ShrinkSize ip' * 4096 then fbyte ip s k else 0).
Proof.
  intros Hok Hp. pose proof (sk_u64 _ _ _ _ _ Hok Hp) as Hn.
  destruct (sk_shrunk _ _ _ _ _ Hp) as (s1 & Hs & Hwi & _).
  destruct (wi_shrunk ip s ip' s1 _ s' Hok Hn Hs Hwi) as [Hok' Hbyte].
  split_and!; [done|apply Hwi| |apply Hs|done].
  intros x Hx Hle. rewrite (fptr_valid ip' s1 s'); [|eapply shrunk_ok; [exact Hok|done|exact Hs]|apply Hwi|done].
  by apply (shrunk_trimmed _ _ _ _ _ Hs).
Qed.

Lemma trimmed_byte ip s n k : trimmed_file ip s n -> in_file k -> n * 4096 <= k -> fbyte ip s k = 0.
Proof.
  intros Ht Hk Hle. pose proof (in_file_blk k Hk) as Hb. destruct (fpath_ok _ Hb) as [Hx _].
  assert (fblk ip s (k / 4096) = 0) as Hz.
  { apply Ht; [done|]. rewrite firstblk_fpath by done. apply Z.div_le_lower_bound; lia. }
  unfold fbyte. by rewrite Hz.
Qed.

(** C26: [Shrink] always returns, and frees the end of a file as far as the
    transaction has room: the file keeps its size, its data before the new
    [ShrinkSize] and nothing after it, and stays well formed and equal to its
    inode on disk; exactly the blocks that its map lost are freed, so none leaks
    and no block of another file is touched.  It does not cut below the end of
    the file.  It reports that there is more to free when there is, and only
    because the transaction is nearly full; a transaction with room that has
    something to free makes progress. *)
Theorem Shrink_spec ip s : file_ok ip s -> i_ShrinkSize ip <= MaxBlks ->
  trimmed_file ip s (i_ShrinkSize ip) ->
  exists more ip' s', Shrink (ip, s) = Ok (more, (ip', s')) /\
    let n := i_ShrinkSize ip' in let end_ := util_RoundUp (i_Size ip) BlockSize in
    file_ok ip' s' /\ synced ip' s' /\
    ip' = with_ShrinkSize n (with_blks (i_blks ip') ip) /\
    (forall k, in_file k -> fbyte ip' s' k = if k <? n * 4096 then fbyte ip s k else 0) /\
    (forall b, b ∈ a_freeBnums s' <-> b ∈ a_freeBnums s \/
       exists x, pos_ok x /\ n <= firstblk x /\ fptr ip s x = b /\ b <> 0) /\
    (forall F, vol_ok F s -> F (i_Inum ip) = ip -> vol_ok (<[i_Inum ip := ip']> F) s') /\
    Z.min (i_ShrinkSize ip) end_ <= n <= i_ShrinkSize ip /\
    more = bool_decide (end_ < n) /\
    (more = true -> LogBlocks <= NDirty (a_op s') + 5) /\
    (end_ < i_ShrinkSize ip -> NDirty (a_op s) + 5 < LogBlocks -> n < i_ShrinkSize ip).
Proof.
  intros Hok Hmax Ht.
  destruct (wp_Shrink ip s (fun more t => shrink_post ip s more t.1 t.2) Hok Hmax Ht)
    as (more & [ip' s'] & Hr & Hp); [done|]. cbn [fst snd] in Hp. exists more, ip', s'. split; [done|].
  destruct (shrink_contents _ _ _ _ _ Hok Hp) as (Hok' & Hsy & _ & Hip & Hbyte).
  pose proof (sk_u64 _ _ _ _ _ Hok Hp) as Hn. destruct Hp as [(s1 & Hs & Hwi & Hfull & _) Hm Hsz Hprog].
  cbn zeta. split_and!; try done || lia.
  - intros b. rewrite (gr_freed _ _ (wi_grow _ _ _ Hwi)). apply Hs.
  - intros F Hv HF. eapply shrunk_vol; try done. apply Hok.
  - by rewrite Hm, (is_shrinking_cut _ _ _ _ _ Hs).
  - intros Hmt. specialize (Hfull Hmt). unfold fits in Hfull. apply Z.ltb_ge in Hfull.
    pose proof (wi_NDirty _ _ _ Hwi). pose proof (NDirty_nonneg (a_op s1)).
    pose proof (w64_le (NDirty (a_op s1) + 5)). lia.
  - intros Hlt Hfit. apply Hprog; [by apply Z.ltb_lt|]. unfold fits. apply Z.ltb_lt.
    pose proof (w64_le (NDirty (a_op s) + 5)). pose proof (NDirty_nonneg (a_op s)). lia.
Qed.

(** The map and the data of a file do not depend on its sizes. *)
Lemma fptr_sizes ip s v w x : fptr (with_ShrinkSize w (with_Size v ip)) s x = fptr ip s x.
Proof. done. Qed.
End file.

(** ** The file "hello", truncated *)

(** The file of [written], whose blocks 7 and 8 are mapped, after its size was
    set to 0. *)
Definition truncated : Inode := with_ShrinkSize 9 (with_Size 0 written.1).

Lemma written_ok : file_ok written.1 written.2.
Proof.
  destruct (Write_spec empty_file (Begin (ref_ast 8)) 32766 5 hello (empty_file_ok 8))
    as (cnt & ok & ip' & s' & Hr & Hp); [lia|by vm_compute|vm_compute; done|].
  rewrite hello_written in Hr.
  assert (written = (ip', s')) as -> by exact (f_equal (fun r => match r with
    | Ok (_, t) => t | _ => written end) Hr).
  exact (wp_file _ _ _ _ _ _ _ _ _ Hp).
Qed.

Lemma truncated_ok : file_ok truncated written.2.
Proof.
  apply file_ok_ShrinkSize; [|unfold is_u64; lia].
  apply file_ok_size; [exact written_ok|unfold is_u64; lia].
Qed.

Lemma truncated_ind : forallb (fun o => num written.2 (root_of written.1 8) (Z.of_nat o) =? 0)
  (seq 1 511) = true.
Proof. vm_compute. reflexivity. Qed.

Lemma truncated_dind : root_of written.1 9 = 0.
Proof. vm_compute. reflexivity. Qed.

Lemma written_trimmed : trimmed_file written.1 written.2 9.
Proof.
  intros [i p] [Hi Hp] Hle. cbn [fst snd] in Hi, Hp. unfold firstblk, base in Hle.
  cbn [fst snd] in Hle. unfold fptr. cbn [fst snd].
  destruct (Z.ltb_spec i 8).
  { assert (depth i = 0%nat) as Hd by (unfold depth; destruct (Z.ltb_spec i 8); [done|lia]).
    rewrite Hd in Hle. simpl in Hle. lia. }
  destruct (Z.eqb_spec i 8) as [->|].
  - change (depth 8) with 1%nat in *. destruct (tpath_S_cases 0 p Hp) as [->|(o & q & -> & Ho & Hq)].
    { simpl in Hle. lia. }
    destruct q as [|]; [|destruct Hq as [Hq _]; simpl in Hq; lia].
    unfold slot_ok in Ho. cbn [tfirst] in Hle. change (pow (Z.of_nat 0)) with 1 in Hle.
    cbn [tptr]. case_bool_decide; [done|]. pose proof truncated_ind as Hall.
    rewrite forallb_forall in Hall. specialize (Hall (Z.to_nat o)).
    rewrite Z2Nat.id in Hall by lia. apply Z.eqb_eq, Hall, in_seq. lia.
  - assert (i = 9) as -> by lia. rewrite truncated_dind. apply tptr_0.
Qed.

Lemma truncated_trimmed : trimmed_file truncated written.2 9.
Proof. intros x Hx Hle. unfold truncated. rewrite fptr_sizes. by apply written_trimmed. Qed.

Lemma Shrink_spec_witness : exists more ip' s', Shrink (truncated, written.2) = Ok (more, (ip', s')) /\
  file_ok ip' s' /\ i_ShrinkSize ip' < 9.
Proof.
  destruct (Shrink_spec truncated written.2 truncated_ok) as
    (more & ip' & s' & Hr & Hok & _ & _ & _ & _ & _ & _ & _ & _ & Hprog).
  - change (i_ShrinkSize truncated) with 9. unfold MaxBlks. lia.
  - exact truncated_trimmed.
  - exists more, ip', s'. refine (conj Hr (conj Hok (Hprog _ _))); vm_compute; reflexivity.
Defined.
