(* ===== verification/InodeResize.v ===== *)
(** Changing the size of a file ([Resize] of [inode/inode.go]): how many objects
    a transaction that frees blocks writes, when the blocks fit it, and what
    [Resize] leaves. *)
From S2P Require Import Prelude Nfstypes External Reference Super Dcache Alloctxn AtxnCommit Inode.
From S2P Require Import InodeCodec InodeMap InodeIO Volume InodeClaims InodeShrink.

(** [run_inv H] takes the runs of a sequence of commands apart. *)
Ltac run_inv H :=
  repeat match type of H with
  | (mbind _ _) _ = Ok _ =>
      let r := fresh "r" in let t := fresh "t" in let Hr := fresh "Hrun" in
      apply M_bind_Ok in H as (r & t & Hr & H)
  end.

Section dirtied.
Context `{!Common} `{!CommonSpec} `{!Buf} `{!BufSpec} `{!Journal} `{!JournalSpec} `{!AllocPkg} `{!AllocSpec}.
Implicit Types (s : ASt) (b root off : Z) (p q : list Z) (l : nat) (A : addr -> Prop).

(** ** The objects that a transaction writes *)

Definition written_obj s (a : addr) : Prop := exists bv, op_bufs (a_op s) !! a = Some bv /\ bv_dirty bv = true.

(** From [s] to [s'] the transaction wrote no object but those of [A]. *)
Record dirtied s s' A : Prop := {
  tc_super : a_super s' = a_super s;
  tc_written : forall a, written_obj s' a -> written_obj s a \/ A a;
}.

Lemma dirtied_refl s A : dirtied s s A.
Proof. split; [done|]. by left. Qed.

Lemma dirtied_trans s1 s2 s3 A : dirtied s1 s2 A -> dirtied s2 s3 A -> dirtied s1 s3 A.
Proof. intros [Hs1 H1'] [Hs2 H2']. split; [congruence|]. intros a [Ha|Ha]%H2'; [by apply H1'|by right]. Qed.

Lemma dirtied_mono s s' A A' : (forall a, A a -> A' a) -> dirtied s s' A -> dirtied s s' A'.
Proof. intros Hm [Hs Ht]. split; [done|]. intros a [Ha|Ha]%Ht; [by left|right; by apply Hm]. Qed.

Lemma dirtied_load s o' b A : op_bufs o' = load (a_log s) (op_bufs (a_op s)) (Block2addr (a_super s) b) NBITBLOCK ->
  dirtied s (set_op o' s) A.
Proof.
  intros Ho. split; [done|]. intros a (bv & Hbv & Hd). left. simpl in Hbv. rewrite Ho in Hbv. unfold load in Hbv.
  destruct (op_bufs (a_op s) !! _) eqn:He; [by exists bv|].
  apply lookup_insert_Some in Hbv as [[<- <-]|[_ Hbv]]; [done|by exists bv].
Qed.

Lemma written_NDirty s a : written_obj s a <-> a ∈ dom (filter (fun x => bv_dirty x.2 = true) (op_bufs (a_op s))).
Proof.
  rewrite elem_of_dom. split.
  - intros (b & Hb & Hd). exists b. by apply map_lookup_filter_Some.
  - intros [b [Hb Hd]%map_lookup_filter_Some]. by exists b.
Qed.

Lemma size_list_to_set_le (l : list addr) : (size (list_to_set l : gset addr) <= length l)%nat.
Proof.
  induction l as [|a l IH]; [done|]. rewrite list_to_set_cons, size_union_alt, size_singleton. cbn [length].
  pose proof (subseteq_size (list_to_set l ∖ {[a]}) (list_to_set l : gset addr) ltac:(set_solver)). lia.
Qed.

Lemma NDirty_dirtied s s' A (l : list addr) : dirtied s s' A -> (forall a, A a -> a ∈ l) ->
  NDirty (a_op s') <= NDirty (a_op s) + len l.
Proof.
  intros [_ Ht] Hl. rewrite !NDirty_eq, <-!(size_dom (D := gset addr)). unfold len.
  assert (forall X Y : gset addr, X ⊆ Y ∪ list_to_set l -> (size X <= size Y + length l)%nat) as Hsz.
  { intros X Y Hsub. pose proof (subseteq_size _ _ Hsub). rewrite size_union_alt in *.
    pose proof (size_list_to_set_le l). pose proof (subseteq_size (list_to_set l ∖ Y) (list_to_set l) ltac:(set_solver)). lia. }
  rewrite <-Nat2Z.inj_add. apply Nat2Z.inj_le, Hsz. intros a [Ha|Ha]%written_NDirty%Ht; apply elem_of_union.
  - left. by apply written_NDirty.
  - right. by apply elem_of_list_to_set, Hl.
Qed.

(** ** Blocks *)

Lemma AssertValidBlock_run b s r s' : AssertValidBlock b s = Ok (r, s') -> s' = s.
Proof. unfold AssertValidBlock. intros Hm. run_inv Hm. injection Hrun as <- <-. by destruct (_ && _); [|injection Hm as _ ->]. Qed.

Lemma ReadBlock_run b s a s' : ReadBlock b s = Ok (a, s') -> a = Block2addr (a_super s) b /\
  exists o', s' = set_op o' s /\ op_bufs o' = load (a_log s) (op_bufs (a_op s)) (Block2addr (a_super s) b) NBITBLOCK /\
    buf_Data o' a = blk s b.
Proof.
  unfold ReadBlock. intros Hm. run_inv Hm. apply AssertValidBlock_run in Hrun as ->. injection Hrun0 as <- <-.
  injection Hrun1 as _ <-. injection Hm as <- <-. split; [done|]. eexists. split; [done|].
  assert (op_bufs (ReadBuf (a_log s) (a_op s) (Block2addr (a_super s) b) NBITBLOCK) =
    load (a_log s) (op_bufs (a_op s)) (Block2addr (a_super s) b) NBITBLOCK) as Ho by (unfold load; by rewrite ReadBuf_bufs).
  split; [exact Ho|]. rewrite buf_Data_eq, Ho, load_lookup. simpl. unfold blk, obj. by destruct (op_bufs (a_op s) !! _).
Qed.

(** Assigning to a buffer and marking it. *)
Lemma dirtied_write s a d : dirtied s (set_op (buf_SetDirty (buf_Assign (a_op s) a d) a) s) (eq a).
Proof.
  split; [done|]. intros a' (b & Hb & Hd). simpl in Hb. rewrite buf_SetDirty_bufs, buf_Assign_bufs in Hb.
  destruct (decide (a = a')) as [->|Hne]; [by right|]. left. exists b. by rewrite !lookup_alter_ne in Hb.
Qed.

Lemma FreeBlock_run b s r s' : FreeBlock b s = Ok (r, s') ->
  dirtied s s' (fun a => b <> 0 /\ a = Block2addr (a_super s) b).
Proof.
  unfold FreeBlock. intros Hm. run_inv Hm. apply AssertValidBlock_run in Hrun as ->.
  case_bool_decide as Hb; [injection Hm as _ <-; apply dirtied_refl|]. run_inv Hm. injection Hm as _ <-.
  match type of Hrun with _ = Ok (_, ?t) => set (s1 := t) in * end.
  assert (dirtied s s1 (fun a => b <> 0 /\ a = Block2addr (a_super s) b)) as [Hs Hw]; [|by split].
  clearbody s1. unfold ZeroBlock in Hrun. run_inv Hrun. apply ReadBlock_run in Hrun0 as (-> & o' & -> & Ho & _).
  injection Hrun1 as _ <-. injection Hrun2 as _ <-. injection Hrun as _ <-.
  apply (dirtied_trans _ (set_op o' s)); [by eapply dirtied_load|].
  eapply dirtied_mono; [|exact (dirtied_write (set_op o' s) _ _)]. by intros a <-.
Qed.

(** ** The tree *)

(** The nodes of a tree down to block [off] of it. *)
Definition on_path s l root off (a : addr) : Prop := exists p, p `prefix_of` tpath l off /\
  tptr s root p <> 0 /\ a = Block2addr (a_super s) (tptr s root p).

Lemma indshrink_run l s root off r s' : (l <= 2)%nat -> 0 <= off < pow (Z.of_nat l) ->
  indshrink root l off s = Ok (r, s') -> dirtied s s' (on_path s l root off) /\ (r = 0 \/ r = root).
Proof.
  revert s root off r s'. induction l as [|l IH]; intros s root off r s' Hl Hoff; cbn [indshrink]; rewrite NULLBNUM_eq;
    (case_bool_decide as Hr; [intros [= <- <-]; split; [apply dirtied_refl|by left]|]).
  { intros [= <- <-]. split; [apply dirtied_refl|by right]. }
  intros Hm. run_inv Hm. destruct (pow_split l off Hl Hoff) as [Ho Hind].
  set (o := off / pow (Z.of_nat l)) in *. set (ind := off mod pow (Z.of_nat l)) in *.
  apply ReadBlock_run in Hrun as (-> & o2 & -> & Ho2 & Hd). set (s2 := set_op o2 s) in *.
  unfold BnumGet, data_of in Hrun0. run_inv Hrun0. injection Hrun as <- <-. change (a_op s2) with o2 in Hrun0. rewrite Hd in Hrun0.
  replace (o *w 8) with (o * 8) in * by (unfold slot_ok in Ho; wsimp; done).
  unfold lift in Hrun0. destruct (bnum_get (blk s root) (o * 8)) as [v| | |] eqn:Hv; try done. injection Hrun0 as <- <-.
  assert (num s root o = v) as Hnum by (unfold num; by rewrite Hv).
  apply AssertValidBlock_run in Hrun1 as ->.
  assert (dirtied s s2 (on_path s (S l) root off)) as Ht2 by (by eapply dirtied_load).
  assert (forall q, q `prefix_of` tpath l ind -> tptr s v q <> 0 ->
    on_path s (S l) root off (Block2addr (a_super s) (tptr s v q))) as Hchild.
  { intros q Hq Hnz. exists (o :: q). simpl. rewrite bool_decide_eq_false_2, Hnum by done. split_and!; [|done|done].
    by apply prefix_cons. }
  assert (on_path s (S l) root off (Block2addr (a_super s) root)) as Hroot.
  { exists []. split_and!; [apply prefix_nil|done|done]. }
  assert (dirtied s s' (on_path s (S l) root off)) as Ht.
  2: { split; [exact Ht|]. destruct (_ && _); injection Hm as <- _; [by right|by left]. }
  assert (t2 = s') as <- by (by destruct (_ && _); injection Hm as _ <-). clear Hm.
  eapply dirtied_trans; [exact Ht2|]. case_bool_decide as Hnx; [|injection Hrun2 as _ <-; apply dirtied_refl].
  run_inv Hrun2. apply IH in Hrun as [Ht3 Hr3]; [|lia|done].
  eapply dirtied_trans.
  { eapply dirtied_mono; [|exact Ht3]. intros a (q & Hq & Hnz & ->).
    rewrite (tptr_blk s s2) in * by (intros b; by apply (blk_load s o2 root)). by apply Hchild. }
  case_bool_decide as Hnr; [|injection Hrun2 as _ <-; apply dirtied_refl]. destruct Hr3 as [->| ->]; [done|].
  run_inv Hrun2. unfold BnumPut, data_of, assign_data, set_dirty in Hrun. run_inv Hrun. injection Hrun0 as <- <-.
  unfold lift in Hrun1. destruct (bnum_put _ _ _) as [d| | |]; try done. injection Hrun1 as <- <-.
  injection Hrun3 as _ <-. injection Hrun as _ <-.
  eapply dirtied_trans; [eapply dirtied_mono; [|apply dirtied_write]; by intros a <-|].
  apply FreeBlock_run in Hrun2. eapply dirtied_mono; [|exact Hrun2]. intros a [_ ->].
  apply (Hchild []); [apply prefix_nil|done].
Qed.
End dirtied.

Section file.
Context `{!Common} `{!CommonSpec} `{!Util} `{!UtilSpec} `{!Marshal} `{!MarshalSpec}
  `{!Buf} `{!BufSpec} `{!Journal} `{!JournalSpec} `{!AllocPkg} `{!AllocSpec} `{!Clock}.
Implicit Types (s : ASt) (ip : Inode) (b off n k i : Z) (x : Z * list Z).

(** ** The blocks of a file *)

(** The addresses of the mapped nodes down to file block [k]. *)
Definition at_path ip s k (a : addr) : Prop := exists p, p `prefix_of` (fpath k).2 /\
  fptr ip s ((fpath k).1, p) <> 0 /\ a = Block2addr (a_super s) (fptr ip s ((fpath k).1, p)).

Lemma on_atxn_run {A} (m : M ASt A) ip s r (t : ISt) : on_atxn m (ip, s) = Ok (r, t) -> t.1 = ip /\ m s = Ok (r, t.2).
Proof. unfold on_atxn, zoom. simpl. destruct (m s) as [[a s']| | |]; [|done..]. by intros [= <- <-]. Qed.

Lemma freeIndex_run i ip s r t : freeIndex i (ip, s) = Ok (r, t) ->
  dirtied s t.2 (fun a => root_of ip i <> 0 /\ a = Block2addr (a_super s) (root_of ip i)).
Proof.
  unfold freeIndex. intros Hm. run_inv Hm. injection Hrun as <- <-. simpl in *.
  unfold lift in Hrun0. destruct (idx (i_blks ip) i) as [b| | |] eqn:Hb; try done. injection Hrun0 as <- <-.
  apply idx_Ok in Hb as [_ Hb]. assert (root_of ip i = b) as -> by (unfold root_of; by rewrite Hb).
  apply on_atxn_run in Hrun1 as [_ Hf]. unfold lift in Hrun2. destruct (setidx _ _ _); try done. injection Hrun2 as <- <-.
  injection Hm as _ <-. simpl. by apply FreeBlock_run in Hf.
Qed.

(** The indirect slots. *)
Lemma shrink_slot_run ip ip' s i off r t : 0 <= i -> 0 <= off < pow (Z.of_nat (depth i)) -> i_blks ip' = i_blks ip ->
  (freeroot ← on_atxn (indshrink (root_of ip i) (depth i) off);
   if bool_decide (freeroot <> 0) then freeIndex i else mret tt) (ip', s) = Ok (r, t) ->
  dirtied s t.2 (fun a => exists p, p `prefix_of` tpath (depth i) off /\
    fptr ip s (i, p) <> 0 /\ a = Block2addr (a_super s) (fptr ip s (i, p))).
Proof.
  intros Hi Hoff Hb Hm. run_inv Hm. apply on_atxn_run in Hrun as [Ht1 Hrun]. destruct t0 as [ip1 s1]. simpl in *. subst ip1.
  apply indshrink_run in Hrun as [Ht Hr]; [|apply depth_le|done].
  eapply dirtied_trans; [exact Ht|]. case_bool_decide as Hnz; [|injection Hm as _ <-; apply dirtied_refl].
  destruct Hr as [->| ->]; [done|]. apply freeIndex_run in Hm. eapply dirtied_mono; [|exact Hm].
  intros a [_ ->]. rewrite (tc_super _ _ _ Ht). exists []. split; [apply prefix_nil|].
  assert (root_of ip' i = root_of ip i) as -> by (unfold root_of; by rewrite Hb). done.
Qed.

Lemma shrink_one_run ip s r t : 0 < i_ShrinkSize ip <= MaxBlks ->
  shrink_one (ip, s) = Ok (r, t) -> dirtied s t.2 (at_path ip s (i_ShrinkSize ip - 1)).
Proof.
  unfold MaxBlks. intros Hsz Hm. set (k := i_ShrinkSize ip - 1) in *.
  assert (i_ShrinkSize ip -w 1 = k) as Hk by (unfold k; wsimp; done).
  unfold shrink_one in Hm. run_inv Hm. injection Hrun as _ <-. injection Hrun0 as <- <-.
  cbn [fst snd id] in Hm. rewrite Hk in Hm. change (i_ShrinkSize (with_ShrinkSize k ip)) with k in Hm.
  change NDIRECT with 8 in Hm. change INDIRECT with 8 in Hm. change DINDIRECT with 9 in Hm.
  unfold at_path, fpath. rewrite NBLKBLK_eq in Hm.
  destruct (Z.ltb_spec k 8) as [Hlt|Hge]; cbn [fst snd].
  { apply freeIndex_run in Hm. eapply dirtied_mono; [|exact Hm]. intros a Ha. exists []. split; [apply prefix_nil|exact Ha]. }
  replace (k -w 8) with (k - 8) in Hm by (wsimp; done).
  assert (forall i r' (t' : ISt), 0 <= i < 10 -> lift (idx (i_blks (with_ShrinkSize k ip)) i) (with_ShrinkSize k ip, s) = Ok (r', t') ->
    r' = root_of ip i /\ t' = (with_ShrinkSize k ip, s)) as Hidx.
  { intros i r' t' Hi. unfold lift. change (i_blks (with_ShrinkSize k ip)) with (i_blks ip).
    destruct (idx (i_blks ip) i) as [b| | |] eqn:Hb; [|done..]. intros [= <- <-].
    apply idx_Ok in Hb as [_ Hb]. unfold root_of. by rewrite Hb. }
  destruct (Z.ltb_spec (k - 8) 512); cbn [fst snd].
  - run_inv Hm. apply Hidx in Hrun as [-> ->]; [|lia].
    apply (shrink_slot_run ip (with_ShrinkSize k ip) s 8 (k - 8) r t); [lia|change (depth 8) with 1%nat; rewrite pow_1; lia|done|].
    apply M_bind_Ok. eauto.
  - replace (k - 8 -w 512) with (k - 520) in Hm by (wsimp; lia). run_inv Hm. apply Hidx in Hrun as [-> ->]; [|lia].
    apply (shrink_slot_run ip (with_ShrinkSize k ip) s 9 (k - 520) r t); [lia|change (depth 9) with 2%nat; rewrite pow_2; lia|done|].
    apply M_bind_Ok. eauto.
Qed.
(** ** The loop *)

(** The nodes down to the blocks from [n] to the size the file shrinks from. *)
Definition cut_objs ip s n (a : addr) : Prop := exists k, n <= k < i_ShrinkSize ip /\ at_path ip s k a.

Lemma at_path_shrunk ip s ip1 s1 n k a : shrunk ip s ip1 s1 n -> 0 <= k < MaxBlks -> at_path ip1 s1 k a -> at_path ip s k a.
Proof.
  intros Hs Hk (p & Hp & Hnz & ->). exists p.
  assert (pos_ok ((fpath k).1, p)) as Hx.
  { destruct (fpath_ok k Hk) as [[Hi [Hl Hf]] _]. split; [done|]. simpl. destruct Hp as [r Hr]. rewrite Hr in Hl, Hf.
    rewrite length_app in Hl. apply Forall_app in Hf as [Hf _]. split; [lia|done]. }
  rewrite (sh_node _ _ _ _ _ Hs) in * by done. case_decide; [done|].
  by rewrite (kp_super _ _ (sh_keeps _ _ _ _ _ Hs)).
Qed.

Lemma shrink_loop_run fuel ip s r t : file_ok ip s -> 0 <= i_ShrinkSize ip <= MaxBlks ->
  trimmed_file ip s (i_ShrinkSize ip) -> shrink_loop fuel (ip, s) = Ok (r, t) ->
  0 <= i_ShrinkSize t.1 <= i_ShrinkSize ip /\ dirtied s t.2 (cut_objs ip s (i_ShrinkSize t.1)).
Proof.
  revert ip s r t. induction fuel as [|fuel IH]; intros ip s r t Hok Hsz Ht Hm; cbn [shrink_loop] in Hm; run_inv Hm;
    injection Hrun as <- <-; injection Hrun0 as <- <-; cbn [fst snd] in Hm; fold (fits s) in Hm;
    (destruct (is_shrinking ip && fits s) eqn:Hgo; [|injection Hm as _ <-; split; [simpl; lia|apply dirtied_refl]]); [done|].
  apply andb_true_iff in Hgo as [Hsh _]. unfold is_shrinking in Hsh. apply Z.ltb_lt in Hsh.
  pose proof (RoundUp_u64 (i_Size ip) BlockSize) as Hru. unfold is_u64 in Hru.
  run_inv Hm. destruct t0 as [ip1 s1].
  assert (shrunk ip s ip1 s1 (i_ShrinkSize ip - 1)) as Hs1.
  { eapply (wp_run _ _ _ (ip1, s1) (fun _ t => shrunk ip s t.1 t.2 (i_ShrinkSize ip - 1))); [|exact Hrun].
    apply wp_shrink_one; [done|lia|done|done]. }
  apply shrink_one_run in Hrun as Ht1; [|lia]. cbn [snd] in Ht1. pose proof (shrunk_size _ _ _ _ _ Hs1) as Hn1.
  assert (is_u64 (i_ShrinkSize ip - 1)) as Hu by (unfold is_u64; unfold MaxBlks in Hsz; lia).
  apply IH in Hm as [Hle Ht2]; [|by eapply shrunk_ok|lia|rewrite Hn1; by eapply shrunk_trimmed].
  rewrite Hn1 in Hle. split; [lia|]. eapply dirtied_trans; (eapply dirtied_mono; [|eassumption]).
  - intros a Ha. exists (i_ShrinkSize ip - 1). split; [lia|done].
  - intros a (k & Hk & Ha). exists k. split; [lia|]. eapply at_path_shrunk; [exact Hs1|unfold MaxBlks in *; lia|exact Ha].
Qed.

(** ** How many they are

    Each block, the two roots of the indirect blocks, and the blocks of block
    numbers below the second. *)
Definition cut_list ip s n m : list addr :=
  (fun x => Block2addr (a_super s) (fptr ip s x)) <$>
    [(8, []); (9, [])] ++ ((fun o => (9, [o])) <$> seqZ ((n - 520) / 512) ((m - n) / 512 + 2)) ++ (fpath <$> seqZ n (m - n)).

Lemma cut_list_len ip s n m : n <= m -> len (cut_list ip s n m) = (m - n) + (m - n) / 512 + 4.
Proof.
  intros Hnm. pose proof (Z.div_pos (m - n) 512 ltac:(lia) ltac:(lia)). unfold cut_list, len.
  rewrite length_fmap, !length_app, !length_fmap, !length_seqZ. simpl. lia.
Qed.

Lemma prefix_cases (p l : list Z) : p `prefix_of` l -> (length l <= 2)%nat -> p = [] \/ p = l \/ exists o o', l = [o; o'] /\ p = [o].
Proof.
  intros [r ->] Hl. rewrite length_app in Hl. destruct p as [|o [|o' p]]; [by left|right..].
  - destruct r as [|o' [|]]; [by left|right; by exists o, o'|simpl in Hl; lia].
  - left. destruct p; [|simpl in Hl; lia]. destruct r; [done|simpl in Hl; lia].
Qed.

Lemma cut_objs_list ip s n a : 0 <= n -> i_ShrinkSize ip <= MaxBlks -> cut_objs ip s n a ->
  a ∈ cut_list ip s n (i_ShrinkSize ip).
Proof.
  intros Hn Hm (k & Hk & p & Hp & _ & ->). set (m := i_ShrinkSize ip) in *. unfold cut_list.
  apply (list_elem_of_fmap_2 (fun x => Block2addr (a_super s) (fptr ip s x)) _ ((fpath k).1, p)).
  assert (fpath k ∈ fpath <$> seqZ n (m - n)) as Hfull.
  { apply list_elem_of_fmap_2, elem_of_seqZ. lia. }
  rewrite !elem_of_app. unfold fpath in Hp, Hfull |- *.
  destruct (Z.ltb_spec k 8); [|destruct (Z.ltb_spec (k - 8) 512)]; cbn [fst snd] in *.
  - apply prefix_nil_inv in Hp as ->. right. by right.
  - destruct (prefix_cases p _ Hp) as [->|[->|(o & o' & Ho & _)]]; [simpl; lia|left; set_solver|right; by right|done].
  - destruct (prefix_cases p _ Hp) as [->|[->|(o & o' & Ho & ->)]]; [simpl; lia|left; set_solver|right; by right|].
    right; left. apply (list_elem_of_fmap_2 (fun o : Z => (9, [o])) _ o), elem_of_seqZ. assert (o = (k - 520) / 512) as ->.
    { cbn [tpath] in Ho. rewrite pow_1 in Ho. congruence. }
    pose proof (Z.div_mod (k - 520) 512). pose proof (Z.mod_pos_bound (k - 520) 512).
    pose proof (Z.div_mod (n - 520) 512). pose proof (Z.mod_pos_bound (n - 520) 512).
    pose proof (Z.div_mod (m - n) 512). pose proof (Z.mod_pos_bound (m - n) 512). lia.
Qed.
(** ** When the blocks fit *)

(** A shrinker that stopped early filled the transaction with what it freed. *)
Lemma shrink_full ip s ip' s' : file_ok ip s -> i_ShrinkSize ip <= MaxBlks -> trimmed_file ip s (i_ShrinkSize ip) ->
  shrink_post ip s true ip' s' -> let d := i_ShrinkSize ip - i_ShrinkSize ip' in
  0 <= d /\ LogBlocks <= NDirty (a_op s) + d + d / 512 + 9.
Proof.
  intros Hok Hsz Ht Hp d. pose proof (iw_ShrinkSize _ (fo_inode _ _ Hok)) as Hu. unfold is_u64 in Hu.
  destruct (sk_shrunk _ _ _ _ _ Hp) as (s1 & Hs & _ & Hfull & Hrun).
  pose proof (sk_more _ _ _ _ _ Hp) as Hm. specialize (Hfull eq_refl). unfold fits in Hfull. apply Z.ltb_ge in Hfull.
  apply shrink_loop_run in Hrun as [Hle Htc]; [|done|lia|done]. cbn [fst snd] in *.
  rewrite (is_shrinking_cut _ _ _ _ _ Hs) in Hm. symmetry in Hm. apply bool_decide_eq_true in Hm.
  unfold d. set (n := i_ShrinkSize ip') in *.
  pose proof (NDirty_dirtied _ _ _ _ Htc (fun a => cut_objs_list ip s n a ltac:(lia) Hsz)) as Hd.
  rewrite cut_list_len in Hd by lia. pose proof (w64_le (NDirty (a_op s1) + 5)). pose proof (NDirty_nonneg (a_op s1)). lia.
Qed.

(** ** [Resize] *)

(** The inode that [Resize] stores first. *)
Definition resized sz ip : Inode :=
  let old := util_RoundUp (i_Size ip) BlockSize in let new := util_RoundUp sz BlockSize in
  with_ShrinkSize (if new <? old then old else new) (with_Size sz ip).

Lemma resized_ok sz ip s : file_ok ip s -> is_u64 sz -> file_ok (resized sz ip) s.
Proof.
  intros Hok Hsz. pose proof (RoundUp_u64 (i_Size ip) BlockSize). pose proof (RoundUp_u64 sz BlockSize).
  apply file_ok_ShrinkSize; [by apply file_ok_size|]. by destruct (_ <? _).
Qed.

Lemma resized_shrink sz ip :
  i_ShrinkSize (resized sz ip) = Z.max (util_RoundUp (i_Size ip) BlockSize) (util_RoundUp sz BlockSize).
Proof. unfold resized. simpl. destruct (Z.ltb_spec (util_RoundUp sz BlockSize) (util_RoundUp (i_Size ip) BlockSize)); lia. Qed.

(** After it was stored the map and the data are as they were. *)
Lemma resized_stored sz ip s s1 : file_ok ip s -> is_u64 sz -> trimmed_file ip s (util_RoundUp (i_Size ip) BlockSize) ->
  wi_post (resized sz ip) s s1 ->
  file_ok (resized sz ip) s1 /\ trimmed_file (resized sz ip) s1 (i_ShrinkSize (resized sz ip)) /\
  forall k, in_file k -> fbyte (resized sz ip) s1 k = fbyte ip s k.
Proof.
  intros Hok Hsz Ht Hwi. pose proof (resized_ok sz ip s Hok Hsz) as Hok1.
  pose proof (wi_same_file _ _ _ Hok1 Hwi) as Hsf. split_and!; [apply Hsf| |apply Hsf].
  intros x Hx Hle. rewrite (fptr_valid (resized sz ip) s s1); [|apply Hok1|apply Hwi|done].
  unfold resized. rewrite fptr_sizes. apply Ht; [done|]. pose proof (resized_shrink sz ip). lia.
Qed.

(** The size was set, and then the blocks past it were freed, when they fit the
    transaction. *)
Definition resize_post sz ip s (doshrink : bool) (t : ISt) : Prop :=
  let old := util_RoundUp (i_Size ip) BlockSize in let new := util_RoundUp sz BlockSize in
  exists s1, wi_post (resized sz ip) s s1 /\
    doshrink = bool_decide (new < old) && negb (NDirty (a_op s1) +w (old - new) <? LogBlocks) /\
    ((t = (resized sz ip, s1) /\ (new < old -> doshrink = true)) \/
     (new < old /\ doshrink = false /\ exists more, shrink_post (resized sz ip) s1 more t.1 t.2)).

Lemma wp_Resize sz ip s (Q : bool -> ISt -> Prop) : file_ok ip s -> is_u64 sz ->
  util_RoundUp (i_Size ip) BlockSize <= MaxBlks -> trimmed_file ip s (util_RoundUp (i_Size ip) BlockSize) ->
  (forall doshrink t, resize_post sz ip s doshrink t -> Q doshrink t) -> wp (Resize sz) (ip, s) Q.
Proof.
  intros Hok Hsz Hold Ht HQ. pose proof (resized_ok sz ip s Hok Hsz) as Hok1. pose proof (RoundUp_u64 sz BlockSize) as Hnew.
  unfold is_u64, MaxBlks in *. unfold Resize. apply wp_bind, wp_ip_get, wp_bind, wp_ip_set. cbn [i_Size].
  apply wp_bind, wp_ip_set. change (with_ShrinkSize _ _) with (resized sz ip).
  apply wp_bind, wp_WriteInode; [apply Hok1..|]. intros s1 Hwi.
  destruct (resized_stored sz ip s s1 Hok Hsz Ht Hwi) as (Hok2 & Ht2 & _).
  pose proof (resized_shrink sz ip) as Hsh.
  destruct (Z.ltb_spec (util_RoundUp sz BlockSize) (util_RoundUp (i_Size ip) BlockSize)) as [Hlt|Hge].
  2: { apply wp_ret, HQ. exists s1. rewrite bool_decide_eq_false_2 by lia. split_and!; [done|done|left; split; [done|lia]]. }
  replace (util_RoundUp (i_Size ip) BlockSize -w util_RoundUp sz BlockSize) with
    (util_RoundUp (i_Size ip) BlockSize - util_RoundUp sz BlockSize) by (wsimp; lia).
  unfold shrinkFits. apply wp_bind, wp_gets. cbn [snd]. destruct (_ <? LogBlocks) eqn:Hfit.
  - apply wp_bind, wp_Shrink; [done|unfold MaxBlks; lia|done|]. intros more ip' s' Hp. apply wp_ret, HQ. exists s1.
    rewrite Hfit, andb_false_r. split_and!; [done|done|right; eauto].
  - apply wp_ret, HQ. exists s1. rewrite Hfit, bool_decide_eq_true_2 by done. split_and!; [done|done|by left].
Qed.

(** What [Resize] of a file to [sz] does, for the result [doshrink]: the inode
    [ip'] has [n] as its [ShrinkSize] afterwards. *)
Record resize_done sz ip s (doshrink : bool) ip' s' n : Prop := {
  rz_ok : file_ok ip' s';
  rz_synced : synced ip' s';
  rz_trimmed : trimmed_file ip' s' n;
  rz_ip : ip' = with_ShrinkSize n (with_blks (i_blks ip') (with_Size sz ip));
  rz_bytes : forall k, in_file k -> fbyte ip' s' k = if k <? n * 4096 then fbyte ip s k else 0;
  rz_freed : forall b, b ∈ a_freeBnums s' <-> b ∈ a_freeBnums s \/
    exists x, pos_ok x /\ n <= firstblk x /\ fptr ip s x = b /\ b <> 0;
  rz_new : util_RoundUp sz BlockSize <= n;
  (* a size that is not smaller *)
  rz_grow : util_RoundUp (i_Size ip) BlockSize <= util_RoundUp sz BlockSize ->
    n = util_RoundUp sz BlockSize /\ doshrink = false /\ forall k, in_file k -> fbyte ip' s' k = fbyte ip s k;
  (* nothing was freed, since the blocks do not fit the transaction *)
  rz_thread : doshrink = true -> util_RoundUp sz BlockSize < util_RoundUp (i_Size ip) BlockSize /\
    n = util_RoundUp (i_Size ip) BlockSize /\
    LogBlocks <= NDirty (a_op s') + (util_RoundUp (i_Size ip) BlockSize - util_RoundUp sz BlockSize);
  (* everything was freed, or the transaction is full *)
  rz_all : doshrink = false -> n = util_RoundUp sz BlockSize \/ LogBlocks <= NDirty (a_op s') + 5;
  rz_full : doshrink = false -> let d := util_RoundUp (i_Size ip) BlockSize - n in
    n = util_RoundUp sz BlockSize \/ 0 <= d /\ LogBlocks <= NDirty (a_op s) + d + d / 512 + 10;
  rz_max : n <= Z.max (util_RoundUp (i_Size ip) BlockSize) (util_RoundUp sz BlockSize);
}.

(** The two cases, decided by the blocks that the file loses and the objects
    that the transaction wrote before. *)
Definition fits_txn sz ip s : Prop :=
  let m := util_RoundUp (i_Size ip) BlockSize - util_RoundUp sz BlockSize in
  NDirty (a_op s) + m + m / 512 + 10 < LogBlocks.

Definition too_many sz ip s : Prop :=
  let m := util_RoundUp (i_Size ip) BlockSize - util_RoundUp sz BlockSize in
  0 < m /\ LogBlocks <= Z.max 1 (NDirty (a_op s)) + m /\ NDirty (a_op s) + 1 + m < 2 ^ 64.

Section resize.
Context (sz : Z) (ip : Inode) (s : ASt) (doshrink : bool) (t : ISt).
Hypothesis Hok : file_ok ip s.
Hypothesis Hsz : is_u64 sz.
Hypothesis Hmax : util_RoundUp (i_Size ip) BlockSize <= MaxBlks.
Hypothesis Ht : trimmed_file ip s (util_RoundUp (i_Size ip) BlockSize).
Hypothesis Hpost : resize_post sz ip s doshrink t.

Lemma resize_contents : resize_done sz ip s doshrink t.1 t.2 (i_ShrinkSize t.1).
Proof.
  destruct Hpost as (s1 & Hwi & Hds & Hcase). pose proof (resized_shrink sz ip) as Hsh.
  destruct (resized_stored sz ip s s1 Hok Hsz Ht Hwi) as (Hok2 & Ht2 & Hb2).
  pose proof (wi_NDirty _ _ _ Hwi). pose proof (NDirty_nonneg (a_op s1)).
  set (old := util_RoundUp (i_Size ip) BlockSize) in *. set (new := util_RoundUp sz BlockSize) in *.
  destruct Hcase as [[-> Hd]|(Hlt & Hd & more & Hp)]; cbn [fst snd] in *.
  - split; fold old new; try done || lia.
    + apply Hwi.
    + intros k Hk. rewrite Hb2 by done. destruct (Z.ltb_spec k (i_ShrinkSize (resized sz ip) * 4096)); [done|].
      apply (trimmed_byte ip s old); [done|done|lia].
    + intros b. rewrite (gr_freed _ _ (wi_grow _ _ _ Hwi)). split; [by left|]. intros [?|(x & Hx & Hn & <- & Hnz)]; [done|].
      destruct Hnz. apply Ht; [done|]. lia.
    + intros Hge. rewrite Hds, bool_decide_eq_false_2 by lia. split_and!; [lia|done|exact Hb2].
    + intros Ho. rewrite Hds in Ho. apply andb_true_iff in Ho as [Hlt%bool_decide_eq_true Hfull%negb_true_iff%Z.ltb_ge].
      split_and!; [done|lia|]. pose proof (w64_le (NDirty (a_op s1) + (old - new))). lia.
    + intros Ho. left. destruct (Z.lt_ge_cases new old) as [Hlt|]; [by rewrite Hd in Ho|lia].
    + intros Ho. left. destruct (Z.lt_ge_cases new old) as [Hlt|]; [by rewrite Hd in Ho|lia].
  - destruct (shrink_contents _ _ _ _ _ Hok2 Hp) as (Hok' & Hsy & Ht' & Hip & Hbyte).
    pose proof (sk_size _ _ _ _ _ Hp) as Hb. change (i_Size (resized sz ip)) with sz in Hb. fold new in Hb.
    destruct (sk_shrunk _ _ _ _ _ Hp) as (s2 & Hs & Hwi2 & Hfull & _).
    split; fold old new; try done || lia.
    + intros k Hk. rewrite Hbyte by done. by rewrite Hb2.
    + intros b. rewrite (gr_freed _ _ (wi_grow _ _ _ Hwi2)), (sh_freed _ _ _ _ _ Hs), (gr_freed _ _ (wi_grow _ _ _ Hwi)).
      assert (forall x, pos_ok x -> fptr (resized sz ip) s1 x = fptr ip s x) as Hfp.
      { intros x Hx. apply (fptr_valid (resized sz ip) s s1); [apply (resized_ok sz ip s Hok Hsz)|apply Hwi|done]. }
      apply or_iff_compat_l. split; intros (x & Hx & Hn & Hfx & Hnz); exists x; (split_and!; [done|done| |done]);
        [rewrite <-Hfp by done|rewrite Hfp by done]; done.
    + rewrite Hd. done.
    + intros _. pose proof (sk_more _ _ _ _ _ Hp) as Hm. rewrite (is_shrinking_cut _ _ _ _ _ Hs) in Hm.
      change (i_Size (resized sz ip)) with sz in Hm. fold new in Hm. destruct more.
      * right. specialize (Hfull eq_refl). unfold fits in Hfull. apply Z.ltb_ge in Hfull.
        pose proof (wi_NDirty _ _ _ Hwi2). pose proof (NDirty_nonneg (a_op s2)). pose proof (w64_le (NDirty (a_op s2) + 5)). lia.
      * left. symmetry in Hm. apply bool_decide_eq_false in Hm. lia.
    + intros _. pose proof (sk_more _ _ _ _ _ Hp) as Hm. rewrite (is_shrinking_cut _ _ _ _ _ Hs) in Hm.
      change (i_Size (resized sz ip)) with sz in Hm. fold new in Hm. destruct more.
      * right. destruct (shrink_full _ _ _ _ Hok2 ltac:(lia) Ht2 Hp) as [Hd0 Hd1].
        replace (i_ShrinkSize (resized sz ip)) with old in * by lia. lia.
      * left. symmetry in Hm. apply bool_decide_eq_false in Hm. lia.
Qed.

(** The shrinker is asked for exactly when the blocks do not fit. *)
Lemma resize_asks : exists w, NDirty (a_op s) <= w <= NDirty (a_op s) + 1 /\ 1 <= w /\
  doshrink = bool_decide (util_RoundUp sz BlockSize < util_RoundUp (i_Size ip) BlockSize) &&
    negb (w +w (util_RoundUp (i_Size ip) BlockSize - util_RoundUp sz BlockSize) <? LogBlocks).
Proof.
  destruct Hpost as (s1 & Hwi & Hds & _). exists (NDirty (a_op s1)).
  pose proof (wi_NDirty _ _ _ Hwi). pose proof (wi_written _ _ _ Hwi). split_and!; [lia..|exact Hds].
Qed.

Lemma resize_fits : fits_txn sz ip s -> util_RoundUp sz BlockSize < util_RoundUp (i_Size ip) BlockSize ->
  doshrink = false /\ i_ShrinkSize t.1 = util_RoundUp sz BlockSize.
Proof.
  unfold fits_txn. intros Hfit Hlt. destruct resize_asks as (w & Hw & _ & Hds). pose proof resize_contents as Hdone.
  set (old := util_RoundUp (i_Size ip) BlockSize) in *. set (new := util_RoundUp sz BlockSize) in *.
  pose proof (NDirty_nonneg (a_op s)). pose proof LogBlocks_range as HLB.
  pose proof (Z.div_pos (old - new) 512 ltac:(lia) ltac:(lia)).
  assert (doshrink = false) as Hf.
  { rewrite Hds. rewrite w64_small by lia. rewrite (proj2 (Z.ltb_lt _ _)) by lia. apply andb_false_r. }
  split; [exact Hf|]. pose proof (rz_new _ _ _ _ _ _ _ Hdone) as Hn.
  destruct (rz_full _ _ _ _ _ _ _ Hdone Hf) as [Heq|[Hd0 Hd]]; [exact Heq|]. exfalso. fold old new in Hn, Hd0, Hd.
  set (n := i_ShrinkSize t.1) in *.
  assert ((old - n) / 512 <= (old - new) / 512) by (apply Z.div_le_mono; lia). lia.
Qed.

Lemma resize_too_many : too_many sz ip s -> doshrink = true.
Proof.
  intros (Hlt & Hbig & Hwrap). destruct resize_asks as (w & Hw & Hw1 & ->).
  rewrite bool_decide_eq_true_2, w64_small by lia. apply negb_true_iff, Z.ltb_ge. lia.
Qed.
End resize.

(** C36: [Resize] gives a file whose map ends where its size does a new size. The
    inode on disk is the one in memory. Growing changes no byte: the new part
    reads as zeros. Shrinking keeps every block up to its new end, whole, and
    frees exactly the blocks that the map loses. When the blocks and the index
    blocks over them fit what is left of the transaction, all of those past the
    new size are freed at once. When there are more of them than the
    transaction has room for, none is freed and the result asks for the
    shrinker. In between, the blocks are freed until the transaction is full,
    and nothing asks for the shrinker. *)
Theorem Resize_spec ip s sz : file_ok ip s -> is_u64 sz ->
  let old := util_RoundUp (i_Size ip) BlockSize in let new := util_RoundUp sz BlockSize in
  old <= MaxBlks -> trimmed_file ip s old ->
  exists doshrink ip' s', Resize sz (ip, s) = Ok (doshrink, (ip', s')) /\
    resize_done sz ip s doshrink ip' s' (i_ShrinkSize ip') /\
    (new < old -> fits_txn sz ip s -> doshrink = false /\ i_ShrinkSize ip' = new) /\
    (too_many sz ip s -> doshrink = true).
Proof.
  intros Hok Hsz old new Hold Ht.
  destruct (wp_Resize sz ip s (resize_post sz ip s) Hok Hsz Hold Ht) as (doshrink & [ip' s'] & Hr & Hp); [done|].
  exists doshrink, ip', s'. split; [done|]. split; [exact (resize_contents sz ip s doshrink (ip', s') Hok Hsz Hold Ht Hp)|].
  split; [|by eapply resize_too_many]. intros Hlt Hfit. exact (resize_fits sz ip s doshrink (ip', s') Hok Hsz Hold Ht Hp Hfit Hlt).
Qed.
End file.

(** To three bytes: the block of "lo" and the indirect block go. *)
Lemma Resize_spec_witness : exists doshrink ip' s',
  Resize 3 (written.1, written.2) = Ok (doshrink, (ip', s')) /\ file_ok ip' s' /\
  (forall k, in_file k -> fbyte ip' s' k = if k <? 4096 then fbyte written.1 written.2 k else 0) /\ doshrink = false.
Proof.
  assert (util_RoundUp (i_Size written.1) BlockSize = 9) as Hold by (vm_compute; reflexivity).
  destruct (Resize_spec written.1 written.2 3 written_ok) as (doshrink & ip' & s' & Hr & Hd & Hfit & _).
  - unfold is_u64. lia.
  - rewrite Hold. unfold MaxBlks. lia.
  - rewrite Hold. exact written_trimmed.
  - destruct Hfit as [Hds Hn]; [vm_compute; reflexivity|vm_compute; reflexivity|].
    exists doshrink, ip', s'. split; [exact Hr|]. split; [apply Hd|]. split; [|exact Hds].
    intros k Hk. rewrite (rz_bytes _ _ _ _ _ _ _ Hd k Hk), Hn. done.
Defined.
