(* ===== verification/Fstxn.v ===== *)
(** File-system transactions ([fstxn/]): the server's shared state, locked and
    cached inodes, and commit.

    [FSt] is the server's [FsState] together with the current [FsTxn].
    Inodes are heap objects, so that the cache, the transaction and the
    handlers share them: a pointer is a [Z] of [f_heap]. *)
From S2P Require Import Prelude Nfstypes External Reference Super Fh Cache Dcache Alloctxn Inode.

Definition ICACHESZ : Z := 100.

Section fstxn.
Context `{!Common} `{!Util} `{!Marshal} `{!Buf} `{!Journal} `{!AllocPkg} `{!LockPkg}
  `{!Clock} `{!DiskPkg}.

(** [f_a] holds the fields [Super], [Txn], [Balloc], [Ialloc] of [FsState] and
    the [Atxn] of [FsTxn]; [f_inodes] is [FsTxn.inodes]. *)
Record FSt := mkFSt {
  f_a : ASt;
  f_heap : gmap Z Inode;
  f_next : Z;
  f_icache : @Cache Z;
  f_lockmap : LockMap;
  f_inodes : gmap Z Z;
}.

Definition fset_a a (s : FSt) : FSt :=
  mkFSt a (f_heap s) (f_next s) (f_icache s) (f_lockmap s) (f_inodes s).

Definition fset_heap h (s : FSt) : FSt :=
  mkFSt (f_a s) h (f_next s) (f_icache s) (f_lockmap s) (f_inodes s).

Definition fset_next n (s : FSt) : FSt :=
  mkFSt (f_a s) (f_heap s) n (f_icache s) (f_lockmap s) (f_inodes s).

Definition fset_icache c (s : FSt) : FSt :=
  mkFSt (f_a s) (f_heap s) (f_next s) c (f_lockmap s) (f_inodes s).

Definition fset_lockmap l (s : FSt) : FSt :=
  mkFSt (f_a s) (f_heap s) (f_next s) (f_icache s) l (f_inodes s).

Definition fset_inodes i (s : FSt) : FSt :=
  mkFSt (f_a s) (f_heap s) (f_next s) (f_icache s) (f_lockmap s) i.

(** Operations on [op.Atxn], and methods of the inode at a pointer. *)
Definition on_a {A} (m : M ASt A) : M FSt A := zoom f_a fset_a m.

Definition on_ip {A} (p : Z) (m : M ISt A) : M FSt A := fun s =>
  match f_heap s !! p with
  | None => Panic
  | Some ip =>
      match m (ip, f_a s) with
      | Ok (r, (ip', a')) => Ok (r, fset_a a' (fset_heap (<[p := ip']> (f_heap s)) s))
      | Panic => Panic
      | Blocked => Blocked
      | NoFuel => NoFuel
      end
  end.

Definition ip_field {A} (p : Z) (f : Inode -> A) : M FSt A := on_ip p (ip_get f).

(** [new(Inode)] with initial contents. *)
Definition new_inode (ip : Inode) : M FSt Z :=
  s ← get;
  let p := f_next s in
  _ ← modify (fset_heap (<[p := ip]> (f_heap s)));
  _ ← modify (fset_next (p + 1));
  mret p.

(** A nil pointer is [None]; using it panics. *)
Definition deref (p : option Z) : M FSt Z :=
  match p with Some p => mret p | None => panic end.

Fixpoint read_blocks (n : nat) (d : Disk) (a : Z) : list Z :=
  match n with
  | O => []
  | S n => disk_Read d a ++ read_blocks n d (a +w 1)
  end.

(** [readBitmap]: the disk is a field of the Go superblock. *)
Definition readBitmap (d : Disk) (start n : Z) : list Z := read_blocks (Z.to_nat n) d start.

Definition MkFsState (sp : FsSuper) (d : Disk) (log : Log) : FSt :=
  let balloc := MkAlloc (readBitmap d (BitmapBlockStart sp) (NBlockBitmap sp)) in
  let ialloc := MkAlloc (readBitmap d (BitmapInodeStart sp) (NInodeBitmap sp)) in
  mkFSt (mkASt sp log balloc ialloc (jrnl_Begin log) [] [] [] [] 0) ∅ 0
    (MkCache ICACHESZ) MkLockMap ∅.

(** [Begin]: a new transaction, with no inodes. *)
Definition FsBegin : M FSt unit :=
  _ ← modify (fun s => fset_a (Begin (f_a s)) s);
  modify (fset_inodes ∅).

Definition addInode (p : Z) : M FSt unit :=
  inum ← ip_field p i_Inum;
  modify (fun s => fset_inodes (<[inum := p]> (f_inodes s)) s).

Definition lookupInode (inum : Z) : M FSt (option Z) := gets (fun s => f_inodes s !! inum).

Definition OwnInum (inum : Z) : M FSt bool :=
  gets (fun s => bool_decide (is_Some (f_inodes s !! inum))).

Definition doneInode (p : Z) : M FSt unit :=
  inum ← ip_field p i_Inum;
  modify (fun s => fset_inodes (delete inum (f_inodes s)) s).

Definition ReleaseInode (p : Z) : M FSt unit :=
  _ ← doneInode p;
  inum ← ip_field p i_Inum;
  s ← get;
  lm ← lift (Release (f_lockmap s) inum);
  modify (fset_lockmap lm).

Fixpoint release_list (ps : list Z) : M FSt unit :=
  match ps with
  | [] => mret tt
  | p :: ps => _ ← ReleaseInode p; release_list ps
  end.

(** The range over the map releases every inode once; the order does not
    matter and is the one of [map_to_list]. *)
Definition releaseInodes : M FSt unit :=
  s ← get;
  release_list (map_to_list (f_inodes s)).*2.

(** [LockInode] waits for the lock, then finds the cache slot. *)
Definition LockInode (inum : Z) : M FSt Z :=
  s ← get;
  match Acquire (f_lockmap s) inum with
  | None => blocked
  | Some lm =>
      _ ← modify (fset_lockmap lm);
      zoom f_icache fset_icache (LookupSlot inum)
  end.

Definition GetInodeLocked (inum : Z) : M FSt Z :=
  cslot ← LockInode inum;
  o ← zoom f_icache fset_icache (slot_get cslot);
  p ← match o with
      | Some p => mret p
      | None =>
          s ← get;
          let addr := Inum2Addr (a_super (f_a s)) inum in
          _ ← on_a (modify (fun a => set_op (ReadBuf (a_log a) (a_op a) addr (INODESZ * 8)) a));
          d ← on_a (data_of addr);
          i ← lift (Decode d inum);
          p ← new_inode i;
          _ ← zoom f_icache fset_icache (slot_set cslot (Some p));
          mret p
      end;
  _ ← addInode p;
  mret p.

Definition GetInodeInumFree (inum : Z) : M FSt Z := GetInodeLocked inum.

Definition GetInodeInum (inum : Z) : M FSt (option Z) :=
  ip ← GetInodeInumFree inum;
  kind ← ip_field ip i_Kind;
  if bool_decide (kind = NF3FREE) then
    _ ← ReleaseInode ip;
    mret None
  else
    nlink ← ip_field ip i_Nlink;
    if bool_decide (nlink = 0) then panic
    else mret (Some ip).

Definition GetInodeFh (fh3 : Nfs_fh3) : M FSt (option Z) :=
  fh ← lift (MakeFh fh3);
  o ← GetInodeInum (Ino fh);
  match o with
  | None => mret None
  | Some ip =>
      gen ← ip_field ip i_Gen;
      if bool_decide (gen <> Gen fh) then
        _ ← ReleaseInode ip;
        mret None
      else mret (Some ip)
  end.

(** The caller holds the inode's lock. *)
Definition GetInodeUnlocked (inum : Z) : M FSt Z :=
  o ← lookupInode inum;
  match o with
  | None => panic
  | Some ip => mret ip
  end.

Definition AllocInode (kind : Z) : M FSt (option Z) :=
  inum ← on_a AllocINum;
  if bool_decide (inum <> NULLINUM) then
    ip ← GetInodeLocked inum;
    k ← ip_field ip i_Kind;
    if bool_decide (k <> NF3FREE) then panic
    else
      shrinking ← on_ip ip IsShrinking;
      _ ← (if negb shrinking then
             _ ← on_ip ip (InitInode inum kind);
             on_ip ip WriteInode
           else mret tt);
      mret (Some ip)
  else mret None.

(** *** Commit ([commit.go]) *)

Definition preCommit : M FSt unit := on_a PreCommit.

Definition postCommit : M FSt unit :=
  _ ← releaseInodes;
  on_a PostCommit.

Definition commitWait (wait : bool) : M FSt bool :=
  _ ← preCommit;
  ok ← on_a (op_CommitWait wait);
  _ ← postCommit;
  mret ok.

Definition Commit : M FSt bool := commitWait true.

Definition CommitData : M FSt bool := Commit.

Definition CommitUnstable : M FSt bool := commitWait false.

(** [CommitFh] flushes the log; the transaction itself is not committed. *)
Definition CommitFh : M FSt bool :=
  _ ← preCommit;
  ok ← on_a (s ← get;
             let '(ok, lg) := obj_Flush (a_log s) in
             _ ← modify (set_log lg);
             mret ok);
  _ ← postCommit;
  mret ok.

Definition Abort : M FSt bool :=
  _ ← releaseInodes;
  _ ← on_a PostAbort;
  mret true.
End fstxn.
