(* ===== verification/FstxnInv.v ===== *)
(** File-system transactions and the inode cache: what [Begin], the inode
    lookups, commit and abort keep, given the volume of [Volume].

    Between transactions a cached inode is the one on disk; during a
    transaction that holds for every inode it has not locked. *)
From S2P Require Import Prelude Nfstypes External Reference Super Fh Cache Dcache Alloctxn AtxnCommit Inode.
From S2P Require Import InodeCodec InodeMap InodeIO Volume Fstxn.

(** ** Operations that change the locks, the cache and the heap only *)

Section same_a.
Context `{!Common} `{!Util} `{!Marshal} `{!Buf} `{!Journal} `{!AllocPkg} `{!LockPkg} `{!Clock} `{!DiskPkg}.

Definition same_a {A} (m : M FSt A) : Prop := forall f r f', m f = Ok (r, f') -> f_a f' = f_a f.

Lemma same_a_ret {A} (x : A) : same_a (mret x).
Proof. by intros f r f' [= _ <-]. Qed.

Lemma same_a_bind {A B} (m : M FSt A) (k : A -> M FSt B) : same_a m -> (forall x, same_a (k x)) -> same_a (m ≫= k).
Proof. intros Hm Hk f r f' (x & f1 & Ha%Hm & Hb%Hk)%M_bind_Ok. congruence. Qed.

Lemma same_a_modify (g : FSt -> FSt) : (forall f, f_a (g f) = f_a f) -> same_a (modify g).
Proof. by intros Hg f r f' [= _ <-]. Qed.

Lemma same_a_gets {A} (g : FSt -> A) : same_a (gets g).
Proof. by intros f r f' [= _ <-]. Qed.

Lemma same_a_get : same_a get.
Proof. by intros f r f' [= _ <-]. Qed.

Lemma same_a_lift {A} (r : res A) : same_a (lift r : M FSt A).
Proof. intros f x f'. unfold lift. by destruct r; [intros [= _ <-]|..]. Qed.

Lemma same_a_cache {A} (m : M (@Cache Z) A) : same_a (zoom f_icache fset_icache m).
Proof. intros f r f'. unfold zoom. by destruct (m (f_icache f)) as [[x c]| | |]; [intros [= _ <-]|..]. Qed.

Lemma same_a_field {A} p (g : Inode -> A) : same_a (ip_field p g).
Proof. intros f r f'. unfold ip_field, on_ip, ip_get, gets. by destruct (f_heap f !! p); [intros [= _ <-]|]. Qed.

Lemma same_a_panic {A} : same_a (panic : M FSt A).
Proof. by intros f r f'. Qed.

Lemma same_a_blocked {A} : same_a (blocked : M FSt A).
Proof. by intros f r f'. Qed.
End same_a.

Create HintDb same_a.
#[export] Hint Resolve same_a_ret same_a_gets same_a_get same_a_lift same_a_cache same_a_field same_a_panic
  same_a_blocked : same_a.
#[export] Hint Extern 1 (same_a (modify _)) => apply same_a_modify; done : same_a.
#[export] Hint Extern 2 (same_a (_ ≫= _)) => apply same_a_bind; [|intros ?] : same_a.

Section release.
Context `{!Common} `{!Util} `{!Marshal} `{!Buf} `{!Journal} `{!AllocPkg} `{!LockPkg} `{!Clock} `{!DiskPkg}.

Lemma same_a_Release p : same_a (ReleaseInode p).
Proof. unfold ReleaseInode, doneInode. eauto 10 with same_a. Qed.

Lemma same_a_release_list ps : same_a (release_list ps).
Proof. induction ps as [|p ps IH]; simpl; eauto using same_a_Release with same_a. Qed.
End release.

#[export] Hint Resolve same_a_Release same_a_release_list : same_a.

Section inv.
Context `{!Common} `{!CommonSpec} `{!Util} `{!UtilSpec} `{!Marshal} `{!MarshalSpec}
  `{!Buf} `{!BufSpec} `{!Journal} `{!JournalSpec} `{!AllocPkg} `{!AllocSpec}
  `{!LockPkg} `{!LockSpec} `{!Clock} `{!DiskPkg}.
(** The inodes locked by other transactions. *)
Variable L : gset Z.
Implicit Types (s : FSt) (a : ASt) (i p : Z) (ip : Inode).

(** The current transaction, begun in [a0]. *)
Record fs_inv a0 s : Prop := {
  fi_from : atxn_from a0 (f_a s);
  fi_zero : zero_inv (f_a s);
  fi_cache : cache_inv (f_icache s);
  fi_held : held (f_lockmap s) = L ∪ dom (f_inodes s);
  fi_disj : L ## dom (f_inodes s);
  fi_next : forall p, is_Some (f_heap s !! p) -> p < f_next s;
  fi_own : forall i p, f_inodes s !! i = Some p ->
    ino_ok (f_a s) i /\ exists ip, f_heap s !! p = Some ip /\ i_Inum ip = i;
  fi_slot : forall i p, (i, Some p) ∈ cache_abs (f_icache s) ->
    ino_ok (f_a s) i /\ exists ip, f_heap s !! p = Some ip /\ i_Inum ip = i /\
      (i ∈ dom (f_inodes s) -> f_inodes s !! i = Some p) /\
      (i ∉ L ∪ dom (f_inodes s) -> disk_inode (Begin (f_a s)) i ip);
  fi_clean : forall i, ino_ok (f_a s) i -> i ∉ dom (f_inodes s) ->
    iobj (f_a s) i = iobj (Begin (f_a s)) i;
}.

(** The server between transactions. *)
Record srv_inv s : Prop := {
  si_quiet : quiet_inv (f_a s);
  si_bitmap : bitmap_ok (f_a s);
  si_zero : quiet_zero (f_a s);
  si_cache : cache_inv (f_icache s);
  si_held : held (f_lockmap s) = L;
  si_next : forall p, is_Some (f_heap s !! p) -> p < f_next s;
  si_slot : forall i p, (i, Some p) ∈ cache_abs (f_icache s) ->
    ino_ok (f_a s) i /\ exists ip, f_heap s !! p = Some ip /\ i_Inum ip = i /\
      (i ∉ L -> disk_inode (Begin (f_a s)) i ip);
}.

(** ** Rules *)

Lemma wp_on_a {A} (m : M ASt A) s (Q : A -> FSt -> Prop) :
  wp m (f_a s) (fun r a => Q r (fset_a a s)) -> wp (on_a m) s Q.
Proof. apply wp_zoom. Qed.

Lemma wp_on_ip {A} p ip (m : M ISt A) s (Q : A -> FSt -> Prop) : f_heap s !! p = Some ip ->
  wp m (ip, f_a s) (fun r t => Q r (fset_a t.2 (fset_heap (<[p := t.1]> (f_heap s)) s))) ->
  wp (on_ip p m) s Q.
Proof.
  intros Hp (r & [ip' a'] & Hm & HQ). exists r. eexists. split; [|exact HQ].
  unfold on_ip. by rewrite Hp, Hm.
Qed.

Lemma fset_id p ip s : f_heap s !! p = Some ip -> fset_a (f_a s) (fset_heap (<[p := ip]> (f_heap s)) s) = s.
Proof. intros Hp. rewrite insert_id by done. by destruct s. Qed.

Lemma wp_ip_field {A} p ip (f : Inode -> A) s (Q : A -> FSt -> Prop) : f_heap s !! p = Some ip ->
  Q (f ip) s -> wp (ip_field p f) s Q.
Proof.
  intros Hp HQ. apply (wp_on_ip p ip); [done|]. apply wp_ip_get. simpl.
  by rewrite fset_id.
Qed.

(** ** Begin *)

Definition after_Begin s : FSt := fset_inodes ∅ (fset_a (Begin (f_a s)) s).

Lemma f_a_after_Begin s : f_a (after_Begin s) = Begin (f_a s).
Proof. done. Qed.

Lemma f_lockmap_after_Begin s : f_lockmap (after_Begin s) = f_lockmap s.
Proof. done. Qed.

Lemma Begin_inv s : srv_inv s -> fs_inv (f_a s) (after_Begin s).
Proof.
  intros Hs. pose proof (Begin_from _ (si_quiet _ Hs)) as Hf. split; simpl.
  - done.
  - apply Begin_zero, Hs.
  - apply Hs.
  - rewrite (si_held _ Hs). set_solver.
  - set_solver.
  - apply Hs.
  - done.
  - intros i p Hin. destruct (si_slot _ Hs i p Hin) as (Hi & ip & Hp & Hn & Hd).
    split; [done|]. exists ip. split_and!; [done|done|set_solver|]. intros Hni. apply Hd. set_solver.
  - done.
Qed.

Lemma wp_FsBegin s (Q : unit -> FSt -> Prop) : srv_inv s ->
  (fs_inv (f_a s) (after_Begin s) -> Q tt (after_Begin s)) -> wp FsBegin s Q.
Proof. intros Hs HQ. unfold FsBegin. wp_steps. by apply HQ, Begin_inv. Qed.

(** ** Release *)

Lemma wp_ReleaseInode s p ip (Q : unit -> FSt -> Prop) : f_heap s !! p = Some ip ->
  i_Inum ip ∈ held (f_lockmap s) ->
  (forall lm, held lm = held (f_lockmap s) ∖ {[i_Inum ip]} ->
     Q tt (fset_lockmap lm (fset_inodes (delete (i_Inum ip) (f_inodes s)) s))) ->
  wp (ReleaseInode p) s Q.
Proof.
  intros Hp Hh HQ. unfold ReleaseInode, doneInode.
  apply wp_bind, wp_bind, (wp_ip_field p ip); [done|]. wp_steps.
  apply (wp_ip_field p ip); [done|]. wp_steps. destruct (Release_held _ _ Hh) as (lm & Hr & Hlm).
  eapply wp_lift; [exact Hr|]. wp_steps. by apply HQ.
Qed.

Lemma wp_release_list (l : list (Z * Z)) s (Q : unit -> FSt -> Prop) : NoDup l.*1 ->
  (forall i p, (i, p) ∈ l -> exists ip, f_heap s !! p = Some ip /\ i_Inum ip = i) ->
  list_to_set l.*1 ⊆ held (f_lockmap s) ->
  (forall lm m, held lm = held (f_lockmap s) ∖ list_to_set l.*1 ->
     (forall i, m !! i = if bool_decide (i ∈ l.*1) then None else f_inodes s !! i) ->
     Q tt (fset_lockmap lm (fset_inodes m s))) ->
  wp (release_list l.*2) s Q.
Proof.
  revert s. induction l as [|[i p] l IH]; intros s Hnd Hl Hh HQ; csimpl.
  - apply wp_ret. specialize (HQ (f_lockmap s) (f_inodes s)). destruct s. apply HQ; [set_solver|done].
  - csimpl in *. apply NoDup_cons in Hnd as [Hi Hnd].
    destruct (Hl i p) as (ip & Hp & Hip); [by left|].
    apply wp_bind, (wp_ReleaseInode s p ip); [done|set_solver|]. rewrite Hip. intros lm Hlm.
    apply IH; [done|..]; simpl.
    + intros j q Hj. apply Hl. by right.
    + rewrite Hlm. intros j Hj. apply elem_of_difference. split; [set_solver|].
      intros ->%elem_of_singleton. by apply elem_of_list_to_set in Hj.
    + intros lm' m Hlm' Hm. specialize (HQ lm' m). simpl in HQ. apply HQ.
      * rewrite Hlm', Hlm. set_solver.
      * intros j. rewrite Hm. destruct (decide (j = i)) as [->|Hne].
        { rewrite lookup_delete_eq. rewrite (bool_decide_eq_true_2 (i ∈ i :: l.*1)) by (by left).
          by case_bool_decide. }
        rewrite lookup_delete_ne by done.
        assert (bool_decide (j ∈ i :: l.*1) = bool_decide (j ∈ l.*1)) as ->; [|done].
        apply bool_decide_ext. set_solver.
Qed.

Lemma map_list_keys (m : gmap Z Z) : list_to_set (map_to_list m).*1 = dom m.
Proof. apply leibniz_equiv. by rewrite dom_alt. Qed.

Lemma wp_releaseInodes s (Q : unit -> FSt -> Prop) :
  (forall i p, f_inodes s !! i = Some p -> exists ip, f_heap s !! p = Some ip /\ i_Inum ip = i) ->
  dom (f_inodes s) ⊆ held (f_lockmap s) ->
  (forall lm, held lm = held (f_lockmap s) ∖ dom (f_inodes s) ->
     Q tt (fset_lockmap lm (fset_inodes ∅ s))) ->
  wp releaseInodes s Q.
Proof.
  intros Ho Hh HQ. unfold releaseInodes. wp_steps. rewrite <-map_list_keys in Hh.
  apply wp_release_list; [apply NoDup_fst_map_to_list| |done|].
  - intros i p Hin%elem_of_map_to_list. auto.
  - intros lm m Hlm Hm. rewrite map_list_keys in Hlm. specialize (HQ lm Hlm).
    assert (m = ∅) as ->; [|done]. apply map_empty. intros i. rewrite Hm. case_bool_decide as Hi; [done|].
    destruct (f_inodes s !! i) as [p|] eqn:Hp; [|done]. exfalso. apply Hi.
    apply list_elem_of_fmap. exists (i, p). split; [done|]. by apply elem_of_map_to_list.
Qed.

(** ** Locking an inode *)

Lemma Begin_same a a' i : a_super a' = a_super a -> a_log a' = a_log a ->
  iobj (Begin a') i = iobj (Begin a) i.
Proof. intros Hs Hl. unfold iobj. rewrite !Begin_obj. simpl. by rewrite Hs, Hl. Qed.

Lemma Begin_disk_inode a a' i ip : a_super a' = a_super a -> a_log a' = a_log a ->
  disk_inode (Begin a) i ip -> disk_inode (Begin a') i ip.
Proof. intros Hs Hl [Hw Hi Hb]. split; [done..|]. by rewrite (Begin_same a a'). Qed.

Lemma fs_held_own a0 s : fs_inv a0 s -> dom (f_inodes s) ⊆ held (f_lockmap s).
Proof. intros Hs. rewrite (fi_held _ _ Hs). set_solver. Qed.

Lemma fs_inv_lock a0 s s' i p ip : fs_inv a0 s -> ino_ok (f_a s) i -> i ∉ L ∪ dom (f_inodes s) ->
  grow (f_a s) (f_a s') -> sim (f_a s) (f_a s') ->
  held (f_lockmap s') = {[i]} ∪ held (f_lockmap s) ->
  f_inodes s' = <[i := p]> (f_inodes s) -> cache_inv (f_icache s') ->
  (forall i' q, (i', Some q) ∈ cache_abs (f_icache s') ->
     (i' = i /\ q = p) \/ (i' <> i /\ (i', Some q) ∈ cache_abs (f_icache s))) ->
  f_heap s' !! p = Some ip -> i_Inum ip = i ->
  (forall q, is_Some (f_heap s !! q) -> f_heap s' !! q = f_heap s !! q) ->
  (forall q, is_Some (f_heap s' !! q) -> q < f_next s') ->
  fs_inv a0 s'.
Proof.
  intros Hs Hi Hni Hg Hsim Hh Hin Hc Hsl Hp Hip Hk Hn.
  pose proof (gr_super _ _ Hg) as Hsp. pose proof (gr_log _ _ Hg) as Hlg.
  assert (forall j, ino_ok (f_a s') j <-> ino_ok (f_a s) j) as Hino by (intros j; unfold ino_ok; by rewrite Hsp).
  assert (forall j q iq, f_heap s !! q = Some iq -> i_Inum iq = j ->
    exists iq, f_heap s' !! q = Some iq /\ i_Inum iq = j) as Hkeep.
  { intros j q iq Hq Hj. exists iq. split; [|done]. rewrite Hk; eauto. }
  split.
  - by apply (gr_from _ _ Hg), Hs.
  - apply Hg.
  - done.
  - rewrite Hh, Hin, dom_insert_L, (fi_held _ _ Hs). set_solver.
  - rewrite Hin, dom_insert_L. pose proof (fi_disj _ _ Hs). set_solver.
  - done.
  - intros j q. rewrite Hin, Hino. intros [[<- <-]|[Hne Hj]]%lookup_insert_Some; [eauto|].
    destruct (fi_own _ _ Hs j q Hj) as (Hj' & iq & Hq & Hiq). eauto.
  - intros j q Hjq. rewrite Hino, Hin, dom_insert_L. destruct (Hsl j q Hjq) as [[-> ->]|[Hne Hold]].
    + split; [done|]. exists ip. rewrite lookup_insert_eq. split_and!; [done..|set_solver].
    + destruct (fi_slot _ _ Hs j q Hold) as (Hj & iq & Hq & Hiq & Hown & Hd). split; [done|].
      exists iq. rewrite Hk by eauto. split_and!; [done|done| |].
      * intros Hjd. rewrite lookup_insert_ne by done. apply Hown. set_solver.
      * intros Hjd. apply (Begin_disk_inode (f_a s)); [done..|]. apply Hd. set_solver.
  - intros j Hj%Hino. rewrite Hin, dom_insert_L. intros Hjd.
    rewrite (sim_iobj _ _ Hsim), (Begin_same (f_a s)) by done. apply (fi_clean _ _ Hs); [done|set_solver].
Qed.

(** The cache refers to the inode at [p]. *)
Definition cached s i p : Prop := (i, Some p) ∈ cache_abs (f_icache s).

(** [p] is new in [s'], with no name cache. *)
Definition fresh s s' p : Prop := f_heap s !! p = None /\
  exists ip, f_heap s' !! p = Some ip /\ i_Dcache ip = None.

(** What locking inode [i] gives: its in-memory inode [ip] at [p], equal to
    the one on disk. *)
Record got s i p ip s' : Prop := {
  go_sim : sim (f_a s) (f_a s');
  go_grow : grow (f_a s) (f_a s');
  go_balloc : a_balloc (f_a s') = a_balloc (f_a s);
  go_inodes : f_inodes s' = <[i := p]> (f_inodes s);
  go_heap : f_heap s' !! p = Some ip;
  go_keep : forall q, is_Some (f_heap s !! q) -> f_heap s' !! q = f_heap s !! q;
  go_disk : disk_inode (f_a s') i ip;
  go_refs : forall j q, cached s' j q -> cached s j q \/ fresh s s' q;
  go_ref : cached s i p \/ fresh s s' p;
}.

Lemma wp_LockInode a0 s i (Q : Z -> FSt -> Prop) : fs_inv a0 s -> i ∉ L ∪ dom (f_inodes s) ->
  (forall lm c ep, held lm = {[i]} ∪ held (f_lockmap s) -> cache_inv c -> c_entries c !! i = Some ep ->
     (forall i' v, (i', v) ∈ cache_abs c -> (i', v) ∈ cache_abs (f_icache s) \/ v = None) ->
     Q ep (fset_icache c (fset_lockmap lm s))) ->
  wp (LockInode i) s Q.
Proof.
  intros Hs Hni HQ. unfold LockInode. wp_steps. rewrite <-(fi_held _ _ Hs) in Hni.
  destruct (Acquire_free _ _ Hni) as (lm & -> & Hlm). wp_steps. apply wp_zoom. simpl.
  eapply wp_mono; [apply LookupSlot_slots, (fi_cache _ _ Hs)|].
  intros ep c (Hc & Hep & Hsl). by apply HQ.
Qed.

Lemma cache_abs_fun (c : Cache Z) i v v' : cache_inv c -> (i, v) ∈ cache_abs c -> (i, v') ∈ cache_abs c -> v = v'.
Proof.
  intros Hc (ep & e & ? & ? & <-)%cache_abs_elem (ep' & e' & ? & ? & <-)%cache_abs_elem; [|done..].
  congruence.
Qed.

Lemma wp_addInode s p ip (Q : unit -> FSt -> Prop) : f_heap s !! p = Some ip ->
  Q tt (fset_inodes (<[i_Inum ip := p]> (f_inodes s)) s) -> wp (addInode p) s Q.
Proof.
  intros Hp HQ. unfold addInode. apply wp_bind, (wp_ip_field p ip); [done|]. by wp_steps.
Qed.

Lemma wp_GetInodeLocked a0 s i ipd (Q : Z -> FSt -> Prop) : fs_inv a0 s -> ino_ok (f_a s) i ->
  i ∉ L ∪ dom (f_inodes s) -> disk_inode (f_a s) i ipd ->
  (forall p ip s', fs_inv a0 s' -> got s i p ip s' -> Q p s') ->
  wp (GetInodeLocked i) s Q.
Proof.
  intros Hs Hi Hni Hd HQ. pose proof (af_inv _ _ (fi_from _ _ Hs)) as Hinv.
  pose proof (fi_zero _ _ Hs) as Hz. unfold GetInodeLocked.
  apply wp_bind, (wp_LockInode a0); [done..|]. intros lm c ep Hlm Hc Hep Hsl.
  apply wp_bind, wp_zoom. simpl. eapply wp_slot_get; [exact Hc|exact Hep|]. intros v Hv.
  change (fset_icache c (fset_icache c ?t)) with (fset_icache c t).
  destruct v as [p|].
  - destruct (Hsl _ _ Hv) as [Hold|]; [|done].
    destruct (fi_slot _ _ Hs _ _ Hold) as (_ & ip & Hp & Hip & _ & Hdi). specialize (Hdi Hni).
    apply wp_bind, wp_ret. simpl. apply wp_bind, (wp_addInode _ p ip); [done|]. apply wp_ret.
    rewrite Hip. apply (HQ p ip).
    + eapply (fs_inv_lock a0 s _ i p ip); [done..|apply grow_refl; done|by apply sim_refl|exact Hlm|done|exact Hc| |done|done|done|apply Hs].
      intros j q Hj. destruct (decide (j = i)) as [->|Hne].
      * left. split; [done|]. pose proof (cache_abs_fun _ _ _ _ Hc Hv Hj). congruence.
      * right. split; [done|]. by destruct (Hsl _ _ Hj).
    + split; simpl; [by apply sim_refl|by apply grow_refl|done..| |intros j q Hj|by left].
      * destruct Hdi as [Hw _ Hb]. split; [done..|]. rewrite <-Hb. apply (fi_clean _ _ Hs); [done|set_solver].
      * left. by destruct (Hsl _ _ Hj).
  - apply wp_bind, wp_bind, wp_get. simpl.
    set (o' := ReadBuf (a_log (f_a s)) (a_op (f_a s)) (Inum2Addr (a_super (f_a s)) i) (INODESZ * 8)).
    assert (op_bufs o' = load (a_log (f_a s)) (op_bufs (a_op (f_a s))) (Inum2Addr (a_super (f_a s)) i)
      (INODESZ * 8)) as Ho' by (unfold o', load; by rewrite ReadBuf_bufs).
    destruct (inode_load _ _ _ Hinv Hz Hi Ho') as (Hsim & Hg & Hdata).
    apply wp_bind, wp_on_a, wp_modify. simpl. apply wp_bind, wp_on_a. unfold data_of.
    apply wp_gets. simpl. fold o'. rewrite Hdata. apply wp_bind.
    eapply wp_lift; [by apply disk_inode_Decode|]. unfold new_inode.
    apply wp_bind. wp_steps. apply wp_zoom. simpl.
    set (ip := with_Dcache None ipd). set (p := f_next s).
    eapply wp_slot_set; [exact Hc|exact Hep|]. intros c' Hc' Hsl'. wp_steps.
    apply (wp_addInode _ p ip); [simpl; by rewrite lookup_insert_eq|]. apply wp_ret. simpl.
    assert (i_Inum ip = i) as Hip by apply (di_Inum _ _ _ Hd).
    rewrite (di_Inum _ _ _ Hd).
    assert (f_heap s !! p = None) as Hfresh.
    { destruct (f_heap s !! p) as [q|] eqn:Hq; [|done].
      pose proof (fi_next _ _ Hs p ltac:(eauto)). unfold p in *. lia. }
    assert (forall q, is_Some (f_heap s !! q) -> <[p := ip]> (f_heap s) !! q = f_heap s !! q) as Hk.
    { intros q [iq Hq]. rewrite lookup_insert_ne; [done|]. congruence. }
    apply (HQ p ip).
    + eapply (fs_inv_lock a0 s _ i p ip); simpl; [done..|exact Hg|exact Hsim|exact Hlm|done|exact Hc'| |by rewrite lookup_insert_eq|done|exact Hk|].
      * intros j q Hj. destruct (Hsl' _ _ Hj) as [[-> [= ->]]|[Hne Hj']]; [by left|right].
        split; [done|]. by destruct (Hsl _ _ Hj').
      * intros q. destruct (decide (q = p)) as [->|Hne]; [intros _; unfold p; lia|].
        rewrite lookup_insert_ne by done. intros Hq. pose proof (fi_next _ _ Hs q Hq). lia.
    + match goal with |- got _ _ _ _ ?t => assert (fresh s t p) as Hfr end.
      { split; [done|]. exists ip. simpl. by rewrite lookup_insert_eq. }
      split; simpl; [exact Hsim|exact Hg|done|done|by rewrite lookup_insert_eq|exact Hk| | |by right].
      * destruct (sim_disk_inode _ _ _ _ Hi Hsim Hd) as [Hw Hn Hb].
        split; [|exact Hn|exact Hb]. unfold ip. destruct Hw. by split.
      * intros j q Hj. destruct (Hsl' _ _ Hj) as [[-> [= ->]]|[Hne Hj']]; [by right|left].
        by destruct (Hsl _ _ Hj').
Qed.

(** ** Releasing an inode that was not changed *)

Lemma fs_inv_release a0 s lm i p ip : fs_inv a0 s -> f_inodes s !! i = Some p ->
  f_heap s !! p = Some ip -> disk_inode (f_a s) i ip ->
  iobj (f_a s) i = iobj (Begin (f_a s)) i ->
  held lm = held (f_lockmap s) ∖ {[i]} ->
  fs_inv a0 (fset_lockmap lm (fset_inodes (delete i (f_inodes s)) s)).
Proof.
  intros Hs Hin Hp Hd Hcl Hlm. assert (i ∈ dom (f_inodes s)) as Hidom by (by eapply elem_of_dom_2).
  pose proof (fi_disj _ _ Hs) as Hdj. split; simpl; try apply Hs.
  - rewrite Hlm, (fi_held _ _ Hs), dom_delete_L. set_solver.
  - rewrite dom_delete_L. set_solver.
  - intros j q [_ Hj]%lookup_delete_Some. by apply (fi_own _ _ Hs).
  - intros j q Hjq. destruct (fi_slot _ _ Hs j q Hjq) as (Hj & iq & Hq & Hiq & Hown & Hdj').
    split; [done|]. exists iq. rewrite dom_delete_L. split_and!; [done|done| |].
    + intros [Hjd Hne]%elem_of_difference. rewrite lookup_delete_ne by set_solver. by apply Hown.
    + intros Hjn. destruct (decide (j = i)) as [->|Hne]; [|apply Hdj'; set_solver].
      rewrite (Hown Hidom) in Hin. simplify_eq. destruct Hd as [Hw Hn Hb]. split; [done..|congruence].
  - intros j Hj. rewrite dom_delete_L. intros Hjn. destruct (decide (j = i)) as [->|Hne]; [done|].
    apply (fi_clean _ _ Hs); [done|set_solver].
Qed.

(** What a lookup that found no inode leaves. *)
Record back s s' : Prop := {
  bk_sim : sim (f_a s) (f_a s');
  bk_grow : grow (f_a s) (f_a s');
  bk_balloc : a_balloc (f_a s') = a_balloc (f_a s);
  bk_inodes : f_inodes s' = f_inodes s;
  bk_keep : forall q, is_Some (f_heap s !! q) -> f_heap s' !! q = f_heap s !! q;
  bk_refs : forall j q, cached s' j q -> cached s j q \/ fresh s s' q;
}.

Lemma got_clean a0 s i p ip s' : fs_inv a0 s -> ino_ok (f_a s) i -> i ∉ L ∪ dom (f_inodes s) ->
  got s i p ip s' -> iobj (f_a s') i = iobj (Begin (f_a s')) i.
Proof.
  intros Hs Hi Hni Hg. rewrite (sim_iobj _ _ (go_sim _ _ _ _ _ Hg)) by done.
  rewrite (Begin_same (f_a s)) by apply (go_grow _ _ _ _ _ Hg). apply (fi_clean _ _ Hs); [done|set_solver].
Qed.

Lemma wp_release_clean a0 s i p ip (Q : unit -> FSt -> Prop) : fs_inv a0 s -> f_inodes s !! i = Some p ->
  f_heap s !! p = Some ip -> disk_inode (f_a s) i ip -> iobj (f_a s) i = iobj (Begin (f_a s)) i ->
  (forall lm, let s' := fset_lockmap lm (fset_inodes (delete i (f_inodes s)) s) in
     fs_inv a0 s' -> Q tt s') ->
  wp (ReleaseInode p) s Q.
Proof.
  intros Hs Hin Hp Hd Hcl HQ. pose proof (di_Inum _ _ _ Hd) as Hip.
  apply (wp_ReleaseInode s p ip); [done| |]; rewrite Hip.
  - apply (fs_held_own a0 s Hs). by eapply elem_of_dom_2.
  - intros lm Hlm. apply HQ. by apply (fs_inv_release a0 s lm i p ip).
Qed.

Lemma wp_release_got a0 s i p ip s' (Q : unit -> FSt -> Prop) : fs_inv a0 s -> ino_ok (f_a s) i ->
  i ∉ L ∪ dom (f_inodes s) -> fs_inv a0 s' -> got s i p ip s' ->
  (forall s'', fs_inv a0 s'' -> back s s'' -> Q tt s'') ->
  wp (ReleaseInode p) s' Q.
Proof.
  intros Hs Hi Hni Hs' Hg HQ.
  apply (wp_release_clean a0 s' i p ip); [done|by rewrite (go_inodes _ _ _ _ _ Hg), lookup_insert_eq|apply Hg..| |].
  { by apply (got_clean a0 s i p ip). }
  intros lm s'' Hs''. apply HQ; [done|].
  destruct Hg as [Hsim Hgr Hba Hino _ Hk _ Hr _]. split; simpl; [done..| |done|done].
  rewrite Hino. apply delete_insert_id. apply not_elem_of_dom. set_solver.
Qed.

(** An inode in use has a link. *)
Definition linked ip : Prop := i_Kind ip <> NF3FREE -> i_Nlink ip <> 0.

Lemma with_Dcache_None_eq {A} (f : Inode -> A) ip ip' :
  (forall d x, f (with_Dcache d x) = f x) ->
  with_Dcache None ip = with_Dcache None ip' -> f ip = f ip'.
Proof. intros Hf Heq. rewrite <-(Hf None ip), <-(Hf None ip'). by rewrite Heq. Qed.

Lemma got_same s i ipd p ip s' : disk_inode (f_a s) i ipd -> ino_ok (f_a s) i -> got s i p ip s' ->
  with_Dcache None ip = with_Dcache None ipd.
Proof.
  intros Hd Hi Hg. eapply disk_inode_inj; [apply Hg|]. eapply sim_disk_inode; [done|apply Hg|done].
Qed.

Lemma wp_GetInodeInum a0 s i ipd (Q : option Z -> FSt -> Prop) : fs_inv a0 s -> ino_ok (f_a s) i ->
  i ∉ L ∪ dom (f_inodes s) -> disk_inode (f_a s) i ipd -> linked ipd ->
  (forall p ip s', i_Kind ipd <> NF3FREE -> fs_inv a0 s' -> got s i p ip s' -> Q (Some p) s') ->
  (forall s', i_Kind ipd = NF3FREE -> fs_inv a0 s' -> back s s' -> Q None s') ->
  wp (GetInodeInum i) s Q.
Proof.
  intros Hs Hi Hni Hd Hlk HQ HQ0. unfold GetInodeInum, GetInodeInumFree.
  apply wp_bind, (wp_GetInodeLocked a0 s i ipd); [done..|]. intros p ip s' Hs' Hg.
  pose proof (got_same _ _ _ _ _ _ Hd Hi Hg) as Heq.
  pose proof (with_Dcache_None_eq i_Kind _ _ (fun _ _ => eq_refl) Heq) as Hk.
  pose proof (with_Dcache_None_eq i_Nlink _ _ (fun _ _ => eq_refl) Heq) as Hnl.
  pose proof (go_heap _ _ _ _ _ Hg) as Hp.
  apply wp_bind, (wp_ip_field p ip); [done|]. case_bool_decide as Hfree.
  - apply wp_bind, (wp_release_got a0 s i p ip); [done..|]. intros s'' Hs'' Hb. apply wp_ret.
    apply HQ0; [congruence|done|done].
  - apply wp_bind, (wp_ip_field p ip); [done|]. rewrite bool_decide_eq_false_2.
    + apply wp_ret. apply (HQ p ip); [congruence|done|done].
    + rewrite Hnl. apply Hlk. congruence.
Qed.

Lemma wp_GetInodeFh a0 s fh3 fh ipd (Q : option Z -> FSt -> Prop) : fs_inv a0 s ->
  MakeFh fh3 = Ok fh -> ino_ok (f_a s) (Ino fh) ->
  Ino fh ∉ L ∪ dom (f_inodes s) -> disk_inode (f_a s) (Ino fh) ipd -> linked ipd ->
  (forall p ip s', i_Kind ipd <> NF3FREE -> i_Gen ipd = Gen fh -> fs_inv a0 s' ->
     got s (Ino fh) p ip s' -> Q (Some p) s') ->
  (forall s', i_Kind ipd = NF3FREE \/ i_Gen ipd <> Gen fh -> fs_inv a0 s' -> back s s' -> Q None s') ->
  wp (GetInodeFh fh3) s Q.
Proof.
  intros Hs Hfh Hi Hni Hd Hlk HQ HQ0. unfold GetInodeFh. apply wp_bind. eapply wp_lift; [exact Hfh|].
  apply wp_bind, (wp_GetInodeInum a0 s _ ipd); [done..| |].
  - intros p ip s' Hk Hs' Hg. pose proof (got_same _ _ _ _ _ _ Hd Hi Hg) as Heq.
    pose proof (with_Dcache_None_eq i_Gen _ _ (fun _ _ => eq_refl) Heq) as Hgen.
    apply wp_bind, (wp_ip_field p ip); [apply Hg|]. case_bool_decide as Hne.
    + apply wp_bind, (wp_release_got a0 s (Ino fh) p ip); [done..|]. intros s'' Hs'' Hb. apply wp_ret.
      apply HQ0; [right; congruence|done|done].
    + apply wp_ret. apply (HQ p ip); [done| |done|done]. rewrite <-Hgen. destruct (decide (i_Gen ip = Gen fh)); tauto.
  - intros s' Hk Hs' Hb. apply wp_ret. apply HQ0; [by left|done|done].
Qed.

(** ** The name caches *)

(** The inode at [p] is reachable: it is locked by this transaction, or cached
    and not locked by another one. *)
Definition reach s i p : Prop := f_inodes s !! i = Some p \/ (cached s i p /\ i ∉ L).

Lemma reach_heap a0 s i p : fs_inv a0 s -> reach s i p -> exists ip, f_heap s !! p = Some ip /\ i_Inum ip = i.
Proof.
  intros Hs [Ho|[Hc _]].
  - by destruct (fi_own _ _ Hs i p Ho) as (_ & ip & ? & ?); eauto.
  - by destruct (fi_slot _ _ Hs i p Hc) as (_ & ip & ? & ? & _); eauto.
Qed.

(** [s'] has the name caches of [s], and new inodes without one. *)
Definition kept s s' : Prop := forall i p ip', reach s' i p -> f_heap s' !! p = Some ip' ->
  i_Dcache ip' = None \/ exists ip, reach s i p /\ f_heap s !! p = Some ip /\
    i_Dcache ip' = i_Dcache ip /\ (i_Kind ip' = NF3DIR -> i_Kind ip = NF3DIR).

Lemma kept_refl s : kept s s.
Proof. intros i p ip Hr Hp. right. by exists ip. Qed.

Lemma kept_trans s1 s2 s3 : kept s1 s2 -> kept s2 s3 -> kept s1 s3.
Proof.
  intros Hk1 Hk2 i p ip3 Hr3 Hp3. destruct (Hk2 i p ip3 Hr3 Hp3) as [|(ip2 & Hr2 & Hp2 & Hd2 & Hn2)]; [by left|].
  destruct (Hk1 i p ip2 Hr2 Hp2) as [Hd1|(ip1 & Hr1 & Hp1 & Hd1 & Hn1)]; [left; congruence|right].
  exists ip1. split_and!; [done|done|congruence|auto].
Qed.

Lemma kept_refs a0 s s' : fs_inv a0 s -> (forall q, is_Some (f_heap s !! q) -> f_heap s' !! q = f_heap s !! q) ->
  (forall i p, reach s' i p -> reach s i p \/ fresh s s' p) -> kept s s'.
Proof.
  intros Hs Hkeep Hr i p ip' Hr' Hp'. destruct (Hr i p Hr') as [Hr0|[_ (ip & Hp & Hd)]]; [right|left; congruence].
  destruct (reach_heap a0 s i p Hs Hr0) as (ip & Hp & _). rewrite Hkeep in Hp' by eauto. exists ip'. eauto.
Qed.

Lemma got_kept a0 s i p ip s' : fs_inv a0 s -> i ∉ L -> got s i p ip s' -> kept s s'.
Proof.
  intros Hs HL Hg. apply (kept_refs a0); [done|apply Hg|]. intros j q [Ho|[Hc Hj]].
  - rewrite (go_inodes _ _ _ _ _ Hg) in Ho. apply lookup_insert_Some in Ho as [[<- <-]|[_ Ho]]; [|by left; left].
    destruct (go_ref _ _ _ _ _ Hg); [left; by right|by right].
  - destruct (go_refs _ _ _ _ _ Hg j q Hc); [left; by right|by right].
Qed.

Lemma back_kept a0 s s' : fs_inv a0 s -> back s s' -> kept s s'.
Proof.
  intros Hs Hb. apply (kept_refs a0); [done|apply Hb|]. intros j q [Ho|[Hc Hj]].
  - left. left. by rewrite <-(bk_inodes _ _ Hb).
  - destruct (bk_refs _ _ Hb j q Hc); [left; by right|by right].
Qed.

(** A change of one inode that spares its name cache. *)
Lemma kept_update s p ip ip' a : f_heap s !! p = Some ip -> i_Dcache ip' = i_Dcache ip ->
  (i_Kind ip' = NF3DIR -> i_Kind ip = NF3DIR) ->
  kept s (fset_a a (fset_heap (<[p := ip']> (f_heap s)) s)).
Proof.
  intros Hp Hd Hk i q iq Hr Hq. right. simpl in Hq. destruct (decide (q = p)) as [->|Hne].
  - rewrite lookup_insert_eq in Hq. injection Hq as <-. by exists ip.
  - rewrite lookup_insert_ne in Hq by done. by exists iq.
Qed.

(** Releasing inodes, with the heap and the cache as they are. *)
Lemma kept_release s s' : f_heap s' = f_heap s -> f_icache s' = f_icache s -> f_inodes s' ⊆ f_inodes s ->
  kept s s'.
Proof.
  intros Hh Hc Hi i p ip Hr Hp. right. exists ip. rewrite <-Hh. split; [|done].
  destruct Hr as [Ho|[Hca Hn]]; [left; by eapply lookup_weaken|right]. unfold cached in *. by rewrite <-Hc.
Qed.

(** ** Operations on a locked inode *)

Lemma got_eq s i ipd p ip s' : disk_inode (f_a s) i ipd -> ino_ok (f_a s) i -> got s i p ip s' ->
  ip = with_Dcache (i_Dcache ip) ipd.
Proof.
  intros Hd Hi Hg. pose proof (got_same _ _ _ _ _ _ Hd Hi Hg) as Heq.
  destruct ip, ipd. unfold with_Dcache in *. simpl in *. congruence.
Qed.

(** The transaction after a method of a locked inode left [ip'] and [a']. *)
Lemma fs_inv_set a0 s i p ip ip' a' : fs_inv a0 s -> f_inodes s !! i = Some p ->
  f_heap s !! p = Some ip -> i_Inum ip = i -> i_Inum ip' = i ->
  atxn_from a0 a' -> zero_inv a' -> a_super a' = a_super (f_a s) -> a_log a' = a_log (f_a s) ->
  (forall j, ino_ok (f_a s) j -> j <> i -> iobj a' j = iobj (f_a s) j) ->
  fs_inv a0 (fset_a a' (fset_heap (<[p := ip']> (f_heap s)) s)).
Proof.
  intros Hs Hin Hp Hip Hip' Hf Hz Hsp Hlg Hother.
  assert (forall j, ino_ok a' j <-> ino_ok (f_a s) j) as Hino by (intros j; unfold ino_ok; by rewrite Hsp).
  assert (forall j q iq, f_heap s !! q = Some iq -> i_Inum iq = j ->
    exists iq', <[p := ip']> (f_heap s) !! q = Some iq' /\ i_Inum iq' = j /\ (j <> i -> iq' = iq)) as Hkeep.
  { intros j q iq Hq Hj. destruct (decide (q = p)) as [->|Hne].
    - exists ip'. rewrite lookup_insert_eq. simplify_eq. split_and!; [done|congruence|done].
    - exists iq. by rewrite lookup_insert_ne. }
  split; simpl; try apply Hs; [done|done|..].
  - intros q. destruct (decide (q = p)) as [->|Hne].
    + intros _. apply (fi_next _ _ Hs). by rewrite Hp.
    + rewrite lookup_insert_ne by done. apply Hs.
  - intros j q Hj. rewrite Hino. destruct (fi_own _ _ Hs j q Hj) as (Hjo & iq & Hq & Hiq).
    split; [done|]. destruct (Hkeep j q iq Hq Hiq) as (iq' & ? & ? & _). eauto.
  - intros j q Hjq. rewrite Hino. destruct (fi_slot _ _ Hs j q Hjq) as (Hjo & iq & Hq & Hiq & Hown & Hd).
    split; [done|]. destruct (Hkeep j q iq Hq Hiq) as (iq' & Hq' & Hi' & Hsame). exists iq'.
    split_and!; [done|done|done|]. intros Hni. rewrite Hsame.
    + apply (Begin_disk_inode (f_a s)); [done|done|by apply Hd].
    + intros ->. apply Hni. apply elem_of_union_r. by eapply elem_of_dom_2.
  - intros j Hj%Hino Hni. rewrite Hother.
    + rewrite (Begin_same (f_a s)); [by apply (fi_clean _ _ Hs)|done|done].
    + done.
    + intros ->. apply Hni. by eapply elem_of_dom_2.
Qed.

Lemma fs_inv_update a0 s i p ip ip' a' : fs_inv a0 s -> f_inodes s !! i = Some p ->
  f_heap s !! p = Some ip -> i_Inum ip = i -> i_Inum ip' = i -> grow (f_a s) a' ->
  (forall j, ino_ok (f_a s) j -> j <> i -> iobj a' j = iobj (f_a s) j) ->
  fs_inv a0 (fset_a a' (fset_heap (<[p := ip']> (f_heap s)) s)).
Proof.
  intros Hs Hin Hp Hip Hip' Hg.
  apply (fs_inv_set a0 s i p ip); [done..|by apply (gr_from _ _ Hg), Hs|apply Hg|apply Hg|apply Hg].
Qed.

(** ** Commit and abort *)

Lemma wp_inv {A S} (m : M S A) (t : S) Q : wp m t Q -> exists r t', m t = Ok (r, t') /\ Q r t'.
Proof. done. Qed.

(** Every inode of the transaction is on disk as it is in memory, in the
    transaction's view ... *)
Definition owned_synced s : Prop := forall i p ip, f_inodes s !! i = Some p ->
  f_heap s !! p = Some ip -> disk_inode (f_a s) i ip.

(** ... or in the log. *)
Definition owned_clean s : Prop := forall i p ip, f_inodes s !! i = Some p ->
  f_heap s !! p = Some ip -> disk_inode (Begin (f_a s)) i ip.

(** The server after the transaction [s], with atxn state [a']. *)
Definition ended s s' : Prop := exists lm, held lm = L /\
  s' = fset_lockmap lm (fset_inodes ∅ (fset_a (f_a s') s)).

Lemma ended_srv a0 s s' : fs_inv a0 s -> ended s s' -> quiet_inv (f_a s') -> bitmap_ok (f_a s') ->
  quiet_zero (f_a s') -> a_super (f_a s') = a_super (f_a s) ->
  (forall i ip, ino_ok (f_a s) i -> i ∉ dom (f_inodes s) -> disk_inode (Begin (f_a s)) i ip ->
     disk_inode (Begin (f_a s')) i ip) ->
  (forall i p ip, f_inodes s !! i = Some p -> f_heap s !! p = Some ip ->
     disk_inode (Begin (f_a s')) i ip) ->
  srv_inv s'.
Proof.
  intros Hs (lm & Hlm & He) Hq Hb Hz Hsp Hother Hown. set (a' := f_a s') in *. clearbody a'. subst s'.
  split; simpl; [done..|apply Hs|done|apply Hs|].
  intros i p Hip. destruct (fi_slot _ _ Hs i p Hip) as (Hi & ip & Hp & Hin & Hsame & Hd).
  split; [unfold ino_ok in *; by rewrite Hsp|]. exists ip. split_and!; [done|done|].
  intros HiL. destruct (decide (i ∈ dom (f_inodes s))) as [Hid|Hid].
  - apply (Hown i p); [by apply Hsame|done].
  - apply Hother; [done|done|]. apply Hd. set_solver.
Qed.

Lemma wp_end_release a0 s a' (Q : unit -> FSt -> Prop) : fs_inv a0 s ->
  (forall s', ended s s' -> f_a s' = a' -> Q tt s') -> wp releaseInodes (fset_a a' s) Q.
Proof.
  intros Hs HQ. apply wp_releaseInodes.
  - intros i p Hi. destruct (fi_own _ _ Hs i p Hi) as (_ & Hip). exact Hip.
  - exact (fs_held_own a0 s Hs).
  - simpl. intros lm Hlm. apply HQ; [|done]. exists lm. split; [|done].
    rewrite Hlm, (fi_held _ _ Hs). pose proof (fi_disj _ _ Hs). set_solver.
Qed.

(** [commitWait] runs the commit of [AtxnCommit] and releases every inode. *)
Lemma wp_commitWait_gen a0 s w (Q : bool -> FSt -> Prop) : fs_inv a0 s ->
  (forall ok s', commit_txn w (f_a s) = Ok (ok, f_a s') -> ended s s' -> Q ok s') ->
  wp (commitWait w) s Q.
Proof.
  intros Hs HQ. pose proof (af_inv _ _ (fi_from _ _ Hs)) as Hinv.
  destruct (wp_inv _ _ _ (wp_commit (f_a s) w (fun _ _ => True) Hinv (fun _ _ _ => I)))
    as (ok & a' & Hrun & _). pose proof Hrun as Hr. unfold commit_txn in Hr.
  apply M_bind_Ok in Hr as ([] & a1 & Hpre & Hr). apply M_bind_Ok in Hr as (ok' & a2 & Hcw & Hr).
  apply M_bind_Ok in Hr as ([] & a3 & Hpost & Hr). injection Hr as <- <-.
  unfold commitWait. apply wp_bind, wp_on_a. exists tt, a1. split; [exact Hpre|].
  apply wp_bind, wp_on_a. exists ok', a2. split; [exact Hcw|]. apply wp_bind, wp_bind.
  change (fset_a a2 (fset_a a1 s)) with (fset_a a2 s). apply (wp_end_release a0 s); [done|].
  intros s' (lm & Hlm & He) Ha2. apply wp_on_a. exists tt, a3. split; [by rewrite Ha2|]. apply wp_ret.
  apply HQ; [exact Hrun|]. exists lm. split; [done|]. by rewrite He.
Qed.

Lemma commit_ended a0 s s' w : fs_inv a0 s -> bitmap_ok a0 -> owned_synced s ->
  commit_txn w (f_a s) = Ok (true, f_a s') -> ended s s' ->
  srv_inv s' /\ sim (f_a s) (Begin (f_a s')).
Proof.
  intros Hs Hb Hsy Hr He. pose proof (af_inv _ _ (fi_from _ _ Hs)) as Hinv.
  eapply (wp_run _ _ _ _ (fun ok t => committed (f_a s) ok t)) in Hr as Hc; [|by apply wp_commit].
  destruct (commit_sim _ _ Hinv (fi_zero _ _ Hs) Hc) as [Hz Hsim]. split; [|done].
  apply (ended_srv a0 s); [done|done|apply Hc| |done|apply Hc| |].
  - apply (co_bitmap _ _ _ Hc); [done|]. eapply atxn_from_bitmap; [apply Hs|done].
  - intros i ip Hi Hni [Hw Hn Hbs]. eapply sim_disk_inode; [exact Hi|exact Hsim|].
    split; [done|done|]. by rewrite (fi_clean _ _ Hs).
  - intros i p ip Hi Hp. destruct (fi_own _ _ Hs i p Hi) as [Hio _].
    eapply sim_disk_inode; [exact Hio|exact Hsim|]. by eapply Hsy.
Qed.

Lemma wp_commitWait a0 s w (Q : bool -> FSt -> Prop) : fs_inv a0 s ->
  (forall ok s', commit_txn w (f_a s) = Ok (ok, f_a s') -> committed (f_a s) ok (f_a s') ->
     ended s s' -> (bitmap_ok a0 -> owned_synced s -> ok = true -> srv_inv s' /\ sim (f_a s) (Begin (f_a s'))) ->
     Q ok s') ->
  wp (commitWait w) s Q.
Proof.
  intros Hs HQ. apply (wp_commitWait_gen a0); [done|]. intros ok s' Hr He.
  pose proof (af_inv _ _ (fi_from _ _ Hs)) as Hinv. apply HQ; [done| |done|].
  - eapply (wp_run _ _ _ _ (fun ok t => committed (f_a s) ok t)); [|exact Hr]. by apply wp_commit.
  - intros Hb Hsy ->. by apply (commit_ended a0 s s' w).
Qed.

(** [Abort] releases every inode and undoes the allocations. *)
Lemma wp_Abort_gen a0 s (Q : bool -> FSt -> Prop) : fs_inv a0 s -> quiet_inv a0 -> quiet_zero a0 ->
  (forall s', ended s s' -> quiet_inv (f_a s') -> quiet_zero (f_a s') ->
     sim (Begin a0) (Begin (f_a s')) -> a_super (f_a s') = a_super a0 -> a_log (f_a s') = a_log a0 ->
     alloc_free (a_balloc (f_a s')) = alloc_free (a_balloc a0) ->
     alloc_free (a_ialloc (f_a s')) = alloc_free (a_ialloc a0) -> Q true s') ->
  wp Abort s Q.
Proof.
  intros Hs Hq Hz HQ. pose proof (fi_from _ _ Hs) as Hf. unfold Abort. apply wp_bind.
  assert (fset_a (f_a s) s = s) as Hid by (by destruct s). rewrite <-Hid at 1.
  apply (wp_end_release a0 s); [done|]. intros s1 (lm & Hlm & He) Ha. apply wp_bind, wp_on_a. rewrite Ha.
  eapply abort_from; [exact Hq|exact Hf|]. intros a' Hq' Hsp Hlg Hba Hia. apply wp_ret.
  destruct (Begin_sim a0 a' Hq' Hz Hsp Hlg Hba) as [Hz' Hsim].
  apply HQ; [|done..]. exists lm. split; [done|]. by rewrite He.
Qed.

Lemma wp_Abort a0 s (Q : bool -> FSt -> Prop) : fs_inv a0 s -> quiet_inv a0 -> bitmap_ok a0 ->
  quiet_zero a0 -> owned_clean s ->
  (forall s', ended s s' -> srv_inv s' -> sim (Begin a0) (Begin (f_a s')) ->
     a_log (f_a s') = a_log a0 -> alloc_free (a_ialloc (f_a s')) = alloc_free (a_ialloc a0) -> Q true s') ->
  wp Abort s Q.
Proof.
  intros Hs Hq Hb Hz Hcl HQ. pose proof (fi_from _ _ Hs) as Hf.
  apply (wp_Abort_gen a0); [done..|]. intros s' He Hq' Hz' Hsim Hsp Hlg Hba Hia.
  assert (a_super (f_a s') = a_super (f_a s)) as Hsp' by (by rewrite Hsp, (af_super _ _ Hf)).
  assert (a_log (f_a s') = a_log (f_a s)) as Hlg' by (by rewrite Hlg, (af_log _ _ Hf)).
  apply HQ; [done| |done|done|done].
  apply (ended_srv a0 s); [done|done|done| |done|done| |].
  - destruct Hb as [Hob Hoi]. unfold bitmap_ok. rewrite Hsp, Hlg, Hba, Hia. done.
  - intros i ip _ _. by apply Begin_disk_inode.
  - intros i p ip Hi Hp. apply (Begin_disk_inode (f_a s)); [done|done|]. by eapply Hcl.
Qed.
End inv.
