(* ===== verification/Dir.v ===== *)
(** Directories ([dir/dir.go], [dir/dcache.go]): a file of 128-byte entries, a
    cache of its names, and the operations of the handlers on them. *)
From S2P Require Import Prelude Nfstypes External Reference Super Fh Cache Dcache Alloctxn Inode Fstxn.

Definition DIRENTSZ : Z := 128.
Definition MAXNAMELEN : Z := DIRENTSZ - 16.

Record dirEnt := mkDirEnt { de_inum : Z; de_name : list Z }.

Definition IllegalName (name : list Z) : bool :=
  bool_decide (name = str ".") || bool_decide (name = str "..").

Section dir.
Context `{!Common} `{!Util} `{!Marshal} `{!Buf} `{!Journal} `{!AllocPkg} `{!LockPkg}
  `{!Clock} `{!DiskPkg}.

Definition encodeDirEnt (de : dirEnt) : res (list Z) :=
  let enc := NewEnc DIRENTSZ in
  enc ← PutInt enc (de_inum de);
  enc ← PutInt enc (len (de_name de));
  enc ← PutBytes enc (de_name de);
  mret (Finish enc).

Definition decodeDirEnt (d : list Z) : res dirEnt :=
  let dec := NewDec d in
  '(inum, dec) ← GetInt dec;
  '(l, dec) ← GetInt dec;
  '(name, _) ← GetBytes dec l;
  mret (mkDirEnt inum name).

(** [data, _ := dip.Read(op.Atxn, off, DIRENTSZ)] *)
Definition read_ent (dip off : Z) : M FSt (list Z) :=
  '(data, _) ← on_ip dip (Read off DIRENTSZ);
  mret data.

(** The number of entries from [off] to the end of the directory bounds the
    loops that step through it. *)
Definition ents_fuel (size off : Z) : nat := S (Z.to_nat ((size - off) / DIRENTSZ + 1)).

Fixpoint scan_loop (fuel : nat) (dip off : Z) (name : list Z) : M FSt (Z * Z) :=
  size ← ip_field dip i_Size;
  if off <? size then
    match fuel with
    | O => nofuel
    | S fuel =>
        data ← read_ent dip off;
        if bool_decide (len data <> DIRENTSZ) then mret (NULLINUM, 0)
        else
          de ← lift (decodeDirEnt data);
          if bool_decide (de_inum de = NULLINUM) then scan_loop fuel dip (off +w DIRENTSZ) name
          else if bool_decide (de_name de = name) then mret (de_inum de, off)
          else scan_loop fuel dip (off +w DIRENTSZ) name
    end
  else mret (NULLINUM, 0).

Definition ScanName (dip : Z) (name : list Z) : M FSt (Z * Z) :=
  kind ← ip_field dip i_Kind;
  if bool_decide (kind <> NF3DIR) then mret (NULLINUM, 0)
  else
    size ← ip_field dip i_Size;
    scan_loop (ents_fuel size 0) dip 0 name.

(** The offset of the first free entry from [off], 0 if there is none. *)
Fixpoint free_loop (fuel : nat) (dip off : Z) : M FSt Z :=
  size ← ip_field dip i_Size;
  if off <? size then
    match fuel with
    | O => nofuel
    | S fuel =>
        data ← read_ent dip off;
        de ← lift (decodeDirEnt data);
        if bool_decide (de_inum de = NULLINUM) then mret off
        else free_loop fuel dip (off +w DIRENTSZ)
    end
  else mret 0.

Definition AddNameDir (dip inum : Z) (name : list Z) (lastoff : Z) : M FSt (Z * bool) :=
  size ← ip_field dip i_Size;
  finalOff ← free_loop (ents_fuel size lastoff) dip lastoff;
  finalOff ← (if bool_decide (finalOff = 0) then ip_field dip i_Size else mret finalOff);
  ent ← lift (encodeDirEnt (mkDirEnt inum name));
  '(n, _) ← on_ip dip (Write finalOff DIRENTSZ ent);
  mret (finalOff, bool_decide (n = DIRENTSZ)).

(** Sizes of the XDR encodings the reply is estimated with. *)
Definition fattr3XDRsize : Z := 4 + 4 + 4 + 4 + 4 + 8 + 8 + 8 + 8 + 8 + 3 * 8.

Definition entryplus3Baggage : Z := 8 + 4 + 8 + (4 + fattr3XDRsize) + 16 + 8.

(** [Apply]: [f] is the closure, over the variables [X] it captures. *)
Fixpoint apply_loop {X} (fuel : nat) (dip off dircount maxcount n dirbytes : Z)
    (f : option Z -> list Z -> Z -> Z -> X -> M FSt X) (x : X) : M FSt (bool * X) :=
  size ← ip_field dip i_Size;
  if off <? size then
    match fuel with
    | O => nofuel
    | S fuel =>
        data ← read_ent dip off;
        de ← lift (decodeDirEnt data);
        if bool_decide (de_inum de = NULLINUM)
        then apply_loop fuel dip (off +w DIRENTSZ) dircount maxcount n dirbytes f x
        else
          own ← OwnInum (de_inum de);
          ip ← (if (own : bool) then p ← GetInodeUnlocked (de_inum de); mret (Some p)
                else GetInodeInum (de_inum de));
          x ← f ip (de_name de) (de_inum de) off x;
          _ ← (if negb own then p ← deref ip; ReleaseInode p else mret tt);
          let off := off +w DIRENTSZ in
          let dirbytes := dirbytes +w w64 (8 + len (de_name de)) in
          let n := n +w w64 (entryplus3Baggage + len (de_name de)) in
          if (dircount <=? dirbytes) || (maxcount <=? n) then mret (false, x)
          else apply_loop fuel dip off dircount maxcount n dirbytes f x
    end
  else mret (true, x).

Definition Apply {X} (dip start dircount maxcount : Z)
    (f : option Z -> list Z -> Z -> Z -> X -> M FSt X) (x : X) : M FSt (bool * X) :=
  let begin := if bool_decide (start <> 0) then start +w DIRENTSZ else start in
  size ← ip_field dip i_Size;
  apply_loop (ents_fuel size begin) dip begin dircount maxcount 64 0 f x.

Fixpoint ents_loop {X} (fuel : nat) (dip off count n : Z)
    (f : list Z -> Z -> Z -> X -> M FSt X) (x : X) : M FSt (bool * X) :=
  size ← ip_field dip i_Size;
  if off <? size then
    match fuel with
    | O => nofuel
    | S fuel =>
        data ← read_ent dip off;
        de ← lift (decodeDirEnt data);
        if bool_decide (de_inum de = NULLINUM) then ents_loop fuel dip (off +w DIRENTSZ) count n f x
        else
          x ← f (de_name de) (de_inum de) off x;
          let off := off +w DIRENTSZ in
          let n := n +w w64 (16 + len (de_name de) + 8 + 8) in
          if count <=? n then mret (false, x)
          else ents_loop fuel dip off count n f x
    end
  else mret (true, x).

Definition ApplyEnts {X} (dip start count : Z)
    (f : list Z -> Z -> Z -> X -> M FSt X) (x : X) : M FSt (bool * X) :=
  let begin := if bool_decide (start <> 0) then start +w DIRENTSZ else start in
  size ← ip_field dip i_Size;
  ents_loop (ents_fuel size begin) dip begin count 64 f x.

(** *** The name cache ([dcache.go]) *)

(** [dip.Dcache.op(...)]: a nil cache panics. *)
Definition on_dcache {A} (dip : Z) (f : Dcache -> A * Dcache) : M FSt A :=
  o ← ip_field dip i_Dcache;
  match o with
  | None => panic
  | Some dc =>
      let '(a, dc) := f dc in
      _ ← on_ip dip (ip_set (with_Dcache (Some dc)));
      mret a
  end.

Definition mkDcache (dip : Z) : M FSt unit :=
  _ ← on_ip dip (ip_set (with_Dcache (Some MkDcache)));
  size ← ip_field dip i_Size;
  _ ← Apply dip 0 size 100000000
        (fun _ name inum off _ => on_dcache dip (fun dc => (tt, Add name inum off dc))) tt;
  mret tt.

(** [if dip.Dcache == nil { mkDcache(dip, op) }] *)
Definition ensure_dcache (dip : Z) : M FSt unit :=
  o ← ip_field dip i_Dcache;
  match o with
  | None => mkDcache dip
  | Some _ => mret tt
  end.

Definition LookupName (dip : Z) (name : list Z) : M FSt (Z * Z) :=
  kind ← ip_field dip i_Kind;
  if bool_decide (kind <> NF3DIR) then mret (NULLINUM, 0)
  else
    _ ← ensure_dcache dip;
    o ← on_dcache dip (fun dc => (Lookup name dc, dc));
    match o with
    | Some dentry => mret (Dentry_Inum dentry, Dentry_Off dentry)
    | None => mret (NULLINUM, 0)
    end.

Definition AddName (dip inum : Z) (name : list Z) : M FSt bool :=
  kind ← ip_field dip i_Kind;
  if bool_decide (kind <> NF3DIR) || (MAXNAMELEN <=? len name) then mret false
  else
    _ ← ensure_dcache dip;
    lastoff ← on_dcache dip (fun dc => (Lastoff dc, dc));
    '(off, ok) ← AddNameDir dip inum name lastoff;
    _ ← (if (ok : bool) then
           _ ← on_dcache dip (fun dc => (tt, set_Lastoff off dc));
           on_dcache dip (fun dc => (tt, Add name inum off dc))
         else mret tt);
    mret ok.

Definition RemNameDir (dip : Z) (name : list Z) : M FSt (Z * bool) :=
  '(inum, off) ← LookupName dip name;
  if bool_decide (inum = NULLINUM) then mret (0, false)
  else
    ent ← lift (encodeDirEnt (mkDirEnt NULLINUM []));
    '(n, _) ← on_ip dip (Write off DIRENTSZ ent);
    mret (off, bool_decide (n = DIRENTSZ)).

Definition RemName (dip : Z) (name : list Z) : M FSt bool :=
  kind ← ip_field dip i_Kind;
  if bool_decide (kind <> NF3DIR) || (MAXNAMELEN <=? len name) then mret false
  else
    _ ← ensure_dcache dip;
    '(off, ok) ← RemNameDir dip name;
    if (ok : bool) then
      _ ← on_dcache dip (fun dc => (tt, set_Lastoff off dc));
      ok ← on_dcache dip (Del name);
      if (ok : bool) then mret true else panic
    else mret false.

Fixpoint empty_loop (fuel : nat) (dip off : Z) : M FSt bool :=
  size ← ip_field dip i_Size;
  if off <? size then
    match fuel with
    | O => nofuel
    | S fuel =>
        data ← read_ent dip off;
        de ← lift (decodeDirEnt data);
        if bool_decide (de_inum de = NULLINUM) then empty_loop fuel dip (off +w DIRENTSZ)
        else mret false
    end
  else mret true.

Definition IsDirEmpty (dip : Z) : M FSt bool :=
  size ← ip_field dip i_Size;
  empty_loop (ents_fuel size (2 * DIRENTSZ)) dip (2 * DIRENTSZ).

Definition InitDir (dip parent : Z) : M FSt bool :=
  inum ← ip_field dip i_Inum;
  ok ← AddName dip inum (str ".");
  if negb ok then mret false else AddName dip parent (str "..").

Definition MkRootDir (dip : Z) : M FSt bool :=
  inum ← ip_field dip i_Inum;
  ok ← AddName dip inum (str ".");
  if negb ok then mret false else AddName dip inum (str "..").
End dir.
