(* ===== verification/DirCodec.v ===== *)
(** The on-disk format of directory entries: [encodeDirEnt] fills the 128 bytes
    of an entry exactly, [decodeDirEnt] inverts it, and a name that does not fit
    panics. *)
From S2P Require Import Prelude Nfstypes External Reference Super Fh Cache Dcache Alloctxn AtxnCommit Inode.
From S2P Require Import InodeCodec Fstxn Dir.

Section codec.
Context `{!Common} `{!Marshal} `{!MarshalSpec}.

(** An entry that fits its 128 bytes. *)
Definition ent_wf (e : dirEnt) : Prop := is_u64 (de_inum e) /\ len (de_name e) <= MAXNAMELEN.

Definition ent_bytes (e : dirEnt) : list Z :=
  u64_le (de_inum e) ++ u64_le (len (de_name e)) ++ de_name e ++
  zeros (MAXNAMELEN - len (de_name e)).

Lemma ent_bytes_len e : ent_wf e -> len (ent_bytes e) = DIRENTSZ.
Proof.
  intros [_ Hn]. pose proof (len_nonneg (de_name e)). unfold ent_bytes.
  rewrite !len_app, !u64_le_len, len_zeros by lia. unfold MAXNAMELEN, DIRENTSZ. lia.
Qed.

Lemma encodeDirEnt_eq e : ent_wf e -> encodeDirEnt e = Ok (ent_bytes e).
Proof.
  intros [Hi Hn]. unfold encodeDirEnt. pose proof (enc_at_new DIRENTSZ) as He.
  unfold MAXNAMELEN, DIRENTSZ in *. pose proof (len_nonneg (de_name e)).
  put_ok (PutInt_spec (NewEnc 128) (de_inum e)) He.
  put_ok (PutInt_spec e0 (len (de_name e))) He.
  put_ok (PutBytes_spec e1 (de_name e)) He.
  rewrite (enc_at_finish _ _ _ He). unfold mret, res_ret, ent_bytes. f_equal.
  rewrite !len_app, !u64_le_len, <-!app_assoc. change (len []) with 0.
  unfold MAXNAMELEN, DIRENTSZ. by replace (128 - (0 + 8 + 8 + len (de_name e))) with (128 - 16 - len (de_name e)) by lia.
Qed.

Lemma decodeDirEnt_bytes e rest : ent_wf e -> decodeDirEnt (ent_bytes e ++ rest) = Ok e.
Proof.
  intros [Hi Hn]. pose proof (len_nonneg (de_name e)) as Hl. unfold MAXNAMELEN, DIRENTSZ in Hn.
  assert (is_u64 (len (de_name e))) as Hlu by (unfold is_u64; lia). unfold decodeDirEnt.
  pose proof (NewDec_rest (ent_bytes e ++ rest)) as Hd. unfold ent_bytes in Hd at 2.
  rewrite <-!app_assoc in Hd.
  get_ok GetInt_app Hd. get_ok GetInt_app Hd. get_ok GetBytes_app Hd. by destruct e.
Qed.

(** A name of more than 112 bytes does not fit. *)
Lemma encodeDirEnt_long e : MAXNAMELEN < len (de_name e) -> encodeDirEnt e = Panic.
Proof.
  intros Hn. unfold encodeDirEnt. pose proof (enc_at_new DIRENTSZ) as He.
  unfold MAXNAMELEN, DIRENTSZ in *.
  put_ok (PutInt_spec (NewEnc 128) (de_inum e)) He.
  put_ok (PutInt_spec e0 (len (de_name e))) He.
  pose proof (PutBytes_spec e1 (de_name e)) as Hp. unfold enc_puts in Hp.
  rewrite bool_decide_eq_false_2 in Hp; [by rewrite Hp|].
  destruct He as [-> ->]. rewrite !len_app, !u64_le_len. change (len []) with 0. lia.
Qed.
End codec.

Section claims.
Context `{!Common} `{!Marshal} `{!MarshalSpec}.

(** A directory entry whose inode number is a [uint64] and whose name has at
    most 112 bytes encodes to exactly the 128 bytes of a directory slot, and
    decoding the slot gives the entry back. *)
Theorem decodeDirEnt_encodeDirEnt e : is_u64 (de_inum e) -> len (de_name e) <= MAXNAMELEN ->
  exists d, encodeDirEnt e = Ok d /\ len d = DIRENTSZ /\ decodeDirEnt d = Ok e.
Proof.
  intros Hi Hn. exists (ent_bytes e). split_and!.
  - by apply encodeDirEnt_eq.
  - by apply ent_bytes_len.
  - rewrite <-(app_nil_r (ent_bytes e)). by apply decodeDirEnt_bytes.
Qed.
End claims.

Lemma decodeDirEnt_encodeDirEnt_witness : exists d,
  encodeDirEnt (mkDirEnt 7 (str "readme")) = Ok d /\ len d = DIRENTSZ /\
  decodeDirEnt d = Ok (mkDirEnt 7 (str "readme")).
Proof. apply (decodeDirEnt_encodeDirEnt (mkDirEnt 7 (str "readme"))); vm_compute; [split|]; discriminate || done. Defined.
