(* ===== verification/InodeBound.v ===== *)
(** How many blocks the operations of an inode allocate: [bmap] at most three,
    and so does a write that stays in one block.

    [allocs pr k m] bounds the blocks the computation [m] appends to the list
    of the transaction, whatever its result. *)
From S2P Require Import Prelude Nfstypes External Reference Super Dcache Alloctxn AtxnCommit Inode.
From S2P Require Import InodeCodec InodeMap InodeIO.

Create HintDb allocs.

Section allocs.
Context `{!Common} `{!Journal} `{!AllocPkg}.
Context {S : Type} (pr : S -> ASt).

Definition allocs {A} (k : nat) (m : M S A) : Prop := forall s r s', m s = Ok (r, s') ->
  exists l, a_allocBnums (pr s') = a_allocBnums (pr s) ++ l /\ (length l <= k)%nat.

(** It leaves the list alone. *)
Definition spares {A} (m : M S A) : Prop := forall s r s', m s = Ok (r, s') ->
  a_allocBnums (pr s') = a_allocBnums (pr s).

Lemma spares_allocs {A} (m : M S A) : spares m -> allocs 0 m.
Proof. intros Hm s r s' Hr. exists []. rewrite app_nil_r. split; [by eapply Hm|done]. Qed.

Lemma allocs_mono {A} k k' (m : M S A) : (k <= k')%nat -> allocs k m -> allocs k' m.
Proof. intros Hk Hm s r s' Hr. destruct (Hm s r s' Hr) as (l & Hl & ?). exists l. split; [done|lia]. Qed.

Lemma allocs_bind {A B} k1 k2 (m : M S A) (h : A -> M S B) : allocs k1 m -> (forall x, allocs k2 (h x)) ->
  allocs (k1 + k2) (x ← m; h x).
Proof.
  intros Hm Hh s r s' (x & s1 & H1r & H2r)%M_bind_Ok.
  destruct (Hm _ _ _ H1r) as (l1 & Hl1 & ?), (Hh x _ _ _ H2r) as (l2 & Hl2 & ?).
  exists (l1 ++ l2). rewrite Hl2, Hl1, app_assoc, length_app. split; [done|lia].
Qed.

(** After a step that allocates nothing. *)
Lemma allocs_step {A B} k (m : M S A) (h : A -> M S B) : spares m -> (forall x, allocs k (h x)) ->
  allocs k (x ← m; h x).
Proof. intros Hm Hh. apply (allocs_bind 0); [by apply spares_allocs|done]. Qed.

Lemma allocs_ret {A} k (x : A) : allocs k (mret x).
Proof. intros s r s' [= _ <-]. exists []. rewrite app_nil_r. split; [done|simpl; lia]. Qed.

Lemma allocs_if {A} k (b : bool) (m1 m2 : M S A) : allocs k m1 -> allocs k m2 -> allocs k (if b then m1 else m2).
Proof. by destruct b. Qed.

Lemma spares_bind {A B} (m : M S A) (h : A -> M S B) : spares m -> (forall x, spares (h x)) -> spares (x ← m; h x).
Proof.
  intros Hm Hh s r s' (x & s1 & H1r & H2r)%M_bind_Ok. rewrite (Hh x _ _ _ H2r). by eapply Hm.
Qed.

Lemma spares_ret {A} (x : A) : spares (mret x).
Proof. by intros s r s' [= _ <-]. Qed.

Lemma spares_lift {A} (r : res A) : spares (lift r).
Proof. intros s x s'. unfold lift. destruct r; [|done..]. by intros [= _ <-]. Qed.

Lemma spares_get : spares get.
Proof. by intros s r s' [= _ <-]. Qed.

Lemma spares_gets {A} (g : S -> A) : spares (gets g).
Proof. by intros s r s' [= _ <-]. Qed.

Lemma spares_panic {A} : spares (panic : M S A).
Proof. done. Qed.

Lemma spares_modify (g : S -> S) : (forall s, a_allocBnums (pr (g s)) = a_allocBnums (pr s)) -> spares (modify g).
Proof. intros Hg s r s' [= _ <-]. apply Hg. Qed.

Lemma spares_if {A} (b : bool) (m1 m2 : M S A) : spares m1 -> spares m2 -> spares (if b then m1 else m2).
Proof. by destruct b. Qed.
End allocs.

#[export] Hint Resolve spares_ret spares_lift spares_get spares_gets spares_panic spares_if allocs_ret : allocs.

Section ops.
Context `{!Common} `{!CommonSpec} `{!Util} `{!UtilSpec} `{!Marshal} `{!Buf} `{!Journal} `{!AllocPkg} `{!Clock}.

#[local] Abbreviation spares_a := (spares (@id ASt)).
#[local] Abbreviation allocs_a := (allocs (@id ASt)).
#[local] Abbreviation spares_i := (spares (snd : ISt -> ASt)).
#[local] Abbreviation allocs_i := (allocs (snd : ISt -> ASt)).

(** *** Steps of the transaction *)

Lemma spares_Assert b : spares_a (AssertValidBlock b).
Proof. apply spares_bind; [auto with allocs|intros s]. auto with allocs. Qed.

Lemma spares_ReadBlock b : spares_a (ReadBlock b).
Proof.
  apply spares_bind; [apply spares_Assert|intros _]. apply spares_bind; [auto with allocs|intros s].
  apply spares_bind; [by apply spares_modify|intros _]. auto with allocs.
Qed.

Lemma spares_BnumGet x o : spares_a (BnumGet x o).
Proof. apply spares_bind; [apply spares_gets|intros d]. auto with allocs. Qed.

Lemma spares_BnumPut x o v : spares_a (BnumPut x o v).
Proof.
  apply spares_bind; [apply spares_gets|intros d]. apply spares_bind; [auto with allocs|intros d'].
  apply spares_bind; intros; by apply spares_modify.
Qed.

Lemma spares_OverWrite x sz d : spares_a (op_OverWrite x sz d).
Proof.
  apply spares_bind; [auto with allocs|intros s]. apply spares_bind; [auto with allocs|intros o].
  by apply spares_modify.
Qed.

Lemma allocs_AllocBlock : allocs_a 1 AllocBlock.
Proof.
  unfold AllocBlock. apply allocs_step; [auto with allocs|intros s]. destruct (AllocNum (a_balloc s)) as [bn al].
  apply allocs_step; [by apply spares_modify|intros _]. apply allocs_step; [apply spares_Assert|intros _].
  apply (allocs_bind _ 1 0); [|intros _; auto with allocs]. apply allocs_if; [|auto with allocs].
  intros t r t' [= _ <-]. by exists [bn].
Qed.

Lemma allocs_indbmap root level off : allocs_a (S level) (indbmap root level off).
Proof.
  revert root off. induction level as [|level IH]; intros root off; cbn [indbmap].
  - apply (allocs_bind _ 1 0); [apply allocs_if; [apply allocs_AllocBlock|apply allocs_ret]|intros b].
    apply allocs_if; apply allocs_ret.
  - apply (allocs_bind _ 1 (S level)); [apply allocs_if; [apply allocs_AllocBlock|apply allocs_ret]|intros b].
    apply allocs_if; [apply allocs_ret|]. apply allocs_step; [apply spares_ReadBlock|intros buf].
    apply allocs_step; [apply spares_BnumGet|intros nxt].
    rewrite <-(Nat.add_0_r (S level)). apply allocs_bind; [apply IH|intros [b1 b2]].
    apply allocs_step; [apply spares_Assert|intros _]. apply allocs_step; [apply spares_Assert|intros _].
    apply allocs_step; [apply spares_if; [apply spares_BnumPut|apply spares_ret]|intros _]. apply allocs_ret.
Qed.

(** *** Steps of the inode *)

Lemma spares_zoom {A} (m : M ASt A) : spares_a m -> spares_i (on_atxn m).
Proof.
  intros Hm [ip s] r [ip' s'] Hr. unfold on_atxn, zoom in Hr. simpl in *.
  destruct (m s) as [[x t]| | |] eqn:Hms; [|discriminate..]. injection Hr as <- <- <-. by eapply (Hm s).
Qed.

Lemma allocs_zoom {A} k (m : M ASt A) : allocs_a k m -> allocs_i k (on_atxn m).
Proof.
  intros Hm [ip s] r [ip' s'] Hr. unfold on_atxn, zoom in Hr. simpl in *.
  destruct (m s) as [[x t]| | |] eqn:Hms; [|discriminate..]. injection Hr as <- <- <-. by eapply (Hm s).
Qed.

Lemma spares_ip_get {A} (g : Inode -> A) : spares_i (ip_get g).
Proof. apply spares_gets. Qed.

Lemma spares_ip_set g : spares_i (ip_set g).
Proof. by apply spares_modify. Qed.

Lemma spares_WriteInode : spares_i WriteInode.
Proof.
  apply spares_bind; [auto with allocs|intros [ip a]]. apply spares_if; [auto with allocs|].
  apply spares_bind; [auto with allocs|intros d]. apply spares_zoom, spares_OverWrite.
Qed.

Lemma spares_store (b : bool) n v : spares_i (if b then bs ← lift (setidx n v 0); ip_set (with_blks bs) else mret tt).
Proof.
  apply spares_if; [|auto with allocs]. apply spares_bind; [auto with allocs|intros bs]. apply spares_ip_set.
Qed.

Lemma allocs_bmap bn : allocs_i 3 (bmap bn).
Proof.
  unfold bmap. apply allocs_step; [apply spares_ip_get|intros bs]. apply allocs_if; [|apply allocs_if].
  - apply allocs_step; [auto with allocs|intros b]. apply (allocs_mono _ 1); [lia|].
    apply allocs_if; [|apply allocs_ret]. apply (allocs_bind _ 1 0); [apply allocs_zoom, allocs_AllocBlock|intros b'].
    apply allocs_step; [auto with allocs|intros bs']. apply allocs_step; [apply spares_ip_set|intros _]. apply allocs_ret.
  - apply allocs_step; [auto with allocs|intros r]. apply (allocs_mono _ 2); [lia|].
    apply (allocs_bind _ 2 0); [apply allocs_zoom, (allocs_indbmap _ 1)|intros [b r']].
    apply allocs_step; [|intros _; apply allocs_ret]. apply spares_if; [|auto with allocs].
    apply spares_bind; [auto with allocs|intros bs']. apply spares_ip_set.
  - apply allocs_step; [auto with allocs|intros r].
    apply (allocs_bind _ 3 0); [apply allocs_zoom, (allocs_indbmap _ 2)|intros [b r']].
    apply allocs_step; [auto with allocs|intros ind].
    apply allocs_step; [|intros _; apply allocs_ret]. apply spares_if; [|auto with allocs].
    apply spares_bind; [auto with allocs|intros bs']. apply spares_ip_set.
Qed.

(** A write of [n] bytes that stays in one block. *)
Lemma allocs_write_loop fuel boff off n cnt alloc data : off mod BlockSize + n <= BlockSize ->
  allocs_i 3 (write_loop fuel boff off n cnt alloc data).
Proof.
  intros Hn. destruct fuel as [|fuel]; cbn [write_loop]; (destruct (Z.ltb_spec 0 n) as [Hpos|]; [|apply allocs_ret]).
  { intros s r s' Hr. discriminate Hr. }
  apply (allocs_bind _ 3 0); [apply allocs_bmap|intros [b new]]. apply allocs_if; [apply allocs_ret|].
  apply allocs_step.
  { apply spares_if.
    - apply spares_bind; [auto with allocs|intros s]. apply spares_bind; [auto with allocs|intros d].
      apply spares_zoom, spares_OverWrite.
    - apply spares_bind; [apply spares_zoom, spares_ReadBlock|intros x].
      apply spares_bind; [apply spares_zoom, spares_gets|intros d]. apply spares_bind; [auto with allocs|intros d'].
      apply spares_bind; [by apply spares_zoom, spares_modify|intros _]. by apply spares_zoom, spares_modify. }
  intros _. apply allocs_step; [auto with allocs|intros data'].
  assert (forall m, m = n -> n -w m = 0) as Hz by (intros m ->; by rewrite Z.sub_diag).
  rewrite Hz by (destruct (Z.ltb_spec n (BlockSize - off mod BlockSize)); lia).
  destruct fuel; cbn [write_loop]; apply allocs_ret.
Qed.

Lemma allocs_Write off n data : off mod BlockSize + n <= BlockSize -> allocs_i 3 (Write off n data).
Proof.
  intros Hn. unfold Write. apply allocs_if; [apply allocs_ret|].
  apply (allocs_bind _ 3 0); [by apply allocs_write_loop|intros [[ok alloc] cnt]].
  apply allocs_if; [|apply allocs_ret]. apply allocs_step; [apply spares_ip_set|intros _].
  apply allocs_step; [apply spares_WriteInode|intros _]. apply allocs_ret.
Qed.

(** Fewer than four blocks are free. *)
Definition few_free s : Prop := (size (alloc_free (a_balloc s)) <= 3)%nat.

(** An operation that ran out of blocks found at most [k] of them. *)
Lemma ran_out k s s' l a0 : atxn_from a0 s -> atxn_from a0 s' ->
  a_allocBnums s' = a_allocBnums s ++ l -> (length l <= k)%nat -> alloc_free (a_balloc s') = ∅ ->
  (size (alloc_free (a_balloc s)) <= k)%nat.
Proof.
  intros Hf Hf' Hl Hk He. pose proof (af_balloc _ _ Hf) as Hb. rewrite (af_balloc _ _ Hf'), Hl, He in Hb.
  pose proof (al_taken_free _ _ _ _ _ (ti_balloc _ (af_inv _ _ Hf))) as Ht.
  assert (alloc_free (a_balloc s) ⊆ (list_to_set l : gset Z)) as Hsub.
  { intros b Hin. assert (b ∈ (list_to_set (a_allocBnums s ++ l) : gset Z)) as Hx by set_solver.
    rewrite list_to_set_app_L in Hx. apply elem_of_union in Hx as [Hx|Hx]; [|done].
    apply elem_of_list_to_set in Hx. by destruct (Ht b Hx). }
  apply Nat.le_trans with (length l); [|done]. apply submseteq_length, NoDup_submseteq; [apply NoDup_elements|].
  intros b Hin%elem_of_elements. apply Hsub in Hin. by apply elem_of_list_to_set in Hin.
Qed.

(** A write inside one block that left none free. *)
Lemma write_ran_out off n data ip s r ip' s' a0 : off mod BlockSize + n <= BlockSize ->
  Write off n data (ip, s) = Ok (r, (ip', s')) -> atxn_from a0 s -> atxn_from a0 s' ->
  alloc_free (a_balloc s') = ∅ -> few_free s.
Proof.
  intros Hn Hr Hf Hf' He. destruct (allocs_Write off n data Hn _ _ _ Hr) as (l & Hl & Hk).
  by apply (ran_out 3 s s' l a0).
Qed.
End ops.
