(* ===== verification/DirSpec.v ===== *)
(** Directories against a map from names to inode numbers.

    [slots es ip s]: the file of the inode [ip] is the sequence of entries [es],
    one per 128-byte slot; an entry with inode number 0 is a free slot.  The
    name cache holds exactly the entries in use, so that a lookup in it is a
    lookup in the file. *)
From S2P Require Import Prelude Nfstypes External Reference Super Fh Cache Dcache Alloctxn AtxnCommit Inode.
From S2P Require Import InodeCodec InodeMap InodeIO InodeBound Volume Fstxn FstxnInv Dir DirCodec.

(** ** The names of a list of entries *)

Section names.
Context `{!Common}.

(** [entry es name inum off]: [name] is in use at offset [off]. *)
Definition entry (es : list dirEnt) (name : list Z) (inum off : Z) : Prop :=
  inum <> NULLINUM /\ exists j : nat, off = DIRENTSZ * Z.of_nat j /\ es !! j = Some (mkDirEnt inum name).

(** [es] lists exactly the names of [N]. *)
Definition lists (N : gmap (list Z) Z) (es : list dirEnt) : Prop :=
  forall name inum, N !! name = Some inum <-> exists off, entry es name inum off.

(** The cache holds exactly the entries of [es]. *)
Record dcache_ok (dc : Dcache) (es : list dirEnt) : Prop := {
  dk_entry : forall name inum off,
    dc_cache dc !! name = Some (mkDentry inum off) <-> entry es name inum off;
  dk_Lastoff : exists k, Lastoff dc = DIRENTSZ * Z.of_nat k /\ (k <= length es)%nat;
}.

Lemma dcache_lists dc es N name : dcache_ok dc es -> lists N es ->
  Dentry_Inum <$> dc_cache dc !! name = N !! name.
Proof.
  intros Hdc Hl. apply option_eq. intros inum. rewrite fmap_Some. split.
  - intros ([i off] & Hd & ->). apply Hl. exists off. by apply (dk_entry _ _ Hdc).
  - intros [off He]%Hl. exists (mkDentry inum off). split; [|done]. by apply (dk_entry _ _ Hdc).
Qed.

(** A name is in one slot only. *)
Lemma entry_unique dc es name i1 o1 i2 o2 : dcache_ok dc es ->
  entry es name i1 o1 -> entry es name i2 o2 -> i1 = i2 /\ o1 = o2.
Proof.
  intros Hdc H1%(dk_entry _ _ Hdc) H2%(dk_entry _ _ Hdc). rewrite H1 in H2. by injection H2.
Qed.

(** Storing an entry in slot [j], which extends the list if it is its end. *)
Definition set_slot (es : list dirEnt) (j : nat) (e : dirEnt) : list dirEnt :=
  take j es ++ e :: drop (S j) es.

Lemma set_slot_eq es j e : (j <= length es)%nat -> set_slot es j e !! j = Some e.
Proof.
  intros Hj. unfold set_slot. rewrite lookup_app_r by (rewrite length_take; lia).
  rewrite length_take, Nat.min_l, Nat.sub_diag by lia. done.
Qed.

Lemma set_slot_ne es j e k : (j <= length es)%nat -> k <> j -> set_slot es j e !! k = es !! k.
Proof.
  intros Hj Hk. unfold set_slot. destruct (decide (k < j)%nat).
  - rewrite lookup_app_l by (rewrite length_take; lia). by apply lookup_take_lt.
  - rewrite lookup_app_r by (rewrite length_take; lia). rewrite length_take, Nat.min_l by lia.
    replace (k - j)%nat with (S (k - S j)) by lia. simpl. rewrite lookup_drop. f_equal. lia.
Qed.

Lemma set_slot_length es j e : (j <= length es)%nat ->
  length (set_slot es j e) = Nat.max (length es) (S j).
Proof. intros Hj. unfold set_slot. rewrite length_app, length_take. simpl. rewrite length_drop. lia. Qed.

Lemma entry_set_slot es j e name inum off : (j <= length es)%nat ->
  entry (set_slot es j e) name inum off <->
  inum <> NULLINUM /\
  ((off = DIRENTSZ * Z.of_nat j /\ e = mkDirEnt inum name) \/
   (off <> DIRENTSZ * Z.of_nat j /\ entry es name inum off)).
Proof.
  intros Hj. unfold entry. split.
  - intros (Hi & k & -> & He). split; [done|]. destruct (decide (k = j)) as [->|Hk].
    + left. rewrite set_slot_eq in He by done. by injection He.
    + right. rewrite set_slot_ne in He by done. unfold DIRENTSZ. split; [lia|]. split; [done|]. by exists k.
  - intros (Hi & [[-> ->]|(Hne & _ & k & -> & He)]); split; try done.
    + exists j. by rewrite set_slot_eq.
    + exists k. split; [done|]. rewrite set_slot_ne; [done|done|]. by intros ->.
Qed.

(** Slot [j] is free, or the end of the list. *)
Definition free_slot (es : list dirEnt) (j : nat) : Prop :=
  (j <= length es)%nat /\ forall e, es !! j = Some e -> de_inum e = NULLINUM.

Lemma free_slot_nil j : free_slot [] j -> j = 0%nat.
Proof. intros [Hj _]. simpl in Hj. lia. Qed.

Lemma free_slot_one e j : de_inum e <> NULLINUM -> free_slot [e] j -> j = 1%nat.
Proof.
  intros Hne [Hj Hf]. simpl in Hj. destruct j as [|[|j]]; [|done|lia]. by destruct Hne; apply Hf.
Qed.

Lemma entry_add es j inum name n i off : free_slot es j -> inum <> NULLINUM ->
  entry (set_slot es j (mkDirEnt inum name)) n i off <->
  (n = name /\ i = inum /\ off = DIRENTSZ * Z.of_nat j) \/ entry es n i off.
Proof.
  intros [Hj Hfree] Hi. rewrite entry_set_slot by done. split.
  - intros (_ & [[-> [= -> ->]]|[_ He]]); [by left|by right].
  - intros [(-> & -> & ->)|He]; [split; [done|by left]|]. split; [by destruct He|]. right. split; [|done].
    intros ->. destruct He as (Hne & k & Hk & He). apply Hne. unfold DIRENTSZ in Hk.
    replace k with j in He by lia. exact (Hfree _ He).
Qed.

Lemma entry_rem dc es j name inum n i off : dcache_ok dc es -> es !! j = Some (mkDirEnt inum name) ->
  inum <> NULLINUM ->
  entry (set_slot es j (mkDirEnt NULLINUM [])) n i off <-> n <> name /\ entry es n i off.
Proof.
  intros Hdc He Hi. pose proof (lookup_lt_Some _ _ _ He). rewrite entry_set_slot by lia.
  assert (entry es name inum (DIRENTSZ * Z.of_nat j)) as Hname by (split; [done|by exists j]). split.
  - intros (Hni & [[-> [= Hz Hn]]|[Hne Hent]]); [congruence|]. split; [|done]. intros ->.
    by destruct (entry_unique _ _ _ _ _ _ _ Hdc Hname Hent) as [_ <-].
  - intros [Hn Hent]. split; [by destruct Hent|]. right. split; [|done]. intros ->.
    destruct Hent as (_ & k & Hk & Hent). unfold DIRENTSZ in Hk. replace k with j in Hent by lia.
    rewrite He in Hent. injection Hent as -> ->. done.
Qed.

Lemma lists_add N es j inum name : lists N es -> free_slot es j -> inum <> NULLINUM -> N !! name = None ->
  lists (<[name := inum]> N) (set_slot es j (mkDirEnt inum name)).
Proof.
  intros Hl Hf Hi Hn n i. setoid_rewrite entry_add; [|done..]. rewrite lookup_insert_Some, (Hl n i). split.
  - intros [[-> ->]|[Hne [off He]]]; [by eexists; left|]. exists off. by right.
  - intros [off [(-> & -> & ->)|He]]; [by left|]. right. split; [|by exists off].
    intros ->. assert (N !! n = Some i) as Hs by (apply Hl; by exists off). congruence.
Qed.

Lemma lists_rem dc N es j inum name : dcache_ok dc es -> lists N es ->
  es !! j = Some (mkDirEnt inum name) -> inum <> NULLINUM ->
  lists (delete name N) (set_slot es j (mkDirEnt NULLINUM [])).
Proof.
  intros Hdc Hl He Hi n i. setoid_rewrite (entry_rem dc es j name inum); [|done..].
  rewrite lookup_delete_Some, (Hl n i). split; [intros [? [off ?]]; by exists off|].
  intros [off [? ?]]. split; [congruence|by exists off].
Qed.

Lemma dcache_add dc es j inum name : dcache_ok dc es -> free_slot es j -> inum <> NULLINUM ->
  dc_cache dc !! name = None ->
  dcache_ok (Add name inum (DIRENTSZ * Z.of_nat j) (set_Lastoff (DIRENTSZ * Z.of_nat j) dc))
    (set_slot es j (mkDirEnt inum name)).
Proof.
  intros Hdc Hf Hi Hn. split.
  - intros n i off. rewrite entry_add by done. simpl. rewrite lookup_insert_Some, <-(dk_entry _ _ Hdc). split.
    + intros [[-> [= -> ->]]|[_ ?]]; [by left|by right].
    + intros [(-> & -> & ->)|Hd]; [by left|]. right. split; [congruence|done].
  - exists j. split; [done|]. rewrite set_slot_length by apply Hf. lia.
Qed.

Lemma dcache_rem dc es j inum name : dcache_ok dc es -> es !! j = Some (mkDirEnt inum name) ->
  inum <> NULLINUM ->
  dcache_ok (mkDcache_ (delete name (dc_cache dc)) (DIRENTSZ * Z.of_nat j))
    (set_slot es j (mkDirEnt NULLINUM [])).
Proof.
  intros Hdc He Hi. pose proof (lookup_lt_Some _ _ _ He). split.
  - intros n i off. rewrite (entry_rem dc es j name inum) by done. simpl.
    rewrite lookup_delete_Some, <-(dk_entry _ _ Hdc). naive_solver.
  - exists j. split; [done|]. rewrite set_slot_length by lia. lia.
Qed.
End names.

(** ** The slots of a directory's file *)

Section slots.
Context `{!Common} `{!CommonSpec} `{!Util} `{!UtilSpec} `{!Marshal} `{!MarshalSpec}
  `{!Buf} `{!BufSpec} `{!Journal} `{!JournalSpec} `{!AllocPkg} `{!AllocSpec} `{!Clock}.
Implicit Types (es : list dirEnt) (e : dirEnt) (ip : Inode) (s : ASt) (j : nat).

Definition slot_off (j : nat) : Z := DIRENTSZ * Z.of_nat j.

Definition slot_wf e : Prop := is_u64 (de_inum e) /\ len (de_name e) < MAXNAMELEN.

(** Every slot is stored in a mapped block: the file has no hole. *)
Record slots es ip s : Prop := {
  sl_file : file_ok ip s;
  sl_kind : i_Kind ip = NF3DIR;
  sl_size : i_Size ip = slot_off (length es);
  sl_max : i_Size ip <= MaxFileSize;
  sl_mapped : forall k, 0 <= k < i_Size ip -> fblk ip s (k / 4096) <> 0;
  sl_wf : Forall slot_wf es;
  sl_ent : forall j e, es !! j = Some e -> fbytes ip s (slot_off j) 128 = ent_bytes e;
}.

Lemma slot_ent_wf e : slot_wf e -> ent_wf e.
Proof. intros [Hi Hn]. split; [done|lia]. Qed.

(** A slot does not cross a block boundary. *)
Lemma slot_off_mod j : slot_off j mod 4096 = 128 * (Z.of_nat j mod 32).
Proof. unfold slot_off, DIRENTSZ. by rewrite <-Z.mul_mod_distr_l. Qed.

Lemma slot_fits j : slot_off j mod 4096 + 128 <= 4096.
Proof. rewrite slot_off_mod. pose proof (Z.mod_pos_bound (Z.of_nat j) 32). lia. Qed.

Lemma slot_inside j cnt : 0 <= cnt < DIRENTSZ -> (slot_off j + cnt) mod 4096 = 0 -> cnt = 0.
Proof.
  intros Hc. unfold DIRENTSZ in Hc. pose proof (slot_fits j). pose proof (Z.mod_pos_bound (slot_off j) 4096).
  rewrite <-Z.add_mod_idemp_l, Z.mod_small by lia. lia.
Qed.

Lemma slot_block j k : slot_off j <= k < slot_off j + 128 -> k / 4096 = slot_off j / 4096.
Proof.
  intros Hk. pose proof (slot_fits j). pose proof (Z.mod_pos_bound (slot_off j) 4096).
  pose proof (Z.div_mod (slot_off j) 4096). symmetry.
  apply (Z.div_unique _ _ _ (k - 4096 * (slot_off j / 4096))); lia.
Qed.

Lemma MaxFileSize_blks : MaxFileSize < MaxBlks * 4096.
Proof. rewrite MaxFileSize_eq. done. Qed.

Lemma slots_in_file es ip s k : slots es ip s -> 0 <= k < i_Size ip -> in_file k.
Proof.
  intros Hs Hk. pose proof (sl_max _ _ _ Hs). pose proof MaxFileSize_blks. unfold in_file. lia.
Qed.

Lemma slots_lt es ip s j k : slots es ip s -> (j < length es)%nat ->
  slot_off j <= k < slot_off j + 128 -> 0 <= k < i_Size ip.
Proof. intros Hs Hj Hk. rewrite (sl_size _ _ _ Hs). unfold slot_off, DIRENTSZ in *. lia. Qed.

Lemma slots_same es ip s ip' s' : slots es ip s -> same_file ip s ip' s' -> slots es ip' s'.
Proof.
  intros Hs Hsf. pose proof (sf_ip _ _ _ _ Hsf) as Hip. split.
  - apply Hsf.
  - rewrite Hip. apply (sl_kind _ _ _ Hs).
  - rewrite Hip. apply (sl_size _ _ _ Hs).
  - rewrite Hip. apply (sl_max _ _ _ Hs).
  - intros k Hk. rewrite Hip in Hk. change (0 <= k < i_Size ip) in Hk. pose proof (in_file_blk k (slots_in_file _ _ _ k Hs Hk)) as Hn.
    pose proof (sl_mapped _ _ _ Hs k Hk) as Hm.
    by rewrite (own_mapped _ _ _ _ _ (sf_own _ _ _ _ Hsf) Hn Hm).
  - apply Hs.
  - intros j e He. rewrite <-(sl_ent _ _ _ Hs j e He). apply fbytes_ext. intros i Hi.
    apply (sf_byte _ _ _ _ Hsf). apply (slots_in_file es ip s); [done|].
    apply (slots_lt es ip s j); [done|by apply lookup_lt_Some in He|lia].
Qed.

(** Reading the slot of an entry. *)
Lemma wp_read_slot es ip s j e (Q : list Z * bool -> ISt -> Prop) : slots es ip s ->
  es !! j = Some e ->
  (forall ip' s', same_file ip s ip' s' -> (synced ip s -> still ip s ip' s') ->
     maps_below (i_Size ip) ip s ip' s' -> Q (ent_bytes e, false) (ip', s')) ->
  wp (Read (slot_off j) DIRENTSZ) (ip, s) Q.
Proof.
  intros Hs He HQ. pose proof (lookup_lt_Some _ _ _ He) as Hj. pose proof MaxFileSize_blks.
  pose proof (slots_lt _ _ _ j (slot_off j) Hs Hj ltac:(lia)) as Hlo.
  pose proof (slots_lt _ _ _ j (slot_off j + 127) Hs Hj ltac:(lia)) as Hhi.
  pose proof (sl_max _ _ _ Hs). pose proof MaxBlks_bytes.
  apply wp_Read; [apply Hs|lia|lia|done|unfold DIRENTSZ; lia|].
  intros data ip' s' [Hsf (m & Hm & -> & _ & _ & Hhole) Hst Hbe].
  rewrite Z.min_l in * by (unfold DIRENTSZ; lia).
  destruct (decide (m < DIRENTSZ)) as [Hlt|Hge].
  - destruct (sl_mapped _ _ _ Hs (slot_off j + m)); [unfold DIRENTSZ in *; lia|by apply Hhole].
  - assert (m = DIRENTSZ) as -> by lia. change (Z.to_nat DIRENTSZ) with 128%nat. rewrite (sl_ent _ _ _ Hs j e He).
    apply HQ; [done| |by eapply maps_below_mono, Hbe; unfold DIRENTSZ; lia]. apply Hst. intros k Hk. apply (sl_mapped _ _ _ Hs).
    unfold DIRENTSZ in *. lia.
Qed.

(** A slot that holds an entry in use is not in a hole. *)
Lemma entry_not_hole ip s j e : slot_wf e -> fbytes ip s (slot_off j) 128 = ent_bytes e ->
  fblk ip s (slot_off j / 4096) = 0 -> de_inum e = NULLINUM.
Proof.
  intros [Hi Hn] Hb Hz.
  assert (take 8 (fbytes ip s (slot_off j) 128) = zeros 8) as Hhd.
  { apply list_eq. intros i. destruct (decide (i < 8)%nat) as [Hi8|Hi8].
    - rewrite lookup_take_lt, fbytes_lookup by lia. unfold fbyte.
      rewrite (slot_block j) by lia.
      rewrite Hz, bool_decide_eq_true_2 by done. symmetry. by apply lookup_replicate.
    - rewrite !lookup_ge_None_2; [done|by rewrite length_zeros || (simpl; lia)|rewrite length_take; lia]. }
  rewrite Hb in Hhd. unfold ent_bytes in Hhd. rewrite take_app_length' in Hhd by (by rewrite u64_le_length).
  rewrite <-(u64_of_le (de_inum e)) by done. by rewrite Hhd, u64_of_zeros, NULLINUM_eq.
Qed.

(** The bytes of the slots after one of them was written. *)
Lemma write_slot_bytes es ip s j e ip' s' : slots es ip s -> (j <= length es)%nat -> ent_wf e ->
  slot_off j + DIRENTSZ <= MaxFileSize ->
  (forall k, in_file k -> fbyte ip' s' k =
     if bool_decide (slot_off j <= k < slot_off j + DIRENTSZ)
     then default 0 (ent_bytes e !! Z.to_nat (k - slot_off j)) else fbyte ip s k) ->
  forall i x, set_slot es j e !! i = Some x -> fbytes ip' s' (slot_off i) 128 = ent_bytes x.
Proof.
  intros Hs Hj Hwf Hmax Hb i x Hx. pose proof MaxFileSize_blks.
  pose proof (ent_bytes_len _ Hwf) as Hlen. unfold DIRENTSZ in *.
  destruct (decide (i = j)) as [->|Hne].
  - rewrite set_slot_eq in Hx by done. injection Hx as <-. apply list_eq. intros m.
    destruct (decide (m < 128)%nat).
    + rewrite fbytes_lookup, Hb by (try done; unfold in_file, slot_off, DIRENTSZ in *; lia).
      rewrite bool_decide_eq_true_2 by lia. replace (Z.to_nat (slot_off j + Z.of_nat m - slot_off j)) with m by lia.
      destruct (lookup_lt_is_Some_2 (ent_bytes e) m) as [b Hbm]; [unfold len in Hlen; lia|]. by rewrite Hbm.
    + rewrite !lookup_ge_None_2; [done|unfold len in Hlen; lia|rewrite length_fbytes; lia].
  - rewrite set_slot_ne in Hx by done. pose proof (lookup_lt_Some _ _ _ Hx) as Hi.
    rewrite <-(sl_ent _ _ _ Hs i x Hx). apply fbytes_ext. intros m Hm.
    rewrite Hb by (apply (slots_in_file es ip s); [done|]; apply (slots_lt es ip s i); [done|done|lia]).
    rewrite bool_decide_eq_false_2; [done|]. unfold slot_off, DIRENTSZ. lia.
Qed.

Lemma slots_untouched es ip s ip' s' : slots es ip s -> touched ip s ip' s' ->
  i_Kind ip' = i_Kind ip -> i_Size ip' = i_Size ip ->
  (forall k, in_file k -> fbyte ip' s' k = fbyte ip s k) -> slots es ip' s'.
Proof.
  intros Hs Ht Hk Hsz Hb. split.
  - apply Ht.
  - by rewrite Hk, (sl_kind _ _ _ Hs).
  - by rewrite Hsz, (sl_size _ _ _ Hs).
  - rewrite Hsz. apply Hs.
  - intros k Hin. rewrite Hsz in Hin. pose proof (in_file_blk k (slots_in_file _ _ _ k Hs Hin)) as Hn.
    pose proof (sl_mapped _ _ _ Hs k Hin) as Hm. by rewrite (own_mapped _ _ _ _ _ (to_own _ _ _ _ Ht) Hn Hm).
  - apply Hs.
  - intros j e He. rewrite <-(sl_ent _ _ _ Hs j e He). apply fbytes_ext. intros i Hi.
    apply Hb, (slots_in_file es ip s), (slots_lt es ip s j); [done|done|by apply lookup_lt_Some in He|lia].
Qed.

Lemma slots_written es ip s j e ip' s' ok : slots es ip s -> (j <= length es)%nat -> slot_wf e ->
  de_inum e <> NULLINUM \/ (j < length es)%nat -> slot_off j + DIRENTSZ <= MaxFileSize ->
  write_post ip s (slot_off j) DIRENTSZ (ent_bytes e) DIRENTSZ ok ip' s' ->
  slots (set_slot es j e) ip' s'.
Proof.
  intros Hs Hj Hwf Hmap Hmax Hw. pose proof (wp_fields _ _ _ _ _ _ _ _ _ Hw) as Hf.
  change (if 0 <? DIRENTSZ then slot_off j + DIRENTSZ else 0) with (slot_off j + DIRENTSZ) in Hf.
  assert (i_Size ip' = slot_off (length (set_slot es j e))) as Hsz.
  { rewrite Hf. simpl. rewrite (sl_size _ _ _ Hs), set_slot_length by done. unfold slot_off, DIRENTSZ. lia. }
  pose proof (write_slot_bytes es ip s j e ip' s' Hs Hj (slot_ent_wf _ Hwf) Hmax (wp_bytes _ _ _ _ _ _ _ _ _ Hw))
    as Hent. pose proof MaxFileSize_blks.
  split; [apply Hw|by rewrite Hf; apply Hs|done| | |..].
  - rewrite Hf. simpl. pose proof (sl_max _ _ _ Hs). lia.
  - intros k Hk. destruct (decide (k < i_Size ip)) as [Hlt|Hge].
    + pose proof (in_file_blk k (slots_in_file _ _ _ k Hs ltac:(lia))) as Hn.
      pose proof (sl_mapped _ _ _ Hs k ltac:(lia)) as Hm. by rewrite (own_mapped _ _ _ _ _ (wp_own _ _ _ _ _ _ _ _ _ Hw) Hn Hm).
    + rewrite Hsz, set_slot_length in Hk by done. rewrite (sl_size _ _ _ Hs) in Hge.
      assert (j = length es) as -> by (unfold slot_off, DIRENTSZ in *; lia).
      destruct Hmap as [Hmap|]; [|lia]. intros Hz. apply Hmap.
      apply (entry_not_hole ip' s' (length es)); [done| |].
      * apply Hent. by apply set_slot_eq.
      * rewrite <-Hz. f_equal. symmetry. apply slot_block. unfold slot_off, DIRENTSZ in *. lia.
  - unfold set_slot. apply Forall_app. split; [by apply Forall_take, Hs|]. constructor; [done|].
    by apply Forall_drop, Hs.
  - done.
Qed.

(** An operation on a directory: its file may grow by an entry, and is mapped
    up to there only. *)
Record dir_touched ip s ip' s' : Prop := {
  dt_touched : touched ip s ip' s';
  dt_size : i_Size ip <= i_Size ip';
  dt_below : maps_below (i_Size ip' + DIRENTSZ) ip s ip' s';
}.

Lemma dir_touched_refl ip s : file_ok ip s -> dir_touched ip s ip s.
Proof. intros Hok. split; [by apply touched_refl|done|apply maps_below_refl]. Qed.

Lemma dir_touched_trans ip1 s1 ip2 s2 ip3 s3 : file_ok ip1 s1 -> dir_touched ip1 s1 ip2 s2 ->
  dir_touched ip2 s2 ip3 s3 -> dir_touched ip1 s1 ip3 s3.
Proof.
  intros Hok [Ht1 Hs1 Hb1] [Ht2 Hs2 Hb2]. split; [by eapply touched_trans|lia|].
  eapply maps_below_trans; [|exact Hb2]. by eapply maps_below_mono, Hb1; lia.
Qed.

Lemma read_dir_touched ip s ip' s' : same_file ip s ip' s' -> maps_below (i_Size ip) ip s ip' s' ->
  dir_touched ip s ip' s'.
Proof.
  intros Hsf Hb. assert (i_Size ip' = i_Size ip) as Hsz by (by rewrite (sf_ip _ _ _ _ Hsf)).
  split; [by apply same_touched|lia|]. by eapply maps_below_mono, Hb; unfold DIRENTSZ; lia.
Qed.

(** Writing a slot: the entry is stored, or the disk was full and nothing changed. *)
Lemma wp_write_slot es ip s j e (Q : Z * bool -> ISt -> Prop) : slots es ip s -> (j <= length es)%nat ->
  slot_wf e -> de_inum e <> NULLINUM \/ (j < length es)%nat -> slot_off j + DIRENTSZ <= MaxFileSize ->
  (forall ip' s', dir_touched ip s ip' s' -> i_Dcache ip' = i_Dcache ip -> slots (set_slot es j e) ip' s' ->
     synced ip' s' -> Q (DIRENTSZ, true) (ip', s')) ->
  (forall ip' s', dir_touched ip s ip' s' -> i_Dcache ip' = i_Dcache ip -> slots es ip' s' ->
     j = length es -> alloc_free (a_balloc s') = ∅ -> (forall a0, atxn_from a0 s -> few_free s) ->
     slot_off j mod 4096 = 0 -> Q (0, false) (ip', s')) ->
  wp (Write (slot_off j) DIRENTSZ (ent_bytes e)) (ip, s) Q.
Proof.
  intros Hs Hj Hwf Hmap Hmax HQ HQf. pose proof (ent_bytes_len _ (slot_ent_wf _ Hwf)) as Hlen.
  destruct (wp_Write ip s (slot_off j) DIRENTSZ (ent_bytes e) (fun r t =>
      write_post ip s (slot_off j) DIRENTSZ (ent_bytes e) r.1 r.2 t.1 t.2)) as ([cnt ok] & [ip' s'] & Hrun & Hw);
    [apply Hs|unfold slot_off, DIRENTSZ; lia|rewrite Hlen; done|done|done|].
  simpl in Hw. exists (cnt, ok), (ip', s'). split; [exact Hrun|]. pose proof (write_touched _ _ _ _ _ _ _ _ _ Hw) as Ht.
  assert (dir_touched ip s ip' s') as Hdt.
  { split; [done|rewrite (wp_fields _ _ _ _ _ _ _ _ _ Hw); simpl; lia|].
    eapply maps_below_mono, (wp_below _ _ _ _ _ _ _ _ _ Hw). pose proof (wp_fields _ _ _ _ _ _ _ _ _ Hw) as ->. simpl.
    pose proof (sl_size _ _ _ Hs). unfold slot_off, DIRENTSZ in *. lia. }
  pose proof (wp_fields _ _ _ _ _ _ _ _ _ Hw) as Hf. pose proof (wp_cnt _ _ _ _ _ _ _ _ _ Hw) as Hcnt.
  pose proof (wp_ok _ _ _ _ _ _ _ _ _ Hw) as ->.
  destruct (decide (cnt = DIRENTSZ)) as [->|Hne].
  - apply HQ; [done|by rewrite Hf|by eapply slots_written|]. by apply (wp_synced _ _ _ _ _ _ _ _ _ Hw).
  - destruct (wp_stop _ _ _ _ _ _ _ _ _ Hw) as [Hal Hhole]; [lia|].
    assert (cnt = 0) as -> by (destruct Hal as [|Hal]; [done|]; apply (slot_inside j); [lia|done]).
    pose proof (iw_Size _ (fo_inode _ _ (sl_file _ _ _ Hs))) as Hsz. unfold is_u64 in Hsz.
    assert (alloc_free (a_balloc s') = ∅) as Hempty by (by apply (wp_short _ _ _ _ _ _ _ _ _ Hw)).
    rewrite Z.add_0_r in Hhole.
    assert (j = length es) as Hjl.
    { destruct (decide (j < length es)%nat) as [Hlt|]; [|lia].
      destruct (sl_mapped _ _ _ Hs (slot_off j)); [|done]. apply (slots_lt es ip s j); [done|done|lia]. }
    apply HQf; [done|by rewrite Hf| |done|done| |].
    3: { destruct (decide (slot_off j mod 4096 = 0)) as [|Hin]; [done|exfalso].
         assert (0 < slot_off j) as Hpos by (destruct (decide (slot_off j = 0)) as [Hz|]; [by rewrite Hz in Hin|unfold slot_off, DIRENTSZ in *; lia]).
         pose proof (Z.div_mod (slot_off j) 4096). pose proof (Z.mod_pos_bound (slot_off j) 4096).
         apply (sl_mapped _ _ _ Hs (4096 * (slot_off j / 4096))).
         - rewrite (sl_size _ _ _ Hs), <-Hjl. lia.
         - by rewrite Z.mul_comm, Z.div_mul. }
    2: { intros a0 Hfrom. eapply write_ran_out; [|exact Hrun|exact Hfrom| |exact Hempty].
         - rewrite BlockSize_eq. apply slot_fits.
         - by apply (gr_from _ _ (to_grow _ _ _ _ Ht)). }
    apply (slots_untouched es ip s); [done|done|by rewrite Hf|rewrite Hf; simpl; lia|].
    intros k Hk. rewrite (wp_bytes _ _ _ _ _ _ _ _ _ Hw) by done.
    rewrite bool_decide_eq_false_2; [done|lia].
Qed.
End slots.

(** ** Operations on the directory at a pointer *)

Section dirs.
Context `{!Common} `{!CommonSpec} `{!Util} `{!UtilSpec} `{!Marshal} `{!MarshalSpec}
  `{!Buf} `{!BufSpec} `{!Journal} `{!JournalSpec} `{!AllocPkg} `{!AllocSpec}
  `{!LockPkg} `{!Clock} `{!DiskPkg}.
Implicit Types (es : list dirEnt) (e : dirEnt) (ip : Inode) (s : FSt) (dip : Z) (j : nat).

Record dir_at dip es ip s : Prop := {
  da_heap : f_heap s !! dip = Some ip;
  da_slots : slots es ip (f_a s);
}.

(** Only the directory changed. *)
Record dir_step dip s ip s' ip' : Prop := {
  ds_rest : s' = fset_a (f_a s') (fset_heap (<[dip := ip']> (f_heap s)) s);
  ds_dir : dir_touched ip (f_a s) ip' (f_a s');
}.

Lemma ds_touched dip s ip s' ip' : dir_step dip s ip s' ip' -> touched ip (f_a s) ip' (f_a s').
Proof. intros Hst. apply Hst. Qed.

(** The entries and the cache did not change either. *)
Record same_dir dip es s ip s' ip' : Prop := {
  sd_step : dir_step dip s ip s' ip';
  sd_at : dir_at dip es ip' s';
  sd_Dcache : i_Dcache ip' = i_Dcache ip;
  sd_still : synced ip (f_a s) -> still ip (f_a s) ip' (f_a s');
}.

Lemma dir_at_file dip es ip s : dir_at dip es ip s -> file_ok ip (f_a s).
Proof. intros [_ Hs]. apply Hs. Qed.

Lemma dir_step_refl dip es ip s : dir_at dip es ip s -> dir_step dip s ip s ip.
Proof.
  intros Hd. split; [by rewrite fset_id by apply Hd|]. by apply dir_touched_refl, (dir_at_file dip es).
Qed.

Lemma dir_step_trans dip es s1 ip1 s2 ip2 s3 ip3 : dir_at dip es ip1 s1 ->
  dir_step dip s1 ip1 s2 ip2 -> dir_step dip s2 ip2 s3 ip3 -> dir_step dip s1 ip1 s3 ip3.
Proof.
  intros Hd [Hr1 Ht1] [Hr2 Ht2]. split.
  - rewrite Hr2, Hr1. unfold fset_a, fset_heap. simpl. by rewrite insert_insert_eq.
  - eapply dir_touched_trans; [by eapply dir_at_file|done..].
Qed.

Lemma same_dir_refl dip es ip s : dir_at dip es ip s -> same_dir dip es s ip s ip.
Proof. intros Hd. by split; [eapply dir_step_refl|..|intros _; apply still_refl]. Qed.

Lemma sd_synced dip es ip s ip' s' : dir_at dip es ip s -> same_dir dip es s ip s' ip' ->
  synced ip (f_a s) -> synced ip' (f_a s').
Proof.
  intros Hd Hsd Hsy. eapply still_synced; [apply (dir_at_file _ _ _ _ Hd)|by apply (sd_still _ _ _ _ _ _ Hsd)|done].
Qed.

Lemma same_dir_trans dip es s1 ip1 s2 ip2 s3 ip3 : dir_at dip es ip1 s1 ->
  same_dir dip es s1 ip1 s2 ip2 -> same_dir dip es s2 ip2 s3 ip3 -> same_dir dip es s1 ip1 s3 ip3.
Proof.
  intros Hd Hd1 Hd2. pose proof (sd_synced _ _ _ _ _ _ Hd Hd1) as Hsy.
  destruct Hd1 as [Hs1 Ha1 Hc1 Hy1], Hd2 as [Hs2 Ha2 Hc2 Hy2].
  split; [by eapply dir_step_trans|done|congruence|]. intros Hs.
  eapply still_trans; [apply (to_grow _ _ _ _ (ds_touched _ _ _ _ _ Hs1))|by apply Hy1|by apply Hy2, Hsy].
Qed.

Lemma wp_dir_op {A} dip ip s (m : M ISt A) (Q : A -> FSt -> Prop) : f_heap s !! dip = Some ip ->
  wp m (ip, f_a s) (fun r t => dir_touched ip (f_a s) t.1 t.2 /\
    (forall s', dir_step dip s ip s' t.1 -> f_a s' = t.2 -> f_heap s' !! dip = Some t.1 -> Q r s')) ->
  wp (on_ip dip m) s Q.
Proof.
  intros Hh Hm. apply (wp_on_ip dip ip); [done|]. eapply wp_mono; [exact Hm|].
  intros r [ip' a'] [Ht HQ]. apply HQ; simpl; [by split|done|apply lookup_insert_eq].
Qed.

Lemma wp_read_ent dip es ip s j e (Q : list Z -> FSt -> Prop) : dir_at dip es ip s -> es !! j = Some e ->
  (forall ip' s', same_dir dip es s ip s' ip' -> Q (ent_bytes e) s') ->
  wp (read_ent dip (slot_off j)) s Q.
Proof.
  intros Hd He HQ. unfold read_ent. apply wp_bind, (wp_dir_op dip ip); [apply Hd|].
  eapply wp_read_slot; [apply Hd|done|]. intros ip' a' Hsf Hsy Hbe. simpl.
  split; [by apply read_dir_touched|]. intros s' Hst <- Hh. apply wp_ret, (HQ ip').
  split; [done| |by rewrite (sf_ip _ _ _ _ Hsf)|done]. split; [done|]. eapply slots_same; [apply Hd|done].
Qed.

(** The slot at or after [j], and whether there is one. *)
Lemma slots_size_cases es ip a j : slots es ip a ->
  (slot_off j <? i_Size ip) = bool_decide (j < length es)%nat.
Proof.
  intros Hs. rewrite (sl_size _ _ _ Hs). unfold slot_off, DIRENTSZ.
  destruct (Z.ltb_spec (128 * Z.of_nat j) (128 * Z.of_nat (length es))); case_bool_decide; lia || done.
Qed.

Lemma slot_next es ip a j : slots es ip a -> (j < length es)%nat -> slot_off j +w DIRENTSZ = slot_off (S j).
Proof.
  intros Hs Hj. pose proof (sl_max _ _ _ Hs) as Hm. rewrite (sl_size _ _ _ Hs), MaxFileSize_eq in Hm.
  unfold slot_off, DIRENTSZ in *. wsimp. lia.
Qed.

Lemma slots_decode es ip a j e : slots es ip a -> es !! j = Some e -> decodeDirEnt (ent_bytes e) = Ok e.
Proof.
  intros Hs He. rewrite <-(app_nil_r (ent_bytes e)). apply decodeDirEnt_bytes, slot_ent_wf.
  pose proof (sl_wf _ _ _ Hs) as Hall. by eapply Forall_lookup in Hall.
Qed.

(** A loop that reads the entry of its slot first. *)
Lemma wp_slot {A} dip es ip s j e (kont : dirEnt -> M FSt A) (Q : A -> FSt -> Prop) :
  dir_at dip es ip s -> es !! j = Some e ->
  (forall ip' s', same_dir dip es s ip s' ip' -> wp (kont e) s' Q) ->
  wp (data ← read_ent dip (slot_off j); de ← lift (decodeDirEnt data); kont de) s Q.
Proof.
  intros Hd He HQ. apply wp_bind. eapply wp_read_ent; [done|done|]. intros ip' s' Hsd.
  apply wp_bind. eapply wp_lift; [eapply slots_decode; [apply Hd|done]|]. by apply (HQ ip').
Qed.

(** [free_loop] finds the first free slot at or after [j]. *)
Lemma wp_free_loop fuel dip es ip0 s0 ip s j (Q : Z -> FSt -> Prop) : dir_at dip es ip0 s0 ->
  same_dir dip es s0 ip0 s ip -> (length es - j < fuel)%nat ->
  (forall off ip' s', same_dir dip es s0 ip0 s' ip' ->
     off = 0 \/ (exists k, off = slot_off k /\ (k < length es)%nat /\ free_slot es k) -> Q off s') ->
  wp (free_loop fuel dip (slot_off j)) s Q.
Proof.
  intros Hd0. revert ip s j. induction fuel as [|fuel IH]; intros ip s j Hsd Hf HQ; [lia|].
  pose proof (sd_at _ _ _ _ _ _ Hsd) as Hd. cbn [free_loop].
  apply wp_bind, (wp_ip_field dip ip); [apply Hd|].
  rewrite (slots_size_cases es ip (f_a s)) by apply Hd. case_bool_decide as Hj.
  2: { apply wp_ret. eapply HQ; [done|by left]. }
  destruct (lookup_lt_is_Some_2 es j Hj) as [e He]. eapply wp_slot; [done|exact He|].
  intros ip' s' Hsd'. assert (same_dir dip es s0 ip0 s' ip') as Hsd2 by (by eapply same_dir_trans).
  case_bool_decide as Hfree.
  - apply wp_ret. eapply HQ; [done|]. right. exists j. split; [done|]. split; [done|]. split; [lia|].
    intros e' He'. congruence.
  - rewrite (slot_next es ip (f_a s)) by (try done; apply Hd). apply (IH ip'); [done|lia|done].
Qed.

Lemma ents_fuel_enough es ip a j : slots es ip a -> (j <= length es)%nat ->
  (length es - j < ents_fuel (i_Size ip) (slot_off j))%nat.
Proof.
  intros Hs Hj. rewrite (sl_size _ _ _ Hs). unfold ents_fuel, slot_off, DIRENTSZ.
  rewrite <-Z.mul_sub_distr_l, (Z.mul_comm 128), Z.div_mul by done. lia.
Qed.

(** Why no entry could be added: few blocks are free and the last one of the
    directory is full, or the directory has its maximal size. *)
Definition no_space es ip a : Prop :=
  ((synced ip a -> forall a0, atxn_from a0 a -> few_free a) /\ slot_off (length es) mod 4096 = 0) \/
  MaxFileSize < slot_off (length es) + DIRENTSZ.

(** [AddNameDir]: the entry is stored in a free slot, or the disk, or the
    directory itself, is full. *)
Lemma wp_AddNameDir dip es ip s inum name k0 (Q : Z * bool -> FSt -> Prop) : dir_at dip es ip s ->
  (k0 <= length es)%nat -> slot_wf (mkDirEnt inum name) -> inum <> NULLINUM ->
  (forall j ip' s', dir_step dip s ip s' ip' -> free_slot es j -> i_Dcache ip' = i_Dcache ip ->
     dir_at dip (set_slot es j (mkDirEnt inum name)) ip' s' -> synced ip' (f_a s') ->
     Q (slot_off j, true) s') ->
  (forall off ip' s', dir_step dip s ip s' ip' -> i_Dcache ip' = i_Dcache ip -> dir_at dip es ip' s' ->
     alloc_free (a_balloc (f_a s')) = ∅ \/ MaxFileSize < slot_off (length es) + DIRENTSZ ->
     no_space es ip (f_a s) -> Q (off, false) s') ->
  wp (AddNameDir dip inum name (slot_off k0)) s Q.
Proof.
  intros Hd Hk Hwf Hi HQ HQf. unfold AddNameDir. apply wp_bind, (wp_ip_field dip ip); [apply Hd|].
  apply wp_bind. eapply wp_free_loop; [exact Hd|by eapply same_dir_refl|by eapply ents_fuel_enough; [apply Hd|]|].
  intros off ip1 s1 Hsd Hoff. pose proof (sd_at _ _ _ _ _ _ Hsd) as Hd1.
  assert (exists j, free_slot es j /\ ((if bool_decide (off = 0) then i_Size ip1 else off) = slot_off j))
    as (j & Hfree & Hj).
  { destruct (decide (off = 0)) as [->|Hne].
    - exists (length es). split; [|apply Hd1]. split; [done|]. intros e He. by rewrite lookup_ge_None_2 in He.
    - destruct Hoff as [|(j & -> & Hlt & Hfr)]; [done|]. exists j. split; [done|]. by rewrite bool_decide_eq_false_2. }
  apply wp_bind. assert (forall P : Z -> FSt -> Prop, P (slot_off j) s1 ->
    wp (if bool_decide (off = 0) then ip_field dip i_Size else mret off) s1 P) as Hpick.
  { intros P HP. case_bool_decide; [apply (wp_ip_field dip ip1); [apply Hd1|congruence]|].
    apply wp_ret. congruence. }
  apply Hpick. clear Hpick. apply wp_bind. eapply wp_lift; [by apply encodeDirEnt_eq, slot_ent_wf|].
  assert (dir_step dip s ip s1 ip1) as Hst1 by apply Hsd. apply wp_bind.
  apply (wp_dir_op dip ip1); [apply Hd1|]. destruct (decide (slot_off j + DIRENTSZ <= MaxFileSize)) as [Hmax|Hmax].
  - apply (wp_write_slot es); [apply Hd1|apply Hfree|done|by left|done|..]; intros ip2 a2 Ht Hdc Hsl; simpl.
    + intros Hsy. split; [done|]. intros s2 Hst2 <- Hh. apply wp_ret. eapply HQ; [by eapply dir_step_trans|done| |done|done].
      by rewrite Hdc, (sd_Dcache _ _ _ _ _ _ Hsd).
    + intros -> Hfull Hfew Hmod. split; [done|]. intros s2 Hst2 <- Hh. apply wp_ret.
      eapply HQf; [by eapply dir_step_trans| |done|by left|]; [by rewrite Hdc, (sd_Dcache _ _ _ _ _ _ Hsd)|left; split; [|done]].
      intros Hsy a0 Hfrom. pose proof (sd_still _ _ _ _ _ _ Hsd Hsy) as Hstill. unfold few_free in *.
      rewrite <-(proj2 (st_quiet _ _ _ _ Hstill)). apply (Hfew a0).
      by apply (gr_from _ _ (to_grow _ _ _ _ (ds_touched _ _ _ _ _ Hst1))).
  - exists (0, false), (ip1, f_a s1). split.
    + unfold Write. pose proof MaxFileSize_blks. pose proof MaxBlks_bytes.
      pose proof (proj1 Hfree). pose proof (sl_max _ _ _ (da_slots _ _ _ _ Hd1)) as Hm.
      rewrite (sl_size _ _ _ (da_slots _ _ _ _ Hd1)) in Hm. unfold slot_off, DIRENTSZ in *. wsimp.
      by rewrite (proj2 (Z.ltb_lt MaxFileSize _)) by lia.
    + simpl. split; [by apply dir_touched_refl, (dir_at_file dip es)|]. intros s2 Hst2 Ha2 Hh. apply wp_ret.
      assert (MaxFileSize < slot_off (length es) + DIRENTSZ).
      { pose proof (proj1 Hfree). unfold slot_off, DIRENTSZ in *. lia. }
      eapply HQf; [by eapply dir_step_trans|apply Hsd|split; [done|rewrite Ha2; apply Hd1]|by right|by right].
Qed.

(** ** The directory as a map *)

(** The directory at [dip] has the names [N]: its slots list them and its cache
    is loaded with them. *)
Record dir_names dip (N : gmap (list Z) Z) es dc ip s : Prop := {
  dn_at : dir_at dip es ip s;
  dn_Dcache : i_Dcache ip = Some dc;
  dn_cache : dcache_ok dc es;
  dn_lists : lists N es;
}.

Lemma same_dir_names dip N es dc ip s ip' s' : dir_names dip N es dc ip s ->
  same_dir dip es s ip s' ip' -> dir_names dip N es dc ip' s'.
Proof.
  intros [Ha Hd Hc Hl] Hsd. split; [apply Hsd| |done|done]. by rewrite (sd_Dcache _ _ _ _ _ _ Hsd).
Qed.

Lemma slots_Dcache dc es ip a : slots es ip a -> slots es (with_Dcache dc ip) a.
Proof. intros [Hf Hk Hs Hm Hp Hw He]. by split; [apply file_ok_Dcache|..]. Qed.

Lemma touched_Dcache dc ip a : file_ok ip a -> touched ip a (with_Dcache dc ip) a.
Proof.
  intros Hok. destruct (touched_refl ip a Hok) as [Hg [Ho1 Ho2 Ho3] _ _ _].
  split; [done|by split|by apply file_ok_Dcache|done|by destruct ip].
Qed.

Lemma dir_touched_Dcache dc ip a : file_ok ip a -> dir_touched ip a (with_Dcache dc ip) a.
Proof. intros Hok. split; [by apply touched_Dcache|done|by left]. Qed.

(** Setting the name cache. *)
Lemma wp_set_Dcache dip es ip s dc (Q : unit -> FSt -> Prop) : dir_at dip es ip s ->
  (forall s', dir_step dip s ip s' (with_Dcache dc ip) -> dir_at dip es (with_Dcache dc ip) s' ->
     (synced ip (f_a s) -> synced (with_Dcache dc ip) (f_a s')) -> Q tt s') ->
  wp (on_ip dip (ip_set (with_Dcache dc))) s Q.
Proof.
  intros Hd HQ. apply (wp_dir_op dip ip); [apply Hd|]. apply wp_ip_set. simpl.
  split; [by apply dir_touched_Dcache, (dir_at_file dip es)|]. intros s' Hst Ha Hh. apply HQ; [done| |].
  - split; [done|]. rewrite Ha. by apply slots_Dcache, Hd.
  - unfold synced. by rewrite Ha.
Qed.

Lemma wp_on_dcache {A} dip es ip s dc (f : Dcache -> A * Dcache) (Q : A -> FSt -> Prop) :
  dir_at dip es ip s -> i_Dcache ip = Some dc ->
  (forall s' ip', ip' = with_Dcache (Some (f dc).2) ip -> dir_step dip s ip s' ip' ->
     dir_at dip es ip' s' -> (synced ip (f_a s) -> synced ip' (f_a s')) -> Q (f dc).1 s') ->
  wp (on_dcache dip f) s Q.
Proof.
  intros Hd Hdc HQ. unfold on_dcache. apply wp_bind, (wp_ip_field dip ip); [apply Hd|]. rewrite Hdc.
  destruct (f dc) as [a dc'] eqn:Hf. apply wp_bind. eapply wp_set_Dcache; [done|].
  intros s' Hst Hd' Hsy. apply wp_ret. by eapply HQ.
Qed.

(** Reading the cache leaves everything as it was. *)
Lemma wp_read_dcache {A} dip es ip s dc (f : Dcache -> A) (Q : A -> FSt -> Prop) :
  dir_at dip es ip s -> i_Dcache ip = Some dc -> Q (f dc) s ->
  wp (on_dcache dip (fun dc => (f dc, dc))) s Q.
Proof.
  intros Hd Hdc HQ. unfold on_dcache. apply wp_bind, (wp_ip_field dip ip); [apply Hd|]. rewrite Hdc.
  apply wp_bind, (wp_on_ip dip ip); [apply Hd|]. apply wp_ip_set. simpl.
  replace (with_Dcache (Some dc) ip) with ip by (rewrite <-Hdc; by destruct ip).
  rewrite fset_id by apply Hd. by apply wp_ret.
Qed.

Lemma wp_ensure_dcache dip ip s dc (Q : unit -> FSt -> Prop) : f_heap s !! dip = Some ip ->
  i_Dcache ip = Some dc -> Q tt s -> wp (ensure_dcache dip) s Q.
Proof.
  intros Hh Hdc HQ. unfold ensure_dcache. apply wp_bind, (wp_ip_field dip ip); [done|]. rewrite Hdc.
  by apply wp_ret.
Qed.

(** The part of [LookupName] after the cache is there: the entry of the name, or
    inode number 0. *)
Lemma wp_lookup_entry dip N es dc ip s name (Q : Z * Z -> FSt -> Prop) : dir_names dip N es dc ip s ->
  (forall inum off, inum = default NULLINUM (N !! name) ->
     (inum <> NULLINUM -> entry es name inum off) -> Q (inum, off) s) ->
  wp (o ← on_dcache dip (fun dc => (Lookup name dc, dc));
      match o with
      | Some dentry => mret (Dentry_Inum dentry, Dentry_Off dentry)
      | None => mret (NULLINUM, 0)
      end) s Q.
Proof.
  intros Hn HQ. pose proof (dn_at _ _ _ _ _ _ Hn) as Hd.
  apply wp_bind. eapply wp_read_dcache; [done|apply Hn|]. unfold Lookup.
  pose proof (dcache_lists _ _ _ name (dn_cache _ _ _ _ _ _ Hn) (dn_lists _ _ _ _ _ _ Hn)) as Hl.
  destruct (dc_cache dc !! name) as [[inum off]|] eqn:Hc; simpl in Hl; apply wp_ret, HQ.
  - by rewrite <-Hl.
  - intros _. by apply (dk_entry _ _ (dn_cache _ _ _ _ _ _ Hn)).
  - by rewrite <-Hl.
  - done.
Qed.

Lemma wp_LookupName dip N es dc ip s name (Q : Z * Z -> FSt -> Prop) : dir_names dip N es dc ip s ->
  (forall inum off, inum = default NULLINUM (N !! name) ->
     (inum <> NULLINUM -> entry es name inum off) -> Q (inum, off) s) ->
  wp (LookupName dip name) s Q.
Proof.
  intros Hn HQ. pose proof (dn_at _ _ _ _ _ _ Hn) as Hd. pose proof (da_heap _ _ _ _ Hd) as Hh.
  unfold LookupName. apply wp_bind, (wp_ip_field dip ip); [done|].
  rewrite (sl_kind _ _ _ (da_slots _ _ _ _ Hd)), bool_decide_eq_false_2 by tauto.
  apply wp_bind, (wp_ensure_dcache dip ip s dc); [done|apply Hn|]. by eapply wp_lookup_entry.
Qed.

(** No free block is left, or the directory has its maximal size. *)
Definition dir_full es s : Prop :=
  alloc_free (a_balloc (f_a s)) = ∅ \/ MaxFileSize < slot_off (length es) + DIRENTSZ.

Lemma names_short dip N es dc ip s name : dir_names dip N es dc ip s -> MAXNAMELEN <= len name ->
  N !! name = None.
Proof.
  intros Hn Hlen. destruct (N !! name) as [inum|] eqn:HN; [|done].
  apply (dn_lists _ _ _ _ _ _ Hn) in HN as (off & _ & j & _ & He).
  pose proof (sl_wf _ _ _ (da_slots _ _ _ _ (dn_at _ _ _ _ _ _ Hn))) as Hall.
  eapply Forall_lookup in Hall as [_ Hl]; [|done]. simpl in Hl. lia.
Qed.

(** The part of [AddName] after the cache is there. *)
Lemma wp_add_entry dip N es dc ip s inum name (Q : bool -> FSt -> Prop) : dir_names dip N es dc ip s ->
  is_u64 inum -> inum <> NULLINUM -> len name < MAXNAMELEN -> N !! name = None ->
  (forall j dc' ip' s', dir_step dip s ip s' ip' -> free_slot es j ->
     dir_names dip (<[name := inum]> N) (set_slot es j (mkDirEnt inum name)) dc' ip' s' ->
     synced ip' (f_a s') -> Q true s') ->
  (forall ip' s', dir_step dip s ip s' ip' -> dir_names dip N es dc ip' s' -> dir_full es s' ->
     no_space es ip (f_a s) -> Q false s') ->
  wp (lastoff ← on_dcache dip (fun dc => (Lastoff dc, dc));
      '(off, ok) ← AddNameDir dip inum name lastoff;
      _ ← (if (ok : bool) then
             _ ← on_dcache dip (fun dc => (tt, set_Lastoff off dc));
             on_dcache dip (fun dc => (tt, Add name inum off dc))
           else mret tt);
      mret ok) s Q.
Proof.
  intros Hn Hi Hne Hlen HN HQ HQf. pose proof (dn_at _ _ _ _ _ _ Hn) as Hd.
  pose proof (dn_cache _ _ _ _ _ _ Hn) as Hdc. destruct (dk_Lastoff _ _ Hdc) as (k0 & Hk0 & Hle).
  apply wp_bind. eapply wp_read_dcache; [done|apply Hn|]. rewrite Hk0.
  apply wp_bind. eapply wp_AddNameDir; [done|done|done|done|..].
  - intros j ip1 s1 Hst1 Hfree Hd1 Hat1 Hsy1. rewrite (dn_Dcache _ _ _ _ _ _ Hn) in Hd1.
    apply wp_bind, wp_bind. eapply wp_on_dcache; [exact Hat1|exact Hd1|].
    intros s2 ip2 -> Hst2 Hat2 Hsy2. eapply wp_on_dcache; [exact Hat2|done|].
    intros s3 ip3 -> Hst3 Hat3 Hsy3. simpl in *. apply wp_ret. eapply HQ; [|exact Hfree| |].
    + eapply dir_step_trans; [exact Hd|exact Hst1|]. by eapply dir_step_trans; [exact Hat1|..].
    + split; [exact Hat3|done| |].
      * apply dcache_add; [done..|]. pose proof (dcache_lists _ _ _ name Hdc (dn_lists _ _ _ _ _ _ Hn)) as Hl.
        rewrite HN in Hl. by apply fmap_None in Hl.
      * apply lists_add; [apply Hn|done..].
    + auto.
  - intros off ip1 s1 Hst1 Hd1 Hat1 Hfull Hsp. apply wp_bind, wp_ret, wp_ret. eapply HQf; [done| |done|done].
    split; [done| |apply Hn|apply Hn]. by rewrite Hd1, (dn_Dcache _ _ _ _ _ _ Hn).
Qed.

Lemma wp_AddName dip N es dc ip s inum name (Q : bool -> FSt -> Prop) : dir_names dip N es dc ip s ->
  is_u64 inum -> inum <> NULLINUM -> N !! name = None ->
  (forall j dc' ip' s', len name < MAXNAMELEN -> dir_step dip s ip s' ip' -> free_slot es j ->
     dir_names dip (<[name := inum]> N) (set_slot es j (mkDirEnt inum name)) dc' ip' s' ->
     synced ip' (f_a s') -> Q true s') ->
  (forall ip' s', dir_step dip s ip s' ip' -> dir_names dip N es dc ip' s' ->
     dir_full es s' \/ MAXNAMELEN <= len name /\ s' = s -> Q false s') ->
  wp (AddName dip inum name) s Q.
Proof.
  intros Hn Hi Hne HN HQ HQf. pose proof (dn_at _ _ _ _ _ _ Hn) as Hd.
  unfold AddName. apply wp_bind, (wp_ip_field dip ip); [apply Hd|].
  rewrite (sl_kind _ _ _ (da_slots _ _ _ _ Hd)), (bool_decide_eq_false_2 (_ <> _)) by tauto. simpl.
  destruct (Z.leb_spec MAXNAMELEN (len name)) as [Hlong|Hshort].
  - apply wp_ret. eapply HQf; [by eapply dir_step_refl|done|by right].
  - apply wp_bind, (wp_ensure_dcache dip ip s dc); [apply Hd|apply Hn|].
    eapply wp_add_entry; [done..| |]; [intros; by eapply HQ|]. intros ip' s' Hst Hn' Hf _. eapply HQf; [done|done|by left].
Qed.

(** Clearing the slot of a name. *)
Lemma wp_RemNameDir dip N es dc ip s name (Q : Z * bool -> FSt -> Prop) : dir_names dip N es dc ip s ->
  (N !! name = None -> Q (0, false) s) ->
  (forall j inum ip' s', es !! j = Some (mkDirEnt inum name) -> inum <> NULLINUM ->
     dir_step dip s ip s' ip' -> dir_at dip (set_slot es j (mkDirEnt NULLINUM [])) ip' s' ->
     i_Dcache ip' = Some dc -> synced ip' (f_a s') -> Q (slot_off j, true) s') ->
  wp (RemNameDir dip name) s Q.
Proof.
  intros Hn HQf HQ. pose proof (dn_at _ _ _ _ _ _ Hn) as Hd. pose proof (da_slots _ _ _ _ Hd) as Hs.
  unfold RemNameDir. apply wp_bind. eapply wp_LookupName; [done|]. intros inum off Hinum Hent.
  case_bool_decide as Hz.
  - apply wp_ret, HQf. destruct (N !! name) as [i|] eqn:HN; [|done]. simpl in Hinum. subst i.
    apply (dn_lists _ _ _ _ _ _ Hn) in HN as (o & Hne & _). done.
  - destruct (Hent Hz) as (_ & j & -> & He). pose proof (lookup_lt_Some _ _ _ He) as Hj.
    assert (slot_wf (mkDirEnt NULLINUM [])) as Hwf by (by rewrite NULLINUM_eq).
    apply wp_bind. eapply wp_lift; [by apply encodeDirEnt_eq, slot_ent_wf|].
    apply wp_bind, (wp_dir_op dip ip); [apply Hd|].
    pose proof (sl_max _ _ _ Hs) as Hm. rewrite (sl_size _ _ _ Hs) in Hm.
    apply (wp_write_slot es); [done|lia|done|by right|unfold slot_off, DIRENTSZ in *; lia|..];
      intros ip1 a1 Ht Hdc Hsl; simpl; [|lia].
    intros Hsy. split; [done|]. intros s1 Hst <- Hh. apply wp_ret.
    eapply HQ; [done|done|done|done| |done]. by rewrite Hdc, (dn_Dcache _ _ _ _ _ _ Hn).
Qed.

(** The part of [RemName] after the name cache is there. *)
Lemma wp_rem_entry dip N es dc ip s name (Q : bool -> FSt -> Prop) : dir_names dip N es dc ip s ->
  (N !! name = None -> Q false s) ->
  (forall j inum dc' ip' s', N !! name = Some inum -> es !! j = Some (mkDirEnt inum name) ->
     dir_step dip s ip s' ip' ->
     dir_names dip (delete name N) (set_slot es j (mkDirEnt NULLINUM [])) dc' ip' s' ->
     synced ip' (f_a s') -> Q true s') ->
  wp ('(off, ok) ← RemNameDir dip name;
      if (ok : bool) then
        _ ← on_dcache dip (fun dc => (tt, set_Lastoff off dc));
        ok ← on_dcache dip (Del name);
        if (ok : bool) then mret true else panic
      else mret false) s Q.
Proof.
  intros Hn HQf HQ. pose proof (dn_at _ _ _ _ _ _ Hn) as Hd. pose proof (dn_cache _ _ _ _ _ _ Hn) as Hdc.
  apply wp_bind. eapply wp_RemNameDir; [done|intros HN; by apply wp_ret, HQf|].
  intros j inum ip1 s1 He Hne Hst1 Hat1 Hdc1 Hsy1.
  assert (entry es name inum (slot_off j)) as Hent by (split; [done|by exists j]).
  assert (dc_cache dc !! name = Some (mkDentry inum (slot_off j))) as Hc by (by apply (dk_entry _ _ Hdc)).
  apply wp_bind. eapply wp_on_dcache; [exact Hat1|exact Hdc1|]. intros s2 ip2 -> Hst2 Hat2 Hsy2.
  apply wp_bind. eapply wp_on_dcache; [exact Hat2|done|]. intros s3 ip3 -> Hst3 Hat3 Hsy3.
  unfold Del in *. simpl in *. rewrite Hc in *. simpl in *. apply wp_ret. eapply HQ; [|exact He| | |by auto].
  - apply (dn_lists _ _ _ _ _ _ Hn). by exists (slot_off j).
  - eapply dir_step_trans; [exact Hd|exact Hst1|]. by eapply dir_step_trans; [exact Hat1|..].
  - split; [exact Hat3|done|by eapply dcache_rem|]. eapply lists_rem; [done|apply Hn|done..].
Qed.

(** [RemName] removes the name if it is there; it cannot fail otherwise. *)
Lemma wp_RemName dip N es dc ip s name (Q : bool -> FSt -> Prop) : dir_names dip N es dc ip s ->
  (N !! name = None -> Q false s) ->
  (forall j inum dc' ip' s', N !! name = Some inum -> es !! j = Some (mkDirEnt inum name) ->
     dir_step dip s ip s' ip' ->
     dir_names dip (delete name N) (set_slot es j (mkDirEnt NULLINUM [])) dc' ip' s' ->
     synced ip' (f_a s') -> Q true s') ->
  wp (RemName dip name) s Q.
Proof.
  intros Hn HQf HQ. pose proof (dn_at _ _ _ _ _ _ Hn) as Hd.
  unfold RemName. apply wp_bind, (wp_ip_field dip ip); [apply Hd|].
  rewrite (sl_kind _ _ _ (da_slots _ _ _ _ Hd)), (bool_decide_eq_false_2 (_ <> _)) by tauto. simpl.
  destruct (Z.leb_spec MAXNAMELEN (len name)) as [Hlong|Hshort].
  { apply wp_ret, HQf. by eapply names_short. }
  apply wp_bind, (wp_ensure_dcache dip ip s dc); [apply Hd|apply Hn|]. by eapply wp_rem_entry.
Qed.

(** [mkDcache] of a directory without entries. *)
Lemma wp_ensure_dcache_new dip ip s (Q : unit -> FSt -> Prop) : dir_at dip [] ip s -> i_Dcache ip = None ->
  (forall ip' s', dir_step dip s ip s' ip' -> dir_names dip ∅ [] MkDcache ip' s' -> i_Inum ip' = i_Inum ip ->
     Q tt s') ->
  wp (ensure_dcache dip) s Q.
Proof.
  intros Hd Hdc HQ. unfold ensure_dcache. apply wp_bind, (wp_ip_field dip ip); [apply Hd|]. rewrite Hdc.
  unfold mkDcache. apply wp_bind. eapply wp_set_Dcache; [done|]. intros s' Hst Hd' _.
  pose proof (sl_size _ _ _ (da_slots _ _ _ _ Hd')) as Hsz. change (slot_off (length [])) with 0 in Hsz.
  apply wp_bind, (wp_ip_field dip _ _ _ _ (da_heap _ _ _ _ Hd')). rewrite Hsz.
  apply wp_bind. unfold Apply. apply wp_bind, (wp_ip_field dip _ _ _ _ (da_heap _ _ _ _ Hd')).
  unfold ents_fuel. cbn [apply_loop]. apply wp_bind, (wp_ip_field dip _ _ _ _ (da_heap _ _ _ _ Hd')).
  rewrite Hsz. simpl. apply wp_ret, wp_ret. eapply HQ; [done| |done]. split; [done|done| |].
  - split; [|by exists O]. intros name inum off. simpl. rewrite lookup_empty.
    split; [done|]. by intros (_ & j & _ & Hj).
  - intros name inum. rewrite lookup_empty. split; [done|]. by intros (off & _ & j & _ & Hj).
Qed.

(** [empty_loop] looks for an entry in use at or after slot [j]. *)
Lemma wp_empty_loop fuel dip es ip0 s0 ip s j (Q : bool -> FSt -> Prop) : dir_at dip es ip0 s0 ->
  same_dir dip es s0 ip0 s ip -> (length es - j < fuel)%nat ->
  (forall r ip' s', same_dir dip es s0 ip0 s' ip' ->
     (r = true <-> forall k e, (j <= k)%nat -> es !! k = Some e -> de_inum e = NULLINUM) -> Q r s') ->
  wp (empty_loop fuel dip (slot_off j)) s Q.
Proof.
  intros Hd0. revert ip s j. induction fuel as [|fuel IH]; intros ip s j Hsd Hf HQ; [lia|].
  pose proof (sd_at _ _ _ _ _ _ Hsd) as Hd. cbn [empty_loop].
  apply wp_bind, (wp_ip_field dip ip); [apply Hd|].
  rewrite (slots_size_cases es ip (f_a s)) by apply Hd. case_bool_decide as Hj.
  2: { apply wp_ret. eapply HQ; [done|]. split; [|done]. intros _ k e Hk He.
       apply lookup_lt_Some in He. lia. }
  destruct (lookup_lt_is_Some_2 es j Hj) as [e He]. eapply wp_slot; [done|exact He|].
  intros ip' s' Hsd'. assert (same_dir dip es s0 ip0 s' ip') as Hsd2 by (by eapply same_dir_trans).
  case_bool_decide as Hfree.
  - rewrite (slot_next es ip (f_a s)) by (try done; apply Hd). apply (IH ip'); [done|lia|].
    intros r ip2 s2 Hs2 Hr. eapply HQ; [done|]. rewrite Hr. split; intros Hall k x Hk Hx.
    + destruct (decide (k = j)) as [->|Hne]; [congruence|]. apply (Hall k); [lia|done].
    + apply (Hall k); [lia|done].
  - apply wp_ret. eapply HQ; [done|]. split; [done|]. intros Hall. destruct Hfree. by apply (Hall j).
Qed.

(** The first two slots are the directory itself and its parent. *)
Definition dots es : Prop := exists self parent, self <> NULLINUM /\ parent <> NULLINUM /\
  es !! 0%nat = Some (mkDirEnt self (str ".")) /\ es !! 1%nat = Some (mkDirEnt parent (str "..")).

Lemma dots_set es j e : dots es -> (j <= length es)%nat ->
  (forall x, es !! j = Some x -> de_inum x = NULLINUM \/ IllegalName (de_name x) = false) ->
  dots (set_slot es j e).
Proof.
  intros (self & parent & Hs & Hp & Hdot & Hdd) Hj Hx. exists self, parent.
  assert (j <> 0%nat /\ j <> 1%nat) as [Hj0 Hj1].
  { split; intros ->.
    - by destruct (Hx _ Hdot).
    - by destruct (Hx _ Hdd). }
  by rewrite !set_slot_ne.
Qed.

Lemma dots_empty dc N es : dots es -> dcache_ok dc es -> lists N es ->
  (forall k e, (2 <= k)%nat -> es !! k = Some e -> de_inum e = NULLINUM) <->
  map_Forall (fun name _ => IllegalName name = true) N.
Proof.
  intros (self & parent & Hs & Hp & Hdot & Hdd) Hdc Hl. split.
  - intros Hall name inum (off & Hne & k & _ & He)%Hl. destruct (decide (2 <= k)%nat) as [Hk|Hk].
    + by destruct Hne; apply (Hall k _ Hk He).
    + assert (k = 0 \/ k = 1)%nat as [->| ->] by lia; simplify_eq; by vm_compute.
  - intros Hall k [inum name] Hk He. simpl. destruct (decide (inum = NULLINUM)) as [|Hne]; [done|exfalso].
    assert (entry es name inum (slot_off k)) as Hent by (split; [done|by exists k]).
    assert (N !! name = Some inum) as HN by (apply Hl; by exists (slot_off k)). apply Hall in HN.
    unfold IllegalName in HN. apply orb_true_iff in HN as [->%bool_decide_eq_true| ->%bool_decide_eq_true].
    + assert (entry es (str ".") self (slot_off 0)) as Hd by (split; [done|by exists 0%nat]).
      pose proof (entry_unique _ _ _ _ _ _ _ Hdc Hent Hd) as [_ Ho]. unfold slot_off, DIRENTSZ in Ho. lia.
    + assert (entry es (str "..") parent (slot_off 1)) as Hd by (split; [done|by exists 1%nat]).
      pose proof (entry_unique _ _ _ _ _ _ _ Hdc Hent Hd) as [_ Ho]. unfold slot_off, DIRENTSZ in Ho. lia.
Qed.
End dirs.
