(* ===== verification/DirVol.v ===== *)
(** The directories of a volume: each of them lists its entries, the names in
    use are distinct and name inodes in use, and a cached directory inode whose
    name cache is loaded holds exactly the names of the directory.

    Loading the name cache of a directory ([mkDcache]) locks and releases the
    inode of each of its entries. *)
From stdpp Require Import functions.
From S2P Require Import Prelude Nfstypes External Reference Super Fh Cache Dcache Alloctxn AtxnCommit Inode.
From S2P Require Import InodeCodec InodeMap InodeIO Volume Fstxn FstxnInv Dir DirCodec DirSpec.

(** ** The names of a list of entries *)

Section names.
Context `{!Common} `{!CommonSpec}.
Implicit Types (es : list dirEnt) (e : dirEnt) (name : list Z).

Definition in_use e : Prop := de_inum e <> NULLINUM.

#[export] Instance in_use_dec e : Decision (in_use e).
Proof. unfold in_use. apply _. Defined.

(** No name is in two slots. *)
Definition uniq es : Prop := forall j k e e', es !! j = Some e -> es !! k = Some e' ->
  in_use e -> in_use e' -> de_name e = de_name e' -> j = k.

Fixpoint names es : gmap (list Z) Z :=
  match es with
  | [] => ∅
  | e :: es => if decide (in_use e) then <[de_name e := de_inum e]> (names es) else names es
  end.

Lemma entry_nil name inum off : ~ entry [] name inum off.
Proof. by intros (_ & j & _ & Hj). Qed.

Lemma uniq_tail e es : uniq (e :: es) -> uniq es.
Proof. intros Hu j k x y Hj Hk Hx Hy Hn. by injection (Hu (S j) (S k) x y Hj Hk Hx Hy Hn). Qed.

Lemma names_Some es name inum : uniq es ->
  names es !! name = Some inum <-> exists j, es !! j = Some (mkDirEnt inum name) /\ inum <> NULLINUM.
Proof.
  induction es as [|e es IH]; intros Hu; simpl.
  { rewrite lookup_empty. split; [done|]. by intros (j & Hj & _). }
  specialize (IH (uniq_tail _ _ Hu)). case_decide as He.
  - rewrite lookup_insert_Some, IH. split.
    + intros [[<- <-]|(_ & j & Hj & Hi)]; [exists 0%nat; by destruct e|by exists (S j)].
    + intros ([|j] & Hj & Hi); [left; by injection Hj as ->|].
      destruct (decide (de_name e = name)) as [Hn|Hn]; [|right; by eauto].
      by pose proof (Hu 0%nat (S j) e _ eq_refl Hj He Hi Hn).
  - rewrite IH. split; [intros (j & Hj & Hi); by exists (S j)|].
    intros ([|j] & Hj & Hi); [|by exists j]. injection Hj as ->. by destruct He.
Qed.

Lemma names_elem es name inum : uniq es -> names es !! name = Some inum ->
  exists e, e ∈ es /\ in_use e /\ de_inum e = inum /\ de_name e = name.
Proof.
  intros Hu (j & Hj & Hi)%names_Some; [|done]. exists (mkDirEnt inum name).
  split_and!; [by eapply list_elem_of_lookup_2|done..].
Qed.

Lemma lists_names es : uniq es -> lists (names es) es.
Proof.
  intros Hu name inum. rewrite names_Some by done. unfold entry. split.
  - intros (j & Hj & Hi). exists (DIRENTSZ * Z.of_nat j). eauto.
  - intros (off & Hi & j & _ & Hj). eauto.
Qed.

Lemma lists_eq es N : uniq es -> lists N es -> names es = N.
Proof.
  intros Hu Hl. apply map_eq. intros name. apply option_eq. intros inum.
  by rewrite (Hl name inum), <-(lists_names es Hu name inum).
Qed.

Lemma dcache_uniq dc es : dcache_ok dc es -> uniq es.
Proof.
  intros Hdc j k [i n] [i' n'] Hj Hk Hi Hi' Hn. simpl in Hn. subst n'.
  destruct (entry_unique dc es n i (DIRENTSZ * Z.of_nat j) i' (DIRENTSZ * Z.of_nat k) Hdc) as [_ Ho];
    [split; eauto..|]. unfold DIRENTSZ in Ho. lia.
Qed.

(** *** The cache of the first [j] slots *)

Lemma take_S_entry es j e name inum off : es !! j = Some e ->
  entry (take (S j) es) name inum off <->
  entry (take j es) name inum off \/ (in_use e /\ e = mkDirEnt inum name /\ off = DIRENTSZ * Z.of_nat j).
Proof.
  intros He. pose proof (lookup_lt_Some _ _ _ He). rewrite (take_S_r _ _ _ He). unfold entry. split.
  - intros (Hi & k & -> & Hk). apply lookup_app_Some in Hk as [Hk|[Hlen Hk]]; [left; eauto|right].
    rewrite length_take in *. apply list_lookup_singleton_Some in Hk as [Hk ->].
    split; [done|]. split; [done|]. f_equal. lia.
  - intros [(Hi & k & -> & Hk)|(Hu & -> & ->)].
    + split; [done|]. exists k. split; [done|]. by apply lookup_app_l_Some.
    + split; [done|]. exists j. split; [done|]. rewrite lookup_app_r by (rewrite length_take; lia).
      by rewrite length_take, Nat.min_l, Nat.sub_diag by lia.
Qed.

(** The cache of the slots before [j], as [mkDcache] fills it. *)
Definition cached_to dc es (j : nat) : Prop :=
  (forall name inum off, dc_cache dc !! name = Some (mkDentry inum off) <-> entry (take j es) name inum off) /\
  Lastoff dc = 0.

Lemma cached_to_0 es : cached_to MkDcache es 0.
Proof.
  split; [|done]. intros name inum off. simpl. rewrite lookup_empty. split; [done|].
  by intros ?%entry_nil.
Qed.

Lemma cached_to_skip dc es j e : es !! j = Some e -> ~ in_use e -> cached_to dc es j -> cached_to dc es (S j).
Proof.
  intros He Hu [Hdc Hl]. split; [|done]. intros name inum off. rewrite Hdc, (take_S_entry es j e) by done. tauto.
Qed.

Lemma cached_to_add dc es j e : es !! j = Some e -> uniq es -> in_use e -> cached_to dc es j ->
  cached_to (Add (de_name e) (de_inum e) (DIRENTSZ * Z.of_nat j) dc) es (S j).
Proof.
  intros He Hu Hi [Hdc Hl]. split; [|done]. intros name inum off. simpl.
  rewrite lookup_insert_Some, Hdc, (take_S_entry es j e) by done. split.
  - intros [[<- [= <- <-]]|[_ ?]]; [right; split_and!; [done|by destruct e|done]|by left].
  - intros [Hent|(_ & -> & ->)]; [|by left]. right. split; [|done]. intros <-.
    destruct Hent as (Hne & k & _ & Hk). apply lookup_take_Some in Hk as [Hk Hlt].
    pose proof (Hu j k _ _ He Hk Hi Hne eq_refl). lia.
Qed.

Lemma cached_to_all dc es : cached_to dc es (length es) -> dcache_ok dc es.
Proof.
  intros [Hdc Hl]. rewrite take_ge in Hdc by done. split; [done|]. exists 0%nat. rewrite Hl. split; [done|lia].
Qed.
End names.

(** ** Loading the name cache *)

Section mkdcache.
Context `{!Common} `{!CommonSpec} `{!Util} `{!UtilSpec} `{!Marshal} `{!MarshalSpec}
  `{!Buf} `{!BufSpec} `{!Journal} `{!JournalSpec} `{!AllocPkg} `{!AllocSpec}
  `{!LockPkg} `{!LockSpec} `{!Clock} `{!DiskPkg}.
Variable L : gset Z.
Implicit Types (F : Z -> Inode) (E : Z -> list dirEnt) (f : FSt) (a : ASt) (es : list dirEnt) (dip p i : Z)
  (ip : Inode).

Lemma slots_sim es ip a a' : slots es ip a -> sim a a' -> slots es ip a'.
Proof.
  intros Hsl Hs. pose proof Hsl as [Hf Hk Hz Hm Hp Hw He]. pose proof (fo_file _ _ Hf) as Hwf.
  split; [by eapply sim_file_ok|done..| |done|].
  - intros k Hin. unfold fblk. rewrite (sim_fptr ip a a') by (try done; apply fpath_ok, in_file_blk; by eapply slots_in_file).
    by apply Hp.
  - intros j e Hj. rewrite <-(He j e Hj). apply fbytes_ext. intros k Hlt. apply sim_fbyte; [done..|].
    apply (slots_in_file es ip a); [done|]. apply (slots_lt es ip a j); [done|by apply lookup_lt_Some in Hj|lia].
Qed.

Lemma wp_set_dcache {A} dip ip dc f (g : Dcache -> A * Dcache) (Q : A -> FSt -> Prop) :
  f_heap f !! dip = Some ip -> i_Dcache ip = Some dc ->
  Q (g dc).1 (fset_heap (<[dip := with_Dcache (Some (g dc).2) ip]> (f_heap f)) f) ->
  wp (on_dcache dip g) f Q.
Proof.
  intros Hp Hdc HQ. unfold on_dcache. apply wp_bind, (wp_ip_field dip ip); [done|]. rewrite Hdc.
  destruct (g dc) as [x dc']. apply wp_bind, (wp_on_ip dip ip); [done|]. apply wp_ip_set. by apply wp_ret.
Qed.

(** [f'] is [f] after inodes were locked and released: what it holds, and the
    disk, did not change, and of the inode at [dip] only the name cache may. *)
Record looked dip f f' : Prop := {
  lk_inodes : f_inodes f' = f_inodes f;
  lk_sim : sim (f_a f) (f_a f');
  lk_grow : grow (f_a f) (f_a f');
  lk_balloc : a_balloc (f_a f') = a_balloc (f_a f);
  lk_keep : forall q, q <> dip -> is_Some (f_heap f !! q) -> f_heap f' !! q = f_heap f !! q;
  lk_self : forall ip, f_heap f !! dip = Some ip -> exists dc, f_heap f' !! dip = Some (with_Dcache dc ip);
  lk_refs : forall j q, cached f' j q -> cached f j q \/ fresh f f' q;
}.

Lemma with_Dcache_id ip : with_Dcache (i_Dcache ip) ip = ip.
Proof. by destruct ip. Qed.

Lemma looked_refl dip a0 f : fs_inv L a0 f -> looked dip f f.
Proof.
  intros Hf. pose proof (af_inv _ _ (fi_from _ _ _ Hf)). pose proof (fi_zero _ _ _ Hf).
  split; [done|by apply sim_refl|by apply grow_refl|done|done| |by left].
  intros ip Hp. exists (i_Dcache ip). by rewrite with_Dcache_id.
Qed.

Lemma looked_trans dip f1 f2 f3 : is_Some (f_heap f1 !! dip) -> looked dip f1 f2 -> looked dip f2 f3 ->
  looked dip f1 f3.
Proof.
  intros Hd [Hi1 Hs1 Hg1 Hb1 Hk1 Hp1 Hr1] [Hi2 Hs2 Hg2 Hb2 Hk2 Hp2 Hr2].
  assert (forall q, is_Some (f_heap f1 !! q) -> is_Some (f_heap f2 !! q)) as Hup.
  { intros q Hq. destruct (decide (q = dip)) as [->|Hne].
    - destruct Hq as [ip Hip]. destruct (Hp1 ip Hip) as [dc Hdc]. by eauto.
    - by rewrite Hk1. }
  split; [congruence|by eapply sim_trans|by eapply grow_trans|congruence|..].
  - intros q Hne Hq. rewrite Hk2, Hk1 by auto. done.
  - intros ip Hip. destruct (Hp1 ip Hip) as [dc Hdc]. destruct (Hp2 _ Hdc) as [dc' Hdc']. by exists dc'.
  - intros j q Hq. destruct (Hr2 j q Hq) as [Hq2|[Hn Hdc]].
    + destruct (Hr1 j q Hq2) as [|[Hn (ip & Hip & Hdc)]]; [by left|right]. split; [done|]. exists ip.
      split; [|done]. rewrite Hk2; [done| |eauto]. intros ->. destruct Hd. congruence.
    + right. split; [|done]. destruct (f_heap f1 !! q) eqn:Hq1; [|done].
      destruct (Hup q); [by rewrite Hq1|congruence].
Qed.

(** Changes of the inode at [dip] that keep all but its name cache. *)
Lemma looked_self dip ip dc f f' : f_heap f !! dip = Some ip ->
  f' = fset_a (f_a f') (fset_heap (<[dip := with_Dcache dc ip]> (f_heap f)) f) ->
  grow (f_a f) (f_a f') -> sim (f_a f) (f_a f') -> a_balloc (f_a f') = a_balloc (f_a f) -> looked dip f f'.
Proof.
  intros Hp Hf Hg Hs Hb. split; [by rewrite Hf|done|done|done|..].
  - intros q Hne _. rewrite Hf. simpl. by rewrite lookup_insert_ne.
  - intros ip' Hp'. exists dc. rewrite Hf. simpl. rewrite lookup_insert_eq. congruence.
  - intros j q Hq. left. unfold cached in *. by rewrite Hf in Hq.
Qed.

Section scan.
Context (a0 : ASt) (i dip : Z) (es : list dirEnt) (ip : Inode) (f0 : FSt) (F : Z -> Inode).
Hypothesis Hown : f_inodes f0 !! i = Some dip.
Hypothesis Hheap : f_heap f0 !! dip = Some ip.
Hypothesis Hslots : slots es ip (f_a f0).
Hypothesis Hinum : i_Inum ip = i.
Hypothesis Hsync : synced ip (f_a f0).
Hypothesis Huniq : uniq es.
Hypothesis Hvol : vol_ok F (f_a f0).
Hypothesis Hlinked : forall j, ino_ok (f_a f0) j -> linked (F j).
Hypothesis Hlive : forall e, e ∈ es -> in_use e ->
  ino_ok (f_a f0) (de_inum e) /\ i_Kind (F (de_inum e)) <> NF3FREE /\ de_inum e ∉ L.

(** The state of [mkDcache] before slot [j]. *)
Record scan (j : nat) dc f : Prop := {
  sc_fs : fs_inv L a0 f;
  sc_looked : looked dip f0 f;
  sc_heap : f_heap f !! dip = Some (with_Dcache (Some dc) ip);
  sc_cached : cached_to dc es j;
}.

Lemma scan_slots j dc f : scan j dc f -> slots es (with_Dcache (Some dc) ip) (f_a f).
Proof. intros Hsc. eapply slots_Dcache, slots_sim; [exact Hslots|apply Hsc]. Qed.

Lemma scan_dir_at j dc f : scan j dc f -> dir_at dip es (with_Dcache (Some dc) ip) f.
Proof. intros Hsc. split; [apply Hsc|by eapply scan_slots]. Qed.

Lemma scan_synced j dc f : scan j dc f -> synced (with_Dcache (Some dc) ip) (f_a f).
Proof.
  intros Hsc. pose proof (fo_inum _ _ (sl_file _ _ _ Hslots)) as Hi. unfold synced in *. simpl in *.
  by rewrite (sim_iobj _ _ (lk_sim _ _ _ (sc_looked _ _ _ Hsc))).
Qed.

Lemma scan_own j dc f : scan j dc f -> f_inodes f !! i = Some dip.
Proof. intros Hsc. by rewrite (lk_inodes _ _ _ (sc_looked _ _ _ Hsc)). Qed.

(** The inode at [dip] is replaced in a state that is otherwise as [f]. *)
Lemma scan_self j j' dc dc' f f' : scan j dc f ->
  f' = fset_a (f_a f') (fset_heap (<[dip := with_Dcache (Some dc') ip]> (f_heap f)) f) ->
  grow (f_a f) (f_a f') -> sim (f_a f) (f_a f') -> a_balloc (f_a f') = a_balloc (f_a f) ->
  cached_to dc' es j' -> scan j' dc' f'.
Proof.
  intros Hsc Hf Hg Hs Hb Hc. pose proof (sc_heap _ _ _ Hsc) as Hp. split; [| | |done].
  - rewrite Hf. apply (fs_inv_update L a0 f i dip (with_Dcache (Some dc) ip)); [apply Hsc|by eapply scan_own|done|done|done|done|].
    intros k Hk _. by apply (sim_iobj _ _ Hs).
  - eapply looked_trans; [by rewrite Hheap|apply Hsc|].
    by apply (looked_self dip (with_Dcache (Some dc) ip) (Some dc')).
  - rewrite Hf. simpl. by rewrite lookup_insert_eq.
Qed.

Lemma wp_scan_read {A} j e dc f (kont : dirEnt -> M FSt A) (Q : A -> FSt -> Prop) : scan j dc f ->
  es !! j = Some e -> (forall f', scan j dc f' -> wp (kont e) f' Q) ->
  wp (data ← read_ent dip (slot_off j); de ← lift (decodeDirEnt data); kont de) f Q.
Proof.
  intros Hsc He HQ. eapply wp_slot; [by eapply scan_dir_at|done|]. intros ip' f' Hsd. apply HQ.
  pose proof (sd_still _ _ _ _ _ _ Hsd (scan_synced _ _ _ Hsc)) as Hst.
  destruct (sd_step _ _ _ _ _ _ Hsd) as [Hf Ht]. rewrite (st_ip _ _ _ _ Hst) in Hf.
  apply (scan_self j j dc dc f); [done|exact Hf|apply Ht|by eapply still_sim; [apply Ht|]|apply Hst|apply Hsc].
Qed.

Lemma scan_add j e dc f : scan j dc f -> es !! j = Some e -> in_use e ->
  scan (S j) (Add (de_name e) (de_inum e) (slot_off j) dc)
    (fset_heap (<[dip := with_Dcache (Some (Add (de_name e) (de_inum e) (slot_off j) dc)) ip]> (f_heap f)) f).
Proof.
  intros Hsc He Hu. pose proof (af_inv _ _ (fi_from _ _ _ (sc_fs _ _ _ Hsc))).
  pose proof (fi_zero _ _ _ (sc_fs _ _ _ Hsc)).
  eapply (scan_self j); [done|done|by apply grow_refl|by apply sim_refl|done|]. by apply cached_to_add, Hsc.
Qed.

(** An entry whose inode is locked for the time it is added. *)
Lemma scan_release j e dc dc' f k p ipk f1 lm : scan j dc f -> k ∉ L ∪ dom (f_inodes f) ->
  fs_inv L a0 f1 -> got f k p ipk f1 ->
  let f2 := fset_heap (<[dip := with_Dcache (Some dc') ip]> (f_heap f1)) f1 in
  let f3 := fset_lockmap lm (fset_inodes (delete k (f_inodes f2)) f2) in
  fs_inv L a0 f3 -> cached_to dc' es (S j) -> es !! j = Some e -> scan (S j) dc' f3.
Proof.
  intros Hsc Hk Hf1 Hg f2 f3 Hf3 Hc He. pose proof (sc_heap _ _ _ Hsc) as Hp. split; [done| | |done].
  - eapply looked_trans; [by rewrite Hheap|apply Hsc|]. split; simpl.
    + rewrite (go_inodes _ _ _ _ _ Hg). apply delete_insert_id, not_elem_of_dom. set_solver.
    + apply Hg.
    + apply Hg.
    + apply Hg.
    + intros q Hne Hq. rewrite lookup_insert_ne by done. by apply (go_keep _ _ _ _ _ Hg).
    + intros ip' Hp'. exists (Some dc'). rewrite lookup_insert_eq. rewrite Hp in Hp'. by injection Hp' as <-.
    + intros j' q Hq. destruct (go_refs _ _ _ _ _ Hg j' q Hq) as [|[Hn (ipq & Hipq & Hdc)]]; [by left|right].
      split; [done|]. exists ipq. simpl. rewrite lookup_insert_ne; [done|]. congruence.
  - simpl. by rewrite lookup_insert_eq.
Qed.

Lemma wp_scan_child {A} j e dc f (kont : unit -> M FSt A) (Q : A -> FSt -> Prop) : scan j dc f ->
  es !! j = Some e -> in_use e -> (forall f' dc', scan (S j) dc' f' -> wp (kont tt) f' Q) ->
  wp (own ← OwnInum (de_inum e);
      o ← (if (own : bool) then p ← GetInodeUnlocked (de_inum e); mret (Some p)
           else GetInodeInum (de_inum e));
      x ← on_dcache dip (fun dc => (tt, Add (de_name e) (de_inum e) (slot_off j) dc));
      _ ← (if negb own then p ← deref o; ReleaseInode p else mret tt);
      kont x) f Q.
Proof.
  intros Hsc He Hu HQ. set (k := de_inum e). set (g := fun dc => (tt, Add (de_name e) k (slot_off j) dc)).
  pose proof (sc_heap _ _ _ Hsc) as Hp. pose proof (scan_own _ _ _ Hsc) as Ho.
  pose proof (sc_looked _ _ _ Hsc) as Hlk. pose proof (sim_super _ _ (lk_sim _ _ _ Hlk)) as Hsp.
  apply wp_bind, wp_gets. case_bool_decide as Hin.
  - destruct Hin as [p Hpk]. apply wp_bind, wp_bind. unfold GetInodeUnlocked, lookupInode.
    apply wp_bind, wp_gets. rewrite Hpk. apply wp_ret, wp_ret. apply wp_bind.
    eapply wp_set_dcache; [exact Hp|done|]. apply wp_bind, wp_ret. eapply HQ. by apply (scan_add j e dc f).
  - assert (e ∈ es) as Hel by (by eapply list_elem_of_lookup_2).
    destruct (Hlive e Hel Hu) as (Hok & Hkind & HL). fold k in Hok, Hkind, HL.
    assert (ino_ok (f_a f) k) as Hok' by (by eapply ino_ok_super; [|exact Hok]).
    assert (k ∉ L ∪ dom (f_inodes f)) as Hnin.
    { intros [?|Hd]%elem_of_union; [done|]. by apply elem_of_dom in Hd. }
    pose proof (sim_vol F _ _ (lk_sim _ _ _ Hlk) Hvol) as Hv.
    apply wp_bind, (wp_GetInodeInum L a0 f k (F k)); [apply Hsc|done|done|by apply Hv|by apply Hlinked| |done].
    intros p ipk f1 _ Hf1 Hg. pose proof (go_keep _ _ _ _ _ Hg dip ltac:(by rewrite Hp)) as Hp1.
    rewrite Hp in Hp1. pose proof (di_Inum _ _ _ (go_disk _ _ _ _ _ Hg)) as Hpi.
    assert (p <> dip) as Hne.
    { intros ->. rewrite (go_heap _ _ _ _ _ Hg) in Hp1. injection Hp1 as ->. simpl in Hpi.
      apply Hnin, elem_of_union_r. rewrite <-Hpi, Hinum. by eapply elem_of_dom_2. }
    assert (f_inodes f1 !! i = Some dip) as Ho1.
    { rewrite (go_inodes _ _ _ _ _ Hg), lookup_insert_ne; [done|]. intros ->. apply Hnin, elem_of_union_r. by eapply elem_of_dom_2. }
    apply wp_bind. eapply wp_set_dcache; [exact Hp1|done|]. cbn [snd g fst with_Dcache]. set (dc' := Add _ _ _ dc).
    change (with_Dcache (Some dc') (with_Dcache (Some dc) ip)) with (with_Dcache (Some dc') ip).
    simpl. apply wp_bind, wp_bind, wp_ret.
    assert (fs_inv L a0 (fset_heap (<[dip := with_Dcache (Some dc') ip]> (f_heap f1)) f1)) as Hf2.
    { apply (fs_inv_update L a0 f1 i dip (with_Dcache (Some dc) ip) _ (f_a f1)); [done..| |done].
      apply grow_refl; [apply (af_inv _ _ (fi_from _ _ _ Hf1))|apply (fi_zero _ _ _ Hf1)]. }
    apply (wp_release_clean L a0 _ k p ipk); [exact Hf2| | |apply Hg| |]; simpl.
    + by rewrite (go_inodes _ _ _ _ _ Hg), lookup_insert_eq.
    + rewrite lookup_insert_ne by done. apply Hg.
    + by apply (got_clean L a0 f k p ipk f1); [apply Hsc|..].
    + intros lm Hf3. apply (HQ _ dc').
      apply (scan_release j e dc dc' f k p ipk f1 lm); [done..| |done].
      by apply cached_to_add, Hsc.
Qed.

(** The number of entries that [mkDcache] is sure to load: the loop counts the
    bytes of a listing of them, and stops at 100000000. *)
Definition cacheable es : Prop := Z.of_nat (length es) <= 400000.

Hypothesis Hmany : cacheable es.

Lemma wp_mk_loop fuel j dc f n dirbytes (Q : bool * unit -> FSt -> Prop) : scan j dc f ->
  (j <= length es)%nat -> (length es - j < fuel)%nat ->
  0 <= dirbytes <= 119 * Z.of_nat j -> 64 <= n <= 64 + 243 * Z.of_nat j ->
  (forall f' dc', scan (length es) dc' f' -> Q (true, tt) f') ->
  wp (apply_loop fuel dip (slot_off j) (slot_off (length es)) 100000000 n dirbytes
        (fun _ name inum off _ => on_dcache dip (fun dc => (tt, Add name inum off dc))) tt) f Q.
Proof.
  revert j dc f n dirbytes. induction fuel as [|fuel IH]; intros j dc f n dirbytes Hsc Hj Hf Hd Hn HQ; [lia|].
  cbn [apply_loop]. apply wp_bind, (wp_ip_field dip _ _ _ _ (sc_heap _ _ _ Hsc)).
  rewrite (slots_size_cases es _ (f_a f)) by by eapply scan_slots. case_bool_decide as Hlt.
  2: { apply wp_ret, (HQ f dc). by replace (length es) with j by lia. }
  destruct (lookup_lt_is_Some_2 es j Hlt) as [e He]. eapply wp_scan_read; [done|done|].
  clear f Hsc. intros f Hsc. case_bool_decide as Hnull.
  { rewrite (slot_next es _ (f_a f)) by (try done; by eapply scan_slots). apply (IH (S j) dc); [|lia..|done].
    destruct Hsc as [Hs Hl Hh Hc]. split; [done..|]. apply (cached_to_skip dc es j e); [done| |done]. by intros []. }
  assert (len (de_name e) < MAXNAMELEN) as Hlen.
  { pose proof (sl_wf _ _ _ Hslots) as Hall. by eapply Forall_lookup in Hall as [_ ?]. }
  pose proof (len_nonneg (de_name e)). change MAXNAMELEN with 112 in Hlen.
  eapply wp_scan_child; [done|done|done|]. clear f Hsc. intros f dc' Hsc. unfold cacheable in Hmany.
  change entryplus3Baggage with 132. wsimp.
  destruct (Z.leb_spec (slot_off (length es)) (dirbytes + (8 + len (de_name e)))) as [Hbad|_].
  { unfold slot_off, DIRENTSZ in Hbad. lia. }
  destruct (Z.leb_spec 100000000 (n + (132 + len (de_name e)))) as [Hbad|_]; [lia|]. simpl.
  rewrite (slot_next es _ (f_a f0)) by done. apply (IH (S j) dc'); [done|lia..|done].
Qed.
End scan.

(** [mkDcache] loads the name cache of a directory. *)
Lemma wp_mkDcache a0 i dip es ip f F (Q : unit -> FSt -> Prop) : fs_inv L a0 f ->
  f_inodes f !! i = Some dip -> dir_at dip es ip f -> i_Inum ip = i -> synced ip (f_a f) -> uniq es ->
  vol_ok F (f_a f) -> (forall j, ino_ok (f_a f) j -> linked (F j)) ->
  (forall e, e ∈ es -> in_use e -> ino_ok (f_a f) (de_inum e) /\ i_Kind (F (de_inum e)) <> NF3FREE /\ de_inum e ∉ L) ->
  cacheable es ->
  (forall f' dc, fs_inv L a0 f' -> looked dip f f' -> f_heap f' !! dip = Some (with_Dcache (Some dc) ip) ->
     dcache_ok dc es -> Q tt f') ->
  wp (mkDcache dip) f Q.
Proof.
  intros Hf Ho [Hp Hsl] Hi Hsy Hu Hv Hlk Hlive Hmany HQ. unfold mkDcache.
  pose proof (af_inv _ _ (fi_from _ _ _ Hf)) as Hinv. pose proof (fi_zero _ _ _ Hf) as Hz.
  apply wp_bind, (wp_on_ip dip ip); [done|]. apply wp_ip_set. simpl.
  set (f1 := fset_a (f_a f) (fset_heap (<[dip := with_Dcache (Some MkDcache) ip]> (f_heap f)) f)).
  assert (scan a0 dip es ip f 0 MkDcache f1) as Hsc.
  { split; [|by apply (looked_self dip ip (Some MkDcache)); [..|apply grow_refl|apply sim_refl|]|apply lookup_insert_eq|apply cached_to_0].
    apply (fs_inv_update L a0 f i dip ip); [done..|by apply grow_refl|done]. }
  pose proof (sc_heap _ _ _ _ _ _ _ _ Hsc) as Hp1.
  apply wp_bind, (wp_ip_field dip _ _ _ _ Hp1). apply wp_bind. unfold Apply.
  rewrite (bool_decide_eq_false_2 (0 <> 0)) by tauto.
  apply wp_bind, (wp_ip_field dip _ _ _ _ Hp1). cbn [i_Size with_Dcache]. rewrite (sl_size _ _ _ Hsl).
  apply (wp_mk_loop a0 i dip es ip f F Ho Hp Hsl Hi Hsy Hu Hv Hlk Hlive Hmany _ 0 MkDcache); [done|lia| |lia|lia|].
  { rewrite <-(sl_size _ _ _ Hsl). apply (ents_fuel_enough es ip (f_a f) 0); [done|lia]. }
  intros f' dc Hs'. apply wp_ret, (HQ f' dc); [apply Hs'..|]. apply cached_to_all, Hs'.
Qed.

(** ** The directories of a volume *)

(** [E i] are the entries of directory [i]; a file that is not a directory has
    none. *)
Record dirs_ok E F a : Prop := {
  dr_slots : forall i, ino_ok a i -> i_Kind (F i) = NF3DIR -> slots (E i) (F i) a;
  dr_uniq : forall i, ino_ok a i -> uniq (E i);
  dr_live : forall i e, ino_ok a i -> e ∈ E i -> in_use e ->
    ino_ok a (de_inum e) /\ i_Kind (F (de_inum e)) <> NF3FREE;
  dr_none : forall i, ino_ok a i -> i_Kind (F i) <> NF3DIR -> E i = [];
}.

(** A directory has an entry for inode [i]. *)
Definition named E a i : Prop := exists j e, ino_ok a j /\ e ∈ E j /\ in_use e /\ de_inum e = i.

(** A directory whose blocks are spared. *)
Lemma slots_frame es ip a a' : slots es ip a -> file_ok ip a' ->
  (forall x, pos_ok x -> fptr ip a x <> 0 -> blk a' (fptr ip a x) = blk a (fptr ip a x)) -> slots es ip a'.
Proof.
  intros Hsl Hok Hb. pose proof Hsl as [_ Hk Hz Hm Hp Hw He]. split; [done..| |done|].
  - intros k Hin. unfold fblk. rewrite (frame_fptr ip a a' Hb); [by apply Hp|].
    apply fpath_ok, in_file_blk. by eapply slots_in_file.
  - intros j e Hj. rewrite <-(He j e Hj). apply fbytes_ext. intros k Hlt. apply frame_fbyte; [done|].
    apply (slots_in_file es ip a); [done|]. apply (slots_lt es ip a j); [done|by apply lookup_lt_Some in Hj|lia].
Qed.

(** A new file [i] that is not a directory, in a state that spares the blocks of
    every other file. *)
Lemma dirs_replace E F a a' i ip' : dirs_ok E F a -> a_super a' = a_super a -> ino_ok a i ->
  i_Kind (F i) <> NF3DIR -> i_Kind ip' <> NF3DIR -> (named E a i -> i_Kind (F i) <> NF3FREE -> i_Kind ip' <> NF3FREE) ->
  vol_ok (<[i := ip']> F) a' ->
  (forall j x, ino_ok a j -> j <> i -> pos_ok x -> fptr (F j) a x <> 0 ->
     blk a' (fptr (F j) a x) = blk a (fptr (F j) a x)) ->
  dirs_ok E (<[i := ip']> F) a'.
Proof.
  intros [Hs Hu Hl Hn] Hsp Hi Hk Hk' Hfree Hv Hb.
  assert (forall j, ino_ok a' j <-> ino_ok a j) as Hino by (intros j; unfold ino_ok; by rewrite Hsp).
  assert (forall j, j <> i -> (<[i := ip']> F) j = F j) as Hne by (intros; by rewrite fn_lookup_insert_ne).
  split.
  - intros j Hj%Hino. destruct (decide (j = i)) as [->|Hji]; [by rewrite fn_lookup_insert|].
    pose proof (vol_file_ok _ _ j Hv (proj2 (Hino j) Hj)) as Hok. rewrite Hne in * by done. intros Hkj.
    apply (slots_frame _ _ a); [by apply Hs|done|by eauto].
  - intros j Hj%Hino. by apply Hu.
  - intros j e Hj%Hino He Hue. rewrite Hino. destruct (Hl j e Hj He Hue) as [Hok Hkind]. split; [done|].
    destruct (decide (de_inum e = i)) as [Heq|Hji]; [|by rewrite Hne].
    assert (named E a i) as Hnm by (exists j, e; done). rewrite Heq in *. rewrite fn_lookup_insert. auto.
  - intros j Hj%Hino. destruct (decide (j = i)) as [->|Hji]; [intros _; by apply Hn|].
    rewrite Hne by done. by apply Hn.
Qed.

(** An inode that no directory names loses its entries and its kind. *)
Lemma dirs_drop E F a a' i ip' : dirs_ok E F a -> a_super a' = a_super a ->
  i_Kind ip' <> NF3DIR -> ~ named (<[i := []]> E) a i -> vol_ok (<[i := ip']> F) a' ->
  (forall j x, ino_ok a j -> j <> i -> pos_ok x -> fptr (F j) a x <> 0 ->
     blk a' (fptr (F j) a x) = blk a (fptr (F j) a x)) ->
  dirs_ok (<[i := []]> E) (<[i := ip']> F) a'.
Proof.
  intros [Hs Hu Hl Hn] Hsp Hk Hnm Hv Hb.
  assert (forall j, ino_ok a' j <-> ino_ok a j) as Hino by (intros j; unfold ino_ok; by rewrite Hsp).
  assert (forall j, j <> i -> (<[i := ip']> F) j = F j) as HF by (intros; by rewrite fn_lookup_insert_ne).
  assert (forall j, j <> i -> (<[i := []]> E) j = E j) as HE by (intros; by rewrite fn_lookup_insert_ne).
  split; intros j.
  - intros Hj%Hino. destruct (decide (j = i)) as [->|Hji]; [by rewrite !fn_lookup_insert|].
    pose proof (vol_file_ok _ _ j Hv (proj2 (Hino j) Hj)) as Hok. rewrite HF, HE in * by done. intros Hkj.
    apply (slots_frame _ _ a); [by apply Hs|done|by eauto].
  - intros Hj%Hino. destruct (decide (j = i)) as [->|Hji]; [by rewrite fn_lookup_insert|]. rewrite HE by done. by apply Hu.
  - intros e Hj%Hino He Hue. rewrite Hino.
    assert (de_inum e <> i) as Hne by (intros Heq; apply Hnm; by exists j, e).
    destruct (decide (j = i)) as [->|Hji]; [rewrite fn_lookup_insert in He; by apply not_elem_of_nil in He|].
    rewrite HE in He by done. rewrite HF by done. by apply (Hl j e).
  - intros Hj%Hino. destruct (decide (j = i)) as [->|Hji]; [by rewrite !fn_lookup_insert|].
    rewrite HF, HE by done. by apply Hn.
Qed.

Lemma dirs_update E F a a' i ip' : dirs_ok E F a -> vol_ok F a -> ino_ok a i -> grow a a' -> own (F i) a ip' a' ->
  vol_ok (<[i := ip']> F) a' -> i_Kind ip' = i_Kind (F i) -> i_Kind (F i) <> NF3DIR ->
  dirs_ok E (<[i := ip']> F) a'.
Proof.
  intros Hd Hv Hi Hg Ho Hv' Hk Hn. apply (dirs_replace E F a); [done|apply Hg|done|done|congruence|congruence|done|].
  intros j x Hj Hne Hx Hp. by apply (vol_own_other F a a' i ip').
Qed.

(** A new directory [i] with the entries [es], in such a state. *)
Lemma dirs_set E F a a' i es ip' : dirs_ok E F a -> a_super a' = a_super a ->
  vol_ok (<[i := ip']> F) a' ->
  (forall j x, ino_ok a j -> j <> i -> pos_ok x -> fptr (F j) a x <> 0 ->
     blk a' (fptr (F j) a x) = blk a (fptr (F j) a x)) ->
  slots es ip' a' -> uniq es ->
  (forall e, e ∈ es -> in_use e -> ino_ok a (de_inum e) /\
     (de_inum e <> i -> i_Kind (F (de_inum e)) <> NF3FREE)) ->
  dirs_ok (<[i := es]> E) (<[i := ip']> F) a'.
Proof.
  intros [Hs Hu Hl Hn] Hsp Hv Hb Hsl Hun Hlive.
  assert (forall j, ino_ok a' j <-> ino_ok a j) as Hino by (intros j; unfold ino_ok; by rewrite Hsp).
  assert (forall j, j <> i -> (<[i := ip']> F) j = F j) as HF by (intros; by rewrite fn_lookup_insert_ne).
  assert (forall j, j <> i -> (<[i := es]> E) j = E j) as HE by (intros; by rewrite fn_lookup_insert_ne).
  assert (forall k, k = i \/ i_Kind (F k) <> NF3FREE -> i_Kind ((<[i := ip']> F) k) <> NF3FREE) as Hkind.
  { intros k Hk. destruct (decide (k = i)) as [->|Hne]; [|rewrite HF by done; tauto].
    rewrite fn_lookup_insert, (sl_kind _ _ _ Hsl). done. }
  split; intros j.
  - intros Hj%Hino. destruct (decide (j = i)) as [->|Hne]; [by rewrite !fn_lookup_insert|].
    pose proof (vol_file_ok _ _ j Hv (proj2 (Hino j) Hj)) as Hok. rewrite HF, HE in * by done. intros Hk.
    apply (slots_frame _ _ a); [by apply Hs|done|by eauto].
  - intros Hj%Hino. destruct (decide (j = i)) as [->|Hne]; [by rewrite fn_lookup_insert|].
    rewrite HE by done. by apply Hu.
  - intros e Hj%Hino. rewrite Hino. destruct (decide (j = i)) as [->|Hne].
    + rewrite fn_lookup_insert. intros He Hue. destruct (Hlive e He Hue) as [? Hk]. split; [done|].
      apply Hkind. destruct (decide (de_inum e = i)); tauto.
    + rewrite HE by done. intros He Hue. destruct (Hl j e Hj He Hue). split; [done|]. apply Hkind. tauto.
  - intros Hj%Hino. destruct (decide (j = i)) as [->|Hne].
    + rewrite fn_lookup_insert, (sl_kind _ _ _ Hsl). done.
    + rewrite HF, HE by done. by apply Hn.
Qed.

Lemma dirs_sim E F a a' : dirs_ok E F a -> sim a a' -> dirs_ok E F a'.
Proof.
  intros [Hs Hu Hl Hn] Hsim. assert (forall i, ino_ok a' i <-> ino_ok a i) as Hi.
  { intros i. unfold ino_ok. by rewrite (sim_super _ _ Hsim). }
  split; intros i; [intros ?%Hi Hk|intros ?%Hi|intros e ?%Hi He Hue|intros ?%Hi Hk]; try by auto.
  - eapply slots_sim; [by apply Hs|done].
  - destruct (Hl i e); [done..|]. split; [by apply Hi|done].
Qed.

(** A loaded name cache holds the entries of the directory. *)
Definition dc_inv E f : Prop := forall i p ip dc, reach L f i p -> f_heap f !! p = Some ip ->
  i_Kind ip = NF3DIR -> i_Dcache ip = Some dc -> dcache_ok dc (E i).

Lemma dc_inv_kept E f f' : dc_inv E f -> kept L f f' -> dc_inv E f'.
Proof.
  intros Hinv Hk i p ip dc Hr Hp Hkind Hdc.
  destruct (Hk i p ip Hr Hp) as [Hn|(ip0 & Hr0 & Hp0 & Hd & Hk0)]; [congruence|].
  apply (Hinv i p ip0); [done|done|by apply Hk0|congruence].
Qed.

Lemma looked_reach dip f f' i p : looked dip f f' -> reach L f' i p -> reach L f i p \/ fresh f f' p.
Proof.
  intros Hl [Ho|[Hc HL]].
  - left. left. by rewrite <-(lk_inodes _ _ _ Hl).
  - destruct (lk_refs _ _ _ Hl i p Hc); [left; by right|by right].
Qed.

Lemma dc_inv_looked E a0 i dip ip dc f f' : fs_inv L a0 f -> dc_inv E f -> looked dip f f' ->
  f_heap f !! dip = Some ip -> i_Inum ip = i -> f_heap f' !! dip = Some (with_Dcache (Some dc) ip) ->
  dcache_ok dc (E i) -> dc_inv E f'.
Proof.
  intros Hf Hinv Hl Hp Hi Hp' Hdc j q iq dq Hr Hq Hk Hd.
  destruct (looked_reach _ _ _ _ _ Hl Hr) as [Hr0|[Hn (iq' & Hq' & Hd')]]; [|congruence].
  destruct (reach_heap L _ _ _ _ Hf Hr0) as (iq0 & Hq0 & Hi0). destruct (decide (q = dip)) as [->|Hne].
  - assert (j = i) as -> by congruence. rewrite Hp' in Hq. injection Hq as <-. simpl in Hd. by injection Hd as <-.
  - rewrite (lk_keep _ _ _ Hl) in Hq by (try done; by rewrite Hq0). by apply (Hinv j q iq).
Qed.

(** *** Directory operations load the cache first *)

Section dirop.
Context (a0 : ASt) (i dip : Z) (dc0 : option Dcache) (f : FSt) (F : Z -> Inode) (E : Z -> list dirEnt).
Hypothesis Hfs : fs_inv L a0 f.
Hypothesis Hown : f_inodes f !! i = Some dip.
Hypothesis Hheap : f_heap f !! dip = Some (with_Dcache dc0 (F i)).
Hypothesis Hvol : vol_ok F (f_a f).
Hypothesis Hlinked : forall j, ino_ok (f_a f) j -> linked (F j).
Hypothesis Hdirs : dirs_ok E F (f_a f).
Hypothesis Hdc : dc_inv E f.
Hypothesis Hmany : cacheable (E i).
Hypothesis Hfree : forall e, e ∈ E i -> in_use e -> de_inum e ∉ L.

Lemma dirop_ino : ino_ok (f_a f) i.
Proof. by destruct (fi_own _ _ _ Hfs i dip Hown). Qed.

Lemma wp_ensure_dcache_any (Q : unit -> FSt -> Prop) : i_Kind (F i) = NF3DIR ->
  (forall f' dc, fs_inv L a0 f' -> looked dip f f' -> dc_inv E f' ->
     dir_names dip (names (E i)) (E i) dc (with_Dcache (Some dc) (F i)) f' -> Q tt f') ->
  wp (ensure_dcache dip) f Q.
Proof.
  intros Hk HQ. pose proof dirop_ino as Hi. pose proof (vo_inode _ _ Hvol i Hi) as Hd.
  pose proof (dr_slots _ _ _ Hdirs i Hi Hk) as Hsl. pose proof (dr_uniq _ _ _ Hdirs i Hi) as Hu.
  unfold ensure_dcache. apply wp_bind, (wp_ip_field dip _ _ _ _ Hheap). simpl. destruct dc0 as [dc|].
  - apply wp_ret, (HQ f dc); [done|by eapply looked_refl|done|].
    split; [split; [done|by apply slots_Dcache]|done| |by apply lists_names].
    apply (Hdc i dip _ _ (or_introl Hown) Hheap); done.
  - apply (wp_mkDcache a0 i dip (E i) (with_Dcache None (F i)) f F); try done.
    + split; [done|by apply slots_Dcache].
    + by apply (di_Inum _ _ _ Hd).
    + by apply (disk_inode_synced _ _ _ Hd).
    + intros e He Hue. destruct (dr_live _ _ _ Hdirs i e Hi He Hue). auto.
    + intros f' dc Hf' Hl Hp' Hok. apply (HQ f' dc); [done|done| |].
      * apply (dc_inv_looked E a0 i dip (with_Dcache None (F i)) dc f f'); try done. by apply (di_Inum _ _ _ Hd).
      * split; [split; [done|]|done|done|by apply lists_names].
        eapply slots_Dcache, slots_sim; [done|apply Hl].
Qed.

Lemma wp_LookupName_any name (Q : Z * Z -> FSt -> Prop) :
  (forall f' off, fs_inv L a0 f' -> looked dip f f' -> dc_inv E f' ->
     Q (default NULLINUM (names (E i) !! name), off) f') ->
  wp (LookupName dip name) f Q.
Proof.
  intros HQ. unfold LookupName. apply wp_bind, (wp_ip_field dip _ _ _ _ Hheap). simpl. case_bool_decide as Hk.
  - apply wp_ret. specialize (HQ f 0). rewrite (dr_none _ _ _ Hdirs i dirop_ino Hk) in HQ.
    apply HQ; [done|by eapply looked_refl|done].
  - apply wp_bind, wp_ensure_dcache_any; [done|]. intros f' dc Hf' Hl Hdc' Hn.
    eapply wp_lookup_entry; [done|]. intros inum off -> _. by apply HQ.
Qed.
End dirop.
End mkdcache.
