(* ===== verification/DirClaims.v ===== *)
(** The properties of directories: the operations on a directory implement a
    map from names to inode numbers, and a new directory has its two names. *)
From S2P Require Import Prelude Nfstypes External Reference Super Fh Cache Dcache Alloctxn AtxnCommit Inode.
From S2P Require Import InodeCodec InodeMap InodeIO Volume InodeClaims Fstxn FstxnInv Dir DirCodec DirSpec.

(** ** The abstract directory *)

Inductive dop :=
| DLookup (name : list Z)
| DAdd (inum : Z) (name : list Z)
| DRem (name : list Z)
| DEmpty.

Inductive dres :=
| RInum (inum : Z)
| RBool (b : bool).

Section spec.
Context `{!Common}.

(** The names after an operation and its result; [full]: there is no room for
    another entry. *)
Definition dspec (full : bool) (o : dop) (N : gmap (list Z) Z) : dres * gmap (list Z) Z :=
  match o with
  | DLookup name => (RInum (default NULLINUM (N !! name)), N)
  | DAdd inum name =>
      if full || bool_decide (MAXNAMELEN <= len name) then (RBool false, N)
      else (RBool true, <[name := inum]> N)
  | DRem name => (RBool (bool_decide (is_Some (N !! name))), delete name N)
  | DEmpty => (RBool (bool_decide (map_Forall (fun name _ => IllegalName name = true) N)), N)
  end.

(** What the procedures check before: a name is added under a real inode number
    and only if it is new, and [.] and [..] are not removed. *)
Definition dop_ok (N : gmap (list Z) Z) (o : dop) : Prop :=
  match o with
  | DAdd inum name => is_u64 inum /\ inum <> NULLINUM /\ N !! name = None
  | DRem name => IllegalName name = false
  | _ => True
  end.
End spec.

Section claims.
Context `{!Common} `{!CommonSpec} `{!Util} `{!UtilSpec} `{!Marshal} `{!MarshalSpec}
  `{!Buf} `{!BufSpec} `{!Journal} `{!JournalSpec} `{!AllocPkg} `{!AllocSpec}
  `{!LockPkg} `{!Clock} `{!DiskPkg}.

Definition run_dop (dip : Z) (o : dop) : M FSt dres :=
  match o with
  | DLookup name => '(inum, _) ← LookupName dip name; mret (RInum inum)
  | DAdd inum name => ok ← AddName dip inum name; mret (RBool ok)
  | DRem name => ok ← RemName dip name; mret (RBool ok)
  | DEmpty => ok ← IsDirEmpty dip; mret (RBool ok)
  end.

(** The inode at [dip] is a directory with the names [N], [.] and [..] first. *)
Definition is_dir (dip : Z) (N : gmap (list Z) Z) (s : FSt) : Prop :=
  exists es dc ip, dir_names dip N es dc ip s /\ dots es.

Definition dir_changed (dip : Z) (s s' : FSt) : Prop :=
  exists ip ip', f_heap s !! dip = Some ip /\ dir_step dip s ip s' ip'.

(** The inode on disk, as the transaction sees it, is the one in memory. *)
Definition dir_stored (dip : Z) (s : FSt) : Prop :=
  exists ip, f_heap s !! dip = Some ip /\ synced ip (f_a s).

Definition no_room (dip : Z) (s : FSt) : Prop :=
  exists ip, f_heap s !! dip = Some ip /\
    (alloc_free (a_balloc (f_a s)) = ∅ \/ MaxFileSize < i_Size ip + DIRENTSZ).

(** What an operation leaves. *)
Definition dop_post dip N s o (r : dres) (s' : FSt) : Prop := exists full,
  dspec full o N = (r, (dspec full o N).2) /\ is_dir dip (dspec full o N).2 s' /\
  dir_changed dip s s' /\ (full = true -> no_room dip s') /\
  (full = false -> dir_stored dip s -> dir_stored dip s').

Lemma dir_changed_refl dip N es dc ip s : dir_names dip N es dc ip s -> dir_changed dip s s.
Proof.
  intros Hn. exists ip, ip. split; [apply Hn|]. eapply dir_step_refl. by apply Hn.
Qed.

Lemma dir_changed_step dip N es dc ip s ip' s' : dir_names dip N es dc ip s ->
  dir_step dip s ip s' ip' -> dir_changed dip s s'.
Proof. intros Hn Hst. exists ip, ip'. split; [apply Hn|done]. Qed.

Lemma dop_Lookup dip N es dc ip s name : dir_names dip N es dc ip s -> dots es ->
  wp (run_dop dip (DLookup name)) s (dop_post dip N s (DLookup name)).
Proof.
  intros Hn Hdots. simpl. apply wp_bind. eapply wp_LookupName; [done|]. intros inum off -> _.
  apply wp_ret. exists false. split_and!; [done|by exists es, dc, ip|by eapply dir_changed_refl|done|done].
Qed.

Lemma dop_Add dip N es dc ip s inum name : dir_names dip N es dc ip s -> dots es ->
  dop_ok N (DAdd inum name) -> wp (run_dop dip (DAdd inum name)) s (dop_post dip N s (DAdd inum name)).
Proof.
  intros Hn Hdots (Hi & Hne & HN). simpl. apply wp_bind. eapply wp_AddName; [done..| |].
  - intros j dc' ip' s' Hlen Hst Hfree Hn' Hsy. apply wp_ret. exists false.
    unfold dspec. rewrite (bool_decide_eq_false_2 (_ <= _)) by lia. simpl.
    split_and!; [done| |by eapply dir_changed_step|done|].
    + exists (set_slot es j (mkDirEnt inum name)), dc', ip'. split; [done|].
      apply dots_set; [done|apply Hfree|]. intros x Hx. left. by apply Hfree.
    + intros _ _. exists ip'. split; [apply Hn'|done].
  - intros ip' s' Hst Hn' [Hfull|[Hlong ->]]; apply wp_ret.
    + exists true. simpl. split_and!; [done|by exists es, dc, ip'|by eapply dir_changed_step| |done].
      intros _. exists ip'. split; [apply Hn'|]. rewrite (sl_size _ _ _ (da_slots _ _ _ _ (dn_at _ _ _ _ _ _ Hn'))). exact Hfull.
    + exists false. unfold dspec. rewrite (bool_decide_eq_true_2 (_ <= _)) by done. simpl.
      split_and!; [done|by exists es, dc, ip'|exact (dir_changed_step _ _ _ _ _ _ _ _ Hn Hst)|done|done].
Qed.

Lemma dop_Rem dip N es dc ip s name : dir_names dip N es dc ip s -> dots es ->
  dop_ok N (DRem name) -> wp (run_dop dip (DRem name)) s (dop_post dip N s (DRem name)).
Proof.
  intros Hn Hdots Hlegal. simpl in *. apply wp_bind. eapply wp_RemName; [done| |].
  - intros HN. apply wp_ret. exists false. simpl. rewrite HN, delete_id by done.
    split_and!; [done|by exists es, dc, ip|by eapply dir_changed_refl|done|done].
  - intros j inum dc' ip' s' HN He Hst Hn' Hsy. apply wp_ret. exists false. simpl.
    rewrite HN, (bool_decide_eq_true_2 (is_Some _)) by done.
    split_and!; [done| |by eapply dir_changed_step|done|].
    + exists (set_slot es j (mkDirEnt NULLINUM [])), dc', ip'. split; [done|].
      apply dots_set; [done|apply lookup_lt_Some in He; lia|]. intros x Hx. right. by simplify_eq.
    + intros _ _. exists ip'. split; [apply Hn'|done].
Qed.

Lemma dop_Empty dip N es dc ip s : dir_names dip N es dc ip s -> dots es ->
  wp (run_dop dip DEmpty) s (dop_post dip N s DEmpty).
Proof.
  intros Hn Hdots. pose proof (dn_at _ _ _ _ _ _ Hn) as Hd. simpl. unfold IsDirEmpty.
  apply wp_bind, wp_bind, (wp_ip_field dip ip); [apply Hd|].
  assert (2 <= length es)%nat as Hlen by (destruct Hdots as (? & ? & _ & _ & _ & Hl); by apply lookup_lt_Some in Hl).
  eapply (wp_empty_loop _ dip es ip s ip s 2); [done|by eapply same_dir_refl|eapply (ents_fuel_enough es ip _ 2); [apply Hd|done]|].
  intros r ip' s' Hsd Hr. apply wp_ret.
  rewrite (dots_empty _ _ _ Hdots (dn_cache _ _ _ _ _ _ Hn) (dn_lists _ _ _ _ _ _ Hn)) in Hr.
  exists false. unfold dspec. simpl. split_and!.
  - do 2 f_equal. destruct r; [by rewrite bool_decide_eq_true_2 by tauto|].
    rewrite bool_decide_eq_false_2; [done|]. intros Hall. by apply Hr in Hall.
  - exists es, dc, ip'. split; [by eapply same_dir_names|done].
  - eapply dir_changed_step; [done|apply Hsd].
  - done.
  - intros _ (ip0 & Hh & Hsy). exists ip'. split; [apply (sd_at _ _ _ _ _ _ Hsd)|].
    apply (sd_synced _ _ _ _ _ _ Hd Hsd). pose proof (da_heap _ _ _ _ Hd). congruence.
Qed.

(** C22: a directory implements a map from names to inode numbers.  In a
    transaction that holds a directory with its name cache loaded, [LookupName],
    [AddName], [RemName] and [IsDirEmpty] always return, with the result of the
    map and a directory of the names of the map; only this directory changes.
    [AddName] fails only if the name is too long, or no slot is left and the
    directory cannot grow; otherwise the inode on disk stays the one in
    memory. *)
Theorem dir_op_refines dip N s o : is_dir dip N s -> dop_ok N o ->
  exists full s', run_dop dip o s = Ok ((dspec full o N).1, s') /\ is_dir dip (dspec full o N).2 s' /\
    dir_changed dip s s' /\ (full = true -> no_room dip s') /\
    (full = false -> dir_stored dip s -> dir_stored dip s').
Proof.
  intros (es & dc & ip & Hn & Hdots) Hok.
  assert (wp (run_dop dip o) s (dop_post dip N s o)) as (r & s' & Hr & full & Hs & Hp).
  { destruct o; [by eapply dop_Lookup|by eapply dop_Add|by eapply dop_Rem|by eapply dop_Empty]. }
  exists full, s'. rewrite Hs. by rewrite Hs in Hp.
Qed.

(** *** A new directory *)

Lemma not_full_short (es : list dirEnt) s : (length es <= 2)%nat -> dir_full es s ->
  alloc_free (a_balloc (f_a s)) = ∅.
Proof.
  intros Hl [?|Hf]; [done|]. rewrite MaxFileSize_eq in Hf. unfold slot_off, DIRENTSZ in Hf. lia.
Qed.

(** [AddName] on a directory that has no entry yet, and no cache. *)
Lemma wp_AddName_first dip ip s inum name (Q : bool -> FSt -> Prop) : dir_at dip [] ip s ->
  i_Dcache ip = None -> is_u64 inum -> inum <> NULLINUM -> len name < MAXNAMELEN ->
  (forall dc' ip' s', dir_step dip s ip s' ip' ->
     dir_names dip {[name := inum]} [mkDirEnt inum name] dc' ip' s' -> Q true s') ->
  (forall ip' s', dir_step dip s ip s' ip' -> alloc_free (a_balloc (f_a s')) = ∅ -> Q false s') ->
  wp (AddName dip inum name) s Q.
Proof.
  intros Hd Hdc Hi Hne Hlen HQ HQf. unfold AddName. apply wp_bind, (wp_ip_field dip ip); [apply Hd|].
  rewrite (sl_kind _ _ _ (da_slots _ _ _ _ Hd)), (bool_decide_eq_false_2 (_ <> _)) by tauto. simpl.
  destruct (Z.leb_spec MAXNAMELEN (len name)); [lia|].
  apply wp_bind. eapply wp_ensure_dcache_new; [done|done|]. intros ip1 s1 Hst1 Hn1 _.
  eapply wp_add_entry; [exact Hn1|done|done|done|by apply lookup_empty|..].
  - intros j dc' ip' s' Hst Hfree%free_slot_nil Hn' _. subst j. eapply HQ; [by eapply dir_step_trans|exact Hn'].
  - intros ip' s' Hst Hn' Hf _. eapply HQf; [by eapply dir_step_trans|]. by apply (not_full_short [] s'); [simpl; lia|].
Qed.

Lemma InitDir_dots dip ip s parent : dir_at dip [] ip s -> i_Dcache ip = None ->
  i_Inum ip <> NULLINUM -> is_u64 parent -> parent <> NULLINUM ->
  wp (InitDir dip parent) s (fun ok s' => (exists ip', dir_step dip s ip s' ip') /\
    if ok : bool then is_dir dip {[str "." := i_Inum ip; str ".." := parent]} s'
    else alloc_free (a_balloc (f_a s')) = ∅).
Proof.
  intros Hd Hdc Hin Hp Hpn. pose proof (fo_inum _ _ (dir_at_file _ _ _ _ Hd)) as Hi.
  assert (is_u64 (i_Inum ip)) as Hu.
  { pose proof (layout_bounds _ (ti_layout _ (fo_inv _ _ (dir_at_file _ _ _ _ Hd)))).
    rewrite (NInode_eq _ (ti_layout _ (fo_inv _ _ (dir_at_file _ _ _ _ Hd)))) in Hi. unfold is_u64. lia. }
  unfold InitDir. apply wp_bind, (wp_ip_field dip ip); [apply Hd|]. apply wp_bind.
  eapply wp_AddName_first; [done..|by vm_compute| |].
  2: { intros ip1 s1 Hst1 Hf. by apply wp_ret; split; [exists ip1|]. }
  intros dc1 ip1 s1 Hst1 Hn1. simpl. eapply wp_AddName; [exact Hn1|done|done|by rewrite lookup_singleton_ne| |].
  - intros j dc2 ip2 s2 _ Hst2 Hfree Hn2 _. apply free_slot_one in Hfree as ->; [|done].
    split; [exists ip2; by eapply dir_step_trans|]. rewrite <-insert_empty, insert_insert_ne, insert_empty in Hn2 by done.
    do 3 eexists. split; [exact Hn2|]. by exists (i_Inum ip), parent.
  - intros ip2 s2 Hst2 _ [Hf|[Hl _]]; [|by vm_compute in Hl].
    split; [exists ip2; by eapply dir_step_trans|]. by apply (not_full_short [mkDirEnt (i_Inum ip) (str ".")]); [simpl; lia|].
Qed.

(** [InitDir] on the inode of a new directory, whose file is empty and which
    has no name cache, returns; it succeeds with a directory of exactly the
    names [.], for the inode itself, and [..], for the parent, or fails because
    no block is free, and it changes nothing else. *)
Theorem InitDir_spec dip ip s parent : dir_at dip [] ip s -> i_Dcache ip = None ->
  i_Inum ip <> NULLINUM -> is_u64 parent -> parent <> NULLINUM ->
  exists ok s', InitDir dip parent s = Ok (ok, s') /\ dir_changed dip s s' /\
    if ok : bool then is_dir dip {[str "." := i_Inum ip; str ".." := parent]} s'
    else alloc_free (a_balloc (f_a s')) = ∅.
Proof.
  intros Hd Hdc Hin Hp Hpn. destruct (InitDir_dots dip ip s parent) as (ok & s' & Hr & [ip' Hst] & Hok); [done..|].
  exists ok, s'. split_and!; [done| |done]. exists ip, ip'. split; [apply Hd|done].
Qed.
End claims.

(** ** A concrete directory *)

(** The inode of a new directory, in a transaction on a fresh disk. *)
Definition new_dir : Inode :=
  mkInode 2 None NF3DIR 1 1 0 0 (mkNfstime3 0 0) (mkNfstime3 0 0) (zeros 10).

Definition new_dir_st : FSt :=
  mkFSt (Begin (ref_ast 8)) {[0 := new_dir]} 1 (MkCache ICACHESZ) MkLockMap {[2 := 0]}.

Lemma new_dir_at : dir_at 0 [] new_dir new_dir_st.
Proof.
  split; [done|]. split; [|done|done| | |by constructor|done].
  - destruct (empty_file_ok 8) as [Hi Hz [Hl Hu Hj] [] Hn]. split; [exact Hi|exact Hz| |by split|exact Hn].
    split; [exact Hl|exact Hu|exact Hj].
  - rewrite MaxFileSize_eq. done.
  - simpl. lia.
Qed.

Definition dir_st : FSt := run_st (InitDir 0 1) new_dir_st.

Lemma dir_st_made : InitDir 0 1 new_dir_st = Ok (true, dir_st).
Proof. unfold dir_st. apply (run_is_Ok (InitDir 0 1) new_dir_st true). by vm_compute. Qed.

#[global] Opaque dir_st.

Lemma InitDir_spec_witness : exists ok s', InitDir 0 1 new_dir_st = Ok (ok, s') /\
  dir_changed 0 new_dir_st s' /\
  if ok : bool then is_dir 0 {[str "." := 2; str ".." := 1]} s'
  else alloc_free (a_balloc (f_a s')) = ∅.
Proof.
  apply (InitDir_spec 0 new_dir new_dir_st 1 new_dir_at); [reflexivity|discriminate|unfold is_u64; lia|discriminate].
Defined.

Lemma dir_st_dir : is_dir 0 {[str "." := 2; str ".." := 1]} dir_st.
Proof.
  refine (proj2 (wp_run _ _ _ _ _ (InitDir_dots 0 new_dir new_dir_st 1 new_dir_at eq_refl _ _ _) dir_st_made));
    [discriminate|unfold is_u64; lia|discriminate].
Qed.

Lemma dir_op_refines_witness : exists full s',
  let o := DAdd 7 (str "readme") in
  let N := {[str "." := 2; str ".." := 1]} in
  run_dop 0 o dir_st = Ok ((dspec full o N).1, s') /\ is_dir 0 (dspec full o N).2 s' /\
  dir_changed 0 dir_st s' /\ (full = true -> no_room 0 s') /\
  (full = false -> dir_stored 0 dir_st -> dir_stored 0 s').
Proof.
  apply (dir_op_refines 0 _ dir_st (DAdd 7 (str "readme")) dir_st_dir).
  split; [unfold is_u64; lia|]. split; [discriminate|reflexivity].
Defined.
