(* ===== verification/Lorder.v ===== *)
(** Locking several inodes in one transaction ([nfs/lorder.go]). *)
From Stdlib Require Import Sorted.
From S2P Require Import Prelude Nfstypes External Reference Super Fh Cache Dcache Alloctxn Inode.
From S2P Require Import Fstxn Dir.

(** *** [sort.Slice] on a short slice

    Go sorts up to twelve elements by insertion, calling [less] with the
    current positions.  The code's [less] looks at [inums], not at the slice
    being sorted. *)

Definition swap (l : list Z) (i j : nat) : list Z :=
  match l !! i, l !! j with
  | Some x, Some y => <[i := y]> (<[j := x]> l)
  | _, _ => l
  end.

(** [for j := i; j > 0 && less(j, j-1); j-- { swap(j, j-1) }] *)
Fixpoint insert_down (less : nat -> nat -> bool) (j : nat) (sorted : list Z) : list Z :=
  match j with
  | O => sorted
  | S j' => if less j j' then insert_down less j' (swap sorted j j') else sorted
  end.

Definition sort_Slice (less : nat -> nat -> bool) (l : list Z) : list Z :=
  fold_left (fun sorted i => insert_down less i sorted) (seq 1 (length l - 1)) l.

Definition inums_less (inums : list Z) (i j : nat) : bool :=
  default 0 (inums !! i) <? default 0 (inums !! j).

Definition sort_inums (inums : list Z) : list Z := sort_Slice (inums_less inums) inums.

Section lorder.
Context `{!Common} `{!Util} `{!Marshal} `{!Buf} `{!Journal} `{!AllocPkg} `{!LockPkg}
  `{!Clock} `{!DiskPkg}.

(** The first position of [inm]; the code panics if there is none. *)
Definition pos_of (inums : list Z) (inm : Z) : res nat :=
  match list_find (fun v => v = inm) inums with
  | Some (i, _) => Ok i
  | None => Panic
  end.

Fixpoint lock_loop (sorted inums : list Z) (inodes : list (option Z))
    : M FSt (option (list (option Z))) :=
  match sorted with
  | [] => mret (Some inodes)
  | inm :: sorted =>
      o ← GetInodeInum inm;
      match o with
      | None =>
          _ ← Abort;
          mret None
      | Some ip =>
          pos ← lift (pos_of inums inm);
          lock_loop sorted inums (<[pos := Some ip]> inodes)
      end
  end.

Definition lockInodes (inums : list Z) : M FSt (option (list (option Z))) :=
  lock_loop (sort_inums inums) inums (replicate (length inums) None).

Definition twoInums (inum1 inum2 : Z) : list Z := [inum1; inum2].

(** [inodes[i]] of a possibly nil slice, and a pointer there that is used. *)
Definition inode_at (inodes : list (option Z)) (i : Z) : M FSt Z :=
  o ← lift (idx inodes i);
  deref o.

Definition lookupOrdered (name : list Z) (parent : Fh) (inm : Z) : M FSt (option (list (option Z))) :=
  o ← lockInodes (twoInums inm (Ino parent));
  match o with
  | None => mret None
  | Some inodes =>
      dip ← inode_at inodes 1;
      gen ← ip_field dip i_Gen;
      if bool_decide (gen <> Gen parent) then
        _ ← Abort;
        mret None
      else
        '(child, _) ← LookupName dip name;
        if bool_decide (child = NULLINUM \/ child <> inm) then
          _ ← Abort;
          mret None
        else mret (Some inodes)
  end.
End lorder.

(** ** The order of locking *)

Lemma swap_Permutation l i j : swap l i j ≡ₚ l.
Proof.
  unfold swap. destruct (l !! i) as [x|] eqn:Hx; [|done]. destruct (l !! j) as [y|] eqn:Hy; [|done].
  apply Permutation_inj. split; [by rewrite !length_insert|].
  exists (fun k => if decide (k = i) then j else if decide (k = j) then i else k). split.
  - intros k1 k2. repeat case_decide; congruence.
  - intros k. pose proof (lookup_lt_Some _ _ _ Hx). pose proof (lookup_lt_Some _ _ _ Hy).
    rewrite !list_lookup_insert, length_insert. repeat case_decide; naive_solver congruence.
Qed.

Lemma insert_down_Permutation less j l : insert_down less j l ≡ₚ l.
Proof.
  revert l. induction j as [|j IH]; intros l; simpl; [done|]. destruct (less (S j) j); [|done].
  by rewrite IH, swap_Permutation.
Qed.

Lemma sort_Slice_Permutation less l : sort_Slice less l ≡ₚ l.
Proof.
  unfold sort_Slice. generalize (seq 1 (length l - 1)). intros js. revert l.
  induction js as [|j js IH]; intros l; simpl; [done|]. by rewrite IH, insert_down_Permutation.
Qed.

(** [lockInodes] locks each of the inodes it is given once, and the two
    inodes of a directory operation in increasing order. *)
Theorem sort_inums_locks inums : sort_inums inums ≡ₚ inums /\
  ((length inums <= 2)%nat -> Sorted Z.le (sort_inums inums)).
Proof.
  split; [apply sort_Slice_Permutation|]. intros Hl.
  destruct inums as [|x [|y [|z inums]]]; [by constructor|by repeat constructor| |simpl in Hl; lia].
  unfold sort_inums, sort_Slice, inums_less. simpl. destruct (Z.ltb_spec y x); simpl;
    repeat constructor; lia.
Qed.

(** Three inodes, as a RENAME over an existing name locks, may be locked out
    of order: the comparison looks at the unsorted slice. *)
Theorem sort_inums_unsorted : exists inums, length inums = 3%nat /\ NoDup inums /\
  ~ Sorted Z.le (sort_inums inums).
Proof.
  exists [2; 3; 1]. split; [done|]. split; [by apply (bool_decide_unpack _); vm_compute|].
  change (sort_inums [2; 3; 1]) with [2; 1; 3]. intros Hs. apply Sorted_inv in Hs as [_ Hh].
  inversion Hh. lia.
Qed.
