(* ===== verification/Shrinker.v ===== *)
(** The background shrinker ([shrinker/shrinker.go]).

    The state of the server is the file system together with the shrinker's
    counters; a started thread is an entry of [n_threads], the inode it will
    shrink.  Waiting for the condition variable is [blocked]. *)
From S2P Require Import Prelude Nfstypes External Reference Super Fh Cache Dcache Alloctxn Inode.
From S2P Require Import Fstxn.

Section shrinker.
Context `{!Common} `{!Util} `{!Marshal} `{!Buf} `{!Journal} `{!AllocPkg} `{!LockPkg}
  `{!Clock} `{!DiskPkg}.

Record NSt := mkNSt {
  n_fs : FSt;
  n_nthread : Z;
  n_crash : bool;
  n_threads : list Z;
  n_Unstable : bool;
}.

Definition nset_fs f (s : NSt) : NSt :=
  mkNSt f (n_nthread s) (n_crash s) (n_threads s) (n_Unstable s).

Definition nset_threads n ts (s : NSt) : NSt :=
  mkNSt (n_fs s) n (n_crash s) ts (n_Unstable s).

Definition nset_crash c (s : NSt) : NSt :=
  mkNSt (n_fs s) (n_nthread s) c (n_threads s) (n_Unstable s).

Definition on_fs {A} (m : M FSt A) : M NSt A := zoom n_fs nset_fs m.

Definition MkShrinkerSt (st : FSt) (unstable : bool) : NSt := mkNSt st 0 false [] unstable.

Definition crashed : M NSt bool := gets n_crash.

(** [for more { ... }], at most [fuel] transactions. *)
Fixpoint do_shrink_loop (fuel : nat) (inum : Z) : M NSt bool :=
  match fuel with
  | O => nofuel
  | S fuel =>
      _ ← on_fs FsBegin;
      ip ← on_fs (GetInodeInumFree inum);
      more ← on_fs (on_ip ip Shrink);
      ok ← on_fs Commit;
      if negb ok then mret ok
      else
        c ← crashed;
        if (c : bool) then mret ok
        else if (more : bool) then do_shrink_loop fuel inum
        else mret ok
  end.

Definition DoShrink (fuel : nat) (inum : Z) : M NSt bool := do_shrink_loop fuel inum.

(** [Shutdown] and [Crash] wait until no thread is left. *)
Definition wait_threads : M NSt unit :=
  n ← gets n_nthread;
  if 0 <? n then blocked else mret tt.

Definition Shutdown : M NSt unit := wait_threads.

Definition Crash : M NSt unit :=
  _ ← modify (nset_crash true);
  wait_threads.

Definition StartShrinker (inum : Z) : M NSt unit :=
  modify (fun s => nset_threads (w32 (n_nthread s + 1)) (n_threads s ++ [inum]) s).

(** The body of a shrinker thread. *)
Definition shrinker (fuel : nat) (inum : Z) : M NSt unit :=
  ok ← DoShrink fuel inum;
  if negb ok then panic
  else modify (fun s => nset_threads (w32 (n_nthread s - 1)) (n_threads s) s).

(** The scheduler runs the oldest thread. *)
Definition run_shrinker (fuel : nat) : M NSt unit :=
  s ← get;
  match n_threads s with
  | [] => mret tt
  | inum :: ts =>
      _ ← modify (nset_threads (n_nthread s) ts);
      shrinker fuel inum
  end.
End shrinker.
