(* ===== verification/Sample.v ===== *)
(** A small server on which the properties of transactions and procedures run:
    a fresh disk whose inode 2 is an empty regular file. *)
From stdpp Require Import functions.
From S2P Require Import Prelude Nfstypes External Reference Super Fh Cache Dcache Alloctxn AtxnCommit Inode.
From S2P Require Import InodeCodec InodeMap InodeIO Volume InodeClaims Fstxn FstxnInv Shrinker.

(** ** A volume of free inodes *)

Definition free_inode (i : Z) : Inode :=
  mkInode i None 0 0 0 0 0 (mkNfstime3 0 0) (mkNfstime3 0 0) (zeros 10).

Lemma free_fptr i s x : fptr (free_inode i) s x = 0.
Proof. exact (empty_fptr s x). Qed.

Lemma zeros_wf (ip : Inode) : i_blks ip = zeros 10 -> Forall is_u64 (i_blks ip).
Proof.
  intros ->. unfold zeros. apply Forall_replicate. unfold is_u64. lia.
Qed.

Lemma free_inode_wf i : inode_wf (free_inode i).
Proof.
  split; simpl; unfold time_wf, is_u32, is_u64; simpl; try lia; [done|].
  exact (zeros_wf (free_inode i) eq_refl).
Qed.

Lemma free_bytes i : inode_bytes (free_inode i) = zeros 128.
Proof. done. Qed.

Lemma ref_ast_zero n : quiet_zero (ref_ast n).
Proof. intros b _. exact (zero_log_obj (1539 + n) _ 4096 ltac:(lia)). Qed.

Lemma ref_vol n : vol_ok free_inode (Begin (ref_ast n)).
Proof.
  destruct (ref_ast_ok n) as [Hq _]. split.
  - apply Begin_from, Hq.
  - apply Begin_zero, ref_ast_zero.
  - intros i Hi. split; [apply free_inode_wf|done|]. unfold iobj. rewrite Begin_obj, free_bytes.
    exact (zero_log_obj (1539 + n) _ 128 ltac:(lia)).
  - intros i _. split; [done|..].
    + intros x _. by rewrite free_fptr.
    + intros x y _ _ _. by rewrite free_fptr.
  - intros i j x y _ _ _ _ _ _. apply free_fptr.
Qed.

(** ** Making an empty file *)

(** Allocate the inodes up to [k], write one of them and commit. *)
Fixpoint alloc_inodes (k : nat) : M ISt unit :=
  match k with
  | O => mret tt
  | S k => _ ← on_atxn AllocINum; alloc_inodes k
  end.

Definition make_inode (k : nat) : M ISt bool :=
  _ ← alloc_inodes k;
  _ ← WriteInode;
  on_atxn (commit_txn true).

Definition make_file : M ISt bool := make_inode 2.

Definition file_st : Inode * ASt := run_st make_file (empty_file, Begin (ref_ast 8)).

Definition file_vol : Z -> Inode := <[2 := empty_file]> free_inode.

Lemma sim_AllocINum s (Q : Z -> ASt -> Prop) : txn_inv s -> zero_inv s ->
  (forall n s', sim s s' -> atxn_step s s' -> Q n s') -> wp AllocINum s Q.
Proof.
  intros Hinv Hz HQ.
  assert (wp AllocINum s (fun n s' => sim s s')) as (n & s' & Hr & Hs).
  { apply wp_AllocINum; [done|..].
    - intros al _ _ Ht. split; [done|done|split; apply Hz|done|done|done].
    - intros n al _ _ _ t Ht. split; [done|done|split; apply Hz|done|done|done]. }
  exists n, s'. split; [done|]. apply HQ; [done|]. by eapply step_AllocINum.
Qed.

Lemma wp_alloc_inodes k a0 ip s (Q : unit -> ISt -> Prop) : atxn_from a0 s -> zero_inv s ->
  (forall s', sim s s' -> atxn_from a0 s' -> Q tt (ip, s')) -> wp (alloc_inodes k) (ip, s) Q.
Proof.
  revert s. induction k as [|k IH]; intros s Hf Hz HQ.
  { apply wp_ret, HQ; [|done]. apply sim_refl; [apply Hf|done]. }
  cbn [alloc_inodes]. apply wp_bind, wp_on_atxn, sim_AllocINum; [apply Hf|done|]. intros _ s1 Hs1 Hst1.
  apply IH; [by eapply atxn_step_from|apply Hs1|]. intros s2 Hs2. apply HQ. by eapply sim_trans.
Qed.

Lemma empty_map_fptr ip s x : i_blks ip = zeros 10 -> fptr ip s x = 0.
Proof. intros Hb. rewrite <-(empty_fptr s x). unfold fptr, root_of. by rewrite Hb. Qed.

Lemma make_inode_ok k n ip : i_blks ip = zeros 10 -> inode_wf ip -> ino_ok (ref_ast n) (i_Inum ip) ->
  wp (make_inode k) (ip, Begin (ref_ast n)) (fun ok t =>
    ok = true -> quiet_inv t.2 /\ bitmap_ok t.2 /\ quiet_zero t.2 /\
      vol_ok (<[i_Inum ip := ip]> free_inode) (Begin t.2)).
Proof.
  intros Hb Hwf Hino. destruct (ref_ast_ok n) as [Hq Hbm]. pose proof (Begin_from _ Hq) as Hf.
  pose proof (ref_vol n) as Hv. unfold make_inode. apply wp_bind, (wp_alloc_inodes k (ref_ast n)); [done|apply Hv|].
  intros s2 Hs02 Hf2. pose proof (sim_vol _ _ _ Hs02 Hv) as Hv2.
  assert (ino_ok s2 (i_Inum ip)) as Hi by (unfold ino_ok; by rewrite (sim_super _ _ Hs02)).
  apply wp_bind, wp_WriteInode; [apply Hs02|apply Hs02|apply Hwf|exact Hi|]. intros s3 Hwi.
  apply wp_on_atxn. pose proof (wi_grow _ _ _ Hwi) as Hg.
  assert (vol_ok (<[i_Inum ip := ip]> free_inode) s3) as Hv3.
  { apply (vol_update free_inode s2 s3 _ ip); [done|done|done| | |].
    - split.
      + intros x _. left. by rewrite free_fptr, empty_map_fptr.
      + intros b Hvb _. by apply (wi_blk _ _ _ Hwi).
      + intros i Hio Hne. by apply (wi_other _ _ _ Hwi).
    - apply synced_disk_inode; [done|done|apply Hwi].
    - split; [by rewrite Hb|..].
      + intros x _. by rewrite empty_map_fptr.
      + intros x y _ _ _. by rewrite empty_map_fptr. }
  apply wp_commit; [apply Hg|]. intros ok s4 Hc. simpl. intros ->.
  destruct (commit_sim _ _ (gr_inv _ _ Hg) (gr_zero _ _ Hg) Hc) as [Hz4 Hs4].
  split_and!; [apply Hc| |done|by eapply sim_vol].
  apply (co_bitmap _ _ _ Hc); [done|]. eapply atxn_from_bitmap; [|exact Hbm]. by apply (gr_from _ _ Hg).
Qed.

Lemma make_file_ok : wp make_file (empty_file, Begin (ref_ast 8)) (fun ok t =>
  ok = true -> quiet_inv t.2 /\ bitmap_ok t.2 /\ quiet_zero t.2 /\ vol_ok file_vol (Begin t.2)).
Proof. destruct (empty_file_ok 8) as [_ _ _ Hw Hi]. exact (make_inode_ok 2 8 empty_file eq_refl Hw Hi). Qed.

Lemma make_file_run : make_file (empty_file, Begin (ref_ast 8)) = Ok (true, file_st).
Proof.
  unfold file_st. apply (run_is_Ok make_file (empty_file, Begin (ref_ast 8)) true). by vm_compute.
Qed.

#[global] Opaque file_st.

(** The server after it, with an empty inode cache. *)
Definition idle (a : ASt) : FSt := mkFSt a ∅ 0 (MkCache ICACHESZ) MkLockMap ∅.

Lemma idle_inv a : quiet_inv a -> bitmap_ok a -> quiet_zero a -> srv_inv ∅ (idle a).
Proof.
  intros Hq Hb Hz. split; [done..| | | |].
  - by apply MkCache_inv.
  - apply MkLockMap_held.
  - intros p [ip Hp]. done.
  - intros i p Hin. by apply not_elem_of_nil in Hin.
Qed.

Definition file_srv : FSt := idle file_st.2.

Lemma file_srv_ok : srv_inv ∅ file_srv /\ vol_ok file_vol (Begin (f_a file_srv)).
Proof.
  pose proof (wp_run _ _ _ _ _ make_file_ok make_file_run eq_refl) as (Hq & Hb & Hz & Hv). exact (conj (idle_inv file_st.2 Hq Hb Hz) Hv).
Qed.

(** The handle of the file. *)
Definition file_fh : Nfs_fh3 := mkNfs_fh3 (u64_le 2 ++ u64_le 1).

Lemma file_fh_ok : MakeFh file_fh = Ok (mkFh 2 1).
Proof. by vm_compute. Qed.

Lemma file_ino : ino_ok (f_a file_srv) 2.
Proof. split; [done|]. by vm_compute. Qed.

Lemma file_vol_2 : file_vol 2 = empty_file.
Proof. unfold file_vol. by rewrite fn_lookup_insert. Qed.

Definition file_nst : NSt := MkShrinkerSt file_srv true.
