(* ===== verification/FstxnClaims.v ===== *)
(** The properties of file-system transactions. *)
From S2P Require Import Prelude Nfstypes External Reference Super Fh Cache Dcache Alloctxn AtxnCommit Inode.
From S2P Require Import InodeCodec InodeMap InodeIO Volume InodeClaims Fstxn FstxnInv Shrinker Sample.

Section claims.
Context `{!Common} `{!CommonSpec} `{!Util} `{!UtilSpec} `{!Marshal} `{!MarshalSpec}
  `{!Buf} `{!BufSpec} `{!Journal} `{!JournalSpec} `{!AllocPkg} `{!AllocSpec}
  `{!LockPkg} `{!LockSpec} `{!Clock} `{!DiskPkg}.
Variable L : gset Z.
Implicit Types (s : FSt) (a : ASt) (i p : Z) (ip : Inode).

(** C30: looking up a file handle returns the inode, locked and equal to the one
    on disk whether or not it was cached, exactly when the inode is in use and
    its generation is the handle's; otherwise it returns nil and leaves no lock
    behind. Either way the inode cache stays coherent with the disk and nothing
    on disk changes. *)
Theorem GetInodeFh_spec a0 s fh3 fh ip : fs_inv L a0 s -> MakeFh fh3 = Ok fh ->
  ino_ok (f_a s) (Ino fh) -> Ino fh ∉ L ∪ dom (f_inodes s) ->
  disk_inode (f_a s) (Ino fh) ip -> linked ip ->
  exists o s', GetInodeFh fh3 s = Ok (o, s') /\ fs_inv L a0 s' /\ sim (f_a s) (f_a s') /\
    match o with
    | Some p => i_Kind ip <> NF3FREE /\ i_Gen ip = Gen fh /\
        held (f_lockmap s') = {[Ino fh]} ∪ held (f_lockmap s) /\
        exists dc, f_heap s' !! p = Some (with_Dcache dc ip)
    | None => (i_Kind ip = NF3FREE \/ i_Gen ip <> Gen fh) /\
        held (f_lockmap s') = held (f_lockmap s)
    end.
Proof.
  intros Hs Hfh Hi Hni Hd Hlk.
  destruct (wp_GetInodeFh L a0 s fh3 fh ip (fun o s' => fs_inv L a0 s' /\ sim (f_a s) (f_a s') /\
    match o with
    | Some p => i_Kind ip <> NF3FREE /\ i_Gen ip = Gen fh /\
        held (f_lockmap s') = {[Ino fh]} ∪ held (f_lockmap s) /\
        exists dc, f_heap s' !! p = Some (with_Dcache dc ip)
    | None => (i_Kind ip = NF3FREE \/ i_Gen ip <> Gen fh) /\
        held (f_lockmap s') = held (f_lockmap s)
    end)) as (o & s' & Hr & HQ); [done..| | |by exists o, s'].
  - intros p ip' s' Hk Hg Hs' Hgot. split_and!; [done|apply Hgot|done|done| |].
    + rewrite (fi_held _ _ _ Hs'), (fi_held _ _ _ Hs), (go_inodes _ _ _ _ _ Hgot), dom_insert_L. set_solver.
    + exists (i_Dcache ip'). rewrite (go_heap _ _ _ _ _ Hgot). f_equal. by apply (got_eq s (Ino fh) ip p ip' s').
  - intros s' Hk Hs' Hb. split_and!; [done|apply Hb|done|].
    by rewrite (fi_held _ _ _ Hs'), (fi_held _ _ _ Hs), (bk_inodes _ _ Hb).
Qed.

(** An inode that is locked, by another transaction or already by this one,
    is waited for: a transaction that locks the same inode twice never goes
    on. *)
Theorem GetInodeLocked_blocked s i : i ∈ held (f_lockmap s) -> GetInodeLocked i s = Blocked.
Proof.
  intros Hh. unfold GetInodeLocked, LockInode, mbind, M_bind, get.
  by rewrite (Acquire_held _ _ Hh).
Qed.

(** C23: committing a transaction whose locked inodes were written to disk
    returns without a panic, releases every lock the transaction took and no
    other, and when the journal accepts it the server is consistent again: the
    cached inodes are those on disk, the bitmaps agree with the allocators,
    free blocks are zero, and the next transaction sees what this one saw. A
    commit that waits is also durable. *)
Theorem commitWait_spec a0 s w : fs_inv L a0 s -> bitmap_ok a0 -> owned_synced s ->
  exists ok s', commitWait w s = Ok (ok, s') /\ held (f_lockmap s') = L /\ f_inodes s' = ∅ /\
    (ok = true -> srv_inv L s' /\ sim (f_a s) (Begin (f_a s')) /\
       (w = true -> stable_obj (a_log (f_a s')) = log_obj (a_log (f_a s')))) /\
    (ok = false -> log_obj (a_log (f_a s')) = log_obj (a_log (f_a s))).
Proof.
  intros Hs Hb Hsy. destruct (wp_commitWait L a0 s w (fun ok s' => held (f_lockmap s') = L /\ f_inodes s' = ∅ /\
    (ok = true -> srv_inv L s' /\ sim (f_a s) (Begin (f_a s')) /\
       (w = true -> stable_obj (a_log (f_a s')) = log_obj (a_log (f_a s')))) /\
    (ok = false -> log_obj (a_log (f_a s')) = log_obj (a_log (f_a s)))) Hs) as (ok & s' & Hr & HQ);
    [|by exists ok, s'].
  intros ok s' Hrun Hc (lm & Hlm & He) Hok. split_and!; [by rewrite He|by rewrite He| |].
  - intros ->. destruct (Hok Hb Hsy eq_refl) as [Hsi Hsim]. split_and!; [done..|]. intros ->. by eapply commit_stable.
  - intros ->. by apply (co_fail _ _ _ Hc).
Qed.

(** Aborting a transaction that did not change its locked inodes releases
    every lock it took and no other, returns what it allocated, leaves the log
    as it was, and the server is consistent: the next transaction sees the
    disk the aborted one began with. *)
Theorem Abort_spec a0 s : fs_inv L a0 s -> quiet_inv a0 -> bitmap_ok a0 -> quiet_zero a0 ->
  owned_clean s ->
  exists s', Abort s = Ok (true, s') /\ srv_inv L s' /\ f_inodes s' = ∅ /\
    sim (Begin a0) (Begin (f_a s')) /\ a_log (f_a s') = a_log a0.
Proof.
  intros Hs Hq Hb Hz Hcl. destruct (wp_Abort L a0 s (fun ok s' => ok = true /\ srv_inv L s' /\ f_inodes s' = ∅ /\
    sim (Begin a0) (Begin (f_a s')) /\ a_log (f_a s') = a_log a0) Hs Hq Hb Hz Hcl) as (ok & s' & Hr & -> & HQ);
    [|by exists s'].
  intros s' (lm & _ & He) Hsi Hsim Hlg _. split_and!; [done|done|by rewrite He|done|done].
Qed.
End claims.

(** ** On the sample server *)

Definition begun : FSt := after_Begin file_srv.

Lemma begun_inv : fs_inv ∅ (f_a file_srv) begun.
Proof. exact (Begin_inv ∅ file_srv (proj1 file_srv_ok)). Qed.

Lemma begun_ino : ino_ok (f_a begun) 2.
Proof. unfold begun. rewrite f_a_after_Begin. apply ino_Begin, file_ino. Qed.

Lemma begun_disk : disk_inode (f_a begun) 2 empty_file.
Proof.
  destruct file_srv_ok as [_ Hv]. pose proof (vo_inode _ _ Hv 2 (proj2 (ino_Begin _ _) file_ino)) as Hd.
  rewrite file_vol_2 in Hd. unfold begun. rewrite f_a_after_Begin. exact Hd.
Qed.

Lemma begun_got : exists p s', GetInodeFh file_fh begun = Ok (Some p, s') /\ fs_inv ∅ (f_a file_srv) s' /\
  2 ∈ dom (f_inodes s') /\ owned_synced s' /\ owned_clean s'.
Proof.
  destruct (wp_GetInodeFh ∅ (f_a file_srv) begun file_fh (mkFh 2 1) empty_file
    (fun o s' => is_Some o /\ fs_inv ∅ (f_a file_srv) s' /\ 2 ∈ dom (f_inodes s') /\
       owned_synced s' /\ owned_clean s') begun_inv file_fh_ok)
    as ([p|] & s' & Hr & Ho & Hs & Hin & Hsy & Hcl).
  - exact begun_ino.
  - set_solver.
  - exact begun_disk.
  - done.
  - intros p ip s' _ _ Hs' Hg. split; [done|]. split; [done|].
    split; [rewrite (go_inodes _ _ _ _ _ Hg), dom_insert_L; apply elem_of_union_l, elem_of_singleton; reflexivity|].
    assert (forall i q iq, f_inodes s' !! i = Some q -> f_heap s' !! q = Some iq ->
      i = 2 /\ iq = ip) as Hone.
    { intros i q iq Hi Hq. rewrite (go_inodes _ _ _ _ _ Hg) in Hi.
      apply lookup_insert_Some in Hi as [[<- <-]|[_ Hi]]; [|done].
      rewrite (go_heap _ _ _ _ _ Hg) in Hq. by simplify_eq. }
    split; intros i q iq Hi Hq; destruct (Hone i q iq Hi Hq) as [-> ->]; [apply Hg|].
    destruct (go_disk _ _ _ _ _ Hg) as [Hw Hn Hb]. split; [done..|]. rewrite <-Hb. symmetry.
    apply (got_clean ∅ (f_a file_srv) begun 2 p ip s' begun_inv); [exact begun_ino|set_solver|done].
  - intros s' [Hk|Hk]; [discriminate Hk|destruct Hk; reflexivity].
  - exists p, s'. exact (conj Hr (conj Hs (conj Hin (conj Hsy Hcl)))).
  - destruct Ho as [q Hq]. discriminate Hq.
Qed.

Lemma GetInodeFh_spec_witness : exists o s', GetInodeFh file_fh begun = Ok (o, s') /\
  fs_inv ∅ (f_a file_srv) s'.
Proof.
  destruct (GetInodeFh_spec ∅ (f_a file_srv) begun file_fh (mkFh 2 1) empty_file begun_inv file_fh_ok
    begun_ino) as (o & s' & Hr & Hs' & _).
  - set_solver.
  - exact begun_disk.
  - done.
  - exists o, s'. exact (conj Hr Hs').
Defined.

Lemma GetInodeLocked_blocked_witness : exists p s', GetInodeFh file_fh begun = Ok (Some p, s') /\
  GetInodeLocked 2 s' = Blocked.
Proof.
  destruct begun_got as (p & s & Hr & Hs & Hin & _ & _). exists p, s. split; [exact Hr|].
  apply (GetInodeLocked_blocked s 2). exact (fs_held_own ∅ (f_a file_srv) s Hs 2 Hin).
Defined.

Lemma commitWait_spec_witness : exists s ok s', 2 ∈ dom (f_inodes s) /\ commitWait true s = Ok (ok, s') /\
  held (f_lockmap s') = ∅.
Proof.
  destruct begun_got as (p & s & Hr & Hs & Hin & Hsy & _).
  destruct (commitWait_spec ∅ (f_a file_srv) s true Hs (si_bitmap _ _ (proj1 file_srv_ok)) Hsy)
    as (ok & s' & Hc & Hh & _). exists s, ok, s'. exact (conj Hin (conj Hc Hh)).
Defined.

Lemma Abort_spec_witness : exists s s', Abort s = Ok (true, s') /\ srv_inv ∅ s'.
Proof.
  destruct begun_got as (p & s & Hr & Hs & _ & _ & Hcl). destruct (proj1 file_srv_ok) as [Hq Hb Hz _ _ _ _].
  destruct (Abort_spec ∅ (f_a file_srv) s Hs Hq Hb Hz Hcl) as (s' & Ha & Hsi & _).
  exists s, s'. exact (conj Ha Hsi).
Defined.
