(* ===== verification/NfsLs.v ===== *)
(** Directory listings ([nfs/nfs_ls.go]): the closures append to a list, which
    is then linked through [Nextentry]. *)
From S2P Require Import Prelude Nfstypes External Reference Super Fh Cache Dcache Alloctxn Inode.
From S2P Require Import Fstxn Dir.

Section ls.
Context `{!Common} `{!Util} `{!Marshal} `{!Buf} `{!Journal} `{!AllocPkg} `{!LockPkg}
  `{!Clock} `{!DiskPkg}.

Fixpoint link_plus (l : list Entryplus3) : option Entryplus3 :=
  match l with
  | [] => None
  | mkEntryplus3 fileid name cookie attrs handle _ :: l =>
      Some (mkEntryplus3 fileid name cookie attrs handle (link_plus l))
  end.

Definition Ls3 (dip start dircount maxcount : Z) : M FSt Dirlistplus3 :=
  '(eof, l) ← Apply dip start dircount maxcount
    (fun ip name inum off l =>
       p ← deref ip;
       i ← ip_field p id;
       let fattr := MkFattr i in
       h ← lift (MakeFh3 (mkFh (i_Inum i) (i_Gen i)));
       let ph := mkPost_op_fh3 true h in
       let pa := mkPost_op_attr true fattr in
       mret (l ++ [mkEntryplus3 inum name off pa ph None])) [];
  mret (mkDirlistplus3 (link_plus l) eof).

Fixpoint link_ents (l : list Entry3) : option Entry3 :=
  match l with
  | [] => None
  | mkEntry3 fileid name cookie _ :: l => Some (mkEntry3 fileid name cookie (link_ents l))
  end.

Definition Readdir3 (dip start count : Z) : M FSt Dirlist3 :=
  '(eof, l) ← ApplyEnts dip start count
    (fun name inum off l => mret (l ++ [mkEntry3 inum name off None])) [];
  mret (mkDirlist3 (link_ents l) eof).
End ls.
