(* ===== verification/NfsOps.v ===== *)
(** The NFS version 3 procedures ([nfs/nfs_ops.go], [nfs/mount.go]).

    Each procedure runs on the server's state with one current transaction.
    The loops that restart a transaction are unrolled at most [retry] times.
    A [*fstxn.FsTxn] that may be nil is an [option unit]. *)
From S2P Require Import Prelude Nfstypes External Reference Super Fh Cache Dcache Alloctxn Inode.
From S2P Require Import Fstxn Dir Lorder Shrinker NfsLs.

Module Nfs.
Section ops.
Context `{!Common} `{!Util} `{!Marshal} `{!Std} `{!Buf} `{!Journal} `{!AllocPkg} `{!LockPkg}
  `{!Clock} `{!DiskPkg}.
Variable retry : nat.

(** [errRet] and [commitReply] return the status they store in the reply. *)
Definition errRet (op : option unit) (err : Z) : M NSt Z :=
  match op with
  | None => panic
  | Some _ => _ ← on_fs Abort; mret err
  end.

Definition commitReply : M NSt Z :=
  ok ← on_fs Commit;
  mret (if (ok : bool) then NFS3_OK else NFS3ERR_SERVERFAULT).

Definition NFSPROC3_NULL : M NSt unit := mret tt.

Definition NFSPROC3_GETATTR (args : GETATTR3args) : M NSt GETATTR3res :=
  _ ← on_fs FsBegin;
  ip ← on_fs (GetInodeFh (GETATTR3args_Object args));
  match ip with
  | None =>
      st ← errRet (Some tt) NFS3ERR_STALE;
      mret (mkGETATTR3res st zero)
  | Some ip =>
      attr ← on_fs (ip_field ip MkFattr);
      st ← commitReply;
      mret (mkGETATTR3res st (mkGETATTR3resok attr))
  end.

(** An inode that is being shrunk is shrunk to the end first. *)
Fixpoint get_shrink_loop (fuel : nat) (fh : Nfs_fh3) : M NSt (option Z * Z) :=
  match fuel with
  | O => nofuel
  | S fuel =>
      _ ← on_fs FsBegin;
      ip ← on_fs (GetInodeFh fh);
      match ip with
      | None => mret (None, NFS3ERR_STALE)
      | Some ip =>
          shrinking ← on_fs (on_ip ip IsShrinking);
          if negb shrinking then mret (Some ip, NFS3_OK)
          else
            inum ← on_fs (ip_field ip i_Inum);
            _ ← on_fs Abort;
            ok ← DoShrink retry inum;
            _ ← on_fs FsBegin;
            if negb ok then mret (Some ip, NFS3ERR_SERVERFAULT)
            else get_shrink_loop fuel fh
      end
  end.

Definition getShrink (fh : Nfs_fh3) : M NSt (option Z * Z) := get_shrink_loop retry fh.

Definition NFSPROC3_SETATTR (args : SETATTR3args) : M NSt SETATTR3res :=
  let new := SETATTR3args_New_attributes args in
  '(oip, err) ← getShrink (SETATTR3args_Object args);
  if bool_decide (err <> NFS3_OK) then
    st ← errRet (Some tt) err;
    mret (mkSETATTR3res st zero zero)
  else
    ip ← on_fs (deref oip);
    _ ← (if Set_size3_Set_it (Sattr3_Size new) then
           shrink ← on_fs (on_ip ip (Resize (Set_size3_Size (Sattr3_Size new))));
           if (shrink : bool) then
             inum ← on_fs (ip_field ip i_Inum);
             StartShrinker inum
           else mret tt
         else mret tt);
    _ ← (if bool_decide (Set_atime_Set_it (Sattr3_Atime new) <> DONT_CHANGE) then
           t ← (if bool_decide (Set_atime_Set_it (Sattr3_Atime new) = SET_TO_CLIENT_TIME)
                then mret (Set_atime_Atime (Sattr3_Atime new))
                else on_fs (on_a NfstimeNow));
           _ ← on_fs (on_ip ip (ip_set (with_Atime t)));
           on_fs (on_ip ip WriteInode)
         else mret tt);
    _ ← (if bool_decide (Set_mtime_Set_it (Sattr3_Mtime new) <> DONT_CHANGE) then
           t ← (if bool_decide (Set_mtime_Set_it (Sattr3_Mtime new) = SET_TO_CLIENT_TIME)
                then mret (Set_mtime_Mtime (Sattr3_Mtime new))
                else on_fs (on_a NfstimeNow));
           _ ← on_fs (on_ip ip (ip_set (with_Mtime t)));
           on_fs (on_ip ip WriteInode)
         else mret tt);
    (* err is NFS3_OK on every path to here *)
    attr ← on_fs (ip_field ip MkFattr);
    st ← commitReply;
    mret (mkSETATTR3res st (mkSETATTR3resok (mkWcc_data zero (mkPost_op_attr true attr))) zero).

Definition twoInodes (ino1 ino2 : Z) : list (option Z) := [Some ino1; Some ino2].

(** The inodes of a directory and of a name in it. *)
Fixpoint get_inodes_loop (fuel : nat) (dfh : Nfs_fh3) (name : list Z)
    : M NSt (list (option Z) * Z) :=
  match fuel with
  | O => nofuel
  | S fuel =>
      _ ← on_fs FsBegin;
      odip ← on_fs (GetInodeFh dfh);
      match odip with
      | None => mret ([], NFS3ERR_STALE)
      | Some dip =>
          '(inum, _) ← on_fs (LookupName dip name);
          if bool_decide (inum = NULLINUM) then mret ([Some dip], NFS3ERR_NOENT)
          else
            dinum ← on_fs (ip_field dip i_Inum);
            if bool_decide (inum = dinum) then mret ([Some dip], NFS3_OK)
            else if inum <? dinum then
              _ ← on_fs Abort;
              parent ← lift (MakeFh dfh);
              _ ← on_fs FsBegin;
              o ← on_fs (lookupOrdered name parent inum);
              match o with
              | None => get_inodes_loop fuel dfh name
              | Some inodes => mret (inodes, NFS3_OK)
              end
            else
              ip ← on_fs (GetInodeLocked inum);
              mret (twoInodes ip dip, NFS3_OK)
      end
  end.

Definition getInodesLocked (dfh : Nfs_fh3) (name : list Z) : M NSt (list (option Z) * Z) :=
  get_inodes_loop retry dfh name.

Definition NFSPROC3_LOOKUP (args : LOOKUP3args) : M NSt LOOKUP3res :=
  let what := LOOKUP3args_What args in
  '(inodes, err) ← getInodesLocked (Diropargs3_Dir what) (Diropargs3_Name what);
  if bool_decide (err <> NFS3_OK) then
    st ← errRet (Some tt) err;
    mret (mkLOOKUP3res st zero zero)
  else
    p ← on_fs (inode_at inodes 0);
    i ← on_fs (ip_field p id);
    h ← lift (MakeFh3 (mkFh (i_Inum i) (i_Gen i)));
    st ← commitReply;
    mret (mkLOOKUP3res st (mkLOOKUP3resok h (mkPost_op_attr true (MkFattr i)) zero) zero).

Definition NFSPROC3_ACCESS (args : ACCESS3args) : M NSt ACCESS3res :=
  mret (mkACCESS3res NFS3_OK
    (mkACCESS3resok zero
       (fold_left Z.lor [ACCESS3_LOOKUP; ACCESS3_MODIFY; ACCESS3_EXTEND; ACCESS3_DELETE;
          ACCESS3_EXECUTE] ACCESS3_READ)) zero).

Definition doRead (fh : Nfs_fh3) (kind offset count : Z) : M NSt (list Z * bool * Z) :=
  _ ← on_fs FsBegin;
  oip ← on_fs (GetInodeFh fh);
  match oip with
  | None => mret ([], false, NFS3ERR_STALE)
  | Some ip =>
      k ← on_fs (ip_field ip i_Kind);
      if bool_decide (k <> kind) then mret ([], false, NFS3ERR_INVAL)
      else
        size ← on_fs (ip_field ip i_Size);
        let readCount := if bool_decide (k = NF3LNK) then size else count in
        '(data, eof) ← on_fs (on_ip ip (Read offset readCount));
        mret (data, eof, NFS3_OK)
  end.

Definition NFSPROC3_READ (args : READ3args) : M NSt READ3res :=
  '(data, eof, err) ← doRead (READ3args_File args) NF3REG (READ3args_Offset args)
                        (READ3args_Count args);
  if bool_decide (err <> NFS3_OK) then
    st ← errRet (Some tt) err;
    mret (mkREAD3res st zero zero)
  else
    st ← commitReply;
    mret (mkREAD3res st (mkREAD3resok zero (w32 (len data)) eof data) zero).

Definition NFSPROC3_WRITE (args : WRITE3args) : M NSt WRITE3res :=
  '(oip, err) ← getShrink (WRITE3args_File args);
  if bool_decide (err <> NFS3_OK) then
    st ← errRet (Some tt) err;
    mret (mkWRITE3res st zero zero)
  else
    ip ← on_fs (deref oip);
    k ← on_fs (ip_field ip i_Kind);
    if bool_decide (k <> NF3REG) then
      st ← errRet (Some tt) NFS3ERR_INVAL;
      mret (mkWRITE3res st zero zero)
    else if LogBytes <=? WRITE3args_Count args then
      st ← errRet (Some tt) NFS3ERR_INVAL;
      mret (mkWRITE3res st zero zero)
    else
      '(count, writeOk) ← on_fs (on_ip ip (Write (WRITE3args_Offset args) (WRITE3args_Count args)
                                   (WRITE3args_Data args)));
      if negb writeOk then
        st ← errRet (Some tt) NFS3ERR_NOSPC;
        mret (mkWRITE3res st zero zero)
      else
        unstable ← gets n_Unstable;
        let stable := if negb unstable then FILE_SYNC else WRITE3args_Stable args in
        ok ← (if bool_decide (stable = FILE_SYNC) then on_fs Commit
              else if bool_decide (stable = DATA_SYNC) then on_fs CommitData
              else on_fs CommitUnstable);
        if (ok : bool) then
          attr ← on_fs (ip_field ip MkFattr);
          mret (mkWRITE3res NFS3_OK
            (mkWRITE3resok (mkWcc_data zero (mkPost_op_attr true attr)) (w32 count) stable zero)
            zero)
        else mret (mkWRITE3res NFS3ERR_SERVERFAULT zero zero).

(** [getAlloc] runs in a transaction that was already begun. *)
Fixpoint get_alloc_loop (fuel : nat) (dfh : Nfs_fh3) (name : list Z) (kind : Z)
    (ip : option Z) : M NSt (option Z * option Z * Z) :=
  match fuel with
  | O => nofuel
  | S fuel =>
      odip ← on_fs (GetInodeFh dfh);
      match odip with
      | None => mret (None, ip, NFS3ERR_STALE)
      | Some dip =>
          '(inum, _) ← on_fs (LookupName dip name);
          if bool_decide (inum <> NULLINUM) then mret (Some dip, ip, NFS3ERR_EXIST)
          else
            oip ← on_fs (AllocInode kind);
            match oip with
            | None => mret (Some dip, None, NFS3ERR_NOSPC)
            | Some ip =>
                shrinking ← on_fs (on_ip ip IsShrinking);
                if negb shrinking then mret (Some dip, Some ip, NFS3_OK)
                else
                  inum ← on_fs (ip_field ip i_Inum);
                  _ ← on_fs Abort;
                  ok ← DoShrink retry inum;
                  _ ← on_fs FsBegin;
                  if negb ok then mret (Some dip, Some ip, NFS3ERR_SERVERFAULT)
                  else get_alloc_loop fuel dfh name kind (Some ip)
            end
      end
  end.

Definition getAlloc (dfh : Nfs_fh3) (name : list Z) (kind : Z) : M NSt (option Z * option Z * Z) :=
  get_alloc_loop retry dfh name kind None.

Definition doDecLink (ip : Z) : M NSt unit :=
  last ← on_fs (on_ip ip DecLink);
  if (last : bool) then
    shrink ← on_fs (on_ip ip (Resize 0));
    _ ← on_fs (on_ip ip FreeInode);
    if (shrink : bool) then
      inum ← on_fs (ip_field ip i_Inum);
      StartShrinker inum
    else mret tt
  else mret tt.

Definition doCreate (dfh : Nfs_fh3) (name : list Z) (kind : Z) (data : list Z)
    : M NSt (Z * Nfs_fh3 * Fattr3) :=
  _ ← on_fs FsBegin;
  '(odip, oip, err) ← getAlloc dfh name kind;
  if bool_decide (err <> NFS3_OK) then mret (err, zero, zero)
  else
    match oip with
    | None => mret (NFS3ERR_NOSPC, zero, zero)
    | Some ip =>
        dip ← on_fs (deref odip);
        ok ← (if bool_decide (kind = NF3DIR) then
                dinum ← on_fs (ip_field dip i_Inum);
                ok ← on_fs (InitDir ip dinum);
                if negb ok then
                  _ ← doDecLink ip;
                  mret false
                else
                  _ ← on_fs (on_ip dip (ip_set (fun i => with_Nlink (w32 (i_Nlink i + 1)) i)));
                  _ ← on_fs (on_ip dip WriteInode);
                  mret true
              else mret true);
        if negb ok then mret (NFS3ERR_NOSPC, zero, zero)
        else
          ok ← (if bool_decide (kind = NF3LNK) then
                  '(_, ok) ← on_fs (on_ip ip (Write 0 (len data) data));
                  if negb ok then
                    _ ← doDecLink ip;
                    mret false
                  else mret true
                else mret true);
          if negb ok then mret (NFS3ERR_NOSPC, zero, zero)
          else
            inum ← on_fs (ip_field ip i_Inum);
            ok ← on_fs (AddName dip inum name);
            if negb ok then
              _ ← doDecLink ip;
              mret (NFS3ERR_IO, zero, zero)
            else
              i ← on_fs (ip_field ip id);
              fh3 ← lift (MakeFh3 (mkFh (i_Inum i) (i_Gen i)));
              mret (NFS3_OK, fh3, MkFattr i)
    end.

Definition NFSPROC3_CREATE (args : CREATE3args) : M NSt CREATE3res :=
  let where_ := CREATE3args_Where args in
  if bool_decide (Createhow3_Mode (CREATE3args_How args) = EXCLUSIVE)
  then mret (mkCREATE3res NFS3ERR_NOTSUPP zero zero)
  else
    '(err, fh3, fattr) ← doCreate (Diropargs3_Dir where_) (Diropargs3_Name where_) NF3REG [];
    if bool_decide (err <> NFS3_OK) then
      st ← errRet (Some tt) err;
      mret (mkCREATE3res st zero zero)
    else
      st ← commitReply;
      mret (mkCREATE3res st (mkCREATE3resok (mkPost_op_fh3 true fh3) (mkPost_op_attr true fattr) zero)
              zero).

Definition NFSPROC3_MKDIR (args : MKDIR3args) : M NSt MKDIR3res :=
  let where_ := MKDIR3args_Where args in
  '(err, fh3, fattr) ← doCreate (Diropargs3_Dir where_) (Diropargs3_Name where_) NF3DIR [];
  if bool_decide (err <> NFS3_OK) then
    st ← errRet (Some tt) err;
    mret (mkMKDIR3res st zero zero)
  else
    st ← commitReply;
    mret (mkMKDIR3res st (mkMKDIR3resok (mkPost_op_fh3 true fh3) (mkPost_op_attr true fattr) zero)
            zero).

Definition NFSPROC3_SYMLINK (args : SYMLINK3args) : M NSt SYMLINK3res :=
  let where_ := SYMLINK3args_Where args in
  let data := Symlinkdata3_Symlink_data (SYMLINK3args_Symlink args) in
  '(err, fh3, fattr) ← doCreate (Diropargs3_Dir where_) (Diropargs3_Name where_) NF3LNK data;
  if bool_decide (err <> NFS3_OK) then
    st ← errRet (Some tt) err;
    mret (mkSYMLINK3res st zero zero)
  else
    st ← commitReply;
    mret (mkSYMLINK3res st (mkSYMLINK3resok (mkPost_op_fh3 true fh3) (mkPost_op_attr true fattr) zero)
            zero).

Definition NFSPROC3_READLINK (args : READLINK3args) : M NSt READLINK3res :=
  '(data, _, err) ← doRead (READLINK3args_Symlink args) NF3LNK 0 0;
  if bool_decide (err <> NFS3_OK) then
    st ← errRet (Some tt) err;
    mret (mkREADLINK3res st zero zero)
  else
    st ← commitReply;
    mret (mkREADLINK3res st (mkREADLINK3resok zero data) zero).

Definition NFSPROC3_MKNOD (args : MKNOD3args) : M NSt MKNOD3res :=
  mret (mkMKNOD3res NFS3ERR_NOTSUPP zero zero).

Definition doRemove (dfh : Nfs_fh3) (name : list Z) (isdir : bool) : M NSt (option unit * Z) :=
  if IllegalName name then mret (None, NFS3ERR_INVAL)
  else
    '(inodes, err) ← getInodesLocked dfh name;
    if bool_decide (err <> NFS3_OK) then mret (Some tt, err)
    else
      notdir ← (if isdir then
                  p ← on_fs (inode_at inodes 0);
                  k ← on_fs (ip_field p i_Kind);
                  mret (bool_decide (k <> NF3DIR))
                else mret false);
      if (notdir : bool) then mret (Some tt, NFS3ERR_INVAL)
      else
        nonempty ← (if isdir then
                      p ← on_fs (inode_at inodes 0);
                      e ← on_fs (IsDirEmpty p);
                      mret (negb e)
                    else mret false);
        if (nonempty : bool) then mret (Some tt, NFS3ERR_INVAL)
        else
          dip ← on_fs (inode_at inodes 1);
          ok ← on_fs (RemName dip name);
          if negb ok then mret (Some tt, NFS3ERR_IO)
          else
            p ← on_fs (inode_at inodes 0);
            _ ← doDecLink p;
            mret (Some tt, NFS3_OK).

Definition NFSPROC3_REMOVE (args : REMOVE3args) : M NSt REMOVE3res :=
  let object := REMOVE3args_Object args in
  '(op, err) ← doRemove (Diropargs3_Dir object) (Diropargs3_Name object) false;
  if bool_decide (err <> NFS3_OK) then
    st ← errRet op err;
    mret (mkREMOVE3res st zero zero)
  else
    st ← commitReply;
    mret (mkREMOVE3res st zero zero).

Definition NFSPROC3_RMDIR (args : RMDIR3args) : M NSt RMDIR3res :=
  let object := RMDIR3args_Object args in
  '(op, err) ← doRemove (Diropargs3_Dir object) (Diropargs3_Name object) true;
  if bool_decide (err <> NFS3_OK) then
    st ← errRet op err;
    mret (mkRMDIR3res st zero zero)
  else
    st ← commitReply;
    mret (mkRMDIR3res st zero zero).

(** *** RENAME *)

Definition validateRename (inodes : list (option Z)) (fromfh tofh : Fh) (fromn ton : list Z)
    : M FSt bool :=
  let three := bool_decide (length inodes = 3%nat) in
  dipfrom ← inode_at inodes 0;
  dipto ← inode_at inodes (if three then 0 else 1);
  from ← inode_at inodes (if three then 1 else 2);
  to ← inode_at inodes (if three then 2 else 3);
  df ← ip_field dipfrom id;
  dt ← ip_field dipto id;
  if bool_decide (i_Inum df <> Ino fromfh \/ i_Gen df <> Gen fromfh \/
                  i_Inum dt <> Ino tofh \/ i_Gen dt <> Gen tofh)
  then mret false
  else
    '(frominum, _) ← LookupName dipfrom fromn;
    '(toinum, _) ← LookupName dipto ton;
    finum ← ip_field from i_Inum;
    tinum ← ip_field to i_Inum;
    mret (negb (bool_decide (finum <> frominum \/ toinum <> tinum))).

(** The directories of a rename: one inode if the handles are equal. *)
Definition rename_dirs (args : RENAME3args) (fromh toh : Fh) : M NSt (option (Z * Z)) :=
  if Equal (Diropargs3_Dir (RENAME3args_From args)) (Diropargs3_Dir (RENAME3args_To args)) then
    o ← on_fs (GetInodeFh (Diropargs3_Dir (RENAME3args_From args)));
    match o with
    | None => mret None
    | Some dip => mret (Some (dip, dip))
    end
  else
    o ← on_fs (lockInodes (twoInums (Ino fromh) (Ino toh)));
    match o with
    | None => mret None
    | Some inodes =>
        dipfrom ← on_fs (inode_at inodes 0);
        dipto ← on_fs (inode_at inodes 1);
        mret (Some (dipfrom, dipto))
    end.

(** The target exists: lock everything again in order, and remove the target.
    The result is [None] to retry, [Some (inl status)] when the reply is
    decided, [Some (inr dirs)] to go on. *)
Definition rename_target (args : RENAME3args) (fromh toh : Fh) (dipfrom dipto frominum toinum : Z)
    : M NSt (option (Z + Z * Z)) :=
  let fromn := Diropargs3_Name (RENAME3args_From args) in
  let ton := Diropargs3_Name (RENAME3args_To args) in
  _ ← on_fs Abort;
  _ ← on_fs FsBegin;
  let two := bool_decide (dipto <> dipfrom) in
  dfi ← on_fs (ip_field dipfrom i_Inum);
  dti ← on_fs (ip_field dipto i_Inum);
  o ← on_fs (lockInodes (if two then [dfi; dti; frominum; toinum] else [dfi; frominum; toinum]));
  let inodes := default [] o in
  dipfrom ← on_fs (inode_at inodes 0);
  dipto ← on_fs (inode_at inodes (if two then 1 else 0));
  from ← on_fs (inode_at inodes (if two then 2 else 1));
  to ← on_fs (inode_at inodes (if two then 3 else 2));
  valid ← on_fs (validateRename inodes fromh toh fromn ton);
  if (valid : bool) then
    tk ← on_fs (ip_field to i_Kind);
    fk ← on_fs (ip_field from i_Kind);
    if bool_decide (tk <> fk) then
      st ← errRet (Some tt) NFS3ERR_INVAL;
      mret (Some (inl st))
    else
      nonempty ← (if bool_decide (tk = NF3DIR) then
                    e ← on_fs (IsDirEmpty to);
                    mret (negb e)
                  else mret false);
      if (nonempty : bool) then
        st ← errRet (Some tt) NFS3ERR_NOTEMPTY;
        mret (Some (inl st))
      else
        ok ← on_fs (RemName dipto ton);
        if negb ok then
          st ← errRet (Some tt) NFS3ERR_IO;
          mret (Some (inl st))
        else
          _ ← doDecLink to;
          mret (Some (inr (dipfrom, dipto)))
  else
    _ ← on_fs Abort;
    mret None.

Fixpoint rename_loop (fuel : nat) (args : RENAME3args) : M NSt (Z + Z * Z * Z) :=
  match fuel with
  | O => nofuel
  | S fuel =>
      let fromn := Diropargs3_Name (RENAME3args_From args) in
      let ton := Diropargs3_Name (RENAME3args_To args) in
      _ ← on_fs FsBegin;
      toh ← lift (MakeFh (Diropargs3_Dir (RENAME3args_To args)));
      fromh ← lift (MakeFh (Diropargs3_Dir (RENAME3args_From args)));
      if IllegalName fromn then
        st ← errRet (Some tt) NFS3ERR_INVAL;
        mret (inl st)
      else
        o ← rename_dirs args fromh toh;
        match o with
        | None =>
            st ← errRet (Some tt) NFS3ERR_STALE;
            mret (inl st)
        | Some (dipfrom, dipto) =>
            '(frominum, _) ← on_fs (LookupName dipfrom fromn);
            if bool_decide (frominum = NULLINUM) then
              st ← errRet (Some tt) NFS3ERR_NOENT;
              mret (inl st)
            else
              '(toinum, _) ← on_fs (LookupName dipto ton);
              if bool_decide (dipto = dipfrom /\ toinum = frominum) then
                _ ← on_fs Commit;
                mret (inl NFS3_OK)
              else if bool_decide (toinum <> NULLINUM) then
                r ← rename_target args fromh toh dipfrom dipto frominum toinum;
                match r with
                | None => rename_loop fuel args
                | Some (inl st) => mret (inl st)
                | Some (inr (dipfrom, dipto)) => mret (inr (dipfrom, dipto, frominum))
                end
              else mret (inr (dipfrom, dipto, frominum))
        end
  end.

Definition NFSPROC3_RENAME (args : RENAME3args) : M NSt RENAME3res :=
  r ← rename_loop retry args;
  match r with
  | inl st => mret (mkRENAME3res st zero zero)
  | inr (dipfrom, dipto, frominum) =>
      ok ← on_fs (RemName dipfrom (Diropargs3_Name (RENAME3args_From args)));
      if negb ok then
        st ← errRet (Some tt) NFS3ERR_IO;
        mret (mkRENAME3res st zero zero)
      else
        ok1 ← on_fs (AddName dipto frominum (Diropargs3_Name (RENAME3args_To args)));
        if negb ok1 then
          st ← errRet (Some tt) NFS3ERR_IO;
          mret (mkRENAME3res st zero zero)
        else
          st ← commitReply;
          mret (mkRENAME3res st zero zero)
  end.

Definition NFSPROC3_LINK (args : LINK3args) : M NSt LINK3res :=
  mret (mkLINK3res NFS3ERR_NOTSUPP zero zero).

Definition NFSPROC3_READDIR (args : READDIR3args) : M NSt READDIR3res :=
  _ ← on_fs FsBegin;
  oip ← on_fs (GetInodeFh (READDIR3args_Dir args));
  match oip with
  | None =>
      st ← errRet (Some tt) NFS3ERR_STALE;
      mret (mkREADDIR3res st zero zero)
  | Some ip =>
      k ← on_fs (ip_field ip i_Kind);
      if bool_decide (k <> NF3DIR) then
        st ← errRet (Some tt) NFS3ERR_INVAL;
        mret (mkREADDIR3res st zero zero)
      else
        dirlist ← on_fs (Readdir3 ip (READDIR3args_Cookie args) (READDIR3args_Count args));
        st ← commitReply;
        mret (mkREADDIR3res st (mkREADDIR3resok zero zero dirlist) zero)
  end.

Definition NFSPROC3_READDIRPLUS (args : READDIRPLUS3args) : M NSt READDIRPLUS3res :=
  _ ← on_fs FsBegin;
  oip ← on_fs (GetInodeFh (READDIRPLUS3args_Dir args));
  match oip with
  | None =>
      st ← errRet (Some tt) NFS3ERR_STALE;
      mret (mkREADDIRPLUS3res st zero zero)
  | Some ip =>
      k ← on_fs (ip_field ip i_Kind);
      if bool_decide (k <> NF3DIR) then
        st ← errRet (Some tt) NFS3ERR_INVAL;
        mret (mkREADDIRPLUS3res st zero zero)
      else
        dirlist ← on_fs (Ls3 ip (READDIRPLUS3args_Cookie args) (READDIRPLUS3args_Dircount args)
                           (READDIRPLUS3args_Maxcount args));
        st ← commitReply;
        mret (mkREADDIRPLUS3res st (mkREADDIRPLUS3resok zero zero dirlist) zero)
  end.

Definition NFSPROC3_FSSTAT (args : FSSTAT3args) : M NSt FSSTAT3res :=
  mret (mkFSSTAT3res NFS3ERR_NOTSUPP zero zero).

Definition NFSPROC3_FSINFO (args : FSINFO3args) : M NSt FSINFO3res :=
  _ ← on_fs FsBegin;
  st ← commitReply;
  mret (mkFSINFO3res st
    {| FSINFO3resok_Obj_attributes := zero;
       FSINFO3resok_Rtmax := 16 * 4096;
       FSINFO3resok_Rtpref := 16 * 4096;
       FSINFO3resok_Rtmult := 4096;
       FSINFO3resok_Wtmax := w32 LogBytes;
       FSINFO3resok_Wtpref := 16 * 4096;
       FSINFO3resok_Wtmult := 4096;
       FSINFO3resok_Dtpref := 16 * 4096;
       FSINFO3resok_Maxfilesize := MaxFileSize;
       FSINFO3resok_Time_delta := zero;
       FSINFO3resok_Properties := Z.lor FSF3_HOMOGENEOUS FSF3_SYMLINK |} zero).

Definition NFSPROC3_PATHCONF (args : PATHCONF3args) : M NSt PATHCONF3res :=
  mret (mkPATHCONF3res NFS3_OK
    {| PATHCONF3resok_Obj_attributes := zero;
       PATHCONF3resok_Linkmax := 1;
       PATHCONF3resok_Name_max := MAXNAMELEN;
       PATHCONF3resok_No_trunc := true;
       PATHCONF3resok_Chown_restricted := false;
       PATHCONF3resok_Case_insensitive := false;
       PATHCONF3resok_Case_preserving := true |} zero).

Definition NFSPROC3_COMMIT (args : COMMIT3args) : M NSt COMMIT3res :=
  _ ← on_fs FsBegin;
  oip ← on_fs (GetInodeFh (COMMIT3args_File args));
  match oip with
  | None =>
      st ← errRet (Some tt) NFS3ERR_STALE;
      mret (mkCOMMIT3res st zero zero)
  | Some ip =>
      k ← on_fs (ip_field ip i_Kind);
      size ← on_fs (ip_field ip i_Size);
      if bool_decide (k <> NF3REG) then
        st ← errRet (Some tt) NFS3ERR_INVAL;
        mret (mkCOMMIT3res st zero zero)
      else if size <? COMMIT3args_Offset args +w COMMIT3args_Count args then
        st ← errRet (Some tt) NFS3ERR_INVAL;
        mret (mkCOMMIT3res st zero zero)
      else
        ok ← on_fs CommitFh;
        if (ok : bool) then mret (mkCOMMIT3res NFS3_OK zero zero)
        else
          st ← errRet (Some tt) NFS3ERR_IO;
          mret (mkCOMMIT3res st zero zero)
  end.

(** *** The mount protocol *)

Definition MOUNTPROC3_NULL : M NSt unit := mret tt.

Definition MOUNTPROC3_MNT (args : list Z) : M NSt Mountres3 :=
  h ← lift MkRootFh3;
  mret (mkMountres3 MNT3_OK (mkMountres3_ok (Nfs_fh3_Data h) zero)).

Definition MOUNTPROC3_UMNT (args : list Z) : M NSt unit := mret tt.

Definition MOUNTPROC3_UMNTALL : M NSt unit := mret tt.

Definition MOUNTPROC3_DUMP : M NSt Mountopt3 := mret (mkMountopt3 None).

Definition MOUNTPROC3_EXPORT : M NSt Exportsopt3 :=
  mret (mkExportsopt3 (Some (mkExports3 (str "/") None None))).
End ops.
End Nfs.
