(* ===== verification/NfsFiles.v ===== *)
(** The procedures on one file (GETATTR, READ, WRITE) against the volume: from
    a consistent server, through the lookup of the handle, the operation on
    the inode and the commit or abort, to a consistent server again. *)
From stdpp Require Import functions.
From S2P Require Import Prelude Nfstypes External Reference Super Fh Cache Dcache Alloctxn AtxnCommit Inode.
From S2P Require Import InodeCodec InodeMap InodeIO Volume Fstxn FstxnInv Dir DirSpec DirVol Shrinker NfsOps.
Import Nfs.

Section files.
Context `{!Common} `{!CommonSpec} `{!Util} `{!UtilSpec} `{!Marshal} `{!MarshalSpec} `{!Std}
  `{!Buf} `{!BufSpec} `{!Journal} `{!JournalSpec} `{!AllocPkg} `{!AllocSpec}
  `{!LockPkg} `{!LockSpec} `{!Clock} `{!DiskPkg}.
Variable L : gset Z.
(** The entries of the directories. *)
Variable E : Z -> list dirEnt.
(** The bound of the retry loops. *)
Variable retry : nat.
Implicit Types (F : Z -> Inode) (f : FSt) (s : NSt) (a : ASt) (i p : Z) (ip : Inode).

(** The disk as the next transaction will see it. *)
Definition disk_of s : ASt := Begin (f_a (n_fs s)).

(** The inode numbers the allocator holds belong to inodes that are free and
    empty. *)
Definition spare ip : Prop := i_Kind ip = NF3FREE /\ i_Size ip = 0.

Definition free_ok F (I : gset Z) : Prop := forall i, i ∈ I -> spare (F i).

(** A consistent server between two procedures, with the files [F] and the
    directories [E]. *)
Record server F s : Prop := {
  sv_inv : srv_inv L (n_fs s);
  sv_vol : vol_ok F (disk_of s);
  sv_linked : forall i, ino_ok (disk_of s) i -> linked (F i);
  sv_dirs : dirs_ok E F (disk_of s);
  sv_names : dc_inv L E (after_Begin (n_fs s));
  sv_free : free_ok F (alloc_free (a_ialloc (disk_of s)));
}.

(** A transaction, begun in [a0], that has changed nothing yet. *)
Record txn F a0 f : Prop := {
  tx_fs : fs_inv L a0 f;
  tx_quiet : quiet_inv a0;
  tx_bitmap : bitmap_ok a0;
  tx_zero : quiet_zero a0;
  tx_sim : sim (Begin a0) (f_a f);
  tx_log : a_log (f_a f) = a_log a0;
  tx_vol0 : vol_ok F (Begin a0);
  tx_vol : vol_ok F (f_a f);
  tx_clean : owned_clean f;
  tx_linked : forall i, ino_ok (f_a f) i -> linked (F i);
  tx_dirs0 : dirs_ok E F (Begin a0);
  tx_names : dc_inv L E f;
  tx_free : free_ok F (alloc_free (a_ialloc a0));
  tx_freed : a_freeInums (f_a f) = [];
}.

(** A transaction that may have changed its inodes, all of them stored. *)
Record changed F a0 f : Prop := {
  ch_fs : fs_inv L a0 f;
  ch_bitmap : bitmap_ok a0;
  ch_vol : vol_ok F (f_a f);
  ch_synced : owned_synced f;
  ch_linked : forall i, ino_ok (f_a f) i -> linked (F i);
  ch_dirs : dirs_ok E F (f_a f);
  ch_names : dc_inv L E f;
  ch_free : free_ok F (alloc_free (a_ialloc (f_a f)) ∪ list_to_set (a_freeInums (f_a f)));
}.

Lemma tx_dirs F a0 f : txn F a0 f -> dirs_ok E F (f_a f).
Proof. intros Ht. eapply dirs_sim; apply Ht. Qed.

Lemma txn_changed F a0 f : txn F a0 f -> changed F a0 f.
Proof.
  intros Ht. pose proof (tx_dirs _ _ _ Ht). destruct Ht as [Hs Hq Hb Hz Hsim Hlg _ Hv Hc Hl _ Hnm Hf Hfr].
  split; [done..| |done|done|done|].
  2: { intros i Hi. apply Hf. rewrite (af_ialloc _ _ (fi_from _ _ _ Hs)). rewrite Hfr in Hi. set_solver. }
  intros i p ip Hi Hp. destruct (fi_own _ _ _ Hs i p Hi) as [Hio _].
  destruct (Hc i p ip Hi Hp) as [Hw Hn Hby]. split; [done..|]. rewrite <-Hby.
  pose proof (sim_super _ _ Hsim) as Hsp.
  rewrite (sim_iobj _ _ Hsim) by (unfold ino_ok in Hio; by rewrite <-Hsp).
  apply Begin_same; [by rewrite Hsp|done].
Qed.

(** ** Rules for the server *)

Lemma wp_on_fs {A} (m : M FSt A) s (Q : A -> NSt -> Prop) :
  wp m (n_fs s) (fun r f => Q r (nset_fs f s)) -> wp (on_fs m) s Q.
Proof. apply wp_zoom. Qed.

Lemma on_fs_run {A} (m : M FSt A) s r s' : on_fs m s = Ok (r, s') -> m (n_fs s) = Ok (r, n_fs s').
Proof. unfold on_fs, zoom. by destruct (m (n_fs s)) as [[x f]| | |]; [intros [= -> <-]|..]. Qed.

Lemma begin_txn F s : server F s -> txn F (f_a (n_fs s)) (after_Begin (n_fs s)).
Proof.
  intros [Hs Hv Hl Hd Hn Hf].
  split; [by apply Begin_inv|apply Hs|apply Hs|apply Hs| |done|exact Hv|exact Hv|done|exact Hl|exact Hd|exact Hn|exact Hf|done].
  apply sim_refl; apply Hv.
Qed.

Lemma wp_begin F s (Q : unit -> NSt -> Prop) : server F s ->
  (txn F (f_a (n_fs s)) (after_Begin (n_fs s)) -> Q tt (nset_fs (after_Begin (n_fs s)) s)) ->
  wp (on_fs FsBegin) s Q.
Proof.
  intros Hsv HQ. apply wp_on_fs, (wp_FsBegin L); [apply Hsv|]. intros _. by apply HQ, begin_txn.
Qed.

(** The end of a transaction touches neither the heap nor the cache, nor the
    other fields of the server. *)
Definition same_rest s s' : Prop :=
  f_heap (n_fs s') = f_heap (n_fs s) /\ f_icache (n_fs s') = f_icache (n_fs s) /\
  n_nthread s' = n_nthread s /\ n_crash s' = n_crash s /\ n_threads s' = n_threads s /\
  n_Unstable s' = n_Unstable s.

Lemma rest_names s s' : same_rest s s' -> dc_inv L E (n_fs s) -> dc_inv L E (after_Begin (n_fs s')).
Proof.
  intros (Hh & Hc & _) Hd. eapply dc_inv_kept; [exact Hd|]. apply kept_release; [done|done|].
  apply map_empty_subseteq.
Qed.

(** A commit returns, and when everything the transaction changed was stored
    the server is consistent after it. *)
Lemma wp_commit_changed a0 s w (Q : bool -> NSt -> Prop) : fs_inv L a0 (n_fs s) ->
  (forall ok s', same_rest s s' -> f_heap (n_fs s') = f_heap (n_fs s) ->
     (forall F, changed F a0 (n_fs s) -> ok = true -> server F s' /\ sim (f_a (n_fs s)) (disk_of s')) ->
     (w = true -> ok = true -> stable_obj (a_log (disk_of s')) = log_obj (a_log (disk_of s'))) ->
     alloc_free (a_balloc (disk_of s')) =
       alloc_free (a_balloc (f_a (n_fs s))) ∪ list_to_set (a_freeBnums (f_a (n_fs s))) /\
     alloc_free (a_ialloc (disk_of s')) =
       alloc_free (a_ialloc (f_a (n_fs s))) ∪ list_to_set (a_freeInums (f_a (n_fs s))) /\
     NDirty (a_op (f_a (n_fs s))) <= NDirty (a_op (f_a (n_fs s'))) /\
     (ok = false -> a_super (f_a (n_fs s')) = a_super (f_a (n_fs s)) /\
        log_obj (a_log (f_a (n_fs s'))) = log_obj (a_log (f_a (n_fs s)))) ->
     Q ok s') ->
  wp (on_fs (commitWait w)) s Q.
Proof.
  intros Hs HQ. apply wp_on_fs, (wp_commitWait L a0); [done|].
  intros ok f' Hrun Hc (lm & _ & He) Hok.
  assert (same_rest s (nset_fs f' s)) as Hrest by (by rewrite He).
  apply HQ; [done|by rewrite He| | |].
  3: { split; [apply Hc|]. split; [apply Hc|]. split; [apply Hc|]. intros Hf. split; [apply Hc|by apply (co_fail _ _ _ Hc)]. }
  - intros F [_ Hb Hv Hsy Hl Hd Hn Hf] ->. destruct (Hok Hb Hsy eq_refl) as [Hsi Hsim]. split; [|done].
    split; [done|by eapply sim_vol| |by eapply dirs_sim|by eapply rest_names|].
    2: { intros i Hi. apply Hf. by rewrite <-(co_ialloc _ _ _ Hc). }
    intros i Hi. apply Hl. eapply ino_ok_super; [|exact Hi]. apply (sim_super _ _ Hsim).
  - intros -> ->. exact (commit_stable _ _ Hrun).
Qed.

Lemma wp_commitReply a0 s (Q : Z -> NSt -> Prop) : fs_inv L a0 (n_fs s) ->
  (forall st s', st = NFS3_OK \/ st = NFS3ERR_SERVERFAULT -> same_rest s s' ->
     (forall F, changed F a0 (n_fs s) -> st = NFS3_OK ->
        server F s' /\ sim (f_a (n_fs s)) (disk_of s')) ->
     alloc_free (a_balloc (disk_of s')) =
       alloc_free (a_balloc (f_a (n_fs s))) ∪ list_to_set (a_freeBnums (f_a (n_fs s))) ->
     Q st s') ->
  wp commitReply s Q.
Proof.
  intros Hs HQ. unfold commitReply, Commit. apply wp_bind, (wp_commit_changed a0); [done|].
  intros ok s' Hr _ Hok _ [Hba _]. apply wp_ret. apply HQ; [destruct ok; auto|done| |done].
  intros F Hch. destruct ok; [by auto|done].
Qed.

Lemma wp_abort_txn F a0 s (Q : bool -> NSt -> Prop) : txn F a0 (n_fs s) ->
  (forall s', same_rest s s' -> server F s' -> sim (Begin a0) (disk_of s') -> Q true s') ->
  wp (on_fs Abort) s Q.
Proof.
  intros [Hs Hq Hb Hz Hsim Hlg Hv0 Hv Hc Hl Hd Hn Hf Hfr] HQ.
  apply wp_on_fs, (wp_Abort L a0); [done..|]. intros f' (lm & _ & He) Hsi Hsim' Hlg' Hia.
  assert (same_rest s (nset_fs f' s)) as Hrest by (by rewrite He).
  apply HQ; [done| |done]. split; [done|by eapply sim_vol| |by eapply dirs_sim|by eapply rest_names|].
  2: { intros i Hi. apply Hf. by rewrite <-Hia. }
  intros i Hi. apply Hl. eapply ino_ok_super; [|exact Hi]. rewrite (sim_super _ _ Hsim). apply (sim_super _ _ Hsim').
Qed.

Lemma wp_errRet F a0 s err (Q : Z -> NSt -> Prop) : txn F a0 (n_fs s) ->
  (forall s', same_rest s s' -> server F s' -> sim (Begin a0) (disk_of s') -> Q err s') ->
  wp (errRet (Some tt) err) s Q.
Proof.
  intros Ht HQ. unfold errRet. apply wp_bind, (wp_abort_txn F a0); [done|]. intros s' Hr Hsv Hsim.
  by apply wp_ret, HQ.
Qed.

(** ** Looking up the handle *)

Lemma txn_view F a0 f f' : txn F a0 f -> fs_inv L a0 f' -> sim (f_a f) (f_a f') ->
  grow (f_a f) (f_a f') -> owned_clean f' -> kept L f f' -> txn F a0 f'.
Proof.
  intros [Hs Hq Hb Hz Hsim Hlg Hv0 Hv Hc Hl Hd Hn Hf Hfr] Hs' Hsim' Hg Hc' Hk.
  pose proof (gr_log _ _ Hg). pose proof (gr_freeInums _ _ Hg).
  split; [done..|by eapply sim_trans|congruence|done|by eapply sim_vol|done| |done|by eapply dc_inv_kept|done|congruence].
  intros i Hi. apply Hl. eapply ino_ok_super; [|exact Hi]. apply (sim_super _ _ Hsim').
Qed.

(** The transaction [f'] locked inode [i] of [f]. *)
Record opened F f i p f' : Prop := {
  op_inodes : f_inodes f' = <[i := p]> (f_inodes f);
  op_heap : exists dc, f_heap f' !! p = Some (with_Dcache dc (F i));
  op_sim : sim (f_a f) (f_a f');
  op_balloc : a_balloc (f_a f') = a_balloc (f_a f);
  op_grow : grow (f_a f) (f_a f');
  op_keep : forall q, is_Some (f_heap f !! q) -> f_heap f' !! q = f_heap f !! q;
  op_refs : forall j q, cached f' j q -> cached f j q \/ fresh f f' q;
  op_ref : cached f i p \/ fresh f f' p;
}.

Lemma txn_got F a0 f i p ip f' : txn F a0 f -> ino_ok (f_a f) i -> i ∉ L ∪ dom (f_inodes f) ->
  fs_inv L a0 f' -> got f i p ip f' -> txn F a0 f' /\ opened F f i p f'.
Proof.
  intros Ht Hi Hni Hs' Hgot. pose proof (tx_fs _ _ _ Ht) as Hs.
  pose proof (vo_inode _ _ (tx_vol _ _ _ Ht) _ Hi) as Hd. pose proof (go_grow _ _ _ _ _ Hgot) as Hgr. split.
  - apply (txn_view F a0 f); [done|done|apply Hgot|done| |apply (got_kept L a0 f i p ip); [done|set_solver|done]].
    intros j q jq Hj Hq. rewrite (go_inodes _ _ _ _ _ Hgot) in Hj.
    apply lookup_insert_Some in Hj as [[<- <-]|[Hne Hj]].
    + rewrite (go_heap _ _ _ _ _ Hgot) in Hq. simplify_eq.
      destruct (go_disk _ _ _ _ _ Hgot) as [Hw Hn Hby]. split; [done..|]. rewrite <-Hby. symmetry.
      by apply (got_clean L a0 f _ p jq).
    + destruct (fi_own _ _ _ Hs j q Hj) as (_ & iq & Hiq & _).
      rewrite (go_keep _ _ _ _ _ Hgot) in Hq by eauto.
      eapply Begin_disk_inode; [apply Hgr|apply Hgr|]. by apply (tx_clean _ _ _ Ht j q).
  - split; [apply Hgot| |apply Hgot|apply Hgot|done|apply Hgot|exact (go_refs _ _ _ _ _ Hgot)|exact (go_ref _ _ _ _ _ Hgot)]. exists (i_Dcache ip).
    rewrite (go_heap _ _ _ _ _ Hgot). f_equal. by apply (got_eq f i _ p ip f').
Qed.

Lemma txn_back F a0 f f' : txn F a0 f -> fs_inv L a0 f' -> back f f' -> txn F a0 f'.
Proof.
  intros Ht Hs' Hb. pose proof (tx_fs _ _ _ Ht) as Hs.
  apply (txn_view F a0 f); [done|done|apply Hb|apply Hb| |by eapply back_kept].
  intros j q jq Hj Hq. rewrite (bk_inodes _ _ Hb) in Hj.
  destruct (fi_own _ _ _ Hs j q Hj) as (_ & iq & Hiq & _). rewrite (bk_keep _ _ Hb) in Hq by eauto.
  eapply Begin_disk_inode; [apply (bk_grow _ _ Hb)..|]. by apply (tx_clean _ _ _ Ht j q).
Qed.

Lemma wp_lookup F a0 f fh3 fh (Q : option Z -> FSt -> Prop) : txn F a0 f ->
  MakeFh fh3 = Ok fh -> ino_ok (f_a f) (Ino fh) -> Ino fh ∉ L ∪ dom (f_inodes f) ->
  (forall p f', i_Kind (F (Ino fh)) <> NF3FREE -> i_Gen (F (Ino fh)) = Gen fh ->
     txn F a0 f' -> opened F f (Ino fh) p f' -> Q (Some p) f') ->
  (forall f', i_Kind (F (Ino fh)) = NF3FREE \/ i_Gen (F (Ino fh)) <> Gen fh ->
     txn F a0 f' -> Q None f') ->
  wp (GetInodeFh fh3) f Q.
Proof.
  intros Ht Hfh Hi Hni HQ HQ0. pose proof (vo_inode _ _ (tx_vol _ _ _ Ht) _ Hi) as Hd.
  apply (wp_GetInodeFh L a0 f fh3 fh (F (Ino fh))); [apply Ht|done..|by apply (tx_linked _ _ _ Ht)| |].
  - intros p ip f' Hk Hg Hs' Hgot. destruct (txn_got F a0 f _ p ip f' Ht Hi Hni Hs' Hgot). by apply HQ.
  - intros f' Hk Hs' Hb. apply HQ0; [done|]. by eapply txn_back.
Qed.

(** ** One operation on the locked inode *)

Lemma wp_file_op {A} F a0 f i p f' (m : M ISt A) (Q : A -> FSt -> Prop) :
  txn F a0 f' -> opened F f i p f' -> f_inodes f = ∅ -> ino_ok (f_a f') i -> i_Kind (F i) <> NF3DIR ->
  i_Kind (F i) <> NF3FREE ->
  (forall dc, let ip := with_Dcache dc (F i) in file_ok ip (f_a f') -> synced ip (f_a f') ->
     wp m (ip, f_a f') (fun r t => touched ip (f_a f') t.1 t.2 /\
       i_Kind t.1 = i_Kind ip /\ i_Dcache t.1 = i_Dcache ip /\
       (forall f2, f_a f2 = t.2 -> f_heap f2 !! p = Some t.1 -> fs_inv L a0 f2 ->
          (synced t.1 t.2 -> linked t.1 -> changed (<[i := t.1]> F) a0 f2) -> Q r f2))) ->
  wp (on_ip p m) f' Q.
Proof.
  intros Ht Ho He Hi Hk Hnf Hm. destruct (op_heap _ _ _ _ _ Ho) as [dc Hp]. set (ip := with_Dcache dc (F i)) in *.
  pose proof (tx_fs _ _ _ Ht) as Hs. pose proof (tx_vol _ _ _ Ht) as Hv.
  pose proof (vo_inode _ _ Hv i Hi) as Hd. pose proof (di_Inum _ _ _ Hd) as Hin.
  assert (f_inodes f' !! i = Some p) as Hip by (by rewrite (op_inodes _ _ _ _ _ Ho), lookup_insert_eq).
  apply (wp_on_ip p ip); [done|]. eapply wp_mono; [apply (Hm dc)|].
  - by apply file_ok_Dcache, vol_file_ok.
  - exact (disk_inode_synced _ _ _ Hd).
  - intros r [ip' a'] ([Hg Hown Hok Hin' _] & Hkind & Hdc & HQ). simpl in *. apply own_Dcache in Hown.
    assert (fs_inv L a0 (fset_a a' (fset_heap (<[p := ip']> (f_heap f')) f'))) as Hs'.
    { apply (fs_inv_update L a0 f' i p ip); [done..|by rewrite Hin'|done|].
      intros j Hj Hne. apply (ow_iobj _ _ _ _ Hown); [done|congruence]. }
    apply HQ; simpl; [done|by rewrite lookup_insert_eq|done|]. intros Hsy Hlk.
    assert (disk_inode a' i ip') as Hd'.
    { apply synced_disk_inode; [apply Hok| |done]. by rewrite Hin'. }
    assert (vol_ok (<[i := ip']> F) a') as Hv' by (apply (vol_update F (f_a f') a' i ip'); [done..|apply Hok]).
    split; [done|apply (tx_bitmap _ _ _ Ht)|done|..].
    + intros j q jq Hj Hq. simpl in *. rewrite (op_inodes _ _ _ _ _ Ho), He in Hj.
      apply lookup_insert_Some in Hj as [[<- <-]|[_ Hj]]; [|done].
      rewrite lookup_insert_eq in Hq. by simplify_eq.
    + intros j Hj. assert (ino_ok (f_a f') j) as Hj' by (eapply ino_ok_super; [|exact Hj]; apply Hg).
      destruct (decide (j = i)) as [->|Hne]; [by rewrite fn_lookup_insert|].
      rewrite fn_lookup_insert_ne by done. by apply (tx_linked _ _ _ Ht).
    + apply (dirs_update E F (f_a f') a' i ip'); [by eapply tx_dirs|done..].
    + eapply dc_inv_kept; [apply (tx_names _ _ _ Ht)|]. apply (kept_update L f' p ip); [done|done|].
      unfold ip. simpl. congruence.
    + intros j. simpl. rewrite (gr_ialloc _ _ Hg), (gr_freeInums _ _ Hg). intros Hj.
      pose proof (ch_free _ _ _ (txn_changed _ _ _ Ht) j Hj) as Hsp.
      destruct (decide (j = i)) as [->|Hne]; [by destruct Hsp|]. by rewrite fn_lookup_insert_ne.
Qed.

(** The attributes of an inode that clients see did not change. *)
Definition same_attrs ip ip' : Prop := with_blks [] (with_Dcache None ip') = with_blks [] (with_Dcache None ip).

(** Every file but [i] is as it was. *)
Definition others_same F s i F' s' : Prop := forall j, ino_ok (disk_of s) j -> j <> i ->
  F' j = F j /\ forall k, in_file k -> fbyte (F j) (disk_of s') k = fbyte (F j) (disk_of s) k.

Lemma others_touched F s f f' i p ip' a' s' : server F s -> f_a f = disk_of s -> vol_ok F (f_a f') ->
  opened F f i p f' -> ino_ok (f_a f') i -> touched (F i) (f_a f') ip' a' -> vol_ok (<[i := ip']> F) a' ->
  sim a' (disk_of s') -> others_same F s i (<[i := ip']> F) s'.
Proof.
  intros Hsv Hfa Hv Ho Hi [Hg Hown _ _ _] Hv' Hsim' j Hj Hne. rewrite fn_lookup_insert_ne by done.
  split; [done|]. intros k Hk. pose proof (op_sim _ _ _ _ _ Ho) as Hsim. rewrite Hfa in Hsim.
  assert (ino_ok (f_a f') j) as Hj' by (eapply ino_ok_super; [|exact Hj]; by rewrite (sim_super _ _ Hsim)).
  assert (ino_ok a' j) as Hj2 by (eapply ino_ok_super; [|exact Hj']; by rewrite (gr_super _ _ Hg)).
  pose proof (vo_file _ _ Hv' j Hj2) as Hw. rewrite fn_lookup_insert_ne in Hw by done.
  rewrite (sim_fbyte (F j) a' _ k Hw Hsim' Hk).
  rewrite (vol_update_byte F (f_a f') a' i ip' Hv Hi Hg Hown j k Hj' Hne Hk).
  apply sim_fbyte; [|done|done]. by apply (vo_file _ _ (sv_vol _ _ Hsv)).
Qed.

(** ** The procedures *)

(** The handle names a file in use, of its generation. *)
Definition live F fh : Prop := i_Kind (F (Ino fh)) <> NF3FREE /\ i_Gen (F (Ino fh)) = Gen fh.

Lemma not_live F fh : i_Kind (F (Ino fh)) = NF3FREE \/ i_Gen (F (Ino fh)) <> Gen fh -> ~ live F fh.
Proof. unfold live. tauto. Qed.

(** Begin, and the lookup of the handle. *)
Lemma wp_begin_lookup F s fh3 fh (Q : option Z -> NSt -> Prop) : server F s ->
  MakeFh fh3 = Ok fh -> ino_ok (disk_of s) (Ino fh) -> Ino fh ∉ L ->
  (forall p f', live F fh -> txn F (f_a (n_fs s)) f' -> opened F (after_Begin (n_fs s)) (Ino fh) p f' ->
     ino_ok (f_a f') (Ino fh) -> Q (Some p) (nset_fs f' s)) ->
  (forall f', ~ live F fh -> txn F (f_a (n_fs s)) f' -> Q None (nset_fs f' s)) ->
  wp (_ ← on_fs FsBegin; on_fs (GetInodeFh fh3)) s Q.
Proof.
  intros Hsv Hfh Hi HL HQ HQ0. apply wp_bind, (wp_begin F); [done|]. intros Ht.
  apply wp_on_fs, (wp_lookup F (f_a (n_fs s)) (after_Begin (n_fs s)) fh3 fh); [done|done|done| | |].
  - simpl. set_solver.
  - intros p f' Hk Hg Ht' Ho. apply HQ; [done..|].
    eapply ino_ok_super; [|exact Hi]. symmetry. apply (sim_super _ _ (op_sim _ _ _ _ _ Ho)).
  - intros f' Hk Ht'. apply HQ0; [by apply not_live|done].
Qed.

Lemma wp_bind_assoc {S A B C} (m : M S A) (k : A -> M S B) (h : B -> M S C) (t : S) Q :
  wp (x ← m; y ← k x; h y) t Q <-> wp (y ← (x ← m; k x); h y) t Q.
Proof.
  unfold wp, mbind, M_bind. by destruct (m t) as [[x t']| | |].
Qed.

(** GETATTR: the attributes of the file on disk, and nothing changes. *)
Lemma wp_GETATTR F s args fh (Q : GETATTR3res -> NSt -> Prop) : server F s ->
  MakeFh (GETATTR3args_Object args) = Ok fh -> ino_ok (disk_of s) (Ino fh) -> Ino fh ∉ L ->
  (forall rep s', (~ live F fh -> rep = mkGETATTR3res NFS3ERR_STALE zero /\ server F s' /\
       sim (disk_of s) (disk_of s')) ->
     (live F fh -> GETATTR3res_Resok rep = mkGETATTR3resok (MkFattr (F (Ino fh))) /\
       (GETATTR3res_Status rep = NFS3_OK \/ GETATTR3res_Status rep = NFS3ERR_SERVERFAULT) /\
       (GETATTR3res_Status rep = NFS3_OK -> server F s' /\ sim (disk_of s) (disk_of s'))) ->
     Q rep s') ->
  wp (NFSPROC3_GETATTR args) s Q.
Proof.
  intros Hsv Hfh Hi HL HQ. unfold NFSPROC3_GETATTR. apply wp_bind_assoc, wp_bind.
  apply (wp_begin_lookup F s _ fh); [done..| |].
  - intros p f' Hlive Ht Ho Hi'. destruct (op_heap _ _ _ _ _ Ho) as [dc Hp].
    apply wp_bind, wp_on_fs, (wp_ip_field p _ _ _ _ Hp). apply wp_bind.
    apply (wp_commitReply (f_a (n_fs s))); [apply Ht|].
    intros st s' Hst _ Hok _. apply wp_ret, HQ; [done|]. intros _. split_and!; [done|done|].
    intros Hst'. destruct (Hok F (txn_changed _ _ _ Ht) Hst') as [Hsv' Hsim]. split; [done|].
    eapply sim_trans; [exact (op_sim _ _ _ _ _ Ho)|exact Hsim].
  - intros f' Hdead Ht. apply wp_bind, (wp_errRet F (f_a (n_fs s))); [done|]. intros s' _ Hsv' Hsim.
    apply wp_ret, HQ; [done|]. intros Hl. by destruct Hdead.
Qed.

(** The result of a complete read or write: only file [i] changed. *)
Record moved F s i F' s' : Prop := {
  mv_server : server F' s';
  mv_others : others_same F s i F' s';
  mv_super : a_super (disk_of s') = a_super (disk_of s);
}.

Lemma moved_intro F s i F' f2 s' : fs_inv L (f_a (n_fs s)) f2 -> sim (f_a f2) (disk_of s') ->
  server F' s' -> others_same F s i F' s' -> moved F s i F' s'.
Proof.
  intros Hf Hs Hsv Ho. split; [done..|].
  by rewrite (sim_super _ _ Hs), (af_super _ _ (fi_from _ _ _ Hf)).
Qed.

(** *** READ *)

Lemma fbytes_sim ip a a' off n : file_wf ip a -> sim a a' ->
  (forall j, (j < n)%nat -> in_file (off + Z.of_nat j)) ->
  fbytes ip a' off n = fbytes ip a off n.
Proof.
  intros Hw Hs Hn. apply fbytes_ext. intros j Hj. apply sim_fbyte; [done..|]. by apply Hn.
Qed.

(** What a read of file [i] of the server [s] returned, in the transaction
    [f2]. *)
Record read_txn F s i (offset count : Z) (data : list Z) (eof : bool) f2 : Prop := {
  rt_fs : fs_inv L (f_a (n_fs s)) f2;
  rt_eof : eof = bool_decide (i_Size (F i) <= offset);
  rt_freed : a_freeBnums (f_a f2) = [];
  rt_data : exists m, 0 <= m <= to_read (F i) offset count /\
    data = fbytes (F i) (disk_of s) offset (Z.to_nat m) /\
    (m < to_read (F i) offset count -> alloc_free (a_balloc (f_a f2)) = ∅) /\
    (m = to_read (F i) offset count -> exists ip', changed (<[i := ip']> F) (f_a (n_fs s)) f2 /\
       same_attrs (F i) ip' /\
       forall s', server (<[i := ip']> F) s' -> sim (f_a f2) (disk_of s') ->
         others_same F s i (<[i := ip']> F) s' /\
         forall k, in_file k -> fbyte ip' (disk_of s') k = fbyte (F i) (disk_of s) k);
}.

Lemma same_file_attrs dc ip a ip' a' : same_file (with_Dcache dc ip) a ip' a' -> same_attrs ip ip'.
Proof. intros Hs. unfold same_attrs. by rewrite (sf_ip _ _ _ _ Hs). Qed.

Lemma same_attrs_linked ip ip' : same_attrs ip ip' -> linked ip -> linked ip'.
Proof. unfold same_attrs, linked. destruct ip, ip'. cbn. by intros [= -> -> -> -> -> -> -> ->]. Qed.

Lemma same_attrs_eqs ip ip' : same_attrs ip ip' ->
  i_Kind ip' = i_Kind ip /\ i_Gen ip' = i_Gen ip /\ i_Size ip' = i_Size ip.
Proof. unfold same_attrs. destruct ip, ip'. cbn. by intros [= -> -> -> -> -> -> -> ->]. Qed.

Lemma same_attrs_fattr ip ip' : same_attrs ip ip' -> MkFattr ip' = MkFattr ip.
Proof. unfold same_attrs, MkFattr. destruct ip, ip'. cbn. by intros [= -> -> -> -> -> -> -> ->]. Qed.

Lemma read_txn_intro F s i p f' f2 dc ip' offset count data eof : server F s ->
  txn F (f_a (n_fs s)) f' -> opened F (after_Begin (n_fs s)) i p f' -> ino_ok (f_a f') i ->
  i_Size (F i) <= MaxBlks * 4096 -> 0 <= offset ->
  read_any (with_Dcache dc (F i)) (f_a f') offset count data eof ip' (f_a f2) ->
  synced (with_Dcache dc (F i)) (f_a f') -> fs_inv L (f_a (n_fs s)) f2 ->
  (synced ip' (f_a f2) -> linked ip' -> changed (<[i := ip']> F) (f_a (n_fs s)) f2) ->
  read_txn F s i offset count data eof f2.
Proof.
  intros Hsv Ht Ho Hi Hsz Hoff [He Hsf Hd] Hsy Hs2 Hch.
  pose proof (op_sim _ _ _ _ _ Ho : sim (disk_of s) (f_a f')) as Hsim.
  assert (ino_ok (disk_of s) i) as Hi0 by (eapply ino_ok_super; [|exact Hi]; by rewrite (sim_super _ _ Hsim)).
  pose proof (vo_file _ _ (sv_vol _ _ Hsv) i Hi0) as Hw0.
  pose proof (same_file_attrs _ _ _ _ _ Hsf) as Hat.
  pose proof (sf_grow _ _ _ _ Hsf) as Hg. split; [done|done| |].
  { rewrite (gr_freed _ _ Hg). by rewrite (gr_freed _ _ (op_grow _ _ _ _ _ Ho)). }
  destruct Hd as (m & Hm & -> & Hshort & Hfull). exists m. split; [exact Hm|]. split; [|split; [exact Hshort|]].
  - change (fbytes (with_Dcache dc (F i))) with (fbytes (F i)).
    apply fbytes_sim; [done|done|]. intros j Hj. unfold to_read in Hm. simpl in Hm.
    unfold in_file. lia.
  - intros ->. specialize (Hfull eq_refl Hsy). exists ip'.
    assert (changed (<[i := ip']> F) (f_a (n_fs s)) f2) as Hc.
    { apply Hch; [done|]. eapply same_attrs_linked; [done|]. by apply (sv_linked _ _ Hsv). }
    split_and!; [done|done|]. intros s' Hsv' Hsim'.
    assert (touched (F i) (f_a f') ip' (f_a f2)) as Hto.
    { destruct (same_touched _ _ _ _ Hsf) as [? Hown ? ? ?]. split; [done|by eapply own_Dcache|done..]. }
    split.
    + apply (others_touched F s (after_Begin (n_fs s)) f' i p ip' (f_a f2)); try done; [apply Ht|apply Hc].
    + intros k Hk. rewrite (sim_fbyte ip' (f_a f2)); [|apply (sf_ok _ _ _ _ Hsf)|done|done].
      rewrite (sf_byte _ _ _ _ Hsf) by done. by apply (sim_fbyte (F i) (disk_of s)).
Qed.

(** Of a symbolic link all [n] bytes are read, of a file the [n] asked for. *)
Lemma wp_doRead F s fh3 fh kind offset count n (Q : list Z * bool * Z -> NSt -> Prop) : server F s ->
  MakeFh fh3 = Ok fh -> ino_ok (disk_of s) (Ino fh) -> Ino fh ∉ L -> kind <> NF3DIR ->
  n = (if bool_decide (kind = NF3LNK) then i_Size (F (Ino fh)) else count) ->
  i_Size (F (Ino fh)) <= MaxBlks * 4096 -> 0 <= offset -> 0 <= n -> offset + n < 2 ^ 64 ->
  (forall f', ~ live F fh -> txn F (f_a (n_fs s)) f' -> Q ([], false, NFS3ERR_STALE) (nset_fs f' s)) ->
  (forall f', live F fh -> i_Kind (F (Ino fh)) <> kind -> txn F (f_a (n_fs s)) f' ->
     Q ([], false, NFS3ERR_INVAL) (nset_fs f' s)) ->
  (forall data eof f2, live F fh -> i_Kind (F (Ino fh)) = kind ->
     read_txn F s (Ino fh) offset n data eof f2 -> Q (data, eof, NFS3_OK) (nset_fs f2 s)) ->
  wp (doRead fh3 kind offset count) s Q.
Proof.
  intros Hsv Hfh Hi HL Hkd Hn Hsz Ho Hc Hov Hstale Hinval Hok. unfold doRead. apply wp_bind_assoc, wp_bind.
  apply (wp_begin_lookup F s _ fh); [done..| |].
  2: { intros f' Hdead Ht. by apply wp_ret, Hstale. }
  intros p f' Hlive Ht Hop Hi'. destruct (op_heap _ _ _ _ _ Hop) as [dc Hp].
  apply wp_bind, wp_on_fs, (wp_ip_field p _ _ _ _ Hp). cbn [i_Kind with_Dcache].
  destruct (decide (i_Kind (F (Ino fh)) = kind)) as [Hkind|Hk].
  2: { rewrite bool_decide_eq_true_2 by done. by apply wp_ret, Hinval. }
  rewrite bool_decide_eq_false_2 by tauto. apply wp_bind, wp_on_fs, (wp_ip_field p _ _ _ _ Hp). cbn [i_Size with_Dcache].
  rewrite Hkind, <-Hn.
  apply wp_bind, wp_on_fs, (wp_file_op F (f_a (n_fs s)) (after_Begin (n_fs s)) (Ino fh) p f');
    [done|done|done|done|congruence|apply Hlive|].
  intros dc' ip Hfo Hsy. apply wp_Read_any; [done|done|done|done|done|].
  intros data eof ip' a' Hra. pose proof (sf_ip _ _ _ _ (ra_same _ _ _ _ _ _ _ _ Hra)) as Hipe.
  split; [apply same_touched, Hra|]. split; [by rewrite Hipe|]. split; [by rewrite Hipe|].
  intros f2 Ha2 Hp2 Hs2 Hch. apply wp_ret. simpl in *. subst a'. apply Hok; [done|done|].
  by apply (read_txn_intro F s (Ino fh) p f' f2 dc' ip').
Qed.

(** The reply of READ to a live regular file. *)
Record read_reply F s i (offset count : Z) (rep : READ3res) s' : Prop := {
  rr_status : READ3res_Status rep = NFS3_OK \/ READ3res_Status rep = NFS3ERR_SERVERFAULT;
  rr_eof : READ3resok_Eof (READ3res_Resok rep) = bool_decide (i_Size (F i) <= offset);
  rr_count : READ3resok_Count (READ3res_Resok rep) = w32 (len (READ3resok_Data (READ3res_Resok rep)));
  rr_data : exists m, 0 <= m <= to_read (F i) offset count /\
    READ3resok_Data (READ3res_Resok rep) = fbytes (F i) (disk_of s) offset (Z.to_nat m) /\
    (m < to_read (F i) offset count -> alloc_free (a_balloc (disk_of s')) = ∅) /\
    (m = to_read (F i) offset count -> READ3res_Status rep = NFS3_OK ->
       exists ip', moved F s i (<[i := ip']> F) s' /\ same_attrs (F i) ip' /\
         forall k, in_file k -> fbyte ip' (disk_of s') k = fbyte (F i) (disk_of s) k);
}.

Lemma wp_READ F s args fh (Q : READ3res -> NSt -> Prop) :
  let offset := READ3args_Offset args in
  let count := READ3args_Count args in
  server F s -> MakeFh (READ3args_File args) = Ok fh -> ino_ok (disk_of s) (Ino fh) -> Ino fh ∉ L ->
  i_Size (F (Ino fh)) <= MaxBlks * 4096 -> 0 <= offset -> 0 <= count -> offset + count < 2 ^ 64 ->
  (forall s', ~ live F fh -> server F s' -> sim (disk_of s) (disk_of s') ->
     Q (mkREAD3res NFS3ERR_STALE zero zero) s') ->
  (forall s', live F fh -> i_Kind (F (Ino fh)) <> NF3REG -> server F s' -> sim (disk_of s) (disk_of s') ->
     Q (mkREAD3res NFS3ERR_INVAL zero zero) s') ->
  (forall rep s', live F fh -> i_Kind (F (Ino fh)) = NF3REG ->
     read_reply F s (Ino fh) offset count rep s' -> Q rep s') ->
  wp (NFSPROC3_READ args) s Q.
Proof.
  intros offset count Hsv Hfh Hi HL Hsz Ho Hc Hov Hstale Hinval Hok. unfold NFSPROC3_READ.
  apply wp_bind, (wp_doRead F s _ fh _ _ _ count); [done..| | |].
  - intros f' Hdead Ht. rewrite bool_decide_eq_true_2 by done.
    apply wp_bind, (wp_errRet F (f_a (n_fs s))); [done|]. intros s' _ Hsv' Hsim. by apply wp_ret, Hstale.
  - intros f' Hl Hk Ht. rewrite bool_decide_eq_true_2 by done.
    apply wp_bind, (wp_errRet F (f_a (n_fs s))); [done|]. intros s' _ Hsv' Hsim. by apply wp_ret, Hinval.
  - intros data eof f2 Hl Hk [Hs2 He Hfr (m & Hm & Hd & Hshort & Hfull)].
    rewrite bool_decide_eq_false_2 by tauto.
    apply wp_bind, (wp_commitReply (f_a (n_fs s))); [done|]. intros st s' Hst _ Hcm Hba.
    simpl in Hba. apply wp_ret, Hok; [done|done|]. split; simpl; [done|done|done|].
    exists m. split; [exact Hm|]. split; [exact Hd|]. split.
    + intros Hlt. rewrite Hba, Hfr. set_solver.
    + intros Hm' ->. destruct (Hfull Hm') as (ip' & Hch & Hat & Hmv). exists ip'.
      destruct (Hcm _ Hch eq_refl) as [Hsv' Hsim']. destruct (Hmv s' Hsv' Hsim') as [Hoth Hb].
      split_and!; [by eapply moved_intro|done|done].
Qed.

(** *** WRITE *)

(** A file that is not being shrunk is taken at the first attempt. *)
Lemma wp_getShrink F s fh3 fh (Q : option Z * Z -> NSt -> Prop) : server F s -> retry <> 0%nat ->
  MakeFh fh3 = Ok fh -> ino_ok (disk_of s) (Ino fh) -> Ino fh ∉ L ->
  is_shrinking (F (Ino fh)) = false ->
  (forall p f', live F fh -> txn F (f_a (n_fs s)) f' -> opened F (after_Begin (n_fs s)) (Ino fh) p f' ->
     ino_ok (f_a f') (Ino fh) -> Q (Some p, NFS3_OK) (nset_fs f' s)) ->
  (forall f', ~ live F fh -> txn F (f_a (n_fs s)) f' -> Q (None, NFS3ERR_STALE) (nset_fs f' s)) ->
  wp (getShrink retry fh3) s Q.
Proof.
  intros Hsv Hr Hfh Hi HL Hsh HQ HQ0. unfold getShrink. destruct retry as [|r] eqn:Hre; [done|].
  cbn [get_shrink_loop]. apply wp_bind_assoc, wp_bind. apply (wp_begin_lookup F s _ fh); [done..| |].
  - intros p f' Hl Ht Ho Hi'. destruct (op_heap _ _ _ _ _ Ho) as [dc Hp].
    apply wp_bind, wp_on_fs, (wp_ip_field p _ _ _ _ Hp).
    change (is_shrinking (with_Dcache dc (F (Ino fh)))) with (is_shrinking (F (Ino fh))). rewrite Hsh.
    apply wp_ret. by apply HQ.
  - intros f' Hdead Ht. by apply wp_ret, HQ0.
Qed.

(** How WRITE commits: [stable] is the level it reports. *)
Definition write_stable s (args : WRITE3args) : Z :=
  if negb (n_Unstable s) then FILE_SYNC else WRITE3args_Stable args.

(** The reply of WRITE to a live regular file. *)
Record write_reply F s i (args : WRITE3args) (rep : WRITE3res) s' : Prop := {
  wr_status : WRITE3res_Status rep = NFS3_OK \/ WRITE3res_Status rep = NFS3ERR_NOSPC \/
    WRITE3res_Status rep = NFS3ERR_SERVERFAULT;
  (* nothing was stored *)
  wr_nospc : WRITE3res_Status rep = NFS3ERR_NOSPC -> 0 < WRITE3args_Count args /\
    sim (disk_of s) (disk_of s') /\
    alloc_free (a_balloc (disk_of s')) = alloc_free (a_balloc (disk_of s));
  wr_stored : WRITE3res_Status rep = NFS3_OK -> exists cnt ip',
    0 <= cnt <= WRITE3args_Count args /\ (0 < cnt \/ WRITE3args_Count args = 0) /\
    WRITE3resok_Count (WRITE3res_Resok rep) = w32 cnt /\
    WRITE3resok_Committed (WRITE3res_Resok rep) = write_stable s args /\
    (write_stable s args = FILE_SYNC \/ write_stable s args = DATA_SYNC ->
       stable_obj (a_log (disk_of s')) = log_obj (a_log (disk_of s'))) /\
    (* a short write fills the blocks it found, and there was no other *)
    (cnt < WRITE3args_Count args -> alloc_free (a_balloc (disk_of s')) = ∅ /\
       (WRITE3args_Offset args + cnt) mod 4096 = 0) /\
    moved F s i (<[i := ip']> F) s' /\
    same_attrs (with_Size (Z.max (i_Size (F i)) (if 0 <? cnt then WRITE3args_Offset args + cnt else 0))
                  (F i)) ip' /\
    WRITE3resok_File_wcc (WRITE3res_Resok rep) =
      mkWcc_data zero (mkPost_op_attr true (MkFattr ip')) /\
    maps_below (WRITE3args_Offset args + WRITE3args_Count args) (F i) (disk_of s) ip' (disk_of s') /\
    forall k, in_file k -> fbyte ip' (disk_of s') k =
      if bool_decide (WRITE3args_Offset args <= k < WRITE3args_Offset args + cnt)
      then default 0 (WRITE3args_Data args !! Z.to_nat (k - WRITE3args_Offset args))
      else fbyte (F i) (disk_of s) k;
}.

Lemma write_attrs dc ip a off count buf cnt ok ip' a' :
  write_post (with_Dcache dc ip) a off count buf cnt ok ip' a' ->
  same_attrs (with_Size (Z.max (i_Size ip) (if 0 <? cnt then off + cnt else 0)) ip) ip'.
Proof. intros [_ _ _ Hf _ _ _ _ _ _ _]. unfold same_attrs. by rewrite Hf. Qed.

(** What a write of file [i] left in the transaction [f2]. *)
Record write_txn F s i (offset count : Z) (buf : list Z) (cnt : Z) (ok : bool) f2 : Prop := {
  wt_fs : fs_inv L (f_a (n_fs s)) f2;
  wt_cnt : 0 <= cnt <= count;
  wt_ok : ok = bool_decide (0 < cnt \/ count = 0);
  wt_freed : a_freeBnums (f_a f2) = [];
  wt_short : cnt < count -> alloc_free (a_balloc (f_a f2)) = ∅ /\ (cnt = 0 \/ (offset + cnt) mod 4096 = 0);
  wt_stored : ok = true -> exists ip', changed (<[i := ip']> F) (f_a (n_fs s)) f2 /\
    same_attrs (with_Size (Z.max (i_Size (F i)) (if 0 <? cnt then offset + cnt else 0)) (F i)) ip' /\
    forall s', server (<[i := ip']> F) s' -> sim (f_a f2) (disk_of s') ->
      others_same F s i (<[i := ip']> F) s' /\
      maps_below (offset + count) (F i) (disk_of s) ip' (disk_of s') /\
      forall k, in_file k -> fbyte ip' (disk_of s') k =
        if bool_decide (offset <= k < offset + cnt) then default 0 (buf !! Z.to_nat (k - offset))
        else fbyte (F i) (disk_of s) k;
}.

Lemma write_txn_intro F s i p f' f2 dc ip' offset count buf cnt ok : server F s ->
  txn F (f_a (n_fs s)) f' -> opened F (after_Begin (n_fs s)) i p f' -> ino_ok (f_a f') i ->
  write_post (with_Dcache dc (F i)) (f_a f') offset count buf cnt ok ip' (f_a f2) ->
  synced (with_Dcache dc (F i)) (f_a f') -> fs_inv L (f_a (n_fs s)) f2 ->
  (synced ip' (f_a f2) -> linked ip' -> changed (<[i := ip']> F) (f_a (n_fs s)) f2) ->
  write_txn F s i offset count buf cnt ok f2.
Proof.
  intros Hsv Ht Ho Hi Hwp Hsy Hs2 Hch. pose proof Hwp as [Hc Hfo Hg _ Hby Hok Hsh Hsyn _ Hnop Hbe Hstop].
  pose proof (op_sim _ _ _ _ _ Ho : sim (disk_of s) (f_a f')) as Hsim.
  assert (ino_ok (disk_of s) i) as Hi0 by (eapply ino_ok_super; [|exact Hi]; by rewrite (sim_super _ _ Hsim)).
  pose proof (vo_file _ _ (sv_vol _ _ Hsv) i Hi0) as Hw0.
  pose proof (write_attrs _ _ _ _ _ _ _ _ _ _ Hwp) as Hat.
  split; [done|done|done| | |].
  { rewrite (gr_freed _ _ Hg). by rewrite (gr_freed _ _ (op_grow _ _ _ _ _ Ho)). }
  { intros Hlt. split; [by apply Hsh|by apply Hstop]. }
  intros ->. exists ip'.
  assert (synced ip' (f_a f2)) as Hsy2.
  { symmetry in Hok. apply bool_decide_eq_true in Hok as [Hpos|H0c]; [by apply Hsyn|].
    by destruct (Hnop H0c) as [-> ->]. }
  assert (changed (<[i := ip']> F) (f_a (n_fs s)) f2) as Hc2.
  { apply Hch; [done|]. eapply same_attrs_linked; [exact Hat|]. by apply (sv_linked _ _ Hsv). }
  split_and!; [done|done|]. intros s' Hsv' Hsim'.
  assert (touched (F i) (f_a f') ip' (f_a f2)) as Hto.
  { destruct (write_touched _ _ _ _ _ _ _ _ _ Hwp) as [? Hown ? ? ?].
    split; [done|by eapply own_Dcache|done..]. }
  split; [|split].
  - apply (others_touched F s (after_Begin (n_fs s)) f' i p ip' (f_a f2)); try done; [apply Ht|apply Hc2].
  - intros x Hx. rewrite (sim_fptr ip' (f_a f2)) by (apply Hfo || done).
    destruct (Hbe x Hx) as [->|]; [left|by right]. change (fptr (F i) (f_a f') x = fptr (F i) (disk_of s) x).
    by apply sim_fptr.
  - intros k Hk. rewrite (sim_fbyte ip' (f_a f2)); [|apply Hfo|done|done].
    rewrite Hby by done. destruct (decide (offset <= k < offset + cnt)) as [Hin|Hin];
      [by rewrite !bool_decide_eq_true_2 by done|rewrite !bool_decide_eq_false_2 by done]. by apply (sim_fbyte (F i) (disk_of s)).
Qed.

(** The three ways WRITE commits are one commit that waits or not. *)
Lemma commit_cases stable :
  (if bool_decide (stable = FILE_SYNC) then on_fs Commit
   else if bool_decide (stable = DATA_SYNC) then on_fs CommitData else on_fs CommitUnstable) =
  on_fs (commitWait (bool_decide (stable = FILE_SYNC \/ stable = DATA_SYNC))).
Proof.
  destruct (decide (stable = FILE_SYNC)) as [->|Hf]; [done|]. rewrite (bool_decide_eq_false_2 (stable = FILE_SYNC)) by done.
  destruct (decide (stable = DATA_SYNC)) as [->|Hd]; [done|].
  rewrite !bool_decide_eq_false_2 by tauto. done.
Qed.

Lemma wp_WRITE F s args fh (Q : WRITE3res -> NSt -> Prop) :
  let offset := WRITE3args_Offset args in
  let count := WRITE3args_Count args in
  server F s -> retry <> 0%nat -> MakeFh (WRITE3args_File args) = Ok fh ->
  ino_ok (disk_of s) (Ino fh) -> Ino fh ∉ L -> is_shrinking (F (Ino fh)) = false ->
  0 <= offset -> 0 <= count <= len (WRITE3args_Data args) -> offset + count <= MaxFileSize ->
  (forall s', ~ live F fh -> server F s' -> sim (disk_of s) (disk_of s') ->
     Q (mkWRITE3res NFS3ERR_STALE zero zero) s') ->
  (forall s', live F fh -> i_Kind (F (Ino fh)) <> NF3REG \/ LogBytes <= count -> server F s' ->
     sim (disk_of s) (disk_of s') -> Q (mkWRITE3res NFS3ERR_INVAL zero zero) s') ->
  (forall rep s', live F fh -> i_Kind (F (Ino fh)) = NF3REG -> count < LogBytes ->
     write_reply F s (Ino fh) args rep s' -> Q rep s') ->
  wp (NFSPROC3_WRITE retry args) s Q.
Proof.
  intros offset count Hsv Hre Hfh Hi HL Hsh Ho Hc Hmax Hstale Hinval Hok. unfold offset, count in *. clear offset count.
  set (offset := WRITE3args_Offset args) in *. set (count := WRITE3args_Count args) in *.
  unfold NFSPROC3_WRITE. fold offset count.
  apply wp_bind, (wp_getShrink F s _ fh); [done..| |].
  2: { intros f' Hdead Ht. rewrite bool_decide_eq_true_2 by done.
       apply wp_bind, (wp_errRet F (f_a (n_fs s))); [done|]. intros s' _ Hsv' Hsim. by apply wp_ret, Hstale. }
  intros p f' Hl Ht Hop Hi'. rewrite bool_decide_eq_false_2 by tauto.
  destruct (op_heap _ _ _ _ _ Hop) as [dc Hp].
  apply wp_bind, wp_on_fs, wp_ret. apply wp_bind, wp_on_fs, (wp_ip_field p _ _ _ _ Hp).
  change (i_Kind (with_Dcache dc (F (Ino fh)))) with (i_Kind (F (Ino fh))).
  case_bool_decide as Hk.
  { apply wp_bind, (wp_errRet F (f_a (n_fs s))); [done|]. intros s' _ Hsv' Hsim.
    apply wp_ret, Hinval; [done|by left|done|done]. }
  assert (i_Kind (F (Ino fh)) = NF3REG) as Hkind by (destruct (decide (i_Kind (F (Ino fh)) = NF3REG)); tauto).
  destruct (Z.leb_spec LogBytes count) as [Hlb|Hlb].
  { apply wp_bind, (wp_errRet F (f_a (n_fs s))); [done|]. intros s' _ Hsv' Hsim.
    apply wp_ret, Hinval; [done|by right|done|done]. }
  apply wp_bind, wp_on_fs, (wp_file_op F (f_a (n_fs s)) (after_Begin (n_fs s)) (Ino fh) p f');
    [done|done|done|done|by rewrite Hkind|apply Hl|].
  intros dc' ip Hfo Hsy. apply wp_Write; [done|done|done|done|].
  intros cnt ok ip' a' Hwp. pose proof (wp_fields _ _ _ _ _ _ _ _ _ Hwp) as Hipe.
  split; [by eapply write_touched|]. split; [by rewrite Hipe|]. split; [by rewrite Hipe|].
  intros f2 Ha2 Hp2 Hs2 Hch. simpl in *. subst a'.
  destruct (write_txn_intro F s (Ino fh) p f' f2 dc' ip' offset count _ cnt ok Hsv Ht Hop Hi' Hwp Hsy Hs2 Hch)
    as [_ Hcnt Hokb Hfr Hshort Hst].
  destruct ok; simpl.
  - destruct (Hst eq_refl) as (ip2 & Hc2 & Hat & Hmv). symmetry in Hokb. apply bool_decide_eq_true in Hokb.
    apply wp_bind, wp_gets. cbn [n_Unstable nset_fs]. change (if negb (n_Unstable s) then FILE_SYNC else WRITE3args_Stable args)
      with (write_stable s args). rewrite commit_cases.
    apply wp_bind, (wp_commit_changed (f_a (n_fs s))); [done|]. intros okc s' _ Hheap Hcm Hstb [Hba _].
    destruct okc.
    + destruct (Hcm _ Hc2 eq_refl) as [Hsv' Hsim']. destruct (Hmv s' Hsv' Hsim') as (Hoth & Hbe & Hby).
      apply wp_bind, wp_on_fs, (wp_ip_field p ip'); [by rewrite Hheap|].
      assert (nset_fs (n_fs s') s' = s') as -> by (by destruct s'). apply wp_ret, Hok; [done..|].
      split; [by left|done|]. intros _. exists cnt, ip2.
      split; [exact Hcnt|]. split; [exact Hokb|]. split; [done|]. split; [done|].
      split; [intros Hs; apply Hstb; [by apply bool_decide_eq_true|done]|].
      split.
      { intros Hlt. destruct (Hshort Hlt) as [He Hal]. split; [rewrite Hba; simpl; rewrite Hfr, He; set_solver|].
        destruct Hal; [lia|done]. }
      split; [by eapply moved_intro|]. split; [exact Hat|]. split; [|split; [exact Hbe|exact Hby]].
      assert (MkFattr ip2 = MkFattr ip') as ->; [|done].
      rewrite (same_attrs_fattr _ _ Hat). symmetry. apply same_attrs_fattr. by eapply write_attrs.
    + apply wp_ret, Hok; [done..|]. split; simpl; [by auto|done|done].
  - apply wp_bind. unfold errRet. apply wp_bind, wp_on_fs, (wp_Abort_gen L (f_a (n_fs s))); [done|apply Hsv|apply Hsv|].
    intros f3 _ Hq3 Hz3 Hsim3 _ _ Hba _. apply wp_ret, wp_ret, Hok; [done..|]. split; simpl; [by auto| |done].
    intros _. symmetry in Hokb. apply bool_decide_eq_false in Hokb. split_and!; [lia|done|done].
Qed.
End files.

(** ** Handles *)

Section handles.
Context `{!Common} `{!CommonSpec} `{!Util} `{!UtilSpec} `{!Marshal} `{!MarshalSpec} `{!Std}
  `{!Buf} `{!BufSpec} `{!Journal} `{!JournalSpec} `{!AllocPkg} `{!AllocSpec}
  `{!LockPkg} `{!LockSpec} `{!Clock} `{!DiskPkg}.
Variable L : gset Z.
Implicit Types (E : Z -> list dirEnt) (F : Z -> Inode) (s : NSt).

Lemma ino_u64 s n : txn_inv (disk_of s) -> ino_ok (disk_of s) n -> is_u64 n.
Proof.
  intros Hinv Hn. pose proof (layout_bounds _ (ti_layout _ Hinv)). unfold ino_ok in Hn.
  rewrite (NInode_eq _ (ti_layout _ Hinv)) in Hn. unfold is_u64. lia.
Qed.

(** What a program sees of a file: its handle. *)
Definition handle F n (h : Nfs_fh3) : Prop := MakeFh3 (mkFh n (i_Gen (F n))) = Ok h.

Lemma handle_fh E F s n h : server L E F s -> ino_ok (disk_of s) n -> handle F n h ->
  MakeFh h = Ok (mkFh n (i_Gen (F n))).
Proof.
  intros Hsv Hn Hh. pose proof (sv_vol _ _ _ _ Hsv) as Hv.
  destruct (MakeFh_MakeFh3 (mkFh n (i_Gen (F n)))) as (h' & Hh' & Hf & _).
  - split; simpl; [eapply ino_u64; [apply Hv|done]|]. apply (iw_Gen _ (di_wf _ _ _ (vo_inode _ _ Hv n Hn))).
  - unfold handle in Hh. congruence.
Qed.
End handles.
