(* ===== verification/NfsDirs.v ===== *)
(** The procedures on directories against the volume: the lookup of a name and
    the locking of the inode it names, in the order of the inode numbers. *)
From stdpp Require Import functions.
From S2P Require Import Prelude Nfstypes External Reference Super Fh Cache Dcache Alloctxn AtxnCommit Inode.
From S2P Require Import InodeCodec InodeMap InodeIO Volume Fstxn FstxnInv Dir DirSpec DirVol Lorder Shrinker.
From S2P Require Import NfsOps NfsFiles.
Import Nfs.

Section dirs.
Context `{!Common} `{!CommonSpec} `{!Util} `{!UtilSpec} `{!Marshal} `{!MarshalSpec} `{!Std}
  `{!Buf} `{!BufSpec} `{!Journal} `{!JournalSpec} `{!AllocPkg} `{!AllocSpec}
  `{!LockPkg} `{!LockSpec} `{!Clock} `{!DiskPkg}.
Variable L : gset Z.
Variable E : Z -> list dirEnt.
Variable retry : nat.
Implicit Types (F : Z -> Inode) (f : FSt) (s : NSt) (a : ASt) (i p dip : Z) (ip : Inode).

(** The transaction holds inode [i], equal to the one on disk, at [p]. *)
Definition holds F f i p : Prop :=
  f_inodes f !! i = Some p /\ exists dc, f_heap f !! p = Some (with_Dcache dc (F i)).

Lemma opened_holds F f i p f' : opened F f i p f' -> holds F f' i p.
Proof. intros Ho. split; [by rewrite (op_inodes _ _ _ _ _ Ho), lookup_insert_eq|apply Ho]. Qed.

Lemma opened_keeps F f i p f' j q : opened F f i p f' -> i <> j -> holds F f j q -> holds F f' j q.
Proof.
  intros Ho Hne [Hin [dc Hp]]. split; [by rewrite (op_inodes _ _ _ _ _ Ho), lookup_insert_ne|].
  exists dc. by rewrite (op_keep _ _ _ _ _ Ho) by (by rewrite Hp).
Qed.

Lemma looked_holds F dip f f' i p : looked dip f f' -> holds F f i p -> holds F f' i p.
Proof.
  intros Hl [Hin [dc Hp]]. split; [by rewrite (lk_inodes _ _ _ Hl)|].
  destruct (decide (p = dip)) as [->|Hne].
  - destruct (lk_self _ _ _ Hl _ Hp) as [dc' Hp']. by exists dc'.
  - exists dc. by rewrite (lk_keep _ _ _ Hl) by (try done; by rewrite Hp).
Qed.

Lemma txn_looked F a0 f f' dip : txn L E F a0 f -> is_Some (f_heap f !! dip) -> fs_inv L a0 f' ->
  looked dip f f' -> dc_inv L E f' -> txn L E F a0 f'.
Proof.
  intros [Hs Hq Hb Hz Hsim Hlg Hv0 Hv Hc Hl Hd Hn Hf Hfr] [ip Hdip] Hs' Hlk Hn'. pose proof (lk_sim _ _ _ Hlk) as Hsim'.
  split; [done..|by eapply sim_trans|by rewrite (gr_log _ _ (lk_grow _ _ _ Hlk))|done|by eapply sim_vol| | |done|done|done|].
  3: by rewrite (gr_freeInums _ _ (lk_grow _ _ _ Hlk)).
  - intros i p ip' Hi Hp. rewrite (lk_inodes _ _ _ Hlk) in Hi.
    apply (Begin_disk_inode (f_a f)); [apply (lk_grow _ _ _ Hlk)..|].
    destruct (decide (p = dip)) as [->|Hne].
    + destruct (lk_self _ _ _ Hlk _ Hdip) as [dc Hp']. rewrite Hp' in Hp. injection Hp as <-.
      destruct (Hc i dip ip Hi Hdip) as [Hw Hin Hby]. split; [by destruct Hw|done|done].
    + destruct (fi_own _ _ _ Hs i p Hi) as (_ & iq & Hiq & _).
      rewrite (lk_keep _ _ _ Hlk) in Hp by (try done; by rewrite Hiq). by apply (Hc i p).
  - intros i Hi. apply Hl. eapply ino_ok_super; [|exact Hi]. apply (sim_super _ _ Hsim').
Qed.

(** The inodes that directory [i] names are not locked by other transactions,
    and its name cache can hold it. *)
Definition dir_ready i : Prop := cacheable (E i) /\ forall e, e ∈ E i -> in_use e -> de_inum e ∉ L.

Lemma wp_lookup_name F a0 f i dip name (Q : Z * Z -> FSt -> Prop) : txn L E F a0 f -> holds F f i dip ->
  dir_ready i ->
  (forall f' off, txn L E F a0 f' -> looked dip f f' -> Q (default NULLINUM (names (E i) !! name), off) f') ->
  wp (LookupName dip name) f Q.
Proof.
  intros Ht [Hin [dc Hp]] [Hmany Hfree] HQ.
  apply (wp_LookupName_any L a0 i dip dc f F E); try done; try apply Ht; [by eapply tx_dirs|].
  intros f' off Hf' Hl Hn. apply HQ; [|done]. by eapply txn_looked; [..|by rewrite Hp|done|done|done].
Qed.

(** ** Locking *)

(** Locking an inode in use. *)
Lemma wp_lock F a0 f i (Q : option Z -> FSt -> Prop) : txn L E F a0 f -> ino_ok (f_a f) i ->
  i ∉ L ∪ dom (f_inodes f) -> i_Kind (F i) <> NF3FREE ->
  (forall p f', txn L E F a0 f' -> opened F f i p f' -> Q (Some p) f') ->
  wp (GetInodeInum i) f Q.
Proof.
  intros Ht Hi Hni Hk HQ. pose proof (vo_inode _ _ (tx_vol _ _ _ _ _ Ht) _ Hi) as Hd.
  apply (wp_GetInodeInum L a0 f i (F i)); [apply Ht|done|done|done|by apply (tx_linked _ _ _ _ _ Ht)| |done].
  intros p ip f' _ Hs' Hg. destruct (txn_got L E F a0 f i p ip f' Ht Hi Hni Hs' Hg). by apply HQ.
Qed.

Lemma wp_lock_any F a0 f i (Q : Z -> FSt -> Prop) : txn L E F a0 f -> ino_ok (f_a f) i ->
  i ∉ L ∪ dom (f_inodes f) ->
  (forall p f', txn L E F a0 f' -> opened F f i p f' -> Q p f') -> wp (GetInodeLocked i) f Q.
Proof.
  intros Ht Hi Hni HQ. pose proof (vo_inode _ _ (tx_vol _ _ _ _ _ Ht) _ Hi) as Hd.
  apply (wp_GetInodeLocked L a0 f i (F i)); [apply Ht|done|done|done|].
  intros p ip f' Hs' Hg. destruct (txn_got L E F a0 f i p ip f' Ht Hi Hni Hs' Hg). by apply HQ.
Qed.

Lemma sort_two i j : i < j -> sort_inums [i; j] = [i; j].
Proof. intros Hij. unfold sort_inums, sort_Slice, inums_less. simpl. by destruct (Z.ltb_spec j i); [lia|]. Qed.

(** Two inodes in use are locked in order. *)
Lemma wp_lock_two F a0 f i j (Q : option (list (option Z)) -> FSt -> Prop) : txn L E F a0 f -> i < j ->
  ino_ok (f_a f) i -> ino_ok (f_a f) j -> i ∉ L ∪ dom (f_inodes f) -> j ∉ L ∪ dom (f_inodes f) ->
  i_Kind (F i) <> NF3FREE -> i_Kind (F j) <> NF3FREE ->
  (forall p q f', txn L E F a0 f' -> sim (f_a f) (f_a f') -> f_inodes f' = <[j := q]> (<[i := p]> (f_inodes f)) ->
     holds F f' i p -> holds F f' j q -> Q (Some [Some p; Some q]) f') ->
  wp (lockInodes (twoInums i j)) f Q.
Proof.
  intros Ht Hij Hi Hj Hni Hnj Hki Hkj HQ. unfold lockInodes, twoInums. rewrite sort_two by done. cbn [lock_loop].
  apply wp_bind, (wp_lock F a0); [done..|]. intros p f1 Ht1 Ho1.
  assert (pos_of [i; j] i = Ok 0%nat) as Hpi.
  { unfold pos_of. simpl. by rewrite decide_True by done. }
  assert (pos_of [i; j] j = Ok 1%nat) as Hpj.
  { unfold pos_of. simpl. rewrite decide_False by lia. simpl. by rewrite decide_True by done. }
  apply wp_bind. eapply wp_lift; [exact Hpi|]. apply wp_bind, (wp_lock F a0); [done| | |done|].
  - eapply ino_ok_super; [|exact Hj]. symmetry. apply (sim_super _ _ (op_sim _ _ _ _ _ Ho1)).
  - rewrite (op_inodes _ _ _ _ _ Ho1), dom_insert_L. set_unfold. naive_solver lia.
  - intros q f2 Ht2 Ho2. apply wp_bind. eapply wp_lift; [exact Hpj|]. apply wp_ret.
    apply HQ; [done| | | |by eapply opened_holds].
    + eapply sim_trans; [apply Ho1|apply Ho2].
    + by rewrite (op_inodes _ _ _ _ _ Ho2), (op_inodes _ _ _ _ _ Ho1).
    + eapply opened_keeps; [done|lia|by eapply opened_holds].
Qed.

(** ** [getInodesLocked] *)

(** The fields of the server outside the file system. *)
Definition same_srv s s' : Prop :=
  n_nthread s' = n_nthread s /\ n_crash s' = n_crash s /\ n_threads s' = n_threads s /\
  n_Unstable s' = n_Unstable s.

Lemma rest_srv s s' : same_rest s s' -> same_srv s s'.
Proof. by intros (_ & _ & ?). Qed.

(** The server [s'] runs a transaction that sees the disk of [s]. *)
Record in_txn F s a0 s' : Prop := {
  it_txn : txn L E F a0 (n_fs s');
  it_sim : sim (disk_of s) (Begin a0);
  it_srv : same_srv s s';
}.

Lemma in_txn_begun F s f : server L E F s -> txn L E F (f_a (n_fs s)) f -> in_txn F s (f_a (n_fs s)) (nset_fs f s).
Proof. intros Hsv Ht. split; [done| |done]. apply sim_refl; apply (sv_vol _ _ _ _ Hsv). Qed.

Lemma name_live F a i name j : dirs_ok E F a -> ino_ok a i -> names (E i) !! name = Some j ->
  dir_ready i -> j <> NULLINUM /\ ino_ok a j /\ i_Kind (F j) <> NF3FREE /\ j ∉ L.
Proof.
  intros Hd Hi Hn [_ Hfree]. destruct (names_elem _ _ _ (dr_uniq _ _ _ Hd i Hi) Hn) as (e & He & Hu & <- & _).
  destruct (dr_live _ _ _ Hd i e Hi He Hu). split_and!; [exact Hu|done|done|by apply Hfree].
Qed.

Lemma wp_inode_at l n p f (Q : Z -> FSt -> Prop) : l !! n = Some (Some p) -> Q p f ->
  wp (inode_at l (Z.of_nat n)) f Q.
Proof.
  intros Hl HQ. unfold inode_at. apply wp_bind. eapply wp_lift.
  - apply idx_Ok. split; [lia|]. rewrite Nat2Z.id. exact Hl.
  - by apply wp_ret.
Qed.

(** The inode named in the directory is locked before it: they are locked again,
    and the name is looked up again. *)
Lemma wp_lookupOrdered F a0 f i j name fh (Q : option (list (option Z)) -> FSt -> Prop) : txn L E F a0 f ->
  f_inodes f = ∅ -> Ino fh = i -> ino_ok (f_a f) i -> i ∉ L -> live F fh -> dir_ready i -> j < i ->
  names (E i) !! name = Some j ->
  (forall p dip f', txn L E F a0 f' -> sim (f_a f) (f_a f') -> holds F f' j p -> holds F f' i dip ->
     dom (f_inodes f') = {[i; j]} -> Q (Some [Some p; Some dip]) f') ->
  wp (lookupOrdered name fh j) f Q.
Proof.
  intros Ht He <- Hi HL [Hk Hg] Hready Hlt Hn HQ. set (i := Ino fh) in *.
  destruct (name_live F (f_a f) i name j (tx_dirs _ _ _ _ _ Ht) Hi Hn Hready) as (Hj0 & Hj & Hkj & HLj).
  assert (forall k, k ∉ L -> k ∉ L ∪ dom (f_inodes f)) as Hni.
  { intros k Hkn. rewrite He, dom_empty_L, union_empty_r_L. done. }
  unfold lookupOrdered. apply wp_bind, (wp_lock_two F a0); [done|done|done|done|by apply Hni|by apply Hni|done|done|].
  intros p dip f' Ht' Hsim Hin Hp Hdip. pose proof Hdip as [Hdin [dc Hdh]].
  apply wp_bind, (wp_inode_at _ 1 dip); [done|]. apply wp_bind, (wp_ip_field dip _ _ _ _ Hdh). simpl.
  rewrite bool_decide_eq_false_2 by (intros Hne; by apply Hne).
  apply wp_bind, (wp_lookup_name F a0 f' i dip); [done..|]. intros f2 off Ht2 Hl2. rewrite Hn. simpl.
  rewrite bool_decide_eq_false_2 by tauto. apply wp_ret, HQ; [done| |by eapply looked_holds|by eapply looked_holds|].
  - eapply sim_trans; [exact Hsim|apply Hl2].
  - rewrite (lk_inodes _ _ _ Hl2), Hin, !dom_insert_L, He, dom_empty_L. set_solver.
Qed.

Lemma wp_getInodes F s dfh fh name (Q : list (option Z) * Z -> NSt -> Prop) :
  let i := Ino fh in
  server L E F s -> retry <> 0%nat -> MakeFh dfh = Ok fh -> ino_ok (disk_of s) i -> i ∉ L -> dir_ready i ->
  (forall a0 s', ~ live F fh -> in_txn F s a0 s' -> Q ([], NFS3ERR_STALE) s') ->
  (forall a0 s' dip, live F fh -> names (E i) !! name = None -> in_txn F s a0 s' ->
     Q ([Some dip], NFS3ERR_NOENT) s') ->
  (forall a0 s' inodes j p, live F fh -> names (E i) !! name = Some j -> in_txn F s a0 s' ->
     holds F (n_fs s') j p -> inodes !! 0%nat = Some (Some p) -> dom (f_inodes (n_fs s')) = {[i; j]} ->
     (j <> i -> exists dip, inodes = [Some p; Some dip] /\ holds F (n_fs s') i dip) ->
     Q (inodes, NFS3_OK) s') ->
  wp (getInodesLocked retry dfh name) s Q.
Proof.
  intros i Hsv Hre Hfh Hi HL Hready Hstale Hnoent Hok. unfold getInodesLocked.
  destruct retry as [|r] eqn:Hr; [done|]. clear Hre Hr. cbn [get_inodes_loop]. apply wp_bind_assoc, wp_bind.
  apply (wp_begin_lookup L E F s _ fh); [done..| |].
  2: { intros f' Hdead Ht. apply wp_ret, (Hstale (f_a (n_fs s))); [done|by apply in_txn_begun]. }
  intros dip f1 Hlive Ht1 Ho1 Hi1. fold i in Ho1, Hi1. pose proof (opened_holds _ _ _ _ _ Ho1) as Hd1.
  apply wp_bind, wp_on_fs, (wp_lookup_name F (f_a (n_fs s)) f1 i dip); [done..|]. intros f2 off Ht2 Hl2.
  pose proof (looked_holds _ _ _ _ _ _ Hl2 Hd1) as Hd2. change (nset_fs f2 (nset_fs f1 s)) with (nset_fs f2 s).
  assert (dom (f_inodes f2) = {[i]}) as Hdom2.
  { rewrite (lk_inodes _ _ _ Hl2), (op_inodes _ _ _ _ _ Ho1). simpl. rewrite dom_insert_L, dom_empty_L. set_solver. }
  assert (ino_ok (f_a f2) i) as Hi2 by (eapply ino_ok_super; [|exact Hi1]; symmetry; apply (sim_super _ _ (lk_sim _ _ _ Hl2))).
  destruct (names (E i) !! name) as [j|] eqn:Hn; simpl.
  2: { rewrite bool_decide_eq_true_2 by done.
       apply wp_ret, (Hnoent (f_a (n_fs s))); [done|done|by apply in_txn_begun]. }
  destruct (name_live F (f_a f2) i name j (tx_dirs _ _ _ _ _ Ht2) Hi2 Hn Hready) as (Hj0 & Hj & Hkj & HLj).
  rewrite bool_decide_eq_false_2 by done. pose proof Hd2 as [Hdin [dc Hdh]].
  apply wp_bind, wp_on_fs, (wp_ip_field dip _ _ _ _ Hdh). simpl.
  rewrite (di_Inum _ _ _ (vo_inode _ _ (tx_vol _ _ _ _ _ Ht2) i Hi2)).
  change (nset_fs f2 (nset_fs f2 s)) with (nset_fs f2 s). case_bool_decide as Hji.
  { subst j. apply wp_ret, (Hok (f_a (n_fs s)) _ _ i dip); [done|done|by apply in_txn_begun|done|done| |done].
    simpl. rewrite Hdom2. set_solver. }
  destruct (Z.ltb_spec j i) as [Hlt|Hge].
  - apply wp_bind, (wp_abort_txn L E F (f_a (n_fs s))); [done|]. intros s1 Hrest Hsv1 Hsim1.
    apply wp_bind. eapply wp_lift; [exact Hfh|]. apply wp_bind, (wp_begin L E F); [done|]. intros Ht3.
    apply wp_bind, wp_on_fs, (wp_lookupOrdered F (f_a (n_fs s1)) _ i j name fh); try done.
    { eapply ino_ok_super; [|exact Hi]. symmetry. apply (sim_super _ _ Hsim1). }
    intros p dip' f4 Ht4 Hsim4 Hp Hd4 Hdom4. apply wp_ret, (Hok (f_a (n_fs s1)) _ _ j p); try done.
    + split; [done| |exact (rest_srv _ _ Hrest)]. exact Hsim1.
    + intros _. by exists dip'.
  - apply wp_bind, wp_on_fs, (wp_lock_any F (f_a (n_fs s))); [done|done|simpl; rewrite Hdom2; set_solver|].
    intros p f3 Ht3 Ho3. apply wp_ret, (Hok (f_a (n_fs s)) _ _ j p); [done|done|exact (in_txn_begun F s f3 Hsv Ht3)|by eapply opened_holds|done| |].
    + simpl. rewrite (op_inodes _ _ _ _ _ Ho3), dom_insert_L. simpl. rewrite Hdom2. set_solver.
    + intros _. exists dip. split; [done|]. by apply (opened_keeps F f2 j p f3).
Qed.

(** ** LOOKUP *)

Lemma in_txn_end F s a0 s1 a : in_txn F s a0 s1 -> sim (Begin a0) a -> sim (disk_of s) a.
Proof. intros Ht Hs. eapply sim_trans; [apply Ht|exact Hs]. Qed.

Lemma wp_LOOKUP F s args fh (Q : LOOKUP3res -> NSt -> Prop) :
  let dir := Diropargs3_Dir (LOOKUP3args_What args) in
  let name := Diropargs3_Name (LOOKUP3args_What args) in
  server L E F s -> retry <> 0%nat -> MakeFh dir = Ok fh -> ino_ok (disk_of s) (Ino fh) -> Ino fh ∉ L ->
  dir_ready (Ino fh) ->
  (forall s', ~ live F fh -> server L E F s' -> sim (disk_of s) (disk_of s') ->
     Q (mkLOOKUP3res NFS3ERR_STALE zero zero) s') ->
  (forall s', live F fh -> names (E (Ino fh)) !! name = None -> server L E F s' -> sim (disk_of s) (disk_of s') ->
     Q (mkLOOKUP3res NFS3ERR_NOENT zero zero) s') ->
  (forall j h st s', live F fh -> names (E (Ino fh)) !! name = Some j -> MakeFh3 (mkFh j (i_Gen (F j))) = Ok h ->
     st = NFS3_OK \/ st = NFS3ERR_SERVERFAULT ->
     (st = NFS3_OK -> server L E F s' /\ sim (disk_of s) (disk_of s')) ->
     Q (mkLOOKUP3res st (mkLOOKUP3resok h (mkPost_op_attr true (MkFattr (F j))) zero) zero) s') ->
  wp (NFSPROC3_LOOKUP retry args) s Q.
Proof.
  intros dir name Hsv Hre Hfh Hi HL Hready Hstale Hnoent Hok. unfold NFSPROC3_LOOKUP. fold dir name.
  apply wp_bind, (wp_getInodes F s dir fh name); [done..| | |].
  - intros a0 s1 Hdead Ht. rewrite bool_decide_eq_true_2 by done.
    apply wp_bind, (wp_errRet L E F a0); [apply Ht|]. intros s' _ Hsv' Hsim.
    apply wp_ret, Hstale; [done|done|by eapply in_txn_end].
  - intros a0 s1 dip Hlive Hn Ht. rewrite bool_decide_eq_true_2 by done.
    apply wp_bind, (wp_errRet L E F a0); [apply Ht|]. intros s' _ Hsv' Hsim.
    apply wp_ret, Hnoent; [done|done|done|by eapply in_txn_end].
  - intros a0 s1 inodes j p Hlive Hn Ht Hp H0p Hdom _. rewrite bool_decide_eq_false_2 by tauto.
    apply wp_bind, wp_on_fs, (wp_inode_at _ 0 p); [done|]. destruct Hp as [Hpin [dc Hp]].
    destruct (fi_own _ _ _ (tx_fs _ _ _ _ _ (it_txn _ _ _ _ Ht)) j p Hpin) as [Hj _].
    apply wp_bind, wp_on_fs, (wp_ip_field p _ _ _ _ Hp). unfold id.
    change (i_Inum (with_Dcache dc (F j))) with (i_Inum (F j)).
    change (i_Gen (with_Dcache dc (F j))) with (i_Gen (F j)).
    change (MkFattr (with_Dcache dc (F j))) with (MkFattr (F j)).
    rewrite (di_Inum _ _ _ (vo_inode _ _ (tx_vol _ _ _ _ _ (it_txn _ _ _ _ Ht)) j Hj)).
    apply wp_bind. eapply wp_lift; [apply MakeFh3_eq|].
    apply wp_bind, (wp_commitReply L E a0); [apply Ht|]. intros st s' Hst _ Hcm _.
    apply wp_ret, Hok; [done|done|apply MakeFh3_eq|done|]. intros Hst'.
    destruct (Hcm F (txn_changed _ _ _ _ _ (it_txn _ _ _ _ Ht)) Hst') as [Hsv' Hsim]. split; [done|].
    eapply in_txn_end; [done|]. eapply sim_trans; [apply (tx_sim _ _ _ _ _ (it_txn _ _ _ _ Ht))|exact Hsim].
Qed.
End dirs.
