(* ===== verification/NfsNames.v ===== *)
(** Changes of a directory inside a transaction: adding a name to it, and what
    the other files and directories of the volume keep. *)
From stdpp Require Import functions.
From S2P Require Import Prelude Nfstypes External Reference Super Fh Cache Dcache Alloctxn AtxnCommit Inode.
From S2P Require Import InodeCodec InodeMap InodeIO InodeBound Volume InodeShrink Fstxn FstxnInv Dir DirSpec DirVol Lorder Shrinker.
From S2P Require Import NfsOps NfsFiles NfsDirs.
Import Nfs.

Section names.
Context `{!Common} `{!CommonSpec} `{!Util} `{!UtilSpec} `{!Marshal} `{!MarshalSpec} `{!Std}
  `{!Buf} `{!BufSpec} `{!Journal} `{!JournalSpec} `{!AllocPkg} `{!AllocSpec}
  `{!LockPkg} `{!LockSpec} `{!Clock} `{!DiskPkg}.
Variable L : gset Z.
Implicit Types (E : Z -> list dirEnt) (F : Z -> Inode) (f : FSt) (s : NSt) (a : ASt) (i p dip : Z) (ip : Inode)
  (es : list dirEnt).

(** The bytes of every file but those of [I] are the same. *)
Definition frame F (I : gset Z) a a' : Prop := forall j k, ino_ok a j -> j ∉ I -> in_file k ->
  fbyte (F j) a' k = fbyte (F j) a k.

Lemma frame_sim F I a a' : vol_ok F a -> sim a a' -> frame F I a a'.
Proof. intros Hv Hs j k Hj _ Hk. apply sim_fbyte; [by apply Hv|done|done]. Qed.

Lemma frame_trans F F' (I : gset Z) a1 a2 a3 : a_super a2 = a_super a1 -> frame F I a1 a2 ->
  frame F' I a2 a3 -> (forall j, j ∉ I -> F' j = F j) -> frame F I a1 a3.
Proof.
  intros Hsp Hf1 Hf2 HF j k Hj HI Hk. rewrite <-(Hf1 j k Hj HI Hk). rewrite <-(HF j HI).
  apply Hf2; [|done|done]. by eapply ino_ok_super; [|exact Hj].
Qed.

Lemma frame_mono F (I I' : gset Z) a a' : I ⊆ I' -> frame F I a a' -> frame F I' a a'.
Proof. intros Hi Hf j k Hj HI. apply Hf; [done|set_solver]. Qed.

(** The blocks of every file but those of [I] are the same. *)
Definition spared F (I : gset Z) a a' : Prop := forall j x, ino_ok a j -> j ∉ I -> pos_ok x ->
  fptr (F j) a x <> 0 -> blk a' (fptr (F j) a x) = blk a (fptr (F j) a x).

Lemma spared_fptr F I a a' j x : spared F I a a' -> ino_ok a j -> j ∉ I -> pos_ok x ->
  fptr (F j) a' x = fptr (F j) a x.
Proof. intros Hs Hj HI Hx. apply frame_fptr; [|done]. intros y. by apply Hs. Qed.

Lemma spared_frame F I a a' : spared F I a a' -> frame F I a a'.
Proof. intros Hs j k Hj HI Hk. apply frame_fbyte; [|done]. intros x. by apply Hs. Qed.

Lemma spared_sim F I a a' : vol_ok F a -> sim a a' -> spared F I a a'.
Proof.
  intros Hv Hs j x Hj _ Hx Hn. apply (sim_blk _ _ Hs). by apply (fw_used _ _ (vo_file _ _ Hv j Hj) x).
Qed.

Lemma spared_trans F F' (I : gset Z) a1 a2 a3 : a_super a2 = a_super a1 -> spared F I a1 a2 ->
  spared F' I a2 a3 -> (forall j, j ∉ I -> F' j = F j) -> spared F I a1 a3.
Proof.
  intros Hsp Hf1 Hf2 HF j x Hj HI Hx Hn. pose proof (spared_fptr F I a1 a2 j x Hf1 Hj HI Hx) as Hp.
  rewrite <-(Hf1 j x), <-Hp by done. rewrite <-Hp in Hn. rewrite <-(HF j HI) in Hn |- *.
  apply Hf2; [|done..]. by eapply ino_ok_super; [|exact Hj].
Qed.

Lemma disk_inode_Dcache a i ip dc : disk_inode a i ip -> disk_inode a i (with_Dcache dc ip).
Proof. intros [Hw Hi Hb]. split; [by destruct Hw|done|done]. Qed.

Lemma changed_heap E F a0 f i dip ip : changed L E F a0 f -> f_inodes f !! i = Some dip ->
  f_heap f !! dip = Some ip -> ip = with_Dcache (i_Dcache ip) (F i).
Proof.
  intros Hc Ho Hp. destruct (fi_own _ _ _ (ch_fs _ _ _ _ _ Hc) i dip Ho) as [Hi _].
  pose proof (disk_inode_inj _ _ _ _ (ch_synced _ _ _ _ _ Hc i dip ip Ho Hp) (vo_inode _ _ (ch_vol _ _ _ _ _ Hc) i Hi)) as Heq.
  destruct ip, (F i). unfold with_Dcache in *. simpl in *. congruence.
Qed.

Lemma changed_looked E F a0 f f' dip : changed L E F a0 f -> is_Some (f_heap f !! dip) -> fs_inv L a0 f' ->
  looked dip f f' -> dc_inv L E f' -> changed L E F a0 f'.
Proof.
  intros [Hs Hb Hv Hsy Hl Hd Hn Hf] [ip Hdip] Hs' Hlk Hn'. pose proof (lk_sim _ _ _ Hlk) as Hsim.
  pose proof (lk_grow _ _ _ Hlk) as Hg.
  split; [done|done|by eapply sim_vol| | |by eapply dirs_sim|done|].
  - intros i p ip' Hi Hp. rewrite (lk_inodes _ _ _ Hlk) in Hi.
    destruct (fi_own _ _ _ Hs i p Hi) as (Hio & iq & Hiq & _). apply (sim_disk_inode (f_a f)); [done|done|].
    destruct (decide (p = dip)) as [->|Hne].
    + destruct (lk_self _ _ _ Hlk _ Hdip) as [dc Hp']. rewrite Hp' in Hp. injection Hp as <-.
      apply disk_inode_Dcache. by apply (Hsy i dip).
    + rewrite (lk_keep _ _ _ Hlk) in Hp by (try done; by rewrite Hiq). by apply (Hsy i p).
  - intros i Hi. apply Hl. eapply ino_ok_super; [|exact Hi]. apply (sim_super _ _ Hsim).
  - by rewrite (gr_ialloc _ _ Hg), (gr_freeInums _ _ Hg).
Qed.

(** The entries of the directories as a function do not matter. *)
Lemma changed_ext E E' F a0 f : (forall i, E i = E' i) -> changed L E F a0 f -> changed L E' F a0 f.
Proof.
  intros He [Hs Hb Hv Hsy Hl [Hsl Hu Hlv Hno] Hn Hf].
  split; [done|done|done|done|done| |intros i p ip dc; rewrite <-He; apply Hn|done].
  split; intros i; rewrite <-He; [apply Hsl|apply Hu|apply Hlv|apply Hno].
Qed.

Lemma server_ext E E' F s : (forall i, E i = E' i) -> server L E F s -> server L E' F s.
Proof.
  intros He [Hs Hv Hl [Hsl Hu Hlv Hno] Hn Hf]. split; [done|done|done| |intros i p ip dc; rewrite <-He; apply Hn|done].
  split; intros i; rewrite <-He; [apply Hsl|apply Hu|apply Hlv|apply Hno].
Qed.

(** *** A new version of one inode of the transaction *)

(** Only the inode at [dip] changed, and only its own blocks and free ones. *)
Record set_step dip f ip f' ip' : Prop := {
  ss_rest : f' = fset_a (f_a f') (fset_heap (<[dip := ip']> (f_heap f)) f);
  ss_grow : grow (f_a f) (f_a f');
  ss_own : own ip (f_a f) ip' (f_a f');
  ss_ok : file_ok ip' (f_a f');
  ss_Inum : i_Inum ip' = i_Inum ip;
}.

Lemma dir_step_set dip f ip f' ip' : dir_step dip f ip f' ip' -> set_step dip f ip f' ip'.
Proof. intros [Hr [[] _ _]]. by split. Qed.

Lemma set_step_fs a0 f i dip ip f' ip' : fs_inv L a0 f -> f_inodes f !! i = Some dip ->
  f_heap f !! dip = Some ip -> set_step dip f ip f' ip' -> fs_inv L a0 f'.
Proof.
  intros Hs Ho Hp Hst. destruct (fi_own _ _ _ Hs i dip Ho) as (Hi & iq & Hiq & Hin).
  assert (i_Inum ip = i) as Hipn by congruence. rewrite (ss_rest _ _ _ _ _ Hst).
  apply (fs_inv_update L a0 f i dip ip ip'); [done..| |apply Hst|].
  - by rewrite (ss_Inum _ _ _ _ _ Hst).
  - intros j Hj Hne. apply (ow_iobj _ _ _ _ (ss_own _ _ _ _ _ Hst)); [done|congruence].
Qed.

Section set_inode.
Context (F : Z -> Inode) (f f' : FSt) (i dip : Z) (ip ip' : Inode).
Hypothesis Hv : vol_ok F (f_a f).
Hypothesis Hi : ino_ok (f_a f) i.
Hypothesis Hip : ip = with_Dcache (i_Dcache ip) (F i).
Hypothesis Hstep : set_step dip f ip f' ip'.

Lemma step_own : own (F i) (f_a f) ip' (f_a f').
Proof. pose proof (ss_own _ _ _ _ _ Hstep) as Ho. rewrite Hip in Ho. by eapply own_Dcache. Qed.

Lemma step_Inum : i_Inum ip' = i.
Proof. rewrite (ss_Inum _ _ _ _ _ Hstep), Hip. apply (di_Inum _ _ _ (vo_inode _ _ Hv i Hi)). Qed.

(** The blocks of another file. *)
Lemma step_other j x : ino_ok (f_a f) j -> j <> i -> pos_ok x -> fptr (F j) (f_a f) x <> 0 ->
  blk (f_a f') (fptr (F j) (f_a f) x) = blk (f_a f) (fptr (F j) (f_a f) x) /\ used (f_a f') (fptr (F j) (f_a f) x).
Proof.
  intros Hj Hne Hx Hp. apply (vol_own_other F (f_a f) (f_a f') i ip'); [done|done|apply Hstep|exact step_own|done..].
Qed.

Lemma step_wf j : ino_ok (f_a f) j -> j <> i -> file_wf (F j) (f_a f').
Proof.
  intros Hj Hne. destruct (vo_file _ _ Hv j Hj) as [Hl Hu Hinj].
  pose proof (fun x => step_other j x Hj Hne) as Hb.
  assert (forall x, pos_ok x -> fptr (F j) (f_a f') x = fptr (F j) (f_a f) x) as Hp.
  { apply frame_fptr. intros x Hx Hn. by apply Hb. }
  split; [done|..].
  - intros x Hx. rewrite Hp by done. intros Hn. by apply Hb.
  - intros x y Hx Hy. rewrite !Hp by done. by apply Hinj.
Qed.
End set_inode.

(** *** A new version of one inode of the volume *)

(** Inode [i] of the volume [F], at [p], is [ip'] now; it may have lost
    blocks. *)
Record replaced F i p f ip' f' : Prop := {
  rp_rest : f' = fset_a (f_a f') (fset_heap (<[p := ip']> (f_heap f)) f);
  rp_keeps : keeps (f_a f) (f_a f');
  rp_vol : vol_ok (<[i := ip']> F) (f_a f');
  rp_iobj : forall j, ino_ok (f_a f) j -> j <> i -> iobj (f_a f') j = iobj (f_a f) j;
  rp_blk : forall j x, ino_ok (f_a f) j -> j <> i -> pos_ok x -> fptr (F j) (f_a f) x <> 0 ->
    blk (f_a f') (fptr (F j) (f_a f) x) = blk (f_a f) (fptr (F j) (f_a f) x);
}.

Lemma set_step_replaced F f i dip ip f' ip' : vol_ok F (f_a f) -> ino_ok (f_a f) i ->
  ip = with_Dcache (i_Dcache ip) (F i) -> set_step dip f ip f' ip' -> synced ip' (f_a f') ->
  replaced F i dip f ip' f'.
Proof.
  intros Hv Hi Hip Hst Hsy. pose proof (step_Inum F f f' i dip ip ip' Hv Hi Hip Hst) as Hin.
  pose proof (step_own F f f' i dip ip ip' Hip Hst) as Hown.
  split; [apply Hst|apply keeps_grow, Hst| | |].
  - apply (vol_update F (f_a f) (f_a f') i ip'); [done|done|apply Hst|exact Hown| |].
    + apply synced_disk_inode; [apply (ss_ok _ _ _ _ _ Hst)|done|done].
    + apply (fo_file _ _ (ss_ok _ _ _ _ _ Hst)).
  - intros j Hj Hne. apply (ow_iobj _ _ _ _ Hown); [done|]. by rewrite (di_Inum _ _ _ (vo_inode _ _ Hv i Hi)).
  - intros j x Hj Hne Hx Hn. by apply (step_other F f f' i dip ip ip').
Qed.

Lemma vol_ext F F' a : (forall j, F j = F' j) -> vol_ok F a -> vol_ok F' a.
Proof.
  intros He [? ? Hi Hf Hs]. split; [done..|intros j; rewrite <-He; auto|intros j; rewrite <-He; auto|].
  intros j k x y. rewrite <-!He. apply Hs.
Qed.

Lemma replaced_trans F i p f1 ip2 f2 ip3 f3 : replaced F i p f1 ip2 f2 ->
  replaced (<[i := ip2]> F) i p f2 ip3 f3 -> replaced F i p f1 ip3 f3.
Proof.
  intros [Hr1 Hk1 Hv1 Hi1 Hb1] [Hr2 Hk2 Hv2 Hi2 Hb2].
  assert (forall j, ino_ok (f_a f1) j -> ino_ok (f_a f2) j) as Hino.
  { intros j. unfold ino_ok. by rewrite (kp_super _ _ Hk1). }
  split.
  - rewrite Hr2, Hr1. simpl. by rewrite insert_insert_eq.
  - by eapply keeps_trans.
  - eapply vol_ext; [|exact Hv2]. intros j. destruct (decide (j = i)) as [->|]; by rewrite ?fn_lookup_insert, ?fn_lookup_insert_ne.
  - intros j Hj Hne. rewrite Hi2 by auto. auto.
  - intros j x Hj Hne Hx Hn.
    assert (fptr (F j) (f_a f2) x = fptr (F j) (f_a f1) x) as Hp by (apply frame_fptr; [|done]; intros y; auto).
    rewrite <-(Hb1 j x), <-Hp by done. specialize (Hb2 j x (Hino j Hj) Hne Hx).
    rewrite fn_lookup_insert_ne in Hb2 by done. apply Hb2. by rewrite Hp.
Qed.

Section replaced.
Context (E : Z -> list dirEnt) (F : Z -> Inode) (a0 : ASt) (f f' : FSt) (i dip : Z) (ip' : Inode).
Hypothesis Hch : changed L E F a0 f.
Hypothesis Hown : f_inodes f !! i = Some dip.
Hypothesis Hrp : replaced F i dip f ip' f'.

Lemma rp_ino : ino_ok (f_a f) i.
Proof. by destruct (fi_own _ _ _ (ch_fs _ _ _ _ _ Hch) i dip Hown). Qed.

Lemma rp_super : a_super (f_a f') = a_super (f_a f).
Proof. apply (rp_keeps _ _ _ _ _ _ Hrp). Qed.

Lemma rp_disk : disk_inode (f_a f') i ip'.
Proof.
  pose proof (vo_inode _ _ (rp_vol _ _ _ _ _ _ Hrp) i) as Hd. rewrite fn_lookup_insert in Hd. apply Hd.
  eapply ino_ok_super; [|exact rp_ino]. symmetry; exact rp_super.
Qed.

Lemma rp_inodes : f_inodes f' = f_inodes f.
Proof. by rewrite (rp_rest _ _ _ _ _ _ Hrp). Qed.

Lemma rp_heap q : f_heap f' !! q = if decide (q = dip) then Some ip' else f_heap f !! q.
Proof.
  rewrite (rp_rest _ _ _ _ _ _ Hrp). simpl. case_decide as Hq; [by rewrite Hq, lookup_insert_eq|by rewrite lookup_insert_ne].
Qed.

Lemma rp_fs : fs_inv L a0 f'.
Proof.
  pose proof (rp_keeps _ _ _ _ _ _ Hrp) as Hk. pose proof (ch_fs _ _ _ _ _ Hch) as Hs.
  destruct (fi_own _ _ _ Hs i dip Hown) as (Hi & iq & Hiq & Hin). rewrite (rp_rest _ _ _ _ _ _ Hrp).
  apply (fs_inv_set L a0 f i dip iq ip'); [done..|apply rp_disk|apply (kp_from _ _ Hk), Hs|apply Hk|apply Hk|apply Hk|apply Hrp].
Qed.

Lemma rp_spared : spared F {[i]} (f_a f) (f_a f').
Proof. intros j x Hj Hne Hx Hn. apply (rp_blk _ _ _ _ _ _ Hrp); [done|set_solver|done..]. Qed.

Lemma rp_frame : frame F {[i]} (f_a f) (f_a f').
Proof. apply spared_frame, rp_spared. Qed.

Lemma rp_owned : owned_synced f'.
Proof.
  intros j q jq Hj Hq. rewrite rp_inodes in Hj. rewrite rp_heap in Hq.
  destruct (fi_own _ _ _ (ch_fs _ _ _ _ _ Hch) j q Hj) as (Hjo & iq & Hiq & Hjn).
  destruct (fi_own _ _ _ (ch_fs _ _ _ _ _ Hch) i dip Hown) as (_ & ir & Hir & Hin). case_decide as Hqd.
  - subst q. assert (j = i) as -> by congruence. injection Hq as <-. exact rp_disk.
  - assert (j <> i) as Hne by (intros ->; congruence).
    destruct (ch_synced _ _ _ _ _ Hch j q jq Hj Hq) as [Hw Hn Hb]. split; [done..|].
    by rewrite (rp_iobj _ _ _ _ _ _ Hrp).
Qed.

Lemma rp_linked : linked ip' -> forall j, ino_ok (f_a f') j -> linked ((<[i := ip']> F) j).
Proof.
  intros Hl j Hj. destruct (decide (j = i)) as [->|Hne]; [by rewrite fn_lookup_insert|].
  rewrite fn_lookup_insert_ne by done. apply (ch_linked _ _ _ _ _ Hch).
  eapply ino_ok_super; [|exact Hj]. by rewrite rp_super.
Qed.

Lemma rp_free : spare ip' \/ i ∉ alloc_free (a_ialloc (f_a f)) ∪ list_to_set (a_freeInums (f_a f)) ->
  free_ok (<[i := ip']> F) (alloc_free (a_ialloc (f_a f')) ∪ list_to_set (a_freeInums (f_a f'))).
Proof.
  pose proof (rp_keeps _ _ _ _ _ _ Hrp) as Hk. rewrite (kp_ialloc _ _ Hk), (kp_freeInums _ _ Hk).
  intros Hi j Hj. destruct (decide (j = i)) as [->|Hne]; [rewrite fn_lookup_insert; tauto|].
  rewrite fn_lookup_insert_ne by done. by apply (ch_free _ _ _ _ _ Hch).
Qed.

(** What can reach the inode at [q] in the new state could before. *)
Lemma rp_reach j q : reach L f' j q -> reach L f j q.
Proof. rewrite (rp_rest _ _ _ _ _ _ Hrp). done. Qed.

Lemma reach_own j q : reach L f j q -> j = i -> q = dip.
Proof.
  intros [Ho|[Hc HL]] ->; [congruence|].
  destruct (fi_slot _ _ _ (ch_fs _ _ _ _ _ Hch) i q Hc) as (_ & iq & _ & _ & Hs & _).
  rewrite Hs in Hown by (by eapply elem_of_dom_2). congruence.
Qed.

(** The directory has the entries [es] now. *)
Lemma changed_dir_any es : slots es ip' (f_a f') -> uniq es -> (forall dc, i_Dcache ip' = Some dc -> dcache_ok dc es) ->
  i ∉ alloc_free (a_ialloc (f_a f)) ∪ list_to_set (a_freeInums (f_a f)) -> i_Nlink ip' <> 0 ->
  (forall e, e ∈ es -> in_use e -> ino_ok (f_a f) (de_inum e) /\
     (de_inum e <> i -> i_Kind (F (de_inum e)) <> NF3FREE)) ->
  changed L (<[i := es]> E) (<[i := ip']> F) a0 f'.
Proof.
  intros Hsl Hu Hok Hfree Hnl Hlive.
  split; [exact rp_fs|apply Hch|apply Hrp|exact rp_owned|by apply rp_linked; intros _| | |].
  - apply (dirs_set E F (f_a f)); [apply Hch|exact rp_super|apply Hrp|apply Hrp|done|done|done].
  - intros j q iq dq Hr Hq Hk Hd. apply rp_reach in Hr. rewrite rp_heap in Hq.
    destruct (reach_heap L _ _ _ _ (ch_fs _ _ _ _ _ Hch) Hr) as (iq0 & Hq0 & Hj).
    destruct (fi_own _ _ _ (ch_fs _ _ _ _ _ Hch) i dip Hown) as (_ & ir & Hir & Hin). case_decide as Hqd.
    + subst q. assert (j = i) as -> by congruence. injection Hq as <-.
      rewrite fn_lookup_insert. by apply Hok.
    + assert (j <> i) as Hne by (intros ->; by apply Hqd, (reach_own i)). rewrite fn_lookup_insert_ne by done.
      by apply (ch_names _ _ _ _ _ Hch j q iq).
  - apply rp_free. by right.
Qed.

Lemma changed_dir es dc : slots es ip' (f_a f') -> i_Dcache ip' = Some dc -> dcache_ok dc es ->
  i_Kind (F i) <> NF3FREE -> i_Nlink ip' <> 0 -> (forall e, e ∈ es -> in_use e -> ino_ok (f_a f) (de_inum e) /\
     (de_inum e <> i -> i_Kind (F (de_inum e)) <> NF3FREE)) ->
  changed L (<[i := es]> E) (<[i := ip']> F) a0 f'.
Proof.
  intros Hsl Hdc Hok Hkind. apply changed_dir_any; [done|by eapply dcache_uniq|intros dc' ?; congruence|].
  intros Hi. by destruct (ch_free _ _ _ _ _ Hch i Hi).
Qed.

(** A file that is not a directory. *)
Lemma changed_file ip : f_heap f !! dip = Some ip -> i_Kind (F i) <> NF3DIR -> i_Kind ip' <> NF3DIR ->
  (named E (f_a f) i -> i_Kind (F i) <> NF3FREE -> i_Kind ip' <> NF3FREE) -> linked ip' -> i_Dcache ip' = i_Dcache ip ->
  spare ip' \/ i ∉ alloc_free (a_ialloc (f_a f)) ∪ list_to_set (a_freeInums (f_a f)) ->
  changed L E (<[i := ip']> F) a0 f'.
Proof.
  intros Hheap Hk Hk' Hf Hl Hd Hi.
  split; [exact rp_fs|apply Hch|apply Hrp|exact rp_owned|by apply rp_linked| | |by apply rp_free].
  - apply (dirs_replace E F (f_a f)); [apply Hch|exact rp_super|exact rp_ino|done|done|done|apply Hrp|apply Hrp].
  - rewrite (rp_rest _ _ _ _ _ _ Hrp). eapply dc_inv_kept; [apply (ch_names _ _ _ _ _ Hch)|].
    by apply (kept_update L f dip ip).
Qed.

(** An inode that no directory names any more is given up. *)
Lemma changed_dropped : i_Kind ip' <> NF3DIR -> ~ named (<[i := []]> E) (f_a f) i -> linked ip' -> spare ip' ->
  changed L (<[i := []]> E) (<[i := ip']> F) a0 f'.
Proof.
  intros Hk Hnm Hl Hsp.
  split; [exact rp_fs|apply Hch|apply Hrp|exact rp_owned|by apply rp_linked| | |by apply rp_free; left].
  - apply (dirs_drop E F (f_a f)); [apply Hch|exact rp_super|done|done|apply Hrp|apply Hrp].
  - intros j q iq dq Hr Hq Hkq Hd. apply rp_reach in Hr. rewrite rp_heap in Hq. case_decide as Hqd; [congruence|].
    assert (j <> i) as Hne by (intros ->; by apply Hqd, (reach_own i)). rewrite fn_lookup_insert_ne by done.
    by apply (ch_names _ _ _ _ _ Hch j q iq).
Qed.
End replaced.

(** *** Adding a name *)

(** [f'] is [f] but for the inode at [dip]. *)
Record same_txn dip f f' : Prop := {
  sx_inodes : f_inodes f' = f_inodes f;
  sx_keep : forall q, q <> dip -> is_Some (f_heap f !! q) -> f_heap f' !! q = f_heap f !! q;
  sx_super : a_super (f_a f') = a_super (f_a f);
  sx_freed : a_freeInums (f_a f') = a_freeInums (f_a f);
}.

Lemma looked_same dip f f' : looked dip f f' -> same_txn dip f f'.
Proof. intros Hl. split; [apply Hl..|apply (lk_grow _ _ _ Hl)|apply (lk_grow _ _ _ Hl)]. Qed.

Lemma step_same dip f ip f' ip' : dir_step dip f ip f' ip' -> same_txn dip f f'.
Proof.
  intros [Hr Ht]. split; [by rewrite Hr| |apply (to_grow _ _ _ _ (dt_touched _ _ _ _ Ht))|apply (to_grow _ _ _ _ (dt_touched _ _ _ _ Ht))].
  intros q Hne _. rewrite Hr. simpl. by rewrite lookup_insert_ne.
Qed.

Lemma same_txn_trans dip f1 f2 f3 : same_txn dip f1 f2 -> same_txn dip f2 f3 -> same_txn dip f1 f3.
Proof.
  intros [Hi1 Hk1 Hs1 Hf1] [Hi2 Hk2 Hs2 Hf2]. split; [congruence| |congruence..].
  intros q Hne Hq. rewrite Hk2; [by apply Hk1|done|]. by rewrite Hk1.
Qed.

Lemma set_slot_elem es j e e' : (j <= length es)%nat -> e' ∈ set_slot es j e -> e' = e \/ e' ∈ es.
Proof.
  intros Hj (k & Hk)%list_elem_of_lookup_1. destruct (decide (k = j)) as [->|Hne].
  - rewrite set_slot_eq in Hk by done. left. congruence.
  - rewrite set_slot_ne in Hk by done. right. by eapply list_elem_of_lookup_2.
Qed.

(** There may be too few free blocks for one more entry, as the last block of the
    directory is full, or the directory has its maximal size. *)
Definition no_room_in es a : Prop :=
  (few_free a /\ slot_off (length es) mod 4096 = 0) \/ MaxFileSize < slot_off (length es) + DIRENTSZ.

(** [AddName] entered the name in slot [j]; the file of the directory is mapped
    differently only up to its new end. *)
Record add_done E F a0 f i dip inum (name : list Z) j ip' f' : Prop := {
  an_name : len name < MAXNAMELEN /\ i_Kind (F i) = NF3DIR;
  an_slot : free_slot (E i) j;
  an_fixed : fixed (F i) ip';
  an_changed : changed L (<[i := set_slot (E i) j (mkDirEnt inum name)]> E) (<[i := ip']> F) a0 f';
  an_same : same_txn dip f f';
  an_frame : frame F {[i]} (f_a f) (f_a f');
  an_heap : f_heap f' !! dip = Some ip';
  an_size : i_Size ip' = slot_off (length (set_slot (E i) j (mkDirEnt inum name)));
  an_map : maps_below (i_Size ip' + DIRENTSZ) (F i) (f_a f) ip' (f_a f');
  an_spared : spared F {[i]} (f_a f) (f_a f');
}.

(** A failed [AddName] may have changed the inode of the directory and its
    blocks, and nothing else. *)
Record add_failed F a0 f i dip (name : list Z) es f' : Prop := {
  ad_fs : fs_inv L a0 f';
  ad_same : same_txn dip f f';
  ad_wf : forall j, ino_ok (f_a f) j -> j <> i -> file_wf (F j) (f_a f');
  ad_spared : spared F {[i]} (f_a f) (f_a f');
  ad_dir : exists ip, f_heap f' !! dip = Some ip /\ file_ok ip (f_a f') /\ fixed (F i) ip /\ i_Size ip = i_Size (F i);
  ad_why : MAXNAMELEN <= len name \/ i_Kind (F i) <> NF3DIR \/ no_room_in es (f_a f);
}.

(** The entry was stored in the directory whose names were loaded in [f1]. *)
Lemma added_done E F a0 f f1 f' i dip inum name dc dc' j ip' : changed L E F a0 f -> changed L E F a0 f1 ->
  looked dip f f1 -> f_inodes f1 !! i = Some dip -> ino_ok (f_a f1) i -> i_Kind (F i) = NF3DIR -> len name < MAXNAMELEN ->
  ino_ok (f_a f) inum -> i_Kind (F inum) <> NF3FREE ->
  dir_step dip f1 (with_Dcache (Some dc) (F i)) f' ip' -> free_slot (E i) j ->
  dir_at dip (set_slot (E i) j (mkDirEnt inum name)) ip' f' -> i_Dcache ip' = Some dc' ->
  dcache_ok dc' (set_slot (E i) j (mkDirEnt inum name)) -> synced ip' (f_a f') ->
  add_done E F a0 f i dip inum name j ip' f'.
Proof.
  intros Hch Hch1 Hl1 Ho1 Hi1 Hkind Hshort Hin Hk Hst Hfr Hat Hdc Hok Hsy. pose proof (lk_sim _ _ _ Hl1) as Hsim1.
  assert (fixed (F i) ip') as Hfx by (eapply fixed_Dcache, (to_fixed _ _ _ _ (ds_touched _ _ _ _ _ Hst))).
  pose proof (set_step_replaced F f1 i dip _ f' ip' (ch_vol _ _ _ _ _ Hch1) Hi1 eq_refl (dir_step_set _ _ _ _ _ Hst) Hsy) as Hrp.
  split; [done|done|done| | | |apply Hat|apply (sl_size _ _ _ (da_slots _ _ _ _ Hat))| |].
  - apply (changed_dir E F a0 f1 f' i dip ip' Hch1 Ho1 Hrp _ dc');
      [apply Hat|done|done|by rewrite Hkind| |].
    { rewrite Hfx. apply (ch_linked _ _ _ _ _ Hch1); [done|by rewrite Hkind]. }
    intros e [->|He]%set_slot_elem Hue; [|destruct (dr_live _ _ _ (ch_dirs _ _ _ _ _ Hch1) i e Hi1 He Hue); tauto|apply Hfr].
    simpl. split; [|done]. apply (ino_ok_super _ (f_a f)); [symmetry; apply Hsim1|exact Hin].
  - apply (same_txn_trans dip f f1 f'); [by apply looked_same|by eapply step_same].
  - apply (frame_trans F F _ _ (f_a f1)); [apply Hsim1|by apply frame_sim; [apply Hch|]| |done].
    by apply (rp_frame E F a0 f1 f' i dip ip').
  - intros x Hx. rewrite <-(sim_fptr (F i) (f_a f) (f_a f1) x); [|apply (vo_file _ _ (ch_vol _ _ _ _ _ Hch))|done|done].
    { apply (dt_below _ _ _ _ (ds_dir _ _ _ _ _ Hst) x Hx). }
    eapply ino_ok_super; [|exact Hi1]. apply Hsim1.
  - apply (spared_trans F F _ _ (f_a f1)); [apply Hsim1|by apply spared_sim; [apply Hch|]| |done].
    by apply (rp_spared E F a0 f1 f' i dip ip').
Qed.

(** There was no room for it. *)
Lemma added_failed E F a0 f f1 f' i dip name dc ip' : changed L E F a0 f -> changed L E F a0 f1 -> fs_inv L a0 f1 ->
  looked dip f f1 -> f_inodes f1 !! i = Some dip -> ino_ok (f_a f1) i -> i_Kind (F i) = NF3DIR ->
  f_heap f1 !! dip = Some (with_Dcache (Some dc) (F i)) ->
  dir_step dip f1 (with_Dcache (Some dc) (F i)) f' ip' -> dir_at dip (E i) ip' f' ->
  ((synced (with_Dcache (Some dc) (F i)) (f_a f1) -> forall a, atxn_from a (f_a f1) -> few_free (f_a f1)) /\
     slot_off (length (E i)) mod 4096 = 0) \/ MaxFileSize < slot_off (length (E i)) + DIRENTSZ ->
  add_failed F a0 f i dip name (E i) f'.
Proof.
  intros Hch Hch1 Hs1 Hl1 Ho1 Hi1 Hkind Hp1 Hst Hat' Hfull. pose proof (lk_sim _ _ _ Hl1) as Hsim1.
  assert (forall j, ino_ok (f_a f) j -> ino_ok (f_a f1) j) as Hio.
  { intros j Hj. eapply ino_ok_super; [|exact Hj]. symmetry. apply Hsim1. }
  split.
  - apply (set_step_fs a0 f1 i dip (with_Dcache (Some dc) (F i)) f' ip'); [done|done|done|by apply dir_step_set].
  - apply (same_txn_trans dip f f1 f'); [by apply looked_same|by eapply step_same].
  - intros j Hj Hji. apply (step_wf F f1 f' i dip (with_Dcache (Some dc) (F i)) ip');
      [apply Hch1|done|done|by apply dir_step_set|by apply Hio|done].
  - apply (spared_trans F F _ _ (f_a f1)); [apply Hsim1|by apply spared_sim; [apply Hch|]| |done].
    intros j x Hj Hji Hx Hnz. apply (step_other F f1 f' i dip (with_Dcache (Some dc) (F i)) ip');
      [apply Hch1|done|done|by apply dir_step_set|done|set_solver|done|done].
  - exists ip'. pose proof (da_slots _ _ _ _ Hat') as Hsl'.
    split_and!; [apply Hat'|apply Hsl'|by eapply fixed_Dcache, (to_fixed _ _ _ _ (ds_touched _ _ _ _ _ Hst))|].
    rewrite (sl_size _ _ _ Hsl'). symmetry. apply (dr_slots _ _ _ (ch_dirs _ _ _ _ _ Hch1) i); done.
  - right; right. destruct Hfull as [[Hfew Hmod]|]; [left; split; [|done]|by right]. unfold few_free in *. rewrite <-(lk_balloc _ _ _ Hl1).
    apply (Hfew (disk_inode_synced _ _ _ (ch_synced _ _ _ _ _ Hch1 i dip _ Ho1 Hp1)) a0). apply Hs1.
Qed.

Lemma wp_AddName_any E F a0 f i dip inum name (Q : bool -> FSt -> Prop) : changed L E F a0 f ->
  f_inodes f !! i = Some dip -> dir_ready L E i -> ino_ok (f_a f) inum -> inum <> NULLINUM ->
  i_Kind (F inum) <> NF3FREE -> names (E i) !! name = None ->
  (forall j ip' f', add_done E F a0 f i dip inum name j ip' f' -> Q true f') ->
  (forall f', add_failed F a0 f i dip name (E i) f' -> Q false f') ->
  wp (AddName dip inum name) f Q.
Proof.
  intros Hch Ho [Hmany Hfree] Hin Hne Hk HN HQ HQf. pose proof (ch_fs _ _ _ _ _ Hch) as Hs.
  destruct (fi_own _ _ _ Hs i dip Ho) as (Hi & ip & Hp & _).
  pose proof (changed_heap E F a0 f i dip ip Hch Ho Hp) as Hip. rewrite Hip in Hp.
  assert (forall why : MAXNAMELEN <= len name \/ i_Kind (F i) <> NF3DIR \/ no_room_in (E i) (f_a f),
    add_failed F a0 f i dip name (E i) f) as Hsame.
  { split; [done|by split|intros j Hj _; by apply Hch|by intros j x| |done].
    exists (with_Dcache (i_Dcache ip) (F i)). split_and!; [done| |by destruct (F i)|done].
    apply file_ok_Dcache, vol_file_ok; [apply Hch|done]. }
  unfold AddName. apply wp_bind, (wp_ip_field dip _ _ _ _ Hp). simpl. case_bool_decide as Hkd; simpl.
  { apply wp_ret, HQf, Hsame. by right; left. }
  assert (i_Kind (F i) = NF3DIR) as Hkind by (by destruct (decide (i_Kind (F i) = NF3DIR))).
  destruct (Z.leb_spec MAXNAMELEN (len name)) as [Hlong|Hshort].
  { apply wp_ret, HQf, Hsame. by left. }
  apply wp_bind, (wp_ensure_dcache_any L a0 i dip (i_Dcache ip) f F E); [apply Hch|done|done|apply Hch..|done|done|done|].
  intros f1 dc Hs1 Hl1 Hn1 Hnames. pose proof (da_heap _ _ _ _ (dn_at _ _ _ _ _ _ Hnames)) as Hp1.
  assert (changed L E F a0 f1) as Hch1 by (apply (changed_looked E F a0 f f1 dip); [done|by rewrite Hp|done..]).
  assert (f_inodes f1 !! i = Some dip) as Ho1 by (by rewrite (lk_inodes _ _ _ Hl1)).
  assert (is_u64 inum) as Hu.
  { pose proof (af_inv _ _ (fi_from _ _ _ Hs)) as Hinv. destruct Hin as [Hi0 Hi1].
    pose proof (layout_bounds _ (ti_layout _ Hinv)). rewrite (NInode_eq _ (ti_layout _ Hinv)) in Hi1. unfold is_u64. lia. }
  pose proof (lk_sim _ _ _ Hl1) as Hsim1.
  destruct (fi_own _ _ _ Hs1 i dip Ho1) as [Hi1 _].
  eapply wp_add_entry; [exact Hnames|done|done|done|done| |].
  - intros j dc' ip' f' Hst Hfr [Hat Hdc Hok _] Hsy.
    by apply (HQ j ip'), (added_done E F a0 f f1 f' i dip inum name dc dc').
  - intros ip' f' Hst Hn' _ Hfull. apply HQf. destruct Hn' as [Hat' _ _ _].
    by apply (added_failed E F a0 f f1 f' i dip name dc ip').
Qed.
End names.
