(* ===== verification/NfsList.v ===== *)
(** Directory listings: the pages of READDIR. *)
From stdpp Require Import functions.
From S2P Require Import Prelude Nfstypes External Reference Super Fh Cache Dcache Alloctxn AtxnCommit Inode.
From S2P Require Import InodeCodec InodeMap InodeIO Volume Fstxn FstxnInv Dir DirSpec DirVol Lorder Shrinker.
From S2P Require Import NfsLs NfsOps NfsFiles NfsDirs NfsNames.
Import Nfs.

(** ** Pages

    The entries of a directory in the order of their slots, each with the
    offset of its slot as its cookie. *)

Section pages.
Context `{!Common}.

Definition ent_at (j : nat) (e : dirEnt) : Entry3 := mkEntry3 (de_inum e) (de_name e) (slot_off j) None.

(** The entries in use of the slots [es], the first of which is slot [j]. *)
Fixpoint listing (es : list dirEnt) (j : nat) : list Entry3 :=
  match es with
  | [] => []
  | e :: es => if decide (in_use e) then ent_at j e :: listing es (S j) else listing es (S j)
  end.

(** The entries of directory [es] from slot [k] on. *)
Definition listing_from (es : list dirEnt) (k : nat) : list Entry3 := listing (drop k es) k.

Definition ent_name (x : Entry3) : list Z := let 'mkEntry3 _ name _ _ := x in name.

(** What the reply is estimated to take for an entry. *)
Definition cost (x : Entry3) : Z := 32 + len (ent_name x).

(** The entries of [l] that fill a page of [count] bytes, of which [n] are
    taken, and whether these are all. *)
Fixpoint page (l : list Entry3) (count n : Z) : list Entry3 * bool :=
  match l with
  | [] => ([], true)
  | x :: l =>
      if count <=? n + cost x then ([x], false)
      else let '(p, eof) := page l count (n + cost x) in (x :: p, eof)
  end.

Lemma listing_elem es j x : x ∈ listing es j <-> exists k e, es !! k = Some e /\ in_use e /\ x = ent_at (j + k) e.
Proof.
  revert j. induction es as [|e es IH]; intros j; simpl.
  { rewrite elem_of_nil. split; [done|]. by intros (k & e & Hk & _). }
  assert (x ∈ listing es (S j) <-> exists k e0, (e :: es) !! S k = Some e0 /\ in_use e0 /\ x = ent_at (j + S k) e0) as Htl.
  { rewrite IH. by setoid_rewrite Nat.add_succ_comm. }
  case_decide as Hu.
  - rewrite elem_of_cons, Htl. split.
    + intros [->|(k & e0 & Hk & ?)]; [exists 0%nat, e; by rewrite Nat.add_0_r|by exists (S k), e0].
    + intros ([|k] & e0 & Hk & Hu0 & Hx); [left|right; by exists k, e0].
      injection Hk as ->. by rewrite Nat.add_0_r in Hx.
  - rewrite Htl. split.
    + intros (k & e0 & Hk & ?). by exists (S k), e0.
    + intros ([|k] & e0 & Hk & Hu0 & Hx); [|by exists k, e0]. by injection Hk as ->.
Qed.

(** The names are those of the directory, each listed once. *)
Lemma listing_names es name inum : uniq es ->
  names es !! name = Some inum <-> exists c, mkEntry3 inum name c None ∈ listing_from es 0.
Proof.
  intros Hu. rewrite names_Some by done. unfold listing_from. rewrite drop_0. split.
  - intros (j & Hj & Hn). exists (slot_off j). apply listing_elem. by exists j, (mkDirEnt inum name).
  - intros (c & (k & e & Hk & Hue & Hx)%listing_elem). injection Hx as -> -> _. exists k. by destruct e.
Qed.

Lemma listing_NoDup es j : uniq es -> NoDup (ent_name <$> listing es j).
Proof.
  revert j. induction es as [|e es IH]; intros j Hu; simpl; [by apply NoDup_nil|].
  pose proof (IH (S j) (uniq_tail _ _ Hu)) as Hnd. case_decide as He; [|done]. simpl. apply NoDup_cons. split; [|done].
  intros (x & Hx & (k & e' & Hk & Hu' & ->)%listing_elem)%list_elem_of_fmap. simpl in Hx.
  by specialize (Hu 0%nat (S k) e e' eq_refl Hk He Hu' Hx).
Qed.

(** The entries after one that is listed are those of the slots after its. *)
Lemma listing_rest es k p j e rest : listing_from es k = p ++ ent_at j e :: rest ->
  rest = listing_from es (S j) /\ es !! j = Some e.
Proof.
  unfold listing_from. remember (drop k es) as ds eqn:Hds. revert k p Hds.
  induction ds as [|d ds IH]; intros k p Hds Hl; simpl in Hl; [by destruct p|].
  assert (es !! k = Some d) as Hk.
  { rewrite <-(Nat.add_0_r k), <-lookup_drop, <-Hds. done. }
  assert (ds = drop (S k) es) as Hds' by (by rewrite <-Nat.add_1_r, <-drop_drop, <-Hds).
  case_decide as Hu; [|by apply (IH (S k) p)].
  destruct p as [|x p]; [|injection Hl as _ Hl; by apply (IH (S k) p)].
  injection Hl as Hi Hn Hoff Hr. assert (k = j) as -> by (unfold slot_off, DIRENTSZ in Hoff; lia).
  rewrite <-Hds', Hr. split; [done|]. rewrite Hk. f_equal. destruct d, e. simpl in *. by subst.
Qed.

Fixpoint costs (l : list Entry3) : Z := match l with [] => 0 | x :: l => cost x + costs l end.

(** A page is a prefix; it ends where [count] is reached. *)
Lemma page_prefix l count n : exists rest, l = (page l count n).1 ++ rest /\
  ((page l count n).2 = true -> rest = [] /\ ((page l count n).1 <> [] -> n + costs (page l count n).1 < count)) /\
  ((page l count n).2 = false -> exists p x, (page l count n).1 = p ++ [x] /\
     count <= n + costs (p ++ [x]) /\ (p <> [] -> n + costs p < count)).
Proof.
  revert n. induction l as [|x l IH]; intros n; simpl; [by exists []|].
  destruct (Z.leb_spec count (n + cost x)) as [Hc|Hc]; simpl.
  { exists l. split; [done|]. split; [done|]. intros _. exists [], x. split; [done|]. split; [simpl; lia|done]. }
  destruct (IH (n + cost x)) as (rest & Hl & Ht & Hf). destruct (page l count (n + cost x)) as [p eof]. simpl in *.
  exists rest. split; [by rewrite Hl at 1|]. split.
  - intros He. destruct (Ht He) as [-> Hp]. split; [done|]. intros _. destruct p; [simpl; lia|].
    pose proof (Hp ltac:(done)). simpl in *. lia.
  - intros He. destruct (Hf He) as (p0 & y & -> & Hge & Hlt). exists (x :: p0), y. split; [done|]. simpl. split; [lia|].
    intros _. destruct p0; [simpl; lia|]. pose proof (Hlt ltac:(done)). simpl in *. lia.
Qed.

(** The entries [p] of a page, which take [total] bytes up to a list of them, fill
    it: all of them but the last stay below [count], and the page does not say
    end exactly when all of them reach it. *)
Definition fills (total : list Entry3 -> bool) (p : list Entry3) (eof : bool) : Prop :=
  (eof = false <-> p <> [] /\ total p = true) /\
  (forall p0 x, p = p0 ++ [x] -> p0 <> [] -> total p0 = false).

Definition page_full (count n : Z) (p : list Entry3) : bool := count <=? n + costs p.

Lemma costs_app l l' : costs (l ++ l') = costs l + costs l'.
Proof. induction l as [|x l IH]; simpl; lia. Qed.

Lemma costs_nonneg l : 0 <= costs l.
Proof. induction l as [|x l IH]; simpl; [lia|]. unfold cost. pose proof (len_nonneg (ent_name x)). lia. Qed.

Lemma page_fills l count n : fills (page_full count n) (page l count n).1 (page l count n).2.
Proof.
  unfold fills, page_full. destruct (page_prefix l count n) as (rest & _ & Ht & Hf).
  destruct (page l count n) as [p [|]]; simpl in *.
  - destruct (Ht eq_refl) as [_ Hp]. split.
    + split; [done|]. intros [Hne Hle%Z.leb_le]. specialize (Hp Hne). lia.
    + intros p0 x -> _. apply Z.leb_gt. specialize (Hp ltac:(by destruct p0)). rewrite costs_app in Hp.
      pose proof (costs_nonneg [x]). lia.
  - destruct (Hf eq_refl) as (p1 & y & -> & Hge & Hlt). split.
    + split; [|done]. intros _. split; [by destruct p1|]. by apply Z.leb_le.
    + intros p0 x [-> _]%app_inj_tail Hne. apply Z.leb_gt. by apply Hlt.
Qed.

(** A prefix [p] of the listing of directory [es] from slot [k] on: when it is
    not the end, it ends with an entry from whose cookie the rest is listed. *)
Definition page_of es k (p : list Entry3) (eof : bool) : Prop := exists rest, listing_from es k = p ++ rest /\
  (eof = true -> rest = []) /\
  (eof = false -> exists p0 j e, p = p0 ++ [ent_at j e] /\ es !! j = Some e /\ rest = listing_from es (S j)).

Lemma page_of_prefix es k p eof rest : listing_from es k = p ++ rest -> (eof = true -> rest = []) ->
  (eof = false -> exists p0 x, p = p0 ++ [x]) -> page_of es k p eof.
Proof.
  intros Hl Ht Hf. exists rest. split; [done|]. split; [done|]. intros He. destruct (Hf He) as (p0 & x & ->).
  rewrite <-app_assoc in Hl. simpl in Hl.
  assert (x ∈ listing_from es k) as Hx by (rewrite Hl; set_solver).
  unfold listing_from in Hx. apply listing_elem in Hx as (m & e & _ & _ & ->).
  destruct (listing_rest _ _ _ _ _ _ Hl) as [-> Hj]. by exists p0, (k + m)%nat, e.
Qed.

(** What a page says of the listing. *)
Lemma page_listing es k count n : page_of es k (page (listing_from es k) count n).1 (page (listing_from es k) count n).2.
Proof.
  destruct (page_prefix (listing_from es k) count n) as (rest & Hl & Ht & Hf).
  apply (page_of_prefix _ _ _ _ rest); [done|by intros He; apply Ht|]. intros He. destruct (Hf He) as (p & x & Hp & _). eauto.
Qed.
End pages.

Section list.
Context `{!Common} `{!CommonSpec} `{!Util} `{!UtilSpec} `{!Marshal} `{!MarshalSpec} `{!Std}
  `{!Buf} `{!BufSpec} `{!Journal} `{!JournalSpec} `{!AllocPkg} `{!AllocSpec}
  `{!LockPkg} `{!LockSpec} `{!Clock} `{!DiskPkg}.
Variable L : gset Z.
Variable E : Z -> list dirEnt.
Implicit Types (F : Z -> Inode) (f : FSt) (s : NSt) (i dip : Z) (ip : Inode) (es : list dirEnt) (j k : nat).

(** ** Reading a directory in a transaction *)

Lemma same_dir_looked F a0 f i dip es ip f' ip' : txn L E F a0 f -> f_inodes f !! i = Some dip ->
  f_heap f !! dip = Some ip -> ip = with_Dcache (i_Dcache ip) (F i) -> same_dir dip es f ip f' ip' ->
  txn L E F a0 f' /\ looked dip f f' /\ f_heap f' = f_heap f.
Proof.
  intros Ht Ho Hp Hip Hsd. pose proof (tx_fs _ _ _ _ _ Ht) as Hs. destruct (fi_own _ _ _ Hs i dip Ho) as [Hi _].
  assert (synced ip (f_a f)) as Hsy.
  { rewrite Hip. exact (disk_inode_synced _ _ _ (vo_inode _ _ (tx_vol _ _ _ _ _ Ht) i Hi)). }
  pose proof (sd_still _ _ _ _ _ _ Hsd Hsy) as Hst. pose proof (sd_step _ _ _ _ _ _ Hsd) as Hstep.
  pose proof (ds_touched _ _ _ _ _ Hstep) as Hto. pose proof (to_grow _ _ _ _ Hto) as Hg.
  assert (f' = fset_a (f_a f') f) as Hf'.
  { rewrite (ds_rest _ _ _ _ _ Hstep) at 1. rewrite (st_ip _ _ _ _ Hst), insert_id by done. by destruct f. }
  assert (f_heap f' = f_heap f) as Hh by (by rewrite Hf').
  assert (looked dip f f') as Hl.
  { apply (looked_self dip ip (i_Dcache ip)); [done| |done|by eapply still_sim|apply Hst].
    rewrite with_Dcache_id, insert_id by done. rewrite Hf' at 1. by destruct f. }
  assert (fs_inv L a0 f') as Hs' by (eapply set_step_fs; [exact Hs|exact Ho|exact Hp|by apply dir_step_set]).
  split; [|done]. apply (txn_looked L E F a0 f f' dip); [done|by rewrite Hp|done|done|].
  rewrite Hf'. exact (tx_names _ _ _ _ _ Ht).
Qed.

(** ** The loop *)

Lemma wp_ents_loop fuel dip es ip0 f0 ip f j (count n : Z) l (Q : bool * list Entry3 -> FSt -> Prop) :
  dir_at dip es ip0 f0 -> same_dir dip es f0 ip0 f ip -> (length es - j < fuel)%nat ->
  0 <= n -> n + 144 * Z.of_nat (length es - j) < 2 ^ 64 ->
  (forall ip' f', same_dir dip es f0 ip0 f' ip' ->
     Q ((page (listing_from es j) count n).2, l ++ (page (listing_from es j) count n).1) f') ->
  wp (ents_loop fuel dip (slot_off j) count n (fun name inum off l => mret (l ++ [mkEntry3 inum name off None])) l) f Q.
Proof.
  intros Hd0. revert ip f j n l. induction fuel as [|fuel IH]; intros ip f j n l Hsd Hf Hn Hmax HQ; [lia|].
  pose proof (sd_at _ _ _ _ _ _ Hsd) as Hd. cbn [ents_loop].
  apply wp_bind, (wp_ip_field dip ip); [apply Hd|].
  rewrite (slots_size_cases es ip (f_a f)) by apply Hd. unfold listing_from in HQ. case_bool_decide as Hj.
  2: { apply wp_ret. rewrite drop_ge in HQ by lia. specialize (HQ ip f Hsd). simpl in HQ. by rewrite app_nil_r in HQ. }
  destruct (lookup_lt_is_Some_2 es j Hj) as [e He]. rewrite (drop_S es e j He) in HQ. cbn [listing] in HQ.
  eapply wp_slot; [done|exact He|].
  intros ip' f' Hsd'. assert (same_dir dip es f0 ip0 f' ip') as Hsd2 by (by eapply same_dir_trans).
  case_bool_decide as Hfree.
  - rewrite decide_False in HQ by (unfold in_use; tauto).
    rewrite (slot_next es ip (f_a f)) by (try done; apply Hd). apply (IH ip'); [done|lia|lia|lia|exact HQ].
  - rewrite decide_True in HQ by done. apply wp_bind, wp_ret. cbn [page] in HQ.
    pose proof (sl_wf _ _ _ (da_slots _ _ _ _ Hd)) as Hall. eapply Forall_lookup in Hall as [_ Hlen]; [|exact He].
    pose proof (len_nonneg (de_name e)) as Hl0. unfold MAXNAMELEN, DIRENTSZ in Hlen.
    replace (n +w w64 (16 + len (de_name e) + 8 + 8)) with (n + cost (ent_at j e)).
    2: { unfold cost. simpl. wsimp. lia. }
    destruct (count <=? n + cost (ent_at j e)).
    + apply wp_ret. apply (HQ ip'). done.
    + rewrite (slot_next es ip (f_a f)) by (try done; apply Hd).
      apply (IH ip'); [done|lia|unfold cost; simpl; lia|unfold cost; simpl; lia|].
      intros ip2 f2 Hs2. specialize (HQ ip2 f2 Hs2). fold (listing_from es (S j)) in HQ. change (mkEntry3 _ _ _ _) with (ent_at j e).
      destruct (page (listing_from es (S j)) count (n + cost (ent_at j e))) as [p eof]. simpl in *. by rewrite <-app_assoc.
Qed.

(** A client that gives [cookie] is listed the slots from [k] on: all of them
    for the cookie 0, and those after the entry whose cookie it is otherwise. *)
Definition resumes (cookie : Z) k : Prop := (cookie = 0 /\ k = 0%nat) \/
  exists j, (0 < j)%nat /\ cookie = slot_off j /\ k = S j /\ slot_off (S j) < 2 ^ 64.

Lemma resumes_begin cookie k : resumes cookie k ->
  (if bool_decide (cookie <> 0) then cookie +w DIRENTSZ else cookie) = slot_off k.
Proof.
  intros [[-> ->]|(j & Hj & -> & -> & Hmax)]; [done|].
  unfold slot_off, DIRENTSZ in *. rewrite bool_decide_eq_true_2 by lia. wsimp. lia.
Qed.

Lemma wp_Readdir3 dip es ip f cookie (count : Z) k (Q : Dirlist3 -> FSt -> Prop) : dir_at dip es ip f ->
  resumes cookie k ->
  (forall ip' f', same_dir dip es f ip f' ip' ->
     Q (mkDirlist3 (link_ents (page (listing_from es k) count 64).1) (page (listing_from es k) count 64).2) f') ->
  wp (Readdir3 dip cookie count) f Q.
Proof.
  intros Hd Hk HQ. unfold Readdir3, ApplyEnts. rewrite (resumes_begin _ _ Hk).
  pose proof (da_slots _ _ _ _ Hd) as Hsl. pose proof (sl_max _ _ _ Hsl) as Hm. rewrite (sl_size _ _ _ Hsl), MaxFileSize_eq in Hm.
  apply wp_bind, wp_bind, (wp_ip_field dip ip); [apply Hd|].
  apply (wp_ents_loop _ dip es ip f ip f k); [done|by apply same_dir_refl| |lia|unfold slot_off, DIRENTSZ in *; lia|].
  - destruct (decide (k <= length es)%nat); [by eapply ents_fuel_enough|].
    replace (length es - k)%nat with 0%nat by lia. unfold ents_fuel. lia.
  - intros ip' f' Hsd. by apply wp_ret, (HQ ip').
Qed.

(** ** READDIR *)

(** The reply of READDIR for the slots from [k] on of directory [i]. *)
Record readdir_reply F s i k (count : Z) (rep : READDIR3res) s' : Prop := {
  rr_status : READDIR3res_Status rep = NFS3_OK \/ READDIR3res_Status rep = NFS3ERR_SERVERFAULT;
  rr_list : let '(p, eof) := page (listing_from (E i) k) count 64 in
    READDIR3res_Resok rep = mkREADDIR3resok zero zero (mkDirlist3 (link_ents p) eof);
  rr_server : READDIR3res_Status rep = NFS3_OK -> server L E F s' /\ sim (disk_of s) (disk_of s');
}.

Lemma wp_READDIR F s args fh k (Q : READDIR3res -> NSt -> Prop) : let i := Ino fh in
  server L E F s -> MakeFh (READDIR3args_Dir args) = Ok fh -> ino_ok (disk_of s) i -> i ∉ L ->
  resumes (READDIR3args_Cookie args) k ->
  (forall st s', (~ live F fh /\ st = NFS3ERR_STALE) \/ (live F fh /\ i_Kind (F i) <> NF3DIR /\ st = NFS3ERR_INVAL) ->
     server L E F s' -> sim (disk_of s) (disk_of s') -> Q (mkREADDIR3res st zero zero) s') ->
  (forall rep s', live F fh -> i_Kind (F i) = NF3DIR -> readdir_reply F s i k (READDIR3args_Count args) rep s' -> Q rep s') ->
  wp (NFSPROC3_READDIR args) s Q.
Proof.
  intros i Hsv Hfh Hi HL Hk Hfail HQ. unfold NFSPROC3_READDIR. apply wp_bind_assoc, wp_bind.
  apply (wp_begin_lookup L E F s _ fh); [done..| |].
  2: { intros f' Hdead Ht. apply wp_bind, (wp_errRet L E F (f_a (n_fs s))); [done|]. intros s' _ Hsv' Hsim.
       apply wp_ret, Hfail; [by left|done|done]. }
  intros p f' Hlive Ht Ho Hi'. fold i in Ho, Hi'. destruct (op_heap _ _ _ _ _ Ho) as [dc Hp].
  apply wp_bind, wp_on_fs, (wp_ip_field p _ _ _ _ Hp). simpl. case_bool_decide as Hkd.
  { apply wp_bind, (wp_errRet L E F (f_a (n_fs s))); [done|]. intros s' _ Hsv' Hsim.
    apply wp_ret, Hfail; [by right|done|done]. }
  assert (dir_at p (E i) (with_Dcache dc (F i)) f') as Hd.
  { split; [exact Hp|]. apply slots_Dcache, (dr_slots _ _ _ (tx_dirs _ _ _ _ _ Ht)); done. }
  apply wp_bind, wp_on_fs, (wp_Readdir3 p (E i) _ f' _ _ k _ Hd Hk). intros ip2 f2 Hsd.
  assert (f_inodes f' !! i = Some p) as Hin by (rewrite (op_inodes _ _ _ _ _ Ho); apply lookup_insert_eq).
  destruct (same_dir_looked F _ f' i p (E i) _ f2 ip2 Ht Hin Hp eq_refl Hsd) as (Ht2 & Hl2 & _).
  apply wp_bind, (wp_commitReply L E (f_a (n_fs s))); [apply Ht2|].
  intros st s' Hst _ Hok _. apply wp_ret, HQ; [done|done|]. split; [done|by destruct (page _ _ _)|].
  intros Hst'. destruct (Hok F (txn_changed _ _ _ _ _ Ht2) Hst') as [Hsv' Hsim]. split; [done|].
  eapply sim_trans; [exact (op_sim _ _ _ _ _ Ho)|]. eapply sim_trans; [apply Hl2|exact Hsim].
Qed.
End list.
