(* ===== verification/NfsListPlus.v ===== *)
(** Directory listings with attributes: the pages of READDIRPLUS. *)
From stdpp Require Import functions.
From S2P Require Import Prelude Nfstypes External Reference Super Fh Cache Dcache Alloctxn AtxnCommit Inode.
From S2P Require Import InodeCodec InodeMap InodeIO Volume Fstxn FstxnInv Dir DirSpec DirVol Lorder Shrinker.
From S2P Require Import NfsLs NfsOps NfsFiles NfsDirs NfsNames NfsList.
Import Nfs.

(** ** Pages *)

Section pages.
Context `{!Common} `{!CommonSpec} `{!Util} `{!UtilSpec} `{!Marshal} `{!MarshalSpec} `{!Std}
  `{!Buf} `{!BufSpec} `{!Journal} `{!JournalSpec} `{!AllocPkg} `{!AllocSpec}
  `{!LockPkg} `{!LockSpec} `{!Clock} `{!DiskPkg}.
Implicit Types (F : Z -> Inode) (es : list dirEnt) (j k : nat).

(** The handle of inode [n]. *)
Definition handle_of F (n : Z) : Nfs_fh3 := match MakeFh3 (mkFh n (i_Gen (F n))) with Ok h => h | _ => zero end.

Lemma handle_of_ok F n : MakeFh3 (mkFh n (i_Gen (F n))) = Ok (handle_of F n).
Proof. unfold handle_of. by rewrite MakeFh3_eq. Qed.

(** An entry with the attributes and the handle of its file. *)
Definition plus F (x : Entry3) : Entryplus3 :=
  let 'mkEntry3 n name cookie _ := x in
  mkEntryplus3 n name cookie (mkPost_op_attr true (MkFattr (F n))) (mkPost_op_fh3 true (handle_of F n)) None.

(** The entries of [l] that fill a page: of [dircount] bytes of names, of
    which [b] are taken, or of [maxcount] bytes in all, of which [n] are; and
    whether these are all entries. *)
Fixpoint page_plus (l : list Entry3) (dircount maxcount n b : Z) : list Entry3 * bool :=
  match l with
  | [] => ([], true)
  | x :: l =>
      let b := b + (8 + len (ent_name x)) in
      let n := n + (132 + len (ent_name x)) in
      if (dircount <=? b) || (maxcount <=? n) then ([x], false)
      else let '(p, eof) := page_plus l dircount maxcount n b in (x :: p, eof)
  end.

(** The two estimates of what a list of entries takes. *)
Fixpoint dir_costs (l : list Entry3) : Z :=
  match l with [] => 0 | x :: l => 8 + len (ent_name x) + dir_costs l end.

Fixpoint all_costs (l : list Entry3) : Z :=
  match l with [] => 0 | x :: l => 132 + len (ent_name x) + all_costs l end.

Definition plus_full (dircount maxcount n b : Z) (p : list Entry3) : bool :=
  (dircount <=? b + dir_costs p) || (maxcount <=? n + all_costs p).

Lemma plus_full_cons dircount maxcount n b x p : plus_full dircount maxcount n b (x :: p) =
  plus_full dircount maxcount (n + (132 + len (ent_name x))) (b + (8 + len (ent_name x))) p.
Proof. unfold plus_full. simpl. f_equal; f_equal; lia. Qed.

Lemma page_plus_fills l dircount maxcount n b :
  fills (plus_full dircount maxcount n b) (page_plus l dircount maxcount n b).1 (page_plus l dircount maxcount n b).2.
Proof.
  unfold fills. revert n b. induction l as [|x l IH]; intros n b; simpl.
  { split; [by split; [|intros []]|]. by intros [] ? ?. }
  pose proof (plus_full_cons dircount maxcount n b x) as Hc.
  destruct (_ || _) eqn:Hfull; simpl.
  - split; [|by intros [|y []] ? ?]. split; [|done]. intros _. split; [done|]. rewrite Hc. unfold plus_full. simpl.
    rewrite !Z.add_0_r. exact Hfull.
  - destruct (IH (n + (132 + len (ent_name x))) (b + (8 + len (ent_name x)))) as [Hiff Hpre].
    destruct (page_plus l dircount maxcount _ _) as [p eof]. simpl in *. split.
    + rewrite Hiff, <-Hc. split; [intros [Hne Hp]; split; [done|exact Hp]|]. intros [_ Hp]. split; [|exact Hp].
      intros ->. rewrite Hc in Hp. unfold plus_full in Hp. simpl in Hp. rewrite !Z.add_0_r in Hp. congruence.
    + intros [|y p0] z [= -> Hp]; [done|]. intros _. rewrite plus_full_cons. destruct (decide (p0 = [])) as [->|Hne]; [|by eapply Hpre].
      unfold plus_full. simpl. rewrite !Z.add_0_r. exact Hfull.
Qed.

Lemma page_plus_prefix l dircount maxcount n b : exists rest, l = (page_plus l dircount maxcount n b).1 ++ rest /\
  ((page_plus l dircount maxcount n b).2 = true -> rest = []) /\
  ((page_plus l dircount maxcount n b).2 = false -> exists p x, (page_plus l dircount maxcount n b).1 = p ++ [x]).
Proof.
  revert n b. induction l as [|x l IH]; intros n b; simpl; [by exists []|].
  destruct (_ || _); simpl.
  { exists l. split; [done|]. split; [done|]. intros _. by exists [], x. }
  destruct (IH (n + (132 + len (ent_name x))) (b + (8 + len (ent_name x)))) as (rest & Hl & Ht & Hf).
  destruct (page_plus l dircount maxcount _ _) as [p eof]. simpl in *.
  exists rest. split; [by rewrite Hl at 1|]. split; [done|].
  intros He. destruct (Hf He) as (p0 & y & ->). by exists (x :: p0), y.
Qed.

Lemma page_plus_listing es k dircount maxcount n b : let p := page_plus (listing_from es k) dircount maxcount n b in
  page_of es k p.1 p.2.
Proof.
  intros p. destruct (page_plus_prefix (listing_from es k) dircount maxcount n b) as (rest & Hl & Ht & Hf).
  by apply (page_of_prefix _ _ _ _ rest).
Qed.
End pages.

Section plus.
Context `{!Common} `{!CommonSpec} `{!Util} `{!UtilSpec} `{!Marshal} `{!MarshalSpec} `{!Std}
  `{!Buf} `{!BufSpec} `{!Journal} `{!JournalSpec} `{!AllocPkg} `{!AllocSpec}
  `{!LockPkg} `{!LockSpec} `{!Clock} `{!DiskPkg}.
Variable L : gset Z.
Variable E : Z -> list dirEnt.
Implicit Types (F : Z -> Inode) (f : FSt) (s : NSt) (a : ASt) (i n p dip : Z) (ip : Inode) (es : list dirEnt) (j k : nat).

(** ** Locking an inode for a while *)

(** An inode that was locked and is released leaves the transaction as it
    was. *)
Lemma opened_back F a0 f n p f1 lm : txn L E F a0 f -> n ∉ L ∪ dom (f_inodes f) -> opened F f n p f1 ->
  back f (fset_lockmap lm (fset_inodes (delete n (f_inodes f1)) f1)).
Proof.
  intros Ht Hn [Hin _ Hs Hb Hg Hk Hr _]. split; simpl; [done..| |done|done].
  rewrite Hin. apply delete_insert_id, not_elem_of_dom. set_solver.
Qed.

Lemma back_looked dip f f' : back f f' -> looked dip f f'.
Proof.
  intros [Hs Hg Hb Hi Hk Hr]. split; [done..| | |done].
  - intros q _ Hq. by apply Hk.
  - intros ip Hp. exists (i_Dcache ip). rewrite with_Dcache_id, Hk; [done|by rewrite Hp].
Qed.

Lemma wp_release_locked F a0 f n p f1 (Q : unit -> FSt -> Prop) : txn L E F a0 f -> n ∉ L ∪ dom (f_inodes f) ->
  txn L E F a0 f1 -> opened F f n p f1 ->
  (forall f2, txn L E F a0 f2 -> back f f2 -> Q tt f2) -> wp (ReleaseInode p) f1 Q.
Proof.
  intros Ht Hn Ht1 Ho HQ. destruct (opened_holds F f n p f1 Ho) as [Hin [dc Hp]].
  pose proof (ch_synced _ _ _ _ _ (txn_changed _ _ _ _ _ Ht1) n p _ Hin Hp) as Hd.
  pose proof (tx_clean _ _ _ _ _ Ht1 n p _ Hin Hp) as Hd0.
  apply (wp_release_clean L a0 f1 n p (with_Dcache dc (F n))); [apply Ht1|done|exact Hp|done| |].
  - by rewrite (di_bytes _ _ _ Hd), (di_bytes _ _ _ Hd0).
  - intros lm f2 Hf2. pose proof (opened_back F a0 f n p f1 lm Ht Hn Ho) as Hb.
    apply HQ; [|exact Hb]. by apply (txn_back L E F a0 f).
Qed.

(** ** The entries *)

(** The closure of READDIRPLUS, on the inode [n] at [p]. *)
Lemma wp_plus_entry F f n p dc name cookie l (Q : list Entryplus3 -> FSt -> Prop) : f_heap f !! p = Some (with_Dcache dc (F n)) ->
  i_Inum (F n) = n -> Q (l ++ [plus F (mkEntry3 n name cookie None)]) f ->
  wp (p ← deref (Some p);
      i ← ip_field p id;
      let fattr := MkFattr i in
      h ← lift (MakeFh3 (mkFh (i_Inum i) (i_Gen i)));
      let ph := mkPost_op_fh3 true h in
      let pa := mkPost_op_attr true fattr in
      mret (l ++ [mkEntryplus3 n name cookie pa ph None])) f Q.
Proof.
  intros Hp Hi HQ. apply wp_bind, wp_ret. apply wp_bind, (wp_ip_field p _ _ _ _ Hp). simpl. rewrite Hi.
  apply wp_bind. eapply wp_lift; [apply handle_of_ok|]. by apply wp_ret.
Qed.

Lemma wp_plus_child {A} F a0 f i dip dc e cookie l (kont : list Entryplus3 -> M FSt A) (Q : A -> FSt -> Prop) :
  txn L E F a0 f -> f_inodes f = {[i := dip]} -> f_heap f !! dip = Some (with_Dcache dc (F i)) ->
  ino_ok (f_a f) (de_inum e) -> i_Kind (F (de_inum e)) <> NF3FREE -> de_inum e ∉ L ->
  (forall f', txn L E F a0 f' -> looked dip f f' ->
     wp (kont (l ++ [plus F (mkEntry3 (de_inum e) (de_name e) cookie None)])) f' Q) ->
  wp (own ← OwnInum (de_inum e);
      o ← (if (own : bool) then p ← GetInodeUnlocked (de_inum e); mret (Some p) else GetInodeInum (de_inum e));
      x ← (p ← deref o;
           i ← ip_field p id;
           let fattr := MkFattr i in
           h ← lift (MakeFh3 (mkFh (i_Inum i) (i_Gen i)));
           let ph := mkPost_op_fh3 true h in
           let pa := mkPost_op_attr true fattr in
           mret (l ++ [mkEntryplus3 (de_inum e) (de_name e) cookie pa ph None]));
      _ ← (if negb own then p ← deref o; ReleaseInode p else mret tt);
      kont x) f Q.
Proof.
  intros Ht Hin Hp Hok Hk HL HQ. set (n := de_inum e) in *.
  pose proof (di_Inum _ _ _ (vo_inode _ _ (tx_vol _ _ _ _ _ Ht) n Hok)) as Hnum.
  apply wp_bind, wp_gets. case_bool_decide as Hown.
  - rewrite Hin in Hown. apply lookup_singleton_is_Some in Hown as Hni.
    apply wp_bind, wp_bind. unfold GetInodeUnlocked, lookupInode. apply wp_bind, wp_gets.
    rewrite Hin, <-Hni, lookup_singleton_eq. apply wp_ret, wp_ret. rewrite Hni in *.
    apply wp_bind, (wp_plus_entry F f n dip dc); [done|done|]. apply wp_bind, wp_ret.
    apply HQ; [done|]. eapply looked_refl, Ht.
  - assert (n ∉ L ∪ dom (f_inodes f)) as Hn.
    { intros [?|Hd]%elem_of_union; [done|]. by apply elem_of_dom in Hd. }
    apply wp_bind, (wp_lock L E F a0 f n); [done|done|done|done|]. intros p f1 Ht1 Ho.
    destruct (op_heap _ _ _ _ _ Ho) as [dcp Hpp].
    apply wp_bind, (wp_plus_entry F f1 n p dcp); [done|done|]. simpl. apply wp_bind, wp_bind, wp_ret.
    apply (wp_release_locked F a0 f n p f1); [done..|]. intros f2 Ht2 Hb. apply HQ; [done|by apply back_looked].
Qed.

(** ** The loop *)

Lemma wp_plus_loop fuel F a0 i dip f j (dircount maxcount n b : Z) l (Q : bool * list Entryplus3 -> FSt -> Prop) :
  txn L E F a0 f -> f_inodes f = {[i := dip]} -> holds F f i dip -> i_Kind (F i) = NF3DIR ->
  (forall e, e ∈ E i -> in_use e -> de_inum e ∉ L) -> (length (E i) - j < fuel)%nat ->
  0 <= n -> n + 244 * Z.of_nat (length (E i) - j) < 2 ^ 64 -> 0 <= b -> b + 244 * Z.of_nat (length (E i) - j) < 2 ^ 64 ->
  (forall f', txn L E F a0 f' -> looked dip f f' ->
     let p := page_plus (listing_from (E i) j) dircount maxcount n b in Q (p.2, l ++ (plus F <$> p.1)) f') ->
  wp (apply_loop fuel dip (slot_off j) dircount maxcount n b
        (fun o name inum off l =>
           p ← deref o;
           i ← ip_field p id;
           let fattr := MkFattr i in
           h ← lift (MakeFh3 (mkFh (i_Inum i) (i_Gen i)));
           let ph := mkPost_op_fh3 true h in
           let pa := mkPost_op_attr true fattr in
           mret (l ++ [mkEntryplus3 inum name off pa ph None])) l) f Q.
Proof.
  intros Ht Hin Hd Hkd HL. revert f j n b l Ht Hin Hd. induction fuel as [|fuel IH];
    intros f j n b l Ht Hin [Ho [dc Hp]] Hf Hn Hnmax Hb Hbmax HQ; [lia|].
  destruct (fi_own _ _ _ (tx_fs _ _ _ _ _ Ht) i dip Ho) as [Hi _].
  assert (dir_at dip (E i) (with_Dcache dc (F i)) f) as Hd.
  { split; [exact Hp|]. by apply slots_Dcache, (dr_slots _ _ _ (tx_dirs _ _ _ _ _ Ht)). }
  cbn [apply_loop]. apply wp_bind, (wp_ip_field dip _ _ _ _ Hp).
  rewrite (slots_size_cases (E i) _ (f_a f)) by apply Hd. unfold listing_from in HQ. case_bool_decide as Hj.
  2: { apply wp_ret. rewrite drop_ge in HQ by lia. specialize (HQ f Ht ltac:(eapply looked_refl, Ht)). simpl in HQ.
       by rewrite app_nil_r in HQ. }
  destruct (lookup_lt_is_Some_2 (E i) j Hj) as [e He]. rewrite (drop_S (E i) e j He) in HQ. cbn [listing] in HQ.
  eapply wp_slot; [done|exact He|]. intros ip1 f1 Hsd.
  destruct (same_dir_looked L E F a0 f i dip (E i) _ f1 ip1 Ht Ho Hp eq_refl Hsd) as (Ht1 & Hl1 & Hh1).
  assert (f_inodes f1 = {[i := dip]}) as Hin1 by (by rewrite (lk_inodes _ _ _ Hl1)).
  assert (holds F f1 i dip) as Hd1 by (eapply looked_holds; [exact Hl1|split; [done|by exists dc]]).
  assert (is_Some (f_heap f !! dip)) as Hsp by (by rewrite Hp).
  case_bool_decide as Hfree.
  - rewrite decide_False in HQ by (unfold in_use; tauto).
    rewrite (slot_next (E i) _ (f_a f) j) by (done || apply Hd).
    apply IH; [done|done|done|lia|lia|lia|lia|lia|]. intros f' Ht' Hl'. apply HQ; [done|by eapply looked_trans].
  - rewrite decide_True in HQ by done. cbn [page_plus] in HQ.
    assert (e ∈ E i) as Hel by (by eapply list_elem_of_lookup_2).
    destruct (dr_live _ _ _ (tx_dirs _ _ _ _ _ Ht1) i e) as [Hok Hke]; [|done|done|].
    { eapply ino_ok_super; [|exact Hi]. symmetry. apply (lk_sim _ _ _ Hl1). }
    destruct Hd1 as [_ [dc1 Hp1]].
    apply (wp_plus_child F a0 f1 i dip dc1 e (slot_off j) l); [done|done|done|done|done|by apply HL|].
    intros f2 Ht2 Hl2. change (mkEntry3 _ _ _ _) with (ent_at j e).
    assert (looked dip f f2) as Hl by (by eapply looked_trans).
    pose proof (sl_wf _ _ _ (da_slots _ _ _ _ Hd)) as Hall. eapply Forall_lookup in Hall as [_ Hlen]; [|exact He].
    pose proof (len_nonneg (de_name e)) as Hl0. change MAXNAMELEN with 112 in Hlen.
    change entryplus3Baggage with 132. change (ent_name (ent_at j e)) with (de_name e) in HQ. wsimp.
    destruct (_ || _).
    + apply wp_ret. apply (HQ f2); done.
    + rewrite (slot_next (E i) _ (f_a f) j) by (done || apply Hd).
      assert (f_inodes f2 = {[i := dip]}) as Hin2 by (by rewrite (lk_inodes _ _ _ Hl)).
      apply IH; [done|done| |lia|lia|lia|lia|lia|].
      { eapply looked_holds; [exact Hl|split; [done|by exists dc]]. }
      intros f' Ht' Hl'. specialize (HQ f' Ht' ltac:(by eapply looked_trans)). fold (listing_from (E i) (S j)) in HQ.
      destruct (page_plus (listing_from (E i) (S j)) dircount maxcount _ _) as [pg eof]. simpl in *. by rewrite <-app_assoc.
Qed.

Lemma wp_Ls3 F a0 i dip f cookie (dircount maxcount : Z) k (Q : Dirlistplus3 -> FSt -> Prop) :
  txn L E F a0 f -> f_inodes f = {[i := dip]} -> holds F f i dip -> i_Kind (F i) = NF3DIR ->
  (forall e, e ∈ E i -> in_use e -> de_inum e ∉ L) -> resumes cookie k ->
  (forall f', txn L E F a0 f' -> looked dip f f' ->
     let p := page_plus (listing_from (E i) k) dircount maxcount 64 0 in
     Q (mkDirlistplus3 (link_plus (plus F <$> p.1)) p.2) f') ->
  wp (Ls3 dip cookie dircount maxcount) f Q.
Proof.
  intros Ht Hin Hd Hkd HL Hk HQ. unfold Ls3, Apply. rewrite (resumes_begin _ _ Hk). pose proof Hd as [Ho [dc Hp]].
  destruct (fi_own _ _ _ (tx_fs _ _ _ _ _ Ht) i dip Ho) as [Hi _].
  pose proof (dr_slots _ _ _ (tx_dirs _ _ _ _ _ Ht) i Hi Hkd) as Hsl. pose proof (sl_max _ _ _ Hsl) as Hm.
  rewrite (sl_size _ _ _ Hsl), MaxFileSize_eq in Hm.
  apply wp_bind, wp_bind, (wp_ip_field dip _ _ _ _ Hp). cbn [i_Size with_Dcache].
  apply (wp_plus_loop _ F a0 i dip f k); [done|done|done|done|done| |lia|unfold slot_off, DIRENTSZ in *; lia|lia|unfold slot_off, DIRENTSZ in *; lia|].
  - destruct (decide (k <= length (E i))%nat); [by eapply ents_fuel_enough|].
    replace (length (E i) - k)%nat with 0%nat by lia. unfold ents_fuel. lia.
  - intros f' Ht' Hl pg. by apply wp_ret, (HQ f').
Qed.

(** ** READDIRPLUS *)

(** The reply of READDIRPLUS for the slots from [k] on of directory [i]. *)
Record readdirplus_reply F s i k (args : READDIRPLUS3args) (rep : READDIRPLUS3res) s' : Prop := {
  rp_status : READDIRPLUS3res_Status rep = NFS3_OK \/ READDIRPLUS3res_Status rep = NFS3ERR_SERVERFAULT;
  rp_list : let p := page_plus (listing_from (E i) k) (READDIRPLUS3args_Dircount args) (READDIRPLUS3args_Maxcount args) 64 0 in
    READDIRPLUS3res_Resok rep = mkREADDIRPLUS3resok zero zero (mkDirlistplus3 (link_plus (plus F <$> p.1)) p.2);
  rp_server : READDIRPLUS3res_Status rep = NFS3_OK -> server L E F s' /\ sim (disk_of s) (disk_of s');
}.

Lemma wp_READDIRPLUS F s args fh k (Q : READDIRPLUS3res -> NSt -> Prop) : let i := Ino fh in
  server L E F s -> MakeFh (READDIRPLUS3args_Dir args) = Ok fh -> ino_ok (disk_of s) i -> i ∉ L ->
  (forall e, e ∈ E i -> in_use e -> de_inum e ∉ L) -> resumes (READDIRPLUS3args_Cookie args) k ->
  (forall st s', (~ live F fh /\ st = NFS3ERR_STALE) \/ (live F fh /\ i_Kind (F i) <> NF3DIR /\ st = NFS3ERR_INVAL) ->
     server L E F s' -> sim (disk_of s) (disk_of s') -> Q (mkREADDIRPLUS3res st zero zero) s') ->
  (forall rep s', live F fh -> i_Kind (F i) = NF3DIR -> readdirplus_reply F s i k args rep s' -> Q rep s') ->
  wp (NFSPROC3_READDIRPLUS args) s Q.
Proof.
  intros i Hsv Hfh Hi HL Hlk Hk Hfail HQ. unfold NFSPROC3_READDIRPLUS. apply wp_bind_assoc, wp_bind.
  apply (wp_begin_lookup L E F s _ fh); [done..| |].
  2: { intros f' Hdead Ht. apply wp_bind, (wp_errRet L E F (f_a (n_fs s))); [done|]. intros s' _ Hsv' Hsim.
       apply wp_ret, Hfail; [by left|done|done]. }
  intros p f' Hlive Ht Ho Hi'. fold i in Ho, Hi'. destruct (op_heap _ _ _ _ _ Ho) as [dc Hp].
  apply wp_bind, wp_on_fs, (wp_ip_field p _ _ _ _ Hp). simpl. case_bool_decide as Hkd.
  { apply wp_bind, (wp_errRet L E F (f_a (n_fs s))); [done|]. intros s' _ Hsv' Hsim.
    apply wp_ret, Hfail; [by right|done|done]. }
  assert (f_inodes f' = {[i := p]}) as Hin by (rewrite (op_inodes _ _ _ _ _ Ho); done).
  apply wp_bind, wp_on_fs, (wp_Ls3 F (f_a (n_fs s)) i p f' _ _ _ k);
    [done|done|by eapply opened_holds|by destruct (decide (i_Kind (F i) = NF3DIR))|done|done|].
  intros f2 Ht2 Hl2 pg. apply wp_bind, (wp_commitReply L E (f_a (n_fs s))); [apply Ht2|].
  intros st s' Hst _ Hok _. apply wp_ret, HQ; [done|by destruct (decide (i_Kind (F i) = NF3DIR))|]. split; [done|done|].
  intros Hst'. destruct (Hok F (txn_changed _ _ _ _ _ Ht2) Hst') as [Hsv' Hsim]. split; [done|].
  eapply sim_trans; [exact (op_sim _ _ _ _ _ Ho)|]. eapply sim_trans; [apply Hl2|exact Hsim].
Qed.
End plus.
