(* ===== verification/NfsCreate.v ===== *)
(** Creating a file: the allocation of its inode, its name in the directory, and
    the procedure CREATE. *)
From stdpp Require Import functions.
From S2P Require Import Prelude Nfstypes External Reference Super Fh Cache Dcache Alloctxn AtxnCommit Inode.
From S2P Require Import InodeCodec InodeMap InodeIO InodeBound Volume InodeShrink InodeResize Fstxn FstxnInv Dir DirSpec DirVol Lorder Shrinker.
From S2P Require Import NfsOps NfsFiles NfsDirs NfsNames.
Import Nfs.

Section create.
Context `{!Common} `{!CommonSpec} `{!Util} `{!UtilSpec} `{!Marshal} `{!MarshalSpec} `{!Std}
  `{!Buf} `{!BufSpec} `{!Journal} `{!JournalSpec} `{!AllocPkg} `{!AllocSpec}
  `{!LockPkg} `{!LockSpec} `{!Clock} `{!DiskPkg}.
Variable L : gset Z.
Variable E : Z -> list dirEnt.
Variable retry : nat.
Implicit Types (F : Z -> Inode) (f : FSt) (s : NSt) (a : ASt) (i n p dip : Z) (ip : Inode).

(** ** Storing an inode with other attributes *)

Lemma fptr_blks ip ip' a x : i_blks ip' = i_blks ip -> fptr ip' a x = fptr ip a x.
Proof. intros Hb. unfold fptr, root_of. by rewrite Hb. Qed.

Lemma file_wf_blks ip ip' a : i_blks ip' = i_blks ip -> file_wf ip a -> file_wf ip' a.
Proof.
  intros Hb [Hl Hu Hj]. split; [congruence|..].
  - intros x Hx. rewrite (fptr_blks ip) by done. by apply Hu.
  - intros x y Hx Hy. rewrite (fptr_blks ip ip' a x), (fptr_blks ip ip' a y) by done. by apply Hj.
Qed.

(** The clock moved. *)
Lemma grow_tick k a : txn_inv a -> zero_inv a -> grow a (set_tick k a).
Proof.
  intros Hinv Hz. split; [by destruct Hinv|by destruct Hz|done..|].
  intros a0 [[] ? ? ? ?]. by split.
Qed.

Section store.
Context (f : FSt) (p : Z) (ip ip' : Inode) (k : nat) (a' : ASt).
Hypothesis Hok : file_ok ip (f_a f).
Hypothesis Hblks : i_blks ip' = i_blks ip.
Hypothesis Hinum : i_Inum ip' = i_Inum ip.
Hypothesis Hwf : inode_wf ip'.
Hypothesis Hwi : wi_post ip' (set_tick k (f_a f)) a'.

Lemma store_set : set_step p f ip (fset_a a' (fset_heap (<[p := ip']> (f_heap f)) f)) ip'.
Proof.
  pose proof (fo_inv _ _ Hok) as Hinv. pose proof (fo_zero _ _ Hok) as Hz.
  assert (grow (f_a f) a') as Hg by (eapply grow_trans; [by apply (grow_tick k)|apply Hwi]).
  assert (forall b, valid_blk (a_super (f_a f)) b -> blk a' b = blk (f_a f) b) as Hb by apply (wi_blk _ _ _ Hwi).
  assert (own ip (f_a f) ip a') as Ho.
  { apply own_valid; [apply Hok|done|]. intros i Hi. rewrite <-Hinum. by apply (wi_other _ _ _ Hwi). }
  assert (file_wf ip a') as Hw.
  { destruct (fo_file _ _ Hok) as [Hl Hu Hj].
    assert (forall x, pos_ok x -> fptr ip a' x = fptr ip (f_a f) x) as Hx by (intros; by apply fptr_valid).
    split; [done|..].
    - intros x Hx0. rewrite Hx by done. intros Hn. eapply used_grow; [exact Hg|by apply Hu].
    - intros x y Hx0 Hy0. rewrite !Hx by done. by apply Hj. }
  split; simpl; [done|done| | |done].
  - destruct Ho as [Hn Hbl Hi]. split; [|intros b Hvb Hxb; by apply Hb|done].
    intros x Hx. rewrite (fptr_blks ip) by done. by apply Hn.
  - split; [apply Hg|apply Hg|by apply (file_wf_blks ip)|done|]. rewrite Hinum, (gr_super _ _ Hg). apply Hok.
Qed.
End store.

(** Attributes of the inode at [p] are set by [m], at [k] clock ticks, and it is
    written. *)
Lemma wp_store f p ip ip' k (m : M ISt unit) (Q : unit -> FSt -> Prop) :
  f_heap f !! p = Some ip -> file_ok ip (f_a f) -> m (ip, f_a f) = Ok (tt, (ip', set_tick k (f_a f))) ->
  i_blks ip' = i_blks ip -> i_Inum ip' = i_Inum ip -> inode_wf ip' ->
  (forall f', set_step p f ip f' ip' -> synced ip' (f_a f') -> a_balloc (f_a f') = a_balloc (f_a f) -> Q tt f') ->
  wp (_ ← on_ip p m; on_ip p WriteInode) f Q.
Proof.
  intros Hp Hok Hm Hb Hi Hw HQ. pose proof (fo_inv _ _ Hok) as Hinv. pose proof (fo_zero _ _ Hok) as Hz.
  pose proof (grow_tick k (f_a f) Hinv Hz) as Hg.
  apply wp_bind, (wp_on_ip p ip); [done|]. exists tt, (ip', set_tick k (f_a f)). split; [exact Hm|].
  apply (wp_on_ip p ip'); [simpl; by rewrite lookup_insert_eq|]. simpl.
  apply wp_WriteInode; [apply Hg|apply Hg|apply Hw|rewrite Hi; apply Hok|]. intros a' Hwi. simpl.
  rewrite insert_insert_eq. apply HQ.
  - by apply (store_set f p ip ip' k a').
  - apply Hwi.
  - apply (wi_balloc _ _ _ Hwi).
Qed.

(** ** The allocation of an inode *)

(** The attributes of a new file, made at the times [t1] and [t2]. *)
Definition made n kind (t1 t2 : Nfstime3) ip : Inode :=
  with_Mtime t2 (with_Atime t1 (with_Gen (w64 (i_Gen ip + 1)) (with_Nlink 1 (with_Kind kind (with_Inum n ip))))).

Definition time_at (k : nat) : Nfstime3 := mkNfstime3 (w32 (time_Unix k)) (w32 (time_Nanosecond k)).

Lemma InitInode_eq n kind ip a : InitInode n kind (ip, a) =
  Ok (tt, (made n kind (time_at (a_tick a)) (time_at (S (a_tick a))) ip, set_tick (S (S (a_tick a))) a)).
Proof. done. Qed.

Lemma time_at_wf k : time_wf (time_at k).
Proof. split; apply w32_range. Qed.

Lemma made_wf n kind t1 t2 ip : inode_wf ip -> is_u32 kind -> time_wf t1 -> time_wf t2 ->
  inode_wf (made n kind t1 t2 ip).
Proof.
  intros [] Hk H1t H2t. split; simpl; try done. apply w64_range.
Qed.

(** Only the allocator and the lists of the transaction change. *)
Lemma fs_inv_alloc a0 f a' : fs_inv L a0 f -> atxn_from a0 a' -> zero_inv a' ->
  a_super a' = a_super (f_a f) -> a_log a' = a_log (f_a f) -> a_op a' = a_op (f_a f) ->
  fs_inv L a0 (fset_a a' f).
Proof.
  intros Hs Hf Hz Hsp Hlg Hop.
  assert (forall j, ino_ok a' j <-> ino_ok (f_a f) j) as Hino by (intros j; unfold ino_ok; by rewrite Hsp).
  split; simpl; try apply Hs; [done|done|..].
  - intros j q Hj. rewrite Hino. by apply (fi_own _ _ _ Hs).
  - intros j q Hj. rewrite Hino. destruct (fi_slot _ _ _ Hs j q Hj) as (Hjo & iq & Hq & Hin & Ho & Hd).
    split; [done|]. exists iq. split_and!; [done..|]. intros Hni. apply (Begin_disk_inode (f_a f)); auto.
  - intros j Hj%Hino Hni. rewrite (Begin_same (f_a f)) by done. rewrite <-(fi_clean _ _ _ Hs j Hj Hni).
    unfold iobj, obj. by rewrite Hop, Hsp, Hlg.
Qed.

Lemma txn_alloc F a0 f a' : txn L E F a0 f -> atxn_from a0 a' -> sim (f_a f) a' ->
  a_log a' = a_log (f_a f) -> a_op a' = a_op (f_a f) -> a_freeInums a' = a_freeInums (f_a f) ->
  txn L E F a0 (fset_a a' f).
Proof.
  intros [Hs Hq Hb Hz Hsim Hlg Hv0 Hv Hc Hl Hd Hn Hf Hfr] Hfrom Hsim' Hlg' Hop Hfi.
  split; simpl; [|done..|by eapply sim_trans|congruence|done|by eapply sim_vol| | |done|done|done|congruence].
  - apply fs_inv_alloc; [done|done|apply Hsim'|apply Hsim'|done|done].
  - intros i p ip Hi Hp. apply (Begin_disk_inode (f_a f)); [apply Hsim'|done|]. by apply (Hc i p).
  - intros i Hi. apply Hl. eapply ino_ok_super; [|exact Hi]. apply Hsim'.
Qed.

(** *** Inodes without cached names

    A new directory must not find the names of an old one in its name cache. *)

(** Inode [n], if it is in the inode cache, has no name cache. *)
Definition unnamed n f : Prop := forall p ip, cached f n p -> f_heap f !! p = Some ip -> i_Dcache ip = None.

Lemma unnamed_refs a0 f f' n : fs_inv L a0 f -> unnamed n f ->
  (forall q, cached f' n q -> cached f n q \/ fresh f f' q) ->
  (forall q, cached f n q -> is_Some (f_heap f !! q) -> f_heap f' !! q = f_heap f !! q) -> unnamed n f'.
Proof.
  intros Hs Hu Hr Hk q ip Hc Hq. destruct (Hr q Hc) as [Hc0|[_ (ip1 & Hq1 & Hd)]]; [|congruence].
  destruct (fi_slot _ _ _ Hs n q Hc0) as (_ & iq & Hiq & _). rewrite (Hk q Hc0) in Hq by (by rewrite Hiq).
  by apply (Hu q).
Qed.

Lemma unnamed_opened F a0 f i p f' n : fs_inv L a0 f -> opened F f i p f' -> unnamed n f -> unnamed n f'.
Proof.
  intros Hs Ho Hu. apply (unnamed_refs a0 f); [done|done|apply (op_refs _ _ _ _ _ Ho)|].
  intros q _. apply (op_keep _ _ _ _ _ Ho).
Qed.

Lemma unnamed_looked a0 f f' i dip n : fs_inv L a0 f -> f_inodes f !! i = Some dip -> n <> i -> looked dip f f' ->
  unnamed n f -> unnamed n f'.
Proof.
  intros Hs Hi Hne Hl Hu. apply (unnamed_refs a0 f); [done|done|apply (lk_refs _ _ _ Hl)|].
  intros q Hc. apply (lk_keep _ _ _ Hl). intros ->.
  destruct (fi_slot _ _ _ Hs n dip Hc) as (_ & iq & Hiq & Hn & _).
  destruct (fi_own _ _ _ Hs i dip Hi) as (_ & ir & Hir & Hin). congruence.
Qed.

(** The name cache of a locked inode. *)
Lemma opened_unnamed F a0 f i p f' : fs_inv L a0 f -> opened F f i p f' -> unnamed i f ->
  f_heap f' !! p = Some (with_Dcache None (F i)).
Proof.
  intros Hs Ho Hu. destruct (op_heap _ _ _ _ _ Ho) as [dc Hp]. rewrite Hp.
  enough (dc = None) as -> by done. destruct (op_ref _ _ _ _ _ Ho) as [Hc|[_ (ip & Hip & Hd)]].
  - destruct (fi_slot _ _ _ Hs i p Hc) as (_ & ip & Hip & _). pose proof (Hu p ip Hc Hip) as Hd.
    rewrite (op_keep _ _ _ _ _ Ho), Hip in Hp by (by rewrite Hip). injection Hp as ->. exact Hd.
  - rewrite Hp in Hip. injection Hip as <-. exact Hd.
Qed.

(** A directory that is still empty. *)
Lemma slots_nil ip a : file_ok ip a -> i_Kind ip = NF3DIR -> i_Size ip = 0 -> slots [] ip a.
Proof.
  intros Hok Hk Hs. split; [done|done|by rewrite Hs|by rewrite Hs, MaxFileSize_eq|intros k; lia|by constructor|done].
Qed.

(** What [AllocInode] leaves: the new inode [n] at [p]. *)
Record allocated F a0 f kind n p ip' f' : Prop := {
  ac_free : n ∈ alloc_free (a_ialloc (f_a f));
  ac_ino : ino_ok (f_a f') n;
  ac_null : n <> NULLINUM;
  ac_made : exists t1 t2 dc, ip' = made n kind t1 t2 (with_Dcache dc (F n));
  ac_names : unnamed n f -> i_Dcache ip' = None;
  ac_changed : changed L E (<[n := ip']> F) a0 f';
  ac_inodes : f_inodes f' = <[n := p]> (f_inodes f);
  ac_heap : f_heap f' !! p = Some ip';
  ac_keep : forall j q, f_inodes f !! j = Some q -> j <> n -> f_heap f' !! q = f_heap f !! q /\ q <> p;
  ac_super : a_super (f_a f') = a_super (f_a f);
  ac_balloc : a_balloc (f_a f') = a_balloc (f_a f);
  ac_frame : frame F {[n]} (f_a f) (f_a f');
}.

(** A spare inode [n] was initialised. *)
Lemma made_changed F a0 f f' n p dc kind t1 t2 : let ip' := made n kind t1 t2 (with_Dcache dc (F n)) in
  changed L E F a0 f -> f_inodes f !! n = Some p -> f_heap f !! p = Some (with_Dcache dc (F n)) ->
  spare (F n) -> kind <> NF3FREE -> (kind = NF3DIR -> dc = None) ->
  n ∉ alloc_free (a_ialloc (f_a f)) ∪ list_to_set (a_freeInums (f_a f)) ->
  replaced F n p f ip' f' -> file_ok ip' (f_a f') -> changed L E (<[n := ip']> F) a0 f'.
Proof.
  intros ip' Hch Hin Hp [Hkn Hsz] Hkf Hdc Hnf Hrp Hok. destruct (decide (kind = NF3DIR)) as [Hkd|Hkd].
  2: { apply (changed_file L E F a0 f f' n p ip' Hch Hin Hrp (with_Dcache dc (F n))); try done; [by rewrite Hkn|by right]. }
  destruct (fi_own _ _ _ (ch_fs _ _ _ _ _ Hch) n p Hin) as [Hi _]. apply (changed_ext L (<[n := []]> E)).
  { intros j. destruct (decide (j = n)) as [->|Hne]; [|by rewrite fn_lookup_insert_ne].
    rewrite fn_lookup_insert. symmetry. apply (dr_none _ _ _ (ch_dirs _ _ _ _ _ Hch) n Hi). by rewrite Hkn. }
  apply (changed_dir_any L E F a0 f f' n p ip' Hch Hin Hrp); [|done| |exact Hnf|done|].
  - apply slots_nil; [exact Hok|done|exact Hsz].
  - intros dc0 Hd. change (dc = Some dc0) in Hd. by rewrite (Hdc Hkd) in Hd.
  - intros e He. by apply not_elem_of_nil in He.
Qed.

(** Inode [n], opened at [p] in [f1], was initialised in [f2]. *)
Lemma allocated_intro F a0 f f1 f2 f3 n p dc kind t1 t2 : let ip' := made n kind t1 t2 (with_Dcache dc (F n)) in
  txn L E F a0 f -> n ∈ alloc_free (a_ialloc (f_a f)) -> n <> NULLINUM -> ino_ok (f_a f2) n ->
  f_inodes f1 = f_inodes f -> f_heap f1 = f_heap f -> sim (f_a f) (f_a f1) -> a_balloc (f_a f1) = a_balloc (f_a f) ->
  opened F f1 n p f2 -> txn L E F a0 f2 -> f_heap f2 !! p = Some (with_Dcache dc (F n)) -> (unnamed n f -> dc = None) ->
  set_step p f2 (with_Dcache dc (F n)) f3 ip' -> synced ip' (f_a f3) -> a_balloc (f_a f3) = a_balloc (f_a f2) ->
  changed L E (<[n := ip']> F) a0 f3 -> allocated F a0 f kind n p ip' f3.
Proof.
  intros ip' Ht Hn Hnn Hi2 Hfi Hfh Hsim Hba Ho2 Ht2 Hp2 Hdc Hst Hsy Hba3 Hch3.
  pose proof (txn_changed _ _ _ _ _ Ht2) as Hch2. pose proof (ss_grow _ _ _ _ _ Hst) as Hg3.
  pose proof (tx_vol _ _ _ _ _ Ht2) as Hv2. pose proof (vo_inode _ _ Hv2 n Hi2) as Hd2.
  pose proof (op_sim _ _ _ _ _ Ho2) as Hsim2. assert (sim (f_a f) (f_a f2)) as Hsim02 by (by eapply sim_trans).
  assert (f_inodes f2 !! n = Some p) as Hin2 by (rewrite (op_inodes _ _ _ _ _ Ho2); apply lookup_insert_eq).
  pose proof (set_step_replaced F f2 n p _ f3 ip' Hv2 Hi2 eq_refl Hst Hsy) as Hrp. split.
  - done.
  - eapply ino_ok_super; [|exact Hi2]. symmetry. apply Hg3.
  - done.
  - by do 3 eexists.
  - exact Hdc.
  - done.
  - by rewrite (rp_inodes F f2 f3 n p ip' Hrp), (op_inodes _ _ _ _ _ Ho2), Hfi.
  - rewrite (rp_heap F f2 f3 n p ip' Hrp). by rewrite decide_True.
  - intros j q Hj Hne. destruct (fi_own _ _ _ (tx_fs _ _ _ _ _ Ht) j q Hj) as (_ & iq & Hiq & Hqn).
    assert (f_heap f2 !! q = f_heap f !! q) as Hq2.
    { rewrite <-Hfh. apply (op_keep _ _ _ _ _ Ho2). rewrite Hfh. by exists iq. }
    assert (q <> p) as Hqp.
    { intros ->. rewrite Hp2, Hiq in Hq2. injection Hq2 as <-. apply Hne. rewrite <-Hqn. apply (di_Inum _ _ _ Hd2). }
    rewrite (rp_heap F f2 f3 n p ip' Hrp). by rewrite decide_False.
  - by rewrite (gr_super _ _ Hg3), (sim_super _ _ Hsim02).
  - by rewrite Hba3, (op_balloc _ _ _ _ _ Ho2).
  - apply (frame_trans F F _ _ (f_a f2)); [apply Hsim02|apply frame_sim; [apply Ht|done]| |done].
    by apply (rp_frame L E F a0 f2 f3 n p ip').
Qed.

Lemma wp_AllocInode F a0 f kind (Q : option Z -> FSt -> Prop) : txn L E F a0 f -> is_u32 kind ->
  kind <> NF3FREE -> (kind = NF3DIR -> forall n, n ∈ alloc_free (a_ialloc (f_a f)) -> unnamed n f) ->
  (forall n, n ∈ alloc_free (a_ialloc (f_a f)) -> (n ∉ L ∪ dom (f_inodes f)) /\ is_shrinking (F n) = false) ->
  (forall f', alloc_free (a_ialloc (f_a f)) = ∅ -> txn L E F a0 f' -> Q None f') ->
  (forall n p ip' f', allocated F a0 f kind n p ip' f' -> Q (Some p) f') ->
  wp (AllocInode kind) f Q.
Proof.
  intros Ht Hku Hkf Hnames Hfree HQ0 HQ. pose proof (tx_fs _ _ _ _ _ Ht) as Hs.
  pose proof (fi_from _ _ _ Hs) as Hfrom. pose proof (af_inv _ _ Hfrom) as Hinv. pose proof (fi_zero _ _ _ Hs) as Hz.
  unfold AllocInode. apply wp_bind, wp_on_a, wp_AllocINum; [done|..].
  - intros al He Hal Hinv'. rewrite bool_decide_eq_false_2 by (rewrite NULLINUM_eq; tauto).
    apply wp_ret, HQ0; [done|]. apply txn_alloc; try done.
    + destruct Hfrom as [_ ? ? ? Hia]. split; try done. simpl. rewrite Hal. by rewrite He in Hia.
    + split; [done|done|split; apply Hz|done|done|done].
  - intros n al Hn Hvn Hal a1 Hinv1. rewrite bool_decide_eq_true_2 by (rewrite NULLINUM_eq; unfold valid_inum in Hvn; lia).
    assert (sim (f_a f) a1) as Hsim1 by (split; [done|done|split; apply Hz|done|done|done]).
    assert (txn L E F a0 (fset_a a1 f)) as Ht1.
    { apply txn_alloc; try done. destruct Hfrom as [_ ? ? ? Hia]. split; try done. simpl.
      rewrite Hia. by apply union_take. }
    assert (ino_ok a1 n) as Hi1 by (unfold ino_ok, valid_inum in *; simpl; lia).
    destruct (Hfree n Hn) as [Hni Hsh].
    apply wp_bind, (wp_lock_any L E F a0); [done|done|exact Hni|]. intros p f2 Ht2 Ho2.
    destruct (op_heap _ _ _ _ _ Ho2) as [dc Hp2]. simpl in Ho2.
    assert (unnamed n f -> dc = None) as Hdc.
    { intros Hu. pose proof (opened_unnamed F a0 _ n p f2 (tx_fs _ _ _ _ _ Ht1) Ho2 Hu) as Hx.
      rewrite Hp2 in Hx. injection Hx as Hx. exact Hx. }
    assert (spare (F n)) as [Hkn Hsz].
    { apply (tx_free _ _ _ _ _ Ht). rewrite (af_ialloc _ _ Hfrom). set_solver. }
    apply wp_bind, (wp_ip_field p _ _ _ _ Hp2). simpl. rewrite Hkn, bool_decide_eq_false_2 by tauto.
    apply wp_bind, (wp_ip_field p _ _ _ _ Hp2). change (is_shrinking (with_Dcache dc (F n))) with (is_shrinking (F n)).
    rewrite Hsh. simpl. pose proof (op_sim _ _ _ _ _ Ho2) as Hsim2. simpl in Hsim2.
    pose proof (tx_vol _ _ _ _ _ Ht2) as Hv2.
    assert (ino_ok (f_a f2) n) as Hi2 by (eapply ino_ok_super; [|exact Hi1]; symmetry; apply Hsim2).
    pose proof (vo_inode _ _ Hv2 n Hi2) as Hd2. pose proof (op_grow _ _ _ _ _ Ho2) as Hg2. simpl in Hg2.
    assert (f_inodes f2 !! n = Some p) as Hin2 by (rewrite (op_inodes _ _ _ _ _ Ho2); apply lookup_insert_eq).
    set (ip' := made n kind (time_at (a_tick (f_a f2))) (time_at (S (a_tick (f_a f2)))) (with_Dcache dc (F n))).
    apply wp_bind, (wp_store f2 p (with_Dcache dc (F n)) ip' (S (S (a_tick (f_a f2))))); [done| |apply InitInode_eq|done| | |].
    { apply file_ok_Dcache. by apply vol_file_ok. }
    { symmetry. apply (di_Inum _ _ _ Hd2). }
    { apply made_wf; [|done|apply time_at_wf|apply time_at_wf]. by destruct (di_wf _ _ _ Hd2). }
    intros f3 Hst Hsy Hba3. apply wp_ret. apply (HQ n p ip').
    assert (n ∉ alloc_free (a_ialloc (f_a f2)) ∪ list_to_set (a_freeInums (f_a f2))) as Hnf.
    { rewrite (gr_ialloc _ _ Hg2), (gr_freeInums _ _ Hg2). simpl. rewrite (tx_freed _ _ _ _ _ Ht), Hal. set_solver. }
    apply (allocated_intro F a0 f (fset_a a1 f) f2 f3); try done; [rewrite NULLINUM_eq; unfold valid_inum in Hvn; lia|].
    apply (made_changed F a0 f2 f3 n p dc kind); [by apply txn_changed|done|done|done|done|by intros Hkd; apply Hdc, Hnames|exact Hnf| |apply Hst].
    by apply (set_step_replaced F f2 n p (with_Dcache dc (F n))).
Qed.

(** ** Giving an inode up *)

Lemma set_tick_id a : set_tick (a_tick a) a = a.
Proof. by destruct a. Qed.

(** The inode at [p] was written with other attributes. *)
Record stored p f ip f' ip' : Prop := {
  st_step : set_step p f ip f' ip';
  st_synced : synced ip' (f_a f');
  st_ptr : forall x, pos_ok x -> fptr ip' (f_a f') x = fptr ip (f_a f) x;
  st_blk : forall b, valid_blk (a_super (f_a f)) b -> blk (f_a f') b = blk (f_a f) b;
  st_freed : a_freeBnums (f_a f') = a_freeBnums (f_a f);
  st_written : NDirty (a_op (f_a f)) <= NDirty (a_op (f_a f'));
}.

Lemma wi_stored f p ip ip' a' : file_ok ip (f_a f) -> i_blks ip' = i_blks ip -> i_Inum ip' = i_Inum ip ->
  inode_wf ip' -> wi_post ip' (f_a f) a' -> stored p f ip (fset_a a' (fset_heap (<[p := ip']> (f_heap f)) f)) ip'.
Proof.
  intros Hok Hb Hi Hw Hwi. pose proof (wi_synced _ _ _ Hwi) as Hsy. pose proof (wi_blk _ _ _ Hwi) as Hbl.
  pose proof (gr_freed _ _ (wi_grow _ _ _ Hwi)) as Hfr. pose proof (wi_NDirty _ _ _ Hwi) as Hnd.
  rewrite <-(set_tick_id (f_a f)) in Hwi.
  split; [exact (store_set f p ip ip' _ a' Hok Hb Hi Hw Hwi)|done| |apply Hwi|exact Hfr|apply Hnd].
  intros x Hx. simpl. rewrite (fptr_blks ip) by done. apply fptr_valid; [apply Hok|done|done].
Qed.

(** An operation [m] that writes the inode as [ip'] and returns [r]. *)
Lemma wp_store_op {A} f p ip ip' (m : M ISt A) r (Q : A -> FSt -> Prop) : f_heap f !! p = Some ip ->
  file_ok ip (f_a f) -> i_blks ip' = i_blks ip -> i_Inum ip' = i_Inum ip -> inode_wf ip' ->
  (forall R, wp WriteInode (ip', f_a f) (fun _ t => t.1 = ip' /\ R r t) -> wp m (ip, f_a f) R) ->
  (forall f', stored p f ip f' ip' -> Q r f') ->
  wp (on_ip p m) f Q.
Proof.
  intros Hp Hok Hb Hi Hw Hm HQ. apply (wp_on_ip p ip); [done|]. apply Hm.
  apply wp_WriteInode; [apply Hok|apply Hok|apply Hw|rewrite Hi; apply Hok|].
  intros a' Hwi. split; [done|]. exact (HQ _ (wi_stored f p ip ip' a' Hok Hb Hi Hw Hwi)).
Qed.

Lemma ss_heap p f ip f' ip' : set_step p f ip f' ip' -> f_heap f' !! p = Some ip'.
Proof. intros Hst. rewrite (ss_rest _ _ _ _ _ Hst). apply lookup_insert_eq. Qed.

Lemma ss_inodes p f ip f' ip' : set_step p f ip f' ip' -> f_inodes f' = f_inodes f.
Proof. intros Hst. by rewrite (ss_rest _ _ _ _ _ Hst). Qed.

Lemma RoundUp_0 : util_RoundUp 0 BlockSize = 0.
Proof. rewrite BlockSize_eq, RoundUp_eq; [done|unfold is_u64; lia|lia|lia]. Qed.

Lemma wf_Nlink ip v : inode_wf ip -> is_u32 v -> inode_wf (with_Nlink v ip).
Proof. intros [] Hv. by split. Qed.

Lemma wf_emptied ip v : inode_wf ip -> is_u64 v -> inode_wf (with_ShrinkSize v (with_Size 0 ip)).
Proof. intros [] Hv. by split. Qed.

(** A link less. *)
Definition unlinked ip : Inode := with_Nlink (w32 (i_Nlink ip - 1)) ip.

Lemma wp_DecLink f p ip (Q : bool -> FSt -> Prop) : f_heap f !! p = Some ip -> file_ok ip (f_a f) ->
  (forall f', stored p f ip f' (unlinked ip) -> Q (bool_decide (i_Nlink (unlinked ip) = 0)) f') ->
  wp (on_ip p DecLink) f Q.
Proof.
  intros Hp Hok. apply (wp_store_op f p ip (unlinked ip)); [done|done|done|done| |].
  { apply wf_Nlink; [apply Hok|apply w32_range]. }
  intros R HR. unfold DecLink. apply wp_bind, wp_ip_set, wp_bind.
  eapply wp_mono; [exact HR|]. intros _ [jp a] [Hj HRj]. simpl in Hj. subst jp. by apply wp_ip_get.
Qed.

(** An inode that is free again, and its number. *)
Definition freed ip : Inode := with_Gen (w64 (i_Gen ip + 1)) (with_Kind NF3FREE ip).

Definition free_num n a : ASt :=
  set_lists (a_allocInums a) (a_freeInums a ++ [n]) (a_allocBnums a) (a_freeBnums a) a.

Lemma wf_freed ip : inode_wf ip -> inode_wf (freed ip).
Proof. intros []. split; simpl; try done. apply w64_range. Qed.

Lemma wp_FreeInode f p ip (Q : unit -> FSt -> Prop) : f_heap f !! p = Some ip -> file_ok ip (f_a f) ->
  (forall f', stored p f ip f' (freed ip) -> Q tt (fset_a (free_num (i_Inum ip) (f_a f')) f')) ->
  wp (on_ip p FreeInode) f Q.
Proof.
  intros Hp Hok HQ. pose proof (wf_freed _ (fo_inode _ _ Hok)) as Hw. apply (wp_on_ip p ip); [done|].
  unfold FreeInode. apply wp_bind, wp_ip_set, wp_bind, wp_ip_set, wp_bind.
  change (with_Gen _ _) with (freed ip). apply wp_WriteInode; [apply Hok|apply Hok|apply Hw|apply Hok|].
  intros a' Hwi. apply wp_bind, wp_ip_get, wp_on_atxn, wp_modify.
  exact (HQ _ (wi_stored f p ip (freed ip) a' Hok eq_refl eq_refl Hw Hwi)).
Qed.

Lemma fs_inv_FreeINum a0 f n : fs_inv L a0 f -> valid_inum (a_super (f_a f)) n ->
  fs_inv L a0 (fset_a (free_num n (f_a f)) f).
Proof.
  intros Hs Hn. apply fs_inv_alloc; [done| |split; apply (fi_zero _ _ _ Hs)|done..].
  destruct (fi_from _ _ _ Hs) as [[Hl Hb Hba [H1f H2f H3f H4f H5f]] ? ? ? ?]. split; try done.
  split; try done. split; try done. apply Forall_app. split; [done|by constructor].
Qed.

(** The state after [Resize 0] of an inode of the transaction. *)
Lemma resize_fs a0 f n p ip ds t : fs_inv L a0 f -> f_inodes f !! n = Some p -> f_heap f !! p = Some ip ->
  file_ok ip (f_a f) -> util_RoundUp (i_Size ip) BlockSize <= MaxBlks -> trimmed_file ip (f_a f) (util_RoundUp (i_Size ip) BlockSize) -> resize_post 0 ip (f_a f) ds t ->
  fs_inv L a0 (fset_a t.2 (fset_heap (<[p := t.1]> (f_heap f)) f)) /\ file_ok t.1 t.2 /\ i_Inum t.1 = i_Inum ip.
Proof.
  intros Hs Ho Hp Hok Hmax Ht Hpost. assert (is_u64 0) as H0u by (unfold is_u64; lia).
  destruct (fi_own _ _ _ Hs n p Ho) as (Hi & iq & Hiq & Hin). rewrite Hp in Hiq. injection Hiq as <-.
  pose proof (resize_contents 0 ip (f_a f) ds t Hok H0u Hmax Ht Hpost) as Hdone.
  assert (i_Inum t.1 = i_Inum ip) as Hin' by (by rewrite (rz_ip _ _ _ _ _ _ _ Hdone)).
  split_and!; [|apply Hdone|done].
  destruct Hpost as (a1 & Hwi & _ & Hcase). pose proof (wi_grow _ _ _ Hwi) as Hg1.
  assert (forall j, ino_ok (f_a f) j -> j <> n -> iobj a1 j = iobj (f_a f) j) as Hio1.
  { intros j Hj Hne. apply (wi_other _ _ _ Hwi); [done|]. simpl. congruence. }
  pose proof (rz_ok _ _ _ _ _ _ _ Hdone) as Hok'.
  destruct Hcase as [[-> _]|(_ & _ & more & Hsk)].
  - apply (fs_inv_update L a0 f n p ip); [done|done|done|done|by rewrite Hin'|done|done].
  - destruct t as [ip2 a2]. cbn [fst snd] in *. destruct (sk_shrunk _ _ _ _ _ Hsk) as (a3 & Hsh & Hwi2 & _).
    assert (keeps (f_a f) a2) as Hk.
    { eapply keeps_trans; [apply keeps_grow, Hg1|]. eapply keeps_trans; [apply Hsh|]. apply keeps_grow, Hwi2. }
    apply (fs_inv_set L a0 f n p ip ip2 a2); [done|done|done|done|by rewrite Hin'|by apply (kp_from _ _ Hk), Hs|apply Hk|apply Hk|apply Hk|].
    intros j Hj Hne. rewrite <-Hio1 by done.
    assert (ino_ok a1 j) as Hj1 by (eapply ino_ok_super; [|exact Hj]; symmetry; apply Hg1).
    rewrite (wi_other _ _ _ Hwi2); [by apply (sh_inodes _ _ _ _ _ Hsh)| |congruence].
    eapply ino_ok_super; [|exact Hj1]. symmetry. apply (kp_super _ _ (sh_keeps _ _ _ _ _ Hsh)).
Qed.

(** [doDecLink] of the new file. *)
Lemma wp_decline a0 s n p ip (Q : unit -> NSt -> Prop) : fs_inv L a0 (n_fs s) ->
  f_inodes (n_fs s) !! n = Some p -> f_heap (n_fs s) !! p = Some ip -> file_ok ip (f_a (n_fs s)) ->
  n <> 0 -> i_Nlink ip = 1 ->
  i_Size ip = 0 \/ (util_RoundUp (i_Size ip) BlockSize <= MaxBlks /\
    trimmed_file ip (f_a (n_fs s)) (util_RoundUp (i_Size ip) BlockSize)) ->
  (forall s', fs_inv L a0 (n_fs s') -> Q tt s') -> wp (doDecLink p) s Q.
Proof.
  intros Hs Ho Hp Hok Hn Hnl Hsz HQ. unfold doDecLink.
  destruct (fi_own _ _ _ Hs n p Ho) as (Hi & iq & Hiq & Hin). rewrite Hp in Hiq. injection Hiq as <-.
  apply wp_bind, wp_on_fs, (wp_DecLink _ p ip); [done|done|]. intros f1 [Hst1 _ Hptr _ _ _].
  pose proof (set_step_fs L a0 _ n p _ _ _ Hs Ho Hp Hst1) as Hs1. rewrite <-(ss_inodes _ _ _ _ _ Hst1) in Ho.
  rewrite bool_decide_eq_true_2 by (simpl; by rewrite Hnl).
  assert (forall ds f2 ip2, fs_inv L a0 f2 -> f_inodes f2 !! n = Some p -> f_heap f2 !! p = Some ip2 ->
    file_ok ip2 (f_a f2) -> i_Inum ip2 = n ->
    wp (_ ← on_fs (on_ip p FreeInode);
        if (ds : bool) then inum ← on_fs (ip_field p i_Inum); StartShrinker inum else mret tt) (nset_fs f2 s) Q) as Hfree.
  { intros ds f2 ip2 Hs2 Ho2 Hp2 Hok2 Hin2.
    apply wp_bind, wp_on_fs, (wp_FreeInode f2 p ip2); [done|done|]. intros f3 [Hst3 _ _ _ _ _].
    pose proof (set_step_fs L a0 f2 n p _ _ _ Hs2 Ho2 Hp2 Hst3) as Hs3. rewrite Hin2.
    assert (valid_inum (a_super (f_a f3)) n) as Hvn.
    { pose proof (fi_own _ _ _ Hs3 n p) as Hio. rewrite (ss_inodes _ _ _ _ _ Hst3) in Hio.
      destruct (Hio Ho2) as [Hio3 _]. unfold ino_ok, valid_inum in *. lia. }
    pose proof (fs_inv_FreeINum a0 _ n Hs3 Hvn) as Hs4. destruct ds; [|by apply wp_ret, HQ].
    apply wp_bind, wp_on_fs. eapply wp_ip_field; [simpl; by eapply ss_heap|]. by apply wp_modify, HQ. }
  destruct Hsz as [Hsz|[Hmax Ht]].
  - set (ip2 := with_ShrinkSize (util_RoundUp 0 BlockSize) (with_Size 0 (unlinked ip))).
    apply wp_bind, wp_on_fs, (wp_store_op f1 p (unlinked ip) ip2 _ false);
      [by eapply ss_heap|apply Hst1|done|done|apply wf_emptied; [apply Hst1|apply RoundUp_u64]| |].
    { intros R HR. unfold Resize. apply wp_bind, wp_ip_get. simpl. rewrite Hsz, Z.ltb_irrefl.
      apply wp_bind, wp_ip_set, wp_bind, wp_ip_set, wp_bind. eapply wp_mono; [exact HR|].
      intros _ [jp a] [_ Hj]. by apply wp_ret. }
    intros f2 [Hst2 _ _]. apply (Hfree false f2 ip2); [|by rewrite (ss_inodes _ _ _ _ _ Hst2)|by eapply ss_heap|apply Hst2|done].
    apply (set_step_fs L a0 f1 n p _ _ _ Hs1 Ho (ss_heap _ _ _ _ _ Hst1) Hst2).
  - pose proof (ss_heap _ _ _ _ _ Hst1) as Hp1. assert (file_ok (unlinked ip) (f_a f1)) as Hok1 by apply Hst1.
    assert (trimmed_file (unlinked ip) (f_a f1) (util_RoundUp (i_Size (unlinked ip)) BlockSize)) as Ht1.
    { intros x Hx Hle. rewrite Hptr by done. by apply Ht. }
    apply wp_bind, wp_on_fs, (wp_on_ip p (unlinked ip)); [done|].
    apply wp_Resize; [done|unfold is_u64; lia|exact Hmax|done|]. intros ds t Hpost.
    destruct (resize_fs a0 f1 n p (unlinked ip) ds t Hs1 Ho Hp1 Hok1 Hmax Ht1 Hpost) as (Hs2 & Hok2 & Hin2).
    apply (Hfree ds _ t.1); [exact Hs2|exact Ho|apply lookup_insert_eq|exact Hok2|by rewrite Hin2].
Qed.

(** ** CREATE *)

(** The free inodes are neither locked nor being shrunk. *)
Definition spare_ready F a : Prop := forall n, n ∈ alloc_free (a_ialloc a) ->
  (n ∉ L) /\ is_shrinking (F n) = false.

(** *** The allocation, in the directory *)

(** The transaction [f3] holds directory [i] of [s] at [dip] and a new inode [n]
    at [p]; before it, in [f2], nothing was changed. *)
Record got_new F s i kind dip n p ip' f2 f3 : Prop := {
  gn_txn : txn L E F (f_a (n_fs s)) f2;
  gn_inodes : f_inodes f2 = {[i := dip]};
  gn_sim : sim (disk_of s) (f_a f2);
  gn_balloc : a_balloc (f_a f2) = a_balloc (disk_of s);
  gn_ialloc : a_ialloc (f_a f2) = a_ialloc (disk_of s);
  gn_alloc : allocated F (f_a (n_fs s)) f2 kind n p ip' f3;
  gn_names : kind = NF3DIR -> i_Dcache ip' = None;
}.

Lemma wp_getAlloc F s dfh fh name kind (Q : option Z * option Z * Z -> NSt -> Prop) :
  let i := Ino fh in
  let a0 := f_a (n_fs s) in
  server L E F s -> retry <> 0%nat -> MakeFh dfh = Ok fh -> ino_ok (disk_of s) i -> i ∉ L ->
  dir_ready L E i -> spare_ready F (disk_of s) -> is_u32 kind -> kind <> NF3FREE ->
  (kind = NF3DIR -> forall n, n ∈ alloc_free (a_ialloc (disk_of s)) -> unnamed n (n_fs s)) ->
  (forall f', ~ live F fh -> txn L E F a0 f' -> Q (None, None, NFS3ERR_STALE) (nset_fs f' s)) ->
  (forall f' dip, live F fh -> is_Some (names (E i) !! name) -> txn L E F a0 f' ->
     Q (Some dip, None, NFS3ERR_EXIST) (nset_fs f' s)) ->
  (forall f' dip, live F fh -> names (E i) !! name = None -> alloc_free (a_ialloc (disk_of s)) = ∅ ->
     txn L E F a0 f' -> Q (Some dip, None, NFS3ERR_NOSPC) (nset_fs f' s)) ->
  (forall f2 f3 dip n p ip', live F fh -> names (E i) !! name = None -> got_new F s i kind dip n p ip' f2 f3 ->
     Q (Some dip, Some p, NFS3_OK) (nset_fs f3 s)) ->
  wp (getAlloc retry dfh name kind) (nset_fs (after_Begin (n_fs s)) s) Q.
Proof.
  intros i a0 Hsv Hre Hfh Hi HL Hready Hspare Hku Hkf Hnames Hstale Hexist Hnospc Hok. unfold getAlloc.
  destruct retry as [|r] eqn:Hr; [done|]. clear Hre Hr. cbn [get_alloc_loop].
  pose proof (begin_txn L E F s Hsv) as Ht0. fold a0 in Ht0. set (f0 := after_Begin (n_fs s)) in *.
  apply wp_bind, wp_on_fs, (wp_lookup L E F a0 f0 dfh fh); [done|done|done|simpl; set_solver| |].
  2: { intros f1 Hdead Ht1. apply wp_ret, Hstale; [by apply not_live|done]. }
  intros dip f1 Hk Hg Ht1 Ho1. assert (live F fh) as Hlive by done. fold i in Ho1, Hk, Hg.
  pose proof (opened_holds F f0 i dip f1 Ho1) as Hd1.
  apply wp_bind, wp_on_fs, (wp_lookup_name L E F a0 f1 i dip); [done..|]. intros f2 off Ht2 Hl2.
  pose proof (looked_holds F dip f1 f2 i dip Hl2 Hd1) as Hd2. destruct Hd2 as [Hdin2 [dc Hdh2]].
  destruct (names (E i) !! name) as [inum|] eqn:HN; simpl.
  { destruct (name_live L E F (f_a f2) i name inum) as (Hne & _).
    - by eapply tx_dirs.
    - by destruct (fi_own _ _ _ (tx_fs _ _ _ _ _ Ht2) i dip Hdin2).
    - done.
    - done.
    - rewrite bool_decide_eq_true_2 by done. apply wp_ret, Hexist; [done|by eexists|done]. }
  rewrite bool_decide_eq_false_2 by tauto.
  assert (f_inodes f2 = {[i := dip]}) as Hin2.
  { by rewrite (lk_inodes _ _ _ Hl2), (op_inodes _ _ _ _ _ Ho1). }
  assert (a_ialloc (f_a f2) = a_ialloc (disk_of s)) as Hia2.
  { by rewrite (gr_ialloc _ _ (lk_grow _ _ _ Hl2)), (gr_ialloc _ _ (op_grow _ _ _ _ _ Ho1)). }
  assert (kind = NF3DIR -> forall n, n ∈ alloc_free (a_ialloc (f_a f2)) -> unnamed n f2) as Hnames2.
  { intros Hkd n Hn. rewrite Hia2 in Hn. destruct (sv_free _ _ _ _ Hsv n Hn) as [Hkn _].
    apply (unnamed_looked a0 f1 f2 i dip); [apply (tx_fs _ _ _ _ _ Ht1)|apply Hd1|congruence|done|].
    apply (unnamed_opened F a0 f0 i dip); [apply Ht0|done|]. exact (Hnames Hkd n Hn). }
  apply wp_bind, wp_on_fs, (wp_AllocInode F a0 f2 kind); [done|done|done|exact Hnames2| | |].
  { intros n Hn. rewrite Hia2 in Hn. destruct (Hspare n Hn) as [HLn Hsh]. split; [|done].
    destruct (sv_free _ _ _ _ Hsv n Hn) as [Hkn _]. rewrite Hin2, dom_singleton_L.
    intros [|Hni%elem_of_singleton]%elem_of_union; congruence. }
  { intros f3 He Ht3. apply wp_ret, Hnospc; [done|done|by rewrite <-Hia2|done]. }
  intros n p ip' f3 Hac. pose proof (ac_made _ _ _ _ _ _ _ _ Hac) as (t1 & t2 & dc3 & Hm).
  apply wp_bind, wp_on_fs, (wp_ip_field p ip'); [apply Hac|].
  assert (is_shrinking ip' = false) as Hsh.
  { rewrite Hm. apply (Hspare n). rewrite <-Hia2. apply Hac. }
  rewrite Hsh. simpl. apply wp_ret, (Hok f2 f3 dip n p ip'); [done|done|]. split; try done.
  - eapply sim_trans; [exact (op_sim _ _ _ _ _ Ho1)|apply Hl2].
  - by rewrite (lk_balloc _ _ _ Hl2), (op_balloc _ _ _ _ _ Ho1).
  - intros Hkd. apply Hac, Hnames2; [done|apply Hac].
Qed.

(** *** The name of the new inode *)

(** The transaction [f3] is about to enter the name of the new inode [n] in
    directory [i] of [s]; the directories are [E1] and the files [F1] by now. *)
Record prepared F s i dip n p E1 F1 ip f3 : Prop := {
  pr_free : n ∈ alloc_free (a_ialloc (disk_of s));
  pr_ne : n <> i /\ n <> NULLINUM;
  pr_ino : ino_ok (f_a f3) n;
  pr_changed : changed L E1 F1 (f_a (n_fs s)) f3;
  pr_inodes : f_inodes f3 = <[n := p]> {[i := dip]};
  pr_heap : f_heap f3 !! p = Some ip;
  pr_dir : E1 i = E i /\ i_Kind (F1 i) = i_Kind (F i);
  pr_file : i_Nlink ip = 1 /\ i_Kind ip <> NF3FREE;
  pr_size : i_Size ip = 0 \/ (util_RoundUp (i_Size ip) BlockSize <= MaxBlks /\
    trimmed_file ip (f_a f3) (util_RoundUp (i_Size ip) BlockSize));
  pr_others : forall k, k ∉ ({[i; n]} : gset Z) -> F1 k = F k;
  pr_frame : frame F {[i; n]} (disk_of s) (f_a f3);
}.

(** The transaction [f'] made the file [n] with the name [name] in directory
    [i] of [s]; before it entered the name it was [f1]. *)
Record created F s i name n j E1 F1 f1 ipd f' : Prop := {
  cr_free : n ∈ alloc_free (a_ialloc (disk_of s));
  cr_name : len name < MAXNAMELEN /\ i_Kind (F i) = NF3DIR;
  cr_ne : n <> i /\ n <> NULLINUM;
  cr_dirs : E1 i = E i;
  cr_slot : free_slot (E i) j;
  cr_dir : fixed (F1 i) ipd;
  cr_changed : changed L (<[i := set_slot (E i) j (mkDirEnt n name)]> E1) (<[i := ipd]> F1) (f_a (n_fs s)) f';
  cr_frame : frame F {[i; n]} (disk_of s) (f_a f');
  cr_size : i_Size (F1 n) = 0 \/ (util_RoundUp (i_Size (F1 n)) BlockSize <= MaxBlks /\
    trimmed_file (F1 n) (f_a f') (util_RoundUp (i_Size (F1 n)) BlockSize));
  cr_named : a_super (f_a f1) = a_super (disk_of s) /\ frame F1 {[i]} (f_a f1) (f_a f');
}.

(** The name of the new inode is added to the directory, or the inode is freed
    again. *)
Lemma wp_add_new F s i dip name n p E1 F1 ip f3 (Q : Z * Nfs_fh3 * Fattr3 -> NSt -> Prop) :
  let a0 := f_a (n_fs s) in
  prepared F s i dip n p E1 F1 ip f3 -> dir_ready L E i -> names (E i) !! name = None ->
  (forall s', MAXNAMELEN <= len name \/ i_Kind (F i) <> NF3DIR \/ no_room_in (E i) (f_a f3) ->
     fs_inv L a0 (n_fs s') -> Q (NFS3ERR_IO, zero, zero) s') ->
  (forall j ipd fh3 f', created F s i name n j E1 F1 f3 ipd f' -> MakeFh3 (mkFh n (i_Gen ip)) = Ok fh3 ->
     Q (NFS3_OK, fh3, MkFattr ip) (nset_fs f' s)) ->
  wp (inum ← on_fs (ip_field p i_Inum);
      ok ← on_fs (AddName dip inum name);
      if negb ok then
        _ ← doDecLink p;
        mret (NFS3ERR_IO, zero, zero)
      else
        i ← on_fs (ip_field p id);
        fh3 ← lift (MakeFh3 (mkFh (i_Inum i) (i_Gen i)));
        mret (NFS3_OK, fh3, MkFattr i)) (nset_fs f3 s) Q.
Proof.
  intros a0 [Hn [Hne Hnn] Hni Hch Hin3 Hp3 [HE1 HF1] [Hnl Hkn] Hsz Hoth Hfr3] Hready HN Hio Hok.
  assert (f_inodes f3 !! n = Some p) as Hn3 by (by rewrite Hin3, lookup_insert_eq).
  assert (f_inodes f3 !! i = Some dip) as Hi3 by (by rewrite Hin3, lookup_insert_ne, lookup_singleton_eq).
  pose proof (ch_fs _ _ _ _ _ Hch) as Hs3.
  destruct (fi_own _ _ _ Hs3 i dip Hi3) as (_ & id0 & Hd0 & Hdi). destruct (fi_own _ _ _ Hs3 n p Hn3) as (_ & ip0 & Hip0 & Hpn).
  assert (ip0 = ip) as -> by congruence.
  assert (p <> dip) as Hpd by (intros ->; congruence).
  pose proof (changed_heap L E1 F1 a0 f3 n p ip Hch Hn3 Hp3) as Hip.
  apply wp_bind, wp_on_fs, (wp_ip_field p _ _ _ _ Hp3). simpl. rewrite Hpn.
  assert (forall f4, spared F1 {[i]} (f_a f3) (f_a f4) ->
    i_Size (F1 n) = 0 \/ (util_RoundUp (i_Size (F1 n)) BlockSize <= MaxBlks /\
      trimmed_file (F1 n) (f_a f4) (util_RoundUp (i_Size (F1 n)) BlockSize))) as Htrim.
  { intros f4 Hspare. rewrite Hip in Hsz. destruct Hsz as [Hz|[Hmax Ht]]; [by left|right]. split; [done|]. intros x Hx Hle.
    rewrite (spared_fptr F1 {[i]} (f_a f3) _ n x Hspare); [|done|set_solver|done]. by apply Ht. }
  apply wp_bind, wp_on_fs, (wp_AddName_any L E1 F1 a0 f3 i dip); [done|done| |done|done| |by rewrite HE1| |].
  { unfold dir_ready. rewrite HE1. exact Hready. }
  { rewrite Hip in Hkn. exact Hkn. }
  - intros j ipd f4 [[Hlen Hkd] Hslot Hfx Hch4 [Hin4 Hk4 Hs4 _] Hfr4 _ _ _ Hspare]. rewrite HE1 in Hslot, Hch4. rewrite HF1 in Hkd. simpl.
    apply wp_bind, wp_on_fs, (wp_ip_field p ip).
    { rewrite Hk4; [exact Hp3|done|by exists ip]. }
    unfold id. rewrite Hpn. apply wp_bind. eapply wp_lift; [apply MakeFh3_eq|]. apply wp_ret.
    apply (Hok j ipd); [|apply MakeFh3_eq]. split; try done.
    + apply (frame_trans F F1 _ _ (f_a f3)); [|done|by eapply frame_mono; [|exact Hfr4]; set_solver|done].
      apply (af_super _ _ (fi_from _ _ _ Hs3)).
    + by apply Htrim.
    + split; [apply (af_super _ _ (fi_from _ _ _ Hs3))|done].
  - intros f4 [Hs4 [Hin4 Hk4 Hsp4 _] Hwf Hspare _ Hwhy]. simpl. apply wp_bind.
    assert (f_heap f4 !! p = Some ip) as Hp4.
    { rewrite Hk4; [exact Hp3|done|by exists ip]. }
    apply (wp_decline a0 _ n p ip); [exact Hs4|simpl; congruence|exact Hp4| |by rewrite <-NULLINUM_eq|done| |].
    + simpl. pose proof (vo_inode _ _ (ch_vol _ _ _ _ _ Hch) n Hni) as Hd.
      split; [apply (fi_from _ _ _ Hs4)|apply Hs4| | |].
      * apply (file_wf_blks (F1 n)); [by rewrite Hip|]. by apply Hwf.
      * rewrite Hip. by destruct (di_wf _ _ _ Hd).
      * rewrite Hpn, Hsp4. exact Hni.
    + destruct (Htrim f4 Hspare) as [Hz|[Hmax Ht]]; [left; by rewrite Hip|right; rewrite Hip; by split].
    + intros s' Hs'. apply wp_ret, Hio; [|done]. by rewrite HE1, HF1 in Hwhy.
Qed.

(** A new file is empty. *)
Lemma prepared_new F s i dip kind n p ip' f2 f3 : server L E F s -> i_Kind (F i) <> NF3FREE ->
  kind <> NF3FREE -> got_new F s i kind dip n p ip' f2 f3 -> prepared F s i dip n p E (<[n := ip']> F) ip' f3.
Proof.
  intros Hsv Hk Hkf [Ht2 Hin2 Hsim2 _ Hia2 [Hn Hni Hnn (t1 & t2 & dc & Hm) _ Hch Hin3 Hp3 _ _ _ Hfr3] _].
  rewrite Hia2 in Hn. destruct (sv_free _ _ _ _ Hsv n Hn) as [Hkn Hszn]. assert (n <> i) as Hne by congruence.
  split; try done.
  - by rewrite Hin3, Hin2.
  - split; [done|]. by rewrite fn_lookup_insert_ne.
  - by rewrite Hm.
  - left. by rewrite Hm.
  - intros k Hk'. rewrite fn_lookup_insert_ne; [done|set_solver].
  - apply (frame_trans F F _ _ (f_a f2)); [apply Hsim2|by apply frame_sim; [apply Hsv|]| |done].
    eapply frame_mono; [|exact Hfr3]. set_solver.
Qed.

Lemma wp_doCreate_reg F s dfh fh name (Q : Z * Nfs_fh3 * Fattr3 -> NSt -> Prop) :
  let i := Ino fh in
  let a0 := f_a (n_fs s) in
  server L E F s -> retry <> 0%nat -> MakeFh dfh = Ok fh -> ino_ok (disk_of s) i -> i ∉ L ->
  dir_ready L E i -> spare_ready F (disk_of s) ->
  (forall f', ~ live F fh -> txn L E F a0 f' -> Q (NFS3ERR_STALE, zero, zero) (nset_fs f' s)) ->
  (forall f', live F fh -> is_Some (names (E i) !! name) -> txn L E F a0 f' ->
     Q (NFS3ERR_EXIST, zero, zero) (nset_fs f' s)) ->
  (forall f', live F fh -> names (E i) !! name = None -> alloc_free (a_ialloc (disk_of s)) = ∅ ->
     txn L E F a0 f' -> Q (NFS3ERR_NOSPC, zero, zero) (nset_fs f' s)) ->
  (forall s', live F fh -> names (E i) !! name = None ->
     MAXNAMELEN <= len name \/ i_Kind (F i) <> NF3DIR \/ no_room_in (E i) (disk_of s) -> fs_inv L a0 (n_fs s') ->
     Q (NFS3ERR_IO, zero, zero) s') ->
  (forall n j ip' ipd fh3 f1 f', live F fh -> names (E i) !! name = None ->
     (exists t1 t2 dc, ip' = made n NF3REG t1 t2 (with_Dcache dc (F n))) ->
     created F s i name n j E (<[n := ip']> F) f1 ipd f' -> MakeFh3 (mkFh n (i_Gen ip')) = Ok fh3 ->
     Q (NFS3_OK, fh3, MkFattr ip') (nset_fs f' s)) ->
  wp (doCreate retry dfh name NF3REG []) s Q.
Proof.
  intros i a0 Hsv Hre Hfh Hi HL Hready Hspare Hstale Hexist Hnospc Hio Hok. unfold doCreate.
  apply wp_bind, (wp_begin L E F); [done|]. intros _.
  apply wp_bind, (wp_getAlloc F s dfh fh name NF3REG); [done..| | | |].
  - intros f' Hdead Ht. rewrite bool_decide_eq_true_2 by done. by apply wp_ret, Hstale.
  - intros f' dip Hl HN Ht. rewrite bool_decide_eq_true_2 by done. by apply wp_ret, Hexist.
  - intros f' dip Hl HN He Ht. rewrite bool_decide_eq_true_2 by done. by apply wp_ret, Hnospc.
  - intros f2 f3 dip n p ip' Hl HN Hgn. rewrite bool_decide_eq_false_2 by tauto. pose proof Hl as [Hk _].
    apply wp_bind, wp_on_fs, wp_ret. apply wp_bind, wp_ret. simpl. apply wp_bind, wp_ret. simpl.
    apply (wp_add_new F s i dip name n p E (<[n := ip']> F) ip' f3);
      [by apply (prepared_new F s i dip NF3REG n p ip' f2)|done|done| |].
    + intros s' Hwhy Hs'. apply Hio; [done|done| |done].
      destruct Hwhy as [?|[?|[[Hfew ?]|?]]]; [by left|by right; left|right; right; left; split; [|done]|by right; right; right].
      unfold few_free in *. by rewrite <-(gn_balloc _ _ _ _ _ _ _ _ _ _ Hgn), <-(ac_balloc _ _ _ _ _ _ _ _ (gn_alloc _ _ _ _ _ _ _ _ _ _ Hgn)).
    + intros j ipd fh3 f' Hcr Hf3. apply (Hok n j ip' ipd fh3 f3); [done|done|apply (ac_made _ _ _ _ _ _ _ _ (gn_alloc _ _ _ _ _ _ _ _ _ _ Hgn))|done|done].
Qed.

Lemma names_set_slot es j n name : uniq es -> uniq (set_slot es j (mkDirEnt n name)) -> free_slot es j ->
  n <> NULLINUM -> names es !! name = None ->
  names (set_slot es j (mkDirEnt n name)) = <[name := n]> (names es).
Proof.
  intros Hu Hu' Hf Hn HN. apply lists_eq; [done|]. apply lists_add; [by apply lists_names|done..].
Qed.

(** The transaction that made the file [n] was committed in [s']. *)
Record entered F s i (name : list Z) n j E1 F1 f1 ipd s' : Prop := {
  et_server : server L (<[i := set_slot (E i) j (mkDirEnt n name)]> E1) (<[i := ipd]> F1) s';
  et_names : names (set_slot (E i) j (mkDirEnt n name)) = <[name := n]> (names (E i));
  et_new : spare (F n) /\ ino_ok (disk_of s) n;
  et_frame : frame F {[i; n]} (disk_of s) (disk_of s');
  et_super : a_super (disk_of s') = a_super (disk_of s);
  et_stable : stable_obj (a_log (disk_of s')) = log_obj (a_log (disk_of s'));
  et_bytes : forall k, in_file k -> fbyte (F1 n) (disk_of s') k = fbyte (F1 n) (f_a f1) k;
  et_size : i_Size (F1 n) = 0 \/ trimmed_file (F1 n) (disk_of s') (util_RoundUp (i_Size (F1 n)) BlockSize);
}.

Lemma wp_created_commit {A} F s i name n j E1 F1 f1 ipd f' (mk : Z -> A) (Q : A -> NSt -> Prop) : server L E F s ->
  ino_ok (disk_of s) i -> names (E i) !! name = None -> created F s i name n j E1 F1 f1 ipd f' ->
  (forall k, k ∉ ({[i; n]} : gset Z) -> F1 k = F k) ->
  (forall s', Q (mk NFS3ERR_SERVERFAULT) s') ->
  (forall s', entered F s i name n j E1 F1 f1 ipd s' -> Q (mk NFS3_OK) s') ->
  wp (st ← commitReply; mret (mk st)) (nset_fs f' s) Q.
Proof.
  intros Hsv Hi HN [Hfree [Hlen Hkd] [Hne Hnn] _ Hslot Hfx Hch Hfr Hsz [Hsp1 Hfr1]] Hoth HQf HQ.
  set (es := set_slot (E i) j (mkDirEnt n name)) in *.
  assert (a_super (f_a f') = a_super (disk_of s)) as Hsp.
  { apply (af_super _ _ (fi_from _ _ _ (ch_fs _ _ _ _ _ Hch))). }
  assert (names es = <[name := n]> (names (E i))) as Hnames.
  { apply names_set_slot; [by apply (dr_uniq _ _ _ (sv_dirs _ _ _ _ Hsv))| |done..].
    pose proof (dr_uniq _ _ _ (ch_dirs _ _ _ _ _ Hch) i) as Hu. rewrite fn_lookup_insert in Hu. apply Hu.
    by eapply ino_ok_super; [|exact Hi]. }
  assert (ino_ok (disk_of s) n) as Hno.
  { pose proof (al_free _ _ _ _ _ (qi_ialloc _ (si_quiet _ _ (sv_inv _ _ _ _ Hsv))) n Hfree) as Hv.
    unfold valid_inum, ino_ok in *. simpl. lia. }
  assert (file_wf (F1 n) (f_a f')) as Hwf.
  { pose proof (vo_file _ _ (ch_vol _ _ _ _ _ Hch) n) as Hv. rewrite fn_lookup_insert_ne in Hv by done.
    apply Hv. eapply ino_ok_super; [|exact Hno]. by symmetry. }
  apply wp_bind. unfold commitReply. eapply wp_bind, wp_commit_changed; [apply Hch|].
  intros ok s' _ _ Hok Hstb _. apply wp_ret, wp_ret. destruct ok; [|apply HQf].
  destruct (Hok _ Hch eq_refl) as [Hsv' Hsim']. apply HQ.
  split; [done|done|split; [by apply (sv_free _ _ _ _ Hsv)|done]| | |by apply Hstb| |].
  - eapply frame_trans; [exact Hsp|exact Hfr|by apply frame_sim; [apply Hch|]|].
    intros k Hk. rewrite fn_lookup_insert_ne by set_solver. by apply Hoth.
  - transitivity (a_super (f_a f')); [apply Hsim'|done].
  - intros k Hk. rewrite (sim_fbyte (F1 n) (f_a f')) by done. apply Hfr1; [|set_solver|done].
    eapply ino_ok_super; [|exact Hno]. by symmetry.
  - destruct Hsz as [Hz|[_ Ht]]; [by left|right]. intros x Hx Hle. rewrite (sim_fptr (F1 n) (f_a f')) by done. by apply Ht.
Qed.

(** The reply of CREATE for a new name in a live directory, when an inode is
    free. *)
Record create_reply F s i (name : list Z) (rep : CREATE3res) s' : Prop := {
  cy_status : CREATE3res_Status rep = NFS3_OK \/ CREATE3res_Status rep = NFS3ERR_IO \/
    CREATE3res_Status rep = NFS3ERR_SERVERFAULT;
  (* nothing was stored *)
  cy_io : CREATE3res_Status rep = NFS3ERR_IO -> sim (disk_of s) (disk_of s') /\
    (MAXNAMELEN <= len name \/ i_Kind (F i) <> NF3DIR \/ no_room_in (E i) (disk_of s));
  cy_ok : CREATE3res_Status rep = NFS3_OK -> exists n j ip' ipd fh3,
    rep = mkCREATE3res NFS3_OK
      (mkCREATE3resok (mkPost_op_fh3 true fh3) (mkPost_op_attr true (MkFattr ip')) zero) zero /\
    MakeFh3 (mkFh n (i_Gen ip')) = Ok fh3 /\
    n ∈ alloc_free (a_ialloc (disk_of s)) /\ spare (F n) /\ n <> i /\ ino_ok (disk_of s) n /\
    len name < MAXNAMELEN /\ i_Kind (F i) = NF3DIR /\
    (exists t1 t2 dc, ip' = made n NF3REG t1 t2 (with_Dcache dc (F n))) /\ fixed (F i) ipd /\
    let es := set_slot (E i) j (mkDirEnt n name) in
    names es = <[name := n]> (names (E i)) /\ (length es <= S (length (E i)))%nat /\
    (forall e, e ∈ es -> e = mkDirEnt n name \/ e ∈ E i) /\
    server L (<[i := es]> E) (<[i := ipd]> (<[n := ip']> F)) s' /\
    frame F {[i; n]} (disk_of s) (disk_of s') /\
    a_super (disk_of s') = a_super (disk_of s) /\
    stable_obj (a_log (disk_of s')) = log_obj (a_log (disk_of s'));
}.

Lemma wp_create_commit F s i name n j ip' f1 ipd fh3 f' (Q : CREATE3res -> NSt -> Prop) : server L E F s ->
  ino_ok (disk_of s) i -> names (E i) !! name = None ->
  (exists t1 t2 dc, ip' = made n NF3REG t1 t2 (with_Dcache dc (F n))) ->
  created F s i name n j E (<[n := ip']> F) f1 ipd f' -> MakeFh3 (mkFh n (i_Gen ip')) = Ok fh3 ->
  (forall rep s', create_reply F s i name rep s' -> Q rep s') ->
  wp (st ← commitReply;
      mret (mkCREATE3res st (mkCREATE3resok (mkPost_op_fh3 true fh3) (mkPost_op_attr true (MkFattr ip')) zero)
              zero)) (nset_fs f' s) Q.
Proof.
  intros Hsv Hi HN Hm Hcr Hfh HQ.
  apply (wp_created_commit F s i name n j E (<[n := ip']> F) f1 ipd f'
    (fun st => mkCREATE3res st (mkCREATE3resok (mkPost_op_fh3 true fh3) (mkPost_op_attr true (MkFattr ip')) zero) zero));
    [done|done|done|exact Hcr| | |].
  { intros k Hk. rewrite fn_lookup_insert_ne; [done|set_solver]. }
  { intros s'. apply HQ. split; simpl; [by auto|done|done]. }
  intros s' [Hsv' Hnames [Hsp Hno] Hfr Hsup Hst _ _]. destruct Hcr as [Hfree [Hlen Hkd] [Hne Hnn] _ Hslot Hfx _ _ _ _].
  rewrite fn_lookup_insert_ne in Hfx by done.
  apply HQ. split; simpl; [by auto|done|]. intros _. exists n, j, ip', ipd, fh3.
  split_and!; [done|done|done|done|done|done|done|done|done|done|done| | |done|done|done|done].
  - destruct Hslot as [Hj _]. rewrite set_slot_length by done. lia.
  - intros e He. apply set_slot_elem in He; [done|apply Hslot].
Qed.

Lemma wp_CREATE F s args fh (Q : CREATE3res -> NSt -> Prop) :
  let dir := Diropargs3_Dir (CREATE3args_Where args) in
  let name := Diropargs3_Name (CREATE3args_Where args) in
  server L E F s -> retry <> 0%nat -> MakeFh dir = Ok fh -> ino_ok (disk_of s) (Ino fh) -> Ino fh ∉ L ->
  Createhow3_Mode (CREATE3args_How args) <> EXCLUSIVE ->
  dir_ready L E (Ino fh) -> spare_ready F (disk_of s) ->
  (forall st s', (~ live F fh /\ st = NFS3ERR_STALE) \/
     (live F fh /\ is_Some (names (E (Ino fh)) !! name) /\ st = NFS3ERR_EXIST) \/
     (live F fh /\ names (E (Ino fh)) !! name = None /\ alloc_free (a_ialloc (disk_of s)) = ∅ /\ st = NFS3ERR_NOSPC) ->
     server L E F s' -> sim (disk_of s) (disk_of s') -> Q (mkCREATE3res st zero zero) s') ->
  (forall rep s', live F fh -> names (E (Ino fh)) !! name = None -> create_reply F s (Ino fh) name rep s' -> Q rep s') ->
  wp (NFSPROC3_CREATE retry args) s Q.
Proof.
  intros dir name Hsv Hre Hfh Hi HL Hmode Hready Hspare Hfail Hok. unfold NFSPROC3_CREATE. fold dir name.
  rewrite bool_decide_eq_false_2 by done. apply wp_bind, (wp_doCreate_reg F s dir fh name); [done..| | | | |].
  - intros f' Hdead Ht. rewrite bool_decide_eq_true_2 by done.
    apply wp_bind, (wp_errRet L E F (f_a (n_fs s))); [done|]. intros s' _ Hsv' Hsim.
    apply wp_ret, Hfail; [by left|done|done].
  - intros f' Hl HN Ht. rewrite bool_decide_eq_true_2 by done.
    apply wp_bind, (wp_errRet L E F (f_a (n_fs s))); [done|]. intros s' _ Hsv' Hsim.
    apply wp_ret, Hfail; [by right; left|done|done].
  - intros f' Hl HN He Ht. rewrite bool_decide_eq_true_2 by done.
    apply wp_bind, (wp_errRet L E F (f_a (n_fs s))); [done|]. intros s' _ Hsv' Hsim.
    apply wp_ret, Hfail; [by right; right|done|done].
  - intros f' Hl HN Hwhy Hs'. rewrite bool_decide_eq_true_2 by done.
    apply wp_bind. unfold errRet. apply wp_bind, wp_on_fs, (wp_Abort_gen L (f_a (n_fs s))); [done|apply Hsv|apply Hsv|].
    intros f3 _ _ _ Hsim3 _ _ _ _. apply wp_ret, wp_ret, Hok; [done|done|]. split; simpl; [by auto|done|done].
  - intros n j ip' ipd fh3 f1 f' Hl HN Hm Hcr Hf3. rewrite bool_decide_eq_false_2 by tauto.
    eapply wp_create_commit; [done|done|done|exact Hm|exact Hcr|done|]. intros rep s' Hrep. by apply Hok.
Qed.
End create.
