(* ===== verification/NfsRemove.v ===== *)
(** Removing a file or an empty directory: its name, its last link with its
    blocks and its inode, [doRemove], and the procedures REMOVE and RMDIR. *)
From stdpp Require Import functions.
From S2P Require Import Prelude Nfstypes External Reference Super Fh Cache Dcache Alloctxn AtxnCommit Inode.
From S2P Require Import InodeCodec InodeMap InodeIO InodeBound Volume InodeClaims InodeShrink InodeResize Fstxn FstxnInv Dir DirSpec DirVol.
From S2P Require Import Lorder Shrinker NfsOps NfsFiles NfsDirs NfsNames NfsList NfsCreate.
Import Nfs.

Section remove.
Context `{!Common} `{!CommonSpec} `{!Util} `{!UtilSpec} `{!Marshal} `{!MarshalSpec} `{!Std}
  `{!Buf} `{!BufSpec} `{!Journal} `{!JournalSpec} `{!AllocPkg} `{!AllocSpec}
  `{!LockPkg} `{!LockSpec} `{!Clock} `{!DiskPkg}.
Variable L : gset Z.
Implicit Types (E : Z -> list dirEnt) (F : Z -> Inode) (f : FSt) (s : NSt) (a : ASt) (i n p dip : Z) (ip : Inode)
  (es : list dirEnt).

(** ** The name *)

Definition no_entry : dirEnt := mkDirEnt NULLINUM [].

Lemma no_entry_unused : ~ in_use no_entry.
Proof. by intros Hu. Qed.

Lemma wp_RemName_any E F a0 f i dip name inum (Q : bool -> FSt -> Prop) : changed L E F a0 f ->
  f_inodes f !! i = Some dip -> dir_ready L E i -> names (E i) !! name = Some inum ->
  (forall j ip' f', E i !! j = Some (mkDirEnt inum name) -> fixed (F i) ip' ->
     names (set_slot (E i) j no_entry) = delete name (names (E i)) ->
     changed L (<[i := set_slot (E i) j no_entry]> E) (<[i := ip']> F) a0 f' ->
     same_txn dip f f' -> spared F {[i]} (f_a f) (f_a f') -> Q true f') ->
  wp (RemName dip name) f Q.
Proof.
  intros Hch Ho [Hmany Hfree] HN HQ. pose proof (ch_fs _ _ _ _ _ Hch) as Hs.
  destruct (fi_own _ _ _ Hs i dip Ho) as (Hi & ip & Hp & _). pose proof (ch_dirs _ _ _ _ _ Hch) as Hd.
  pose proof (changed_heap L E F a0 f i dip ip Hch Ho Hp) as Hip. rewrite Hip in Hp.
  assert (i_Kind (F i) = NF3DIR) as Hkind.
  { destruct (decide (i_Kind (F i) = NF3DIR)) as [|Hk]; [done|]. by rewrite (dr_none _ _ _ Hd i Hi Hk) in HN. }
  pose proof (dr_slots _ _ _ Hd i Hi Hkind) as Hsl. pose proof (dr_uniq _ _ _ Hd i Hi) as Hu.
  assert (len name < MAXNAMELEN) as Hlen.
  { apply names_Some in HN as (j & Hj & _); [|done].
    by destruct (Forall_lookup_1 _ _ _ _ (sl_wf _ _ _ Hsl) Hj). }
  unfold RemName. apply wp_bind, (wp_ip_field dip _ _ _ _ Hp). simpl.
  rewrite Hkind, (bool_decide_eq_false_2 (_ <> _)), (proj2 (Z.leb_gt _ _) Hlen) by tauto. simpl.
  apply wp_bind, (wp_ensure_dcache_any L a0 i dip (i_Dcache ip) f F E); [apply Hch|done|done|apply Hch..|done|done|done|].
  intros f1 dc Hs1 Hl1 Hn1 Hnames. pose proof (da_heap _ _ _ _ (dn_at _ _ _ _ _ _ Hnames)) as Hp1.
  assert (changed L E F a0 f1) as Hch1 by (apply (changed_looked L E F a0 f f1 dip); [done|by rewrite Hp|done..]).
  assert (f_inodes f1 !! i = Some dip) as Ho1 by (by rewrite (lk_inodes _ _ _ Hl1)).
  destruct (fi_own _ _ _ Hs1 i dip Ho1) as [Hi1 _]. pose proof (lk_sim _ _ _ Hl1) as Hsim1.
  eapply wp_rem_entry; [exact Hnames|congruence|].
  intros j inum' dc' ip' f' HN' He Hst [Hat Hdc Hok Hls] Hsy. assert (inum' = inum) as -> by congruence.
  pose proof (set_step_replaced F f1 i dip _ f' ip' (ch_vol _ _ _ _ _ Hch1) Hi1 eq_refl (dir_step_set _ _ _ _ _ Hst) Hsy) as Hrp.
  assert (fixed (F i) ip') as Hfx by (eapply fixed_Dcache, (to_fixed _ _ _ _ (ds_touched _ _ _ _ _ Hst))).
  apply (HQ j ip'); [done|done| | |..].
  - apply lists_eq; [by eapply dcache_uniq|exact Hls].
  - apply (changed_dir L E F a0 f1 f' i dip ip' Hch1 Ho1 Hrp _ dc'); [apply Hat|done|done|by rewrite Hkind| |].
    { rewrite Hfx. apply (ch_linked _ _ _ _ _ Hch1); [done|by rewrite Hkind]. }
    intros e [->|Hee]%set_slot_elem Hue; [by destruct no_entry_unused| |apply lookup_lt_Some in He; lia].
    destruct (dr_live _ _ _ (ch_dirs _ _ _ _ _ Hch1) i e Hi1 Hee Hue). tauto.
  - apply (same_txn_trans dip f f1 f'); [by apply looked_same|by eapply step_same].
  - apply (spared_trans F F _ _ (f_a f1)); [apply Hsim1|by apply spared_sim; [apply Hch|]| |done].
    by apply (rp_spared L E F a0 f1 f' i dip ip').
Qed.

(** ** The last link *)

(** Cutting an inode of the volume. *)
Lemma shrunk_replaced F f i p ip ip' a1 a2 : vol_ok F (f_a f) -> ino_ok (f_a f) i -> F i = ip ->
  shrunk ip (f_a f) ip' a1 (i_ShrinkSize ip') -> is_u64 (i_ShrinkSize ip') -> wi_post ip' a1 a2 ->
  replaced F i p f ip' (fset_a a2 (fset_heap (<[p := ip']> (f_heap f)) f)).
Proof.
  intros Hv Hi HF Hs Hn Hwi. pose proof (di_Inum _ _ _ (vo_inode _ _ Hv i Hi)) as Hin. rewrite HF in Hin.
  pose proof (sh_keeps _ _ _ _ _ Hs) as Hk. split; simpl.
  - done.
  - eapply keeps_trans; [exact Hk|]. apply keeps_grow, Hwi.
  - rewrite <-Hin. eapply shrunk_vol; [exact Hv|by rewrite Hin|by rewrite Hin|exact Hs|done|exact Hwi].
  - intros j Hj Hne. rewrite (wi_other _ _ _ Hwi); [by apply (sh_inodes _ _ _ _ _ Hs)|by rewrite (kp_super _ _ Hk)|].
    rewrite (sh_ip _ _ _ _ _ Hs). simpl. congruence.
  - intros j x Hj Hne Hx Hnz. pose proof (fw_used _ _ (vo_file _ _ Hv j Hj) x Hx Hnz) as Hu.
    rewrite (wi_blk _ _ _ Hwi) by (rewrite (kp_super _ _ Hk); apply Hu). apply (sh_blk _ _ _ _ _ Hs); [done|].
    intros y Hy Heq. apply Hnz. apply (vo_sep _ _ Hv j i x y); [done..|]. by rewrite HF.
Qed.

Lemma stored_replaced F f i p ip f' ip' : vol_ok F (f_a f) -> ino_ok (f_a f) i ->
  ip = with_Dcache (i_Dcache ip) (F i) -> stored p f ip f' ip' -> replaced F i p f ip' f'.
Proof. intros Hv Hi Hip [Hst Hsy _ _ _ _]. by apply (set_step_replaced F f i p ip). Qed.

Lemma resize_replaced sz F f i p ip ds t : vol_ok F (f_a f) -> ino_ok (f_a f) i -> ip = with_Dcache (i_Dcache ip) (F i) ->
  is_u64 sz -> trimmed_file ip (f_a f) (util_RoundUp (i_Size ip) BlockSize) -> resize_post sz ip (f_a f) ds t ->
  replaced F i p f t.1 (fset_a t.2 (fset_heap (<[p := t.1]> (f_heap f)) f)).
Proof.
  intros Hv Hi Hip Hsz Ht (a1 & Hwi & _ & Hcase).
  assert (file_ok ip (f_a f)) as Hok by (rewrite Hip; by apply file_ok_Dcache, vol_file_ok). set (ip1 := resized sz ip) in *.
  destruct (resized_stored sz ip (f_a f) a1 Hok Hsz Ht Hwi) as (Hok1 & _ & _).
  pose proof (stored_replaced F f i p ip _ ip1 Hv Hi Hip
    (wi_stored f p ip ip1 a1 Hok eq_refl eq_refl (fo_inode _ _ (resized_ok sz ip _ Hok Hsz)) Hwi)) as Hr1.
  destruct Hcase as [[-> _]|(_ & _ & more & Hp)]; [exact Hr1|].
  destruct t as [ip2 a2]. cbn [fst snd] in *. destruct (sk_shrunk _ _ _ _ _ Hp) as (a3 & Hs & Hwi2 & _).
  eapply replaced_trans; [exact Hr1|]. set (f1 := fset_a a1 (fset_heap (<[p := ip1]> (f_heap f)) f)) in *.
  assert (fset_a a2 (fset_heap (<[p := ip2]> (f_heap f)) f) =
    fset_a a2 (fset_heap (<[p := ip2]> (f_heap f1)) f1)) as -> by (simpl; by rewrite insert_insert_eq).
  apply (shrunk_replaced _ f1 i p ip1 ip2 a3); [apply Hr1| |apply fn_lookup_insert|exact Hs|exact (sk_u64 _ _ _ _ _ Hok1 Hp)|exact Hwi2].
  eapply ino_ok_super; [|exact Hi]. symmetry. apply Hr1.
Qed.

Lemma sim_free_num a0 f i : fs_inv L a0 f -> valid_inum (a_super (f_a f)) i -> sim (f_a f) (free_num i (f_a f)).
Proof.
  intros Hs Hi. pose proof (fs_inv_FreeINum L a0 f i Hs Hi) as Hs'.
  split; [done|apply (fi_from _ _ _ Hs')|apply Hs'|done..].
Qed.

(** Freeing the number of a spare inode. *)
Lemma changed_free_num E F a0 f i : changed L E F a0 f -> valid_inum (a_super (f_a f)) i -> spare (F i) ->
  changed L E F a0 (fset_a (free_num i (f_a f)) f).
Proof.
  intros [Hs Hb Hv Hsy Hl Hd Hn Hf] Hi Hsp. pose proof (fs_inv_FreeINum L a0 f i Hs Hi) as Hs'.
  pose proof (sim_free_num a0 f i Hs Hi) as Hsim.
  split; [done|done|by eapply sim_vol| |done|by eapply dirs_sim|exact Hn|].
  - intros j p ip Hj Hp. destruct (fi_own _ _ _ Hs j p Hj) as [Hjo _].
    apply (sim_disk_inode (f_a f)); [done|done|by apply (Hsy j p)].
  - intros j. simpl. rewrite list_to_set_app_L, elem_of_union, elem_of_union. simpl.
    intros [Hj|[Hj|Hj]]; [apply Hf; set_solver..|]. assert (j = i) as -> by set_solver. done.
Qed.

(** The inode [ip] after its last link went. *)
Definition gone ip ip' : Prop := exists n b dc,
  ip' = freed (with_ShrinkSize n (with_blks b (with_Size 0 (with_Nlink 0 (with_Dcache dc ip))))).

Lemma gone_spare ip ip' : gone ip ip' -> spare ip'.
Proof. by intros (n & b & dc & ->). Qed.

(** What became of the blocks of the inode [ip] of [a], number [i], when it had
    no link any more and was cut to [ip']: those past the cut are [fr]. All of
    them are, or the transaction of [a'] is full, or the blocks do not fit it
    and are left to the last of the shrinkers [ts'], which was started for
    them; the others are [ts]. *)
Record released ip a i ip' (fr : Z -> Prop) (ts ts' : list Z) a' : Prop := {
  rl_freed : forall x, pos_ok x -> i_ShrinkSize ip' <= firstblk x -> fptr ip a x <> 0 -> fr (fptr ip a x);
  rl_rest : (i_ShrinkSize ip' = 0 /\ ts' = ts) \/
    (i_ShrinkSize ip' <= util_RoundUp (i_Size ip) BlockSize /\ LogBlocks <= NDirty (a_op a') + 5 /\ ts' = ts) \/
    (0 < i_ShrinkSize ip' /\ i_ShrinkSize ip' = util_RoundUp (i_Size ip) BlockSize /\
       LogBlocks <= NDirty (a_op a') + i_ShrinkSize ip' /\ ts' = ts ++ [i]);
}.

Lemma released_mono ip a b i ip' (fr fr' : Z -> Prop) ts ts' a' b' : released ip a i ip' fr ts ts' a' ->
  (forall x, pos_ok x -> fptr ip b x = fptr ip a x) -> (forall n, fr n -> fr' n) ->
  NDirty (a_op a') <= NDirty (a_op b') -> released ip b i ip' fr' ts ts' b'.
Proof.
  intros [Hf Hr] Hp Hfr Hd. split; [|destruct Hr as [?|[(? & ? & ?)|(? & ? & ? & ?)]]; [by left|right; left|right; right];
    split_and!; lia || done].
  intros x Hx Hn. rewrite Hp by done. intros Hnz. by apply Hfr, Hf.
Qed.

Lemma resize_released ip a i ds ip' a' fr (ts : list Z) : resize_done 0 ip a ds ip' a' (i_ShrinkSize ip') ->
  (forall n, n ∈ a_freeBnums a' -> fr n) -> released ip a i ip' fr ts (if ds then ts ++ [i] else ts) a'.
Proof.
  intros [_ _ _ _ _ Hfreed Hn _ Ht Hall _ Hmax] Hfr. rewrite RoundUp_0 in *. split.
  - intros x Hx Hle Hnz. apply Hfr, Hfreed. right. by exists x.
  - destruct ds.
    + destruct (Ht eq_refl) as (H0' & Hn' & Hl). right; right. rewrite Z.sub_0_r in Hl. split_and!; [lia|lia|lia|done].
    + destruct (Hall eq_refl) as [?|?]; [by left|right; left]. split_and!; [|done|done].
      pose proof (RoundUp_u64 (i_Size ip) BlockSize) as Hu. unfold is_u64 in Hu. lia.
Qed.

(** A new link count on disk. *)
Lemma changed_links E F a0 f i p ip n f' : changed L E F a0 f -> f_inodes f !! i = Some p -> f_heap f !! p = Some ip ->
  i_Kind (F i) <> NF3FREE -> n <> 0 -> stored p f ip f' (with_Nlink n ip) ->
  changed L E (<[i := with_Nlink n ip]> F) a0 f' /\ replaced F i p f (with_Nlink n ip) f'.
Proof.
  intros Hch Ho Hp Hk Hn Hst. pose proof (ch_vol _ _ _ _ _ Hch) as Hv.
  destruct (fi_own _ _ _ (ch_fs _ _ _ _ _ Hch) _ _ Ho) as (Hi & _).
  pose proof (changed_heap L E F a0 f i p ip Hch Ho Hp) as Hip. set (ip' := with_Nlink n ip) in *.
  pose proof (stored_replaced F f i p ip f' ip' Hv Hi Hip Hst) as Hrp. split; [|exact Hrp].
  assert (i ∉ alloc_free (a_ialloc (f_a f)) ∪ list_to_set (a_freeInums (f_a f))) as Hnf.
  { intros Hf. by destruct (ch_free _ _ _ _ _ Hch i Hf). }
  assert (i_Kind ip' = i_Kind (F i)) as Hk' by (simpl; by rewrite Hip).
  destruct (decide (i_Kind (F i) = NF3DIR)) as [Hkd|Hkd].
  2: { apply (changed_file L E F a0 f f' i p ip' Hch Ho Hrp ip);
         [done|done|by rewrite Hk'|by intros _ _; rewrite Hk'|by intros _|done|by right]. }
  pose proof (dr_slots _ _ _ (ch_dirs _ _ _ _ _ Hch) i Hi Hkd) as Hsl.
  apply (changed_ext L (<[i := E i]> E)).
  { intros j. destruct (decide (j = i)) as [->|]; by rewrite ?fn_lookup_insert, ?fn_lookup_insert_ne. }
  pose proof (ss_ok _ _ _ _ _ (st_step _ _ _ _ _ Hst)) as Hok'.
  apply (changed_dir_any L E F a0 f f' i p ip' Hch Ho Hrp);
    [|by apply (dr_uniq _ _ _ (ch_dirs _ _ _ _ _ Hch))| |exact Hnf|exact Hn|].
  - assert (slots (E i) ip' (f_a f)) as Hsl0.
    { assert (file_ok ip' (f_a f)) as Hokf.
      { assert (file_ok ip (f_a f)) as Hok by (rewrite Hip; by apply file_ok_Dcache, vol_file_ok).
        split; [apply Hok|apply Hok|by apply (file_wf_blks ip); [|apply Hok]|apply Hok'|apply Hok]. }
      unfold ip' in *. rewrite Hip in *. destruct Hsl; by split. }
    apply (slots_frame _ _ (f_a f)); [done|exact Hok'|].
    intros x Hx Hxz. apply (st_blk _ _ _ _ _ Hst). by apply (fw_used _ _ (fo_file _ _ (sl_file _ _ _ Hsl0))).
  - intros dc Hdc. by apply (ch_names _ _ _ _ _ Hch i p ip); [left|done|rewrite Hip|].
  - intros e He Hu. by destruct (dr_live _ _ _ (ch_dirs _ _ _ _ _ Hch) i e Hi He Hu).
Qed.

(** A link that is not the last. *)
Lemma wp_spare_link E F a0 s i p (Q : unit -> NSt -> Prop) : changed L E F a0 (n_fs s) ->
  f_inodes (n_fs s) !! i = Some p -> i_Kind (F i) <> NF3FREE -> i_Nlink (F i) <> 1 ->
  (forall dc s', let ip' := with_Dcache dc (unlinked (F i)) in
     changed L E (<[i := ip']> F) a0 (n_fs s') -> frame F {[i]} (f_a (n_fs s)) (f_a (n_fs s')) ->
     n_threads s' = n_threads s -> f_inodes (n_fs s') = f_inodes (n_fs s) -> Q tt s') ->
  wp (doDecLink p) s Q.
Proof.
  intros Hch Ho Hk Hnl HQ. set (f := n_fs s) in *. pose proof (ch_vol _ _ _ _ _ Hch) as Hv.
  destruct (fi_own _ _ _ (ch_fs _ _ _ _ _ Hch) i p Ho) as (Hi & ip & Hp & Hin).
  pose proof (changed_heap L E F a0 f i p ip Hch Ho Hp) as Hip.
  assert (file_ok ip (f_a f)) as Hok by (rewrite Hip; apply file_ok_Dcache; by apply vol_file_ok).
  assert (i_Nlink (unlinked ip) <> 0) as Hn.
  { pose proof (ch_linked _ _ _ _ _ Hch i Hi Hk) as Hl. pose proof (iw_Nlink _ (fo_inode _ _ Hok)) as Hu.
    rewrite Hip in *. simpl in *. unfold is_u32 in Hu. rewrite w32_small by lia. lia. }
  unfold doDecLink. apply wp_bind, wp_on_fs, (wp_DecLink f p ip); [done|done|]. intros f1 Hst.
  rewrite bool_decide_eq_false_2 by done. apply wp_ret.
  destruct (changed_links E F a0 f i p ip _ f1 Hch Ho Hp Hk Hn Hst) as [Hch1 Hrp].
  apply (HQ (i_Dcache ip));
    [|by apply (rp_frame L E F a0 f f1 i p (unlinked ip))|done|apply (rp_inodes F f f1 i p (unlinked ip) Hrp)].
  simpl. assert (with_Dcache (i_Dcache ip) (unlinked (F i)) = unlinked ip) as ->; [|exact Hch1].
  rewrite Hip. done.
Qed.

Lemma wp_last_link E F a0 s i p (Q : unit -> NSt -> Prop) : changed L E F a0 (n_fs s) ->
  f_inodes (n_fs s) !! i = Some p -> i <> NULLINUM -> i_Nlink (F i) = 1 ->
  util_RoundUp (i_Size (F i)) BlockSize <= MaxBlks ->
  trimmed_file (F i) (f_a (n_fs s)) (util_RoundUp (i_Size (F i)) BlockSize) -> ~ named (<[i := []]> E) (f_a (n_fs s)) i ->
  (forall ip' s', gone (F i) ip' -> changed L (<[i := []]> E) (<[i := ip']> F) a0 (n_fs s') ->
     frame F {[i]} (f_a (n_fs s)) (f_a (n_fs s')) -> i ∈ a_freeInums (f_a (n_fs s')) ->
     released (F i) (f_a (n_fs s)) i ip' (fun b => b ∈ a_freeBnums (f_a (n_fs s'))) (n_threads s) (n_threads s') (f_a (n_fs s')) ->
     f_inodes (n_fs s') = f_inodes (n_fs s) -> Q tt s') ->
  wp (doDecLink p) s Q.
Proof.
  intros Hch Ho Hnull Hnl Hmax Ht Hnm HQ. set (f := n_fs s) in *.
  destruct (fi_own _ _ _ (ch_fs _ _ _ _ _ Hch) i p Ho) as (Hi & ip & Hp & Hin).
  pose proof (changed_heap L E F a0 f i p ip Hch Ho Hp) as Hip. pose proof (ch_vol _ _ _ _ _ Hch) as Hv.
  assert (file_ok ip (f_a f)) as Hok by (rewrite Hip; apply file_ok_Dcache; by apply vol_file_ok).
  unfold doDecLink. apply wp_bind, wp_on_fs, (wp_DecLink f p ip); [done|done|]. intros f1 Hst1.
  rewrite bool_decide_eq_true_2 by (rewrite Hip; simpl; by rewrite Hnl).
  pose proof (stored_replaced F f i p ip f1 _ Hv Hi Hip Hst1) as Hr1.
  set (ip1 := unlinked ip) in *. set (F1 := <[i := ip1]> F).
  assert (F1 i = ip1) as HF1 by apply fn_lookup_insert.
  assert (ino_ok (f_a f1) i) as Hi1 by (eapply ino_ok_super; [|exact Hi]; symmetry; apply Hr1).
  assert (i_Size ip1 = i_Size (F i)) as Hsz by (unfold ip1; rewrite Hip; done).
  assert (trimmed_file ip1 (f_a f1) (util_RoundUp (i_Size ip1) BlockSize)) as Ht1.
  { rewrite Hsz. intros x Hx Hle. rewrite (st_ptr _ _ _ _ _ Hst1) by done. rewrite Hip. by apply Ht. }
  apply wp_bind, wp_on_fs, (wp_on_ip p ip1); [apply (ss_heap p f ip), Hst1|].
  assert (is_u64 0) as H0u by (unfold is_u64; lia).
  apply wp_Resize; [apply Hst1|done|by rewrite Hsz|done|]. intros ds t Hpost.
  assert (file_ok ip1 (f_a f1)) as Hok1 by apply Hst1.
  assert (ip1 = with_Dcache (i_Dcache ip1) (F1 i)) as Hd1 by (rewrite HF1; by destruct ip1).
  pose proof (resize_replaced 0 F1 f1 i p ip1 ds t (rp_vol _ _ _ _ _ _ Hr1) Hi1 Hd1 H0u Ht1 Hpost) as Hr2.
  pose proof (resize_contents 0 ip1 (f_a f1) ds t Hok1 H0u ltac:(by rewrite Hsz) Ht1 Hpost) as Hdone.
  pose proof (rz_ok _ _ _ _ _ _ _ Hdone) as Hok2. pose proof (rz_ip _ _ _ _ _ _ _ Hdone) as Hip2.
  set (n := i_ShrinkSize t.1) in *. set (b := i_blks t.1) in *.
  set (f2 := fset_a t.2 (fset_heap (<[p := t.1]> (f_heap f1)) f1)) in *.
  pose proof (replaced_trans F i p f ip1 f1 t.1 f2 Hr1 Hr2) as Hr12.
  assert (ino_ok (f_a f2) i) as Hi2 by (eapply ino_ok_super; [|exact Hi]; symmetry; apply Hr12).
  apply wp_bind, wp_on_fs, (wp_FreeInode f2 p t.1); [apply lookup_insert_eq|exact Hok2|]. intros f3 Hst3.
  assert (t.1 = with_Dcache (i_Dcache t.1) ((<[i := t.1]> F) i)) as Hd3 by (rewrite fn_lookup_insert; by destruct t.1).
  pose proof (stored_replaced _ f2 i p t.1 f3 _ (rp_vol _ _ _ _ _ _ Hr12) Hi2 Hd3 Hst3) as Hr3.
  pose proof (replaced_trans F i p f t.1 f2 _ f3 Hr12 Hr3) as Hr. set (ip3 := freed t.1) in *.
  assert (gone (F i) ip3) as Hgone.
  { exists n, b, (i_Dcache ip). unfold ip3. rewrite Hip2. unfold ip1, unlinked. rewrite Hip. simpl. by rewrite Hnl. }
  assert (changed L (<[i := []]> E) (<[i := ip3]> F) a0 f3) as Hch3.
  { apply (changed_dropped L E F a0 f f3 i p ip3 Hch Ho Hr); [done|done|by intros Hk|by eapply gone_spare]. }
  assert (i_Inum t.1 = i) as Hin2 by (rewrite Hip2; exact Hin). rewrite Hin2.
  set (f4 := fset_a (free_num i (f_a f3)) f3).
  assert (valid_inum (a_super (f_a f3)) i) as Hvi.
  { rewrite (kp_super _ _ (rp_keeps _ _ _ _ _ _ Hr)). rewrite NULLINUM_eq in Hnull. unfold valid_inum, ino_ok in *. lia. }
  assert (changed L (<[i := []]> E) (<[i := ip3]> F) a0 f4) as Hch4.
  { apply changed_free_num; [done|done|rewrite fn_lookup_insert; by eapply gone_spare]. }
  assert (frame F {[i]} (f_a f) (f_a f4)) as Hfr.
  { apply (frame_trans F (<[i := ip3]> F) _ _ (f_a f3)); [apply Hr|exact (rp_frame L E F a0 f f3 i p ip3 Hch Ho Hr)| |].
    - apply frame_sim; [apply Hch3|]. apply (sim_free_num a0); [apply Hch3|done].
    - intros j Hj. rewrite fn_lookup_insert_ne; [done|set_solver]. }
  assert (i ∈ a_freeInums (f_a f4)) as Hfree by (simpl; apply elem_of_app; right; by apply list_elem_of_singleton).
  pose proof (rp_inodes F f f3 i p ip3 Hr : f_inodes f4 = f_inodes f) as Hino.
  assert (released (F i) (f_a f) i ip3 (fun b => b ∈ a_freeBnums (f_a f4)) (n_threads s)
    (if ds then n_threads s ++ [i] else n_threads s) (f_a f4)) as Hrel.
  { assert (released ip1 (f_a f1) i t.1 (fun b => b ∈ a_freeBnums (f_a f4)) (n_threads s)
      (if ds then n_threads s ++ [i] else n_threads s) t.2) as Hrel.
    { apply resize_released; [exact Hdone|]. intros bn Hb. simpl. by rewrite (st_freed _ _ _ _ _ Hst3). }
    apply (released_mono _ _ (f_a f) _ _ _ (fun b => b ∈ a_freeBnums (f_a f4)) _ _ _ (f_a f4)) in Hrel; [|..|done|].
    - assert (forall x, fptr ip1 (f_a f) x = fptr (F i) (f_a f) x) as Hfp by (intros x; unfold ip1; by rewrite Hip).
      destruct Hrel as [Hrf Hrest]. rewrite Hsz in Hrest.
      split; [intros x Hx Hle; rewrite <-Hfp; exact (Hrf x Hx Hle)|exact Hrest].
    - intros x Hx. by rewrite (st_ptr _ _ _ _ _ Hst1) by done.
    - exact (st_written _ _ _ _ _ Hst3). }
  destruct ds; [|by apply wp_ret, (HQ ip3)].
  apply wp_bind, wp_on_fs, (wp_ip_field p ip3);
    [exact (ss_heap p f2 t.1 f3 ip3 (st_step _ _ _ _ _ Hst3))|]. apply wp_modify, (HQ ip3); try done.
  assert (i_Inum ip3 = i) as -> by exact Hin2. exact Hrel.
Qed.

(** ** REMOVE *)

Section procedure.
Variable E : Z -> list dirEnt.
Variable retry : nat.

(** The file [j] is named [name] in directory [i] and nowhere else, and its
    map ends where its size does. *)
Record removable F a i name j : Prop := {
  rm_kind : i_Kind (F j) <> NF3DIR;
  rm_link : i_Nlink (F j) = 1;
  rm_size : util_RoundUp (i_Size (F j)) BlockSize <= MaxBlks;
  rm_trim : trimmed_file (F j) a (util_RoundUp (i_Size (F j)) BlockSize);
  rm_sole : forall k e, ino_ok a k -> e ∈ E k -> de_inum e = j -> k = i /\ de_name e = name;
}.

(** The same of any inode [j], which may be a directory and name itself. *)
Record unlinkable F a i name j : Prop := {
  un_ne : j <> i;
  un_link : i_Nlink (F j) = 1;
  un_size : util_RoundUp (i_Size (F j)) BlockSize <= MaxBlks;
  un_trim : trimmed_file (F j) a (util_RoundUp (i_Size (F j)) BlockSize);
  un_sole : forall k e, ino_ok a k -> k <> j -> e ∈ E k -> de_inum e = j -> k = i /\ de_name e = name;
}.

Lemma removable_unlinkable F a i name j : dirs_ok E F a -> ino_ok a i -> names (E i) !! name = Some j ->
  removable F a i name j -> unlinkable F a i name j.
Proof.
  intros Hd Hi Hn [Hk Hl Hs Ht Ho]. split; [|done..|].
  - intros ->. by rewrite (dr_none _ _ _ Hd i Hi Hk) in Hn.
  - intros k e Hk0 _. by apply Ho.
Qed.

(** The reply of REMOVE for the file [j], named [name] in directory [i]. *)
Record remove_reply F s i (name : list Z) j (rep : REMOVE3res) s' : Prop := {
  ry_status : REMOVE3res_Status rep = NFS3_OK \/ REMOVE3res_Status rep = NFS3ERR_SERVERFAULT;
  ry_ok : REMOVE3res_Status rep = NFS3_OK -> exists k ip' ipd,
    E i !! k = Some (mkDirEnt j name) /\ fixed (F i) ipd /\ gone (F j) ip' /\
    let es := set_slot (E i) k no_entry in
    names es = delete name (names (E i)) /\
    server L (<[i := es]> E) (<[j := ip']> (<[i := ipd]> F)) s' /\
    frame F {[i; j]} (disk_of s) (disk_of s') /\
    j ∈ alloc_free (a_ialloc (disk_of s')) /\
    a_super (disk_of s') = a_super (disk_of s) /\
    stable_obj (a_log (disk_of s')) = log_obj (a_log (disk_of s'));
}.

(** The only entry of a file was cleared. *)
Lemma not_named F a a' i name j k : dirs_ok E F a -> ino_ok a i -> a_super a' = a_super a -> unlinkable F a i name j ->
  E i !! k = Some (mkDirEnt j name) -> j <> NULLINUM ->
  ~ named (<[j := []]> (<[i := set_slot (E i) k no_entry]> E)) a' j.
Proof.
  intros Hd Hi Hsp Hrm Hk Hj (l & e & Hl & He & Hu & Hej).
  assert (ino_ok a l) as Hl' by (eapply ino_ok_super; [|exact Hl]; by symmetry). pose proof (lookup_lt_Some _ _ _ Hk) as Hlt.
  destruct (decide (l = j)) as [->|Hlj]; [rewrite fn_lookup_insert in He; by apply not_elem_of_nil in He|].
  rewrite fn_lookup_insert_ne in He by done.
  destruct (decide (l = i)) as [->|Hne].
  2: { rewrite fn_lookup_insert_ne in He by done. by destruct (un_sole _ _ _ _ _ Hrm l e Hl' Hlj He Hej). }
  rewrite fn_lookup_insert in He. apply list_elem_of_lookup_1 in He as (m & Hm).
  destruct (decide (m = k)) as [->|Hmk].
  { rewrite set_slot_eq in Hm by lia. injection Hm as <-. by destruct no_entry_unused. }
  rewrite set_slot_ne in Hm by (done || lia).
  destruct (un_sole _ _ _ _ _ Hrm i e Hi Hlj (list_elem_of_lookup_2 _ _ _ Hm) Hej) as [_ Hn].
  apply Hmk. by apply (dr_uniq _ _ _ Hd i Hi m k e (mkDirEnt j name)).
Qed.

Lemma unlinkable_sim F a a' i name j : vol_ok F a -> ino_ok a j -> sim a a' -> unlinkable F a i name j ->
  unlinkable F a' i name j.
Proof.
  intros Hv Hj Hs [Hk Hl Hsz Ht Ho]. split; [done..| |].
  - intros x Hx Hle. rewrite (sim_fptr _ a) by (by apply Hv || done). by apply Ht.
  - intros k e Hk'. apply Ho. eapply ino_ok_super; [|exact Hk']. apply (sim_super _ _ Hs).
Qed.

Lemma removable_sim F a a' i name j : vol_ok F a -> ino_ok a j -> sim a a' -> removable F a i name j ->
  removable F a' i name j.
Proof.
  intros Hv Hj Hs [Hk Hl Hsz Ht Ho]. split; [done..| |].
  - intros x Hx Hle. rewrite (sim_fptr _ a) by (by apply Hv || done). by apply Ht.
  - intros k e Hk'. apply Ho. eapply ino_ok_super; [|exact Hk']. apply (sim_super _ _ Hs).
Qed.

(** A file that was written can still be removed, when all of the bytes were
    stored or they lie in one block. *)
Lemma removable_WRITE F s i name j args rep s' : let offset := WRITE3args_Offset args in
  let count := WRITE3args_Count args in
  server L E F s -> ino_ok (disk_of s) j ->
  removable F (disk_of s) i name j -> write_reply L E F s j args rep s' -> WRITE3res_Status rep = NFS3_OK ->
  i_Size (F j) <= MaxFileSize -> 0 <= offset -> 0 < count < 2 ^ 32 -> offset + count <= MaxFileSize ->
  offset mod 4096 + count <= 4096 \/ WRITE3resok_Count (WRITE3res_Resok rep) = count ->
  exists ip', server L E (<[j := ip']> F) s' /\ a_super (disk_of s') = a_super (disk_of s) /\
    same_attrs (with_Size (Z.max (i_Size (F j)) (offset + count)) (F j)) ip' /\ others_same F s j (<[j := ip']> F) s' /\
    removable (<[j := ip']> F) (disk_of s') i name j.
Proof.
  intros offset count Hv0 Hj [Hk Hl Hsz Ht Ho] [_ _ Hok] Hst Hmax Hoff Hc Hend Hall.
  destruct (Hok Hst) as (cnt & ip' & Hcnt & Hpos & Hcw & _ & _ & Hshort & [Hsv Hoth Hsp] & Hat & _ & Hbe & _).
  fold offset count in Hcnt, Hpos, Hcw, Hat, Hbe, Hshort. clear Hok. rewrite MaxFileSize_eq in *.
  assert (cnt = count) as ->.
  { destruct Hall as [Hone|Hall]; [|by rewrite w32_small in Hcw by lia; congruence].
    destruct (decide (cnt < count)) as [Hlt|]; [exfalso|lia]. destruct (Hshort Hlt) as [_ Hal].
    rewrite <-Z.add_mod_idemp_l, Z.mod_small in Hal; pose proof (Z.mod_pos_bound offset 4096); lia. }
  clear Hshort Hall Hcnt Hpos Hcw. rewrite (proj2 (Z.ltb_lt 0 count)) in Hat by lia.
  apply same_attrs_eqs in Hat as Heqs. destruct Heqs as (Hk' & _ & Hs').
  assert (i_Nlink ip' = i_Nlink (F j)) as Hnl by (unfold same_attrs in Hat; by destruct ip', (F j); injection Hat).
  cbn [i_Kind i_Size i_Nlink with_Size] in *. set (sz := Z.max _ _) in *.
  pose proof (iw_Size _ (di_wf _ _ _ (vo_inode _ _ (sv_vol _ _ _ _ Hv0) j Hj))) as H0s. unfold is_u64 in H0s.
  assert (forall z, 0 <= z <= (8 + 262144) * 4096 -> util_RoundUp z BlockSize = (z + 4095) / 4096) as HR.
  { intros z Hz. rewrite RoundUp_eq; rewrite ?BlockSize_eq; [f_equal; lia|unfold is_u64; lia|lia|lia]. }
  rewrite HR in Hsz, Ht by lia.
  assert (i_Size (F j) <= sz <= (8 + 262144) * 4096) as Hszb by lia.
  assert (offset + count <= (sz + 4095) / 4096 * 4096) as Hhi.
  { pose proof (Z.div_mod (sz + 4095) 4096). pose proof (Z.mod_pos_bound (sz + 4095) 4096). lia. }
  exists ip'. split; [done|]. split; [done|]. split; [done|]. split; [done|].
  split; rewrite ?fn_lookup_insert.
  - congruence.
  - congruence.
  - rewrite Hs', HR by lia. unfold MaxBlks. apply Z.div_le_upper_bound; lia.
  - rewrite Hs', HR by lia. eapply trimmed_below; [exact Hbe|exact Hhi|].
    eapply trimmed_mono; [|exact Ht]. apply Z.div_le_mono; lia.
  - intros k e Hk0. apply Ho. by eapply ino_ok_super.
Qed.

(** What the inode [j] of [a] is when one of its links went: given up, with the
    last of them, or the same with one link less. *)
Definition lost_link F a j ip' (fr : Z -> Prop) (ts ts' : list Z) a' : Prop :=
  (i_Nlink (F j) = 1 -> gone (F j) ip' /\ released (F j) a j ip' fr ts ts' a') /\
  (i_Nlink (F j) <> 1 -> (exists dc, ip' = with_Dcache dc (unlinked (F j))) /\ ts' = ts).

Lemma lost_link_mono F a b j ip' (fr fr' : Z -> Prop) ts ts' a' b' : lost_link F a j ip' fr ts ts' a' ->
  (forall x, pos_ok x -> fptr (F j) b x = fptr (F j) a x) -> (forall n, fr n -> fr' n) ->
  NDirty (a_op a') <= NDirty (a_op b') -> lost_link F b j ip' fr' ts ts' b'.
Proof.
  intros [Hl Hs] Hp Hfr Hd. split; [|done]. intros Hn. destruct (Hl Hn) as [Hg Hr]. split; [done|]. by eapply released_mono.
Qed.

(** The directories then. *)
Definition names_left E F j : Z -> list dirEnt := if decide (i_Nlink (F j) = 1) then <[j := []]> E else E.

(** A name of the inode [j], at [p], goes from the directory [i], at [dip], and
    then a link; it is the only name when the link is the last. *)
Lemma wp_unlink F a0 f i dip name j p (Q : bool -> FSt -> Prop) : txn L E F a0 f -> holds F f i dip ->
  holds F f j p -> dir_ready L E i -> names (E i) !! name = Some j -> j <> i ->
  (i_Nlink (F j) = 1 -> unlinkable F (f_a f) i name j) ->
  (forall k ipd f1, E i !! k = Some (mkDirEnt j name) -> fixed (F i) ipd -> f_inodes f1 = f_inodes f ->
     let es := set_slot (E i) k no_entry in
     let F1 := <[i := ipd]> F in
     names es = delete name (names (E i)) ->
     (forall s1 (R : unit -> NSt -> Prop), n_fs s1 = f1 ->
        (forall ip' s2, changed L (names_left (<[i := es]> E) F j) (<[j := ip']> F1) a0 (n_fs s2) ->
           frame F {[i; j]} (f_a f) (f_a (n_fs s2)) -> (i_Nlink (F j) = 1 -> j ∈ a_freeInums (f_a (n_fs s2))) ->
           lost_link F (f_a f) j ip' (fun b => b ∈ a_freeBnums (f_a (n_fs s2))) (n_threads s1) (n_threads s2) (f_a (n_fs s2)) ->
           f_inodes (n_fs s2) = f_inodes f -> R tt s2) ->
        wp (doDecLink p) s1 R) -> Q true f1) ->
  wp (RemName dip name) f Q.
Proof.
  intros Ht Hdip Hp Hready Hn Hne Hr HQ. pose proof (tx_dirs _ _ _ _ _ Ht) as Hd.
  destruct (fi_own _ _ _ (tx_fs _ _ _ _ _ Ht) i dip (proj1 Hdip)) as [Hi _].
  destruct (fi_own _ _ _ (tx_fs _ _ _ _ _ Ht) j p (proj1 Hp)) as [Hj _].
  destruct (name_live L E F (f_a f) i name j Hd Hi Hn Hready) as (Hj0 & _ & Hjk & _).
  apply (wp_RemName_any E F a0 f i dip name j); [by apply txn_changed|apply Hdip|done|done|].
  intros k ipd f1 Hk Hfx Hnames Hch1 Hsame Hspare. apply (HQ k ipd); [done|done|apply Hsame|done|].
  intros s1 R Hf1 HR. rewrite <-Hf1 in *. set (F1 := <[i := ipd]> F) in *.
  assert (F1 j = F j) as HF1 by (unfold F1; by rewrite fn_lookup_insert_ne).
  assert (f_inodes (n_fs s1) !! j = Some p) as Hin1 by (rewrite (sx_inodes _ _ _ Hsame); apply Hp).
  assert (forall x, pos_ok x -> fptr (F j) (f_a f) x = fptr (F j) (f_a (n_fs s1)) x) as Hfp.
  { intros x Hx. symmetry. apply (spared_fptr F {[i]}); [exact Hspare|done|set_solver|done]. }
  assert (forall a2, frame F1 {[j]} (f_a (n_fs s1)) a2 -> frame F {[i; j]} (f_a f) a2) as Hframe.
  { intros a2 Hfr2. apply (frame_trans F F1 _ _ (f_a (n_fs s1))); [apply Hsame| | |].
    - eapply frame_mono; [|by apply spared_frame]. set_solver.
    - eapply frame_mono; [|exact Hfr2]. set_solver.
    - intros l Hl. unfold F1. rewrite fn_lookup_insert_ne; [done|set_solver]. }
  unfold names_left in HR. destruct (decide (i_Nlink (F j) = 1)) as [Hl|Hl].
  - specialize (Hr Hl). apply (wp_last_link (<[i := set_slot (E i) k no_entry]> E) F1 a0 s1 j p); [exact Hch1|done|exact Hj0|..];
      rewrite ?HF1; try apply Hr.
    { intros x Hx Hle. rewrite <-Hfp by done. by apply Hr. }
    { apply (not_named F (f_a f) _ i name j k); [done|done|apply Hsame|done|done|done]. }
    intros ip' s2 Hgone Hch2 Hfr2 Hfree Hrel Hin. apply (HR ip'); [exact Hch2|by apply Hframe|done| |by rewrite Hin, (sx_inodes _ _ _ Hsame)].
    split; [|done]. intros _. split; [done|]. by eapply released_mono.
  - apply (wp_spare_link (<[i := set_slot (E i) k no_entry]> E) F1 a0 s1 j p); [exact Hch1|done|rewrite HF1..|]; [done|done|].
    intros dc s2 ip' Hch2 Hfr2 Hth Hin. unfold ip' in *. rewrite HF1 in *. apply (HR (with_Dcache dc (unlinked (F j))));
      [exact Hch2|by apply Hframe|done| |by rewrite Hin, (sx_inodes _ _ _ Hsame)].
    split; [done|]. intros _. split; [by exists dc|done].
Qed.

(** The same for the last link. *)
Lemma wp_unlink_last F a0 f i dip name j p (Q : bool -> FSt -> Prop) : txn L E F a0 f -> holds F f i dip ->
  holds F f j p -> dir_ready L E i -> names (E i) !! name = Some j -> unlinkable F (f_a f) i name j ->
  (forall k ipd f1, E i !! k = Some (mkDirEnt j name) -> fixed (F i) ipd -> f_inodes f1 = f_inodes f ->
     let es := set_slot (E i) k no_entry in
     let F1 := <[i := ipd]> F in
     names es = delete name (names (E i)) ->
     (forall s1 (R : unit -> NSt -> Prop), n_fs s1 = f1 ->
        (forall ip' s2, gone (F j) ip' -> changed L (<[j := []]> (<[i := es]> E)) (<[j := ip']> F1) a0 (n_fs s2) ->
           frame F {[i; j]} (f_a f) (f_a (n_fs s2)) -> j ∈ a_freeInums (f_a (n_fs s2)) ->
           f_inodes (n_fs s2) = f_inodes f -> R tt s2) ->
        wp (doDecLink p) s1 R) -> Q true f1) ->
  wp (RemName dip name) f Q.
Proof.
  intros Ht Hdip Hp Hready Hn Hr HQ. pose proof (un_link _ _ _ _ _ Hr) as Hl.
  apply (wp_unlink F a0 f i dip name j p); [done..|apply Hr|done|].
  intros k ipd f1 Hk Hfx Hin es F1 Hnm Hlast. apply (HQ k ipd); [done..|]. intros s1 R Hf1 HR. apply Hlast; [done|].
  intros ip' s2. unfold names_left. rewrite decide_True by done. intros Hch Hfr Hfree [Hg _] Hin2.
  apply (HR ip'); [by apply Hg|done|done|by apply Hfree|done].
Qed.

(** A file has no entries that go. *)
Lemma drop_file F a i j es : dirs_ok E F a -> ino_ok a j -> i_Kind (F j) <> NF3DIR -> j <> i ->
  forall k, (<[j := []]> (<[i := es]> E)) k = (<[i := es]> E) k.
Proof.
  intros Hd Hj Hk Hne k. destruct (decide (k = j)) as [->|Hkj]; [|by rewrite fn_lookup_insert_ne].
  rewrite fn_lookup_insert, fn_lookup_insert_ne by done. symmetry. by apply (dr_none _ _ _ Hd).
Qed.

(** ** An empty directory *)

Definition empty_dir es : Prop := forall k e, (2 <= k)%nat -> es !! k = Some e -> de_inum e = NULLINUM.

Lemma wp_IsDirEmpty F a0 f j p (Q : bool -> FSt -> Prop) : txn L E F a0 f -> holds F f j p -> i_Kind (F j) = NF3DIR ->
  (forall r f', txn L E F a0 f' -> looked p f f' -> (r = true <-> empty_dir (E j)) -> Q r f') ->
  wp (IsDirEmpty p) f Q.
Proof.
  intros Ht [Hin [dc Hp]] Hk HQ. destruct (fi_own _ _ _ (tx_fs _ _ _ _ _ Ht) j p Hin) as [Hj _].
  assert (dir_at p (E j) (with_Dcache dc (F j)) f) as Hd.
  { split; [exact Hp|]. apply slots_Dcache, (dr_slots _ _ _ (tx_dirs _ _ _ _ _ Ht)); done. }
  unfold IsDirEmpty. apply wp_bind, (wp_ip_field p _ _ _ _ Hp).
  apply (wp_empty_loop _ p (E j) (with_Dcache dc (F j)) f (with_Dcache dc (F j)) f 2); [done|by apply same_dir_refl| |].
  - destruct (decide (2 <= length (E j))%nat); [eapply (ents_fuel_enough _ _ _ 2); [apply Hd|done]|].
    replace (length (E j) - 2)%nat with 0%nat by lia. unfold ents_fuel. lia.
  - intros r ip' f' Hsd Hr. destruct (same_dir_looked L E F a0 f j p (E j) _ f' ip' Ht Hin Hp eq_refl Hsd) as (Ht' & Hl & _).
    by apply HQ.
Qed.

(** ** [doRemove] *)

(** Nothing was done: the handle is stale, there is no such name, or it is not
    that of an empty directory, as it should. *)
Definition remove_refused F fh (name : list Z) (isdir : bool) st : Prop :=
  (~ live F fh /\ st = NFS3ERR_STALE) \/
  (live F fh /\ names (E (Ino fh)) !! name = None /\ st = NFS3ERR_NOENT) \/
  (isdir = true /\ live F fh /\ (exists j, names (E (Ino fh)) !! name = Some j /\
     (i_Kind (F j) <> NF3DIR \/ ~ empty_dir (E j))) /\ st = NFS3ERR_INVAL).

Lemma remove_error F fh name isdir st : remove_refused F fh name isdir st -> st <> NFS3_OK.
Proof. by intros [[_ ->]|[(_ & _ & ->)|(_ & _ & _ & ->)]]. Qed.

(** The transaction of [s'] took the name of [j] out of directory [i] of [s],
    and a link of the inode with it. *)
Record removed F s i name j k ip' ipd a0 s' : Prop := {
  re_slot : E i !! k = Some (mkDirEnt j name);
  re_dir : fixed (F i) ipd;
  re_link : lost_link F (disk_of s) j ip' (fun b => b ∈ a_freeBnums (f_a (n_fs s'))) (n_threads s) (n_threads s')
    (f_a (n_fs s'));
  re_names : names (set_slot (E i) k no_entry) = delete name (names (E i));
  re_changed : changed L (names_left (<[i := set_slot (E i) k no_entry]> E) F j) (<[j := ip']> (<[i := ipd]> F)) a0 (n_fs s');
  re_frame : frame F {[i; j]} (disk_of s) (f_a (n_fs s'));
  re_free : i_Nlink (F j) = 1 -> j ∈ a_freeInums (f_a (n_fs s'));
  re_super : a_super (f_a (n_fs s')) = a_super (disk_of s);
}.

Lemma wp_doRemove F s dfh fh name isdir (Q : option unit * Z -> NSt -> Prop) : let i := Ino fh in
  server L E F s -> retry <> 0%nat -> IllegalName name = false -> MakeFh dfh = Ok fh ->
  ino_ok (disk_of s) i -> i ∉ L -> dir_ready L E i ->
  (forall j, names (E i) !! name = Some j -> (isdir = true -> i_Kind (F j) = NF3DIR /\ empty_dir (E j)) ->
     j <> i /\ (i_Nlink (F j) = 1 -> unlinkable F (disk_of s) i name j)) ->
  (forall st a0 s1, remove_refused F fh name isdir st -> in_txn L E F s a0 s1 -> Q (Some tt, st) s1) ->
  (forall j k ip' ipd a0 s2, live F fh -> names (E i) !! name = Some j ->
     (isdir = true -> i_Kind (F j) = NF3DIR /\ empty_dir (E j)) -> removed F s i name j k ip' ipd a0 s2 ->
     Q (Some tt, NFS3_OK) s2) ->
  wp (doRemove retry dfh name isdir) s Q.
Proof.
  intros i Hsv Hre Hlegal Hfh Hi HL Hready Hrm Hfail Hok. unfold doRemove. rewrite Hlegal.
  apply wp_bind, (wp_getInodes L E retry F s dfh fh name); [done..| | |].
  - intros a0 s1 Hdead Ht. rewrite bool_decide_eq_true_2 by done. apply wp_ret, (Hfail _ a0); [by left|done].
  - intros a0 s1 dip Hlive Hn Ht. rewrite bool_decide_eq_true_2 by done.
    apply wp_ret, (Hfail _ a0); [by right; left|done].
  - fold i. intros a0 s1 inodes j p Hlive Hn Ht Hp Hin0 _ Htwo. rewrite bool_decide_eq_false_2 by tauto.
    assert (forall s2, in_txn L E F s a0 s2 -> holds F (n_fs s2) j p ->
      (j <> i -> exists dip, inodes = [Some p; Some dip] /\ holds F (n_fs s2) i dip) ->
      (isdir = true -> i_Kind (F j) = NF3DIR /\ empty_dir (E j)) ->
      wp (dip ← on_fs (inode_at inodes 1); ok ← on_fs (RemName dip name);
          if negb ok then mret (Some tt, NFS3ERR_IO)
          else p ← on_fs (inode_at inodes 0); _ ← doDecLink p; mret (Some tt, NFS3_OK)) s2 Q) as Hrest.
    { clear s1 Ht Hp Htwo. intros s1 Ht Hp Htwo Hdir.
      pose proof (it_txn _ _ _ _ _ _ Ht) as Htx. set (f := n_fs s1) in *.
      pose proof (sim_trans _ _ _ (it_sim _ _ _ _ _ _ Ht) (tx_sim _ _ _ _ _ Htx)) as Hsim.
      assert (ino_ok (f_a f) i) as Hif by (eapply ino_ok_super; [|exact Hi]; symmetry; apply Hsim).
      destruct (name_live L E F (f_a f) i name j (tx_dirs _ _ _ _ _ Htx) Hif Hn Hready) as (_ & Hjf & _ & _).
      assert (ino_ok (disk_of s) j) as Hj by (eapply ino_ok_super; [|exact Hjf]; apply Hsim).
      destruct (Hrm j Hn Hdir) as [Hne Hr0]. pose proof (sv_vol _ _ _ _ Hsv) as Hv.
      assert (i_Nlink (F j) = 1 -> unlinkable F (f_a f) i name j) as Hr.
      { intros Hl. apply (unlinkable_sim F (disk_of s)); [done..|by apply Hr0]. }
      destruct (Htwo Hne) as (dip & -> & Hdip).
      apply wp_bind, wp_on_fs, (wp_inode_at _ 1 dip); [done|].
      apply wp_bind, wp_on_fs, (wp_unlink F a0 f i dip name j p); [done..|].
      intros k ipd f1 Hk Hfx Hin1 es F1 Hnames Hlast. simpl.
      apply wp_bind, wp_on_fs, (wp_inode_at _ 0 p); [done|]. apply wp_bind, Hlast; [done|].
      intros ip' s2 Hch2 Hfr2 Hfree Hlost _. apply wp_ret, (Hok j k ip' ipd a0); [done..|].
      assert (a_super (f_a (n_fs s2)) = a_super (disk_of s)) as Hsp2.
      { rewrite (af_super _ _ (fi_from _ _ _ (ch_fs _ _ _ _ _ Hch2))). apply (it_sim _ _ _ _ _ _ Ht). }
      split; [done|done| |done|done| |done|done].
      - assert (n_threads s = n_threads s1) as -> by (symmetry; apply (it_srv _ _ _ _ _ _ Ht)).
        eapply lost_link_mono; [exact Hlost| |done|done]. intros x Hx. symmetry. by apply sim_fptr; [apply Hv| |].
      - apply (frame_trans F F _ _ (f_a f)); [apply Hsim|by apply frame_sim|done|done]. }
    destruct isdir; [|by apply wp_bind, wp_ret, wp_bind, wp_ret, Hrest].
    destruct Hp as [Hpi [dc Hph]]. assert (in_txn L E F s a0 (nset_fs (n_fs s1) s1)) as Hit1 by (destruct Ht; by split).
    apply wp_bind, wp_bind, wp_on_fs, (wp_inode_at _ 0 p); [done|]. apply wp_bind, wp_on_fs, (wp_ip_field p _ _ _ _ Hph).
    simpl. apply wp_ret. case_bool_decide as Hkd.
    { apply wp_ret, (Hfail _ a0); [|exact Hit1]. right; right. do 2 (split; [done|]). split; [|done]. exists j. auto. } 
    apply wp_bind, wp_bind, wp_on_fs, (wp_inode_at _ 0 p); [done|]. apply wp_bind, wp_on_fs.
    apply (wp_IsDirEmpty F a0 (n_fs s1) j p); [apply Ht|split; [done|by exists dc]|done|].
    intros r f2 Ht2 Hl2 Hempty. apply wp_ret. destruct Ht as [Htx Hsim Hsrv].
    assert (in_txn L E F s a0 (nset_fs f2 s1)) as Hit by (by split). destruct r; simpl.
    + apply Hrest; [done|eapply looked_holds; [exact Hl2|]; split; [done|by exists dc]| |by intros _; split; [|apply Hempty]].
      intros Hne. destruct (Htwo Hne) as (dip & -> & Hdip). exists dip. split; [done|]. by eapply looked_holds.
    + apply wp_ret, (Hfail _ a0); [|done]. right; right. do 2 (split; [done|]). split; [|done]. exists j. split; [done|]. right.
      intros He. by apply Hempty in He.
Qed.

(** The commit of a removal. *)
Lemma wp_removed_commit {A} F s i name j k ip' ipd a0 s2 (mk : Z -> A) (Q : A -> NSt -> Prop) :
  removed F s i name j k ip' ipd a0 s2 ->
  (forall s', Q (mk NFS3ERR_SERVERFAULT) s') ->
  (forall s', server L (names_left (<[i := set_slot (E i) k no_entry]> E) F j) (<[j := ip']> (<[i := ipd]> F)) s' ->
     frame F {[i; j]} (disk_of s) (disk_of s') -> (i_Nlink (F j) = 1 -> j ∈ alloc_free (a_ialloc (disk_of s'))) ->
     lost_link F (disk_of s) j ip' (fun b => b ∈ alloc_free (a_balloc (disk_of s'))) (n_threads s) (n_threads s')
       (f_a (n_fs s')) ->
     a_super (disk_of s') = a_super (disk_of s) ->
     stable_obj (a_log (disk_of s')) = log_obj (a_log (disk_of s')) -> Q (mk NFS3_OK) s') ->
  wp (st ← commitReply; mret (mk st)) s2 Q.
Proof.
  intros [_ _ Hlost _ Hch2 Hfr2 Hfree Hsp2] HQf HQ.
  apply wp_bind. unfold commitReply. eapply wp_bind, wp_commit_changed; [apply Hch2|].
  intros ok s' Hsame _ Hcm Hstb (Hba & Hia & Hwr & _). apply wp_ret, wp_ret. destruct ok; [|apply HQf].
  destruct (Hcm _ Hch2 eq_refl) as [Hsv' Hsim']. apply HQ; [exact Hsv'| | | | |by apply Hstb].
  - apply (frame_trans F (<[j := ip']> (<[i := ipd]> F)) _ _ (f_a (n_fs s2))); [done|exact Hfr2|by apply frame_sim; [apply Hch2|]|].
    intros l Hl. rewrite !fn_lookup_insert_ne by set_solver. done.
  - intros Hl. rewrite Hia. apply elem_of_union_r, elem_of_list_to_set. by apply Hfree.
  - assert (n_threads s' = n_threads s2) as -> by apply Hsame. eapply lost_link_mono; [exact Hlost|done| |exact Hwr].
    intros b Hb. rewrite Hba. by apply elem_of_union_r, elem_of_list_to_set.
  - transitivity (a_super (f_a (n_fs s2))); [apply Hsim'|exact Hsp2].
Qed.

Lemma wp_REMOVE F s args fh (Q : REMOVE3res -> NSt -> Prop) :
  let dir := Diropargs3_Dir (REMOVE3args_Object args) in
  let name := Diropargs3_Name (REMOVE3args_Object args) in
  server L E F s -> retry <> 0%nat -> IllegalName name = false -> MakeFh dir = Ok fh ->
  ino_ok (disk_of s) (Ino fh) -> Ino fh ∉ L -> dir_ready L E (Ino fh) ->
  (forall j, names (E (Ino fh)) !! name = Some j -> removable F (disk_of s) (Ino fh) name j) ->
  (forall st s', (~ live F fh /\ st = NFS3ERR_STALE) \/
     (live F fh /\ names (E (Ino fh)) !! name = None /\ st = NFS3ERR_NOENT) ->
     server L E F s' -> sim (disk_of s) (disk_of s') -> Q (mkREMOVE3res st zero zero) s') ->
  (forall j rep s', live F fh -> names (E (Ino fh)) !! name = Some j -> remove_reply F s (Ino fh) name j rep s' ->
     Q rep s') ->
  wp (NFSPROC3_REMOVE retry args) s Q.
Proof.
  intros dir name Hsv Hre Hlegal Hfh Hi HL Hready Hrm Hfail Hok. set (i := Ino fh) in *.
  pose proof (sv_dirs _ _ _ _ Hsv) as Hd.
  unfold NFSPROC3_REMOVE. fold dir name. apply wp_bind, (wp_doRemove F s dir fh name false); [done..| | |].
  - intros j Hn _. assert (unlinkable F (disk_of s) i name j) as Hr by (apply removable_unlinkable; [done|done|done|by apply Hrm]).
    split; [apply Hr|done].
  - intros st a0 s1 Hst Ht. rewrite bool_decide_eq_true_2 by (by eapply remove_error).
    apply wp_bind, (wp_errRet L E F a0); [apply Ht|]. intros s' _ Hsv' Hsim.
    apply wp_ret, Hfail; [|done|by eapply in_txn_end]. destruct Hst as [?|[?|[? _]]]; [by left|by right|done].
  - intros j k ip' ipd a0 s2 Hl Hn _ Hre'. rewrite bool_decide_eq_false_2 by tauto.
    pose proof (Hrm j Hn) as Hr. pose proof Hre' as [Hk Hfx _ Hnames _ _ _ _].
    eapply (wp_removed_commit F s i name j k ip' ipd a0 s2 (fun st => mkREMOVE3res st zero zero)); [done| |].
    { intros s'. apply (Hok j); [done|done|]. split; simpl; [by auto|done]. }
    intros s' Hsv' Hfr' Hjf [Hgone _] Hsp' Hst'. apply (Hok j); [done|done|]. split; simpl; [by auto|]. intros _. exists k, ip', ipd.
    pose proof (rm_link _ _ _ _ _ Hr) as Hl1. destruct (Hgone Hl1) as [Hg _]. unfold names_left in Hsv'. rewrite decide_True in Hsv' by done.
    destruct (name_live L E F (disk_of s) i name j Hd Hi Hn Hready) as (_ & Hj & _ & _).
    split_and!; [done|done|done|done| |done|by apply Hjf|done|done].
    eapply server_ext; [|exact Hsv']. apply (drop_file F (disk_of s)); [done|done|apply Hr|].
    by apply (removable_unlinkable F (disk_of s) i name j).
Qed.

(** ** RMDIR *)

(** The reply of RMDIR for the empty directory [j], named [name] in directory
    [i]. *)
Record rmdir_reply F s i (name : list Z) j (rep : RMDIR3res) s' : Prop := {
  ri_status : RMDIR3res_Status rep = NFS3_OK \/ RMDIR3res_Status rep = NFS3ERR_SERVERFAULT;
  ri_ok : RMDIR3res_Status rep = NFS3_OK -> exists k ip' ipd,
    E i !! k = Some (mkDirEnt j name) /\ fixed (F i) ipd /\
    let es := set_slot (E i) k no_entry in
    names es = delete name (names (E i)) /\
    frame F {[i; j]} (disk_of s) (disk_of s') /\
    a_super (disk_of s') = a_super (disk_of s) /\
    stable_obj (a_log (disk_of s')) = log_obj (a_log (disk_of s')) /\
    (* its last link: the inode and its blocks are free *)
    (i_Nlink (F j) = 1 -> gone (F j) ip' /\
       server L (<[j := []]> (<[i := es]> E)) (<[j := ip']> (<[i := ipd]> F)) s' /\
       j ∈ alloc_free (a_ialloc (disk_of s')) /\
       released (F j) (disk_of s) j ip' (fun b => b ∈ alloc_free (a_balloc (disk_of s'))) (n_threads s) (n_threads s')
         (f_a (n_fs s'))) /\
    (* another one, which a directory that was made in it left: it stays, without a name *)
    (i_Nlink (F j) <> 1 -> (exists dc, ip' = with_Dcache dc (unlinked (F j))) /\
       server L (<[i := es]> E) (<[j := ip']> (<[i := ipd]> F)) s' /\ n_threads s' = n_threads s);
}.

Lemma wp_RMDIR F s args fh (Q : RMDIR3res -> NSt -> Prop) :
  let dir := Diropargs3_Dir (RMDIR3args_Object args) in
  let name := Diropargs3_Name (RMDIR3args_Object args) in
  server L E F s -> retry <> 0%nat -> IllegalName name = false -> MakeFh dir = Ok fh ->
  ino_ok (disk_of s) (Ino fh) -> Ino fh ∉ L -> dir_ready L E (Ino fh) ->
  (forall j, names (E (Ino fh)) !! name = Some j -> i_Kind (F j) = NF3DIR -> empty_dir (E j) ->
     j <> Ino fh /\ (i_Nlink (F j) = 1 -> unlinkable F (disk_of s) (Ino fh) name j)) ->
  (forall st s', remove_refused F fh name true st -> server L E F s' -> sim (disk_of s) (disk_of s') ->
     Q (mkRMDIR3res st zero zero) s') ->
  (forall j rep s', live F fh -> names (E (Ino fh)) !! name = Some j -> i_Kind (F j) = NF3DIR -> empty_dir (E j) ->
     rmdir_reply F s (Ino fh) name j rep s' -> Q rep s') ->
  wp (NFSPROC3_RMDIR retry args) s Q.
Proof.
  intros dir name Hsv Hre Hlegal Hfh Hi HL Hready Hrm Hfail Hok.
  unfold NFSPROC3_RMDIR. fold dir name. apply wp_bind, (wp_doRemove F s dir fh name true); [done..| | |].
  - intros j Hn Hd. destruct (Hd eq_refl). by apply Hrm.
  - intros st a0 s1 Hst Ht. rewrite bool_decide_eq_true_2 by (by eapply remove_error).
    apply wp_bind, (wp_errRet L E F a0); [apply Ht|]. intros s' _ Hsv' Hsim.
    apply wp_ret, Hfail; [done|done|by eapply in_txn_end].
  - intros j k ip' ipd a0 s2 Hl Hn Hd Hre'. rewrite bool_decide_eq_false_2 by tauto.
    destruct (Hd eq_refl) as [Hk He]. pose proof Hre' as [Hks Hfx _ Hnames _ _ _ _].
    eapply (wp_removed_commit F s (Ino fh) name j k ip' ipd a0 s2 (fun st => mkRMDIR3res st zero zero)); [done| |].
    { intros s'. apply (Hok j); [done..|]. split; simpl; [by auto|done]. }
    intros s' Hsv' Hfr' Hjf [Hlast Hmore] Hsp' Hst'. apply (Hok j); [done..|]. split; simpl; [by auto|]. intros _.
    exists k, ip', ipd. unfold names_left in Hsv'. do 6 (split; [done|]). split; intros Hl1.
    + destruct (Hlast Hl1) as [Hg Hrel]. rewrite decide_True in Hsv' by done. split; [exact Hg|]. split; [exact Hsv'|]. split; [by apply Hjf|]. exact Hrel.
    + destruct (Hmore Hl1) as [Hx Hth]. rewrite decide_False in Hsv' by done. by split_and!.
Qed.
End procedure.

(** *** A file that CREATE made can be removed *)

(** The server [s'], with the directories [E'] and the files [F'], is [s] with
    the empty file [n] named [name] in directory [i]. *)
Record has_new E F s i (name : list Z) E' F' s' n : Prop := {
  hn_server : server L E' F' s';
  hn_super : a_super (disk_of s') = a_super (disk_of s);
  hn_free : n ∈ alloc_free (a_ialloc (disk_of s)) /\ n <> i /\ ino_ok (disk_of s) n;
  hn_names : names (E' i) = <[name := n]> (names (E i));
  hn_length : (length (E' i) <= S (length (E i)))%nat;
  hn_entries : forall e, e ∈ E' i -> de_inum e = n \/ e ∈ E i;
  hn_dirs : forall k, k <> i -> E' k = E k;
  hn_dir : fixed (F i) (F' i);
  hn_others : forall k, k ∉ ({[i; n]} : gset Z) -> F' k = F k;
  hn_frame : frame F {[i; n]} (disk_of s) (disk_of s');
  hn_file : i_Kind (F' n) = NF3REG /\ i_Size (F' n) = 0 /\ i_ShrinkSize (F' n) = i_ShrinkSize (F n) /\
    i_Gen (F' n) = w64 (i_Gen (F n) + 1);
  hn_removable : removable E' F' (disk_of s') i name n;
}.

(** The block map of an inode that is not in use is empty. *)
Definition spare_empty F a : Prop := forall n, n ∈ alloc_free (a_ialloc a) -> i_blks (F n) = zeros 10.

Lemma create_has_new E F s i name rep s' : server L E F s -> ino_ok (disk_of s) i -> spare_empty F (disk_of s) ->
  create_reply L E F s i name rep s' -> CREATE3res_Status rep = NFS3_OK ->
  exists E' F' n, has_new E F s i name E' F' s' n /\
    CREATE3resok_Obj_attributes (CREATE3res_Resok rep) = mkPost_op_attr true (MkFattr (F' n)) /\
    exists fh3, CREATE3resok_Obj (CREATE3res_Resok rep) = mkPost_op_fh3 true fh3 /\
      MakeFh3 (mkFh n (i_Gen (F' n))) = Ok fh3.
Proof.
  intros Hsv Hi Hempty [_ _ Hok] Hst.
  destruct (Hok Hst) as (n & j & ip' & ipd & fh3 & Hrep & Hf3 & Hn & Hsn & Hne & Hin & _ & _ & (t1 & t2 & dc & Hm) & Hfx &
    Hnm & Hle & Hes & Hsv' & Hfr & Hsp & _).
  clear Hok Hst. set (es := set_slot (E i) j (mkDirEnt n name)) in *.
  pose proof (Hempty n Hn) as Hblk. destruct Hsn as [Hkf Hszf].
  exists (<[i := es]> E), (<[i := ipd]> (<[n := ip']> F)), n.
  assert (<[i := ipd]> (<[n := ip']> F) n = ip') as HFn by (by rewrite fn_lookup_insert_ne, fn_lookup_insert).
  assert (<[i := es]> E i = es) as HE by apply fn_lookup_insert.
  assert (ino_ok (disk_of s') i) as Hi' by (eapply ino_ok_super; [|exact Hi]; congruence).
  assert (n <> NULLINUM) as Hnull.
  { assert (names (<[i := es]> E i) !! name = Some n) as Hl by (by rewrite HE, Hnm, lookup_insert_eq).
    by destruct (names_elem _ _ _ (dr_uniq _ _ _ (sv_dirs _ _ _ _ Hsv') i Hi') Hl) as (e & _ & Hu & <- & _). }
  assert (forall k e, ino_ok (disk_of s) k -> e ∈ E k -> de_inum e <> n) as Hsole.
  { intros k e Hk He Hen. assert (in_use e) as Hu by (unfold in_use; congruence).
    destruct (dr_live _ _ _ (sv_dirs _ _ _ _ Hsv) k e Hk He Hu) as [_ Hl]. by rewrite Hen in Hl. }
  rewrite Hrep. split; [split|split; [by rewrite HFn|exists fh3; by rewrite HFn]]; rewrite ?HFn, ?HE.
  - done.
  - done.
  - done.
  - done.
  - done.
  - intros e [->|He]%Hes; [by left|by right].
  - intros k Hk. by rewrite fn_lookup_insert_ne.
  - by rewrite fn_lookup_insert.
  - intros k Hk. rewrite !fn_lookup_insert_ne by set_solver. done.
  - done.
  - rewrite Hm. done.
  - split; rewrite ?HFn, ?Hm; simpl.
    + done.
    + done.
    + rewrite Hszf, RoundUp_eq by (rewrite ?BlockSize_eq; unfold is_u64; lia). rewrite BlockSize_eq. done.
    + intros x _ _. by apply zeros_fptr.
    + intros k e Hk He Hen. assert (ino_ok (disk_of s) k) as Hk0 by (by eapply ino_ok_super).
      destruct (decide (k = i)) as [->|Hki].
      * rewrite HE in He. apply Hes in He as [->|He]; [done|]. by destruct (Hsole i e Hk0 He).
      * rewrite fn_lookup_insert_ne in He by done. by destruct (Hsole k e Hk0 He).
Qed.

Lemma new_ready E F s i name E' F' s' n : dir_ready L E i -> n ∉ L -> Z.of_nat (length (E i)) < 400000 ->
  has_new E F s i name E' F' s' n -> dir_ready L E' i.
Proof.
  intros [_ Hr] Hn Hlen Hh. split.
  - unfold cacheable. pose proof (hn_length _ _ _ _ _ _ _ _ _ Hh). lia.
  - intros e [->|He]%(hn_entries _ _ _ _ _ _ _ _ _ Hh) Hu; [done|by apply Hr].
Qed.
End remove.
