(* ===== verification/NfsRename.v ===== *)
(** The procedure RENAME: locking the inodes it needs, removing the target, and
    moving the name. *)
From stdpp Require Import functions.
From S2P Require Import Prelude Nfstypes External Reference Super Fh Cache Dcache Alloctxn AtxnCommit Inode.
From S2P Require Import InodeCodec InodeMap InodeIO InodeBound Volume InodeClaims InodeShrink InodeResize Fstxn FstxnInv Dir DirSpec DirVol.
From S2P Require Import Lorder Shrinker NfsOps NfsFiles NfsDirs NfsNames NfsCreate NfsRemove.
Import Nfs.

(** ** The names after a rename *)

(** The name [n] of directory [i] becomes the name [n'] of directory [i'], for
    the file [j]. *)
Definition rename_names (i : Z) (n : list Z) (i' : Z) (n' : list Z) (j : Z) (N : Z -> gmap (list Z) Z) : Z -> gmap (list Z) Z :=
  let N1 := <[i := delete n (N i)]> N in
  <[i' := <[n' := j]> (N1 i')]> N1.

(** A target that is removed first does not show. *)
Lemma rename_names_target i n i' n' j N N' d : N' i' = delete n' (N i') -> (forall k, k <> i' -> N' k = N k) ->
  rename_names i n i' n' j N' d = rename_names i n i' n' j N d.
Proof.
  intros Hi' Hk. unfold rename_names. destruct (decide (d = i')) as [->|Hd].
  - rewrite !fn_lookup_insert. destruct (decide (i' = i)) as [->|Hne].
    + rewrite !fn_lookup_insert, Hi', delete_delete. by rewrite insert_delete_eq.
    + rewrite !(fn_lookup_insert_ne) by done. by rewrite Hi', insert_delete_eq.
  - rewrite !(fn_lookup_insert_ne _ i') by done. destruct (decide (d = i)) as [->|Hne].
    + rewrite !fn_lookup_insert. by rewrite Hk.
    + rewrite !fn_lookup_insert_ne by done. by apply Hk.
Qed.

Section rename.
Context `{!Common} `{!CommonSpec} `{!Util} `{!UtilSpec} `{!Marshal} `{!MarshalSpec} `{!Std} `{!StdSpec}
  `{!Buf} `{!BufSpec} `{!Journal} `{!JournalSpec} `{!AllocPkg} `{!AllocSpec}
  `{!LockPkg} `{!LockSpec} `{!Clock} `{!DiskPkg}.
Variable L : gset Z.
Implicit Types (E : Z -> list dirEnt) (F : Z -> Inode) (f : FSt) (s : NSt) (a : ASt) (i j t p dip : Z) (ip : Inode)
  (n : list Z).

(** ** Locking several inodes *)

Section locking.
Variable E : Z -> list dirEnt.

(** The inodes [inums] of the transaction are at the positions of the slice. *)
Definition all_held F f (inums : list Z) (inodes : list (option Z)) : Prop :=
  forall k i, inums !! k = Some i -> exists p, inodes !! k = Some (Some p) /\ holds F f i p.

Lemma pos_of_lookup inums k i : NoDup inums -> inums !! k = Some i -> pos_of inums i = Ok k.
Proof.
  intros Hnd Hk. unfold pos_of. rewrite (proj2 (list_find_Some _ _ k i)); [done|].
  split_and!; [done|done|]. intros m y Hm Hlt ->. pose proof (NoDup_lookup _ _ _ _ Hnd Hk Hm). lia.
Qed.

(** Nothing was allocated in the transaction of [f]. *)
Definition unalloc a0 f : Prop := a_allocInums (f_a f) = [] /\ a_balloc (f_a f) = a_balloc a0.

Lemma unalloc_lists F a0 f : txn L E F a0 f -> unalloc a0 f -> a_allocInums (f_a f) = [] /\ a_allocBnums (f_a f) = [].
Proof.
  intros Ht [Hi Hb]. split; [done|]. pose proof (fi_from _ _ _ (tx_fs _ _ _ _ _ Ht)) as Hf.
  pose proof (af_balloc _ _ Hf) as Ha. pose proof (al_taken_free _ _ _ _ _ (ti_balloc _ (af_inv _ _ Hf))) as Hd.
  destruct (a_allocBnums (f_a f)) as [|b l]; [done|]. exfalso. apply (Hd b); [left|]. rewrite Hb, Ha. set_solver.
Qed.

(** The transaction was given up, and its state is that of a server again. *)
Record given_up F a0 f : Prop := {
  gu_server : forall s, server L E F (nset_fs f s);
  gu_sim : sim (Begin a0) (Begin (f_a f));
  gu_inodes : f_inodes f = ∅;
  gu_lists : a_allocInums (f_a f) = [] /\ a_allocBnums (f_a f) = [];
}.

Lemma PostAbort_lists a r a' : PostAbort a = Ok (r, a') ->
  a_allocInums a' = a_allocInums a /\ a_allocBnums a' = a_allocBnums a.
Proof.
  unfold PostAbort, lift. intros Hm. run_inv Hm. injection Hrun as <- <-.
  destruct (free_nums _ _) in Hrun0; try done. injection Hrun0 as <- <-. injection Hrun1 as _ <-.
  destruct (free_nums _ _) in Hrun2; try done. injection Hrun2 as <- <-. by injection Hm as _ <-.
Qed.

Lemma Abort_lists f r f' : Abort f = Ok (r, f') ->
  a_allocInums (f_a f') = a_allocInums (f_a f) /\ a_allocBnums (f_a f') = a_allocBnums (f_a f).
Proof.
  unfold Abort, releaseInodes. intros Hm. run_inv Hm. injection Hm as _ <-. run_inv Hrun. injection Hrun1 as <- <-.
  apply same_a_release_list in Hrun. rewrite <-Hrun. unfold on_a, zoom in Hrun0.
  destruct (PostAbort (f_a t)) as [[y a1]| | |] eqn:Hp; try done. injection Hrun0 as <- <-. by apply PostAbort_lists in Hp.
Qed.

Lemma Abort_again f : f_inodes f = ∅ -> a_allocInums (f_a f) = [] -> a_allocBnums (f_a f) = [] ->
  Abort f = Ok (true, f).
Proof.
  intros He Hi Hb. unfold Abort, releaseInodes, on_a, zoom, PostAbort, mbind, M_bind, get. rewrite He, map_to_list_empty. simpl.
  rewrite Hi. simpl. rewrite Hb. simpl. by destruct f as [[]].
Qed.

Lemma wp_give_up F a0 f (Q : bool -> FSt -> Prop) : txn L E F a0 f -> unalloc a0 f ->
  (forall f', given_up F a0 f' -> Q true f') -> wp Abort f Q.
Proof.
  intros Ht Hu HQ. destruct (unalloc_lists F a0 f Ht Hu) as [Hi Hb]. destruct Ht as [Hs Hq Hbm Hz Hsim Hlg Hv0 Hv Hc Hl Hd Hn Hf Hfr].
  assert (wp Abort f (fun b f' => b = true /\ (forall s, server L E F (nset_fs f' s)) /\ sim (Begin a0) (Begin (f_a f')) /\
    f_inodes f' = ∅)) as Hab.
  { apply (wp_Abort L a0); [done..|]. intros f' (lm & _ & He) Hsi Hsim' _ Hia.
    assert (forall s, same_rest (nset_fs f s) (nset_fs f' s)) as Hrest by (by rewrite He).
    split; [done|]. split; [|split; [done|by rewrite He]]. intros s.
    split; [done|by eapply sim_vol| |by eapply dirs_sim|by apply (rest_names L E (nset_fs f s))|].
    - intros i Hi'. apply Hl. eapply ino_ok_super; [|exact Hi']. rewrite (sim_super _ _ Hsim). apply (sim_super _ _ Hsim').
    - intros i Hi'. apply Hf. by rewrite <-Hia. }
  apply wp_with_run in Hab. eapply wp_mono; [exact Hab|]. intros b f' ((-> & Hsv & Hsim' & He) & Hrun).
  apply Abort_lists in Hrun as [Hia Hba]. apply HQ. split; [done|done|done|]. by rewrite Hia, Hba.
Qed.

(** An inode that is not in use. *)
Lemma wp_lock_free F a0 f i (Q : option Z -> FSt -> Prop) : txn L E F a0 f -> ino_ok (f_a f) i ->
  i ∉ L ∪ dom (f_inodes f) -> i_Kind (F i) = NF3FREE ->
  (forall f', txn L E F a0 f' -> (unalloc a0 f -> unalloc a0 f') -> Q None f') ->
  wp (GetInodeInum i) f Q.
Proof.
  intros Ht Hi Hni Hk HQ. pose proof (vo_inode _ _ (tx_vol _ _ _ _ _ Ht) _ Hi) as Hd.
  apply (wp_GetInodeInum L a0 f i (F i)); [apply Ht|done|done|done|by apply (tx_linked _ _ _ _ _ Ht)|done|].
  intros f' _ Hs' Hb. apply HQ; [by eapply txn_back|]. intros [Hu Hba]. split.
  - by rewrite (gr_allocInums _ _ (bk_grow _ _ Hb)).
  - by rewrite (bk_balloc _ _ Hb).
Qed.

(** Inodes, each of them once, are locked whatever their order, or one of them
    is not in use and the transaction is given up. *)
Lemma wp_lock_loop F a0 inums sorted f inodes (Q : option (list (option Z)) -> FSt -> Prop) :
  NoDup inums -> NoDup sorted -> (forall i, i ∈ sorted -> i ∈ inums) -> txn L E F a0 f ->
  length inodes = length inums ->
  (forall i, i ∈ sorted -> ino_ok (f_a f) i /\ (i ∉ L ∪ dom (f_inodes f))) ->
  (forall i, i ∈ sorted -> i_Kind (F i) <> NF3FREE) \/ unalloc a0 f ->
  (forall k i, inums !! k = Some i -> i ∉ sorted -> exists p, inodes !! k = Some (Some p) /\ holds F f i p) ->
  (forall f' inodes', (forall i, i ∈ sorted -> i_Kind (F i) <> NF3FREE) -> txn L E F a0 f' -> sim (f_a f) (f_a f') ->
     all_held F f' inums inodes' -> length inodes' = length inums -> Q (Some inodes') f') ->
  (forall f' i, i ∈ sorted -> i_Kind (F i) = NF3FREE -> given_up F a0 f' -> Q None f') ->
  wp (lock_loop sorted inums inodes) f Q.
Proof.
  intros Hnd. revert f inodes. induction sorted as [|i sorted IH]; intros f inodes Hns Hsub Ht Hlen Hok Huse Hgot HQ HQ0; simpl.
  { apply wp_ret, HQ; [by intros i ?%not_elem_of_nil|done|apply sim_refl; apply (tx_vol _ _ _ _ _ Ht)| |done].
    intros k j Hk. apply Hgot; [done|]. apply not_elem_of_nil. }
  apply NoDup_cons in Hns as [Hi Hns]. destruct (Hok i) as (Hio & Hni); [left|].
  destruct (decide (i_Kind (F i) = NF3FREE)) as [Hki|Hki].
  { destruct Huse as [Huse|Huse]; [by destruct (Huse i ltac:(left))|].
    apply wp_bind, (wp_lock_free F a0); [done..|]. intros f1 Ht1 Hu1.
    apply wp_bind, (wp_give_up F a0); [done|exact (Hu1 Huse)|]. intros f2 Hg. apply wp_ret, (HQ0 f2 i); [left|done|done]. }
  apply wp_bind, (wp_lock L E F a0); [done..|]. intros p f1 Ht1 Ho1. simpl.
  destruct (list_elem_of_lookup_1 _ _ (Hsub i ltac:(left))) as (k & Hk).
  apply wp_bind. eapply wp_lift; [by apply pos_of_lookup|].
  pose proof (op_sim _ _ _ _ _ Ho1) as Hsim1.
  apply IH; [done|intros j Hj; by apply Hsub, list_elem_of_further|done|by rewrite length_insert| | | | |].
  - intros j Hj. destruct (Hok j) as (Hjo & Hnj); [by apply list_elem_of_further|]. split.
    + eapply ino_ok_super; [|exact Hjo]. symmetry. apply Hsim1.
    + rewrite (op_inodes _ _ _ _ _ Ho1), dom_insert_L. assert (j <> i) by congruence. set_solver.
  - destruct Huse as [Huse|[Hu Hb]]; [left; intros j Hj; by apply Huse, list_elem_of_further|right]. split.
    + by rewrite (gr_allocInums _ _ (op_grow _ _ _ _ _ Ho1)).
    + by rewrite (op_balloc _ _ _ _ _ Ho1).
  - intros k' j Hk' Hj. destruct (decide (j = i)) as [->|Hne].
    + pose proof (NoDup_lookup _ _ _ _ Hnd Hk' Hk) as ->. exists p.
      rewrite list_lookup_insert_eq by (rewrite Hlen; by eapply lookup_lt_Some).
      split; [done|]. by eapply opened_holds.
    + destruct (Hgot k' j Hk') as (q & Hq & Hh).
      { intros [?|?]%elem_of_cons; done. }
      exists q. rewrite list_lookup_insert_ne by congruence. split; [done|]. by apply (opened_keeps F f i p f1).
  - intros f' inodes' Hall Ht' Hs' Ha Hl. apply HQ; [|done|by eapply sim_trans|done|done].
    intros j [->|Hj]%elem_of_cons; [done|by apply Hall].
  - intros f' j Hj. apply HQ0. by apply list_elem_of_further.
Qed.

Lemma wp_lockInodes_any F a0 inums f (Q : option (list (option Z)) -> FSt -> Prop) :
  NoDup inums -> txn L E F a0 f -> (forall i, i ∈ inums -> ino_ok (f_a f) i /\ (i ∉ L ∪ dom (f_inodes f))) ->
  (forall i, i ∈ inums -> i_Kind (F i) <> NF3FREE) \/ unalloc a0 f ->
  (forall f' inodes, (forall i, i ∈ inums -> i_Kind (F i) <> NF3FREE) -> txn L E F a0 f' -> sim (f_a f) (f_a f') ->
     all_held F f' inums inodes -> length inodes = length inums -> Q (Some inodes) f') ->
  (forall f' i, i ∈ inums -> i_Kind (F i) = NF3FREE -> given_up F a0 f' -> Q None f') ->
  wp (lockInodes inums) f Q.
Proof.
  intros Hnd Ht Hok Huse HQ HQ0. pose proof (sort_Slice_Permutation (inums_less inums) inums) as Hp. unfold lockInodes.
  apply (wp_lock_loop F a0); [done|by rewrite Hp|intros i; by rewrite Hp|done|by rewrite length_replicate| | | | |].
  - intros i. rewrite Hp. apply Hok.
  - destruct Huse as [Huse|?]; [left|by right]. intros i. rewrite Hp. apply Huse.
  - intros k i Hk Hi. destruct Hi. rewrite Hp. by eapply list_elem_of_lookup_2.
  - intros f' inodes Hall. apply HQ. intros i. rewrite <-Hp. apply Hall.
  - intros f' i. rewrite Hp. apply HQ0.
Qed.

Lemma wp_lockInodes F a0 inums f (Q : option (list (option Z)) -> FSt -> Prop) :
  NoDup inums -> txn L E F a0 f ->
  (forall i, i ∈ inums -> ino_ok (f_a f) i /\ (i ∉ L ∪ dom (f_inodes f)) /\ i_Kind (F i) <> NF3FREE) ->
  (forall f' inodes, txn L E F a0 f' -> sim (f_a f) (f_a f') -> all_held F f' inums inodes ->
     length inodes = length inums -> Q (Some inodes) f') ->
  wp (lockInodes inums) f Q.
Proof.
  intros Hnd Ht Hok HQ. assert (forall i, i ∈ inums -> i_Kind (F i) <> NF3FREE) as Huse by (intros i Hi; by apply Hok).
  apply (wp_lockInodes_any F a0); [done|done|intros i Hi; split; by apply Hok|by left| |].
  - intros f' inodes _. apply HQ.
  - intros f' i Hi Hk. by destruct (Huse i Hi).
Qed.
End locking.

(** ** Moving the name *)

(** The blocks of the directory are full, or it has its maximal size. *)
Definition dir_full (es : list dirEnt) : Prop := slot_off (length es) mod 4096 = 0 \/ MaxFileSize < slot_off (length es) + DIRENTSZ.

Lemma no_room_full es a : no_room_in es a -> dir_full es.
Proof. intros [[_ ?]|?]; [by left|by right]. Qed.

(** The transaction went from [f] to [f'] with the files [F'] and the
    directories [E'], and moved the name. *)
Record moved_name E F f i n i' n' j E' F' f' : Prop := {
  mn_names : forall d, names (E' d) = rename_names i n i' n' j (fun d => names (E d)) d;
  mn_dirs : forall d, d ∉ ({[i; i']} : gset Z) -> E' d = E d;
  mn_fixed : forall d, fixed (F d) (F' d);
  mn_others : forall d, d ∉ ({[i; i']} : gset Z) -> F' d = F d;
  mn_frame : frame F {[i; i']} (f_a f) (f_a f');
  mn_freed : a_freeInums (f_a f') = a_freeInums (f_a f);
}.

(** Clearing an entry keeps a directory ready. *)
Lemma ready_clear E i k e d : dir_ready L E d -> E i !! k = Some e -> dir_ready L (<[i := set_slot (E i) k no_entry]> E) d.
Proof.
  intros [Hc Hr] Hk. pose proof (lookup_lt_Some _ _ _ Hk) as Hlt. destruct (decide (d = i)) as [->|Hne].
  - split; rewrite fn_lookup_insert.
    + unfold cacheable in *. rewrite set_slot_length by lia. lia.
    + intros e' [->|He]%set_slot_elem Hu; [by destruct no_entry_unused|by apply Hr|lia].
  - by split; rewrite fn_lookup_insert_ne.
Qed.

Lemma wp_move_name E F a0 f i d n i' d' n' j (Q1 Q2 : bool -> FSt -> Prop) : changed L E F a0 f ->
  f_inodes f !! i = Some d -> f_inodes f !! i' = Some d' -> dir_ready L E i -> dir_ready L E i' ->
  names (E i) !! n = Some j -> names (E i') !! n' = None ->
  (forall f1, wp (AddName d' j n') f1 Q2 -> Q1 true f1) ->
  (forall E' F' f', moved_name E F f i n i' n' j E' F' f' -> changed L E' F' a0 f' -> Q2 true f') ->
  (forall f', MAXNAMELEN <= len n' \/ i_Kind (F i') <> NF3DIR \/ dir_full (E i') -> fs_inv L a0 f' -> Q2 false f') ->
  wp (RemName d n) f Q1.
Proof.
  intros Hch Hd Hd' Hready Hready' Hn Hn' HQ1 HQ HQf. pose proof (ch_dirs _ _ _ _ _ Hch) as Hdir.
  destruct (fi_own _ _ _ (ch_fs _ _ _ _ _ Hch) i d Hd) as [Hi _].
  destruct (fi_own _ _ _ (ch_fs _ _ _ _ _ Hch) i' d' Hd') as [Hi' _].
  destruct (name_live L E F (f_a f) i n j Hdir Hi Hn Hready) as (Hj0 & Hj & Hkj & _).
  apply (wp_RemName_any L E F a0 f i d n j); [done..|].
  intros k ip1 f1 Hk Hfx1 Hnames1 Hch1 Hs1 Hsp1. apply HQ1.
  set (es1 := set_slot (E i) k no_entry) in *. set (E1 := <[i := es1]> E) in *. set (F1 := <[i := ip1]> F) in *.
  pose proof (lookup_lt_Some _ _ _ Hk) as Hlt.
  assert (forall l, fixed (F l) (F1 l)) as Hfix1.
  { intros l. unfold F1. destruct (decide (l = i)) as [->|Hne]; [by rewrite fn_lookup_insert|].
    rewrite fn_lookup_insert_ne by done. apply fixed_refl. }
  assert (names (E1 i') = (<[i := delete n (names (E i))]> (fun d => names (E d))) i') as HN1.
  { unfold E1. destruct (decide (i' = i)) as [->|Hne]; [by rewrite !fn_lookup_insert|by rewrite !fn_lookup_insert_ne]. }
  assert (names (E1 i') !! n' = None) as HN1'.
  { rewrite HN1. destruct (decide (i' = i)) as [->|Hne]; [|by rewrite fn_lookup_insert_ne].
    rewrite fn_lookup_insert, lookup_delete_None. by right. }
  assert (length (E1 i') = length (E i')) as Hlen1.
  { unfold E1. destruct (decide (i' = i)) as [->|Hne]; [|by rewrite fn_lookup_insert_ne].
    rewrite fn_lookup_insert. unfold es1. rewrite set_slot_length by lia. lia. }
  assert (i_Kind (F1 i') = i_Kind (F i')) as Hk1 by (by rewrite (Hfix1 i')).
  apply (wp_AddName_any L E1 F1 a0 f1 i' d' j n'); [done|by rewrite (sx_inodes _ _ _ Hs1)|by eapply ready_clear| |done| |done| |].
  - eapply ino_ok_super; [|exact Hj]. symmetry. apply Hs1.
  - by rewrite (Hfix1 j).
  - intros k2 ip2 f2 [_ Hfree Hfx2 Hch2 Hs2 Hfr2 _ _ _].
    set (es2 := set_slot (E1 i') k2 (mkDirEnt j n')) in *.
    assert (forall l, fixed (F1 l) ((<[i' := ip2]> F1) l)) as Hfix2.
    { intros l. destruct (decide (l = i')) as [->|Hne]; [by rewrite fn_lookup_insert|].
      rewrite fn_lookup_insert_ne by done. apply fixed_refl. }
    assert (ino_ok (f_a f1) i') as Hi1 by (eapply ino_ok_super; [|exact Hi']; symmetry; apply Hs1).
    assert (names es2 = <[n' := j]> (names (E1 i'))) as Hnames2.
    { apply names_set_slot; [by apply (dr_uniq _ _ _ (ch_dirs _ _ _ _ _ Hch1))| |done..].
      pose proof (dr_uniq _ _ _ (ch_dirs _ _ _ _ _ Hch2) i') as Hu. rewrite fn_lookup_insert in Hu. apply Hu.
      eapply ino_ok_super; [|exact Hi1]. symmetry. apply Hs2. }
    apply (HQ (<[i' := es2]> E1) (<[i' := ip2]> F1)); [|done]. split.
    + intros l. unfold rename_names. destruct (decide (l = i')) as [->|Hne].
      * rewrite !fn_lookup_insert, Hnames2. by rewrite HN1.
      * rewrite !(fn_lookup_insert_ne _ i') by done. unfold E1.
        destruct (decide (l = i)) as [->|Hni]; [by rewrite !fn_lookup_insert|by rewrite !fn_lookup_insert_ne].
    + intros l Hl. unfold E1. rewrite !fn_lookup_insert_ne by set_solver. done.
    + intros l. by eapply fixed_trans.
    + intros l Hl. unfold F1. rewrite !fn_lookup_insert_ne by set_solver. done.
    + apply (frame_trans F F1 _ _ (f_a f1)); [apply Hs1| | |].
      * eapply frame_mono; [|by apply spared_frame]. set_solver.
      * eapply frame_mono; [|exact Hfr2]. set_solver.
      * intros l Hl. unfold F1. rewrite fn_lookup_insert_ne; [done|set_solver].
    + by rewrite (sx_freed _ _ _ Hs2), (sx_freed _ _ _ Hs1).
  - intros f2 [Hs2 _ _ _ _ Hwhy]. apply HQf; [|done]. rewrite Hk1 in Hwhy.
    destruct Hwhy as [?|[?|Hno]]; [by left|by right; left|right; right].
    apply no_room_full in Hno. unfold dir_full in *. by rewrite Hlen1 in Hno.
Qed.

(** ** The two directories *)

Section procedure.
Variable E : Z -> list dirEnt.
Variable retry : nat.

Lemma holds_inj F a0 f i j p : txn L E F a0 f -> holds F f i p -> holds F f j p -> i = j.
Proof.
  intros Ht [Hi _] [Hj _]. destruct (fi_own _ _ _ (tx_fs _ _ _ _ _ Ht) i p Hi) as (_ & ip & Hp & <-).
  destruct (fi_own _ _ _ (tx_fs _ _ _ _ _ Ht) j p Hj) as (_ & ip' & Hp' & <-). congruence.
Qed.

Lemma wp_holds_field {A} F f i p (h : Inode -> A) (Q : A -> FSt -> Prop) : holds F f i p ->
  (forall dc, h (with_Dcache dc (F i)) = h (F i)) -> Q (h (F i)) f -> wp (ip_field p h) f Q.
Proof. intros [_ [dc Hp]] Hh HQ. apply (wp_ip_field p _ _ _ _ Hp). by rewrite Hh. Qed.

Lemma wp_inode_if l (b : bool) (k m : nat) p f (Q : Z -> FSt -> Prop) : l !! (if b then k else m) = Some (Some p) ->
  Q p f -> wp (inode_at l (if b then Z.of_nat k else Z.of_nat m)) f Q.
Proof. intros Hl HQ. destruct b; by apply (wp_inode_at l _ p). Qed.

(** The directories are one, named by the same handle, or two inodes. *)
Definition one_or_two (dfh dfh' : Nfs_fh3) fh fh' : Prop := dfh = dfh' \/ Ino fh <> Ino fh'.

(** What RENAME asks of its directories: of two, that they are in use, without
    a look at the generations of their handles. *)
Definition dirs_found F (dfh dfh' : Nfs_fh3) fh fh' : Prop :=
  (dfh = dfh' -> live F fh) /\
  (dfh <> dfh' -> i_Kind (F (Ino fh)) <> NF3FREE /\ i_Kind (F (Ino fh')) <> NF3FREE).

Lemma wp_errRet_given_up F a0 s err (Q : Z -> NSt -> Prop) : given_up E F a0 (n_fs s) ->
  (server L E F s -> sim (Begin a0) (disk_of s) -> Q err s) -> wp (errRet (Some tt) err) s Q.
Proof.
  intros [Hsv Hsim He [Hi Hb]] HQ. unfold errRet. apply wp_bind, wp_on_fs. exists true, (n_fs s).
  split; [by apply Abort_again|]. assert (nset_fs (n_fs s) s = s) as -> by (by destruct s).
  apply wp_ret, HQ; [|done]. specialize (Hsv s). by destruct s.
Qed.

Lemma wp_rename_dirs F a0 s args fh fh' (Q : option (Z * Z) -> NSt -> Prop) :
  let dfh := Diropargs3_Dir (RENAME3args_From args) in
  let dfh' := Diropargs3_Dir (RENAME3args_To args) in
  let i := Ino fh in
  let i' := Ino fh' in
  txn L E F a0 (n_fs s) -> f_inodes (n_fs s) = ∅ -> unalloc a0 (n_fs s) -> MakeFh dfh = Ok fh -> MakeFh dfh' = Ok fh' ->
  ino_ok (f_a (n_fs s)) i -> ino_ok (f_a (n_fs s)) i' -> i ∉ L -> i' ∉ L -> one_or_two dfh dfh' fh fh' ->
  (forall f', ~ dirs_found F dfh dfh' fh fh' -> txn L E F a0 f' \/ given_up E F a0 f' -> Q None (nset_fs f' s)) ->
  (forall d d' f', dirs_found F dfh dfh' fh fh' -> txn L E F a0 f' -> holds F f' i d -> holds F f' i' d' ->
     (d' = d <-> i' = i) -> Q (Some (d, d')) (nset_fs f' s)) ->
  wp (rename_dirs args fh fh') s Q.
Proof.
  intros dfh dfh' i i' Ht He Hun Hfh Hfh' Hi Hi' HL HL' Htwo HQ0 HQ. unfold rename_dirs, Equal. fold dfh dfh'.
  rewrite BytesEqual_eq. case_bool_decide as Heq.
  - assert (dfh = dfh') as Hd by (destruct dfh, dfh'; simpl in *; congruence).
    assert (fh = fh') as <- by congruence.
    apply wp_bind, wp_on_fs, (wp_lookup L E F a0 (n_fs s) dfh fh); [done..|rewrite He, dom_empty_L; set_solver| |].
    + intros d f' Hk Hg Ht' Ho. apply wp_ret, HQ; [by split|done|by eapply opened_holds|by eapply opened_holds|done].
    + intros f' Hk Ht'. apply wp_ret, HQ0; [|by left]. intros [Hl _]. by apply (not_live F fh Hk), Hl.
  - assert (dfh <> dfh') as Hdd by (intros ->; by destruct Heq).
    destruct Htwo as [?|Hne]; [done|]. fold i i' in Hne.
    apply wp_bind, wp_on_fs, (wp_lockInodes_any E F a0); [|done| |by right| |].
    { apply NoDup_cons. split; [by intros Hx%list_elem_of_singleton|apply NoDup_singleton]. }
    { intros l Hin. rewrite He, dom_empty_L, union_empty_r_L.
      by apply elem_of_cons in Hin as [->|Hin%list_elem_of_singleton]; [|subst l]. }
    + intros f' inodes Huse Ht' _ Hall _.
      destruct (Hall 0%nat i eq_refl) as (d & Hd & Hdi). destruct (Hall 1%nat i' eq_refl) as (d' & Hd' & Hdi').
      apply wp_bind, wp_on_fs, (wp_inode_at inodes 0 d); [done|].
      apply wp_bind, wp_on_fs, (wp_inode_at inodes 1 d'); [done|].
      apply wp_ret, HQ; [|done..|].
      { split; [done|]. intros _. split; apply Huse; unfold twoInums; set_solver. }
      split; [|by intros ->; destruct Hne]. intros ->. by apply (holds_inj F a0 f' i' i d).
    + intros f' l Hl Hk Hg. apply wp_ret, HQ0; [|by right]. intros [_ Hf]. destruct (Hf Hdd) as [Hk1 Hk2].
      apply elem_of_cons in Hl as [->|Hl%list_elem_of_singleton]; [done|by subst l].
Qed.

(** ** The inodes of a rename over an existing name *)

(** The directories and the files are locked at these pointers. *)
Definition four_held F f i i' j t d d' p q : Prop := holds F f i d /\ holds F f i' d' /\ holds F f j p /\ holds F f t q.

Definition four_at (inodes : list (option Z)) d d' p q : Prop :=
  (inodes = [Some d; Some p; Some q] /\ d' = d) \/ inodes = [Some d; Some d'; Some p; Some q].

Lemma four_looked F f f' dip i i' j t d d' p q : looked dip f f' -> four_held F f i i' j t d d' p q ->
  four_held F f' i i' j t d d' p q.
Proof. intros Hl (H1h & H2h & H3h & H4h). split_and!; by eapply looked_holds. Qed.

Lemma wp_validateRename F a0 f fh fh' n n' j t d d' p q inodes (Q : bool -> FSt -> Prop) :
  let i := Ino fh in
  let i' := Ino fh' in
  txn L E F a0 f -> four_held F f i i' j t d d' p q -> four_at inodes d d' p q ->
  live F fh -> live F fh' -> dir_ready L E i -> dir_ready L E i' ->
  names (E i) !! n = Some j -> names (E i') !! n' = Some t ->
  (forall f', txn L E F a0 f' -> sim (f_a f) (f_a f') -> four_held F f' i i' j t d d' p q -> Q true f') ->
  wp (validateRename inodes fh fh' n n') f Q.
Proof.
  intros i i' Ht Hall Hat [_ Hg] [_ Hg'] Hr Hr' Hn Hn' HQ. fold i in Hg. fold i' in Hg'.
  assert (forall l pl, holds F f l pl -> i_Inum (F l) = l) as Hinum.
  { intros l pl [Hlf _]. apply (di_Inum _ _ _ (vo_inode _ _ (tx_vol _ _ _ _ _ Ht) l (proj1 (fi_own _ _ _ (tx_fs _ _ _ _ _ Ht) l pl Hlf)))). }
  unfold validateRename.
  destruct Hall as (Hd & Hd' & Hp & Hq).
  assert (forall Q', (Q' d f) -> wp (inode_at inodes 0) f Q') as H0at.
  { intros Q'. apply (wp_inode_at inodes 0). by destruct Hat as [[-> _]| ->]. }
  assert (forall Q', (Q' d' f) -> wp (inode_at inodes (if bool_decide (length inodes = 3%nat) then 0 else 1)) f Q') as H1at.
  { intros Q'. destruct Hat as [[-> ->]| ->]; [apply (wp_inode_at _ 0)|apply (wp_inode_at _ 1)]; done. }
  assert (forall Q', (Q' p f) -> wp (inode_at inodes (if bool_decide (length inodes = 3%nat) then 1 else 2)) f Q') as H2at.
  { intros Q'. destruct Hat as [[-> ->]| ->]; [apply (wp_inode_at _ 1)|apply (wp_inode_at _ 2)]; done. }
  assert (forall Q', (Q' q f) -> wp (inode_at inodes (if bool_decide (length inodes = 3%nat) then 2 else 3)) f Q') as H3at.
  { intros Q'. destruct Hat as [[-> ->]| ->]; [apply (wp_inode_at _ 2)|apply (wp_inode_at _ 3)]; done. }
  apply wp_bind, H0at, wp_bind, H1at, wp_bind, H2at, wp_bind, H3at. clear H0at H1at H2at H3at.
  pose proof Hd as [Hdin [dc Hdh]]. pose proof Hd' as [Hdin' [dc' Hdh']].
  apply wp_bind, (wp_ip_field d _ _ _ _ Hdh), wp_bind, (wp_ip_field d' _ _ _ _ Hdh'). unfold id. simpl.
  rewrite bool_decide_eq_false_2.
  2: { rewrite Hg, Hg', (Hinum i d Hd), (Hinum i' d' Hd'). unfold i, i'. tauto. }
  apply wp_bind, (wp_lookup_name L E F a0 f i d); [done..|]. intros f1 off Ht1 Hl1. rewrite Hn. simpl.
  assert (four_held F f i i' j t d d' p q) as Hall by done.
  pose proof (four_looked _ _ _ _ _ _ _ _ _ _ _ _ Hl1 Hall) as Hall1.
  apply wp_bind, (wp_lookup_name L E F a0 f1 i' d'); [done|apply Hall1|done|]. intros f2 off' Ht2 Hl2. rewrite Hn'. simpl.
  pose proof (four_looked _ _ _ _ _ _ _ _ _ _ _ _ Hl2 Hall1) as Hall2.
  pose proof Hall2 as (_ & _ & Hp2 & Hq2).
  apply wp_bind, (wp_holds_field F f2 j p); [done|done|]. apply wp_bind, (wp_holds_field F f2 t q); [done|done|].
  rewrite (Hinum j p Hp), (Hinum t q Hq). rewrite bool_decide_eq_false_2 by tauto. apply wp_ret, HQ; [done| |done].
  eapply sim_trans; [apply Hl1|apply Hl2].
Qed.

(** ** Before the name is moved *)

(** The file that the new name named. *)
Definition target i' (n' : list Z) : gset Z :=
  match names (E i') !! n' with Some t => {[t]} | None => ∅ end.

(** The transaction of the state [f], with the files [F1] and the directories
    [E1], is about to move the name: nothing has the new name any more. *)
Record at_move F a a0 i n i' n' j E1 F1 f d d' : Prop := {
  am_changed : changed L E1 F1 a0 f;
  am_quiet : quiet_inv a0 /\ quiet_zero a0;
  am_begun : sim a (Begin a0);
  am_free : free_ok F (alloc_free (a_ialloc a0));
  am_dirs : f_inodes f !! i = Some d /\ f_inodes f !! i' = Some d';
  am_ready : dir_ready L E1 i /\ dir_ready L E1 i';
  am_names : names (E1 i) !! n = Some j /\ names (E1 i') !! n' = None;
  am_entries : names (E1 i') = delete n' (names (E i')) /\ length (E1 i') = length (E i') /\
    forall l, l <> i' -> E1 l = E l;
  am_fixed : forall l, l ∉ target i' n' -> fixed (F l) (F1 l);
  am_others : forall l, l ∉ ({[i']} ∪ target i' n' : gset Z) -> F1 l = F l;
  am_frame : frame F ({[i']} ∪ target i' n') a (f_a f);
  am_gone : forall t, t ∈ target i' n' -> t <> i /\ t <> i' /\ gone (F t) (F1 t) /\ t ∈ a_freeInums (f_a f);
}.

Lemma target_Some i' n' t : names (E i') !! n' = Some t -> target i' n' = {[t]}.
Proof. intros Hn. unfold target. by rewrite Hn. Qed.

Lemma target_None i' n' : names (E i') !! n' = None -> target i' n' = ∅.
Proof. intros Hn. unfold target. by rewrite Hn. Qed.

(** There is no target. *)
Lemma at_move_none F s a0 i n i' n' j f d d' : txn L E F a0 f -> vol_ok F (disk_of s) -> sim (disk_of s) (Begin a0) ->
  holds F f i d -> holds F f i' d' -> dir_ready L E i -> dir_ready L E i' -> names (E i) !! n = Some j ->
  names (E i') !! n' = None -> at_move F (disk_of s) a0 i n i' n' j E F f d d'.
Proof.
  intros Ht Hv Hsim [Hd _] [Hd' _] Hr Hr' Hn Hn'. split.
  - by apply txn_changed.
  - split; apply Ht.
  - done.
  - apply Ht.
  - done.
  - done.
  - done.
  - by rewrite delete_id.
  - intros l _. apply fixed_refl.
  - done.
  - apply frame_sim; [done|]. eapply sim_trans; [done|apply Ht].
  - intros t. by rewrite target_None by done.
Qed.

(** *** The target goes *)

Section over.
Context (F : Z -> Inode) (s : NSt) (args : RENAME3args) (fh fh' : Fh) (j t : Z).
Let i := Ino fh.
Let i' := Ino fh'.
Let n := Diropargs3_Name (RENAME3args_From args).
Let n' := Diropargs3_Name (RENAME3args_To args).
Hypothesis Hsv : server L E F s.
Hypothesis Hi : ino_ok (disk_of s) i.
Hypothesis Hi' : ino_ok (disk_of s) i'.
Hypothesis HL : i ∉ L.
Hypothesis HL' : i' ∉ L.
Hypothesis Hlive : live F fh.
Hypothesis Hlive' : live F fh'.
Hypothesis Hready : dir_ready L E i.
Hypothesis Hready' : dir_ready L E i'.
Hypothesis Hn : names (E i) !! n = Some j.
Hypothesis Hn' : names (E i') !! n' = Some t.
Hypothesis Hrm : removable E F (disk_of s) i' n' t.
Hypothesis Hdist : j <> i /\ j <> i' /\ t <> j.

Lemma target_ne : t <> i /\ t <> i'.
Proof.
  pose proof (sv_dirs _ _ _ _ Hsv) as Hd. pose proof (rm_kind _ _ _ _ _ _ Hrm) as Hk.
  split; intros Ht; rewrite Ht in Hk.
  - by rewrite (dr_none _ _ _ Hd i Hi Hk) in Hn.
  - by rewrite (dr_none _ _ _ Hd i' Hi' Hk) in Hn'.
Qed.

(** The target is cleared in the transaction that locked everything. *)
Lemma wp_clear_target a0 s1 d d' q p (Q : bool -> FSt -> Prop) : txn L E F a0 (n_fs s1) -> sim (disk_of s) (Begin a0) ->
  four_held F (n_fs s1) i i' j t d d' p q ->
  (forall f1, (forall s2 (R : unit -> NSt -> Prop), n_fs s2 = f1 ->
      (forall E1 F1 s3, at_move F (disk_of s) a0 i n i' n' j E1 F1 (n_fs s3) d d' -> R tt s3) -> wp (doDecLink q) s2 R) ->
    Q true f1) ->
  wp (RemName d' n') (n_fs s1) Q.
Proof.
  intros Ht Hsim0 (Hd & Hd' & _ & Hq) HQ. destruct target_ne as [Hti Hti']. set (f := n_fs s1) in *.
  assert (sim (disk_of s) (f_a f)) as Hsim by (eapply sim_trans; [exact Hsim0|apply Ht]).
  assert (ino_ok (disk_of s) t) as Htok.
  { by destruct (name_live L E F (disk_of s) i' n' t (sv_dirs _ _ _ _ Hsv) Hi' Hn' Hready') as (_ & ? & _). }
  apply (wp_unlink_last L E F a0 f i' d' n' t q); [done..| |].
  { apply (unlinkable_sim E F (disk_of s)); [apply Hsv|done|done|]. by apply removable_unlinkable; [apply Hsv|..]. }
  intros k ipd f1 Hk Hfx Hin1 es F1 Hnames Hlast. apply HQ. intros s2 R Hf1 HR. apply Hlast; [done|].
  intros ip' s3 Hgone Hch Hfr Hfree Hin3. pose proof (lookup_lt_Some _ _ _ Hk) as Hlt.
  apply (HR (<[i' := es]> E) (<[t := ip']> F1)). split.
  - eapply changed_ext; [|exact Hch]. by apply (drop_file E F (disk_of s)); [apply Hsv|done|apply Hrm|].
  - split; apply Ht.
  - done.
  - apply Ht.
  - rewrite Hin3. split; [apply Hd|apply Hd'].
  - split; by eapply ready_clear.
  - destruct (decide (i = i')) as [He|Hne].
    + rewrite He. rewrite fn_lookup_insert, Hnames. split; [|apply lookup_delete_None; by left].
      rewrite lookup_delete_ne; [by rewrite <-He|]. intros Heq. rewrite <-Heq, He in *. destruct Hdist as (_ & _ & Hx). congruence.
    + rewrite fn_lookup_insert, fn_lookup_insert_ne, Hnames by done. split; [done|apply lookup_delete_None; by left].
  - rewrite fn_lookup_insert. split_and!; [done| |intros l Hl; by rewrite fn_lookup_insert_ne].
    unfold es. rewrite set_slot_length by lia. lia.
  - rewrite (target_Some i' n' t Hn'). intros l Hl. rewrite fn_lookup_insert_ne by set_solver. unfold F1.
    destruct (decide (l = i')) as [->|Hne]; [by rewrite fn_lookup_insert|].
    rewrite fn_lookup_insert_ne by done. apply fixed_refl.
  - rewrite (target_Some i' n' t Hn'). intros l Hl. unfold F1. rewrite !fn_lookup_insert_ne by set_solver. done.
  - rewrite (target_Some i' n' t Hn').
    apply (frame_trans F F _ _ (f_a f)); [apply Hsim|apply frame_sim; [apply Hsv|done]|exact Hfr|done].
  - intros t'. rewrite (target_Some i' n' t Hn'). intros ->%elem_of_singleton.
    rewrite fn_lookup_insert. done.
Qed.

(** The directories and the two files are locked again. *)
Lemma wp_lock_four a0 f (two : bool) (Q : option (list (option Z)) -> FSt -> Prop) : txn L E F a0 f ->
  f_inodes f = ∅ -> sim (disk_of s) (f_a f) -> (two = false <-> i' = i) ->
  (forall f' inodes d d' p q, txn L E F a0 f' -> four_held F f' i i' j t d d' p q ->
     inodes = (if two then [Some d; Some d'; Some p; Some q] else [Some d; Some p; Some q]) ->
     (two = false -> d' = d) -> Q (Some inodes) f') ->
  wp (lockInodes (if two then [i; i'; j; t] else [i; j; t])) f Q.
Proof.
  intros Ht He Hsim Htwo HQ. destruct target_ne as [Hti Hti']. destruct Hdist as (Hji & Hji' & Htj).
  pose proof (sv_dirs _ _ _ _ Hsv) as Hdirs.
  destruct (name_live L E F (disk_of s) i n j Hdirs Hi Hn Hready) as (_ & Hj & Hkj & HLj).
  destruct (name_live L E F (disk_of s) i' n' t Hdirs Hi' Hn' Hready') as (_ & Htok & Hkt & HLt).
  assert (forall l, l = i \/ l = i' \/ l = j \/ l = t ->
    ino_ok (f_a f) l /\ (l ∉ L ∪ dom (f_inodes f)) /\ i_Kind (F l) <> NF3FREE) as Hall.
  { intros l Hl. rewrite He, dom_empty_L, union_empty_r_L.
    assert (ino_ok (disk_of s) l -> ino_ok (f_a f) l) as Hs by (intros Hl'; eapply ino_ok_super; [symmetry; apply Hsim|exact Hl']).
    destruct Hl as [->|[->|[->| ->]]]; (split_and!; [by apply Hs|done|]); [apply Hlive|apply Hlive'|done|done]. }
  destruct two.
  - assert (i' <> i) as Hne by (intros Heq; by apply Htwo in Heq).
    apply (wp_lockInodes E F a0); [|done|intros l Hl; apply Hall; set_solver|].
    { repeat (apply NoDup_cons; split; [set_solver|]). apply NoDup_nil. done. }
    intros f' inodes Ht' _ Hat Hlen.
    destruct (Hat 0%nat i eq_refl) as (d & H0d & Hd), (Hat 1%nat i' eq_refl) as (d' & H1d & Hd'),
      (Hat 2%nat j eq_refl) as (p & H2d & Hp), (Hat 3%nat t eq_refl) as (q & H3d & Hq).
    apply (HQ f' inodes d d' p q); [done|done| |done].
    destruct inodes as [|x0 [|x1 [|x2 [|x3 []]]]]; try done. simpl in *. congruence.
  - assert (i' = i) as Heq by (by apply Htwo).
    apply (wp_lockInodes E F a0); [|done|intros l Hl; apply Hall; set_solver|].
    { repeat (apply NoDup_cons; split; [set_solver|]). apply NoDup_nil. done. }
    intros f' inodes Ht' _ Hat Hlen.
    destruct (Hat 0%nat i eq_refl) as (d & H0d & Hd), (Hat 1%nat j eq_refl) as (p & H2d & Hp),
      (Hat 2%nat t eq_refl) as (q & H3d & Hq).
    apply (HQ f' inodes d d p q); [done| | |done].
    { split_and!; [done|by rewrite Heq|done|done]. }
    destruct inodes as [|x0 [|x1 [|x2 []]]]; try done. simpl in *. congruence.
Qed.

(** The rename over an existing name, up to the move: files of two kinds are
    refused. *)
Lemma wp_rename_target a0 s1 d d' (Q : option (Z + Z * Z) -> NSt -> Prop) : txn L E F a0 (n_fs s1) ->
  sim (disk_of s) (Begin a0) -> holds F (n_fs s1) i d -> holds F (n_fs s1) i' d' -> (d' = d <-> i' = i) ->
  (forall s', i_Kind (F t) <> i_Kind (F j) -> server L E F s' -> sim (disk_of s) (disk_of s') ->
     Q (Some (inl NFS3ERR_INVAL)) s') ->
  (forall a1 E1 F1 s2 d1 d1', i_Kind (F t) = i_Kind (F j) -> at_move F (disk_of s) a1 i n i' n' j E1 F1 (n_fs s2) d1 d1' ->
     Q (Some (inr (d1, d1'))) s2) ->
  wp (rename_target args fh fh' d d' j t) s1 Q.
Proof.
  intros Ht Hsim0 Hd Hd' Hdd HQ0 HQ. unfold rename_target. fold n n'.
  assert (forall l pl, holds F (n_fs s1) l pl -> i_Inum (F l) = l) as Hinum.
  { intros l pl [Hlf _]. apply (di_Inum _ _ _ (vo_inode _ _ (tx_vol _ _ _ _ _ Ht) l
      (proj1 (fi_own _ _ _ (tx_fs _ _ _ _ _ Ht) l pl Hlf)))). }
  apply wp_bind, (wp_abort_txn L E F a0); [done|]. intros s2 Hrest Hsv2 Hsim2.
  assert (sim (disk_of s) (disk_of s2)) as Hsim02 by (by eapply sim_trans).
  pose proof Hd as [_ [dc Hdh]]. pose proof Hd' as [_ [dc' Hdh']].
  apply wp_bind, (wp_begin L E F); [done|]. intros Ht2. set (s3 := nset_fs (after_Begin (n_fs s2)) s2).
  assert (f_heap (n_fs s3) = f_heap (n_fs s1)) as Hh by apply Hrest.
  apply wp_bind, wp_on_fs. eapply wp_ip_field; [rewrite Hh; exact Hdh|].
  apply wp_bind, wp_on_fs. eapply wp_ip_field; [exact (eq_trans (f_equal (lookup d') Hh) Hdh')|].
  change (i_Inum (with_Dcache dc (F i))) with (i_Inum (F i)).
  change (i_Inum (with_Dcache dc' (F i'))) with (i_Inum (F i')).
  rewrite (Hinum i d Hd), (Hinum i' d' Hd'). set (two := bool_decide (d' <> d)).
  assert (two = false <-> i' = i) as Htwo.
  { unfold two. rewrite bool_decide_eq_false, <-Hdd. split; [apply dec_stable|tauto]. }
  apply wp_bind, wp_on_fs, (wp_lock_four (f_a (n_fs s2)) _ two); [exact Ht2|done|exact Hsim02|done|].
  intros f4 inodes d1 d1' p q Ht4 Hall Hino Hone. simpl.
  assert (four_at inodes d1 d1' p q) as Hat by (rewrite Hino; destruct two; [by right|left; auto]).
  apply wp_bind, wp_on_fs, (wp_inode_at inodes 0 d1); [by rewrite Hino; destruct two|].
  apply wp_bind, wp_on_fs, (wp_inode_if inodes two 1 0 d1'); [rewrite Hino; destruct two; [done|by rewrite Hone]|].
  apply wp_bind, wp_on_fs, (wp_inode_if inodes two 2 1 p); [by rewrite Hino; destruct two|].
  apply wp_bind, wp_on_fs, (wp_inode_if inodes two 3 2 q); [by rewrite Hino; destruct two|].
  apply wp_bind, wp_on_fs, (wp_validateRename F (f_a (n_fs s2)) f4 fh fh' n n' j t d1 d1' p q); [done..|].
  intros f5 Ht5 _ Hall5. simpl. pose proof Hall5 as (_ & _ & Hp5 & Hq5).
  apply wp_bind, wp_on_fs, (wp_holds_field F f5 t q); [done|done|].
  apply wp_bind, wp_on_fs, (wp_holds_field F f5 j p); [done|done|]. case_bool_decide as Hk.
  { apply wp_bind, (wp_errRet L E F (f_a (n_fs s2))); [done|]. intros s' _ Hsv' Hsim'.
    apply wp_ret, HQ0; [done|done|by eapply sim_trans]. }
  rewrite bool_decide_eq_false_2 by apply Hrm. apply wp_bind, wp_ret.
  apply wp_bind, wp_on_fs. eapply (wp_clear_target (f_a (n_fs s2)) (nset_fs f5 s2)); [exact Ht5|done|exact Hall5|].
  intros f6 Hlast. simpl. apply wp_bind, (Hlast (nset_fs f6 s2)); [done|]. intros E1 F1 s7 Ham.
  by apply wp_ret, (HQ (f_a (n_fs s2)) E1 F1).
Qed.
End over.

(** ** The move and the commit *)

(** The server once no inode is cached any more. *)
Definition evicted s : NSt := nset_fs (fset_icache (MkCache ICACHESZ) (n_fs s)) s.

(** The disk has the same inodes and blocks. *)
Definition same_stored a a' : Prop := a_super a' = a_super a /\
  (forall b, valid_blk (a_super a) b -> blk a' b = blk a b) /\ same_inodes a a'.

(** The reply of RENAME of the name [n] of directory [i], of the file [j], to
    the name [n'] of directory [i']. *)
Record rename_reply F s i n i' n' j (rep : RENAME3res) s' : Prop := {
  rr_status : RENAME3res_Status rep = NFS3_OK \/ RENAME3res_Status rep = NFS3ERR_IO \/
    RENAME3res_Status rep = NFS3ERR_SERVERFAULT;
  (* nothing was stored, and the server is as it was but for the cached inodes *)
  rr_io : RENAME3res_Status rep = NFS3ERR_IO -> sim (disk_of s) (disk_of s') /\ server L E F (evicted s') /\
    (MAXNAMELEN <= len n' \/ i_Kind (F i') <> NF3DIR \/ dir_full (E i'));
  rr_fault : RENAME3res_Status rep = NFS3ERR_SERVERFAULT -> same_stored (disk_of s) (disk_of s');
  rr_ok : RENAME3res_Status rep = NFS3_OK -> exists E' F',
    let T := target i' n' in
    server L E' F' s' /\
    (forall d, names (E' d) = rename_names i n i' n' j (fun d => names (E d)) d) /\
    (forall d, d ∉ ({[i; i']} : gset Z) -> E' d = E d) /\
    (forall d, d ∉ T -> fixed (F d) (F' d)) /\
    (forall d, d ∉ ({[i; i']} ∪ T : gset Z) -> F' d = F d) /\
    frame F ({[i; i']} ∪ T) (disk_of s) (disk_of s') /\
    (forall t, t ∈ T -> gone (F t) (F' t) /\ t ∈ alloc_free (a_ialloc (disk_of s'))) /\
    a_super (disk_of s') = a_super (disk_of s) /\
    stable_obj (a_log (disk_of s')) = log_obj (a_log (disk_of s'));
}.

Lemma move_reply F s a0 i n i' n' j E1 F1 f d d' E' F' f' s' :
  at_move F (disk_of s) a0 i n i' n' j E1 F1 f d d' -> moved_name E1 F1 f i n i' n' j E' F' f' ->
  changed L E' F' a0 f' -> server L E' F' s' -> sim (f_a f') (disk_of s') ->
  alloc_free (a_ialloc (disk_of s')) = alloc_free (a_ialloc (f_a f')) ∪ list_to_set (a_freeInums (f_a f')) ->
  stable_obj (a_log (disk_of s')) = log_obj (a_log (disk_of s')) ->
  rename_reply F s i n i' n' j (mkRENAME3res NFS3_OK zero zero) s'.
Proof.
  intros Ham Hmn Hch Hsv' Hsim' Hia Hstb. split; [by left|done|done|]. intros _. exists E', F'.
  assert (a_super (f_a f) = a_super (disk_of s)) as Hsp.
  { rewrite (af_super _ _ (fi_from _ _ _ (ch_fs _ _ _ _ _ (am_changed _ _ _ _ _ _ _ _ _ _ _ _ _ Ham)))). apply (am_begun _ _ _ _ _ _ _ _ _ _ _ _ _ Ham). }
  assert (a_super (f_a f') = a_super (disk_of s)) as Hsp'.
  { rewrite (af_super _ _ (fi_from _ _ _ (ch_fs _ _ _ _ _ Hch))). apply (am_begun _ _ _ _ _ _ _ _ _ _ _ _ _ Ham). }
  destruct Ham as [_ _ _ _ _ _ _ (He1 & _ & He2) Hfix Hoth Hfr Hgone]. destruct Hmn as [Hn2 Hd2 Hf2 Ho2 Hfr2 Hfree2].
  split_and!; [done| | | | | | | |done].
  - intros l. rewrite Hn2. apply (rename_names_target i n i' n' j (fun l => names (E l))); [done|].
    intros k Hk. by rewrite He2.
  - intros l Hl. rewrite Hd2 by done. apply He2. set_solver.
  - intros l Hl. eapply fixed_trans; [by apply Hfix|apply Hf2].
  - intros l Hl. rewrite Ho2 by set_solver. apply Hoth. set_solver.
  - apply (frame_trans F F1 _ _ (f_a f)); [done| | |].
    + eapply frame_mono; [|exact Hfr]. set_solver.
    + apply (frame_trans F1 F' _ _ (f_a f')); [congruence|eapply frame_mono; [|exact Hfr2]; set_solver| |].
      * apply frame_sim; [apply Hch|done].
      * intros l Hl. apply Ho2. set_solver.
    + intros l Hl. apply Hoth. set_solver.
  - intros t Ht. destruct (Hgone t Ht) as (Hti & Hti' & Hg & Hfi). rewrite Ho2 by set_solver. split; [done|].
    rewrite Hia, Hfree2. apply elem_of_union_r, elem_of_list_to_set. exact Hfi.
  - rewrite (sim_super _ _ Hsim' : a_super (disk_of s') = _). done.
Qed.

(** After an abort nothing but the cache can differ. *)
Lemma evicted_server F s a0 f f' s1 : server L E F s -> sim (disk_of s) (Begin a0) -> fs_inv L a0 f -> bitmap_ok a0 ->
  free_ok F (alloc_free (a_ialloc a0)) -> ended L f f' -> quiet_inv (f_a f') -> quiet_zero (f_a f') ->
  sim (Begin a0) (Begin (f_a f')) -> a_super (f_a f') = a_super a0 -> a_log (f_a f') = a_log a0 ->
  alloc_free (a_balloc (f_a f')) = alloc_free (a_balloc a0) -> alloc_free (a_ialloc (f_a f')) = alloc_free (a_ialloc a0) ->
  server L E F (evicted (nset_fs f' s1)).
Proof.
  intros Hsv Hs0 Hs Hb Hfree (lm & Hlm & He) Hq Hz Hsim Hsp Hlg Hba Hia.
  assert (sim (disk_of s) (disk_of (nset_fs f' s1))) as Hs1 by (eapply sim_trans; [exact Hs0|exact Hsim]).
  assert (cache_abs (MkCache ICACHESZ : @Cache Z) = []) as Hc by done.
  split.
  - split; simpl; [done| |done|by apply MkCache_inv|by rewrite He|rewrite He; apply Hs|].
    + destruct Hb as [Hob Hoi]. unfold bitmap_ok. rewrite Hsp, Hlg, Hba, Hia. done.
    + intros i p Hin. by apply not_elem_of_nil in Hin.
  - apply (sim_vol F (disk_of s)); [exact Hs1|apply Hsv].
  - intros i Hi. apply (sv_linked _ _ _ _ Hsv). eapply ino_ok_super; [|exact Hi]. apply (sim_super _ _ Hs1).
  - apply (dirs_sim E F (disk_of s)); [apply Hsv|exact Hs1].
  - intros i q iq dq [Ho|[Hin _]]; [done|]. by apply not_elem_of_nil in Hin.
  - intros i Hi. apply Hfree. by rewrite <-Hia.
Qed.

Lemma failed_same a a0 a1 : sim a (Begin a0) -> a_super a1 = a_super a0 -> log_obj (a_log a1) = log_obj (a_log a0) ->
  same_stored a (Begin a1).
Proof.
  intros Hs Hsp Hlg. pose proof (sim_super _ _ Hs) as Hsp0. simpl in Hsp0. split_and!.
  - simpl. congruence.
  - intros b Hb. rewrite <-(sim_blk _ _ Hs b Hb). unfold blk. rewrite !Begin_obj. simpl. by rewrite Hsp, Hlg.
  - intros i Hi. rewrite <-(sim_iobj _ _ Hs i Hi). unfold iobj. rewrite !Begin_obj. simpl. by rewrite Hsp, Hlg.
Qed.

Lemma wp_rename_move F s a0 i n i' n' j E1 F1 s1 d d' (Q : RENAME3res -> NSt -> Prop) : server L E F s ->
  at_move F (disk_of s) a0 i n i' n' j E1 F1 (n_fs s1) d d' ->
  (forall rep s', rename_reply F s i n i' n' j rep s' -> Q rep s') ->
  wp (ok ← on_fs (RemName d n);
      if negb ok then
        st ← errRet (Some tt) NFS3ERR_IO;
        mret (mkRENAME3res st zero zero)
      else
        ok1 ← on_fs (AddName d' j n');
        if negb ok1 then
          st ← errRet (Some tt) NFS3ERR_IO;
          mret (mkRENAME3res st zero zero)
        else
          st ← commitReply;
          mret (mkRENAME3res st zero zero)) s1 Q.
Proof.
  intros Hsv Ham HQ. pose proof Ham as [Hch [Hq Hz] Hsim0 Hfree0 [Hd Hd'] [Hr Hr'] [Hn Hn'] (_ & Hlen & _) Hfix Hoth _ Hgone].
  set (last := fun ok1 : bool => (if negb ok1 then
          st ← errRet (Some tt) NFS3ERR_IO;
          mret (mkRENAME3res st zero zero)
        else
          st ← commitReply;
          mret (mkRENAME3res st zero zero)) : M NSt RENAME3res).
  apply wp_bind, wp_on_fs.
  apply (wp_move_name E1 F1 a0 (n_fs s1) i d n i' d' n' j _ (fun ok1 f => wp (last ok1) (nset_fs f s1) Q)); [done..| | |].
  - intros f1 Hadd. simpl. apply wp_bind, wp_on_fs. exact Hadd.
  - intros E' F' f' Hmn Hch'. unfold last. cbn [negb]. apply wp_bind. unfold commitReply. eapply wp_bind, wp_commit_changed; [apply Hch'|].
    intros ok s' _ _ Hcm Hstb (_ & Hia & _ & Hfail). apply wp_ret, wp_ret, HQ. destruct ok.
    + destruct (Hcm _ Hch' eq_refl) as [Hsv' Hsim']. eapply move_reply; [done|exact Hmn|done|done|done|exact Hia|by apply Hstb].
    + split; simpl; [by auto|done| |done]. intros _. destruct (Hfail eq_refl) as [Hsp Hlg].
      pose proof (fi_from _ _ _ (ch_fs _ _ _ _ _ Hch')) as Hf.
      apply (failed_same _ a0); [done|rewrite Hsp; exact (af_super _ _ Hf)|rewrite Hlg; exact (f_equal log_obj (af_log _ _ Hf))].
  - intros f' Hwhy Hs'. unfold last. cbn [negb]. apply wp_bind. unfold errRet.
    apply wp_bind, wp_on_fs, (wp_Abort_gen L a0); [done..|].
    intros f3 Hend Hq3 Hz3 Hsim3 Hsp3 Hlg3 Hba3 Hia3. apply wp_ret, wp_ret, HQ. split; simpl; [by auto| |done|done].
    intros _. split; [by eapply sim_trans|].
    split; [by apply (evicted_server F s a0 f' f3); [|done|done|apply Hch|done..]|].
    assert (i_Kind (F1 i') = i_Kind (F i')) as Hk.
    { rewrite (Hfix i'); [done|]. intros Ht. by destruct (Hgone i' Ht) as (_ & ? & _). }
    rewrite Hk in Hwhy. destruct Hwhy as [?|[?|Hf]]; [by left|by right; left|right; right]. unfold dir_full in *. by rewrite <-Hlen.
Qed.

(** ** RENAME *)

(** The file that the new name names, if it does, can be removed, the file that
    moves is not one of the directories, and the handles of these are not
    stale. *)
Definition rename_over F a fh n fh' n' : Prop := let i := Ino fh in let i' := Ino fh' in
  forall j t, names (E i) !! n = Some j -> names (E i') !! n' = Some t -> ~ (i' = i /\ t = j) ->
  removable E F a i' n' t /\ (j <> i /\ j <> i' /\ t <> j) /\ live F fh /\ live F fh'.

Lemma wp_RENAME F s args fh fh' (Q : RENAME3res -> NSt -> Prop) :
  let dfh := Diropargs3_Dir (RENAME3args_From args) in
  let dfh' := Diropargs3_Dir (RENAME3args_To args) in
  let n := Diropargs3_Name (RENAME3args_From args) in
  let n' := Diropargs3_Name (RENAME3args_To args) in
  let i := Ino fh in
  let i' := Ino fh' in
  server L E F s -> retry <> 0%nat -> IllegalName n = false -> MakeFh dfh = Ok fh -> MakeFh dfh' = Ok fh' ->
  one_or_two dfh dfh' fh fh' -> ino_ok (disk_of s) i -> ino_ok (disk_of s) i' -> i ∉ L -> i' ∉ L ->
  dir_ready L E i -> dir_ready L E i' -> rename_over F (disk_of s) fh n fh' n' ->
  (forall st s', (~ dirs_found F dfh dfh' fh fh' /\ st = NFS3ERR_STALE) \/
     (dirs_found F dfh dfh' fh fh' /\ names (E i) !! n = None /\ st = NFS3ERR_NOENT) \/
     (dirs_found F dfh dfh' fh fh' /\ (exists j t, names (E i) !! n = Some j /\ names (E i') !! n' = Some t /\ i_Kind (F t) <> i_Kind (F j)) /\
        st = NFS3ERR_INVAL) ->
     server L E F s' -> sim (disk_of s) (disk_of s') -> Q (mkRENAME3res st zero zero) s') ->
  (forall j s', dirs_found F dfh dfh' fh fh' -> i' = i -> names (E i) !! n = Some j -> names (E i') !! n' = Some j ->
     (server L E F s' /\ sim (disk_of s) (disk_of s')) \/ same_stored (disk_of s) (disk_of s') ->
     Q (mkRENAME3res NFS3_OK zero zero) s') ->
  (forall j rep s', dirs_found F dfh dfh' fh fh' -> names (E i) !! n = Some j -> (forall t, names (E i') !! n' = Some t -> i_Kind (F t) = i_Kind (F j)) ->
     rename_reply F s i n i' n' j rep s' -> Q rep s') ->
  wp (NFSPROC3_RENAME retry args) s Q.
Proof.
  intros dfh dfh' n n' i i' Hsv Hre Hlegal Hfh Hfh' Htwo Hi Hi' HL HL' Hready Hready' Hover Hfail Hself Hok.
  unfold NFSPROC3_RENAME. destruct retry as [|r] eqn:Hr; [done|]. clear Hre Hr. cbn [rename_loop].
  fold dfh dfh' n n'. apply wp_bind, wp_bind, (wp_begin L E F); [done|]. intros Ht0. set (a0 := f_a (n_fs s)) in *.
  apply wp_bind. eapply wp_lift; [exact Hfh'|]. apply wp_bind. eapply wp_lift; [exact Hfh|]. rewrite Hlegal.
  apply wp_bind, (wp_rename_dirs F a0 _ args fh fh'); try done.
  { intros f1 Hdead [Ht1|Ht1].
    - apply wp_bind, (wp_errRet L E F a0); [done|]. intros s' _ Hsv' Hsim. apply wp_ret, wp_ret, Hfail; [by left|done|done].
    - apply wp_bind, (wp_errRet_given_up F a0); [done|]. intros Hsv' Hsim. apply wp_ret, wp_ret, Hfail; [by left|done|done]. }
  intros d d' f1 Hl Ht1 Hd1 Hd1' Hdd. change (nset_fs f1 (nset_fs _ s)) with (nset_fs f1 s).
  apply wp_bind, wp_on_fs, (wp_lookup_name L E F a0 f1 i d); [done..|]. intros f2 off Ht2 Hl2.
  pose proof (looked_holds _ _ _ _ _ _ Hl2 Hd1) as Hd2. pose proof (looked_holds _ _ _ _ _ _ Hl2 Hd1') as Hd2'.
  destruct (names (E i) !! n) as [j|] eqn:Hn; simpl.
  2: { rewrite bool_decide_eq_true_2 by done. apply wp_bind, (wp_errRet L E F a0); [done|]. intros s' _ Hsv' Hsim.
       apply wp_ret, wp_ret, Hfail; [by right; left|done|done]. }
  destruct (name_live L E F (disk_of s) i n j (sv_dirs _ _ _ _ Hsv) Hi Hn Hready) as (Hj0 & _).
  rewrite bool_decide_eq_false_2 by done.
  apply wp_bind, wp_on_fs, (wp_lookup_name L E F a0 f2 i' d'); [done..|]. intros f3 off' Ht3 Hl3.
  pose proof (looked_holds _ _ _ _ _ _ Hl3 Hd2) as Hd3. pose proof (looked_holds _ _ _ _ _ _ Hl3 Hd2') as Hd3'.
  assert (sim (disk_of s) (Begin a0)) as Hs0 by (apply sim_refl; apply (sv_vol _ _ _ _ Hsv)).
  assert (d' = d -> i' = i) as Hdi by tauto.
  destruct (names (E i') !! n') as [t|] eqn:Hn'; simpl.
  - destruct (name_live L E F (disk_of s) i' n' t (sv_dirs _ _ _ _ Hsv) Hi' Hn' Hready') as (Ht0' & _).
    case_bool_decide as Hsame.
    { destruct Hsame as [Hdd' ->]. apply wp_bind. eapply (wp_commit_changed L E); [apply Ht3|].
      intros ok s' _ _ Hcm _ (_ & _ & _ & Hfault). apply wp_ret, wp_ret, (Hself j); [done|by apply Hdi|done|done|]. destruct ok.
      - left. destruct (Hcm F (txn_changed _ _ _ _ _ Ht3) eq_refl) as [Hsv' Hsim']. split; [done|].
        eapply sim_trans; [exact Hs0|]. eapply sim_trans; [apply Ht3|exact Hsim'].
      - right. destruct (Hfault eq_refl) as [Hsp Hlg]. pose proof (fi_from _ _ _ (tx_fs _ _ _ _ _ Ht3)) as Hf.
        apply (failed_same _ a0); [done|rewrite Hsp; exact (af_super _ _ Hf)|rewrite Hlg; exact (f_equal log_obj (af_log _ _ Hf))]. }
    rewrite bool_decide_eq_true_2 by done.
    assert (~ (i' = i /\ t = j)) as Hns by (intros [He ->]; apply Hsame; split; [by apply Hdd|done]).
    destruct (Hover j t Hn Hn' Hns) as (Hrm & Hdist & Hlf & Hlf').
    apply wp_bind, (wp_rename_target F s args fh fh' j t Hsv Hi Hi' HL HL' Hlf Hlf' Hready Hready' Hn Hn' Hrm Hdist a0 _ d d');
      [exact Ht3|done|exact Hd3|exact Hd3'|done| |].
    { intros s' Hk Hsv' Hsim'. apply wp_ret, wp_ret, Hfail; [|done|done]. right. right. split; [done|]. split; [|done].
      by exists j, t. }
    intros a1 E1 F1 s2 d1 d1' Hk Ham. apply wp_ret.
    apply (wp_rename_move F s a1 i n i' n' j E1 F1 s2 d1 d1' _ Hsv); [exact Ham|]. intros rep s' Hrep.
    apply (Hok j); [done|done| |done]. intros t' Ht'. by injection Ht' as <-.
  - rewrite bool_decide_eq_false_2 by (intros [_ He]; congruence). rewrite bool_decide_eq_false_2 by tauto.
    apply wp_ret. apply (wp_rename_move F s a0 i n i' n' j E F _ d d' _ Hsv); [|intros rep s' Hrep; by apply (Hok j)].
    apply at_move_none; [exact Ht3|apply Hsv|done|exact Hd3|exact Hd3'|done..].
Qed.
End procedure.
End rename.
