(* ===== verification/NfsSetattr.v ===== *)
(** The procedure SETATTR: the size and the times of a file. *)
From stdpp Require Import functions.
From S2P Require Import Prelude Nfstypes External Reference Super Fh Cache Dcache Alloctxn AtxnCommit Inode.
From S2P Require Import InodeCodec InodeMap InodeIO InodeBound Volume InodeClaims InodeShrink InodeResize Fstxn FstxnInv Dir DirSpec DirVol.
From S2P Require Import Lorder Shrinker NfsOps NfsFiles NfsDirs NfsNames NfsCreate NfsRemove.
Import Nfs.

(** The time that SETATTR stores, for the way [how] that the client asks for:
    the old one, the client's or the server's. *)
Definition new_time `{!Clock} (how : Z) (client old t : Nfstime3) : Prop :=
  if bool_decide (how <> DONT_CHANGE) then
    if bool_decide (how = SET_TO_CLIENT_TIME) then t = client else exists k, t = time_at k
  else t = old.

(** A time of an inode. *)
Record time_field (get : Inode -> Nfstime3) (upd : Nfstime3 -> Inode -> Inode) : Prop := {
  tf_get : forall ip, upd (get ip) ip = ip;
  tf_same : forall t ip ip', same_attrs ip ip' -> same_attrs (upd t ip) (upd t ip');
  tf_Dcache : forall t dc ip, upd t (with_Dcache dc ip) = with_Dcache dc (upd t ip);
  tf_keeps : forall t ip, i_blks (upd t ip) = i_blks ip /\ i_Inum (upd t ip) = i_Inum ip /\
    i_Kind (upd t ip) = i_Kind ip /\ i_Nlink (upd t ip) = i_Nlink ip /\ i_Dcache (upd t ip) = i_Dcache ip;
  tf_wf : forall t ip, time_wf t -> inode_wf ip -> inode_wf (upd t ip);
}.

Lemma Atime_field : time_field i_Atime with_Atime.
Proof.
  split; [by intros []| |done|done|by intros t ip Ht []].
  intros t [] []. unfold same_attrs. cbn. by intros [= -> -> -> -> -> -> -> ->].
Qed.

Lemma Mtime_field : time_field i_Mtime with_Mtime.
Proof.
  split; [by intros []| |done|done|by intros t ip Ht []].
  intros t [] []. unfold same_attrs. cbn. by intros [= -> -> -> -> -> -> -> ->].
Qed.

Lemma same_attrs_trans ip1 ip2 ip3 : same_attrs ip1 ip2 -> same_attrs ip2 ip3 -> same_attrs ip1 ip3.
Proof. unfold same_attrs. congruence. Qed.

(** ** What [getShrink] writes *)

Section untouched.
Context `{!Common} `{!CommonSpec} `{!Util} `{!UtilSpec} `{!Marshal} `{!MarshalSpec} `{!Std}
  `{!Buf} `{!BufSpec} `{!Journal} `{!JournalSpec} `{!AllocPkg} `{!AllocSpec}
  `{!LockPkg} `{!LockSpec} `{!Clock} `{!DiskPkg}.

(** The operation writes no object. *)
Definition untouched {A} (m : M FSt A) : Prop := forall f r f', m f = Ok (r, f') ->
  dirtied (f_a f) (f_a f') (fun _ => False).

Lemma untouched_ret {A} (x : A) : untouched (mret x).
Proof. intros f r f' [= _ <-]. apply dirtied_refl. Qed.

Lemma untouched_bind {A B} (m : M FSt A) (k : A -> M FSt B) : untouched m -> (forall x, untouched (k x)) -> untouched (m ≫= k).
Proof. intros Hm Hk f r f' (x & f1 & Hr1%Hm & Hr2%Hk)%M_bind_Ok. by eapply dirtied_trans. Qed.

(** What changes other fields only. *)
Lemma untouched_same {A} (m : M FSt A) : same_a m -> untouched m.
Proof. intros Hm f r f' Ha%Hm. rewrite Ha. apply dirtied_refl. Qed.

Create HintDb untouched.
#[local] Hint Extern 1 (untouched _) => apply untouched_same; solve [eauto with same_a] : untouched.

(** Goes through the commands of an operation. *)
Ltac untouched := repeat match goal with
  | |- untouched (_ ≫= _) => apply untouched_bind
  | |- forall _, untouched _ => intros ?
  | |- untouched (match ?x with _ => _ end) => destruct x
  | |- untouched _ => solve [eauto with untouched]
  end.

Lemma untouched_read addr : untouched (on_a (modify (fun a => set_op (ReadBuf (a_log a) (a_op a) addr (INODESZ * 8)) a))).
Proof.
  intros f r f' [= _ <-]. split; [done|]. intros a (b & Hb & Hd). left. simpl in Hb. rewrite ReadBuf_bufs in Hb.
  destruct (op_bufs (a_op (f_a f)) !! addr) eqn:He; [by exists b|].
  apply lookup_insert_Some in Hb as [[<- <-]|[_ Hb]]; [done|by exists b].
Qed.

Lemma untouched_data addr : untouched (on_a (data_of addr)).
Proof. apply untouched_same. intros f r f' [= _ <-]. by destruct f. Qed.

#[local] Hint Resolve untouched_read untouched_data : untouched.

Lemma untouched_GetInodeFh fh3 : untouched (GetInodeFh fh3).
Proof. unfold GetInodeFh, GetInodeInum, GetInodeInumFree, GetInodeLocked, LockInode, addInode, new_inode. untouched. Qed.

Lemma NDirty_untouched {A} (m : M FSt A) f r f' : untouched m -> m f = Ok (r, f') ->
  NDirty (a_op (f_a f')) <= NDirty (a_op (f_a f)).
Proof. intros Hm Hr%Hm. pose proof (NDirty_dirtied _ _ _ [] Hr ltac:(done)) as Hd. unfold len in Hd. simpl in Hd. lia. Qed.

Lemma untouched_shrinking p : untouched (on_ip p IsShrinking).
Proof.
  apply untouched_same. intros f r f'. unfold on_ip, IsShrinking, ip_get, gets. by destruct (f_heap f !! p); [intros [= _ <-]|].
Qed.

Lemma FsBegin_clean f r f' : FsBegin f = Ok (r, f') -> NDirty (a_op (f_a f')) = 0.
Proof.
  unfold FsBegin. intros Hm. run_inv Hm. injection Hrun as _ <-. injection Hm as _ <-. simpl.
  by rewrite NDirty_eq, Begin_bufs, map_filter_empty.
Qed.

(** A transaction that [getShrink] returns wrote nothing yet. *)
Lemma getShrink_clean retry fh3 s p s' : getShrink retry fh3 s = Ok ((Some p, NFS3_OK), s') ->
  NDirty (a_op (f_a (n_fs s'))) = 0.
Proof.
  unfold getShrink. generalize retry at 2 as fuel. intros fuel. revert s s'. induction fuel as [|fuel IH]; intros s s' Hm; [done|].
  cbn [get_shrink_loop] in Hm. run_inv Hm. apply on_fs_run in Hrun as Hc%FsBegin_clean. apply on_fs_run in Hrun0.
  pose proof (NDirty_untouched _ _ _ _ (untouched_GetInodeFh fh3) Hrun0) as Hle.
  destruct r0 as [q|]; [|done]. run_inv Hm. apply on_fs_run in Hrun1.
  pose proof (NDirty_untouched _ _ _ _ (untouched_shrinking q) Hrun1) as Hle'. destruct (negb r0).
  - injection Hm as _ <-. pose proof (NDirty_nonneg (a_op (f_a (n_fs t1)))). lia.
  - run_inv Hm. destruct (negb _); [done|]. by eapply IH.
Qed.
End untouched.

Section setattr.
Context `{!Common} `{!CommonSpec} `{!Util} `{!UtilSpec} `{!Marshal} `{!MarshalSpec} `{!Std}
  `{!Buf} `{!BufSpec} `{!Journal} `{!JournalSpec} `{!AllocPkg} `{!AllocSpec}
  `{!LockPkg} `{!LockSpec} `{!Clock} `{!DiskPkg}.
Variable L : gset Z.
Variable E : Z -> list dirEnt.
Variable retry : nat.
Implicit Types (F : Z -> Inode) (f : FSt) (s : NSt) (a : ASt) (i p : Z) (ip : Inode).

(** The clock moves in a transaction. *)
Lemma sim_tick L0 a0 f k : fs_inv L0 a0 f -> sim (f_a f) (set_tick k (f_a f)).
Proof.
  intros Hs. pose proof (af_inv _ _ (fi_from _ _ _ Hs)) as Hinv. pose proof (fi_zero _ _ _ Hs) as Hz.
  split; [done|by destruct Hinv|by destruct Hz|done..].
Qed.

Lemma changed_tick F a0 f k : changed L E F a0 f -> changed L E F a0 (fset_a (set_tick k (f_a f)) f).
Proof.
  intros [Hs Hb Hv Hsy Hl Hd Hn Hf]. pose proof (fi_from _ _ _ Hs) as Hfrom. pose proof (fi_zero _ _ _ Hs) as Hz.
  pose proof (sim_tick L a0 f k Hs) as Hsim.
  split; [|done|by eapply sim_vol| |done|by eapply dirs_sim|exact Hn|exact Hf].
  - apply fs_inv_alloc; [done| |by destruct Hz|done..]. by destruct Hfrom as [[] ? ? ? ?].
  - intros j p ip Hj Hp. destruct (fi_own _ _ _ Hs j p Hj) as [Hjo _].
    apply (sim_disk_inode (f_a f)); [done|done|by apply (Hsy j p)].
Qed.

(** *** The file while it is changed *)

(** The transaction of [s1] holds the file [i] of [s] at [p]; it has the
    attributes [F1 i] and the bytes [fb] now, and the rest is as it was. *)
Record setting F s i p F1 s1 (fb : Z -> Z) : Prop := {
  se_changed : changed L E F1 (f_a (n_fs s)) (n_fs s1);
  se_holds : holds F1 (n_fs s1) i p;
  se_others : forall j, j <> i -> F1 j = F j;
  se_kind : i_Kind (F1 i) = i_Kind (F i);
  se_frame : frame F {[i]} (disk_of s) (f_a (n_fs s1));
  se_bytes : forall k, in_file k -> fbyte (F1 i) (f_a (n_fs s1)) k = fb k;
}.

Section set.
Context (F : Z -> Inode) (s : NSt) (i p : Z).
Hypothesis Hkd : i_Kind (F i) <> NF3DIR.
Hypothesis Hkf : i_Kind (F i) <> NF3FREE.

Lemma setting_super F1 s1 fb : setting F s i p F1 s1 fb -> a_super (f_a (n_fs s1)) = a_super (disk_of s).
Proof. intros Hse. apply (af_super _ _ (fi_from _ _ _ (ch_fs _ _ _ _ _ (se_changed _ _ _ _ _ _ _ Hse)))). Qed.

Lemma setting_ino F1 s1 fb : setting F s i p F1 s1 fb -> ino_ok (f_a (n_fs s1)) i.
Proof.
  intros Hse. by destruct (fi_own _ _ _ (ch_fs _ _ _ _ _ (se_changed _ _ _ _ _ _ _ Hse)) i p
    (proj1 (se_holds _ _ _ _ _ _ _ Hse))) as [Hi _].
Qed.

(** The inode is another one now. *)
Lemma setting_replace F1 s1 fb ip ip' f' fb' : setting F s i p F1 s1 fb -> f_heap (n_fs s1) !! p = Some ip ->
  replaced F1 i p (n_fs s1) ip' f' -> i_Kind ip' = i_Kind ip -> i_Nlink ip' = i_Nlink ip -> i_Dcache ip' = i_Dcache ip ->
  (forall k, in_file k -> fbyte ip' (f_a f') k = fb' k) ->
  setting F s i p (<[i := ip']> F1) (nset_fs f' s1) fb'.
Proof.
  intros Hse Hp Hr Hk Hnl Hdc Hb. pose proof (setting_super F1 s1 fb Hse) as Hsp. pose proof (setting_ino F1 s1 fb Hse) as Hi.
  destruct Hse as [Hch Hh Ho Hki Hfr _]. pose proof Hh as [Hin [dc Hhp]].
  assert (ip = with_Dcache dc (F1 i)) as Hip by congruence.
  assert (i_Kind ip = i_Kind (F i)) as Hkip by (rewrite Hip; exact Hki).
  split; simpl; rewrite ?fn_lookup_insert.
  - apply (changed_file L E F1 _ (n_fs s1) f' i p ip' Hch Hin Hr ip); [done|by rewrite Hki|by rewrite Hk, Hkip|by intros _ _; rewrite Hk, Hkip| |done|].
    + intros Hnf. rewrite Hnl, Hip. simpl. apply (ch_linked _ _ _ _ _ Hch i Hi). by rewrite Hki.
    + right. intros Hf. destruct (ch_free _ _ _ _ _ Hch i Hf) as [Hx _]. congruence.
  - split; [by rewrite (rp_inodes F1 (n_fs s1) f' i p ip' Hr)|]. exists (i_Dcache ip').
    rewrite (rp_heap F1 (n_fs s1) f' i p ip' Hr), (decide_True (P := p = p)) by done.
    rewrite fn_lookup_insert. by destruct ip'.
  - intros j Hj. rewrite fn_lookup_insert_ne by done. by apply Ho.
  - congruence.
  - apply (frame_trans F F1 _ _ (f_a (n_fs s1))); [done|done|by eapply rp_frame|].
    intros j Hj. apply Ho. set_solver.
  - exact Hb.
Qed.

Lemma setting_tick F1 s1 fb k : setting F s i p F1 s1 fb ->
  setting F s i p F1 (nset_fs (fset_a (set_tick k (f_a (n_fs s1))) (n_fs s1)) s1) fb.
Proof.
  intros Hse. pose proof (setting_super F1 s1 fb Hse) as Hsp. pose proof (setting_ino F1 s1 fb Hse) as Hi.
  destruct Hse as [Hch Hh Ho Hki Hfr Hb]. pose proof (ch_vol _ _ _ _ _ Hch) as Hv.
  pose proof (sim_tick L _ _ k (ch_fs _ _ _ _ _ Hch)) as Hsim.
  split; [by apply changed_tick|exact Hh|exact Ho|exact Hki| |].
  - apply (frame_trans F F1 _ _ (f_a (n_fs s1))); [done|done|by apply frame_sim|].
    intros j Hj. apply Ho. set_solver.
  - intros l Hl. rewrite <-(Hb l Hl). apply sim_fbyte; [by apply (vo_file _ _ Hv)|exact Hsim|done].
Qed.

(** *** A time *)

Lemma wp_set_attr F1 s1 fb (upd : Inode -> Inode) ip (Q : unit -> NSt -> Prop) : setting F s i p F1 s1 fb ->
  f_heap (n_fs s1) !! p = Some ip ->
  i_blks (upd ip) = i_blks ip /\ i_Inum (upd ip) = i_Inum ip /\ i_Kind (upd ip) = i_Kind ip /\
    i_Nlink (upd ip) = i_Nlink ip /\ i_Dcache (upd ip) = i_Dcache ip -> inode_wf (upd ip) ->
  (forall f', setting F s i p (<[i := upd ip]> F1) (nset_fs f' s1) fb -> Q tt (nset_fs f' s1)) ->
  wp (_ ← on_fs (on_ip p (ip_set upd)); on_fs (on_ip p WriteInode)) s1 Q.
Proof.
  intros Hse Hp (Hb & Hin & Hk & Hnl & Hdc) Hw HQ. set (f := n_fs s1) in *.
  pose proof (se_changed _ _ _ _ _ _ _ Hse) as Hch. pose proof (setting_ino F1 s1 fb Hse) as Hi.
  pose proof (proj1 (se_holds _ _ _ _ _ _ _ Hse)) as Hin1.
  pose proof (changed_heap L E F1 _ f i p ip Hch Hin1 Hp) as Hip. pose proof (ch_vol _ _ _ _ _ Hch) as Hv.
  assert (file_ok ip (f_a f)) as Hok by (rewrite Hip; by apply file_ok_Dcache, vol_file_ok).
  assert (file_ok (upd ip) (f_a f)) as Hok'.
  { split; [apply Hok|apply Hok|apply (file_wf_blks ip); [done|apply Hok]|done|rewrite Hin; apply Hok]. }
  apply wp_bind, wp_on_fs, (wp_on_ip p ip); [done|]. apply wp_ip_set.
  apply wp_on_fs, (wp_on_ip p (upd ip)); [apply lookup_insert_eq|].
  apply wp_WriteInode; [apply Hok'..|]. intros a' Hwi. change (wi_post (upd ip) (f_a f) a') in Hwi. simpl. rewrite insert_insert_eq.
  apply HQ. apply (setting_replace F1 s1 fb ip (upd ip) _ fb Hse Hp); [|done..|].
  - exact (stored_replaced F1 f i p ip _ (upd ip) Hv Hi Hip (wi_stored f p ip (upd ip) a' Hok Hb Hin Hw Hwi)).
  - intros k Hk'. simpl. rewrite (sf_byte _ _ _ _ (wi_same_file _ _ _ Hok' Hwi)) by done.
    rewrite <-(se_bytes _ _ _ _ _ _ _ Hse) by done. unfold fbyte, fblk. rewrite (fptr_blks (F1 i)); [done|].
    rewrite Hb, Hip. done.
Qed.

Lemma wp_set_time F1 s1 fb how client (get : Inode -> Nfstime3) upd (Q : unit -> NSt -> Prop) :
  time_field get upd -> setting F s i p F1 s1 fb -> time_wf client ->
  (forall F2 s2 t, setting F s i p F2 s2 fb -> n_threads s2 = n_threads s1 -> new_time how client (get (F1 i)) t ->
     same_attrs (upd t (F1 i)) (F2 i) -> Q tt s2) ->
  wp (if bool_decide (how <> DONT_CHANGE) then
        t ← (if bool_decide (how = SET_TO_CLIENT_TIME) then mret client else on_fs (on_a NfstimeNow));
        _ ← on_fs (on_ip p (ip_set (upd t)));
        on_fs (on_ip p WriteInode)
      else mret tt) s1 Q.
Proof.
  intros Htf Hse Hw HQ. unfold new_time in HQ. case_bool_decide as Hhow.
  2: { apply wp_ret, (HQ F1 s1 (get (F1 i))); [done|done|done|]. by rewrite (tf_get _ _ Htf). }
  assert (forall t s2, time_wf t -> n_threads s2 = n_threads s1 -> setting F s i p F1 s2 fb ->
    (if bool_decide (how = SET_TO_CLIENT_TIME) then t = client else exists k, t = time_at k) ->
    wp (_ ← on_fs (on_ip p (ip_set (upd t))); on_fs (on_ip p WriteInode)) s2 Q) as Hset.
  { intros t s2 Ht Hth Hse2 Hnew. destruct (se_holds _ _ _ _ _ _ _ Hse2) as [_ [dc Hp2]].
    pose proof (vo_inode _ _ (ch_vol _ _ _ _ _ (se_changed _ _ _ _ _ _ _ Hse2)) i (setting_ino F1 s2 fb Hse2)) as Hd.
    apply (wp_set_attr F1 s2 fb (upd t) _ Q Hse2 Hp2); [apply Htf| |].
    - apply (tf_wf _ _ Htf); [done|]. by destruct (di_wf _ _ _ Hd).
    - intros f' Hse'. apply (HQ _ (nset_fs f' s2) t Hse'); [done|done|]. rewrite fn_lookup_insert.
      rewrite (tf_Dcache _ _ Htf). done. }
  case_bool_decide as Hc.
  - apply wp_bind, wp_ret. by apply Hset.
  - apply wp_bind, wp_on_fs, wp_on_a. unfold NfstimeNow. apply wp_bind, wp_get, wp_bind, wp_modify, wp_ret.
    apply Hset; [apply time_at_wf|done|by apply setting_tick|by exists (a_tick (f_a (n_fs s1)))].
Qed.

(** *** The size *)

(** The bytes of the file cut at block [n]. *)
Definition cut_bytes n (k : Z) : Z := if k <? n * 4096 then fbyte (F i) (disk_of s) k else 0.

(** The blocks that the file loses do not fit a transaction that wrote the
    inode. *)
Definition too_big sz : bool :=
  let m := util_RoundUp (i_Size (F i)) BlockSize - util_RoundUp sz BlockSize in (0 <? m) && (LogBlocks <=? 1 + m).

(** What the size step leaves, when it was asked for: the map ends at block [n],
    and [ts] are the shrinker threads. *)
Record sized sz n (ts : list Z) ip : Prop := {
  sd_attrs : same_attrs (with_ShrinkSize n (with_Size sz (F i))) ip;
  sd_new : util_RoundUp sz BlockSize <= n;
  (* a shrinker is started exactly when the blocks do not fit, which are all left to it *)
  sd_threads : ts = if too_big sz then n_threads s ++ [i] else n_threads s;
  sd_left : too_big sz = true -> n = util_RoundUp (i_Size (F i)) BlockSize;
  (* a size that is not smaller *)
  sd_grow : util_RoundUp (i_Size (F i)) BlockSize <= util_RoundUp sz BlockSize -> n = util_RoundUp sz BlockSize;
  (* the blocks and the index blocks over them fit *)
  sd_fits : let m := util_RoundUp (i_Size (F i)) BlockSize - util_RoundUp sz BlockSize in
    0 < m -> m + m / 512 + 10 < LogBlocks -> n = util_RoundUp sz BlockSize;
  (* in between, a few may be left, when those that went fill the transaction *)
  sd_full : too_big sz = false -> let d := util_RoundUp (i_Size (F i)) BlockSize - n in
    n = util_RoundUp sz BlockSize \/ 0 <= d /\ LogBlocks <= d + d / 512 + 10;
}.

Lemma setting_start f' : txn L E F (f_a (n_fs s)) f' -> sim (disk_of s) (f_a f') -> vol_ok F (disk_of s) ->
  ino_ok (disk_of s) i -> holds F f' i p -> setting F s i p F (nset_fs f' s) (fbyte (F i) (disk_of s)).
Proof.
  intros Ht Hsim Hv Hi Hh. split; [by apply txn_changed|done|done|done|by apply frame_sim|].
  intros k Hk. simpl. apply sim_fbyte; [by apply (vo_file _ _ Hv)|done|done].
Qed.

Lemma wp_set_size s1 sz (Q : unit -> NSt -> Prop) : setting F s i p F s1 (fbyte (F i) (disk_of s)) ->
  n_threads s1 = n_threads s -> NDirty (a_op (f_a (n_fs s1))) = 0 -> is_u64 sz -> util_RoundUp (i_Size (F i)) BlockSize <= MaxBlks ->
  trimmed_file (F i) (f_a (n_fs s1)) (util_RoundUp (i_Size (F i)) BlockSize) ->
  (forall F2 s2 n, setting F s i p F2 s2 (cut_bytes n) -> sized sz n (n_threads s2) (F2 i) -> Q tt s2) ->
  wp (shrink ← on_fs (on_ip p (Resize sz));
      if (shrink : bool) then
        inum ← on_fs (ip_field p i_Inum);
        StartShrinker inum
      else mret tt) s1 Q.
Proof.
  intros Hse Hth Hcl Hsz Hmax Ht HQ. pose proof (setting_ino F s1 _ Hse) as Hi. set (f := n_fs s1) in *.
  pose proof (se_changed _ _ _ _ _ _ _ Hse) as Hch. pose proof (ch_vol _ _ _ _ _ Hch) as Hv.
  destruct (se_holds _ _ _ _ _ _ _ Hse) as [Hin [dc Hp]]. set (ip := with_Dcache dc (F i)) in *.
  assert (file_ok ip (f_a f)) as Hok by (by apply file_ok_Dcache, vol_file_ok).
  apply wp_bind, wp_on_fs, (wp_on_ip p ip); [done|]. apply wp_Resize; [done|done|done|done|]. intros ds t Hpost.
  pose proof (resize_replaced sz F f i p ip ds t Hv Hi eq_refl Hsz Ht Hpost) as Hr.
  pose proof (resize_contents sz ip (f_a f) ds t Hok Hsz Hmax Ht Hpost) as Hdone.
  pose proof (resize_asks sz ip (f_a f) ds t Hpost) as Hasks.
  pose proof (resize_fits sz ip (f_a f) ds t Hok Hsz Hmax Ht Hpost) as Hfits.
  pose proof (rz_ip _ _ _ _ _ _ _ Hdone) as Hip. pose proof (rz_bytes _ _ _ _ _ _ _ Hdone) as Hby.
  set (f' := fset_a t.2 (fset_heap (<[p := t.1]> (f_heap f)) f)) in *. set (n := i_ShrinkSize t.1) in *.
  assert (setting F s i p (<[i := t.1]> F) (nset_fs f' s1) (cut_bytes n)) as Hse'.
  { apply (setting_replace F s1 _ ip t.1 f' _ Hse Hp Hr); try (by rewrite Hip).
    intros k Hk. change (f_a f') with t.2. rewrite Hby by done. unfold cut_bytes.
    destruct (_ <? _); [|done]. by apply (se_bytes _ _ _ _ _ _ _ Hse). }
  assert (i_Inum t.1 = i) as Hinum.
  { rewrite Hip. simpl. apply (di_Inum _ _ _ (vo_inode _ _ Hv i Hi)). }
  assert (same_attrs (with_ShrinkSize n (with_Size sz (F i))) t.1) as Hat by (rewrite Hip; done).
  assert (forall s2, n_fs s2 = f' -> setting F s i p (<[i := t.1]> F) s2 (cut_bytes n)) as Hse2.
  { intros s2 Hf. destruct Hse'. simpl in *. by split; rewrite ?Hf. }
  unfold fits_txn in Hfits. fold f in Hcl. rewrite Hcl in *.
  destruct Hdone as [_ _ _ _ _ _ Hnew Hgrow Hthr _ Hfull _]. fold n in Hnew, Hgrow, Hthr, Hfull, Hfits. rewrite Hcl in Hfull.
  change (i_Size ip) with (i_Size (F i)) in *.
  set (old := util_RoundUp (i_Size (F i)) BlockSize) in *. set (new := util_RoundUp sz BlockSize) in *.
  pose proof LogBlocks_range as HLB. pose proof (RoundUp_u64 sz BlockSize) as Hnu. fold new in Hnu. unfold is_u64, MaxBlks in *.
  assert (ds = too_big sz) as Hds.
  { destruct Hasks as (w & Hw & Hw1 & ->). assert (w = 1) as -> by lia. unfold too_big. fold old new.
    destruct (Z.ltb_spec 0 (old - new)) as [Hlt|Hge]; [|by rewrite bool_decide_eq_false_2 by lia].
    rewrite bool_decide_eq_true_2, w64_small by lia. apply eq_iff_eq_true.
    rewrite !andb_true_l, negb_true_iff, Z.ltb_ge, Z.leb_le. reflexivity. }
  assert (forall ts, ts = (if ds then n_threads s ++ [i] else n_threads s) -> sized sz n ts t.1) as Hsd.
  { intros ts ->. split; fold old new; [exact Hat|exact Hnew|by rewrite <-Hds| |intros Hge; by apply Hgrow| |].
    - intros Hbig. apply Hthr. by rewrite Hds.
    - intros m Hm Hroom. apply Hfits; unfold m in *; lia.
    - intros Hsmall. cbn zeta. destruct Hfull as [?|[? ?]]; [by rewrite Hds|by left|right; lia]. }
  clear Hds. destruct ds.
  - apply wp_bind, wp_on_fs, (wp_ip_field p t.1); [apply lookup_insert_eq|].
    apply wp_modify, (HQ (<[i := t.1]> F) _ n); [by apply Hse2|]. rewrite fn_lookup_insert. apply Hsd.
    simpl. by rewrite Hth, Hinum.
  - apply wp_ret, (HQ (<[i := t.1]> F) _ n); [by apply Hse2|]. rewrite fn_lookup_insert. by apply Hsd.
Qed.
End set.

(** ** SETATTR *)

(** The reply of SETATTR of the attributes [new] for the file [i]. *)
Record setattr_reply F s i (new : Sattr3) (rep : SETATTR3res) s' : Prop := {
  sa_status : SETATTR3res_Status rep = NFS3_OK \/ SETATTR3res_Status rep = NFS3ERR_SERVERFAULT;
  sa_ok : SETATTR3res_Status rep = NFS3_OK -> exists F' t1 t2 ip n,
    let sz := Set_size3_Size (Sattr3_Size new) in
    rep = mkSETATTR3res NFS3_OK (mkSETATTR3resok (mkWcc_data zero (mkPost_op_attr true (MkFattr (F' i))))) zero /\
    server L E F' s' /\ (forall j, j <> i -> F' j = F j) /\ frame F {[i]} (disk_of s) (disk_of s') /\
    (* the size, and the bytes below it *)
    (if Set_size3_Set_it (Sattr3_Size new) then sized F s i sz n (n_threads s') ip
     else ip = F i /\ n = MaxBlks /\ n_threads s' = n_threads s) /\
    (forall k, in_file k -> fbyte (F' i) (disk_of s') k = cut_bytes F s i n k) /\
    (* the times *)
    new_time (Set_atime_Set_it (Sattr3_Atime new)) (Set_atime_Atime (Sattr3_Atime new)) (i_Atime (F i)) t1 /\
    new_time (Set_mtime_Set_it (Sattr3_Mtime new)) (Set_mtime_Mtime (Sattr3_Mtime new)) (i_Mtime (F i)) t2 /\
    same_attrs (with_Mtime t2 (with_Atime t1 ip)) (F' i) /\
    a_super (disk_of s') = a_super (disk_of s) /\
    stable_obj (a_log (disk_of s')) = log_obj (a_log (disk_of s'));
}.

Lemma same_attrs_times ip ip' : same_attrs ip ip' -> i_Atime ip' = i_Atime ip /\ i_Mtime ip' = i_Mtime ip.
Proof. unfold same_attrs. destruct ip, ip'. cbn. by intros [= -> -> -> -> -> -> -> ->]. Qed.

(** The times, the attributes and the commit, after the size step. *)
Lemma wp_set_times F s i p (new : Sattr3) s1 F1 n (Q : SETATTR3res -> NSt -> Prop) :
  let sz := Set_size3_Size (Sattr3_Size new) in
  i_Kind (F i) <> NF3DIR -> i_Kind (F i) <> NF3FREE ->
  time_wf (Set_atime_Atime (Sattr3_Atime new)) -> time_wf (Set_mtime_Mtime (Sattr3_Mtime new)) ->
  setting F s i p F1 s1 (cut_bytes F s i n) ->
  (if Set_size3_Set_it (Sattr3_Size new) then sized F s i sz n (n_threads s1) (F1 i)
   else F1 i = F i /\ n = MaxBlks /\ n_threads s1 = n_threads s) ->
  (forall rep s', setattr_reply F s i new rep s' -> Q rep s') ->
  wp (_ ← (if bool_decide (Set_atime_Set_it (Sattr3_Atime new) <> DONT_CHANGE) then
         t ← (if bool_decide (Set_atime_Set_it (Sattr3_Atime new) = SET_TO_CLIENT_TIME)
              then mret (Set_atime_Atime (Sattr3_Atime new))
              else on_fs (on_a NfstimeNow));
         _ ← on_fs (on_ip p (ip_set (with_Atime t)));
         on_fs (on_ip p WriteInode)
       else mret tt);
  _ ← (if bool_decide (Set_mtime_Set_it (Sattr3_Mtime new) <> DONT_CHANGE) then
         t ← (if bool_decide (Set_mtime_Set_it (Sattr3_Mtime new) = SET_TO_CLIENT_TIME)
              then mret (Set_mtime_Mtime (Sattr3_Mtime new))
              else on_fs (on_a NfstimeNow));
         _ ← on_fs (on_ip p (ip_set (with_Mtime t)));
         on_fs (on_ip p WriteInode)
       else mret tt);
  attr ← on_fs (ip_field p MkFattr);
  st ← commitReply;
  mret (mkSETATTR3res st (mkSETATTR3resok (mkWcc_data zero (mkPost_op_attr true attr))) zero)) s1 Q.
Proof.
  intros sz Hkd Hkf Hw1 Hw2 Hse1 Hsized HQ. set (set_it := Set_size3_Set_it (Sattr3_Size new)) in *.
  apply wp_bind, (wp_set_time F s i p Hkd Hkf F1 s1 _ _ _ i_Atime with_Atime _ Atime_field Hse1 Hw1).
  intros F2 s2 t1 Hse2 Hth2 Hnew1 Hat1.
  apply wp_bind, (wp_set_time F s i p Hkd Hkf F2 s2 _ _ _ i_Mtime with_Mtime _ Mtime_field Hse2 Hw2).
  intros F3 s3 t2 Hse3 Hth3 Hnew2 Hat2.
  pose proof (se_changed _ _ _ _ _ _ _ Hse3) as Hch. destruct (se_holds _ _ _ _ _ _ _ Hse3) as [_ [dc Hp3]].
  apply wp_bind, wp_on_fs, (wp_ip_field p _ _ _ _ Hp3).
  apply wp_bind. unfold commitReply. eapply wp_bind, (wp_commit_changed L E); [apply Hch|].
  intros ok s' Hsame _ Hcm Hstb _. apply wp_ret, wp_ret, HQ. destruct ok.
  2: { split; simpl; [by auto|done]. }
  destruct (Hcm _ Hch eq_refl) as [Hsv' Hsim']. simpl in Hsim'. pose proof (setting_super F s i p F3 s3 _ Hse3) as Hsp3.
  pose proof (setting_ino F s i p F3 s3 _ Hse3) as Hi3. destruct Hse3 as [_ _ Ho3 _ Hfr3 Hb3].
  assert (n_threads s' = n_threads s1) as Hth by (rewrite <-Hth2, <-Hth3; apply Hsame).
  destruct (same_attrs_times _ _ Hat1) as [_ Hm1].
  split; simpl; [by auto|]. intros _. exists F3, t1, t2, (F1 i), n.
  assert (i_Atime (F1 i) = i_Atime (F i) /\ i_Mtime (F1 i) = i_Mtime (F i)) as [Ha0 Hm0].
  { destruct set_it; [|by destruct Hsized as [-> _]]. by destruct (same_attrs_times _ _ (sd_attrs _ _ _ _ _ _ _ Hsized)). }
  split_and!; [done|done|done| | | | | | | |by apply Hstb].
  - apply (frame_trans F F3 _ _ (f_a (n_fs s3))); [exact Hsp3|done|by apply frame_sim; [apply Hch|]|].
    intros j Hj. apply Ho3. set_solver.
  - fold set_it. rewrite Hth. done.
  - intros k Hk. rewrite <-(Hb3 k Hk).
    apply sim_fbyte; [|done|done]. by apply (vo_file _ _ (ch_vol _ _ _ _ _ Hch)).
  - by rewrite <-Ha0.
  - rewrite <-Hm0. by rewrite Hm1 in Hnew2.
  - eapply same_attrs_trans; [|exact Hat2]. by apply (tf_same _ _ Mtime_field).
  - transitivity (a_super (f_a (n_fs s3))); [apply Hsim'|exact Hsp3].
Qed.

Lemma wp_SETATTR F s args fh (Q : SETATTR3res -> NSt -> Prop) :
  let new := SETATTR3args_New_attributes args in
  let i := Ino fh in
  server L E F s -> retry <> 0%nat -> MakeFh (SETATTR3args_Object args) = Ok fh ->
  ino_ok (disk_of s) i -> i ∉ L -> i_Kind (F i) <> NF3DIR -> is_shrinking (F i) = false ->
  is_u64 (Set_size3_Size (Sattr3_Size new)) -> time_wf (Set_atime_Atime (Sattr3_Atime new)) ->
  time_wf (Set_mtime_Mtime (Sattr3_Mtime new)) ->
  util_RoundUp (i_Size (F i)) BlockSize <= MaxBlks ->
  trimmed_file (F i) (disk_of s) (util_RoundUp (i_Size (F i)) BlockSize) ->
  (forall s', ~ live F fh -> server L E F s' -> sim (disk_of s) (disk_of s') ->
     Q (mkSETATTR3res NFS3ERR_STALE zero zero) s') ->
  (forall rep s', live F fh -> setattr_reply F s i new rep s' -> Q rep s') ->
  wp (NFSPROC3_SETATTR retry args) s Q.
Proof.
  intros new i Hsv Hre Hfh Hi HL Hkd Hsh Hsz Hw1 Hw2 Hmax Htrim Hstale HQ. unfold NFSPROC3_SETATTR. fold new.
  assert (wp (getShrink retry (SETATTR3args_Object args)) s (fun o s1 =>
    (exists p f', s1 = nset_fs f' s /\ o = (Some p, NFS3_OK) /\ live F fh /\ txn L E F (f_a (n_fs s)) f' /\
        opened F (after_Begin (n_fs s)) i p f' /\ ino_ok (f_a f') i) \/
    (exists f', s1 = nset_fs f' s /\ o = (None, NFS3ERR_STALE) /\ ~ live F fh /\ txn L E F (f_a (n_fs s)) f'))) as Hget.
  { apply (wp_getShrink L E retry F s _ fh); [done..| |].
    - intros p f' Hl Ht Hop Hi'. left. eauto 10.
    - intros f' Hd Ht. right. eauto. }
  apply wp_with_run in Hget. apply wp_bind. eapply wp_mono; [exact Hget|]. clear Hget.
  intros o s1 [[(p & f' & -> & -> & Hl & Ht & Hop & Hi')|(f' & -> & -> & Hdead & Ht)] Hrun].
  2: { rewrite bool_decide_eq_true_2 by done.
       apply wp_bind, (wp_errRet L E F (f_a (n_fs s))); [done|]. intros s' _ Hsv' Hsim. by apply wp_ret, Hstale. }
  rewrite bool_decide_eq_false_2 by tauto. fold i in Hop, Hi'. pose proof Hl as [Hkf _].
  pose proof (op_sim _ _ _ _ _ Hop : sim (disk_of s) (f_a f')) as Hsim0. pose proof (sv_vol _ _ _ _ Hsv) as Hv.
  pose proof (setting_start F s i p f' Ht Hsim0 Hv Hi (opened_holds _ _ _ _ _ Hop)) as Hse0.
  apply wp_bind, wp_on_fs, wp_ret.
  set (sz := Set_size3_Size (Sattr3_Size new)) in *. destruct (Set_size3_Set_it (Sattr3_Size new)) eqn:Hset.
  - apply wp_bind, (wp_set_size F s i p Hkd Hkf (nset_fs f' s) sz); [done|done|by eapply getShrink_clean|done|done| |].
    + intros x Hx Hle. simpl. rewrite (sim_fptr _ (disk_of s)) by (done || by apply (vo_file _ _ Hv)). by apply Htrim.
    + intros F1 s1 n Hse1 Hsized. apply (wp_set_times F s i p new s1 F1 n); try done; [by rewrite Hset|].
      intros rep s' Hrep. by apply HQ.
  - apply wp_bind, wp_ret, (wp_set_times F s i p new _ F MaxBlks); try done; [|by rewrite Hset|].
    2: { intros rep s' Hrep. by apply HQ. }
    destruct Hse0. split; try done. intros k Hk. unfold cut_bytes.
    rewrite (proj2 (Z.ltb_lt _ _)); [by auto|apply Hk].
Qed.
End setattr.
