(* ===== verification/NfsMkdir.v ===== *)
(** Making a directory: its entries [.] and [..], the link count of its parent,
    and the procedure MKDIR. *)
From stdpp Require Import functions.
From S2P Require Import Prelude Nfstypes External Reference Super Fh Cache Dcache Alloctxn AtxnCommit Inode.
From S2P Require Import InodeCodec InodeMap InodeIO InodeBound Volume InodeShrink Fstxn FstxnInv Dir DirSpec DirVol Lorder Shrinker.
From S2P Require Import NfsOps NfsFiles NfsDirs NfsNames NfsCreate NfsRemove NfsRename.
Import Nfs.

Section mkdir.
Context `{!Common} `{!CommonSpec} `{!Util} `{!UtilSpec} `{!Marshal} `{!MarshalSpec} `{!Std}
  `{!Buf} `{!BufSpec} `{!Journal} `{!JournalSpec} `{!AllocPkg} `{!AllocSpec}
  `{!LockPkg} `{!LockSpec} `{!Clock} `{!DiskPkg}.
Variable L : gset Z.
Implicit Types (E : Z -> list dirEnt) (F : Z -> Inode) (f : FSt) (s : NSt) (a : ASt) (i n p dip : Z) (ip : Inode).

(** ** The entries of a new directory *)

Definition dir_dots n parent : list dirEnt := [mkDirEnt n (str "."); mkDirEnt parent (str "..")].

(** [g'] is [g] but at [i]. *)
Definition set_at {A} (i : Z) (x : A) (g g' : Z -> A) : Prop := g' i = x /\ forall j, j <> i -> g' j = g j.

Lemma set_at_twice {A} i (x y : A) (g : Z -> A) : set_at i y g (<[i := y]> (<[i := x]> g)).
Proof. split; [apply fn_lookup_insert|]. intros j Hj. by rewrite !fn_lookup_insert_ne. Qed.

Lemma short_room es a : (length es <= 1)%nat -> no_room_in es a -> few_free a.
Proof.
  intros Hl [[? _]|Hm]; [done|]. rewrite MaxFileSize_eq in Hm. unfold slot_off, DIRENTSZ in Hm. lia.
Qed.

Lemma one_room e a : ~ no_room_in [e] a.
Proof.
  intros [[_ Hm]|Hm]; [done|]. rewrite MaxFileSize_eq in Hm. unfold slot_off, DIRENTSZ in Hm. simpl in Hm. lia.
Qed.

Lemma dot_ready E n es : n ∉ L -> E n = es -> (length es <= 1)%nat ->
  (forall e, e ∈ es -> de_inum e = n) -> dir_ready L E n.
Proof.
  intros HL He Hl Hin. split; rewrite He; [unfold cacheable; lia|]. intros e Hes _. by rewrite (Hin e Hes).
Qed.

Lemma dot_names n : n <> NULLINUM -> names [mkDirEnt n (str ".")] !! str ".." = None.
Proof.
  intros Hn. simpl. unfold in_use. rewrite decide_True by done. by rewrite lookup_insert_ne.
Qed.

(** The two entries were entered in the empty directory [n] at [dip]. *)
Record dotted E F a0 f n dip parent ip' E' F' f' : Prop := {
  dd_fixed : fixed (F n) ip';
  dd_names : set_at n (dir_dots n parent) E E';
  dd_files : set_at n ip' F F';
  dd_changed : changed L E' F' a0 f';
  dd_same : same_txn dip f f';
  dd_frame : frame F {[n]} (f_a f) (f_a f');
  dd_heap : f_heap f' !! dip = Some ip';
  dd_size : i_Size ip' = 2 * DIRENTSZ;
  dd_map : maps_below (3 * DIRENTSZ) (F n) (f_a f) ip' (f_a f');
}.

Lemma wp_dots E F a0 f n dip parent (Q : bool -> FSt -> Prop) : changed L E F a0 f ->
  f_inodes f !! n = Some dip -> n ∉ L -> i_Kind (F n) = NF3DIR -> E n = [] -> n <> NULLINUM ->
  ino_ok (f_a f) parent -> parent <> NULLINUM -> i_Kind (F parent) <> NF3FREE ->
  (forall ip' E' F' f', dotted E F a0 f n dip parent ip' E' F' f' -> Q true f') ->
  (forall f', add_failed L F a0 f n dip (str ".") [] f' -> few_free (f_a f) -> Q false f') ->
  wp (ok ← AddName dip n (str "."); if negb ok then mret false else AddName dip parent (str "..")) f Q.
Proof.
  intros Hch Ho HL Hk HE Hn Hpa Hpn Hpk HQ HQf.
  destruct (fi_own _ _ _ (ch_fs _ _ _ _ _ Hch) _ _ Ho) as (Hi & _).
  apply wp_bind, (wp_AddName_any L E F a0 f n dip n); [done|done| |done|done|by rewrite Hk|by rewrite HE|..].
  { eapply dot_ready; [done|exact HE|simpl; lia|]. intros e He. by apply not_elem_of_nil in He. }
  2: { intros f1 Hf. apply wp_ret. rewrite HE in Hf. apply HQf; [done|].
    destruct (ad_why _ _ _ _ _ _ _ _ _ Hf) as [Hlen|[?|Hno]]; [by vm_compute in Hlen|done|].
    by apply short_room in Hno; [|simpl; lia]. }
  intros j ip1 f1 [_ Hslot Hfx1 Hch1 Hsame1 Hfr1 _ Hsz1 Hmap1 _]. rewrite HE in Hslot, Hch1, Hsz1. apply free_slot_nil in Hslot as ->.
  change (set_slot [] 0 (mkDirEnt n (str "."))) with [mkDirEnt n (str ".")] in Hch1, Hsz1. simpl.
  set (E1 := <[n := [mkDirEnt n (str ".")]]> E) in *. set (F1 := <[n := ip1]> F) in *.
  assert (i_Kind ip1 = NF3DIR) as Hk1 by (by rewrite Hfx1).
  assert (E1 n = [mkDirEnt n (str ".")]) as HE1 by apply fn_lookup_insert.
  assert (F1 n = ip1) as HF1 by apply fn_lookup_insert.
  pose proof (sx_super _ _ _ Hsame1) as Hsp1.
  apply (wp_AddName_any L E1 F1 a0 f1 n dip parent); [done|by rewrite (sx_inodes _ _ _ Hsame1)| | |done| | |..].
  - eapply dot_ready; [done|exact HE1|simpl; lia|]. by intros e ->%list_elem_of_singleton.
  - eapply ino_ok_super; [|exact Hpa]. by symmetry.
  - unfold F1. destruct (decide (parent = n)) as [->|Hne]; [by rewrite fn_lookup_insert, Hk1|by rewrite fn_lookup_insert_ne].
  - rewrite HE1. by apply dot_names.
  - intros j ip2 f2 [_ Hslot Hfx2 Hch2 Hsame2 Hfr2 Hhp2 Hsz2 Hmap2 _].
    rewrite HE1 in Hslot, Hch2, Hsz2. rewrite HF1 in Hfx2, Hmap2. apply free_slot_one in Hslot as ->; [|done].
    assert (i_Size ip2 = 2 * DIRENTSZ) as Hsz by (rewrite Hsz2; done).
    assert (i_Size ip1 = DIRENTSZ) as Hsz' by (rewrite Hsz1; done).
    eapply (HQ ip2). split; [by eapply fixed_trans|apply set_at_twice|apply set_at_twice|exact Hch2| | |done|done|].
    + by eapply same_txn_trans.
    + apply (frame_trans F F1 _ _ (f_a f1)); [done|done|done|].
      intros k Hkn. unfold F1. rewrite fn_lookup_insert_ne; [done|set_solver].
    + rewrite Hsz' in Hmap1. rewrite Hsz in Hmap2.
      eapply maps_below_trans; [eapply maps_below_mono, Hmap1; unfold DIRENTSZ; lia|].
      by eapply maps_below_mono, Hmap2; unfold DIRENTSZ; lia.
  - intros f2 [_ _ _ _ _ Hwhy]. rewrite HE1, HF1 in Hwhy.
    destruct Hwhy as [Hlen|[?|Hno]]; [by vm_compute in Hlen|done|]. by apply one_room in Hno.
Qed.

(** ** One more link of a directory *)

Definition one_more ip : Inode := with_Nlink (w32 (i_Nlink ip + 1)) ip.

Lemma same_attrs_Nlink ip ip' : same_attrs ip ip' -> i_Nlink ip' = i_Nlink ip.
Proof. unfold same_attrs. destruct ip, ip'. cbn. by intros [= -> -> -> -> -> -> -> ->]. Qed.

Lemma wf_one_more ip : inode_wf ip -> inode_wf (one_more ip).
Proof. intros []. split; simpl; try done. apply w32_range. Qed.

(** Inode [i] at [dip] has one more link, and only its inode changed. *)
Record more_linked E F a0 f i dip ip' f' : Prop := {
  ml_attrs : same_attrs (one_more (F i)) ip';
  ml_changed : changed L E (<[i := ip']> F) a0 f';
  ml_same : same_txn dip f f';
  ml_spared : spared F {[i]} (f_a f) (f_a f');
}.

Lemma wp_one_more {A} E F a0 s i dip (kont : M NSt A) (Q : A -> NSt -> Prop) :
  let f := n_fs s in
  changed L E F a0 f -> f_inodes f !! i = Some dip -> i_Kind (F i) <> NF3FREE -> i_Nlink (F i) < 2 ^ 32 - 1 ->
  (forall ip' f', more_linked E F a0 f i dip ip' f' -> wp kont (nset_fs f' s) Q) ->
  wp (_ ← on_fs (on_ip dip (ip_set (fun ip => with_Nlink (w32 (i_Nlink ip + 1)) ip)));
      _ ← on_fs (on_ip dip WriteInode); kont) s Q.
Proof.
  intros f Hch Ho Hk Hnl HQ. pose proof (ch_vol _ _ _ _ _ Hch) as Hv.
  destruct (fi_own _ _ _ (ch_fs _ _ _ _ _ Hch) _ _ Ho) as (Hi & ip & Hp & _).
  pose proof (changed_heap L E F a0 f i dip ip Hch Ho Hp) as Hip.
  assert (file_ok ip (f_a f)) as Hok by (rewrite Hip; by apply file_ok_Dcache, vol_file_ok).
  assert (inode_wf (one_more ip)) as Hw by apply wf_one_more, Hok.
  assert (file_ok (one_more ip) (f_a f)) as Hok'.
  { split; [apply Hok|apply Hok|apply (file_wf_blks ip); [done|apply Hok]|done|apply Hok]. }
  apply wp_bind, wp_on_fs, (wp_on_ip dip ip); [done|]. apply wp_ip_set. change (with_Nlink _ _) with (one_more ip).
  apply wp_bind, wp_on_fs, (wp_on_ip dip (one_more ip)); [apply lookup_insert_eq|].
  apply wp_WriteInode; [apply Hok'..|]. intros a' Hwi. change (wi_post (one_more ip) (f_a f) a') in Hwi.
  simpl. rewrite insert_insert_eq. set (f' := fset_a a' (fset_heap (<[dip := one_more ip]> (f_heap f)) f)).
  apply (HQ (one_more ip) f').
  pose proof (wi_stored f dip ip (one_more ip) a' Hok eq_refl eq_refl Hw Hwi) as Hst. fold f' in Hst.
  assert (i_Nlink (one_more ip) <> 0) as Hnz.
  { pose proof (iw_Nlink _ (fo_inode _ _ Hok)) as Hu. rewrite Hip in *. simpl in *. unfold is_u32 in Hu. unfold w32.
    rewrite Z.mod_small by lia. lia. }
  destruct (changed_links L E F a0 f i dip ip _ f' Hch Ho Hp Hk Hnz Hst) as [Hch' Hrp].
  split; [by rewrite Hip|exact Hch'| |by apply (rp_spared L E F a0 f f' i dip (one_more ip))].
  split; [done| |apply (wi_grow _ _ _ Hwi)|apply (wi_grow _ _ _ Hwi)].
  intros q Hne _. simpl. by rewrite lookup_insert_ne.
Qed.

(** ** The new directory *)

Variable E : Z -> list dirEnt.
Variable retry : nat.

(** The new directory [n], whose inode was [ip] when it was allocated, has its
    entries; its parent [i] has one more link. *)
Record dir_made F i n ip E1 F1 ip1 : Prop := {
  dm_names : set_at n (dir_dots n i) E E1;
  dm_inode : fixed ip ip1 /\ i_Size ip1 = 2 * DIRENTSZ /\ F1 n = ip1;
  dm_parent : same_attrs (one_more (F i)) (F1 i);
  dm_others : forall k, k <> i -> k <> n -> F1 k = F k;
}.

(** Only the first block of the new inode is mapped. *)
Lemma first_trimmed hi ip a ip1 a1 a2 : hi <= 4096 -> i_blks ip = zeros 10 -> maps_below hi ip a ip1 a1 ->
  (forall x, pos_ok x -> fptr ip1 a2 x = fptr ip1 a1 x) -> trimmed_file ip1 a2 1.
Proof.
  intros Hhi Hz Hm Heq x Hx Hle. rewrite Heq by done. destruct (Hm x Hx) as [->|Hb]; [by apply zeros_fptr|].
  apply below_firstblk in Hb. lia.
Qed.

Lemma dots_blocks : util_RoundUp (2 * DIRENTSZ) BlockSize = 1.
Proof. rewrite BlockSize_eq, RoundUp_eq; [done|unfold is_u64, DIRENTSZ; lia|lia|unfold DIRENTSZ; lia]. Qed.

(** The directory got its entries and the parent its link: the name is next. *)
Lemma prepared_dir F s i dip n p ip f3 ip1 E1 F1 f4 ipi f5 :
  prepared L E F s i dip n p E (<[n := ip]> F) ip f3 -> i_blks ip = zeros 10 -> i_Kind ip = NF3DIR ->
  dotted E (<[n := ip]> F) (f_a (n_fs s)) f3 n p i ip1 E1 F1 f4 ->
  more_linked E1 F1 (f_a (n_fs s)) f4 i dip ipi f5 ->
  prepared L E F s i dip n p E1 (<[i := ipi]> F1) ip1 f5 /\ dir_made F i n ip E1 (<[i := ipi]> F1) ip1.
Proof.
  intros [Hn [Hne Hnn] Hni Hch3 Hin3 Hp3 [_ HF3] [Hnl _] _ Hoth Hfr3] Hz Hk
    [Hfx [HEn HE] [HFn HF] Hch4 Hsame4 Hfr4 Hp4 Hsz Hmap] [Hat Hch5 Hsame5 Hsp5].
  rewrite fn_lookup_insert in Hfx, Hmap.
  assert (a_super (f_a f4) = a_super (f_a f3)) as Hsup4 by apply Hsame4.
  assert (F1 i = F i) as HFi by (rewrite HF, fn_lookup_insert_ne by done; done).
  assert (ino_ok (f_a f4) n) as Hni4 by (eapply ino_ok_super; [|exact Hni]; by symmetry).
  assert (p <> dip) as Hpd.
  { intros ->. assert (f_inodes f3 !! i = Some dip) as Hi3 by (by rewrite Hin3, lookup_insert_ne, lookup_singleton_eq).
    assert (f_inodes f3 !! n = Some dip) as Hn3 by (by rewrite Hin3, lookup_insert_eq).
    destruct (fi_own _ _ _ (ch_fs _ _ _ _ _ Hch3) i dip Hi3) as (_ & iq & Hq & Hqi).
    destruct (fi_own _ _ _ (ch_fs _ _ _ _ _ Hch3) n dip Hn3) as (_ & iq' & Hq' & Hqi'). congruence. }
  assert (i_Kind ipi = i_Kind (F i)) as Hki.
  { rewrite <-HFi. apply (same_attrs_eqs _ _ Hat). }
  split; [split|].
  - done.
  - done.
  - eapply ino_ok_super; [|exact Hni4]. symmetry. apply Hsame5.
  - exact Hch5.
  - by rewrite (sx_inodes _ _ _ Hsame5), (sx_inodes _ _ _ Hsame4).
  - by rewrite (sx_keep _ _ _ Hsame5) by (done || by exists ip1).
  - split; [by apply HE|]. by rewrite fn_lookup_insert.
  - rewrite Hfx. simpl. by rewrite Hk.
  - right. rewrite Hsz, dots_blocks. split; [done|].
    apply (first_trimmed (3 * DIRENTSZ) ip (f_a f3) ip1 (f_a f4)); [by unfold DIRENTSZ|done|done|]. intros x Hx.
    rewrite <-HFn. apply (spared_fptr F1 {[i]} (f_a f4)); [done|done|set_solver|done].
  - intros k Hk'. rewrite fn_lookup_insert_ne by set_solver. rewrite HF by set_solver.
    rewrite fn_lookup_insert_ne by set_solver. done.
  - apply (frame_trans F F1 _ _ (f_a f4)); [| |eapply frame_mono; [|by apply spared_frame]; set_solver|].
    + rewrite Hsup4. apply (af_super _ _ (fi_from _ _ _ (ch_fs _ _ _ _ _ Hch3))).
    + apply (frame_trans F (<[n := ip]> F) _ _ (f_a f3)); [|done|eapply frame_mono; [|exact Hfr4]; set_solver|].
      * apply (af_super _ _ (fi_from _ _ _ (ch_fs _ _ _ _ _ Hch3))).
      * intros k Hk'. rewrite fn_lookup_insert_ne by set_solver. done.
    + intros k Hk'. rewrite HF by set_solver. rewrite fn_lookup_insert_ne by set_solver. done.
  - split; [by split| | |].
    + by rewrite fn_lookup_insert_ne.
    + rewrite fn_lookup_insert. by rewrite <-HFi.
    + intros k Hki' Hkn. rewrite fn_lookup_insert_ne by done. rewrite HF by done. by rewrite fn_lookup_insert_ne.
Qed.

Lemma wp_new_dir F s i dip n p ip f2 f3 (Q : bool -> NSt -> Prop) :
  let a0 := f_a (n_fs s) in
  server L E F s -> i_Kind (F i) <> NF3FREE -> i <> NULLINUM -> i_Nlink (F i) < 2 ^ 32 - 1 -> n ∉ L -> i_blks (F n) = zeros 10 ->
  got_new L E F s i NF3DIR dip n p ip f2 f3 ->
  (forall s', few_free (disk_of s) -> fs_inv L a0 (n_fs s') -> Q false s') ->
  (forall E1 F1 ip1 f5, prepared L E F s i dip n p E1 F1 ip1 f5 -> dir_made F i n ip E1 F1 ip1 ->
     Q true (nset_fs f5 s)) ->
  wp (dinum ← on_fs (ip_field dip i_Inum);
      ok ← on_fs (InitDir p dinum);
      if negb ok then
        _ ← doDecLink p;
        mret false
      else
        _ ← on_fs (on_ip dip (ip_set (fun ip => with_Nlink (w32 (i_Nlink ip + 1)) ip)));
        _ ← on_fs (on_ip dip WriteInode);
        mret true) (nset_fs f3 s) Q.
Proof.
  intros a0 Hsv Hki Hi0 Hnl HL Hz Hgn HQf HQ. assert (NF3DIR <> NF3FREE) as Hdf by done.
  pose proof (prepared_new L E F s i dip NF3DIR n p ip f2 f3 Hsv Hki Hdf Hgn) as Hpr.
  pose proof (gn_alloc _ _ _ _ _ _ _ _ _ _ _ _ Hgn) as Hac.
  assert (a_balloc (f_a f3) = a_balloc (disk_of s)) as Hba.
  { by rewrite (ac_balloc _ _ _ _ _ _ _ _ _ _ Hac), (gn_balloc _ _ _ _ _ _ _ _ _ _ _ _ Hgn). }
  destruct (ac_made _ _ _ _ _ _ _ _ _ _ Hac) as (t1 & t2 & dc & Hm).
  pose proof Hpr as [Hn [Hne Hnn] Hni Hch3 Hin3 Hp3 _ _ _ Hoth _].
  pose proof (ch_fs _ _ _ _ _ Hch3) as Hs3.
  assert (f_inodes f3 !! n = Some p) as Hn3 by (by rewrite Hin3, lookup_insert_eq).
  assert (f_inodes f3 !! i = Some dip) as Hi3 by (by rewrite Hin3, lookup_insert_ne, lookup_singleton_eq).
  destruct (fi_own _ _ _ Hs3 i dip Hi3) as (Hio & ipd & Hpd & Hdi).
  destruct (fi_own _ _ _ Hs3 n p Hn3) as (_ & ip0 & Hip0 & Hpn). assert (ip0 = ip) as -> by congruence.
  apply wp_bind, wp_on_fs, (wp_ip_field dip _ _ _ _ Hpd). rewrite Hdi.
  assert (i_Kind (F n) = NF3FREE) as Hkn by (by apply (sv_free _ _ _ _ Hsv)).
  assert (E n = []) as HEn.
  { apply (dr_none _ _ _ (sv_dirs _ _ _ _ Hsv)); [|by rewrite Hkn].
    eapply ino_ok_super; [|exact Hni]. apply (af_super _ _ (fi_from _ _ _ Hs3)). }
  assert ((<[n := ip]> F) n = ip) as HFn by apply fn_lookup_insert.
  apply wp_bind, wp_on_fs. unfold InitDir. apply wp_bind, (wp_ip_field p _ _ _ _ Hp3). simpl. rewrite Hpn.
  apply (wp_dots E (<[n := ip]> F) a0 f3 n p i); [done|done|done|by rewrite HFn, Hm|done|done|done|done| | |].
  - by rewrite fn_lookup_insert_ne.
  - intros ip1 E1 F1 f4 Hdd. simpl. pose proof Hdd as [_ _ [_ HF] Hch4 Hsame4 _ _ _ _].
    assert (F1 i = F i) as HFi by (rewrite HF, fn_lookup_insert_ne by done; done).
    apply (wp_one_more E1 F1 a0 (nset_fs f4 s) i dip);
      [done|simpl; by rewrite (sx_inodes _ _ _ Hsame4)|by rewrite HFi|by rewrite HFi|].
    intros ipi f5 Hml. apply wp_ret.
    destruct (prepared_dir F s i dip n p ip f3 ip1 E1 F1 f4 ipi f5 Hpr) as [Hpr' Hdm]; [by rewrite Hm|by rewrite Hm|done|done|].
    by apply (HQ E1 (<[i := ipi]> F1) ip1).
  - intros f4 [Hs4 Hsame4 _ _ (ip1 & Hp4 & Hok4 & Hfx & Hsz) _] Hfew. rewrite HFn in Hfx, Hsz. simpl.
    apply wp_bind, (wp_decline L a0 _ n p ip1); [exact Hs4|simpl; by rewrite (sx_inodes _ _ _ Hsame4)|done|done|by rewrite <-NULLINUM_eq| | |].
    + rewrite Hfx, Hm. done.
    + left. rewrite Hsz, Hm. by apply (sv_free _ _ _ _ Hsv).
    + intros s' Hs'. apply wp_ret, HQf; [|done]. unfold few_free in *. by rewrite <-Hba.
Qed.

(** ** MKDIR *)

(** The free inodes map nothing and have no names in the inode cache. *)
Definition spare_dirs F s : Prop := forall n, n ∈ alloc_free (a_ialloc (disk_of s)) ->
  unnamed n (n_fs s) /\ i_blks (F n) = zeros 10.

(** Nothing was done: the handle is stale, the name is taken, or no inode is
    free. *)
Definition make_refused F s fh (name : list Z) st : Prop :=
  (~ live F fh /\ st = NFS3ERR_STALE) \/
  (live F fh /\ is_Some (names (E (Ino fh)) !! name) /\ st = NFS3ERR_EXIST) \/
  (live F fh /\ names (E (Ino fh)) !! name = None /\ alloc_free (a_ialloc (disk_of s)) = ∅ /\ st = NFS3ERR_NOSPC).

(** The new inode was given up: there is no room for its contents or for its
    name, or the name or the directory is a wrong one. *)
Definition make_undone F s i (name : list Z) st : Prop :=
  (few_free (disk_of s) /\ st = NFS3ERR_NOSPC) \/
  ((MAXNAMELEN <= len name \/ i_Kind (F i) <> NF3DIR \/ dir_full (E i)) /\ st = NFS3ERR_IO).

Lemma make_error F s fh name st : make_refused F s fh name st -> st <> NFS3_OK.
Proof. by intros [[_ ->]|[(_ & _ & ->)|(_ & _ & _ & ->)]]. Qed.

Lemma make_undone_error F s i name st : make_undone F s i name st -> st <> NFS3_OK.
Proof. by intros [[_ ->]|[_ ->]]. Qed.

Lemma wp_doCreate_dir F s dfh fh name data (Q : Z * Nfs_fh3 * Fattr3 -> NSt -> Prop) :
  let i := Ino fh in
  let a0 := f_a (n_fs s) in
  server L E F s -> retry <> 0%nat -> MakeFh dfh = Ok fh -> ino_ok (disk_of s) i -> i <> NULLINUM -> i ∉ L ->
  dir_ready L E i -> spare_ready L F (disk_of s) -> spare_dirs F s -> i_Nlink (F i) < 2 ^ 32 - 1 ->
  (forall st f', make_refused F s fh name st -> txn L E F a0 f' -> Q (st, zero, zero) (nset_fs f' s)) ->
  (forall st s', live F fh -> names (E i) !! name = None -> make_undone F s i name st -> fs_inv L a0 (n_fs s') ->
     Q (st, zero, zero) s') ->
  (forall n j t1 t2 dc E1 F1 ip1 f1 ipd fh3 f', live F fh -> names (E i) !! name = None ->
     dir_made F i n (made n NF3DIR t1 t2 (with_Dcache dc (F n))) E1 F1 ip1 ->
     created L E F s i name n j E1 F1 f1 ipd f' -> MakeFh3 (mkFh n (i_Gen ip1)) = Ok fh3 ->
     Q (NFS3_OK, fh3, MkFattr ip1) (nset_fs f' s)) ->
  wp (doCreate retry dfh name NF3DIR data) s Q.
Proof.
  intros i a0 Hsv Hre Hfh Hi Hi0 HL Hready Hspare Hdirs Hnl Hrefuse Hundo Hok. unfold doCreate.
  apply wp_bind, (wp_begin L E F); [done|]. intros _.
  apply wp_bind, (wp_getAlloc L E retry F s dfh fh name NF3DIR); [done..| | | | |].
  { intros _ n Hn. by apply Hdirs. }
  - intros f' Hdead Ht. rewrite bool_decide_eq_true_2 by done. apply wp_ret, Hrefuse; [by left|done].
  - intros f' dip Hl HN Ht. rewrite bool_decide_eq_true_2 by done. apply wp_ret, Hrefuse; [by right; left|done].
  - intros f' dip Hl HN He Ht. rewrite bool_decide_eq_true_2 by done.
    apply wp_ret, Hrefuse; [by right; right|done].
  - intros f2 f3 dip n p ip Hl HN Hgn. rewrite bool_decide_eq_false_2 by tauto. pose proof Hl as [Hk _].
    pose proof (gn_alloc _ _ _ _ _ _ _ _ _ _ _ _ Hgn) as Hac.
    destruct (ac_made _ _ _ _ _ _ _ _ _ _ Hac) as (t1 & t2 & dc & Hm).
    assert (n ∈ alloc_free (a_ialloc (disk_of s))) as Hn.
    { rewrite <-(gn_ialloc _ _ _ _ _ _ _ _ _ _ _ _ Hgn). apply Hac. }
    destruct (Hspare n Hn) as [HLn _]. destruct (Hdirs n Hn) as [_ Hz].
    apply wp_bind, wp_on_fs, wp_ret. rewrite (bool_decide_eq_true_2 (NF3DIR = NF3DIR)) by done.
    apply wp_bind, (wp_new_dir F s i dip n p ip f2 f3); [done..| |].
    { intros s' Hfew Hs'. simpl. apply wp_ret, Hundo; [done|done|by left|done]. }
    intros E1 F1 ip1 f5 Hpr Hdm. simpl. apply wp_bind, wp_ret. simpl.
    apply (wp_add_new L E F s i dip name n p E1 F1 ip1 f5); [done|done|done| |].
    + intros s' Hwhy Hs'. apply Hundo; [done|done| |done]. right. split; [|done].
      destruct Hwhy as [?|[?|Hno]]; [by left|by right; left|right; right]. by apply no_room_full in Hno.
    + intros j ipd fh3 f' Hcr Hf3. rewrite Hm in Hdm. by apply (Hok n j t1 t2 dc E1 F1 ip1 f5 ipd fh3).
Qed.

(** The reply of MKDIR for a new name in a live directory, when an inode is
    free. *)
Record mkdir_reply F s i (name : list Z) (rep : MKDIR3res) s' : Prop := {
  my_status : MKDIR3res_Status rep = NFS3_OK \/ MKDIR3res_Status rep = NFS3ERR_SERVERFAULT;
  my_ok : MKDIR3res_Status rep = NFS3_OK -> exists n ip ipd fh3 E' F' t1 t2,
    rep = mkMKDIR3res NFS3_OK
      (mkMKDIR3resok (mkPost_op_fh3 true fh3) (mkPost_op_attr true (MkFattr ip)) zero) zero /\
    MakeFh3 (mkFh n (i_Gen ip)) = Ok fh3 /\
    n ∈ alloc_free (a_ialloc (disk_of s)) /\ spare (F n) /\ n <> i /\ ino_ok (disk_of s) n /\
    len name < MAXNAMELEN /\ i_Kind (F i) = NF3DIR /\
    (* the new directory has its two entries *)
    fixed (made n NF3DIR t1 t2 (F n)) ip /\ i_Size ip = 2 * DIRENTSZ /\ F' n = ip /\ E' n = dir_dots n i /\
    trimmed_file ip (disk_of s') 1 /\
    (* its parent has the name, and one more link *)
    (exists j, free_slot (E i) j /\ E' i = set_slot (E i) j (mkDirEnt n name)) /\
    names (E' i) = <[name := n]> (names (E i)) /\ same_attrs (one_more (F i)) ipd /\ fixed ipd (F' i) /\
    (forall k, k <> i -> k <> n -> E' k = E k /\ F' k = F k) /\
    server L E' F' s' /\ frame F {[i; n]} (disk_of s) (disk_of s') /\
    a_super (disk_of s') = a_super (disk_of s) /\
    stable_obj (a_log (disk_of s')) = log_obj (a_log (disk_of s'));
}.

Lemma wp_mkdir_commit F s i name n j t1 t2 dc E1 F1 ip1 f1 ipd fh3 f' (Q : MKDIR3res -> NSt -> Prop) :
  server L E F s -> ino_ok (disk_of s) i -> names (E i) !! name = None ->
  dir_made F i n (made n NF3DIR t1 t2 (with_Dcache dc (F n))) E1 F1 ip1 ->
  created L E F s i name n j E1 F1 f1 ipd f' -> MakeFh3 (mkFh n (i_Gen ip1)) = Ok fh3 ->
  (forall rep s', mkdir_reply F s i name rep s' -> Q rep s') ->
  wp (st ← commitReply;
      mret (mkMKDIR3res st (mkMKDIR3resok (mkPost_op_fh3 true fh3) (mkPost_op_attr true (MkFattr ip1)) zero)
              zero)) (nset_fs f' s) Q.
Proof.
  intros Hsv Hi HN [[HEn HE] (Hfx & Hsz & HFn) Hpar Hoth] Hcr Hfh HQ.
  apply (wp_created_commit L E F s i name n j E1 F1 f1 ipd f'
    (fun st => mkMKDIR3res st (mkMKDIR3resok (mkPost_op_fh3 true fh3) (mkPost_op_attr true (MkFattr ip1)) zero) zero));
    [done|done|done|exact Hcr| | |].
  { intros k Hk. apply Hoth; set_solver. }
  { intros s'. apply HQ. split; simpl; [by auto|done]. }
  intros s' [Hsv' Hnames [Hsp Hno] Hfr Hsup Hst _ Htrim]. destruct Hcr as [Hfree [Hlen Hkd] [Hne Hnn] HEi Hslot Hfxd _ _ _ _].
  rewrite HFn, Hsz, dots_blocks in Htrim. destruct Htrim as [Hz|Htrim]; [by unfold DIRENTSZ in Hz|].
  set (es := set_slot (E i) j (mkDirEnt n name)) in *.
  apply HQ. split; simpl; [by auto|]. intros _. exists n, ip1, (F1 i), fh3, (<[i := es]> E1), (<[i := ipd]> F1), t1, t2.
  rewrite !(fn_lookup_insert_ne _ i n), !fn_lookup_insert by done.
  split_and!; [done|done|done|done|done|done|done|done|done|done|done|done|done|by exists j|done|done|done| |done|done|done|done].
  intros k Hki Hkn. rewrite !fn_lookup_insert_ne by done. split; [by apply HE|by apply Hoth].
Qed.

Lemma wp_MKDIR F s args fh (Q : MKDIR3res -> NSt -> Prop) :
  let i := Ino fh in
  let name := Diropargs3_Name (MKDIR3args_Where args) in
  server L E F s -> retry <> 0%nat -> MakeFh (Diropargs3_Dir (MKDIR3args_Where args)) = Ok fh ->
  ino_ok (disk_of s) i -> i <> NULLINUM -> i ∉ L -> dir_ready L E i -> spare_ready L F (disk_of s) ->
  spare_dirs F s -> i_Nlink (F i) < 2 ^ 32 - 1 ->
  (forall st s', make_refused F s fh name st -> server L E F s' -> sim (disk_of s) (disk_of s') ->
     Q (mkMKDIR3res st zero zero) s') ->
  (forall st s', live F fh -> names (E i) !! name = None -> make_undone F s i name st ->
     sim (disk_of s) (disk_of s') -> Q (mkMKDIR3res st zero zero) s') ->
  (forall rep s', live F fh -> names (E i) !! name = None -> mkdir_reply F s i name rep s' -> Q rep s') ->
  wp (NFSPROC3_MKDIR retry args) s Q.
Proof.
  intros i name Hsv Hre Hfh Hi Hi0 HL Hready Hspare Hdirs Hnl Hrefuse Hundo Hok. unfold NFSPROC3_MKDIR. fold name.
  apply wp_bind, (wp_doCreate_dir F s _ fh name); [done..| | |].
  - intros st f' Hwhy Ht. rewrite bool_decide_eq_true_2 by (by eapply make_error).
    apply wp_bind, (wp_errRet L E F (f_a (n_fs s))); [done|]. intros s' _ Hsv' Hsim. by apply wp_ret, Hrefuse.
  - intros st s1 Hl HN Hwhy Hs1. rewrite bool_decide_eq_true_2 by (by eapply make_undone_error).
    apply wp_bind. unfold errRet. apply wp_bind, wp_on_fs, (wp_Abort_gen L (f_a (n_fs s))); [done|apply Hsv|apply Hsv|].
    intros f3 _ _ _ Hsim3 _ _ _ _. by apply wp_ret, wp_ret, Hundo.
  - intros n j t1 t2 dc E1 F1 ip1 f1 ipd fh3 f' Hl HN Hdm Hcr Hf3. rewrite bool_decide_eq_false_2 by tauto.
    eapply wp_mkdir_commit; [done|done|done|exact Hdm|exact Hcr|done|]. intros rep s' Hrep. by apply Hok.
Qed.

(** *** A directory that MKDIR made can be removed *)

(** The server [s'], with the directories [E'] and the files [F'], is [s] with
    the empty directory [n] named [name] in directory [i]. *)
Record has_dir F s i (name : list Z) E' F' s' n : Prop := {
  hd_server : server L E' F' s';
  hd_super : a_super (disk_of s') = a_super (disk_of s);
  hd_new : n ∈ alloc_free (a_ialloc (disk_of s)) /\ n <> i /\ ino_ok (disk_of s) n;
  hd_names : names (E' i) = <[name := n]> (names (E i));
  hd_ready : n ∉ L -> Z.of_nat (length (E i)) < 400000 -> dir_ready L E i -> dir_ready L E' i;
  hd_parent : exists ipd, same_attrs (one_more (F i)) ipd /\ fixed ipd (F' i);
  hd_others : forall k, k <> i -> k <> n -> E' k = E k /\ F' k = F k;
  hd_frame : frame F {[i; n]} (disk_of s) (disk_of s');
  hd_dir : i_Kind (F' n) = NF3DIR /\ empty_dir (E' n);
  hd_gen : i_Gen (F' n) = w64 (i_Gen (F n) + 1);
  hd_unlinkable : unlinkable E' F' (disk_of s') i name n;
}.

Lemma new_dir_empty n parent : empty_dir (dir_dots n parent).
Proof. by intros [|[|k]] e Hk He; [lia|lia|]. Qed.

Lemma mkdir_has_dir F s i name rep s' : server L E F s -> ino_ok (disk_of s) i -> mkdir_reply F s i name rep s' ->
  MKDIR3res_Status rep = NFS3_OK -> exists E' F' n, has_dir F s i name E' F' s' n.
Proof.
  intros Hsv Hi [_ Hok] Hst.
  destruct (Hok Hst) as (n & ip & ipd & fh3 & E' & F' & t1 & t2 & _ & _ & Hn & _ & Hne & Hin & _ & _ & Hfx & Hsz & HFn & HEn &
    Ht & (j & Hslot & HEi) & Hnm & Hat & Hfp & Hoth & Hsv' & Hfr & Hsp & _). exists E', F', n.
  assert (forall k e, ino_ok (disk_of s) k -> e ∈ E k -> de_inum e <> n) as Hsole.
  { intros k e Hk He Hen. assert (n <> NULLINUM) as Hnull.
    { intros ->. assert (ino_ok (disk_of s') i) as Hi' by (by eapply ino_ok_super).
      assert (names (E' i) !! name = Some NULLINUM) as Hl by (by rewrite Hnm, lookup_insert_eq).
      by destruct (names_elem _ _ _ (dr_uniq _ _ _ (sv_dirs _ _ _ _ Hsv') i Hi') Hl) as (e' & _ & Hu & ? & _). }
    assert (in_use e) as Hu by (unfold in_use; congruence).
    destruct (dr_live _ _ _ (sv_dirs _ _ _ _ Hsv) k e Hk He Hu) as [_ Hl]. rewrite Hen in Hl. by apply Hl, (sv_free _ _ _ _ Hsv). }
  assert (forall e, e ∈ E' i -> e = mkDirEnt n name \/ e ∈ E i) as Hes.
  { intros e. rewrite HEi. intros He. apply set_slot_elem in He; [done|apply Hslot]. }
  split; [done|done|done|done| |by exists ipd|done|done| | |].
  - intros HL Hlen [Hc Hr]. split.
    + unfold cacheable. rewrite HEi. destruct Hslot as [Hj _]. rewrite set_slot_length by done. lia.
    + intros e [->|He]%Hes Hu; [done|by apply Hr].
  - rewrite HFn, HEn, Hfx. split; [done|apply new_dir_empty].
  - by rewrite HFn, Hfx.
  - split; rewrite ?HFn, ?Hsz, ?dots_blocks.
    + done.
    + by rewrite Hfx.
    + done.
    + done.
    + intros k e Hk Hkn He Hen. assert (ino_ok (disk_of s) k) as Hk0 by (by eapply ino_ok_super).
      destruct (decide (k = i)) as [->|Hki].
      * apply Hes in He as [->|He]; [done|]. by destruct (Hsole i e Hk0 He).
      * destruct (Hoth k Hki Hkn) as [HEk _]. rewrite HEk in He. by destruct (Hsole k e Hk0 He).
Qed.

End mkdir.
