(* ===== verification/NfsSymlink.v ===== *)
(** Symbolic links: storing the target, and the procedures SYMLINK and
    READLINK. *)
From stdpp Require Import functions.
From S2P Require Import Prelude Nfstypes External Reference Super Fh Cache Dcache Alloctxn AtxnCommit Inode.
From S2P Require Import InodeCodec InodeMap InodeIO InodeBound Volume InodeShrink Fstxn FstxnInv Dir DirSpec DirVol Lorder Shrinker.
From S2P Require Import NfsOps NfsFiles NfsDirs NfsNames NfsCreate NfsRemove NfsRename NfsMkdir.
Import Nfs.

Section symlink.
Context `{!Common} `{!CommonSpec} `{!Util} `{!UtilSpec} `{!Marshal} `{!MarshalSpec} `{!Std}
  `{!Buf} `{!BufSpec} `{!Journal} `{!JournalSpec} `{!AllocPkg} `{!AllocSpec}
  `{!LockPkg} `{!LockSpec} `{!Clock} `{!DiskPkg}.
Variable L : gset Z.
Implicit Types (E : Z -> list dirEnt) (F : Z -> Inode) (f : FSt) (s : NSt) (a : ASt) (i n p dip : Z) (ip : Inode)
  (data : list Z).

(** ** The target *)

(** The target [data] was stored in the empty inode [n], which was [ip], at
    [p]. *)
Record target_stored E F a0 f n p ip data ip1 f1 : Prop := {
  ts_inode : fixed ip ip1 /\ i_Size ip1 = len data;
  ts_changed : changed L E (<[n := ip1]> F) a0 f1;
  ts_same : same_txn p f f1;
  ts_heap : f_heap f1 !! p = Some ip1;
  ts_frame : frame F {[n]} (f_a f) (f_a f1);
  ts_bytes : fbytes ip1 (f_a f1) 0 (length data) = data;
  ts_map : maps_below 4096 ip (f_a f) ip1 (f_a f1);
}.

(** Nothing of it was stored. *)
Record target_refused a0 f n p ip ip1 f1 : Prop := {
  tr_fs : fs_inv L a0 f1;
  tr_same : same_txn p f f1;
  tr_inode : f_heap f1 !! p = Some ip1 /\ file_ok ip1 (f_a f1) /\ fixed ip ip1 /\ i_Size ip1 = 0;
  tr_why : few_free (f_a f);
}.

Section store.
Context (E : Z -> list dirEnt) (F : Z -> Inode) (a0 : ASt) (f : FSt) (n p : Z) (ip : Inode) (data : list Z).
Hypothesis Hch : changed L E F a0 f.
Hypothesis Ho : f_inodes f !! n = Some p.
Hypothesis Hp : f_heap f !! p = Some ip.
Hypothesis Hsz : i_Size ip = 0.
Hypothesis Hlen : len data <= 4096.

Lemma st_ip : ip = with_Dcache (i_Dcache ip) (F n).
Proof. by apply (changed_heap L E F a0 f n p ip). Qed.

Lemma st_ino : ino_ok (f_a f) n.
Proof. by destruct (fi_own _ _ _ (ch_fs _ _ _ _ _ Hch) n p Ho). Qed.

Lemma st_ok : file_ok ip (f_a f).
Proof. rewrite st_ip. apply file_ok_Dcache, vol_file_ok; [apply Hch|exact st_ino]. Qed.

Lemma written_step off count cnt ok ip1 a1 : write_post ip (f_a f) off count data cnt ok ip1 a1 ->
  set_step p f ip (fset_a a1 (fset_heap (<[p := ip1]> (f_heap f)) f)) ip1.
Proof. intros Hw. destruct (write_touched _ _ _ _ _ _ _ _ _ Hw). by split. Qed.

Lemma written_same off count cnt ok ip1 a1 : write_post ip (f_a f) off count data cnt ok ip1 a1 ->
  same_txn p f (fset_a a1 (fset_heap (<[p := ip1]> (f_heap f)) f)).
Proof.
  intros Hw. pose proof (wp_grow _ _ _ _ _ _ _ _ _ Hw) as Hg. split; [done| |apply Hg|apply Hg].
  intros q Hne _. simpl. by rewrite lookup_insert_ne.
Qed.

Lemma written_target ip1 a1 : i_Kind ip <> NF3DIR -> i_Kind ip <> NF3FREE ->
  write_post ip (f_a f) 0 (len data) data (len data) true ip1 a1 ->
  target_stored E F a0 f n p ip data ip1 (fset_a a1 (fset_heap (<[p := ip1]> (f_heap f)) f)).
Proof.
  intros Hkd Hkf Hw. assert (0 <= len data) as Hl0 by (unfold len; lia). set (f1 := fset_a a1 _). pose proof st_ip as Hip. pose proof st_ok as Hok.
  pose proof (wp_fields _ _ _ _ _ _ _ _ _ Hw) as Hf. assert (i_Size ip1 = len data) as Hsz1.
  { rewrite Hf. simpl. rewrite Hsz. destruct (Z.ltb_spec 0 (len data)); lia. }
  assert (synced ip1 a1) as Hsy.
  { destruct (decide (len data = 0)) as [Hz|Hz].
    - destruct (wp_nop _ _ _ _ _ _ _ _ _ Hw Hz) as [-> ->].
      by apply (disk_inode_synced _ n), (ch_synced _ _ _ _ _ Hch n p).
    - apply (wp_synced _ _ _ _ _ _ _ _ _ Hw). lia. }
  pose proof (set_step_replaced F f n p ip f1 ip1 (ch_vol _ _ _ _ _ Hch) st_ino Hip (written_step _ _ _ _ _ _ Hw) Hsy) as Hrp.
  assert (i_Kind (F n) = i_Kind ip) as Hk by (by rewrite Hip).
  assert (n ∉ alloc_free (a_ialloc (f_a f)) ∪ list_to_set (a_freeInums (f_a f))) as Hnf.
  { intros Hn. destruct (ch_free _ _ _ _ _ Hch n Hn) as [Hkn _]. congruence. }
  split.
  - split; [|done]. rewrite Hf. by destruct ip.
  - apply (changed_file L E F a0 f f1 n p ip1 Hch Ho Hrp ip); [done|by rewrite Hk|by rewrite Hf| | |by rewrite Hf|by right].
    + by rewrite Hf.
    + pose proof (ch_linked _ _ _ _ _ Hch n st_ino) as Hl. unfold linked in *. rewrite Hf. simpl. rewrite Hip. exact Hl.
  - by eapply written_same.
  - apply lookup_insert_eq.
  - exact (rp_frame L E F a0 f f1 n p ip1 Hch Ho Hrp).
  - apply (fbytes_data ip1 a1 0 data (fun k => fbyte ip (f_a f) k)); [|lia|unfold MaxBlks; lia].
    intros k Hk'. by rewrite (wp_bytes _ _ _ _ _ _ _ _ _ Hw) by done.
  - eapply maps_below_mono, (wp_below _ _ _ _ _ _ _ _ _ Hw). lia.
Qed.

Lemma wp_store_target s (Q : Z * bool -> NSt -> Prop) : n_fs s = f -> i_Kind ip <> NF3DIR -> i_Kind ip <> NF3FREE ->
  (forall ip1 f1, target_stored E F a0 f n p ip data ip1 f1 -> Q (len data, true) (nset_fs f1 s)) ->
  (forall ip1 f1, target_refused a0 f n p ip ip1 f1 -> Q (0, false) (nset_fs f1 s)) ->
  wp (on_fs (on_ip p (Write 0 (len data) data))) s Q.
Proof.
  intros Hs Hkd Hkf HQ HQf. assert (0 <= len data) as Hl0 by (unfold len; lia).
  apply wp_on_fs. rewrite Hs. apply (wp_on_ip p ip); [done|].
  destruct (wp_Write ip (f_a f) 0 (len data) data (fun r t => write_post ip (f_a f) 0 (len data) data r.1 r.2 t.1 t.2))
    as ([cnt ok] & [ip1 a1] & Hrun & Hw); [exact st_ok|done|lia|rewrite MaxFileSize_eq; lia|done|].
  simpl in Hw. exists (cnt, ok), (ip1, a1). split; [exact Hrun|]. cbn [fst snd].
  pose proof (wp_cnt _ _ _ _ _ _ _ _ _ Hw) as Hcnt. pose proof (wp_ok _ _ _ _ _ _ _ _ _ Hw) as Hokb.
  destruct (decide (cnt = len data)) as [->|Hne].
  - rewrite bool_decide_eq_true_2 in Hokb by lia. subst ok. by apply (HQ ip1), written_target.
  - destruct (wp_stop _ _ _ _ _ _ _ _ _ Hw) as [Hal _]; [lia|].
    assert (cnt = 0) as ->.
    { destruct Hal as [|Hal]; [done|]. rewrite Z.add_0_l, Z.mod_small in Hal by lia. done. }
    rewrite bool_decide_eq_false_2 in Hokb by lia. subst ok. apply (HQf ip1).
    pose proof (written_step _ _ _ _ _ _ Hw) as Hst. pose proof (set_step_fs L a0 f n p ip _ ip1 (ch_fs _ _ _ _ _ Hch) Ho Hp Hst) as Hs1.
    pose proof (wp_fields _ _ _ _ _ _ _ _ _ Hw) as Hf.
    split; [done|by eapply written_same| |].
    + split_and!; [apply lookup_insert_eq|apply Hst| |]; rewrite Hf; [by destruct ip|simpl; rewrite Hsz; done].
    + eapply write_ran_out; [|exact Hrun|apply (fi_from _ _ _ (ch_fs _ _ _ _ _ Hch))|apply (fi_from _ _ _ Hs1)|].
      * rewrite BlockSize_eq, Zmod_0_l. lia.
      * apply (wp_short _ _ _ _ _ _ _ _ _ Hw). lia.
Qed.
End store.

(** ** The new link *)

Variable E : Z -> list dirEnt.
Variable retry : nat.

Lemma prepared_link F s i dip n p ip f3 data ip1 f4 : prepared L E F s i dip n p E (<[n := ip]> F) ip f3 ->
  i_blks ip = zeros 10 -> len data <= 4096 ->
  target_stored E (<[n := ip]> F) (f_a (n_fs s)) f3 n p ip data ip1 f4 ->
  prepared L E F s i dip n p E (<[n := ip1]> (<[n := ip]> F)) ip1 f4.
Proof.
  intros [Hn [Hne Hnn] Hni Hch3 Hin3 Hp3 [_ HF3] [Hnl Hkf] _ Hoth Hfr3] Hz Hlen [[Hfx Hsz] Hch4 Hsame Hp4 Hfr4 Hby Hmap].
  split.
  - done.
  - done.
  - eapply ino_ok_super; [|exact Hni]. symmetry. apply Hsame.
  - exact Hch4.
  - by rewrite (sx_inodes _ _ _ Hsame).
  - done.
  - split; [done|]. by rewrite !fn_lookup_insert_ne.
  - rewrite Hfx. done.
  - destruct (decide (len data = 0)) as [Hl|Hl]; [left; congruence|right]. rewrite Hsz.
    assert (util_RoundUp (len data) BlockSize = 1) as ->.
    { assert (0 <= len data) by (unfold len; lia). rewrite BlockSize_eq, RoundUp_eq by (unfold is_u64; lia).
      symmetry. apply (Z.div_unique _ _ _ (len data - 1)); lia. }
    split; [done|]. by apply (first_trimmed 4096 ip (f_a f3) ip1 (f_a f4)).
  - intros k Hk. rewrite !fn_lookup_insert_ne by set_solver. done.
  - apply (frame_trans F (<[n := ip]> F) _ _ (f_a f3)); [|done|eapply frame_mono; [|exact Hfr4]; set_solver|].
    + apply (af_super _ _ (fi_from _ _ _ (ch_fs _ _ _ _ _ Hch3))).
    + intros k Hk. rewrite fn_lookup_insert_ne by set_solver. done.
Qed.

Lemma wp_new_link F s i dip n p ip f2 f3 data (Q : bool -> NSt -> Prop) :
  let a0 := f_a (n_fs s) in
  server L E F s -> i_Kind (F i) <> NF3FREE -> i_blks (F n) = zeros 10 -> len data <= 4096 ->
  got_new L E F s i NF3LNK dip n p ip f2 f3 ->
  (forall s', few_free (disk_of s) -> fs_inv L a0 (n_fs s') -> Q false s') ->
  (forall ip1 f5, let F1 := <[n := ip1]> (<[n := ip]> F) in prepared L E F s i dip n p E F1 ip1 f5 ->
     fixed ip ip1 -> i_Size ip1 = len data -> fbytes ip1 (f_a f5) 0 (length data) = data -> Q true (nset_fs f5 s)) ->
  wp ('(_, ok) ← on_fs (on_ip p (Write 0 (len data) data));
      if negb ok then
        _ ← doDecLink p;
        mret false
      else mret true) (nset_fs f3 s) Q.
Proof.
  intros a0 Hsv Hki Hz Hlen Hgn HQf HQ. assert (NF3LNK <> NF3FREE) as Hdf by done.
  pose proof (prepared_new L E F s i dip NF3LNK n p ip f2 f3 Hsv Hki Hdf Hgn) as Hpr.
  pose proof (gn_alloc _ _ _ _ _ _ _ _ _ _ _ _ Hgn) as Hac.
  assert (a_balloc (f_a f3) = a_balloc (disk_of s)) as Hba.
  { by rewrite (ac_balloc _ _ _ _ _ _ _ _ _ _ Hac), (gn_balloc _ _ _ _ _ _ _ _ _ _ _ _ Hgn). }
  destruct (ac_made _ _ _ _ _ _ _ _ _ _ Hac) as (t1 & t2 & dc & Hm).
  pose proof Hpr as [Hn [Hne Hnn] Hni Hch3 Hin3 Hp3 _ _ _ _ _].
  assert (f_inodes f3 !! n = Some p) as Hn3 by (by rewrite Hin3, lookup_insert_eq).
  assert (i_Size ip = 0 /\ i_blks ip = zeros 10) as [Hsz Hblk].
  { rewrite Hm. split; [by apply (sv_free _ _ _ _ Hsv)|done]. }
  apply wp_bind, (wp_store_target E (<[n := ip]> F) a0 f3 n p ip data); [done|done|done|done|done|done|by rewrite Hm|by rewrite Hm|..].
  - intros ip1 f5 Hts. apply wp_ret. apply (HQ ip1); [by eapply prepared_link|apply Hts..].
  - intros ip1 f5 [Hs5 Hsame (Hp5 & Hok5 & Hfx & Hsz5) Hfew]. simpl.
    apply wp_bind, (wp_decline L a0 _ n p ip1); [exact Hs5|simpl; by rewrite (sx_inodes _ _ _ Hsame)|done|done|by rewrite <-NULLINUM_eq| |by left|].
    + by rewrite Hfx, Hm.
    + intros s' Hs'. apply wp_ret, HQf; [|done]. unfold few_free in *. by rewrite <-Hba.
Qed.

(** ** SYMLINK *)

(** The free inodes map nothing and are not shrinking, as [spare_ready] and
    [spare_empty] say. *)
Lemma wp_doCreate_link F s dfh fh name data (Q : Z * Nfs_fh3 * Fattr3 -> NSt -> Prop) :
  let i := Ino fh in
  let a0 := f_a (n_fs s) in
  server L E F s -> retry <> 0%nat -> MakeFh dfh = Ok fh -> ino_ok (disk_of s) i -> i ∉ L ->
  dir_ready L E i -> spare_ready L F (disk_of s) -> spare_empty F (disk_of s) -> len data <= 4096 ->
  (forall st f', make_refused E F s fh name st -> txn L E F a0 f' -> Q (st, zero, zero) (nset_fs f' s)) ->
  (forall st s', live F fh -> names (E i) !! name = None -> make_undone E F s i name st -> fs_inv L a0 (n_fs s') ->
     Q (st, zero, zero) s') ->
  (forall n j t1 t2 dc ip1 f1 ipd fh3 f', live F fh -> names (E i) !! name = None ->
     let ip := made n NF3LNK t1 t2 (with_Dcache dc (F n)) in
     fixed ip ip1 -> i_Size ip1 = len data -> fbytes ip1 (f_a f1) 0 (length data) = data ->
     created L E F s i name n j E (<[n := ip1]> (<[n := ip]> F)) f1 ipd f' ->
     MakeFh3 (mkFh n (i_Gen ip1)) = Ok fh3 -> Q (NFS3_OK, fh3, MkFattr ip1) (nset_fs f' s)) ->
  wp (doCreate retry dfh name NF3LNK data) s Q.
Proof.
  intros i a0 Hsv Hre Hfh Hi HL Hready Hspare Hempty Hlen Hrefuse Hundo Hok. unfold doCreate.
  apply wp_bind, (wp_begin L E F); [done|]. intros _.
  apply wp_bind, (wp_getAlloc L E retry F s dfh fh name NF3LNK); [done..| | | |].
  - intros f' Hdead Ht. rewrite bool_decide_eq_true_2 by done. apply wp_ret, Hrefuse; [by left|done].
  - intros f' dip Hl HN Ht. rewrite bool_decide_eq_true_2 by done. apply wp_ret, Hrefuse; [by right; left|done].
  - intros f' dip Hl HN He Ht. rewrite bool_decide_eq_true_2 by done.
    apply wp_ret, Hrefuse; [by right; right|done].
  - intros f2 f3 dip n p ip Hl HN Hgn. rewrite bool_decide_eq_false_2 by tauto. pose proof Hl as [Hk _].
    pose proof (gn_alloc _ _ _ _ _ _ _ _ _ _ _ _ Hgn) as Hac.
    destruct (ac_made _ _ _ _ _ _ _ _ _ _ Hac) as (t1 & t2 & dc & Hm).
    assert (n ∈ alloc_free (a_ialloc (disk_of s))) as Hn.
    { rewrite <-(gn_ialloc _ _ _ _ _ _ _ _ _ _ _ _ Hgn). apply Hac. }
    apply wp_bind, wp_on_fs, wp_ret. apply wp_bind, wp_ret. cbn [negb].
    rewrite (bool_decide_eq_true_2 (NF3LNK = NF3LNK)) by done.
    apply wp_bind, (wp_new_link F s i dip n p ip f2 f3 data); [done|done|by apply Hempty|done|done| |].
    { intros s' Hfew Hs'. simpl. apply wp_ret, Hundo; [done|done|by left|done]. }
    intros ip1 f5 F1 Hpr Hfx Hsz Hby. cbn [negb].
    apply (wp_add_new L E F s i dip name n p E F1 ip1 f5); [done|done|done| |].
    + intros s' Hwhy Hs'. apply Hundo; [done|done| |done]. right. split; [|done].
      destruct Hwhy as [?|[?|Hno]]; [by left|by right; left|right; right]. by apply no_room_full in Hno.
    + intros j ipd fh3 f' Hcr Hf3. unfold F1 in Hcr. rewrite Hm in Hfx, Hcr. by apply (Hok n j t1 t2 dc ip1 f5 ipd fh3).
Qed.

(** The reply of SYMLINK for a new name in a live directory, when an inode is
    free. *)
Record symlink_reply F s i (name data : list Z) (rep : SYMLINK3res) s' : Prop := {
  sl_status : SYMLINK3res_Status rep = NFS3_OK \/ SYMLINK3res_Status rep = NFS3ERR_SERVERFAULT;
  sl_ok : SYMLINK3res_Status rep = NFS3_OK -> exists n j ip fh3 E' F' t1 t2,
    rep = mkSYMLINK3res NFS3_OK
      (mkSYMLINK3resok (mkPost_op_fh3 true fh3) (mkPost_op_attr true (MkFattr ip)) zero) zero /\
    MakeFh3 (mkFh n (i_Gen ip)) = Ok fh3 /\
    n ∈ alloc_free (a_ialloc (disk_of s)) /\ spare (F n) /\ n <> i /\ ino_ok (disk_of s) n /\
    len name < MAXNAMELEN /\ i_Kind (F i) = NF3DIR /\
    (* the new file is the link and has the target *)
    fixed (made n NF3LNK t1 t2 (F n)) ip /\ i_Size ip = len data /\ F' n = ip /\
    fbytes ip (disk_of s') 0 (length data) = data /\
    (* the directory has the name *)
    free_slot (E i) j /\ E' = <[i := set_slot (E i) j (mkDirEnt n name)]> E /\
    names (E' i) = <[name := n]> (names (E i)) /\ fixed (F i) (F' i) /\
    (forall k, k <> i -> k <> n -> F' k = F k) /\
    server L E' F' s' /\ frame F {[i; n]} (disk_of s) (disk_of s') /\
    a_super (disk_of s') = a_super (disk_of s) /\
    stable_obj (a_log (disk_of s')) = log_obj (a_log (disk_of s'));
}.

Lemma wp_symlink_commit F s i name data n j t1 t2 dc ip1 f1 ipd fh3 f' (Q : SYMLINK3res -> NSt -> Prop) :
  let ip := made n NF3LNK t1 t2 (with_Dcache dc (F n)) in
  server L E F s -> ino_ok (disk_of s) i -> names (E i) !! name = None -> fixed ip ip1 -> i_Size ip1 = len data ->
  len data <= 4096 -> fbytes ip1 (f_a f1) 0 (length data) = data ->
  created L E F s i name n j E (<[n := ip1]> (<[n := ip]> F)) f1 ipd f' -> MakeFh3 (mkFh n (i_Gen ip1)) = Ok fh3 ->
  (forall rep s', symlink_reply F s i name data rep s' -> Q rep s') ->
  wp (st ← commitReply;
      mret (mkSYMLINK3res st (mkSYMLINK3resok (mkPost_op_fh3 true fh3) (mkPost_op_attr true (MkFattr ip1)) zero)
              zero)) (nset_fs f' s) Q.
Proof.
  intros ip Hsv Hi HN Hfx Hsz Hlen Hby Hcr Hfh HQ. set (F1 := <[n := ip1]> (<[n := ip]> F)) in *.
  apply (wp_created_commit L E F s i name n j E F1 f1 ipd f'
    (fun st => mkSYMLINK3res st (mkSYMLINK3resok (mkPost_op_fh3 true fh3) (mkPost_op_attr true (MkFattr ip1)) zero) zero));
    [done|done|done|exact Hcr| | |].
  { intros k Hk. unfold F1. rewrite !fn_lookup_insert_ne by set_solver. done. }
  { intros s'. apply HQ. split; simpl; [by auto|done]. }
  intros s' [Hsv' Hnames [Hsp Hno] Hfr Hsup Hst Hbytes _]. destruct Hcr as [Hfree [Hlen' Hkd] [Hne Hnn] _ Hslot Hfxd _ _ _ _].
  assert (F1 n = ip1) as HFn by apply fn_lookup_insert. rewrite HFn in Hbytes.
  assert (F1 i = F i) as HFi by (unfold F1; by rewrite !fn_lookup_insert_ne). rewrite HFi in Hfxd.
  apply HQ. split; simpl; [by auto|]. intros _. exists n, j, ip1, fh3, (<[i := set_slot (E i) j (mkDirEnt n name)]> E), (<[i := ipd]> F1), t1, t2.
  rewrite (fn_lookup_insert_ne F1 i n), !fn_lookup_insert by done.
  split_and!; [done|done|done|done|done|done|done|done|done|done|done| |done|done|done|done| |done|done|done|done].
  - rewrite <-Hby at 2. apply fbytes_ext. intros x Hx. apply Hbytes. unfold in_file, MaxBlks. unfold len in Hlen. lia.
  - intros k Hki Hkn. unfold F1. by rewrite !fn_lookup_insert_ne.
Qed.

Lemma wp_SYMLINK F s args fh (Q : SYMLINK3res -> NSt -> Prop) :
  let i := Ino fh in
  let name := Diropargs3_Name (SYMLINK3args_Where args) in
  let data := Symlinkdata3_Symlink_data (SYMLINK3args_Symlink args) in
  server L E F s -> retry <> 0%nat -> MakeFh (Diropargs3_Dir (SYMLINK3args_Where args)) = Ok fh ->
  ino_ok (disk_of s) i -> i ∉ L -> dir_ready L E i -> spare_ready L F (disk_of s) -> spare_empty F (disk_of s) ->
  len data <= 4096 ->
  (forall st s', make_refused E F s fh name st -> server L E F s' -> sim (disk_of s) (disk_of s') ->
     Q (mkSYMLINK3res st zero zero) s') ->
  (forall st s', live F fh -> names (E i) !! name = None -> make_undone E F s i name st ->
     sim (disk_of s) (disk_of s') -> Q (mkSYMLINK3res st zero zero) s') ->
  (forall rep s', live F fh -> names (E i) !! name = None -> symlink_reply F s i name data rep s' -> Q rep s') ->
  wp (NFSPROC3_SYMLINK retry args) s Q.
Proof.
  intros i name data Hsv Hre Hfh Hi HL Hready Hspare Hempty Hlen Hrefuse Hundo Hok. unfold NFSPROC3_SYMLINK. fold name data.
  apply wp_bind, (wp_doCreate_link F s _ fh name data); [done..| | |].
  - intros st f' Hwhy Ht. rewrite bool_decide_eq_true_2 by (by eapply make_error).
    apply wp_bind, (wp_errRet L E F (f_a (n_fs s))); [done|]. intros s' _ Hsv' Hsim. by apply wp_ret, Hrefuse.
  - intros st s1 Hl HN Hwhy Hs1. rewrite bool_decide_eq_true_2 by (by eapply make_undone_error).
    apply wp_bind. unfold errRet. apply wp_bind, wp_on_fs, (wp_Abort_gen L (f_a (n_fs s))); [done|apply Hsv|apply Hsv|].
    intros f3 _ _ _ Hsim3 _ _ _ _. by apply wp_ret, wp_ret, Hundo.
  - intros n j t1 t2 dc ip1 f1 ipd fh3 f' Hl HN ip Hfx Hsz Hby Hcr Hf3. rewrite bool_decide_eq_false_2 by tauto.
    eapply wp_symlink_commit; [done|done|done|exact Hfx|done|done|exact Hby|exact Hcr|done|].
    intros rep s' Hrep. by apply Hok.
Qed.

(** ** READLINK *)

(** The reply of READLINK for a live symbolic link. *)
Record readlink_reply F s i (rep : READLINK3res) s' : Prop := {
  rl_status : READLINK3res_Status rep = NFS3_OK \/ READLINK3res_Status rep = NFS3ERR_SERVERFAULT;
  rl_data : exists m, 0 <= m <= i_Size (F i) /\
    READLINK3resok_Data (READLINK3res_Resok rep) = fbytes (F i) (disk_of s) 0 (Z.to_nat m) /\
    (m < i_Size (F i) -> alloc_free (a_balloc (disk_of s')) = ∅) /\
    (m = i_Size (F i) -> READLINK3res_Status rep = NFS3_OK ->
       exists ip', moved L E F s i (<[i := ip']> F) s' /\ same_attrs (F i) ip' /\
         forall k, in_file k -> fbyte ip' (disk_of s') k = fbyte (F i) (disk_of s) k);
}.

Lemma wp_READLINK F s args fh (Q : READLINK3res -> NSt -> Prop) : let i := Ino fh in
  server L E F s -> MakeFh (READLINK3args_Symlink args) = Ok fh -> ino_ok (disk_of s) i -> i ∉ L ->
  i_Size (F i) <= MaxBlks * 4096 ->
  (forall s', ~ live F fh -> server L E F s' -> sim (disk_of s) (disk_of s') ->
     Q (mkREADLINK3res NFS3ERR_STALE zero zero) s') ->
  (forall s', live F fh -> i_Kind (F i) <> NF3LNK -> server L E F s' -> sim (disk_of s) (disk_of s') ->
     Q (mkREADLINK3res NFS3ERR_INVAL zero zero) s') ->
  (forall rep s', live F fh -> i_Kind (F i) = NF3LNK -> readlink_reply F s i rep s' -> Q rep s') ->
  wp (NFSPROC3_READLINK args) s Q.
Proof.
  intros i Hsv Hfh Hi HL Hsz Hstale Hinval Hok. unfold NFSPROC3_READLINK.
  assert (0 <= i_Size (F i)) as H0s by apply (iw_Size _ (di_wf _ _ _ (vo_inode _ _ (sv_vol _ _ _ _ Hsv) i Hi))).
  assert (to_read (F i) 0 (i_Size (F i)) = i_Size (F i)) as Htr by (unfold to_read; lia).
  apply wp_bind, (wp_doRead L E F s _ fh NF3LNK 0 0 (i_Size (F i))); try done.
  - unfold MaxBlks in Hsz. lia.
  - intros f' Hdead Ht. rewrite bool_decide_eq_true_2 by done.
    apply wp_bind, (wp_errRet L E F (f_a (n_fs s))); [done|]. intros s' _ Hsv' Hsim. by apply wp_ret, Hstale.
  - intros f' Hl Hk Ht. rewrite bool_decide_eq_true_2 by done.
    apply wp_bind, (wp_errRet L E F (f_a (n_fs s))); [done|]. intros s' _ Hsv' Hsim. by apply wp_ret, Hinval.
  - intros data eof f2 Hl Hk [Hs2 He Hfr (m & Hm & Hd & Hshort & Hfull)]. fold i in Hm, Hd, Hshort, Hfull. rewrite Htr in *.
    rewrite bool_decide_eq_false_2 by tauto.
    apply wp_bind, (wp_commitReply L E (f_a (n_fs s))); [done|]. intros st s' Hst _ Hcm Hba.
    simpl in Hba. apply wp_ret, Hok; [done|done|]. split; simpl; [done|].
    exists m. split; [exact Hm|]. split; [exact Hd|]. split.
    + intros Hlt. rewrite Hba, Hfr, Hshort by done. set_solver.
    + intros Hm' ->. destruct (Hfull Hm') as (ip' & Hch & Hat & Hmv). exists ip'.
      destruct (Hcm _ Hch eq_refl) as [Hsv' Hsim']. destruct (Hmv s' Hsv' Hsim') as [Hoth Hb].
      split_and!; [by eapply moved_intro|done|done].
Qed.
End symlink.
