(* ===== verification/NfsClaims.v ===== *)
(** The properties of the NFS procedures. *)
From stdpp Require Import functions.
From S2P Require Import Prelude Nfstypes External Reference Super Fh Cache Dcache Alloctxn AtxnCommit Inode.
From S2P Require Import InodeCodec InodeMap InodeIO Volume InodeClaims InodeShrink InodeResize Fstxn FstxnInv Shrinker Sample.
From S2P Require Import Dir DirSpec DirVol NfsOps NfsFiles NfsNames NfsSetattr.
Import Nfs.

Section claims.
Context `{!Common} `{!CommonSpec} `{!Util} `{!UtilSpec} `{!Marshal} `{!MarshalSpec} `{!Std}
  `{!Buf} `{!BufSpec} `{!Journal} `{!JournalSpec} `{!AllocPkg} `{!AllocSpec}
  `{!LockPkg} `{!LockSpec} `{!Clock} `{!DiskPkg}.
Variable L : gset Z.
Variable E : Z -> list dirEnt.
Variable retry : nat.
Implicit Types (F : Z -> Inode) (s : NSt).

(** GETATTR of a handle whose inode is in use and of its generation replies
    with the attributes of the file on disk, of any other handle with STALE;
    the server is consistent again with the same files. *)
Theorem GETATTR_spec F s args fh : server L E F s ->
  MakeFh (GETATTR3args_Object args) = Ok fh -> ino_ok (disk_of s) (Ino fh) -> Ino fh ∉ L ->
  exists rep s', NFSPROC3_GETATTR args s = Ok (rep, s') /\
    (~ live F fh -> rep = mkGETATTR3res NFS3ERR_STALE zero /\ server L E F s' /\
       sim (disk_of s) (disk_of s')) /\
    (live F fh -> GETATTR3res_Resok rep = mkGETATTR3resok (MkFattr (F (Ino fh))) /\
       (GETATTR3res_Status rep = NFS3_OK \/ GETATTR3res_Status rep = NFS3ERR_SERVERFAULT) /\
       (GETATTR3res_Status rep = NFS3_OK -> server L E F s' /\ sim (disk_of s) (disk_of s'))).
Proof.
  intros Hsv Hfh Hi HL. apply (wp_GETATTR L E F s args fh (fun rep s' => (~ live F fh -> _) /\ (live F fh -> _)));
    [done..|]. intros rep s' Hd Hl. by split.
Qed.

(** C3: READ of a live regular file replies with the bytes of the file at the
    offset, up to the count and the end of the file, and says whether the
    offset is past the end; it returns fewer only when the disk is full and a
    hole could not be filled. Its reply and the disk agree on the bytes, and
    afterwards every file has the contents and attributes it had. Any other
    handle gets STALE, a file of another kind INVAL, and nothing changes. *)
Theorem READ_spec F s args fh : server L E F s ->
  MakeFh (READ3args_File args) = Ok fh -> ino_ok (disk_of s) (Ino fh) -> Ino fh ∉ L ->
  i_Size (F (Ino fh)) <= MaxFileSize -> 0 <= READ3args_Offset args -> 0 <= READ3args_Count args ->
  READ3args_Offset args + READ3args_Count args < 2 ^ 64 ->
  exists rep s', NFSPROC3_READ args s = Ok (rep, s') /\
    (~ live F fh -> rep = mkREAD3res NFS3ERR_STALE zero zero /\ server L E F s' /\
       sim (disk_of s) (disk_of s')) /\
    (live F fh -> i_Kind (F (Ino fh)) <> NF3REG ->
       rep = mkREAD3res NFS3ERR_INVAL zero zero /\ server L E F s' /\ sim (disk_of s) (disk_of s')) /\
    (live F fh -> i_Kind (F (Ino fh)) = NF3REG ->
       read_reply L E F s (Ino fh) (READ3args_Offset args) (READ3args_Count args) rep s').
Proof.
  intros Hsv Hfh Hi HL Hsz Ho Hc Hov. rewrite MaxFileSize_eq in Hsz.
  apply (wp_READ L E F s args fh (fun rep s' => (~ live F fh -> _) /\ (live F fh -> _ -> _) /\ (live F fh -> _ -> _)));
    [done|done|done|done|unfold MaxBlks; lia|done|done|done|..].
  - intros s' Hd Hsv' Hsim. split_and!; [done|by intros|by intros].
  - intros s' Hl Hk Hsv' Hsim. split_and!; [by intros|done|by intros].
  - intros rep s' Hl Hk Hr. split_and!; [by intros|by intros|done].
Qed.

(** C2: WRITE to a live regular file, of at most the length of its data and
    within the maximum file size, either stores a non-empty prefix of the data
    at the offset (all of it unless the disk filled up) and replies with its
    length, changing no other byte of the file, no other file, and the size
    only to the end of the write if that is larger, or replies NOSPC with the
    disk unchanged. When the reply says the data was committed to stable
    storage it was. *)
Theorem WRITE_spec F s args fh : server L E F s -> retry <> 0%nat ->
  MakeFh (WRITE3args_File args) = Ok fh -> ino_ok (disk_of s) (Ino fh) -> Ino fh ∉ L ->
  is_shrinking (F (Ino fh)) = false ->
  0 <= WRITE3args_Offset args -> 0 <= WRITE3args_Count args <= len (WRITE3args_Data args) ->
  WRITE3args_Offset args + WRITE3args_Count args <= MaxFileSize ->
  exists rep s', NFSPROC3_WRITE retry args s = Ok (rep, s') /\
    (~ live F fh -> rep = mkWRITE3res NFS3ERR_STALE zero zero /\ server L E F s' /\
       sim (disk_of s) (disk_of s')) /\
    (live F fh -> i_Kind (F (Ino fh)) <> NF3REG \/ LogBytes <= WRITE3args_Count args ->
       rep = mkWRITE3res NFS3ERR_INVAL zero zero /\ server L E F s' /\ sim (disk_of s) (disk_of s')) /\
    (live F fh -> i_Kind (F (Ino fh)) = NF3REG -> WRITE3args_Count args < LogBytes ->
       write_reply L E F s (Ino fh) args rep s').
Proof.
  intros Hsv Hre Hfh Hi HL Hsh Ho Hc Hmax.
  apply (wp_WRITE L E retry F s args fh (fun rep s' => (~ live F fh -> _) /\ (live F fh -> _ -> _) /\
    (live F fh -> _ -> _ -> _))); [done..| | |].
  - intros s' Hd Hsv' Hsim. split_and!; [done|by intros|by intros].
  - intros s' Hl Hk Hsv' Hsim. split_and!; [by intros|done|]. intros _ Hk' Hlt. destruct Hk; [done|lia].
  - intros rep s' Hl Hk Hlt Hr. split_and!; [by intros| |done]. intros _ [?|?]; [done|lia].
Qed.

(** C12: SETATTR of a live file that is not a directory and whose map ends where
    its size does: when the reply says OK, the file has the size that was
    asked for, or its old one, and each time is the client's, the server's or
    the old one, as asked for, and its other attributes are as they were. The
    bytes below block [n] are unchanged and those from it on read as zeros,
    where [n] is the end of the new size when the file grows and when it loses
    blocks that fit a transaction together with the index blocks over them.
    When the file loses more blocks than a transaction has room for, beside the
    inode, [n] is the old end and a shrinker thread is started for the file; in
    every other case none is. In between, a few blocks may stay mapped, when
    those that were freed filled the transaction. No other file changes, and
    the reply has the attributes that are on stable storage. The other reply,
    when the commit fails, is SERVERFAULT; a dead handle gets STALE, without an
    effect. *)
Theorem SETATTR_spec F s args fh : let new := SETATTR3args_New_attributes args in
  server L E F s -> retry <> 0%nat -> MakeFh (SETATTR3args_Object args) = Ok fh ->
  ino_ok (disk_of s) (Ino fh) -> Ino fh ∉ L -> i_Kind (F (Ino fh)) <> NF3DIR -> is_shrinking (F (Ino fh)) = false ->
  is_u64 (Set_size3_Size (Sattr3_Size new)) -> time_wf (Set_atime_Atime (Sattr3_Atime new)) ->
  time_wf (Set_mtime_Mtime (Sattr3_Mtime new)) ->
  util_RoundUp (i_Size (F (Ino fh))) BlockSize <= MaxBlks ->
  trimmed_file (F (Ino fh)) (disk_of s) (util_RoundUp (i_Size (F (Ino fh))) BlockSize) ->
  exists rep s', NFSPROC3_SETATTR retry args s = Ok (rep, s') /\
    (~ live F fh -> rep = mkSETATTR3res NFS3ERR_STALE zero zero /\ server L E F s' /\ sim (disk_of s) (disk_of s')) /\
    (live F fh -> setattr_reply L E F s (Ino fh) new rep s').
Proof.
  intros new Hsv Hre Hfh Hi HL Hkd Hsh Hsz Hw1 Hw2 Hmax Ht.
  apply (wp_SETATTR L E retry F s args fh (fun rep s' => (~ live F fh -> _) /\ (live F fh -> _))); [done..| |].
  - intros s' Hd Hsv' Hsim. split; [done|by intros].
  - intros rep s' Hl Hr. split; [by intros|done].
Qed.

(** C40: REMOVE and RMDIR of the names "." and ".." crash the server, in every
    state and for every handle: [doRemove] returns a nil transaction with its
    error, and the error path aborts it. *)
Theorem REMOVE_dot_panics s dfh name : name = str "." \/ name = str ".." ->
  NFSPROC3_REMOVE retry (mkREMOVE3args (mkDiropargs3 dfh name)) s = Panic /\
  NFSPROC3_RMDIR retry (mkRMDIR3args (mkDiropargs3 dfh name)) s = Panic.
Proof. intros [-> | ->]; done. Qed.
End claims.

(** ** On the sample server *)

(** It has no directory. *)
Definition no_dirs : Z -> list dirEnt := fun _ => [].

Lemma file_vol_kind i : i_Kind (file_vol i) <> NF3DIR.
Proof.
  unfold file_vol. destruct (decide (i = 2)) as [->|Hne].
  - rewrite fn_lookup_insert. discriminate.
  - rewrite fn_lookup_insert_ne by (by intros <-). discriminate.
Qed.

Lemma file_dirs a : dirs_ok no_dirs file_vol a.
Proof.
  split; intros i.
  - intros _ Hk. by apply file_vol_kind in Hk.
  - intros _ j k e e' Hj. discriminate Hj.
  - intros e _ He. by apply not_elem_of_nil in He.
  - done.
Qed.

Lemma file_used : ~ (2 : Z) ∈ ra_nums (a_ialloc (disk_of file_nst)).
Proof. apply (bool_decide_eq_false_1 (_ ∈ _)). by vm_compute. Qed.

Lemma file_vol_spare i : i <> 2 -> spare (file_vol i).
Proof. intros Hi. unfold file_vol. by rewrite fn_lookup_insert_ne. Qed.

Lemma file_free : free_ok file_vol (alloc_free (a_ialloc (disk_of file_nst))).
Proof.
  intros i Hi. apply file_vol_spare. intros ->.
  change (alloc_free (a_ialloc (disk_of file_nst))) with
    (list_to_set (ra_list (a_ialloc (disk_of file_nst))) : gset Z) in Hi.
  apply ra_free_spec in Hi as [_ Hi]. exact (file_used Hi).
Qed.

Lemma file_server : server ∅ no_dirs file_vol file_nst.
Proof.
  destruct file_srv_ok as [Hs Hv]. split; [exact Hs|exact Hv| |exact (file_dirs _)| |exact file_free].
  2: { intros i p ip dc Hr Hp. exfalso. clear -Hp. change (f_heap _) with (∅ : gmap Z Inode) in Hp.
    by rewrite lookup_empty in Hp. }
  intros i _. unfold file_vol. destruct (decide (i = 2)) as [->|Hne].
  - rewrite fn_lookup_insert. intros _. discriminate.
  - rewrite fn_lookup_insert_ne by (by intros <-). intros Hk. destruct Hk; reflexivity.
Qed.

Lemma file_nst_ino : ino_ok (disk_of file_nst) 2.
Proof. unfold disk_of. apply ino_Begin. exact file_ino. Qed.

Lemma file_live : live file_vol (mkFh 2 1).
Proof. unfold live. change (Ino (mkFh 2 1)) with 2. rewrite file_vol_2. done. Qed.

Lemma GETATTR_spec_witness : exists rep s', NFSPROC3_GETATTR (mkGETATTR3args file_fh) file_nst = Ok (rep, s') /\
  GETATTR3res_Resok rep = mkGETATTR3resok (MkFattr empty_file).
Proof.
  destruct (GETATTR_spec ∅ no_dirs file_vol file_nst (mkGETATTR3args file_fh) (mkFh 2 1) file_server file_fh_ok
    file_nst_ino (not_elem_of_empty 2)) as (rep & s' & Hr & _ & Hl).
  destruct (Hl file_live) as [Ha _]. change (Ino (mkFh 2 1)) with 2 in Ha. rewrite file_vol_2 in Ha.
  exists rep, s'. exact (conj Hr Ha).
Defined.

Lemma READ_spec_witness : exists rep s', NFSPROC3_READ (mkREAD3args file_fh 0 10) file_nst = Ok (rep, s') /\
  READ3resok_Eof (READ3res_Resok rep) = true.
Proof.
  destruct (READ_spec ∅ no_dirs file_vol file_nst (mkREAD3args file_fh 0 10) (mkFh 2 1) file_server file_fh_ok
    file_nst_ino (not_elem_of_empty 2)) as (rep & s' & Hr & _ & _ & Hl).
  - change (Ino (mkFh 2 1)) with 2. rewrite file_vol_2. vm_compute. discriminate.
  - simpl. lia.
  - simpl. lia.
  - simpl. lia.
  - pose proof (rr_eof _ _ _ _ _ _ _ _ _ (Hl file_live ltac:(change (Ino (mkFh 2 1)) with 2; by rewrite file_vol_2))) as He.
    change (Ino (mkFh 2 1)) with 2 in He. rewrite file_vol_2 in He. exists rep, s'. exact (conj Hr He).
Defined.

Lemma WRITE_spec_witness : exists rep s',
  NFSPROC3_WRITE 1 (mkWRITE3args file_fh 100 5 UNSTABLE hello) file_nst = Ok (rep, s') /\
  write_reply ∅ no_dirs file_vol file_nst 2 (mkWRITE3args file_fh 100 5 UNSTABLE hello) rep s'.
Proof.
  destruct (WRITE_spec ∅ no_dirs 1 file_vol file_nst (mkWRITE3args file_fh 100 5 UNSTABLE hello) (mkFh 2 1)
    file_server ltac:(discriminate) file_fh_ok file_nst_ino (not_elem_of_empty 2)) as (rep & s' & Hr & _ & _ & Hl).
  - change (Ino (mkFh 2 1)) with 2. rewrite file_vol_2. by vm_compute.
  - simpl. lia.
  - split; [simpl; lia|by vm_compute].
  - by vm_compute.
  - exists rep, s'. split; [exact Hr|].
    apply (Hl file_live); [change (Ino (mkFh 2 1)) with 2; by rewrite file_vol_2|by vm_compute].
Defined.

(** A size of 5 and the server's time. *)
Definition grow_file : SETATTR3args := mkSETATTR3args file_fh
  (mkSattr3 zero zero zero (mkSet_size3 true 5) zero (mkSet_mtime SET_TO_SERVER_TIME zero)) zero.

Lemma SETATTR_spec_witness : exists rep s', NFSPROC3_SETATTR 1 grow_file file_nst = Ok (rep, s') /\
  setattr_reply ∅ no_dirs file_vol file_nst 2 (SETATTR3args_New_attributes grow_file) rep s'.
Proof.
  destruct (SETATTR_spec ∅ no_dirs 1 file_vol file_nst grow_file (mkFh 2 1) file_server ltac:(discriminate) file_fh_ok
    file_nst_ino (not_elem_of_empty 2)) as (rep & s' & Hr & _ & Hl).
  - change (Ino (mkFh 2 1)) with 2. rewrite file_vol_2. discriminate.
  - change (Ino (mkFh 2 1)) with 2. rewrite file_vol_2. by vm_compute.
  - unfold is_u64. simpl. lia.
  - repeat split; by vm_compute.
  - repeat split; by vm_compute.
  - change (Ino (mkFh 2 1)) with 2. rewrite file_vol_2. by vm_compute.
  - change (Ino (mkFh 2 1)) with 2. rewrite file_vol_2. intros x _ _. exact (empty_map_fptr empty_file _ x eq_refl).
  - exists rep, s'. exact (conj Hr (Hl file_live)).
Defined.

Lemma REMOVE_dot_panics_witness :
  NFSPROC3_REMOVE 1 (mkREMOVE3args (mkDiropargs3 file_fh (str "."))) file_nst = Panic /\
  NFSPROC3_RMDIR 1 (mkRMDIR3args (mkDiropargs3 file_fh (str "."))) file_nst = Panic.
Proof. apply (REMOVE_dot_panics 1 file_nst file_fh (str ".")). by left. Defined.
