(* ===== verification/Mkfs.v ===== *)
(** Making and mounting a file system ([nfs/nfs.go]). *)
From S2P Require Import Prelude Nfstypes External Reference Super Fh Cache Dcache Alloctxn Inode.
From S2P Require Import Fstxn Dir Shrinker.

Section mkfs.
Context `{!Common} `{!Util} `{!Marshal} `{!Buf} `{!Journal} `{!AllocPkg} `{!LockPkg}
  `{!Clock} `{!DiskPkg} `{!BufDisk}.

(** [for bn := lo; bn < hi; bn++ { blk[bn/8] |= 1 << (bn%8) }], [n] times. *)
Fixpoint set_bits (n : nat) (bn : Z) (blk : list Z) : res (list Z) :=
  match n with
  | O => mret blk
  | S n =>
      let byte := bn / 8 in
      let bit := bn mod 8 in
      b ← idx blk byte;
      blk ← setidx blk byte (Z.lor b (w8 (Z.shiftl 1 bit)));
      set_bits n (bn +w 1) blk
  end.

Definition markAlloc (sp : FsSuper) (n m : Z) (d : Disk) : res Disk :=
  if (NBITBLOCK <=? n) || (NBITBLOCK *w NBlockBitmap sp <=? m) || (m <? n) then Panic
  else
    blk ← set_bits (Z.to_nat n) 0 (zeros BlockSize);
    let d := disk_Write d (BitmapBlockStart sp) blk in
    let blkno := m / NBITBLOCK +w BitmapBlockStart sp in
    let blk1 := if BitmapBlockStart sp <? blkno then zeros BlockSize else blk in
    let bn := m mod NBITBLOCK in
    blk1 ← set_bits (Z.to_nat (NBITBLOCK - bn)) bn blk1;
    let d := disk_Write d blkno blk1 in
    let blk2 := zeros BlockSize in
    b ← idx blk2 0;
    blk2 ← setidx blk2 0 (Z.lor b 1);
    b ← idx blk2 0;
    blk2 ← setidx blk2 0 (Z.lor b 2);
    mret (disk_Write d (BitmapInodeStart sp) blk2).

(** The inode [MkRootInode] makes, at clock reading [tick]. *)
Definition root_inode (a : ASt) : res Inode :=
  match MkRootInode (zero_inode, a) with
  | Ok (_, (ip, _)) => Ok ip
  | Panic => Panic
  | Blocked => Blocked
  | NoFuel => NoFuel
  end.

Definition makeFs (sp : FsSuper) (a : ASt) (d : Disk) : res Disk :=
  root ← root_inode a;
  let raddr := Inum2Addr sp ROOTINUM in
  rootblk ← Encode root;
  let d := buf_WriteDirect d raddr (INODESZ * 8) rootblk in
  markAlloc sp (DataStart sp) (MaxBnum sp) d.

Definition readRootInode (sp : FsSuper) (d : Disk) : res Inode :=
  let addr := Inum2Addr sp ROOTINUM in
  let blk := disk_Read d (Blkno addr) in
  let data := buf_MkBufLoad addr (INODESZ * 8) blk in
  Decode data ROOTINUM.

Definition makeRootDir : M NSt unit :=
  _ ← on_fs FsBegin;
  ip ← on_fs (GetInodeInumFree ROOTINUM);
  _ ← on_fs (MkRootDir ip);
  ok ← on_fs Commit;
  if negb ok then panic else mret tt.

(** [MakeNfs]: the log is made first and [makeFs] writes to the disk under it. *)
Definition MakeNfs (d : Disk) : res (Disk * NSt) :=
  let sp := MkFsSuper d in
  let log := obj_MkLog d in
  i ← readRootInode sp d;
  let a := mkASt sp log (MkAlloc []) (MkAlloc []) (jrnl_Begin log) [] [] [] [] 0 in
  d ← (if bool_decide (i_Kind i = 0) then makeFs sp a d else mret d);
  let st := MkFsState sp d (obj_on_disk log d) in
  let nfs := MkShrinkerSt st true in
  if bool_decide (i_Kind i = 0) then
    match makeRootDir nfs with
    | Ok (_, nfs) => mret (d, nfs)
    | Panic => Panic
    | Blocked => Blocked
    | NoFuel => NoFuel
    end
  else mret (d, nfs).

(** [obj.Log.Shutdown], which waits for the daemons of the log. *)
Variable obj_Shutdown : Log -> Log.

Definition ShutdownNfs : M NSt unit :=
  _ ← Shutdown;
  on_fs (on_a (modify (fun a => set_log (obj_Shutdown (a_log a)) a))).

(** The method [Crash] of the server: the shrinker first. *)
Definition CrashNfs : M NSt unit :=
  _ ← Crash;
  ShutdownNfs.
End mkfs.
