(* ===== verification/MkfsSpec.v ===== *)
(** Making a file system on a blank disk ([nfs/nfs.go]): the bitmaps and the
    root inode that [makeFs] writes, the server mounted on them, and the root
    directory that the first transaction makes. *)
From stdpp Require Import functions.
From S2P Require Import Prelude Nfstypes External Reference Super Fh Cache Dcache Alloctxn AtxnCommit Inode.
From S2P Require Import InodeCodec InodeMap InodeIO InodeBound Volume Fstxn FstxnInv Dir DirSpec DirVol Shrinker Sample.
From S2P Require Import NfsFiles NfsDirs NfsNames NfsCreate NfsMkdir Mkfs.

(** ** Bits of a block *)

Definition bit_of (blk : list Z) (k : Z) : bool := Z.testbit (default 0 (blk !! Z.to_nat (k / 8))) (k mod 8).

Lemma bit_of_zeros n k : bit_of (zeros n) k = false.
Proof.
  unfold bit_of, zeros. destruct (replicate _ 0 !! _) as [z|] eqn:Hz; [|apply Z.testbit_0_l].
  apply lookup_replicate in Hz as [-> _]. apply Z.testbit_0_l.
Qed.

Lemma one_bit b j : 0 <= b < 8 -> 0 <= j < 8 -> Z.testbit (w8 (Z.shiftl 1 b)) j = bool_decide (j = b).
Proof.
  intros Hb Hj. unfold w8. rewrite Z.shiftl_mul_pow2, Z.mul_1_l by lia.
  rewrite Z.mod_small by (split; [apply Z.pow_nonneg; lia|apply Z.pow_lt_mono_r; lia]).
  rewrite Z.pow2_bits_eqb by lia. destruct (Z.eqb_spec b j); [by rewrite bool_decide_eq_true_2|by rewrite bool_decide_eq_false_2 by lia].
Qed.

Lemma div_mod_eq k bn : k / 8 = bn / 8 -> k mod 8 = bn mod 8 -> k = bn.
Proof. intros Hd Hm. rewrite (Z.div_mod k 8), (Z.div_mod bn 8), Hd, Hm by lia. done. Qed.

(** Setting bit [bn]. *)
Lemma set_bit_eq blk bn b k : 0 <= bn -> 0 <= k -> blk !! Z.to_nat (bn / 8) = Some b ->
  bit_of (<[Z.to_nat (bn / 8) := Z.lor b (w8 (Z.shiftl 1 (bn mod 8)))]> blk) k = bool_decide (k = bn) || bit_of blk k.
Proof.
  intros Hbn Hk Hb. pose proof (Z.mod_pos_bound bn 8). pose proof (Z.mod_pos_bound k 8).
  pose proof (Z.div_pos bn 8). pose proof (Z.div_pos k 8).
  unfold bit_of. destruct (decide (k / 8 = bn / 8)) as [Heq|Hne].
  - rewrite Heq, list_lookup_insert_eq by (by eapply lookup_lt_Some). rewrite Hb. simpl.
    rewrite Z.lor_spec, one_bit, orb_comm by lia. f_equal. apply bool_decide_ext.
    split; [by apply div_mod_eq|by intros ->].
  - rewrite list_lookup_insert_ne by lia. rewrite bool_decide_eq_false_2; [done|by intros ->].
Qed.

Lemma set_bits_spec n bn blk : 0 <= bn -> bn + Z.of_nat n <= 8 * len blk -> 8 * len blk < 2 ^ 64 ->
  exists blk', set_bits n bn blk = Ok blk' /\ len blk' = len blk /\
    forall k, 0 <= k -> bit_of blk' k = bool_decide (bn <= k < bn + Z.of_nat n) || bit_of blk k.
Proof.
  revert bn blk. induction n as [|n IH]; intros bn blk Hbn Hlen Hmax.
  - exists blk. split_and!; [done..|]. intros k _. by rewrite bool_decide_eq_false_2 by lia.
  - cbn [set_bits]. assert (0 <= bn / 8 < len blk) as Hi.
    { split; [apply Z.div_pos; lia|apply Z.div_lt_upper_bound; lia]. }
    destruct (idx_lt blk (bn / 8) Hi) as [b Hb]. rewrite Hb. simpl. rewrite setidx_Ok by done. simpl.
    apply idx_Ok in Hb as [_ Hb]. rewrite w64_small by lia.
    set (blk1 := <[_ := _]> blk). assert (len blk1 = len blk) as Hl1 by (unfold blk1, len; by rewrite length_insert).
    destruct (IH (bn + 1) blk1) as (blk' & Hr & Hl & Hbits); [lia|lia|lia|].
    exists blk'. split; [done|]. split; [congruence|]. intros k Hk. rewrite Hbits by done.
    unfold blk1. rewrite set_bit_eq by done. rewrite orb_assoc. f_equal.
    rewrite <-bool_decide_or. apply bool_decide_ext. lia.
Qed.

(** ** The bitmaps on disk *)

Section bitmaps.
Context `{!Common} `{!CommonSpec} `{!DiskPkg} `{!DiskSpec}.

Lemma read_blocks_len n d a : len (read_blocks n d a) = 4096 * Z.of_nat n.
Proof.
  revert a. induction n as [|n IH]; intros a; [done|]. cbn [read_blocks].
  rewrite len_app, disk_Read_length, BlockSize_eq, IH. lia.
Qed.

Lemma read_blocks_lookup n d a i : 0 <= i < 4096 * Z.of_nat n -> 0 <= a -> a + Z.of_nat n < 2 ^ 64 ->
  read_blocks n d a !! Z.to_nat i = disk_Read d (a + i / 4096) !! Z.to_nat (i mod 4096).
Proof.
  revert a i. induction n as [|n IH]; intros a i Hi Ha Hmax; [lia|]. cbn [read_blocks].
  pose proof (disk_Read_length d a) as Hl. rewrite BlockSize_eq in Hl. unfold len in Hl.
  destruct (decide (i < 4096)) as [Hlt|Hge].
  - rewrite lookup_app_l by lia. by rewrite Z.div_small, Z.mod_small, Z.add_0_r by lia.
  - rewrite lookup_app_r by lia. replace (Z.to_nat i - length (disk_Read d a))%nat with (Z.to_nat (i - 4096)) by lia.
    rewrite w64_small by lia. rewrite IH by lia.
    assert (i / 4096 = (i - 4096) / 4096 + 1) as ->.
    { replace i with (i - 4096 + 1 * 4096) at 1 by lia. by rewrite Z.div_add. }
    assert (i mod 4096 = (i - 4096) mod 4096) as ->.
    { replace i with (i - 4096 + 1 * 4096) at 1 by lia. by rewrite Z.mod_add. }
    by replace (a + ((i - 4096) / 4096 + 1)) with (a + 1 + (i - 4096) / 4096) by lia.
Qed.

(** Bit [k] of [n] blocks. *)
Lemma bit_read_blocks n d a k : 0 <= k < 32768 * Z.of_nat n -> 0 <= a -> a + Z.of_nat n < 2 ^ 64 ->
  bit_of (read_blocks n d a) k = bit_of (disk_Read d (a + k / 32768)) (k mod 32768).
Proof.
  intros Hk Ha Hmax. unfold bit_of.
  assert (k / 8 / 4096 = k / 32768) as Hd by (by rewrite Z.div_div).
  pose proof (Z.rem_mul_r k 8 4096 ltac:(lia) ltac:(lia)) as Hm. change (8 * 4096) with 32768 in Hm.
  pose proof (Z.mod_pos_bound k 8).
  assert (k mod 32768 / 8 = k / 8 mod 4096) as ->.
  { rewrite Hm, Z.mul_comm, Z.div_add, (Z.div_small (k mod 8)) by lia. lia. }
  assert (k mod 32768 mod 8 = k mod 8) as ->.
  { rewrite Hm, Z.mul_comm, Z.mod_add, Z.mod_small by lia. done. }
  rewrite read_blocks_lookup, Hd; [done| |done|done].
  pose proof (Z.div_pos k 8). split; [lia|]. apply Z.div_lt_upper_bound; lia.
Qed.

(** *** What [markAlloc] writes *)

Lemma zeros_block : len (zeros BlockSize) = 4096.
Proof. rewrite BlockSize_eq. by rewrite len_zeros. Qed.

(** The bitmaps of a file system of [m] blocks whose first [n] are in use, and
    the other blocks as in [d]. *)
Record marked sp (n m : Z) d d' : Prop := {
  mk_Size : disk_Size d' = disk_Size d;
  mk_blocks : forall k, 0 <= k < 32768 * NBlockBitmap sp ->
    bit_of (disk_Read d' (BitmapBlockStart sp + k / 32768)) (k mod 32768) = bool_decide (k < n \/ m <= k);
  mk_inums : forall k, 0 <= k < 32768 * NINODEBITMAP ->
    bit_of (disk_Read d' (BitmapInodeStart sp + k / 32768)) (k mod 32768) = bool_decide (k < 2);
  mk_rest : forall b, InodeStart sp <= b -> disk_Read d' b = disk_Read d b;
}.

Lemma two_bits {A} (blk : list Z) (kont : list Z -> res A) :
  (b ← idx blk 0; blk ← setidx blk 0 (Z.lor b 1); b ← idx blk 0; blk ← setidx blk 0 (Z.lor b 2); kont blk) =
  (blk ← set_bits 2 0 blk; kont blk).
Proof.
  cbn [set_bits]. change (w64 (0 + 1)) with 1. change (1 / 8) with 0. change (0 / 8) with 0.
  change (w8 (Z.shiftl 1 (0 mod 8))) with 1. change (w8 (Z.shiftl 1 (1 mod 8))) with 2.
  destruct (idx blk 0) as [b| | |]; simpl; [|done..]. destruct (setidx blk 0 _) as [blk1| | |]; simpl; [|done..].
  destruct (idx blk1 0) as [b1| | |]; simpl; [|done..]. by destruct (setidx blk1 0 _).
Qed.

Section mark.
Context (sp : FsSuper) (n m : Z) (d : Disk).
Hypothesis Hl : layout_ok sp.
Hypothesis Hn : 0 < n < 32768.
Hypothesis Hm : n <= m.
Hypothesis Hsize : m = disk_Size d.
Hypothesis Hmax : m = Size sp.
Hypothesis Hdata : InodeStart sp <= m.
Hypothesis Hblank : forall b, BitmapBlockStart sp <= b < InodeStart sp -> disk_Read d b = zeros 4096.

Lemma markAlloc_spec : exists d', markAlloc sp n m d = Ok d' /\ marked sp n m d d'.
Proof.
  pose proof (layout_bounds sp Hl) as (Hlog & Hnb & Hni). pose proof (InodeStart_eq sp Hl) as Hist.
  pose proof (BitmapBlockStart_eq sp Hl) as Hbs. pose proof (BitmapInodeStart_eq sp Hl) as His.
  pose proof (proj1 Hl) as Hsz. assert (NBlockBitmap sp = m / 32768 + 1) as Hnbb by (rewrite Hmax; apply Hl).
  pose proof (Z.div_pos m 32768). pose proof (Z.mod_pos_bound m 32768). pose proof (Z.div_mod m 32768).
  set (q := m / 32768) in *. set (r := m mod 32768) in *.
  unfold markAlloc. csimp. change (zeros 4096) with (zeros 4096). fold q r.
  rewrite (proj2 (Z.leb_gt 32768 n)) by lia. rewrite (w64_small (32768 * NBlockBitmap sp)) by lia.
  rewrite (proj2 (Z.leb_gt (32768 * NBlockBitmap sp) m)) by lia. rewrite (proj2 (Z.ltb_ge m n)) by lia. cbn [orb].
  destruct (set_bits_spec (Z.to_nat n) 0 (zeros 4096)) as (blk & Hblk & Hlen & Hbits);
    [lia|rewrite len_zeros by lia; lia|rewrite len_zeros by lia; lia|].
  rewrite len_zeros in Hlen by lia. rewrite Hblk. cbn [mbind res_bind]. rewrite (w64_small (q + BitmapBlockStart sp)) by lia.
  set (blk1 := if BitmapBlockStart sp <? q + BitmapBlockStart sp then zeros 4096 else blk).
  assert (len blk1 = 4096) as Hl1 by (unfold blk1; destruct (_ <? _); [by rewrite len_zeros|done]).
  destruct (set_bits_spec (Z.to_nat (32768 - r)) r blk1) as (blk2 & Hblk2 & Hlen2 & Hbits2); [lia|lia|lia|].
  rewrite Hblk2. cbn [mbind res_bind]. rewrite two_bits.
  destruct (set_bits_spec 2 0 (zeros 4096)) as (blk3 & Hblk3 & Hlen3 & Hbits3);
    [lia|rewrite len_zeros by lia; lia|rewrite len_zeros by lia; lia|].
  rewrite len_zeros in Hlen3 by lia. rewrite Hblk3. cbn [mbind res_bind]. eexists. split; [done|].
  assert (forall (d : Disk) b x b', len x = 4096 -> 0 <= b < m -> disk_Size d = m ->
    disk_Read (disk_Write d b x) b' = if bool_decide (b' = b) then x else disk_Read d b') as Hrw.
  { intros d0 b x b' Hx Hb Hd0. apply disk_Read_Write; [by rewrite BlockSize_eq|by rewrite Hd0]. }
  set (d1 := disk_Write d (BitmapBlockStart sp) blk). set (d2 := disk_Write d1 (q + BitmapBlockStart sp) blk2).
  assert (disk_Size d1 = m) as Hd1 by (unfold d1; by rewrite disk_Write_Size).
  assert (disk_Size d2 = m) as Hd2 by (unfold d2; by rewrite disk_Write_Size).
  assert (forall b, BitmapInodeStart sp <= b -> disk_Read d2 b = disk_Read d b) as Hpast.
  { intros b Hb. unfold d2. rewrite Hrw, bool_decide_eq_false_2 by lia. unfold d1.
    by rewrite Hrw, bool_decide_eq_false_2 by lia. }
  split.
  - by rewrite disk_Write_Size, Hd2.
  - intros k Hk. pose proof (Z.mod_pos_bound k 32768). pose proof (Z.div_mod k 32768). pose proof (Z.div_pos k 32768).
    assert (k / 32768 <= q) by (assert (k / 32768 < q + 1); [apply Z.div_lt_upper_bound; lia|lia]).
    rewrite Hrw, bool_decide_eq_false_2 by lia. unfold d2.
    rewrite Hrw by lia. case_bool_decide as Hq.
    + rewrite Hbits2 by lia. rewrite Z2Nat.id by lia. unfold blk1.
      destruct (Z.ltb_spec (BitmapBlockStart sp) (q + BitmapBlockStart sp)).
      * rewrite bit_of_zeros, orb_false_r. apply bool_decide_ext. lia.
      * rewrite Hbits, bit_of_zeros, orb_false_r by lia. rewrite Z2Nat.id by lia.
        rewrite <-bool_decide_or. apply bool_decide_ext. lia.
    + unfold d1. rewrite Hrw by lia. case_bool_decide as Hq0.
      * rewrite Hbits, bit_of_zeros, orb_false_r by lia. rewrite Z2Nat.id by lia. apply bool_decide_ext. lia.
      * rewrite Hblank by lia. rewrite bit_of_zeros. symmetry. apply bool_decide_eq_false_2. lia.
  - intros k Hk. pose proof (Z.mod_pos_bound k 32768). pose proof (Z.div_mod k 32768). pose proof (Z.div_pos k 32768).
    assert (k / 32768 < NINODEBITMAP) by (apply Z.div_lt_upper_bound; lia).
    rewrite Hrw by lia. case_bool_decide as Hq.
    + rewrite Hbits3, bit_of_zeros, orb_false_r by lia. apply bool_decide_ext. lia.
    + rewrite Hpast, Hblank by lia.
      rewrite bit_of_zeros. symmetry. apply bool_decide_eq_false_2. lia.
  - intros b Hb. rewrite Hrw, bool_decide_eq_false_2 by lia. by apply Hpast; lia.
Qed.
End mark.
End bitmaps.

(** ** The inodes *)

Section mkfs.
Context `{!Common} `{!CommonSpec} `{!Util} `{!UtilSpec} `{!Marshal} `{!MarshalSpec} `{!Std}
  `{!Buf} `{!BufSpec} `{!Journal} `{!JournalSpec} `{!AllocPkg} `{!AllocSpec}
  `{!LockPkg} `{!LockSpec} `{!Clock} `{!DiskPkg} `{!DiskSpec} `{!BufDisk} `{!BufDiskSpec}.

Lemma free_inode_bytes i : inode_bytes (free_inode i) = zeros 128.
Proof.
  unfold inode_bytes. simpl. rewrite !u64_le_zero, !u32_le_zero. unfold zeros. simpl. done.
Qed.

(** The root inode that [makeFs] encodes. *)
Definition root0 a : Inode :=
  made ROOTINUM NF3DIR (time_at (a_tick a)) (time_at (S (a_tick a))) (with_blks (zeros NBLKINO) zero_inode).

Lemma root_inode_eq a : root_inode a = Ok (root0 a).
Proof. done. Qed.

Lemma root0_wf a : inode_wf (root0 a).
Proof.
  apply made_wf; [|done|apply time_at_wf..]. split; simpl; unfold time_wf, is_u32, is_u64; simpl; try lia; try done.
  by apply (zeros_wf (with_blks (zeros NBLKINO) zero_inode)).
Qed.

(** The files of a new file system. *)
Definition new_files (root : Inode) : Z -> Inode := <[ROOTINUM := root]> free_inode.

Section new_files.
Context (root : Inode).

Lemma new_files_root : new_files root ROOTINUM = root.
Proof. apply fn_lookup_insert. Qed.

Lemma new_files_ne i : i <> ROOTINUM -> new_files root i = free_inode i.
Proof. intros Hi. unfold new_files. by rewrite fn_lookup_insert_ne. Qed.

Hypothesis Hkind : i_Kind root = NF3DIR.
Hypothesis Hlink : i_Nlink root = 1.
Hypothesis Hsize : i_Size root = 0.

Lemma new_dirs a : vol_ok (new_files root) a -> dirs_ok (fun _ => []) (new_files root) a.
Proof.
  intros Hv. split; [|intros i _ j k e e' Hj; done|intros i e _ He; by apply not_elem_of_nil in He|done].
  intros i Hi Hk. assert (i = ROOTINUM) as ->.
  { destruct (decide (i = ROOTINUM)) as [|Hne]; [done|]. rewrite new_files_ne in Hk by done. done. }
  split; [by apply (vol_file_ok _ _ _ Hv)|done|..]; rewrite ?new_files_root, ?Hsize; [done| |intros k; lia|constructor|done].
  rewrite MaxFileSize_eq. lia.
Qed.

(** A server with the root directory and nothing else. *)
Lemma new_server_ok f unst : srv_inv ∅ f -> vol_ok (new_files root) (Begin (f_a f)) -> f_heap f = ∅ ->
  ROOTINUM ∉ alloc_free (a_ialloc (f_a f)) ->
  server ∅ (fun _ => []) (new_files root) (MkShrinkerSt f unst).
Proof.
  intros Hs Hv Hh Hr. split; [exact Hs|exact Hv| |exact (new_dirs _ Hv)|..].
  - intros i _. destruct (decide (i = ROOTINUM)) as [->|Hne]; [by rewrite new_files_root; intros _; rewrite Hlink|].
    rewrite new_files_ne by done. intros Hk. done.
  - intros i p ip dc _ Hp. change (f_heap f !! p = Some ip) in Hp. by rewrite Hh in Hp.
  - intros i Hi. change (i ∈ alloc_free (a_ialloc (f_a f))) in Hi.
    rewrite new_files_ne by (intros ->; by apply Hr). by split.
Qed.
End new_files.

Definition blank d : Prop := forall b, disk_Read d b = zeros 4096.

(** The bytes of inode [i] on the disk. *)
Definition disk_iobj sp d i : list Z :=
  take 128 (drop (Z.to_nat (Off (Inum2Addr sp i) / 8)) (disk_Read d (Blkno (Inum2Addr sp i)))).

(** The disk after [makeFs]. *)
Record formatted sp root d : Prop := {
  fm_blocks : forall k, 0 <= k < 32768 * NBlockBitmap sp ->
    bit_of (disk_Read d (BitmapBlockStart sp + k / 32768)) (k mod 32768) =
      bool_decide (k < DataStart sp \/ MaxBnum sp <= k);
  fm_inums : forall k, 0 <= k < 32768 * NINODEBITMAP ->
    bit_of (disk_Read d (BitmapInodeStart sp + k / 32768)) (k mod 32768) = bool_decide (k < 2);
  fm_inode : forall i, 0 <= i < NInode sp -> disk_iobj sp d i = inode_bytes (new_files root i);
  fm_data : forall b, DataStart sp <= b -> disk_Read d b = zeros 4096;
}.

Lemma Inum2Addr_8 sp i : layout_ok sp -> 0 <= i < NInode sp ->
  Blkno (Inum2Addr sp i) = InodeStart sp + i / 32 /\ Off (Inum2Addr sp i) = 8 * (128 * (i mod 32)).
Proof.
  intros Hl Hi. pose proof (layout_bounds sp Hl). rewrite (NInode_eq sp Hl) in Hi.
  rewrite (Inum2Addr_eq sp Hl) by lia. simpl. split; [done|lia].
Qed.

Lemma drop_take_zeros n m : (n + 128 <= m)%nat -> take 128 (drop n (zeros (Z.of_nat m))) = zeros 128.
Proof.
  intros Hm. unfold zeros. rewrite drop_replicate, take_replicate. f_equal. lia.
Qed.

Lemma makeFs_spec d a : let sp := MkFsSuper d in blank d -> DataStart sp < 32768 -> DataStart sp <= disk_Size d ->
  exists d', makeFs sp a d = Ok d' /\ disk_Size d' = disk_Size d /\ formatted sp (root0 a) d'.
Proof.
  intros sp Hb Hds Hsz. pose proof (MkFsSuper_layout d : layout_ok sp) as Hl.
  pose proof (layout_order sp Hl) as (Ho1 & Ho2 & Ho3). pose proof (layout_bounds sp Hl) as (Hlog & _ & Hni).
  assert (MaxBnum sp = disk_Size d) as Hmx by done.
  assert (0 <= ROOTINUM < NInode sp) as Hroot by (rewrite ROOTINUM_eq, (NInode_eq sp Hl); lia).
  pose proof (Inum2Addr_8 sp ROOTINUM Hl Hroot) as [Hrb Hro]. rewrite ROOTINUM_eq in Hrb, Hro.
  change (1 / 32) with 0 in Hrb. change (8 * (128 * (1 mod 32))) with 1024 in Hro.
  pose proof (inode_bytes_len (root0 a) eq_refl) as Hrl. rewrite INODESZ_eq in Hrl.
  unfold makeFs. rewrite root_inode_eq. cbn [mbind res_bind]. rewrite (Encode_eq (root0 a)) by done. cbn [mbind res_bind].
  rewrite ROOTINUM_eq.
  rewrite WriteDirect_eq; rewrite ?Hro, ?INODESZ_eq, ?NBITBLOCK_eq; [|done|lia|lia|lia].
  rewrite Hrb, Z.add_0_r, Hb. change (Z.to_nat (1024 / 8)) with 128%nat.
  set (blk := splice (zeros 4096) 128 (inode_bytes (root0 a))).
  assert (length (inode_bytes (root0 a)) = 128%nat) as Hrl' by (unfold len in Hrl; lia).
  assert (len blk = 4096) as Hlb.
  { unfold blk, len. rewrite length_splice; [done|]. rewrite Hrl'. unfold zeros. rewrite length_replicate. lia. }
  set (d1 := disk_Write d (InodeStart sp) blk).
  rewrite (BitmapBlockStart_eq sp Hl) in Ho1.
  assert (forall b, disk_Read d1 b = if bool_decide (b = InodeStart sp) then blk else zeros 4096) as Hd1.
  { intros b. unfold d1. rewrite disk_Read_Write; [by rewrite Hb|by rewrite BlockSize_eq|lia]. }
  destruct (markAlloc_spec sp (DataStart sp) (MaxBnum sp) d1 Hl) as (d' & Hr & [Hs Hbl Hin Hrest]);
    [lia|lia|unfold d1; by rewrite disk_Write_Size|done|lia| |].
  { intros b Hbb. rewrite Hd1, bool_decide_eq_false_2 by lia. done. }
  exists d'. split; [exact Hr|]. split; [rewrite Hs; unfold d1; apply disk_Write_Size|].
  split; [done|done| |].
  - intros i Hi. unfold disk_iobj. destruct (Inum2Addr_8 sp i Hl Hi) as [-> ->].
    rewrite Z.mul_comm, Z.div_mul by lia. pose proof (Z.mod_pos_bound i 32). pose proof (Z.div_pos i 32).
    pose proof (Z.div_mod i 32). rewrite Hrest, Hd1 by lia. unfold new_files. rewrite ROOTINUM_eq.
    destruct (decide (i = 1)) as [->|Hne].
    + rewrite fn_lookup_insert. rewrite bool_decide_eq_true_2 by (change (1 / 32) with 0; lia).
      change (Z.to_nat (128 * (1 mod 32))) with 128%nat. unfold blk.
      pose proof (take_drop_splice_eq (zeros 4096) (inode_bytes (root0 a)) 128) as Hts. rewrite Hrl' in Hts.
      apply Hts. unfold zeros. rewrite length_replicate. lia.
    + rewrite fn_lookup_insert_ne, free_inode_bytes by done. case_bool_decide as Hz.
      * unfold blk. rewrite take_drop_splice_ne.
        -- apply (drop_take_zeros _ 4096). lia.
        -- rewrite Hrl'. unfold zeros. rewrite length_replicate. lia.
        -- rewrite Hrl'. lia.
      * apply (drop_take_zeros _ 4096). lia.
  - intros b Hb'. rewrite Hrest, Hd1, bool_decide_eq_false_2 by lia. done.
Qed.

(** ** The server mounted on it *)

Section mounted.
Context (sp : FsSuper) (d0 d : Disk) (root : Inode).
Let lg := obj_on_disk (obj_MkLog d0) d.
Let st := MkFsState sp d lg.
Hypothesis Hlayout : layout_ok sp.
Hypothesis Hfm : formatted sp root d.
Hypothesis Hwf : inode_wf root.
Hypothesis Hnum : i_Inum root = ROOTINUM.
Hypothesis Hkind : i_Kind root = NF3DIR.
Hypothesis Hlink : i_Nlink root = 1.
Hypothesis Hsize : i_Size root = 0.
Hypothesis Hblks : i_blks root = zeros 10.

(** The allocator of a bitmap, and the bits of the log. *)
Lemma mounted_free start n k : 0 <= start -> 0 <= n -> start + n < 2 ^ 64 ->
  k ∈ alloc_free (MkAlloc (readBitmap d start n)) <-> 0 <= k < 32768 * n /\
    bit_of (disk_Read d (start + k / 32768)) (k mod 32768) = false.
Proof.
  intros Hs Hn Hmax. rewrite MkAlloc_free. unfold readBitmap.
  pose proof (read_blocks_len (Z.to_nat n) d start) as Hlen. rewrite Z2Nat.id in Hlen by done. split.
  - intros (b & Hk & Hb & Ht). assert (k / 8 < 4096 * n) as Hlt.
    { apply lookup_lt_Some in Hb. unfold len in Hlen. lia. }
    assert (k < 32768 * n) by (pose proof (Z.div_mod k 8); pose proof (Z.mod_pos_bound k 8); lia).
    split; [lia|]. rewrite <-(bit_read_blocks (Z.to_nat n)) by lia. unfold bit_of. by rewrite Hb.
  - intros [Hk Hb]. rewrite <-(bit_read_blocks (Z.to_nat n)) in Hb by lia. unfold bit_of in Hb.
    destruct (lookup_lt_is_Some_2 (read_blocks (Z.to_nat n) d start) (Z.to_nat (k / 8))) as [b Hbb].
    { assert (k / 8 < 4096 * n) by (apply Z.div_lt_upper_bound; lia). pose proof (Z.div_pos k 8).
      unfold len in Hlen. lia. }
    exists b. rewrite Hbb in Hb. split_and!; [lia|done|done].
Qed.

Lemma mounted_bit start k : 0 <= k -> 
  log_bit lg (MkBitAddr start k) = bit_of (disk_Read d (start + k / 32768)) (k mod 32768).
Proof.
  intros Hk. rewrite MkBitAddr_eq, NBITBLOCK_eq by done. pose proof (Z.mod_pos_bound k 32768) as Hm.
  unfold bit_of. destruct (lookup_lt_is_Some_2 (disk_Read d (start + k / 32768)) (Z.to_nat (k mod 32768 / 8))) as [b Hb].
  { pose proof (disk_Read_length d (start + k / 32768)) as Hl. rewrite BlockSize_eq in Hl. unfold len in Hl.
    assert (k mod 32768 / 8 < 4096) by (apply Z.div_lt_upper_bound; lia).
    pose proof (Z.div_pos (k mod 32768) 8). lia. }
  rewrite Hb. by apply on_disk_bit; [simpl; lia|].
Qed.

Lemma mounted_balloc k : k ∈ alloc_free (a_balloc (f_a st)) <-> valid_blk sp k.
Proof.
  pose proof Hlayout as Hl. pose proof (layout_bounds sp Hl) as (Hlog & Hnb & Hni).
  pose proof (layout_order sp Hl) as (Ho1 & Ho2 & Ho3). pose proof Hl as (Hsz & Hma & _ & Hnbb & _).
  pose proof (BitmapBlockStart_eq sp Hl) as Hbs. unfold st. simpl. rewrite mounted_free by lia.
  unfold valid_blk, MaxBnum. pose proof (Z.div_mod (Size sp) 32768). pose proof (Z.mod_pos_bound (Size sp) 32768).
  split.
  - intros [Hk Hb]. rewrite (fm_blocks _ _ _ Hfm) in Hb by done. apply bool_decide_eq_false in Hb.
    unfold MaxBnum in Hb. lia.
  - intros Hk. assert (0 <= k < 32768 * NBlockBitmap sp) as Hk' by lia. split; [done|].
    rewrite (fm_blocks _ _ _ Hfm) by done. apply bool_decide_eq_false. unfold MaxBnum. lia.
Qed.

Lemma mounted_ialloc k : k ∈ alloc_free (a_ialloc (f_a st)) <-> 1 < k < NInode sp.
Proof.
  pose proof Hlayout as Hl. pose proof (layout_bounds sp Hl) as (Hlog & Hnb & Hni).
  pose proof (layout_order sp Hl) as (Ho1 & Ho2 & Ho3). pose proof (BitmapInodeStart_eq sp Hl) as His.
  assert (NInodeBitmap sp = NINODEBITMAP) as Hnib by apply Hl.
  unfold st. simpl. rewrite Hnib, mounted_free by lia. rewrite (NInode_eq sp Hl). split.
  - intros [Hk Hb]. rewrite (fm_inums _ _ _ Hfm) in Hb by done. apply bool_decide_eq_false in Hb. lia.
  - intros Hk. assert (0 <= k < 32768 * NINODEBITMAP) as Hk' by lia. split; [done|].
    rewrite (fm_inums _ _ _ Hfm) by done. apply bool_decide_eq_false. lia.
Qed.

Lemma mounted_quiet : quiet_inv (f_a st).
Proof.
  pose proof Hlayout as Hl. pose proof (layout_bounds sp Hl) as (Hlog & Hnb & Hni).
  split; [done| |].
  - split; [intros n; by rewrite mounted_balloc| |done|set_solver|done].
    unfold st. simpl. rewrite MkAlloc_max. unfold readBitmap. rewrite read_blocks_len, Z2Nat.id by lia.
    destruct Hl as (Hsz & Hma & _ & -> & _). unfold MaxBnum. rewrite Hma.
    pose proof (Z.div_mod (Size sp) 32768). pose proof (Z.mod_pos_bound (Size sp) 32768). lia.
  - split; [intros n; rewrite mounted_ialloc; unfold valid_inum; simpl; lia| |done|set_solver|done].
    unfold st. simpl. rewrite MkAlloc_max. unfold readBitmap. rewrite read_blocks_len.
    assert (NInodeBitmap sp = NINODEBITMAP) as -> by apply Hl. rewrite Z2Nat.id, (NInode_eq sp Hl) by lia. lia.
Qed.

Lemma mounted_bitmap : bitmap_ok (f_a st).
Proof.
  pose proof Hlayout as Hl. pose proof (layout_bounds sp Hl) as (Hlog & Hnb & Hni).
  pose proof (layout_order sp Hl) as (Ho1 & Ho2 & Ho3). pose proof Hl as (Hsz & Hma & _ & Hnbb & _).
  pose proof (Z.div_mod (Size sp) 32768). pose proof (Z.mod_pos_bound (Size sp) 32768).
  pose proof (BitmapInodeStart_eq sp Hl) as His. pose proof (BitmapBlockStart_eq sp Hl) as Hbs. split.
  - intros b Hb. change (valid_blk sp b) in Hb. unfold valid_blk, MaxBnum in Hb. transitivity (bit_of (disk_Read d (BitmapBlockStart sp + b / 32768)) (b mod 32768)).
    { apply mounted_bit. lia. }
    rewrite (fm_blocks _ _ _ Hfm) by lia.
    apply bool_decide_ext. rewrite mounted_balloc. unfold valid_blk, MaxBnum. lia.
  - intros i Hi. change (valid_inum sp i) in Hi. unfold valid_inum in Hi. rewrite (NInode_eq sp Hl) in Hi. transitivity (bit_of (disk_Read d (BitmapInodeStart sp + i / 32768)) (i mod 32768)).
    { apply mounted_bit. lia. }
    rewrite (fm_inums _ _ _ Hfm) by lia. apply bool_decide_ext. rewrite mounted_ialloc, (NInode_eq sp Hl). lia.
Qed.

Lemma mounted_zero : quiet_zero (f_a st).
Proof.
  intros b Hb%mounted_balloc. pose proof (on_disk_obj d0 d (Block2addr sp b) 4096) as Ho.
  change (log_obj lg (Block2addr sp b) NBITBLOCK = zeros BlockSize). rewrite NBITBLOCK_eq, BlockSize_eq in *.
  etransitivity; [apply Ho; done|]. simpl. rewrite (fm_data _ _ _ Hfm) by (unfold valid_blk in Hb; lia).
  change (drop (Z.to_nat (0 / 8)) (zeros 4096)) with (zeros 4096). apply take_ge. unfold zeros. rewrite length_replicate. lia.
Qed.

Lemma mounted_srv : srv_inv ∅ st.
Proof.
  split; [exact mounted_quiet|exact mounted_bitmap|exact mounted_zero|apply MkCache_inv; vm_compute; done|apply MkLockMap_held|..].
  - intros p [ip Hp]. done.
  - intros i p Hin. by apply not_elem_of_nil in Hin.
Qed.

Lemma mounted_inode i : 0 <= i < NInode sp -> disk_inode (Begin (f_a st)) i (new_files root i).
Proof.
  intros Hi. assert (iobj (Begin (f_a st)) i = inode_bytes (new_files root i)) as Hb.
  { rewrite <-(fm_inode _ _ _ Hfm i Hi). unfold iobj. rewrite Begin_obj. unfold disk_iobj.
    destruct (Inum2Addr_8 sp i Hlayout Hi) as [Hbl Ho]. rewrite INODESZ_eq. pose proof (Z.mod_pos_bound i 32).
    change (log_obj lg (Inum2Addr sp i) 1024 = take (Z.to_nat 128) (drop (Z.to_nat (Off (Inum2Addr sp i) / 8))
      (disk_Read d (Blkno (Inum2Addr sp i))))).
    change 1024 with (8 * 128). apply on_disk_obj; rewrite ?Ho, ?NBITBLOCK_eq; [|lia|lia|lia].
    by rewrite Z.mul_comm, Z.mod_mul. }
  split; [| |exact Hb]; unfold new_files; destruct (decide (i = ROOTINUM)) as [->|Hne];
    rewrite ?fn_lookup_insert, ?fn_lookup_insert_ne by done; [done|apply free_inode_wf|done|done].
Qed.

Lemma new_files_blks i : i_blks (new_files root i) = zeros 10.
Proof.
  unfold new_files. destruct (decide (i = ROOTINUM)) as [->|Hne];
    rewrite ?fn_lookup_insert, ?fn_lookup_insert_ne by done; done.
Qed.

Lemma mounted_vol : vol_ok (new_files root) (Begin (f_a st)).
Proof.
  pose proof mounted_quiet as Hq.
  assert (txn_inv (Begin (f_a st))) as Hinv by (apply (af_inv _ _ (Begin_from _ Hq))).
  split; [done|apply Begin_zero, mounted_zero|exact mounted_inode|..].
  - intros i Hi. split; [by rewrite new_files_blks|..].
    + intros x _. by rewrite zeros_fptr by apply new_files_blks.
    + intros x y _ _ _. by rewrite zeros_fptr by apply new_files_blks.
  - intros i j x y _ _ _ _ _ _. by rewrite zeros_fptr by apply new_files_blks.
Qed.

Lemma mounted_server unst : server ∅ (fun _ => []) (new_files root) (MkShrinkerSt st unst).
Proof.
  apply new_server_ok; [done|done|exact mounted_srv|exact mounted_vol|done|].
  intros Hi%mounted_ialloc. rewrite ROOTINUM_eq in Hi. lia.
Qed.
End mounted.

(** ** The root directory *)

Section rootdir.
Variable L : gset Z.
Implicit Types (E : Z -> list dirEnt) (F : Z -> Inode) (s : NSt).

(** The transaction of [makeRootDir], which panics when it fails. *)
Definition root_txn : M NSt bool :=
  _ ← on_fs FsBegin;
  ip ← on_fs (GetInodeInumFree ROOTINUM);
  _ ← on_fs (MkRootDir ip);
  on_fs Commit.

Lemma makeRootDir_txn s : makeRootDir s = ('(ok, s) ← root_txn s; if ok : bool then Ok (tt, s) else Panic).
Proof.
  unfold makeRootDir, root_txn, mbind, M_bind.
  destruct (on_fs FsBegin s) as [[? s1]| | |]; [|done..].
  destruct (on_fs _ s1) as [[ip s2]| | |]; [|done..].
  destruct (on_fs _ s2) as [[ok s3]| | |]; [|done..].
  by destruct (on_fs _ s3) as [[[] s4]| | |].
Qed.

Definition dots : list dirEnt := dir_dots ROOTINUM ROOTINUM.

Lemma wp_MkRootDir E F a0 f dip (Q : bool -> FSt -> Prop) : changed L E F a0 f ->
  f_inodes f !! ROOTINUM = Some dip -> ROOTINUM ∉ L -> i_Kind (F ROOTINUM) = NF3DIR -> E ROOTINUM = [] ->
  ~ few_free (f_a f) ->
  (forall ip' E' F' f', fixed (F ROOTINUM) ip' -> set_at ROOTINUM dots E E' -> set_at ROOTINUM ip' F F' ->
     changed L E' F' a0 f' -> a_super (f_a f') = a_super (f_a f) -> Q true f') ->
  wp (MkRootDir dip) f Q.
Proof.
  intros Hch Ho HL Hk HE Hroom HQ. assert (ROOTINUM <> NULLINUM) as Hr by (rewrite NULLINUM_eq, ROOTINUM_eq; lia).
  destruct (fi_own _ _ _ (ch_fs _ _ _ _ _ Hch) _ _ Ho) as (Hi & ip & Hp & Hin).
  unfold MkRootDir. apply wp_bind, (wp_ip_field dip _ _ _ _ Hp). rewrite Hin.
  apply (wp_dots L E F a0 f ROOTINUM dip ROOTINUM); [done..|by rewrite Hk| |done].
  intros ip' E' F' f' Hdd. apply (HQ ip' E' F'); apply Hdd.
Qed.

Lemma wp_root_txn E F s (Q : bool -> NSt -> Prop) : server L E F s -> ino_ok (disk_of s) ROOTINUM ->
  ROOTINUM ∉ L -> i_Kind (F ROOTINUM) = NF3DIR -> E ROOTINUM = [] -> ~ few_free (disk_of s) ->
  (forall s', Q false s') ->
  (forall ip E' F' s', fixed (F ROOTINUM) ip -> set_at ROOTINUM dots E E' -> set_at ROOTINUM ip F F' ->
     server L E' F' s' -> a_super (disk_of s') = a_super (disk_of s) ->
     stable_obj (a_log (disk_of s')) = log_obj (a_log (disk_of s')) -> Q true s') ->
  wp root_txn s Q.
Proof.
  intros Hsv Hi HL Hk HE Hroom HQf HQ. unfold root_txn.
  apply wp_bind, (wp_begin L E F); [done|]. intros Ht.
  apply wp_bind, wp_on_fs, (wp_lock_any L E F (f_a (n_fs s))); [exact Ht|exact Hi|simpl; set_solver|].
  intros p f1 Ht1 Ho1. apply wp_bind, wp_on_fs.
  apply (wp_MkRootDir E F (f_a (n_fs s))); [by apply txn_changed| |done|done|done| |].
  { simpl. rewrite (op_inodes _ _ _ _ _ Ho1). apply lookup_insert_eq. }
  { unfold few_free. simpl. rewrite (op_balloc _ _ _ _ _ Ho1). exact Hroom. }
  intros ip2 E' F' f2 Hfx HE' HF' Hch Hsp. eapply wp_commit_changed; [apply Hch|].
  intros ok s' _ _ Hok Hst _. destruct ok; [|apply HQf].
  destruct (Hok _ Hch eq_refl) as [Hsv' Hsim]. apply (HQ ip2 E' F'); [done..| |by apply Hst].
  etransitivity; [apply Hsim|]. simpl. rewrite Hsp. simpl. apply (gr_super _ _ (op_grow _ _ _ _ _ Ho1)).
Qed.
End rootdir.

(** ** [MakeNfs] on a blank disk *)

Lemma blank_root d : let sp := MkFsSuper d in blank d -> DataStart sp <= disk_Size d ->
  readRootInode sp d = Ok (free_inode ROOTINUM).
Proof.
  intros sp Hb Hsz. pose proof (MkFsSuper_layout d : layout_ok sp) as Hl. pose proof (layout_bounds sp Hl) as (_ & _ & Hni).
  assert (0 <= ROOTINUM < NInode sp) as Hroot by (rewrite ROOTINUM_eq, (NInode_eq sp Hl); lia).
  pose proof (Inum2Addr_8 sp ROOTINUM Hl Hroot) as [_ Hro]. pose proof ROOTINUM_eq as Hr1.
  unfold readRootInode. rewrite Hb, MkBufLoad_eq; rewrite ?Hro, ?Hr1, ?INODESZ_eq; [|done..|].
  - change (Z.to_nat (128 * 8 / 8)) with 128%nat. change (Z.to_nat (8 * (128 * (1 mod 32)) / 8)) with 128%nat.
    pose proof (drop_take_zeros 128 4096 ltac:(lia)) as Hz. change (Z.of_nat 4096) with 4096 in Hz. rewrite Hz. rewrite <-(free_inode_bytes 1), <-(app_nil_r (inode_bytes _)).
    rewrite Decode_bytes by apply free_inode_wf. done.
  - by rewrite len_zeros.
Qed.

Lemma four_free (I : gset Z) k : (forall j, 0 <= j < 4 -> k + j ∈ I) -> (4 <= size I)%nat.
Proof.
  intros Hin. assert (list_to_set [k; k + 1; k + 2; k + 3] ⊆ I) as Hs.
  { intros x. rewrite elem_of_list_to_set, !elem_of_cons, elem_of_nil.
    intros [->|[->|[->|[->|[]]]]]; [rewrite <-(Z.add_0_r k)|..]; apply Hin; lia. }
  apply subseteq_size in Hs. rewrite size_list_to_set in Hs; [done|].
  repeat (apply NoDup_cons; split; [rewrite ?elem_of_cons, elem_of_nil; lia|]). by apply NoDup_nil.
Qed.

(** The server that is mounted on the disk [d'], and makes the root directory. *)
Definition new_server d d' : NSt := MkShrinkerSt (MkFsState (MkFsSuper d) d' (obj_on_disk (obj_MkLog d) d')) true.

Definition root_dir_inode ip : Prop :=
  i_Inum ip = ROOTINUM /\ i_Kind ip = NF3DIR /\ i_Nlink ip = 1 /\ i_Gen ip = 1.

Record new_fs d d' root : Prop := {
  nf_server : server ∅ (fun _ => []) (new_files root) (new_server d d');
  nf_root : root_dir_inode root;
  nf_space : ~ few_free (disk_of (new_server d d'));
  nf_inums : forall i, i ∈ alloc_free (a_ialloc (disk_of (new_server d d'))) <-> 1 < i < NInode (MkFsSuper d);
}.

Lemma MakeNfs_blank d : let sp := MkFsSuper d in blank d -> DataStart sp < 32768 -> DataStart sp + 4 <= disk_Size d ->
  exists d' root, disk_Size d' = disk_Size d /\ new_fs d d' root /\
    MakeNfs d = ('(ok, s) ← root_txn (new_server d d'); if ok : bool then Ok (d', s) else Panic).
Proof.
  intros sp Hb Hds Hsz. pose proof (MkFsSuper_layout d : layout_ok sp) as Hl.
  set (a := mkASt sp (obj_MkLog d) (MkAlloc []) (MkAlloc []) (jrnl_Begin (obj_MkLog d)) [] [] [] [] 0).
  destruct (makeFs_spec d a) as (d' & Hd' & Hs' & Hfm); [done|done|unfold sp in *; lia|].
  exists d', (root0 a). split; [done|]. split.
  - split.
    + apply (mounted_server sp d d' (root0 a)); done || apply root0_wf.
    + done.
    + pose proof (mounted_balloc sp d d' (root0 a) Hl Hfm) as Hba. unfold few_free.
      intros Hfew. apply (Nat.lt_irrefl 3). eapply Nat.lt_le_trans; [|exact Hfew].
      apply (four_free _ (DataStart sp)). intros j Hj. apply Hba. unfold valid_blk, MaxBnum.
      change (Maxaddr sp) with (disk_Size d). lia.
    + apply (mounted_ialloc sp d d' (root0 a)); done.
  - unfold MakeNfs. fold sp. assert (readRootInode sp d = Ok (free_inode ROOTINUM)) as -> by (apply (blank_root d); [done|fold sp; lia]).
    cbn [mbind res_bind]. rewrite !bool_decide_eq_true_2 by done. fold a. fold sp in Hd'. rewrite Hd'. cbn [mbind res_bind].
    change (MkShrinkerSt _ true) with (new_server d d'). rewrite makeRootDir_txn.
    by destruct (root_txn (new_server d d')) as [[[] s']| | |].
Qed.
End mkfs.
