(* ===== verification/SampleDir.v ===== *)
(** A small server with a root directory, and the same server after the file
    ["x"] was created in it. *)
From stdpp Require Import functions.
From S2P Require Import Prelude Nfstypes External Reference Super Fh Cache Dcache Alloctxn AtxnCommit Inode.
From S2P Require Import InodeCodec InodeMap InodeIO Volume InodeClaims InodeShrink Fstxn FstxnInv Dir DirSpec DirVol Shrinker Sample.
From S2P Require Import NfsOps NfsFiles NfsDirs NfsNames NfsCreate NfsRemove Mkfs MkfsSpec.
Import Nfs.

(** ** An empty root directory *)

Definition root_ip : Inode :=
  mkInode 1 None 2 1 1 0 0 (mkNfstime3 0 0) (mkNfstime3 0 0) (zeros 10).

Definition make_root : M ISt bool := make_inode 1.

Definition root_st : Inode * ASt := run_st make_root (root_ip, Begin (ref_ast 8)).

Definition root_vol : Z -> Inode := new_files root_ip.

Lemma root_ip_wf : inode_wf root_ip.
Proof.
  split; simpl; unfold time_wf, is_u32, is_u64; simpl; try lia; [done|].
  exact (zeros_wf root_ip eq_refl).
Qed.

Lemma root_ino : ino_ok (ref_ast 8) 1.
Proof. split; [done|]. by vm_compute. Qed.

Lemma make_root_ok : wp make_root (root_ip, Begin (ref_ast 8)) (fun ok t =>
  ok = true -> quiet_inv t.2 /\ bitmap_ok t.2 /\ quiet_zero t.2 /\ vol_ok root_vol (Begin t.2)).
Proof. exact (make_inode_ok 1 8 root_ip eq_refl root_ip_wf root_ino). Qed.

Lemma make_root_run : make_root (root_ip, Begin (ref_ast 8)) = Ok (true, root_st).
Proof.
  unfold root_st. apply (run_is_Ok make_root (root_ip, Begin (ref_ast 8)) true). by vm_compute.
Qed.

#[global] Opaque root_st.

Definition root_nst : NSt := MkShrinkerSt (idle root_st.2) true.

Lemma root_used : ~ (1 : Z) ∈ ra_nums (a_ialloc root_st.2).
Proof. apply (bool_decide_eq_false_1 (_ ∈ _)). by vm_compute. Qed.

Lemma root_server : server ∅ (fun _ => []) root_vol root_nst.
Proof.
  pose proof (wp_run _ _ _ _ _ make_root_ok make_root_run eq_refl) as (Hq & Hb & Hz & Hv).
  apply (new_server_ok root_ip); [done|done|exact (idle_inv root_st.2 Hq Hb Hz)|exact Hv|done|].
  intros Hi. change (alloc_free (a_ialloc (f_a (idle root_st.2)))) with
    (list_to_set (ra_list (a_ialloc root_st.2)) : gset Z) in Hi.
  apply ra_free_spec in Hi as [_ Hi]. exact (root_used Hi).
Qed.

Definition root_fh : Nfs_fh3 := mkNfs_fh3 (u64_le 1 ++ u64_le 1).

Lemma root_fh_ok : MakeFh root_fh = Ok (mkFh 1 1).
Proof. by vm_compute. Qed.

Lemma root_nst_ino : ino_ok (disk_of root_nst) 1.
Proof. split; [done|]. by vm_compute. Qed.

Lemma root_nst_u64 i : ino_ok (disk_of root_nst) i -> is_u64 i.
Proof.
  assert (NInode (a_super (disk_of root_nst)) < 2 ^ 64) as Hb by by vm_compute.
  intros [Hi Hn]. unfold is_u64. lia.
Qed.

Lemma root_vol_1 : root_vol 1 = root_ip.
Proof. exact (new_files_root root_ip). Qed.

Lemma root_vol_ne i : i <> 1 -> root_vol i = free_inode i.
Proof. exact (new_files_ne root_ip i). Qed.

Lemma root_live : live root_vol (mkFh 1 1).
Proof. unfold live. change (Ino (mkFh 1 1)) with 1. rewrite root_vol_1. done. Qed.

Lemma root_dir_ready : dir_ready ∅ (fun _ => []) 1.
Proof. split; [unfold cacheable; simpl; lia|]. intros e He. by apply not_elem_of_nil in He. Qed.

Lemma root_spare_ready : spare_ready ∅ root_vol (disk_of root_nst).
Proof.
  intros n Hn. destruct (sv_free _ _ _ _ root_server n Hn) as [Hk _]. clear Hn.
  split; [exact (not_elem_of_empty n)|]. rewrite root_vol_ne; [done|].
  intros ->. rewrite root_vol_1 in Hk. done.
Qed.

(** ** The file ["x"] *)

Definition x_in_root : Diropargs3 := mkDiropargs3 root_fh (str "x").

Definition create_x : CREATE3args := mkCREATE3args x_in_root zero.

Definition create_x_status : Z :=
  match NFSPROC3_CREATE 1 create_x root_nst with Ok (rep, _) => CREATE3res_Status rep | _ => -1 end.

Lemma create_x_ok : create_x_status = NFS3_OK.
Proof. by vm_compute. Qed.

(** The server after it, where ["x"] is the file [n]. *)
Record has_x E F (s : NSt) n : Prop := {
  hx_server : server ∅ E F s;
  hx_ino : ino_ok (disk_of s) 1;
  hx_ready : dir_ready ∅ E 1;
  hx_live : live F (mkFh 1 1);
  hx_names : names (E 1) = {[str "x" := n]};
  hx_file : removable E F (disk_of s) 1 (str "x") n;
  hx_fh : exists h, MakeFh h = Ok (mkFh n 1);
}.

Lemma reply_has_x F0 s0 rep s : (forall i, i <> 1 -> F0 i = free_inode i) -> live F0 (mkFh 1 1) ->
  ino_ok (disk_of s0) 1 -> (forall i, ino_ok (disk_of s0) i -> is_u64 i) -> create_reply ∅ (fun _ => []) F0 s0 1 (str "x") rep s ->
  CREATE3res_Status rep = NFS3_OK -> exists E F n, has_x E F s n.
Proof.
  intros HF0 Hl Hi Hw [_ _ Hok] Hst.
  destruct (Hok Hst) as (n & j & ip' & ipd & fh3 & _ & _ & _ & _ & Hne & Hn & _ & _ & (t1 & t2 & dc & Hm) & Hfx & Hnm &
    Hle & Hes & Hsv & _ & Hsp & _).
  clear Hok Hst. set (es := set_slot [] j (mkDirEnt n (str "x"))) in *.
  exists (<[1 := es]> (fun _ => [])), (<[1 := ipd]> (<[n := ip']> F0)), n. rewrite (HF0 n Hne) in Hm.
  assert (forall e, e ∈ es -> e = mkDirEnt n (str "x")) as Hes'.
  { intros e [->|He]%Hes; [done|]. by apply not_elem_of_nil in He. }
  clearbody es. split.
  - exact Hsv.
  - eapply ino_ok_super; [|exact Hi]. congruence.
  - split; rewrite fn_lookup_insert.
    + unfold cacheable. simpl in Hle. lia.
    + intros e He _. exact (not_elem_of_empty _).
  - unfold live in *. change (Ino (mkFh 1 1)) with 1 in *. rewrite fn_lookup_insert, Hfx. exact Hl.
  - rewrite fn_lookup_insert, Hnm. done.
  - assert (<[1 := ipd]> (<[n := ip']> F0) n = ip') as HFn by (by rewrite fn_lookup_insert_ne, fn_lookup_insert).
    split; rewrite ?HFn, ?Hm.
    + done.
    + done.
    + simpl. vm_compute. done.
    + intros x _ _. apply zeros_fptr. done.
    + intros k e _ He Hj. destruct (decide (k = 1)) as [->|Hk].
      * rewrite fn_lookup_insert in He. by rewrite (Hes' e He).
      * rewrite fn_lookup_insert_ne in He by done. by apply not_elem_of_nil in He.
  - eexists. apply (MakeFh_app (mkFh n 1) []).
    split; [exact (Hw n Hn)|done].
Qed.

Lemma create_x_has_x : exists rep s E F n, NFSPROC3_CREATE 1 create_x root_nst = Ok (rep, s) /\
  CREATE3res_Status rep = NFS3_OK /\ has_x E F s n.
Proof.
  destruct (wp_CREATE ∅ (fun _ => []) 1 root_vol root_nst create_x (mkFh 1 1)
    (fun rep s => CREATE3res_Status rep = NFS3_OK -> exists E F n, has_x E F s n))
    as (rep & s & Hr & HQ); [exact root_server|discriminate|exact root_fh_ok|exact root_nst_ino|exact (not_elem_of_empty 1)| 
    discriminate|exact root_dir_ready|exact root_spare_ready| | |].
  - intros st s [[_ ->]|[(_ & _ & ->)|(_ & _ & _ & ->)]] _ _ Hst; discriminate Hst.
  - intros rep s _ _ Hrep. exact (reply_has_x root_vol root_nst rep s root_vol_ne root_live root_nst_ino root_nst_u64 Hrep).
  - pose proof create_x_ok as Hok. unfold create_x_status in Hok. rewrite Hr in Hok.
    destruct (HQ Hok) as (E & F & n & Hx). exists rep, s, E, F, n. exact (conj Hr (conj Hok Hx)).
Qed.
