(* ===== verification/NfsDirClaims.v ===== *)
(** The properties of the directory procedures LOOKUP, CREATE and REMOVE, and
    of making a file system. *)
From stdpp Require Import functions.
From S2P Require Import Prelude Nfstypes External Reference Super Fh Cache Dcache Alloctxn AtxnCommit Inode.
From S2P Require Import InodeCodec InodeMap InodeIO InodeBound Volume Fstxn FstxnInv Dir DirSpec DirVol Shrinker Sample.
From S2P Require Import NfsOps NfsFiles NfsDirs NfsNames NfsCreate NfsRemove Mkfs MkfsSpec SampleDir.
Import Nfs.

Section claims.
Context `{!Common} `{!CommonSpec} `{!Util} `{!UtilSpec} `{!Marshal} `{!MarshalSpec} `{!Std}
  `{!Buf} `{!BufSpec} `{!Journal} `{!JournalSpec} `{!AllocPkg} `{!AllocSpec}
  `{!LockPkg} `{!LockSpec} `{!Clock} `{!DiskPkg}.
Variable L : gset Z.
Variable E : Z -> list dirEnt.
Variable retry : nat.
Implicit Types (F : Z -> Inode) (s : NSt).

(** C4: LOOKUP of a name in a live directory replies with the handle and the
    attributes of the file the directory names, and with NOENT when it names
    none; a dead handle gets STALE. The inodes are locked in increasing order
    of their numbers whatever the order of the directory and the file, the
    name cache is loaded when it was not, and afterwards the server is
    consistent with the files and directories it had. *)
Theorem LOOKUP_spec F s args fh : let name := Diropargs3_Name (LOOKUP3args_What args) in
  server L E F s -> retry <> 0%nat -> MakeFh (Diropargs3_Dir (LOOKUP3args_What args)) = Ok fh ->
  ino_ok (disk_of s) (Ino fh) -> Ino fh ∉ L -> dir_ready L E (Ino fh) ->
  exists rep s', NFSPROC3_LOOKUP retry args s = Ok (rep, s') /\
    (~ live F fh -> rep = mkLOOKUP3res NFS3ERR_STALE zero zero /\ server L E F s' /\
       sim (disk_of s) (disk_of s')) /\
    (live F fh -> names (E (Ino fh)) !! name = None ->
       rep = mkLOOKUP3res NFS3ERR_NOENT zero zero /\ server L E F s' /\ sim (disk_of s) (disk_of s')) /\
    (forall j, live F fh -> names (E (Ino fh)) !! name = Some j ->
       MakeFh3 (mkFh j (i_Gen (F j))) = Ok (LOOKUP3resok_Object (LOOKUP3res_Resok rep)) /\
       LOOKUP3resok_Obj_attributes (LOOKUP3res_Resok rep) = mkPost_op_attr true (MkFattr (F j)) /\
       (LOOKUP3res_Status rep = NFS3_OK \/ LOOKUP3res_Status rep = NFS3ERR_SERVERFAULT) /\
       (LOOKUP3res_Status rep = NFS3_OK -> server L E F s' /\ sim (disk_of s) (disk_of s'))).
Proof.
  intros name Hsv Hre Hfh Hi HL Hready.
  apply (wp_LOOKUP L E retry F s args fh (fun rep s' => (~ live F fh -> _) /\ (live F fh -> _ -> _) /\
    (forall j, live F fh -> _ -> _))); [done..| | |].
  - intros s' Hd Hsv' Hsim. split_and!; [done|by intros|by intros].
  - intros s' Hl HN Hsv' Hsim. split_and!; [by intros|done|]. intros j _ Hj. fold name in HN. congruence.
  - intros j h st s' Hl HN Hh Hst Hok. fold name in HN. split_and!; [by intros|by intros _ ?; congruence|].
    intros j' _ Hj'. assert (j' = j) as -> by congruence. done.
Qed.

(** C1: CREATE of a new name in a live directory either makes the file (a free
    inode becomes an empty regular file with one link, a new generation and
    the times of the call, the directory has the name for it besides those it
    had, no byte of another file changes, and all of it is on stable storage
    when the reply says OK), or replies IO, when the name is too long, the
    handle is not a directory's or there is no room, and nothing is stored. A
    name that exists gets EXIST, a full inode table NOSPC, a dead handle
    STALE, and an exclusive create NOTSUPP, without an effect. *)
Theorem CREATE_spec F s args fh : let name := Diropargs3_Name (CREATE3args_Where args) in
  server L E F s -> retry <> 0%nat -> MakeFh (Diropargs3_Dir (CREATE3args_Where args)) = Ok fh ->
  ino_ok (disk_of s) (Ino fh) -> Ino fh ∉ L -> dir_ready L E (Ino fh) -> spare_ready L F (disk_of s) ->
  exists rep s', NFSPROC3_CREATE retry args s = Ok (rep, s') /\
    (Createhow3_Mode (CREATE3args_How args) = EXCLUSIVE ->
       rep = mkCREATE3res NFS3ERR_NOTSUPP zero zero /\ s' = s) /\
    (Createhow3_Mode (CREATE3args_How args) <> EXCLUSIVE ->
       (exists st, ((~ live F fh /\ st = NFS3ERR_STALE) \/
           (live F fh /\ is_Some (names (E (Ino fh)) !! name) /\ st = NFS3ERR_EXIST) \/
           (live F fh /\ names (E (Ino fh)) !! name = None /\
              alloc_free (a_ialloc (disk_of s)) = ∅ /\ st = NFS3ERR_NOSPC)) /\
         rep = mkCREATE3res st zero zero /\ server L E F s' /\ sim (disk_of s) (disk_of s')) \/
       (live F fh /\ names (E (Ino fh)) !! name = None /\ create_reply L E F s (Ino fh) name rep s')).
Proof.
  intros name Hsv Hre Hfh Hi HL Hready Hspare.
  destruct (decide (Createhow3_Mode (CREATE3args_How args) = EXCLUSIVE)) as [Hm|Hm].
  { exists (mkCREATE3res NFS3ERR_NOTSUPP zero zero), s. split; [|done].
    unfold NFSPROC3_CREATE. by rewrite bool_decide_eq_true_2. }
  apply (wp_CREATE L E retry F s args fh (fun rep s' => (_ = EXCLUSIVE -> _) /\ (_ <> EXCLUSIVE -> _)));
    [done..| |].
  - intros st s' Hst Hsv' Hsim. split; [done|]. intros _. left. by exists st.
  - intros rep s' Hl HN Hrep. split; [done|]. intros _. by right.
Qed.

(** C16: a file that CREATE made is there: when both reply OK, a LOOKUP of the
    name afterwards finds the handle and the attributes that CREATE
    replied. *)
Theorem CREATE_LOOKUP F s args fh : let name := Diropargs3_Name (CREATE3args_Where args) in
  server L E F s -> retry <> 0%nat -> MakeFh (Diropargs3_Dir (CREATE3args_Where args)) = Ok fh ->
  ino_ok (disk_of s) (Ino fh) -> Ino fh ∉ L -> dir_ready L E (Ino fh) -> spare_ready L F (disk_of s) ->
  Createhow3_Mode (CREATE3args_How args) <> EXCLUSIVE -> Z.of_nat (length (E (Ino fh))) < 400000 ->
  exists rep s', NFSPROC3_CREATE retry args s = Ok (rep, s') /\
    (CREATE3res_Status rep = NFS3_OK -> exists found s'' h,
       NFSPROC3_LOOKUP retry (mkLOOKUP3args (CREATE3args_Where args)) s' = Ok (found, s'') /\
       CREATE3resok_Obj (CREATE3res_Resok rep) = mkPost_op_fh3 true h /\
       LOOKUP3resok_Object (LOOKUP3res_Resok found) = h /\
       LOOKUP3resok_Obj_attributes (LOOKUP3res_Resok found) = CREATE3resok_Obj_attributes (CREATE3res_Resok rep)).
Proof.
  intros name Hsv Hre Hfh Hi HL Hready Hspare Hmode Hlen.
  apply (wp_CREATE L E retry F s args fh (fun rep s' => CREATE3res_Status rep = NFS3_OK -> _)); [done..| |].
  { intros st s' Hst _ _. simpl. intros ->. by destruct Hst as [[_ ?]|[(_ & _ & ?)|(_ & _ & _ & ?)]]. }
  intros rep s' [Hk Hg] HN [_ _ Hok] Hst.
  destruct (Hok Hst) as (n & j & ip' & ipd & fh3 & Hrep & Hf3 & Hnf & Hsn & Hne & Hin & _ & Hkd & (t1 & t2 & dc & Hm) & Hfx &
    Hnm & Hle & Hes & Hsv' & _ & Hsp & _).
  set (es := set_slot (E (Ino fh)) j (mkDirEnt n (Diropargs3_Name (CREATE3args_Where args)))) in *. set (E' := <[Ino fh := es]> E) in *.
  set (F' := <[Ino fh := ipd]> (<[n := ip']> F)) in *.
  assert (E' (Ino fh) = es) as HE by apply fn_lookup_insert.
  assert (F' n = ip') as HFn by (unfold F'; by rewrite fn_lookup_insert_ne, fn_lookup_insert).
  assert (live F' fh) as Hl'.
  { unfold live, F'. by rewrite fn_lookup_insert, Hfx. }
  edestruct (wp_LOOKUP L E' retry F' s' (mkLOOKUP3args (CREATE3args_Where args)) fh
    (fun found _ => LOOKUP3resok_Object (LOOKUP3res_Resok found) = fh3 /\
       LOOKUP3resok_Obj_attributes (LOOKUP3res_Resok found) = mkPost_op_attr true (MkFattr ip')))
    as (found & s'' & Hl & Hfo & Hfa); [done|done|done| |done| |by intros| | |].
  - by eapply ino_ok_super.
  - destruct Hready as [Hc Hr]. split; rewrite HE; [unfold cacheable in *; lia|].
    intros e [->|He]%Hes Hu; [|by apply Hr]. simpl.
    by apply Hspare.
  - intros s1 _ HN'. simpl in HN'. rewrite HE, Hnm, lookup_insert_eq in HN'. done.
  - intros j' h st s1 _ HN' Hh _ _. simpl in HN'. rewrite HE, Hnm, lookup_insert_eq in HN'. injection HN' as <-.
    rewrite HFn in *. simpl. split; [congruence|done].
  - exists found, s'', fh3. rewrite Hrep. done.
Qed.
(** C5: REMOVE of a name in a live directory whose only name and link it is:
    when the reply says OK, the directory has every name but that one, the
    inode of the file is on the free list with no link, no kind and no
    content, no byte of another file changes, and all of it is on stable
    storage; the other reply, when the transaction does not commit, is
    SERVERFAULT. A name that the directory lacks gets NOENT and a dead handle
    STALE, without an effect. *)
Theorem REMOVE_spec F s args fh : let name := Diropargs3_Name (REMOVE3args_Object args) in
  server L E F s -> retry <> 0%nat -> IllegalName name = false ->
  MakeFh (Diropargs3_Dir (REMOVE3args_Object args)) = Ok fh ->
  ino_ok (disk_of s) (Ino fh) -> Ino fh ∉ L -> dir_ready L E (Ino fh) ->
  (forall j, names (E (Ino fh)) !! name = Some j -> removable E F (disk_of s) (Ino fh) name j) ->
  exists rep s', NFSPROC3_REMOVE retry args s = Ok (rep, s') /\
    (~ live F fh -> rep = mkREMOVE3res NFS3ERR_STALE zero zero /\ server L E F s' /\
       sim (disk_of s) (disk_of s')) /\
    (live F fh -> names (E (Ino fh)) !! name = None ->
       rep = mkREMOVE3res NFS3ERR_NOENT zero zero /\ server L E F s' /\ sim (disk_of s) (disk_of s')) /\
    (forall j, live F fh -> names (E (Ino fh)) !! name = Some j ->
       remove_reply L E F s (Ino fh) name j rep s').
Proof.
  intros name Hsv Hre Hlegal Hfh Hi HL Hready Hrm.
  apply (wp_REMOVE L E retry F s args fh (fun rep s' => (~ live F fh -> _) /\ (live F fh -> _ -> _) /\
    (forall j, live F fh -> _ -> _))); [done..| |].
  - intros st s' [[Hd ->]|(Hl & HN & ->)] Hsv' Hsim; (split_and!; [done|done|]).
    + by intros.
    + intros j _ Hj. fold name in HN. congruence.
  - intros j rep s' Hl HN Hrep. fold name in HN. split_and!; [done|intros _ ?; congruence|].
    intros j' _ Hj'. assert (j' = j) as -> by congruence. exact Hrep.
Qed.

(** C17: a file that REMOVE removed is gone: after a reply of OK, a LOOKUP of
    its name gets NOENT, and any handle of the file that a client still holds
    is STALE. *)
Theorem REMOVE_LOOKUP F s args fh j h g : let name := Diropargs3_Name (REMOVE3args_Object args) in
  server L E F s -> retry <> 0%nat -> IllegalName name = false ->
  MakeFh (Diropargs3_Dir (REMOVE3args_Object args)) = Ok fh ->
  ino_ok (disk_of s) (Ino fh) -> Ino fh ∉ L -> dir_ready L E (Ino fh) -> live F fh ->
  names (E (Ino fh)) !! name = Some j -> removable E F (disk_of s) (Ino fh) name j ->
  MakeFh h = Ok (mkFh j g) ->
  exists rep s', NFSPROC3_REMOVE retry args s = Ok (rep, s') /\
    (REMOVE3res_Status rep = NFS3_OK ->
       (exists s'', NFSPROC3_LOOKUP retry (mkLOOKUP3args (REMOVE3args_Object args)) s' =
          Ok (mkLOOKUP3res NFS3ERR_NOENT zero zero, s'')) /\
       (exists s'', NFSPROC3_GETATTR (mkGETATTR3args h) s' = Ok (mkGETATTR3res NFS3ERR_STALE zero, s''))).
Proof.
  intros name Hsv Hre Hlegal Hfh Hi HL Hready Hlive Hnm Hrm Hh.
  destruct (name_live L E F (disk_of s) (Ino fh) name j (sv_dirs _ _ _ _ Hsv) Hi Hnm Hready) as (_ & Hj & _ & HLj).
  assert (j <> Ino fh) as Hne.
  { intros ->. by rewrite (dr_none _ _ _ (sv_dirs _ _ _ _ Hsv) _ Hi (rm_kind _ _ _ _ _ _ Hrm)) in Hnm. }
  apply (wp_REMOVE L E retry F s args fh (fun rep s' => REMOVE3res_Status rep = NFS3_OK -> _)); [done..| | |].
  { intros j' Hj'. fold name in Hj'. by replace j' with j by congruence. }
  { intros st s' [[Hd _]|(_ & HN & _)]; [done|]. fold name in HN. congruence. }
  intros j' rep s' _ Hj' [_ Hok] Hst. fold name in Hj', Hok. assert (j' = j) as -> by congruence.
  destruct (Hok Hst) as (k & ip' & ipd & Hk & Hfx & Hgone & Hnames & Hsv' & _ & _ & Hsp & _).
  set (es := set_slot (E (Ino fh)) k no_entry) in *. set (E' := <[Ino fh := es]> E) in *.
  set (F' := <[j := ip']> (<[Ino fh := ipd]> F)) in *.
  assert (E' (Ino fh) = es) as HE by apply fn_lookup_insert.
  assert (k < length (E (Ino fh)))%nat as Hlt by (by eapply lookup_lt_Some).
  split.
  - destruct (wp_LOOKUP L E' retry F' s' (mkLOOKUP3args (REMOVE3args_Object args)) fh
      (fun found _ => found = mkLOOKUP3res NFS3ERR_NOENT zero zero)) as (found & s'' & Hl & ->);
      [done|done|done| |done| | | | |by exists s''].
    + by eapply ino_ok_super.
    + destruct Hready as [Hc Hr]. split; rewrite HE.
      * unfold cacheable in *. unfold es. rewrite set_slot_length by lia. lia.
      * intros e He Hu. apply set_slot_elem in He as [->|He]; [by destruct no_entry_unused|by apply Hr|lia].
    + intros s1 Hd. destruct Hd. unfold live, F'. rewrite fn_lookup_insert_ne, fn_lookup_insert, Hfx by done. exact Hlive.
    + done.
    + intros j1 h1 st s1 _ HN. simpl in HN. fold name in HN. rewrite HE, Hnames, lookup_delete_eq in HN. done.
  - assert (~ live F' (mkFh j g)) as Hdead.
    { unfold live, F'. simpl. rewrite fn_lookup_insert. intros [Hk' _]. apply Hk'. apply (gone_spare _ _ Hgone). }
    edestruct (wp_GETATTR L E' F' s' (mkGETATTR3args h) (mkFh j g)
      (fun rep' _ => rep' = mkGETATTR3res NFS3ERR_STALE zero)) as (rep' & s'' & Hg & ->);
      [exact Hsv'|exact Hh|by eapply ino_ok_super|exact HLj| |exists s''; exact Hg].
    intros rep' s1 Hd _. apply (Hd Hdead).
Qed.
End claims.

Section mkfs_claims.
Context `{!Common} `{!CommonSpec} `{!Util} `{!UtilSpec} `{!Marshal} `{!MarshalSpec} `{!Std}
  `{!Buf} `{!BufSpec} `{!Journal} `{!JournalSpec} `{!AllocPkg} `{!AllocSpec}
  `{!LockPkg} `{!LockSpec} `{!Clock} `{!DiskPkg} `{!DiskSpec} `{!BufDisk} `{!BufDiskSpec}.

(** C15: MakeNfs on a blank disk that can hold the file system makes one: it
    finds no root inode, writes the root inode and the bitmaps, mounts a
    server on them that is consistent, with every other inode and every data
    block free, and enters "." and ".." in the root directory, in one
    transaction that is on stable storage when MakeNfs returns. It panics
    exactly when that transaction does not commit. *)
Theorem MakeNfs_blank_disk d : let sp := MkFsSuper d in blank d -> DataStart sp < 32768 ->
  DataStart sp + 4 <= disk_Size d ->
  exists d' root ok s', disk_Size d' = disk_Size d /\ new_fs d d' root /\
    root_txn (new_server d d') = Ok (ok, s') /\
    MakeNfs d = (if ok : bool then Ok (d', s') else Panic) /\
    (ok = true -> exists E F, server ∅ E F s' /\ E ROOTINUM = dots /\ root_dir_inode (F ROOTINUM) /\
       (forall i, i <> ROOTINUM -> E i = [] /\ F i = free_inode i) /\ a_super (disk_of s') = sp /\
       stable_obj (a_log (disk_of s')) = log_obj (a_log (disk_of s'))).
Proof.
  intros sp Hb Hds Hsz. destruct (MakeNfs_blank d Hb Hds Hsz) as (d' & root & Hs' & Hnf & Hm).
  pose proof Hnf as [Hsv (Hri & Hrk & Hrn & Hrg) Hroom _].
  exists d', root. destruct (wp_root_txn ∅ (fun _ => []) (new_files root) (new_server d d') (fun ok s' =>
    ok = true -> exists E F, server ∅ E F s' /\ E ROOTINUM = dots /\ root_dir_inode (F ROOTINUM) /\
       (forall i, i <> ROOTINUM -> E i = [] /\ F i = free_inode i) /\ a_super (disk_of s') = sp /\
       stable_obj (a_log (disk_of s')) = log_obj (a_log (disk_of s')))) as (ok & s' & Hr & HQ);
    [exact Hsv| |set_solver|by rewrite new_files_root|done|done|done| |].
  - pose proof (layout_bounds _ (MkFsSuper_layout d)) as (_ & _ & Hni). unfold ino_ok.
    change (a_super (disk_of (new_server d d'))) with (MkFsSuper d).
    rewrite (NInode_eq _ (MkFsSuper_layout d)), ROOTINUM_eq. lia.
  - intros ip E F s' Hfx [HE HEn] [HF HFn] Hsv' Hsp Hst _. exists E, F. rewrite new_files_root in Hfx.
    split_and!; [done|done| | |done|done].
    + rewrite HF, Hfx. done.
    + intros i Hi. rewrite HEn, HFn, new_files_ne by done. done.
  - exists ok, s'. split_and!; [done|done|done| |done]. rewrite Hm, Hr. by destruct ok.
Qed.
End mkfs_claims.

(** ** On a new file system *)

(** The smallest disk of the reference instances that [MakeNfs] accepts. *)
Definition new_disk : Disk := mkRefDisk 1543 ∅.

Lemma new_disk_blank : blank new_disk.
Proof. intros b. simpl. by rewrite lookup_empty. Qed.

Lemma MakeNfs_blank_disk_witness : exists d' root ok s', disk_Size d' = disk_Size new_disk /\
  new_fs new_disk d' root /\ root_txn (new_server new_disk d') = Ok (ok, s') /\
  MakeNfs new_disk = (if ok : bool then Ok (d', s') else Panic).
Proof.
  destruct (MakeNfs_blank_disk new_disk new_disk_blank) as (d' & root & ok & s' & Hs & Hn & Hr & Hm & _);
    [by vm_compute|by vm_compute|]. exists d', root, ok, s'. exact (conj Hs (conj Hn (conj Hr Hm))).
Defined.

Lemma LOOKUP_spec_witness : exists s', NFSPROC3_LOOKUP 1 (mkLOOKUP3args x_in_root) root_nst =
  Ok (mkLOOKUP3res NFS3ERR_NOENT zero zero, s').
Proof.
  destruct (LOOKUP_spec ∅ (fun _ => []) 1 root_vol root_nst (mkLOOKUP3args x_in_root) (mkFh 1 1)
    root_server ltac:(discriminate) root_fh_ok root_nst_ino (not_elem_of_empty 1) root_dir_ready) as (rep & s' & Hr & _ & Hn & _).
  destruct (Hn root_live (lookup_empty _)) as [-> _]. exists s'. exact Hr.
Defined.

Lemma CREATE_spec_witness : exists rep s', NFSPROC3_CREATE 1 create_x root_nst = Ok (rep, s') /\
  ((exists st, rep = mkCREATE3res st zero zero) \/
   create_reply ∅ (fun _ => []) root_vol root_nst 1 (str "x") rep s').
Proof.
  destruct (CREATE_spec ∅ (fun _ => []) 1 root_vol root_nst create_x (mkFh 1 1)
    root_server ltac:(discriminate) root_fh_ok root_nst_ino (not_elem_of_empty 1) root_dir_ready root_spare_ready)
    as (rep & s' & Hr & _ & Hc).
  exists rep, s'. split; [exact Hr|].
  destruct (Hc ltac:(discriminate)) as [(st & _ & He & _)|(_ & _ & Hrep)]; [left; exists st; exact He|right; exact Hrep].
Defined.

(** Both succeed there. *)
Lemma CREATE_LOOKUP_witness : exists rep s' found s'', NFSPROC3_CREATE 1 create_x root_nst = Ok (rep, s') /\
  CREATE3res_Status rep = NFS3_OK /\ NFSPROC3_LOOKUP 1 (mkLOOKUP3args x_in_root) s' = Ok (found, s'').
Proof.
  destruct (CREATE_LOOKUP ∅ (fun _ => []) 1 root_vol root_nst create_x (mkFh 1 1)
    root_server ltac:(discriminate) root_fh_ok root_nst_ino (not_elem_of_empty 1) root_dir_ready root_spare_ready)
    as (rep & s' & Hr & Hc); [discriminate|simpl; lia|].
  assert (CREATE3res_Status rep = NFS3_OK) as Hst.
  { pose proof create_x_ok as Hok. unfold create_x_status in Hok. rewrite Hr in Hok. exact Hok. }
  destruct (Hc Hst) as (found & s'' & h & Hf & _). exists rep, s', found, s''. exact (conj Hr (conj Hst Hf)).
Defined.

(** REMOVE of the file that CREATE made. *)
Definition remove_x : REMOVE3args := mkREMOVE3args x_in_root.

Lemma REMOVE_spec_witness : exists made s E F n rep s', NFSPROC3_CREATE 1 create_x root_nst = Ok (made, s) /\
  CREATE3res_Status made = NFS3_OK /\ NFSPROC3_REMOVE 1 remove_x s = Ok (rep, s') /\
  remove_reply ∅ E F s 1 (str "x") n rep s'.
Proof.
  destruct create_x_has_x as (made & s & E & F & n & Hc & Hst & [Hsv Hi Hd Hl Hn Hx _]).
  destruct (REMOVE_spec ∅ E 1 F s remove_x (mkFh 1 1) Hsv ltac:(discriminate) eq_refl root_fh_ok Hi
    (not_elem_of_empty 1) Hd) as (rep & s' & Hr & _ & _ & Hrep).
  - intros j Hj. change (names (E 1) !! str "x" = Some j) in Hj. rewrite Hn, lookup_singleton_eq in Hj.
    injection Hj as <-. exact Hx.
  - exists made, s, E, F, n, rep, s'. split; [exact Hc|]. split; [exact Hst|]. split; [exact Hr|].
    apply Hrep; [exact Hl|]. change (names (E 1) !! str "x" = Some n). rewrite Hn. apply lookup_singleton_eq.
Defined.

Lemma REMOVE_LOOKUP_witness : exists made s n h, NFSPROC3_CREATE 1 create_x root_nst = Ok (made, s) /\
  CREATE3res_Status made = NFS3_OK /\ MakeFh h = Ok (mkFh n 1) /\
  exists rep s', NFSPROC3_REMOVE 1 remove_x s = Ok (rep, s') /\
    (REMOVE3res_Status rep = NFS3_OK ->
       exists s'', NFSPROC3_GETATTR (mkGETATTR3args h) s' = Ok (mkGETATTR3res NFS3ERR_STALE zero, s'')).
Proof.
  destruct create_x_has_x as (made & s & E & F & n & Hc & Hst & [Hsv Hi Hd Hl Hn Hx (h & Hh)]).
  destruct (REMOVE_LOOKUP ∅ E 1 F s remove_x (mkFh 1 1) n h 1 Hsv ltac:(discriminate) eq_refl root_fh_ok Hi
    (not_elem_of_empty 1) Hd Hl) as (rep & s' & Hr & Hrep); [|exact Hx|exact Hh|].
  - change (names (E 1) !! str "x" = Some n). rewrite Hn. apply lookup_singleton_eq.
  - exists made, s, n, h. split; [exact Hc|]. split; [exact Hst|]. split; [exact Hh|].
    exists rep, s'. split; [exact Hr|]. intros Hrs. exact (proj2 (Hrep Hrs)).
Defined.
