(* ===== verification/NfsListClaims.v ===== *)
(** The properties of READDIR and READDIRPLUS, and their runs on the sample
    server. *)
From stdpp Require Import functions.
From S2P Require Import Prelude Nfstypes External Reference Super Fh Cache Dcache Alloctxn AtxnCommit Inode.
From S2P Require Import InodeCodec InodeMap InodeIO InodeBound Volume Fstxn FstxnInv Dir DirSpec DirVol Lorder Shrinker Sample.
From S2P Require Import NfsLs NfsOps NfsFiles NfsDirs NfsNames NfsList NfsListPlus NfsCreate NfsRemove Mkfs MkfsSpec SampleDir.
Import Nfs.

Section claims.
Context `{!Common} `{!CommonSpec} `{!Util} `{!UtilSpec} `{!Marshal} `{!MarshalSpec} `{!Std}
  `{!Buf} `{!BufSpec} `{!Journal} `{!JournalSpec} `{!AllocPkg} `{!AllocSpec}
  `{!LockPkg} `{!LockSpec} `{!Clock} `{!DiskPkg}.
Variable L : gset Z.
Variable E : Z -> list dirEnt.
Implicit Types (F : Z -> Inode) (s : NSt).

(** C10: READDIR of a live directory, from the start or from the cookie of an
    entry after the first slot, replies with a page of its listing: the names
    of the directory and their inode numbers, each name once, in the order of
    their slots. The page ends with the first entry at which the estimate of
    its size reaches the count, so that it has at least one entry when one is
    left, and only its last entry goes past the count. It says end exactly when
    the estimate does not reach the count. When it says end, nothing is left;
    otherwise what is left, which may be nothing, is the listing of the slots
    after that of the last entry: what READDIR lists from its cookie, unless it
    is the entry of the first slot, whose cookie is that of the start (see
    [readdir_cookies]). The server is consistent with the files and directories
    it had. A dead handle gets STALE and a file INVAL. *)
Theorem READDIR_spec F s args fh k : let i := Ino fh in
  let l := listing_from (E i) k in
  let p := (page l (READDIR3args_Count args) 64).1 in
  let eof := (page l (READDIR3args_Count args) 64).2 in
  server L E F s -> MakeFh (READDIR3args_Dir args) = Ok fh -> ino_ok (disk_of s) i -> i ∉ L ->
  resumes (READDIR3args_Cookie args) k ->
  exists rep s', NFSPROC3_READDIR args s = Ok (rep, s') /\
    ((exists st, ((~ live F fh /\ st = NFS3ERR_STALE) \/ (live F fh /\ i_Kind (F i) <> NF3DIR /\ st = NFS3ERR_INVAL)) /\
       rep = mkREADDIR3res st zero zero /\ server L E F s' /\ sim (disk_of s) (disk_of s')) \/
     (live F fh /\ i_Kind (F i) = NF3DIR /\
       (READDIR3res_Status rep = NFS3_OK \/ READDIR3res_Status rep = NFS3ERR_SERVERFAULT) /\
       READDIR3res_Resok rep = mkREADDIR3resok zero zero (mkDirlist3 (link_ents p) eof) /\
       (READDIR3res_Status rep = NFS3_OK -> server L E F s' /\ sim (disk_of s) (disk_of s')) /\
       (* the listing *)
       NoDup (ent_name <$> listing_from (E i) 0) /\
       (forall name n, names (E i) !! name = Some n <-> exists c, mkEntry3 n name c None ∈ listing_from (E i) 0) /\
       (* the page *)
       fills (page_full (READDIR3args_Count args) 64) p eof /\ page_of (E i) k p eof)).
Proof.
  intros i l p eof Hsv Hfh Hi HL Hk.
  apply (wp_READDIR L E F s args fh k (fun rep s' => _ \/ _)); [done..| |].
  { intros st s' Hst Hsv' Hsim. left. by exists st. }
  intros rep s' Hl Hkd [Hst Hlist Hok]. right. fold i l in Hlist.
  rewrite (surjective_pairing (page l _ 64)) in Hlist. fold p eof in Hlist.
  assert (uniq (E i)) as Hu by (by apply (dr_uniq _ _ _ (sv_dirs _ _ _ _ Hsv))).
  split_and!; [done|done|done|done|done|by apply listing_NoDup|by intros; apply listing_names|apply page_fills|apply page_listing].
Qed.

(** C11: READDIRPLUS of a live directory, from the start or from the cookie of an
    entry after the first slot, when no other transaction has a file of the
    directory locked, replies with a page of the same listing as READDIR, each
    entry with the attributes of its file and a handle that resolves to it. The
    page ends with the first entry at which one of the two estimates reaches
    its count, and says end exactly when none does. What is left of the listing,
    the errors and the consistency are as for READDIR: locking and releasing
    the files one after the other changes nothing. *)
Theorem READDIRPLUS_spec F s args fh k : let i := Ino fh in
  let l := listing_from (E i) k in
  let p := (page_plus l (READDIRPLUS3args_Dircount args) (READDIRPLUS3args_Maxcount args) 64 0).1 in
  let eof := (page_plus l (READDIRPLUS3args_Dircount args) (READDIRPLUS3args_Maxcount args) 64 0).2 in
  server L E F s -> MakeFh (READDIRPLUS3args_Dir args) = Ok fh -> ino_ok (disk_of s) i -> i ∉ L ->
  (forall e, e ∈ E i -> in_use e -> de_inum e ∉ L) -> resumes (READDIRPLUS3args_Cookie args) k ->
  exists rep s', NFSPROC3_READDIRPLUS args s = Ok (rep, s') /\
    ((exists st, ((~ live F fh /\ st = NFS3ERR_STALE) \/ (live F fh /\ i_Kind (F i) <> NF3DIR /\ st = NFS3ERR_INVAL)) /\
       rep = mkREADDIRPLUS3res st zero zero /\ server L E F s' /\ sim (disk_of s) (disk_of s')) \/
     (live F fh /\ i_Kind (F i) = NF3DIR /\
       (READDIRPLUS3res_Status rep = NFS3_OK \/ READDIRPLUS3res_Status rep = NFS3ERR_SERVERFAULT) /\
       READDIRPLUS3res_Resok rep = mkREADDIRPLUS3resok zero zero (mkDirlistplus3 (link_plus (plus F <$> p)) eof) /\
       (READDIRPLUS3res_Status rep = NFS3_OK -> server L E F s' /\ sim (disk_of s) (disk_of s')) /\
       (* the handles *)
       (forall x, x ∈ p -> exists n name c, x = mkEntry3 n name c None /\ live F (mkFh n (i_Gen (F n))) /\
          MakeFh (handle_of F n) = Ok (mkFh n (i_Gen (F n)))) /\
       (* the page *)
       fills (plus_full (READDIRPLUS3args_Dircount args) (READDIRPLUS3args_Maxcount args) 64 0) p eof /\
       page_of (E i) k p eof)).
Proof.
  intros i l p eof Hsv Hfh Hi HL Hlk Hk.
  apply (wp_READDIRPLUS L E F s args fh k (fun rep s' => _ \/ _)); [done..| |].
  { intros st s' Hst Hsv' Hsim. left. by exists st. }
  intros rep s' Hl Hkd [Hst Hlist Hok]. right.
  pose proof (page_plus_listing (E i) k (READDIRPLUS3args_Dircount args) (READDIRPLUS3args_Maxcount args) 64 0) as Hp.
  split_and!; [done|done|done|done|done| |apply page_plus_fills|exact Hp]. destruct Hp as (rest & Hr & _).
  intros x Hx. assert (x ∈ l) as Hxl by (unfold l; rewrite Hr; apply elem_of_app; by left).
  unfold l, listing_from in Hxl. apply listing_elem in Hxl as (m & e & He & Hu & ->).
  rewrite lookup_drop in He. apply list_elem_of_lookup_2 in He.
  destruct (dr_live _ _ _ (sv_dirs _ _ _ _ Hsv) i e Hi He Hu) as [Hn Hkn].
  exists (de_inum e), (de_name e), (slot_off (k + m)). split; [done|]. split; [done|].
  apply (handle_fh L E F s); [done|done|apply handle_of_ok].
Qed.
End claims.

(** ** Listing the root directory *)

Definition list_root (cookie count : Z) : READDIR3args := mkREADDIR3args root_fh cookie zero count.

Definition list_root_status : Z :=
  match NFSPROC3_CREATE 1 create_x root_nst with
  | Ok (_, s) => match NFSPROC3_READDIR (list_root 0 4096) s with Ok (rep, _) => READDIR3res_Status rep | _ => -1 end
  | _ => -1
  end.

Lemma list_root_ok : list_root_status = NFS3_OK.
Proof. by vm_compute. Qed.

Lemma READDIR_spec_witness : exists made s E F n rep s', NFSPROC3_CREATE 1 create_x root_nst = Ok (made, s) /\
  has_x E F s n /\ NFSPROC3_READDIR (list_root 0 4096) s = Ok (rep, s') /\ READDIR3res_Status rep = NFS3_OK /\
  exists c, mkEntry3 n (str "x") c None ∈ listing_from (E 1) 0.
Proof.
  destruct create_x_has_x as (made & s & E & F & n & Hc & Hst & Hx). pose proof Hx as [Hsv Hi _ Hl Hn _ _].
  assert (names (E 1) !! str "x" = Some n) as Hnx by (rewrite Hn; apply lookup_singleton_eq).
  destruct (READDIR_spec ∅ E F s (list_root 0 4096) (mkFh 1 1) 0 Hsv root_fh_ok Hi (not_elem_of_empty 1) (or_introl (conj eq_refl eq_refl))) as (rep & s' & Hr & Hor).
  assert (READDIR3res_Status rep = NFS3_OK) as Hok.
  { pose proof list_root_ok as Hok. unfold list_root_status in Hok. rewrite Hc, Hr in Hok. exact Hok. }
  exists made, s, E, F, n, rep, s'. split; [exact Hc|]. split; [exact Hx|]. split; [exact Hr|]. split; [exact Hok|].
  destruct Hor as [(st & [[_ ->]|(_ & _ & ->)] & -> & _)|(_ & _ & _ & _ & _ & _ & Hnames & _)];
    [discriminate Hok|discriminate Hok|]. exact (proj1 (Hnames _ _) Hnx).
Defined.

Definition plus_root : READDIRPLUS3args := mkREADDIRPLUS3args root_fh 0 zero 4096 4096.

Definition plus_root_status : Z :=
  match NFSPROC3_CREATE 1 create_x root_nst with
  | Ok (_, s) => match NFSPROC3_READDIRPLUS plus_root s with Ok (rep, _) => READDIRPLUS3res_Status rep | _ => -1 end
  | _ => -1
  end.

Lemma plus_root_ok : plus_root_status = NFS3_OK.
Proof. by vm_compute. Qed.

Lemma READDIRPLUS_spec_witness : exists made s E F n rep s', NFSPROC3_CREATE 1 create_x root_nst = Ok (made, s) /\
  has_x E F s n /\ NFSPROC3_READDIRPLUS plus_root s = Ok (rep, s') /\ READDIRPLUS3res_Status rep = NFS3_OK /\
  READDIRPLUS3res_Resok rep = mkREADDIRPLUS3resok zero zero
    (mkDirlistplus3 (link_plus (plus F <$> (page_plus (listing_from (E 1) 0) 4096 4096 64 0).1))
       (page_plus (listing_from (E 1) 0) 4096 4096 64 0).2).
Proof.
  destruct create_x_has_x as (made & s & E & F & n & Hc & Hst & Hx). pose proof Hx as [Hsv Hi _ Hl _ _ _].
  destruct (READDIRPLUS_spec ∅ E F s plus_root (mkFh 1 1) 0 Hsv root_fh_ok Hi (not_elem_of_empty 1)
    (fun e _ _ => not_elem_of_empty _) (or_introl (conj eq_refl eq_refl))) as (rep & s' & Hr & Hor).
  assert (READDIRPLUS3res_Status rep = NFS3_OK) as Hok.
  { pose proof plus_root_ok as Hok. unfold plus_root_status in Hok. rewrite Hc, Hr in Hok. exact Hok. }
  exists made, s, E, F, n, rep, s'. split; [exact Hc|]. split; [exact Hx|]. split; [exact Hr|]. split; [exact Hok|].
  destruct Hor as [(st & [[_ ->]|(_ & _ & ->)] & -> & _)|(_ & _ & _ & Hlist & _)];
    [discriminate Hok|discriminate Hok|exact Hlist].
Defined.

(** *** Cookies *)

Definition pages_of (cookies : list (Z * Z)) : option (list (option Dirlist3)) :=
  match NFSPROC3_CREATE 1 create_x root_nst with
  | Ok (_, s) => Some ((fun c => match NFSPROC3_READDIR (list_root c.1 c.2) s with
      | Ok (rep, _) => Some (READDIR3resok_Reply (READDIR3res_Resok rep)) | _ => None end) <$> cookies)
  | _ => None
  end.

(** The cookie of the entry in the first slot is 0, which is also the cookie
    that starts a listing: a page that ends there is listed for ever. A
    cookie that is not the offset of a slot is decoded out of the middle of an
    entry, which panics. *)
Lemma readdir_cookies : exists x, pages_of [(0, 90); (0, 4096); (2 ^ 64 - 127, 4096)] =
  Some [Some (mkDirlist3 (Some x) false); Some (mkDirlist3 (Some x) true); None] /\
  (let 'mkEntry3 _ _ c _ := x in c) = 0.
Proof. eexists. vm_compute. split; reflexivity. Qed.
