(* ===== verification/NfsRenameClaims.v ===== *)
(** The property of RENAME, and its run over an existing name on the sample
    server. *)
From stdpp Require Import functions.
From S2P Require Import Prelude Nfstypes External Reference Super Fh Cache Dcache Alloctxn AtxnCommit Inode.
From S2P Require Import InodeCodec InodeMap InodeIO InodeBound Volume Fstxn FstxnInv Dir DirSpec DirVol Lorder Shrinker Sample.
From S2P Require Import NfsOps NfsFiles NfsDirs NfsNames NfsCreate NfsRemove NfsRename Mkfs MkfsSpec SampleDir.
Import Nfs.

Section claims.
Context `{!Common} `{!CommonSpec} `{!Util} `{!UtilSpec} `{!Marshal} `{!MarshalSpec} `{!Std} `{!StdSpec}
  `{!Buf} `{!BufSpec} `{!Journal} `{!JournalSpec} `{!AllocPkg} `{!AllocSpec}
  `{!LockPkg} `{!LockSpec} `{!Clock} `{!DiskPkg}.
Variable L : gset Z.
Variable E : Z -> list dirEnt.
Variable retry : nat.
Implicit Types (F : Z -> Inode) (s : NSt).

(** C6: RENAME within a directory or between two, to a new name or over an
    existing one: when the name was moved and the reply says OK, the two
    directories have the names they had but for the old name, which is gone,
    and the new name, which is the file's now; a file that had the new name
    is on the free list with no link, no kind and no content; every other
    file keeps its bytes and attributes and every other directory its
    entries; and all of it is on stable storage. Otherwise the reply is
    SERVERFAULT, when the commit fails, or IO, when the new name is too long or
    its directory has no room. Neither stores anything: the disk has the same
    inodes and blocks, and after IO the disk, the allocators and the locks are
    those of the server before; but its cached inodes may not be (the cached
    directory may have lost the old name, see [rename_too_long_loses]), so it
    is that server once they have left the cache. A missing name gets NOENT and
    a target of another kind INVAL, without an effect, and a file renamed to
    itself OK, with nothing stored. A directory that is not there gets STALE,
    without an effect: a single handle is stale when its inode is free or of
    another generation, and of two handles the inodes alone are looked at. *)
Theorem RENAME_spec F s args fh fh' :
  let dfh := Diropargs3_Dir (RENAME3args_From args) in
  let dfh' := Diropargs3_Dir (RENAME3args_To args) in
  let n := Diropargs3_Name (RENAME3args_From args) in
  let n' := Diropargs3_Name (RENAME3args_To args) in
  let i := Ino fh in
  let i' := Ino fh' in
  server L E F s -> retry <> 0%nat -> IllegalName n = false -> MakeFh dfh = Ok fh -> MakeFh dfh' = Ok fh' ->
  one_or_two dfh dfh' fh fh' -> ino_ok (disk_of s) i -> ino_ok (disk_of s) i' -> i ∉ L -> i' ∉ L ->
  dir_ready L E i -> dir_ready L E i' -> rename_over E F (disk_of s) fh n fh' n' ->
  exists rep s', NFSPROC3_RENAME retry args s = Ok (rep, s') /\
    (~ dirs_found F dfh dfh' fh fh' ->
       rep = mkRENAME3res NFS3ERR_STALE zero zero /\ server L E F s' /\ sim (disk_of s) (disk_of s')) /\
    (dirs_found F dfh dfh' fh fh' -> names (E i) !! n = None ->
       rep = mkRENAME3res NFS3ERR_NOENT zero zero /\ server L E F s' /\ sim (disk_of s) (disk_of s')) /\
    (forall j, dirs_found F dfh dfh' fh fh' -> names (E i) !! n = Some j ->
       (i' = i /\ names (E i') !! n' = Some j /\ rep = mkRENAME3res NFS3_OK zero zero /\
          (server L E F s' /\ sim (disk_of s) (disk_of s') \/ same_stored (disk_of s) (disk_of s'))) \/
       ((exists t, names (E i') !! n' = Some t /\ i_Kind (F t) <> i_Kind (F j)) /\
          rep = mkRENAME3res NFS3ERR_INVAL zero zero /\ server L E F s' /\ sim (disk_of s) (disk_of s')) \/
       rename_reply L E F s i n i' n' j rep s').
Proof.
  intros dfh dfh' n n' i i' Hsv Hre Hlegal Hfh Hfh' Htwo Hi Hi' HL HL' Hready Hready' Hover.
  apply (wp_RENAME L E retry F s args fh fh' (fun rep s' => (~ dirs_found F dfh dfh' fh fh' -> _) /\
    (dirs_found F dfh dfh' fh fh' -> _ -> _) /\ (forall j, dirs_found F dfh dfh' fh fh' -> _))); [done..| | |].
  - intros st s' [[Hd ->]|[(Hl & HN & ->)|(Hl & (j & t & Hj & Ht & Hk) & ->)]] Hsv' Hsim.
    + by split_and!.
    + split_and!; [done|done|]. intros j _ Hj. fold i n in HN. congruence.
    + fold i n in Hj. split_and!; [done|intros _ ?; congruence|]. intros j' _ Hj'. right. left.
      assert (j' = j) as -> by congruence. split; [by exists t|done].
  - intros j s' Hl He Hj Hj' Hst. fold i n in Hj. split_and!; [done|intros _ ?; congruence|]. intros k _ Hk. left.
    assert (k = j) as -> by congruence. done.
  - intros j rep s' Hl Hj _ Hrep. fold i n in Hj. split_and!; [done|intros _ ?; congruence|]. intros k _ Hk. right. right.
    assert (k = j) as -> by congruence. exact Hrep.
Qed.
End claims.

(** ** Renaming the file that CREATE made *)

Definition y_in_root : Diropargs3 := mkDiropargs3 root_fh (str "y").

Definition rename_x : RENAME3args := mkRENAME3args x_in_root y_in_root.

Definition rename_x_status : Z :=
  match NFSPROC3_CREATE 1 create_x root_nst with
  | Ok (_, s) => match NFSPROC3_RENAME 1 rename_x s with Ok (rep, _) => RENAME3res_Status rep | _ => -1 end
  | _ => -1
  end.

Lemma rename_x_ok : rename_x_status = NFS3_OK.
Proof. by vm_compute. Qed.

Lemma RENAME_spec_witness : exists made s E F n rep s', NFSPROC3_CREATE 1 create_x root_nst = Ok (made, s) /\
  CREATE3res_Status made = NFS3_OK /\ NFSPROC3_RENAME 1 rename_x s = Ok (rep, s') /\
  RENAME3res_Status rep = NFS3_OK /\ rename_reply ∅ E F s 1 (str "x") 1 (str "y") n rep s'.
Proof.
  destruct create_x_has_x as (made & s & E & F & n & Hc & Hst & [Hsv Hi Hd Hl Hn Hx _]).
  assert (names (E 1) !! str "x" = Some n) as Hnx by (rewrite Hn; apply lookup_singleton_eq).
  assert (names (E 1) !! str "y" = None) as Hny by (rewrite Hn; by apply lookup_singleton_ne).
  destruct (RENAME_spec ∅ E 1 F s rename_x (mkFh 1 1) (mkFh 1 1) Hsv ltac:(discriminate) eq_refl root_fh_ok root_fh_ok
    (or_introl eq_refl) Hi Hi (not_elem_of_empty 1) (not_elem_of_empty 1) Hd Hd) as (rep & s' & Hr & _ & _ & Hrep).
  - intros j t _ Ht. change (names (E 1) !! str "y" = Some t) in Ht. congruence.
  - exists made, s, E, F, n, rep, s'. split; [exact Hc|]. split; [exact Hst|]. split; [exact Hr|].
    split; [pose proof rename_x_ok as Hok; unfold rename_x_status in Hok; rewrite Hc, Hr in Hok; exact Hok|].
    destruct (Hrep n (conj (fun _ => Hl) (fun Hne => False_ind _ (Hne eq_refl))) Hnx) as [(_ & Hy & _)|[((t & Hy & _) & _)|Hok]]; [| |exact Hok].
    + change (names (E 1) !! str "y" = Some n) in Hy. congruence.
    + change (names (E 1) !! str "y" = Some t) in Hy. congruence.
Defined.

(** *** A new name that is too long

    RENAME takes the old name out of the cached names before it finds that the
    new one is too long, and the abort does not put it back: the file cannot be
    found under its name until the directory leaves the cache, although the
    disk still has it. *)

Definition long_in_root : Diropargs3 := mkDiropargs3 root_fh (repeat 97 (Z.to_nat MAXNAMELEN)).

Definition remount : M NSt unit := fun s => Ok (tt, MkShrinkerSt (idle (f_a (n_fs s))) (n_Unstable s)).

Definition rename_too_long : M NSt (list Z) :=
  made ← NFSPROC3_CREATE 1 create_x;
  moved ← NFSPROC3_RENAME 1 (mkRENAME3args x_in_root long_in_root);
  lost ← NFSPROC3_LOOKUP 1 (mkLOOKUP3args x_in_root);
  _ ← remount;
  found ← NFSPROC3_LOOKUP 1 (mkLOOKUP3args x_in_root);
  mret [CREATE3res_Status made; RENAME3res_Status moved; LOOKUP3res_Status lost; LOOKUP3res_Status found].

Lemma rename_too_long_loses : (match rename_too_long root_nst with Ok (l, _) => l | _ => [] end) =
  [NFS3_OK; NFS3ERR_IO; NFS3ERR_NOENT; NFS3_OK].
Proof. by vm_compute. Qed.

(** *** A stale handle

    Between two directories RENAME looks at the inodes of the handles only: a
    handle of the root directory of another generation, which every other
    procedure calls stale, works. When the new name exists, the generations are
    compared after everything was locked again; the comparison fails and RENAME
    starts over from the same state: five rounds are not enough here. A stale
    handle of the other directory itself makes the transaction wait for a lock
    that it holds, since the handles differ and their inodes do not. *)

Definition stale_root : Nfs_fh3 := match MakeFh3 (mkFh 1 7) with Ok h => h | _ => zero end.

Definition d_fh3 (made : MKDIR3res) : Nfs_fh3 := Post_op_fh3_Handle (MKDIR3resok_Obj (MKDIR3res_Resok made)).

Definition rename_stale (rounds : nat) (target : bool) : M NSt (list Z) :=
  made ← NFSPROC3_MKDIR 1 (mkMKDIR3args (mkDiropargs3 root_fh (str "d")) zero);
  let y := mkDiropargs3 (d_fh3 made) (str "y") in
  _ ← NFSPROC3_CREATE 1 create_x;
  _ ← (if target then _ ← NFSPROC3_CREATE 1 (mkCREATE3args y zero); mret tt else mret tt);
  looked ← NFSPROC3_LOOKUP 1 (mkLOOKUP3args (mkDiropargs3 stale_root (str "x")));
  moved ← NFSPROC3_RENAME rounds (mkRENAME3args (mkDiropargs3 stale_root (str "x")) y);
  mret [LOOKUP3res_Status looked; RENAME3res_Status moved].

Lemma rename_stale_works :
  match rename_stale 1 false root_nst with Ok (l, _) => l | _ => [] end = [NFS3ERR_STALE; NFS3_OK] /\
  match rename_stale 5 true root_nst with NoFuel => true | _ => false end = true /\
  match NFSPROC3_RENAME 1 (mkRENAME3args (mkDiropargs3 stale_root (str "x")) y_in_root) root_nst with
  | Blocked => true | _ => false end = true.
Proof. by vm_compute. Qed.
