(* ===== verification/NfsMkdirClaims.v ===== *)
(** The properties of MKDIR and RMDIR, and their runs on the sample server. *)
From stdpp Require Import functions.
From S2P Require Import Prelude Nfstypes External Reference Super Fh Cache Dcache Alloctxn AtxnCommit Inode.
From S2P Require Import InodeCodec InodeMap InodeIO InodeBound Volume Fstxn FstxnInv Dir DirSpec DirVol Lorder Shrinker Sample.
From S2P Require Import NfsOps NfsFiles NfsDirs NfsNames NfsCreate NfsRemove NfsRename NfsMkdir Mkfs MkfsSpec SampleDir.
Import Nfs.

Section claims.
Context `{!Common} `{!CommonSpec} `{!Util} `{!UtilSpec} `{!Marshal} `{!MarshalSpec} `{!Std}
  `{!Buf} `{!BufSpec} `{!Journal} `{!JournalSpec} `{!AllocPkg} `{!AllocSpec}
  `{!LockPkg} `{!LockSpec} `{!Clock} `{!DiskPkg}.
Variable L : gset Z.
Variable E : Z -> list dirEnt.
Variable retry : nat.
Implicit Types (F : Z -> Inode) (s : NSt).

(** C7: MKDIR of a new name in a live directory either makes the directory (a
    free inode becomes a directory with one link, a new generation, the times
    of the call and exactly the entries [.] for itself and [..] for its
    parent; the parent has the name for it besides those it had, and one more
    link; every other directory keeps its entries and every other file its
    bytes; and all of it is on stable storage when the reply says OK), or it
    gives the new directory up, with NOSPC when its entries do not fit the
    disk and IO when the name is too long, the handle is not a directory's or
    there is no room for the name, and nothing is stored. A name that exists
    gets EXIST, a full inode table NOSPC and a dead handle STALE, without an
    effect. *)
Theorem MKDIR_spec F s args fh : let name := Diropargs3_Name (MKDIR3args_Where args) in
  let i := Ino fh in
  server L E F s -> retry <> 0%nat -> MakeFh (Diropargs3_Dir (MKDIR3args_Where args)) = Ok fh ->
  ino_ok (disk_of s) i -> i <> NULLINUM -> i ∉ L -> dir_ready L E i -> spare_ready L F (disk_of s) ->
  spare_dirs F s -> i_Nlink (F i) < 2 ^ 32 - 1 ->
  exists rep s', NFSPROC3_MKDIR retry args s = Ok (rep, s') /\
    ((exists st, make_refused E F s fh name st /\ rep = mkMKDIR3res st zero zero /\
        server L E F s' /\ sim (disk_of s) (disk_of s')) \/
     (live F fh /\ names (E i) !! name = None /\
        ((exists st, make_undone E F s i name st /\ rep = mkMKDIR3res st zero zero /\ sim (disk_of s) (disk_of s')) \/
         mkdir_reply L E F s i name rep s'))).
Proof.
  intros name i Hsv Hre Hfh Hi Hi0 HL Hready Hspare Hdirs Hnl.
  apply (wp_MKDIR L E retry F s args fh (fun rep s' => _ \/ _)); [done..| | |].
  - intros st s' Hst Hsv' Hsim. left. by exists st.
  - intros st s' Hl HN Hst Hsim. right. split_and!; [done|done|]. left. by exists st.
  - intros rep s' Hl HN Hrep. right. split_and!; [done|done|]. by right.
Qed.

(** C8: RMDIR of a legal name in a live directory: when it names an empty
    directory, the name and no other is taken out of the directory, every other
    directory keeps its entries and every other file its bytes, and all of it
    is on stable storage when the reply says OK. With its last link, which the
    name must be the only one to use, the inode goes: it is on the free list
    with a new generation and size 0, and every block of the directory past
    the point that the shrinking reached is on the free list, which is all of
    them, unless the transaction is full; when the blocks do not fit it none is
    freed and a shrinker is started for them. A directory with more links (one
    that had a subdirectory once) keeps its inode, entries and blocks, with one
    link less. A file and a directory that has an entry besides its first two
    get INVAL, a missing name NOENT and a dead handle STALE, without an
    effect. *)
Theorem RMDIR_spec F s args fh : let name := Diropargs3_Name (RMDIR3args_Object args) in
  let i := Ino fh in
  server L E F s -> retry <> 0%nat -> IllegalName name = false ->
  MakeFh (Diropargs3_Dir (RMDIR3args_Object args)) = Ok fh ->
  ino_ok (disk_of s) i -> i ∉ L -> dir_ready L E i ->
  (forall j, names (E i) !! name = Some j -> i_Kind (F j) = NF3DIR -> empty_dir (E j) ->
     j <> i /\ (i_Nlink (F j) = 1 -> unlinkable E F (disk_of s) i name j)) ->
  exists rep s', NFSPROC3_RMDIR retry args s = Ok (rep, s') /\
    ((exists st, remove_refused E F fh name true st /\ rep = mkRMDIR3res st zero zero /\
        server L E F s' /\ sim (disk_of s) (disk_of s')) \/
     (exists j, live F fh /\ names (E i) !! name = Some j /\ i_Kind (F j) = NF3DIR /\ empty_dir (E j) /\
        rmdir_reply L E F s i name j rep s')).
Proof.
  intros name i Hsv Hre Hlegal Hfh Hi HL Hready Hrm.
  apply (wp_RMDIR L E retry F s args fh (fun rep s' => _ \/ _)); [done..| |].
  - intros st s' Hst Hsv' Hsim. left. by exists st.
  - intros j rep s' Hl HN Hk He Hrep. right. by exists j.
Qed.

(** The server [s'] is [s] but for the inode [n], free before and after, and
    the link count of directory [i]. *)
Record as_before F s i E' F' s' n : Prop := {
  ab_server : server L E' F' s';
  ab_names : names (E' i) = names (E i);
  ab_dirs : forall k, ino_ok (disk_of s) k -> k <> i -> E' k = E k;
  ab_files : forall k, k ∉ ({[i; n]} : gset Z) -> F' k = F k;
  ab_frame : frame F {[i; n]} (disk_of s) (disk_of s');
  ab_free : n ∈ alloc_free (a_ialloc (disk_of s)) /\ n ∈ alloc_free (a_ialloc (disk_of s'));
  ab_parent : i_Kind (F' i) = i_Kind (F i) /\ i_Gen (F' i) = i_Gen (F i) /\ i_Nlink (F' i) = i_Nlink (F i) + 1;
}.

Lemma removed_as_before F s i name E1 F1 s1 n rep s' : server L E F s -> ino_ok (disk_of s) i ->
  names (E i) !! name = None -> is_u32 (i_Nlink (F i)) -> i_Nlink (F i) < 2 ^ 32 - 1 ->
  has_dir L E F s i name E1 F1 s1 n -> i_Nlink (F1 n) = 1 -> rmdir_reply L E1 F1 s1 i name n rep s' -> RMDIR3res_Status rep = NFS3_OK ->
  exists E' F', as_before F s i E' F' s' n.
Proof.
  intros Hsv Hi HN Hu Hnl [_ Hsp (Hn & Hne & Hno) Hnm _ (ipd1 & Hat & Hfp) Hoth Hfr _ _ _] Hlk [_ Hok] Hst.
  destruct (Hok Hst) as (k & ip' & ipd & Hk & Hfx & Hnames & Hfr' & Hsp' & _ & Hlast & _).
  destruct (Hlast Hlk) as (Hgone & Hsv' & Hfree & _).
  set (es := set_slot (E1 i) k no_entry) in *. eexists _, _. split; [exact Hsv'|..].
  - rewrite fn_lookup_insert_ne, fn_lookup_insert, Hnames, Hnm by done. by rewrite delete_insert_id.
  - intros l Hl Hli. destruct (decide (l = n)) as [->|Hln].
    + rewrite fn_lookup_insert. symmetry. apply (dr_none _ _ _ (sv_dirs _ _ _ _ Hsv)); [done|].
      destruct (sv_free _ _ _ _ Hsv n Hn) as [-> _]. done.
    + rewrite !fn_lookup_insert_ne by done. by apply Hoth.
  - intros l Hl. rewrite !fn_lookup_insert_ne by set_solver. apply Hoth; set_solver.
  - apply (frame_trans F F1 _ _ (disk_of s1)); [done|done|done|]. intros l Hl. apply Hoth; set_solver.
  - done.
  - rewrite fn_lookup_insert_ne, fn_lookup_insert, Hfx, Hfp by done. simpl.
    destruct (same_attrs_eqs _ _ Hat) as (-> & -> & _). split_and!; [done|done|].
    rewrite (same_attrs_Nlink _ _ Hat). simpl. unfold w32, is_u32 in *. apply Z.mod_small. lia.
Qed.

(** C13: RMDIR undoes MKDIR, but for the link count of the parent: when MKDIR
    of a legal name replies OK, RMDIR of that name in the server it leaves
    replies OK or SERVERFAULT; on OK the directory has the names it had before
    MKDIR, every other directory its entries and every other file its inode
    and its bytes, and the inode MKDIR took is free again; but the parent
    directory has one more link than it had. *)
Theorem MKDIR_RMDIR F s args fh : let name := Diropargs3_Name (MKDIR3args_Where args) in
  let i := Ino fh in
  server L E F s -> retry <> 0%nat -> IllegalName name = false ->
  MakeFh (Diropargs3_Dir (MKDIR3args_Where args)) = Ok fh ->
  ino_ok (disk_of s) i -> i <> NULLINUM -> i ∉ L -> dir_ready L E i -> spare_ready L F (disk_of s) ->
  spare_dirs F s -> i_Nlink (F i) < 2 ^ 32 - 1 -> Z.of_nat (length (E i)) < 400000 ->
  exists made s1, NFSPROC3_MKDIR retry args s = Ok (made, s1) /\
    (MKDIR3res_Status made = NFS3_OK ->
       exists rep s', NFSPROC3_RMDIR retry (mkRMDIR3args (MKDIR3args_Where args)) s1 = Ok (rep, s') /\
         (RMDIR3res_Status rep = NFS3_OK \/ RMDIR3res_Status rep = NFS3ERR_SERVERFAULT) /\
         (RMDIR3res_Status rep = NFS3_OK -> exists E' F' n, as_before F s i E' F' s' n)).
Proof.
  intros name i Hsv Hre Hlegal Hfh Hi Hi0 HL Hready Hspare Hdirs Hnl Hlen.
  apply (wp_MKDIR L E retry F s args fh (fun made s1 => MKDIR3res_Status made = NFS3_OK -> _)); [done..| | |].
  { intros st s1 Hst _ _ Hok. by destruct (make_error E F s fh name st Hst Hok). }
  { intros st s1 _ _ Hst _ Hok. by destruct (make_undone_error E F s i name st Hst Hok). }
  intros made s1 Hlive HN Hrep Hmade.
  destruct (mkdir_has_dir L E F s i name made s1 Hsv Hi Hrep Hmade) as (E1 & F1 & n & Hd). pose proof Hd as
    [Hsv1 Hsp (Hn & Hne & Hno) Hnm Hready1 (ipd1 & Hat & Hfp) _ _ [Hk He] _ Hun].
  assert (names (E1 i) !! name = Some n) as HN1 by (by rewrite Hnm, lookup_insert_eq).
  assert (live F1 fh) as Hlive1.
  { unfold live. fold i. rewrite Hfp. simpl. destruct (same_attrs_eqs _ _ Hat) as (-> & -> & _). exact Hlive. }
  apply (wp_RMDIR L E1 retry F1 s1 (mkRMDIR3args (MKDIR3args_Where args)) fh
    (fun rep s' => (_ \/ _) /\ (RMDIR3res_Status rep = NFS3_OK -> _))); [done|done|done|done| |done| | | |].
  - by eapply ino_ok_super.
  - apply Hready1; [by apply Hspare|done|done].
  - intros j Hj _ _. change (names (E1 i) !! name = Some j) in Hj. replace j with n by congruence. split; [apply Hun|done].
  - intros st s' Hst _ _. fold name in Hst. destruct Hst as [[? _]|[(_ & HN' & _)|(_ & _ & (j & Hj & Hbad) & _)]]; [done| |].
    + change (names (E1 i) !! name = None) in HN'. congruence.
    + change (names (E1 i) !! name = Some j) in Hj. replace j with n in Hbad by congruence. tauto.
  - intros j rep s' _ Hj _ _ Hrm. change (names (E1 i) !! name = Some j) in Hj. replace j with n in Hrm by congruence.
    split; [apply Hrm|]. intros Hst.
    destruct (removed_as_before F s i name E1 F1 s1 n rep s') as (E' & F' & Hab); try done; [|apply Hun|by exists E', F', n].
    apply (iw_Nlink _ (di_wf _ _ _ (vo_inode _ _ (sv_vol _ _ _ _ Hsv) i Hi))).
Qed.
End claims.

(** ** A directory in the root *)

Definition mkdir_d : MKDIR3args := mkMKDIR3args (mkDiropargs3 root_fh (str "d")) zero.

Definition mkdir_d_status : Z :=
  match NFSPROC3_MKDIR 1 mkdir_d root_nst with Ok (rep, _) => MKDIR3res_Status rep | _ => -1 end.

Lemma mkdir_d_ok : mkdir_d_status = NFS3_OK.
Proof. by vm_compute. Qed.

Lemma root_spare_dirs : spare_dirs root_vol root_nst.
Proof.
  intros n Hn. split; [|exact (new_files_blks root_ip eq_refl n)].
  intros p ip _ Hp. change (f_heap (n_fs root_nst)) with (∅ : gmap Z Inode) in Hp. by rewrite lookup_empty in Hp.
Qed.

Lemma root_links : i_Nlink (root_vol 1) < 2 ^ 32 - 1.
Proof. by rewrite root_vol_1. Qed.

Lemma MKDIR_spec_witness : exists rep s', NFSPROC3_MKDIR 1 mkdir_d root_nst = Ok (rep, s') /\
  MKDIR3res_Status rep = NFS3_OK /\ mkdir_reply ∅ (fun _ => []) root_vol root_nst 1 (str "d") rep s'.
Proof.
  destruct (MKDIR_spec ∅ (fun _ => []) 1 root_vol root_nst mkdir_d (mkFh 1 1) root_server ltac:(discriminate) root_fh_ok
    root_nst_ino ltac:(discriminate) (not_elem_of_empty 1) root_dir_ready root_spare_ready root_spare_dirs root_links)
    as (rep & s' & Hr & Hor).
  assert (MKDIR3res_Status rep = NFS3_OK) as Hok.
  { pose proof mkdir_d_ok as Hok. unfold mkdir_d_status in Hok. rewrite Hr in Hok. exact Hok. }
  exists rep, s'. split; [exact Hr|]. split; [exact Hok|].
  destruct Hor as [(st & Hst & -> & _)|(_ & _ & [(st & Hst & -> & _)|Hrep])]; [| |exact Hrep].
  - destruct (make_error _ _ _ _ _ _ Hst Hok).
  - destruct (make_undone_error _ _ _ _ _ _ Hst Hok).
Defined.

(** *** RMDIR of that directory *)

Definition rmdir_d : RMDIR3args := mkRMDIR3args (MKDIR3args_Where mkdir_d).

Definition rmdir_d_status : Z :=
  match NFSPROC3_MKDIR 1 mkdir_d root_nst with
  | Ok (_, s) => match NFSPROC3_RMDIR 1 rmdir_d s with Ok (rep, _) => RMDIR3res_Status rep | _ => -1 end
  | _ => -1
  end.

Lemma rmdir_d_ok : rmdir_d_status = NFS3_OK.
Proof. by vm_compute. Qed.

(** The server after MKDIR, where ["d"] is the directory [n]. *)
Lemma mkdir_d_has_dir : exists rep s E F n, NFSPROC3_MKDIR 1 mkdir_d root_nst = Ok (rep, s) /\
  MKDIR3res_Status rep = NFS3_OK /\ has_dir ∅ (fun _ => []) root_vol root_nst 1 (str "d") E F s n.
Proof.
  destruct (wp_MKDIR ∅ (fun _ => []) 1 root_vol root_nst mkdir_d (mkFh 1 1)
    (fun rep s => MKDIR3res_Status rep = NFS3_OK -> mkdir_reply ∅ (fun _ => []) root_vol root_nst 1 (str "d") rep s))
    as (rep & s & Hr & HQ); [exact root_server|discriminate|exact root_fh_ok|exact root_nst_ino|discriminate|
    exact (not_elem_of_empty 1)|exact root_dir_ready|exact root_spare_ready|exact root_spare_dirs|exact root_links| | | |].
  - intros st s Hst _ _ Hok. destruct (make_error _ _ _ _ _ _ Hst Hok).
  - intros st s _ _ Hst _ Hok. destruct (make_undone_error _ _ _ _ _ _ Hst Hok).
  - intros rep s _ _ Hrep _. exact Hrep.
  - assert (MKDIR3res_Status rep = NFS3_OK) as Hst.
    { pose proof mkdir_d_ok as Hok. unfold mkdir_d_status in Hok. rewrite Hr in Hok. exact Hok. }
    destruct (mkdir_has_dir ∅ (fun _ => []) root_vol root_nst 1 (str "d") rep s root_server root_nst_ino (HQ Hst) Hst)
      as (E & F & n & Hd). exists rep, s, E, F, n. exact (conj Hr (conj Hst Hd)).
Qed.

Lemma RMDIR_spec_witness : exists made s E F n rep s', NFSPROC3_MKDIR 1 mkdir_d root_nst = Ok (made, s) /\
  MKDIR3res_Status made = NFS3_OK /\ NFSPROC3_RMDIR 1 rmdir_d s = Ok (rep, s') /\
  RMDIR3res_Status rep = NFS3_OK /\ rmdir_reply ∅ E F s 1 (str "d") n rep s'.
Proof.
  destruct mkdir_d_has_dir as (made & s & E & F & n & Hr & Hst & [Hsv Hsp _ Hnm Hrd _ _ _ _ _ Hun]).
  assert (names (E 1) !! str "d" = Some n) as Hd by (rewrite Hnm; apply lookup_insert_eq).
  destruct (RMDIR_spec ∅ E 1 F s rmdir_d (mkFh 1 1) Hsv ltac:(discriminate) eq_refl root_fh_ok) as (rep & s' & Hm & Hor).
  - eapply ino_ok_super; [|exact root_nst_ino]. symmetry. exact Hsp.
  - exact (not_elem_of_empty 1).
  - apply Hrd; [exact (not_elem_of_empty n)|simpl; lia|exact root_dir_ready].
  - intros j Hj _ _. change (names (E 1) !! str "d" = Some j) in Hj. rewrite Hd in Hj. injection Hj as <-. exact (conj (un_ne _ _ _ _ _ _ Hun) (fun _ => Hun)).
  - assert (RMDIR3res_Status rep = NFS3_OK) as Hok.
    { pose proof rmdir_d_ok as Hok. unfold rmdir_d_status in Hok. rewrite Hr, Hm in Hok. exact Hok. }
    exists made, s, E, F, n, rep, s'. split; [exact Hr|]. split; [exact Hst|]. split; [exact Hm|]. split; [exact Hok|].
    destruct Hor as [(st & Hs & -> & _)|(j & _ & Hj & _ & _ & Hrep)]; [destruct (remove_error _ _ _ _ _ _ Hs Hok)|].
    change (names (E 1) !! str "d" = Some j) in Hj. rewrite Hd in Hj. injection Hj as <-. exact Hrep.
Defined.

Lemma MKDIR_RMDIR_witness : exists made s1 rep s', NFSPROC3_MKDIR 1 mkdir_d root_nst = Ok (made, s1) /\
  MKDIR3res_Status made = NFS3_OK /\ NFSPROC3_RMDIR 1 rmdir_d s1 = Ok (rep, s') /\
  RMDIR3res_Status rep = NFS3_OK /\ exists E' F' n, as_before ∅ (fun _ => []) root_vol root_nst 1 E' F' s' n.
Proof.
  destruct (MKDIR_RMDIR ∅ (fun _ => []) 1 root_vol root_nst mkdir_d (mkFh 1 1) root_server ltac:(discriminate) eq_refl root_fh_ok
    root_nst_ino ltac:(discriminate) (not_elem_of_empty 1) root_dir_ready root_spare_ready root_spare_dirs root_links
    ltac:(simpl; lia)) as (made & s1 & Hr & Hor).
  assert (MKDIR3res_Status made = NFS3_OK) as Hst.
  { pose proof mkdir_d_ok as Hok. unfold mkdir_d_status in Hok. rewrite Hr in Hok. exact Hok. }
  destruct (Hor Hst) as (rep & s' & Hm & _ & Hab). change (NFSPROC3_RMDIR 1 rmdir_d s1 = Ok (rep, s')) in Hm.
  assert (RMDIR3res_Status rep = NFS3_OK) as Hok.
  { pose proof rmdir_d_ok as Hok. unfold rmdir_d_status in Hok. rewrite Hr, Hm in Hok. exact Hok. }
  exists made, s1, rep, s'. exact (conj Hr (conj Hst (conj Hm (conj Hok (Hab Hok))))).
Defined.
