(* ===== verification/NfsLinkClaims.v ===== *)
(** The properties of SYMLINK and READLINK, and their runs on the sample
    server. *)
From stdpp Require Import functions.
From S2P Require Import Prelude Nfstypes External Reference Super Fh Cache Dcache Alloctxn AtxnCommit Inode.
From S2P Require Import InodeCodec InodeMap InodeIO InodeBound Volume Fstxn FstxnInv Dir DirSpec DirVol Lorder Shrinker Sample.
From S2P Require Import NfsOps NfsFiles NfsDirs NfsNames NfsCreate NfsRemove NfsRename NfsMkdir NfsSymlink Mkfs MkfsSpec SampleDir.
Import Nfs.

Section claims.
Context `{!Common} `{!CommonSpec} `{!Util} `{!UtilSpec} `{!Marshal} `{!MarshalSpec} `{!Std}
  `{!Buf} `{!BufSpec} `{!Journal} `{!JournalSpec} `{!AllocPkg} `{!AllocSpec}
  `{!LockPkg} `{!LockSpec} `{!Clock} `{!DiskPkg}.
Variable L : gset Z.
Variable E : Z -> list dirEnt.
Variable retry : nat.
Implicit Types (F : Z -> Inode) (s : NSt).

(** C9: SYMLINK of a new name in a live directory, with a target of at most one
    block, either makes the link (a free inode becomes a symbolic link with one
    link, a new generation and the times of the call, whose bytes are exactly
    the target; the directory has the name for it besides those it had; every
    other directory keeps its entries and every other file its bytes; and all
    of it is on stable storage when the reply says OK), or it gives the new
    inode up, with NOSPC when the target does not fit the disk and IO when the
    name is too long, the handle is not a directory's or there is no room for
    the name, and nothing is stored. A name that exists gets EXIST, a full
    inode table NOSPC and a dead handle STALE, without an effect. *)
Theorem SYMLINK_spec F s args fh : let name := Diropargs3_Name (SYMLINK3args_Where args) in
  let data := Symlinkdata3_Symlink_data (SYMLINK3args_Symlink args) in
  let i := Ino fh in
  server L E F s -> retry <> 0%nat -> MakeFh (Diropargs3_Dir (SYMLINK3args_Where args)) = Ok fh ->
  ino_ok (disk_of s) i -> i ∉ L -> dir_ready L E i -> spare_ready L F (disk_of s) -> spare_empty F (disk_of s) ->
  len data <= 4096 ->
  exists rep s', NFSPROC3_SYMLINK retry args s = Ok (rep, s') /\
    ((exists st, make_refused E F s fh name st /\ rep = mkSYMLINK3res st zero zero /\
        server L E F s' /\ sim (disk_of s) (disk_of s')) \/
     (live F fh /\ names (E i) !! name = None /\
        ((exists st, make_undone E F s i name st /\ rep = mkSYMLINK3res st zero zero /\ sim (disk_of s) (disk_of s')) \/
         symlink_reply L E F s i name data rep s'))).
Proof.
  intros name data i Hsv Hre Hfh Hi HL Hready Hspare Hempty Hlen.
  apply (wp_SYMLINK L E retry F s args fh (fun rep s' => _ \/ _)); [done..| | |].
  - intros st s' Hst Hsv' Hsim. left. by exists st.
  - intros st s' Hl HN Hst Hsim. right. split_and!; [done|done|]. left. by exists st.
  - intros rep s' Hl HN Hrep. right. split_and!; [done|done|]. by right.
Qed.

(** C14: what SYMLINK stored READLINK returns: when SYMLINK replies OK, READLINK
    of the handle it replied returns the target, as long as the disk has a free
    block left; it can only fail by failing to commit. *)
Theorem SYMLINK_READLINK F s args fh : let data := Symlinkdata3_Symlink_data (SYMLINK3args_Symlink args) in
  let i := Ino fh in
  server L E F s -> retry <> 0%nat -> MakeFh (Diropargs3_Dir (SYMLINK3args_Where args)) = Ok fh ->
  ino_ok (disk_of s) i -> i ∉ L -> dir_ready L E i -> spare_ready L F (disk_of s) -> spare_empty F (disk_of s) ->
  len data <= 4096 ->
  exists made s1, NFSPROC3_SYMLINK retry args s = Ok (made, s1) /\
    (SYMLINK3res_Status made = NFS3_OK -> exists h rep s2,
       SYMLINK3resok_Obj (SYMLINK3res_Resok made) = mkPost_op_fh3 true h /\
       NFSPROC3_READLINK (mkREADLINK3args h) s1 = Ok (rep, s2) /\
       (READLINK3res_Status rep = NFS3_OK \/ READLINK3res_Status rep = NFS3ERR_SERVERFAULT) /\
       (alloc_free (a_balloc (disk_of s2)) <> ∅ -> READLINK3resok_Data (READLINK3res_Resok rep) = data)).
Proof.
  intros data i Hsv Hre Hfh Hi HL Hready Hspare Hempty Hlen.
  apply (wp_SYMLINK L E retry F s args fh (fun made s1 => SYMLINK3res_Status made = NFS3_OK -> _)); [done..| | |].
  { intros st s1 Hst _ _ Hok. by destruct (make_error E F s fh _ st Hst Hok). }
  { intros st s1 _ _ Hst _ Hok. by destruct (make_undone_error E F s i _ st Hst Hok). }
  intros made s1 _ _ [_ Hok] Hst.
  destruct (Hok Hst) as (n & j & ip & h & E' & F' & t1 & t2 & -> & Hh & Hn & _ & Hne & Hno & _ & _ & Hfx & Hsz & HFn & Hby & _ & _ & _ &
    _ & _ & Hsv1 & _ & Hsup & _). fold data in Hsz, Hby.
  assert (ino_ok (disk_of s1) n) as Hno1 by (by eapply ino_ok_super).
  assert (MakeFh h = Ok (mkFh n (i_Gen (F' n)))) as Hh'.
  { apply (handle_fh L E' F' s1); [done|done|]. by rewrite <-HFn in Hh. }
  assert (live F' (mkFh n (i_Gen (F' n))) /\ i_Kind (F' n) = NF3LNK) as [Hlive Hk].
  { unfold live. simpl. by rewrite HFn, Hfx. }
  destruct (wp_READLINK L E' F' s1 (mkREADLINK3args h) (mkFh n (i_Gen (F' n))) (fun rep s2 =>
      (READLINK3res_Status rep = NFS3_OK \/ READLINK3res_Status rep = NFS3ERR_SERVERFAULT) /\
      (alloc_free (a_balloc (disk_of s2)) <> ∅ -> READLINK3resok_Data (READLINK3res_Resok rep) = data)))
    as (rep & s2 & Hr & Hrep); [done|done|done|by apply Hspare| |done|done| |by exists h, rep, s2].
  - simpl. rewrite HFn, Hsz. unfold MaxBlks. lia.
  - intros rep s2 _ _ [Hrs (m & Hm & Hd & Hshort & _)]. split; [done|]. simpl in *. intros Hfree.
    rewrite HFn, Hsz in *. assert (m = len data) as -> by (destruct (decide (m < len data)); [by destruct Hfree; apply Hshort|lia]).
    rewrite Hd. unfold len. by rewrite Nat2Z.id.
Qed.
End claims.

(** ** A link in the root *)

Definition symlink_l : SYMLINK3args := mkSYMLINK3args (mkDiropargs3 root_fh (str "l")) (mkSymlinkdata3 zero (str "target")).

Definition symlink_l_status : Z :=
  match NFSPROC3_SYMLINK 1 symlink_l root_nst with Ok (rep, _) => SYMLINK3res_Status rep | _ => -1 end.

Lemma symlink_l_ok : symlink_l_status = NFS3_OK.
Proof. by vm_compute. Qed.

Lemma root_spare_empty : spare_empty root_vol (disk_of root_nst).
Proof. intros n _. exact (new_files_blks root_ip eq_refl n). Qed.

Lemma symlink_l_len : len (Symlinkdata3_Symlink_data (SYMLINK3args_Symlink symlink_l)) <= 4096.
Proof. by vm_compute. Qed.

Lemma SYMLINK_spec_witness : exists rep s', NFSPROC3_SYMLINK 1 symlink_l root_nst = Ok (rep, s') /\
  SYMLINK3res_Status rep = NFS3_OK /\ symlink_reply ∅ (fun _ => []) root_vol root_nst 1 (str "l") (str "target") rep s'.
Proof.
  destruct (SYMLINK_spec ∅ (fun _ => []) 1 root_vol root_nst symlink_l (mkFh 1 1) root_server ltac:(discriminate) root_fh_ok
    root_nst_ino (not_elem_of_empty 1) root_dir_ready root_spare_ready root_spare_empty symlink_l_len)
    as (rep & s' & Hr & Hor).
  assert (SYMLINK3res_Status rep = NFS3_OK) as Hok.
  { pose proof symlink_l_ok as Hok. unfold symlink_l_status in Hok. rewrite Hr in Hok. exact Hok. }
  exists rep, s'. split; [exact Hr|]. split; [exact Hok|].
  destruct Hor as [(st & Hst & -> & _)|(_ & _ & [(st & Hst & -> & _)|Hrep])]; [| |exact Hrep].
  - destruct (make_error _ _ _ _ _ _ Hst Hok).
  - destruct (make_undone_error _ _ _ _ _ _ Hst Hok).
Defined.

Lemma SYMLINK_READLINK_witness : exists made s1 h rep s2, NFSPROC3_SYMLINK 1 symlink_l root_nst = Ok (made, s1) /\
  SYMLINK3resok_Obj (SYMLINK3res_Resok made) = mkPost_op_fh3 true h /\
  NFSPROC3_READLINK (mkREADLINK3args h) s1 = Ok (rep, s2) /\
  (alloc_free (a_balloc (disk_of s2)) <> ∅ -> READLINK3resok_Data (READLINK3res_Resok rep) = str "target").
Proof.
  destruct (SYMLINK_READLINK ∅ (fun _ => []) 1 root_vol root_nst symlink_l (mkFh 1 1) root_server ltac:(discriminate) root_fh_ok
    root_nst_ino (not_elem_of_empty 1) root_dir_ready root_spare_ready root_spare_empty symlink_l_len)
    as (made & s1 & Hr & Hor).
  assert (SYMLINK3res_Status made = NFS3_OK) as Hok.
  { pose proof symlink_l_ok as Hok. unfold symlink_l_status in Hok. rewrite Hr in Hok. exact Hok. }
  destruct (Hor Hok) as (h & rep & s2 & Hobj & Hm & _ & Hd).
  exists made, s1, h, rep, s2. exact (conj Hr (conj Hobj (conj Hm Hd))).
Defined.
