(* ===== verification/Clnt.v ===== *)
(** The client of the tests ([nfs/nfs_clnt.go]): it makes a server on a disk in
    memory and calls its procedures; and a property of two calls. *)
From stdpp Require Import functions.
From S2P Require Import Prelude Nfstypes External Reference Super Fh Cache Dcache Alloctxn AtxnCommit Inode.
From S2P Require Import InodeCodec InodeMap InodeIO Volume InodeClaims Fstxn FstxnInv Shrinker Sample.
From S2P Require Import Dir NfsOps NfsFiles NfsClaims Mkfs.
Import Nfs.

Section clnt.
Context `{!Common} `{!Util} `{!Marshal} `{!Std} `{!Buf} `{!Journal} `{!AllocPkg} `{!LockPkg}
  `{!Clock} `{!DiskPkg} `{!BufDisk}.
Variable NewMemDisk : Z -> Disk.
Variable obj_Shutdown : Log -> Log.
Variable retry : nat.

(** A client is its server. *)
Definition MkNfsClient (sz : Z) : res (Disk * NSt) := MakeNfs (NewMemDisk sz).

Definition clnt_Shutdown : M NSt unit := ShutdownNfs obj_Shutdown.

Definition clnt_Crash : M NSt unit := CrashNfs obj_Shutdown.

Definition CreateOp (fh : Nfs_fh3) (name : list Z) : M NSt CREATE3res :=
  NFSPROC3_CREATE retry (mkCREATE3args (mkDiropargs3 fh name) zero).

Definition LookupOp (fh : Nfs_fh3) (name : list Z) : M NSt LOOKUP3res :=
  NFSPROC3_LOOKUP retry (mkLOOKUP3args (mkDiropargs3 fh name)).

Definition GetattrOp (fh : Nfs_fh3) : M NSt GETATTR3res := NFSPROC3_GETATTR (mkGETATTR3args fh).

Definition WriteOp (fh : Nfs_fh3) (off : Z) (data : list Z) (how : Z) : M NSt WRITE3res :=
  NFSPROC3_WRITE retry (mkWRITE3args fh off (w32 (len data)) how data).

Definition ReadOp (fh : Nfs_fh3) (off sz : Z) : M NSt READ3res :=
  NFSPROC3_READ (mkREAD3args fh off (w32 sz)).

Definition RemoveOp (dir : Nfs_fh3) (name : list Z) : M NSt REMOVE3res :=
  NFSPROC3_REMOVE retry (mkREMOVE3args (mkDiropargs3 dir name)).

Definition MkDirOp (dir : Nfs_fh3) (name : list Z) : M NSt MKDIR3res :=
  NFSPROC3_MKDIR retry (mkMKDIR3args (mkDiropargs3 dir name) zero).

Definition RmDirOp (dir : Nfs_fh3) (name : list Z) : M NSt RMDIR3res :=
  NFSPROC3_RMDIR retry (mkRMDIR3args (mkDiropargs3 dir name)).

Definition SymLinkOp (dir : Nfs_fh3) (name path : list Z) : M NSt SYMLINK3res :=
  NFSPROC3_SYMLINK retry (mkSYMLINK3args (mkDiropargs3 dir name) (mkSymlinkdata3 zero path)).

Definition ReadLinkOp (fh : Nfs_fh3) : M NSt READLINK3res :=
  NFSPROC3_READLINK (mkREADLINK3args fh).

Definition CommitOp (fh : Nfs_fh3) (cnt : Z) : M NSt COMMIT3res :=
  NFSPROC3_COMMIT (mkCOMMIT3args fh 0 (w32 cnt)).

Definition RenameOp (fhfrom : Nfs_fh3) (from : list Z) (fhto : Nfs_fh3) (to : list Z) : M NSt Z :=
  reply ← NFSPROC3_RENAME retry (mkRENAME3args (mkDiropargs3 fhfrom from) (mkDiropargs3 fhto to));
  mret (RENAME3res_Status reply).

Definition SetattrOp (fh : Nfs_fh3) (sz : Z) : M NSt SETATTR3res :=
  let size := mkSet_size3 true sz in
  let attr := mkSattr3 zero zero zero size zero zero in
  NFSPROC3_SETATTR retry (mkSETATTR3args fh attr zero).

Definition ReadDirPlusOp (dir : Nfs_fh3) (cnt : Z) : M NSt READDIRPLUS3res :=
  NFSPROC3_READDIRPLUS (mkREADDIRPLUS3args dir zero zero 100 (w32 cnt)).
End clnt.

Section claims.
Context `{!Common} `{!CommonSpec} `{!Util} `{!UtilSpec} `{!Marshal} `{!MarshalSpec} `{!Std}
  `{!Buf} `{!BufSpec} `{!Journal} `{!JournalSpec} `{!AllocPkg} `{!AllocSpec}
  `{!LockPkg} `{!LockSpec} `{!Clock} `{!DiskPkg}.
Variable L : gset Z.
Variable E : Z -> list dirEnt.
Variable retry : nat.
Implicit Types (F : Z -> Inode) (s : NSt).

(** C29: what a client writes to a file and the server acknowledges in full, the
    client reads back: a READ of the same bytes right after it returns the data,
    as long as the disk has a free block left; the read itself can only fail by
    failing to commit. *)
Theorem WriteOp_ReadOp F s fh3 fh off data how : server L E F s -> retry <> 0%nat ->
  MakeFh fh3 = Ok fh -> ino_ok (disk_of s) (Ino fh) -> Ino fh ∉ L -> live F fh ->
  i_Kind (F (Ino fh)) = NF3REG -> is_shrinking (F (Ino fh)) = false ->
  i_Size (F (Ino fh)) <= MaxFileSize -> 0 <= off -> 0 < len data < LogBytes ->
  off + len data <= MaxFileSize ->
  exists wrep s1, WriteOp retry fh3 off data how s = Ok (wrep, s1) /\
    (WRITE3res_Status wrep = NFS3_OK -> WRITE3resok_Count (WRITE3res_Resok wrep) = len data ->
     exists rrep s2, ReadOp fh3 off (len data) s1 = Ok (rrep, s2) /\
       (READ3res_Status rrep = NFS3_OK \/ READ3res_Status rrep = NFS3ERR_SERVERFAULT) /\
       READ3resok_Eof (READ3res_Resok rrep) = false /\
       (alloc_free (a_balloc (disk_of s2)) <> ∅ -> READ3resok_Data (READ3res_Resok rrep) = data)).
Proof.
  intros Hsv Hre Hfh Hi HL Hlive Hk Hsh Hsz Ho Hlen Hmax. set (i := Ino fh) in *.
  assert (LogBytes < 2 ^ 32) as Hlb.
  { rewrite LogBytes_eq. pose proof LogBlocks_range. csimp. lia. }
  unfold WriteOp, ReadOp. rewrite (w32_small (len data)) by lia.
  destruct (WRITE_spec L E retry F s (mkWRITE3args fh3 off (len data) how data) fh Hsv Hre Hfh Hi HL Hsh)
    as (wrep & s1 & Hw & _ & _ & Hrep); [done|simpl; lia|done|].
  exists wrep, s1. split; [exact Hw|]. intros Hst Hcnt.
  destruct (wr_stored _ _ _ _ _ _ _ _ (Hrep Hlive Hk ltac:(simpl; lia)) Hst)
    as (cnt & ip' & Hc & _ & Hcw & _ & _ & _ & Hmv & Hat & _ & _ & Hby). fold i in Hmv, Hat, Hby.
  cbn [WRITE3args_Count WRITE3args_Offset WRITE3args_Data] in *.
  rewrite w32_small in Hcw by lia. assert (cnt = len data) as -> by congruence.
  apply same_attrs_eqs in Hat as (Hk' & Hg' & Hs'). rewrite (proj2 (Z.ltb_lt 0 (len data))) in Hs' by lia.
  cbn [i_Kind i_Gen i_Size with_Size] in Hk', Hg', Hs'.
  set (F' := <[i := ip']> F) in *. assert (F' i = ip') as HF by (unfold F'; by rewrite fn_lookup_insert).
  assert (live F' fh) as Hlive' by (unfold live; fold i; rewrite HF, Hk', Hg'; exact Hlive).
  assert (ino_ok (disk_of s1) i) as Hi1.
  { eapply ino_ok_super; [|exact Hi]. symmetry. apply (mv_super _ _ _ _ _ _ _ Hmv). }
  destruct (READ_spec L E F' s1 (mkREAD3args fh3 off (len data)) fh (mv_server _ _ _ _ _ _ _ Hmv) Hfh Hi1 HL)
    as (rrep & s2 & Hr & _ & _ & Hrr); [fold i; rewrite HF, Hs'; lia|done|simpl; lia| |].
  { rewrite MaxFileSize_eq in Hmax. simpl. lia. }
  exists rrep, s2. split; [exact Hr|].
  destruct (Hrr Hlive') as [Hrst Heof _ (m & Hm & Hd & Hshort & _)]; [fold i; congruence|].
  fold i in Heof, Hm, Hd, Hshort. cbn [READ3args_Offset READ3args_Count] in *.
  unfold to_read in Hm, Hshort. rewrite HF, Hs' in *.
  split_and!; [done|rewrite Heof; apply bool_decide_eq_false_2; lia|]. intros Hfree.
  assert (m = len data) as ->.
  { destruct (decide (m < len data)); [|lia]. exfalso. apply Hfree, Hshort. lia. }
  rewrite Hd. unfold len. rewrite Nat2Z.id. apply (fbytes_data _ _ _ _ _ Hby); [done|].
  unfold MaxBlks. rewrite MaxFileSize_eq in Hmax. lia.
Qed.
End claims.

(** ** On the sample server *)

Definition hello_reply : res (WRITE3res * NSt) := WriteOp 1 file_fh 100 hello UNSTABLE file_nst.

Definition hello_written_ok : bool :=
  match hello_reply with
  | Ok (rep, _) => bool_decide (WRITE3res_Status rep = NFS3_OK /\
      WRITE3resok_Count (WRITE3res_Resok rep) = 5)
  | _ => false
  end.

Lemma hello_accepted : hello_written_ok = true.
Proof. vm_compute. reflexivity. Qed.

Lemma WriteOp_ReadOp_witness : exists wrep s1 rrep s2,
  WriteOp 1 file_fh 100 hello UNSTABLE file_nst = Ok (wrep, s1) /\ WRITE3res_Status wrep = NFS3_OK /\
  ReadOp file_fh 100 5 s1 = Ok (rrep, s2) /\
  (alloc_free (a_balloc (disk_of s2)) <> ∅ -> READ3resok_Data (READ3res_Resok rrep) = hello).
Proof.
  destruct (WriteOp_ReadOp ∅ no_dirs 1 file_vol file_nst file_fh (mkFh 2 1) 100 hello UNSTABLE file_server
    ltac:(discriminate) file_fh_ok file_nst_ino (not_elem_of_empty 2) file_live) as (wrep & s1 & Hw & Hr).
  - change (Ino (mkFh 2 1)) with 2. by rewrite file_vol_2.
  - change (Ino (mkFh 2 1)) with 2. rewrite file_vol_2. by vm_compute.
  - change (Ino (mkFh 2 1)) with 2. rewrite file_vol_2. vm_compute. discriminate.
  - lia.
  - vm_compute. done.
  - vm_compute. discriminate.
  - pose proof hello_accepted as Ha. unfold hello_written_ok, hello_reply in Ha. rewrite Hw in Ha.
    apply bool_decide_eq_true in Ha as [Hst Hc].
    destruct (Hr Hst Hc) as (rrep & s2 & Hrd & _ & _ & Hd). exists wrep, s1, rrep, s2.
    exact (conj Hw (conj Hst (conj Hrd Hd))).
Defined.
