(* ===== verification/Simple.v ===== *)
(** The simple NFS server ([simple/]): a fixed set of files of at most one block,
    each with an inode in the first block after the log and a data block of its
    own; GETATTR, SETATTR, READ and WRITE run as one transaction under the lock
    of the inode. *)
From S2P Require Import Prelude Nfstypes External Reference.

(** An inode; [new(Inode)] followed by [Decode] gives every field. *)
Record Inode := mkInode { Inum : Z; Size : Z; Data : Z }.

Definition with_Size v (ip : Inode) : Inode := mkInode (Inum ip) v (Data ip).

Definition with_Data v (ip : Inode) : Inode := mkInode (Inum ip) (Size ip) v.

(** The file handle of this server holds an inode number only. *)
Record Fh := mkFh { Ino : Z }.

Section simple.
Context `{!Common} `{!Util} `{!Marshal} `{!Journal} `{!LockPkg} `{!DiskPkg} `{!BufDisk}.

(** A transaction: the log it was begun on and its buffers. *)
Record Txn := mkTxn { x_log : Log; x_op : Op }.

(** The server: the log and the lock map. *)
Record Nfs := mkNfs { t : Log; l : LockMap }.

(** ** Addresses and handles ([0super.go], [fh.go]) *)

Definition block2addr (blkno : Z) : addr := MkAddr blkno 0.

Definition nInode : Z := INODEBLK.

Definition inum2Addr (inum : Z) : addr := MkAddr LOGSIZE (inum *w INODESZ *w 8).

Definition MakeFh (fh3 : Nfs_fh3) : res Fh :=
  let dec := NewDec (Nfs_fh3_Data fh3) in
  '(i, _) ← GetInt dec;
  mret (mkFh i).

Definition MakeFh3 (fh : Fh) : res Nfs_fh3 :=
  let enc := NewEnc 16 in
  enc ← PutInt enc (Ino fh);
  mret (mkNfs_fh3 (Finish enc)).

Definition MkRootFh3 : res Nfs_fh3 :=
  let enc := NewEnc 16 in
  enc ← PutInt enc ROOTINUM;
  mret (mkNfs_fh3 (Finish enc)).

(** ** The transaction's operations *)

(** [op.ReadBuf(a, sz)], and the [Data] of the buffer it returns. *)
Definition read_buf (a : addr) (sz : Z) : M Txn (list Z) :=
  _ ← modify (fun x => mkTxn (x_log x) (ReadBuf (x_log x) (x_op x) a sz));
  gets (fun x => buf_Data (x_op x) a).

(** In-place writes to a buffer's [Data], and [SetDirty]. *)
Definition assign (a : addr) (d : list Z) : M Txn unit :=
  modify (fun x => mkTxn (x_log x) (buf_Assign (x_op x) a d)).

Definition set_dirty (a : addr) : M Txn unit :=
  modify (fun x => mkTxn (x_log x) (buf_SetDirty (x_op x) a)).

Definition over_write (a : addr) (sz : Z) (d : list Z) : M Txn unit :=
  x ← get;
  o ← lift (OverWrite (x_op x) a sz d);
  modify (fun x => mkTxn (x_log x) o).

Definition commit_wait (wait : bool) : M Txn bool := fun x =>
  let '(ok, lg) := CommitWait (x_log x) (x_op x) wait in Ok (ok, mkTxn lg (x_op x)).

(** ** Inodes ([inode.go]) *)

Definition Encode (ip : Inode) : res (list Z) :=
  let enc := NewEnc INODESZ in
  enc ← PutInt enc (Size ip);
  enc ← PutInt enc (Data ip);
  mret (Finish enc).

Definition Decode (data : list Z) (inum : Z) : res Inode :=
  let dec := NewDec data in
  '(size, dec) ← GetInt dec;
  '(dat, _) ← GetInt dec;
  mret (mkInode inum size dat).

(** [for b := 0; b < countCopy; b++ { data = append(data, buf.Data[offset+b]) }] *)
Fixpoint append_loop (n : nat) (b offset : Z) (src data : list Z) : res (list Z) :=
  match n with
  | O => mret data
  | S n =>
      x ← idx src (offset +w b);
      append_loop n (b +w 1) offset src (data ++ [x])
  end.

Definition Read (ip : Inode) (offset bytesToRead : Z) : M Txn (list Z * bool) :=
  if Size ip <=? offset then mret ([], true)
  else
    let count := if Size ip -w offset <? bytesToRead then Size ip -w offset else bytesToRead in
    buf ← read_buf (block2addr (Data ip)) NBITBLOCK;
    data ← lift (append_loop (Z.to_nat count) 0 offset buf []);
    let eof := Size ip <=? (offset +w count) in
    mret (data, eof).

Definition WriteInode (ip : Inode) : M Txn unit :=
  d ← lift (Encode ip);
  over_write (inum2Addr (Inum ip)) (INODESZ * 8) d.

(** [for b := 0; b < count; b++ { buffer.Data[offset+b] = dataBuf[b] }] *)
Fixpoint copy_loop (n : nat) (b offset : Z) (dataBuf data : list Z) : res (list Z) :=
  match n with
  | O => mret data
  | S n =>
      x ← idx dataBuf b;
      data ← setidx data (offset +w b) x;
      copy_loop n (b +w 1) offset dataBuf data
  end.

(** [Write] updates the inode it is called on, which is the third result. *)
Definition Write (ip : Inode) (offset count : Z) (dataBuf : list Z)
    : M Txn (Z * bool * Inode) :=
  if bool_decide (count <> len dataBuf) then mret (0, false, ip)
  else if util_SumOverflows offset count then mret (0, false, ip)
  else if BlockSize <? (offset +w count) then mret (0, false, ip)
  else if Size ip <? offset then mret (0, false, ip)
  else
    let a := block2addr (Data ip) in
    buffer ← read_buf a NBITBLOCK;
    buffer ← lift (copy_loop (Z.to_nat count) 0 offset dataBuf buffer);
    _ ← assign a buffer;
    _ ← set_dirty a;
    if Size ip <? (offset +w count) then
      let ip := with_Size (offset +w count) ip in
      _ ← WriteInode ip;
      mret (count, true, ip)
    else mret (count, true, ip).

Definition ReadInode (inum : Z) : M Txn Inode :=
  buffer ← read_buf (inum2Addr inum) (INODESZ * 8);
  lift (Decode buffer inum).

Definition MkFattr (ip : Inode) : Fattr3 :=
  {| Fattr3_Ftype := NF3REG; Fattr3_Mode := 511; Fattr3_Nlink := 1;
     Fattr3_Uid := 0; Fattr3_Gid := 0; Fattr3_Size := Size ip; Fattr3_Used := Size ip;
     Fattr3_Rdev := mkSpecdata3 0 0; Fattr3_Fsid := 0; Fattr3_Fileid := Inum ip;
     Fattr3_Atime := mkNfstime3 0 0; Fattr3_Mtime := mkNfstime3 0 0;
     Fattr3_Ctime := mkNfstime3 0 0 |}.

(** [for i := 0; i < nInode(); i++] from [i], [n] times. *)
Fixpoint init_loop (n : nat) (i : Z) : M Txn unit :=
  match n with
  | O => mret tt
  | S n =>
      ip ← ReadInode i;
      _ ← WriteInode (with_Data (LOGSIZE +w 1 +w i) ip);
      init_loop n (i +w 1)
  end.

Definition inodeInit : M Txn unit := init_loop (Z.to_nat nInode) 0.

(** ** Making and recovering a server ([mkfs.go]) *)

(** A transaction over a log: begun, initialised, committed. *)
Definition init_log (log : Log) : res (option Log) :=
  '(ok, x) ← (_ ← inodeInit; commit_wait true) (mkTxn log (jrnl_Begin log));
  mret (if (ok : bool) then Some (x_log x) else None).

Definition Mkfs (d : Disk) : res (option Log) := init_log (obj_MkLog d).

Definition Recover (d : Disk) : Nfs := mkNfs (obj_MkLog d) MkLockMap.

Definition MakeNfs (d : Disk) : res (option Nfs) :=
  o ← init_log (obj_MkLog d);
  mret (match o with Some log => Some (mkNfs log MkLockMap) | None => None end).

(** ** The procedures ([ops.go]) *)

Definition fh2ino (fh3 : Nfs_fh3) : res Z :=
  fh ← MakeFh fh3;
  mret (Ino fh).

Definition rootFattr : Fattr3 :=
  {| Fattr3_Ftype := NF3DIR; Fattr3_Mode := 511; Fattr3_Nlink := 1;
     Fattr3_Uid := 0; Fattr3_Gid := 0; Fattr3_Size := 0; Fattr3_Used := 0;
     Fattr3_Rdev := mkSpecdata3 0 0; Fattr3_Fsid := 0; Fattr3_Fileid := ROOTINUM;
     Fattr3_Atime := mkNfstime3 0 0; Fattr3_Mtime := mkNfstime3 0 0;
     Fattr3_Ctime := mkNfstime3 0 0 |}.

Definition validInum (inum : Z) : bool :=
  if inum =? 0 then false
  else if inum =? ROOTINUM then false
  else if nInode <=? inum then false
  else true.

(** [jrnl.Begin(nfs.t)]; [run op m] runs [m] in the transaction [op]. *)
Definition begin : M Nfs Op := gets (fun s => jrnl_Begin (t s)).

Definition run {A} (op : Op) (m : M Txn A) : M Nfs A := fun s =>
  match m (mkTxn (t s) op) with
  | Ok (a, x) => Ok (a, mkNfs (x_log x) (l s))
  | Panic => Panic
  | Blocked => Blocked
  | NoFuel => NoFuel
  end.

Definition acquire (inum : Z) : M Nfs unit := fun s =>
  match Acquire (l s) inum with
  | Some lm => Ok (tt, mkNfs (t s) lm)
  | None => Blocked
  end.

Definition release (inum : Z) : M Nfs unit :=
  s ← get;
  lm ← lift (Release (l s) inum);
  modify (fun s => mkNfs (t s) lm).

Definition NFSPROC3_GETATTR_wp (args : GETATTR3args) (reply : GETATTR3res) (inum : Z)
    : M Txn GETATTR3res :=
  ip ← ReadInode inum;
  mret (mkGETATTR3res (GETATTR3res_Status reply) (mkGETATTR3resok (MkFattr ip))).

Definition NFSPROC3_GETATTR_internal (args : GETATTR3args) (reply : GETATTR3res) (inum : Z)
    : M Txn GETATTR3res :=
  reply ← NFSPROC3_GETATTR_wp args reply inum;
  ok ← commit_wait true;
  if (ok : bool) then mret (mkGETATTR3res NFS3_OK (GETATTR3res_Resok reply))
  else mret (mkGETATTR3res NFS3ERR_SERVERFAULT (GETATTR3res_Resok reply)).

Definition NFSPROC3_GETATTR (args : GETATTR3args) : M Nfs GETATTR3res :=
  txn ← begin;
  inum ← lift (fh2ino (GETATTR3args_Object args));
  if inum =? ROOTINUM then mret (mkGETATTR3res NFS3_OK (mkGETATTR3resok rootFattr))
  else if negb (validInum inum) then mret (mkGETATTR3res NFS3ERR_INVAL zero)
  else
    _ ← acquire inum;
    reply ← run txn (NFSPROC3_GETATTR_internal args zero inum);
    _ ← release inum;
    mret reply.

(** [make([]byte, n)]: the length must be representable by an [int]. *)
Definition make_bytes (n : Z) : res (list Z) :=
  if 2 ^ 63 <=? n then Panic else Ok (zeros n).

Definition set_status (st : Z) (reply : SETATTR3res) : SETATTR3res :=
  mkSETATTR3res st (SETATTR3res_Resok reply) (SETATTR3res_Resfail reply).

Definition NFSPROC3_SETATTR_wp (args : SETATTR3args) (reply : SETATTR3res) (inum : Z)
    : M Txn (bool * SETATTR3res) :=
  ip ← ReadInode inum;
  let size := Sattr3_Size (SETATTR3args_New_attributes args) in
  if Set_size3_Set_it size then
    let newsize := Set_size3_Size size in
    if Size ip <? newsize then
      data ← lift (make_bytes (newsize -w Size ip));
      '(_, _, ip) ← Write ip (Size ip) (newsize -w Size ip) data;
      if bool_decide (Size ip <> newsize) then mret (false, set_status NFS3ERR_NOSPC reply)
      else mret (true, reply)
    else
      _ ← WriteInode (with_Size newsize ip);
      mret (true, reply)
  else mret (true, reply).

Definition NFSPROC3_SETATTR_internal (args : SETATTR3args) (reply : SETATTR3res) (inum : Z)
    : M Txn SETATTR3res :=
  '(ok1, reply) ← NFSPROC3_SETATTR_wp args reply inum;
  if negb ok1 then mret reply
  else
    ok2 ← commit_wait true;
    if (ok2 : bool) then mret (set_status NFS3_OK reply)
    else mret (set_status NFS3ERR_SERVERFAULT reply).

Definition NFSPROC3_SETATTR (args : SETATTR3args) : M Nfs SETATTR3res :=
  txn ← begin;
  inum ← lift (fh2ino (SETATTR3args_Object args));
  if negb (validInum inum) then mret (set_status NFS3ERR_INVAL zero)
  else
    _ ← acquire inum;
    reply ← run txn (NFSPROC3_SETATTR_internal args zero inum);
    _ ← release inum;
    mret reply.

Definition NFSPROC3_LOOKUP (args : LOOKUP3args) : M Nfs LOOKUP3res :=
  let fn := Diropargs3_Name (LOOKUP3args_What args) in
  let inum := zero in
  let inum := if bool_decide (fn = str "a") then 2 else inum in
  let inum := if bool_decide (fn = str "b") then 3 else inum in
  if negb (validInum inum) then mret (mkLOOKUP3res NFS3ERR_NOENT zero zero)
  else
    h ← lift (MakeFh3 (mkFh inum));
    mret (mkLOOKUP3res NFS3_OK (mkLOOKUP3resok h zero zero) zero).

Definition NFSPROC3_ACCESS (args : ACCESS3args) : M Nfs ACCESS3res :=
  mret (mkACCESS3res NFS3_OK
    (mkACCESS3resok zero
       (fold_left Z.lor [ACCESS3_LOOKUP; ACCESS3_MODIFY; ACCESS3_EXTEND; ACCESS3_DELETE;
          ACCESS3_EXECUTE] ACCESS3_READ)) zero).

Definition NFSPROC3_READ_wp (args : READ3args) (reply : READ3res) (inum : Z)
    : M Txn READ3res :=
  ip ← ReadInode inum;
  '(data, eof) ← Read ip (READ3args_Offset args) (READ3args_Count args);
  mret (mkREAD3res (READ3res_Status reply)
    (mkREAD3resok (READ3resok_File_attributes (READ3res_Resok reply)) (w32 (len data)) eof data)
    (READ3res_Resfail reply)).

Definition NFSPROC3_READ_internal (args : READ3args) (reply : READ3res) (inum : Z)
    : M Txn READ3res :=
  reply ← NFSPROC3_READ_wp args reply inum;
  ok ← commit_wait true;
  if (ok : bool) then mret (mkREAD3res NFS3_OK (READ3res_Resok reply) (READ3res_Resfail reply))
  else mret (mkREAD3res NFS3ERR_SERVERFAULT (READ3res_Resok reply) (READ3res_Resfail reply)).

Definition NFSPROC3_READ (args : READ3args) : M Nfs READ3res :=
  txn ← begin;
  inum ← lift (fh2ino (READ3args_File args));
  if negb (validInum inum) then mret (mkREAD3res NFS3ERR_INVAL zero zero)
  else
    _ ← acquire inum;
    reply ← run txn (NFSPROC3_READ_internal args zero inum);
    _ ← release inum;
    mret reply.

Definition NFSPROC3_WRITE_wp (args : WRITE3args) (reply : WRITE3res) (inum : Z)
    : M Txn (bool * WRITE3res) :=
  ip ← ReadInode inum;
  '(count, writeok, _) ← Write ip (WRITE3args_Offset args) (WRITE3args_Count args)
                           (WRITE3args_Data args);
  if negb writeok then
    mret (false, mkWRITE3res NFS3ERR_SERVERFAULT (WRITE3res_Resok reply) (WRITE3res_Resfail reply))
  else
    let ok := WRITE3res_Resok reply in
    mret (true, mkWRITE3res (WRITE3res_Status reply)
      (mkWRITE3resok (WRITE3resok_File_wcc ok) (w32 count) FILE_SYNC (WRITE3resok_Verf ok))
      (WRITE3res_Resfail reply)).

Definition NFSPROC3_WRITE_internal (args : WRITE3args) (reply : WRITE3res) (inum : Z)
    : M Txn WRITE3res :=
  '(ok1, reply) ← NFSPROC3_WRITE_wp args reply inum;
  if negb ok1 then mret reply
  else
    ok2 ← commit_wait true;
    if (ok2 : bool) then mret (mkWRITE3res NFS3_OK (WRITE3res_Resok reply) (WRITE3res_Resfail reply))
    else mret (mkWRITE3res NFS3ERR_SERVERFAULT (WRITE3res_Resok reply) (WRITE3res_Resfail reply)).

Definition NFSPROC3_WRITE (args : WRITE3args) : M Nfs WRITE3res :=
  txn ← begin;
  inum ← lift (fh2ino (WRITE3args_File args));
  if negb (validInum inum) then mret (mkWRITE3res NFS3ERR_INVAL zero zero)
  else
    _ ← acquire inum;
    reply ← run txn (NFSPROC3_WRITE_internal args zero inum);
    _ ← release inum;
    mret reply.

Definition NFSPROC3_COMMIT (args : COMMIT3args) : M Nfs COMMIT3res :=
  op ← begin;
  inum ← lift (fh2ino (COMMIT3args_File args));
  if negb (validInum inum) then mret (mkCOMMIT3res NFS3ERR_INVAL zero zero)
  else
    _ ← acquire inum;
    ok ← run op (commit_wait true);
    let reply := if (ok : bool) then mkCOMMIT3res NFS3_OK zero zero
                 else mkCOMMIT3res NFS3ERR_IO zero zero in
    _ ← release inum;
    mret reply.

Definition NFSPROC3_READDIR (args : READDIR3args) : M Nfs READDIR3res :=
  let e2 := mkEntry3 3 (str "b") 1 None in
  let e1 := mkEntry3 2 (str "a") 0 (Some e2) in
  mret (mkREADDIR3res NFS3_OK (mkREADDIR3resok zero zero (mkDirlist3 (Some e1) true)) zero).

Definition NFSPROC3_FSINFO (args : FSINFO3args) : M Nfs FSINFO3res :=
  mret (mkFSINFO3res NFS3_OK
    (mkFSINFO3resok zero zero zero zero 4096 zero zero zero 4096 zero zero) zero).

(** Procedures that are not supported. *)

Definition NFSPROC3_CREATE (args : CREATE3args) : M Nfs CREATE3res :=
  mret (mkCREATE3res NFS3ERR_NOTSUPP zero zero).

Definition NFSPROC3_MKDIR (args : MKDIR3args) : M Nfs MKDIR3res :=
  mret (mkMKDIR3res NFS3ERR_NOTSUPP zero zero).

Definition NFSPROC3_SYMLINK (args : SYMLINK3args) : M Nfs SYMLINK3res :=
  mret (mkSYMLINK3res NFS3ERR_NOTSUPP zero zero).

Definition NFSPROC3_READLINK (args : READLINK3args) : M Nfs READLINK3res :=
  mret (mkREADLINK3res NFS3ERR_NOTSUPP zero zero).

Definition NFSPROC3_MKNOD (args : MKNOD3args) : M Nfs MKNOD3res :=
  mret (mkMKNOD3res NFS3ERR_NOTSUPP zero zero).

Definition NFSPROC3_REMOVE (args : REMOVE3args) : M Nfs REMOVE3res :=
  mret (mkREMOVE3res NFS3ERR_NOTSUPP zero zero).

Definition NFSPROC3_RMDIR (args : RMDIR3args) : M Nfs RMDIR3res :=
  mret (mkRMDIR3res NFS3ERR_NOTSUPP zero zero).

Definition NFSPROC3_RENAME (args : RENAME3args) : M Nfs RENAME3res :=
  mret (mkRENAME3res NFS3ERR_NOTSUPP zero zero).

Definition NFSPROC3_LINK (args : LINK3args) : M Nfs LINK3res :=
  mret (mkLINK3res NFS3ERR_NOTSUPP zero zero).

Definition NFSPROC3_READDIRPLUS (args : READDIRPLUS3args) : M Nfs READDIRPLUS3res :=
  mret (mkREADDIRPLUS3res NFS3ERR_NOTSUPP zero zero).

Definition NFSPROC3_FSSTAT (args : FSSTAT3args) : M Nfs FSSTAT3res :=
  mret (mkFSSTAT3res NFS3ERR_NOTSUPP zero zero).

Definition NFSPROC3_PATHCONF (args : PATHCONF3args) : M Nfs PATHCONF3res :=
  mret (mkPATHCONF3res NFS3ERR_NOTSUPP zero zero).

Definition NFSPROC3_NULL : M Nfs unit := mret tt.

(** *** Mounting ([mount.go]) *)

Definition MOUNTPROC3_NULL : M Nfs unit := mret tt.

Definition MOUNTPROC3_MNT (args : list Z) : M Nfs Mountres3 :=
  h ← lift MkRootFh3;
  mret (mkMountres3 MNT3_OK (mkMountres3_ok (Nfs_fh3_Data h) zero)).

Definition MOUNTPROC3_UMNT (args : list Z) : M Nfs unit := mret tt.

Definition MOUNTPROC3_UMNTALL : M Nfs unit := mret tt.

Definition MOUNTPROC3_DUMP : M Nfs Mountopt3 := mret (mkMountopt3 None).

Definition MOUNTPROC3_EXPORT : M Nfs Exportsopt3 :=
  mret (mkExportsopt3 (Some (mkExports3 (str "/") None None))).

(** *** The example client ([recover_example.go]) *)

Definition exampleWorker (ino : Z) : M Nfs unit :=
  let fh := mkFh ino in
  let buf := zeros 1024 in
  h ← lift (MakeFh3 fh);
  _ ← NFSPROC3_GETATTR (mkGETATTR3args h);
  h ← lift (MakeFh3 fh);
  _ ← NFSPROC3_READ (mkREAD3args h 0 1024);
  h ← lift (MakeFh3 fh);
  _ ← NFSPROC3_WRITE (mkWRITE3args h 0 1024 zero buf);
  mret tt.
End simple.
