(* ===== verification/SimpleSpec.v ===== *)
(** What the simple server promises: the files as a function from inode numbers
    to contents, each procedure as a function on them, and the proof that the
    procedures of [Simple] implement it. *)
From S2P Require Import Prelude Nfstypes External Reference Simple.

(** ** The abstract server

    [ok] is the outcome of the journal's commit. *)

Definition files : Type := Z -> list Z.

Definition upd_file (i : Z) (f : list Z) (fs : files) : files :=
  fun j => if bool_decide (j = i) then f else fs j.

(** The numbers of the files. *)
Definition valid (i : Z) : Prop := 2 <= i < 32.

#[export] Instance valid_dec i : Decision (valid i) := decide (2 <= i < 32).

Definition file_attr (i : Z) (f : list Z) : Fattr3 :=
  {| Fattr3_Ftype := NF3REG; Fattr3_Mode := 511; Fattr3_Nlink := 1;
     Fattr3_Uid := 0; Fattr3_Gid := 0; Fattr3_Size := len f; Fattr3_Used := len f;
     Fattr3_Rdev := zero; Fattr3_Fsid := 0; Fattr3_Fileid := i;
     Fattr3_Atime := zero; Fattr3_Mtime := zero; Fattr3_Ctime := zero |}.

Definition dir_attr : Fattr3 :=
  {| Fattr3_Ftype := NF3DIR; Fattr3_Mode := 511; Fattr3_Nlink := 1;
     Fattr3_Uid := 0; Fattr3_Gid := 0; Fattr3_Size := 0; Fattr3_Used := 0;
     Fattr3_Rdev := zero; Fattr3_Fsid := 0; Fattr3_Fileid := 1;
     Fattr3_Atime := zero; Fattr3_Mtime := zero; Fattr3_Ctime := zero |}.

Definition read_file (f : list Z) (off cnt : Z) : list Z * bool :=
  if bool_decide (len f <= off) then ([], true)
  else
    let n := Z.min cnt (len f - off) in
    (take (Z.to_nat n) (drop (Z.to_nat off) f), bool_decide (len f <= off + n)).

(** A write may extend the file up to a block, and leaves no hole. *)
Definition write_file (f : list Z) (off cnt : Z) (data : list Z) : option (list Z) :=
  if bool_decide (cnt = len data /\ off + cnt <= 4096 /\ off <= len f)
  then Some (splice f (Z.to_nat off) data) else None.

Definition resize_file (f : list Z) (sz : Z) : option (list Z) :=
  if bool_decide (4096 < sz) then None
  else Some (take (Z.to_nat sz) f ++ zeros (sz - len f)).

Definition status (ok : bool) : Z := if ok then NFS3_OK else NFS3ERR_SERVERFAULT.

Inductive req :=
| Rgetattr (args : GETATTR3args)
| Rsetattr (args : SETATTR3args)
| Rread (args : READ3args)
| Rwrite (args : WRITE3args)
| Rcommit (args : COMMIT3args).

Inductive rep :=
| Pgetattr (r : GETATTR3res)
| Psetattr (r : SETATTR3res)
| Pread (r : READ3res)
| Pwrite (r : WRITE3res)
| Pcommit (r : COMMIT3res).

(** The handle of a request. *)
Definition req_fh (r : req) : Nfs_fh3 :=
  match r with
  | Rgetattr a => GETATTR3args_Object a
  | Rsetattr a => SETATTR3args_Object a
  | Rread a => READ3args_File a
  | Rwrite a => WRITE3args_File a
  | Rcommit a => COMMIT3args_File a
  end.

(** Requests the protocol can carry: 64-bit offsets and 32-bit counts, and no
    size that Go cannot make a slice of. *)
Definition req_wf (r : req) : Prop :=
  match r with
  | Rgetattr _ | Rcommit _ => True
  | Rsetattr a => 0 <= Set_size3_Size (Sattr3_Size (SETATTR3args_New_attributes a)) < 2 ^ 63
  | Rread a => is_u64 (READ3args_Offset a) /\ is_u32 (READ3args_Count a)
  | Rwrite a => is_u64 (WRITE3args_Offset a) /\ is_u32 (WRITE3args_Count a)
  end.

(** The reply to a request for the file [i], which is valid and holds [f], and
    what it holds then. *)
Definition serve_file (ok : bool) (r : req) (i : Z) (f : list Z) : rep * list Z :=
  match r with
  | Rgetattr a => (Pgetattr (mkGETATTR3res (status ok) (mkGETATTR3resok (file_attr i f))), f)
  | Rsetattr a =>
      let sz := Sattr3_Size (SETATTR3args_New_attributes a) in
      if Set_size3_Set_it sz then
        match resize_file f (Set_size3_Size sz) with
        | Some f' => (Psetattr (mkSETATTR3res (status ok) zero zero), if ok then f' else f)
        | None => (Psetattr (mkSETATTR3res NFS3ERR_NOSPC zero zero), f)
        end
      else (Psetattr (mkSETATTR3res (status ok) zero zero), f)
  | Rread a =>
      let '(data, eof) := read_file f (READ3args_Offset a) (READ3args_Count a) in
      (Pread (mkREAD3res (status ok) (mkREAD3resok zero (len data) eof data) zero), f)
  | Rwrite a =>
      match write_file f (WRITE3args_Offset a) (WRITE3args_Count a) (WRITE3args_Data a) with
      | Some f' => (Pwrite (mkWRITE3res (status ok)
                     (mkWRITE3resok zero (WRITE3args_Count a) FILE_SYNC zero) zero),
                   if ok then f' else f)
      | None => (Pwrite (mkWRITE3res NFS3ERR_SERVERFAULT zero zero), f)
      end
  | Rcommit a => (Pcommit (mkCOMMIT3res (if ok then NFS3_OK else NFS3ERR_IO) zero zero), f)
  end.

Definition serve (ok : bool) (r : req) (i : Z) (fs : files) : rep * files :=
  let '(p, f) := serve_file ok r i (fs i) in (p, upd_file i f fs).

(** The reply to a request for a number that is not a file. *)
Definition refuse (r : req) (i : Z) : rep :=
  match r with
  | Rgetattr a =>
      Pgetattr (if bool_decide (i = 1) then mkGETATTR3res NFS3_OK (mkGETATTR3resok dir_attr)
                else mkGETATTR3res NFS3ERR_INVAL zero)
  | Rsetattr a => Psetattr (mkSETATTR3res NFS3ERR_INVAL zero zero)
  | Rread a => Pread (mkREAD3res NFS3ERR_INVAL zero zero)
  | Rwrite a => Pwrite (mkWRITE3res NFS3ERR_INVAL zero zero)
  | Rcommit a => Pcommit (mkCOMMIT3res NFS3ERR_INVAL zero zero)
  end.

Definition spec (ok : bool) (r : req) (i : Z) (fs : files) : rep * files :=
  if bool_decide (valid i) then serve ok r i fs else (refuse r i, fs).

(** ** How the files are stored

    [objs] gives the bytes of a disk object: the committed ones of a log, or
    those that survive a crash. *)

Section storage.
Context `{!Common} `{!Marshal}.

Definition ino_addr (i : Z) : addr := MkAddr LOGSIZE (i * 1024).

Definition dat_addr (i : Z) : addr := MkAddr (LOGSIZE + 1 + i) 0.

Definition inode_of (ino : list Z) (i : Z) : Inode :=
  mkInode i (u64_of (take 8 ino)) (u64_of (take 8 (drop 8 ino))).

(** The inode [ino] and the data block [dat] hold the file [f]. *)
Definition stored (ino dat : list Z) (i : Z) (f : list Z) : Prop :=
  inode_of ino i = mkInode i (len f) (LOGSIZE + 1 + i) /\ len f <= 4096 /\
  take (length f) dat = f.

Definition files_on (objs : addr -> Z -> list Z) (fs : files) : Prop :=
  forall i, valid i -> stored (objs (ino_addr i) 1024) (objs (dat_addr i) 32768) i (fs i).
End storage.

Section proofs.
Context `{!Common} `{!CommonSpec} `{!Util} `{!UtilSpec} `{!Marshal} `{!MarshalSpec}
  `{!Journal} `{!JournalSpec} `{!LockPkg} `{!LockSpec}.

Lemma inum2Addr_eq i : 0 <= i < 32 -> inum2Addr i = ino_addr i.
Proof.
  intros Hi. unfold inum2Addr, ino_addr. csimp. f_equal.
  rewrite (w64_small (i * 128)), (w64_small (i * 128 * 8)) by lia. lia.
Qed.

Lemma block2addr_eq i : block2addr (LOGSIZE + 1 + i) = dat_addr i.
Proof. done. Qed.

Lemma ino_ino_disjoint i j : i <> j -> addr_disjoint (ino_addr i) 1024 (ino_addr j) 1024.
Proof. intros Hij. right. simpl. lia. Qed.

Lemma ino_dat_disjoint i j sz sz' : 0 <= j -> addr_disjoint (ino_addr i) sz (dat_addr j) sz'.
Proof. intros Hj. left. simpl. lia. Qed.

Lemma dat_ino_disjoint i j sz sz' : 0 <= j -> addr_disjoint (dat_addr j) sz (ino_addr i) sz'.
Proof. intros Hj. left. simpl. lia. Qed.

Lemma dat_dat_disjoint i j sz sz' : i <> j -> addr_disjoint (dat_addr i) sz (dat_addr j) sz'.
Proof. intros Hij. left. simpl. lia. Qed.

Lemma Simple_Encode_eq ip : Encode ip = Ok (u64_le (Size ip) ++ u64_le (Data ip) ++ zeros 112).
Proof.
  unfold Encode. pose proof (enc_at_new INODESZ) as He. pose proof INODESZ_eq.
  put_ok (PutInt_spec (NewEnc INODESZ) (Size ip)) He. put_ok (PutInt_spec e (Data ip)) He.
  rewrite (enc_at_finish _ _ _ He), !len_app, !u64_le_len. cbn [app].
  change (len []) with 0. rewrite INODESZ_eq, <-app_assoc. done.
Qed.

Lemma Decode_eq d i : 16 <= len d -> Decode d i = Ok (inode_of d i).
Proof.
  intros Hd. unfold Decode, inode_of.
  destruct (dec_gets_app (NewDec d) (take 8 d) (drop 8 d) _ _ _ (GetInt_spec (NewDec d)))
    as (d1 & -> & Hd1); [by rewrite NewDec_rest, take_drop|len|]. cbn [mbind res_bind].
  destruct (dec_gets_app d1 (take 8 (drop 8 d)) (drop 8 (drop 8 d)) _ _ _ (GetInt_spec d1))
    as (d2 & -> & _); [by rewrite Hd1, take_drop|len|]. done.
Qed.

Lemma inode_of_encoded ip rest : is_u64 (Size ip) -> is_u64 (Data ip) ->
  inode_of (u64_le (Size ip) ++ u64_le (Data ip) ++ rest) (Inum ip) = ip.
Proof.
  intros Hs Hd. unfold inode_of.
  rewrite take_app_length', drop_app_length', take_app_length' by (by rewrite u64_le_length).
  rewrite !u64_of_le by done. by destruct ip.
Qed.

(** ** The transaction of a request

    The buffers of a transaction on the file [i] that has read the log [lg]:
    at most the inode and the data block, holding [ino] and [dat]. *)

Record buffered (lg : Log) (o : Op) (i : Z) (ino dat : list Z) : Prop := {
  bf_in a b : op_bufs o !! a = Some b ->
    (a = ino_addr i /\ bv_sz b = 1024 /\ bv_data b = ino) \/
    (a = dat_addr i /\ bv_sz b = 32768 /\ bv_data b = dat);
  bf_ino : op_dirty o (ino_addr i) = None -> log_obj lg (ino_addr i) 1024 = ino;
  bf_dat : op_dirty o (dat_addr i) = None -> log_obj lg (dat_addr i) 32768 = dat;
  bf_len_ino : len ino = 128;
  bf_len_dat : len dat = 4096;
}.

Definition tx (lg : Log) (i : Z) (ino dat : list Z) (x : Txn) : Prop :=
  x_log x = lg /\ buffered lg (x_op x) i ino dat.

Lemma log_ino_len lg i : len (log_obj lg (ino_addr i) 1024) = 128.
Proof. by apply (log_obj_length lg (ino_addr i) 128). Qed.

Lemma log_dat_len lg i : len (log_obj lg (dat_addr i) 32768) = 4096.
Proof. by apply (log_obj_length lg (dat_addr i) 4096). Qed.

Lemma op_dirty_empty o a : op_bufs o = ∅ -> op_dirty o a = None.
Proof. intros Ho. unfold op_dirty. by rewrite Ho, lookup_empty. Qed.

Lemma tx_begin lg i : tx lg i (log_obj lg (ino_addr i) 1024) (log_obj lg (dat_addr i) 32768)
  (mkTxn lg (jrnl_Begin lg)).
Proof.
  split; [done|]. split; simpl; [|done|done|apply log_ino_len|apply log_dat_len].
  intros a b. by rewrite Begin_bufs, lookup_empty.
Qed.

(** A buffer that is loaded or overwritten. *)
Lemma op_dirty_insert o o' a b a' : op_bufs o' = <[a := b]> (op_bufs o) ->
  op_dirty o' a' = if bool_decide (a' = a) then (if bv_dirty b then Some b else None)
                   else op_dirty o a'.
Proof.
  intros Ho. unfold op_dirty. rewrite Ho. case_bool_decide as Ha; subst; by simplify_map_eq.
Qed.

Lemma addr_ne i j : 0 <= j -> ino_addr i <> dat_addr j.
Proof. intros Hj [=]. lia. Qed.

Lemma buffered_insert lg o o' i ino dat ino' dat' a b : 0 <= i ->
  buffered lg o i ino dat -> op_bufs o' = <[a := b]> (op_bufs o) ->
  (a = ino_addr i /\ bv_sz b = 1024 /\ bv_data b = ino' /\ dat' = dat /\ len ino' = 128 /\
    (bv_dirty b = false -> log_obj lg (ino_addr i) 1024 = ino')) \/
  (a = dat_addr i /\ bv_sz b = 32768 /\ bv_data b = dat' /\ ino' = ino /\ len dat' = 4096 /\
    (bv_dirty b = false -> log_obj lg (dat_addr i) 32768 = dat')) ->
  buffered lg o' i ino' dat'.
Proof.
  intros Hi [Hin Hino Hdat Hl1 Hl2] Ho Hb. pose proof (addr_ne i i Hi) as Hne.
  assert (forall a' b', op_bufs o' !! a' = Some b' ->
    (a' = a /\ b' = b) \/ (a' <> a /\ op_bufs o !! a' = Some b')) as Hlk.
  { intros a' b'. rewrite Ho. destruct (decide (a' = a)) as [->|]; simplify_map_eq; naive_solver. }
  destruct Hb as [(-> & Hsz & Hd & -> & Hl & Hc)|(-> & Hsz & Hd & -> & Hl & Hc)]; split; try done.
  - intros a' b' [[-> ->]|[Hna [(? & _)|H']%Hin]]%Hlk; naive_solver.
  - rewrite (op_dirty_insert _ _ _ _ _ Ho), bool_decide_eq_true_2 by done.
    destruct (bv_dirty b); [done|auto].
  - rewrite (op_dirty_insert _ _ _ _ _ Ho), bool_decide_eq_false_2 by done. done.
  - intros a' b' [[-> ->]|[Hna [H'|(? & _)]%Hin]]%Hlk; naive_solver.
  - rewrite (op_dirty_insert _ _ _ _ _ Ho), bool_decide_eq_false_2 by done. done.
  - rewrite (op_dirty_insert _ _ _ _ _ Ho), bool_decide_eq_true_2 by done.
    destruct (bv_dirty b); [done|auto].
Qed.

(** [ReadBuf] of one of the two objects [a], of size [sz] and contents [d]. *)
Lemma wp_read_buf lg i ino dat x a sz d : 0 <= i -> tx lg i ino dat x ->
  (a = ino_addr i /\ sz = 1024 /\ d = ino) \/ (a = dat_addr i /\ sz = 32768 /\ d = dat) ->
  wp (read_buf a sz) x (fun d' x' => d' = d /\ tx lg i ino dat x' /\
    is_Some (op_bufs (x_op x') !! a)).
Proof.
  intros Hi [Hlg Hbf] Ha. unfold read_buf. wp_steps. rewrite buf_Data_eq, ReadBuf_bufs, Hlg.
  pose proof (addr_ne i i Hi) as Hne.
  destruct (op_bufs (x_op x) !! a) as [b|] eqn:Hb.
  - rewrite Hb. simpl. split_and!; [|split; [done|]|by eauto].
    + destruct (bf_in _ _ _ _ _ Hbf _ _ Hb) as [(? & ? & ?)|(? & ? & ?)]; naive_solver.
    + assert (op_bufs (ReadBuf lg (x_op x) a sz) = op_bufs (x_op x)) as Ho
        by (by rewrite ReadBuf_bufs, Hb).
      destruct Hbf. split; unfold op_dirty; simpl; rewrite ?Ho; auto.
  - rewrite lookup_insert_eq. simpl.
    assert (op_dirty (x_op x) a = None) as Hnd by (unfold op_dirty; by rewrite Hb).
    assert (log_obj lg a sz = d) as Hd.
    { destruct Ha as [(-> & -> & ->)|(-> & -> & ->)].
      - by apply (bf_ino _ _ _ _ _ Hbf).
      - by apply (bf_dat _ _ _ _ _ Hbf). }
    split_and!; [done|split; [done|]|by eauto].
    simpl. eapply (buffered_insert _ _ _ _ _ _ _ _ a (mkBufv sz (log_obj lg a sz) false) Hi Hbf).
    { by rewrite ReadBuf_bufs, Hb. }
    destruct Hbf. destruct Ha as [(-> & -> & ->)|(-> & -> & ->)]; [left|right]; simpl; split_and!; eauto.
Qed.

(** Writing the data block in place and marking it dirty. *)
Lemma wp_assign {A} lg i ino dat x d (k : M Txn A) Q : 0 <= i -> tx lg i ino dat x ->
  is_Some (op_bufs (x_op x) !! dat_addr i) -> len d = 4096 ->
  (forall x', tx lg i ino d x' -> wp k x' Q) ->
  wp (_ ← assign (dat_addr i) d; _ ← set_dirty (dat_addr i); k) x Q.
Proof.
  intros Hi [Hlg Hbf] [b Hb] Hd Hk. unfold assign, set_dirty. wp_step. apply wp_modify. wp_step.
  apply wp_modify. apply Hk. split; [done|]. simpl.
  assert (bv_sz b = 32768) as Hsz.
  { pose proof (addr_ne i i Hi). destruct (bf_in _ _ _ _ _ Hbf _ _ Hb) as [(? & _)|(_ & ? & _)]; congruence. }
  eapply (buffered_insert _ _ _ _ _ _ _ _ (dat_addr i) (mkBufv 32768 d true) Hi Hbf).
  - rewrite buf_SetDirty_bufs, buf_Assign_bufs. apply map_eq. intros a.
    destruct (decide (a = dat_addr i)) as [->|Hne].
    + rewrite !lookup_alter_eq, Hb, lookup_insert_eq. simpl. unfold bv_mark, bv_assign. simpl.
      by rewrite Hsz.
    + by rewrite !lookup_alter_ne, lookup_insert_ne by done.
  - right. simpl. done.
Qed.

Lemma wp_over_write lg i ino dat x d : 0 <= i -> tx lg i ino dat x -> len d = 128 ->
  wp (over_write (ino_addr i) 1024 d) x (fun _ x' => tx lg i d dat x').
Proof.
  intros Hi [Hlg Hbf] Hd. unfold over_write. wp_steps.
  destruct (OverWrite_ok (x_op x) (ino_addr i) 1024 d) as (o' & Ho & Hbufs).
  { destruct (op_bufs (x_op x) !! ino_addr i) as [b|] eqn:Hb; [|done]. simpl.
    pose proof (addr_ne i i Hi). destruct (bf_in _ _ _ _ _ Hbf _ _ Hb) as [(_ & ? & _)|(? & _)]; congruence. }
  eapply wp_lift; [exact Ho|]. apply wp_modify. split; [done|]. simpl.
  eapply (buffered_insert _ _ _ _ _ _ _ _ _ _ Hi Hbf Hbufs). left. simpl. done.
Qed.

(** The objects of the files after a commit. *)
Definition other_objs (i : Z) (lg lg' : Log) : Prop := forall j, 0 <= j -> j <> i ->
  log_obj lg' (ino_addr j) 1024 = log_obj lg (ino_addr j) 1024 /\
  log_obj lg' (dat_addr j) 32768 = log_obj lg (dat_addr j) 32768.

Lemma op_dirty_bufs o a b : op_dirty o a = Some b -> op_bufs o !! a = Some b /\ bv_dirty b = true.
Proof.
  unfold op_dirty. destruct (op_bufs o !! a) as [b'|]; [|done]. simpl.
  destruct (bv_dirty b') eqn:Hd; naive_solver.
Qed.

Lemma commit_objs lg o i ino dat w lg' : 0 <= i -> buffered lg o i ino dat ->
  CommitWait lg o w = (true, lg') ->
  log_obj lg' (ino_addr i) 1024 = ino /\ log_obj lg' (dat_addr i) 32768 = dat /\
  other_objs i lg lg'.
Proof.
  intros Hi [Hin Hino Hdat Hl1 Hl2] Hc. pose proof (addr_ne i i Hi) as Hne.
  assert (forall a b, op_dirty o a = Some b -> a = ino_addr i /\ bv_sz b = 1024 /\ bv_data b = ino \/
    a = dat_addr i /\ bv_sz b = 32768 /\ bv_data b = dat) as Hd.
  { intros a b [Hb _]%op_dirty_bufs. by apply Hin. }
  split_and!.
  - destruct (op_dirty o (ino_addr i)) as [b|] eqn:Ha.
    + destruct (Hd _ _ Ha) as [(_ & Hsz & <-)|(? & _)]; [|congruence].
      rewrite <-Hsz. apply (Commit_written _ o w _ _ _ Hc Ha); [lia|lia|].
      intros a' b' Ha' [(? & _)|(-> & _)]%Hd; [congruence|]. by apply ino_dat_disjoint.
    + rewrite <-(Hino eq_refl). apply (Commit_other _ _ _ _ _ _ Hc); [lia|].
      intros a' b' Ha'. destruct (Hd _ _ Ha') as [(-> & _)|(-> & _)]; [congruence|].
      by apply ino_dat_disjoint.
  - destruct (op_dirty o (dat_addr i)) as [b|] eqn:Ha.
    + destruct (Hd _ _ Ha) as [(? & _)|(_ & Hsz & <-)]; [congruence|].
      rewrite <-Hsz. apply (Commit_written _ o w _ _ _ Hc Ha); [lia|lia|].
      intros a' b' Ha' [(-> & _)|(? & _)]%Hd; [|congruence]. by apply dat_ino_disjoint.
    + rewrite <-(Hdat eq_refl). apply (Commit_other _ _ _ _ _ _ Hc); [lia|].
      intros a' b' Ha'. destruct (Hd _ _ Ha') as [(-> & _)|(-> & _)]; [|congruence].
      by apply dat_ino_disjoint.
  - intros j Hj Hji. split; apply (Commit_other _ _ _ _ _ _ Hc); try lia;
      intros a b [(-> & -> & _)|(-> & -> & _)]%Hd.
    + by apply ino_ino_disjoint.
    + by apply ino_dat_disjoint.
    + by apply dat_ino_disjoint.
    + by apply dat_dat_disjoint.
Qed.

(** ** The methods of an inode *)

Lemma append_loop_eq n b off src data :
  0 <= b -> 0 <= off -> off + b + Z.of_nat n <= len src -> len src < 2 ^ 63 ->
  append_loop n b off src data = Ok (data ++ take n (drop (Z.to_nat (off + b)) src)).
Proof.
  intros Hb Hoff Hle Hsrc. revert b data Hb Hle. induction n as [|n IH]; intros b data Hb Hle; cbn [append_loop].
  { by rewrite take_0, app_nil_r. }
  wsimp. destruct (idx_lt src (off + b)) as [v Hv]; [lia|]. rewrite Hv. cbn [mbind res_bind].
  rewrite IH by lia. rewrite <-app_assoc. f_equal. f_equal. simpl.
  apply idx_Ok in Hv as [_ Hv]. rewrite (drop_S _ _ _ Hv), Z.add_assoc. simpl. f_equal. f_equal. f_equal. lia.
Qed.

Lemma copy_loop_eq n b off buf data :
  0 <= b -> 0 <= off -> b + Z.of_nat n <= len buf -> off + b + Z.of_nat n <= len data ->
  len data < 2 ^ 63 ->
  copy_loop n b off buf data =
    Ok (splice data (Z.to_nat (off + b)) (take n (drop (Z.to_nat b) buf))).
Proof.
  intros Hb Hoff. revert b data Hb. induction n as [|n IH]; intros b data Hb Hbuf Hle Hd; cbn [copy_loop].
  { by rewrite take_0, splice_nil. }
  wsimp. destruct (idx_lt buf b) as [v Hv]; [lia|]. rewrite Hv. cbn [mbind res_bind].
  rewrite setidx_Ok by lia. cbn [mbind res_bind].
  rewrite IH by (rewrite ?(eq_refl : len (<[_:=_]> data) = _); unfold len in *; rewrite ?length_insert; lia).
  apply idx_Ok in Hv as [_ Hv]. rewrite (drop_S _ _ _ Hv). cbn [take].
  rewrite splice_cons by (unfold len in *; lia). do 2 f_equal; [f_equal; lia|f_equal; f_equal; lia].
Qed.

Lemma take_splice {A} (dat data : list A) n off :
  (off <= n)%nat -> (n <= length dat)%nat -> (off + length data <= length dat)%nat ->
  take (Nat.max n (off + length data)) (splice dat off data) = splice (take n dat) off data.
Proof.
  intros Hoff Hn Hle. unfold splice. rewrite take_take, Nat.min_l by lia.
  rewrite take_app_ge by len. rewrite take_app_ge by len. do 2 f_equal.
  rewrite skipn_firstn_comm. f_equal. len.
Qed.

Lemma length_splice_ext {A} (l data : list A) off : (off <= length l)%nat ->
  length (splice l off data) = Nat.max (length l) (off + length data).
Proof. intros Hoff. unfold splice. len. Qed.

Lemma len_splice_ext (f data : list Z) off : 0 <= off <= len f ->
  len (splice f (Z.to_nat off) data) = Z.max (len f) (off + len data).
Proof. intros Hoff. unfold len in *. rewrite length_splice_ext by lia. lia. Qed.

Lemma stored_len ino dat i f : stored ino dat i f -> len dat = 4096 -> (length f <= length dat)%nat.
Proof. intros (_ & Hle & _). unfold len in *. lia. Qed.

Lemma wp_ReadInode lg i ino dat x : 0 <= i < 32 -> tx lg i ino dat x ->
  wp (ReadInode i) x (fun ip x' => ip = inode_of ino i /\ tx lg i ino dat x').
Proof.
  intros Hi Hx. unfold ReadInode. rewrite inum2Addr_eq by done. wp_step. csimp.
  eapply wp_mono; [apply (wp_read_buf lg i ino dat x _ 1024 ino); [lia|done|by left]|].
  intros d x' (-> & Hx' & _). eapply wp_lift; [|done]. apply Decode_eq.
  destruct Hx as [_ Hbf]. rewrite (bf_len_ino _ _ _ _ _ Hbf). lia.
Qed.

Lemma wp_simple_Read lg i ino dat x f off cnt : 0 <= i -> tx lg i ino dat x -> stored ino dat i f ->
  is_u64 off -> is_u32 cnt ->
  wp (Read (inode_of ino i) off cnt) x (fun r x' => r = read_file f off cnt /\ tx lg i ino dat x').
Proof.
  intros Hi Hx (-> & Hle & Hf) Hoff Hcnt. unfold Read, read_file, is_u64, is_u32 in *. cbn [Size Data].
  pose proof (len_nonneg f). rewrite bool_decide_decide.
  destruct (Z.leb_spec (len f) off) as [Hge|Hlt]; destruct (decide _); try lia; [by apply wp_ret|].
  wsimp. cbv zeta.
  assert ((if len f - off <? cnt then len f - off else cnt) = Z.min cnt (len f - off)) as ->
    by (destruct (Z.ltb_spec (len f - off) cnt); lia).
  rewrite block2addr_eq. wp_step. csimp.
  eapply wp_mono; [apply (wp_read_buf lg i ino dat x _ 32768 dat); [lia|done|by right]|].
  intros d x' (-> & Hx' & _). wp_step. destruct Hx as [_ Hbf].
  pose proof (bf_len_dat _ _ _ _ _ Hbf) as Hdat.
  eapply wp_lift; [apply append_loop_eq; lia|]. apply wp_ret. split; [|done].
  wsimp. rewrite Z.add_0_r. cbn [app]. f_equal.
  - rewrite <-Hf at 3. rewrite skipn_firstn_comm, take_take. f_equal. len.
  - case_bool_decide; destruct (Z.leb_spec (len f) (off + Z.min cnt (len f - off))); lia || done.
Qed.

(** An inode that is written back with the size of [f]. *)
Lemma wp_simple_WriteInode lg i ino dat x f : 0 <= i < 32 -> tx lg i ino dat x ->
  len f <= 4096 -> take (length f) dat = f ->
  wp (WriteInode (mkInode i (len f) (LOGSIZE + 1 + i))) x
    (fun _ x' => exists ino', tx lg i ino' dat x' /\ stored ino' dat i f).
Proof.
  intros Hi Hx Hle Hf. unfold WriteInode. rewrite Simple_Encode_eq. cbn [Size Data Inum].
  pose proof (len_nonneg f). pose proof LOGSIZE_range.
  wp_step. eapply wp_lift; [done|]. rewrite inum2Addr_eq by done. csimp.
  eapply wp_mono; [apply (wp_over_write lg i ino dat)|].
  - lia.
  - done.
  - by rewrite !len_app, !u64_le_len, len_zeros by lia.
  - intros [] x' Hx'. eexists. split; [exact Hx'|]. split; [|done].
    apply (inode_of_encoded (mkInode i (len f) (LOGSIZE + 1 + i))); unfold is_u64; simpl; lia.
Qed.

(** The transaction after an operation that makes the file [f] of it. *)
Definition tx_file (lg : Log) (i : Z) (f : list Z) (x : Txn) : Prop :=
  exists ino dat, tx lg i ino dat x /\ stored ino dat i f.

Lemma stored_splice ino dat i f off data : len dat = 4096 -> stored ino dat i f ->
  0 <= off <= len f -> off + len data <= 4096 ->
  let f' := splice f (Z.to_nat off) data in
  len f' <= 4096 /\ take (length f') (splice dat (Z.to_nat off) data) = f'.
Proof.
  intros Hd Hst Hoff Hle f'. pose proof (stored_len _ _ _ _ Hst Hd) as Hfd.
  destruct Hst as (_ & Hf & Htk). split.
  - subst f'. rewrite len_splice_ext by done. lia.
  - subst f'. unfold len in *. rewrite length_splice_ext by lia.
    rewrite take_splice by lia. by rewrite Htk.
Qed.

Lemma wp_simple_Write lg i ino dat x f off cnt data : 0 <= i < 32 -> tx lg i ino dat x ->
  stored ino dat i f -> is_u64 off -> is_u64 cnt ->
  wp (Write (inode_of ino i) off cnt data) x (fun r x' =>
    match write_file f off cnt data with
    | Some f' => r = (cnt, true, mkInode i (len f') (LOGSIZE + 1 + i)) /\ tx_file lg i f' x'
    | None => r = (0, false, mkInode i (len f) (LOGSIZE + 1 + i)) /\ tx_file lg i f x'
    end).
Proof.
  intros Hi Hx Hst Hoff Hcnt. pose proof Hst as (-> & Hle & Hf).
  assert (tx_file lg i f x) as Hx0 by (exists ino, dat; done).
  unfold Write, write_file, is_u64 in *. cbn [Size Data]. pose proof (len_nonneg f).
  rewrite (SumOverflows_eq off cnt) by done. rewrite !bool_decide_decide.
  destruct (decide (cnt <> len data)) as [Hne|Heq].
  { destruct (decide _); [lia|]. by apply wp_ret. }
  destruct (decide (2 ^ 64 <= off + cnt)).
  { destruct (decide _); [lia|]. by apply wp_ret. }
  csimp. wsimp. destruct (Z.ltb_spec 4096 (off + cnt)).
  { destruct (decide _); [lia|]. by apply wp_ret. }
  destruct (Z.ltb_spec (len f) off).
  { destruct (decide _); [lia|]. by apply wp_ret. }
  destruct (decide _) as [_|]; [|lia]. rewrite block2addr_eq. wp_step.
  pose proof Hx as [_ Hbf]. pose proof (bf_len_dat _ _ _ _ _ Hbf) as Hdat.
  eapply wp_mono; [apply (wp_read_buf lg i ino dat x _ 32768 dat); [lia|done|by right]|].
  intros d x1 (-> & Hx1 & Hin). wp_step.
  eapply wp_lift; [apply copy_loop_eq; lia|]. rewrite Z.add_0_r, drop_0.
  rewrite take_ge by (unfold len in *; lia).
  destruct (stored_splice ino dat i f off data) as [Hl' Hf']; [done|done|lia|lia|].
  set (f' := splice f (Z.to_nat off) data) in *.
  assert (len f' = Z.max (len f) (off + len data)) as Hlen by (apply len_splice_ext; lia).
  apply (wp_assign lg i ino dat); [lia|done|done| |].
  { unfold len in *. rewrite length_splice by lia. done. }
  intros x2 Hx2. destruct (Z.ltb_spec (len f) (off + cnt)) as [Hgt|Hng].
  - wp_step. unfold with_Size. cbn [Inum Data].
    replace (off + cnt) with (len f') by lia.
    eapply wp_mono; [apply (wp_simple_WriteInode lg i ino _ x2 f' Hi Hx2 Hl' Hf')|].
    intros [] x3 (ino' & Hx3 & Hst'). apply wp_ret. split; [done|]. by eexists ino', _.
  - assert (len f' = len f) as Hsame by lia. apply wp_ret. split; [by rewrite Hsame|].
    eexists ino, _. split; [done|]. destruct Hst as (Hino & _). split; [|done]. by rewrite Hino, Hsame.
Qed.

(** ** The transaction of each procedure, commit included *)

(** A log whose files, and those that survive a crash, are [fs]. *)
Definition log_ok (lg : Log) (fs : files) : Prop :=
  files_on (log_obj lg) fs /\ files_on (stable_obj lg) fs.

Lemma files_on_ext objs fs fs' : (forall i, valid i -> fs i = fs' i) ->
  files_on objs fs -> files_on objs fs'.
Proof. intros He Hon i Hi. rewrite <-He by done. by apply Hon. Qed.

Lemma upd_file_same i fs j : upd_file i (fs i) fs j = fs j.
Proof. unfold upd_file. by case_bool_decide; subst. Qed.

Lemma tx_file_begin lg fs i : valid i -> log_ok lg fs -> tx_file lg i (fs i) (mkTxn lg (jrnl_Begin lg)).
Proof. intros Hi [Hon _]. eexists _, _. split; [apply tx_begin|]. by apply Hon. Qed.

Lemma wp_commit_wait lg fs i f x : valid i -> log_ok lg fs -> tx_file lg i f x ->
  wp (commit_wait true) x (fun ok x' =>
    log_ok (x_log x') (upd_file i (if ok then f else fs i) fs) /\ other_objs i lg (x_log x')).
Proof.
  intros Hi [Hon Hst] (ino & dat & [<- Hbf] & Hf). unfold wp, commit_wait, valid in *.
  destruct (CommitWait (x_log x) (x_op x) true) as [ok lg'] eqn:Hc.
  exists ok, (mkTxn lg' (x_op x)). split; [done|]. simpl. destruct ok.
  - destruct (commit_objs _ _ i _ _ _ _ ltac:(lia) Hbf Hc) as (Hi1 & Hd1 & Ho).
    unfold log_ok. rewrite (Commit_stable _ _ _ Hc). split; [|done].
    assert (files_on (log_obj lg') (upd_file i f fs)) as Hu; [|done].
    intros j Hj. unfold upd_file. case_bool_decide as Hji; [by rewrite Hji, Hi1, Hd1|].
    unfold valid in *. destruct (Ho j) as [-> ->]; [lia|done|]. by apply Hon.
  - destruct (Commit_fail _ _ _ _ Hc) as [Hl _]. pose proof (Commit_fail_stable _ _ _ _ Hc) as Hs.
    unfold log_ok, other_objs. rewrite Hl, Hs. split; [|done].
    split; (eapply files_on_ext; [|done]); intros j _; by rewrite upd_file_same.
Qed.

(** Reading leaves the transaction as it is. *)
Lemma wp_read_inode lg i f x : valid i -> tx_file lg i f x ->
  wp (ReadInode i) x (fun ip x' => exists ino dat, ip = inode_of ino i /\ tx lg i ino dat x' /\
    stored ino dat i f).
Proof.
  unfold valid. intros Hi (ino & dat & Hx & Hst).
  eapply wp_mono; [apply (wp_ReadInode lg i ino dat); [lia|done]|].
  intros ip x' [-> Hx']. by exists ino, dat.
Qed.

Definition txn_rep (r : req) (i : Z) : M Txn rep :=
  match r with
  | Rgetattr a => p ← NFSPROC3_GETATTR_internal a zero i; mret (Pgetattr p)
  | Rsetattr a => p ← NFSPROC3_SETATTR_internal a zero i; mret (Psetattr p)
  | Rread a => p ← NFSPROC3_READ_internal a zero i; mret (Pread p)
  | Rwrite a => p ← NFSPROC3_WRITE_internal a zero i; mret (Pwrite p)
  | Rcommit a =>
      ok ← commit_wait true;
      mret (Pcommit (if (ok : bool) then mkCOMMIT3res NFS3_OK zero zero
                     else mkCOMMIT3res NFS3ERR_IO zero zero))
  end.

(** The part of a procedure between [ReadInode] and its commit: whether it
    commits, and the reply for each outcome of the commit. *)
Definition after_read (r : req) (i : Z) (ip : Inode) : M Txn (bool * (bool -> rep)) :=
  match r with
  | Rgetattr a =>
      mret (true, fun ok : bool => Pgetattr (mkGETATTR3res (status ok) (mkGETATTR3resok (MkFattr ip))))
  | Rsetattr a =>
      let size := Sattr3_Size (SETATTR3args_New_attributes a) in
      let ok_reply := fun ok : bool => Psetattr (set_status (status ok) zero) in
      if Set_size3_Set_it size then
        let newsize := Set_size3_Size size in
        if Size ip <? newsize then
          data ← lift (make_bytes (newsize -w Size ip));
          '(_, _, ip) ← Write ip (Size ip) (newsize -w Size ip) data;
          if bool_decide (Size ip <> newsize)
          then mret (false, fun _ : bool => Psetattr (set_status NFS3ERR_NOSPC zero))
          else mret (true, ok_reply)
        else
          _ ← WriteInode (with_Size newsize ip);
          mret (true, ok_reply)
      else mret (true, ok_reply)
  | Rread a =>
      '(data, eof) ← Read ip (READ3args_Offset a) (READ3args_Count a);
      mret (true, fun ok : bool =>
        Pread (mkREAD3res (status ok) (mkREAD3resok zero (w32 (len data)) eof data) zero))
  | Rwrite a =>
      '(count, writeok, _) ← Write ip (WRITE3args_Offset a) (WRITE3args_Count a)
                               (WRITE3args_Data a);
      if negb writeok then mret (false, fun _ : bool => Pwrite (mkWRITE3res NFS3ERR_SERVERFAULT zero zero))
      else mret (true, fun ok : bool =>
        Pwrite (mkWRITE3res (status ok) (mkWRITE3resok zero (w32 count) FILE_SYNC zero) zero))
  | Rcommit a =>
      mret (true, fun ok : bool => Pcommit (mkCOMMIT3res (if ok then NFS3_OK else NFS3ERR_IO) zero zero))
  end.

Definition end_txn (p : bool * (bool -> rep)) : M Txn rep :=
  let '(commits, k) := p in
  if commits then ok ← commit_wait true; mret (k ok) else mret (k true).

(** COMMIT does not read the inode. *)
Definition reads_inode (r : req) : bool :=
  match r with Rcommit _ => false | _ => true end.

Definition start_txn (r : req) (i : Z) : M Txn Inode :=
  if reads_inode r then ReadInode i else mret (mkInode i 0 0).

(** The two outcomes of the commit that ends a procedure. *)
Ltac commit_cases :=
  unfold mbind, M_bind; destruct (commit_wait true _) as [[[|] ?]| | |]; done.

Lemma txn_rep_split r i x :
  txn_rep r i x = (ip ← start_txn r i; p ← after_read r i ip; end_txn p) x.
Proof.
  destruct r as [a|a|a|a|a]; simpl.
  - unfold NFSPROC3_GETATTR_internal, NFSPROC3_GETATTR_wp, start_txn, mbind, M_bind. simpl.
    destruct (ReadInode i x) as [[ip x1]| | |]; [|done..]. simpl.
    commit_cases.
  - unfold NFSPROC3_SETATTR_internal, NFSPROC3_SETATTR_wp, start_txn, mbind, M_bind. simpl.
    destruct (ReadInode i x) as [[ip x1]| | |]; [|done..].
    destruct (Set_size3_Set_it _); simpl.
    2: { commit_cases. }
    destruct (Size ip <? _); simpl.
    + unfold lift. destruct (make_bytes _) as [d| | |]; [|done..]. simpl.
      destruct (Write _ _ _ _ _) as [[[[c w] ip'] x2]| | |]; [|done..].
      case_bool_decide; simpl; [done|].
      commit_cases.
    + destruct (WriteInode _ _) as [[[] x2]| | |]; [|done..]. simpl.
      commit_cases.
  - unfold NFSPROC3_READ_internal, NFSPROC3_READ_wp, start_txn, mbind, M_bind. simpl.
    destruct (ReadInode i x) as [[ip x1]| | |]; [|done..].
    destruct (Read _ _ _ _) as [[[d e] x2]| | |]; [|done..]. simpl.
    commit_cases.
  - unfold NFSPROC3_WRITE_internal, NFSPROC3_WRITE_wp, start_txn, mbind, M_bind. simpl.
    destruct (ReadInode i x) as [[ip x1]| | |]; [|done..].
    destruct (Write _ _ _ _ _) as [[[[c w] ip'] x2]| | |]; [|done..]. destruct w; simpl; [|done].
    commit_cases.
  - unfold start_txn, mbind, M_bind. simpl.
    commit_cases.
Qed.

Lemma read_file_len f off cnt : len (read_file f off cnt).1 <= len f.
Proof. unfold read_file. case_bool_decide; simpl; len. Qed.

Lemma resize_file_len f n f' : 0 <= n /\ resize_file f n = Some f' -> len f' = n.
Proof. unfold resize_file. intros [Hn Hr]. case_bool_decide; [done|]. simplify_eq. len. Qed.

(** Growing a file is a write of zeros at its end. *)
Lemma write_file_zeros f n : len f <= n ->
  write_file f (len f) (n - len f) (zeros (n - len f)) = resize_file f n.
Proof.
  intros Hn. pose proof (len_nonneg f). unfold write_file, resize_file. rewrite len_zeros by lia.
  rewrite !bool_decide_decide. do 2 (destruct (decide _)); try lia; [|done].
  unfold splice, len in *. rewrite Nat2Z.id, !take_ge, drop_ge, app_nil_r by lia. done.
Qed.

(** What a procedure has prepared for its commit, on a file that held [f]. *)
Definition prepared (lg : Log) (r : req) (i : Z) (f : list Z) (p : bool * (bool -> rep)) (x : Txn)
    : Prop :=
  let '(commits, k) := p in
  (forall ok, k ok = (serve_file ok r i f).1) /\
  exists f', tx_file lg i f' x /\
    forall ok, (serve_file ok r i f).2 = if commits && ok then f' else f.

(** [prep] finishes a [prepared] goal with the transaction's file. *)
Ltac prep f :=
  apply wp_ret; split; [by intros []|exists f; split; [done || (by eexists _, _)|by intros []]].

Lemma wp_after_setattr lg i ino dat f a x : valid i -> tx lg i ino dat x -> stored ino dat i f ->
  req_wf (Rsetattr a) ->
  wp (after_read (Rsetattr a) i (inode_of ino i)) x (prepared lg (Rsetattr a) i f).
Proof.
  intros Hi Hx Hst Hwf. pose proof Hi as Hv. unfold valid in Hv.
  assert (tx_file lg i f x) as Hfx by (by exists ino, dat).
  simpl in Hwf. unfold prepared. cbn [after_read serve_file]. set (sz := Sattr3_Size _) in *.
  destruct (Set_size3_Set_it sz); [|prep f].
  set (n := Set_size3_Size sz) in *. pose proof Hst as (Hino & Hle & Hf). rewrite Hino. cbn [Size].
  pose proof (len_nonneg f). destruct (Z.ltb_spec (len f) n) as [Hlt|Hge].
  - wsimp. unfold make_bytes. destruct (Z.leb_spec (2 ^ 63) (n - len f)); [lia|].
    apply wp_bind. eapply wp_lift; [done|]. apply wp_bind. rewrite <-Hino.
    eapply wp_mono; [eapply (wp_simple_Write lg i ino dat x f); [lia|done..| |]|];
      [unfold is_u64; lia..|]. intros r x2. rewrite write_file_zeros by lia.
    destruct (resize_file f n) as [f'|] eqn:Hr.
    + pose proof (resize_file_len _ _ _ (conj (proj1 Hwf) Hr)) as Hlen. intros [-> Hx2].
      cbn [Size]. rewrite Hlen, bool_decide_eq_false_2 by auto. prep f'.
    + intros [-> Hx2]. cbn [Size]. rewrite bool_decide_eq_true_2 by lia. prep f.
  - assert (resize_file f n = Some (take (Z.to_nat n) f)) as ->.
    { unfold resize_file. rewrite bool_decide_eq_false_2 by lia. unfold zeros.
      replace (Z.to_nat (n - len f)) with 0%nat by lia. by rewrite app_nil_r. }
    set (f' := take (Z.to_nat n) f). assert (len f' = n) as Hn by (subst f'; len).
    unfold with_Size. cbn [Inum Data]. rewrite <-Hn. apply wp_bind.
    eapply wp_mono; [apply (wp_simple_WriteInode lg i ino dat x f'); [lia|done|lia|]|].
    { subst f'. rewrite <-Hf at 2. rewrite take_take. f_equal. len. }
    intros [] x2 (ino' & Hx2 & Hst'). prep f'.
Qed.

Lemma wp_after_read lg r i ino dat f x : valid i -> req_wf r -> tx lg i ino dat x ->
  stored ino dat i f ->
  wp (after_read r i (inode_of ino i)) x (prepared lg r i f).
Proof.
  intros Hi Hwf Hx Hst. pose proof Hi as Hv. unfold valid in Hv.
  assert (tx_file lg i f x) as Hfx by (by exists ino, dat).
  destruct r as [a|a|a|a|a]; simpl in Hwf; unfold prepared; cbn [after_read serve_file].
  - destruct Hst as (Hino & _). rewrite Hino. prep f.
  - apply (wp_after_setattr lg i ino dat); done.
  - destruct Hwf as [Hoff Hcnt]. apply wp_bind.
    eapply wp_mono; [eapply (wp_simple_Read lg i ino dat x f); [lia|done..]|].
    intros r x2 [-> Hx2]. pose proof Hst as (_ & Hle & _).
    pose proof (read_file_len f (READ3args_Offset a) (READ3args_Count a)) as Hlen.
    destruct (read_file _ _ _) as [data eof]. simpl in Hlen.
    rewrite w32_small by (pose proof (len_nonneg data); lia). prep f.
  - destruct Hwf as [Hoff Hcnt]. apply wp_bind.
    eapply wp_mono; [eapply (wp_simple_Write lg i ino dat x f); [lia|done..|]|].
    { unfold is_u32, is_u64 in *. lia. }
    intros r x2. destruct (write_file _ _ _ _) as [f'|].
    + intros [-> Hx2]. rewrite w32_u32 by done. prep f'.
    + intros [-> Hx2]. prep f.
  - prep f.
Qed.

(** The file and the log after a transaction. *)
Definition served (lg : Log) (fs : files) (r : req) (i : Z) (p : rep) (x : Txn) : Prop :=
  exists ok, p = (serve ok r i fs).1 /\ log_ok (x_log x) (serve ok r i fs).2.

Lemma serve_eq ok r i fs :
  serve ok r i fs = ((serve_file ok r i (fs i)).1, upd_file i (serve_file ok r i (fs i)).2 fs).
Proof. unfold serve. by destruct (serve_file _ _ _ _). Qed.

Lemma wp_end_txn lg fs r i p x : valid i -> log_ok lg fs -> prepared lg r i (fs i) p x ->
  wp (end_txn p) x (fun p' x' => served lg fs r i p' x' /\ other_objs i lg (x_log x')).
Proof.
  intros Hi Hlg. destruct p as [[|] k]; intros (Hk & f' & Hx & Hf'); simpl.
  - apply wp_bind. eapply wp_mono; [by apply (wp_commit_wait lg fs i f')|].
    intros ok x' [Hok Ho]. apply wp_ret. split; [|done]. exists ok. rewrite serve_eq. simpl.
    by rewrite Hk, Hf'.
  - apply wp_ret. destruct Hx as (? & ? & [Hx _] & _). rewrite Hx. split; [|by split].
    exists true. rewrite serve_eq. simpl. rewrite Hk, Hf'. split; [done|]. cbn [andb].
    destruct Hlg as [Hl Hs]. split; rewrite Hx; (eapply files_on_ext; [|done]); intros j _;
      by rewrite upd_file_same.
Qed.

Lemma wp_start_txn lg r i f x : valid i -> tx_file lg i f x ->
  wp (start_txn r i) x (fun ip x' => exists ino dat, (reads_inode r = true -> ip = inode_of ino i) /\
    tx lg i ino dat x' /\ stored ino dat i f).
Proof.
  intros Hi Hx. unfold start_txn. destruct (reads_inode r).
  - eapply wp_mono; [by apply wp_read_inode|]. intros ip x' (ino & dat & -> & ? & ?). eauto.
  - apply wp_ret. destruct Hx as (ino & dat & ? & ?). by exists ino, dat.
Qed.

Lemma after_read_any r i ip ip' : reads_inode r = false -> after_read r i ip = after_read r i ip'.
Proof. by destruct r. Qed.

Lemma wp_after_start lg r i ino dat f ip x : valid i -> req_wf r ->
  (reads_inode r = true -> ip = inode_of ino i) -> tx lg i ino dat x -> stored ino dat i f ->
  wp (after_read r i ip) x (prepared lg r i f).
Proof.
  intros Hi Hwf Hip Hx Hst. destruct (reads_inode r) eqn:Hr.
  - rewrite (Hip eq_refl). by apply (wp_after_read lg r i ino dat).
  - rewrite (after_read_any r i ip (inode_of ino i) Hr). by apply (wp_after_read lg r i ino dat).
Qed.

Lemma wp_txn_rep lg fs r i : valid i -> req_wf r -> log_ok lg fs ->
  wp (txn_rep r i) (mkTxn lg (jrnl_Begin lg)) (served lg fs r i).
Proof.
  intros Hi Hwf Hlg. unfold wp. rewrite txn_rep_split. apply wp_bind.
  eapply wp_mono; [apply (wp_start_txn lg); [done|by apply tx_file_begin]|].
  intros ip x (ino & dat & Hip & Hx & Hst). apply wp_bind.
  eapply wp_mono; [by apply (wp_after_start lg r i ino dat (fs i))|].
  intros p x' Hp. eapply wp_mono; [by apply (wp_end_txn lg)|]. by intros ? ? [? _].
Qed.

(** ** The procedures *)

Definition dispatch (r : req) : M Nfs rep :=
  match r with
  | Rgetattr a => p ← NFSPROC3_GETATTR a; mret (Pgetattr p)
  | Rsetattr a => p ← NFSPROC3_SETATTR a; mret (Psetattr p)
  | Rread a => p ← NFSPROC3_READ a; mret (Pread p)
  | Rwrite a => p ← NFSPROC3_WRITE a; mret (Pwrite p)
  | Rcommit a => p ← NFSPROC3_COMMIT a; mret (Pcommit p)
  end.

Lemma validInum_eq i : 0 <= i -> validInum i = bool_decide (valid i).
Proof.
  intros Hi. unfold validInum, nInode, valid. csimp. rewrite bool_decide_decide.
  destruct (Z.eqb_spec i 0), (Z.eqb_spec i 1), (Z.leb_spec 32 i), (decide _); lia || done.
Qed.

(** The transaction of a request runs under the lock of its inode. *)
Lemma wp_locked {A B} s i op (m : M Txn A) (k : A -> M Nfs B) Q : i ∉ held (l s) ->
  wp m (mkTxn (t s) op) (fun a x => forall lm, held lm = held (l s) ->
    wp (k a) (mkNfs (x_log x) lm) Q) ->
  wp (_ ← acquire i; a ← run op m; _ ← release i; k a) s Q.
Proof.
  intros Hi (a & x & Hm & Hk). destruct (Acquire_free (l s) i Hi) as (lm & Ha & Hh).
  destruct (Release_held lm i) as (lm' & Hr & Hh'); [set_solver|].
  wp_step. exists tt, (mkNfs (t s) lm). split; [unfold acquire; by rewrite Ha|].
  wp_step. exists a, (mkNfs (x_log x) lm). split; [unfold run; simpl; by rewrite Hm|].
  wp_step. unfold release. wp_step. apply wp_get. wp_step. simpl. rewrite Hr.
  eapply wp_lift; [done|]. apply wp_modify. simpl. apply Hk. rewrite Hh', Hh. set_solver.
Qed.

(** A request whose file is not locked: the reply is the abstract server's, the
    locks are as before, and the files are those of the abstract server, in the
    log and after a crash. *)
Definition served_as (s : Nfs) (fs : files) (r : req) (i : Z) (p : rep) (s' : Nfs) : Prop :=
  held (l s') = held (l s) /\
  exists ok, p = (spec ok r i fs).1 /\ log_ok (t s') (spec ok r i fs).2.

Lemma wp_dispatch s fs r i : req_wf r -> fh2ino (req_fh r) = Ok i -> is_u64 i ->
  log_ok (t s) fs -> (valid i -> i ∉ held (l s)) ->
  wp (dispatch r) s (served_as s fs r i).
Proof.
  intros Hwf Hfh Hi Hlg Hfree. unfold served_as, spec, is_u64 in *.
  pose proof (validInum_eq i ltac:(lia)) as Hv. rewrite bool_decide_decide in Hv |- *.
  destruct (decide (valid i)) as [Hval|Hinv].
  - pose proof (wp_txn_rep (t s) fs r i Hval Hwf Hlg) as Hrep. specialize (Hfree Hval).
    assert (i =? ROOTINUM = false) as Hroot by (csimp; unfold valid in Hval; lia).
    destruct r; simpl in *; apply wp_bind;
      [unfold NFSPROC3_GETATTR|unfold NFSPROC3_SETATTR|unfold NFSPROC3_READ|unfold NFSPROC3_WRITE
      |unfold NFSPROC3_COMMIT]; wp_step; apply wp_gets; wp_step; (eapply wp_lift; [done|]);
      rewrite ?Hroot, Hv; cbn [negb]; apply wp_locked; try done;
      apply wp_bind_inv in Hrep; (eapply wp_mono; [exact Hrep|]); intros p x Hr lm Hh;
      apply wp_ret_inv in Hr; apply wp_ret, wp_ret; done.
  - destruct r; simpl in *; apply wp_bind;
      [unfold NFSPROC3_GETATTR|unfold NFSPROC3_SETATTR|unfold NFSPROC3_READ|unfold NFSPROC3_WRITE
      |unfold NFSPROC3_COMMIT]; wp_step; apply wp_gets; wp_step; (eapply wp_lift; [done|]);
      rewrite Hv; cbn [negb]; [|apply wp_ret, wp_ret; (split; [done|]); by exists true..].
    unfold rootFattr. csimp. destruct (Z.eqb_spec i 1) as [->|Hne]; apply wp_ret, wp_ret; (split; [done|]);
      exists true; [done|]. by rewrite bool_decide_eq_false_2.
Qed.
End proofs.
