(* ===== verification/SimpleClaims.v ===== *)
(** Theorems on the simple server: making one, and serving any sequence of
    requests. *)
From S2P Require Import Prelude Nfstypes External Reference Simple SimpleSpec.

(** ** Making a server *)

Section init.
Context `{!Common} `{!CommonSpec} `{!Util} `{!UtilSpec} `{!Marshal} `{!MarshalSpec}
  `{!Journal} `{!JournalSpec} `{!LockPkg} `{!LockSpec}.

(** The size an inode has on the disk, and its file. *)
Definition size_on (lg : Log) (i : Z) : Z := u64_of (take 8 (log_obj lg (ino_addr i) 1024)).

Definition file_on (lg : Log) (i : Z) : list Z :=
  take (Z.to_nat (size_on lg i)) (log_obj lg (dat_addr i) 32768).

Definition init_obj (lg : Log) (i : Z) : list Z :=
  u64_le (size_on lg i) ++ u64_le (LOGSIZE + 1 + i) ++ zeros 112.

(** The buffers when [inodeInit] reaches inode [n]. *)
Definition init_bufs (lg : Log) (n : Z) (o : Op) : Prop := forall a b,
  op_bufs o !! a = Some b <->
  exists j, 0 <= j < n /\ a = ino_addr j /\ b = mkBufv 1024 (init_obj lg j) true.

Lemma ino_addr_inj i j : ino_addr i = ino_addr j -> i = j.
Proof. intros [=]. lia. Qed.

Lemma wp_init_one lg i o : 0 <= i < 32 -> init_bufs lg i o ->
  wp (ip ← ReadInode i; WriteInode (with_Data (LOGSIZE +w 1 +w i) ip)) (mkTxn lg o)
    (fun _ x => x_log x = lg /\ init_bufs lg (i + 1) (x_op x)).
Proof.
  intros Hi Ho. pose proof LOGSIZE_range.
  assert (op_bufs o !! ino_addr i = None) as Hnone.
  { destruct (op_bufs o !! ino_addr i) as [b|] eqn:Hb; [|done].
    apply Ho in Hb as (j & Hj & ->%ino_addr_inj & _). lia. }
  unfold ReadInode, read_buf. rewrite (inum2Addr_eq i Hi). csimp.
  do 3 apply wp_bind. apply wp_modify. apply wp_gets. cbn [x_log x_op].
  rewrite buf_Data_eq, ReadBuf_bufs, Hnone, lookup_insert_eq. cbn [from_option bv_data].
  eapply wp_lift; [apply Decode_eq; by rewrite log_ino_len|].
  wsimp. unfold WriteInode. rewrite Simple_Encode_eq. apply wp_bind. eapply wp_lift; [done|].
  unfold with_Data. cbn [Inum Size Data inode_of]. rewrite (inum2Addr_eq i Hi). csimp.
  unfold over_write. wp_step. apply wp_get. wp_step. cbn [x_log x_op].
  set (o1 := ReadBuf lg o (ino_addr i) 1024).
  assert (op_bufs o1 = <[ino_addr i := mkBufv 1024 (log_obj lg (ino_addr i) 1024) false]> (op_bufs o))
    as Ho1 by (subst o1; by rewrite ReadBuf_bufs, Hnone).
  destruct (OverWrite_ok o1 (ino_addr i) 1024 (init_obj lg i)) as (o2 & Hw & Ho2).
  { by rewrite Ho1, lookup_insert_eq. }
  eapply wp_lift; [exact Hw|]. apply wp_modify. split; [done|]. cbn [x_op].
  intros a b. rewrite Ho2, Ho1, insert_insert_eq.
  destruct (decide (a = ino_addr i)) as [->|Hne].
  - rewrite lookup_insert_eq. split.
    + intros [= <-]. exists i. split; [lia|done].
    + by intros (j & _ & <-%ino_addr_inj & ->).
  - rewrite lookup_insert_ne by done. rewrite (Ho a b). split; intros (j & Hj & -> & ->); exists j.
    + split; [lia|done].
    + split; [|done]. destruct (decide (j = i)); [congruence|lia].
Qed.

Lemma wp_init_loop lg n i o : 0 <= i -> i + Z.of_nat n = 32 -> init_bufs lg i o ->
  wp (init_loop n i) (mkTxn lg o) (fun _ x => x_log x = lg /\ init_bufs lg 32 (x_op x)).
Proof.
  revert i o. induction n as [|n IH]; intros i o Hi Hn Ho; cbn [init_loop].
  { apply wp_ret. split; [done|]. by replace 32 with i by lia. }
  pose proof (wp_bind_inv _ _ _ _ (wp_init_one lg i o ltac:(lia) Ho)) as Hone.
  apply wp_bind. eapply wp_mono; [exact Hone|]. intros ip x Hw. apply wp_bind.
  eapply wp_mono; [exact Hw|]. intros [] [lg' o'] [Hlg Ho']. cbn [x_log x_op] in *. subst lg'.
  rewrite w64_small by lia. apply IH; [lia|lia|done].
Qed.

Lemma init_dirty lg o a b : init_bufs lg 32 o -> op_dirty o a = Some b ->
  exists j, 0 <= j < 32 /\ a = ino_addr j /\ b = mkBufv 1024 (init_obj lg j) true.
Proof. intros Ho [Hb _]%op_dirty_bufs. by apply Ho in Hb. Qed.

Lemma init_commit lg o lg' : init_bufs lg 32 o -> CommitWait lg o true = (true, lg') ->
  (forall i, valid i -> size_on lg i <= 4096) -> log_ok lg' (file_on lg).
Proof.
  intros Ho Hc Hsz. pose proof LOGSIZE_range. unfold log_ok. rewrite (Commit_stable _ _ _ Hc).
  assert (files_on (log_obj lg') (file_on lg)) as Hf; [|done].
  intros i Hi. specialize (Hsz i Hi). unfold valid in Hi.
  assert (is_u64 (size_on lg i)) as Hu by apply u64_of_u64.
  assert (log_obj lg' (ino_addr i) 1024 = init_obj lg i) as ->.
  { assert (op_dirty o (ino_addr i) = Some (mkBufv 1024 (init_obj lg i) true)) as Hd.
    { assert (op_bufs o !! ino_addr i = Some (mkBufv 1024 (init_obj lg i) true)) as Hb
        by (apply Ho; exists i; split; [lia|done]).
      unfold op_dirty. by rewrite Hb. }
    apply (Commit_written _ o true _ _ _ Hc Hd); [done| |].
    - simpl. unfold init_obj. rewrite !len_app, !u64_le_len, len_zeros by lia. done.
    - intros a b Hne (j & _ & -> & ->)%(init_dirty lg); [|done]. simpl.
      apply ino_ino_disjoint. congruence. }
  assert (log_obj lg' (dat_addr i) 32768 = log_obj lg (dat_addr i) 32768) as ->.
  { apply (Commit_other _ _ _ _ _ _ Hc); [lia|].
    intros a b (j & _ & -> & ->)%(init_dirty lg); [|done]. apply dat_ino_disjoint. lia. }
  pose proof (log_dat_len lg i) as Hl. unfold is_u64 in Hu.
  assert (len (file_on lg i) = size_on lg i) as Hlen by (unfold file_on; len).
  split; [|split; [lia|]].
  - rewrite Hlen. apply (inode_of_encoded (mkInode i (size_on lg i) (LOGSIZE + 1 + i)));
      unfold is_u64; simpl; lia.
  - unfold file_on at 2. f_equal. unfold len in Hlen. lia.
Qed.

Lemma init_log_cases lg : (forall i, valid i -> size_on lg i <= 4096) ->
  exists o, init_log lg = Ok o /\ forall lg', o = Some lg' -> log_ok lg' (file_on lg).
Proof.
  intros Hsz. unfold init_log, mbind at 2. unfold M_bind.
  destruct (wp_init_loop lg 32 0 (jrnl_Begin lg)) as ([] & [lg1 o1] & Hr & Hlg & Ho); [lia|lia| |].
  { intros a b. rewrite Begin_bufs, lookup_empty. split; [done|]. intros (j & Hj & _). lia. }
  cbn [x_log x_op] in *. subst lg1. unfold inodeInit, nInode. csimp.
  change (Z.to_nat 32) with 32%nat. rewrite Hr. unfold commit_wait. cbn [x_log x_op].
  destruct (CommitWait lg o1 true) as [ok lg'] eqn:Hc. cbn. eexists. split; [done|].
  destruct ok; [|done]. intros ? [= <-]. by apply (init_commit lg o1).
Qed.

Context `{!DiskPkg} `{!BufDisk}.

(** C31: [MakeNfs] of a disk whose inodes have at most a block always returns; when
    its commit succeeds the server holds no lock and serves the files the inodes
    describe, which survive a crash, whatever data blocks the inodes named. *)
Theorem MakeNfs_spec d :
  (forall i, valid i -> size_on (obj_MkLog d) i <= 4096) ->
  exists o, MakeNfs d = Ok o /\ forall s, o = Some s ->
    held (l s) = ∅ /\ log_ok (t s) (file_on (obj_MkLog d)).
Proof.
  intros Hsz. destruct (init_log_cases _ Hsz) as (o & Hi & Ho).
  unfold MakeNfs. rewrite Hi. cbn. eexists. split; [done|].
  destruct o as [lg'|]; [|done]. intros ? [= <-]. split; [apply MkLockMap_held|]. by apply Ho.
Qed.
End init.

(** ** Serving requests *)

Section serve.
Context `{!Common} `{!CommonSpec} `{!Util} `{!UtilSpec} `{!Marshal} `{!MarshalSpec}
  `{!Journal} `{!JournalSpec} `{!LockPkg} `{!LockSpec}.

Fixpoint dispatch_all (rs : list req) : M Nfs (list rep) :=
  match rs with
  | [] => mret []
  | r :: rs =>
      p ← dispatch r;
      ps ← dispatch_all rs;
      mret (p :: ps)
  end.

(** The abstract server, for the outcomes [oks] of the commits. *)
Fixpoint spec_all (oks : list bool) (rs : list (req * Z)) (fs : files) : list rep * files :=
  match oks, rs with
  | ok :: oks, (r, i) :: rs =>
      let '(p, fs) := spec ok r i fs in
      let '(ps, fs) := spec_all oks rs fs in
      (p :: ps, fs)
  | _, _ => ([], fs)
  end.

(** A request that decodes, and its inode number. *)
Definition req_ok (p : req * Z) : Prop :=
  req_wf p.1 /\ fh2ino (req_fh p.1) = Ok p.2 /\ is_u64 p.2.

Lemma wp_dispatch_all rs : Forall req_ok rs -> forall s fs, held (l s) = ∅ ->
  log_ok (t s) fs ->
  wp (dispatch_all rs.*1) s (fun ps s' => held (l s') = ∅ /\
    exists oks, length oks = length rs /\ ps = (spec_all oks rs fs).1 /\
      log_ok (t s') (spec_all oks rs fs).2).
Proof.
  induction 1 as [|[r i] rs (Hwf & Hfh & Hi) _ IH]; intros s fs Hl Hlg; csimpl.
  { apply wp_ret. split; [done|]. by exists []. }
  apply wp_bind. eapply wp_mono; [apply (wp_dispatch s fs r i); [done..|]; rewrite Hl; set_solver|].
  intros p s1 (Hl1 & ok & Hp & Hlg1). apply wp_bind.
  eapply wp_mono; [apply (IH s1 (spec ok r i fs).2); [congruence|exact Hlg1]|].
  intros ps s2 (Hl2 & oks & Hlen & Hps & Hlg2). apply wp_ret. split; [done|].
  exists (ok :: oks). simpl. destruct (spec ok r i fs) as [p' fs'] eqn:Hs. simpl in *. subst.
  destruct (spec_all oks rs fs') as [ps' fs''] eqn:Hs'. simpl in *. auto.
Qed.

(** C21: any sequence of GETATTR, SETATTR, READ, WRITE and COMMIT requests is served
    to the end: the replies and the files are those of the abstract server, for
    some outcome of each commit, the locks are all released, and the files of
    the log and the files that survive a crash are the abstract ones. *)
Theorem dispatch_all_refines rs s fs : Forall req_ok rs -> held (l s) = ∅ ->
  log_ok (t s) fs ->
  exists ps s', dispatch_all rs.*1 s = Ok (ps, s') /\ held (l s') = ∅ /\
    exists oks fs', length oks = length rs /\ spec_all oks rs fs = (ps, fs') /\ log_ok (t s') fs'.
Proof.
  intros Hrs Hl Hlg. destruct (wp_dispatch_all rs Hrs s fs Hl Hlg) as (ps & s' & Hr & Hl' & oks & ? & -> & ?).
  exists (spec_all oks rs fs).1, s'. split_and!; [done..|]. exists oks, (spec_all oks rs fs).2. split_and!; [done| |done].
  by destruct (spec_all oks rs fs).
Qed.

(** A request for a file whose lock is held waits. *)
Lemma dispatch_locked s r i : fh2ino (req_fh r) = Ok i -> valid i -> i ∈ held (l s) ->
  dispatch r s = Blocked.
Proof.
  intros Hfh Hi Hh. pose proof (Acquire_held _ _ Hh) as Ha. pose proof Hi as Hv. unfold valid in Hv.
  pose proof (validInum_eq i ltac:(lia)) as Hval. rewrite bool_decide_eq_true_2 in Hval by done.
  assert (i =? ROOTINUM = false) as Hroot by (csimp; lia).
  destruct r; simpl in *; unfold dispatch, NFSPROC3_GETATTR, NFSPROC3_SETATTR, NFSPROC3_READ,
    NFSPROC3_WRITE, NFSPROC3_COMMIT, mbind, M_bind, begin, gets, lift;
    rewrite Hfh, ?Hroot, Hval; simpl; unfold acquire; by rewrite Ha.
Qed.

(** SETATTR to a size that no slice can have panics, with the file's lock held. *)
Theorem SETATTR_huge s fs a i : fh2ino (SETATTR3args_Object a) = Ok i -> valid i ->
  i ∉ held (l s) -> log_ok (t s) fs ->
  let sz := Sattr3_Size (SETATTR3args_New_attributes a) in
  Set_size3_Set_it sz = true -> 2 ^ 63 + 4096 <= Set_size3_Size sz < 2 ^ 64 ->
  NFSPROC3_SETATTR a s = Panic.
Proof.
  intros Hfh Hi Hh Hlg sz Hset Hsz. pose proof Hi as Hv. unfold valid in Hv.
  pose proof (validInum_eq i ltac:(lia)) as Hval. rewrite bool_decide_eq_true_2 in Hval by done.
  destruct (Acquire_free _ _ Hh) as (lm & Ha & _).
  pose proof (tx_file_begin (t s) fs i Hi Hlg) as Hx.
  destruct (wp_read_inode _ _ _ _ Hi Hx) as (ip & x & Hr & ino & dat & -> & _ & Hino & Hle & _).
  rewrite Hino in Hr. pose proof (len_nonneg (fs i)).
  unfold NFSPROC3_SETATTR, mbind, M_bind, begin, gets, lift. rewrite Hfh, Hval. simpl.
  unfold acquire. rewrite Ha. unfold run. cbn [t l].
  unfold NFSPROC3_SETATTR_internal, NFSPROC3_SETATTR_wp, mbind, M_bind. rewrite Hr.
  fold sz. rewrite Hset. cbn [Size]. destruct (Z.ltb_spec (len (fs i)) (Set_size3_Size sz)); [|lia].
  rewrite w64_small by lia. unfold make_bytes.
  by destruct (Z.leb_spec (2 ^ 63) (Set_size3_Size sz - len (fs i))); [|lia].
Qed.
End serve.

(** ** A server made on an empty disk *)

Definition simple_disk : Disk := mkRefDisk 1000 ∅.

Definition simple_srv : Nfs :=
  match MakeNfs simple_disk with
  | Ok (Some s) => s
  | _ => Recover simple_disk
  end.

Definition no_files : files := fun _ => [].

Lemma simple_disk_size i : size_on (obj_MkLog simple_disk) i = 0.
Proof.
  unfold size_on. change (obj_MkLog simple_disk) with (zero_log 1000).
  rewrite (zero_log_obj 1000 (ino_addr i) 128) by lia. apply u64_of_zeros.
Qed.

Lemma simple_disk_file i : file_on (obj_MkLog simple_disk) i = [].
Proof. unfold file_on. by rewrite simple_disk_size. Qed.

Lemma simple_srv_made : exists lg, init_log (obj_MkLog simple_disk) = Ok (Some lg) /\
  simple_srv = mkNfs lg MkLockMap.
Proof.
  destruct (init_log_cases (obj_MkLog simple_disk)) as (o & Hi & _).
  { intros i _. rewrite simple_disk_size. lia. }
  assert (match init_log (obj_MkLog simple_disk) with Ok (Some _) => true | _ => false end = true)
    as Hs by (vm_compute; reflexivity).
  unfold simple_srv, MakeNfs. rewrite Hi in Hs |- *. destruct o as [lg|]; [|done]. exists lg. split; reflexivity.
Qed.

Lemma simple_srv_ok : held (l simple_srv) = ∅ /\ log_ok (t simple_srv) no_files.
Proof.
  destruct (init_log_cases (obj_MkLog simple_disk)) as (o & Hi & Ho).
  { intros i _. rewrite simple_disk_size. lia. }
  destruct simple_srv_made as (lg & Hi' & ->). rewrite Hi in Hi'. injection Hi' as ->.
  split; [apply MkLockMap_held|]. destruct (Ho lg eq_refl) as [Hl Hs].
  split; (eapply files_on_ext; [|done]); intros i _; apply simple_disk_file.
Qed.

#[global] Opaque simple_srv.

Definition simple_fh (i : Z) : Nfs_fh3 := mkNfs_fh3 (u64_le i ++ zeros 8).

Definition sample_reqs : list (req * Z) :=
  [(Rwrite (mkWRITE3args (simple_fh 2) 0 3 UNSTABLE [10; 11; 12]), 2);
   (Rread (mkREAD3args (simple_fh 2) 1 100), 2);
   (Rgetattr (mkGETATTR3args (simple_fh 1)), 1);
   (Rcommit (mkCOMMIT3args (simple_fh 40) 0 0), 40)].

Lemma sample_reqs_ok : Forall req_ok sample_reqs.
Proof. repeat constructor; try lia; vm_compute; (reflexivity || discriminate). Qed.

Lemma MakeNfs_spec_witness :
  (forall i, valid i -> size_on (obj_MkLog simple_disk) i <= 4096) /\
  exists o, MakeNfs simple_disk = Ok o /\ forall s, o = Some s ->
    held (l s) = ∅ /\ log_ok (t s) (file_on (obj_MkLog simple_disk)).
Proof.
  assert (forall i, valid i -> size_on (obj_MkLog simple_disk) i <= 4096) as Hsz.
  { intros i _. rewrite simple_disk_size. lia. }
  exact (conj Hsz (MakeNfs_spec simple_disk Hsz)).
Defined.

Lemma dispatch_all_refines_witness : exists ps s',
  dispatch_all sample_reqs.*1 simple_srv = Ok (ps, s') /\ held (l s') = ∅ /\
  exists oks fs', length oks = 4%nat /\ spec_all oks sample_reqs no_files = (ps, fs') /\
    log_ok (t s') fs'.
Proof.
  exact (dispatch_all_refines sample_reqs simple_srv no_files sample_reqs_ok
    (proj1 simple_srv_ok) (proj2 simple_srv_ok)).
Defined.

Definition huge_setattr : SETATTR3args :=
  mkSETATTR3args (simple_fh 2)
    (mkSattr3 zero zero zero (mkSet_size3 true (2 ^ 64 - 1)) zero zero) zero.

Lemma SETATTR_huge_witness : NFSPROC3_SETATTR huge_setattr simple_srv = Panic.
Proof.
  apply (SETATTR_huge simple_srv no_files huge_setattr 2).
  - vm_compute. reflexivity.
  - unfold valid. lia.
  - rewrite (proj1 simple_srv_ok). apply not_elem_of_empty.
  - apply simple_srv_ok.
  - reflexivity.
  - split; [discriminate|reflexivity].
Defined.
