(* ===== verification/SimpleConc.v ===== *)
(** The simple server with requests running at the same time, each in a goroutine
    of its own (as [RecoverExample] starts them).  A step of a thread touches the
    shared log or the lock map at most once; between the steps of one thread any
    other thread may run. *)
From stdpp Require Import relations.
From S2P Require Import Prelude Nfstypes External Reference Simple SimpleSpec SimpleClaims.

Section threads.
Context `{!Common} `{!Util} `{!Marshal} `{!Journal} `{!LockPkg}.

(** Where a request is: not begun; begun; with the lock of its inode; with the
    inode read; at its commit; with its reply, the lock still held; done. *)
Inductive thread :=
| Tstart (r : req)
| Tlock (r : req) (i : Z) (op : Op)
| Tread (r : req) (i : Z) (op : Op)
| Tbody (r : req) (i : Z) (ip : Inode) (op : Op)
| Tend (i : Z) (p : bool * (bool -> rep)) (op : Op)
| Trel (i : Z) (p : rep)
| Tdone (p : rep).

Definition finished (th : thread) : bool :=
  match th with Tdone _ => true | _ => false end.

(** Run a part of a transaction and keep its buffers. *)
Definition run_op {A} (op : Op) (m : M Txn A) : M Nfs (A * Op) :=
  run op (a ← m; o ← gets x_op; mret (a, o)).

Definition thread_step (th : thread) : M Nfs thread :=
  match th with
  | Tstart r =>
      op ← begin;
      i ← lift (fh2ino (req_fh r));
      mret (if validInum i then Tlock r i op else Tdone (refuse r i))
  | Tlock r i op => _ ← acquire i; mret (Tread r i op)
  | Tread r i op => '(ip, op) ← run_op op (start_txn r i); mret (Tbody r i ip op)
  | Tbody r i ip op => '(p, op) ← run_op op (after_read r i ip); mret (Tend i p op)
  | Tend i p op => p ← run op (end_txn p); mret (Trel i p)
  | Trel i p => _ ← release i; mret (Tdone p)
  | Tdone p => mret (Tdone p)
  end.

(** One thread alone. *)
Fixpoint run_thread (fuel : nat) (th : thread) : M Nfs rep :=
  match th with
  | Tdone p => mret p
  | _ =>
      match fuel with
      | O => nofuel
      | S fuel => th ← thread_step th; run_thread fuel th
      end
  end.

(** The server and its threads; a step of one of them. *)
Inductive cstep : Nfs * list thread -> Nfs * list thread -> Prop :=
| cstep_thread s ths j th th' s' :
    ths !! j = Some th -> finished th = false -> thread_step th s = Ok (th', s') ->
    cstep (s, ths) (s', <[j := th']> ths).

(** *** The order of the requests: the thread of each and its commit's outcome *)

Definition lin_step (reqs : list (req * Z)) (ev : nat * bool) (st : files * gmap nat rep)
    : option (files * gmap nat rep) :=
  '(r, i) ← reqs !! ev.1;
  match st.2 !! ev.1 with
  | Some _ => None
  | None => let '(p, fs) := spec ev.2 r i st.1 in Some (fs, <[ev.1 := p]> st.2)
  end.

Definition lin_run (reqs : list (req * Z)) (evs : list (nat * bool)) (fs : files)
    : option (files * gmap nat rep) :=
  foldl (fun o ev => st ← o; lin_step reqs ev st) (Some (fs, ∅)) evs.

(** [evs] explains a state: serving the requests in this order, one at a time,
    gives the files of the log and every reply; a thread that has not begun is
    not in it. *)
Definition linearized (reqs : list (req * Z)) (fs0 : files) (c : Nfs * list thread)
    (evs : list (nat * bool)) : Prop :=
  exists fs out, lin_run reqs evs fs0 = Some (fs, out) /\ log_ok (t c.1) fs /\
    (forall j p, c.2 !! j = Some (Tdone p) -> out !! j = Some p) /\
    (forall j r, c.2 !! j = Some (Tstart r) -> out !! j = None).

(** *** Steps left *)

Definition weight (th : thread) : nat :=
  match th with
  | Tstart _ => 6
  | Tlock _ _ _ => 5
  | Tread _ _ _ => 4
  | Tbody _ _ _ _ => 3
  | Tend _ _ _ => 2
  | Trel _ _ => 1
  | Tdone _ => 0
  end.

Definition total (ths : list thread) : nat := sum_list_with weight ths.
End threads.

Section conc.
Context `{!Common} `{!CommonSpec} `{!Util} `{!UtilSpec} `{!Marshal} `{!MarshalSpec}
  `{!Journal} `{!JournalSpec} `{!LockPkg} `{!LockSpec}.

(** ** One thread alone *)

Lemma dispatch_eq r s : dispatch r s =
  (op ← begin;
   i ← lift (fh2ino (req_fh r));
   if validInum i then _ ← acquire i; p ← run op (txn_rep r i); _ ← release i; mret p
   else mret (refuse r i)) s.
Proof.
  assert (forall i, i =? ROOTINUM = true -> validInum i = false) as Hroot.
  { intros i ->%Z.eqb_eq. unfold validInum. rewrite Z.eqb_refl. by destruct (ROOTINUM =? 0). }
  assert (forall i, i =? ROOTINUM = bool_decide (i = 1)) as Hone.
  { intros i. csimp. rewrite bool_decide_decide. by destruct (Z.eqb_spec i 1), (decide _). }
  unfold dispatch, NFSPROC3_GETATTR, NFSPROC3_SETATTR, NFSPROC3_READ, NFSPROC3_WRITE,
    NFSPROC3_COMMIT, mbind, M_bind, begin, gets, lift, run.
  destruct r as [a|a|a|a|a]; simpl; (destruct (fh2ino _) as [i| | |]; [|done..]).
  - destruct (i =? ROOTINUM) eqn:Hi; simpl.
    { rewrite (Hroot i Hi). rewrite Hone in Hi. rewrite Hi. unfold rootFattr. by csimp. }
    rewrite Hone in Hi. rewrite Hi. destruct (validInum i); simpl; [|done]. unfold mbind, M_bind.
    destruct (acquire i s) as [[[] s1]| | |]; [|done..].
    destruct (NFSPROC3_GETATTR_internal _ _ _ _) as [[p x]| | |]; [|done..]. simpl.
    by destruct (release i _) as [[[] s2]| | |].
  - destruct (validInum i); simpl; [|done]. unfold mbind, M_bind.
    destruct (acquire i s) as [[[] s1]| | |]; [|done..].
    destruct (NFSPROC3_SETATTR_internal _ _ _ _) as [[p x]| | |]; [|done..]. simpl.
    by destruct (release i _) as [[[] s2]| | |].
  - destruct (validInum i); simpl; [|done]. unfold mbind, M_bind.
    destruct (acquire i s) as [[[] s1]| | |]; [|done..].
    destruct (NFSPROC3_READ_internal _ _ _ _) as [[p x]| | |]; [|done..]. simpl.
    by destruct (release i _) as [[[] s2]| | |].
  - destruct (validInum i); simpl; [|done]. unfold mbind, M_bind.
    destruct (acquire i s) as [[[] s1]| | |]; [|done..].
    destruct (NFSPROC3_WRITE_internal _ _ _ _) as [[p x]| | |]; [|done..]. simpl.
    by destruct (release i _) as [[[] s2]| | |].
  - destruct (validInum i); simpl; [|done]. unfold mbind, M_bind.
    destruct (acquire i s) as [[[] s1]| | |]; [|done..].
    destruct (commit_wait true _) as [[ok x]| | |]; [|done..]. simpl.
    destruct (release i _) as [[[] s2]| | |]; by destruct ok.
Qed.

Lemma run_thread_read r i op s :
  run_thread 4 (Tread r i op) s = (p ← run op (txn_rep r i); _ ← release i; mret p) s.
Proof.
  cbn [run_thread thread_step]. unfold mbind, M_bind, run_op, run.
  rewrite txn_rep_split. unfold mbind, M_bind.
  destruct (start_txn r i _) as [[ip [lg1 o1]]| | |]; [|done..]. simpl.
  unfold run_op, run, mbind, M_bind.
  destruct (after_read r i ip _) as [[p [lg2 o2]]| | |]; [|done..]. simpl.
  unfold run, mbind, M_bind.
  destruct (end_txn p _) as [[q [lg3 o3]]| | |]; [|done..]. simpl. unfold mbind, M_bind.
  by destruct (release i _) as [[[] s2]| | |].
Qed.

(** The steps of a thread are those of the procedure: one that runs alone is the
    procedure itself. *)
Lemma run_thread_alone r s : run_thread 6 (Tstart r) s = dispatch r s.
Proof.
  rewrite dispatch_eq. change (run_thread 6 (Tstart r)) with
    (th ← thread_step (Tstart r); run_thread 5 th). cbn [thread_step].
  unfold mbind, M_bind, begin, gets, lift. destruct (fh2ino _) as [i| | |]; [|done..].
  cbn. destruct (validInum i); [|done].
  change (run_thread 5 (Tlock r i (jrnl_Begin (t s)))) with
    (th ← thread_step (Tlock r i (jrnl_Begin (t s))); run_thread 4 th). cbn [thread_step].
  unfold mbind, M_bind. destruct (acquire i s) as [[[] s1]| | |]; [|done..]. simpl.
  apply run_thread_read.
Qed.
(** ** The invariant of the threads *)

(** The lock a thread holds. *)
Definition holds (th : thread) : option Z :=
  match th with
  | Tread _ i _ | Tbody _ i _ _ | Tend i _ _ | Trel i _ => Some i
  | _ => None
  end.

(** The thread of the request [r] for [i], with reply [out] if it has taken
    effect, on a log that holds [fs]. *)
Definition tinv (lg : Log) (fs : files) (out : option rep) (r : req) (i : Z) (th : thread) : Prop :=
  match th with
  | Tstart r' => r' = r /\ out = None
  | Tlock r' i' op | Tread r' i' op =>
      r' = r /\ i' = i /\ valid i /\ op_bufs op = ∅ /\ out = None
  | Tbody r' i' ip op =>
      r' = r /\ i' = i /\ valid i /\ out = None /\ exists ino dat,
        (reads_inode r = true -> ip = inode_of ino i) /\ tx lg i ino dat (mkTxn lg op) /\
        stored ino dat i (fs i)
  | Tend i' p op => i' = i /\ valid i /\ out = None /\ prepared lg r i (fs i) p (mkTxn lg op)
  | Trel i' p => i' = i /\ valid i /\ out = Some p
  | Tdone p => out = Some p
  end.

Definition locks_ok (s : Nfs) (ths : list thread) : Prop :=
  (forall k, k ∈ held (l s) <-> exists j th, ths !! j = Some th /\ holds th = Some k) /\
  (forall j j' th th' k, ths !! j = Some th -> ths !! j' = Some th' ->
     holds th = Some k -> holds th' = Some k -> j = j').

Definition cinv (reqs : list (req * Z)) (fs : files) (out : gmap nat rep) (c : Nfs * list thread)
    : Prop :=
  log_ok (t c.1) fs /\ locks_ok c.1 c.2 /\
  Forall req_ok reqs /\ length c.2 = length reqs /\
  forall j th r i, c.2 !! j = Some th -> reqs !! j = Some (r, i) ->
    tinv (t c.1) fs (out !! j) r i th.

(** A commit to another file leaves a transaction as it is. *)
Definition same_objs (i : Z) (lg lg' : Log) : Prop :=
  log_obj lg' (ino_addr i) 1024 = log_obj lg (ino_addr i) 1024 /\
  log_obj lg' (dat_addr i) 32768 = log_obj lg (dat_addr i) 32768.

Lemma tx_frame lg lg' i ino dat o : same_objs i lg lg' -> tx lg i ino dat (mkTxn lg o) ->
  tx lg' i ino dat (mkTxn lg' o).
Proof.
  intros [Hi Hd] [_ [Hin Hino Hdat Hl1 Hl2]]. split; [done|]. simpl in *.
  split; [done|by rewrite Hi|by rewrite Hd|done|done].
Qed.

Lemma prepared_frame lg lg' r i f p o : same_objs i lg lg' -> prepared lg r i f p (mkTxn lg o) ->
  prepared lg' r i f p (mkTxn lg' o).
Proof.
  intros Hs. destruct p as [c k]. intros (Hk & f' & (ino & dat & Hx & Hst) & Hf). split; [done|].
  exists f'. split; [|done]. exists ino, dat. split; [by eapply tx_frame|done].
Qed.

Lemma tinv_frame lg lg' fs fs' out r i th :
  (holds th = Some i -> fs' i = fs i /\ same_objs i lg lg') ->
  tinv lg fs out r i th -> tinv lg' fs' out r i th.
Proof.
  intros Hf. destruct th; simpl in *; try done.
  - intros (-> & -> & Hi & Hout & ino & dat & Hip & Hx & Hst). destruct (Hf eq_refl) as [-> Hs].
    split_and!; [done..|]. exists ino, dat. split_and!; [done| |done]. by eapply tx_frame.
  - intros (-> & Hi & Hout & Hp). destruct (Hf eq_refl) as [-> Hs]. split_and!; [done..|].
    by eapply prepared_frame.
Qed.

Lemma tinv_holds lg fs out r i th k : tinv lg fs out r i th -> holds th = Some k ->
  k = i /\ valid i.
Proof. destruct th; simpl; naive_solver. Qed.

Lemma tx_empty lg i op : op_bufs op = ∅ ->
  tx lg i (log_obj lg (ino_addr i) 1024) (log_obj lg (dat_addr i) 32768) (mkTxn lg op).
Proof.
  intros Ho. split; [done|]. split; simpl; [|done|done|apply log_ino_len|apply log_dat_len].
  intros a b. by rewrite Ho, lookup_empty.
Qed.

(** A thread's step keeps the invariant when its new state is good, the locks
    follow it, and the files and objects that others hold are as before. *)
Lemma cinv_step reqs fs fs' out out' s s' ths j th th' r i :
  cinv reqs fs out (s, ths) -> ths !! j = Some th -> reqs !! j = Some (r, i) ->
  log_ok (t s') fs' -> tinv (t s') fs' (out' !! j) r i th' ->
  (forall k, k ∈ held (l s') <-> holds th' = Some k \/ (k ∈ held (l s) /\ holds th <> Some k)) ->
  (forall k, holds th' = Some k -> holds th = Some k \/ k ∉ held (l s)) ->
  (forall j', j' <> j -> out' !! j' = out !! j') ->
  (forall k, valid k -> k <> i \/ holds th = None -> fs' k = fs k /\ same_objs k (t s) (t s')) ->
  cinv reqs fs' out' (s', <[j := th']> ths).
Proof.
  intros (Hlg & [Hh Hu] & Hrs & Hlen & Hti) Hj Hr Hlg' Hti' Hheld Hnew Hout Hfr. simpl in *.
  pose proof (lookup_lt_Some _ _ _ Hj) as Hlt.
  assert (forall j' th0, <[j := th']> ths !! j' = Some th0 ->
    (j' = j /\ th0 = th') \/ (j' <> j /\ ths !! j' = Some th0)) as Hlk.
  { intros j' th0. rewrite list_lookup_insert. case_decide; naive_solver. }
  assert (forall j' th0 k, j' <> j -> ths !! j' = Some th0 -> holds th0 = Some k ->
    holds th <> Some k) as Hother.
  { intros j' th0 k Hne Hj' Hk Hk'. by apply Hne, (Hu j' j th0 th k). }
  split; [done|]. split; [|split; [done|split; [simpl; by rewrite length_insert|]]]; simpl.
  - split.
    + intros k. rewrite Hheld. split.
      * intros [Hk|[Hk Hnk]].
        { exists j, th'. by rewrite list_lookup_insert_eq. }
        apply Hh in Hk as (j' & th0 & Hj' & Hk). exists j', th0. split; [|done].
        rewrite list_lookup_insert_ne; [done|]. intros ->. by simplify_eq.
      * intros (j' & th0 & [[-> ->]|[Hne Hj']]%Hlk & Hk); [by left|]. right.
        split; [apply Hh; by exists j', th0|by eapply Hother].
    + intros j1 j2 th1 th2 k [[-> ->]|[Hn1 Hj1]]%Hlk [[-> ->]|[Hn2 Hj2]]%Hlk Hk1 Hk2; [done| | |by eapply Hu].
      * exfalso. destruct (Hnew _ Hk1) as [Hk|Hk]; [by eapply (Hother j2)|]. apply Hk, Hh. eauto.
      * exfalso. destruct (Hnew _ Hk2) as [Hk|Hk]; [by eapply (Hother j1)|]. apply Hk, Hh. eauto.
  - intros j' th0 r' i' [[-> ->]|[Hne Hj']]%Hlk Hr'; [by simplify_eq|].
    rewrite Hout by done. pose proof (Hti _ _ _ _ Hj' Hr') as Hold.
    apply (tinv_frame (t s) _ fs); [|done]. intros Hk.
    apply Hfr; [by destruct (tinv_holds _ _ _ _ _ _ _ Hold Hk)|].
    destruct (holds th) as [k|] eqn:Hth; [left|by right].
    pose proof (Hti _ _ _ _ Hj Hr) as Hmine. destruct (tinv_holds _ _ _ _ _ _ _ Hmine Hth) as [-> _].
    intros ->. by apply (Hother _ _ _ Hne Hj' Hk).
Qed.
(** ** Each step of a thread *)

Lemma lin_run_snoc reqs evs fs0 fs out j r i ok : lin_run reqs evs fs0 = Some (fs, out) ->
  reqs !! j = Some (r, i) -> out !! j = None ->
  lin_run reqs (evs ++ [(j, ok)]) fs0 = Some ((spec ok r i fs).2, <[j := (spec ok r i fs).1]> out).
Proof.
  unfold lin_run. intros Hl Hr Ho. rewrite foldl_app, Hl. simpl. unfold lin_step. simpl.
  rewrite Hr. simpl. rewrite Ho. by destruct (spec ok r i fs).
Qed.

Definition step_post (reqs : list (req * Z)) (fs0 : files) (evs : list (nat * bool))
    (ths : list thread) (j : nat) (th' : thread) (s' : Nfs) : Prop :=
  exists evs' fs' out', lin_run reqs (evs ++ evs') fs0 = Some (fs', out') /\
    cinv reqs fs' out' (s', <[j := th']> ths).

Lemma cinv_req reqs fs out s ths j th : cinv reqs fs out (s, ths) -> ths !! j = Some th ->
  exists r i, reqs !! j = Some (r, i) /\ req_ok (r, i) /\ tinv (t s) fs (out !! j) r i th.
Proof.
  intros (_ & _ & Hrs & Hlen & Hti) Hj. simpl in *.
  destruct (lookup_lt_is_Some_2 reqs j) as [[r i] Hr].
  { rewrite <-Hlen. by eapply lookup_lt_Some. }
  exists r, i. split_and!; [done| |by eapply Hti]. by eapply Forall_lookup_1.
Qed.

(** A step that takes no effect and leaves the log and the locks. *)
Lemma quiet_step reqs fs0 evs fs out s ths j th th' r i : cinv reqs fs out (s, ths) ->
  lin_run reqs evs fs0 = Some (fs, out) -> ths !! j = Some th -> reqs !! j = Some (r, i) ->
  tinv (t s) fs (out !! j) r i th' -> holds th' = holds th ->
  step_post reqs fs0 evs ths j th' s.
Proof.
  intros Hc Hl Hj Hr Hti Hh. pose proof Hc as (Hlg & [Hhe _] & _). exists [], fs, out.
  rewrite app_nil_r. split; [done|].
  apply (cinv_step reqs fs fs out out s s ths j th th' r i); try done; rewrite ?Hh.
  - intros k. split; [|intros [Hk|[Hk _]]; [apply Hhe; by exists j, th|done]].
    intros Hk. destruct (decide (holds th = Some k)); auto.
  - intros k Hk. by left.
Qed.

Lemma step_start reqs fs0 evs fs out s ths j r0 : cinv reqs fs out (s, ths) ->
  lin_run reqs evs fs0 = Some (fs, out) -> ths !! j = Some (Tstart r0) ->
  wp (thread_step (Tstart r0)) s (step_post reqs fs0 evs ths j).
Proof.
  intros Hc Hl Hj. destruct (cinv_req _ _ _ _ _ _ _ Hc Hj) as (r & i & Hr & (Hwf & Hfh & Hi) & -> & Ho).
  simpl in Hwf, Hfh, Hi. unfold is_u64 in Hi. cbn [thread_step]. wp_step. apply wp_gets. wp_step.
  eapply wp_lift; [done|]. apply wp_ret.
  rewrite validInum_eq, bool_decide_decide by lia. destruct (decide (valid i)) as [Hv|Hv].
  - apply (quiet_step reqs fs0 evs fs out s ths j (Tstart r) _ r i); try done.
    simpl. rewrite Begin_bufs. done.
  - pose proof Hc as (Hlg & [Hhe _] & _).
    assert (spec true r i fs = (refuse r i, fs)) as Hs by (unfold spec; by rewrite bool_decide_eq_false_2).
    exists [(j, true)], fs, (<[j := refuse r i]> out). split.
    { rewrite (lin_run_snoc reqs evs fs0 fs out j r i true) by done. by rewrite Hs. }
    apply (cinv_step reqs fs fs out _ s s ths j (Tstart r) _ r i); try done; simpl.
    + by rewrite lookup_insert_eq.
    + intros k. naive_solver.
    + intros j' Hne. by rewrite lookup_insert_ne.
Qed.

Lemma step_lock reqs fs0 evs fs out s ths j r0 i0 op : cinv reqs fs out (s, ths) ->
  lin_run reqs evs fs0 = Some (fs, out) -> ths !! j = Some (Tlock r0 i0 op) ->
  i0 ∉ held (l s) ->
  wp (thread_step (Tlock r0 i0 op)) s (step_post reqs fs0 evs ths j).
Proof.
  intros Hc Hl Hj Hfree. destruct (cinv_req _ _ _ _ _ _ _ Hc Hj)
    as (r & i & Hr & _ & -> & -> & Hv & Hop & Ho).
  destruct (Acquire_free (l s) i Hfree) as (lm & Ha & Hlm). cbn [thread_step]. wp_step.
  exists tt, (mkNfs (t s) lm). split; [unfold acquire; by rewrite Ha|]. apply wp_ret.
  pose proof Hc as (Hlg & _). exists [], fs, out. rewrite app_nil_r. split; [done|].
  apply (cinv_step reqs fs fs out out s _ ths j (Tlock r i op) _ r i); try done; simpl.
  - intros k. rewrite Hlm. set_solver.
  - intros k [= <-]. by right.
Qed.

Lemma wp_run_op {A} s op (m : M Txn A) Q :
  wp m (mkTxn (t s) op) (fun a x => x_log x = t s /\ Q (a, x_op x) s) -> wp (run_op op m) s Q.
Proof.
  intros (a & [lg o] & Hm & Hlg & HQ). simpl in *. subst lg. exists (a, o), s. split; [|done].
  unfold run_op, run, mbind, M_bind, gets. rewrite Hm. simpl. by destruct s.
Qed.

Lemma step_read reqs fs0 evs fs out s ths j r0 i0 op : cinv reqs fs out (s, ths) ->
  lin_run reqs evs fs0 = Some (fs, out) -> ths !! j = Some (Tread r0 i0 op) ->
  wp (thread_step (Tread r0 i0 op)) s (step_post reqs fs0 evs ths j).
Proof.
  intros Hc Hl Hj. destruct (cinv_req _ _ _ _ _ _ _ Hc Hj)
    as (r & i & Hr & _ & -> & -> & Hv & Hop & Ho). pose proof Hc as ([Hlg _] & _).
  cbn [thread_step]. wp_step. apply wp_run_op.
  eapply wp_mono; [apply (wp_start_txn (t s) r i (fs i)); [done|]|].
  { eexists _, _. split; [by apply tx_empty|by apply Hlg]. }
  intros ip [lg o] (ino & dat & Hip & [Hx Hb] & Hst). simpl in Hx, Hb. split; [done|]. subst lg.
  apply wp_ret. apply (quiet_step reqs fs0 evs fs out s ths j (Tread r i op) _ r i); try done.
  simpl. split_and!; [done..|]. by exists ino, dat.
Qed.

Lemma step_body reqs fs0 evs fs out s ths j r0 i0 ip op : cinv reqs fs out (s, ths) ->
  lin_run reqs evs fs0 = Some (fs, out) -> ths !! j = Some (Tbody r0 i0 ip op) ->
  wp (thread_step (Tbody r0 i0 ip op)) s (step_post reqs fs0 evs ths j).
Proof.
  intros Hc Hl Hj. destruct (cinv_req _ _ _ _ _ _ _ Hc Hj)
    as (r & i & Hr & (Hwf & _) & -> & -> & Hv & Ho & ino & dat & Hip & Hx & Hst).
  cbn [thread_step]. wp_step. apply wp_run_op.
  eapply wp_mono; [by apply (wp_after_start (t s) r i ino dat (fs i))|].
  intros p [lg o] Hp. assert (lg = t s) as ->.
  { destruct p as [c k]. by destruct Hp as (_ & f' & (? & ? & [Hx' _] & _) & _). }
  split; [done|]. apply wp_ret.
  by apply (quiet_step reqs fs0 evs fs out s ths j (Tbody r i ip op) _ r i).
Qed.

Lemma wp_run_txn {A} s op (m : M Txn A) Q :
  wp m (mkTxn (t s) op) (fun a x => Q a (mkNfs (x_log x) (l s))) -> wp (run op m) s Q.
Proof.
  intros (a & x & Hm & HQ). exists a, (mkNfs (x_log x) (l s)). split; [|done].
  unfold run. by rewrite Hm.
Qed.

Lemma serve_other ok r i fs k : k <> i -> (serve ok r i fs).2 k = fs k.
Proof. intros Hk. rewrite serve_eq. simpl. unfold upd_file. by rewrite bool_decide_eq_false_2. Qed.

Lemma step_end reqs fs0 evs fs out s ths j i0 p op : cinv reqs fs out (s, ths) ->
  lin_run reqs evs fs0 = Some (fs, out) -> ths !! j = Some (Tend i0 p op) ->
  wp (thread_step (Tend i0 p op)) s (step_post reqs fs0 evs ths j).
Proof.
  intros Hc Hl Hj. destruct (cinv_req _ _ _ _ _ _ _ Hc Hj)
    as (r & i & Hr & _ & -> & Hv & Ho & Hp). pose proof Hc as (Hlg & [Hhe _] & _).
  cbn [thread_step]. wp_step. apply wp_run_txn.
  eapply wp_mono; [by apply (wp_end_txn (t s) fs r i p)|].
  intros q x [(ok & Hq & Hlg') Hother]. apply wp_ret.
  assert (spec ok r i fs = serve ok r i fs) as Hs by (unfold spec; by rewrite bool_decide_eq_true_2).
  exists [(j, ok)], (serve ok r i fs).2, (<[j := q]> out). split.
  { rewrite (lin_run_snoc reqs evs fs0 fs out j r i ok) by done. by rewrite Hs, <-Hq. }
  apply (cinv_step reqs fs _ out _ s _ ths j (Tend i p op) _ r i); try done; simpl.
  - by rewrite lookup_insert_eq.
  - intros k. split; [|intros [Hk|[Hk _]]; [apply Hhe; by exists j, (Tend i p op)|done]].
    intros Hk. destruct (decide (i = k)); [left; congruence|right]. split; [done|congruence].
  - intros k Hk. by left.
  - intros j' Hne. by rewrite lookup_insert_ne.
  - intros k Hk [Hne|]; [|done]. split; [by apply serve_other|]. apply Hother; [unfold valid in *; lia|done].
Qed.

Lemma step_rel reqs fs0 evs fs out s ths j i0 p : cinv reqs fs out (s, ths) ->
  lin_run reqs evs fs0 = Some (fs, out) -> ths !! j = Some (Trel i0 p) ->
  wp (thread_step (Trel i0 p)) s (step_post reqs fs0 evs ths j).
Proof.
  intros Hc Hl Hj. destruct (cinv_req _ _ _ _ _ _ _ Hc Hj) as (r & i & Hr & _ & -> & Hv & Ho).
  pose proof Hc as (Hlg & [Hhe _] & _).
  assert (i ∈ held (l s)) as Hin by (apply Hhe; by exists j, (Trel i p)).
  destruct (Release_held (l s) i Hin) as (lm & Hrel & Hlm). cbn [thread_step]. wp_step.
  unfold release. wp_step. apply wp_get. wp_step. eapply wp_lift; [done|]. apply wp_modify. apply wp_ret.
  exists [], fs, out. rewrite app_nil_r. split; [done|].
  apply (cinv_step reqs fs fs out out s _ ths j (Trel i p) _ r i); try done; simpl.
  intros k. rewrite Hlm. destruct (decide (k = i)); set_solver.
Qed.

Lemma wp_thread reqs fs0 evs fs out s ths j th : cinv reqs fs out (s, ths) ->
  lin_run reqs evs fs0 = Some (fs, out) -> ths !! j = Some th -> finished th = false ->
  (forall r i op, th = Tlock r i op -> i ∉ held (l s)) ->
  wp (thread_step th) s (step_post reqs fs0 evs ths j).
Proof.
  intros Hc Hl Hj Hf Hfree. destruct th; [by eapply step_start|by eapply step_lock; eauto|
    by eapply step_read|by eapply step_body|by eapply step_end|by eapply step_rel|done].
Qed.
(** ** Executions *)

(** A thread that is stopped waits for a lock. *)
Lemma thread_blocked s r i op : i ∈ held (l s) -> thread_step (Tlock r i op) s = Blocked.
Proof.
  intros Hi. cbn [thread_step]. unfold mbind, M_bind, acquire. by rewrite (Acquire_held _ _ Hi).
Qed.

Lemma cstep_cinv reqs fs0 evs fs out c c' : cinv reqs fs out c ->
  lin_run reqs evs fs0 = Some (fs, out) -> cstep c c' ->
  exists evs' fs' out', lin_run reqs (evs ++ evs') fs0 = Some (fs', out') /\ cinv reqs fs' out' c'.
Proof.
  intros Hc Hl Hs. destruct Hs as [s ths j th th' s' Hj Hf Hst].
  eapply (Prelude.wp_run (thread_step th) s th' s' (step_post reqs fs0 evs ths j)); [|done].
  apply (wp_thread reqs fs0 evs fs out); [done..|].
  intros r i op -> Hi. by rewrite (thread_blocked s r i op Hi) in Hst.
Qed.

Lemma csteps_cinv reqs fs0 evs fs out c c' : cinv reqs fs out c ->
  lin_run reqs evs fs0 = Some (fs, out) -> rtc cstep c c' ->
  exists evs' fs' out', lin_run reqs (evs ++ evs') fs0 = Some (fs', out') /\ cinv reqs fs' out' c'.
Proof.
  intros Hc Hl Hs. revert evs fs out Hc Hl. induction Hs as [c|c c1 c2 Hs _ IH]; intros evs fs out Hc Hl.
  { exists [], fs, out. by rewrite app_nil_r. }
  destruct (cstep_cinv _ _ _ _ _ _ _ Hc Hl Hs) as (evs1 & fs1 & out1 & Hl1 & Hc1).
  destruct (IH _ _ _ Hc1 Hl1) as (evs2 & fs2 & out2 & Hl2 & Hc2).
  exists (evs1 ++ evs2), fs2, out2. by rewrite app_assoc.
Qed.

Lemma cinv_linearized reqs fs0 evs fs out c : cinv reqs fs out c ->
  lin_run reqs evs fs0 = Some (fs, out) -> linearized reqs fs0 c evs.
Proof.
  destruct c as [s ths]. intros Hc Hl. exists fs, out. split; [done|]. split; [apply Hc|]. simpl. split.
  - intros j p Hj. by destruct (cinv_req _ _ _ _ _ _ _ Hc Hj) as (r & i & _ & _ & Ho).
  - intros j r Hj. by destruct (cinv_req _ _ _ _ _ _ _ Hc Hj) as (? & i & _ & _ & _ & Ho).
Qed.

(** Requests that start on a server with no lock held. *)
Definition starting (s : Nfs) (reqs : list (req * Z)) : Nfs * list thread :=
  (s, Tstart <$> reqs.*1).

Lemma starting_cinv s reqs fs : Forall req_ok reqs -> held (l s) = ∅ -> log_ok (t s) fs ->
  cinv reqs fs ∅ (starting s reqs).
Proof.
  intros Hrs Hl Hlg. split; [done|]. split; [|split; [done|split; [simpl; by rewrite !length_fmap|]]].
  - simpl. split.
    + intros k. rewrite Hl. split; [set_solver|]. intros (j & th & Hj & Hk).
      rewrite !list_lookup_fmap in Hj. destruct (reqs !! j); simplify_eq/=.
    + intros j j' th th' k Hj. rewrite !list_lookup_fmap in Hj. destruct (reqs !! j); by simplify_eq/=.
  - simpl. intros j th r i Hj Hr. rewrite !list_lookup_fmap, Hr in Hj. simplify_eq/=.
    by rewrite lookup_empty.
Qed.

(** C19: requests served concurrently, in any interleaving of their threads, are
    linearizable: the log and all replies are those of the abstract server
    serving the requests one at a time in some order; as execution goes on the
    order is only extended, and a request that has not begun is not yet in it,
    so it respects the order in which requests finish and begin. *)
Theorem conc_linearizable reqs fs0 s c1 c2 : Forall req_ok reqs -> held (l s) = ∅ ->
  log_ok (t s) fs0 -> rtc cstep (starting s reqs) c1 -> rtc cstep c1 c2 ->
  exists evs1 evs2, linearized reqs fs0 c1 evs1 /\ linearized reqs fs0 c2 (evs1 ++ evs2).
Proof.
  intros Hrs Hl Hlg Hc1 Hc2. pose proof (starting_cinv s reqs fs0 Hrs Hl Hlg) as Hc0.
  destruct (csteps_cinv reqs fs0 [] fs0 ∅ _ _ Hc0 eq_refl Hc1) as (evs1 & fs1 & out1 & Hl1 & Hi1).
  destruct (csteps_cinv reqs fs0 _ _ _ _ _ Hi1 Hl1 Hc2) as (evs2 & fs2 & out2 & Hl2 & Hi2).
  exists evs1, evs2. split; by eapply cinv_linearized.
Qed.

Lemma can_step reqs fs0 s c j th : Forall req_ok reqs -> held (l s) = ∅ ->
  log_ok (t s) fs0 -> rtc cstep (starting s reqs) c ->
  c.2 !! j = Some th -> finished th = false -> exists c', cstep c c'.
Proof.
  intros Hrs Hl Hlg Hc Hj Hf. pose proof (starting_cinv s reqs fs0 Hrs Hl Hlg) as Hc0.
  destruct (csteps_cinv reqs fs0 [] fs0 ∅ _ _ Hc0 eq_refl Hc) as (evs & fs & out & Hl1 & Hi).
  destruct c as [s1 ths]. simpl in Hj.
  assert (forall j th, ths !! j = Some th -> finished th = false ->
    (forall r i op, th = Tlock r i op -> i ∉ held (l s1)) -> exists c', cstep (s1, ths) c') as Hstep.
  { intros j1 th1 Hj1 Hf1 Hfree.
    destruct (wp_thread reqs fs0 evs fs out _ _ _ _ Hi Hl1 Hj1 Hf1 Hfree) as (th' & s' & Hs & _).
    eexists. by eapply cstep_thread. }
  pose proof Hi as (_ & [Hh _] & _). simpl in Hh.
  destruct th as [r|r i op|r i op|r i ip op|i p op|i p|p]; try by eapply Hstep.
  destruct (decide (i ∈ held (l s1))) as [Hin|Hout].
  - apply Hh in Hin as (j1 & th1 & Hj1 & Hk). eapply (Hstep j1 th1); [done|by destruct th1|].
    intros ? ? ? ->. done.
  - eapply Hstep; [done|done|]. by intros ? ? ? [= -> -> ->].
Qed.

Lemma thread_step_weight th s th' s' : finished th = false -> thread_step th s = Ok (th', s') ->
  (weight th' < weight th)%nat.
Proof.
  intros Hf Hs. destruct th as [r|r i op|r i op|r i ip op|i p op|i p|p]; [..|done]; cbn [thread_step] in Hs;
    apply M_bind_Ok in Hs as (x & s1 & _ & Hs).
  { apply M_bind_Ok in Hs as (i & s2 & _ & Hs). injection Hs as <- _. destruct (validInum i); simpl; lia. }
  all: try destruct x as [? ?]; injection Hs as <- _; simpl; lia.
Qed.

Lemma total_insert ths j th th' : ths !! j = Some th ->
  (total (<[j := th']> ths) + weight th = total ths + weight th')%nat.
Proof.
  unfold total. revert j. induction ths as [|th0 ths IH]; intros [|j] Hj; simplify_eq/=; [lia|].
  specialize (IH _ Hj). lia.
Qed.

Lemma cstep_total c c' : cstep c c' -> (total c'.2 < total c.2)%nat.
Proof.
  intros [s ths j th th' s' Hj Hf Hs]. simpl. pose proof (total_insert ths j th th' Hj).
  pose proof (thread_step_weight _ _ _ _ Hf Hs). lia.
Qed.

Lemma total_start reqs : total (Tstart <$> reqs) = (6 * length reqs)%nat.
Proof. unfold total. induction reqs as [|r reqs IH]; csimpl; [done|]. rewrite IH. lia. Qed.

Lemma finish_all reqs fs0 s : Forall req_ok reqs -> held (l s) = ∅ -> log_ok (t s) fs0 ->
  forall n c, (total c.2 <= n)%nat -> rtc cstep (starting s reqs) c ->
  exists c', rtc cstep c c' /\ Forall (fun th => finished th = true) c'.2.
Proof.
  intros Hrs Hl Hlg. induction n as [n IH] using lt_wf_ind. intros c Hn Hc.
  destruct (decide (Forall (fun th => finished th = true) c.2)) as [Hd|Hnd]; [by exists c|].
  apply not_Forall_Exists in Hnd; [|apply _]. apply Exists_exists in Hnd as (th & Hin & Hf).
  apply list_elem_of_lookup in Hin as [j Hj].
  destruct (can_step reqs fs0 s c j th) as [c' Hs]; [done..|by apply not_true_is_false|].
  pose proof (cstep_total _ _ Hs). destruct (IH (total c'.2)) with (c := c') as (c2 & Hc2 & Hd); [lia|lia| |].
  { eapply rtc_r; done. }
  exists c2. split; [|done]. by eapply rtc_l.
Qed.

(** C34: concurrent requests do not deadlock: while a request is not finished,
    some thread can take a step. *)
Theorem conc_no_deadlock reqs fs0 s c j th : Forall req_ok reqs -> held (l s) = ∅ ->
  log_ok (t s) fs0 -> rtc cstep (starting s reqs) c ->
  c.2 !! j = Some th -> finished th = false -> exists c', cstep c c'.
Proof. apply can_step. Qed.

(** C35: concurrent requests finish: no execution has more than six steps a
    request, and every execution can be carried on until all have replied. *)
Theorem conc_terminates reqs fs0 s : Forall req_ok reqs -> held (l s) = ∅ -> log_ok (t s) fs0 ->
  (forall n c, nsteps cstep n (starting s reqs) c -> (n <= 6 * length reqs)%nat) /\
  (forall c, rtc cstep (starting s reqs) c ->
     exists c', rtc cstep c c' /\ Forall (fun th => finished th = true) c'.2).
Proof.
  intros Hrs Hl Hlg. split; [|intros c Hc; by apply (finish_all reqs fs0 s Hrs Hl Hlg (total c.2))].
  assert (forall n c c', nsteps cstep n c c' -> (n + total c'.2 <= total c.2)%nat) as Hn.
  { induction 1 as [c|n c c1 c2 Hs _ IH]; [lia|]. pose proof (cstep_total _ _ Hs). lia. }
  intros n c Hc. specialize (Hn _ _ _ Hc). simpl in Hn. rewrite total_start, length_fmap in Hn. lia.
Qed.
End conc.

(** ** Two requests on a file of the sample server *)

Lemma conc_linearizable_witness : exists evs1 evs2,
  linearized sample_reqs no_files (starting simple_srv sample_reqs) evs1 /\
  linearized sample_reqs no_files (starting simple_srv sample_reqs) (evs1 ++ evs2).
Proof.
  exact (conc_linearizable sample_reqs no_files simple_srv _ _ sample_reqs_ok
    (proj1 simple_srv_ok) (proj2 simple_srv_ok) (rtc_refl _ _) (rtc_refl _ _)).
Defined.

Lemma run_thread_alone_witness :
  run_thread 6 (Tstart (Rgetattr (mkGETATTR3args (simple_fh 1)))) simple_srv =
  dispatch (Rgetattr (mkGETATTR3args (simple_fh 1))) simple_srv.
Proof. exact (run_thread_alone _ simple_srv). Defined.

Lemma conc_no_deadlock_witness : exists c', cstep (starting simple_srv sample_reqs) c'.
Proof.
  exact (conc_no_deadlock sample_reqs no_files simple_srv _ 0 _ sample_reqs_ok
    (proj1 simple_srv_ok) (proj2 simple_srv_ok) (rtc_refl _ _) eq_refl eq_refl).
Defined.

Lemma conc_terminates_witness :
  (forall n c, nsteps cstep n (starting simple_srv sample_reqs) c -> (n <= 24)%nat) /\
  (forall c, rtc cstep (starting simple_srv sample_reqs) c ->
     exists c', rtc cstep c c' /\ Forall (fun th => finished th = true) c'.2).
Proof.
  exact (conc_terminates sample_reqs no_files simple_srv sample_reqs_ok
    (proj1 simple_srv_ok) (proj2 simple_srv_ok)).
Defined.
