(* ===== verification/Kvs.v ===== *)
(** The key-value store over the journal ([kvs/kvs.go]): keys are block addresses,
    [MultiPut] is one transaction, and so is [Get]. *)
From S2P Require Import Prelude External Reference.

Record KVPair := mkKVPair { Key : Z; Val : list Z }.

Section kvs.
Context `{!Common} `{!Journal} `{!DiskPkg} `{!BufDisk}.

Record KVS := mkKVS { sz : Z; log : Log }.

Definition MkKVS (d : Disk) (sz : Z) : KVS := mkKVS sz (obj_MkLog d).

(** [for _, p := range pairs { ... }] *)
Fixpoint put_loop (size : Z) (pairs : list KVPair) (op : Op) : res Op :=
  match pairs with
  | [] => mret op
  | p :: pairs =>
      if (size <=? Key p) || (Key p <? LOGSIZE) then Panic
      else
        let akey := MkAddr (Key p) 0 in
        op ← OverWrite op akey NBITBLOCK (Val p);
        put_loop size pairs op
  end.

(** [op.CommitWait(true)] *)
Definition commit (op : Op) : M KVS bool := fun s =>
  let '(ok, lg) := CommitWait (log s) op true in Ok (ok, mkKVS (sz s) lg).

Definition MultiPut (pairs : list KVPair) : M KVS bool :=
  s ← get;
  let op := jrnl_Begin (log s) in
  op ← lift (put_loop (sz s) pairs op);
  commit op.

Definition Get (key : Z) : M KVS (KVPair * bool) :=
  s ← get;
  if (sz s <? key) || (key <? LOGSIZE) then panic
  else
    let op := jrnl_Begin (log s) in
    let akey := MkAddr key 0 in
    let op := ReadBuf (log s) op akey NBITBLOCK in
    let data := buf_Data op akey in
    ok ← commit op;
    mret (mkKVPair key data, ok).

(** [obj.Log.Shutdown], which waits for the daemons of the log. *)
Variable obj_Shutdown : Log -> Log.

Definition Delete : M KVS unit := modify (fun s => mkKVS (sz s) (obj_Shutdown (log s))).

(** ** The store as a function from keys to blocks *)

Definition value (s : KVS) (k : Z) : list Z := log_obj (log s) (MkAddr k 0) 32768.

Definition stable_value (s : KVS) (k : Z) : list Z := stable_obj (log s) (MkAddr k 0) 32768.

(** The pairs of a [MultiPut] take effect in order. *)
Definition put_all (pairs : list KVPair) (m : Z -> list Z) : Z -> list Z :=
  fold_left (fun m p k => if bool_decide (k = Key p) then Val p else m k) pairs m.

Definition in_range (s : KVS) (k : Z) : Prop := LOGSIZE <= k < sz s.

#[export] Instance in_range_dec s k : Decision (in_range s k) := decide (LOGSIZE <= k < sz s).
End kvs.

Section kvs_proofs.
Context `{!Common} `{!CommonSpec} `{!Journal} `{!JournalSpec} `{!DiskPkg} `{!BufDisk}.

(** The buffers of a [MultiPut] over the values [m] of the log. *)
Definition put_bufs (o : Op) (m m' : Z -> list Z) : Prop :=
  (forall a b, op_bufs o !! a = Some b ->
     exists k, a = MkAddr k 0 /\ b = mkBufv 32768 (m' k) true /\ len (m' k) = 4096) /\
  (forall k, op_bufs o !! MkAddr k 0 = None -> m' k = m k).

Lemma put_loop_ok size pairs o m m' :
  Forall (fun p => LOGSIZE <= Key p < size /\ len (Val p) = 4096) pairs -> put_bufs o m m' ->
  exists o', put_loop size pairs o = Ok o' /\ put_bufs o' m (put_all pairs m').
Proof.
  intros Hp. revert o m'. induction Hp as [|p pairs [Hk Hv] _ IH]; intros o m' [Hin Hout].
  { by exists o. }
  cbn [put_loop put_all fold_left]. rewrite (proj2 (Z.leb_gt _ _)), (proj2 (Z.ltb_ge _ _)) by lia.
  cbn [orb]. csimp.
  destruct (OverWrite_ok o (MkAddr (Key p) 0) 32768 (Val p)) as (o1 & -> & Ho1).
  { destruct (op_bufs o !! _) as [b|] eqn:Hb; [|done]. by destruct (Hin _ _ Hb) as (k & _ & -> & _). }
  apply IH. split.
  - intros a b. rewrite Ho1. intros [[<- <-]|[Hne Hb]]%lookup_insert_Some.
    + exists (Key p). by rewrite bool_decide_eq_true_2.
    + destruct (Hin _ _ Hb) as (k & -> & -> & Hl). exists k.
      rewrite bool_decide_eq_false_2 by (intros ->; done). done.
  - intros k. rewrite Ho1. intros [Hb Hne]%lookup_insert_None.
    rewrite bool_decide_eq_false_2 by (intros ->; done). by apply Hout.
Qed.

Lemma put_loop_panic size pairs o : (forall a b, op_bufs o !! a = Some b -> bv_sz b = 32768) ->
  Exists (fun p => ~ LOGSIZE <= Key p < size) pairs -> put_loop size pairs o = Panic.
Proof.
  intros Ho Hp. revert o Ho. induction Hp as [p pairs Hk|p pairs _ IH]; intros o Ho; cbn [put_loop].
  - by destruct (Z.leb_spec size (Key p)), (Z.ltb_spec (Key p) LOGSIZE); [..|lia].
  - destruct (_ || _); [done|]. csimp.
    destruct (OverWrite_ok o (MkAddr (Key p) 0) 32768 (Val p)) as (o1 & -> & Ho1).
    { destruct (op_bufs o !! _) as [b|] eqn:Hb; [|done]. by apply (Ho _ _ Hb). }
    apply IH. intros a b. rewrite Ho1. intros [[_ <-]|[_ Hb]]%lookup_insert_Some; [done|by eapply Ho].
Qed.

Lemma put_commit s o m' lg : put_bufs o (value s) m' ->
  CommitWait (log s) o true = (true, lg) ->
  forall k, log_obj lg (MkAddr k 0) 32768 = m' k.
Proof.
  intros [Hin Hout] Hc k.
  assert (forall a b, op_dirty o a = Some b -> exists k', a = MkAddr k' 0 /\ bv_sz b = 32768) as Hd.
  { intros a b. unfold op_dirty. destruct (op_bufs o !! a) as [b'|] eqn:Hb; [|done]. simpl.
    destruct (Hin _ _ Hb) as (k' & -> & -> & _). intros [= <-]. eauto. }
  destruct (op_bufs o !! MkAddr k 0) as [b|] eqn:Hb.
  - destruct (Hin _ _ Hb) as (k' & [= <-] & -> & Hl).
    apply (Commit_written (log s) o true lg _ (mkBufv 32768 (m' k) true) Hc); simpl; try lia.
    + unfold op_dirty. by rewrite Hb.
    + intros a b Hne (k' & -> & _)%Hd. left. simpl. congruence.
  - rewrite (Hout k Hb). apply (Commit_other _ o true _ _ _ Hc); [lia|].
    intros a b Hda. destruct (Hd _ _ Hda) as (k' & -> & _). left. simpl. intros <-.
    unfold op_dirty in Hda. by rewrite Hb in Hda.
Qed.

(** C32: a [MultiPut] of keys in range takes effect entirely or not at all, as the
    result says, and what it stored survives a crash. *)
Theorem MultiPut_spec s pairs :
  Forall (fun p => in_range s (Key p) /\ len (Val p) = 4096) pairs ->
  exists ok s', MultiPut pairs s = Ok (ok, s') /\ sz s' = sz s /\
    forall k, value s' k = (if ok then put_all pairs (value s) k else value s k) /\
      stable_value s' k = (if ok then value s' k else stable_value s k).
Proof.
  intros Hp. unfold MultiPut, mbind, M_bind, get, lift, commit.
  destruct (put_loop_ok (sz s) pairs (jrnl_Begin (log s)) (value s) (value s)) as (o & -> & Ho).
  { done. }
  { split; [|done]. intros a b. by rewrite Begin_bufs, lookup_empty. }
  destruct (CommitWait (log s) o true) as [ok lg] eqn:Hc. exists ok, (mkKVS (sz s) lg).
  split_and!; [done..|]. intros k. unfold value, stable_value. cbn [log]. destruct ok.
  - split; [by apply (put_commit s o)|by rewrite (Commit_stable _ _ _ Hc)].
  - destruct (Commit_fail _ _ _ _ Hc) as [-> _]. by rewrite (Commit_fail_stable _ _ _ _ Hc).
Qed.

Lemma Get_eq s key : LOGSIZE <= key <= sz s ->
  exists ok s', Get key s = Ok (mkKVPair key (value s key), ok, s') /\ sz s' = sz s /\
    forall k, value s' k = value s k.
Proof.
  intros Hk. unfold Get, mbind, M_bind, get, commit.
  rewrite (proj2 (Z.ltb_ge _ _)), (proj2 (Z.ltb_ge _ _)) by lia. cbn [orb]. csimp.
  set (o := ReadBuf _ _ _ _). assert (op_bufs o = {[MkAddr key 0 := mkBufv 32768 (value s key) false]}) as Ho.
  { subst o. by rewrite ReadBuf_bufs, Begin_bufs, lookup_empty. }
  destruct (CommitWait (log s) o true) as [ok lg] eqn:Hc. exists ok, (mkKVS (sz s) lg).
  rewrite buf_Data_eq, Ho, lookup_singleton_eq. split_and!; [done..|]. intros k. unfold value. cbn [log].
  destruct ok; [|by destruct (Commit_fail _ _ _ _ Hc) as [-> _]].
  apply (Commit_other _ o true _ _ _ Hc); [lia|]. intros a b. unfold op_dirty. rewrite Ho.
  destruct (decide (a = MkAddr key 0)) as [->|Hne].
  - by rewrite lookup_singleton_eq.
  - by rewrite lookup_singleton_ne.
Qed.

(** A [MultiPut] with a key out of range panics, whatever its position:
    nothing is committed. *)
Lemma MultiPut_out_of_range s pairs : Exists (fun p => ~ in_range s (Key p)) pairs ->
  MultiPut pairs s = Panic.
Proof.
  intros Hp. unfold MultiPut, mbind, M_bind, get, lift.
  rewrite put_loop_panic; [done| |done]. intros a b. by rewrite Begin_bufs, lookup_empty.
Qed.

(** [Get] returns the value of a key in range and changes none. *)
Lemma Get_in_range s key : in_range s key ->
  exists ok s', Get key s = Ok (mkKVPair key (value s key), ok, s') /\ sz s' = sz s /\
    forall k, value s' k = value s k.
Proof. intros Hk. apply Get_eq. unfold in_range in Hk. lia. Qed.

(** [Get] accepts one key past the end, which [MultiPut] rejects. *)
Lemma Get_past_end s v : LOGSIZE <= sz s ->
  (exists ok s', Get (sz s) s = Ok (mkKVPair (sz s) (value s (sz s)), ok, s')) /\
  MultiPut [mkKVPair (sz s) v] s = Panic.
Proof.
  intros Hs. split.
  - destruct (Get_eq s (sz s)) as (ok & s' & Hg & _); [lia|]. eauto.
  - unfold MultiPut, mbind, M_bind, get. cbn [put_loop Key]. by rewrite Z.leb_refl.
Qed.
End kvs_proofs.

(** ** A store on an empty disk *)

Definition sample_kvs : KVS := MkKVS (mkRefDisk 1000 ∅ : Disk) 1000.

Definition sample_block (x : Z) : list Z := replicate 4096 x.

Lemma MultiPut_spec_witness : exists ok s',
  MultiPut [mkKVPair 600 (sample_block 1); mkKVPair 601 (sample_block 2)] sample_kvs = Ok (ok, s') /\
  sz s' = 1000 /\
  forall k, value s' k = (if ok then put_all [mkKVPair 600 (sample_block 1);
      mkKVPair 601 (sample_block 2)] (value sample_kvs) k else value sample_kvs k) /\
    stable_value s' k = (if ok then value s' k else stable_value sample_kvs k).
Proof. apply (MultiPut_spec sample_kvs). repeat constructor; discriminate. Defined.
