(* ===== verification/XdrLib.v ===== *)
(** The [xdr] package the generated encoders call ([github.com/zeldovich/go-rpcgen/xdr]):
    an [XdrState] either writes or reads; each primitive takes the variable it
    is given a pointer to, and returns what the variable holds afterwards.

    [writing], [reading], [xs_out] and [xs_rest] are observations used to write
    the facts of the package: a primitive that writes a value appends its wire
    form, and a primitive that reads takes the wire form of a value off. *)
From S2P Require Import Prelude External Reference.

Class XdrPkg := {
  XdrState : Type;
  Encoding : XdrState -> bool;
  Decoding : XdrState -> bool;
  Error : XdrState -> bool;                     (* args.Error() != nil *)
  XdrU32 : Z -> XdrState -> Z * XdrState;
  XdrU64 : Z -> XdrState -> Z * XdrState;
  XdrBool : bool -> XdrState -> bool * XdrState;
  XdrString : Z -> list Z -> XdrState -> list Z * XdrState;
  XdrVarArray : Z -> list Z -> XdrState -> list Z * XdrState;
  XdrArray : list Z -> XdrState -> list Z * XdrState;
  EncodingSetSize : XdrState -> Z -> Z -> Z;    (* the variable, the length *)
  (* views *)
  xs_out : XdrState -> list Z;
  xs_rest : XdrState -> list Z;
  w_u32 : Z -> list Z;
  w_u64 : Z -> list Z;
  w_var : list Z -> list Z;
  w_fixed : list Z -> list Z;
}.

Section xdr_views.
Context `{XdrPkg}.

Definition writing (xs : XdrState) : Prop :=
  Encoding xs = true /\ Decoding xs = false /\ Error xs = false.

Definition reading (xs : XdrState) : Prop :=
  Encoding xs = false /\ Decoding xs = true /\ Error xs = false.

(** [codes f v0 v w]: [f] writes [v] as [w], and reads [v] from [w] into a variable
    that held [v0]. *)
Definition codes {A} (f : A -> XdrState -> A * XdrState) (v0 v : A) (w : list Z) : Prop :=
  (forall xs, writing xs -> exists xs', f v xs = (v, xs') /\ writing xs' /\
     xs_out xs' = xs_out xs ++ w) /\
  (forall xs r, reading xs -> xs_rest xs = w ++ r -> exists xs', f v0 xs = (v, xs') /\
     reading xs' /\ xs_rest xs' = r).

(** A length the limit [n] allows, [-1] meaning none. *)
Definition fits (n : Z) (s : list Z) : Prop := len s < 2 ^ 32 /\ (n = -1 \/ len s <= n).
End xdr_views.

Class XdrPkgSpec `{XdrPkg} : Prop := {
  XdrU32_codes v0 v : is_u32 v -> codes XdrU32 v0 v (w_u32 v);
  XdrU64_codes v0 v : is_u64 v -> codes XdrU64 v0 v (w_u64 v);
  XdrBool_codes (v0 v : bool) : codes XdrBool v0 v (w_u32 (if v then 1 else 0));
  XdrString_codes n v0 v : fits n v -> codes (XdrString n) v0 v (w_var v);
  XdrVarArray_codes n v0 v : fits n v -> codes (XdrVarArray n) v0 v (w_var v);
  XdrArray_codes v0 v : length v0 = length v -> codes XdrArray v0 v (w_fixed v);
  EncodingSetSize_writing xs v n : writing xs -> EncodingSetSize xs v n = w32 n;
  EncodingSetSize_reading xs v n : reading xs -> EncodingSetSize xs v n = v;
}.

(** A state that reads bytes, whether or not it has met an error. *)
Definition decoding `{XdrPkg} (xs : XdrState) : Prop :=
  Encoding xs = false /\ Decoding xs = true.

(** [total f P]: reading with [f] into a variable of [P] leaves it in [P]: a value
    that was read, or after an error the old one. *)
Definition total `{XdrPkg} {A} (f : A -> XdrState -> A * XdrState) (P : A -> Prop) : Prop :=
  forall v xs, decoding xs -> P v -> P (f v xs).1 /\ decoding (f v xs).2.

Class XdrPkgTotal `{XdrPkg} : Prop := {
  XdrU32_total : total XdrU32 is_u32;
  XdrU64_total : total XdrU64 is_u64;
  XdrBool_total : total XdrBool (fun _ => True);
  XdrString_total n : total (XdrString n) (fits n);
  XdrVarArray_total n : total (XdrVarArray n) (fits n);
  XdrArray_total n : total XdrArray (fun v => length v = n);
}.

Lemma fits_nil n : n = -1 \/ 0 <= n -> fits n [].
Proof. intros Hn. split; [done|]. destruct Hn; [by left|by right]. Qed.

(** ** Round trips of a computation over an [XdrState]

    [rt me md v]: [me] writes a wire form and returns [v], and [md] reads [v] from
    that wire form. *)

Section rt.
Context `{XdrPkg} `{!XdrPkgSpec}.

Definition rt {A} (me md : M XdrState A) (v : A) : Prop := exists w,
  (forall xs, writing xs -> exists xs', me xs = Ok (v, xs') /\ writing xs' /\
     xs_out xs' = xs_out xs ++ w) /\
  (forall xs r, reading xs -> xs_rest xs = w ++ r -> exists xs', md xs = Ok (v, xs') /\
     reading xs' /\ xs_rest xs' = r).

(** A primitive as a computation. *)
Definition prim {A} (f : A -> XdrState -> A * XdrState) (v : A) : M XdrState A :=
  fun xs => Ok (f v xs).

Lemma rt_ret {A} (v : A) : rt (mret v) (mret v) v.
Proof.
  exists []. split.
  - intros xs Hx. exists xs. by rewrite app_nil_r.
  - intros xs r Hx Hr. by exists xs.
Qed.

Lemma rt_bind {A B} (me md : M XdrState A) (ke kd : A -> M XdrState B) a b :
  rt me md a -> rt (ke a) (kd a) b -> rt (me ≫= ke) (md ≫= kd) b.
Proof.
  intros (w1 & He1 & Hd1) (w2 & He2 & Hd2). exists (w1 ++ w2). unfold mbind, M_bind. split.
  - intros xs Hx. destruct (He1 xs Hx) as (xs1 & -> & Hx1 & Ho1).
    destruct (He2 xs1 Hx1) as (xs2 & -> & Hx2 & Ho2). exists xs2. split; [done|]. split; [done|].
    by rewrite Ho2, Ho1, app_assoc.
  - intros xs r Hx Hr. rewrite <-app_assoc in Hr.
    destruct (Hd1 xs _ Hx Hr) as (xs1 & -> & Hx1 & Hr1). by apply Hd2.
Qed.

Lemma rt_prim {A} (f : A -> XdrState -> A * XdrState) v0 v w : codes f v0 v w ->
  rt (prim f v) (prim f v0) v.
Proof.
  intros [He Hd]. exists w. unfold prim. split.
  - intros xs Hx. destruct (He xs Hx) as (xs' & -> & Hx'). by exists xs'.
  - intros xs r Hx Hr. destruct (Hd xs r Hx Hr) as (xs' & -> & Hx'). by exists xs'.
Qed.

(** ** Optional values behind a pointer

    The generated code writes whether the pointer is nil, and reads it into a
    new value; [rec] is the encoder of the value and [z] its zero. *)
Definition opted {A} (rec : A -> M XdrState A) (z : A) (p : option A) : M XdrState (option A) :=
  enc ← gets Encoding;
  p ← (if (enc : bool) then
         b ← prim XdrBool (match p with Some _ => true | None => false end);
         if (b : bool) then
           match p with
           | Some v => v ← rec v; mret (Some v)
           | None => panic
           end
         else mret p
       else mret p);
  dec ← gets Decoding;
  if (dec : bool) then
    b ← prim XdrBool false;
    if (b : bool) then v ← rec z; mret (Some v) else mret p
  else mret p.

Lemma rt_opted {A} (rec : A -> M XdrState A) z p :
  (forall v, p = Some v -> rt (rec v) (rec z) v) -> rt (opted rec z p) (opted rec z None) p.
Proof.
  intros Hrec.
  pose proof (XdrBool_codes false (match p with Some _ => true | None => false end)) as [Hbe Hbd].
  unfold opted, mbind, M_bind, gets, prim. destruct p as [v|].
  - destruct (Hrec v eq_refl) as (w & He & Hd). exists (w_u32 1 ++ w). split.
    + intros xs Hx. pose proof Hx as (-> & _). destruct (Hbe xs Hx) as (xs1 & -> & Hx1 & Ho1).
      destruct (He xs1 Hx1) as (xs2 & -> & Hx2 & Ho2). exists xs2. pose proof Hx2 as (_ & Hnd & _).
      simpl. rewrite Hnd. split; [done|]. split; [done|]. by rewrite Ho2, Ho1, app_assoc.
    + intros xs r Hx Hr. pose proof Hx as (-> & Hdec & _). simpl. rewrite Hdec.
      rewrite <-app_assoc in Hr. destruct (Hbd xs _ Hx Hr) as (xs1 & -> & Hx1 & Hr1).
      destruct (Hd xs1 r Hx1 Hr1) as (xs2 & -> & Hx2 & Hr2). by exists xs2.
  - exists (w_u32 0). split.
    + intros xs Hx. pose proof Hx as (-> & _). destruct (Hbe xs Hx) as (xs1 & -> & Hx1 & Ho1).
      exists xs1. pose proof Hx1 as (_ & Hnd & _). simpl. by rewrite Hnd.
    + intros xs r Hx Hr. pose proof Hx as (-> & Hdec & _). simpl. rewrite Hdec.
      destruct (Hbd xs _ Hx Hr) as (xs1 & -> & Hx1 & Hr1). by exists xs1.
Qed.
End rt.

(** ** A concrete XDR: big-endian integers, byte strings padded to four bytes *)

Record RefXs := mkRefXs { rx_enc : bool; rx_out : list Z; rx_in : list Z; rx_err : bool }.

Definition be (n : nat) (x : Z) : list Z := reverse (le n x).

Definition unbe (bs : list Z) : Z := unle (reverse bs).

#[global] Arguments be : simpl never.
#[global] Arguments unbe : simpl never.

Definition pad4 (n : Z) : Z := (- n) mod 4.

Definition ref_emit (bs : list Z) (xs : RefXs) : RefXs :=
  mkRefXs (rx_enc xs) (rx_out xs ++ bs) (rx_in xs) (rx_err xs).

Definition ref_fail (xs : RefXs) : RefXs :=
  mkRefXs (rx_enc xs) (rx_out xs) (rx_in xs) true.

(** Take [n] bytes, or fail. *)
Definition ref_take (n : Z) (xs : RefXs) : option (list Z * RefXs) :=
  if bool_decide (n <= len (rx_in xs))
  then Some (take (Z.to_nat n) (rx_in xs),
             mkRefXs (rx_enc xs) (rx_out xs) (drop (Z.to_nat n) (rx_in xs)) (rx_err xs))
  else None.

(** A primitive whose wire form is [w] and which takes [n] bytes. *)
Definition ref_prim {A} (n : Z) (w : A -> list Z) (f : list Z -> A) (v : A) (xs : RefXs) : A * RefXs :=
  if rx_err xs then (v, xs)
  else if rx_enc xs then (v, ref_emit (w v) xs)
  else match ref_take n xs with
       | Some (bs, xs) => (f bs, xs)
       | None => (v, ref_fail xs)
       end.

Definition ref_var_wire (s : list Z) : list Z := be 4 (len s) ++ s ++ zeros (pad4 (len s)).

Definition ref_var (limit : Z) (v : list Z) (xs : RefXs) : list Z * RefXs :=
  if rx_err xs then (v, xs)
  else if rx_enc xs then
    if bool_decide (limit <> -1 /\ limit < len v) then (v, ref_fail xs)
    else (v, ref_emit (ref_var_wire v) xs)
  else match ref_take 4 xs with
       | Some (bs, xs1) =>
           let n := unbe bs in
           if bool_decide (limit <> -1 /\ limit < n) then (v, ref_fail xs)
           else match ref_take (n + pad4 n) xs1 with
                | Some (s, xs2) => (take (Z.to_nat n) s, xs2)
                | None => (v, ref_fail xs)
                end
       | None => (v, ref_fail xs)
       end.

#[export] Instance ref_xdr : XdrPkg := {|
  XdrState := RefXs;
  Encoding xs := rx_enc xs;
  Decoding xs := negb (rx_enc xs);
  Error := rx_err;
  XdrU32 := ref_prim 4 (be 4) unbe;
  XdrU64 := ref_prim 8 (be 8) unbe;
  XdrBool := ref_prim 4 (fun b : bool => be 4 (if b then 1 else 0)) (fun bs => bool_decide (unbe bs <> 0));
  XdrString := ref_var;
  XdrVarArray := ref_var;
  XdrArray v := ref_prim (len v + pad4 (len v)) (fun v => v ++ zeros (pad4 (len v)))
                  (take (length v)) v;
  EncodingSetSize xs v n := if rx_enc xs then w32 n else v;
  xs_out := rx_out;
  xs_rest := rx_in;
  w_u32 := be 4;
  w_u64 := be 8;
  w_var := ref_var_wire;
  w_fixed v := v ++ zeros (pad4 (len v)) |}.

Lemma unbe_be n x : unbe (be n x) = x mod 256 ^ Z.of_nat n.
Proof. unfold unbe, be. by rewrite reverse_involutive, unle_le. Qed.

Lemma length_be n x : length (be n x) = n.
Proof. unfold be. by rewrite length_reverse, length_le. Qed.

Lemma pad4_range n : 0 <= pad4 n < 4.
Proof. apply Z.mod_pos_bound. lia. Qed.

Lemma ref_take_app w xs r n : n = len w -> rx_in xs = w ++ r ->
  ref_take n xs = Some (w, mkRefXs (rx_enc xs) (rx_out xs) r (rx_err xs)).
Proof.
  intros -> Hr. unfold ref_take. rewrite Hr, bool_decide_eq_true_2 by (rewrite len_app; unfold len; lia).
  unfold len. by rewrite Nat2Z.id, take_app_length, drop_app_length.
Qed.

Lemma ref_prim_codes {A} n w (f : list Z -> A) v0 v : n = len (w v) -> f (w v) = v ->
  codes (ref_prim n w f) v0 v (w v).
Proof.
  intros Hn Hf. unfold ref_prim. split.
  - intros [e o i er] (He & _ & Her). simpl in *. subst. eexists. split; [done|]. done.
  - intros xs r (He & _ & Her) Hr. simpl in He, Her, Hr. rewrite Her, He.
    rewrite (ref_take_app (w v) xs r) by done. rewrite Hf. eexists. split; [done|].
    split; [|done]. unfold reading. simpl. by rewrite He, Her.
Qed.

Lemma ref_var_codes n v0 v : fits n v -> codes (ref_var n) v0 v (ref_var_wire v).
Proof.
  intros [Hlen Hlim]. pose proof (pad4_range (len v)) as Hp. pose proof (len_nonneg v).
  assert (bool_decide (n <> -1 /\ n < len v) = false) as Hb by (apply bool_decide_eq_false; lia).
  unfold ref_var. split.
  - intros [e o i er] (He & _ & Her). simpl in *. subst. rewrite Hb. eexists. split; [done|]. done.
  - intros xs r (He & _ & Her) Hr. simpl in He, Her, Hr. rewrite Her, He.
    unfold ref_var_wire in Hr. rewrite <-!app_assoc in Hr.
    assert (4 = len (be 4 (len v))) as H4 by (unfold len; by rewrite length_be).
    rewrite (ref_take_app (be 4 (len v)) xs _ 4 H4 Hr).
    rewrite unbe_be, Z.mod_small by (simpl; lia). rewrite Hb. rewrite (app_assoc v).
    rewrite (ref_take_app (v ++ zeros (pad4 (len v))) _ r (len v + pad4 (len v)))
      by (try done; rewrite len_app, len_zeros; lia).
    unfold len at 1. rewrite Nat2Z.id, take_app_length. eexists. split; [done|]. split; [|done].
    unfold reading. simpl. by rewrite He, Her.
Qed.

#[export] Instance ref_xdr_spec : XdrPkgSpec.
Proof.
  split; simpl.
  - intros v0 v Hv. apply ref_prim_codes; [by unfold len; rewrite length_be|].
    rewrite unbe_be. by apply Z.mod_small.
  - intros v0 v Hv. apply ref_prim_codes; [by unfold len; rewrite length_be|].
    rewrite unbe_be. by apply Z.mod_small.
  - intros v0 v. apply (ref_prim_codes 4 (fun b : bool => be 4 (if b then 1 else 0)));
      [by unfold len; rewrite length_be|]. by destruct v.
  - intros n v0 v Hv. by apply ref_var_codes.
  - intros n v0 v Hv. by apply ref_var_codes.
  - intros v0 v Hv. unfold codes. assert (len v0 = len v) as Hl by (unfold len; lia).
    pose proof (pad4_range (len v)).
    destruct (ref_prim_codes (len v + pad4 (len v)) (fun v => v ++ zeros (pad4 (len v))) (take (length v)) v0 v)
      as [He Hd]; [by rewrite len_app, len_zeros by lia|by rewrite take_app_length|].
    split; [exact He|]. intros xs r Hx Hr. rewrite Hl, Hv. by apply Hd.
  - intros xs v n (He & _). simpl in He. by rewrite He.
  - intros xs v n (He & _). simpl in He. by rewrite He.
Qed.

Lemma unbe_range bs : 0 <= unbe bs < 256 ^ len bs.
Proof. unfold unbe, len. rewrite <-(length_reverse bs). apply unle_range. Qed.

Lemma ref_take_Some n xs bs xs' : 0 <= n -> ref_take n xs = Some (bs, xs') ->
  len bs = n /\ rx_enc xs' = rx_enc xs.
Proof.
  unfold ref_take, len. intros Hn. case_bool_decide as Hle; [|done]. intros [= <- <-].
  rewrite length_take. unfold len in Hle. split; [lia|done].
Qed.

Lemma ref_decoding (xs : RefXs) : decoding xs <-> rx_enc xs = false.
Proof. unfold decoding. simpl. split; [by intros [? _]|by intros ->]. Qed.

Lemma ref_prim_total {A} n w (f : list Z -> A) v (xs : RefXs) (P : A -> Prop) : 0 <= n ->
  (forall bs, len bs = n -> P (f bs)) -> decoding xs -> P v ->
  P (ref_prim n w f v xs).1 /\ decoding (ref_prim n w f v xs).2.
Proof.
  intros Hn Hf Hx%ref_decoding Hv. rewrite ref_decoding. unfold ref_prim. rewrite Hx.
  destruct (rx_err xs); [done|]. destruct (ref_take n xs) as [[bs xs']|] eqn:Ht; [|done].
  apply ref_take_Some in Ht as [Hl He]; [|done]. simpl. split; [by apply Hf|congruence].
Qed.

Lemma ref_var_total n v (xs : RefXs) : decoding xs -> fits n v ->
  fits n (ref_var n v xs).1 /\ decoding (ref_var n v xs).2.
Proof.
  intros Hx%ref_decoding Hv. rewrite ref_decoding. unfold ref_var. rewrite Hx.
  destruct (rx_err xs); [done|]. destruct (ref_take 4 xs) as [[bs xs1]|] eqn:H1; [|done].
  apply ref_take_Some in H1 as [Hl He]; [|done]. case_bool_decide as Hlim; [done|].
  pose proof (unbe_range bs) as Hr. rewrite Hl in Hr. pose proof (pad4_range (unbe bs)).
  destruct (ref_take (unbe bs + _) xs1) as [[s xs2]|] eqn:H2; [|done].
  apply ref_take_Some in H2 as [Hl2 He2]; [|lia]. simpl. split; [|congruence].
  unfold fits, len in *. rewrite length_take. lia.
Qed.

#[export] Instance ref_xdr_total : XdrPkgTotal.
Proof.
  split; simpl.
  - intros v xs Hx Hv. apply ref_prim_total; [done| |done|done]. intros bs Hb.
    pose proof (unbe_range bs) as Hr. by rewrite Hb in Hr.
  - intros v xs Hx Hv. apply ref_prim_total; [done| |done|done]. intros bs Hb.
    pose proof (unbe_range bs) as Hr. by rewrite Hb in Hr.
  - intros v xs Hx Hv. by apply (ref_prim_total 4 _ _ _ _ (fun _ => True)).
  - intros n v xs. by apply ref_var_total.
  - intros n v xs. by apply ref_var_total.
  - intros n v xs Hx Hv. pose proof (pad4_range (len v)). pose proof (len_nonneg v).
    apply (ref_prim_total _ _ _ _ _ (fun v => length v = n)); [lia| |done|done]. intros bs Hb. unfold len in *. rewrite length_take. lia.
Qed.
