(* ===== verification/Xdr.v ===== *)
(** The encoders of the protocol types ([nfstypes/nfs_xdr.go]): [T_Xdr] is the method
    [Xdr] of the type [T], which writes the value it is called on or reads into
    it, as the [XdrState] says.  A union writes its discriminant and the arm the
    discriminant selects.  The methods of the linked lists call themselves for
    the next element; [n] bounds the length of the list. *)
From S2P Require Import Prelude Nfstypes XdrLib.

Section xdr.
Context `{!XdrPkg}.

(** [for i := 0; i < arraysz; i++ { XdrU32(xs, &flavors[i]) }], from [i], [n] times. *)
Fixpoint flavors_loop (n : nat) (i : Z) (l : list Z) : M XdrState (list Z) :=
  match n with
  | O => mret l
  | S n =>
      x ← lift (idx l i);
      x ← prim XdrU32 x;
      l ← lift (setidx l i x);
      flavors_loop n (i + 1) l
  end.

Definition flavors_Xdr (l : list Z) : M XdrState (list Z) :=
  arraysz ← gets (fun xs => EncodingSetSize xs 0 (len l));
  arraysz ← prim XdrU32 arraysz;
  dec ← gets Decoding;
  flavors_loop (Z.to_nat arraysz) 0 (if (dec : bool) then zeros arraysz else l).

Definition Uint64_Xdr (v : Z) : M XdrState Z := prim XdrU64 v.

Definition Uint32_Xdr (v : Z) : M XdrState Z := prim XdrU32 v.

Definition Filename3_Xdr (v : list Z) : M XdrState (list Z) := prim (XdrString (-1)) v.

Definition Nfspath3_Xdr (v : list Z) : M XdrState (list Z) := prim (XdrString (-1)) v.

Definition Fileid3_Xdr (v : Z) : M XdrState Z := Uint64_Xdr v.

Definition Cookie3_Xdr (v : Z) : M XdrState Z := Uint64_Xdr v.

Definition Cookieverf3_Xdr (v : Cookieverf3) : M XdrState Cookieverf3 := prim XdrArray v.

Definition Createverf3_Xdr (v : Createverf3) : M XdrState Createverf3 := prim XdrArray v.

Definition Writeverf3_Xdr (v : Writeverf3) : M XdrState Writeverf3 := prim XdrArray v.

Definition Uid3_Xdr (v : Z) : M XdrState Z := Uint32_Xdr v.

Definition Gid3_Xdr (v : Z) : M XdrState Z := Uint32_Xdr v.

Definition Size3_Xdr (v : Z) : M XdrState Z := Uint64_Xdr v.

Definition Offset3_Xdr (v : Z) : M XdrState Z := Uint64_Xdr v.

Definition Mode3_Xdr (v : Z) : M XdrState Z := Uint32_Xdr v.

Definition Count3_Xdr (v : Z) : M XdrState Z := Uint32_Xdr v.

Definition Nfsstat3_Xdr (v : Z) : M XdrState Z := prim XdrU32 v.

Definition Ftype3_Xdr (v : Z) : M XdrState Z := prim XdrU32 v.

Definition Specdata3_Xdr (v : Specdata3) : M XdrState Specdata3 :=
  Specdata1 ← Uint32_Xdr (Specdata3_Specdata1 v);
  Specdata2 ← Uint32_Xdr (Specdata3_Specdata2 v);
  mret (mkSpecdata3 Specdata1 Specdata2).

Definition Nfs_fh3_Xdr (v : Nfs_fh3) : M XdrState Nfs_fh3 :=
  Data ← prim (XdrVarArray NFS3_FHSIZE) (Nfs_fh3_Data v);
  mret (mkNfs_fh3 Data).

Definition Nfstime3_Xdr (v : Nfstime3) : M XdrState Nfstime3 :=
  Seconds ← Uint32_Xdr (Nfstime3_Seconds v);
  Nseconds ← Uint32_Xdr (Nfstime3_Nseconds v);
  mret (mkNfstime3 Seconds Nseconds).

Definition Fattr3_Xdr (v : Fattr3) : M XdrState Fattr3 :=
  Ftype ← Ftype3_Xdr (Fattr3_Ftype v);
  Mode ← Mode3_Xdr (Fattr3_Mode v);
  Nlink ← Uint32_Xdr (Fattr3_Nlink v);
  Uid ← Uid3_Xdr (Fattr3_Uid v);
  Gid ← Gid3_Xdr (Fattr3_Gid v);
  Size ← Size3_Xdr (Fattr3_Size v);
  Used ← Size3_Xdr (Fattr3_Used v);
  Rdev ← Specdata3_Xdr (Fattr3_Rdev v);
  Fsid ← Uint64_Xdr (Fattr3_Fsid v);
  Fileid ← Fileid3_Xdr (Fattr3_Fileid v);
  Atime ← Nfstime3_Xdr (Fattr3_Atime v);
  Mtime ← Nfstime3_Xdr (Fattr3_Mtime v);
  Ctime ← Nfstime3_Xdr (Fattr3_Ctime v);
  mret (mkFattr3 Ftype Mode Nlink Uid Gid Size Used Rdev Fsid Fileid Atime Mtime Ctime).

Definition Post_op_attr_Xdr (v : Post_op_attr) : M XdrState Post_op_attr :=
  Attributes_follow ← prim XdrBool (Post_op_attr_Attributes_follow v);
  if (Attributes_follow : bool) then
    Attributes ← Fattr3_Xdr (Post_op_attr_Attributes v);
    mret (mkPost_op_attr Attributes_follow Attributes)
  else
    mret (mkPost_op_attr Attributes_follow (Post_op_attr_Attributes v)).

Definition Wcc_attr_Xdr (v : Wcc_attr) : M XdrState Wcc_attr :=
  Size ← Size3_Xdr (Wcc_attr_Size v);
  Mtime ← Nfstime3_Xdr (Wcc_attr_Mtime v);
  Ctime ← Nfstime3_Xdr (Wcc_attr_Ctime v);
  mret (mkWcc_attr Size Mtime Ctime).

Definition Pre_op_attr_Xdr (v : Pre_op_attr) : M XdrState Pre_op_attr :=
  Attributes_follow ← prim XdrBool (Pre_op_attr_Attributes_follow v);
  if (Attributes_follow : bool) then
    Attributes ← Wcc_attr_Xdr (Pre_op_attr_Attributes v);
    mret (mkPre_op_attr Attributes_follow Attributes)
  else
    mret (mkPre_op_attr Attributes_follow (Pre_op_attr_Attributes v)).

Definition Wcc_data_Xdr (v : Wcc_data) : M XdrState Wcc_data :=
  Before ← Pre_op_attr_Xdr (Wcc_data_Before v);
  After ← Post_op_attr_Xdr (Wcc_data_After v);
  mret (mkWcc_data Before After).

Definition Post_op_fh3_Xdr (v : Post_op_fh3) : M XdrState Post_op_fh3 :=
  Handle_follows ← prim XdrBool (Post_op_fh3_Handle_follows v);
  if (Handle_follows : bool) then
    Handle ← Nfs_fh3_Xdr (Post_op_fh3_Handle v);
    mret (mkPost_op_fh3 Handle_follows Handle)
  else
    mret (mkPost_op_fh3 Handle_follows (Post_op_fh3_Handle v)).

Definition Time_how_Xdr (v : Z) : M XdrState Z := prim XdrU32 v.

Definition Set_mode3_Xdr (v : Set_mode3) : M XdrState Set_mode3 :=
  Set_it ← prim XdrBool (Set_mode3_Set_it v);
  if (Set_it : bool) then
    Mode ← Mode3_Xdr (Set_mode3_Mode v);
    mret (mkSet_mode3 Set_it Mode)
  else
    mret (mkSet_mode3 Set_it (Set_mode3_Mode v)).

Definition Set_uid3_Xdr (v : Set_uid3) : M XdrState Set_uid3 :=
  Set_it ← prim XdrBool (Set_uid3_Set_it v);
  if (Set_it : bool) then
    Uid ← Uid3_Xdr (Set_uid3_Uid v);
    mret (mkSet_uid3 Set_it Uid)
  else
    mret (mkSet_uid3 Set_it (Set_uid3_Uid v)).

Definition Set_gid3_Xdr (v : Set_gid3) : M XdrState Set_gid3 :=
  Set_it ← prim XdrBool (Set_gid3_Set_it v);
  if (Set_it : bool) then
    Gid ← Gid3_Xdr (Set_gid3_Gid v);
    mret (mkSet_gid3 Set_it Gid)
  else
    mret (mkSet_gid3 Set_it (Set_gid3_Gid v)).

Definition Set_size3_Xdr (v : Set_size3) : M XdrState Set_size3 :=
  Set_it ← prim XdrBool (Set_size3_Set_it v);
  if (Set_it : bool) then
    Size ← Size3_Xdr (Set_size3_Size v);
    mret (mkSet_size3 Set_it Size)
  else
    mret (mkSet_size3 Set_it (Set_size3_Size v)).

Definition Set_atime_Xdr (v : Set_atime) : M XdrState Set_atime :=
  Set_it ← Time_how_Xdr (Set_atime_Set_it v);
  if bool_decide (Set_it = SET_TO_CLIENT_TIME) then
    Atime ← Nfstime3_Xdr (Set_atime_Atime v);
    mret (mkSet_atime Set_it Atime)
  else
    mret (mkSet_atime Set_it (Set_atime_Atime v)).

Definition Set_mtime_Xdr (v : Set_mtime) : M XdrState Set_mtime :=
  Set_it ← Time_how_Xdr (Set_mtime_Set_it v);
  if bool_decide (Set_it = SET_TO_CLIENT_TIME) then
    Mtime ← Nfstime3_Xdr (Set_mtime_Mtime v);
    mret (mkSet_mtime Set_it Mtime)
  else
    mret (mkSet_mtime Set_it (Set_mtime_Mtime v)).

Definition Sattr3_Xdr (v : Sattr3) : M XdrState Sattr3 :=
  Mode ← Set_mode3_Xdr (Sattr3_Mode v);
  Uid ← Set_uid3_Xdr (Sattr3_Uid v);
  Gid ← Set_gid3_Xdr (Sattr3_Gid v);
  Size ← Set_size3_Xdr (Sattr3_Size v);
  Atime ← Set_atime_Xdr (Sattr3_Atime v);
  Mtime ← Set_mtime_Xdr (Sattr3_Mtime v);
  mret (mkSattr3 Mode Uid Gid Size Atime Mtime).

Definition Diropargs3_Xdr (v : Diropargs3) : M XdrState Diropargs3 :=
  Dir ← Nfs_fh3_Xdr (Diropargs3_Dir v);
  Name ← Filename3_Xdr (Diropargs3_Name v);
  mret (mkDiropargs3 Dir Name).

Definition GETATTR3args_Xdr (v : GETATTR3args) : M XdrState GETATTR3args :=
  Object ← Nfs_fh3_Xdr (GETATTR3args_Object v);
  mret (mkGETATTR3args Object).

Definition GETATTR3resok_Xdr (v : GETATTR3resok) : M XdrState GETATTR3resok :=
  Obj_attributes ← Fattr3_Xdr (GETATTR3resok_Obj_attributes v);
  mret (mkGETATTR3resok Obj_attributes).

Definition GETATTR3res_Xdr (v : GETATTR3res) : M XdrState GETATTR3res :=
  Status ← Nfsstat3_Xdr (GETATTR3res_Status v);
  if bool_decide (Status = NFS3_OK) then
    Resok ← GETATTR3resok_Xdr (GETATTR3res_Resok v);
    mret (mkGETATTR3res Status Resok)
  else
    mret (mkGETATTR3res Status (GETATTR3res_Resok v)).

Definition Sattrguard3_Xdr (v : Sattrguard3) : M XdrState Sattrguard3 :=
  Check ← prim XdrBool (Sattrguard3_Check v);
  if (Check : bool) then
    Obj_ctime ← Nfstime3_Xdr (Sattrguard3_Obj_ctime v);
    mret (mkSattrguard3 Check Obj_ctime)
  else
    mret (mkSattrguard3 Check (Sattrguard3_Obj_ctime v)).

Definition SETATTR3args_Xdr (v : SETATTR3args) : M XdrState SETATTR3args :=
  Object ← Nfs_fh3_Xdr (SETATTR3args_Object v);
  New_attributes ← Sattr3_Xdr (SETATTR3args_New_attributes v);
  Guard ← Sattrguard3_Xdr (SETATTR3args_Guard v);
  mret (mkSETATTR3args Object New_attributes Guard).

Definition SETATTR3resok_Xdr (v : SETATTR3resok) : M XdrState SETATTR3resok :=
  Obj_wcc ← Wcc_data_Xdr (SETATTR3resok_Obj_wcc v);
  mret (mkSETATTR3resok Obj_wcc).

Definition SETATTR3resfail_Xdr (v : SETATTR3resfail) : M XdrState SETATTR3resfail :=
  Obj_wcc ← Wcc_data_Xdr (SETATTR3resfail_Obj_wcc v);
  mret (mkSETATTR3resfail Obj_wcc).

Definition SETATTR3res_Xdr (v : SETATTR3res) : M XdrState SETATTR3res :=
  Status ← Nfsstat3_Xdr (SETATTR3res_Status v);
  if bool_decide (Status = NFS3_OK) then
    Resok ← SETATTR3resok_Xdr (SETATTR3res_Resok v);
    mret (mkSETATTR3res Status Resok (SETATTR3res_Resfail v))
  else
    Resfail ← SETATTR3resfail_Xdr (SETATTR3res_Resfail v);
    mret (mkSETATTR3res Status (SETATTR3res_Resok v) Resfail).

Definition LOOKUP3args_Xdr (v : LOOKUP3args) : M XdrState LOOKUP3args :=
  What ← Diropargs3_Xdr (LOOKUP3args_What v);
  mret (mkLOOKUP3args What).

Definition LOOKUP3resok_Xdr (v : LOOKUP3resok) : M XdrState LOOKUP3resok :=
  Object ← Nfs_fh3_Xdr (LOOKUP3resok_Object v);
  Obj_attributes ← Post_op_attr_Xdr (LOOKUP3resok_Obj_attributes v);
  Dir_attributes ← Post_op_attr_Xdr (LOOKUP3resok_Dir_attributes v);
  mret (mkLOOKUP3resok Object Obj_attributes Dir_attributes).

Definition LOOKUP3resfail_Xdr (v : LOOKUP3resfail) : M XdrState LOOKUP3resfail :=
  Dir_attributes ← Post_op_attr_Xdr (LOOKUP3resfail_Dir_attributes v);
  mret (mkLOOKUP3resfail Dir_attributes).

Definition LOOKUP3res_Xdr (v : LOOKUP3res) : M XdrState LOOKUP3res :=
  Status ← Nfsstat3_Xdr (LOOKUP3res_Status v);
  if bool_decide (Status = NFS3_OK) then
    Resok ← LOOKUP3resok_Xdr (LOOKUP3res_Resok v);
    mret (mkLOOKUP3res Status Resok (LOOKUP3res_Resfail v))
  else
    Resfail ← LOOKUP3resfail_Xdr (LOOKUP3res_Resfail v);
    mret (mkLOOKUP3res Status (LOOKUP3res_Resok v) Resfail).

Definition ACCESS3args_Xdr (v : ACCESS3args) : M XdrState ACCESS3args :=
  Object ← Nfs_fh3_Xdr (ACCESS3args_Object v);
  Access ← Uint32_Xdr (ACCESS3args_Access v);
  mret (mkACCESS3args Object Access).

Definition ACCESS3resok_Xdr (v : ACCESS3resok) : M XdrState ACCESS3resok :=
  Obj_attributes ← Post_op_attr_Xdr (ACCESS3resok_Obj_attributes v);
  Access ← Uint32_Xdr (ACCESS3resok_Access v);
  mret (mkACCESS3resok Obj_attributes Access).

Definition ACCESS3resfail_Xdr (v : ACCESS3resfail) : M XdrState ACCESS3resfail :=
  Obj_attributes ← Post_op_attr_Xdr (ACCESS3resfail_Obj_attributes v);
  mret (mkACCESS3resfail Obj_attributes).

Definition ACCESS3res_Xdr (v : ACCESS3res) : M XdrState ACCESS3res :=
  Status ← Nfsstat3_Xdr (ACCESS3res_Status v);
  if bool_decide (Status = NFS3_OK) then
    Resok ← ACCESS3resok_Xdr (ACCESS3res_Resok v);
    mret (mkACCESS3res Status Resok (ACCESS3res_Resfail v))
  else
    Resfail ← ACCESS3resfail_Xdr (ACCESS3res_Resfail v);
    mret (mkACCESS3res Status (ACCESS3res_Resok v) Resfail).

Definition READLINK3args_Xdr (v : READLINK3args) : M XdrState READLINK3args :=
  Symlink ← Nfs_fh3_Xdr (READLINK3args_Symlink v);
  mret (mkREADLINK3args Symlink).

Definition READLINK3resok_Xdr (v : READLINK3resok) : M XdrState READLINK3resok :=
  Symlink_attributes ← Post_op_attr_Xdr (READLINK3resok_Symlink_attributes v);
  Data ← Nfspath3_Xdr (READLINK3resok_Data v);
  mret (mkREADLINK3resok Symlink_attributes Data).

Definition READLINK3resfail_Xdr (v : READLINK3resfail) : M XdrState READLINK3resfail :=
  Symlink_attributes ← Post_op_attr_Xdr (READLINK3resfail_Symlink_attributes v);
  mret (mkREADLINK3resfail Symlink_attributes).

Definition READLINK3res_Xdr (v : READLINK3res) : M XdrState READLINK3res :=
  Status ← Nfsstat3_Xdr (READLINK3res_Status v);
  if bool_decide (Status = NFS3_OK) then
    Resok ← READLINK3resok_Xdr (READLINK3res_Resok v);
    mret (mkREADLINK3res Status Resok (READLINK3res_Resfail v))
  else
    Resfail ← READLINK3resfail_Xdr (READLINK3res_Resfail v);
    mret (mkREADLINK3res Status (READLINK3res_Resok v) Resfail).

Definition READ3args_Xdr (v : READ3args) : M XdrState READ3args :=
  File ← Nfs_fh3_Xdr (READ3args_File v);
  Offset ← Offset3_Xdr (READ3args_Offset v);
  Count ← Count3_Xdr (READ3args_Count v);
  mret (mkREAD3args File Offset Count).

Definition READ3resok_Xdr (v : READ3resok) : M XdrState READ3resok :=
  File_attributes ← Post_op_attr_Xdr (READ3resok_File_attributes v);
  Count ← Count3_Xdr (READ3resok_Count v);
  Eof ← prim XdrBool (READ3resok_Eof v);
  Data ← prim (XdrVarArray (-1)) (READ3resok_Data v);
  mret (mkREAD3resok File_attributes Count Eof Data).

Definition READ3resfail_Xdr (v : READ3resfail) : M XdrState READ3resfail :=
  File_attributes ← Post_op_attr_Xdr (READ3resfail_File_attributes v);
  mret (mkREAD3resfail File_attributes).

Definition READ3res_Xdr (v : READ3res) : M XdrState READ3res :=
  Status ← Nfsstat3_Xdr (READ3res_Status v);
  if bool_decide (Status = NFS3_OK) then
    Resok ← READ3resok_Xdr (READ3res_Resok v);
    mret (mkREAD3res Status Resok (READ3res_Resfail v))
  else
    Resfail ← READ3resfail_Xdr (READ3res_Resfail v);
    mret (mkREAD3res Status (READ3res_Resok v) Resfail).

Definition Stable_how_Xdr (v : Z) : M XdrState Z := prim XdrU32 v.

Definition WRITE3args_Xdr (v : WRITE3args) : M XdrState WRITE3args :=
  File ← Nfs_fh3_Xdr (WRITE3args_File v);
  Offset ← Offset3_Xdr (WRITE3args_Offset v);
  Count ← Count3_Xdr (WRITE3args_Count v);
  Stable ← Stable_how_Xdr (WRITE3args_Stable v);
  Data ← prim (XdrVarArray (-1)) (WRITE3args_Data v);
  mret (mkWRITE3args File Offset Count Stable Data).

Definition WRITE3resok_Xdr (v : WRITE3resok) : M XdrState WRITE3resok :=
  File_wcc ← Wcc_data_Xdr (WRITE3resok_File_wcc v);
  Count ← Count3_Xdr (WRITE3resok_Count v);
  Committed ← Stable_how_Xdr (WRITE3resok_Committed v);
  Verf ← Writeverf3_Xdr (WRITE3resok_Verf v);
  mret (mkWRITE3resok File_wcc Count Committed Verf).

Definition WRITE3resfail_Xdr (v : WRITE3resfail) : M XdrState WRITE3resfail :=
  File_wcc ← Wcc_data_Xdr (WRITE3resfail_File_wcc v);
  mret (mkWRITE3resfail File_wcc).

Definition WRITE3res_Xdr (v : WRITE3res) : M XdrState WRITE3res :=
  Status ← Nfsstat3_Xdr (WRITE3res_Status v);
  if bool_decide (Status = NFS3_OK) then
    Resok ← WRITE3resok_Xdr (WRITE3res_Resok v);
    mret (mkWRITE3res Status Resok (WRITE3res_Resfail v))
  else
    Resfail ← WRITE3resfail_Xdr (WRITE3res_Resfail v);
    mret (mkWRITE3res Status (WRITE3res_Resok v) Resfail).

Definition Createmode3_Xdr (v : Z) : M XdrState Z := prim XdrU32 v.

Definition Createhow3_Xdr (v : Createhow3) : M XdrState Createhow3 :=
  Mode ← Createmode3_Xdr (Createhow3_Mode v);
  if bool_decide (Mode = UNCHECKED \/ Mode = GUARDED) then
    Obj_attributes ← Sattr3_Xdr (Createhow3_Obj_attributes v);
    mret (mkCreatehow3 Mode Obj_attributes (Createhow3_Verf v))
  else
  if bool_decide (Mode = EXCLUSIVE) then
    Verf ← Createverf3_Xdr (Createhow3_Verf v);
    mret (mkCreatehow3 Mode (Createhow3_Obj_attributes v) Verf)
  else
    mret (mkCreatehow3 Mode (Createhow3_Obj_attributes v) (Createhow3_Verf v)).

Definition CREATE3args_Xdr (v : CREATE3args) : M XdrState CREATE3args :=
  Where ← Diropargs3_Xdr (CREATE3args_Where v);
  How ← Createhow3_Xdr (CREATE3args_How v);
  mret (mkCREATE3args Where How).

Definition CREATE3resok_Xdr (v : CREATE3resok) : M XdrState CREATE3resok :=
  Obj ← Post_op_fh3_Xdr (CREATE3resok_Obj v);
  Obj_attributes ← Post_op_attr_Xdr (CREATE3resok_Obj_attributes v);
  Dir_wcc ← Wcc_data_Xdr (CREATE3resok_Dir_wcc v);
  mret (mkCREATE3resok Obj Obj_attributes Dir_wcc).

Definition CREATE3resfail_Xdr (v : CREATE3resfail) : M XdrState CREATE3resfail :=
  Dir_wcc ← Wcc_data_Xdr (CREATE3resfail_Dir_wcc v);
  mret (mkCREATE3resfail Dir_wcc).

Definition CREATE3res_Xdr (v : CREATE3res) : M XdrState CREATE3res :=
  Status ← Nfsstat3_Xdr (CREATE3res_Status v);
  if bool_decide (Status = NFS3_OK) then
    Resok ← CREATE3resok_Xdr (CREATE3res_Resok v);
    mret (mkCREATE3res Status Resok (CREATE3res_Resfail v))
  else
    Resfail ← CREATE3resfail_Xdr (CREATE3res_Resfail v);
    mret (mkCREATE3res Status (CREATE3res_Resok v) Resfail).

Definition MKDIR3args_Xdr (v : MKDIR3args) : M XdrState MKDIR3args :=
  Where ← Diropargs3_Xdr (MKDIR3args_Where v);
  Attributes ← Sattr3_Xdr (MKDIR3args_Attributes v);
  mret (mkMKDIR3args Where Attributes).

Definition MKDIR3resok_Xdr (v : MKDIR3resok) : M XdrState MKDIR3resok :=
  Obj ← Post_op_fh3_Xdr (MKDIR3resok_Obj v);
  Obj_attributes ← Post_op_attr_Xdr (MKDIR3resok_Obj_attributes v);
  Dir_wcc ← Wcc_data_Xdr (MKDIR3resok_Dir_wcc v);
  mret (mkMKDIR3resok Obj Obj_attributes Dir_wcc).

Definition MKDIR3resfail_Xdr (v : MKDIR3resfail) : M XdrState MKDIR3resfail :=
  Dir_wcc ← Wcc_data_Xdr (MKDIR3resfail_Dir_wcc v);
  mret (mkMKDIR3resfail Dir_wcc).

Definition MKDIR3res_Xdr (v : MKDIR3res) : M XdrState MKDIR3res :=
  Status ← Nfsstat3_Xdr (MKDIR3res_Status v);
  if bool_decide (Status = NFS3_OK) then
    Resok ← MKDIR3resok_Xdr (MKDIR3res_Resok v);
    mret (mkMKDIR3res Status Resok (MKDIR3res_Resfail v))
  else
    Resfail ← MKDIR3resfail_Xdr (MKDIR3res_Resfail v);
    mret (mkMKDIR3res Status (MKDIR3res_Resok v) Resfail).

Definition Symlinkdata3_Xdr (v : Symlinkdata3) : M XdrState Symlinkdata3 :=
  Symlink_attributes ← Sattr3_Xdr (Symlinkdata3_Symlink_attributes v);
  Symlink_data ← Nfspath3_Xdr (Symlinkdata3_Symlink_data v);
  mret (mkSymlinkdata3 Symlink_attributes Symlink_data).

Definition SYMLINK3args_Xdr (v : SYMLINK3args) : M XdrState SYMLINK3args :=
  Where ← Diropargs3_Xdr (SYMLINK3args_Where v);
  Symlink ← Symlinkdata3_Xdr (SYMLINK3args_Symlink v);
  mret (mkSYMLINK3args Where Symlink).

Definition SYMLINK3resok_Xdr (v : SYMLINK3resok) : M XdrState SYMLINK3resok :=
  Obj ← Post_op_fh3_Xdr (SYMLINK3resok_Obj v);
  Obj_attributes ← Post_op_attr_Xdr (SYMLINK3resok_Obj_attributes v);
  Dir_wcc ← Wcc_data_Xdr (SYMLINK3resok_Dir_wcc v);
  mret (mkSYMLINK3resok Obj Obj_attributes Dir_wcc).

Definition SYMLINK3resfail_Xdr (v : SYMLINK3resfail) : M XdrState SYMLINK3resfail :=
  Dir_wcc ← Wcc_data_Xdr (SYMLINK3resfail_Dir_wcc v);
  mret (mkSYMLINK3resfail Dir_wcc).

Definition SYMLINK3res_Xdr (v : SYMLINK3res) : M XdrState SYMLINK3res :=
  Status ← Nfsstat3_Xdr (SYMLINK3res_Status v);
  if bool_decide (Status = NFS3_OK) then
    Resok ← SYMLINK3resok_Xdr (SYMLINK3res_Resok v);
    mret (mkSYMLINK3res Status Resok (SYMLINK3res_Resfail v))
  else
    Resfail ← SYMLINK3resfail_Xdr (SYMLINK3res_Resfail v);
    mret (mkSYMLINK3res Status (SYMLINK3res_Resok v) Resfail).

Definition Devicedata3_Xdr (v : Devicedata3) : M XdrState Devicedata3 :=
  Dev_attributes ← Sattr3_Xdr (Devicedata3_Dev_attributes v);
  Spec ← Specdata3_Xdr (Devicedata3_Spec v);
  mret (mkDevicedata3 Dev_attributes Spec).

Definition Mknoddata3_Xdr (v : Mknoddata3) : M XdrState Mknoddata3 :=
  Ftype ← Ftype3_Xdr (Mknoddata3_Ftype v);
  if bool_decide (Ftype = NF3CHR \/ Ftype = NF3BLK) then
    Device ← Devicedata3_Xdr (Mknoddata3_Device v);
    mret (mkMknoddata3 Ftype Device (Mknoddata3_Pipe_attributes v))
  else
  if bool_decide (Ftype = NF3SOCK \/ Ftype = NF3FIFO) then
    Pipe_attributes ← Sattr3_Xdr (Mknoddata3_Pipe_attributes v);
    mret (mkMknoddata3 Ftype (Mknoddata3_Device v) Pipe_attributes)
  else
    mret (mkMknoddata3 Ftype (Mknoddata3_Device v) (Mknoddata3_Pipe_attributes v)).

Definition MKNOD3args_Xdr (v : MKNOD3args) : M XdrState MKNOD3args :=
  Where ← Diropargs3_Xdr (MKNOD3args_Where v);
  What ← Mknoddata3_Xdr (MKNOD3args_What v);
  mret (mkMKNOD3args Where What).

Definition MKNOD3resok_Xdr (v : MKNOD3resok) : M XdrState MKNOD3resok :=
  Obj ← Post_op_fh3_Xdr (MKNOD3resok_Obj v);
  Obj_attributes ← Post_op_attr_Xdr (MKNOD3resok_Obj_attributes v);
  Dir_wcc ← Wcc_data_Xdr (MKNOD3resok_Dir_wcc v);
  mret (mkMKNOD3resok Obj Obj_attributes Dir_wcc).

Definition MKNOD3resfail_Xdr (v : MKNOD3resfail) : M XdrState MKNOD3resfail :=
  Dir_wcc ← Wcc_data_Xdr (MKNOD3resfail_Dir_wcc v);
  mret (mkMKNOD3resfail Dir_wcc).

Definition MKNOD3res_Xdr (v : MKNOD3res) : M XdrState MKNOD3res :=
  Status ← Nfsstat3_Xdr (MKNOD3res_Status v);
  if bool_decide (Status = NFS3_OK) then
    Resok ← MKNOD3resok_Xdr (MKNOD3res_Resok v);
    mret (mkMKNOD3res Status Resok (MKNOD3res_Resfail v))
  else
    Resfail ← MKNOD3resfail_Xdr (MKNOD3res_Resfail v);
    mret (mkMKNOD3res Status (MKNOD3res_Resok v) Resfail).

Definition REMOVE3args_Xdr (v : REMOVE3args) : M XdrState REMOVE3args :=
  Object ← Diropargs3_Xdr (REMOVE3args_Object v);
  mret (mkREMOVE3args Object).

Definition REMOVE3resok_Xdr (v : REMOVE3resok) : M XdrState REMOVE3resok :=
  Dir_wcc ← Wcc_data_Xdr (REMOVE3resok_Dir_wcc v);
  mret (mkREMOVE3resok Dir_wcc).

Definition REMOVE3resfail_Xdr (v : REMOVE3resfail) : M XdrState REMOVE3resfail :=
  Dir_wcc ← Wcc_data_Xdr (REMOVE3resfail_Dir_wcc v);
  mret (mkREMOVE3resfail Dir_wcc).

Definition REMOVE3res_Xdr (v : REMOVE3res) : M XdrState REMOVE3res :=
  Status ← Nfsstat3_Xdr (REMOVE3res_Status v);
  if bool_decide (Status = NFS3_OK) then
    Resok ← REMOVE3resok_Xdr (REMOVE3res_Resok v);
    mret (mkREMOVE3res Status Resok (REMOVE3res_Resfail v))
  else
    Resfail ← REMOVE3resfail_Xdr (REMOVE3res_Resfail v);
    mret (mkREMOVE3res Status (REMOVE3res_Resok v) Resfail).

Definition RMDIR3args_Xdr (v : RMDIR3args) : M XdrState RMDIR3args :=
  Object ← Diropargs3_Xdr (RMDIR3args_Object v);
  mret (mkRMDIR3args Object).

Definition RMDIR3resok_Xdr (v : RMDIR3resok) : M XdrState RMDIR3resok :=
  Dir_wcc ← Wcc_data_Xdr (RMDIR3resok_Dir_wcc v);
  mret (mkRMDIR3resok Dir_wcc).

Definition RMDIR3resfail_Xdr (v : RMDIR3resfail) : M XdrState RMDIR3resfail :=
  Dir_wcc ← Wcc_data_Xdr (RMDIR3resfail_Dir_wcc v);
  mret (mkRMDIR3resfail Dir_wcc).

Definition RMDIR3res_Xdr (v : RMDIR3res) : M XdrState RMDIR3res :=
  Status ← Nfsstat3_Xdr (RMDIR3res_Status v);
  if bool_decide (Status = NFS3_OK) then
    Resok ← RMDIR3resok_Xdr (RMDIR3res_Resok v);
    mret (mkRMDIR3res Status Resok (RMDIR3res_Resfail v))
  else
    Resfail ← RMDIR3resfail_Xdr (RMDIR3res_Resfail v);
    mret (mkRMDIR3res Status (RMDIR3res_Resok v) Resfail).

Definition RENAME3args_Xdr (v : RENAME3args) : M XdrState RENAME3args :=
  From ← Diropargs3_Xdr (RENAME3args_From v);
  To ← Diropargs3_Xdr (RENAME3args_To v);
  mret (mkRENAME3args From To).

Definition RENAME3resok_Xdr (v : RENAME3resok) : M XdrState RENAME3resok :=
  Fromdir_wcc ← Wcc_data_Xdr (RENAME3resok_Fromdir_wcc v);
  Todir_wcc ← Wcc_data_Xdr (RENAME3resok_Todir_wcc v);
  mret (mkRENAME3resok Fromdir_wcc Todir_wcc).

Definition RENAME3resfail_Xdr (v : RENAME3resfail) : M XdrState RENAME3resfail :=
  Fromdir_wcc ← Wcc_data_Xdr (RENAME3resfail_Fromdir_wcc v);
  Todir_wcc ← Wcc_data_Xdr (RENAME3resfail_Todir_wcc v);
  mret (mkRENAME3resfail Fromdir_wcc Todir_wcc).

Definition RENAME3res_Xdr (v : RENAME3res) : M XdrState RENAME3res :=
  Status ← Nfsstat3_Xdr (RENAME3res_Status v);
  if bool_decide (Status = NFS3_OK) then
    Resok ← RENAME3resok_Xdr (RENAME3res_Resok v);
    mret (mkRENAME3res Status Resok (RENAME3res_Resfail v))
  else
    Resfail ← RENAME3resfail_Xdr (RENAME3res_Resfail v);
    mret (mkRENAME3res Status (RENAME3res_Resok v) Resfail).

Definition LINK3args_Xdr (v : LINK3args) : M XdrState LINK3args :=
  File ← Nfs_fh3_Xdr (LINK3args_File v);
  Link ← Diropargs3_Xdr (LINK3args_Link v);
  mret (mkLINK3args File Link).

Definition LINK3resok_Xdr (v : LINK3resok) : M XdrState LINK3resok :=
  File_attributes ← Post_op_attr_Xdr (LINK3resok_File_attributes v);
  Linkdir_wcc ← Wcc_data_Xdr (LINK3resok_Linkdir_wcc v);
  mret (mkLINK3resok File_attributes Linkdir_wcc).

Definition LINK3resfail_Xdr (v : LINK3resfail) : M XdrState LINK3resfail :=
  File_attributes ← Post_op_attr_Xdr (LINK3resfail_File_attributes v);
  Linkdir_wcc ← Wcc_data_Xdr (LINK3resfail_Linkdir_wcc v);
  mret (mkLINK3resfail File_attributes Linkdir_wcc).

Definition LINK3res_Xdr (v : LINK3res) : M XdrState LINK3res :=
  Status ← Nfsstat3_Xdr (LINK3res_Status v);
  if bool_decide (Status = NFS3_OK) then
    Resok ← LINK3resok_Xdr (LINK3res_Resok v);
    mret (mkLINK3res Status Resok (LINK3res_Resfail v))
  else
    Resfail ← LINK3resfail_Xdr (LINK3res_Resfail v);
    mret (mkLINK3res Status (LINK3res_Resok v) Resfail).

Definition READDIR3args_Xdr (v : READDIR3args) : M XdrState READDIR3args :=
  Dir ← Nfs_fh3_Xdr (READDIR3args_Dir v);
  Cookie ← Cookie3_Xdr (READDIR3args_Cookie v);
  Cookieverf ← Cookieverf3_Xdr (READDIR3args_Cookieverf v);
  Count ← Count3_Xdr (READDIR3args_Count v);
  mret (mkREADDIR3args Dir Cookie Cookieverf Count).

#[export] Instance zero_Entry3 : Zero Entry3 := mkEntry3 zero zero zero zero.
Fixpoint Entry3_Xdr (n : nat) (v : Entry3) : M XdrState Entry3 :=
  match n with
  | O => nofuel
  | S n =>
      let '(mkEntry3 Fileid Name Cookie Nextentry) := v in
      Fileid ← Fileid3_Xdr Fileid;
      Name ← Filename3_Xdr Name;
      Cookie ← Cookie3_Xdr Cookie;
      Nextentry ← opted (Entry3_Xdr n) zero Nextentry;
      mret (mkEntry3 Fileid Name Cookie Nextentry)
  end.

Definition Dirlist3_Xdr (n : nat) (v : Dirlist3) : M XdrState Dirlist3 :=
  Entries ← opted (Entry3_Xdr n) zero (Dirlist3_Entries v);
  Eof ← prim XdrBool (Dirlist3_Eof v);
  mret (mkDirlist3 Entries Eof).

Definition READDIR3resok_Xdr (n : nat) (v : READDIR3resok) : M XdrState READDIR3resok :=
  Dir_attributes ← Post_op_attr_Xdr (READDIR3resok_Dir_attributes v);
  Cookieverf ← Cookieverf3_Xdr (READDIR3resok_Cookieverf v);
  Reply ← Dirlist3_Xdr n (READDIR3resok_Reply v);
  mret (mkREADDIR3resok Dir_attributes Cookieverf Reply).

Definition READDIR3resfail_Xdr (v : READDIR3resfail) : M XdrState READDIR3resfail :=
  Dir_attributes ← Post_op_attr_Xdr (READDIR3resfail_Dir_attributes v);
  mret (mkREADDIR3resfail Dir_attributes).

Definition READDIR3res_Xdr (n : nat) (v : READDIR3res) : M XdrState READDIR3res :=
  Status ← Nfsstat3_Xdr (READDIR3res_Status v);
  if bool_decide (Status = NFS3_OK) then
    Resok ← READDIR3resok_Xdr n (READDIR3res_Resok v);
    mret (mkREADDIR3res Status Resok (READDIR3res_Resfail v))
  else
    Resfail ← READDIR3resfail_Xdr (READDIR3res_Resfail v);
    mret (mkREADDIR3res Status (READDIR3res_Resok v) Resfail).

Definition READDIRPLUS3args_Xdr (v : READDIRPLUS3args) : M XdrState READDIRPLUS3args :=
  Dir ← Nfs_fh3_Xdr (READDIRPLUS3args_Dir v);
  Cookie ← Cookie3_Xdr (READDIRPLUS3args_Cookie v);
  Cookieverf ← Cookieverf3_Xdr (READDIRPLUS3args_Cookieverf v);
  Dircount ← Count3_Xdr (READDIRPLUS3args_Dircount v);
  Maxcount ← Count3_Xdr (READDIRPLUS3args_Maxcount v);
  mret (mkREADDIRPLUS3args Dir Cookie Cookieverf Dircount Maxcount).

#[export] Instance zero_Entryplus3 : Zero Entryplus3 := mkEntryplus3 zero zero zero zero zero zero.
Fixpoint Entryplus3_Xdr (n : nat) (v : Entryplus3) : M XdrState Entryplus3 :=
  match n with
  | O => nofuel
  | S n =>
      let '(mkEntryplus3 Fileid Name Cookie Name_attributes Name_handle Nextentry) := v in
      Fileid ← Fileid3_Xdr Fileid;
      Name ← Filename3_Xdr Name;
      Cookie ← Cookie3_Xdr Cookie;
      Name_attributes ← Post_op_attr_Xdr Name_attributes;
      Name_handle ← Post_op_fh3_Xdr Name_handle;
      Nextentry ← opted (Entryplus3_Xdr n) zero Nextentry;
      mret (mkEntryplus3 Fileid Name Cookie Name_attributes Name_handle Nextentry)
  end.

Definition Dirlistplus3_Xdr (n : nat) (v : Dirlistplus3) : M XdrState Dirlistplus3 :=
  Entries ← opted (Entryplus3_Xdr n) zero (Dirlistplus3_Entries v);
  Eof ← prim XdrBool (Dirlistplus3_Eof v);
  mret (mkDirlistplus3 Entries Eof).

Definition READDIRPLUS3resok_Xdr (n : nat) (v : READDIRPLUS3resok) : M XdrState READDIRPLUS3resok :=
  Dir_attributes ← Post_op_attr_Xdr (READDIRPLUS3resok_Dir_attributes v);
  Cookieverf ← Cookieverf3_Xdr (READDIRPLUS3resok_Cookieverf v);
  Reply ← Dirlistplus3_Xdr n (READDIRPLUS3resok_Reply v);
  mret (mkREADDIRPLUS3resok Dir_attributes Cookieverf Reply).

Definition READDIRPLUS3resfail_Xdr (v : READDIRPLUS3resfail) : M XdrState READDIRPLUS3resfail :=
  Dir_attributes ← Post_op_attr_Xdr (READDIRPLUS3resfail_Dir_attributes v);
  mret (mkREADDIRPLUS3resfail Dir_attributes).

Definition READDIRPLUS3res_Xdr (n : nat) (v : READDIRPLUS3res) : M XdrState READDIRPLUS3res :=
  Status ← Nfsstat3_Xdr (READDIRPLUS3res_Status v);
  if bool_decide (Status = NFS3_OK) then
    Resok ← READDIRPLUS3resok_Xdr n (READDIRPLUS3res_Resok v);
    mret (mkREADDIRPLUS3res Status Resok (READDIRPLUS3res_Resfail v))
  else
    Resfail ← READDIRPLUS3resfail_Xdr (READDIRPLUS3res_Resfail v);
    mret (mkREADDIRPLUS3res Status (READDIRPLUS3res_Resok v) Resfail).

Definition FSSTAT3args_Xdr (v : FSSTAT3args) : M XdrState FSSTAT3args :=
  Fsroot ← Nfs_fh3_Xdr (FSSTAT3args_Fsroot v);
  mret (mkFSSTAT3args Fsroot).

Definition FSSTAT3resok_Xdr (v : FSSTAT3resok) : M XdrState FSSTAT3resok :=
  Obj_attributes ← Post_op_attr_Xdr (FSSTAT3resok_Obj_attributes v);
  Tbytes ← Size3_Xdr (FSSTAT3resok_Tbytes v);
  Fbytes ← Size3_Xdr (FSSTAT3resok_Fbytes v);
  Abytes ← Size3_Xdr (FSSTAT3resok_Abytes v);
  Tfiles ← Size3_Xdr (FSSTAT3resok_Tfiles v);
  Ffiles ← Size3_Xdr (FSSTAT3resok_Ffiles v);
  Afiles ← Size3_Xdr (FSSTAT3resok_Afiles v);
  Invarsec ← Uint32_Xdr (FSSTAT3resok_Invarsec v);
  mret (mkFSSTAT3resok Obj_attributes Tbytes Fbytes Abytes Tfiles Ffiles Afiles Invarsec).

Definition FSSTAT3resfail_Xdr (v : FSSTAT3resfail) : M XdrState FSSTAT3resfail :=
  Obj_attributes ← Post_op_attr_Xdr (FSSTAT3resfail_Obj_attributes v);
  mret (mkFSSTAT3resfail Obj_attributes).

Definition FSSTAT3res_Xdr (v : FSSTAT3res) : M XdrState FSSTAT3res :=
  Status ← Nfsstat3_Xdr (FSSTAT3res_Status v);
  if bool_decide (Status = NFS3_OK) then
    Resok ← FSSTAT3resok_Xdr (FSSTAT3res_Resok v);
    mret (mkFSSTAT3res Status Resok (FSSTAT3res_Resfail v))
  else
    Resfail ← FSSTAT3resfail_Xdr (FSSTAT3res_Resfail v);
    mret (mkFSSTAT3res Status (FSSTAT3res_Resok v) Resfail).

Definition FSINFO3args_Xdr (v : FSINFO3args) : M XdrState FSINFO3args :=
  Fsroot ← Nfs_fh3_Xdr (FSINFO3args_Fsroot v);
  mret (mkFSINFO3args Fsroot).

Definition FSINFO3resok_Xdr (v : FSINFO3resok) : M XdrState FSINFO3resok :=
  Obj_attributes ← Post_op_attr_Xdr (FSINFO3resok_Obj_attributes v);
  Rtmax ← Uint32_Xdr (FSINFO3resok_Rtmax v);
  Rtpref ← Uint32_Xdr (FSINFO3resok_Rtpref v);
  Rtmult ← Uint32_Xdr (FSINFO3resok_Rtmult v);
  Wtmax ← Uint32_Xdr (FSINFO3resok_Wtmax v);
  Wtpref ← Uint32_Xdr (FSINFO3resok_Wtpref v);
  Wtmult ← Uint32_Xdr (FSINFO3resok_Wtmult v);
  Dtpref ← Uint32_Xdr (FSINFO3resok_Dtpref v);
  Maxfilesize ← Size3_Xdr (FSINFO3resok_Maxfilesize v);
  Time_delta ← Nfstime3_Xdr (FSINFO3resok_Time_delta v);
  Properties ← Uint32_Xdr (FSINFO3resok_Properties v);
  mret (mkFSINFO3resok Obj_attributes Rtmax Rtpref Rtmult Wtmax Wtpref Wtmult Dtpref Maxfilesize Time_delta Properties).

Definition FSINFO3resfail_Xdr (v : FSINFO3resfail) : M XdrState FSINFO3resfail :=
  Obj_attributes ← Post_op_attr_Xdr (FSINFO3resfail_Obj_attributes v);
  mret (mkFSINFO3resfail Obj_attributes).

Definition FSINFO3res_Xdr (v : FSINFO3res) : M XdrState FSINFO3res :=
  Status ← Nfsstat3_Xdr (FSINFO3res_Status v);
  if bool_decide (Status = NFS3_OK) then
    Resok ← FSINFO3resok_Xdr (FSINFO3res_Resok v);
    mret (mkFSINFO3res Status Resok (FSINFO3res_Resfail v))
  else
    Resfail ← FSINFO3resfail_Xdr (FSINFO3res_Resfail v);
    mret (mkFSINFO3res Status (FSINFO3res_Resok v) Resfail).

Definition PATHCONF3args_Xdr (v : PATHCONF3args) : M XdrState PATHCONF3args :=
  Object ← Nfs_fh3_Xdr (PATHCONF3args_Object v);
  mret (mkPATHCONF3args Object).

Definition PATHCONF3resok_Xdr (v : PATHCONF3resok) : M XdrState PATHCONF3resok :=
  Obj_attributes ← Post_op_attr_Xdr (PATHCONF3resok_Obj_attributes v);
  Linkmax ← Uint32_Xdr (PATHCONF3resok_Linkmax v);
  Name_max ← Uint32_Xdr (PATHCONF3resok_Name_max v);
  No_trunc ← prim XdrBool (PATHCONF3resok_No_trunc v);
  Chown_restricted ← prim XdrBool (PATHCONF3resok_Chown_restricted v);
  Case_insensitive ← prim XdrBool (PATHCONF3resok_Case_insensitive v);
  Case_preserving ← prim XdrBool (PATHCONF3resok_Case_preserving v);
  mret (mkPATHCONF3resok Obj_attributes Linkmax Name_max No_trunc Chown_restricted Case_insensitive Case_preserving).

Definition PATHCONF3resfail_Xdr (v : PATHCONF3resfail) : M XdrState PATHCONF3resfail :=
  Obj_attributes ← Post_op_attr_Xdr (PATHCONF3resfail_Obj_attributes v);
  mret (mkPATHCONF3resfail Obj_attributes).

Definition PATHCONF3res_Xdr (v : PATHCONF3res) : M XdrState PATHCONF3res :=
  Status ← Nfsstat3_Xdr (PATHCONF3res_Status v);
  if bool_decide (Status = NFS3_OK) then
    Resok ← PATHCONF3resok_Xdr (PATHCONF3res_Resok v);
    mret (mkPATHCONF3res Status Resok (PATHCONF3res_Resfail v))
  else
    Resfail ← PATHCONF3resfail_Xdr (PATHCONF3res_Resfail v);
    mret (mkPATHCONF3res Status (PATHCONF3res_Resok v) Resfail).

Definition COMMIT3args_Xdr (v : COMMIT3args) : M XdrState COMMIT3args :=
  File ← Nfs_fh3_Xdr (COMMIT3args_File v);
  Offset ← Offset3_Xdr (COMMIT3args_Offset v);
  Count ← Count3_Xdr (COMMIT3args_Count v);
  mret (mkCOMMIT3args File Offset Count).

Definition COMMIT3resok_Xdr (v : COMMIT3resok) : M XdrState COMMIT3resok :=
  File_wcc ← Wcc_data_Xdr (COMMIT3resok_File_wcc v);
  Verf ← Writeverf3_Xdr (COMMIT3resok_Verf v);
  mret (mkCOMMIT3resok File_wcc Verf).

Definition COMMIT3resfail_Xdr (v : COMMIT3resfail) : M XdrState COMMIT3resfail :=
  File_wcc ← Wcc_data_Xdr (COMMIT3resfail_File_wcc v);
  mret (mkCOMMIT3resfail File_wcc).

Definition COMMIT3res_Xdr (v : COMMIT3res) : M XdrState COMMIT3res :=
  Status ← Nfsstat3_Xdr (COMMIT3res_Status v);
  if bool_decide (Status = NFS3_OK) then
    Resok ← COMMIT3resok_Xdr (COMMIT3res_Resok v);
    mret (mkCOMMIT3res Status Resok (COMMIT3res_Resfail v))
  else
    Resfail ← COMMIT3resfail_Xdr (COMMIT3res_Resfail v);
    mret (mkCOMMIT3res Status (COMMIT3res_Resok v) Resfail).

Definition Fhandle3_Xdr (v : list Z) : M XdrState (list Z) := prim (XdrVarArray FHSIZE3) v.

Definition Dirpath3_Xdr (v : list Z) : M XdrState (list Z) := prim (XdrString MNTPATHLEN3) v.

Definition Name3_Xdr (v : list Z) : M XdrState (list Z) := prim (XdrString MNTNAMLEN3) v.

Definition Mountstat3_Xdr (v : Z) : M XdrState Z := prim XdrU32 v.

Definition Mountres3_ok_Xdr (v : Mountres3_ok) : M XdrState Mountres3_ok :=
  Fhandle ← Fhandle3_Xdr (Mountres3_ok_Fhandle v);
  Auth_flavors ← flavors_Xdr (Mountres3_ok_Auth_flavors v);
  mret (mkMountres3_ok Fhandle Auth_flavors).

Definition Mountres3_Xdr (v : Mountres3) : M XdrState Mountres3 :=
  Fhs_status ← Mountstat3_Xdr (Mountres3_Fhs_status v);
  if bool_decide (Fhs_status = MNT3_OK) then
    Mountinfo ← Mountres3_ok_Xdr (Mountres3_Mountinfo v);
    mret (mkMountres3 Fhs_status Mountinfo)
  else
    mret (mkMountres3 Fhs_status (Mountres3_Mountinfo v)).

#[export] Instance zero_Mount3 : Zero Mount3 := mkMount3 zero zero zero.
Fixpoint Mount3_Xdr (n : nat) (v : Mount3) : M XdrState Mount3 :=
  match n with
  | O => nofuel
  | S n =>
      let '(mkMount3 Ml_hostname Ml_directory Ml_next) := v in
      Ml_hostname ← Name3_Xdr Ml_hostname;
      Ml_directory ← Dirpath3_Xdr Ml_directory;
      Ml_next ← opted (Mount3_Xdr n) zero Ml_next;
      mret (mkMount3 Ml_hostname Ml_directory Ml_next)
  end.

Definition Mountopt3_Xdr (n : nat) (v : Mountopt3) : M XdrState Mountopt3 :=
  P ← opted (Mount3_Xdr n) zero (Mountopt3_P v);
  mret (mkMountopt3 P).

#[export] Instance zero_Groups3 : Zero Groups3 := mkGroups3 zero zero.
Fixpoint Groups3_Xdr (n : nat) (v : Groups3) : M XdrState Groups3 :=
  match n with
  | O => nofuel
  | S n =>
      let '(mkGroups3 Gr_name Gr_next) := v in
      Gr_name ← Name3_Xdr Gr_name;
      Gr_next ← opted (Groups3_Xdr n) zero Gr_next;
      mret (mkGroups3 Gr_name Gr_next)
  end.

#[export] Instance zero_Exports3 : Zero Exports3 := mkExports3 zero zero zero.
Fixpoint Exports3_Xdr (n : nat) (v : Exports3) : M XdrState Exports3 :=
  match n with
  | O => nofuel
  | S n =>
      let '(mkExports3 Ex_dir Ex_groups Ex_next) := v in
      Ex_dir ← Dirpath3_Xdr Ex_dir;
      Ex_groups ← opted (Groups3_Xdr n) zero Ex_groups;
      Ex_next ← opted (Exports3_Xdr n) zero Ex_next;
      mret (mkExports3 Ex_dir Ex_groups Ex_next)
  end.

Definition Exportsopt3_Xdr (n : nat) (v : Exportsopt3) : M XdrState Exportsopt3 :=
  P ← opted (Exports3_Xdr n) zero (Exportsopt3_P v);
  mret (mkExportsopt3 P).
End xdr.
