(* ===== verification/XdrRt.v ===== *)
(** Round trips of the encoders of [Xdr]: what a type's method writes, it reads
    back.  [T_wf] says which values can be written: integers of their width,
    strings within their limit, and nothing in an arm of a union that is not
    selected, because it is not written. *)
From S2P Require Import Prelude Nfstypes XdrLib Xdr.

(** ** Values that can be written *)

Definition flavors_wf (l : list Z) : Prop := len l < 2 ^ 32 /\ Forall is_u32 l.


Definition Uint64_wf (v : Z) : Prop := is_u64 v.

Definition Uint32_wf (v : Z) : Prop := is_u32 v.

Definition Filename3_wf (v : list Z) : Prop := fits (-1) v.

Definition Nfspath3_wf (v : list Z) : Prop := fits (-1) v.

Definition Fileid3_wf (v : Z) : Prop := Uint64_wf v.

Definition Cookie3_wf (v : Z) : Prop := Uint64_wf v.

Definition Cookieverf3_wf (v : Cookieverf3) : Prop := length v = length (zero : Cookieverf3).

Definition Createverf3_wf (v : Createverf3) : Prop := length v = length (zero : Createverf3).

Definition Writeverf3_wf (v : Writeverf3) : Prop := length v = length (zero : Writeverf3).

Definition Uid3_wf (v : Z) : Prop := Uint32_wf v.

Definition Gid3_wf (v : Z) : Prop := Uint32_wf v.

Definition Size3_wf (v : Z) : Prop := Uint64_wf v.

Definition Offset3_wf (v : Z) : Prop := Uint64_wf v.

Definition Mode3_wf (v : Z) : Prop := Uint32_wf v.

Definition Count3_wf (v : Z) : Prop := Uint32_wf v.

Definition Nfsstat3_wf (v : Z) : Prop := is_u32 v.

Definition Ftype3_wf (v : Z) : Prop := is_u32 v.

Definition Specdata3_wf (v : Specdata3) : Prop :=
  Uint32_wf (Specdata3_Specdata1 v) /\
  Uint32_wf (Specdata3_Specdata2 v).

Definition Nfs_fh3_wf (v : Nfs_fh3) : Prop :=
  fits NFS3_FHSIZE (Nfs_fh3_Data v).

Definition Nfstime3_wf (v : Nfstime3) : Prop :=
  Uint32_wf (Nfstime3_Seconds v) /\
  Uint32_wf (Nfstime3_Nseconds v).

Definition Fattr3_wf (v : Fattr3) : Prop :=
  Ftype3_wf (Fattr3_Ftype v) /\
  Mode3_wf (Fattr3_Mode v) /\
  Uint32_wf (Fattr3_Nlink v) /\
  Uid3_wf (Fattr3_Uid v) /\
  Gid3_wf (Fattr3_Gid v) /\
  Size3_wf (Fattr3_Size v) /\
  Size3_wf (Fattr3_Used v) /\
  Specdata3_wf (Fattr3_Rdev v) /\
  Uint64_wf (Fattr3_Fsid v) /\
  Fileid3_wf (Fattr3_Fileid v) /\
  Nfstime3_wf (Fattr3_Atime v) /\
  Nfstime3_wf (Fattr3_Mtime v) /\
  Nfstime3_wf (Fattr3_Ctime v).

Definition Post_op_attr_wf (v : Post_op_attr) : Prop :=
  (if (Post_op_attr_Attributes_follow v) then (Fattr3_wf (Post_op_attr_Attributes v))
    else ((Post_op_attr_Attributes v) = zero)).

Definition Wcc_attr_wf (v : Wcc_attr) : Prop :=
  Size3_wf (Wcc_attr_Size v) /\
  Nfstime3_wf (Wcc_attr_Mtime v) /\
  Nfstime3_wf (Wcc_attr_Ctime v).

Definition Pre_op_attr_wf (v : Pre_op_attr) : Prop :=
  (if (Pre_op_attr_Attributes_follow v) then (Wcc_attr_wf (Pre_op_attr_Attributes v))
    else ((Pre_op_attr_Attributes v) = zero)).

Definition Wcc_data_wf (v : Wcc_data) : Prop :=
  Pre_op_attr_wf (Wcc_data_Before v) /\
  Post_op_attr_wf (Wcc_data_After v).

Definition Post_op_fh3_wf (v : Post_op_fh3) : Prop :=
  (if (Post_op_fh3_Handle_follows v) then (Nfs_fh3_wf (Post_op_fh3_Handle v))
    else ((Post_op_fh3_Handle v) = zero)).

Definition Time_how_wf (v : Z) : Prop := is_u32 v.

Definition Set_mode3_wf (v : Set_mode3) : Prop :=
  (if (Set_mode3_Set_it v) then (Mode3_wf (Set_mode3_Mode v))
    else ((Set_mode3_Mode v) = zero)).

Definition Set_uid3_wf (v : Set_uid3) : Prop :=
  (if (Set_uid3_Set_it v) then (Uid3_wf (Set_uid3_Uid v))
    else ((Set_uid3_Uid v) = zero)).

Definition Set_gid3_wf (v : Set_gid3) : Prop :=
  (if (Set_gid3_Set_it v) then (Gid3_wf (Set_gid3_Gid v))
    else ((Set_gid3_Gid v) = zero)).

Definition Set_size3_wf (v : Set_size3) : Prop :=
  (if (Set_size3_Set_it v) then (Size3_wf (Set_size3_Size v))
    else ((Set_size3_Size v) = zero)).

Definition Set_atime_wf (v : Set_atime) : Prop :=
  Time_how_wf (Set_atime_Set_it v) /\
  (if bool_decide ((Set_atime_Set_it v) = SET_TO_CLIENT_TIME) then (Nfstime3_wf (Set_atime_Atime v))
    else ((Set_atime_Atime v) = zero)).

Definition Set_mtime_wf (v : Set_mtime) : Prop :=
  Time_how_wf (Set_mtime_Set_it v) /\
  (if bool_decide ((Set_mtime_Set_it v) = SET_TO_CLIENT_TIME) then (Nfstime3_wf (Set_mtime_Mtime v))
    else ((Set_mtime_Mtime v) = zero)).

Definition Sattr3_wf (v : Sattr3) : Prop :=
  Set_mode3_wf (Sattr3_Mode v) /\
  Set_uid3_wf (Sattr3_Uid v) /\
  Set_gid3_wf (Sattr3_Gid v) /\
  Set_size3_wf (Sattr3_Size v) /\
  Set_atime_wf (Sattr3_Atime v) /\
  Set_mtime_wf (Sattr3_Mtime v).

Definition Diropargs3_wf (v : Diropargs3) : Prop :=
  Nfs_fh3_wf (Diropargs3_Dir v) /\
  Filename3_wf (Diropargs3_Name v).

Definition GETATTR3args_wf (v : GETATTR3args) : Prop :=
  Nfs_fh3_wf (GETATTR3args_Object v).

Definition GETATTR3resok_wf (v : GETATTR3resok) : Prop :=
  Fattr3_wf (GETATTR3resok_Obj_attributes v).

Definition GETATTR3res_wf (v : GETATTR3res) : Prop :=
  Nfsstat3_wf (GETATTR3res_Status v) /\
  (if bool_decide ((GETATTR3res_Status v) = NFS3_OK) then (GETATTR3resok_wf (GETATTR3res_Resok v))
    else ((GETATTR3res_Resok v) = zero)).

Definition Sattrguard3_wf (v : Sattrguard3) : Prop :=
  (if (Sattrguard3_Check v) then (Nfstime3_wf (Sattrguard3_Obj_ctime v))
    else ((Sattrguard3_Obj_ctime v) = zero)).

Definition SETATTR3args_wf (v : SETATTR3args) : Prop :=
  Nfs_fh3_wf (SETATTR3args_Object v) /\
  Sattr3_wf (SETATTR3args_New_attributes v) /\
  Sattrguard3_wf (SETATTR3args_Guard v).

Definition SETATTR3resok_wf (v : SETATTR3resok) : Prop :=
  Wcc_data_wf (SETATTR3resok_Obj_wcc v).

Definition SETATTR3resfail_wf (v : SETATTR3resfail) : Prop :=
  Wcc_data_wf (SETATTR3resfail_Obj_wcc v).

Definition SETATTR3res_wf (v : SETATTR3res) : Prop :=
  Nfsstat3_wf (SETATTR3res_Status v) /\
  (if bool_decide ((SETATTR3res_Status v) = NFS3_OK) then (SETATTR3resok_wf (SETATTR3res_Resok v) /\ (SETATTR3res_Resfail v) = zero)
    else (SETATTR3resfail_wf (SETATTR3res_Resfail v) /\ (SETATTR3res_Resok v) = zero)).

Definition LOOKUP3args_wf (v : LOOKUP3args) : Prop :=
  Diropargs3_wf (LOOKUP3args_What v).

Definition LOOKUP3resok_wf (v : LOOKUP3resok) : Prop :=
  Nfs_fh3_wf (LOOKUP3resok_Object v) /\
  Post_op_attr_wf (LOOKUP3resok_Obj_attributes v) /\
  Post_op_attr_wf (LOOKUP3resok_Dir_attributes v).

Definition LOOKUP3resfail_wf (v : LOOKUP3resfail) : Prop :=
  Post_op_attr_wf (LOOKUP3resfail_Dir_attributes v).

Definition LOOKUP3res_wf (v : LOOKUP3res) : Prop :=
  Nfsstat3_wf (LOOKUP3res_Status v) /\
  (if bool_decide ((LOOKUP3res_Status v) = NFS3_OK) then (LOOKUP3resok_wf (LOOKUP3res_Resok v) /\ (LOOKUP3res_Resfail v) = zero)
    else (LOOKUP3resfail_wf (LOOKUP3res_Resfail v) /\ (LOOKUP3res_Resok v) = zero)).

Definition ACCESS3args_wf (v : ACCESS3args) : Prop :=
  Nfs_fh3_wf (ACCESS3args_Object v) /\
  Uint32_wf (ACCESS3args_Access v).

Definition ACCESS3resok_wf (v : ACCESS3resok) : Prop :=
  Post_op_attr_wf (ACCESS3resok_Obj_attributes v) /\
  Uint32_wf (ACCESS3resok_Access v).

Definition ACCESS3resfail_wf (v : ACCESS3resfail) : Prop :=
  Post_op_attr_wf (ACCESS3resfail_Obj_attributes v).

Definition ACCESS3res_wf (v : ACCESS3res) : Prop :=
  Nfsstat3_wf (ACCESS3res_Status v) /\
  (if bool_decide ((ACCESS3res_Status v) = NFS3_OK) then (ACCESS3resok_wf (ACCESS3res_Resok v) /\ (ACCESS3res_Resfail v) = zero)
    else (ACCESS3resfail_wf (ACCESS3res_Resfail v) /\ (ACCESS3res_Resok v) = zero)).

Definition READLINK3args_wf (v : READLINK3args) : Prop :=
  Nfs_fh3_wf (READLINK3args_Symlink v).

Definition READLINK3resok_wf (v : READLINK3resok) : Prop :=
  Post_op_attr_wf (READLINK3resok_Symlink_attributes v) /\
  Nfspath3_wf (READLINK3resok_Data v).

Definition READLINK3resfail_wf (v : READLINK3resfail) : Prop :=
  Post_op_attr_wf (READLINK3resfail_Symlink_attributes v).

Definition READLINK3res_wf (v : READLINK3res) : Prop :=
  Nfsstat3_wf (READLINK3res_Status v) /\
  (if bool_decide ((READLINK3res_Status v) = NFS3_OK) then (READLINK3resok_wf (READLINK3res_Resok v) /\ (READLINK3res_Resfail v) = zero)
    else (READLINK3resfail_wf (READLINK3res_Resfail v) /\ (READLINK3res_Resok v) = zero)).

Definition READ3args_wf (v : READ3args) : Prop :=
  Nfs_fh3_wf (READ3args_File v) /\
  Offset3_wf (READ3args_Offset v) /\
  Count3_wf (READ3args_Count v).

Definition READ3resok_wf (v : READ3resok) : Prop :=
  Post_op_attr_wf (READ3resok_File_attributes v) /\
  Count3_wf (READ3resok_Count v) /\
  fits (-1) (READ3resok_Data v).

Definition READ3resfail_wf (v : READ3resfail) : Prop :=
  Post_op_attr_wf (READ3resfail_File_attributes v).

Definition READ3res_wf (v : READ3res) : Prop :=
  Nfsstat3_wf (READ3res_Status v) /\
  (if bool_decide ((READ3res_Status v) = NFS3_OK) then (READ3resok_wf (READ3res_Resok v) /\ (READ3res_Resfail v) = zero)
    else (READ3resfail_wf (READ3res_Resfail v) /\ (READ3res_Resok v) = zero)).

Definition Stable_how_wf (v : Z) : Prop := is_u32 v.

Definition WRITE3args_wf (v : WRITE3args) : Prop :=
  Nfs_fh3_wf (WRITE3args_File v) /\
  Offset3_wf (WRITE3args_Offset v) /\
  Count3_wf (WRITE3args_Count v) /\
  Stable_how_wf (WRITE3args_Stable v) /\
  fits (-1) (WRITE3args_Data v).

Definition WRITE3resok_wf (v : WRITE3resok) : Prop :=
  Wcc_data_wf (WRITE3resok_File_wcc v) /\
  Count3_wf (WRITE3resok_Count v) /\
  Stable_how_wf (WRITE3resok_Committed v) /\
  Writeverf3_wf (WRITE3resok_Verf v).

Definition WRITE3resfail_wf (v : WRITE3resfail) : Prop :=
  Wcc_data_wf (WRITE3resfail_File_wcc v).

Definition WRITE3res_wf (v : WRITE3res) : Prop :=
  Nfsstat3_wf (WRITE3res_Status v) /\
  (if bool_decide ((WRITE3res_Status v) = NFS3_OK) then (WRITE3resok_wf (WRITE3res_Resok v) /\ (WRITE3res_Resfail v) = zero)
    else (WRITE3resfail_wf (WRITE3res_Resfail v) /\ (WRITE3res_Resok v) = zero)).

Definition Createmode3_wf (v : Z) : Prop := is_u32 v.

Definition Createhow3_wf (v : Createhow3) : Prop :=
  Createmode3_wf (Createhow3_Mode v) /\
  (if bool_decide ((Createhow3_Mode v) = UNCHECKED \/ (Createhow3_Mode v) = GUARDED) then (Sattr3_wf (Createhow3_Obj_attributes v) /\ (Createhow3_Verf v) = zero)
    else if bool_decide ((Createhow3_Mode v) = EXCLUSIVE) then (Createverf3_wf (Createhow3_Verf v) /\ (Createhow3_Obj_attributes v) = zero)
    else ((Createhow3_Obj_attributes v) = zero /\ (Createhow3_Verf v) = zero)).

Definition CREATE3args_wf (v : CREATE3args) : Prop :=
  Diropargs3_wf (CREATE3args_Where v) /\
  Createhow3_wf (CREATE3args_How v).

Definition CREATE3resok_wf (v : CREATE3resok) : Prop :=
  Post_op_fh3_wf (CREATE3resok_Obj v) /\
  Post_op_attr_wf (CREATE3resok_Obj_attributes v) /\
  Wcc_data_wf (CREATE3resok_Dir_wcc v).

Definition CREATE3resfail_wf (v : CREATE3resfail) : Prop :=
  Wcc_data_wf (CREATE3resfail_Dir_wcc v).

Definition CREATE3res_wf (v : CREATE3res) : Prop :=
  Nfsstat3_wf (CREATE3res_Status v) /\
  (if bool_decide ((CREATE3res_Status v) = NFS3_OK) then (CREATE3resok_wf (CREATE3res_Resok v) /\ (CREATE3res_Resfail v) = zero)
    else (CREATE3resfail_wf (CREATE3res_Resfail v) /\ (CREATE3res_Resok v) = zero)).

Definition MKDIR3args_wf (v : MKDIR3args) : Prop :=
  Diropargs3_wf (MKDIR3args_Where v) /\
  Sattr3_wf (MKDIR3args_Attributes v).

Definition MKDIR3resok_wf (v : MKDIR3resok) : Prop :=
  Post_op_fh3_wf (MKDIR3resok_Obj v) /\
  Post_op_attr_wf (MKDIR3resok_Obj_attributes v) /\
  Wcc_data_wf (MKDIR3resok_Dir_wcc v).

Definition MKDIR3resfail_wf (v : MKDIR3resfail) : Prop :=
  Wcc_data_wf (MKDIR3resfail_Dir_wcc v).

Definition MKDIR3res_wf (v : MKDIR3res) : Prop :=
  Nfsstat3_wf (MKDIR3res_Status v) /\
  (if bool_decide ((MKDIR3res_Status v) = NFS3_OK) then (MKDIR3resok_wf (MKDIR3res_Resok v) /\ (MKDIR3res_Resfail v) = zero)
    else (MKDIR3resfail_wf (MKDIR3res_Resfail v) /\ (MKDIR3res_Resok v) = zero)).

Definition Symlinkdata3_wf (v : Symlinkdata3) : Prop :=
  Sattr3_wf (Symlinkdata3_Symlink_attributes v) /\
  Nfspath3_wf (Symlinkdata3_Symlink_data v).

Definition SYMLINK3args_wf (v : SYMLINK3args) : Prop :=
  Diropargs3_wf (SYMLINK3args_Where v) /\
  Symlinkdata3_wf (SYMLINK3args_Symlink v).

Definition SYMLINK3resok_wf (v : SYMLINK3resok) : Prop :=
  Post_op_fh3_wf (SYMLINK3resok_Obj v) /\
  Post_op_attr_wf (SYMLINK3resok_Obj_attributes v) /\
  Wcc_data_wf (SYMLINK3resok_Dir_wcc v).

Definition SYMLINK3resfail_wf (v : SYMLINK3resfail) : Prop :=
  Wcc_data_wf (SYMLINK3resfail_Dir_wcc v).

Definition SYMLINK3res_wf (v : SYMLINK3res) : Prop :=
  Nfsstat3_wf (SYMLINK3res_Status v) /\
  (if bool_decide ((SYMLINK3res_Status v) = NFS3_OK) then (SYMLINK3resok_wf (SYMLINK3res_Resok v) /\ (SYMLINK3res_Resfail v) = zero)
    else (SYMLINK3resfail_wf (SYMLINK3res_Resfail v) /\ (SYMLINK3res_Resok v) = zero)).

Definition Devicedata3_wf (v : Devicedata3) : Prop :=
  Sattr3_wf (Devicedata3_Dev_attributes v) /\
  Specdata3_wf (Devicedata3_Spec v).

Definition Mknoddata3_wf (v : Mknoddata3) : Prop :=
  Ftype3_wf (Mknoddata3_Ftype v) /\
  (if bool_decide ((Mknoddata3_Ftype v) = NF3CHR \/ (Mknoddata3_Ftype v) = NF3BLK) then (Devicedata3_wf (Mknoddata3_Device v) /\ (Mknoddata3_Pipe_attributes v) = zero)
    else if bool_decide ((Mknoddata3_Ftype v) = NF3SOCK \/ (Mknoddata3_Ftype v) = NF3FIFO) then (Sattr3_wf (Mknoddata3_Pipe_attributes v) /\ (Mknoddata3_Device v) = zero)
    else ((Mknoddata3_Device v) = zero /\ (Mknoddata3_Pipe_attributes v) = zero)).

Definition MKNOD3args_wf (v : MKNOD3args) : Prop :=
  Diropargs3_wf (MKNOD3args_Where v) /\
  Mknoddata3_wf (MKNOD3args_What v).

Definition MKNOD3resok_wf (v : MKNOD3resok) : Prop :=
  Post_op_fh3_wf (MKNOD3resok_Obj v) /\
  Post_op_attr_wf (MKNOD3resok_Obj_attributes v) /\
  Wcc_data_wf (MKNOD3resok_Dir_wcc v).

Definition MKNOD3resfail_wf (v : MKNOD3resfail) : Prop :=
  Wcc_data_wf (MKNOD3resfail_Dir_wcc v).

Definition MKNOD3res_wf (v : MKNOD3res) : Prop :=
  Nfsstat3_wf (MKNOD3res_Status v) /\
  (if bool_decide ((MKNOD3res_Status v) = NFS3_OK) then (MKNOD3resok_wf (MKNOD3res_Resok v) /\ (MKNOD3res_Resfail v) = zero)
    else (MKNOD3resfail_wf (MKNOD3res_Resfail v) /\ (MKNOD3res_Resok v) = zero)).

Definition REMOVE3args_wf (v : REMOVE3args) : Prop :=
  Diropargs3_wf (REMOVE3args_Object v).

Definition REMOVE3resok_wf (v : REMOVE3resok) : Prop :=
  Wcc_data_wf (REMOVE3resok_Dir_wcc v).

Definition REMOVE3resfail_wf (v : REMOVE3resfail) : Prop :=
  Wcc_data_wf (REMOVE3resfail_Dir_wcc v).

Definition REMOVE3res_wf (v : REMOVE3res) : Prop :=
  Nfsstat3_wf (REMOVE3res_Status v) /\
  (if bool_decide ((REMOVE3res_Status v) = NFS3_OK) then (REMOVE3resok_wf (REMOVE3res_Resok v) /\ (REMOVE3res_Resfail v) = zero)
    else (REMOVE3resfail_wf (REMOVE3res_Resfail v) /\ (REMOVE3res_Resok v) = zero)).

Definition RMDIR3args_wf (v : RMDIR3args) : Prop :=
  Diropargs3_wf (RMDIR3args_Object v).

Definition RMDIR3resok_wf (v : RMDIR3resok) : Prop :=
  Wcc_data_wf (RMDIR3resok_Dir_wcc v).

Definition RMDIR3resfail_wf (v : RMDIR3resfail) : Prop :=
  Wcc_data_wf (RMDIR3resfail_Dir_wcc v).

Definition RMDIR3res_wf (v : RMDIR3res) : Prop :=
  Nfsstat3_wf (RMDIR3res_Status v) /\
  (if bool_decide ((RMDIR3res_Status v) = NFS3_OK) then (RMDIR3resok_wf (RMDIR3res_Resok v) /\ (RMDIR3res_Resfail v) = zero)
    else (RMDIR3resfail_wf (RMDIR3res_Resfail v) /\ (RMDIR3res_Resok v) = zero)).

Definition RENAME3args_wf (v : RENAME3args) : Prop :=
  Diropargs3_wf (RENAME3args_From v) /\
  Diropargs3_wf (RENAME3args_To v).

Definition RENAME3resok_wf (v : RENAME3resok) : Prop :=
  Wcc_data_wf (RENAME3resok_Fromdir_wcc v) /\
  Wcc_data_wf (RENAME3resok_Todir_wcc v).

Definition RENAME3resfail_wf (v : RENAME3resfail) : Prop :=
  Wcc_data_wf (RENAME3resfail_Fromdir_wcc v) /\
  Wcc_data_wf (RENAME3resfail_Todir_wcc v).

Definition RENAME3res_wf (v : RENAME3res) : Prop :=
  Nfsstat3_wf (RENAME3res_Status v) /\
  (if bool_decide ((RENAME3res_Status v) = NFS3_OK) then (RENAME3resok_wf (RENAME3res_Resok v) /\ (RENAME3res_Resfail v) = zero)
    else (RENAME3resfail_wf (RENAME3res_Resfail v) /\ (RENAME3res_Resok v) = zero)).

Definition LINK3args_wf (v : LINK3args) : Prop :=
  Nfs_fh3_wf (LINK3args_File v) /\
  Diropargs3_wf (LINK3args_Link v).

Definition LINK3resok_wf (v : LINK3resok) : Prop :=
  Post_op_attr_wf (LINK3resok_File_attributes v) /\
  Wcc_data_wf (LINK3resok_Linkdir_wcc v).

Definition LINK3resfail_wf (v : LINK3resfail) : Prop :=
  Post_op_attr_wf (LINK3resfail_File_attributes v) /\
  Wcc_data_wf (LINK3resfail_Linkdir_wcc v).

Definition LINK3res_wf (v : LINK3res) : Prop :=
  Nfsstat3_wf (LINK3res_Status v) /\
  (if bool_decide ((LINK3res_Status v) = NFS3_OK) then (LINK3resok_wf (LINK3res_Resok v) /\ (LINK3res_Resfail v) = zero)
    else (LINK3resfail_wf (LINK3res_Resfail v) /\ (LINK3res_Resok v) = zero)).

Definition READDIR3args_wf (v : READDIR3args) : Prop :=
  Nfs_fh3_wf (READDIR3args_Dir v) /\
  Cookie3_wf (READDIR3args_Cookie v) /\
  Cookieverf3_wf (READDIR3args_Cookieverf v) /\
  Count3_wf (READDIR3args_Count v).

Fixpoint Entry3_wf (v : Entry3) : Prop :=
  let '(mkEntry3 Fileid Name Cookie Nextentry) := v in
  Fileid3_wf Fileid /\
  Filename3_wf Name /\
  Cookie3_wf Cookie /\
  match Nextentry with Some p => Entry3_wf p | None => True end.

Definition Dirlist3_wf (v : Dirlist3) : Prop :=
  from_option Entry3_wf True (Dirlist3_Entries v).

Definition READDIR3resok_wf (v : READDIR3resok) : Prop :=
  Post_op_attr_wf (READDIR3resok_Dir_attributes v) /\
  Cookieverf3_wf (READDIR3resok_Cookieverf v) /\
  Dirlist3_wf (READDIR3resok_Reply v).

Definition READDIR3resfail_wf (v : READDIR3resfail) : Prop :=
  Post_op_attr_wf (READDIR3resfail_Dir_attributes v).

Definition READDIR3res_wf (v : READDIR3res) : Prop :=
  Nfsstat3_wf (READDIR3res_Status v) /\
  (if bool_decide ((READDIR3res_Status v) = NFS3_OK) then (READDIR3resok_wf (READDIR3res_Resok v) /\ (READDIR3res_Resfail v) = zero)
    else (READDIR3resfail_wf (READDIR3res_Resfail v) /\ (READDIR3res_Resok v) = zero)).

Definition READDIRPLUS3args_wf (v : READDIRPLUS3args) : Prop :=
  Nfs_fh3_wf (READDIRPLUS3args_Dir v) /\
  Cookie3_wf (READDIRPLUS3args_Cookie v) /\
  Cookieverf3_wf (READDIRPLUS3args_Cookieverf v) /\
  Count3_wf (READDIRPLUS3args_Dircount v) /\
  Count3_wf (READDIRPLUS3args_Maxcount v).

Fixpoint Entryplus3_wf (v : Entryplus3) : Prop :=
  let '(mkEntryplus3 Fileid Name Cookie Name_attributes Name_handle Nextentry) := v in
  Fileid3_wf Fileid /\
  Filename3_wf Name /\
  Cookie3_wf Cookie /\
  Post_op_attr_wf Name_attributes /\
  Post_op_fh3_wf Name_handle /\
  match Nextentry with Some p => Entryplus3_wf p | None => True end.

Definition Dirlistplus3_wf (v : Dirlistplus3) : Prop :=
  from_option Entryplus3_wf True (Dirlistplus3_Entries v).

Definition READDIRPLUS3resok_wf (v : READDIRPLUS3resok) : Prop :=
  Post_op_attr_wf (READDIRPLUS3resok_Dir_attributes v) /\
  Cookieverf3_wf (READDIRPLUS3resok_Cookieverf v) /\
  Dirlistplus3_wf (READDIRPLUS3resok_Reply v).

Definition READDIRPLUS3resfail_wf (v : READDIRPLUS3resfail) : Prop :=
  Post_op_attr_wf (READDIRPLUS3resfail_Dir_attributes v).

Definition READDIRPLUS3res_wf (v : READDIRPLUS3res) : Prop :=
  Nfsstat3_wf (READDIRPLUS3res_Status v) /\
  (if bool_decide ((READDIRPLUS3res_Status v) = NFS3_OK) then (READDIRPLUS3resok_wf (READDIRPLUS3res_Resok v) /\ (READDIRPLUS3res_Resfail v) = zero)
    else (READDIRPLUS3resfail_wf (READDIRPLUS3res_Resfail v) /\ (READDIRPLUS3res_Resok v) = zero)).

Definition FSSTAT3args_wf (v : FSSTAT3args) : Prop :=
  Nfs_fh3_wf (FSSTAT3args_Fsroot v).

Definition FSSTAT3resok_wf (v : FSSTAT3resok) : Prop :=
  Post_op_attr_wf (FSSTAT3resok_Obj_attributes v) /\
  Size3_wf (FSSTAT3resok_Tbytes v) /\
  Size3_wf (FSSTAT3resok_Fbytes v) /\
  Size3_wf (FSSTAT3resok_Abytes v) /\
  Size3_wf (FSSTAT3resok_Tfiles v) /\
  Size3_wf (FSSTAT3resok_Ffiles v) /\
  Size3_wf (FSSTAT3resok_Afiles v) /\
  Uint32_wf (FSSTAT3resok_Invarsec v).

Definition FSSTAT3resfail_wf (v : FSSTAT3resfail) : Prop :=
  Post_op_attr_wf (FSSTAT3resfail_Obj_attributes v).

Definition FSSTAT3res_wf (v : FSSTAT3res) : Prop :=
  Nfsstat3_wf (FSSTAT3res_Status v) /\
  (if bool_decide ((FSSTAT3res_Status v) = NFS3_OK) then (FSSTAT3resok_wf (FSSTAT3res_Resok v) /\ (FSSTAT3res_Resfail v) = zero)
    else (FSSTAT3resfail_wf (FSSTAT3res_Resfail v) /\ (FSSTAT3res_Resok v) = zero)).

Definition FSINFO3args_wf (v : FSINFO3args) : Prop :=
  Nfs_fh3_wf (FSINFO3args_Fsroot v).

Definition FSINFO3resok_wf (v : FSINFO3resok) : Prop :=
  Post_op_attr_wf (FSINFO3resok_Obj_attributes v) /\
  Uint32_wf (FSINFO3resok_Rtmax v) /\
  Uint32_wf (FSINFO3resok_Rtpref v) /\
  Uint32_wf (FSINFO3resok_Rtmult v) /\
  Uint32_wf (FSINFO3resok_Wtmax v) /\
  Uint32_wf (FSINFO3resok_Wtpref v) /\
  Uint32_wf (FSINFO3resok_Wtmult v) /\
  Uint32_wf (FSINFO3resok_Dtpref v) /\
  Size3_wf (FSINFO3resok_Maxfilesize v) /\
  Nfstime3_wf (FSINFO3resok_Time_delta v) /\
  Uint32_wf (FSINFO3resok_Properties v).

Definition FSINFO3resfail_wf (v : FSINFO3resfail) : Prop :=
  Post_op_attr_wf (FSINFO3resfail_Obj_attributes v).

Definition FSINFO3res_wf (v : FSINFO3res) : Prop :=
  Nfsstat3_wf (FSINFO3res_Status v) /\
  (if bool_decide ((FSINFO3res_Status v) = NFS3_OK) then (FSINFO3resok_wf (FSINFO3res_Resok v) /\ (FSINFO3res_Resfail v) = zero)
    else (FSINFO3resfail_wf (FSINFO3res_Resfail v) /\ (FSINFO3res_Resok v) = zero)).

Definition PATHCONF3args_wf (v : PATHCONF3args) : Prop :=
  Nfs_fh3_wf (PATHCONF3args_Object v).

Definition PATHCONF3resok_wf (v : PATHCONF3resok) : Prop :=
  Post_op_attr_wf (PATHCONF3resok_Obj_attributes v) /\
  Uint32_wf (PATHCONF3resok_Linkmax v) /\
  Uint32_wf (PATHCONF3resok_Name_max v).

Definition PATHCONF3resfail_wf (v : PATHCONF3resfail) : Prop :=
  Post_op_attr_wf (PATHCONF3resfail_Obj_attributes v).

Definition PATHCONF3res_wf (v : PATHCONF3res) : Prop :=
  Nfsstat3_wf (PATHCONF3res_Status v) /\
  (if bool_decide ((PATHCONF3res_Status v) = NFS3_OK) then (PATHCONF3resok_wf (PATHCONF3res_Resok v) /\ (PATHCONF3res_Resfail v) = zero)
    else (PATHCONF3resfail_wf (PATHCONF3res_Resfail v) /\ (PATHCONF3res_Resok v) = zero)).

Definition COMMIT3args_wf (v : COMMIT3args) : Prop :=
  Nfs_fh3_wf (COMMIT3args_File v) /\
  Offset3_wf (COMMIT3args_Offset v) /\
  Count3_wf (COMMIT3args_Count v).

Definition COMMIT3resok_wf (v : COMMIT3resok) : Prop :=
  Wcc_data_wf (COMMIT3resok_File_wcc v) /\
  Writeverf3_wf (COMMIT3resok_Verf v).

Definition COMMIT3resfail_wf (v : COMMIT3resfail) : Prop :=
  Wcc_data_wf (COMMIT3resfail_File_wcc v).

Definition COMMIT3res_wf (v : COMMIT3res) : Prop :=
  Nfsstat3_wf (COMMIT3res_Status v) /\
  (if bool_decide ((COMMIT3res_Status v) = NFS3_OK) then (COMMIT3resok_wf (COMMIT3res_Resok v) /\ (COMMIT3res_Resfail v) = zero)
    else (COMMIT3resfail_wf (COMMIT3res_Resfail v) /\ (COMMIT3res_Resok v) = zero)).

Definition Fhandle3_wf (v : list Z) : Prop := fits FHSIZE3 v.

Definition Dirpath3_wf (v : list Z) : Prop := fits MNTPATHLEN3 v.

Definition Name3_wf (v : list Z) : Prop := fits MNTNAMLEN3 v.

Definition Mountstat3_wf (v : Z) : Prop := is_u32 v.

Definition Mountres3_ok_wf (v : Mountres3_ok) : Prop :=
  Fhandle3_wf (Mountres3_ok_Fhandle v) /\
  flavors_wf (Mountres3_ok_Auth_flavors v).

Definition Mountres3_wf (v : Mountres3) : Prop :=
  Mountstat3_wf (Mountres3_Fhs_status v) /\
  (if bool_decide ((Mountres3_Fhs_status v) = MNT3_OK) then (Mountres3_ok_wf (Mountres3_Mountinfo v))
    else ((Mountres3_Mountinfo v) = zero)).

Fixpoint Mount3_wf (v : Mount3) : Prop :=
  let '(mkMount3 Ml_hostname Ml_directory Ml_next) := v in
  Name3_wf Ml_hostname /\
  Dirpath3_wf Ml_directory /\
  match Ml_next with Some p => Mount3_wf p | None => True end.

Definition Mountopt3_wf (v : Mountopt3) : Prop :=
  from_option Mount3_wf True (Mountopt3_P v).

Fixpoint Groups3_wf (v : Groups3) : Prop :=
  let '(mkGroups3 Gr_name Gr_next) := v in
  Name3_wf Gr_name /\
  match Gr_next with Some p => Groups3_wf p | None => True end.

Fixpoint Exports3_wf (v : Exports3) : Prop :=
  let '(mkExports3 Ex_dir Ex_groups Ex_next) := v in
  Dirpath3_wf Ex_dir /\
  match Ex_groups with Some p => Groups3_wf p | None => True end /\
  match Ex_next with Some p => Exports3_wf p | None => True end.

Definition Exportsopt3_wf (v : Exportsopt3) : Prop :=
  from_option Exports3_wf True (Exportsopt3_P v).

(** ** The length of the linked lists in a value *)

Fixpoint Entry3_depth (v : Entry3) : nat :=
  let '(mkEntry3 Fileid Name Cookie Nextentry) := v in
  S (match Nextentry with Some p => Entry3_depth p | None => 0 end).

Definition Dirlist3_depth (v : Dirlist3) : nat := from_option Entry3_depth 0%nat (Dirlist3_Entries v).

Definition READDIR3resok_depth (v : READDIR3resok) : nat := Dirlist3_depth (READDIR3resok_Reply v).

Definition READDIR3res_depth (v : READDIR3res) : nat := READDIR3resok_depth (READDIR3res_Resok v).

Fixpoint Entryplus3_depth (v : Entryplus3) : nat :=
  let '(mkEntryplus3 Fileid Name Cookie Name_attributes Name_handle Nextentry) := v in
  S (match Nextentry with Some p => Entryplus3_depth p | None => 0 end).

Definition Dirlistplus3_depth (v : Dirlistplus3) : nat := from_option Entryplus3_depth 0%nat (Dirlistplus3_Entries v).

Definition READDIRPLUS3resok_depth (v : READDIRPLUS3resok) : nat := Dirlistplus3_depth (READDIRPLUS3resok_Reply v).

Definition READDIRPLUS3res_depth (v : READDIRPLUS3res) : nat := READDIRPLUS3resok_depth (READDIRPLUS3res_Resok v).

Fixpoint Mount3_depth (v : Mount3) : nat :=
  let '(mkMount3 Ml_hostname Ml_directory Ml_next) := v in
  S (match Ml_next with Some p => Mount3_depth p | None => 0 end).

Definition Mountopt3_depth (v : Mountopt3) : nat := from_option Mount3_depth 0%nat (Mountopt3_P v).

Fixpoint Groups3_depth (v : Groups3) : nat :=
  let '(mkGroups3 Gr_name Gr_next) := v in
  S (match Gr_next with Some p => Groups3_depth p | None => 0 end).

Fixpoint Exports3_depth (v : Exports3) : nat :=
  let '(mkExports3 Ex_dir Ex_groups Ex_next) := v in
  S (Nat.max (match Ex_groups with Some p => Groups3_depth p | None => 0 end) (match Ex_next with Some p => Exports3_depth p | None => 0 end)).

Definition Exportsopt3_depth (v : Exportsopt3) : nat := from_option Exports3_depth 0%nat (Exportsopt3_P v).

(** ** Round trips *)

Section roundtrip.
Context `{!XdrPkg} `{!XdrPkgSpec}.

Lemma rt_eq {A} (v v1 v2 : A) : v1 = v -> v2 = v -> rt (mret v1) (mret v2) v.
Proof. intros -> ->. apply rt_ret. Qed.

(** [fld lem] runs one field through its round trip [lem], [xcase Hu] decides the arm of a
    union, [xret v] ends. *)
Ltac fld lem := eapply rt_bind; [eapply lem; first [eassumption|lia]|].
Ltac fld_bool := eapply rt_bind; [eapply rt_prim, XdrBool_codes|].
Ltac fld_var := eapply rt_bind; [eapply rt_prim, XdrVarArray_codes; eassumption|].
Ltac fld_opt lem := eapply rt_bind; [apply rt_opted; intros ? Hp; rewrite Hp in *; simpl in *;
  apply lem; first [assumption|lia]|].
Ltac fld_opt_rec IH p lem := eapply rt_bind; [apply rt_opted; intros p' ->;
  first [apply IH; [assumption|lia]|apply lem; [assumption|lia]]|].
Ltac xcase Hu := revert Hu; match goal with |- _ -> rt (if ?c then _ else _) _ _ =>
  destruct c eqn:?; intros Hu end.
Ltac xret v := apply rt_eq; destruct v; simpl in *; subst; reflexivity.

Lemma rt_lift {A B} (r1 r2 : res A) (k1 k2 : A -> M XdrState B) x y v : r1 = Ok x -> r2 = Ok y ->
  rt (k1 x) (k2 y) v -> rt (lift r1 ≫= k1) (lift r2 ≫= k2) v.
Proof. intros -> ->. exact id. Qed.

Lemma flavors_loop_rt n i l l' : 0 <= i -> i + Z.of_nat n = len l -> length l' = length l ->
  take (Z.to_nat i) l' = take (Z.to_nat i) l -> Forall is_u32 l ->
  rt (flavors_loop n i l) (flavors_loop n i l') l.
Proof.
  intros Hi Hn Hl Htk Hu. revert i l' Hi Hn Hl Htk. induction n as [|n IH]; intros i l' Hi Hn Hl Htk;
    cbn [flavors_loop].
  { apply rt_eq; [done|]. unfold len in Hn. rewrite !take_ge in Htk by lia. done. }
  destruct (idx_lt l i) as [x Hx]; [lia|]. destruct (idx_lt l' i) as [y Hy]; [unfold len in *; lia|].
  apply (rt_lift _ _ _ _ x y _ Hx Hy). apply idx_Ok in Hx as [_ Hx].
  eapply rt_bind; [eapply rt_prim, XdrU32_codes; by eapply Forall_lookup_1|].
  eapply rt_lift; [apply setidx_Ok; lia|apply setidx_Ok; unfold len in *; lia|].
  rewrite list_insert_id by done. apply IH; [lia|lia|by rewrite length_insert|].
  replace (Z.to_nat (i + 1)) with (S (Z.to_nat i)) by lia.
  rewrite (take_S_r _ _ x), (take_S_r l _ x Hx).
  - by rewrite take_insert_ge, Htk by lia.
  - apply list_lookup_insert_eq. unfold len in Hn. lia.
Qed.

Lemma flavors_rt l : flavors_wf l -> rt (flavors_Xdr l) (flavors_Xdr zero) l.
Proof.
  intros [Hlen Hu]. pose proof (len_nonneg l).
  destruct (XdrU32_codes 0 (len l)) as [Hwe Hwd]; [unfold is_u32; lia|].
  destruct (flavors_loop_rt (Z.to_nat (len l)) 0 l (zeros (len l))) as (w & He & Hd);
    [lia|lia|len|done|done|].
  exists (w_u32 (len l) ++ w). unfold flavors_Xdr, mbind, M_bind, gets, prim. split.
  - intros xs Hx. rewrite (EncodingSetSize_writing xs 0 (len l) Hx), w32_small by lia.
    destruct (Hwe xs Hx) as (xs1 & -> & Hx1 & Ho1). pose proof Hx1 as (_ & -> & _).
    destruct (He xs1 Hx1) as (xs2 & -> & Hx2 & Ho2). exists xs2.
    split; [done|]. split; [done|]. by rewrite Ho2, Ho1, app_assoc.
  - intros xs r Hx Hr. rewrite (EncodingSetSize_reading xs 0 _ Hx). rewrite <-app_assoc in Hr.
    destruct (Hwd xs _ Hx Hr) as (xs1 & -> & Hx1 & Hr1). pose proof Hx1 as (_ & -> & _).
    by apply Hd.
Qed.

Lemma Uint64_rt v : Uint64_wf v -> rt (Uint64_Xdr v) (Uint64_Xdr zero) v.
Proof. intros Hw. eapply rt_prim. by apply XdrU64_codes. Qed.

Lemma Uint32_rt v : Uint32_wf v -> rt (Uint32_Xdr v) (Uint32_Xdr zero) v.
Proof. intros Hw. eapply rt_prim. by apply XdrU32_codes. Qed.

Lemma Filename3_rt v : Filename3_wf v -> rt (Filename3_Xdr v) (Filename3_Xdr zero) v.
Proof. intros Hw. eapply rt_prim. by apply XdrString_codes. Qed.

Lemma Nfspath3_rt v : Nfspath3_wf v -> rt (Nfspath3_Xdr v) (Nfspath3_Xdr zero) v.
Proof. intros Hw. eapply rt_prim. by apply XdrString_codes. Qed.

Lemma Fileid3_rt v : Fileid3_wf v -> rt (Fileid3_Xdr v) (Fileid3_Xdr zero) v.
Proof. apply Uint64_rt. Qed.

Lemma Cookie3_rt v : Cookie3_wf v -> rt (Cookie3_Xdr v) (Cookie3_Xdr zero) v.
Proof. apply Uint64_rt. Qed.

Lemma Cookieverf3_rt (v : Cookieverf3) : Cookieverf3_wf v -> rt (Cookieverf3_Xdr v) (Cookieverf3_Xdr zero) v.
Proof. intros Hw. eapply rt_prim. by apply XdrArray_codes. Qed.

Lemma Createverf3_rt (v : Createverf3) : Createverf3_wf v -> rt (Createverf3_Xdr v) (Createverf3_Xdr zero) v.
Proof. intros Hw. eapply rt_prim. by apply XdrArray_codes. Qed.

Lemma Writeverf3_rt (v : Writeverf3) : Writeverf3_wf v -> rt (Writeverf3_Xdr v) (Writeverf3_Xdr zero) v.
Proof. intros Hw. eapply rt_prim. by apply XdrArray_codes. Qed.

Lemma Uid3_rt v : Uid3_wf v -> rt (Uid3_Xdr v) (Uid3_Xdr zero) v.
Proof. apply Uint32_rt. Qed.

Lemma Gid3_rt v : Gid3_wf v -> rt (Gid3_Xdr v) (Gid3_Xdr zero) v.
Proof. apply Uint32_rt. Qed.

Lemma Size3_rt v : Size3_wf v -> rt (Size3_Xdr v) (Size3_Xdr zero) v.
Proof. apply Uint64_rt. Qed.

Lemma Offset3_rt v : Offset3_wf v -> rt (Offset3_Xdr v) (Offset3_Xdr zero) v.
Proof. apply Uint64_rt. Qed.

Lemma Mode3_rt v : Mode3_wf v -> rt (Mode3_Xdr v) (Mode3_Xdr zero) v.
Proof. apply Uint32_rt. Qed.

Lemma Count3_rt v : Count3_wf v -> rt (Count3_Xdr v) (Count3_Xdr zero) v.
Proof. apply Uint32_rt. Qed.

Lemma Nfsstat3_rt v : Nfsstat3_wf v -> rt (Nfsstat3_Xdr v) (Nfsstat3_Xdr zero) v.
Proof. intros Hw. eapply rt_prim. by apply XdrU32_codes. Qed.

Lemma Ftype3_rt v : Ftype3_wf v -> rt (Ftype3_Xdr v) (Ftype3_Xdr zero) v.
Proof. intros Hw. eapply rt_prim. by apply XdrU32_codes. Qed.

Lemma Specdata3_rt v : Specdata3_wf v -> rt (Specdata3_Xdr v) (Specdata3_Xdr zero) v.
Proof.
  intros Hw. unfold Specdata3_wf in Hw. destruct_and?. unfold Specdata3_Xdr. fld Uint32_rt. fld Uint32_rt. xret v.
Qed.

Lemma Nfs_fh3_rt v : Nfs_fh3_wf v -> rt (Nfs_fh3_Xdr v) (Nfs_fh3_Xdr zero) v.
Proof.
  intros Hw. unfold Nfs_fh3_wf in Hw. destruct_and?. unfold Nfs_fh3_Xdr. fld_var. xret v.
Qed.

Lemma Nfstime3_rt v : Nfstime3_wf v -> rt (Nfstime3_Xdr v) (Nfstime3_Xdr zero) v.
Proof.
  intros Hw. unfold Nfstime3_wf in Hw. destruct_and?. unfold Nfstime3_Xdr. fld Uint32_rt. fld Uint32_rt. xret v.
Qed.

Lemma Fattr3_rt v : Fattr3_wf v -> rt (Fattr3_Xdr v) (Fattr3_Xdr zero) v.
Proof.
  intros Hw. unfold Fattr3_wf in Hw. destruct_and?. unfold Fattr3_Xdr. fld Ftype3_rt. fld Mode3_rt. fld Uint32_rt. fld Uid3_rt. fld Gid3_rt. fld Size3_rt. fld Size3_rt. fld Specdata3_rt. fld Uint64_rt. fld Fileid3_rt. fld Nfstime3_rt. fld Nfstime3_rt. fld Nfstime3_rt. xret v.
Qed.

Lemma Post_op_attr_rt v : Post_op_attr_wf v -> rt (Post_op_attr_Xdr v) (Post_op_attr_Xdr zero) v.
Proof.
  intros Hw. unfold Post_op_attr_wf in Hw. rename Hw into Hu. unfold Post_op_attr_Xdr. fld_bool.
  xcase Hu. { destruct_and?. fld Fattr3_rt. xret v. }
  destruct_and?. xret v.
Qed.

Lemma Wcc_attr_rt v : Wcc_attr_wf v -> rt (Wcc_attr_Xdr v) (Wcc_attr_Xdr zero) v.
Proof.
  intros Hw. unfold Wcc_attr_wf in Hw. destruct_and?. unfold Wcc_attr_Xdr. fld Size3_rt. fld Nfstime3_rt. fld Nfstime3_rt. xret v.
Qed.

Lemma Pre_op_attr_rt v : Pre_op_attr_wf v -> rt (Pre_op_attr_Xdr v) (Pre_op_attr_Xdr zero) v.
Proof.
  intros Hw. unfold Pre_op_attr_wf in Hw. rename Hw into Hu. unfold Pre_op_attr_Xdr. fld_bool.
  xcase Hu. { destruct_and?. fld Wcc_attr_rt. xret v. }
  destruct_and?. xret v.
Qed.

Lemma Wcc_data_rt v : Wcc_data_wf v -> rt (Wcc_data_Xdr v) (Wcc_data_Xdr zero) v.
Proof.
  intros Hw. unfold Wcc_data_wf in Hw. destruct_and?. unfold Wcc_data_Xdr. fld Pre_op_attr_rt. fld Post_op_attr_rt. xret v.
Qed.

Lemma Post_op_fh3_rt v : Post_op_fh3_wf v -> rt (Post_op_fh3_Xdr v) (Post_op_fh3_Xdr zero) v.
Proof.
  intros Hw. unfold Post_op_fh3_wf in Hw. rename Hw into Hu. unfold Post_op_fh3_Xdr. fld_bool.
  xcase Hu. { destruct_and?. fld Nfs_fh3_rt. xret v. }
  destruct_and?. xret v.
Qed.

Lemma Time_how_rt v : Time_how_wf v -> rt (Time_how_Xdr v) (Time_how_Xdr zero) v.
Proof. intros Hw. eapply rt_prim. by apply XdrU32_codes. Qed.

Lemma Set_mode3_rt v : Set_mode3_wf v -> rt (Set_mode3_Xdr v) (Set_mode3_Xdr zero) v.
Proof.
  intros Hw. unfold Set_mode3_wf in Hw. rename Hw into Hu. unfold Set_mode3_Xdr. fld_bool.
  xcase Hu. { destruct_and?. fld Mode3_rt. xret v. }
  destruct_and?. xret v.
Qed.

Lemma Set_uid3_rt v : Set_uid3_wf v -> rt (Set_uid3_Xdr v) (Set_uid3_Xdr zero) v.
Proof.
  intros Hw. unfold Set_uid3_wf in Hw. rename Hw into Hu. unfold Set_uid3_Xdr. fld_bool.
  xcase Hu. { destruct_and?. fld Uid3_rt. xret v. }
  destruct_and?. xret v.
Qed.

Lemma Set_gid3_rt v : Set_gid3_wf v -> rt (Set_gid3_Xdr v) (Set_gid3_Xdr zero) v.
Proof.
  intros Hw. unfold Set_gid3_wf in Hw. rename Hw into Hu. unfold Set_gid3_Xdr. fld_bool.
  xcase Hu. { destruct_and?. fld Gid3_rt. xret v. }
  destruct_and?. xret v.
Qed.

Lemma Set_size3_rt v : Set_size3_wf v -> rt (Set_size3_Xdr v) (Set_size3_Xdr zero) v.
Proof.
  intros Hw. unfold Set_size3_wf in Hw. rename Hw into Hu. unfold Set_size3_Xdr. fld_bool.
  xcase Hu. { destruct_and?. fld Size3_rt. xret v. }
  destruct_and?. xret v.
Qed.

Lemma Set_atime_rt v : Set_atime_wf v -> rt (Set_atime_Xdr v) (Set_atime_Xdr zero) v.
Proof.
  intros Hw. unfold Set_atime_wf in Hw. destruct Hw as (? & Hu). unfold Set_atime_Xdr. fld Time_how_rt.
  xcase Hu. { destruct_and?. fld Nfstime3_rt. xret v. }
  destruct_and?. xret v.
Qed.

Lemma Set_mtime_rt v : Set_mtime_wf v -> rt (Set_mtime_Xdr v) (Set_mtime_Xdr zero) v.
Proof.
  intros Hw. unfold Set_mtime_wf in Hw. destruct Hw as (? & Hu). unfold Set_mtime_Xdr. fld Time_how_rt.
  xcase Hu. { destruct_and?. fld Nfstime3_rt. xret v. }
  destruct_and?. xret v.
Qed.

Lemma Sattr3_rt v : Sattr3_wf v -> rt (Sattr3_Xdr v) (Sattr3_Xdr zero) v.
Proof.
  intros Hw. unfold Sattr3_wf in Hw. destruct_and?. unfold Sattr3_Xdr. fld Set_mode3_rt. fld Set_uid3_rt. fld Set_gid3_rt. fld Set_size3_rt. fld Set_atime_rt. fld Set_mtime_rt. xret v.
Qed.

Lemma Diropargs3_rt v : Diropargs3_wf v -> rt (Diropargs3_Xdr v) (Diropargs3_Xdr zero) v.
Proof.
  intros Hw. unfold Diropargs3_wf in Hw. destruct_and?. unfold Diropargs3_Xdr. fld Nfs_fh3_rt. fld Filename3_rt. xret v.
Qed.

Lemma GETATTR3args_rt v : GETATTR3args_wf v -> rt (GETATTR3args_Xdr v) (GETATTR3args_Xdr zero) v.
Proof.
  intros Hw. unfold GETATTR3args_wf in Hw. destruct_and?. unfold GETATTR3args_Xdr. fld Nfs_fh3_rt. xret v.
Qed.

Lemma GETATTR3resok_rt v : GETATTR3resok_wf v -> rt (GETATTR3resok_Xdr v) (GETATTR3resok_Xdr zero) v.
Proof.
  intros Hw. unfold GETATTR3resok_wf in Hw. destruct_and?. unfold GETATTR3resok_Xdr. fld Fattr3_rt. xret v.
Qed.

Lemma GETATTR3res_rt v : GETATTR3res_wf v -> rt (GETATTR3res_Xdr v) (GETATTR3res_Xdr zero) v.
Proof.
  intros Hw. unfold GETATTR3res_wf in Hw. destruct Hw as (? & Hu). unfold GETATTR3res_Xdr. fld Nfsstat3_rt.
  xcase Hu. { destruct_and?. fld GETATTR3resok_rt. xret v. }
  destruct_and?. xret v.
Qed.

Lemma Sattrguard3_rt v : Sattrguard3_wf v -> rt (Sattrguard3_Xdr v) (Sattrguard3_Xdr zero) v.
Proof.
  intros Hw. unfold Sattrguard3_wf in Hw. rename Hw into Hu. unfold Sattrguard3_Xdr. fld_bool.
  xcase Hu. { destruct_and?. fld Nfstime3_rt. xret v. }
  destruct_and?. xret v.
Qed.

Lemma SETATTR3args_rt v : SETATTR3args_wf v -> rt (SETATTR3args_Xdr v) (SETATTR3args_Xdr zero) v.
Proof.
  intros Hw. unfold SETATTR3args_wf in Hw. destruct_and?. unfold SETATTR3args_Xdr. fld Nfs_fh3_rt. fld Sattr3_rt. fld Sattrguard3_rt. xret v.
Qed.

Lemma SETATTR3resok_rt v : SETATTR3resok_wf v -> rt (SETATTR3resok_Xdr v) (SETATTR3resok_Xdr zero) v.
Proof.
  intros Hw. unfold SETATTR3resok_wf in Hw. destruct_and?. unfold SETATTR3resok_Xdr. fld Wcc_data_rt. xret v.
Qed.

Lemma SETATTR3resfail_rt v : SETATTR3resfail_wf v -> rt (SETATTR3resfail_Xdr v) (SETATTR3resfail_Xdr zero) v.
Proof.
  intros Hw. unfold SETATTR3resfail_wf in Hw. destruct_and?. unfold SETATTR3resfail_Xdr. fld Wcc_data_rt. xret v.
Qed.

Lemma SETATTR3res_rt v : SETATTR3res_wf v -> rt (SETATTR3res_Xdr v) (SETATTR3res_Xdr zero) v.
Proof.
  intros Hw. unfold SETATTR3res_wf in Hw. destruct Hw as (? & Hu). unfold SETATTR3res_Xdr. fld Nfsstat3_rt.
  xcase Hu. { destruct_and?. fld SETATTR3resok_rt. xret v. }
  destruct_and?. fld SETATTR3resfail_rt. xret v.
Qed.

Lemma LOOKUP3args_rt v : LOOKUP3args_wf v -> rt (LOOKUP3args_Xdr v) (LOOKUP3args_Xdr zero) v.
Proof.
  intros Hw. unfold LOOKUP3args_wf in Hw. destruct_and?. unfold LOOKUP3args_Xdr. fld Diropargs3_rt. xret v.
Qed.

Lemma LOOKUP3resok_rt v : LOOKUP3resok_wf v -> rt (LOOKUP3resok_Xdr v) (LOOKUP3resok_Xdr zero) v.
Proof.
  intros Hw. unfold LOOKUP3resok_wf in Hw. destruct_and?. unfold LOOKUP3resok_Xdr. fld Nfs_fh3_rt. fld Post_op_attr_rt. fld Post_op_attr_rt. xret v.
Qed.

Lemma LOOKUP3resfail_rt v : LOOKUP3resfail_wf v -> rt (LOOKUP3resfail_Xdr v) (LOOKUP3resfail_Xdr zero) v.
Proof.
  intros Hw. unfold LOOKUP3resfail_wf in Hw. destruct_and?. unfold LOOKUP3resfail_Xdr. fld Post_op_attr_rt. xret v.
Qed.

Lemma LOOKUP3res_rt v : LOOKUP3res_wf v -> rt (LOOKUP3res_Xdr v) (LOOKUP3res_Xdr zero) v.
Proof.
  intros Hw. unfold LOOKUP3res_wf in Hw. destruct Hw as (? & Hu). unfold LOOKUP3res_Xdr. fld Nfsstat3_rt.
  xcase Hu. { destruct_and?. fld LOOKUP3resok_rt. xret v. }
  destruct_and?. fld LOOKUP3resfail_rt. xret v.
Qed.

Lemma ACCESS3args_rt v : ACCESS3args_wf v -> rt (ACCESS3args_Xdr v) (ACCESS3args_Xdr zero) v.
Proof.
  intros Hw. unfold ACCESS3args_wf in Hw. destruct_and?. unfold ACCESS3args_Xdr. fld Nfs_fh3_rt. fld Uint32_rt. xret v.
Qed.

Lemma ACCESS3resok_rt v : ACCESS3resok_wf v -> rt (ACCESS3resok_Xdr v) (ACCESS3resok_Xdr zero) v.
Proof.
  intros Hw. unfold ACCESS3resok_wf in Hw. destruct_and?. unfold ACCESS3resok_Xdr. fld Post_op_attr_rt. fld Uint32_rt. xret v.
Qed.

Lemma ACCESS3resfail_rt v : ACCESS3resfail_wf v -> rt (ACCESS3resfail_Xdr v) (ACCESS3resfail_Xdr zero) v.
Proof.
  intros Hw. unfold ACCESS3resfail_wf in Hw. destruct_and?. unfold ACCESS3resfail_Xdr. fld Post_op_attr_rt. xret v.
Qed.

Lemma ACCESS3res_rt v : ACCESS3res_wf v -> rt (ACCESS3res_Xdr v) (ACCESS3res_Xdr zero) v.
Proof.
  intros Hw. unfold ACCESS3res_wf in Hw. destruct Hw as (? & Hu). unfold ACCESS3res_Xdr. fld Nfsstat3_rt.
  xcase Hu. { destruct_and?. fld ACCESS3resok_rt. xret v. }
  destruct_and?. fld ACCESS3resfail_rt. xret v.
Qed.

Lemma READLINK3args_rt v : READLINK3args_wf v -> rt (READLINK3args_Xdr v) (READLINK3args_Xdr zero) v.
Proof.
  intros Hw. unfold READLINK3args_wf in Hw. destruct_and?. unfold READLINK3args_Xdr. fld Nfs_fh3_rt. xret v.
Qed.

Lemma READLINK3resok_rt v : READLINK3resok_wf v -> rt (READLINK3resok_Xdr v) (READLINK3resok_Xdr zero) v.
Proof.
  intros Hw. unfold READLINK3resok_wf in Hw. destruct_and?. unfold READLINK3resok_Xdr. fld Post_op_attr_rt. fld Nfspath3_rt. xret v.
Qed.

Lemma READLINK3resfail_rt v : READLINK3resfail_wf v -> rt (READLINK3resfail_Xdr v) (READLINK3resfail_Xdr zero) v.
Proof.
  intros Hw. unfold READLINK3resfail_wf in Hw. destruct_and?. unfold READLINK3resfail_Xdr. fld Post_op_attr_rt. xret v.
Qed.

Lemma READLINK3res_rt v : READLINK3res_wf v -> rt (READLINK3res_Xdr v) (READLINK3res_Xdr zero) v.
Proof.
  intros Hw. unfold READLINK3res_wf in Hw. destruct Hw as (? & Hu). unfold READLINK3res_Xdr. fld Nfsstat3_rt.
  xcase Hu. { destruct_and?. fld READLINK3resok_rt. xret v. }
  destruct_and?. fld READLINK3resfail_rt. xret v.
Qed.

Lemma READ3args_rt v : READ3args_wf v -> rt (READ3args_Xdr v) (READ3args_Xdr zero) v.
Proof.
  intros Hw. unfold READ3args_wf in Hw. destruct_and?. unfold READ3args_Xdr. fld Nfs_fh3_rt. fld Offset3_rt. fld Count3_rt. xret v.
Qed.

Lemma READ3resok_rt v : READ3resok_wf v -> rt (READ3resok_Xdr v) (READ3resok_Xdr zero) v.
Proof.
  intros Hw. unfold READ3resok_wf in Hw. destruct_and?. unfold READ3resok_Xdr. fld Post_op_attr_rt. fld Count3_rt. fld_bool. fld_var. xret v.
Qed.

Lemma READ3resfail_rt v : READ3resfail_wf v -> rt (READ3resfail_Xdr v) (READ3resfail_Xdr zero) v.
Proof.
  intros Hw. unfold READ3resfail_wf in Hw. destruct_and?. unfold READ3resfail_Xdr. fld Post_op_attr_rt. xret v.
Qed.

Lemma READ3res_rt v : READ3res_wf v -> rt (READ3res_Xdr v) (READ3res_Xdr zero) v.
Proof.
  intros Hw. unfold READ3res_wf in Hw. destruct Hw as (? & Hu). unfold READ3res_Xdr. fld Nfsstat3_rt.
  xcase Hu. { destruct_and?. fld READ3resok_rt. xret v. }
  destruct_and?. fld READ3resfail_rt. xret v.
Qed.

Lemma Stable_how_rt v : Stable_how_wf v -> rt (Stable_how_Xdr v) (Stable_how_Xdr zero) v.
Proof. intros Hw. eapply rt_prim. by apply XdrU32_codes. Qed.

Lemma WRITE3args_rt v : WRITE3args_wf v -> rt (WRITE3args_Xdr v) (WRITE3args_Xdr zero) v.
Proof.
  intros Hw. unfold WRITE3args_wf in Hw. destruct_and?. unfold WRITE3args_Xdr. fld Nfs_fh3_rt. fld Offset3_rt. fld Count3_rt. fld Stable_how_rt. fld_var. xret v.
Qed.

Lemma WRITE3resok_rt v : WRITE3resok_wf v -> rt (WRITE3resok_Xdr v) (WRITE3resok_Xdr zero) v.
Proof.
  intros Hw. unfold WRITE3resok_wf in Hw. destruct_and?. unfold WRITE3resok_Xdr. fld Wcc_data_rt. fld Count3_rt. fld Stable_how_rt. fld Writeverf3_rt. xret v.
Qed.

Lemma WRITE3resfail_rt v : WRITE3resfail_wf v -> rt (WRITE3resfail_Xdr v) (WRITE3resfail_Xdr zero) v.
Proof.
  intros Hw. unfold WRITE3resfail_wf in Hw. destruct_and?. unfold WRITE3resfail_Xdr. fld Wcc_data_rt. xret v.
Qed.

Lemma WRITE3res_rt v : WRITE3res_wf v -> rt (WRITE3res_Xdr v) (WRITE3res_Xdr zero) v.
Proof.
  intros Hw. unfold WRITE3res_wf in Hw. destruct Hw as (? & Hu). unfold WRITE3res_Xdr. fld Nfsstat3_rt.
  xcase Hu. { destruct_and?. fld WRITE3resok_rt. xret v. }
  destruct_and?. fld WRITE3resfail_rt. xret v.
Qed.

Lemma Createmode3_rt v : Createmode3_wf v -> rt (Createmode3_Xdr v) (Createmode3_Xdr zero) v.
Proof. intros Hw. eapply rt_prim. by apply XdrU32_codes. Qed.

Lemma Createhow3_rt v : Createhow3_wf v -> rt (Createhow3_Xdr v) (Createhow3_Xdr zero) v.
Proof.
  intros Hw. unfold Createhow3_wf in Hw. destruct Hw as (? & Hu). unfold Createhow3_Xdr. fld Createmode3_rt.
  xcase Hu. { destruct_and?. fld Sattr3_rt. xret v. }
  xcase Hu. { destruct_and?. fld Createverf3_rt. xret v. }
  destruct_and?. xret v.
Qed.

Lemma CREATE3args_rt v : CREATE3args_wf v -> rt (CREATE3args_Xdr v) (CREATE3args_Xdr zero) v.
Proof.
  intros Hw. unfold CREATE3args_wf in Hw. destruct_and?. unfold CREATE3args_Xdr. fld Diropargs3_rt. fld Createhow3_rt. xret v.
Qed.

Lemma CREATE3resok_rt v : CREATE3resok_wf v -> rt (CREATE3resok_Xdr v) (CREATE3resok_Xdr zero) v.
Proof.
  intros Hw. unfold CREATE3resok_wf in Hw. destruct_and?. unfold CREATE3resok_Xdr. fld Post_op_fh3_rt. fld Post_op_attr_rt. fld Wcc_data_rt. xret v.
Qed.

Lemma CREATE3resfail_rt v : CREATE3resfail_wf v -> rt (CREATE3resfail_Xdr v) (CREATE3resfail_Xdr zero) v.
Proof.
  intros Hw. unfold CREATE3resfail_wf in Hw. destruct_and?. unfold CREATE3resfail_Xdr. fld Wcc_data_rt. xret v.
Qed.

Lemma CREATE3res_rt v : CREATE3res_wf v -> rt (CREATE3res_Xdr v) (CREATE3res_Xdr zero) v.
Proof.
  intros Hw. unfold CREATE3res_wf in Hw. destruct Hw as (? & Hu). unfold CREATE3res_Xdr. fld Nfsstat3_rt.
  xcase Hu. { destruct_and?. fld CREATE3resok_rt. xret v. }
  destruct_and?. fld CREATE3resfail_rt. xret v.
Qed.

Lemma MKDIR3args_rt v : MKDIR3args_wf v -> rt (MKDIR3args_Xdr v) (MKDIR3args_Xdr zero) v.
Proof.
  intros Hw. unfold MKDIR3args_wf in Hw. destruct_and?. unfold MKDIR3args_Xdr. fld Diropargs3_rt. fld Sattr3_rt. xret v.
Qed.

Lemma MKDIR3resok_rt v : MKDIR3resok_wf v -> rt (MKDIR3resok_Xdr v) (MKDIR3resok_Xdr zero) v.
Proof.
  intros Hw. unfold MKDIR3resok_wf in Hw. destruct_and?. unfold MKDIR3resok_Xdr. fld Post_op_fh3_rt. fld Post_op_attr_rt. fld Wcc_data_rt. xret v.
Qed.

Lemma MKDIR3resfail_rt v : MKDIR3resfail_wf v -> rt (MKDIR3resfail_Xdr v) (MKDIR3resfail_Xdr zero) v.
Proof.
  intros Hw. unfold MKDIR3resfail_wf in Hw. destruct_and?. unfold MKDIR3resfail_Xdr. fld Wcc_data_rt. xret v.
Qed.

Lemma MKDIR3res_rt v : MKDIR3res_wf v -> rt (MKDIR3res_Xdr v) (MKDIR3res_Xdr zero) v.
Proof.
  intros Hw. unfold MKDIR3res_wf in Hw. destruct Hw as (? & Hu). unfold MKDIR3res_Xdr. fld Nfsstat3_rt.
  xcase Hu. { destruct_and?. fld MKDIR3resok_rt. xret v. }
  destruct_and?. fld MKDIR3resfail_rt. xret v.
Qed.

Lemma Symlinkdata3_rt v : Symlinkdata3_wf v -> rt (Symlinkdata3_Xdr v) (Symlinkdata3_Xdr zero) v.
Proof.
  intros Hw. unfold Symlinkdata3_wf in Hw. destruct_and?. unfold Symlinkdata3_Xdr. fld Sattr3_rt. fld Nfspath3_rt. xret v.
Qed.

Lemma SYMLINK3args_rt v : SYMLINK3args_wf v -> rt (SYMLINK3args_Xdr v) (SYMLINK3args_Xdr zero) v.
Proof.
  intros Hw. unfold SYMLINK3args_wf in Hw. destruct_and?. unfold SYMLINK3args_Xdr. fld Diropargs3_rt. fld Symlinkdata3_rt. xret v.
Qed.

Lemma SYMLINK3resok_rt v : SYMLINK3resok_wf v -> rt (SYMLINK3resok_Xdr v) (SYMLINK3resok_Xdr zero) v.
Proof.
  intros Hw. unfold SYMLINK3resok_wf in Hw. destruct_and?. unfold SYMLINK3resok_Xdr. fld Post_op_fh3_rt. fld Post_op_attr_rt. fld Wcc_data_rt. xret v.
Qed.

Lemma SYMLINK3resfail_rt v : SYMLINK3resfail_wf v -> rt (SYMLINK3resfail_Xdr v) (SYMLINK3resfail_Xdr zero) v.
Proof.
  intros Hw. unfold SYMLINK3resfail_wf in Hw. destruct_and?. unfold SYMLINK3resfail_Xdr. fld Wcc_data_rt. xret v.
Qed.

Lemma SYMLINK3res_rt v : SYMLINK3res_wf v -> rt (SYMLINK3res_Xdr v) (SYMLINK3res_Xdr zero) v.
Proof.
  intros Hw. unfold SYMLINK3res_wf in Hw. destruct Hw as (? & Hu). unfold SYMLINK3res_Xdr. fld Nfsstat3_rt.
  xcase Hu. { destruct_and?. fld SYMLINK3resok_rt. xret v. }
  destruct_and?. fld SYMLINK3resfail_rt. xret v.
Qed.

Lemma Devicedata3_rt v : Devicedata3_wf v -> rt (Devicedata3_Xdr v) (Devicedata3_Xdr zero) v.
Proof.
  intros Hw. unfold Devicedata3_wf in Hw. destruct_and?. unfold Devicedata3_Xdr. fld Sattr3_rt. fld Specdata3_rt. xret v.
Qed.

Lemma Mknoddata3_rt v : Mknoddata3_wf v -> rt (Mknoddata3_Xdr v) (Mknoddata3_Xdr zero) v.
Proof.
  intros Hw. unfold Mknoddata3_wf in Hw. destruct Hw as (? & Hu). unfold Mknoddata3_Xdr. fld Ftype3_rt.
  xcase Hu. { destruct_and?. fld Devicedata3_rt. xret v. }
  xcase Hu. { destruct_and?. fld Sattr3_rt. xret v. }
  destruct_and?. xret v.
Qed.

Lemma MKNOD3args_rt v : MKNOD3args_wf v -> rt (MKNOD3args_Xdr v) (MKNOD3args_Xdr zero) v.
Proof.
  intros Hw. unfold MKNOD3args_wf in Hw. destruct_and?. unfold MKNOD3args_Xdr. fld Diropargs3_rt. fld Mknoddata3_rt. xret v.
Qed.

Lemma MKNOD3resok_rt v : MKNOD3resok_wf v -> rt (MKNOD3resok_Xdr v) (MKNOD3resok_Xdr zero) v.
Proof.
  intros Hw. unfold MKNOD3resok_wf in Hw. destruct_and?. unfold MKNOD3resok_Xdr. fld Post_op_fh3_rt. fld Post_op_attr_rt. fld Wcc_data_rt. xret v.
Qed.

Lemma MKNOD3resfail_rt v : MKNOD3resfail_wf v -> rt (MKNOD3resfail_Xdr v) (MKNOD3resfail_Xdr zero) v.
Proof.
  intros Hw. unfold MKNOD3resfail_wf in Hw. destruct_and?. unfold MKNOD3resfail_Xdr. fld Wcc_data_rt. xret v.
Qed.

Lemma MKNOD3res_rt v : MKNOD3res_wf v -> rt (MKNOD3res_Xdr v) (MKNOD3res_Xdr zero) v.
Proof.
  intros Hw. unfold MKNOD3res_wf in Hw. destruct Hw as (? & Hu). unfold MKNOD3res_Xdr. fld Nfsstat3_rt.
  xcase Hu. { destruct_and?. fld MKNOD3resok_rt. xret v. }
  destruct_and?. fld MKNOD3resfail_rt. xret v.
Qed.

Lemma REMOVE3args_rt v : REMOVE3args_wf v -> rt (REMOVE3args_Xdr v) (REMOVE3args_Xdr zero) v.
Proof.
  intros Hw. unfold REMOVE3args_wf in Hw. destruct_and?. unfold REMOVE3args_Xdr. fld Diropargs3_rt. xret v.
Qed.

Lemma REMOVE3resok_rt v : REMOVE3resok_wf v -> rt (REMOVE3resok_Xdr v) (REMOVE3resok_Xdr zero) v.
Proof.
  intros Hw. unfold REMOVE3resok_wf in Hw. destruct_and?. unfold REMOVE3resok_Xdr. fld Wcc_data_rt. xret v.
Qed.

Lemma REMOVE3resfail_rt v : REMOVE3resfail_wf v -> rt (REMOVE3resfail_Xdr v) (REMOVE3resfail_Xdr zero) v.
Proof.
  intros Hw. unfold REMOVE3resfail_wf in Hw. destruct_and?. unfold REMOVE3resfail_Xdr. fld Wcc_data_rt. xret v.
Qed.

Lemma REMOVE3res_rt v : REMOVE3res_wf v -> rt (REMOVE3res_Xdr v) (REMOVE3res_Xdr zero) v.
Proof.
  intros Hw. unfold REMOVE3res_wf in Hw. destruct Hw as (? & Hu). unfold REMOVE3res_Xdr. fld Nfsstat3_rt.
  xcase Hu. { destruct_and?. fld REMOVE3resok_rt. xret v. }
  destruct_and?. fld REMOVE3resfail_rt. xret v.
Qed.

Lemma RMDIR3args_rt v : RMDIR3args_wf v -> rt (RMDIR3args_Xdr v) (RMDIR3args_Xdr zero) v.
Proof.
  intros Hw. unfold RMDIR3args_wf in Hw. destruct_and?. unfold RMDIR3args_Xdr. fld Diropargs3_rt. xret v.
Qed.

Lemma RMDIR3resok_rt v : RMDIR3resok_wf v -> rt (RMDIR3resok_Xdr v) (RMDIR3resok_Xdr zero) v.
Proof.
  intros Hw. unfold RMDIR3resok_wf in Hw. destruct_and?. unfold RMDIR3resok_Xdr. fld Wcc_data_rt. xret v.
Qed.

Lemma RMDIR3resfail_rt v : RMDIR3resfail_wf v -> rt (RMDIR3resfail_Xdr v) (RMDIR3resfail_Xdr zero) v.
Proof.
  intros Hw. unfold RMDIR3resfail_wf in Hw. destruct_and?. unfold RMDIR3resfail_Xdr. fld Wcc_data_rt. xret v.
Qed.

Lemma RMDIR3res_rt v : RMDIR3res_wf v -> rt (RMDIR3res_Xdr v) (RMDIR3res_Xdr zero) v.
Proof.
  intros Hw. unfold RMDIR3res_wf in Hw. destruct Hw as (? & Hu). unfold RMDIR3res_Xdr. fld Nfsstat3_rt.
  xcase Hu. { destruct_and?. fld RMDIR3resok_rt. xret v. }
  destruct_and?. fld RMDIR3resfail_rt. xret v.
Qed.

Lemma RENAME3args_rt v : RENAME3args_wf v -> rt (RENAME3args_Xdr v) (RENAME3args_Xdr zero) v.
Proof.
  intros Hw. unfold RENAME3args_wf in Hw. destruct_and?. unfold RENAME3args_Xdr. fld Diropargs3_rt. fld Diropargs3_rt. xret v.
Qed.

Lemma RENAME3resok_rt v : RENAME3resok_wf v -> rt (RENAME3resok_Xdr v) (RENAME3resok_Xdr zero) v.
Proof.
  intros Hw. unfold RENAME3resok_wf in Hw. destruct_and?. unfold RENAME3resok_Xdr. fld Wcc_data_rt. fld Wcc_data_rt. xret v.
Qed.

Lemma RENAME3resfail_rt v : RENAME3resfail_wf v -> rt (RENAME3resfail_Xdr v) (RENAME3resfail_Xdr zero) v.
Proof.
  intros Hw. unfold RENAME3resfail_wf in Hw. destruct_and?. unfold RENAME3resfail_Xdr. fld Wcc_data_rt. fld Wcc_data_rt. xret v.
Qed.

Lemma RENAME3res_rt v : RENAME3res_wf v -> rt (RENAME3res_Xdr v) (RENAME3res_Xdr zero) v.
Proof.
  intros Hw. unfold RENAME3res_wf in Hw. destruct Hw as (? & Hu). unfold RENAME3res_Xdr. fld Nfsstat3_rt.
  xcase Hu. { destruct_and?. fld RENAME3resok_rt. xret v. }
  destruct_and?. fld RENAME3resfail_rt. xret v.
Qed.

Lemma LINK3args_rt v : LINK3args_wf v -> rt (LINK3args_Xdr v) (LINK3args_Xdr zero) v.
Proof.
  intros Hw. unfold LINK3args_wf in Hw. destruct_and?. unfold LINK3args_Xdr. fld Nfs_fh3_rt. fld Diropargs3_rt. xret v.
Qed.

Lemma LINK3resok_rt v : LINK3resok_wf v -> rt (LINK3resok_Xdr v) (LINK3resok_Xdr zero) v.
Proof.
  intros Hw. unfold LINK3resok_wf in Hw. destruct_and?. unfold LINK3resok_Xdr. fld Post_op_attr_rt. fld Wcc_data_rt. xret v.
Qed.

Lemma LINK3resfail_rt v : LINK3resfail_wf v -> rt (LINK3resfail_Xdr v) (LINK3resfail_Xdr zero) v.
Proof.
  intros Hw. unfold LINK3resfail_wf in Hw. destruct_and?. unfold LINK3resfail_Xdr. fld Post_op_attr_rt. fld Wcc_data_rt. xret v.
Qed.

Lemma LINK3res_rt v : LINK3res_wf v -> rt (LINK3res_Xdr v) (LINK3res_Xdr zero) v.
Proof.
  intros Hw. unfold LINK3res_wf in Hw. destruct Hw as (? & Hu). unfold LINK3res_Xdr. fld Nfsstat3_rt.
  xcase Hu. { destruct_and?. fld LINK3resok_rt. xret v. }
  destruct_and?. fld LINK3resfail_rt. xret v.
Qed.

Lemma READDIR3args_rt v : READDIR3args_wf v -> rt (READDIR3args_Xdr v) (READDIR3args_Xdr zero) v.
Proof.
  intros Hw. unfold READDIR3args_wf in Hw. destruct_and?. unfold READDIR3args_Xdr. fld Nfs_fh3_rt. fld Cookie3_rt. fld Cookieverf3_rt. fld Count3_rt. xret v.
Qed.

Lemma Entry3_rt n v : Entry3_wf v -> (Entry3_depth v <= n)%nat ->
  rt (Entry3_Xdr n v) (Entry3_Xdr n zero) v.
Proof.
  revert v. induction n as [|n IH]; intros [Fileid Name Cookie Nextentry] Hw Hn; [simpl in Hn; lia|].
  cbn [Entry3_wf Entry3_depth] in Hw, Hn. destruct_and?. cbn [Entry3_Xdr].
 fld Fileid3_rt. fld Filename3_rt. fld Cookie3_rt. fld_opt_rec IH Nextentry Entry3_rt. apply rt_ret.
Qed.

Lemma Dirlist3_rt n v : Dirlist3_wf v -> (Dirlist3_depth v <= n)%nat ->
  rt (Dirlist3_Xdr n v) (Dirlist3_Xdr n zero) v.
Proof.
  intros Hw Hn. unfold Dirlist3_wf in Hw. unfold Dirlist3_depth in Hn. destruct_and?. unfold Dirlist3_Xdr. fld_opt Entry3_rt. fld_bool. xret v.
Qed.

Lemma READDIR3resok_rt n v : READDIR3resok_wf v -> (READDIR3resok_depth v <= n)%nat ->
  rt (READDIR3resok_Xdr n v) (READDIR3resok_Xdr n zero) v.
Proof.
  intros Hw Hn. unfold READDIR3resok_wf in Hw. unfold READDIR3resok_depth in Hn. destruct_and?. unfold READDIR3resok_Xdr. fld Post_op_attr_rt. fld Cookieverf3_rt. fld Dirlist3_rt. xret v.
Qed.

Lemma READDIR3resfail_rt v : READDIR3resfail_wf v -> rt (READDIR3resfail_Xdr v) (READDIR3resfail_Xdr zero) v.
Proof.
  intros Hw. unfold READDIR3resfail_wf in Hw. destruct_and?. unfold READDIR3resfail_Xdr. fld Post_op_attr_rt. xret v.
Qed.

Lemma READDIR3res_rt n v : READDIR3res_wf v -> (READDIR3res_depth v <= n)%nat ->
  rt (READDIR3res_Xdr n v) (READDIR3res_Xdr n zero) v.
Proof.
  intros Hw Hn. unfold READDIR3res_wf in Hw. unfold READDIR3res_depth in Hn. destruct Hw as (? & Hu). unfold READDIR3res_Xdr. fld Nfsstat3_rt.
  xcase Hu. { destruct_and?. fld READDIR3resok_rt. xret v. }
  destruct_and?. fld READDIR3resfail_rt. xret v.
Qed.

Lemma READDIRPLUS3args_rt v : READDIRPLUS3args_wf v -> rt (READDIRPLUS3args_Xdr v) (READDIRPLUS3args_Xdr zero) v.
Proof.
  intros Hw. unfold READDIRPLUS3args_wf in Hw. destruct_and?. unfold READDIRPLUS3args_Xdr. fld Nfs_fh3_rt. fld Cookie3_rt. fld Cookieverf3_rt. fld Count3_rt. fld Count3_rt. xret v.
Qed.

Lemma Entryplus3_rt n v : Entryplus3_wf v -> (Entryplus3_depth v <= n)%nat ->
  rt (Entryplus3_Xdr n v) (Entryplus3_Xdr n zero) v.
Proof.
  revert v. induction n as [|n IH]; intros [Fileid Name Cookie Name_attributes Name_handle Nextentry] Hw Hn; [simpl in Hn; lia|].
  cbn [Entryplus3_wf Entryplus3_depth] in Hw, Hn. destruct_and?. cbn [Entryplus3_Xdr].
 fld Fileid3_rt. fld Filename3_rt. fld Cookie3_rt. fld Post_op_attr_rt. fld Post_op_fh3_rt. fld_opt_rec IH Nextentry Entryplus3_rt. apply rt_ret.
Qed.

Lemma Dirlistplus3_rt n v : Dirlistplus3_wf v -> (Dirlistplus3_depth v <= n)%nat ->
  rt (Dirlistplus3_Xdr n v) (Dirlistplus3_Xdr n zero) v.
Proof.
  intros Hw Hn. unfold Dirlistplus3_wf in Hw. unfold Dirlistplus3_depth in Hn. destruct_and?. unfold Dirlistplus3_Xdr. fld_opt Entryplus3_rt. fld_bool. xret v.
Qed.

Lemma READDIRPLUS3resok_rt n v : READDIRPLUS3resok_wf v -> (READDIRPLUS3resok_depth v <= n)%nat ->
  rt (READDIRPLUS3resok_Xdr n v) (READDIRPLUS3resok_Xdr n zero) v.
Proof.
  intros Hw Hn. unfold READDIRPLUS3resok_wf in Hw. unfold READDIRPLUS3resok_depth in Hn. destruct_and?. unfold READDIRPLUS3resok_Xdr. fld Post_op_attr_rt. fld Cookieverf3_rt. fld Dirlistplus3_rt. xret v.
Qed.

Lemma READDIRPLUS3resfail_rt v : READDIRPLUS3resfail_wf v -> rt (READDIRPLUS3resfail_Xdr v) (READDIRPLUS3resfail_Xdr zero) v.
Proof.
  intros Hw. unfold READDIRPLUS3resfail_wf in Hw. destruct_and?. unfold READDIRPLUS3resfail_Xdr. fld Post_op_attr_rt. xret v.
Qed.

Lemma READDIRPLUS3res_rt n v : READDIRPLUS3res_wf v -> (READDIRPLUS3res_depth v <= n)%nat ->
  rt (READDIRPLUS3res_Xdr n v) (READDIRPLUS3res_Xdr n zero) v.
Proof.
  intros Hw Hn. unfold READDIRPLUS3res_wf in Hw. unfold READDIRPLUS3res_depth in Hn. destruct Hw as (? & Hu). unfold READDIRPLUS3res_Xdr. fld Nfsstat3_rt.
  xcase Hu. { destruct_and?. fld READDIRPLUS3resok_rt. xret v. }
  destruct_and?. fld READDIRPLUS3resfail_rt. xret v.
Qed.

Lemma FSSTAT3args_rt v : FSSTAT3args_wf v -> rt (FSSTAT3args_Xdr v) (FSSTAT3args_Xdr zero) v.
Proof.
  intros Hw. unfold FSSTAT3args_wf in Hw. destruct_and?. unfold FSSTAT3args_Xdr. fld Nfs_fh3_rt. xret v.
Qed.

Lemma FSSTAT3resok_rt v : FSSTAT3resok_wf v -> rt (FSSTAT3resok_Xdr v) (FSSTAT3resok_Xdr zero) v.
Proof.
  intros Hw. unfold FSSTAT3resok_wf in Hw. destruct_and?. unfold FSSTAT3resok_Xdr. fld Post_op_attr_rt. fld Size3_rt. fld Size3_rt. fld Size3_rt. fld Size3_rt. fld Size3_rt. fld Size3_rt. fld Uint32_rt. xret v.
Qed.

Lemma FSSTAT3resfail_rt v : FSSTAT3resfail_wf v -> rt (FSSTAT3resfail_Xdr v) (FSSTAT3resfail_Xdr zero) v.
Proof.
  intros Hw. unfold FSSTAT3resfail_wf in Hw. destruct_and?. unfold FSSTAT3resfail_Xdr. fld Post_op_attr_rt. xret v.
Qed.

Lemma FSSTAT3res_rt v : FSSTAT3res_wf v -> rt (FSSTAT3res_Xdr v) (FSSTAT3res_Xdr zero) v.
Proof.
  intros Hw. unfold FSSTAT3res_wf in Hw. destruct Hw as (? & Hu). unfold FSSTAT3res_Xdr. fld Nfsstat3_rt.
  xcase Hu. { destruct_and?. fld FSSTAT3resok_rt. xret v. }
  destruct_and?. fld FSSTAT3resfail_rt. xret v.
Qed.

Lemma FSINFO3args_rt v : FSINFO3args_wf v -> rt (FSINFO3args_Xdr v) (FSINFO3args_Xdr zero) v.
Proof.
  intros Hw. unfold FSINFO3args_wf in Hw. destruct_and?. unfold FSINFO3args_Xdr. fld Nfs_fh3_rt. xret v.
Qed.

Lemma FSINFO3resok_rt v : FSINFO3resok_wf v -> rt (FSINFO3resok_Xdr v) (FSINFO3resok_Xdr zero) v.
Proof.
  intros Hw. unfold FSINFO3resok_wf in Hw. destruct_and?. unfold FSINFO3resok_Xdr. fld Post_op_attr_rt. fld Uint32_rt. fld Uint32_rt. fld Uint32_rt. fld Uint32_rt. fld Uint32_rt. fld Uint32_rt. fld Uint32_rt. fld Size3_rt. fld Nfstime3_rt. fld Uint32_rt. xret v.
Qed.

Lemma FSINFO3resfail_rt v : FSINFO3resfail_wf v -> rt (FSINFO3resfail_Xdr v) (FSINFO3resfail_Xdr zero) v.
Proof.
  intros Hw. unfold FSINFO3resfail_wf in Hw. destruct_and?. unfold FSINFO3resfail_Xdr. fld Post_op_attr_rt. xret v.
Qed.

Lemma FSINFO3res_rt v : FSINFO3res_wf v -> rt (FSINFO3res_Xdr v) (FSINFO3res_Xdr zero) v.
Proof.
  intros Hw. unfold FSINFO3res_wf in Hw. destruct Hw as (? & Hu). unfold FSINFO3res_Xdr. fld Nfsstat3_rt.
  xcase Hu. { destruct_and?. fld FSINFO3resok_rt. xret v. }
  destruct_and?. fld FSINFO3resfail_rt. xret v.
Qed.

Lemma PATHCONF3args_rt v : PATHCONF3args_wf v -> rt (PATHCONF3args_Xdr v) (PATHCONF3args_Xdr zero) v.
Proof.
  intros Hw. unfold PATHCONF3args_wf in Hw. destruct_and?. unfold PATHCONF3args_Xdr. fld Nfs_fh3_rt. xret v.
Qed.

Lemma PATHCONF3resok_rt v : PATHCONF3resok_wf v -> rt (PATHCONF3resok_Xdr v) (PATHCONF3resok_Xdr zero) v.
Proof.
  intros Hw. unfold PATHCONF3resok_wf in Hw. destruct_and?. unfold PATHCONF3resok_Xdr. fld Post_op_attr_rt. fld Uint32_rt. fld Uint32_rt. fld_bool. fld_bool. fld_bool. fld_bool. xret v.
Qed.

Lemma PATHCONF3resfail_rt v : PATHCONF3resfail_wf v -> rt (PATHCONF3resfail_Xdr v) (PATHCONF3resfail_Xdr zero) v.
Proof.
  intros Hw. unfold PATHCONF3resfail_wf in Hw. destruct_and?. unfold PATHCONF3resfail_Xdr. fld Post_op_attr_rt. xret v.
Qed.

Lemma PATHCONF3res_rt v : PATHCONF3res_wf v -> rt (PATHCONF3res_Xdr v) (PATHCONF3res_Xdr zero) v.
Proof.
  intros Hw. unfold PATHCONF3res_wf in Hw. destruct Hw as (? & Hu). unfold PATHCONF3res_Xdr. fld Nfsstat3_rt.
  xcase Hu. { destruct_and?. fld PATHCONF3resok_rt. xret v. }
  destruct_and?. fld PATHCONF3resfail_rt. xret v.
Qed.

Lemma COMMIT3args_rt v : COMMIT3args_wf v -> rt (COMMIT3args_Xdr v) (COMMIT3args_Xdr zero) v.
Proof.
  intros Hw. unfold COMMIT3args_wf in Hw. destruct_and?. unfold COMMIT3args_Xdr. fld Nfs_fh3_rt. fld Offset3_rt. fld Count3_rt. xret v.
Qed.

Lemma COMMIT3resok_rt v : COMMIT3resok_wf v -> rt (COMMIT3resok_Xdr v) (COMMIT3resok_Xdr zero) v.
Proof.
  intros Hw. unfold COMMIT3resok_wf in Hw. destruct_and?. unfold COMMIT3resok_Xdr. fld Wcc_data_rt. fld Writeverf3_rt. xret v.
Qed.

Lemma COMMIT3resfail_rt v : COMMIT3resfail_wf v -> rt (COMMIT3resfail_Xdr v) (COMMIT3resfail_Xdr zero) v.
Proof.
  intros Hw. unfold COMMIT3resfail_wf in Hw. destruct_and?. unfold COMMIT3resfail_Xdr. fld Wcc_data_rt. xret v.
Qed.

Lemma COMMIT3res_rt v : COMMIT3res_wf v -> rt (COMMIT3res_Xdr v) (COMMIT3res_Xdr zero) v.
Proof.
  intros Hw. unfold COMMIT3res_wf in Hw. destruct Hw as (? & Hu). unfold COMMIT3res_Xdr. fld Nfsstat3_rt.
  xcase Hu. { destruct_and?. fld COMMIT3resok_rt. xret v. }
  destruct_and?. fld COMMIT3resfail_rt. xret v.
Qed.

Lemma Fhandle3_rt v : Fhandle3_wf v -> rt (Fhandle3_Xdr v) (Fhandle3_Xdr zero) v.
Proof. intros Hw. eapply rt_prim. by apply XdrVarArray_codes. Qed.

Lemma Dirpath3_rt v : Dirpath3_wf v -> rt (Dirpath3_Xdr v) (Dirpath3_Xdr zero) v.
Proof. intros Hw. eapply rt_prim. by apply XdrString_codes. Qed.

Lemma Name3_rt v : Name3_wf v -> rt (Name3_Xdr v) (Name3_Xdr zero) v.
Proof. intros Hw. eapply rt_prim. by apply XdrString_codes. Qed.

Lemma Mountstat3_rt v : Mountstat3_wf v -> rt (Mountstat3_Xdr v) (Mountstat3_Xdr zero) v.
Proof. intros Hw. eapply rt_prim. by apply XdrU32_codes. Qed.

Lemma Mountres3_ok_rt v : Mountres3_ok_wf v -> rt (Mountres3_ok_Xdr v) (Mountres3_ok_Xdr zero) v.
Proof.
  intros Hw. unfold Mountres3_ok_wf in Hw. destruct_and?. unfold Mountres3_ok_Xdr. fld Fhandle3_rt. fld flavors_rt. xret v.
Qed.

Lemma Mountres3_rt v : Mountres3_wf v -> rt (Mountres3_Xdr v) (Mountres3_Xdr zero) v.
Proof.
  intros Hw. unfold Mountres3_wf in Hw. destruct Hw as (? & Hu). unfold Mountres3_Xdr. fld Mountstat3_rt.
  xcase Hu. { destruct_and?. fld Mountres3_ok_rt. xret v. }
  destruct_and?. xret v.
Qed.

Lemma Mount3_rt n v : Mount3_wf v -> (Mount3_depth v <= n)%nat ->
  rt (Mount3_Xdr n v) (Mount3_Xdr n zero) v.
Proof.
  revert v. induction n as [|n IH]; intros [Ml_hostname Ml_directory Ml_next] Hw Hn; [simpl in Hn; lia|].
  cbn [Mount3_wf Mount3_depth] in Hw, Hn. destruct_and?. cbn [Mount3_Xdr].
 fld Name3_rt. fld Dirpath3_rt. fld_opt_rec IH Ml_next Mount3_rt. apply rt_ret.
Qed.

Lemma Mountopt3_rt n v : Mountopt3_wf v -> (Mountopt3_depth v <= n)%nat ->
  rt (Mountopt3_Xdr n v) (Mountopt3_Xdr n zero) v.
Proof.
  intros Hw Hn. unfold Mountopt3_wf in Hw. unfold Mountopt3_depth in Hn. destruct_and?. unfold Mountopt3_Xdr. fld_opt Mount3_rt. xret v.
Qed.

Lemma Groups3_rt n v : Groups3_wf v -> (Groups3_depth v <= n)%nat ->
  rt (Groups3_Xdr n v) (Groups3_Xdr n zero) v.
Proof.
  revert v. induction n as [|n IH]; intros [Gr_name Gr_next] Hw Hn; [simpl in Hn; lia|].
  cbn [Groups3_wf Groups3_depth] in Hw, Hn. destruct_and?. cbn [Groups3_Xdr].
 fld Name3_rt. fld_opt_rec IH Gr_next Groups3_rt. apply rt_ret.
Qed.

Lemma Exports3_rt n v : Exports3_wf v -> (Exports3_depth v <= n)%nat ->
  rt (Exports3_Xdr n v) (Exports3_Xdr n zero) v.
Proof.
  revert v. induction n as [|n IH]; intros [Ex_dir Ex_groups Ex_next] Hw Hn; [simpl in Hn; lia|].
  cbn [Exports3_wf Exports3_depth] in Hw, Hn. destruct_and?. cbn [Exports3_Xdr].
 fld Dirpath3_rt. fld_opt_rec IH Ex_groups Groups3_rt. fld_opt_rec IH Ex_next Exports3_rt. apply rt_ret.
Qed.

Lemma Exportsopt3_rt n v : Exportsopt3_wf v -> (Exportsopt3_depth v <= n)%nat ->
  rt (Exportsopt3_Xdr n v) (Exportsopt3_Xdr n zero) v.
Proof.
  intros Hw Hn. unfold Exportsopt3_wf in Hw. unfold Exportsopt3_depth in Hn. destruct_and?. unfold Exportsopt3_Xdr. fld_opt Exports3_rt. xret v.
Qed.
End roundtrip.
