(* ===== verification/Rpc.v ===== *)
(** Remote procedure calls ([nfstypes/nfs_xdr.go]): the interface a server
    implements, the wrapper of each procedure, which decodes the arguments, calls
    the server and returns the reply to be encoded, and the tables that the
    server registers with the RPC library. *)
From S2P Require Import Prelude Nfstypes XdrLib Xdr XdrRt.

Record NFS_PROGRAM_NFS_V3_handler (S : Type) := mkNFS_PROGRAM_NFS_V3_handler {
  h_NFSPROC3_NULL : M S unit;
  h_NFSPROC3_GETATTR : GETATTR3args -> M S GETATTR3res;
  h_NFSPROC3_SETATTR : SETATTR3args -> M S SETATTR3res;
  h_NFSPROC3_LOOKUP : LOOKUP3args -> M S LOOKUP3res;
  h_NFSPROC3_ACCESS : ACCESS3args -> M S ACCESS3res;
  h_NFSPROC3_READLINK : READLINK3args -> M S READLINK3res;
  h_NFSPROC3_READ : READ3args -> M S READ3res;
  h_NFSPROC3_WRITE : WRITE3args -> M S WRITE3res;
  h_NFSPROC3_CREATE : CREATE3args -> M S CREATE3res;
  h_NFSPROC3_MKDIR : MKDIR3args -> M S MKDIR3res;
  h_NFSPROC3_SYMLINK : SYMLINK3args -> M S SYMLINK3res;
  h_NFSPROC3_MKNOD : MKNOD3args -> M S MKNOD3res;
  h_NFSPROC3_REMOVE : REMOVE3args -> M S REMOVE3res;
  h_NFSPROC3_RMDIR : RMDIR3args -> M S RMDIR3res;
  h_NFSPROC3_RENAME : RENAME3args -> M S RENAME3res;
  h_NFSPROC3_LINK : LINK3args -> M S LINK3res;
  h_NFSPROC3_READDIR : READDIR3args -> M S READDIR3res;
  h_NFSPROC3_READDIRPLUS : READDIRPLUS3args -> M S READDIRPLUS3res;
  h_NFSPROC3_FSSTAT : FSSTAT3args -> M S FSSTAT3res;
  h_NFSPROC3_FSINFO : FSINFO3args -> M S FSINFO3res;
  h_NFSPROC3_PATHCONF : PATHCONF3args -> M S PATHCONF3res;
  h_NFSPROC3_COMMIT : COMMIT3args -> M S COMMIT3res;
}.
Arguments h_NFSPROC3_NULL {S}.
Arguments h_NFSPROC3_GETATTR {S}.
Arguments h_NFSPROC3_SETATTR {S}.
Arguments h_NFSPROC3_LOOKUP {S}.
Arguments h_NFSPROC3_ACCESS {S}.
Arguments h_NFSPROC3_READLINK {S}.
Arguments h_NFSPROC3_READ {S}.
Arguments h_NFSPROC3_WRITE {S}.
Arguments h_NFSPROC3_CREATE {S}.
Arguments h_NFSPROC3_MKDIR {S}.
Arguments h_NFSPROC3_SYMLINK {S}.
Arguments h_NFSPROC3_MKNOD {S}.
Arguments h_NFSPROC3_REMOVE {S}.
Arguments h_NFSPROC3_RMDIR {S}.
Arguments h_NFSPROC3_RENAME {S}.
Arguments h_NFSPROC3_LINK {S}.
Arguments h_NFSPROC3_READDIR {S}.
Arguments h_NFSPROC3_READDIRPLUS {S}.
Arguments h_NFSPROC3_FSSTAT {S}.
Arguments h_NFSPROC3_FSINFO {S}.
Arguments h_NFSPROC3_PATHCONF {S}.
Arguments h_NFSPROC3_COMMIT {S}.

Record MOUNT_PROGRAM_MOUNT_V3_handler (S : Type) := mkMOUNT_PROGRAM_MOUNT_V3_handler {
  h_MOUNTPROC3_NULL : M S unit;
  h_MOUNTPROC3_MNT : list Z -> M S Mountres3;
  h_MOUNTPROC3_DUMP : M S Mountopt3;
  h_MOUNTPROC3_UMNT : list Z -> M S unit;
  h_MOUNTPROC3_UMNTALL : M S unit;
  h_MOUNTPROC3_EXPORT : M S Exportsopt3;
}.
Arguments h_MOUNTPROC3_NULL {S}.
Arguments h_MOUNTPROC3_MNT {S}.
Arguments h_MOUNTPROC3_DUMP {S}.
Arguments h_MOUNTPROC3_UMNT {S}.
Arguments h_MOUNTPROC3_UMNTALL {S}.
Arguments h_MOUNTPROC3_EXPORT {S}.

Section rpc.
Context `{!XdrPkg}.

(** [in.Xdr(args)], [args.Error()], the call, and [&out]: the encoder of the
    reply, or none for an error.  [xdr.Void] has no wire form. *)
Definition serve_call {S A R} (in_Xdr : M XdrState A) (out_Xdr : R -> M XdrState R)
    (h : A -> M S R) (args : XdrState) : M S (option (M XdrState unit)) :=
  '(in_, args) ← lift (in_Xdr args);
  if Error args then mret None
  else
    out ← h in_;
    mret (Some (_ ← out_Xdr out; mret tt)).

Definition Void_Xdr (v : unit) : M XdrState unit := mret v.

Record ProcRegistration (S : Type) := mkReg {
  Prog : Z;
  Vers : Z;
  Proc : Z;
  Handler : XdrState -> M S (option (M XdrState unit));
}.
Arguments mkReg {S}.
Arguments Prog {S}.
Arguments Vers {S}.
Arguments Proc {S}.
Arguments Handler {S}.

Definition w_NFSPROC3_NULL {S} (h : NFS_PROGRAM_NFS_V3_handler S) (args : XdrState) : M S (option (M XdrState unit)) :=
  out ← h_NFSPROC3_NULL h; mret (Some (_ ← Void_Xdr out; mret tt)).

Definition w_NFSPROC3_GETATTR {S} (h : NFS_PROGRAM_NFS_V3_handler S) (args : XdrState) : M S (option (M XdrState unit)) :=
  serve_call (GETATTR3args_Xdr zero) GETATTR3res_Xdr (h_NFSPROC3_GETATTR h) args.

Definition w_NFSPROC3_SETATTR {S} (h : NFS_PROGRAM_NFS_V3_handler S) (args : XdrState) : M S (option (M XdrState unit)) :=
  serve_call (SETATTR3args_Xdr zero) SETATTR3res_Xdr (h_NFSPROC3_SETATTR h) args.

Definition w_NFSPROC3_LOOKUP {S} (h : NFS_PROGRAM_NFS_V3_handler S) (args : XdrState) : M S (option (M XdrState unit)) :=
  serve_call (LOOKUP3args_Xdr zero) LOOKUP3res_Xdr (h_NFSPROC3_LOOKUP h) args.

Definition w_NFSPROC3_ACCESS {S} (h : NFS_PROGRAM_NFS_V3_handler S) (args : XdrState) : M S (option (M XdrState unit)) :=
  serve_call (ACCESS3args_Xdr zero) ACCESS3res_Xdr (h_NFSPROC3_ACCESS h) args.

Definition w_NFSPROC3_READLINK {S} (h : NFS_PROGRAM_NFS_V3_handler S) (args : XdrState) : M S (option (M XdrState unit)) :=
  serve_call (READLINK3args_Xdr zero) READLINK3res_Xdr (h_NFSPROC3_READLINK h) args.

Definition w_NFSPROC3_READ {S} (h : NFS_PROGRAM_NFS_V3_handler S) (args : XdrState) : M S (option (M XdrState unit)) :=
  serve_call (READ3args_Xdr zero) READ3res_Xdr (h_NFSPROC3_READ h) args.

Definition w_NFSPROC3_WRITE {S} (h : NFS_PROGRAM_NFS_V3_handler S) (args : XdrState) : M S (option (M XdrState unit)) :=
  serve_call (WRITE3args_Xdr zero) WRITE3res_Xdr (h_NFSPROC3_WRITE h) args.

Definition w_NFSPROC3_CREATE {S} (h : NFS_PROGRAM_NFS_V3_handler S) (args : XdrState) : M S (option (M XdrState unit)) :=
  serve_call (CREATE3args_Xdr zero) CREATE3res_Xdr (h_NFSPROC3_CREATE h) args.

Definition w_NFSPROC3_MKDIR {S} (h : NFS_PROGRAM_NFS_V3_handler S) (args : XdrState) : M S (option (M XdrState unit)) :=
  serve_call (MKDIR3args_Xdr zero) MKDIR3res_Xdr (h_NFSPROC3_MKDIR h) args.

Definition w_NFSPROC3_SYMLINK {S} (h : NFS_PROGRAM_NFS_V3_handler S) (args : XdrState) : M S (option (M XdrState unit)) :=
  serve_call (SYMLINK3args_Xdr zero) SYMLINK3res_Xdr (h_NFSPROC3_SYMLINK h) args.

Definition w_NFSPROC3_MKNOD {S} (h : NFS_PROGRAM_NFS_V3_handler S) (args : XdrState) : M S (option (M XdrState unit)) :=
  serve_call (MKNOD3args_Xdr zero) MKNOD3res_Xdr (h_NFSPROC3_MKNOD h) args.

Definition w_NFSPROC3_REMOVE {S} (h : NFS_PROGRAM_NFS_V3_handler S) (args : XdrState) : M S (option (M XdrState unit)) :=
  serve_call (REMOVE3args_Xdr zero) REMOVE3res_Xdr (h_NFSPROC3_REMOVE h) args.

Definition w_NFSPROC3_RMDIR {S} (h : NFS_PROGRAM_NFS_V3_handler S) (args : XdrState) : M S (option (M XdrState unit)) :=
  serve_call (RMDIR3args_Xdr zero) RMDIR3res_Xdr (h_NFSPROC3_RMDIR h) args.

Definition w_NFSPROC3_RENAME {S} (h : NFS_PROGRAM_NFS_V3_handler S) (args : XdrState) : M S (option (M XdrState unit)) :=
  serve_call (RENAME3args_Xdr zero) RENAME3res_Xdr (h_NFSPROC3_RENAME h) args.

Definition w_NFSPROC3_LINK {S} (h : NFS_PROGRAM_NFS_V3_handler S) (args : XdrState) : M S (option (M XdrState unit)) :=
  serve_call (LINK3args_Xdr zero) LINK3res_Xdr (h_NFSPROC3_LINK h) args.

Definition w_NFSPROC3_READDIR (n : nat) {S} (h : NFS_PROGRAM_NFS_V3_handler S) (args : XdrState) : M S (option (M XdrState unit)) :=
  serve_call (READDIR3args_Xdr zero) (READDIR3res_Xdr n) (h_NFSPROC3_READDIR h) args.

Definition w_NFSPROC3_READDIRPLUS (n : nat) {S} (h : NFS_PROGRAM_NFS_V3_handler S) (args : XdrState) : M S (option (M XdrState unit)) :=
  serve_call (READDIRPLUS3args_Xdr zero) (READDIRPLUS3res_Xdr n) (h_NFSPROC3_READDIRPLUS h) args.

Definition w_NFSPROC3_FSSTAT {S} (h : NFS_PROGRAM_NFS_V3_handler S) (args : XdrState) : M S (option (M XdrState unit)) :=
  serve_call (FSSTAT3args_Xdr zero) FSSTAT3res_Xdr (h_NFSPROC3_FSSTAT h) args.

Definition w_NFSPROC3_FSINFO {S} (h : NFS_PROGRAM_NFS_V3_handler S) (args : XdrState) : M S (option (M XdrState unit)) :=
  serve_call (FSINFO3args_Xdr zero) FSINFO3res_Xdr (h_NFSPROC3_FSINFO h) args.

Definition w_NFSPROC3_PATHCONF {S} (h : NFS_PROGRAM_NFS_V3_handler S) (args : XdrState) : M S (option (M XdrState unit)) :=
  serve_call (PATHCONF3args_Xdr zero) PATHCONF3res_Xdr (h_NFSPROC3_PATHCONF h) args.

Definition w_NFSPROC3_COMMIT {S} (h : NFS_PROGRAM_NFS_V3_handler S) (args : XdrState) : M S (option (M XdrState unit)) :=
  serve_call (COMMIT3args_Xdr zero) COMMIT3res_Xdr (h_NFSPROC3_COMMIT h) args.

Definition NFS_PROGRAM_NFS_V3_regs (n : nat) {S} (h : NFS_PROGRAM_NFS_V3_handler S) : list (ProcRegistration S) :=
  [mkReg NFS_PROGRAM NFS_V3 NFSPROC3_NULL (w_NFSPROC3_NULL h);
   mkReg NFS_PROGRAM NFS_V3 NFSPROC3_GETATTR (w_NFSPROC3_GETATTR h);
   mkReg NFS_PROGRAM NFS_V3 NFSPROC3_SETATTR (w_NFSPROC3_SETATTR h);
   mkReg NFS_PROGRAM NFS_V3 NFSPROC3_LOOKUP (w_NFSPROC3_LOOKUP h);
   mkReg NFS_PROGRAM NFS_V3 NFSPROC3_ACCESS (w_NFSPROC3_ACCESS h);
   mkReg NFS_PROGRAM NFS_V3 NFSPROC3_READLINK (w_NFSPROC3_READLINK h);
   mkReg NFS_PROGRAM NFS_V3 NFSPROC3_READ (w_NFSPROC3_READ h);
   mkReg NFS_PROGRAM NFS_V3 NFSPROC3_WRITE (w_NFSPROC3_WRITE h);
   mkReg NFS_PROGRAM NFS_V3 NFSPROC3_CREATE (w_NFSPROC3_CREATE h);
   mkReg NFS_PROGRAM NFS_V3 NFSPROC3_MKDIR (w_NFSPROC3_MKDIR h);
   mkReg NFS_PROGRAM NFS_V3 NFSPROC3_SYMLINK (w_NFSPROC3_SYMLINK h);
   mkReg NFS_PROGRAM NFS_V3 NFSPROC3_MKNOD (w_NFSPROC3_MKNOD h);
   mkReg NFS_PROGRAM NFS_V3 NFSPROC3_REMOVE (w_NFSPROC3_REMOVE h);
   mkReg NFS_PROGRAM NFS_V3 NFSPROC3_RMDIR (w_NFSPROC3_RMDIR h);
   mkReg NFS_PROGRAM NFS_V3 NFSPROC3_RENAME (w_NFSPROC3_RENAME h);
   mkReg NFS_PROGRAM NFS_V3 NFSPROC3_LINK (w_NFSPROC3_LINK h);
   mkReg NFS_PROGRAM NFS_V3 NFSPROC3_READDIR (w_NFSPROC3_READDIR n h);
   mkReg NFS_PROGRAM NFS_V3 NFSPROC3_READDIRPLUS (w_NFSPROC3_READDIRPLUS n h);
   mkReg NFS_PROGRAM NFS_V3 NFSPROC3_FSSTAT (w_NFSPROC3_FSSTAT h);
   mkReg NFS_PROGRAM NFS_V3 NFSPROC3_FSINFO (w_NFSPROC3_FSINFO h);
   mkReg NFS_PROGRAM NFS_V3 NFSPROC3_PATHCONF (w_NFSPROC3_PATHCONF h);
   mkReg NFS_PROGRAM NFS_V3 NFSPROC3_COMMIT (w_NFSPROC3_COMMIT h)].

Definition w_MOUNTPROC3_NULL {S} (h : MOUNT_PROGRAM_MOUNT_V3_handler S) (args : XdrState) : M S (option (M XdrState unit)) :=
  out ← h_MOUNTPROC3_NULL h; mret (Some (_ ← Void_Xdr out; mret tt)).

Definition w_MOUNTPROC3_MNT {S} (h : MOUNT_PROGRAM_MOUNT_V3_handler S) (args : XdrState) : M S (option (M XdrState unit)) :=
  serve_call (Dirpath3_Xdr zero) Mountres3_Xdr (h_MOUNTPROC3_MNT h) args.

Definition w_MOUNTPROC3_DUMP (n : nat) {S} (h : MOUNT_PROGRAM_MOUNT_V3_handler S) (args : XdrState) : M S (option (M XdrState unit)) :=
  out ← h_MOUNTPROC3_DUMP h; mret (Some (_ ← (Mountopt3_Xdr n) out; mret tt)).

Definition w_MOUNTPROC3_UMNT {S} (h : MOUNT_PROGRAM_MOUNT_V3_handler S) (args : XdrState) : M S (option (M XdrState unit)) :=
  serve_call (Dirpath3_Xdr zero) Void_Xdr (h_MOUNTPROC3_UMNT h) args.

Definition w_MOUNTPROC3_UMNTALL {S} (h : MOUNT_PROGRAM_MOUNT_V3_handler S) (args : XdrState) : M S (option (M XdrState unit)) :=
  out ← h_MOUNTPROC3_UMNTALL h; mret (Some (_ ← Void_Xdr out; mret tt)).

Definition w_MOUNTPROC3_EXPORT (n : nat) {S} (h : MOUNT_PROGRAM_MOUNT_V3_handler S) (args : XdrState) : M S (option (M XdrState unit)) :=
  out ← h_MOUNTPROC3_EXPORT h; mret (Some (_ ← (Exportsopt3_Xdr n) out; mret tt)).

Definition MOUNT_PROGRAM_MOUNT_V3_regs (n : nat) {S} (h : MOUNT_PROGRAM_MOUNT_V3_handler S) : list (ProcRegistration S) :=
  [mkReg MOUNT_PROGRAM MOUNT_V3 MOUNTPROC3_NULL (w_MOUNTPROC3_NULL h);
   mkReg MOUNT_PROGRAM MOUNT_V3 MOUNTPROC3_MNT (w_MOUNTPROC3_MNT h);
   mkReg MOUNT_PROGRAM MOUNT_V3 MOUNTPROC3_DUMP (w_MOUNTPROC3_DUMP n h);
   mkReg MOUNT_PROGRAM MOUNT_V3 MOUNTPROC3_UMNT (w_MOUNTPROC3_UMNT h);
   mkReg MOUNT_PROGRAM MOUNT_V3 MOUNTPROC3_UMNTALL (w_MOUNTPROC3_UMNTALL h);
   mkReg MOUNT_PROGRAM MOUNT_V3 MOUNTPROC3_EXPORT (w_MOUNTPROC3_EXPORT n h)].

(** ** The procedures with their argument and result types *)

Inductive rpc : Type -> Type -> Type :=
| P_NFSPROC3_NULL : rpc unit unit
| P_NFSPROC3_GETATTR : rpc (GETATTR3args) GETATTR3res
| P_NFSPROC3_SETATTR : rpc (SETATTR3args) SETATTR3res
| P_NFSPROC3_LOOKUP : rpc (LOOKUP3args) LOOKUP3res
| P_NFSPROC3_ACCESS : rpc (ACCESS3args) ACCESS3res
| P_NFSPROC3_READLINK : rpc (READLINK3args) READLINK3res
| P_NFSPROC3_READ : rpc (READ3args) READ3res
| P_NFSPROC3_WRITE : rpc (WRITE3args) WRITE3res
| P_NFSPROC3_CREATE : rpc (CREATE3args) CREATE3res
| P_NFSPROC3_MKDIR : rpc (MKDIR3args) MKDIR3res
| P_NFSPROC3_SYMLINK : rpc (SYMLINK3args) SYMLINK3res
| P_NFSPROC3_MKNOD : rpc (MKNOD3args) MKNOD3res
| P_NFSPROC3_REMOVE : rpc (REMOVE3args) REMOVE3res
| P_NFSPROC3_RMDIR : rpc (RMDIR3args) RMDIR3res
| P_NFSPROC3_RENAME : rpc (RENAME3args) RENAME3res
| P_NFSPROC3_LINK : rpc (LINK3args) LINK3res
| P_NFSPROC3_READDIR : rpc (READDIR3args) READDIR3res
| P_NFSPROC3_READDIRPLUS : rpc (READDIRPLUS3args) READDIRPLUS3res
| P_NFSPROC3_FSSTAT : rpc (FSSTAT3args) FSSTAT3res
| P_NFSPROC3_FSINFO : rpc (FSINFO3args) FSINFO3res
| P_NFSPROC3_PATHCONF : rpc (PATHCONF3args) PATHCONF3res
| P_NFSPROC3_COMMIT : rpc (COMMIT3args) COMMIT3res
| P_MOUNTPROC3_NULL : rpc unit unit
| P_MOUNTPROC3_MNT : rpc (list Z) Mountres3
| P_MOUNTPROC3_DUMP : rpc unit Mountopt3
| P_MOUNTPROC3_UMNT : rpc (list Z) unit
| P_MOUNTPROC3_UMNTALL : rpc unit unit
| P_MOUNTPROC3_EXPORT : rpc unit Exportsopt3.

Definition rpc_prog {A R} (p : rpc A R) : Z :=
  match p in rpc A R return Z with
  | P_NFSPROC3_NULL => NFS_PROGRAM
  | P_NFSPROC3_GETATTR => NFS_PROGRAM
  | P_NFSPROC3_SETATTR => NFS_PROGRAM
  | P_NFSPROC3_LOOKUP => NFS_PROGRAM
  | P_NFSPROC3_ACCESS => NFS_PROGRAM
  | P_NFSPROC3_READLINK => NFS_PROGRAM
  | P_NFSPROC3_READ => NFS_PROGRAM
  | P_NFSPROC3_WRITE => NFS_PROGRAM
  | P_NFSPROC3_CREATE => NFS_PROGRAM
  | P_NFSPROC3_MKDIR => NFS_PROGRAM
  | P_NFSPROC3_SYMLINK => NFS_PROGRAM
  | P_NFSPROC3_MKNOD => NFS_PROGRAM
  | P_NFSPROC3_REMOVE => NFS_PROGRAM
  | P_NFSPROC3_RMDIR => NFS_PROGRAM
  | P_NFSPROC3_RENAME => NFS_PROGRAM
  | P_NFSPROC3_LINK => NFS_PROGRAM
  | P_NFSPROC3_READDIR => NFS_PROGRAM
  | P_NFSPROC3_READDIRPLUS => NFS_PROGRAM
  | P_NFSPROC3_FSSTAT => NFS_PROGRAM
  | P_NFSPROC3_FSINFO => NFS_PROGRAM
  | P_NFSPROC3_PATHCONF => NFS_PROGRAM
  | P_NFSPROC3_COMMIT => NFS_PROGRAM
  | P_MOUNTPROC3_NULL => MOUNT_PROGRAM
  | P_MOUNTPROC3_MNT => MOUNT_PROGRAM
  | P_MOUNTPROC3_DUMP => MOUNT_PROGRAM
  | P_MOUNTPROC3_UMNT => MOUNT_PROGRAM
  | P_MOUNTPROC3_UMNTALL => MOUNT_PROGRAM
  | P_MOUNTPROC3_EXPORT => MOUNT_PROGRAM
  end.

Definition rpc_num {A R} (p : rpc A R) : Z :=
  match p in rpc A R return Z with
  | P_NFSPROC3_NULL => NFSPROC3_NULL
  | P_NFSPROC3_GETATTR => NFSPROC3_GETATTR
  | P_NFSPROC3_SETATTR => NFSPROC3_SETATTR
  | P_NFSPROC3_LOOKUP => NFSPROC3_LOOKUP
  | P_NFSPROC3_ACCESS => NFSPROC3_ACCESS
  | P_NFSPROC3_READLINK => NFSPROC3_READLINK
  | P_NFSPROC3_READ => NFSPROC3_READ
  | P_NFSPROC3_WRITE => NFSPROC3_WRITE
  | P_NFSPROC3_CREATE => NFSPROC3_CREATE
  | P_NFSPROC3_MKDIR => NFSPROC3_MKDIR
  | P_NFSPROC3_SYMLINK => NFSPROC3_SYMLINK
  | P_NFSPROC3_MKNOD => NFSPROC3_MKNOD
  | P_NFSPROC3_REMOVE => NFSPROC3_REMOVE
  | P_NFSPROC3_RMDIR => NFSPROC3_RMDIR
  | P_NFSPROC3_RENAME => NFSPROC3_RENAME
  | P_NFSPROC3_LINK => NFSPROC3_LINK
  | P_NFSPROC3_READDIR => NFSPROC3_READDIR
  | P_NFSPROC3_READDIRPLUS => NFSPROC3_READDIRPLUS
  | P_NFSPROC3_FSSTAT => NFSPROC3_FSSTAT
  | P_NFSPROC3_FSINFO => NFSPROC3_FSINFO
  | P_NFSPROC3_PATHCONF => NFSPROC3_PATHCONF
  | P_NFSPROC3_COMMIT => NFSPROC3_COMMIT
  | P_MOUNTPROC3_NULL => MOUNTPROC3_NULL
  | P_MOUNTPROC3_MNT => MOUNTPROC3_MNT
  | P_MOUNTPROC3_DUMP => MOUNTPROC3_DUMP
  | P_MOUNTPROC3_UMNT => MOUNTPROC3_UMNT
  | P_MOUNTPROC3_UMNTALL => MOUNTPROC3_UMNTALL
  | P_MOUNTPROC3_EXPORT => MOUNTPROC3_EXPORT
  end.

(** The servers of the two programs, and the table [main] registers. *)
Record server (S : Type) := mkServer {
  nfs : NFS_PROGRAM_NFS_V3_handler S;
  mount : MOUNT_PROGRAM_MOUNT_V3_handler S;
}.
Arguments nfs {S}.
Arguments mount {S}.
Arguments mkServer {S}.

Definition RegisterMany (n : nat) {S} (h : server S) : list (ProcRegistration S) :=
  MOUNT_PROGRAM_MOUNT_V3_regs n (mount h) ++ NFS_PROGRAM_NFS_V3_regs n (nfs h).

(** The registration of a call. *)
Definition find_reg {S} (prog vers proc : Z) (regs : list (ProcRegistration S))
    : option (ProcRegistration S) :=
  find (fun r => (Prog r =? prog) && (Vers r =? vers) && (Proc r =? proc)) regs.

Definition rpc_handler {S} (h : server S) {A R} (p : rpc A R) : A -> M S R :=
  match p in rpc A R return A -> M S R with
  | P_NFSPROC3_NULL => fun _ => h_NFSPROC3_NULL (nfs h)
  | P_NFSPROC3_GETATTR => h_NFSPROC3_GETATTR (nfs h)
  | P_NFSPROC3_SETATTR => h_NFSPROC3_SETATTR (nfs h)
  | P_NFSPROC3_LOOKUP => h_NFSPROC3_LOOKUP (nfs h)
  | P_NFSPROC3_ACCESS => h_NFSPROC3_ACCESS (nfs h)
  | P_NFSPROC3_READLINK => h_NFSPROC3_READLINK (nfs h)
  | P_NFSPROC3_READ => h_NFSPROC3_READ (nfs h)
  | P_NFSPROC3_WRITE => h_NFSPROC3_WRITE (nfs h)
  | P_NFSPROC3_CREATE => h_NFSPROC3_CREATE (nfs h)
  | P_NFSPROC3_MKDIR => h_NFSPROC3_MKDIR (nfs h)
  | P_NFSPROC3_SYMLINK => h_NFSPROC3_SYMLINK (nfs h)
  | P_NFSPROC3_MKNOD => h_NFSPROC3_MKNOD (nfs h)
  | P_NFSPROC3_REMOVE => h_NFSPROC3_REMOVE (nfs h)
  | P_NFSPROC3_RMDIR => h_NFSPROC3_RMDIR (nfs h)
  | P_NFSPROC3_RENAME => h_NFSPROC3_RENAME (nfs h)
  | P_NFSPROC3_LINK => h_NFSPROC3_LINK (nfs h)
  | P_NFSPROC3_READDIR => h_NFSPROC3_READDIR (nfs h)
  | P_NFSPROC3_READDIRPLUS => h_NFSPROC3_READDIRPLUS (nfs h)
  | P_NFSPROC3_FSSTAT => h_NFSPROC3_FSSTAT (nfs h)
  | P_NFSPROC3_FSINFO => h_NFSPROC3_FSINFO (nfs h)
  | P_NFSPROC3_PATHCONF => h_NFSPROC3_PATHCONF (nfs h)
  | P_NFSPROC3_COMMIT => h_NFSPROC3_COMMIT (nfs h)
  | P_MOUNTPROC3_NULL => fun _ => h_MOUNTPROC3_NULL (mount h)
  | P_MOUNTPROC3_MNT => h_MOUNTPROC3_MNT (mount h)
  | P_MOUNTPROC3_DUMP => fun _ => h_MOUNTPROC3_DUMP (mount h)
  | P_MOUNTPROC3_UMNT => h_MOUNTPROC3_UMNT (mount h)
  | P_MOUNTPROC3_UMNTALL => fun _ => h_MOUNTPROC3_UMNTALL (mount h)
  | P_MOUNTPROC3_EXPORT => fun _ => h_MOUNTPROC3_EXPORT (mount h)
  end.

Definition rpc_args_Xdr {A R} (p : rpc A R) : A -> M XdrState A :=
  match p in rpc A R return A -> M XdrState A with
  | P_NFSPROC3_NULL => Void_Xdr
  | P_NFSPROC3_GETATTR => GETATTR3args_Xdr
  | P_NFSPROC3_SETATTR => SETATTR3args_Xdr
  | P_NFSPROC3_LOOKUP => LOOKUP3args_Xdr
  | P_NFSPROC3_ACCESS => ACCESS3args_Xdr
  | P_NFSPROC3_READLINK => READLINK3args_Xdr
  | P_NFSPROC3_READ => READ3args_Xdr
  | P_NFSPROC3_WRITE => WRITE3args_Xdr
  | P_NFSPROC3_CREATE => CREATE3args_Xdr
  | P_NFSPROC3_MKDIR => MKDIR3args_Xdr
  | P_NFSPROC3_SYMLINK => SYMLINK3args_Xdr
  | P_NFSPROC3_MKNOD => MKNOD3args_Xdr
  | P_NFSPROC3_REMOVE => REMOVE3args_Xdr
  | P_NFSPROC3_RMDIR => RMDIR3args_Xdr
  | P_NFSPROC3_RENAME => RENAME3args_Xdr
  | P_NFSPROC3_LINK => LINK3args_Xdr
  | P_NFSPROC3_READDIR => READDIR3args_Xdr
  | P_NFSPROC3_READDIRPLUS => READDIRPLUS3args_Xdr
  | P_NFSPROC3_FSSTAT => FSSTAT3args_Xdr
  | P_NFSPROC3_FSINFO => FSINFO3args_Xdr
  | P_NFSPROC3_PATHCONF => PATHCONF3args_Xdr
  | P_NFSPROC3_COMMIT => COMMIT3args_Xdr
  | P_MOUNTPROC3_NULL => Void_Xdr
  | P_MOUNTPROC3_MNT => Dirpath3_Xdr
  | P_MOUNTPROC3_DUMP => Void_Xdr
  | P_MOUNTPROC3_UMNT => Dirpath3_Xdr
  | P_MOUNTPROC3_UMNTALL => Void_Xdr
  | P_MOUNTPROC3_EXPORT => Void_Xdr
  end.

Definition rpc_zero_args {A R} (p : rpc A R) : A :=
  match p in rpc A R return A with
  | P_NFSPROC3_NULL => tt
  | P_NFSPROC3_GETATTR => zero
  | P_NFSPROC3_SETATTR => zero
  | P_NFSPROC3_LOOKUP => zero
  | P_NFSPROC3_ACCESS => zero
  | P_NFSPROC3_READLINK => zero
  | P_NFSPROC3_READ => zero
  | P_NFSPROC3_WRITE => zero
  | P_NFSPROC3_CREATE => zero
  | P_NFSPROC3_MKDIR => zero
  | P_NFSPROC3_SYMLINK => zero
  | P_NFSPROC3_MKNOD => zero
  | P_NFSPROC3_REMOVE => zero
  | P_NFSPROC3_RMDIR => zero
  | P_NFSPROC3_RENAME => zero
  | P_NFSPROC3_LINK => zero
  | P_NFSPROC3_READDIR => zero
  | P_NFSPROC3_READDIRPLUS => zero
  | P_NFSPROC3_FSSTAT => zero
  | P_NFSPROC3_FSINFO => zero
  | P_NFSPROC3_PATHCONF => zero
  | P_NFSPROC3_COMMIT => zero
  | P_MOUNTPROC3_NULL => tt
  | P_MOUNTPROC3_MNT => zero
  | P_MOUNTPROC3_DUMP => tt
  | P_MOUNTPROC3_UMNT => zero
  | P_MOUNTPROC3_UMNTALL => tt
  | P_MOUNTPROC3_EXPORT => tt
  end.

Definition rpc_args_wf {A R} (p : rpc A R) : A -> Prop :=
  match p in rpc A R return A -> Prop with
  | P_NFSPROC3_NULL => fun _ => True
  | P_NFSPROC3_GETATTR => GETATTR3args_wf
  | P_NFSPROC3_SETATTR => SETATTR3args_wf
  | P_NFSPROC3_LOOKUP => LOOKUP3args_wf
  | P_NFSPROC3_ACCESS => ACCESS3args_wf
  | P_NFSPROC3_READLINK => READLINK3args_wf
  | P_NFSPROC3_READ => READ3args_wf
  | P_NFSPROC3_WRITE => WRITE3args_wf
  | P_NFSPROC3_CREATE => CREATE3args_wf
  | P_NFSPROC3_MKDIR => MKDIR3args_wf
  | P_NFSPROC3_SYMLINK => SYMLINK3args_wf
  | P_NFSPROC3_MKNOD => MKNOD3args_wf
  | P_NFSPROC3_REMOVE => REMOVE3args_wf
  | P_NFSPROC3_RMDIR => RMDIR3args_wf
  | P_NFSPROC3_RENAME => RENAME3args_wf
  | P_NFSPROC3_LINK => LINK3args_wf
  | P_NFSPROC3_READDIR => READDIR3args_wf
  | P_NFSPROC3_READDIRPLUS => READDIRPLUS3args_wf
  | P_NFSPROC3_FSSTAT => FSSTAT3args_wf
  | P_NFSPROC3_FSINFO => FSINFO3args_wf
  | P_NFSPROC3_PATHCONF => PATHCONF3args_wf
  | P_NFSPROC3_COMMIT => COMMIT3args_wf
  | P_MOUNTPROC3_NULL => fun _ => True
  | P_MOUNTPROC3_MNT => Dirpath3_wf
  | P_MOUNTPROC3_DUMP => fun _ => True
  | P_MOUNTPROC3_UMNT => Dirpath3_wf
  | P_MOUNTPROC3_UMNTALL => fun _ => True
  | P_MOUNTPROC3_EXPORT => fun _ => True
  end.

Definition rpc_res_Xdr (n : nat) {A R} (p : rpc A R) : R -> M XdrState R :=
  match p in rpc A R return R -> M XdrState R with
  | P_NFSPROC3_NULL => Void_Xdr
  | P_NFSPROC3_GETATTR => GETATTR3res_Xdr
  | P_NFSPROC3_SETATTR => SETATTR3res_Xdr
  | P_NFSPROC3_LOOKUP => LOOKUP3res_Xdr
  | P_NFSPROC3_ACCESS => ACCESS3res_Xdr
  | P_NFSPROC3_READLINK => READLINK3res_Xdr
  | P_NFSPROC3_READ => READ3res_Xdr
  | P_NFSPROC3_WRITE => WRITE3res_Xdr
  | P_NFSPROC3_CREATE => CREATE3res_Xdr
  | P_NFSPROC3_MKDIR => MKDIR3res_Xdr
  | P_NFSPROC3_SYMLINK => SYMLINK3res_Xdr
  | P_NFSPROC3_MKNOD => MKNOD3res_Xdr
  | P_NFSPROC3_REMOVE => REMOVE3res_Xdr
  | P_NFSPROC3_RMDIR => RMDIR3res_Xdr
  | P_NFSPROC3_RENAME => RENAME3res_Xdr
  | P_NFSPROC3_LINK => LINK3res_Xdr
  | P_NFSPROC3_READDIR => READDIR3res_Xdr n
  | P_NFSPROC3_READDIRPLUS => READDIRPLUS3res_Xdr n
  | P_NFSPROC3_FSSTAT => FSSTAT3res_Xdr
  | P_NFSPROC3_FSINFO => FSINFO3res_Xdr
  | P_NFSPROC3_PATHCONF => PATHCONF3res_Xdr
  | P_NFSPROC3_COMMIT => COMMIT3res_Xdr
  | P_MOUNTPROC3_NULL => Void_Xdr
  | P_MOUNTPROC3_MNT => Mountres3_Xdr
  | P_MOUNTPROC3_DUMP => Mountopt3_Xdr n
  | P_MOUNTPROC3_UMNT => Void_Xdr
  | P_MOUNTPROC3_UMNTALL => Void_Xdr
  | P_MOUNTPROC3_EXPORT => Exportsopt3_Xdr n
  end.

Definition rpc_zero_res {A R} (p : rpc A R) : R :=
  match p in rpc A R return R with
  | P_NFSPROC3_NULL => tt
  | P_NFSPROC3_GETATTR => zero
  | P_NFSPROC3_SETATTR => zero
  | P_NFSPROC3_LOOKUP => zero
  | P_NFSPROC3_ACCESS => zero
  | P_NFSPROC3_READLINK => zero
  | P_NFSPROC3_READ => zero
  | P_NFSPROC3_WRITE => zero
  | P_NFSPROC3_CREATE => zero
  | P_NFSPROC3_MKDIR => zero
  | P_NFSPROC3_SYMLINK => zero
  | P_NFSPROC3_MKNOD => zero
  | P_NFSPROC3_REMOVE => zero
  | P_NFSPROC3_RMDIR => zero
  | P_NFSPROC3_RENAME => zero
  | P_NFSPROC3_LINK => zero
  | P_NFSPROC3_READDIR => zero
  | P_NFSPROC3_READDIRPLUS => zero
  | P_NFSPROC3_FSSTAT => zero
  | P_NFSPROC3_FSINFO => zero
  | P_NFSPROC3_PATHCONF => zero
  | P_NFSPROC3_COMMIT => zero
  | P_MOUNTPROC3_NULL => tt
  | P_MOUNTPROC3_MNT => zero
  | P_MOUNTPROC3_DUMP => zero
  | P_MOUNTPROC3_UMNT => tt
  | P_MOUNTPROC3_UMNTALL => tt
  | P_MOUNTPROC3_EXPORT => zero
  end.

Definition rpc_res_wf (n : nat) {A R} (p : rpc A R) : R -> Prop :=
  match p in rpc A R return R -> Prop with
  | P_NFSPROC3_NULL => fun _ => True
  | P_NFSPROC3_GETATTR => GETATTR3res_wf
  | P_NFSPROC3_SETATTR => SETATTR3res_wf
  | P_NFSPROC3_LOOKUP => LOOKUP3res_wf
  | P_NFSPROC3_ACCESS => ACCESS3res_wf
  | P_NFSPROC3_READLINK => READLINK3res_wf
  | P_NFSPROC3_READ => READ3res_wf
  | P_NFSPROC3_WRITE => WRITE3res_wf
  | P_NFSPROC3_CREATE => CREATE3res_wf
  | P_NFSPROC3_MKDIR => MKDIR3res_wf
  | P_NFSPROC3_SYMLINK => SYMLINK3res_wf
  | P_NFSPROC3_MKNOD => MKNOD3res_wf
  | P_NFSPROC3_REMOVE => REMOVE3res_wf
  | P_NFSPROC3_RMDIR => RMDIR3res_wf
  | P_NFSPROC3_RENAME => RENAME3res_wf
  | P_NFSPROC3_LINK => LINK3res_wf
  | P_NFSPROC3_READDIR => fun r => READDIR3res_wf r /\ (READDIR3res_depth r <= n)%nat
  | P_NFSPROC3_READDIRPLUS => fun r => READDIRPLUS3res_wf r /\ (READDIRPLUS3res_depth r <= n)%nat
  | P_NFSPROC3_FSSTAT => FSSTAT3res_wf
  | P_NFSPROC3_FSINFO => FSINFO3res_wf
  | P_NFSPROC3_PATHCONF => PATHCONF3res_wf
  | P_NFSPROC3_COMMIT => COMMIT3res_wf
  | P_MOUNTPROC3_NULL => fun _ => True
  | P_MOUNTPROC3_MNT => Mountres3_wf
  | P_MOUNTPROC3_DUMP => fun r => Mountopt3_wf r /\ (Mountopt3_depth r <= n)%nat
  | P_MOUNTPROC3_UMNT => fun _ => True
  | P_MOUNTPROC3_UMNTALL => fun _ => True
  | P_MOUNTPROC3_EXPORT => fun r => Exportsopt3_wf r /\ (Exportsopt3_depth r <= n)%nat
  end.

End rpc.

Arguments mkReg {_ S}.
Arguments Prog {_ S}.
Arguments Vers {_ S}.
Arguments Proc {_ S}.
Arguments Handler {_ S}.
Arguments nfs {S}.
Arguments mount {S}.
Arguments mkServer {S}.

(** ** Calls *)

Section calls.
Context `{!XdrPkg} `{!XdrPkgSpec}.

Lemma args_rt {A R} (p : rpc A R) a : rpc_args_wf p a ->
  rt (rpc_args_Xdr p a) (rpc_args_Xdr p (rpc_zero_args p)) a.
Proof.
  intros Hw. destruct p; simpl in *; destruct_and?;
    first [by apply ACCESS3args_rt|
      by apply COMMIT3args_rt|
      by apply CREATE3args_rt|
      by apply Dirpath3_rt|
      by apply FSINFO3args_rt|
      by apply FSSTAT3args_rt|
      by apply GETATTR3args_rt|
      by apply LINK3args_rt|
      by apply LOOKUP3args_rt|
      by apply MKDIR3args_rt|
      by apply MKNOD3args_rt|
      by apply PATHCONF3args_rt|
      by apply READ3args_rt|
      by apply READDIR3args_rt|
      by apply READDIRPLUS3args_rt|
      by apply READLINK3args_rt|
      by apply REMOVE3args_rt|
      by apply RENAME3args_rt|
      by apply RMDIR3args_rt|
      by apply SETATTR3args_rt|
      by apply SYMLINK3args_rt|
      by apply WRITE3args_rt|
      (destruct a; apply (rt_ret tt))].
Qed.

Lemma res_rt n {A R} (p : rpc A R) r : rpc_res_wf n p r ->
  rt (rpc_res_Xdr n p r) (rpc_res_Xdr n p (rpc_zero_res p)) r.
Proof.
  intros Hw. destruct p; simpl in *; destruct_and?;
    first [by apply ACCESS3res_rt|
      by apply COMMIT3res_rt|
      by apply CREATE3res_rt|
      by apply Exportsopt3_rt|
      by apply FSINFO3res_rt|
      by apply FSSTAT3res_rt|
      by apply GETATTR3res_rt|
      by apply LINK3res_rt|
      by apply LOOKUP3res_rt|
      by apply MKDIR3res_rt|
      by apply MKNOD3res_rt|
      by apply Mountopt3_rt|
      by apply Mountres3_rt|
      by apply PATHCONF3res_rt|
      by apply READ3res_rt|
      by apply READDIR3res_rt|
      by apply READDIRPLUS3res_rt|
      by apply READLINK3res_rt|
      by apply REMOVE3res_rt|
      by apply RENAME3res_rt|
      by apply RMDIR3res_rt|
      by apply SETATTR3res_rt|
      by apply SYMLINK3res_rt|
      by apply WRITE3res_rt|
      (destruct r; apply (rt_ret tt))].
Qed.

Lemma serve_call_eq {S A R} (in_Xdr : M XdrState A) (out_Xdr : R -> M XdrState R) (h : A -> M S R)
    args args' a s : in_Xdr args = Ok (a, args') -> reading args' ->
  serve_call in_Xdr out_Xdr h args s = (out ← h a; mret (Some (_ ← out_Xdr out; mret tt))) s.
Proof.
  intros Hin (_ & _ & He). unfold serve_call, lift. unfold mbind at 1, M_bind at 1. rewrite Hin, He. done.
Qed.

(** The registered handler of a procedure, on arguments that decode to [a]. *)
Lemma find_reg_call n {S} (h : server S) {A R} (p : rpc A R) : exists reg,
  find_reg (rpc_prog p) 3 (rpc_num p) (RegisterMany n h) = Some reg /\
  forall args args' a s, rpc_args_Xdr p (rpc_zero_args p) args = Ok (a, args') -> reading args' ->
    Handler reg args s =
      (out ← rpc_handler h p a; mret (Some (_ ← rpc_res_Xdr n p out; mret tt))) s.
Proof.
  destruct p; (eexists; split; [reflexivity|]); intros args args' a s Ha Hr;
    first [by apply (serve_call_eq _ _ _ _ args')|done].
Qed.

(** C27: a remote call of any procedure of the two programs: the arguments that
    the client writes are found by the server under the registration of the
    procedure and decoded, the procedure is called on exactly these arguments,
    and the reply it returns is what the client decodes. *)
Theorem remote_call n {S} (h : server S) {A R} (p : rpc A R) (a : A) : rpc_args_wf p a ->
  exists reg w,
    find_reg (rpc_prog p) 3 (rpc_num p) (RegisterMany n h) = Some reg /\
    (forall xs, writing xs -> exists xs', rpc_args_Xdr p a xs = Ok (a, xs') /\ writing xs' /\
       xs_out xs' = xs_out xs ++ w) /\
    (forall args r s out s', reading args -> xs_rest args = w ++ r ->
       rpc_handler h p a s = Ok (out, s') -> rpc_res_wf n p out ->
       exists enc wr, Handler reg args s = Ok (Some enc, s') /\
         (forall xs, writing xs -> exists xs', enc xs = Ok (tt, xs') /\ writing xs' /\
            xs_out xs' = xs_out xs ++ wr) /\
         (forall xs r', reading xs -> xs_rest xs = wr ++ r' -> exists xs',
            rpc_res_Xdr n p (rpc_zero_res p) xs = Ok (out, xs') /\ reading xs' /\ xs_rest xs' = r')).
Proof.
  intros Hwf. destruct (find_reg_call n h p) as (reg & Hreg & Hcall).
  destruct (args_rt p a Hwf) as (w & He & Hd). exists reg, w. split; [done|]. split; [done|].
  intros args r s out s' Hx Hr Hh Hres. destruct (Hd args r Hx Hr) as (args' & Ha & Hx' & _).
  destruct (res_rt n p out Hres) as (wr & Hwe & Hwd).
  exists (_ ← rpc_res_Xdr n p out; mret tt), wr. split; [|split; [|done]].
  - rewrite (Hcall args args' a s Ha Hx'). unfold mbind at 1, M_bind at 1. by rewrite Hh.
  - intros xs Hxs. destruct (Hwe xs Hxs) as (xs' & Hrun & Hxs' & Ho). exists xs'.
    unfold mbind, M_bind. by rewrite Hrun.
Qed.
End calls.

(** ** A server whose procedures all return the zero reply *)

Definition zero_server : server unit := {|
  nfs := mkNFS_PROGRAM_NFS_V3_handler unit (mret tt) (fun _ => mret zero) (fun _ => mret zero) (fun _ => mret zero) (fun _ => mret zero) (fun _ => mret zero) (fun _ => mret zero) (fun _ => mret zero) (fun _ => mret zero) (fun _ => mret zero) (fun _ => mret zero) (fun _ => mret zero) (fun _ => mret zero) (fun _ => mret zero) (fun _ => mret zero) (fun _ => mret zero) (fun _ => mret zero) (fun _ => mret zero) (fun _ => mret zero) (fun _ => mret zero) (fun _ => mret zero) (fun _ => mret zero);
  mount := mkMOUNT_PROGRAM_MOUNT_V3_handler unit (mret tt) (fun _ => mret zero) (mret zero) (fun _ => mret tt) (mret tt) (mret zero) |}.

Definition sample_getattr : GETATTR3args := mkGETATTR3args (mkNfs_fh3 [2; 0; 0; 0; 0; 0; 0; 0]).

Lemma remote_call_witness : exists reg w,
  find_reg NFS_PROGRAM 3 NFSPROC3_GETATTR (RegisterMany 0 zero_server) = Some reg /\
  (forall xs, writing xs -> exists xs', GETATTR3args_Xdr sample_getattr xs = Ok (sample_getattr, xs') /\
     writing xs' /\ xs_out xs' = xs_out xs ++ w) /\
  (forall args r s out s', reading args -> xs_rest args = w ++ r ->
     rpc_handler zero_server P_NFSPROC3_GETATTR sample_getattr s = Ok (out, s') -> GETATTR3res_wf out ->
     exists enc wr, Handler reg args s = Ok (Some enc, s') /\
       (forall xs, writing xs -> exists xs', enc xs = Ok (tt, xs') /\ writing xs' /\
          xs_out xs' = xs_out xs ++ wr) /\
       (forall xs r', reading xs -> xs_rest xs = wr ++ r' -> exists xs',
          GETATTR3res_Xdr zero xs = Ok (out, xs') /\ reading xs' /\ xs_rest xs' = r')).
Proof.
  apply (remote_call 0 zero_server P_NFSPROC3_GETATTR sample_getattr).
  split; [reflexivity|]. right. discriminate.
Defined.
