(* ===== verification/XdrTy.v ===== *)
(** Types of decoded arguments: whatever bytes a request holds, the [Xdr] methods
    return on them, and what they leave in the arguments has the types of the
    protocol: integers of their width, strings within their limit, and zero in
    every arm of a union that was not selected. *)
From S2P Require Import Prelude Nfstypes XdrLib Xdr XdrRt Rpc.

Section typed.
Context `{!XdrPkg} `{!XdrPkgTotal}.

(** [typed m P]: on any input [m] returns a value of [P]. *)
Definition typed {A} (m : M XdrState A) (P : A -> Prop) : Prop := forall xs, decoding xs ->
  exists v xs', m xs = Ok (v, xs') /\ decoding xs' /\ P v.

Lemma typed_ret {A} (v : A) (P : A -> Prop) : P v -> typed (mret v) P.
Proof. intros Hv xs Hx. by exists v, xs. Qed.

Lemma typed_bind {A B} (m : M XdrState A) (k : A -> M XdrState B) (P : A -> Prop) Q : typed m P ->
  (forall a, P a -> typed (k a) Q) -> typed (m ≫= k) Q.
Proof.
  intros Hm Hk xs Hx. destruct (Hm xs Hx) as (a & xs1 & Hr & Hx1 & Ha).
  destruct (Hk a Ha xs1 Hx1) as (b & xs2 & Hr2 & Hx2 & Hb). exists b, xs2.
  unfold mbind, M_bind. by rewrite Hr.
Qed.

Lemma typed_prim {A} (f : A -> XdrState -> A * XdrState) v0 (P : A -> Prop) : total f P -> P v0 ->
  typed (prim f v0) P.
Proof.
  intros Hf Hv xs Hx. destruct (Hf v0 xs Hx Hv) as [Hp Hx']. exists (f v0 xs).1, (f v0 xs).2.
  unfold prim. by destruct (f v0 xs).
Qed.

Lemma bool_typed b : typed (prim XdrBool b) (fun _ => True).
Proof. apply typed_prim; [apply XdrBool_total|done]. Qed.

Lemma var_typed n v : n = -1 \/ 0 <= n -> v = [] -> typed (prim (XdrVarArray n) v) (fits n).
Proof. intros Hn ->. apply typed_prim; [apply XdrVarArray_total|by apply fits_nil]. Qed.

Create HintDb ty.
#[local] Hint Resolve bool_typed : ty.

(** One step of a method: a field, or the choice of an arm. *)
Ltac ty_step := first
  [ eapply typed_bind; [first [solve [eauto 2 with ty]|
      apply var_typed; [try unfold NFS3_FHSIZE; lia|reflexivity]]|intros ? ?]
  | match goal with |- typed (if ?c then _ else _) _ => destruct c eqn:? end ].
Ltac ty := repeat ty_step; apply typed_ret.
Ltac ty_wf := simpl; repeat match goal with H : ?c = _ |- _ => rewrite H; clear H end;
  repeat match goal with |- _ /\ _ => split end; (assumption || reflexivity).

Lemma Nfs_fh3_ty : typed (Nfs_fh3_Xdr zero) Nfs_fh3_wf.
Proof. unfold Nfs_fh3_Xdr. ty; unfold Nfs_fh3_wf; ty_wf. Qed.
#[local] Hint Resolve Nfs_fh3_ty : ty.

Lemma GETATTR3args_ty : typed (GETATTR3args_Xdr zero) GETATTR3args_wf.
Proof. unfold GETATTR3args_Xdr. ty; unfold GETATTR3args_wf; ty_wf. Qed.
#[local] Hint Resolve GETATTR3args_ty : ty.

Lemma Uint32_ty : typed (Uint32_Xdr zero) Uint32_wf.
Proof. apply typed_prim; [apply XdrU32_total|done]. Qed.
#[local] Hint Resolve Uint32_ty : ty.

Lemma Mode3_ty : typed (Mode3_Xdr zero) Mode3_wf.
Proof. exact Uint32_ty. Qed.
#[local] Hint Resolve Mode3_ty : ty.

Lemma Set_mode3_ty : typed (Set_mode3_Xdr zero) Set_mode3_wf.
Proof. unfold Set_mode3_Xdr. ty; unfold Set_mode3_wf; ty_wf. Qed.
#[local] Hint Resolve Set_mode3_ty : ty.

Lemma Uid3_ty : typed (Uid3_Xdr zero) Uid3_wf.
Proof. exact Uint32_ty. Qed.
#[local] Hint Resolve Uid3_ty : ty.

Lemma Set_uid3_ty : typed (Set_uid3_Xdr zero) Set_uid3_wf.
Proof. unfold Set_uid3_Xdr. ty; unfold Set_uid3_wf; ty_wf. Qed.
#[local] Hint Resolve Set_uid3_ty : ty.

Lemma Gid3_ty : typed (Gid3_Xdr zero) Gid3_wf.
Proof. exact Uint32_ty. Qed.
#[local] Hint Resolve Gid3_ty : ty.

Lemma Set_gid3_ty : typed (Set_gid3_Xdr zero) Set_gid3_wf.
Proof. unfold Set_gid3_Xdr. ty; unfold Set_gid3_wf; ty_wf. Qed.
#[local] Hint Resolve Set_gid3_ty : ty.

Lemma Uint64_ty : typed (Uint64_Xdr zero) Uint64_wf.
Proof. apply typed_prim; [apply XdrU64_total|done]. Qed.
#[local] Hint Resolve Uint64_ty : ty.

Lemma Size3_ty : typed (Size3_Xdr zero) Size3_wf.
Proof. exact Uint64_ty. Qed.
#[local] Hint Resolve Size3_ty : ty.

Lemma Set_size3_ty : typed (Set_size3_Xdr zero) Set_size3_wf.
Proof. unfold Set_size3_Xdr. ty; unfold Set_size3_wf; ty_wf. Qed.
#[local] Hint Resolve Set_size3_ty : ty.

Lemma Time_how_ty : typed (Time_how_Xdr zero) Time_how_wf.
Proof. apply typed_prim; [apply XdrU32_total|done]. Qed.
#[local] Hint Resolve Time_how_ty : ty.

Lemma Nfstime3_ty : typed (Nfstime3_Xdr zero) Nfstime3_wf.
Proof. unfold Nfstime3_Xdr. ty; unfold Nfstime3_wf; ty_wf. Qed.
#[local] Hint Resolve Nfstime3_ty : ty.

Lemma Set_atime_ty : typed (Set_atime_Xdr zero) Set_atime_wf.
Proof. unfold Set_atime_Xdr. ty; unfold Set_atime_wf; ty_wf. Qed.
#[local] Hint Resolve Set_atime_ty : ty.

Lemma Set_mtime_ty : typed (Set_mtime_Xdr zero) Set_mtime_wf.
Proof. unfold Set_mtime_Xdr. ty; unfold Set_mtime_wf; ty_wf. Qed.
#[local] Hint Resolve Set_mtime_ty : ty.

Lemma Sattr3_ty : typed (Sattr3_Xdr zero) Sattr3_wf.
Proof. unfold Sattr3_Xdr. ty; unfold Sattr3_wf; ty_wf. Qed.
#[local] Hint Resolve Sattr3_ty : ty.

Lemma Sattrguard3_ty : typed (Sattrguard3_Xdr zero) Sattrguard3_wf.
Proof. unfold Sattrguard3_Xdr. ty; unfold Sattrguard3_wf; ty_wf. Qed.
#[local] Hint Resolve Sattrguard3_ty : ty.

Lemma SETATTR3args_ty : typed (SETATTR3args_Xdr zero) SETATTR3args_wf.
Proof. unfold SETATTR3args_Xdr. ty; unfold SETATTR3args_wf; ty_wf. Qed.
#[local] Hint Resolve SETATTR3args_ty : ty.

Lemma Filename3_ty : typed (Filename3_Xdr zero) Filename3_wf.
Proof. apply typed_prim; [apply XdrString_total|apply fits_nil; first [by left|by right]]. Qed.
#[local] Hint Resolve Filename3_ty : ty.

Lemma Diropargs3_ty : typed (Diropargs3_Xdr zero) Diropargs3_wf.
Proof. unfold Diropargs3_Xdr. ty; unfold Diropargs3_wf; ty_wf. Qed.
#[local] Hint Resolve Diropargs3_ty : ty.

Lemma LOOKUP3args_ty : typed (LOOKUP3args_Xdr zero) LOOKUP3args_wf.
Proof. unfold LOOKUP3args_Xdr. ty; unfold LOOKUP3args_wf; ty_wf. Qed.
#[local] Hint Resolve LOOKUP3args_ty : ty.

Lemma ACCESS3args_ty : typed (ACCESS3args_Xdr zero) ACCESS3args_wf.
Proof. unfold ACCESS3args_Xdr. ty; unfold ACCESS3args_wf; ty_wf. Qed.
#[local] Hint Resolve ACCESS3args_ty : ty.

Lemma READLINK3args_ty : typed (READLINK3args_Xdr zero) READLINK3args_wf.
Proof. unfold READLINK3args_Xdr. ty; unfold READLINK3args_wf; ty_wf. Qed.
#[local] Hint Resolve READLINK3args_ty : ty.

Lemma Offset3_ty : typed (Offset3_Xdr zero) Offset3_wf.
Proof. exact Uint64_ty. Qed.
#[local] Hint Resolve Offset3_ty : ty.

Lemma Count3_ty : typed (Count3_Xdr zero) Count3_wf.
Proof. exact Uint32_ty. Qed.
#[local] Hint Resolve Count3_ty : ty.

Lemma READ3args_ty : typed (READ3args_Xdr zero) READ3args_wf.
Proof. unfold READ3args_Xdr. ty; unfold READ3args_wf; ty_wf. Qed.
#[local] Hint Resolve READ3args_ty : ty.

Lemma Stable_how_ty : typed (Stable_how_Xdr zero) Stable_how_wf.
Proof. apply typed_prim; [apply XdrU32_total|done]. Qed.
#[local] Hint Resolve Stable_how_ty : ty.

Lemma WRITE3args_ty : typed (WRITE3args_Xdr zero) WRITE3args_wf.
Proof. unfold WRITE3args_Xdr. ty; unfold WRITE3args_wf; ty_wf. Qed.
#[local] Hint Resolve WRITE3args_ty : ty.

Lemma Createmode3_ty : typed (Createmode3_Xdr zero) Createmode3_wf.
Proof. apply typed_prim; [apply XdrU32_total|done]. Qed.
#[local] Hint Resolve Createmode3_ty : ty.

Lemma Createverf3_ty : typed (Createverf3_Xdr zero) Createverf3_wf.
Proof. apply typed_prim; [apply XdrArray_total|done]. Qed.
#[local] Hint Resolve Createverf3_ty : ty.

Lemma Createhow3_ty : typed (Createhow3_Xdr zero) Createhow3_wf.
Proof. unfold Createhow3_Xdr. ty; unfold Createhow3_wf; ty_wf. Qed.
#[local] Hint Resolve Createhow3_ty : ty.

Lemma CREATE3args_ty : typed (CREATE3args_Xdr zero) CREATE3args_wf.
Proof. unfold CREATE3args_Xdr. ty; unfold CREATE3args_wf; ty_wf. Qed.
#[local] Hint Resolve CREATE3args_ty : ty.

Lemma MKDIR3args_ty : typed (MKDIR3args_Xdr zero) MKDIR3args_wf.
Proof. unfold MKDIR3args_Xdr. ty; unfold MKDIR3args_wf; ty_wf. Qed.
#[local] Hint Resolve MKDIR3args_ty : ty.

Lemma Nfspath3_ty : typed (Nfspath3_Xdr zero) Nfspath3_wf.
Proof. apply typed_prim; [apply XdrString_total|apply fits_nil; first [by left|by right]]. Qed.
#[local] Hint Resolve Nfspath3_ty : ty.

Lemma Symlinkdata3_ty : typed (Symlinkdata3_Xdr zero) Symlinkdata3_wf.
Proof. unfold Symlinkdata3_Xdr. ty; unfold Symlinkdata3_wf; ty_wf. Qed.
#[local] Hint Resolve Symlinkdata3_ty : ty.

Lemma SYMLINK3args_ty : typed (SYMLINK3args_Xdr zero) SYMLINK3args_wf.
Proof. unfold SYMLINK3args_Xdr. ty; unfold SYMLINK3args_wf; ty_wf. Qed.
#[local] Hint Resolve SYMLINK3args_ty : ty.

Lemma Ftype3_ty : typed (Ftype3_Xdr zero) Ftype3_wf.
Proof. apply typed_prim; [apply XdrU32_total|done]. Qed.
#[local] Hint Resolve Ftype3_ty : ty.

Lemma Specdata3_ty : typed (Specdata3_Xdr zero) Specdata3_wf.
Proof. unfold Specdata3_Xdr. ty; unfold Specdata3_wf; ty_wf. Qed.
#[local] Hint Resolve Specdata3_ty : ty.

Lemma Devicedata3_ty : typed (Devicedata3_Xdr zero) Devicedata3_wf.
Proof. unfold Devicedata3_Xdr. ty; unfold Devicedata3_wf; ty_wf. Qed.
#[local] Hint Resolve Devicedata3_ty : ty.

Lemma Mknoddata3_ty : typed (Mknoddata3_Xdr zero) Mknoddata3_wf.
Proof. unfold Mknoddata3_Xdr. ty; unfold Mknoddata3_wf; ty_wf. Qed.
#[local] Hint Resolve Mknoddata3_ty : ty.

Lemma MKNOD3args_ty : typed (MKNOD3args_Xdr zero) MKNOD3args_wf.
Proof. unfold MKNOD3args_Xdr. ty; unfold MKNOD3args_wf; ty_wf. Qed.
#[local] Hint Resolve MKNOD3args_ty : ty.

Lemma REMOVE3args_ty : typed (REMOVE3args_Xdr zero) REMOVE3args_wf.
Proof. unfold REMOVE3args_Xdr. ty; unfold REMOVE3args_wf; ty_wf. Qed.
#[local] Hint Resolve REMOVE3args_ty : ty.

Lemma RMDIR3args_ty : typed (RMDIR3args_Xdr zero) RMDIR3args_wf.
Proof. unfold RMDIR3args_Xdr. ty; unfold RMDIR3args_wf; ty_wf. Qed.
#[local] Hint Resolve RMDIR3args_ty : ty.

Lemma RENAME3args_ty : typed (RENAME3args_Xdr zero) RENAME3args_wf.
Proof. unfold RENAME3args_Xdr. ty; unfold RENAME3args_wf; ty_wf. Qed.
#[local] Hint Resolve RENAME3args_ty : ty.

Lemma LINK3args_ty : typed (LINK3args_Xdr zero) LINK3args_wf.
Proof. unfold LINK3args_Xdr. ty; unfold LINK3args_wf; ty_wf. Qed.
#[local] Hint Resolve LINK3args_ty : ty.

Lemma Cookie3_ty : typed (Cookie3_Xdr zero) Cookie3_wf.
Proof. exact Uint64_ty. Qed.
#[local] Hint Resolve Cookie3_ty : ty.

Lemma Cookieverf3_ty : typed (Cookieverf3_Xdr zero) Cookieverf3_wf.
Proof. apply typed_prim; [apply XdrArray_total|done]. Qed.
#[local] Hint Resolve Cookieverf3_ty : ty.

Lemma READDIR3args_ty : typed (READDIR3args_Xdr zero) READDIR3args_wf.
Proof. unfold READDIR3args_Xdr. ty; unfold READDIR3args_wf; ty_wf. Qed.
#[local] Hint Resolve READDIR3args_ty : ty.

Lemma READDIRPLUS3args_ty : typed (READDIRPLUS3args_Xdr zero) READDIRPLUS3args_wf.
Proof. unfold READDIRPLUS3args_Xdr. ty; unfold READDIRPLUS3args_wf; ty_wf. Qed.
#[local] Hint Resolve READDIRPLUS3args_ty : ty.

Lemma FSSTAT3args_ty : typed (FSSTAT3args_Xdr zero) FSSTAT3args_wf.
Proof. unfold FSSTAT3args_Xdr. ty; unfold FSSTAT3args_wf; ty_wf. Qed.
#[local] Hint Resolve FSSTAT3args_ty : ty.

Lemma FSINFO3args_ty : typed (FSINFO3args_Xdr zero) FSINFO3args_wf.
Proof. unfold FSINFO3args_Xdr. ty; unfold FSINFO3args_wf; ty_wf. Qed.
#[local] Hint Resolve FSINFO3args_ty : ty.

Lemma PATHCONF3args_ty : typed (PATHCONF3args_Xdr zero) PATHCONF3args_wf.
Proof. unfold PATHCONF3args_Xdr. ty; unfold PATHCONF3args_wf; ty_wf. Qed.
#[local] Hint Resolve PATHCONF3args_ty : ty.

Lemma COMMIT3args_ty : typed (COMMIT3args_Xdr zero) COMMIT3args_wf.
Proof. unfold COMMIT3args_Xdr. ty; unfold COMMIT3args_wf; ty_wf. Qed.
#[local] Hint Resolve COMMIT3args_ty : ty.

Lemma Dirpath3_ty : typed (Dirpath3_Xdr zero) Dirpath3_wf.
Proof. apply typed_prim; [apply XdrString_total|apply fits_nil; first [by left|by right]]. Qed.
#[local] Hint Resolve Dirpath3_ty : ty.

Lemma args_ty {A R} (p : rpc A R) : typed (rpc_args_Xdr p (rpc_zero_args p)) (rpc_args_wf p).
Proof. destruct p; simpl; first [solve [eauto 2 with ty]|(intros xs Hx; by exists tt, xs)]. Qed.
End typed.

Section claims.
Context `{!XdrPkg} `{!XdrPkgTotal}.

Lemma serve_call_cases {S A R} (in_Xdr : M XdrState A) (out_Xdr : R -> M XdrState R) (h : A -> M S R)
    args args' a s : in_Xdr args = Ok (a, args') ->
  (Error args' = true /\ serve_call in_Xdr out_Xdr h args s = Ok (None, s)) \/
  serve_call in_Xdr out_Xdr h args s = (out ← h a; mret (Some (_ ← out_Xdr out; mret tt))) s.
Proof.
  intros Hin. unfold serve_call, lift. set (k := fun out => mret (Some (_ ← out_Xdr out; mret tt))).
  unfold mbind at 1, M_bind at 1. unfold mbind at 2, M_bind at 2. rewrite Hin.
  destruct (Error args'); [by left|by right].
Qed.

(** The registered handler of a procedure, on arguments that decode to [a]. *)
Lemma find_reg_decoded n {S} (h : server S) {A R} (p : rpc A R) : exists reg,
  find_reg (rpc_prog p) 3 (rpc_num p) (RegisterMany n h) = Some reg /\
  forall args args' a s, rpc_args_Xdr p (rpc_zero_args p) args = Ok (a, args') ->
    (Error args' = true /\ Handler reg args s = Ok (None, s)) \/
    Handler reg args s = (out ← rpc_handler h p a; mret (Some (_ ← rpc_res_Xdr n p out; mret tt))) s.
Proof.
  destruct p; (eexists; split; [reflexivity|]); intros args args' a s Ha;
    first [by apply (serve_call_cases _ _ _ _ args')|by right].
Qed.

(** C28: whatever bytes arrive as the arguments of a procedure, its registered
    handler decodes them without a panic: either the decoder reports an error
    and the server is not called, or the procedure is called on arguments of its
    type, in which every integer has its width, every handle, name and path its
    limit, and every arm of a union that was not selected is zero. *)
Theorem request_typed n {S} (h : server S) {A R} (p : rpc A R) args s : decoding args ->
  exists reg a args', find_reg (rpc_prog p) 3 (rpc_num p) (RegisterMany n h) = Some reg /\
    rpc_args_Xdr p (rpc_zero_args p) args = Ok (a, args') /\ rpc_args_wf p a /\
    ((Error args' = true /\ Handler reg args s = Ok (None, s)) \/
     Handler reg args s = (out ← rpc_handler h p a; mret (Some (_ ← rpc_res_Xdr n p out; mret tt))) s).
Proof.
  intros Hx. destruct (find_reg_decoded n h p) as (reg & Hreg & Hcall).
  destruct (args_ty p args Hx) as (a & args' & Ha & _ & Hw). exists reg, a, args'.
  split; [done|]. split; [done|]. split; [done|]. by apply Hcall.
Qed.
End claims.

(** Two bytes instead of a handle. *)
Lemma request_typed_witness :
  let args : @XdrState ref_xdr := mkRefXs false [] [1; 2] false in
  exists reg a args', find_reg NFS_PROGRAM 3 NFSPROC3_GETATTR (RegisterMany 0 zero_server) = Some reg /\
    GETATTR3args_Xdr zero args = Ok (a, args') /\ GETATTR3args_wf a /\
    ((Error args' = true /\ Handler reg args tt = Ok (None, tt)) \/
     Handler reg args tt =
       (out ← rpc_handler zero_server P_NFSPROC3_GETATTR a;
        mret (Some (_ ← rpc_res_Xdr 0 P_NFSPROC3_GETATTR out; mret tt))) tt).
Proof.
  apply (@request_typed ref_xdr _ 0 unit zero_server _ _ P_NFSPROC3_GETATTR (mkRefXs false [] [1; 2] false) tt).
  split; reflexivity.
Defined.
