(* ===== verification/Server.v ===== *)
(** The two servers behind the RPC interface, as [cmd/go-nfsd/main.go] and
    [cmd/simple-nfsd/main.go] register them, and a READ of the simple server from
    the client's bytes to the client's reply. *)
From S2P Require Import Prelude Nfstypes External Reference Super Fh Cache Dcache Alloctxn Inode.
From S2P Require Import Fstxn Dir Shrinker NfsLs NfsOps Simple SimpleSpec SimpleClaims XdrLib Xdr XdrRt Rpc.

Section servers.
Context `{!Common} `{!Util} `{!Marshal} `{!Std} `{!Buf} `{!Journal} `{!AllocPkg} `{!LockPkg}
  `{!Clock} `{!DiskPkg}.

(** [retry] bounds the restarts of a transaction. *)
Definition go_nfsd (retry : nat) : server NSt := {|
  nfs := mkNFS_PROGRAM_NFS_V3_handler NSt Nfs.NFSPROC3_NULL Nfs.NFSPROC3_GETATTR
    (Nfs.NFSPROC3_SETATTR retry) (Nfs.NFSPROC3_LOOKUP retry) Nfs.NFSPROC3_ACCESS
    Nfs.NFSPROC3_READLINK Nfs.NFSPROC3_READ (Nfs.NFSPROC3_WRITE retry)
    (Nfs.NFSPROC3_CREATE retry) (Nfs.NFSPROC3_MKDIR retry) (Nfs.NFSPROC3_SYMLINK retry)
    Nfs.NFSPROC3_MKNOD (Nfs.NFSPROC3_REMOVE retry) (Nfs.NFSPROC3_RMDIR retry)
    (Nfs.NFSPROC3_RENAME retry) Nfs.NFSPROC3_LINK Nfs.NFSPROC3_READDIR
    Nfs.NFSPROC3_READDIRPLUS Nfs.NFSPROC3_FSSTAT Nfs.NFSPROC3_FSINFO Nfs.NFSPROC3_PATHCONF
    Nfs.NFSPROC3_COMMIT;
  mount := mkMOUNT_PROGRAM_MOUNT_V3_handler NSt Nfs.MOUNTPROC3_NULL Nfs.MOUNTPROC3_MNT
    Nfs.MOUNTPROC3_DUMP Nfs.MOUNTPROC3_UMNT Nfs.MOUNTPROC3_UMNTALL Nfs.MOUNTPROC3_EXPORT |}.

Definition simple_nfsd : server Simple.Nfs := {|
  nfs := mkNFS_PROGRAM_NFS_V3_handler Simple.Nfs Simple.NFSPROC3_NULL Simple.NFSPROC3_GETATTR
    Simple.NFSPROC3_SETATTR Simple.NFSPROC3_LOOKUP Simple.NFSPROC3_ACCESS
    Simple.NFSPROC3_READLINK Simple.NFSPROC3_READ Simple.NFSPROC3_WRITE
    Simple.NFSPROC3_CREATE Simple.NFSPROC3_MKDIR Simple.NFSPROC3_SYMLINK
    Simple.NFSPROC3_MKNOD Simple.NFSPROC3_REMOVE Simple.NFSPROC3_RMDIR
    Simple.NFSPROC3_RENAME Simple.NFSPROC3_LINK Simple.NFSPROC3_READDIR
    Simple.NFSPROC3_READDIRPLUS Simple.NFSPROC3_FSSTAT Simple.NFSPROC3_FSINFO
    Simple.NFSPROC3_PATHCONF Simple.NFSPROC3_COMMIT;
  mount := mkMOUNT_PROGRAM_MOUNT_V3_handler Simple.Nfs Simple.MOUNTPROC3_NULL
    Simple.MOUNTPROC3_MNT Simple.MOUNTPROC3_DUMP Simple.MOUNTPROC3_UMNT
    Simple.MOUNTPROC3_UMNTALL Simple.MOUNTPROC3_EXPORT |}.
End servers.

Section remote.
Context `{!Common} `{!CommonSpec} `{!Util} `{!UtilSpec} `{!Marshal} `{!MarshalSpec}
  `{!Journal} `{!JournalSpec} `{!LockPkg} `{!LockSpec} `{!XdrPkg} `{!XdrPkgSpec}.

Definition read_ok (f : list Z) (a : READ3args) : READ3res :=
  let '(data, eof) := read_file f (READ3args_Offset a) (READ3args_Count a) in
  mkREAD3res NFS3_OK (mkREAD3resok zero (len data) eof data) zero.

Lemma read_ok_wf f a : len f <= 4096 -> READ3res_wf (read_ok f a).
Proof.
  intros Hf. pose proof (read_file_len f (READ3args_Offset a) (READ3args_Count a)) as Hl.
  unfold read_ok. destruct (read_file _ _ _) as [data eof]. simpl in Hl. pose proof (len_nonneg data).
  unfold READ3res_wf, READ3resok_wf, Nfsstat3_wf, Count3_wf, Uint32_wf, fits, is_u32. simpl.
  split_and!; try done; try lia.
Qed.

Lemma log_ok_len lg fs i : log_ok lg fs -> valid i -> len (fs i) <= 4096.
Proof. intros [Hl _] Hi. by destruct (Hl i Hi) as (_ & ? & _). Qed.

(** A READ sent to the simple server: from the bytes the client writes, the
    server finds the procedure, decodes the request and reads the file; when the
    commit succeeds the client decodes the file's bytes from the reply, and the
    files are as before. *)
Theorem simple_read_remote n s fs a i : READ3args_wf a -> fh2ino (READ3args_File a) = Ok i ->
  valid i -> i ∉ held (l s) -> log_ok (t s) fs ->
  exists reg w,
    find_reg NFS_PROGRAM NFS_V3 Nfstypes.NFSPROC3_READ (RegisterMany n simple_nfsd) = Some reg /\
    (forall xs, writing xs -> exists xs', READ3args_Xdr a xs = Ok (a, xs') /\
       xs_out xs' = xs_out xs ++ w) /\
    forall args r, reading args -> xs_rest args = w ++ r ->
      exists ok enc wr s', Handler reg args s = Ok (Some enc, s') /\ held (l s') = held (l s) /\
        log_ok (t s') (upd_file i (fs i) fs) /\
        (forall xs, ok = true -> writing xs -> exists xs', enc xs = Ok (tt, xs') /\
           xs_out xs' = xs_out xs ++ wr) /\
        (forall xs r', ok = true -> reading xs -> xs_rest xs = wr ++ r' -> exists xs',
           READ3res_Xdr zero xs = Ok (read_ok (fs i) a, xs')).
Proof.
  intros Hwf Hfh Hi Hfree Hlg. pose proof Hwf as (_ & Hoff & Hcnt).
  destruct (find_reg_call n simple_nfsd P_NFSPROC3_READ) as (reg & Hreg & Hcall).
  destruct (args_rt P_NFSPROC3_READ a Hwf) as (w & He & Hd). exists reg, w. split; [exact Hreg|].
  split. { intros xs Hx. destruct (He xs Hx) as (xs' & ? & _ & ?). by exists xs'. }
  intros args r Hx Hr. destruct (Hd args r Hx Hr) as (args' & Ha & Hx' & _).
  assert (is_u64 i) as Hi64 by (unfold valid, is_u64 in *; lia).
  destruct (wp_dispatch s fs (Rread a) i) as (p & s' & Hrun & Hheld & ok & Hp & Hlg'); [done..|].
  unfold spec in Hp, Hlg'. rewrite bool_decide_eq_true_2, serve_eq in Hp, Hlg' by done.
  cbn [fst snd serve_file] in Hp, Hlg'.
  destruct (res_rt n P_NFSPROC3_READ (read_ok (fs i) a)) as (wr & Hwe & Hwd).
  { apply read_ok_wf. by eapply log_ok_len. }
  unfold dispatch in Hrun. apply M_bind_Ok in Hrun as (res & s1 & Hrun & [= <- <-]).
  exists ok, (_ ← rpc_res_Xdr n P_NFSPROC3_READ res; mret tt), wr, s1.
  assert (read_file (fs i) (READ3args_Offset a) (READ3args_Count a) =
    (READ3resok_Data (READ3res_Resok (read_ok (fs i) a)), READ3resok_Eof (READ3res_Resok (read_ok (fs i) a))))
    as Hrf by (unfold read_ok; by destruct (read_file _ _ _)).
  rewrite Hrf in Hp, Hlg'. injection Hp as ->. split; [|split; [done|split; [done|split]]].
  - rewrite (Hcall args args' a s Ha Hx'). unfold mbind at 1, M_bind at 1. simpl. by rewrite Hrun.
  - intros xs -> Hxs. destruct (Hwe xs Hxs) as (xs' & Hw & _ & Ho). exists xs'. split; [|done].
    unfold mbind, M_bind.
    assert (forall d, d = read_ok (fs i) a -> mkREAD3res (status true) (mkREAD3resok zero
      (len (READ3resok_Data (READ3res_Resok d))) (READ3resok_Eof (READ3res_Resok d))
      (READ3resok_Data (READ3res_Resok d))) zero = d) as Heta
      by (intros d ->; unfold read_ok; by destruct (read_file _ _ _)).
    rewrite (Heta (read_ok (fs i) a) eq_refl). by rewrite Hw.
  - intros xs r' -> Hxs Hrest. destruct (Hwd xs r' Hxs Hrest) as (xs' & Hw & _). by exists xs'.
Qed.
End remote.

(** ** A READ of the sample server *)

Definition sample_read : READ3args := mkREAD3args (simple_fh 2) 0 100.

Lemma simple_read_remote_witness : exists reg w,
  find_reg NFS_PROGRAM NFS_V3 Nfstypes.NFSPROC3_READ (RegisterMany 0 simple_nfsd) = Some reg /\
  (forall xs, writing xs -> exists xs', READ3args_Xdr sample_read xs = Ok (sample_read, xs') /\
     xs_out xs' = xs_out xs ++ w) /\
  forall args r, reading args -> xs_rest args = w ++ r ->
    exists ok enc wr s', Handler reg args simple_srv = Ok (Some enc, s') /\
      held (l s') = held (l simple_srv) /\
      log_ok (t s') (upd_file 2 [] no_files) /\
      (forall xs, ok = true -> writing xs -> exists xs', enc xs = Ok (tt, xs') /\
         xs_out xs' = xs_out xs ++ wr) /\
      (forall xs r', ok = true -> reading xs -> xs_rest xs = wr ++ r' -> exists xs',
         READ3res_Xdr zero xs = Ok (read_ok [] sample_read, xs')).
Proof.
  apply (simple_read_remote 0 simple_srv no_files sample_read 2).
  - split; [|split]; [|split; [discriminate|reflexivity]..].
    split; [reflexivity|right; discriminate].
  - vm_compute. reflexivity.
  - unfold valid. lia.
  - rewrite (proj1 simple_srv_ok). apply not_elem_of_empty.
  - exact (proj2 simple_srv_ok).
Defined.
