(* ===== verification/Stats.v ===== *)
(** Operation statistics ([util/stats/stats.go], [nfs/stats.go]) and the disk
    that measures its operations ([util/timed_disk/disk.go]).

    A reading of the clock is a number of nanoseconds, and the readings of a run
    are numbered.  A table is its rows before they are formatted: the code turns
    the nanoseconds of a row into a floating-point number of microseconds per
    operation, and of the total into seconds, to print them. *)
From S2P Require Import Prelude Nfstypes External Reference.

(** ** [stats.Op] *)

Record Op := mkOp { count : Z; nanos : Z }.

(** [Time.Sub], saturated to the range of a [Duration]. *)
Definition time_Sub (t u : Z) : Z := Z.max (- 2 ^ 63) (Z.min (2 ^ 63 - 1) (t - u)).

(** [op.Record(start)], when [time.Now()] reads [now]. *)
Definition Record_ (start now : Z) (op : Op) : Op :=
  mkOp (w32 (count op + 1)) (nanos op +w w64 (time_Sub now start)).

Definition Reset (op : Op) : Op := mkOp 0 0.

Record Row := mkRow { row_name : list Z; row_op : Op }.

(** The sum over the operations that [WriteTable] keeps in [totalOp]. *)
Definition total_op (ops : list Op) : Op :=
  foldl (fun t op => mkOp (w32 (count t + count op)) (nanos t +w nanos op)) (mkOp 0 0) ops.

(** [for i, name := range names] *)
Fixpoint table_rows (i : Z) (names : list (list Z)) (ops : list Op) : res (list Row) :=
  match names with
  | [] => mret []
  | name :: names =>
      op ← idx ops i;
      rows ← table_rows (i + 1) names ops;
      mret (if 0 <? count op then mkRow name op :: rows else rows)
  end.

Definition WriteTable (names : list (list Z)) (ops : list Op) : res (list Row) :=
  if bool_decide (len names <> len ops) then Panic
  else
    rows ← table_rows 0 names ops;
    mret (rows ++ [mkRow (str "total") (total_op ops)]).

Definition FormatTable := WriteTable.

Lemma table_rows_eq i names (ops : list Op) : 0 <= i -> i + len names = len ops ->
  table_rows i names ops =
  Ok (filter (fun r => 0 < count (row_op r)) (zip_with mkRow names (drop (Z.to_nat i) ops))).
Proof.
  revert i. induction names as [|name names IH]; intros i Hi Hl; cbn [table_rows]; [done|].
  unfold len in Hl. cbn [length] in Hl.
  destruct (idx_lt ops i) as [o Ho]; [unfold len; lia|]. rewrite Ho. cbn [mbind res_bind].
  apply idx_Ok in Ho as [_ Ho]. rewrite (drop_S ops o (Z.to_nat i)) by done.
  rewrite IH by (unfold len; lia). cbn [mbind res_bind zip_with]. rewrite filter_cons.
  replace (Z.to_nat (i + 1)) with (S (Z.to_nat i)) by lia. simpl.
  destruct (Z.ltb_spec 0 (count o)); case_decide; done || lia.
Qed.

(** The rows are the operations that happened, in order, and the total. *)
Lemma WriteTable_eq names (ops : list Op) : len names = len ops ->
  WriteTable names ops = Ok (filter (fun r => 0 < count (row_op r)) (zip_with mkRow names ops)
    ++ [mkRow (str "total") (total_op ops)]).
Proof.
  intros Hl. unfold WriteTable. rewrite bool_decide_eq_false_2 by tauto.
  by rewrite table_rows_eq by lia.
Qed.

(** ** The statistics of the NFS server *)

Definition NUM_NFS_OPS : Z := 22.

Definition nfsopNames : list (list Z) := str <$>
  ["NULL"; "GETATTR"; "SETATTR"; "LOOKUP"; "ACCESS"; "READLINK"; "READ"; "WRITE"; "CREATE";
   "MKDIR"; "SYMLINK"; "MKNOD"; "REMOVE"; "RMDIR"; "RENAME"; "LINK"; "READDIR"; "READDIRPLUS";
   "FSSTAT"; "FSINFO"; "PATHCONF"; "COMMIT"]%string.

Definition recordOp (op start now : Z) (stats : list Op) : res (list Op) :=
  o ← idx stats op;
  setidx stats op (Record_ start now o).

Definition WriteOpStats (stats : list Op) : res (list Row) := WriteTable nfsopNames stats.

Definition ResetOpStats (stats : list Op) : list Op := Reset <$> stats.

(** The server's statistics always have a name each. *)
Lemma WriteOpStats_ok (stats : list Op) : len stats = NUM_NFS_OPS -> exists rows, WriteOpStats stats = Ok rows.
Proof. intros Hl. unfold WriteOpStats. rewrite WriteTable_eq by (by rewrite Hl). eauto. Qed.

Lemma recordOp_ok op start now stats : len stats = NUM_NFS_OPS -> 0 <= op < NUM_NFS_OPS ->
  exists stats', recordOp op start now stats = Ok stats' /\ len stats' = NUM_NFS_OPS.
Proof.
  intros Hl Hop. unfold recordOp. destruct (idx_lt stats op) as [o ->]; [lia|]. cbn [mbind res_bind].
  rewrite setidx_Ok by lia. eexists. split; [done|]. len.
Qed.

(** ** The timed disk *)

Section timed_disk.
Context `{!DiskPkg}.
Variable time_Now : nat -> Z.
Variable disk_Barrier : Disk -> Disk.

(** The disk and its counters, and the number of clock readings so far. *)
Record TSt := mkTSt { t_d : Disk; t_ops : list Op; t_tick : nat }.

Definition New (d : Disk) (tick : nat) : TSt := mkTSt d (replicate 3 (mkOp 0 0)) tick.

Definition readOp : Z := 0.
Definition writeOp : Z := 1.
Definition barrierOp : Z := 2.

Definition ops : list (list Z) := str <$> ["disk.Read"; "disk.Write"; "disk.Barrier"]%string.

Definition now : M TSt Z :=
  s ← get;
  _ ← modify (fun s => mkTSt (t_d s) (t_ops s) (S (t_tick s)));
  mret (time_Now (t_tick s)).

(** [defer d.ops[i].Record(time.Now())] around [m]: the clock is read for the
    argument before [m] runs, and again in [Record] after it. *)
Definition timed {A} (i : Z) (m : M TSt A) : M TSt A :=
  start ← now;
  a ← m;
  stop ← now;
  s ← get;
  o ← lift (idx (t_ops s) i);
  os ← lift (setidx (t_ops s) i (Record_ start stop o));
  _ ← modify (fun s => mkTSt (t_d s) os (t_tick s));
  mret a.

(** The contents that [ReadTo] leaves in the buffer it is given. *)
Definition ReadTo (a : Z) : M TSt (list Z) := timed readOp (gets (fun s => disk_Read (t_d s) a)).

Definition Read (a : Z) : M TSt (list Z) := ReadTo a.

Definition Write (a : Z) (b : list Z) : M TSt unit :=
  timed writeOp (modify (fun s => mkTSt (disk_Write (t_d s) a b) (t_ops s) (t_tick s))).

Definition Barrier : M TSt unit :=
  timed barrierOp (modify (fun s => mkTSt (disk_Barrier (t_d s)) (t_ops s) (t_tick s))).

Definition Size : M TSt Z := gets (fun s => disk_Size (t_d s)).

Definition WriteStats : M TSt (list Row) :=
  s ← get;
  lift (WriteTable ops (t_ops s)).

Definition ResetStats : M TSt unit :=
  modify (fun s => mkTSt (t_d s) (Reset <$> t_ops s) (t_tick s)).

(** *** A timed disk is the disk *)

(** The operations of the interface [disk.Disk], and their replies. *)
Inductive dop := DRead (a : Z) | DWrite (a : Z) (b : list Z) | DBarrier | DSize.

Inductive dreply := RBlock (b : list Z) | RUnit | RSize (n : Z).

Definition plain (d : Disk) (o : dop) : dreply * Disk :=
  match o with
  | DRead a => (RBlock (disk_Read d a), d)
  | DWrite a b => (RUnit, disk_Write d a b)
  | DBarrier => (RUnit, disk_Barrier d)
  | DSize => (RSize (disk_Size d), d)
  end.

Definition measured (o : dop) : M TSt dreply :=
  match o with
  | DRead a => b ← Read a; mret (RBlock b)
  | DWrite a b => _ ← Write a b; mret RUnit
  | DBarrier => _ ← Barrier; mret RUnit
  | DSize => n ← Size; mret (RSize n)
  end.

Fixpoint plain_all (d : Disk) (os : list dop) : list dreply * Disk :=
  match os with
  | [] => ([], d)
  | o :: os =>
      let '(r, d) := plain d o in
      let '(rs, d) := plain_all d os in
      (r :: rs, d)
  end.

Fixpoint measured_all (os : list dop) : M TSt (list dreply) :=
  match os with
  | [] => mret []
  | o :: os => r ← measured o; rs ← measured_all os; mret (r :: rs)
  end.

(** The counter that an operation is recorded in. *)
Definition kind (o : dop) : option Z :=
  match o with
  | DRead _ => Some readOp
  | DWrite _ _ => Some writeOp
  | DBarrier => Some barrierOp
  | DSize => None
  end.

Definition recorded (i : Z) (os : list dop) : Z :=
  len (filter (fun o => kind o = Some i) os).

(** The count of operation [i]. *)
Definition counted (s : TSt) (i : Z) : Z := default 0 (count <$> t_ops s !! Z.to_nat i).

Lemma wp_timed {A} i (m : M TSt A) s (Q : A -> TSt -> Prop) : length (t_ops s) = 3%nat -> 0 <= i < 3 ->
  (forall t, t_d t = t_d s -> t_ops t = t_ops s -> wp m t (fun a t' => t_ops t' = t_ops s /\
     forall s', t_d s' = t_d t' -> length (t_ops s') = 3%nat ->
       (forall j, 0 <= j < 3 -> counted s' j =
          if bool_decide (i = j) then w32 (counted s j + 1) else counted s j) -> Q a s')) ->
  wp (timed i m) s Q.
Proof.
  intros Hl Hi Hm. unfold timed, now. wp_steps. eapply wp_mono; [by apply Hm|].
  intros a t' [Ht' HQ]. wp_steps. rewrite Ht'.
  destruct (idx_lt (t_ops s) i) as [o Ho]; [unfold len; lia|]. eapply wp_lift; [exact Ho|].
  apply wp_bind. eapply wp_lift; [apply setidx_Ok; unfold len; lia|]. wp_steps.
  apply idx_Ok in Ho as [_ Ho]. apply HQ; simpl; [done|by rewrite length_insert|].
  intros j Hj. unfold counted. simpl. case_bool_decide as Hij.
  - subst j. rewrite list_lookup_insert_eq by lia. by rewrite Ho.
  - by rewrite list_lookup_insert_ne by lia.
Qed.

Lemma wp_measured o s (Q : dreply -> TSt -> Prop) : length (t_ops s) = 3%nat ->
  (forall s', t_d s' = (plain (t_d s) o).2 -> length (t_ops s') = 3%nat ->
     (forall j, 0 <= j < 3 -> counted s' j =
        if bool_decide (kind o = Some j) then w32 (counted s j + 1) else counted s j) ->
     Q (plain (t_d s) o).1 s') ->
  wp (measured o) s Q.
Proof.
  intros Hl HQ.
  assert (forall i j : Z, bool_decide (Some i = Some j) = bool_decide (i = j)) as Hs.
  { intros i j. apply bool_decide_ext. split; [by intros [=]|by intros ->]. }
  destruct o as [a|a b| |]; cbn [measured plain kind fst snd] in *;
    unfold Read, ReadTo, Write, Barrier, Size.
  - apply wp_bind, wp_timed; [done|unfold readOp; lia|]. intros t Hd Ho. apply wp_gets.
    split; [done|]. intros s' Hd' Hl' Hc. rewrite Hd. apply wp_ret, HQ; [congruence|done|].
    intros j Hj. rewrite Hs. by apply Hc.
  - apply wp_bind, wp_timed; [done|unfold writeOp; lia|]. intros t Hd Ho. apply wp_modify.
    split; [done|]. intros s' Hd' Hl' Hc. apply wp_ret, HQ; [simpl in Hd'; congruence|done|].
    intros j Hj. rewrite Hs. by apply Hc.
  - apply wp_bind, wp_timed; [done|unfold barrierOp; lia|]. intros t Hd Ho. apply wp_modify.
    split; [done|]. intros s' Hd' Hl' Hc. apply wp_ret, HQ; [simpl in Hd'; congruence|done|].
    intros j Hj. rewrite Hs. by apply Hc.
  - wp_steps. by apply HQ.
Qed.

Lemma recorded_cons i o os :
  recorded i (o :: os) = (if bool_decide (kind o = Some i) then 1 else 0) + recorded i os.
Proof.
  unfold recorded. rewrite filter_cons. case_decide as Hk.
  - rewrite bool_decide_eq_true_2 by done. unfold len. simpl. lia.
  - rewrite bool_decide_eq_false_2 by done. lia.
Qed.

Lemma wp_measured_all os s (Q : list dreply -> TSt -> Prop) : length (t_ops s) = 3%nat ->
  (forall j, is_u32 (counted s j)) ->
  (forall s', t_d s' = (plain_all (t_d s) os).2 -> length (t_ops s') = 3%nat ->
     (forall j, 0 <= j < 3 -> counted s' j = w32 (counted s j + recorded j os)) ->
     Q (plain_all (t_d s) os).1 s') ->
  wp (measured_all os) s Q.
Proof.
  enough (forall s (Q : list dreply -> TSt -> Prop), length (t_ops s) = 3%nat ->
    (forall j, 0 <= j < 3 -> is_u32 (counted s j)) ->
    (forall s', t_d s' = (plain_all (t_d s) os).2 -> length (t_ops s') = 3%nat ->
       (forall j, 0 <= j < 3 -> counted s' j = w32 (counted s j + recorded j os)) ->
       Q (plain_all (t_d s) os).1 s') -> wp (measured_all os) s Q) by auto.
  clear s Q. induction os as [|o os IH]; intros s Q Hl Hu HQ; cbn [measured_all plain_all] in *.
  { apply wp_ret, HQ; [done|done|]. intros j Hj. unfold recorded. rewrite filter_nil.
    change (len []) with 0. rewrite Z.add_0_r, w32_u32; [done|by apply Hu]. }
  apply wp_bind, wp_measured; [done|]. intros s1 Hd1 Hl1 Hc1. apply wp_bind, IH; [done|..].
  { intros j Hj. rewrite Hc1 by done. case_bool_decide; [apply w32_range|by apply Hu]. }
  intros s2 Hd2 Hl2 Hc2. apply wp_ret. destruct (plain (t_d s) o) as [r d1]. cbn [fst snd] in *. subst d1.
  destruct (plain_all (t_d s1) os) as [rs d2]. cbn [fst snd] in *. apply HQ; [done|done|].
  intros j Hj. rewrite Hc2, Hc1, recorded_cons by done. case_bool_decide; [|f_equal; lia].
  unfold w32. rewrite Zplus_mod_idemp_l. f_equal. lia.
Qed.

(** C37: a timed disk is the disk it wraps: any sequence of operations gets the
    same replies and leaves the same disk.  Each counter is the number of
    operations of its kind, modulo 2^32, and the table of them can be written:
    it lists the kinds that were used, and the total. *)
Theorem timed_disk_equiv d tick os : exists s',
  measured_all os (New d tick) = Ok ((plain_all d os).1, s') /\ t_d s' = (plain_all d os).2 /\
  (forall i, 0 <= i < 3 -> counted s' i = w32 (recorded i os)) /\
  WriteStats s' = Ok (filter (fun r => 0 < count (row_op r)) (zip_with mkRow ops (t_ops s'))
    ++ [mkRow (str "total") (total_op (t_ops s'))], s').
Proof.
  assert (forall j, counted (New d tick) j = 0) as Hz.
  { intros j. unfold counted, New. cbn [t_ops].
    destruct (replicate 3 (mkOp 0 0) !! Z.to_nat j) as [o|] eqn:Ho; [|done].
    by apply lookup_replicate in Ho as [-> _]. }
  destruct (wp_measured_all os (New d tick) (fun r s' => r = (plain_all d os).1 /\
    t_d s' = (plain_all d os).2 /\ length (t_ops s') = 3%nat /\
    forall i, 0 <= i < 3 -> counted s' i = w32 (recorded i os)))
    as (r & s' & Hr & -> & Hd & Hl & Hc); [done| | |].
  - intros j. rewrite Hz. unfold is_u32. lia.
  - intros s' Hd Hl Hc. split_and!; [done..|]. intros i Hi. by rewrite Hc, Hz.
  - exists s'. split_and!; [done..|]. unfold WriteStats, mbind, M_bind, get, lift.
    by rewrite WriteTable_eq by (unfold len; rewrite Hl; done).
Qed.
End timed_disk.
