(* ===== verification/Cmd.v ===== *)
(** The benchmarks ([cmd/]): the ones that call a server of their own
    ([cmd/smallfile], [cmd/lookup], [cmd/largefile]), the RPC clients
    ([cmd/clnt-smallfile], [cmd/clnt-null]), the ones that make system calls on
    a mounted file system ([cmd/fs-smallfile], [cmd/fs-largefile]), and the one on
    the journal ([cmd/txn-bench]).  Sockets, system calls, the portmapper, the
    clock and the random numbers are parameters. *)
From stdpp Require Import pretty.
From S2P Require Import Prelude Nfstypes External Reference Super Fh Cache Dcache Alloctxn Inode.
From S2P Require Import Fstxn Dir Shrinker NfsOps Mkfs Clnt XdrLib Xdr Rpc Stats.
Import Nfs.

(** [strconv.Itoa] *)
Definition Itoa (i : Z) : list Z := str (pretty i).

(** [byte(i % 128)] in place [i]; five of the programs have this function. *)
Definition mkdata_ (sz : Z) : list Z := imap (fun i _ => w8 (Z.of_nat i mod 128)) (zeros sz).

(** A benchmark loop: [step i] until the clock shows that [N] passed since
    [start]; the result is how often it ran, at most [fuel] times. *)
Fixpoint bench_loop {S} (Now : M S Z) (N start : Z) (step : Z -> M S unit) (fuel : nat) (i : Z) : M S Z :=
  match fuel with
  | O => nofuel
  | S fuel =>
      _ ← step i;
      t ← Now;
      if N <=? time_Sub t start then mret (i + 1) else bench_loop Now N start step fuel (i + 1)
  end.

(** ** Programs that call the server they made *)

Section in_process.
Context `{!Common} `{!Util} `{!Marshal} `{!Std} `{!Buf} `{!Journal} `{!AllocPkg} `{!LockPkg}
  `{!Clock} `{!DiskPkg} `{!BufDisk}.
Variable NewMemDisk : Z -> Disk.
Variable obj_Shutdown : Log -> Log.
Variable retry : nat.
Variable Now : M NSt Z.

(** *** [cmd/smallfile/main.go] *)

Definition SmallFile (dirfh : Nfs_fh3) (name data : list Z) : M NSt unit :=
  reply ← LookupOp retry dirfh name;
  if bool_decide (LOOKUP3res_Status reply = NFS3_OK) then panic
  else
    _ ← CreateOp retry dirfh name;
    reply ← LookupOp retry dirfh name;
    if bool_decide (LOOKUP3res_Status reply <> NFS3_OK) then panic
    else
      let fh := LOOKUP3resok_Object (LOOKUP3res_Resok reply) in
      attr ← GetattrOp fh;
      if bool_decide (GETATTR3res_Status attr <> NFS3_OK) then panic
      else
        _ ← WriteOp retry fh 0 data FILE_SYNC;
        attr ← GetattrOp fh;
        if bool_decide (GETATTR3res_Status attr <> NFS3_OK) then panic
        else
          res ← RemoveOp retry dirfh name;
          if bool_decide (REMOVE3res_Status res <> NFS3_OK) then panic
          else mret tt.

Definition smallfile_mkdata := mkdata_.

(** The function that [PSmallFile] gives to each thread, for [N] nanoseconds. *)
Definition PSmallFile_thread (fuel : nat) (dirfh : Nfs_fh3) : M NSt Z :=
  let N := 10 * 10 ^ 9 in
  let data := smallfile_mkdata 100 in
  start ← Now;
  bench_loop Now N start (fun i => SmallFile dirfh (str "x" ++ Itoa i) data) fuel 0.

(** *** [cmd/lookup/main.go] *)

Definition Lookup (dirfh : Nfs_fh3) (name : list Z) : M NSt unit :=
  reply ← LookupOp retry dirfh name;
  if bool_decide (LOOKUP3res_Status reply <> NFS3_OK) then panic
  else
    let fh := LOOKUP3resok_Object (LOOKUP3res_Resok reply) in
    attr ← GetattrOp fh;
    if bool_decide (GETATTR3res_Status attr <> NFS3_OK) then panic else mret tt.

(** The function that [PLookup] gives to each of [i] threads. *)
Definition PLookup_thread (fuel : nat) (i : Z) (dirfh : Nfs_fh3) : M NSt Z :=
  let N := 10 ^ 9 in
  let name := str "x" ++ Itoa i in
  _ ← CreateOp retry dirfh name;
  start ← Now;
  bench_loop Now N start (fun _ => Lookup dirfh name) fuel 0.

(** *** [cmd/largefile/main.go] *)

Definition FILESIZE : Z := 50 * 1024 * 1024.

Definition WSIZE : Z := BlockSize.

Definition BENCHDISKSZ : Z := 100 * 1000.

Definition largefile_mkdata := mkdata_.

(** [for j := uint64(0); j < n; j++], with [k] iterations left. *)
Fixpoint largefile_loop (k : nat) (j : Z) (fh : Nfs_fh3) (data : list Z) : M NSt unit :=
  match k with
  | O => mret tt
  | S k =>
      _ ← WriteOp retry fh (j *w WSIZE) data UNSTABLE;
      largefile_loop k (j + 1) fh data
  end.

(** On the client that [MkNfsClient(BENCHDISKSZ)] made. *)
Definition largefile_run (dir : Nfs_fh3) : M NSt unit :=
  let data := largefile_mkdata WSIZE in
  let name := str "largefile" in
  _ ← CreateOp retry dir name;
  reply ← LookupOp retry dir name;
  let fh := LOOKUP3resok_Object (LOOKUP3res_Resok reply) in
  let n := FILESIZE / WSIZE in
  _ ← largefile_loop (Z.to_nat n) 0 fh data;
  _ ← CommitOp fh (n *w WSIZE);
  attr ← GetattrOp fh;
  if bool_decide (Fattr3_Size (GETATTR3resok_Obj_attributes (GETATTR3res_Resok attr)) <> FILESIZE) then panic
  else
    _ ← RemoveOp retry dir name;
    clnt_Shutdown obj_Shutdown.

Definition largeFile : res unit :=
  '(_, srv) ← MkNfsClient NewMemDisk BENCHDISKSZ;
  dir ← MkRootFh3;
  '(_, _) ← largefile_run dir srv;
  mret tt.
End in_process.

(** ** Clients that send requests

    The programs use the [rfc1813] package of the generator, whose types are the
    ones of [Nfstypes].  The state [W] is the network with what is behind it. *)

(** An error that the programs panic on: [if err != nil { panic(err) }]. *)
Definition must {S A} (m : M S (option A)) : M S A :=
  r ← m;
  match r with
  | None => panic
  | Some a => mret a
  end.

Section remote.
Context {W Conn Client Opaque_auth Mapping : Type}.
Variable AUTH_NONE : Opaque_auth.
Variable PMAP_PROG PMAP_VERS PMAP_PORT IPPROTO_TCP : Z.
Variable mkMapping : Z -> Z -> Z -> Mapping.
Variable Dial : list Z -> Z -> M W (option Conn).
Variable Close : Conn -> M W unit.
Variable MakeClient : Conn -> Z -> Z -> Client.
Variable pmap_Call : Client -> Opaque_auth -> Opaque_auth -> Mapping -> M W (option Z).
Variable Call : forall A R, Client -> rpc A R -> Opaque_auth -> Opaque_auth -> A -> M W (option R).
Variable Now : M W Z.
Variable Int31 : M W Z.
Arguments Call {A R}.

(** The port of a program is asked of the portmapper, on a connection that is
    closed when the function returns. *)
Definition pmap_client (host : list Z) (prog vers : Z) : M W Client :=
  pmapc ← must (Dial host PMAP_PORT);
  let pmap := MakeClient pmapc PMAP_PROG PMAP_VERS in
  res ← must (pmap_Call pmap AUTH_NONE AUTH_NONE (mkMapping prog vers IPPROTO_TCP));
  svcc ← must (Dial host res);
  _ ← Close pmapc;
  mret (MakeClient svcc prog vers).

(** The function of the same name in [cmd/clnt-null/main.go]. *)
Definition null_pmap_client := pmap_client.

Record nfsclnt := mkNfsclnt { clnt : Client; cred : Opaque_auth; verf : Opaque_auth }.

Definition clnt_call {A R} (c : nfsclnt) (p : rpc A R) (arg : A) : M W R :=
  must (Call (clnt c) p (cred c) (verf c) arg).

(** *** [cmd/clnt-null/main.go] *)

Definition null (c : nfsclnt) : M W unit := clnt_call c P_NFSPROC3_NULL tt.

(** The calls made and the time they took. *)
Fixpoint null_loop (fuel : nat) (N : Z) (c : nfsclnt) (start n : Z) : M W (Z * Z) :=
  match fuel with
  | O => nofuel
  | S fuel =>
      _ ← null c;
      let n := n + 1 in
      t ← Now;
      let elapsed := time_Sub t start in
      if N <=? elapsed then mret (n, elapsed) else null_loop fuel N c start n
  end.

Definition null_client (fuel : nat) (N : Z) (cred_unix : Opaque_auth) : M W (Z * Z) :=
  nfs ← null_pmap_client (str "localhost") NFS_PROGRAM NFS_V3;
  let c := mkNfsclnt nfs cred_unix AUTH_NONE in
  start ← Now;
  null_loop fuel N c start 0.

(** *** [cmd/clnt-smallfile/main.go] *)

Definition getattr (c : nfsclnt) (fh : Nfs_fh3) : M W GETATTR3res :=
  clnt_call c P_NFSPROC3_GETATTR (mkGETATTR3args fh).

Definition lookup (c : nfsclnt) (fh : Nfs_fh3) (name : list Z) : M W LOOKUP3res :=
  let what := mkDiropargs3 fh name in
  clnt_call c P_NFSPROC3_LOOKUP (mkLOOKUP3args what).

Definition create (c : nfsclnt) (fh : Nfs_fh3) (name : list Z) : M W CREATE3res :=
  let where_ := mkDiropargs3 fh name in
  let how := zero in
  clnt_call c P_NFSPROC3_CREATE (mkCREATE3args where_ how).

Definition remove (c : nfsclnt) (fh : Nfs_fh3) (name : list Z) : M W REMOVE3res :=
  let what := mkDiropargs3 fh name in
  clnt_call c P_NFSPROC3_REMOVE (mkREMOVE3args what).

Definition write (c : nfsclnt) (fh : Nfs_fh3) (off : Z) (data : list Z) (how : Z) : M W WRITE3res :=
  clnt_call c P_NFSPROC3_WRITE (mkWRITE3args fh off (w32 (len data)) how data).

Definition mkdir (c : nfsclnt) (fh : Nfs_fh3) (name : list Z) : M W MKDIR3res :=
  let where_ := mkDiropargs3 fh name in
  let sattr := zero in
  clnt_call c P_NFSPROC3_MKDIR (mkMKDIR3args where_ sattr).

Definition smallfile (c : nfsclnt) (dirfh : Nfs_fh3) (name data : list Z) : M W unit :=
  reply ← lookup c dirfh name;
  if bool_decide (LOOKUP3res_Status reply = NFS3_OK) then panic
  else
    _ ← create c dirfh name;
    reply ← lookup c dirfh name;
    if bool_decide (LOOKUP3res_Status reply <> NFS3_OK) then panic
    else
      let fh := LOOKUP3resok_Object (LOOKUP3res_Resok reply) in
      attr ← getattr c fh;
      if bool_decide (GETATTR3res_Status attr <> NFS3_OK) then panic
      else
        _ ← write c fh 0 data FILE_SYNC;
        attr ← getattr c fh;
        if bool_decide (GETATTR3res_Status attr <> NFS3_OK) then panic
        else
          res ← remove c dirfh name;
          if bool_decide (REMOVE3res_Status res <> NFS3_OK) then panic
          else mret tt.

Definition clnt_smallfile_mkdata := mkdata_.

(** What is sent on [count] when the time is over. *)
Definition client (fuel : nat) (N i : Z) (root_fh : Nfs_fh3) (cred_unix cred_none : Opaque_auth) : M W Z :=
  nfs ← pmap_client (str "localhost") NFS_PROGRAM NFS_V3;
  let c := mkNfsclnt nfs cred_unix cred_none in
  let data := clnt_smallfile_mkdata 100 in
  rnd ← Int31;
  let name := str "d" ++ Itoa rnd in
  r ← mkdir c root_fh name;
  if bool_decide (MKDIR3res_Status r <> NFS3_OK) then panic
  else
    reply ← lookup c root_fh name;
    if bool_decide (LOOKUP3res_Status reply <> NFS3_OK) then panic
    else
      let dirfh := LOOKUP3resok_Object (LOOKUP3res_Resok reply) in
      start ← Now;
      bench_loop Now N start (fun _ => smallfile c dirfh (str "x" ++ Itoa i) data) fuel 0.

(** How [main] mounts: the handle of the root directory. *)
Definition mount_root : M W Nfs_fh3 :=
  mnt ← pmap_client (str "localhost") MOUNT_PROGRAM MOUNT_V3;
  res ← must (Call mnt P_MOUNTPROC3_MNT AUTH_NONE AUTH_NONE (str "/"));
  if bool_decide (Mountres3_Fhs_status res <> MNT3_OK) then panic
  else mret (mkNfs_fh3 (Mountres3_ok_Fhandle (Mountres3_Mountinfo res))).
End remote.

(** ** Programs on a mounted file system

    The state [W] is the operating system; a call that fails gives [None] or
    [false], and [errno] is not looked at. *)

Section mounted.
Context {W File : Type}.
Variable Openat : Z -> list Z -> Z -> Z -> M W (option Z).
Variable unix_Write : Z -> list Z -> M W (option Z).
Variable Fsync unix_Close : Z -> M W unit.
Variable Unlinkat : Z -> list Z -> Z -> M W (option unit).
Variable O_CREAT_RDWR : Z.
Variable os_Create : list Z -> M W (option File).
Variable f_Write : File -> list Z -> M W (option Z).
Variable f_Sync f_Close : File -> M W (option unit).
Variable os_Remove : list Z -> M W unit.
Variable path_Join : list Z -> list Z -> list Z.
Variable Now : M W Z.

(** *** [cmd/fs-smallfile/main.go] *)

Definition fs_smallfile (dirFd : Z) (name data : list Z) : M W unit :=
  f ← must (Openat dirFd name O_CREAT_RDWR 511);
  _ ← must (unix_Write f data);
  _ ← Fsync f;
  _ ← unix_Close f;
  must (Unlinkat dirFd name 0).

Definition fs_smallfile_mkdata := mkdata_.

Record result := mkResult { iters : Z; times : list Z }.

(** Each iteration is timed from the end of the one before; [iters > 0]
    overrides the duration. *)
Fixpoint fs_client_loop (fuel : nat) (duration iters : Z) (allTimes : bool) (rootDirFd : Z) (path data : list Z)
    (start i elapsed : Z) (times : list Z) : M W result :=
  match fuel with
  | O => nofuel
  | S fuel =>
      let s := Itoa i in
      let before := elapsed in
      _ ← fs_smallfile rootDirFd (path ++ str "/x" ++ s) data;
      let i := i + 1 in
      t ← Now;
      let elapsed := time_Sub t start in
      let times := if allTimes then times ++ [elapsed - before] else times in
      if ((0 <? iters) && (iters <=? i)) || ((iters <=? 0) && (duration <=? elapsed)) then
        mret (mkResult i times)
      else fs_client_loop fuel duration iters allTimes rootDirFd path data start i elapsed times
  end.

Definition fs_client (fuel : nat) (duration iters : Z) (allTimes : bool) (rootDirFd : Z) (path : list Z)
    : M W result :=
  let data := fs_smallfile_mkdata 100 in
  start ← Now;
  fs_client_loop fuel duration iters allTimes rootDirFd path data start 0 0 [].

(** [for i := 0; i < nt; i++], with [k] iterations left. *)
Fixpoint cleanup (k : nat) (i : Z) (dir : list Z) : M W unit :=
  match k with
  | O => mret tt
  | S k =>
      let p := path_Join dir (str "d" ++ Itoa i) in
      _ ← os_Remove p;
      cleanup k (i + 1) dir
  end.

(** *** [cmd/fs-largefile/main.go] *)

Definition FS_WSIZE : Z := 16 * 4096.

Fixpoint makefile_loop (k : nat) (f : File) (data : list Z) : M W unit :=
  match k with
  | O => mret tt
  | S k =>
      _ ← must (f_Write f data);
      makefile_loop k f data
  end.

(** The nanoseconds of which the throughput is computed. *)
Definition makefile (name data : list Z) (size : Z) : M W Z :=
  start ← Now;
  f ← must (os_Create name);
  _ ← makefile_loop (Z.to_nat (size / FS_WSIZE)) f data;
  _ ← must (f_Sync f);
  _ ← must (f_Close f);
  t ← Now;
  mret (time_Sub t start).

Definition fs_largefile_mkdata := mkdata_.
End mounted.

(** ** [cmd/txn-bench/main.go]: transactions of two-phase locking on the journal *)

Section txn.
Context `{!DiskPkg}.
Context {W Txn : Type}.
Variable disk_Barrier : Disk -> Disk.
Variable txn_Begin : M W Txn.
Variable txn_OverWrite : Txn -> addr -> Z -> list Z -> M W unit.
Variable txn_Commit : Txn -> bool -> M W bool.
Variable Now : M W Z.

Fixpoint overwrite_loop (k : nat) (i : Z) (txnbuf : Txn) (data : list Z) (tid : Z) : M W unit :=
  match k with
  | O => mret tt
  | S k =>
      _ ← txn_OverWrite txnbuf (MkAddr (i + 513) (8 *w tid)) 8 data;
      overwrite_loop k (i + 1) txnbuf data tid
  end.

Definition testSequence (data : list Z) (tid : Z) : M W unit :=
  txnbuf ← txn_Begin;
  _ ← overwrite_loop 16 0 txnbuf data tid;
  _ ← txn_Commit txnbuf true;
  mret tt.

Definition txn_mkdata := mkdata_.

Definition txn_client (fuel : nat) (duration tid : Z) : M W Z :=
  let data := txn_mkdata 1 in
  start ← Now;
  bench_loop Now duration start (fun _ => testSequence data tid) fuel 0.

(** [for i := uint64(0); i < sz; i++], with [k] iterations left. *)
Fixpoint zero_loop (k : nat) (i : Z) (zeroblock : list Z) (d : Disk) : Disk :=
  match k with
  | O => d
  | S k => zero_loop k (i + 1) zeroblock (disk_Write d i zeroblock)
  end.

Definition zeroDisk (d : Disk) : Disk :=
  let zeroblock := zeros 4096 in
  let sz := disk_Size d in
  disk_Barrier (zero_loop (Z.to_nat sz) 0 zeroblock d).
End txn.

(** ** What the loops do *)

Lemma mkdata_lookup sz i : 0 <= i < sz -> mkdata_ sz !! Z.to_nat i = Some (i mod 128).
Proof.
  intros Hi. unfold mkdata_. rewrite list_lookup_imap, lookup_zeros by lia. simpl. rewrite Z2Nat.id by lia.
  f_equal. unfold w8. pose proof (Z.mod_pos_bound i 128). rewrite Z.mod_small by lia. done.
Qed.

Lemma mkdata_len sz : 0 <= sz -> len (mkdata_ sz) = sz.
Proof. intros Hs. unfold mkdata_, len. rewrite length_imap. apply len_zeros. done. Qed.

Section zero.
Context `{!Common} `{!CommonSpec} `{!DiskPkg} `{!DiskSpec}.

Lemma zero_loop_read k i d b : 0 <= i -> i + Z.of_nat k <= disk_Size d ->
  disk_Size (zero_loop k i (zeros 4096) d) = disk_Size d /\
  disk_Read (zero_loop k i (zeros 4096) d) b =
    if bool_decide (i <= b < i + Z.of_nat k) then zeros 4096 else disk_Read d b.
Proof.
  revert i d. induction k as [|k IH]; intros i d Hi Hk; cbn [zero_loop].
  { by rewrite bool_decide_eq_false_2 by lia. }
  destruct (IH (i + 1) (disk_Write d i (zeros 4096))) as [-> ->]; [lia|rewrite disk_Write_Size; lia|].
  rewrite disk_Write_Size. split; [done|].
  rewrite disk_Read_Write by (rewrite ?BlockSize_eq; done || lia).
  repeat case_bool_decide; done || lia.
Qed.

(** After [zeroDisk] every block of the disk is zero. *)
Lemma zeroDisk_zero disk_Barrier d b : (forall d' a, disk_Read (disk_Barrier d') a = disk_Read d' a) ->
  0 <= b < disk_Size d -> disk_Read (zeroDisk disk_Barrier d) b = zeros 4096.
Proof.
  intros Hbar Hb. unfold zeroDisk. rewrite Hbar. pose proof (disk_Size_u64 d).
  destruct (zero_loop_read (Z.to_nat (disk_Size d)) 0 d b) as [_ ->]; [done|lia|].
  by rewrite bool_decide_eq_true_2 by lia.
Qed.
End zero.
