(* ===== verification/CmdClaims.v ===== *)
(** The iteration of the small-file benchmark ([cmd/smallfile/main.go]) against
    the server: create, look up, write and remove a file. *)
From stdpp Require Import functions.
From S2P Require Import Prelude Nfstypes External Reference Super Fh Cache Dcache Alloctxn AtxnCommit Inode.
From S2P Require Import InodeCodec InodeMap InodeIO Volume InodeClaims InodeShrink Fstxn FstxnInv Dir DirSpec DirVol.
From S2P Require Import Shrinker Sample NfsOps NfsFiles NfsDirs NfsNames NfsCreate NfsRemove Mkfs MkfsSpec SampleDir.
From S2P Require Import Clnt Cmd.
Import Nfs.

(** The call returns, and if its reply says OK then [P] holds of the reply and
    the server after it. *)
Definition replies {A} `{!Common} `{!Journal} `{!AllocPkg} `{!LockPkg} `{!DiskPkg} (m : M NSt A) (status : A -> Z) (s : NSt)
    (P : A -> NSt -> Prop) : Prop :=
  exists r s', m s = Ok (r, s') /\ (status r = NFS3_OK -> P r s').

Section claims.
Context `{!Common} `{!CommonSpec} `{!Util} `{!UtilSpec} `{!Marshal} `{!MarshalSpec} `{!Std}
  `{!Buf} `{!BufSpec} `{!Journal} `{!JournalSpec} `{!AllocPkg} `{!AllocSpec}
  `{!LockPkg} `{!LockSpec} `{!Clock} `{!DiskPkg}.
Variable L : gset Z.
Variable retry : nat.
Implicit Types (E : Z -> list dirEnt) (F : Z -> Inode) (s : NSt).

Section steps.
Variables (E : Z -> list dirEnt) (F0 : Z -> Inode) (a0 : ASt) (fh : Fh) (dirfh : Nfs_fh3) (n : Z) (name : list Z).
Variable h : Nfs_fh3.
Let i := Ino fh.
Hypothesis Hretry : retry <> 0%nat.
Hypothesis Hfh : MakeFh dirfh = Ok fh.
Hypothesis HL : i ∉ L.

(** The regular file [n], with handle [h], is [name] in the directory, and no
    file but these two differs from [F0] on [a0]. *)
Record stage F s : Prop := {
  sg_server : server L E F s;
  sg_dir : ino_ok (disk_of s) i;
  sg_ino : ino_ok (disk_of s) n;
  sg_ready : dir_ready L E i;
  sg_live : live F fh;
  sg_names : names (E i) !! name = Some n;
  sg_kind : i_Kind (F n) = NF3REG;
  sg_handle : handle F n h;
  sg_file : removable E F (disk_of s) i name n;
  sg_super : a_super (disk_of s) = a_super a0;
  sg_others : forall k, k ∉ ({[i; n]} : gset Z) -> F k = F0 k;
  sg_frame : frame F0 {[i; n]} a0 (disk_of s);
}.

Lemma stage_sim F s s' : stage F s -> server L E F s' -> sim (disk_of s) (disk_of s') -> stage F s'.
Proof.
  intros [Hsv Hd Hn Hr Hl Hnm Hk Hh Hrm Hsp Ho Hfr] Hsv' Hs. pose proof (sim_super _ _ Hs) as Hss.
  split; try done.
  - by eapply ino_ok_super.
  - by eapply ino_ok_super.
  - eapply removable_sim; [apply Hsv|exact Hn|exact Hs|exact Hrm].
  - by rewrite Hss.
  - eapply frame_trans; [exact Hsp|exact Hfr| |exact Ho]. apply frame_sim; [apply Hsv|done].
Qed.

Lemma stage_notin F s : stage F s -> n ∉ L.
Proof.
  intros Hsg. by destruct (name_live L E F (disk_of s) i name n (sv_dirs _ _ _ _ (sg_server _ _ Hsg)) (sg_dir _ _ Hsg)
    (sg_names _ _ Hsg) (sg_ready _ _ Hsg)) as (_ & _ & _ & Hn).
Qed.

Lemma stage_file_live F s : stage F s -> live F (mkFh n (i_Gen (F n))).
Proof. intros Hsg. split; simpl; [by rewrite (sg_kind _ _ Hsg)|done]. Qed.

Lemma step_Lookup F s : stage F s -> exists r s', LookupOp retry dirfh name s = Ok (r, s') /\
  (LOOKUP3res_Status r = NFS3_OK -> LOOKUP3resok_Object (LOOKUP3res_Resok r) = h /\ stage F s').
Proof.
  intros Hsg. unfold LookupOp. apply (wp_LOOKUP L E retry F s _ fh (fun r s' => LOOKUP3res_Status r = NFS3_OK -> _));
    [apply Hsg|done|done|apply Hsg|done|apply Hsg|done| |].
  - intros s' _ HN. simpl in HN. fold i in HN. rewrite (sg_names _ _ Hsg) in HN. done.
  - intros j h' st s' _ Hj Hh' _ Hok Hst. simpl in Hj, Hst. fold i in Hj. rewrite (sg_names _ _ Hsg) in Hj. injection Hj as <-.
    destruct (Hok Hst) as [Hsv' Hs]. split; [|by eapply stage_sim].
    pose proof (sg_handle _ _ Hsg) as Hh. unfold handle in Hh. simpl. congruence.
Qed.

Lemma step_Getattr F s : stage F s -> exists r s', GetattrOp h s = Ok (r, s') /\
  (GETATTR3res_Status r = NFS3_OK ->
     Fattr3_Size (GETATTR3resok_Obj_attributes (GETATTR3res_Resok r)) = i_Size (F n) /\ stage F s').
Proof.
  intros Hsg. unfold GetattrOp.
  apply (wp_GETATTR L E F s _ (mkFh n (i_Gen (F n))) (fun r s' => GETATTR3res_Status r = NFS3_OK -> _));
    [apply Hsg|eapply handle_fh; apply Hsg|apply Hsg|by eapply stage_notin|].
  intros r s' _ Hok Hst. destruct (Hok (stage_file_live F s Hsg)) as (Hr & _ & Hs).
  destruct (Hs Hst) as [Hsv' Hsim]. split; [by rewrite Hr|by eapply stage_sim].
Qed.

Lemma step_Write F s data : stage F s -> is_shrinking (F n) = false -> i_Size (F n) = 0 -> 0 < len data <= 4096 ->
  exists r s', WriteOp retry h 0 data FILE_SYNC s = Ok (r, s') /\
  (WRITE3res_Status r = NFS3_OK -> exists F', i_Size (F' n) = len data /\ stage F' s').
Proof.
  intros Hsg Hsh Hsz Hlen. unfold WriteOp. rewrite (w32_small (len data)) by lia.
  pose proof MaxFileSize_eq as Hmax. assert (n <> i) as Hne.
  { intros Heq. pose proof (sg_kind _ _ Hsg) as Hkn. pose proof (sg_names _ _ Hsg) as Hnm. rewrite Heq in Hkn.
    assert (i_Kind (F i) <> NF3DIR) as Hk by (by rewrite Hkn).
    by rewrite (dr_none _ _ _ (sv_dirs _ _ _ _ (sg_server _ _ Hsg)) _ (sg_dir _ _ Hsg) Hk) in Hnm. }
  apply (wp_WRITE L E retry F s (mkWRITE3args h 0 (len data) FILE_SYNC data) (mkFh n (i_Gen (F n)))
    (fun r s' => WRITE3res_Status r = NFS3_OK -> _)); simpl;
    [apply Hsg|done|eapply handle_fh; apply Hsg|apply Hsg|by eapply stage_notin|done|lia|lia|rewrite Hmax; lia|done|done|].
  intros r s' _ _ _ Hrep Hst.
  destruct (removable_WRITE L E F s i name n _ r s' (sg_server _ _ Hsg) (sg_ino _ _ Hsg) (sg_file _ _ Hsg) Hrep Hst)
    as (ip' & Hsv' & Hsp & Hat & Hoth & Hrm); simpl; [lia|lia|lia|rewrite Hmax; lia|left; rewrite Z.mod_0_l; lia|].
  apply same_attrs_eqs in Hat as (Hk & Hg & Hs'). simpl in Hk, Hg, Hs'.
  set (F' := <[n := ip']> F) in *. assert (F' n = ip') as HFn by apply fn_lookup_insert.
  assert (forall k, k <> n -> F' k = F k) as HFk by (intros k Hkn; by apply fn_lookup_insert_ne).
  destruct Hsg as [Hsv Hd Hn Hr Hl Hnm Hkd Hh _ Hsp0 Ho Hfr].
  exists F'. split; [rewrite HFn, Hs', Hsz; lia|]. split; try done.
  - by eapply ino_ok_super.
  - by eapply ino_ok_super.
  - unfold live. fold i. by rewrite HFk.
  - by rewrite HFn, Hk.
  - unfold handle. by rewrite HFn, Hg.
  - congruence.
  - intros k Hk'. rewrite HFk by set_solver. by apply Ho.
  - eapply (frame_trans F0 F); [exact Hsp0|exact Hfr| |exact Ho].
    intros k b Hk' Hni Hb. apply (Hoth k); [done|set_solver|done].
Qed.

(** The file is gone, and the directory and every other file are as at first. *)
Record removed s : Prop := {
  rd_server : exists E' F', server L E' F' s /\ names (E' i) = delete name (names (E i)) /\
    (forall k, k <> i -> E' k = E k) /\ (forall k, k ∉ ({[i; n]} : gset Z) -> F' k = F0 k);
  rd_free : n ∈ alloc_free (a_ialloc (disk_of s));
  rd_frame : frame F0 {[i; n]} a0 (disk_of s);
  rd_stable : stable_obj (a_log (disk_of s)) = log_obj (a_log (disk_of s));
}.

Lemma step_Remove F s : stage F s -> IllegalName name = false ->
  exists r s', RemoveOp retry dirfh name s = Ok (r, s') /\ (REMOVE3res_Status r = NFS3_OK -> removed s').
Proof.
  intros Hsg Hlegal. unfold RemoveOp. pose proof (sg_names _ _ Hsg) as Hnm.
  apply (wp_REMOVE L E retry F s (mkREMOVE3args (mkDiropargs3 dirfh name)) fh
    (fun r s' => REMOVE3res_Status r = NFS3_OK -> _)); simpl; fold i;
    [apply Hsg|done|done|done|apply Hsg|done|apply Hsg| | |].
  - intros j Hj. assert (j = n) as -> by congruence. apply Hsg.
  - intros st s' [[Hd _]|(_ & HN & _)] _ _ _; [by destruct Hd; apply Hsg|congruence].
  - intros j r s' _ Hj [_ Hok] Hst. assert (j = n) as -> by congruence.
    destruct (Hok Hst) as (k & ip' & ipd & _ & _ & _ & Hnames & Hsv' & Hfr & Hfree & _ & Hstb). split; [|done| |done].
    + eexists _, _. split; [exact Hsv'|]. rewrite fn_lookup_insert. split; [exact Hnames|]. split.
      * intros l Hl. by apply fn_lookup_insert_ne.
      * intros l Hl. rewrite !fn_lookup_insert_ne by set_solver. by apply (sg_others _ _ Hsg).
    + eapply (frame_trans F0 F); [apply Hsg|apply Hsg|exact Hfr|apply Hsg].
Qed.
End steps.

(** An inode that is not in use is not locked, not being shrunk and has no blocks. *)
Definition all_fresh F a : Prop := forall n, ino_ok a n -> spare (F n) ->
  (n ∉ L) /\ is_shrinking (F n) = false /\ i_blks (F n) = zeros 10.

Lemma free_ino E F s n : server L E F s -> n ∈ alloc_free (a_ialloc (disk_of s)) ->
  ino_ok (disk_of s) n /\ spare (F n).
Proof.
  intros Hsv Hn. split; [|by apply (sv_free _ _ _ _ Hsv)].
  pose proof (al_free _ _ _ _ _ (qi_ialloc _ (si_quiet _ _ (sv_inv _ _ _ _ Hsv))) n Hn) as Hv.
  unfold valid_inum, ino_ok in *. simpl. lia.
Qed.

Lemma step_Create E F s fh dirfh name : server L E F s -> retry <> 0%nat -> MakeFh dirfh = Ok fh ->
  ino_ok (disk_of s) (Ino fh) -> Ino fh ∉ L -> dir_ready L E (Ino fh) -> live F fh ->
  Z.of_nat (length (E (Ino fh))) < 400000 -> names (E (Ino fh)) !! name = None -> all_fresh F (disk_of s) ->
  exists r s', CreateOp retry dirfh name s = Ok (r, s') /\ (CREATE3res_Status r = NFS3_OK ->
    exists E' F' n h, stage E' F (disk_of s) fh n name h F' s' /\ n ∈ alloc_free (a_ialloc (disk_of s)) /\
      names (E' (Ino fh)) = <[name := n]> (names (E (Ino fh))) /\ (forall k, k <> Ino fh -> E' k = E k) /\
      i_Size (F' n) = 0 /\ is_shrinking (F' n) = false).
Proof.
  intros Hsv Hre Hfh Hi HL Hready Hlive Hlen HN Hfresh. set (i := Ino fh) in *. unfold CreateOp.
  apply (wp_CREATE L E retry F s _ fh (fun r s' => CREATE3res_Status r = NFS3_OK -> _));
    simpl; fold i; [done..|discriminate|done| | |].
  - intros n Hn. destruct (free_ino E F s n Hsv Hn) as [Hin Hsp]. by destruct (Hfresh n Hin Hsp) as (? & ? & _).
  - intros st s' Hst _ _ ->. destruct Hst as [[_ Hst]|[(_ & _ & Hst)|(_ & _ & _ & Hst)]]; discriminate Hst.
  - intros r s' _ _ Hrep Hst. destruct (create_has_new L E F s i name r s') as (E' & F' & n & Hh & _ & h & _ & Hhn);
      [done|done| |done|done|].
    { intros n Hn. destruct (free_ino E F s n Hsv Hn) as [Hin Hsp]. by destruct (Hfresh n Hin Hsp) as (_ & _ & ?). }
    pose proof Hh as [Hsv' Hsp (Hfree & Hne & Hin) Hnm Hle Hes HE Hfx Ho Hfr (Hk & Hsz & Hss & _) Hrm].
    destruct (free_ino E F s n Hsv Hfree) as [_ Hspn]. destruct (Hfresh n Hin Hspn) as (HnL & Hsh & _).
    exists E', F', n, h. split; [split; try done|split_and!; try done].
    + eapply ino_ok_super; [|exact Hi]. congruence.
    + eapply ino_ok_super; [|exact Hin]. congruence.
    + by eapply new_ready.
    + unfold live. fold i. rewrite Hfx. exact Hlive.
    + fold i. rewrite Hnm. apply lookup_insert_eq.
    + unfold is_shrinking in *. destruct Hspn as [_ Hs0]. by rewrite Hsz, Hss, <-Hs0.
Qed.

(** C18: an iteration of the small-file benchmark on a server whose free inodes
    are clean, in a live directory, with a name that is new there and data of at
    most a block: the first LOOKUP gets NOENT, every call returns, and as long as
    the replies say OK (they would not when the disk is full or the journal
    rejects a transaction) GETATTR shows an empty file and then the size of the
    data, SmallFile returns without a panic, and after it the server is
    consistent, the directory has the names it had, every other file and
    directory is as it was, the inode of the file is free again, and all of that
    is on stable storage. *)
Theorem SmallFile_spec E F s fh dirfh name data : let i := Ino fh in
  server L E F s -> retry <> 0%nat -> IllegalName name = false -> MakeFh dirfh = Ok fh ->
  ino_ok (disk_of s) i -> i ∉ L -> dir_ready L E i -> live F fh -> Z.of_nat (length (E i)) < 400000 ->
  names (E i) !! name = None -> all_fresh F (disk_of s) -> 0 < len data <= 4096 ->
  exists none s0, LookupOp retry dirfh name s = Ok (none, s0) /\ LOOKUP3res_Status none = NFS3ERR_NOENT /\
  replies (CreateOp retry dirfh name) CREATE3res_Status s0 (fun _ s1 =>
  replies (LookupOp retry dirfh name) LOOKUP3res_Status s1 (fun found s2 =>
  let file := LOOKUP3resok_Object (LOOKUP3res_Resok found) in
  replies (GetattrOp file) GETATTR3res_Status s2 (fun attr s3 =>
  Fattr3_Size (GETATTR3resok_Obj_attributes (GETATTR3res_Resok attr)) = 0 /\
  replies (WriteOp retry file 0 data FILE_SYNC) WRITE3res_Status s3 (fun _ s4 =>
  replies (GetattrOp file) GETATTR3res_Status s4 (fun attr s5 =>
  Fattr3_Size (GETATTR3resok_Obj_attributes (GETATTR3res_Resok attr)) = len data /\
  replies (RemoveOp retry dirfh name) REMOVE3res_Status s5 (fun _ s6 =>
  SmallFile retry dirfh name data s = Ok (tt, s6) /\
  exists E' F' n, server L E' F' s6 /\ names (E' i) = names (E i) /\ (forall k, k <> i -> E' k = E k) /\
    (forall k, k ∉ ({[i; n]} : gset Z) -> F' k = F k) /\ frame F {[i; n]} (disk_of s) (disk_of s6) /\
    spare (F n) /\ n ∈ alloc_free (a_ialloc (disk_of s6)) /\
    stable_obj (a_log (disk_of s6)) = log_obj (a_log (disk_of s6)))))))).
Proof.
  intros i Hsv Hre Hlegal Hfh Hi HL Hready Hlive Hlen HN Hfresh Hdata.
  destruct (wp_LOOKUP L E retry F s (mkLOOKUP3args (mkDiropargs3 dirfh name)) fh (fun r s' =>
    LOOKUP3res_Status r = NFS3ERR_NOENT /\ server L E F s' /\ sim (disk_of s) (disk_of s')))
    as (none & s0 & R0 & Hst0 & Hsv0 & Hsim0);
    [done..|by intros ? [] | |intros j ? ? ? _ Hj; simpl in Hj; fold i in Hj; congruence|].
  { done. }
  change (LookupOp retry dirfh name s = Ok (none, s0)) in R0.
  assert (a_super (disk_of s0) = a_super (disk_of s)) as Hsp0 by apply Hsim0.
  exists none, s0. split; [exact R0|]. split; [exact Hst0|].
  destruct (step_Create E F s0 fh dirfh name) as (r1 & s1 & R1 & H1'); try done.
  { by eapply ino_ok_super. }
  { intros k Hk. apply Hfresh. by eapply ino_ok_super; [|exact Hk]. }
  exists r1, s1. split; [exact R1|]. intros Hst1.
  destruct (H1' Hst1) as (E1 & F1 & n & h & Hsg1 & Hfree & Hnm & HE & Hsz & Hsh). fold i in Hnm, HE.
  destruct (step_Lookup E1 F (disk_of s0) fh dirfh n name h Hre Hfh HL F1 s1 Hsg1) as (r2 & s2 & R2 & H2').
  exists r2, s2. split; [exact R2|]. intros Hst2. destruct (H2' Hst2) as [Hobj Hsg2]. cbn zeta. rewrite Hobj.
  destruct (step_Getattr E1 F (disk_of s0) fh n name h F1 s2 Hsg2) as (r3 & s3 & R3 & H3').
  exists r3, s3. split; [exact R3|]. intros Hst3. destruct (H3' Hst3) as [Hsz3 Hsg3]. split; [by rewrite Hsz3|].
  destruct (step_Write E1 F (disk_of s0) fh dirfh n name h Hre Hfh HL F1 s3 data Hsg3 Hsh Hsz Hdata) as (r4 & s4 & R4 & H4').
  exists r4, s4. split; [exact R4|]. intros Hst4. destruct (H4' Hst4) as (F4 & Hsz4 & Hsg4).
  destruct (step_Getattr E1 F (disk_of s0) fh n name h F4 s4 Hsg4) as (r5 & s5 & R5 & H5').
  exists r5, s5. split; [exact R5|]. intros Hst5. destruct (H5' Hst5) as [Hsz5 Hsg5]. split; [by rewrite Hsz5|].
  destruct (step_Remove E1 F (disk_of s0) fh dirfh n name h Hre Hfh HL F4 s5 Hsg5 Hlegal) as (r6 & s6 & R6 & H6').
  exists r6, s6. split; [exact R6|]. intros Hst6. destruct (H6' Hst6) as [(E' & F' & Hsv' & Hnm' & HE' & HF') Hfree' Hfr' Hstb'].
  fold i in Hnm', HE', HF', Hfr'. split.
  - unfold SmallFile, mbind, M_bind. rewrite R0, bool_decide_eq_false_2 by (by rewrite Hst0).
    rewrite R1, R2, bool_decide_eq_false_2 by tauto. cbn zeta. rewrite Hobj, R3, bool_decide_eq_false_2 by tauto.
    rewrite R4, R5, bool_decide_eq_false_2 by tauto. rewrite R6, bool_decide_eq_false_2 by tauto. done.
  - exists E', F', n. split_and!; [done| | |done| | |done|done].
    + rewrite Hnm', Hnm, delete_insert_id; done.
    + intros k Hk. by rewrite HE', HE.
    + eapply frame_trans; [exact Hsp0| |exact Hfr'|done]. apply frame_sim; [apply Hsv|done].
    + apply (free_ino E F s0 n Hsv0 Hfree).
Qed.
End claims.

(** ** On the server with an empty root directory *)

Definition x_data : list Z := smallfile_mkdata 100.

(** The status of each call of an iteration. *)
Definition x_calls : M NSt (list Z) :=
  r0 ← LookupOp 1 root_fh (str "x");
  r1 ← CreateOp 1 root_fh (str "x");
  r2 ← LookupOp 1 root_fh (str "x");
  let h := LOOKUP3resok_Object (LOOKUP3res_Resok r2) in
  r3 ← GetattrOp h;
  r4 ← WriteOp 1 h 0 x_data FILE_SYNC;
  r5 ← GetattrOp h;
  r6 ← RemoveOp 1 root_fh (str "x");
  mret [LOOKUP3res_Status r0; CREATE3res_Status r1; LOOKUP3res_Status r2; GETATTR3res_Status r3;
        WRITE3res_Status r4; GETATTR3res_Status r5; REMOVE3res_Status r6].

Definition x_statuses : list Z := match x_calls root_nst with Ok (l, _) => l | _ => [] end.

Lemma x_statuses_ok : x_statuses = [NFS3ERR_NOENT; NFS3_OK; NFS3_OK; NFS3_OK; NFS3_OK; NFS3_OK; NFS3_OK].
Proof. vm_compute. reflexivity. Qed.

Lemma root_fresh : all_fresh ∅ root_vol (disk_of root_nst).
Proof.
  intros n _ [Hk _]. split; [exact (not_elem_of_empty n)|].
  assert (n <> 1) as Hne by (intros ->; rewrite root_vol_1 in Hk; discriminate Hk).
  rewrite root_vol_ne by done. done.
Qed.

Lemma SmallFile_spec_witness : exists s6, SmallFile 1 root_fh (str "x") x_data root_nst = Ok (tt, s6) /\
  exists E' F' n, server ∅ E' F' s6 /\ names (E' 1) = ∅ /\ n ∈ alloc_free (a_ialloc (disk_of s6)).
Proof.
  destruct (SmallFile_spec ∅ 1 (fun _ => []) root_vol root_nst (mkFh 1 1) root_fh (str "x") x_data root_server
    ltac:(discriminate) eq_refl root_fh_ok root_nst_ino (not_elem_of_empty 1) root_dir_ready root_live)
    as (r0 & s0 & R0 & _ & r1 & s1 & R1 & Hc1);
    [simpl; lia|exact (lookup_empty _)|exact root_fresh|by vm_compute|].
  pose proof x_statuses_ok as Hst. unfold x_statuses, x_calls, mbind, M_bind in Hst.
  rewrite R0, R1 in Hst.
  destruct (LookupOp 1 root_fh (str "x") s1) as [[r2 s2]| | |] eqn:R2; try discriminate Hst.
  cbv zeta in Hst. set (h := LOOKUP3resok_Object (LOOKUP3res_Resok r2)) in *.
  destruct (GetattrOp h s2) as [[r3 s3]| | |] eqn:R3; try discriminate Hst.
  destruct (WriteOp 1 h 0 x_data FILE_SYNC s3) as [[r4 s4]| | |] eqn:R4; try discriminate Hst.
  destruct (GetattrOp h s4) as [[r5 s5]| | |] eqn:R5; try discriminate Hst.
  destruct (RemoveOp 1 root_fh (str "x") s5) as [[r6 s6]| | |] eqn:R6; try discriminate Hst.
  unfold mret, M_ret in Hst. injection Hst as _ E1 E2 E3 E4 E5 E6.
  destruct (Hc1 E1) as (r2' & s2' & Q2 & Hc2). rewrite R2 in Q2. injection Q2 as <- <-.
  destruct (Hc2 E2) as (r3' & s3' & Q3 & Hc3). fold h in Q3, Hc3. rewrite R3 in Q3. injection Q3 as <- <-.
  destruct (Hc3 E3) as (_ & r4' & s4' & Q4 & Hc4). rewrite R4 in Q4. injection Q4 as <- <-.
  destruct (Hc4 E4) as (r5' & s5' & Q5 & Hc5). rewrite R5 in Q5. injection Q5 as <- <-.
  destruct (Hc5 E5) as (_ & r6' & s6' & Q6 & Hc6). rewrite R6 in Q6. injection Q6 as <- <-.
  destruct (Hc6 E6) as (Hrun & E' & F' & n & Hsv & Hnm & _ & _ & _ & _ & Hn & _).
  exists s6. split; [exact Hrun|]. exists E', F', n. exact (conj Hsv (conj Hnm Hn)).
Defined.
